(* ===== verification/_CoqProject ===== *)
-Q . S2P
Prelude.v
CLib.v
Support.v
Task.v
FileSys.v
Term.v
TermScreen.v
TermLine.v
TermSys.v
TermPrint.v
Rtc.v
Kb.v
I8259.v
Page.v
Malloc.v
UserAlloc.v
Syscall.v
Fd.v
Exec.v
Process.v
Signals.v
Sched.v
Idt.v
Serial.v
Boot.v
Steady.v
HeapCall.v
Block.v
System.v
Programs.v
Grep.v
UserKernel.v
Game2048.v
