(* ===== verification/Prelude.v ===== *)
(** * Verification of the ECE 391 operating system

    The program is a small 32-bit x86 operating system, [src/student-distrib/]
    (the kernel, C with assembly entry points), and its user programs,
    [src/syscalls/].  The development is a shallow embedding of the C code:
    each C function is a Rocq function over explicit state, a fault or a call
    that does not return is [None], and every definition can be evaluated.

    ** The parts and how they interact

    - [Prelude]: machine integers, loops, arrays, flat memory; the tactics and
      the lemmas the other files share.
    - [CLib] (lib.c): the string, memory and conversion routines.  The class
      [CBuf] states what a routine needs of an object (bounded byte reads and
      writes); flat memory and local arrays are its instances.
    - [Task] (task.h, page.h): the PCB, [FILE] and the address arithmetic of
      kernel stacks.  A PCB is found through the address of the top of its
      stack, as the macros of task.h find it.
    - [FileSys] (file_sys.c): the read-only file system on an image in memory.
    - [Term] (term.c): the three terminals.  Its theorems are in [TermScreen]
      (what is drawn), [TermLine] (line editing against an abstract editor),
      [TermSys] (switching, blocking reads, writes, the key handler) and
      [TermPrint] (printf).
    - [Rtc] (rtc.c): the virtual real-time clocks.  The class [FileStore] states
      what the driver relies on to reach descriptors and signals.
    - [Kb] (kb.c): the scan-code state machine; its keys go to the terminals.
    - [I8259] (i8259.c) and [Page] (page.c): the interrupt controller's masks and
      the paging structures, with the processor's page walk as specification.
    - [Malloc] (syscall_malloc and syscall_free of syscall.c): the user heap.
    - [Syscall] (syscall.c): the state of the whole kernel, [kernel], and the
      system calls on descriptors; [Fd] has their theorems.
    - [Exec] (execute and halt of syscall.c); [Process] has their theorems.
    - [Signals] (signals.c, sigreturn), [Sched] (scheduling.c) and [Idt] (idt.c):
      what happens on the way back to user mode, on a tick of the timer and on
      an exception.
    - [Serial] (serial.c, tuxctl.c): the serial line and the game controller behind
      it; its keys go to the terminals.
    - [Boot] (kernel.c): the start of the machine, which calls the
      initialisations of the parts above in the order of the code.
    - [HeapCall]: malloc and free on the descriptors in the page of the process.
    - [Steady], [Block] and [System]: the whole system.  [System.os_step] is a step
      relation over the functions above: the running process writes its page or
      makes a call or faults, it blocks in a read and goes on later, a key or the
      clock interrupts, signals are looked at, a program is started or ended, the
      timer ticks.  [System.os_ok] is its
      invariant, [System.sched_step] the abstract machine it implements (a stack
      of processes for each terminal, the terminal whose turn it is, the process
      that runs and the ticks left behind), and
      [Steady.steady] what all steps but execute, halt and tick leave alone.
    - [Support] and [UserAlloc] (ece391support.c), [Programs] (cat, ls, grep, hello, counter and
      shell) and [Grep]: the user programs over the class [Machine] of machines
      that make system calls.  [Promises] and [Interactive] state what a program
      relies on; [UserKernel] shows that a process of the kernel keeps
      [Promises], so that the programs' theorems hold on the kernel.
    - [Game2048] (2048.c): the game as a state machine over the keys read.

    The kernel's invariant [Syscall.kernel_ok] is what the theorems on system
    calls, processes, signals, ticks and exceptions assume and give back, so
    that they compose over any sequence of events; [Boot] establishes it, and
    [System.reachable_ok] draws the conclusion for every run from the start.

    A step of [System.os_step] is one visit to the kernel.  All gates are
    interrupt gates, so that nothing interrupts a visit but where the code
    enables interrupts to wait: there a read is cut in two steps
    ([Block.syscall_read_split]), between which anything else may happen, ticks
    and other processes included.  Its guards are what the code relies on and does not check: a program stores to its page
    and to its mapping of video memory ([Page.init_page_correct] shows that the
    kernel's pages are open to it), its stack and the pointers it passes lie in
    its page, a read's buffer holds the 32 bytes [fs_dir_read] always writes, and a tick that has to start a
    shell finds a process number free.

    A tick that starts a shell does not return: [_syscall_execute] leaves for user
    mode, and the pointers it saves for the interrupted process lead back into
    its own frame on that process's stack, inside [pit_isr].  When a later tick
    switches to the process, that old activation goes on behind the call of
    execute, with a next process number it never set, and may switch once more:
    [Sched.go_on], which a tick of [System.os_step] runs to its end
    ([Sched.after_tick]), is this rest of [pit_isr].  The number is whatever the
    stack held, an argument of the model ([Sched.t_next_pid]); a step follows it
    if it is 0, what a stack never used holds, or belongs to a process in front
    of a terminal ([System.leads_ok]), and leaves out the others, which send the
    processor to a stack where nobody waits.  PCB 0 is never written a process
    number; it reads zero ([System.unnumbered]).  [System.fourth_tick_astray]
    shows the detour in a concrete run, and [System.every_terminal_served] that
    it happens at most once for each tick left behind.

    Files are those the image holds:
    [Steady.disk_ok] asks that each directory entry has an index node and that a
    file is a program that fits its page or is refused for its header.
    sigreturn changes the saved context only, which is not part of the state.

    ** Conventions

    A C integer is a [Z] in the range of its type; [u8] to [s32] are the
    conversions and are written wherever the source's arithmetic can leave the
    range.  Memory is one finite map from addresses to bytes, absent bytes being
    zero: the linear addresses of the running task.  [Page.map_page] and
    [Syscall] swap the contents of the user page when the page directory entry
    of the user page changes; all else is mapped at its own address, which
    [Page.init_page_correct] and [Page.task_pages_isolated] justify.  A local
    array is a list, and an access out of its bounds is [None].

    A [while] or [for] loop is [while], [whileM] or [for_upM], run with
    [FUEL] = 2^33 steps.  No loop of the program that ends needs more: a loop
    over 32-bit counters has at most 2^32 turns.  The bound is a binary number,
    so it costs nothing to evaluate.  Theorems say that a function returns; none
    assumes it does, but for the step relation of [System], whose steps are the
    visits to the kernel that return: that ticks do is part of
    [System.every_terminal_served], that the calls do is shown with each call.

    What the C code cannot decide is an argument: what a device reads, the
    uninitialised contents of locals ([env], [junk]), the interrupts served
    while a task waits (a list of state changes, on which the theorems put the
    invariant), what is typed and run ([event]).  Assembly entry points, the boot
    loader's memory, the opcodes of mtcp.h (not in the repository) and the
    instruction tuxctl.c calls da are parameters.

    ** What is shown

    - The whole system: the kernel implements the machine of stacks and turns;
      a process off the processor is not disturbed until it runs again; every
      reachable state is well formed; every terminal is served in turn, but for
      the ticks that go astray ([System]).
    - The start: whatever the tables held, the descriptor tables, the masks, the
      page tables and the kernel's invariant are set up, and the first ticks put
      a shell on each terminal ([Boot]).
    - Files and descriptors: open returns the lowest free descriptor and its
      reads deliver the file's bytes; bad descriptors are refused
      ([Fd], [FileSys]).
    - Processes: execute parses the command, loads the image and enters user mode
      at its entry point; halt restores the parent; refusals change nothing
      ([Process]).  Every terminal's process gets its turn with its own stack
      ([Sched]).  A signal handler runs on the interrupted context and returns
      to it; the default actions; an exception ends its task only
      ([Signals], [Idt]).
    - Memory: pages of tasks are disjoint; malloc returns fresh blocks and keeps
      the others; free gives them back ([Page], [Malloc]).
    - Terminals, keyboard, clock: what is drawn, edited, switched and delivered;
      printf against the meaning of its formats; the virtual clocks tick at the
      rates set.
    - Programs: cat prints the file, ls the directory, grep the matching lines;
      the shell is its transcript; the game's moves are the rules of 2048.
    - The defects met on the way are in lemmas beside the theorems that exclude
      them by a hypothesis: free of the last object ([Malloc]), the rate
      [init_rtc] sets ([Rtc]), the timer's divisor ([Sched]), the byte behind
      grep's buffer and the words grep cannot find ([Grep]), what the serial line
      loses ([Serial]), the tick that goes astray ([System]).

    ** What is not modelled, and why

    - boot.S, idt_asm.S, x86_desc.S, blink.S: assembly.
    - tests.c, ece391syserr.c, ece391sigtest.c, ece391pingpong.c,
      ece391testprint.c: programs that exercise the system calls.
    - syscalls/printf.c: a third-party library.  [Game2048] logs its calls.
    - ece391emulate.c: the system calls on a Linux host, through that host's own.
    - fish.c: draws frames through an assembly routine.
    - Interrupts between the sti at the end of switch_term (inside the keyboard's
      interrupt) or of rtc_set_pi_freq (inside a write to the clock) and the
      return from that visit.
    - Interrupts between the sti of init_rtc and init_kb and the initialisation of
      the terminals, file system and devices that follow: [Boot] serves interrupts
      in the wait of init_tuxctl and after the start.
    - The video modes and the mapping of memory-mapped devices other than the
      text buffer; caches and the TLB (the code flushes it after every change
      of an entry). *)
From stdpp Require Import base tactics list numbers gmap option.
From Stdlib Require Import ZArith Lia.

Open Scope Z_scope.

(** ** Machine integers

    A C object of an integer type is a [Z] in the range of the type.  The
    conversions below are the wrap-around of the 32-bit x86 target: unsigned
    types reduce modulo [2^w], signed types are two's complement. *)

Definition u8 (z : Z) : Z := z mod 256.
Definition u16 (z : Z) : Z := z mod 65536.
Definition u32 (z : Z) : Z := z mod 4294967296.
Definition s8 (z : Z) : Z := (z + 128) mod 256 - 128.
Definition s16 (z : Z) : Z := (z + 32768) mod 65536 - 32768.
Definition s32 (z : Z) : Z := (z + 2147483648) mod 4294967296 - 2147483648.

(** *** Bit fields *)

(** The field of [w] bits at [sh] of a word, and the word with it replaced. *)
Definition bits (sh w n : Z) : Z := Z.shiftr (Z.land n (Z.shiftl (Z.ones w) sh)) sh.
Definition with_bits (sh w v n : Z) : Z :=
  Z.lor (Z.land n (Z.lnot (Z.shiftl (Z.ones w) sh))) (Z.land (Z.shiftl (Z.ones w) sh) (Z.shiftl v sh)).

(** C's truth value of a comparison. *)
Definition c_bool (b : bool) : Z := if b then 1 else 0.

(** ** Loops

    [loop p f s] runs at most [p] steps of [f] from [s]: [inl] asks for another
    step, [inr] leaves the loop.  The bound is binary, so a bound far above
    every loop of the program costs nothing to evaluate. *)
Fixpoint loop {S R : Type} (p : positive) (f : S -> S + R) (s : S) : S + R :=
  match p with
  | xH => f s
  | xO q =>
      match loop q f s with
      | inl s1 => loop q f s1
      | inr r => inr r
      end
  | xI q =>
      match f s with
      | inl s1 =>
          match loop q f s1 with
          | inl s2 => loop q f s2
          | inr r => inr r
          end
      | inr r => inr r
      end
  end.

(** The step bound of every [while]: no loop of the program that ends takes
    more than [2^32] steps, because each walks a 32-bit counter or pointer. *)
Definition FUEL : positive := 8589934592.

(** A [while] loop; [None] is a loop that does not end. *)
Definition while {S R : Type} (f : S -> S + R) (s : S) : option R :=
  match loop FUEL f s with
  | inl _ => None
  | inr r => Some r
  end.

(** A [while] loop whose body can fault. *)
Definition strict {S R : Type} (f : S -> option (S + R)) (s : S) : S + option R :=
  match f s with
  | None => inr None
  | Some (inl s') => inl s'
  | Some (inr r) => inr (Some r)
  end.

Definition whileM {S R : Type} (f : S -> option (S + R)) (s : S) : option R :=
  mjoin (while (strict f) s).

(** [for (i = lo; i < hi; i++) body] *)
Definition for_up {S : Type} (lo hi : Z) (body : Z -> S -> S) (s : S) : S :=
  foldl (fun s i => body i s) s (seqZ lo (hi - lo)).

(** [for (i = hi; i > lo; i--) body], that is i = hi, hi-1, ..., lo+1. *)
Definition for_down {S : Type} (hi lo : Z) (body : Z -> S -> S) (s : S) : S :=
  foldr body s (seqZ (lo + 1) (hi - lo)).

(** The same loops when the body can fault. *)
Fixpoint foldM {S A : Type} (body : A -> S -> option S) (l : list A) (s : S) : option S :=
  match l with
  | [] => Some s
  | i :: l' => body i s ≫= foldM body l'
  end.

Definition for_upM {S : Type} (lo hi : Z) (body : Z -> S -> option S) (s : S) : option S :=
  foldM body (seqZ lo (hi - lo)) s.

Definition for_downM {S : Type} (hi lo : Z) (body : Z -> S -> option S) (s : S) : option S :=
  foldM body (reverse (seqZ (lo + 1) (hi - lo))) s.

(** A [for] loop whose body may leave it early ([inr]: return or break). *)
Fixpoint fold_break {S R A : Type} (body : A -> S -> S + R) (l : list A) (s : S) : S + R :=
  match l with
  | [] => inl s
  | i :: l' =>
      match body i s with
      | inl s' => fold_break body l' s'
      | inr r => inr r
      end
  end.

Definition for_break {S R : Type} (lo hi : Z) (body : Z -> S -> S + R) (s : S) : S + R :=
  fold_break body (seqZ lo (hi - lo)) s.

#[global] Arguments for_up : simpl never.
#[global] Arguments for_down : simpl never.
#[global] Arguments for_upM : simpl never.
#[global] Arguments for_downM : simpl never.
#[global] Arguments for_break : simpl never.
#[global] Arguments while : simpl never.
#[global] Arguments whileM : simpl never.

(** ** Arrays

    A C array is the list of its elements.  An access outside the list is
    undefined behaviour in C: [None]. *)
Definition arr_get {A : Type} (l : list A) (i : Z) : option A :=
  if decide (0 <= i) then l !! Z.to_nat i else None.

Definition arr_set {A : Type} (l : list A) (i : Z) (v : A) : option (list A) :=
  if decide (0 <= i < Z.of_nat (length l)) then Some (<[Z.to_nat i := v]> l) else None.

(** ** Byte memory

    Memory is a finite map from addresses to bytes.  A byte never stored reads
    as 0.  Multi-byte objects are little-endian. *)
Abbreviation mem := (gmap Z Z).

Definition ld8 (m : mem) (a : Z) : Z := default 0 (m !! a).
Definition st8 (m : mem) (a v : Z) : mem := <[a := u8 v]> m.

Definition ld16 (m : mem) (a : Z) : Z := ld8 m a + 256 * ld8 m (u32 (a + 1)).

Definition ld32 (m : mem) (a : Z) : Z :=
  ld8 m a + 256 * ld8 m (u32 (a + 1)) + 65536 * ld8 m (u32 (a + 2))
  + 16777216 * ld8 m (u32 (a + 3)).

Definition st32 (m : mem) (a v : Z) : mem :=
  st8 (st8 (st8 (st8 m a v) (u32 (a + 1)) (v / 256)) (u32 (a + 2)) (v / 65536))
      (u32 (a + 3)) (v / 16777216).

(** Every stored byte is a byte. *)
Definition mem_ok (m : mem) : Prop := forall a, 0 <= ld8 m a < 256.

(** [l] stored at [a], [a+1], ... *)
Fixpoint store_bytes (m : mem) (a : Z) (l : list Z) : mem :=
  match l with
  | [] => m
  | b :: l' => store_bytes (st8 m a b) (u32 (a + 1)) l'
  end.

(** The [n] bytes at [a]. *)
Definition load_bytes (m : mem) (a n : Z) : list Z :=
  map (fun i => ld8 m (u32 (a + i))) (seqZ 0 n).

(** ** Automation *)

(** Linear arithmetic with division and remainder by constants. *)
Ltac zlia := Z.div_mod_to_equations; lia.

(** Unfold the machine-integer conversions and decide. *)
Ltac wrap_lia := unfold u8, u16, u32, s8, s16, s32 in *; zlia.

(** Split every [decide], [match] and conjunction in sight and close what is
    arithmetic or contradictory. *)
Ltac cases :=
  repeat (case_decide || case_match); simplify_eq/=; try lia; try done.

Create HintDb kern.
Create Rewrite HintDb words.

(** ** Lemmas on machine integers *)

Lemma u8_range z : 0 <= u8 z < 256.
Proof. unfold u8. apply Z.mod_pos_bound. lia. Qed.

Lemma u16_range z : 0 <= u16 z < 65536.
Proof. unfold u16. apply Z.mod_pos_bound. lia. Qed.

Lemma u32_range z : 0 <= u32 z < 4294967296.
Proof. unfold u32. apply Z.mod_pos_bound. lia. Qed.

Lemma u8_small z : 0 <= z < 256 -> u8 z = z.
Proof. apply Z.mod_small. Qed.

Lemma u16_small z : 0 <= z < 65536 -> u16 z = z.
Proof. apply Z.mod_small. Qed.

Lemma u32_small z : 0 <= z < 4294967296 -> u32 z = z.
Proof. apply Z.mod_small. Qed.

Lemma s8_small z : -128 <= z < 128 -> s8 z = z.
Proof. intros. wrap_lia. Qed.

Lemma s16_small z : -32768 <= z < 32768 -> s16 z = z.
Proof. unfold s16. intros. zlia. Qed.
Lemma s32_small z : -2147483648 <= z < 2147483648 -> s32 z = z.
Proof. intros. wrap_lia. Qed.

Lemma s8_range z : -128 <= s8 z < 128.
Proof. wrap_lia. Qed.

Lemma s32_range z : -2147483648 <= s32 z < 2147483648.
Proof. wrap_lia. Qed.

Lemma u32_add_l a b : u32 (u32 a + b) = u32 (a + b).
Proof. unfold u32. apply Zplus_mod_idemp_l. Qed.

Lemma u32_idem a : u32 (u32 a) = u32 a.
Proof. unfold u32. apply Z.mod_mod. lia. Qed.

Lemma s8_u8_inj a b : 0 <= a < 256 -> 0 <= b < 256 -> s8 a = s8 b -> a = b.
Proof. intros. wrap_lia. Qed.

(** Placing [y] below a shifted [x] is addition. *)
Lemma lor_shiftl_add x y k : 0 <= k -> 0 <= y < 2 ^ k -> Z.lor (Z.shiftl x k) y = x * 2 ^ k + y.
Proof.
  intros Hk Hy. rewrite <- Z.lxor_lor, <- Z.add_nocarry_lxor, Z.shiftl_mul_pow2; [done|lia|..].
  all: apply Z.bits_inj'; intros i Hi; rewrite Z.land_spec, Z.bits_0, Z.shiftl_spec by lia;
    destruct (decide (i < k)).
  all: try (rewrite (Z.testbit_neg_r x) by lia; done).
  all: rewrite <- (Z.mod_small y (2 ^ k)), Z.mod_pow2_bits_high, andb_false_r by lia; done.
Qed.

(** A number below [2^k] is one whose bits from [k] on are clear. *)
Lemma testbit_above a k i : 0 <= a < 2 ^ k -> k <= i -> Z.testbit a i = false.
Proof.
  intros Ha Hi. destruct (decide (k < 0)); [rewrite Z.pow_neg_r in Ha by done; lia|].
  rewrite <- (Z.mod_small a (2 ^ k)) by done. apply Z.mod_pow2_bits_high. lia.
Qed.

Lemma below_pow2 a k : 0 <= k -> (forall i, k <= i -> Z.testbit a i = false) -> 0 <= a < 2 ^ k.
Proof.
  intros Hk H. replace a with (a mod 2 ^ k); [apply Z.mod_pos_bound; lia|].
  apply Z.bits_inj'. intros i Hi. destruct (decide (i < k)).
  - by rewrite Z.mod_pow2_bits_low by lia.
  - rewrite Z.mod_pow2_bits_high, H by lia. done.
Qed.

Lemma lor_below a b k : 0 <= k -> 0 <= a < 2 ^ k -> 0 <= b < 2 ^ k -> 0 <= Z.lor a b < 2 ^ k.
Proof.
  intros Hk Ha Hb. apply below_pow2; [done|]. intros i Hi.
  by rewrite Z.lor_spec, (testbit_above a k), (testbit_above b k).
Qed.

Lemma land_below a b k : 0 <= k -> 0 <= b < 2 ^ k -> 0 <= Z.land a b < 2 ^ k.
Proof.
  intros Hk Hb. apply below_pow2; [done|]. intros i Hi.
  rewrite Z.land_spec, (testbit_above b k) by done. apply andb_false_r.
Qed.

(** ** Lemmas on bit fields *)

Lemma bits_testbit sh w inode i :
  0 <= sh -> 0 <= w -> 0 <= i -> Z.testbit (bits sh w inode) i = (i <? w) && Z.testbit inode (i + sh).
Proof.
  intros Hs Hw Hi. unfold bits. rewrite Z.shiftr_spec, Z.land_spec, Z.shiftl_spec by lia.
  replace (i + sh - sh) with i by lia. rewrite andb_comm. f_equal.
  destruct (Z.ltb_spec i w); [by rewrite Z.ones_spec_low by lia|by rewrite Z.ones_spec_high by lia].
Qed.

Lemma bits_range sh w inode : 0 <= sh -> 0 <= w -> 0 <= bits sh w inode < 2 ^ w.
Proof.
  intros Hs Hw. apply below_pow2; [done|]. intros i Hi. rewrite bits_testbit by lia.
  by rewrite (proj2 (Z.ltb_ge i w)) by lia.
Qed.

Lemma with_bits_testbit dst sh w v i :
  0 <= sh -> 0 <= w -> 0 <= i -> Z.testbit (with_bits sh w v dst) i
  = if decide (sh <= i < sh + w) then Z.testbit v (i - sh) else Z.testbit dst i.
Proof.
  intros Hs Hw Hi. unfold with_bits. rewrite Z.lor_spec, !Z.land_spec, Z.lnot_spec by lia.
  rewrite !Z.shiftl_spec by lia. case_decide.
  - rewrite Z.ones_spec_low by lia. simpl. by rewrite andb_false_r.
  - destruct (decide (i < sh)).
    + rewrite !(Z.testbit_neg_r _ (i - sh)) by lia. simpl. by rewrite andb_true_r, orb_false_r.
    + rewrite Z.ones_spec_high by lia. simpl. by rewrite andb_true_r, orb_false_r.
Qed.

(** Writing a field and reading it, or a disjoint one, back. *)
Lemma bits_set_same dst sh w v :
  0 <= sh -> 0 <= v < 2 ^ w -> 0 <= w -> bits sh w (with_bits sh w v dst) = v.
Proof.
  intros Hs Hv Hw. apply Z.bits_inj'. intros i Hi. rewrite bits_testbit, with_bits_testbit by lia.
  destruct (Z.ltb_spec i w).
  - rewrite decide_True by lia. simpl. f_equal. lia.
  - simpl. by rewrite (testbit_above v w).
Qed.

Lemma bits_set_other dst sh w v sh' w' :
  0 <= sh -> 0 <= w -> 0 <= sh' -> 0 <= w' -> (sh' + w' <= sh \/ sh + w <= sh') ->
  bits sh' w' (with_bits sh w v dst) = bits sh' w' dst.
Proof.
  intros Hs Hw Hs' Hw' Hd. apply Z.bits_inj'. intros i Hi. rewrite !bits_testbit by lia.
  destruct (Z.ltb_spec i w'); [|done]. rewrite with_bits_testbit by lia. by rewrite decide_False by lia.
Qed.

Lemma bits_zero sh w : bits sh w 0 = 0.
Proof. unfold bits. by rewrite Z.land_0_l, Z.shiftr_0_l. Qed.

(** ** Lemmas on faulting code *)

(** The step past an operation that did not fault.  Rewriting with it keeps
    the loops of the continuation folded. *)
Lemma bind_ret {A B} (x : A) (f : A -> option B) : Some x ≫= f = f x.
Proof. done. Qed.

(** ** Lemmas on loops *)

Fixpoint loop_nat {S R : Type} (n : nat) (f : S -> S + R) (s : S) : S + R :=
  match n with
  | O => inl s
  | Datatypes.S n' =>
      match f s with
      | inl s' => loop_nat n' f s'
      | inr r => inr r
      end
  end.

Lemma loop_nat_add {S R} n m (f : S -> S + R) s :
  loop_nat (n + m) f s =
  match loop_nat n f s with inl s' => loop_nat m f s' | inr r => inr r end.
Proof.
  revert s. induction n as [|n IH]; intros s; simpl; [done|].
  destruct (f s); [apply IH|done].
Qed.

(** The binary bound counts steps as the unary one does. *)
Lemma loop_loop_nat {S R} p (f : S -> S + R) s : loop p f s = loop_nat (Pos.to_nat p) f s.
Proof.
  revert s. induction p as [q IH|q IH|]; intros s; simpl loop.
  - rewrite Pos2Nat.inj_xI. simpl. destruct (f s) as [s1|]; [|done].
    rewrite Nat.add_0_r, loop_nat_add, <- IH.
    destruct (loop q f s1); [apply IH|done].
  - rewrite Pos2Nat.inj_xO. simpl. rewrite Nat.add_0_r, loop_nat_add, <- IH.
    destruct (loop q f s); [apply IH|done].
  - change (Pos.to_nat 1) with 1%nat. simpl. by destruct (f s).
Qed.

(** Total correctness of a bounded loop: an invariant and a measure that
    decreases at every step that does not leave the loop. *)
Lemma loop_nat_total {S R} (I : S -> Prop) (mu : S -> Z) (Q : R -> Prop) (f : S -> S + R) :
  (forall s, I s ->
     match f s with
     | inl s' => I s' /\ 0 <= mu s' < mu s
     | inr r => Q r
     end) ->
  forall n s, I s -> 0 <= mu s < Z.of_nat n -> exists r, loop_nat n f s = inr r /\ Q r.
Proof.
  intros Hstep n. induction n as [|n IH]; intros s HI Hmu; [lia|]. simpl.
  specialize (Hstep s HI). destruct (f s) as [s'|r]; [|eauto].
  apply IH; [apply Hstep|lia].
Qed.

Lemma while_total {S R} (I : S -> Prop) (mu : S -> Z) (Q : R -> Prop) (f : S -> S + R) s :
  (forall s, I s ->
     match f s with
     | inl s' => I s' /\ 0 <= mu s' < mu s
     | inr r => Q r
     end) ->
  I s -> 0 <= mu s < Z.pos FUEL -> exists r, while f s = Some r /\ Q r.
Proof.
  intros Hstep HI Hmu. unfold while. rewrite loop_loop_nat.
  destruct (loop_nat_total I mu Q f Hstep (Pos.to_nat FUEL) s HI) as (r & -> & HQ).
  { rewrite positive_nat_Z. lia. }
  eauto.
Qed.

(** A loop that leaves, or faults, at its first step. *)
Lemma loop_first {S R} p (f : S -> S + R) s r : f s = inr r -> loop p f s = inr r.
Proof. intros E. induction p as [p IH|p IH|]; simpl; rewrite ?E, ?IH; done. Qed.

Lemma whileM_fault {S R} (f : S -> option (S + R)) s : f s = None -> whileM f s = None.
Proof. intros E. unfold whileM, while. rewrite (loop_first _ _ _ None); [done|]. unfold strict. by rewrite E. Qed.

Lemma whileM_total {S R} (I : S -> Prop) (mu : S -> Z) (Q : R -> Prop) (f : S -> option (S + R)) s :
  (forall s, I s ->
     match f s with
     | Some (inl s') => I s' /\ 0 <= mu s' < mu s
     | Some (inr r) => Q r
     | None => False
     end) ->
  I s -> 0 <= mu s < Z.pos FUEL -> exists r, whileM f s = Some r /\ Q r.
Proof.
  intros Hstep HI Hmu. unfold whileM.
  destruct (while_total I mu (fun o => exists r, o = Some r /\ Q r) (strict f) s)
    as (o & -> & r & -> & HQ).
  - intros s' HI'. specialize (Hstep s' HI'). unfold strict.
    destruct (f s') as [[]|]; [done|eauto|done].
  - done.
  - done.
  - simpl. eauto.
Qed.

(** The result of a [while] is determined, so a total specification gives the
    value of every run. *)
Lemma while_partial {S R} (I : S -> Prop) (Q : R -> Prop) (f : S -> S + R) s r :
  (forall s, I s -> match f s with inl s' => I s' | inr r => Q r end) ->
  I s -> while f s = Some r -> Q r.
Proof.
  intros Hstep HI. unfold while. rewrite loop_loop_nat.
  generalize (Pos.to_nat FUEL) as n. intros n. revert s HI.
  induction n as [|n IH]; intros s HI; simpl; [done|].
  specialize (Hstep s HI). destruct (f s) as [s'|r'].
  - by apply IH.
  - by intros [= <-].
Qed.

Lemma whileM_partial {S R} (I : S -> Prop) (Q : R -> Prop) (f : S -> option (S + R)) s r :
  (forall s, I s -> match f s with Some (inl s') => I s' | Some (inr r) => Q r | None => True end) ->
  I s -> whileM f s = Some r -> Q r.
Proof.
  intros Hstep HI. unfold whileM. destruct (while (strict f) s) as [o|] eqn:E; simpl; [|done].
  intros ->. apply (while_partial I (fun o => forall r, o = Some r -> Q r) (strict f) s (Some r)); [|done..].
  intros s' HI'. specialize (Hstep s' HI'). unfold strict.
  destruct (f s') as [[]|]; [done|by intros ? [= <-]|done].
Qed.

Lemma foldM_cons {S A} (body : A -> S -> option S) i l s :
  foldM body (i :: l) s = body i s ≫= foldM body l.
Proof. done. Qed.

Lemma foldM_app {S A} (body : A -> S -> option S) l1 l2 s :
  foldM body (l1 ++ l2) s = foldM body l1 s ≫= foldM body l2.
Proof.
  revert s. induction l1 as [|i l1 IH]; intros s; simpl; [done|].
  destruct (body i s); simpl; [apply IH|done].
Qed.

(** An invariant of a loop that ran to its end. *)
Lemma foldM_inv {S A} (P : S -> Prop) (body : A -> S -> option S) l s s' :
  (forall i s s', P s -> body i s = Some s' -> P s') ->
  P s -> foldM body l s = Some s' -> P s'.
Proof.
  intros Hstep. revert s. induction l as [|i l IH]; intros s HP; simpl; [by intros [= <-]|].
  destruct (body i s) as [s1|] eqn:E; simpl; [|done]. apply IH. by eapply Hstep.
Qed.

Lemma for_up_ind {S} (P : Z -> S -> Prop) lo hi body (s : S) :
  lo <= hi -> P lo s ->
  (forall i s, lo <= i < hi -> P i s -> P (i + 1) (body i s)) ->
  P hi (for_up lo hi body s).
Proof.
  unfold for_up. remember (Z.to_nat (hi - lo)) as n eqn:Hn. revert lo s Hn.
  induction n as [|n IH]; intros lo s Hn Hle H0 Hstep.
  - rewrite seqZ_nil by lia. simpl. by replace hi with lo by lia.
  - rewrite seqZ_cons by lia. simpl.
    replace (Z.pred (hi - lo)) with (hi - Z.succ lo) by lia.
    apply IH; [lia|lia| |].
    + rewrite <- Z.add_1_r. apply Hstep; [lia|done].
    + intros i s' Hi. apply Hstep. lia.
Qed.

(** An invariant that does not mention the counter. *)
Lemma for_up_inv {S} (P : S -> Prop) lo hi body (s : S) :
  P s -> (forall i s, lo <= i < hi -> P s -> P (body i s)) -> P (for_up lo hi body s).
Proof.
  intros H0 Hstep. destruct (decide (lo <= hi)).
  - by apply (for_up_ind (fun _ => P)).
  - unfold for_up. by rewrite seqZ_nil by lia.
Qed.

Lemma for_down_ind {S} (P : Z -> S -> Prop) hi lo body (s : S) :
  lo <= hi -> P hi s ->
  (forall i s, lo < i <= hi -> P i s -> P (i - 1) (body i s)) ->
  P lo (for_down hi lo body s).
Proof.
  unfold for_down. remember (Z.to_nat (hi - lo)) as n eqn:Hn. revert lo Hn.
  induction n as [|n IH]; intros lo Hn Hle H0 Hstep.
  - rewrite seqZ_nil by lia. simpl. by replace lo with hi by lia.
  - rewrite seqZ_cons by lia. simpl.
    replace lo with ((lo + 1) - 1) at 1 by lia. apply Hstep; [lia|].
    replace (Z.pred (hi - lo)) with (hi - (lo + 1)) by lia.
    rewrite <- Z.add_1_r. apply IH; [lia|lia|done|].
    intros i s' Hi. apply Hstep. lia.
Qed.

Lemma for_down_inv {S} (P : S -> Prop) hi lo body (s : S) :
  P s -> (forall i s, lo < i <= hi -> P s -> P (body i s)) -> P (for_down hi lo body s).
Proof.
  intros H0 Hstep. destruct (decide (lo <= hi)).
  - by apply (for_down_ind (fun _ => P)).
  - unfold for_down. by rewrite seqZ_nil by lia.
Qed.

Lemma for_upM_ind {S} (P : Z -> S -> Prop) lo hi body (s : S) :
  lo <= hi -> P lo s ->
  (forall i s, lo <= i < hi -> P i s -> exists s', body i s = Some s' /\ P (i + 1) s') ->
  exists s', for_upM lo hi body s = Some s' /\ P hi s'.
Proof.
  unfold for_upM. remember (Z.to_nat (hi - lo)) as n eqn:Hn. revert lo s Hn.
  induction n as [|n IH]; intros lo s Hn Hle H0 Hstep.
  - rewrite seqZ_nil by lia. simpl. replace hi with lo by lia. eauto.
  - rewrite seqZ_cons by lia. simpl.
    destruct (Hstep lo s) as (s1 & -> & H1); [lia|done|]. simpl.
    replace (Z.pred (hi - lo)) with (hi - Z.succ lo) by lia.
    apply IH; [lia|lia|by rewrite <- Z.add_1_r|].
    intros i s' Hi. apply Hstep. lia.
Qed.

Lemma seqZ_snoc m n : 0 < n -> seqZ m n = seqZ m (n - 1) ++ [m + (n - 1)].
Proof.
  intros Hn. replace n with ((n - 1) + 1) at 1 by lia. rewrite seqZ_app by lia. f_equal.
Qed.

Lemma for_downM_ind {S} (P : Z -> S -> Prop) hi lo body (s : S) :
  lo <= hi -> P hi s ->
  (forall i s, lo < i <= hi -> P i s -> exists s', body i s = Some s' /\ P (i - 1) s') ->
  exists s', for_downM hi lo body s = Some s' /\ P lo s'.
Proof.
  unfold for_downM. remember (Z.to_nat (hi - lo)) as n eqn:Hn. revert hi s Hn.
  induction n as [|n IH]; intros hi s Hn Hle H0 Hstep.
  - rewrite seqZ_nil by lia. simpl. replace lo with hi by lia. eauto.
  - rewrite seqZ_snoc by lia. rewrite reverse_snoc. simpl.
    replace (lo + 1 + (hi - lo - 1)) with hi by lia.
    destruct (Hstep hi s) as (s1 & -> & H1); [lia|done|]. simpl.
    replace (hi - lo - 1) with ((hi - 1) - lo) by lia.
    apply IH; [lia|lia|done|]. intros i s' Hi. apply Hstep. lia.
Qed.

(** A loop with early exit: the body keeps [P] until it leaves with [Q]. *)
Lemma for_break_ind {S R} (P : Z -> S -> Prop) (Q : R -> Prop) lo hi body (s : S) :
  lo <= hi -> P lo s ->
  (forall i s, lo <= i < hi -> P i s ->
     match body i s with inl s' => P (i + 1) s' | inr r => Q r end) ->
  match for_break lo hi body s with inl s' => P hi s' | inr r => Q r end.
Proof.
  unfold for_break. remember (Z.to_nat (hi - lo)) as n eqn:Hn. revert lo s Hn.
  induction n as [|n IH]; intros lo s Hn Hle H0 Hstep.
  - rewrite seqZ_nil by lia. simpl. by replace hi with lo by lia.
  - rewrite seqZ_cons by lia. simpl.
    pose proof (Hstep lo s ltac:(lia) H0) as H1.
    destruct (body lo s) as [s1|r]; [|done].
    replace (Z.pred (hi - lo)) with (hi - Z.succ lo) by lia.
    apply IH; [lia|lia|by rewrite <- Z.add_1_r|].
    intros i s' Hi. apply Hstep. lia.
Qed.

(** A loop that leaves at the first element satisfying [P]. *)
Lemma fold_break_find {R A} (P : A -> Prop) `{forall x, Decision (P x)} (r : A -> R) body l :
  (forall x, x ∈ l -> body x tt = if decide (P x) then inr (r x) else inl tt) ->
  fold_break body l tt = match head (filter P l) with Some i => inr (r i) | None => inl tt end.
Proof.
  induction l as [|x l IH]; intros Hb; simpl; [done|].
  rewrite Hb by set_solver. rewrite filter_cons. case_decide; [done|].
  apply IH. intros y Hy. apply Hb. set_solver.
Qed.

(** A loop that goes through [l1] with no effect. *)
Lemma fold_break_skip {S R A} (body : A -> S -> S + R) l1 l2 s :
  (forall x, x ∈ l1 -> body x s = inl s) -> fold_break body (l1 ++ l2) s = fold_break body l2 s.
Proof.
  induction l1 as [|x l1 IH]; intros H; simpl; [done|]. rewrite H by set_solver. apply IH. intros y Hy. apply H. set_solver.
Qed.

(** ** Lemmas on arrays *)

Lemma arr_get_Some {A} (l : list A) i :
  0 <= i < Z.of_nat (length l) -> exists x, arr_get l i = Some x /\ l !! Z.to_nat i = Some x.
Proof.
  intros Hi. unfold arr_get. rewrite decide_True by lia.
  destruct (lookup_lt_is_Some_2 l (Z.to_nat i)) as [x Hx]; [lia|]. eauto.
Qed.

Lemma arr_get_lookup {A} (l : list A) i :
  0 <= i -> arr_get l i = l !! Z.to_nat i.
Proof. intros. unfold arr_get. by rewrite decide_True by lia. Qed.

Lemma arr_set_Some {A} (l : list A) i v :
  0 <= i < Z.of_nat (length l) -> arr_set l i v = Some (<[Z.to_nat i := v]> l).
Proof. intros. unfold arr_set. by rewrite decide_True by lia. Qed.

(** Out of range the access is undefined. *)
Lemma arr_set_None {A} (l : list A) i v :
  i < 0 \/ Z.of_nat (length l) <= i -> arr_set l i v = None.
Proof. intros. unfold arr_set. by rewrite decide_False by lia. Qed.

Lemma take_insert_snoc {A} (l : list A) n v :
  (n < length l)%nat -> take (n + 1) (<[n := v]> l) = take n l ++ [v].
Proof.
  intros H. rewrite Nat.add_1_r, (take_S_r _ _ v).
  - f_equal. apply take_insert_ge. lia.
  - by apply list_lookup_insert_eq.
Qed.

(** ** Lemmas on memory *)

Lemma ld8_st8_eq m a v : ld8 (st8 m a v) a = u8 v.
Proof. unfold ld8, st8. by rewrite lookup_insert_eq. Qed.

Lemma ld8_st8_ne m a b v : a <> b -> ld8 (st8 m a v) b = ld8 m b.
Proof. intros. unfold ld8, st8. by rewrite lookup_insert_ne. Qed.

Lemma ld8_st8 m a b v : ld8 (st8 m a v) b = if decide (a = b) then u8 v else ld8 m b.
Proof. case_decide; [subst; apply ld8_st8_eq|by apply ld8_st8_ne]. Qed.

Lemma mem_ok_st8 m a v : mem_ok m -> mem_ok (st8 m a v).
Proof.
  intros H b. rewrite ld8_st8. case_decide; [apply u8_range|apply H].
Qed.

Lemma mem_ok_empty : mem_ok ∅.
Proof. intros a. unfold ld8. rewrite lookup_empty. simpl. lia. Qed.

#[export] Hint Resolve u8_range u16_range u32_range mem_ok_st8 mem_ok_empty : kern.
#[export] Hint Rewrite ld8_st8_eq u8_small u16_small u32_small s8_small s16_small s32_small using lia : words.

(** What a run of stores leaves in memory. *)
Lemma ld8_store_bytes m a l x :
  0 <= a -> a + Z.of_nat (length l) <= 4294967296 ->
  ld8 (store_bytes m a l) x =
  if decide (a <= x < a + Z.of_nat (length l))
  then u8 (default 0 (l !! Z.to_nat (x - a)))
  else ld8 m x.
Proof.
  revert m a. induction l as [|b l IH]; intros m a Ha Hl; simpl length in *.
  - simpl. by rewrite decide_False by lia.
  - simpl store_bytes. destruct l as [|c l'].
    + simpl. rewrite ld8_st8. destruct (decide (a = x)) as [->|Hne].
      * rewrite decide_True by lia. by replace (x - x) with 0 by lia.
      * by rewrite decide_False by lia.
    + rewrite (u32_small (a + 1)) by (simpl length in *; lia).
      rewrite IH by (simpl length in *; lia).
      rewrite ld8_st8. simpl length in *.
      destruct (decide (a + 1 <= x < a + 1 + _)).
      * rewrite decide_True by lia.
        replace (Z.to_nat (x - a)) with (Datatypes.S (Z.to_nat (x - (a + 1)))) by lia. done.
      * destruct (decide (a = x)) as [->|Hne].
        -- rewrite decide_True by lia. by replace (x - x) with 0 by lia.
        -- by rewrite decide_False by lia.
Qed.

Lemma mem_ok_store_bytes m a l : mem_ok m -> mem_ok (store_bytes m a l).
Proof. revert m a. induction l; simpl; eauto with kern. Qed.

Lemma length_load_bytes m a n : 0 <= n -> Z.of_nat (length (load_bytes m a n)) = n.
Proof. intros. unfold load_bytes. rewrite length_map, length_seqZ. lia. Qed.

Lemma lookup_load_bytes m a n i :
  0 <= i < n -> load_bytes m a n !! Z.to_nat i = Some (ld8 m (u32 (a + i))).
Proof.
  intros Hi. unfold load_bytes. change (map ?f ?l) with (f <$> l).
  rewrite list_lookup_fmap, lookup_seqZ_lt by lia. simpl. do 3 f_equal. lia.
Qed.

Lemma load_bytes_ext m m' a n :
  (forall i, 0 <= i < n -> ld8 m (u32 (a + i)) = ld8 m' (u32 (a + i))) ->
  load_bytes m a n = load_bytes m' a n.
Proof.
  intros H. unfold load_bytes. apply map_ext_in. intros i Hi.
  apply list_elem_of_In, elem_of_seqZ in Hi. apply H. lia.
Qed.

Lemma store_bytes_app m a l1 l2 :
  0 <= a -> a + Z.of_nat (length l1) < 4294967296 ->
  store_bytes m a (l1 ++ l2) = store_bytes (store_bytes m a l1) (a + Z.of_nat (length l1)) l2.
Proof.
  revert m a. induction l1 as [|b l1 IH]; intros m a Ha Hl; simpl in *.
  - by rewrite Z.add_0_r.
  - rewrite (u32_small (a + 1)) by lia. rewrite IH by lia. f_equal. lia.
Qed.

(** A 32-bit store reads back. *)
Lemma ld32_st32 m a v :
  0 <= a < 4294967293 -> 0 <= v < 4294967296 -> ld32 (st32 m a v) a = v.
Proof.
  intros Ha Hv. unfold ld32, st32. rewrite !(u32_small (a + _)) by lia.
  repeat first [rewrite ld8_st8_eq | rewrite ld8_st8_ne by lia]. unfold u8. zlia.
Qed.

Lemma ld32_range m a : mem_ok m -> 0 <= ld32 m a < 4294967296.
Proof.
  intros H. unfold ld32. pose proof (H a). pose proof (H (u32 (a + 1))).
  pose proof (H (u32 (a + 2))). pose proof (H (u32 (a + 3))). lia.
Qed.
