(* ===== verification/CLib.v ===== *)
(** * The C library of the kernel: student-distrib/lib.c

    A pointer is an object and an offset.  The class [CBuf] says what an object
    promises to the string routines (bounded byte reads and writes), so each
    routine is defined and proved once for both kinds of object the kernel
    passes: flat memory, where the offset is the address, and a local array.
    The routines written in assembly (memset, memcpy, memmove) work on flat
    memory and are modelled register by register. *)
From stdpp Require Import base tactics list numbers gmap option.
From Stdlib Require Import ZArith Lia.
From S2P Require Import Prelude.

Open Scope Z_scope.

(** ** Byte objects *)

Class CBuf (B : Type) := {
  bcap : B -> Z;                      (* bytes that may be accessed *)
  bget : B -> Z -> option Z;          (* b[i]; None out of range *)
  bput : B -> Z -> Z -> option B      (* b[i] = v; None out of range *)
}.

Class CBufLaws (B : Type) `{CBuf B} := {
  bget_in : forall b i, 0 <= i < bcap b -> is_Some (bget b i);
  bget_out : forall b i, ~ (0 <= i < bcap b) -> bget b i = None;
  bput_in : forall b i v, 0 <= i < bcap b -> exists b', bput b i v = Some b';
  bput_out : forall b i v, ~ (0 <= i < bcap b) -> bput b i v = None;
  bput_cap : forall b i v b', bput b i v = Some b' -> bcap b' = bcap b;
  bput_get : forall b i v b' j, bput b i v = Some b' ->
    bget b' j = if decide (i = j) then Some (u8 v) else bget b j
}.

(** Flat 32-bit memory: the offset is the address. *)
#[export] Instance mem_buf : CBuf mem := {
  bcap _ := 4294967296;
  bget m a := if decide (0 <= a < 4294967296) then Some (ld8 m a) else None;
  bput m a v := if decide (0 <= a < 4294967296) then Some (st8 m a v) else None
}.

(** A local array of chars. *)
#[export] Instance arr_buf : CBuf (list Z) := {
  bcap l := Z.of_nat (length l);
  bget l i := arr_get l i;
  bput l i v := arr_set l i (u8 v)
}.

#[export] Instance mem_buf_laws : CBufLaws mem.
Proof.
  split; simpl; intros.
  - rewrite decide_True by lia. eauto.
  - by rewrite decide_False.
  - rewrite decide_True by lia. eauto.
  - by rewrite decide_False.
  - done.
  - case_decide; [|done]. simplify_eq. rewrite ld8_st8.
    destruct (decide (i = j)) as [->|]; [by rewrite decide_True|by case_decide].
Qed.

#[export] Instance arr_buf_laws : CBufLaws (list Z).
Proof.
  split; simpl; intros *.
  - intros Hi. destruct (arr_get_Some b i Hi) as (x & -> & _). eauto.
  - intros Hi. unfold arr_get. case_decide; [|done]. apply lookup_ge_None_2. lia.
  - intros Hi. rewrite arr_set_Some by done. eauto.
  - intros Hi. unfold arr_set. by rewrite decide_False.
  - unfold arr_set. case_decide; [|done]. intros [= <-]. by rewrite length_insert.
  - unfold arr_set, arr_get. case_decide; [|done]. intros [= <-].
    destruct (decide (i = j)) as [->|Hne].
    + rewrite decide_True by lia. apply list_lookup_insert_eq. lia.
    + case_decide; [|done]. apply list_lookup_insert_ne. lia.
Qed.

(** A source operand read while [B] is being written: either the same object
    (the bytes may change under the copy) or another one. *)
Definition here `{CBuf B} (s : Z) : B -> Z -> option Z := fun b i => bget b (s + i).
Definition other {B : Type} `{CBuf C} (c : C) (s : Z) : B -> Z -> option Z :=
  fun _ i => bget c (s + i).

(** ** Character classes *)

Definition isalpha (ch : Z) : bool :=
  bool_decide (97 <= ch <= 122) || bool_decide (65 <= ch <= 90).

Definition isnum (ch : Z) : bool := bool_decide (48 <= ch <= 57).

Definition isalnum (ch : Z) : bool := isalpha ch || isnum ch.

(** ** Strings *)
Section Strings.
Context {B : Type} `{CBuf B}.

(** [strlen(s)]: [len] is a [uint32_t]. *)
Definition strlen (b : B) (s : Z) : option Z :=
  whileM (fun len =>
    c ← bget b (s + len);
    Some (if decide (c = 0) then inr len else inl (u32 (len + 1)))) 0.

(** [strrev(s)]: swap from both ends towards the middle. *)
Definition strrev (b : B) (s : Z) : option B :=
  len ← strlen b s;
  whileM (fun '(b, beg, en) =>
    if decide (beg < en) then
      tmp ← bget b (s + en);
      cb ← bget b (s + beg);
      b1 ← bput b (s + en) cb;
      b2 ← bput b1 (s + beg) tmp;
      Some (inl (b2, beg + 1, en - 1))
    else Some (inr b)) (b, 0, s32 (len - 1)).

(** The digits "0123456789ABCDEFGHIJKLMNOPQRSTUVWXYZ" and their final NUL. *)
Definition itoa_lookup : list Z :=
  map (fun i => 48 + i) (seqZ 0 10) ++ map (fun i => 65 + i) (seqZ 0 26) ++ [0].

(** One turn of the digit loop of [itoa].  A zero radix divides by zero. *)
Definition itoa_step (radix : Z) (st : B * Z * Z) : option ((B * Z * Z) + (B * Z)) :=
  let '(b, newbuf, newval) := st in
  if decide (0 < newval) then
    if decide (u32 radix = 0) then None else
    let i := newval mod u32 radix in
    d ← arr_get itoa_lookup i;
    b' ← bput b newbuf d;
    Some (inl (b', newbuf + 1, newval / u32 radix))
  else Some (inr (b, newbuf)).

(** [itoa(value, buf, radix)]: the digits are stored lowest first and then
    reversed in place. *)
Definition itoa (value : Z) (b : B) (buf : Z) (radix : Z) : option B :=
  if decide (value = 0) then
    b1 ← bput b buf 48; bput b1 (buf + 1) 0
  else
    '(b1, newbuf) ← whileM (itoa_step radix) (b, buf, value);
    b2 ← bput b1 newbuf 0;
    strrev b2 buf.

(** The digit [atoi] reads from one (signed) character. *)
Definition atoi_digit (c : Z) : Z :=
  if decide (48 <= c <= 57) then s8 (c - 48)
  else if decide (97 <= c <= 122) then s8 (c - 97 + 10)
  else if decide (65 <= c <= 90) then s8 (c - 65 + 10)
  else 0.

(** [atoi(buf, radix)] *)
Definition atoi (b : B) (buf : Z) (radix : Z) : option Z :=
  whileM (fun '(p, res) =>
    c ← bget b p;
    Some (if decide (c = 0) then inr res
          else inl (p + 1, s32 (s32 (res * radix) + atoi_digit (s8 c))))) (buf, 0).

(** [strcpy(dest, src)] *)
Definition strcpy (b : B) (dest : Z) (src : B -> Z -> option Z) : option B :=
  whileM (fun '(b, i) =>
    c ← src b i;
    if decide (c = 0) then b' ← bput b (dest + i) 0; Some (inr b')
    else b' ← bput b (dest + i) c; Some (inl (b', i + 1))) (b, 0).

(** [strncpy(dest, src, n)]: copy up to the NUL, then fill with NULs.  The
    source is read before [i < n] is tested. *)
Definition strncpy (b : B) (dest : Z) (src : B -> Z -> option Z) (n : Z) : option B :=
  '(b1, i) ← whileM (fun '(b, i) =>
    c ← src b i;
    if decide (c <> 0 /\ i < n) then b' ← bput b (dest + i) c; Some (inl (b', i + 1))
    else Some (inr (b, i))) (b, 0);
  for_upM i n (fun i b => bput b (dest + i) 0) b1.

End Strings.

(** One turn of [strncmp]'s loop: leave at the first pair of (signed)
    characters that differs or ends the strings. *)
Definition strncmp_step `{CBuf B1, CBuf B2} (b1 : B1) (s1 : Z) (b2 : B2) (s2 i : Z) (_ : unit)
  : unit + option Z :=
  match bget b1 (s1 + i), bget b2 (s2 + i) with
  | Some x, Some y =>
      if decide (s8 x <> s8 y \/ x = 0 \/ y = 0) then inr (Some (s8 x - s8 y)) else inl tt
  | _, _ => inr None
  end.

(** [strncmp(s1, s2, n)] on two objects. *)
Definition strncmp `{CBuf B1, CBuf B2} (b1 : B1) (s1 : Z) (b2 : B2) (s2 : Z) (n : Z) : option Z :=
  match for_break 0 n (strncmp_step b1 s1 b2 s2) tt with
  | inl _ => Some 0
  | inr r => r
  end.

(** ** Memory blocks: the assembly routines *)

(** [rep stosb]-style byte loop: [n] single stores of [al] from [edi]. *)
Definition stos_bytes (m : mem) (edi al n : Z) : mem * Z :=
  for_up 0 n (fun _ '(m, edi) => (st8 m edi al, u32 (edi + 1))) (m, edi).

(** [memset(s, c, n)].  [.memset_top]: single bytes until [edi] is 4-aligned;
    [.memset_aligned]: [rep stosl]; [.memset_bottom]: the last [n & 3] bytes. *)
Definition memset (m : mem) (s c n : Z) : option mem :=
  let c := Z.land c 255 in
  let eax := u32 (Z.lor (Z.lor (Z.lor (Z.shiftl c 24) (Z.shiftl c 16)) (Z.shiftl c 8)) c) in
  r ← while (fun '(m, edi, ecx) =>
        if decide (ecx = 0) then inr (inl m)
        else if decide (Z.land edi 3 = 0) then inr (inr (m, edi, ecx))
        else inl (st8 m edi eax, u32 (edi + 1), u32 (ecx - 1))) (m, s, n);
  match r with
  | inl m => Some m
  | inr (m, edi, ecx) =>
      let edx := Z.land ecx 3 in
      let ecx := Z.shiftr ecx 2 in
      let '(m, edi) := for_up 0 ecx (fun _ '(m, edi) => (st32 m edi eax, u32 (edi + 4))) (m, edi) in
      Some (fst (stos_bytes m edi eax edx))
  end.

(** [memset_word(s, c, n)]: [rep stosw], [n] 16-bit stores. *)
Definition memset_word (m : mem) (s c n : Z) : mem :=
  fst (for_up 0 n (fun _ '(m, edi) =>
    (st8 (st8 m edi c) (u32 (edi + 1)) (c / 256), u32 (edi + 2))) (m, s)).

(** [memset_dword(s, c, n)]: [rep stosl], [n] 32-bit stores. *)
Definition memset_dword (m : mem) (s c n : Z) : mem :=
  fst (for_up 0 n (fun _ '(m, edi) => (st32 m edi c, u32 (edi + 4))) (m, s)).

(** One [movsb] with the direction flag clear. *)
Definition movsb (s : mem * Z * Z) : mem * Z * Z :=
  let '(m, edi, esi) := s in (st8 m edi (ld8 m esi), u32 (edi + 1), u32 (esi + 1)).

(** One [movsl] with the direction flag clear. *)
Definition movsl (s : mem * Z * Z) : mem * Z * Z :=
  let '(m, edi, esi) := s in (st32 m edi (ld32 m esi), u32 (edi + 4), u32 (esi + 4)).

(** [memcpy(dest, src, n)]: the same three phases as [memset]. *)
Definition memcpy (m : mem) (dest src n : Z) : option mem :=
  r ← while (fun '(st, ecx) =>
        if decide (ecx = 0) then inr (inl st)
        else if decide (Z.land (snd (fst st)) 3 = 0) then inr (inr (st, ecx))
        else inl (movsb st, u32 (ecx - 1))) ((m, dest, src), n);
  match r with
  | inl st => Some (fst (fst st))
  | inr (st, ecx) =>
      let edx := Z.land ecx 3 in
      let ecx := Z.shiftr ecx 2 in
      let st := for_up 0 ecx (fun _ => movsl) st in
      Some (fst (fst (for_up 0 edx (fun _ => movsb) st)))
  end.

(** One [movsb] with the direction flag set. *)
Definition movsb_down (s : mem * Z * Z) : mem * Z * Z :=
  let '(m, edi, esi) := s in (st8 m edi (ld8 m esi), u32 (edi - 1), u32 (esi - 1)).

(** [memmove(dest, src, n)]: forwards when [src >= dest], else from the last
    byte down. *)
Definition memmove (m : mem) (dest src n : Z) : mem :=
  if decide (dest <= src)
  then fst (fst (for_up 0 n (fun _ => movsb) (m, dest, src)))
  else fst (fst (for_up 0 n (fun _ => movsb_down) (m, u32 (dest + n - 1), u32 (src + n - 1)))).

(** ** Specifications *)

(** [l] is the C string at [b + s]: nonzero bytes followed by a NUL. *)
Definition cstr `{CBuf B} (b : B) (s : Z) (l : list Z) : Prop :=
  (forall k c, l !! k = Some c -> bget b (s + Z.of_nat k) = Some c /\ 0 < c < 256) /\
  bget b (s + Z.of_nat (length l)) = Some 0.

(** [m'] is [m] with the [n] bytes at [src] of [m] copied to [dest]. *)
Definition copied (m m' : mem) (dest src n : Z) : Prop :=
  forall x, ld8 m' x = if decide (dest <= x < dest + n) then ld8 m (src + (x - dest)) else ld8 m x.

(** [m'] is [m] with [n] bytes [c] at [s]. *)
Definition filled (m m' : mem) (s c n : Z) : Prop :=
  forall x, ld8 m' x = if decide (s <= x < s + n) then c else ld8 m x.

(** The digits of [v] in base [r], least significant first; [n] bounds their
    number (32 digits hold any 32-bit value in any base from 2 up). *)
Fixpoint digits_low (n : nat) (r v : Z) : list Z :=
  match n with
  | O => []
  | S n' => if decide (v = 0) then [] else v mod r :: digits_low n' r (v / r)
  end.

(** The digits of [v] in base [r], most significant first. *)
Definition digits (r v : Z) : list Z :=
  if decide (v = 0) then [0] else reverse (digits_low 32 r v).

(** The value of a digit string, most significant digit first. *)
Definition horner (r : Z) (l : list Z) : Z := foldl (fun acc d => acc * r + d) 0 l.

(** The character of a digit. *)
Definition digit_char (d : Z) : Z := if decide (d < 10) then 48 + d else 55 + d.

(** ** Block routines *)

Lemma copied_refl m d s : copied m m d s 0.
Proof. intros x. by rewrite decide_False by lia. Qed.

Lemma copied_ok m m' d s n : mem_ok m -> copied m m' d s n -> mem_ok m'.
Proof. intros H C x. rewrite C. case_decide; apply H. Qed.

Lemma copied_step m mi d s i :
  mem_ok m -> copied m mi d s i -> 0 <= i -> (d <= s \/ s + i < d) ->
  copied m (st8 mi (d + i) (ld8 mi (s + i))) d s (i + 1).
Proof.
  intros Hm C Hi Hov x. rewrite ld8_st8, (C (s + i)).
  rewrite (decide_False (P := d <= s + i < d + i)) by lia.
  destruct (decide (d + i = x)) as [<-|Hne].
  - rewrite decide_True by lia. rewrite u8_small by apply Hm. f_equal. lia.
  - rewrite C. by repeat case_decide; try lia.
Qed.

Lemma st32_bytes m a v b0 b1 b2 b3 :
  0 <= a -> a + 4 <= 4294967296 ->
  0 <= b0 < 256 -> 0 <= b1 < 256 -> 0 <= b2 < 256 -> 0 <= b3 < 256 ->
  v = b0 + 256 * b1 + 65536 * b2 + 16777216 * b3 ->
  st32 m a v = st8 (st8 (st8 (st8 m a b0) (a + 1) b1) (a + 2) b2) (a + 3) b3.
Proof.
  intros. unfold st32. rewrite !(u32_small (a + _)) by lia. unfold st8.
  rewrite !(u8_small b0), !(u8_small b1), !(u8_small b2), !(u8_small b3) by done.
  replace (u8 v) with b0 by wrap_lia. replace (u8 (v / 256)) with b1 by wrap_lia.
  replace (u8 (v / 65536)) with b2 by wrap_lia. by replace (u8 (v / 16777216)) with b3 by wrap_lia.
Qed.

Lemma movsl_movsb m edi esi :
  mem_ok m -> 0 <= edi -> edi + 4 <= 4294967296 -> 0 <= esi -> esi + 4 <= 4294967296 ->
  (edi <= esi \/ esi + 4 <= edi) ->
  movsl (m, edi, esi) = movsb (movsb (movsb (movsb (m, edi, esi)))).
Proof.
  intros Hm Hd Hd' Hs Hs' Hov. unfold movsl, movsb, ld32.
  rewrite !u32_add_l, <- !Z.add_assoc.
  change (1 + (1 + (1 + 1))) with 4. change (1 + (1 + 1)) with 3. change (1 + 1) with 2.
  rewrite (u32_small (esi + 1)), (u32_small (esi + 2)), (u32_small (esi + 3)) by lia.
  rewrite (u32_small (edi + 1)), (u32_small (edi + 2)), (u32_small (edi + 3)) by lia.
  rewrite !(ld8_st8_ne _ _ (esi + _)) by lia.
  erewrite (st32_bytes m edi); [|done|done|apply Hm|apply Hm|apply Hm|apply Hm|].
  - reflexivity.
  - lia.
Qed.

Lemma movsb_loop m d s n :
  mem_ok m -> 0 <= n -> 0 <= d < 4294967296 -> d + n <= 4294967296 -> 0 <= s < 4294967296 -> s + n <= 4294967296 ->
  (d <= s \/ s + n <= d) ->
  exists m', for_up 0 n (fun _ => movsb) (m, d, s) = (m', u32 (d + n), u32 (s + n))
             /\ copied m m' d s n.
Proof.
  intros Hm Hn Hd Hdn Hs Hsn Hov.
  apply (for_up_ind (fun i st => exists m', st = (m', u32 (d + i), u32 (s + i)) /\ copied m m' d s i)).
  - done.
  - exists m. rewrite !u32_small by lia. rewrite !Z.add_0_r. split; [done|apply copied_refl].
  - intros i st Hi (m' & -> & C). simpl. rewrite !(u32_small (_ + i)) by lia.
    eexists. rewrite !Z.add_assoc. split; [done|]. apply copied_step; [done|done|lia|lia].
Qed.

Lemma copied_trans m m1 m2 d s i j :
  copied m m1 d s i -> copied m1 m2 (d + i) (s + i) j -> 0 <= i -> 0 <= j ->
  (d <= s \/ s + i + j <= d) -> copied m m2 d s (i + j).
Proof.
  intros C1 C2 Hi Hj Hov x. rewrite C2. destruct (decide (d + i <= x < d + i + j)).
  - rewrite C1. rewrite decide_False by lia. rewrite decide_True by lia. f_equal. lia.
  - rewrite C1. by repeat case_decide; try lia.
Qed.

Lemma movsl_loop m d s n :
  mem_ok m -> 0 <= n -> 0 <= d < 4294967296 -> d + 4 * n <= 4294967296 -> 0 <= s < 4294967296 -> s + 4 * n <= 4294967296 ->
  (d <= s \/ s + 4 * n <= d) ->
  exists m', for_up 0 n (fun _ => movsl) (m, d, s) = (m', u32 (d + 4 * n), u32 (s + 4 * n))
             /\ copied m m' d s (4 * n).
Proof.
  intros Hm Hn Hd Hdn Hs Hsn Hov.
  apply (for_up_ind (fun i st => exists m', st = (m', u32 (d + 4 * i), u32 (s + 4 * i))
                                            /\ copied m m' d s (4 * i))).
  - done.
  - exists m. rewrite !u32_small by lia. rewrite !Z.mul_0_r, !Z.add_0_r. split; [done|apply copied_refl].
  - intros i st Hi (m' & -> & C). rewrite !(u32_small (_ + 4 * i)) by lia.
    rewrite movsl_movsb; [|by eapply copied_ok|lia..].
    destruct (movsb_loop m' (d + 4 * i) (s + 4 * i) 4) as (m'' & E & C');
      [by eapply copied_ok|lia..|].
    change (for_up 0 4 (fun _ => movsb) (m', d + 4 * i, s + 4 * i))
      with (movsb (movsb (movsb (movsb (m', d + 4 * i, s + 4 * i))))) in E.
    rewrite E. exists m''. rewrite <- !Z.add_assoc.
    replace (4 * i + 4) with (4 * (i + 1)) by lia. split; [done|].
    replace (4 * (i + 1)) with (4 * i + 4) by lia. eapply copied_trans; [done|done|lia|lia|lia].
Qed.

Lemma land3 x : Z.land x 3 = x mod 4.
Proof. apply (Z.land_ones x 2). lia. Qed.

Lemma shiftr2 x : Z.shiftr x 2 = x / 4.
Proof. apply (Z.shiftr_div_pow2 x 2). lia. Qed.

(** The state of a copy after [i] bytes. *)
Definition copy_at (m : mem) (d s i : Z) (st : mem * Z * Z) : Prop :=
  exists mi, st = (mi, d + i, s + i) /\ copied m mi d s i.

Lemma memcpy_tail m d s i n st :
  mem_ok m -> 0 <= d -> d + n < 4294967296 -> 0 <= s -> s + n < 4294967296 ->
  (d <= s \/ s + n <= d) -> 0 <= i <= n -> copy_at m d s i st ->
  exists m', fst (fst (for_up 0 (Z.land (n - i) 3) (fun _ => movsb)
                         (for_up 0 (Z.shiftr (n - i) 2) (fun _ => movsl) st))) = m'
             /\ copied m m' d s n.
Proof.
  intros Hm Hd Hdn Hs Hsn Hov Hi (mi & -> & C). rewrite land3, shiftr2.
  pose proof (copied_ok _ _ _ _ _ Hm C) as Hmi.
  set (q := (n - i) / 4). set (e := (n - i) mod 4).
  assert (Hq : n = i + 4 * q + e /\ 0 <= q /\ 0 <= e < 4) by (subst q e; zlia).
  destruct (movsl_loop mi (d + i) (s + i) q) as (m1 & -> & C1); [done|lia..|].
  pose proof (copied_ok _ _ _ _ _ Hmi C1) as Hm1.
  rewrite !u32_small by lia.
  destruct (movsb_loop m1 (d + i + 4 * q) (s + i + 4 * q) e) as (m2 & -> & C2); [done|lia..|].
  exists m2. split; [done|]. replace n with (i + 4 * q + e) by lia.
  eapply copied_trans; [|rewrite !Z.add_assoc; exact C2|lia|lia|lia].
  eapply copied_trans; [exact C|exact C1|lia|lia|lia].
Qed.

Lemma memcpy_spec m d s n :
  mem_ok m -> 0 <= n -> 0 <= d -> d + n < 4294967296 -> 0 <= s -> s + n < 4294967296 ->
  (d <= s \/ s + n <= d) ->
  exists m', memcpy m d s n = Some m' /\ copied m m' d s n.
Proof.
  intros Hm Hn Hd Hdn Hs Hsn Hov. unfold memcpy.
  edestruct (while_total
    (fun '(st, ecx) => 0 <= ecx <= n /\ copy_at m d s (n - ecx) st)
    (fun '(_, ecx) => ecx)
    (fun r => match r with
              | inl st => copy_at m d s n st
              | inr (st, ecx) => 0 <= ecx <= n /\ copy_at m d s (n - ecx) st
              end)) as (r & -> & Hr); [|split|..].
  - intros [st ecx] (Hecx & mi & -> & C). simpl. repeat case_decide.
    + exists mi. subst. rewrite Z.sub_0_r in *. done.
    + split; [done|]. by exists mi.
    + rewrite (u32_small (ecx - 1)) by lia. split; [|lia]. split; [lia|].
      exists (st8 mi (d + (n - ecx)) (ld8 mi (s + (n - ecx)))).
      replace (n - (ecx - 1)) with (n - ecx + 1) by lia.
      rewrite !u32_small, !Z.add_assoc by lia. split; [done|]. apply copied_step; [done|done|lia|lia].
  - lia.
  - exists m. rewrite Z.sub_diag, !Z.add_0_r. split; [done|apply copied_refl].
  - simpl. unfold FUEL. lia.
  - destruct r as [st|[st ecx]].
    + destruct Hr as (mi & -> & C). by exists mi.
    + destruct Hr as [Hecx Hst].
      destruct (memcpy_tail m d s (n - ecx) n st) as (m' & E & C); [done|lia|lia|lia|lia|done|lia|done|].
      replace (n - (n - ecx)) with ecx in E by lia. simpl. rewrite E. by exists m'.
Qed.

Lemma memmove_down m d s n :
  mem_ok m -> 0 <= n -> 0 <= s < d -> d + n <= 4294967296 ->
  exists m', fst (fst (for_up 0 n (fun _ => movsb_down) (m, u32 (d + n - 1), u32 (s + n - 1)))) = m'
             /\ copied m m' d s n.
Proof.
  intros Hm Hn Hs Hdn.
  destruct (for_up_ind
    (fun i st => exists mi, st = (mi, u32 (d + n - 1 - i), u32 (s + n - 1 - i)) /\
       forall x, ld8 mi x = if decide (d + n - i <= x < d + n) then ld8 m (s + (x - d)) else ld8 m x)
    0 n (fun _ => movsb_down) (m, u32 (d + n - 1), u32 (s + n - 1))) as (m' & -> & C).
  - done.
  - exists m. rewrite !Z.sub_0_r. split; [done|]. intros x. by rewrite decide_False by lia.
  - intros i st Hi (mi & -> & C). simpl. rewrite !(u32_small (_ + n - 1 - i)) by lia.
    replace (d + n - 1 - (i + 1)) with (d + n - 1 - i - 1) by lia.
    replace (s + n - 1 - (i + 1)) with (s + n - 1 - i - 1) by lia. eexists. split; [done|].
    intros x. rewrite ld8_st8, (C (s + n - 1 - i)). rewrite (decide_False (P := d + n - i <= s + n - 1 - i < d + n)) by lia.
    destruct (decide (d + n - 1 - i = x)) as [<-|Hne].
    + rewrite decide_True by lia. rewrite u8_small by apply Hm. f_equal. lia.
    + rewrite C. by repeat case_decide; try lia.
  - exists m'. split; [done|]. intros x. rewrite C. by repeat case_decide; try lia.
Qed.

Lemma memmove_spec m d s n :
  mem_ok m -> 0 <= n -> 0 <= d < 4294967296 -> d + n <= 4294967296 ->
  0 <= s < 4294967296 -> s + n <= 4294967296 ->
  copied m (memmove m d s n) d s n.
Proof.
  intros Hm Hn Hd Hdn Hs Hsn. unfold memmove. case_decide.
  - destruct (movsb_loop m d s n) as (m' & -> & C); [done|lia..|]. done.
  - destruct (memmove_down m d s n) as (m' & -> & C); [done|lia..|]. done.
Qed.

(** ** Fills *)

Lemma filled_refl m s c : filled m m s c 0.
Proof. intros x. by rewrite decide_False by lia. Qed.

Lemma filled_step m mi s c v i :
  filled m mi s c i -> 0 <= i -> u8 v = c -> filled m (st8 mi (s + i) v) s c (i + 1).
Proof.
  intros F Hi Hv x. rewrite ld8_st8, F. repeat case_decide; try lia; done.
Qed.

(** The four copies of the byte in [eax]. *)
Lemma memset_eax c :
  let b := Z.land c 255 in
  u32 (Z.lor (Z.lor (Z.lor (Z.shiftl b 24) (Z.shiftl b 16)) (Z.shiftl b 8)) b)
  = u8 c + 256 * u8 c + 65536 * u8 c + 16777216 * u8 c.
Proof.
  assert (Hb : Z.land c 255 = u8 c) by (apply (Z.land_ones c 8); lia). cbv zeta. rewrite Hb.
  pose proof (u8_range c) as Hr. revert Hr. generalize (u8 c). clear. intros b Hb.
  rewrite <- !Z.lor_assoc.
  rewrite (lor_shiftl_add b b 8), (lor_shiftl_add b _ 16), (lor_shiftl_add b _ 24) by lia.
  rewrite u32_small by lia. lia.
Qed.

Definition fill_at (m : mem) (s c i : Z) (st : mem * Z) : Prop :=
  exists mi, st = (mi, s + i) /\ filled m mi s c i.

Lemma stos_loop m s c i v n st :
  fill_at m s c i st -> u8 v = c -> 0 <= s -> 0 <= i -> 0 <= n -> s + i + n < 4294967296 ->
  fill_at m s c (i + n) (for_up 0 n (fun _ '(m, edi) => (st8 m edi v, u32 (edi + 1))) st).
Proof.
  intros F Hv Hs Hi Hn Hsn.
  apply (for_up_ind (fun j => fill_at m s c (i + j))); [done|by rewrite Z.add_0_r|].
  intros j st' Hj (mi & -> & Fi). exists (st8 mi (s + (i + j)) v).
  rewrite u32_small, !Z.add_assoc by lia. split; [done|].
  rewrite <- !Z.add_assoc, (Z.add_assoc i j 1). apply filled_step; [done|lia|done].
Qed.

Lemma stosl_loop m s c i v n st :
  0 <= c < 256 -> v = c + 256 * c + 65536 * c + 16777216 * c ->
  fill_at m s c i st -> 0 <= s -> 0 <= i -> 0 <= n -> s + i + 4 * n < 4294967296 ->
  fill_at m s c (i + 4 * n) (for_up 0 n (fun _ '(m, edi) => (st32 m edi v, u32 (edi + 4))) st).
Proof.
  intros Hc Hv F Hs Hi Hn Hsn.
  apply (for_up_ind (fun j => fill_at m s c (i + 4 * j))); [done|by rewrite Z.mul_0_r, Z.add_0_r|].
  intros j st' Hj (mi & -> & Fi). rewrite (u32_small (_ + 4)) by lia.
  eexists. split; [f_equal; lia|].
  rewrite (st32_bytes _ _ v c c c c) by lia.
  replace (i + 4 * (j + 1)) with (i + 4 * j + 1 + 1 + 1 + 1) by lia.
  replace (s + (i + 4 * j) + 3) with (s + (i + 4 * j + 1 + 1 + 1)) by lia.
  replace (s + (i + 4 * j) + 2) with (s + (i + 4 * j + 1 + 1)) by lia.
  replace (s + (i + 4 * j) + 1) with (s + (i + 4 * j + 1)) by lia.
  repeat (apply filled_step; [|lia|by apply u8_small]). done.
Qed.

Lemma memset_spec m s c n :
  0 <= n -> 0 <= s -> s + n < 4294967296 ->
  exists m', memset m s c n = Some m' /\ filled m m' s (u8 c) n.
Proof.
  intros Hn Hs Hsn. unfold memset. rewrite memset_eax.
  pose proof (u8_range c) as Hb. generalize dependent (u8 c). intros b Hb.
  set (eax := b + 256 * b + 65536 * b + 16777216 * b).
  assert (Heax : u8 eax = b) by (subst eax; wrap_lia).
  edestruct (while_total
    (fun '(mi, edi, ecx) => 0 <= ecx <= n /\ fill_at m s b (n - ecx) (mi, edi))
    (fun '(_, _, ecx) => ecx)
    (fun r => match r with
              | inl mi => filled m mi s b n
              | inr (mi, edi, ecx) => 0 <= ecx <= n /\ fill_at m s b (n - ecx) (mi, edi)
              end)) as (r & -> & Hr); [|split|..].
  - intros [[mi edi] ecx] (Hecx & mj & [= <- ->] & F). simpl. repeat case_decide.
    + subst ecx. by rewrite Z.sub_0_r in F.
    + split; [done|]. by exists mi.
    + rewrite (u32_small (ecx - 1)) by lia. split; [|lia]. split; [lia|].
      replace (n - (ecx - 1)) with (n - ecx + 1) by lia.
      eexists. rewrite u32_small, Z.add_assoc by lia. split; [done|].
      apply filled_step; [done|lia|done].
  - lia.
  - exists m. rewrite Z.sub_diag, Z.add_0_r. split; [done|apply filled_refl].
  - simpl. unfold FUEL. lia.
  - destruct r as [mi|[[mi edi] ecx]]; simpl; [by exists mi|].
    destruct Hr as [Hecx F]. rewrite land3, shiftr2.
    set (q := ecx / 4). set (e := ecx mod 4).
    assert (Hq : ecx = 4 * q + e /\ 0 <= q /\ 0 <= e < 4) by (subst q e; zlia).
    pose proof (stosl_loop m s b _ eax q _ Hb eq_refl F ltac:(lia) ltac:(lia) ltac:(lia) ltac:(lia)) as F1.
    destruct (for_up 0 q _ (mi, edi)) as [m1 edi1].
    unfold stos_bytes.
    destruct (stos_loop m s b _ eax e _ F1) as (m2 & -> & F2); [done|lia..|].
    exists m2. split; [done|]. simpl. by replace n with (n - ecx + 4 * q + e) by lia.
Qed.

Lemma copied_bytes m m' dest src n :
  copied m m' dest src n -> 0 <= n -> 0 <= dest -> dest + n <= 4294967296 -> 0 <= src -> src + n <= 4294967296 ->
  load_bytes m' dest n = load_bytes m src n.
Proof.
  intros C Hn Hd Hdn Hs Hsn. unfold load_bytes. apply map_ext_in. intros i Hi.
  apply list_elem_of_In, elem_of_seqZ in Hi. rewrite !u32_small, C, decide_True by lia. f_equal. lia.
Qed.

(** ** Strings *)
Section StringSpecs.
Context {B : Type} `{CBufLaws B}.

Lemma cstr_char b s l k c : cstr b s l -> l !! k = Some c -> bget b (s + Z.of_nat k) = Some c /\ 0 < c < 256.
Proof. intros [Hc _]. apply Hc. Qed.

(** The character of a string, or its NUL, at any index up to the length. *)
Lemma cstr_at b s l i :
  cstr b s l -> 0 <= i <= Z.of_nat (length l) ->
  bget b (s + i) = Some (default 0 (l !! Z.to_nat i)).
Proof.
  intros [Hc Hz] Hi. destruct (decide (i = Z.of_nat (length l))) as [->|].
  - rewrite Nat2Z.id, Hz. by rewrite lookup_ge_None_2 by done.
  - destruct (lookup_lt_is_Some_2 l (Z.to_nat i)) as [c Hl]; [lia|].
    rewrite Hl. replace i with (Z.of_nat (Z.to_nat i)) at 1 by lia. by apply Hc.
Qed.

Lemma cstr_nonzero b s l i :
  cstr b s l -> 0 <= i < Z.of_nat (length l) -> 0 < default 0 (l !! Z.to_nat i) < 256.
Proof.
  intros [Hc _] Hi. destruct (lookup_lt_is_Some_2 l (Z.to_nat i)) as [c Hl]; [lia|].
  rewrite Hl. by apply (Hc _ _ Hl).
Qed.

Lemma strlen_spec b s l :
  cstr b s l -> Z.of_nat (length l) < 4294967296 -> strlen b s = Some (Z.of_nat (length l)).
Proof.
  intros Hl Hlen. unfold strlen.
  destruct (whileM_total (fun i => 0 <= i <= Z.of_nat (length l)) (fun i => Z.of_nat (length l) - i)
              (fun r => r = Z.of_nat (length l))
              (fun len => c ← bget b (s + len); Some (if decide (c = 0) then inr len else inl (u32 (len + 1)))) 0)
    as (r & -> & ->); [|lia|unfold FUEL; lia|done].
  intros i Hi. rewrite (cstr_at b s l) by done. simpl.
  destruct (decide (i = Z.of_nat (length l))) as [->|].
  - by rewrite lookup_ge_None_2 by lia.
  - pose proof (cstr_nonzero b s l i Hl). rewrite decide_False by lia. rewrite u32_small by lia. lia.
Qed.

(** What [strrev] has done after [beg] swaps: outside the string nothing, in
    the outer parts the mirrored characters, in between the original ones. *)
Definition rev_at (b0 b : B) (s n beg : Z) : Prop :=
  bcap b = bcap b0 /\
  forall j, bget b j =
    if decide (s <= j < s + beg \/ s + n - beg <= j < s + n)
    then bget b0 (s + (s + n - 1 - j)) else bget b0 j.

Lemma bget_bound b i x : bget b i = Some x -> 0 <= i < bcap b.
Proof.
  intros E. destruct (decide (0 <= i < bcap b)); [done|]. by rewrite bget_out in E.
Qed.

Lemma bput_bput b i v j w :
  0 <= i < bcap b -> 0 <= j < bcap b -> i <> j ->
  exists b1 b2, bput b i v = Some b1 /\ bput b1 j w = Some b2 /\ bcap b2 = bcap b /\
    forall k, bget b2 k = if decide (j = k) then Some (u8 w)
                          else if decide (i = k) then Some (u8 v) else bget b k.
Proof.
  intros Hi Hj Hne. destruct (bput_in b i v Hi) as [b1 E1].
  pose proof (bput_cap _ _ _ _ E1) as C1.
  destruct (bput_in b1 j w) as [b2 E2]; [by rewrite C1|].
  exists b1, b2. split_and!; [done|done|by rewrite (bput_cap _ _ _ _ E2)|].
  intros k. rewrite (bput_get _ _ _ _ k E2). case_decide; [done|]. by rewrite (bput_get _ _ _ _ k E1).
Qed.

Lemma strrev_spec b s l :
  cstr b s l -> Z.of_nat (length l) < 2147483648 ->
  exists b', strrev b s = Some b' /\ bcap b' = bcap b /\ cstr b' s (reverse l) /\
    forall j, ~ (s <= j < s + Z.of_nat (length l)) -> bget b' j = bget b j.
Proof.
  intros Hl Hlen. unfold strrev. rewrite (strlen_spec b s l) by (done || lia). simpl.
  set (n := Z.of_nat (length l)) in *.
  assert (Hin : forall i, 0 <= i < n -> 0 <= s + i < bcap b).
  { intros i Hi. eapply bget_bound, cstr_at; [done|lia]. }
  rewrite s32_small by lia.
  match goal with |- context [whileM ?f ?st] =>
    destruct (whileM_total (fun '(bi, beg, en) => 0 <= beg <= n /\ en = n - 1 - beg /\
                              2 * beg <= n /\ rev_at b bi s n beg)
      (fun '(_, beg, en) => n - beg)
      (fun b' => exists beg, n - 1 <= 2 * beg <= n /\ rev_at b b' s n beg) f st)
      as (b' & -> & beg & Hbeg & Hc & R) end.
  - intros [[bi beg] en] (Hbeg & -> & Hb2 & Hcap & R). simpl.
    destruct (decide (beg < n - 1 - beg)); [|exists beg; split; [lia|done]].
    pose proof (cstr_nonzero b s l (n - 1 - beg) Hl ltac:(lia)) as Hx.
    pose proof (cstr_nonzero b s l beg Hl ltac:(lia)) as Hy.
    rewrite !R. rewrite !decide_False by lia.
    rewrite (cstr_at b s l (n - 1 - beg)), (cstr_at b s l beg) by (done || lia). simpl.
    destruct (bput_bput bi (s + (n - 1 - beg)) (default 0 (l !! Z.to_nat beg))
                (s + beg) (default 0 (l !! Z.to_nat (n - 1 - beg))))
      as (b1 & b2 & -> & E & C2 & G2); [rewrite Hcap; apply Hin; lia..|lia|].
    simpl. rewrite E. simpl. split; [|lia]. split_and!; [lia..|].
    split; [congruence|]. intros j. rewrite G2, R. rewrite !u8_small by lia.
    destruct (decide (s + beg = j)) as [<-|].
    { rewrite decide_True by lia. replace (s + (s + n - 1 - (s + beg))) with (s + (n - 1 - beg)) by lia.
      by rewrite (cstr_at b s l) by (done || lia). }
    destruct (decide (s + (n - 1 - beg) = j)) as [<-|].
    { rewrite decide_True by lia. replace (s + (s + n - 1 - (s + (n - 1 - beg)))) with (s + beg) by lia.
      by rewrite (cstr_at b s l) by (done || lia). }
    repeat case_decide; try done; lia.
  - split_and!; [lia..|]. split; [done|]. intros j. by rewrite decide_False by lia.
  - unfold FUEL. lia.
  - exists b'. split_and!; [done|done| |intros j Hj; rewrite R; by rewrite decide_False by lia].
    split.
    + intros k c Hk. pose proof (lookup_lt_Some _ _ _ Hk) as Hkl. rewrite length_reverse in Hkl.
      rewrite reverse_lookup in Hk by done.
      destruct (cstr_char b s l _ c Hl Hk) as [Hget ?]. split; [|done]. rewrite R.
      subst n. case_decide; rewrite <- Hget; f_equal; lia.
    + rewrite length_reverse, R, decide_False by lia. apply Hl.
Qed.
End StringSpecs.

(** ** Numbers *)

Lemma s32_add_mul x k : s32 (x + k * 4294967296) = s32 x.
Proof. unfold s32. replace (x + k * 4294967296 + 2147483648) with (x + 2147483648 + k * 4294967296) by lia.
  by rewrite Z_mod_plus_full. Qed.

Lemma s32_eq_mod x : exists k, s32 x = x + k * 4294967296.
Proof. exists (- ((x + 2147483648) / 4294967296)). wrap_lia. Qed.

Lemma s32_mul_add a r d : s32 (s32 (s32 a * r) + d) = s32 (a * r + d).
Proof.
  destruct (s32_eq_mod a) as [k ->]. destruct (s32_eq_mod ((a + k * 4294967296) * r)) as [k' ->].
  replace ((a + k * 4294967296) * r + k' * 4294967296 + d)
    with (a * r + d + (k * r + k') * 4294967296) by lia.
  apply s32_add_mul.
Qed.

Lemma digits_low_length n r v : (length (digits_low n r v) <= n)%nat.
Proof. revert v. induction n as [|n IH]; intros v; simpl; [lia|]. case_decide; simpl; [lia|]. specialize (IH (v / r)). lia. Qed.

Lemma div_lt_pow n r v : 2 <= r -> 0 <= v < 2 ^ Z.of_nat (S n) -> 0 <= v / r < 2 ^ Z.of_nat n.
Proof.
  intros Hr Hv. rewrite Nat2Z.inj_succ, Z.pow_succ_r in Hv by lia. split.
  - apply Z.div_pos; lia.
  - apply Z.div_lt_upper_bound; nia.
Qed.

Lemma digits_low_cons n r v :
  2 <= r -> 0 < v < 2 ^ Z.of_nat n ->
  exists n', n = S n' /\ digits_low n r v = v mod r :: digits_low n' r (v / r) /\ 0 <= v / r < 2 ^ Z.of_nat n'.
Proof.
  intros Hr Hv. destruct n as [|n']; [simpl in Hv; lia|].
  exists n'. split; [done|]. split; [|apply div_lt_pow; lia]. simpl. by rewrite decide_False by lia.
Qed.

Lemma digits_low_range n r v : 2 <= r -> Forall (fun d => 0 <= d < r) (digits_low n r v).
Proof.
  intros Hr. revert v. induction n as [|n IH]; intros v; simpl; [done|].
  case_decide; constructor; [apply Z.mod_pos_bound; lia|apply IH].
Qed.

Lemma horner_snoc r l d : horner r (l ++ [d]) = horner r l * r + d.
Proof. unfold horner. by rewrite foldl_app. Qed.

Lemma horner_digits_low n r v :
  2 <= r -> 0 <= v < 2 ^ Z.of_nat n -> horner r (reverse (digits_low n r v)) = v.
Proof.
  intros Hr. revert v. induction n as [|n IH]; intros v Hv; simpl in *.
  - unfold horner. simpl. lia.
  - case_decide; [done|]. rewrite reverse_cons, horner_snoc, IH by (apply div_lt_pow; lia).
    pose proof (Z.div_mod v r). lia.
Qed.

(** The digits of a number denote it. *)
Lemma horner_digits r v : 2 <= r -> 0 <= v < 4294967296 -> horner r (digits r v) = v.
Proof.
  intros Hr Hv. unfold digits. case_decide; [by subst|]. by apply horner_digits_low.
Qed.

Lemma digits_range r v : 2 <= r -> Forall (fun d => 0 <= d < r) (digits r v).
Proof.
  intros Hr. unfold digits. case_decide; [repeat constructor; lia|].
  apply Forall_reverse, digits_low_range. done.
Qed.

Lemma digits_low_nonempty n r v : v <> 0 -> (0 < length (digits_low (S n) r v))%nat.
Proof. intros Hv. simpl. rewrite decide_False by done. simpl. lia. Qed.

Lemma digits_length r v : (0 < length (digits r v) <= 32)%nat.
Proof.
  unfold digits. case_decide; [simpl; lia|]. rewrite length_reverse.
  split; [by apply digits_low_nonempty|apply digits_low_length].
Qed.

Lemma itoa_lookup_digit d : 0 <= d < 36 -> arr_get itoa_lookup d = Some (digit_char d).
Proof.
  intros Hd. assert (E : Forall (fun d => arr_get itoa_lookup d = Some (digit_char d)) (seqZ 0 36)).
  { apply (bool_decide_unpack _). by vm_compute. }
  rewrite Forall_seqZ in E. apply E. lia.
Qed.

Lemma atoi_digit_char d : 0 <= d < 36 -> atoi_digit (s8 (digit_char d)) = d.
Proof.
  intros Hd. assert (E : Forall (fun d => atoi_digit (s8 (digit_char d)) = d) (seqZ 0 36)).
  { apply (bool_decide_unpack _). by vm_compute. }
  rewrite Forall_seqZ in E. apply E. lia.
Qed.

Lemma digit_char_range d : 0 <= d < 36 -> 48 <= digit_char d < 91.
Proof. intros. unfold digit_char. case_decide; lia. Qed.

Lemma digits_low_0 n r : digits_low n r 0 = [].
Proof. by destruct n. Qed.

#[global] Arguments digits_low : simpl never.

Section NumberSpecs.
Context {B : Type} `{CBufLaws B}.

(** The chars of [l] (as digits) stored from [p] on, the rest of [b0] kept. *)
Definition digits_at (b0 b : B) (p : Z) (l : list Z) : Prop :=
  bcap b = bcap b0 /\
  (forall k d, l !! k = Some d -> bget b (p + Z.of_nat k) = Some (digit_char d)) /\
  (forall j, ~ (p <= j < p + Z.of_nat (length l)) -> bget b j = bget b0 j).

Lemma digits_at_snoc b0 b p l d :
  digits_at b0 b p l -> 0 <= d < 36 -> 0 <= p -> p + Z.of_nat (length l) < bcap b0 ->
  exists b', bput b (p + Z.of_nat (length l)) (digit_char d) = Some b' /\ digits_at b0 b' p (l ++ [d]).
Proof.
  intros (Hcap & Hl & Hf) Hd Hp Hlt.
  destruct (bput_in b (p + Z.of_nat (length l)) (digit_char d)) as [b' E]; [lia|].
  exists b'. split; [done|]. split_and!.
  - by rewrite (bput_cap _ _ _ _ E).
  - intros k x. rewrite lookup_app_Some. intros [Hk|[Hk Hx]].
    + pose proof (lookup_lt_Some _ _ _ Hk). rewrite (bput_get _ _ _ _ _ E), decide_False by lia. by apply Hl.
    + apply list_lookup_singleton_Some in Hx as [Hx <-].
      replace k with (length l) by lia. rewrite (bput_get _ _ _ _ _ E), decide_True by lia.
      pose proof (digit_char_range d Hd). by rewrite u8_small by lia.
  - intros j. rewrite length_app. simpl. intros Hj.
    rewrite (bput_get _ _ _ _ _ E), decide_False by lia. apply Hf. lia.
Qed.

(** The first loop of [itoa] stores the digits, least significant first. *)
Lemma itoa_store_spec value (b : B) buf radix :
  0 < value < 4294967296 -> 2 <= radix <= 36 -> 0 <= buf -> buf + 33 <= bcap b ->
  exists b1, whileM (itoa_step radix) (b, buf, value)
    = Some (b1, buf + Z.of_nat (length (digits_low 32 radix value)))
    /\ digits_at b b1 buf (digits_low 32 radix value).
Proof.
  intros Hv Hr Hbuf Hcap.
  match goal with |- context [whileM ?f ?st] =>
    destruct (whileM_total
      (fun '(bi, newbuf, newval) => exists n l1,
         digits_low 32 radix value = l1 ++ digits_low n radix newval /\ 0 <= newval < 2 ^ Z.of_nat n /\
         (length l1 + n = 32)%nat /\ newbuf = buf + Z.of_nat (length l1) /\ digits_at b bi buf l1)
      (fun '(_, _, newval) => newval)
      (fun '(b1, nb) => nb = buf + Z.of_nat (length (digits_low 32 radix value)) /\
                        digits_at b b1 buf (digits_low 32 radix value)) f st)
      as ([b1 nb] & -> & -> & D) end.
  - intros [[bi nb] nv] (n & l1 & El & Hnv & Hn & -> & D). simpl. rewrite (u32_small radix) by lia.
    destruct (decide (0 < nv)) as [Hpos|].
    + rewrite decide_False by lia.
      destruct (digits_low_cons n radix nv) as (n' & -> & Ed & Hdiv); [lia..|].
      pose proof (Z.mod_pos_bound nv radix). rewrite itoa_lookup_digit by lia. simpl.
      destruct (digits_at_snoc b bi buf l1 (nv mod radix) D) as (b' & -> & D'); [lia..|]. simpl.
      split.
      * exists n', (l1 ++ [nv mod radix]). rewrite El, Ed, <- app_assoc. rewrite length_app. simpl.
        split_and!; [done|lia..|done].
      * split; [lia|]. apply Z.div_lt; lia.
    + assert (nv = 0) as -> by lia.
      assert (El' : digits_low 32 radix value = l1) by (by rewrite El, digits_low_0, app_nil_r).
      rewrite El'. done.
  - exists 32%nat, []. split; [reflexivity|]. split; [change (2 ^ Z.of_nat 32) with 4294967296; lia|].
    split; [reflexivity|]. split; [simpl; lia|]. split_and!; [reflexivity|by intros k d Hk|done].
  - unfold FUEL. lia.
  - by exists b1.
Qed.

(** Stored digits and a NUL make a string. *)
Lemma digits_at_cstr b0 b1 b2 buf dl :
  digits_at b0 b1 buf dl -> Forall (fun d => 0 <= d < 36) dl -> bput b1 (buf + Z.of_nat (length dl)) 0 = Some b2 ->
  cstr b2 buf (digit_char <$> dl).
Proof.
  intros (_ & Hd1 & _) Hrng E2. split.
  - intros k c. rewrite list_lookup_fmap. intros (d & Hk & ->)%fmap_Some. pose proof (lookup_lt_Some _ _ _ Hk).
    rewrite (bput_get _ _ _ _ _ E2), decide_False, (Hd1 k d Hk) by lia. split; [done|].
    rewrite Forall_lookup in Hrng. pose proof (Hrng k d Hk). pose proof (digit_char_range d). lia.
  - rewrite length_fmap, (bput_get _ _ _ _ _ E2), decide_True by lia. done.
Qed.

Lemma digits_low_36 n r v : 2 <= r <= 36 -> Forall (fun d => 0 <= d < 36) (digits_low n r v).
Proof. intros Hr. eapply list.Forall_impl; [apply digits_low_range; lia|]. simpl. lia. Qed.

(** [itoa] leaves the digits of the value, most significant first, as a C
    string in the buffer, and touches nothing after its NUL. *)
Lemma itoa_spec value (b : B) buf radix :
  0 <= value < 4294967296 -> 2 <= radix <= 36 -> 0 <= buf -> buf + 33 <= bcap b ->
  exists b', itoa value b buf radix = Some b' /\ bcap b' = bcap b /\
    cstr b' buf (digit_char <$> digits radix value) /\
    forall j, ~ (buf <= j < buf + Z.of_nat (length (digits radix value)) + 1) -> bget b' j = bget b j.
Proof.
  intros Hv Hr Hbuf Hcap. unfold itoa. case_decide as Hz.
  { subst. destruct (bput_bput b buf 48 (buf + 1) 0) as (b1 & b2 & E1 & E2 & C & G); [lia..|].
    rewrite E1. simpl. exists b2. split_and!; [done|done| |].
    - split; simpl.
      + intros [|k] c; simpl; intros [= <-]. rewrite G. change (u8 48) with 48.
        rewrite decide_False, decide_True by lia. split; [done|by vm_compute].
      + rewrite G, decide_True by lia. done.
    - simpl. intros j Hj. rewrite G, !decide_False by lia. done. }
  destruct (itoa_store_spec value b buf radix) as (b1 & -> & Hd); [lia..|]. pose proof Hd as (Hcap1 & Hd1 & Hf1). simpl mbind.
  unfold digits. rewrite decide_False by done.
  pose proof (digits_low_length 32 radix value) as Hlen.
  pose proof (digits_low_36 32 radix value Hr) as Hrng.
  set (dl := digits_low 32 radix value) in *. clearbody dl.
  destruct (bput_in b1 (buf + Z.of_nat (length dl)) 0) as [b2 E2]; [lia|]. rewrite E2. simpl.
  destruct (strrev_spec b2 buf (digit_char <$> dl)) as (b3 & -> & C3 & S3 & F3);
    [by eapply (digits_at_cstr b b1)|rewrite length_fmap; lia|].
  exists b3. split_and!; [done|by rewrite C3, (bput_cap _ _ _ _ E2)| |].
  - by rewrite fmap_reverse.
  - intros j. rewrite length_reverse. intros Hj. rewrite F3 by (rewrite length_fmap; lia).
    rewrite (bput_get _ _ _ _ _ E2), decide_False by lia. apply Hf1. lia.
Qed.

(** [atoi] folds the characters with wrapping arithmetic. *)
Lemma atoi_fold (b : B) s l r :
  cstr b s l -> Z.of_nat (length l) < 4294967296 ->
  atoi b s r = Some (foldl (fun res c => s32 (s32 (res * r) + atoi_digit (s8 c))) 0 l).
Proof.
  intros Hl Hlen. unfold atoi. set (step := fun res c => _).
  match goal with |- whileM ?f ?st = _ =>
    destruct (whileM_total
      (fun '(p, res) => exists k, (k <= length l)%nat /\ p = s + Z.of_nat k /\ res = foldl step 0 (take k l))
      (fun '(p, _) => s + Z.of_nat (length l) - p)
      (fun res => res = foldl step 0 l) f st) as (r' & E & ->) end.
  - intros [p res] (k & Hk & -> & ->). simpl. rewrite (cstr_at b s l) by (done || lia). simpl.
    rewrite Nat2Z.id. destruct (decide (k = length l)) as [->|].
    + rewrite lookup_ge_None_2 by done. simpl. by rewrite take_ge.
    + destruct (lookup_lt_is_Some_2 l k) as [c Hc]; [lia|].
      destruct (cstr_char b s l k c Hl Hc) as [_ Hr]. rewrite Hc. simpl. rewrite decide_False by lia.
      split; [|lia]. exists (S k). rewrite (take_S_r _ _ c Hc), foldl_app. split_and!; [lia..|done].
  - exists O. simpl. split_and!; [lia..|done].
  - unfold FUEL. lia.
  - done.
Qed.

Lemma atoi_digits_fold r l a :
  r <= 36 -> Forall (fun d => 0 <= d < r) l ->
  foldl (fun res c => s32 (s32 (res * r) + atoi_digit (s8 c))) (s32 a) (digit_char <$> l)
  = s32 (foldl (fun acc d => acc * r + d) a l).
Proof.
  intros Hr Hl. revert a. induction Hl as [|d l Hd Hl IH]; intros a; simpl; [done|].
  rewrite atoi_digit_char by lia. rewrite s32_mul_add. apply IH.
Qed.

Lemma atoi_spec (b : B) s r ds :
  2 <= r <= 36 -> Forall (fun d => 0 <= d < r) ds -> cstr b s (digit_char <$> ds) ->
  Z.of_nat (length ds) < 4294967296 ->
  atoi b s r = Some (s32 (horner r ds)).
Proof.
  intros Hr Hds Hs Hlen. rewrite (atoi_fold b s _ r Hs) by (rewrite length_fmap; done).
  f_equal. apply (atoi_digits_fold r ds 0); [lia|done].
Qed.
End NumberSpecs.

(** ** String comparison and bounded copy *)

(** The two objects agree on [i] characters, none of them a NUL. *)
Definition agree `{CBuf B1, CBuf B2} (b1 : B1) s1 (b2 : B2) s2 (i : Z) : Prop :=
  forall j, 0 <= j < i -> exists x, bget b1 (s1 + j) = Some x /\ bget b2 (s2 + j) = Some x /\ x <> 0.

Lemma strncmp_step_spec `{CBuf B1, CBuf B2} (b1 : B1) s1 (b2 : B2) s2 n i :
  0 <= i < n -> agree b1 s1 b2 s2 i ->
  (exists x y, bget b1 (s1 + i) = Some x /\ bget b2 (s2 + i) = Some y /\ 0 <= x < 256 /\ 0 <= y < 256) ->
  match strncmp_step b1 s1 b2 s2 i tt with
  | inl _ => agree b1 s1 b2 s2 (i + 1)
  | inr ro => exists i x y r, ro = Some r /\ 0 <= i < n /\ agree b1 s1 b2 s2 i /\
      bget b1 (s1 + i) = Some x /\ bget b2 (s2 + i) = Some y /\ (r = 0 <-> x = y) /\ (x <> y \/ x = 0)
  end.
Proof.
  intros Hi P (x & y & Ex & Ey & Hx & Hy). unfold strncmp_step. rewrite Ex, Ey.
  pose proof (s8_u8_inj x y Hx Hy) as Inj. case_decide as D.
  - exists i, x, y, (s8 x - s8 y). repeat (split; [done|]).
    split; [split; [intros; apply Inj; lia|intros ->; lia]|].
    destruct (decide (x = y)) as [->|]; [right; destruct D as [D|[D|D]]; done|by left].
  - intros j Hj. destruct (decide (j = i)) as [->|]; [|apply P; lia].
    assert (x = y) as -> by (apply Inj; lia). exists y. split_and!; [done|done|lia].
Qed.

(** [strncmp] stops at the first index that differs or ends both strings. *)
Lemma strncmp_spec `{CBuf B1, CBuf B2} (b1 : B1) s1 (b2 : B2) s2 n :
  0 <= n ->
  (forall i, 0 <= i < n -> agree b1 s1 b2 s2 i ->
     exists x y, bget b1 (s1 + i) = Some x /\ bget b2 (s2 + i) = Some y /\ 0 <= x < 256 /\ 0 <= y < 256) ->
  exists r, strncmp b1 s1 b2 s2 n = Some r /\
    ((r = 0 /\ agree b1 s1 b2 s2 n) \/
     (exists i x y, 0 <= i < n /\ agree b1 s1 b2 s2 i /\ bget b1 (s1 + i) = Some x /\
        bget b2 (s2 + i) = Some y /\ (r = 0 <-> x = y) /\ (x <> y \/ x = 0))).
Proof.
  intros Hn Hacc. unfold strncmp.
  pose proof (for_break_ind
      (fun i _ => agree b1 s1 b2 s2 i)
      (fun ro => exists i x y r, ro = Some r /\ 0 <= i < n /\ agree b1 s1 b2 s2 i /\
         bget b1 (s1 + i) = Some x /\ bget b2 (s2 + i) = Some y /\ (r = 0 <-> x = y) /\ (x <> y \/ x = 0))
      0 n (strncmp_step b1 s1 b2 s2) tt Hn ltac:(intros j Hj; lia)) as L.
  destruct (for_break 0 n (strncmp_step b1 s1 b2 s2) tt) as [u|ro].
  - exists 0. split; [done|]. left. split; [done|]. apply L. clear L u.
    intros i [] Hi P. apply strncmp_step_spec; [done|done|by apply Hacc].
  - destruct L as (i & x & y & r & -> & L); [|exists r; split; [done|right; by exists i, x, y]].
    intros i [] Hi P. apply strncmp_step_spec; [done|done|by apply Hacc].
Qed.

(** [l] is what a field of [n] characters at [b + s] shows: nonzero bytes up
    to the first NUL, or [n] of them. *)
Definition field `{CBuf B} (b : B) (s n : Z) (l : list Z) : Prop :=
  Z.of_nat (length l) <= n /\
  (forall k c, l !! k = Some c -> bget b (s + Z.of_nat k) = Some c /\ 0 < c < 256) /\
  (Z.of_nat (length l) < n -> bget b (s + Z.of_nat (length l)) = Some 0).

Lemma cstr_field `{CBuf B} (b : B) s n l : 0 <= n -> cstr b s l -> field b s n (take (Z.to_nat n) l).
Proof.
  intros Hn [Hc Hz]. pose proof (length_take l (Z.to_nat n)). split_and!; [lia| |].
  - intros k c Hk. apply Hc. by apply lookup_take_Some in Hk as [Hk _].
  - intros Hlt. by rewrite take_ge by lia.
Qed.

Lemma field_at `{CBuf B} (b : B) s n l i :
  field b s n l -> 0 <= i < n -> i <= Z.of_nat (length l) ->
  bget b (s + i) = Some (default 0 (l !! Z.to_nat i)) /\
  (i < Z.of_nat (length l) -> 0 < default 0 (l !! Z.to_nat i)) /\ 0 <= default 0 (l !! Z.to_nat i) < 256.
Proof.
  intros (Hl & Hc & Hz) Hi Hil. destruct (decide (i = Z.of_nat (length l))) as [->|].
  - rewrite Nat2Z.id, Hz by lia. rewrite lookup_ge_None_2 by done. simpl. split; [done|lia].
  - destruct (lookup_lt_is_Some_2 l (Z.to_nat i)) as [c E]; [lia|]. destruct (Hc _ _ E) as [G R].
    rewrite Z2Nat.id in G by lia. rewrite E. simpl. split; [done|lia].
Qed.

Lemma agree_field `{CBuf B1, CBuf B2} (b1 : B1) s1 (b2 : B2) s2 n l1 l2 k :
  field b1 s1 n l1 -> field b2 s2 n l2 -> 0 <= k <= n -> agree b1 s1 b2 s2 k ->
  k <= Z.of_nat (length l1) /\ k <= Z.of_nat (length l2) /\
  forall j, 0 <= j < k -> l1 !! Z.to_nat j = l2 !! Z.to_nat j.
Proof.
  intros F1 F2 Hk. assert (Hk0 : 0 <= k) by lia. revert Hk. pattern k. revert k Hk0.
  apply natlike_ind; [intros; split_and!; [lia|lia|intros; lia]|].
  intros x Hx IH Hx32 A. destruct IH as (I1 & I2 & I3); [lia|intros j Hj; apply A; lia|].
  destruct (A x ltac:(lia)) as (c & E1 & E2 & Hc).
  destruct (field_at b1 s1 n l1 x F1 ltac:(lia) I1) as (G1 & _).
  destruct (field_at b2 s2 n l2 x F2 ltac:(lia) I2) as (G2 & _).
  destruct (l1 !! Z.to_nat x) as [c1|] eqn:D1; simpl in G1; [|congruence].
  destruct (l2 !! Z.to_nat x) as [c2|] eqn:D2; simpl in G2; [|congruence].
  pose proof (lookup_lt_Some _ _ _ D1). pose proof (lookup_lt_Some _ _ _ D2).
  split_and!; [lia..|]. intros j Hj. destruct (decide (j = x)) as [->|]; [congruence|]. apply I3. lia.
Qed.

(** [strncmp] decides the equality of two fields. *)
Lemma strncmp_field `{CBuf B1, CBuf B2} (b1 : B1) s1 (b2 : B2) s2 n l1 l2 :
  0 <= n -> field b1 s1 n l1 -> field b2 s2 n l2 ->
  exists r, strncmp b1 s1 b2 s2 n = Some r /\ (r = 0 <-> l1 = l2).
Proof.
  intros Hn F1 F2. pose proof (agree_field b1 s1 b2 s2 n l1 l2) as Hpre.
  destruct (strncmp_spec b1 s1 b2 s2 n Hn) as (r & -> & Hr).
  { intros k Hk A. destruct (Hpre k F1 F2 ltac:(lia) A) as (I1 & I2 & _).
    destruct (field_at b1 s1 n l1 k F1 Hk I1) as (G1 & _ & R1).
    destruct (field_at b2 s2 n l2 k F2 Hk I2) as (G2 & _ & R2). eauto 10. }
  exists r. split; [done|]. destruct Hr as [[-> A]|(k & x & y & Hk & A & E1 & E2 & Hxy & Hd)].
  - destruct (Hpre n F1 F2 ltac:(lia) A) as (I1 & I2 & I3). destruct F1 as [L1 _], F2 as [L2 _].
    split; [intros _|done]. apply list_eq. intros j. destruct (decide (j < Z.to_nat n)%nat).
    + rewrite <- (Nat2Z.id j). apply I3. lia.
    + by rewrite !lookup_ge_None_2 by lia.
  - destruct (Hpre k F1 F2 ltac:(lia) A) as (I1 & I2 & I3).
    destruct (field_at b1 s1 n l1 k F1 Hk I1) as (G1 & P1 & _).
    destruct (field_at b2 s2 n l2 k F2 Hk I2) as (G2 & P2 & _).
    rewrite Hxy. rewrite G1 in E1. rewrite G2 in E2. injection E1 as E1. injection E2 as E2. split.
    + intros ->. destruct Hd as [|Hy]; [done|]. apply list_eq. intros j.
      destruct (decide (j < Z.to_nat k)%nat); [rewrite <- (Nat2Z.id j); apply I3; lia|].
      by rewrite !lookup_ge_None_2 by lia.
    + intros ->. congruence.
Qed.

Section CopySpecs.
Context {B : Type} `{CBufLaws B}.

(** The bytes [strncpy] writes from the characters [l] (without their NUL):
    the first [n], padded with NULs. *)
Definition strncpy_bytes (l : list Z) (n : Z) : list Z :=
  take (Z.to_nat n) l ++ replicate (Z.to_nat n - length l) 0.

(** The source [src] shows the string [l], up to its NUL or up to [n]
    characters (and then the read of index [n] is defined), whatever is written
    to the destination [dest .. dest+n). *)
Definition shows (b0 : B) (src : B -> Z -> option Z) (dest n : Z) (l : list Z) : Prop :=
  forall b, (forall j, ~ (dest <= j < dest + n) -> bget b j = bget b0 j) ->
    (forall i, 0 <= i <= Z.of_nat (length l) -> i < n -> src b i = Some (default 0 (l !! Z.to_nat i))) /\
    (n <= Z.of_nat (length l) -> is_Some (src b n)).

Definition written (b0 b : B) (dest n : Z) (l : list Z) (i : Z) : Prop :=
  bcap b = bcap b0 /\
  forall j, bget b j = if decide (dest <= j < dest + i) then strncpy_bytes l n !! Z.to_nat (j - dest)
                       else bget b0 j.

Lemma written_step b0 b dest n l i c :
  written b0 b dest n l i -> 0 <= i < n -> 0 <= dest -> dest + n <= bcap b0 ->
  strncpy_bytes l n !! Z.to_nat i = Some c -> 0 <= c < 256 ->
  exists b', bput b (dest + i) c = Some b' /\ written b0 b' dest n l (i + 1).
Proof.
  intros [Hcap W] Hi Hd Hn Hc Hr. destruct (bput_in b (dest + i) c) as [b' E]; [lia|].
  exists b'. split; [done|]. split; [by rewrite (bput_cap _ _ _ _ E)|].
  intros j. rewrite (bput_get _ _ _ _ j E). destruct (decide (dest + i = j)) as [<-|].
  - rewrite decide_True by lia. replace (dest + i - dest) with i by lia. by rewrite Hc, u8_small.
  - rewrite W. by repeat case_decide; try lia.
Qed.

Lemma strncpy_bytes_lookup l n i :
  0 <= i < n -> strncpy_bytes l n !! Z.to_nat i = Some (default 0 (l !! Z.to_nat i)).
Proof.
  intros Hi. unfold strncpy_bytes. destruct (decide (Z.to_nat i < length l)%nat).
  - rewrite lookup_app_l by (rewrite length_take; lia). rewrite lookup_take_lt by lia.
    by destruct (lookup_lt_is_Some_2 l (Z.to_nat i)) as [c ->].
  - rewrite lookup_app_r by (rewrite length_take; lia).
    rewrite lookup_replicate_2 by (rewrite length_take; lia).
    by rewrite (lookup_ge_None_2 l) by lia.
Qed.

Lemma strncpy_spec b dest src n l :
  0 <= n < 4294967296 -> 0 <= dest -> dest + n <= bcap b ->
  Forall (fun c => 0 < c < 256) l -> shows b src dest n l ->
  exists b', strncpy b dest src n = Some b' /\ written b b' dest n l n.
Proof.
  intros Hn Hd Hcap Hl Hsrc. unfold strncpy.
  assert (Hc : forall i, 0 <= i -> 0 <= default 0 (l !! Z.to_nat i) < 256).
  { intros i Hi. destruct (l !! Z.to_nat i) as [c|] eqn:E; simpl; [|lia].
    rewrite Forall_lookup in Hl. specialize (Hl _ _ E). lia. }
  match goal with |- context [whileM ?f ?st] =>
    destruct (whileM_total
      (fun '(bi, i) => 0 <= i <= n /\ i <= Z.of_nat (length l) /\ written b bi dest n l i)
      (fun '(_, i) => n - i)
      (fun '(bi, i) => 0 <= i <= n /\ (i < n -> i = Z.of_nat (length l)) /\ written b bi dest n l i) f st)
      as ([b1 i1] & -> & Hi1 & Hend & W1) end.
  - intros [bi i] (Hi & Hil & W). destruct (Hsrc bi) as [Hs Hs'].
    { intros j Hj. destruct W as [_ ->]. by rewrite decide_False by lia. }
    destruct (decide (i = n)) as [->|].
    { destruct Hs' as [c ->]; [done|]. simpl. rewrite decide_False by lia. split; [done|]. split; [lia|done]. }
    rewrite Hs by lia. simpl. case_decide as D.
    2: { split; [done|]. split; [|done]. intros Hin. destruct (decide (i = Z.of_nat (length l))); [done|].
         destruct (lookup_lt_is_Some_2 l (Z.to_nat i)) as [c E]; [lia|].
         rewrite Forall_lookup in Hl. specialize (Hl _ _ E). rewrite E in D. simpl in D. lia. }
    destruct (written_step b bi dest n l i _ W ltac:(lia) Hd Hcap (strncpy_bytes_lookup l n i ltac:(lia)) (Hc i ltac:(lia)))
      as (b' & -> & W'). simpl. split; [|lia]. split; [lia|]. split; [|done].
    destruct (decide (i = Z.of_nat (length l))) as [->|]; [|lia].
    rewrite Nat2Z.id, lookup_ge_None_2 in D by done. simpl in D. lia.
  - split; [lia|]. split; [lia|]. split; [done|]. intros j. by rewrite decide_False by lia.
  - unfold FUEL. lia.
  - simpl. apply (for_upM_ind (fun i bi => written b bi dest n l i)); [lia|done|].
    intros i bi Hi W. apply written_step; [done|lia..| |lia].
    rewrite strncpy_bytes_lookup by lia. by rewrite lookup_ge_None_2 by lia.
Qed.

(** What every store keeps, [strncpy] keeps. *)
Lemma strncpy_inv (P : B -> Prop) b dest src n b' :
  (forall b i v b', P b -> bput b i v = Some b' -> P b') ->
  P b -> strncpy b dest src n = Some b' -> P b'.
Proof.
  intros Hput HP. unfold strncpy. destruct (whileM _ _) as [[b1 i1]|] eqn:E; simpl; [|done].
  assert (P1 : P b1).
  { eapply (whileM_partial (fun st => P (fst st)) (fun r => P (fst r))) in E; [done| |done].
    intros [bi i] Hi. destruct (src bi i); simpl; [|done]. case_decide; [|done].
    destruct (bput bi _ _) eqn:E'; simpl; [|done]. by eapply Hput. }
  apply foldM_inv; [|done]. intros i b2 b3 H2. by apply Hput.
Qed.
End CopySpecs.

Lemma strncpy_mem_ok (m m' : mem) dest src n : mem_ok m -> strncpy m dest src n = Some m' -> mem_ok m'.
Proof.
  apply strncpy_inv. intros b i v b' Hb. simpl. case_decide; [|done]. intros [= <-]. by apply mem_ok_st8.
Qed.

(** ** Properties *)

(** C31: [itoa] writes a C string that [atoi] reads back, in every base from 2
    to 36 and for every 32-bit value (as the signed number of the same bits),
    and it stays within the 33 bytes that the longest string needs. *)
Theorem itoa_atoi_roundtrip `{CBufLaws B} (value radix buf : Z) (b : B) :
  0 <= value < 4294967296 -> 2 <= radix <= 36 -> 0 <= buf -> buf + 33 <= bcap b ->
  exists b', itoa value b buf radix = Some b' /\ atoi b' buf radix = Some (s32 value) /\
    forall j, ~ (buf <= j < buf + 33) -> bget b' j = bget b j.
Proof.
  intros Hv Hr Hbuf Hcap.
  destruct (itoa_spec value b buf radix Hv Hr Hbuf Hcap) as (b' & E & _ & S & F).
  pose proof (digits_length radix value) as L. exists b'. split; [done|]. split.
  - rewrite (atoi_spec b' buf radix _ Hr (digits_range radix value ltac:(lia)) S) by lia.
    by rewrite horner_digits by lia.
  - intros j Hj. apply F. lia.
Qed.

Lemma itoa_atoi_roundtrip_witness :
  exists b', itoa 4294967254 (replicate 40 0) 3 16 = Some b' /\ atoi b' 3 16 = Some (-42).
Proof.
  destruct (itoa_atoi_roundtrip 4294967254 16 3 (replicate 40 0)) as (b' & E & A & _).
  - lia.
  - lia.
  - lia.
  - by vm_compute.
  - exists b'. split; [exact E|exact A].
Defined.

(** [memcpy], which copies bytes up to a word boundary, then words, then
    the last bytes, has the effect of a bytewise copy: the [n] bytes at [dest]
    become those that were at [src] and no other byte changes; the ranges may
    overlap when the destination is below the source. *)
Theorem memcpy_correct (m : mem) (dest src n : Z) :
  mem_ok m -> 0 <= n -> 0 <= dest -> dest + n < 4294967296 -> 0 <= src -> src + n < 4294967296 ->
  (dest <= src \/ src + n <= dest) ->
  exists m', memcpy m dest src n = Some m' /\
    load_bytes m' dest n = load_bytes m src n /\
    forall x, ~ (dest <= x < dest + n) -> ld8 m' x = ld8 m x.
Proof.
  intros Hm Hn Hd Hdn Hs Hsn Hov.
  destruct (memcpy_spec m dest src n) as (m' & E & C); try done.
  exists m'. split; [done|]. split; [apply copied_bytes; done || lia|].
  intros x Hx. by rewrite C, decide_False.
Qed.

Lemma memcpy_correct_witness :
  exists m', memcpy (store_bytes ∅ 101 [1; 2; 3; 4; 5; 6; 7]) 99 101 7 = Some m' /\
    load_bytes m' 99 7 = [1; 2; 3; 4; 5; 6; 7].
Proof.
  destruct (memcpy_correct (store_bytes ∅ 101 [1; 2; 3; 4; 5; 6; 7]) 99 101 7) as (m' & E & L & _).
  - apply mem_ok_store_bytes, mem_ok_empty.
  - lia.
  - lia.
  - lia.
  - lia.
  - lia.
  - left. lia.
  - exists m'. split; [exact E|]. etrans; [exact L|]. by vm_compute.
Defined.

(** [memmove] copies correctly however the two ranges overlap. *)
Theorem memmove_correct (m : mem) (dest src n : Z) :
  mem_ok m -> 0 <= n -> 0 <= dest -> dest + n < 4294967296 -> 0 <= src -> src + n < 4294967296 ->
  load_bytes (memmove m dest src n) dest n = load_bytes m src n /\
  forall x, ~ (dest <= x < dest + n) -> ld8 (memmove m dest src n) x = ld8 m x.
Proof.
  intros Hm Hn Hd Hdn Hs Hsn.
  pose proof (memmove_spec m dest src n) as C. split.
  - apply copied_bytes; first [apply C | idtac]; done || lia.
  - intros x Hx. rewrite C by (done || lia). by rewrite decide_False.
Qed.

Lemma memmove_correct_witness :
  load_bytes (memmove (store_bytes ∅ 101 [1; 2; 3; 4; 5]) 103 101 5) 103 5 = [1; 2; 3; 4; 5].
Proof.
  destruct (memmove_correct (store_bytes ∅ 101 [1; 2; 3; 4; 5]) 103 101 5) as [L _].
  - apply mem_ok_store_bytes, mem_ok_empty.
  - lia.
  - lia.
  - lia.
  - lia.
  - lia.
  - etrans; [exact L|]. by vm_compute.
Defined.

(** The two strings agree in their first [n] characters, up to a common NUL. *)
Definition same_prefix (n : Z) (l1 l2 : list Z) : Prop := take (Z.to_nat n) l1 = take (Z.to_nat n) l2.

(** [strncmp] returns 0 exactly when the two strings are equal in their
    first [n] characters. *)
Theorem strncmp_correct `{CBufLaws B1, CBufLaws B2} (b1 : B1) (s1 : Z) (b2 : B2) (s2 n : Z) (l1 l2 : list Z) :
  0 <= n -> cstr b1 s1 l1 -> cstr b2 s2 l2 ->
  exists r, strncmp b1 s1 b2 s2 n = Some r /\ (r = 0 <-> same_prefix n l1 l2).
Proof.
  intros Hn Hl1 Hl2. apply strncmp_field; [done|by apply cstr_field..].
Qed.

Lemma strncmp_correct_witness :
  exists r, strncmp [99; 97; 116; 0] 0 [99; 97; 114; 0] 0 3 = Some r /\ r <> 0.
Proof.
  destruct (strncmp_correct [99; 97; 116; 0] 0 [99; 97; 114; 0] 0 3 [99; 97; 116] [99; 97; 114])
    as (r & E & Hr).
  - lia.
  - split; [|done]. intros [|[|[|k]]] c; intros [= <-]; by vm_compute.
  - split; [|done]. intros [|[|[|k]]] c; intros [= <-]; by vm_compute.
  - exists r. split; [exact E|]. intros H. apply Hr in H. by vm_compute in H.
Defined.

