(* ===== verification/Support.v ===== *)
(** * The library of the user programs: syscalls/ece391support.c

    The string routines every program is linked with, on the byte objects of
    the C library's model, and what they compute: lengths, copies, the
    lexicographic comparison of strings, numerals. *)
From Stdlib Require Import Ascii.
From stdpp Require Import base tactics list numbers gmap option strings.
From Stdlib Require Import ZArith Lia.
From S2P Require Import Prelude CLib.

#[local] Open Scope list_scope.
Open Scope Z_scope.

(** The characters of a string literal. *)
Definition codes (s : string) : list Z := map (fun a => Z.of_N (N_of_ascii a)) (String.list_ascii_of_string s).

(** A literal that ends with a newline. *)
Definition line (s : string) : string := s +:+ String "010" "".

Section Routines.
Context {B : Type} `{CBuf B}.

(** [ece391_strlen(s)]: the pointer and the count advance together. *)
Definition ece391_strlen (b : B) (s : Z) : option Z :=
  whileM (fun '(s, len) =>
    c ← bget b s;
    Some (if decide (0 <> c) then inl (s + 1, u32 (len + 1)) else inr len)) (s, 0).

(** [ece391_strcpy(dst, src)] within one object: each byte is copied before it
    is tested. *)
Definition ece391_strcpy (b : B) (dst src : Z) : option B :=
  whileM (fun '(b, dst, src) =>
    c ← bget b src;
    b' ← bput b dst c;
    Some (if decide (0 <> c) then inl (b', dst + 1, src + 1) else inr b')) (b, dst, src).

(** [ece391_strcmp(s1, s2)]: the difference of the first two (unsigned)
    characters that differ. *)
Definition ece391_strcmp (b : B) (s1 s2 : Z) : option Z :=
  whileM (fun '(s1, s2) =>
    x ← bget b s1;
    y ← bget b s2;
    Some (if decide (x = y) then if decide (x = 0) then inr 0 else inl (s1 + 1, s2 + 1) else inr (x - y))) (s1, s2).

(** [ece391_strncmp(s1, s2, n)] *)
Definition ece391_strncmp (b : B) (s1 s2 n : Z) : option Z :=
  if decide (0 = n) then Some 0
  else
    whileM (fun '(s1, s2, n) =>
      x ← bget b s1;
      y ← bget b s2;
      Some (if decide (x = y) then
              if decide (x = 0) then inr 0
              else let n := u32 (n - 1) in if decide (n = 0) then inr 0 else inl (s1 + 1, s2 + 1, n)
            else inr (x - y))) (s1, s2, n).

(** [ece391_strrev(s)] *)
Definition ece391_strrev (b : B) (s : Z) : option B :=
  len ← ece391_strlen b s;
  let en := s32 (len - 1) in
  if decide (en <= 0) then Some b
  else
    whileM (fun '(b, beg, en) =>
      if decide (beg < en) then
        tmp ← bget b (s + en);
        cb ← bget b (s + beg);
        b1 ← bput b (s + en) cb;
        b2 ← bput b1 (s + beg) tmp;
        Some (inl (b2, beg + 1, en - 1))
      else Some (inr b)) (b, 0, en).

(** [ece391_itoa(value, buf, radix)]: the digit loop is that of the kernel's
    [itoa]. *)
Definition ece391_itoa (value : Z) (b : B) (buf radix : Z) : option B :=
  if decide (value = 0) then
    b1 ← bput b buf 48; bput b1 (buf + 1) 0
  else
    '(b1, newbuf) ← whileM (itoa_step radix) (b, buf, value);
    b2 ← bput b1 newbuf 0;
    ece391_strrev b2 buf.
End Routines.

(** ** What they mean *)

(** The comparison of two strings: the difference of the first characters that
    differ, the end of a string counting as 0. *)
Fixpoint difference (l1 l2 : list Z) : Z :=
  match l1, l2 with
  | [], [] => 0
  | x :: _, [] => x
  | [], y :: _ => - y
  | x :: l1, y :: l2 => if decide (x = y) then difference l1 l2 else x - y
  end.

(** The order of the dictionary on characters. *)
Inductive before : list Z -> list Z -> Prop :=
  | before_end y l : before [] (y :: l)
  | before_char x y l1 l2 : x < y -> before (x :: l1) (y :: l2)
  | before_next x l1 l2 : before l1 l2 -> before (x :: l1) (x :: l2).

Lemma difference_sign l1 : forall l2, Forall (fun x => 0 < x) l1 -> Forall (fun x => 0 < x) l2 ->
  (difference l1 l2 = 0 <-> l1 = l2) /\ (difference l1 l2 < 0 <-> before l1 l2) /\ (0 < difference l1 l2 <-> before l2 l1).
Proof.
  induction l1 as [|x l1 IH]; intros [|y l2] H1 H2; cbn [difference].
  - split; [done|]. split; (split; [lia|by inversion 1]).
  - inversion_clear H2. split; [split; [lia|done]|]. split; split; try lia; [constructor|inversion 1].
  - inversion_clear H1. split; [split; [lia|done]|]. split; split; try lia; [inversion 1|constructor].
  - inversion_clear H1 as [|? ? Hx H1']. inversion_clear H2 as [|? ? Hy H2']. case_decide as D.
    + subst y. destruct (IH l2 H1' H2') as (E & L & G). rewrite E, L, G. split; [split; congruence|].
      split; (split; [by constructor|]; inversion 1; subst; [lia|done]).
    + split; [split; [lia|congruence]|].
      split; (split; [intros; constructor; lia|]; inversion 1; subst; lia).
Qed.

Section Specs.
Context {B : Type} `{CBufLaws B}.

Lemma cstr_tail (b : B) s x l : cstr b s (x :: l) -> bget b s = Some x /\ 0 < x < 256 /\ cstr b (s + 1) l.
Proof.
  intros [Hc Hz]. destruct (Hc 0%nat x eq_refl) as [E Hx]. rewrite Z.add_0_r in E.
  split; [done|]. split; [done|]. split.
  - intros k c Hk. destruct (Hc (S k) c Hk) as [E' ?]. split; [|done]. rewrite <- E'. f_equal. lia.
  - rewrite <- Hz. f_equal. cbn [length]. lia.
Qed.

Lemma cstr_end (b : B) s : cstr b s [] -> bget b s = Some 0.
Proof. intros [_ Hz]. by rewrite Z.add_0_r in Hz. Qed.

Lemma ece391_strlen_spec (b : B) s l :
  cstr b s l -> Z.of_nat (length l) < 4294967296 -> ece391_strlen b s = Some (Z.of_nat (length l)).
Proof.
  intros Hl Hlen. unfold ece391_strlen.
  match goal with |- context [whileM ?f ?st] =>
    destruct (whileM_total (fun '(p, n) => exists l1 l2, l = l1 ++ l2 /\ cstr b p l2 /\ n = Z.of_nat (length l1))
      (fun '(_, n) => Z.of_nat (length l) - n) (fun r => r = Z.of_nat (length l)) f st) as (r & -> & ->) end; [| | |done].
  - intros [p n] (l1 & [|x l2] & E & Hp & ->).
    + rewrite (cstr_end _ _ Hp), bind_ret, decide_False by tauto. rewrite E, app_nil_r. done.
    + destruct (cstr_tail _ _ _ _ Hp) as (-> & Hx & Ht). rewrite bind_ret, decide_True by lia.
      rewrite E, length_app in Hlen |- *. cbn [length] in *. rewrite u32_small by lia. split; [|lia].
      exists (l1 ++ [x]), l2. rewrite <- app_assoc, length_app. cbn [length]. split; [done|]. split; [done|lia].
  - exists [], l. done.
  - unfold FUEL. lia.
Qed.

Lemma ece391_strcmp_spec (b : B) s1 s2 l1 l2 :
  cstr b s1 l1 -> cstr b s2 l2 -> Z.of_nat (length l1) < 4294967296 -> ece391_strcmp b s1 s2 = Some (difference l1 l2).
Proof.
  intros H1 H2 Hlen. unfold ece391_strcmp.
  match goal with |- context [whileM ?f ?st] =>
    destruct (whileM_total (fun '(p, q) => exists k1 k2, cstr b p k1 /\ cstr b q k2 /\ difference l1 l2 = difference k1 k2 /\
        s1 <= p /\ p + Z.of_nat (length k1) = s1 + Z.of_nat (length l1))
      (fun '(p, _) => s1 + Z.of_nat (length l1) - p) (fun r => r = difference l1 l2) f st) as (r & -> & ->) end; [| | |done].
  - intros [p q] ([|x k1] & [|y k2] & Hp & Hq & E & Hle & Hs).
    + by rewrite (cstr_end _ _ Hp), (cstr_end _ _ Hq), E.
    + destruct (cstr_tail _ _ _ _ Hq) as (-> & Hy & _). rewrite (cstr_end _ _ Hp), E, !bind_ret, decide_False by lia.
      cbn [difference]. lia.
    + destruct (cstr_tail _ _ _ _ Hp) as (-> & Hx & _). rewrite (cstr_end _ _ Hq), E, !bind_ret, decide_False by lia.
      cbn [difference]. lia.
    + destruct (cstr_tail _ _ _ _ Hp) as (-> & Hx & Hp'). destruct (cstr_tail _ _ _ _ Hq) as (-> & Hy & Hq').
      rewrite !bind_ret. cbn [difference] in E. cbn [length] in Hs. destruct (decide (x = y)) as [->|D]; [|done].
      rewrite decide_False by lia. split; [|lia]. exists k1, k2. do 3 (split; [done|]). lia.
  - exists l1, l2. done || (do 3 (split; [done|]); lia).
  - unfold FUEL. lia.
Qed.

Lemma ece391_strncmp_spec (b : B) s1 s2 l1 l2 n :
  cstr b s1 l1 -> cstr b s2 l2 -> 0 <= n < 4294967296 ->
  ece391_strncmp b s1 s2 n = Some (difference (take (Z.to_nat n) l1) (take (Z.to_nat n) l2)).
Proof.
  intros H1 H2 Hn. unfold ece391_strncmp. case_decide as D0; [by subst n|].
  set (d := difference _ _).
  match goal with |- context [whileM ?f ?st] =>
    destruct (whileM_total (fun '(p, q, i) => exists k1 k2, cstr b p k1 /\ cstr b q k2 /\ 0 < i <= n /\
        d = difference (take (Z.to_nat i) k1) (take (Z.to_nat i) k2))
      (fun '(_, i) => i) (fun r => r = d) f st) as (r & -> & ->) end; [| | |done].
  - intros [[p q] i] (k1 & k2 & Hp & Hq & Hi & E).
    assert (Ei : Z.to_nat i = S (Z.to_nat (i - 1))) by lia. rewrite Ei in E.
    destruct k1 as [|x k1], k2 as [|y k2]; cbn [take difference] in E.
    + by rewrite (cstr_end _ _ Hp), (cstr_end _ _ Hq), E.
    + destruct (cstr_tail _ _ _ _ Hq) as (-> & Hy & _). rewrite (cstr_end _ _ Hp), E, !bind_ret, decide_False by lia. lia.
    + destruct (cstr_tail _ _ _ _ Hp) as (-> & Hx & _). rewrite (cstr_end _ _ Hq), E, !bind_ret, decide_False by lia. lia.
    + destruct (cstr_tail _ _ _ _ Hp) as (-> & Hx & Hp'). destruct (cstr_tail _ _ _ _ Hq) as (-> & Hy & Hq').
      rewrite !bind_ret. destruct (decide (x = y)) as [->|D]; [|done]. rewrite decide_False by lia.
      rewrite u32_small by lia. destruct (decide (i - 1 = 0)) as [D1|D1].
      * rewrite E, D1. done.
      * split; [|lia]. exists k1, k2. do 2 (split; [done|]). split; [lia|done].
  - exists l1, l2. do 2 (split; [done|]). split; [lia|done].
  - unfold FUEL. lia.
Qed.

(** The early return of [ece391_strrev] only skips a loop without a turn. *)
Lemma ece391_strrev_eq (b : B) s l : cstr b s l -> Z.of_nat (length l) < 4294967296 -> ece391_strrev b s = strrev b s.
Proof.
  intros Hl Hlen. unfold ece391_strrev, strrev. rewrite (ece391_strlen_spec b s l), (strlen_spec b s l) by done.
  rewrite !bind_ret. cbv zeta. case_decide as D; [|done].
  match goal with |- _ = whileM ?f ?st =>
    destruct (whileM_total (fun x => x = st) (fun _ => 0) (fun r => r = b) f st) as (r & E & ->); [|done|done|by rewrite E] end.
  intros ? ->. rewrite decide_False by lia. done.
Qed.

Lemma ece391_itoa_eq value (b : B) buf radix :
  0 <= value < 4294967296 -> 2 <= radix <= 36 -> 0 <= buf -> buf + 33 <= bcap b -> ece391_itoa value b buf radix = itoa value b buf radix.
Proof.
  intros Hv Hr Hbuf Hcap. unfold ece391_itoa, itoa. case_decide as D; [done|].
  destruct (itoa_store_spec value b buf radix) as (b1 & -> & Hd); [lia..|]. rewrite !bind_ret.
  pose proof (digits_low_length 32 radix value) as Hlen. pose proof (digits_low_36 32 radix value Hr) as Hrng.
  set (dl := digits_low 32 radix value) in *. clearbody dl. destruct (bput_in b1 (buf + Z.of_nat (length dl)) 0) as [b2 E2].
  { rewrite (proj1 Hd). lia. }
  rewrite E2, !bind_ret. apply (ece391_strrev_eq b2 buf (digit_char <$> dl)); [|rewrite length_fmap; lia].
  by eapply (digits_at_cstr b b1).
Qed.

(** A copy to a lower address, or to one past the string: the bytes arrive
    with their NUL and nothing else changes. *)
Lemma ece391_strcpy_spec (b : B) dst src l :
  cstr b src l -> 0 <= dst -> dst + Z.of_nat (length l) < bcap b -> dst <= src \/ src + Z.of_nat (length l) < dst ->
  Z.of_nat (length l) < 4294967296 ->
  exists b', ece391_strcpy b dst src = Some b' /\ bcap b' = bcap b /\ cstr b' dst l /\
    forall j, ~ (dst <= j <= dst + Z.of_nat (length l)) -> bget b' j = bget b j.
Proof.
  intros Hl Hd Hcap Hov Hlen. unfold ece391_strcpy. set (n := Z.of_nat (length l)) in *.
  set (copied := fun (i : Z) (bi : B) => bcap bi = bcap b /\ forall j, bget bi j =
    if decide (dst <= j < dst + i) then bget b (src + (j - dst)) else bget b j).
  match goal with |- context [whileM ?f ?st] =>
    destruct (whileM_total (fun '(bi, p, q) => exists i, 0 <= i <= n /\ p = dst + i /\ q = src + i /\ copied i bi)
      (fun '(_, p, _) => dst + n - p) (copied (n + 1)) f st) as (b' & -> & Hc & Hg) end.
  - intros [[bi p] q] (i & Hi & -> & -> & Hc & Hg).
    rewrite Hg, decide_False, (cstr_at b src l i Hl) by lia. rewrite bind_ret.
    set (c := default 0 (l !! Z.to_nat i)).
    destruct (bput_in bi (dst + i) c) as [b1 E1]; [lia|]. rewrite E1, bind_ret.
    assert (Hu : u8 c = c /\ (c = 0 <-> i = n)).
    { subst c. destruct (decide (i = n)) as [->|Hne]; [by rewrite lookup_ge_None_2 by lia|].
      pose proof (cstr_nonzero b src l i Hl ltac:(lia)). rewrite u8_small by lia. lia. }
    assert (Hnext : copied (i + 1) b1).
    { split; [by rewrite (bput_cap _ _ _ _ E1)|]. intros j. rewrite (bput_get _ _ _ _ _ E1). destruct (decide (dst + i = j)) as [<-|Hne].
      - rewrite decide_True by lia. rewrite (proj1 Hu). replace (src + (dst + i - dst)) with (src + i) by lia.
        by rewrite (cstr_at b src l i Hl) by lia.
      - rewrite Hg. repeat case_decide; try done; lia. }
    destruct (decide (0 <> c)) as [D|D].
    + split; [|lia]. exists (i + 1). split; [lia|]. split; [lia|]. split; [lia|done].
    + replace (n + 1) with (i + 1) by lia. done.
  - exists 0. split; [lia|]. split; [lia|]. split; [lia|]. split; [done|]. intros j. by rewrite decide_False by lia.
  - unfold FUEL. lia.
  - exists b'. split; [done|]. split; [done|]. split.
    + split.
      * intros k c Hk. pose proof (lookup_lt_Some _ _ _ Hk). rewrite Hg, decide_True by lia.
        replace (src + (dst + Z.of_nat k - dst)) with (src + Z.of_nat k) by lia. by apply Hl.
      * rewrite Hg, decide_True by lia. replace (src + (dst + Z.of_nat (length l) - dst)) with (src + Z.of_nat (length l)) by lia. apply Hl.
    + intros j Hj. rewrite Hg, decide_False by lia. done.
Qed.
End Specs.

(** In flat memory the copy leaves every address outside the destination alone. *)
Lemma ece391_strcpy_inv {B : Type} `{CBuf B} (P : B -> Prop) (b : B) dst src b' :
  (forall b i v b', P b -> bput b i v = Some b' -> P b') -> P b -> ece391_strcpy b dst src = Some b' -> P b'.
Proof.
  intros Hput HP. unfold ece391_strcpy. intros E.
  eapply (whileM_partial (fun st => P st.1.1) P) in E; [done| |done].
  intros [[bi p] q] Hi. destruct (bget bi q); simpl; [|done]. destruct (bput bi p _) eqn:E'; simpl; [|done].
  case_decide; by eapply Hput.
Qed.

Lemma ece391_strcpy_mem (m : mem) dst src l :
  mem_ok m -> cstr m src l -> 0 <= dst -> dst + Z.of_nat (length l) < 4294967296 -> dst <= src ->
  exists m', ece391_strcpy m dst src = Some m' /\ mem_ok m' /\ cstr m' dst l /\
    forall a, ~ (dst <= a <= dst + Z.of_nat (length l)) -> ld8 m' a = ld8 m a.
Proof.
  intros Hm Hl Hd Hb Hs. destruct (ece391_strcpy_spec m dst src l Hl Hd) as (m' & E & _ & Hc & Hg); [cbn; lia|by left|lia|].
  exists m'. split; [exact E|]. split; [|split; [exact Hc|]].
  - apply (ece391_strcpy_inv mem_ok m dst src m'); [|done|exact E]. intros b i v b' Hb'. simpl. case_decide; [|done].
    intros [= <-]. by apply mem_ok_st8.
  - intros a Ha. destruct (decide (0 <= a < 4294967296)) as [D|D].
    + specialize (Hg a Ha). cbn [bget mem_buf] in Hg. rewrite !decide_True in Hg by done. by injection Hg.
    + apply (ece391_strcpy_inv (fun x => ld8 x a = ld8 m a) m dst src m'); [|done|exact E]. intros b i v b' Hb'. simpl.
      case_decide; [|done]. intros [= <-]. rewrite ld8_st8_ne by (intros ->; done). done.
Qed.
