(* ===== verification/Task.v ===== *)
(** * Tasks: student-distrib/task.h, page.h and the kernel-stack arithmetic

    The process control block, the FILE structure and the addresses the macros
    of task.h compute.  A table of file operations (a struct of four function
    pointers) is named by its constructor. *)
From stdpp Require Import base tactics list numbers gmap option.
From Stdlib Require Import ZArith Lia.
From S2P Require Import Prelude.

Open Scope Z_scope.

(** ** Constants *)
Definition BUF_SIZE : Z := 256.
Definition TASK_MAX_FILES : Z := 8.
Definition TASK_START_PAGE : Z := 2.
Definition TASK_PAGE_INDEX (c : Z) : Z := TASK_START_PAGE + c.
Definition TASK_IMG_START_ADDR : Z := 0x8048000.
Definition TASK_KSTACK_TOP (c : Z) : Z := 0x800000 - 0x2000 * (c + 1).
Definition TASK_KSTACK_BOT (c : Z) : Z := 0x800000 - 0x2000 * c.
(** [~0x1FFF] as an unsigned 32-bit mask. *)
Definition KSTACK_TOP_MASK : Z := 0xFFFFE000.
Definition MAX_PROC_NUM : Z := 10.
Definition SIG_SIZE : Z := 5.

Definition TASK_VIRT_PAGE_BEG : Z := 0x8000000.
Definition TASK_VIRT_PAGE_END : Z := 0x8400000.
Definition TASK_VIDMEM_START : Z := 0x8800000.
Definition USER_PAGE_INDEX : Z := Z.shiftr TASK_VIRT_PAGE_BEG 22.
Definition USER_VIDMEM_INDEX : Z := Z.shiftr TASK_VIDMEM_START 22.

Definition KERNEL_CS : Z := 0x10.
Definition KERNEL_DS : Z := 0x18.
Definition USER_CS : Z := 0x23.
Definition USER_DS : Z := 0x2B.

(** ** Files *)
Inductive task_file_flags_type_t := TASK_FILE_REG | TASK_FILE_DIR | TASK_FILE_RTC | TASK_FILE_TERM.

(** The five tables of file operations the kernel defines. *)
Inductive file_ops_table_t :=
  | fs_file_ops_table | fs_dir_ops_table | rtc_file_ops_table
  | stdin_file_ops_table | stdout_file_ops_table.

#[export] Instance file_flags_eq_dec : EqDecision task_file_flags_type_t.
Proof. solve_decision. Defined.

#[export] Instance file_ops_eq_dec : EqDecision file_ops_table_t.
Proof. solve_decision. Defined.

Record FILE := mkFILE {
  file_ops : file_ops_table_t;
  f_inode : Z;               (* int32_t *)
  f_pos : Z;                 (* int32_t *)
  f_type : task_file_flags_type_t;
  f_used : Z                 (* uint8_t *)
}.

Definition with_file_ops (o : file_ops_table_t) (f : FILE) : FILE :=
  mkFILE o (f_inode f) (f_pos f) (f_type f) (f_used f).
Definition with_inode (i : Z) (f : FILE) : FILE :=
  mkFILE (file_ops f) i (f_pos f) (f_type f) (f_used f).
Definition with_pos (p : Z) (f : FILE) : FILE :=
  mkFILE (file_ops f) (f_inode f) p (f_type f) (f_used f).
Definition with_type (t : task_file_flags_type_t) (f : FILE) : FILE :=
  mkFILE (file_ops f) (f_inode f) (f_pos f) t (f_used f).
Definition with_used (u : Z) (f : FILE) : FILE :=
  mkFILE (file_ops f) (f_inode f) (f_pos f) (f_type f) u.

(** ** Process control blocks *)
Record PCB_t := mkPCB {
  open_files : list FILE;            (* TASK_MAX_FILES entries *)
  parent : Z;                        (* address of the parent's PCB, or 0 *)
  cmd_args : option (list Z);        (* the copied argument string, or NULL *)
  pcb_esp : Z;
  pcb_ebp : Z;
  signals : Z;                       (* int8_t: a bit per signal *)
  pcb_pid : Z;
  term_ind : Z;
  malloc_obj_count : Z;
  signal_handlers : list Z           (* SIG_SIZE entries, 0 is NULL *)
}.

Definition with_open_files (v : list FILE) (p : PCB_t) : PCB_t :=
  mkPCB v (parent p) (cmd_args p) (pcb_esp p) (pcb_ebp p) (signals p) (pcb_pid p) (term_ind p)
    (malloc_obj_count p) (signal_handlers p).
Definition with_saved (esp ebp : Z) (p : PCB_t) : PCB_t :=
  mkPCB (open_files p) (parent p) (cmd_args p) esp ebp (signals p) (pcb_pid p) (term_ind p)
    (malloc_obj_count p) (signal_handlers p).
Definition with_signals (v : Z) (p : PCB_t) : PCB_t :=
  mkPCB (open_files p) (parent p) (cmd_args p) (pcb_esp p) (pcb_ebp p) v (pcb_pid p) (term_ind p)
    (malloc_obj_count p) (signal_handlers p).
Definition with_malloc_obj_count (v : Z) (p : PCB_t) : PCB_t :=
  mkPCB (open_files p) (parent p) (cmd_args p) (pcb_esp p) (pcb_ebp p) (signals p) (pcb_pid p)
    (term_ind p) v (signal_handlers p).
Definition with_signal_handlers (v : list Z) (p : PCB_t) : PCB_t :=
  mkPCB (open_files p) (parent p) (cmd_args p) (pcb_esp p) (pcb_ebp p) (signals p) (pcb_pid p)
    (term_ind p) (malloc_obj_count p) v.

(** The size of the structure on the 32-bit target: eight FILEs of 20 bytes,
    four pointers, three bytes and one of padding, the count, five pointers. *)
Definition sizeof_FILE : Z := 20.
Definition PCB_SIZE : Z := 8 * sizeof_FILE + 4 * 4 + 4 + 4 + SIG_SIZE * 4.

(** [get_cur_pcb()]: the PCB lies at the low end of the running task's 8 KB
    kernel stack, so masking the stack pointer finds it. *)
Definition get_cur_pcb (cur_esp : Z) : Z := Z.land cur_esp KSTACK_TOP_MASK.

(** The bit of a signal, and raising it in the [int8_t] of a PCB. *)
Definition SIG_DIV_ZERO : Z := 0.
Definition SIG_SEGFAULT : Z := 1.
Definition SIG_KB_INT : Z := 2.
Definition SIG_ALARM : Z := 3.
Definition SIG_FLAG (s : Z) : Z := Z.shiftl 1 s.
Definition raise_signal (s : Z) (p : PCB_t) : PCB_t :=
  with_signals (s8 (Z.lor (signals p) (SIG_FLAG s))) p.

(** ** The store of PCBs

    The kernel reaches a PCB only through its address. *)
Abbreviation pcb_store := (gmap Z PCB_t).

(** A FILE pointer handed to the RTC driver: [&pcb->open_files[i]], as the
    address of the PCB and the index. *)
Abbreviation fptr := (Z * Z)%type.

Definition get_file (st : pcb_store) (fp : fptr) : option FILE :=
  p ← st !! fp.1; arr_get (open_files p) fp.2.

Definition set_file (st : pcb_store) (fp : fptr) (f : FILE) : option pcb_store :=
  p ← st !! fp.1;
  l ← arr_set (open_files p) fp.2 f;
  Some (<[fp.1 := with_open_files l p]> st).

(** ** Lemmas *)

(** The stack pointer of a running task is above its PCB and at most at the
    bottom of its stack; every such value but the bottom itself (an empty
    stack) finds the task's PCB. *)
Lemma get_cur_pcb_stack c esp :
  0 <= c < MAX_PROC_NUM -> TASK_KSTACK_TOP c <= esp < TASK_KSTACK_BOT c ->
  get_cur_pcb esp = TASK_KSTACK_TOP c.
Proof.
  unfold MAX_PROC_NUM, TASK_KSTACK_TOP, TASK_KSTACK_BOT, get_cur_pcb, KSTACK_TOP_MASK. intros Hc He.
  assert (E : Z.land esp 0xFFFFE000 = esp - esp mod 8192).
  { change 0xFFFFE000 with (Z.ldiff (Z.ones 32) (Z.ones 13)).
    rewrite <- (Z.mod_small esp (2 ^ 32)) at 1 by lia. rewrite <- Z.land_ones by lia.
    replace (esp - esp mod 8192) with (Z.ldiff esp (Z.ones 13)).
    - apply Z.bits_inj'. intros i Hi. rewrite !Z.land_spec, !Z.ldiff_spec.
      destruct (decide (i < 32)).
      + rewrite (Z.ones_spec_low 32) by lia. by rewrite andb_true_r, andb_true_l.
      + rewrite (Z.ones_spec_high 32) by lia. rewrite andb_false_r. simpl. symmetry.
        rewrite <- (Z.mod_small esp (2 ^ 32)), Z.mod_pow2_bits_high by lia. done.
    - rewrite Z.ldiff_ones_r by lia. rewrite Z.shiftl_mul_pow2, Z.shiftr_div_pow2 by lia.
      change (2 ^ 13) with 8192. zlia. }
  rewrite E. zlia.
Qed.

Lemma TASK_KSTACK_TOP_inj c d : TASK_KSTACK_TOP c = TASK_KSTACK_TOP d -> c = d.
Proof. unfold TASK_KSTACK_TOP. lia. Qed.

Lemma set_file_get st fp f st' fp' :
  set_file st fp f = Some st' ->
  get_file st' fp' = if decide (fp = fp') then Some f else get_file st fp'.
Proof.
  unfold set_file, get_file. destruct fp as [a i], fp' as [a' i']. simpl.
  destruct (st !! a) as [p|] eqn:Ep; simpl; [|done].
  destruct (arr_set (open_files p) i f) as [l|] eqn:El; simpl; [|done].
  intros [= <-]. unfold arr_set in El. case_decide as Hi; [|done]. injection El as <-.
  destruct (decide (a = a')) as [->|Hne].
  - rewrite lookup_insert_eq. simpl. destruct (decide (i = i')) as [->|Hni].
    + rewrite decide_True by done. rewrite arr_get_lookup by lia. apply list_lookup_insert_eq. lia.
    + rewrite decide_False by congruence. rewrite Ep. simpl. unfold arr_get. case_decide; [|done].
      apply list_lookup_insert_ne. lia.
  - rewrite lookup_insert_ne by done. rewrite decide_False by congruence. done.
Qed.

Lemma set_file_Some st fp f f0 :
  get_file st fp = Some f0 -> exists st', set_file st fp f = Some st'.
Proof.
  unfold get_file, set_file. destruct (st !! fp.1) as [p|]; simpl; [|done].
  unfold arr_get, arr_set. case_decide; [|done]. intros Hl.
  pose proof (lookup_lt_Some _ _ _ Hl). rewrite decide_True by lia. simpl. eauto.
Qed.
