(* ===== verification/FileSys.v ===== *)
(** * The read-only file system: student-distrib/file_sys.c

    The image the boot loader places in memory: a boot block (three counts and
    64-byte directory entries), one 4 KB inode per file and 4 KB data blocks.
    The functions read it through the pointers [fs_init] computes, with the
    32-bit arithmetic of the source; a buffer they fill is an address in the
    same memory. *)
From stdpp Require Import base tactics list numbers gmap option.
From Stdlib Require Import ZArith Lia.
From S2P Require Import Prelude CLib Task.

Open Scope Z_scope.

Definition MAX_NAME_LENGTH : Z := 32.
Definition MAX_BLOCK_NUM : Z := 1023.
Definition BLOCK_SIZE : Z := 0x1000.
Definition BBLOCK_DENTRIES_OFF : Z := 64.
Definition BBLOCK_COUNT_OFF : Z := 4.
Definition BOOT_ENTRIES_OFF : Z := 4.
Definition FILE_TYPE_RTC : Z := 0.
Definition FILE_TYPE_DIR : Z := 1.
Definition FILE_TYPE_REG : Z := 2.

(** A directory entry held in a local variable (its reserved bytes are never
    read). *)
Record dentry_t := mkDentry {
  filename : list Z;       (* MAX_NAME_LENGTH chars *)
  filetype : Z;            (* int32_t *)
  inode_num : Z            (* int32_t *)
}.

(** The static variables of file_sys.c. *)
Record fs_globals := mkFs {
  bblock_ptr : Z;
  inodes : Z;
  dentries : Z
}.

Definition fs_init (boot_ptr : Z) : fs_globals :=
  mkFs boot_ptr (u32 (boot_ptr + BLOCK_SIZE)) (u32 (boot_ptr + BBLOCK_DENTRIES_OFF)).

(** ** Layout: the struct accesses of the source as addresses *)

(** [&dentries[index]]; filename at 0, filetype at 32, inode_num at 36. *)
Definition dentry_addr (g : fs_globals) (index : Z) : Z := u32 (dentries g + 64 * index).
(** [&inodes[inode_num]]; file_size at 0, data_blocks at 4. *)
Definition inode_addr (g : fs_globals) (i : Z) : Z := u32 (inodes g + BLOCK_SIZE * i).
Definition file_size (m : mem) (g : fs_globals) (i : Z) : Z := ld32 m (inode_addr g i).
Definition data_blocks (m : mem) (g : fs_globals) (i k : Z) : Z :=
  ld32 m (u32 (inode_addr g i + 4 + 4 * k)).

(** ** Names *)

(** [fn_length(fname)]: a [strlen] that stops at MAX_NAME_LENGTH. *)
Definition fn_length `{CBuf B} (b : B) (fname : Z) : option Z :=
  whileM (fun len =>
    c ← bget b (fname + len);
    Some (if decide (c <> 0) then
            if decide (len + 1 = MAX_NAME_LENGTH) then inr (len + 1) else inl (len + 1)
          else inr len)) 0.

(** ** Directory entries *)

(** [read_dentry_by_index(index, &dentry)]: the return value and the entry. *)
Definition read_dentry_by_index (m : mem) (g : fs_globals) (index : Z) (dentry : dentry_t)
  : option (Z * dentry_t) :=
  let num_dentries := ld32 m (bblock_ptr g) in
  if decide (num_dentries <= index \/ index < 0) then Some (-1, dentry)
  else
    let file_type := s32 (ld32 m (u32 (dentry_addr g index + 32))) in
    let inode_n := s32 (ld32 m (u32 (dentry_addr g index + 36))) in
    name ← strncpy (filename dentry) 0 (other m (dentry_addr g index)) MAX_NAME_LENGTH;
    Some (0, mkDentry name file_type inode_n).

(** [read_dentry_by_name(fname, &dentry)] *)
Definition read_dentry_by_name `{CBuf B} (m : mem) (g : fs_globals) (b : B) (fname : Z)
  (dentry : dentry_t) : option (Z * dentry_t) :=
  let num_dentries := s32 (ld32 m (bblock_ptr g)) in
  name_length ← fn_length b fname;
  if decide (name_length = 0) then Some (-1, dentry)
  else
    match for_break 0 num_dentries (fun i (_ : unit) =>
      match strncmp m (dentry_addr g i) b fname MAX_NAME_LENGTH with
      | None => inr None
      | Some 0 =>
          inr ('(_, d) ← read_dentry_by_index m g i dentry; Some (0, d))
      | Some _ => inl tt
      end) tt with
    | inl _ => Some (-1, dentry)
    | inr r => r
    end.

(** [fs_open(filename, file)]; [dent] is the uninitialised local. *)
Definition fs_open `{CBuf B} (m : mem) (g : fs_globals) (dent : dentry_t) (b : B) (fname : Z)
  (file : FILE) : option (Z * FILE) :=
  '(r, dent) ← read_dentry_by_name m g b fname dent;
  if decide (r <> 0) then Some (-1, file)
  else
    let file := with_inode (inode_num dent) (with_pos 0 file) in
    if decide (filetype dent = FILE_TYPE_REG)
    then Some (0, with_type TASK_FILE_REG (with_file_ops fs_file_ops_table file))
    else Some (0, with_type TASK_FILE_DIR (with_file_ops fs_dir_ops_table file)).

(** ** File data *)

(** The loop variables of [read_data]. *)
Record rd_state := mkRd {
  rd_mem : mem;
  rd_index : Z;            (* starting_index *)
  rd_byte : Z;             (* cur_byte *)
  rd_buf : Z;              (* cur_buf_pos *)
  rd_count : Z             (* num_bytes *)
}.

(** The address of byte [off] of data block [block]. *)
Definition data_addr (g : fs_globals) (inode_count block off : Z) : Z :=
  u32 (bblock_ptr g + inode_count * BLOCK_SIZE + block * BLOCK_SIZE + off + BLOCK_SIZE).

(** One turn of the copy loop: switch to the next data block when the position
    is a multiple of the block size (and not the very first byte of the file),
    then copy one byte out of a 32-bit load. *)
Definition read_data_step (g : fs_globals) (inode_n inode_count data_offset i : Z) (s : rd_state)
  : rd_state :=
  let s :=
    if decide (Z.rem (i + data_offset) BLOCK_SIZE = 0 /\ i + data_offset <> 0) then
      let starting_index := rd_index s + 1 in
      let cur_data_block := data_blocks (rd_mem s) g inode_n starting_index in
      mkRd (rd_mem s) starting_index (data_addr g inode_count cur_data_block 0) (rd_buf s) (rd_count s)
    else s in
  mkRd (st8 (rd_mem s) (rd_buf s) (ld32 (rd_mem s) (rd_byte s)))
       (rd_index s) (u32 (rd_byte s + 1)) (u32 (rd_buf s + 1)) (rd_count s + 1).

(** [read_data(inode_num, offset, buf, length)]: the return value and the
    memory. *)
Definition read_data (m : mem) (g : fs_globals) (inode_n offset buf len : Z) : Z * mem :=
  let inode_count := s32 (ld32 m (u32 (bblock_ptr g + BBLOCK_COUNT_OFF))) in
  if decide (inode_count < inode_n \/ inode_n < 0) then (0, m)
  else if decide (file_size m g inode_n <= offset) then (0, m)
  else
    let actual_len :=
      if decide (file_size m g inode_n < u32 (len + offset))
      then s32 (file_size m g inode_n - offset) else s32 len in
    let starting_index := offset / BLOCK_SIZE in
    let cur_data_block := data_blocks m g inode_n starting_index in
    let data_offset := offset mod BLOCK_SIZE in
    let cur_byte := data_addr g inode_count cur_data_block data_offset in
    let s := for_up 0 actual_len (read_data_step g inode_n inode_count data_offset)
               (mkRd m starting_index cur_byte buf 0) in
    (rd_count s, rd_mem s).

(** ** The two operation tables *)

Definition fs_file_open (file : FILE) : Z * FILE := (0, file).

Definition fs_file_read (m : mem) (g : fs_globals) (buf len : Z) (file : FILE) : Z * mem * FILE :=
  let '(bytes_read, m) := read_data m g (f_inode file) (u32 (f_pos file)) buf len in
  (bytes_read, m, with_pos (s32 (f_pos file + bytes_read)) file).

Definition fs_file_write (buf len : Z) (file : FILE) : Z := -1.

Definition fs_file_close (file : FILE) : Z := 0.

Definition fs_dir_open (file : FILE) : Z * FILE := (0, file).

(** [fs_dir_read(buf, length, file)]: the next directory entry's name, always
    MAX_NAME_LENGTH bytes; [length] is not looked at.  [read_dentry] is the
    uninitialised local.  [strncpy] looks at one character more than it copies:
    after a name of 32 characters that is the low byte of the field that
    follows it in the structure, [filetype]. *)
Definition fs_dir_read (m : mem) (g : fs_globals) (read_dentry : dentry_t) (buf len : Z) (file : FILE)
  : option (Z * mem * FILE) :=
  '(r, d) ← read_dentry_by_index m g (u32 (f_pos file)) read_dentry;
  if decide (r <> 0) then Some (0, m, file)
  else
    m1 ← strncpy m buf (other (filename d ++ [u8 (filetype d)]) 0) MAX_NAME_LENGTH;
    n ← fn_length m1 buf;
    Some (n, m1, with_pos (s32 (f_pos file + 1)) file).

Definition fs_dir_write (buf len : Z) (file : FILE) : Z := -1.

Definition fs_dir_close (file : FILE) : Z := 0.

(** ** Abstract contents *)

(** Byte [k] of the file behind inode [i]. *)
Definition file_byte (m : mem) (g : fs_globals) (i k : Z) : Z :=
  let ic := s32 (ld32 m (u32 (bblock_ptr g + BBLOCK_COUNT_OFF))) in
  ld8 m (data_addr g ic (data_blocks m g i (k / BLOCK_SIZE)) (k mod BLOCK_SIZE)).

(** The [n] bytes from [off] on, and the whole file. *)
Definition file_slice (m : mem) (g : fs_globals) (i off n : Z) : list Z :=
  map (fun k => file_byte m g i (off + k)) (seqZ 0 n).

Definition file_contents (m : mem) (g : fs_globals) (i : Z) : list Z :=
  file_slice m g i 0 (file_size m g i).

(** The characters of a name field up to its NUL. *)
Fixpoint until_nul (l : list Z) : list Z :=
  match l with
  | [] => []
  | c :: l' => if decide (c = 0) then [] else c :: until_nul l'
  end.

(** The name in directory entry [i]. *)
Definition dentry_name (m : mem) (g : fs_globals) (i : Z) : list Z :=
  until_nul (load_bytes m (dentry_addr g i) MAX_NAME_LENGTH).

(** The number of inodes and of data blocks the boot block declares. *)
Definition inode_count (m : mem) (g : fs_globals) : Z := ld32 m (u32 (bblock_ptr g + BBLOCK_COUNT_OFF)).
Definition data_count (m : mem) (g : fs_globals) : Z := ld32 m (u32 (bblock_ptr g + 2 * BOOT_ENTRIES_OFF)).

(** The bytes the image occupies. *)
Definition image_size (m : mem) (g : fs_globals) : Z := BLOCK_SIZE * (1 + inode_count m g + data_count m g).
Definition in_image (m : mem) (g : fs_globals) (a : Z) : Prop :=
  bblock_ptr g <= a < bblock_ptr g + image_size m g.

(** A well-formed image: it lies below 4 GB, its directory fits the boot block
    and every block number of every file names a data block of the image. *)
Record fs_wf (m : mem) (g : fs_globals) : Prop := {
  wf_mem : mem_ok m;
  wf_ptr : g = fs_init (bblock_ptr g);
  wf_base : 0 <= bblock_ptr g;
  wf_end : bblock_ptr g + image_size m g <= 4294967296;
  wf_dirs : ld32 m (bblock_ptr g) <= 63;
  wf_size : forall i, 0 <= i < inode_count m g -> file_size m g i <= BLOCK_SIZE * MAX_BLOCK_NUM;
  wf_blocks : forall i k, 0 <= i < inode_count m g -> 0 <= k -> BLOCK_SIZE * k < file_size m g i ->
    data_blocks m g i k < data_count m g
}.

(** ** Reading the image *)

Lemma u8_ld32 m a : mem_ok m -> u8 (ld32 m a) = ld8 m a.
Proof.
  intros Hm. unfold ld32. pose proof (Hm a). wrap_lia.
Qed.

Lemma ld32_agree m mi a :
  0 <= a -> a + 4 <= 4294967296 ->
  (forall x, a <= x < a + 4 -> ld8 mi x = ld8 m x) -> ld32 mi a = ld32 m a.
Proof.
  intros Ha Hb Hx. unfold ld32. rewrite !(u32_small (a + _)) by lia.
  rewrite !Hx by lia. done.
Qed.

Section Image.
Context (m : mem) (g : fs_globals) (Hwf : fs_wf m g).

Lemma counts_small : 0 <= inode_count m g < 1048576 /\ 0 <= data_count m g < 1048576.
Proof.
  destruct Hwf as [Hm _ Hb He _ _ _]. unfold image_size, inode_count, data_count, BLOCK_SIZE in *.
  pose proof (ld32_range m (u32 (bblock_ptr g + BBLOCK_COUNT_OFF)) Hm).
  pose proof (ld32_range m (u32 (bblock_ptr g + 2 * BOOT_ENTRIES_OFF)) Hm). lia.
Qed.

Lemma inode_count_s32 : s32 (ld32 m (u32 (bblock_ptr g + BBLOCK_COUNT_OFF))) = inode_count m g.
Proof. pose proof counts_small. apply s32_small. unfold inode_count in *. lia. Qed.

Lemma inode_addr_in i :
  0 <= i < inode_count m g -> inode_addr g i = bblock_ptr g + BLOCK_SIZE * (1 + i).
Proof.
  intros Hi. pose proof counts_small. destruct Hwf as [_ Hp Hb He _ _ _].
  unfold image_size, BLOCK_SIZE in *. unfold inode_addr, BLOCK_SIZE. rewrite Hp at 1. simpl.
  unfold BLOCK_SIZE. rewrite u32_add_l. rewrite u32_small by lia. lia.
Qed.

(** Any read of the image is unchanged by writes elsewhere. *)
Definition image_kept (mi : mem) : Prop := forall a, in_image m g a -> ld8 mi a = ld8 m a.

Lemma data_blocks_kept mi i k :
  image_kept mi -> 0 <= i < inode_count m g -> 0 <= k < MAX_BLOCK_NUM ->
  data_blocks mi g i k = data_blocks m g i k.
Proof.
  intros HK Hi Hk. pose proof counts_small. destruct Hwf as [_ _ Hb He _ _ _].
  unfold data_blocks. rewrite inode_addr_in by done.
  unfold image_size, BLOCK_SIZE, MAX_BLOCK_NUM in *.
  rewrite u32_small by lia. apply ld32_agree; [lia..|].
  intros x Hx. apply HK. unfold in_image, image_size, BLOCK_SIZE. lia.
Qed.

Lemma data_addr_in i k r :
  0 <= i < inode_count m g -> 0 <= k -> BLOCK_SIZE * k < file_size m g i -> 0 <= r < BLOCK_SIZE ->
  in_image m g (data_addr g (inode_count m g) (data_blocks m g i k) r).
Proof.
  intros Hi Hk Hs Hr. pose proof counts_small. pose proof (wf_blocks _ _ Hwf i k Hi Hk Hs) as Hblk.
  pose proof (ld32_range m (u32 (inode_addr g i + 4 + 4 * k)) (wf_mem _ _ Hwf)) as H0.
  change (ld32 _ _) with (data_blocks m g i k) in H0.
  destruct Hwf as [_ _ Hb He _ _ _]. unfold in_image, image_size, data_addr, BLOCK_SIZE in *.
  rewrite u32_small by lia. lia.
Qed.

(** The state of the copy loop after [i] bytes: the bytes are in the buffer
    and the cursor is in block [q] at offset [r]. *)
Definition rd_at (inode off buf i : Z) (s : rd_state) : Prop :=
  (forall x, ld8 (rd_mem s) x =
     if decide (buf <= x < buf + i) then file_byte m g inode (off + (x - buf)) else ld8 m x) /\
  rd_count s = i /\ rd_buf s = u32 (buf + i) /\
  exists r, BLOCK_SIZE * rd_index s + r = off + i /\ 0 <= r <= BLOCK_SIZE /\ (r = 0 -> i = 0) /\ (r = BLOCK_SIZE -> 0 < i) /\
    0 <= rd_index s /\
    rd_byte s = data_addr g (inode_count m g) (data_blocks m g inode (rd_index s)) r.

Lemma data_addr_next ic b r : u32 (data_addr g ic b r + 1) = data_addr g ic b (r + 1).
Proof. unfold data_addr. rewrite u32_add_l. f_equal. lia. Qed.

Lemma file_byte_eq inode q r :
  0 <= r < BLOCK_SIZE ->
  file_byte m g inode (BLOCK_SIZE * q + r) =
  ld8 m (data_addr g (inode_count m g) (data_blocks m g inode q) r).
Proof.
  intros Hr. unfold file_byte. rewrite inode_count_s32. unfold BLOCK_SIZE in *.
  replace ((4096 * q + r) / 4096) with q by zlia.
  by replace ((4096 * q + r) mod 4096) with r by zlia.
Qed.

Lemma rd_copy inode off buf i q r mi cnt :
  0 <= inode < inode_count m g -> 0 <= off -> 0 <= i -> off + i < file_size m g inode ->
  0 <= buf -> buf + i < 4294967296 ->
  (forall a, buf <= a < buf + (i + 1) -> ~ in_image m g a) ->
  mem_ok mi ->
  (forall x, ld8 mi x = if decide (buf <= x < buf + i) then file_byte m g inode (off + (x - buf)) else ld8 m x) ->
  BLOCK_SIZE * q + r = off + i -> 0 <= r < BLOCK_SIZE -> 0 <= q -> cnt = i ->
  rd_at inode off buf (i + 1)
    (mkRd (st8 mi (u32 (buf + i)) (ld32 mi (data_addr g (inode_count m g) (data_blocks m g inode q) r)))
       q (u32 (data_addr g (inode_count m g) (data_blocks m g inode q) r + 1))
       (u32 (u32 (buf + i) + 1)) (cnt + 1)).
Proof.
  intros Hino Hoff Hi Hsz Hbuf Hbuf' Hdis Hok Hmi Hpos Hr Hq ->.
  assert (Hin := data_addr_in inode q r Hino Hq ltac:(lia) Hr).
  split_and!; simpl; [|done|rewrite u32_add_l; f_equal; lia|].
  - intros x. rewrite ld8_st8, (u32_small (buf + i)) by lia.
    destruct (decide (buf + i = x)) as [<-|Hne].
    + rewrite decide_True by lia. replace (off + (buf + i - buf)) with (BLOCK_SIZE * q + r) by lia.
      rewrite file_byte_eq, u8_ld32, Hmi by done. rewrite decide_False; [done|].
      intros ?. apply (Hdis (data_addr g (inode_count m g) (data_blocks m g inode q) r)); [lia|done].
    + rewrite Hmi. by repeat case_decide; try lia.
  - exists (r + 1). rewrite data_addr_next. split_and!; [lia..|done].
Qed.

Lemma rd_step inode off buf i n s :
  0 <= inode < inode_count m g -> 0 <= off -> 0 <= i < n -> off + n <= file_size m g inode ->
  0 <= buf -> buf + n <= 4294967296 ->
  (forall a, buf <= a < buf + n -> ~ in_image m g a) ->
  rd_at inode off buf i s ->
  rd_at inode off buf (i + 1) (read_data_step g inode (inode_count m g) (off mod BLOCK_SIZE) i s).
Proof.
  intros Hino Hoff Hi Hn Hbuf Hbuf' Hdis (Hmem & Hcnt & Hb & r & Hpos & Hr & Hr0 & Hr1 & Hq & Hbyte).
  destruct s as [mi q cb bp cnt]; simpl in *. subst bp.
  pose proof (wf_size _ _ Hwf inode Hino) as Hmax.
  assert (Hok : mem_ok mi).
  { intros x. rewrite Hmem. pose proof (wf_mem _ _ Hwf) as Hok.
    case_decide; [|apply Hok]. unfold file_byte. apply Hok. }
  unfold read_data_step. simpl. rewrite Z.rem_mod_nonneg by (unfold BLOCK_SIZE; zlia).
  assert (Hmod : (i + off mod BLOCK_SIZE) mod BLOCK_SIZE = (off + i) mod BLOCK_SIZE) by (unfold BLOCK_SIZE; zlia).
  rewrite Hmod. unfold BLOCK_SIZE, MAX_BLOCK_NUM in *. case_decide as D; simpl.
  - assert (r = 4096) as -> by (destruct (decide (r = 0)); zlia).
    rewrite data_blocks_kept; [|intros a Ha; rewrite Hmem, decide_False; [done|intros ?; by apply (Hdis a); [lia|]]|done|].
    2: { unfold MAX_BLOCK_NUM. lia. }
    apply rd_copy; try done; unfold BLOCK_SIZE; try lia. intros a Ha. apply Hdis. lia.
  - assert (r <> 4096) by zlia. subst cb.
    apply rd_copy; try done; unfold BLOCK_SIZE; try lia. intros a Ha. apply Hdis. lia.
Qed.

(** Functional correctness of [read_data] inside a file. *)
Lemma read_data_in inode off buf len :
  0 <= inode < inode_count m g -> 0 <= off < file_size m g inode -> 0 <= len -> len + off < 4294967296 ->
  let n := Z.min len (file_size m g inode - off) in
  0 <= buf < 4294967296 -> buf + n <= 4294967296 ->
  (forall a, buf <= a < buf + n -> ~ in_image m g a) ->
  exists m', read_data m g inode off buf len = (n, m') /\
    forall x, ld8 m' x = if decide (buf <= x < buf + n) then file_byte m g inode (off + (x - buf)) else ld8 m x.
Proof.
  intros Hino Hoff Hlen Hov n Hbuf Hbuf' Hdis.
  pose proof counts_small as [Hic _]. pose proof (wf_size _ _ Hwf inode Hino) as Hmax.
  unfold BLOCK_SIZE, MAX_BLOCK_NUM in Hmax.
  unfold read_data. rewrite inode_count_s32. rewrite decide_False by lia. rewrite decide_False by lia.
  rewrite (u32_small (len + off)) by lia.
  assert (Hact : (if decide (file_size m g inode < len + off) then s32 (file_size m g inode - off) else s32 len) = n).
  { subst n. case_decide; rewrite s32_small; lia. }
  rewrite Hact.
  assert (HN : rd_at inode off buf n (for_up 0 n (read_data_step g inode (inode_count m g) (off mod BLOCK_SIZE))
            (mkRd m (off / BLOCK_SIZE) (data_addr g (inode_count m g) (data_blocks m g inode (off / BLOCK_SIZE)) (off mod BLOCK_SIZE)) buf 0))).
  { apply (for_up_ind (rd_at inode off buf)); [lia| |].
    - split_and!; simpl; [intros x; by rewrite decide_False by lia|done| |].
      + rewrite Z.add_0_r, u32_small; lia.
      + exists (off mod BLOCK_SIZE). repeat (split; [unfold BLOCK_SIZE; zlia|]). done.
    - intros i s Hi Hs. apply (rd_step inode off buf i n); first [done|lia]. }
  destruct (for_up 0 n _ _) as [mi q cb bp cnt]. destruct HN as (Hmem & Hcnt & _). simpl in *.
  exists mi. by subst cnt.
Qed.

Lemma kept_ld32 mi a :
  image_kept mi -> in_image m g a -> in_image m g (a + 3) -> ld32 mi a = ld32 m a.
Proof.
  intros HK Ha Ha'. destruct Hwf as [_ _ Hb He _ _ _]. unfold in_image in *.
  apply ld32_agree; [lia..|]. intros x Hx. apply HK. unfold in_image. lia.
Qed.

Lemma boot_kept mi k :
  image_kept mi -> 0 <= k <= 8 -> ld32 mi (u32 (bblock_ptr g + k)) = ld32 m (u32 (bblock_ptr g + k)).
Proof.
  intros HK Hk. pose proof counts_small. pose proof (wf_base _ _ Hwf). pose proof (wf_end _ _ Hwf).
  unfold image_size, BLOCK_SIZE in *.
  rewrite u32_small by lia. apply kept_ld32; [done|unfold in_image, image_size, BLOCK_SIZE; lia..].
Qed.

Lemma counts_kept mi : image_kept mi ->
  inode_count mi g = inode_count m g /\ data_count mi g = data_count m g.
Proof.
  intros HK. unfold inode_count, data_count, BBLOCK_COUNT_OFF, BOOT_ENTRIES_OFF.
  by rewrite !(boot_kept mi) by (done || lia).
Qed.

Lemma file_size_kept mi i :
  image_kept mi -> 0 <= i < inode_count m g -> file_size mi g i = file_size m g i.
Proof.
  intros HK Hi. pose proof counts_small. unfold file_size. rewrite inode_addr_in by done.
  apply kept_ld32; [done|unfold in_image, image_size, BLOCK_SIZE; lia..].
Qed.

Lemma file_byte_kept mi i k :
  image_kept mi -> 0 <= i < inode_count m g -> 0 <= k < file_size m g i ->
  file_byte mi g i k = file_byte m g i k.
Proof.
  intros HK Hi Hk. pose proof (wf_size _ _ Hwf i Hi). unfold MAX_BLOCK_NUM, BLOCK_SIZE in *.
  destruct (counts_kept mi HK) as [E _]. unfold file_byte.
  fold (inode_count mi g). rewrite E, inode_count_s32.
  pose proof inode_count_s32 as E'. fold (inode_count m g) in E'. rewrite E'.
  unfold BLOCK_SIZE in *. rewrite data_blocks_kept by (done || (unfold MAX_BLOCK_NUM; zlia)).
  apply HK, data_addr_in; [done|zlia|unfold BLOCK_SIZE; zlia..].
Qed.

(** Writes outside the image keep it well-formed. *)
Lemma fs_wf_kept mi : image_kept mi -> mem_ok mi -> fs_wf mi g.
Proof.
  intros HK Hok. destruct (counts_kept mi HK) as [E1 E2]. split.
  - done.
  - apply Hwf.
  - apply Hwf.
  - unfold image_size. rewrite E1, E2. apply Hwf.
  - pose proof (boot_kept mi 0 HK ltac:(lia)) as E. rewrite Z.add_0_r in E.
    pose proof counts_small. pose proof (wf_base _ _ Hwf). pose proof (wf_end _ _ Hwf).
    unfold image_size, BLOCK_SIZE in *. rewrite u32_small in E by lia. rewrite E. apply Hwf.
  - intros i. rewrite E1. intros Hi. rewrite file_size_kept by done. by apply Hwf.
  - intros i k. rewrite E1, E2. intros Hi Hk Hs. rewrite file_size_kept in Hs by done.
    pose proof (wf_size _ _ Hwf i Hi). unfold BLOCK_SIZE, MAX_BLOCK_NUM in *.
    rewrite data_blocks_kept by (done || (unfold MAX_BLOCK_NUM; lia)). by apply Hwf.
Qed.

Lemma read_data_empty inode off buf len :
  inode < 0 \/ inode_count m g < inode \/ (0 <= inode < inode_count m g /\ file_size m g inode <= off) ->
  read_data m g inode off buf len = (0, m).
Proof.
  intros H. unfold read_data. rewrite inode_count_s32. case_decide; [done|].
  by rewrite decide_True by lia.
Qed.

(** The bytes a read delivers: none for a bad inode or past the end, else as
    many as asked for, up to the end of the file. *)
Definition read_len (inode off len : Z) : Z :=
  if decide (0 <= inode < inode_count m g) then Z.max 0 (Z.min len (file_size m g inode - off)) else 0.

(** A read delivers a slice of the file and writes nothing else. *)
Lemma read_data_all inode off buf len :
  inode <> inode_count m g -> 0 <= off -> 0 <= len -> len + off < 4294967296 ->
  0 <= buf < 4294967296 -> buf + read_len inode off len <= 4294967296 ->
  (forall a, buf <= a < buf + read_len inode off len -> ~ in_image m g a) ->
  exists m', read_data m g inode off buf len = (read_len inode off len, m') /\
    forall x, ld8 m' x = if decide (buf <= x < buf + read_len inode off len)
                         then file_byte m g inode (off + (x - buf)) else ld8 m x.
Proof.
  intros Hne Hoff Hlen Hov Hbuf Hbuf' Hdis. unfold read_len in *. case_decide as Hi.
  - destruct (decide (file_size m g inode <= off)).
    + rewrite read_data_empty by lia. exists m. split; [f_equal; lia|].
      intros x. by rewrite decide_False by lia.
    + rewrite Z.max_r by lia. rewrite Z.max_r in Hbuf', Hdis by lia.
      apply read_data_in; first [done | lia].
  - rewrite read_data_empty by lia. exists m. split; [done|].
    intros x. by rewrite decide_False by lia.
Qed.

Lemma read_slice m' inode off buf n :
  0 <= buf -> 0 <= n -> buf + n <= 4294967296 ->
  (forall x, ld8 m' x = if decide (buf <= x < buf + n) then file_byte m g inode (off + (x - buf)) else ld8 m x) ->
  load_bytes m' buf n = file_slice m g inode off n.
Proof.
  intros Hb Hn Hbn Hx. unfold load_bytes, file_slice. apply map_ext_in. intros i Hi.
  apply list_elem_of_In, elem_of_seqZ in Hi. rewrite u32_small by lia.
  rewrite Hx, decide_True by lia. f_equal. lia.
Qed.
End Image.

Lemma file_slice_app m g i off a b :
  0 <= a -> 0 <= b -> file_slice m g i off (a + b) = file_slice m g i off a ++ file_slice m g i (off + a) b.
Proof.
  intros Ha Hb. unfold file_slice. rewrite seqZ_app, map_app by done. f_equal. rewrite Z.add_0_l.
  rewrite <- (Z.add_0_r a) at 1. rewrite <- fmap_add_seqZ.
  change (map ?f (?h <$> ?l)) with (map f (map h l)). rewrite map_map.
  apply map_ext. intros k. f_equal. lia.
Qed.

(** ** Names *)

Lemma until_nul_nonzero l : Forall (fun c => c <> 0) (until_nul l).
Proof. induction l as [|c l IH]; simpl; [done|]. case_decide; by constructor. Qed.

Lemma until_nul_length l : (length (until_nul l) <= length l)%nat.
Proof. induction l as [|c l IH]; simpl; [done|]. case_decide; simpl; lia. Qed.

Lemma until_nul_lookup l k c : until_nul l !! k = Some c -> l !! k = Some c.
Proof.
  revert k. induction l as [|d l IH]; intros k; simpl; [done|].
  case_decide; [done|]. destruct k as [|k]; simpl; [done|apply IH].
Qed.

(** The name ends at a NUL or fills the field. *)
Lemma until_nul_end l : (length (until_nul l) < length l)%nat -> l !! length (until_nul l) = Some 0.
Proof.
  induction l as [|d l IH]; simpl; [lia|]. case_decide; simpl; [by subst|]. intros. apply IH. lia.
Qed.

(** The two characterisations of a bounded name agree. *)
Lemma until_nul_eq l1 l2 :
  (length l2 <= length l1)%nat -> Forall (fun c => c <> 0) l2 ->
  (forall k c, l2 !! k = Some c -> l1 !! k = Some c) ->
  ((length l2 < length l1)%nat -> l1 !! length l2 = Some 0) ->
  until_nul l1 = l2.
Proof.
  revert l2. induction l1 as [|d l1 IH]; intros [|c l2] Hlen Hnz Hk Hend; simpl in *; try done; try lia.
  - specialize (Hend ltac:(lia)). simplify_eq. by rewrite decide_True.
  - specialize (Hk O c eq_refl) as Hd. simpl in Hd. simplify_eq. inversion_clear Hnz.
    rewrite decide_False by done. f_equal. apply IH; [lia|done| |].
    + intros k x Hx. by apply (Hk (S k)).
    + intros ?. apply Hend. lia.
Qed.

Lemma fn_length_spec `{CBuf B} (b : B) s l :
  field b s 32 l -> fn_length b s = Some (Z.of_nat (length l)).
Proof.
  intros F. pose proof F as [Hlen _]. unfold fn_length. match goal with |- whileM ?f ?st = _ =>
    destruct (whileM_total (fun i => 0 <= i < 32 /\ i <= Z.of_nat (length l)) (fun i => 32 - i)
      (fun r => r = Z.of_nat (length l)) f st) as (r & E & ->) end.
  - intros i [Hi Hil]. destruct (field_at b s 32 l i F Hi Hil) as (-> & Hnz & _). simpl.
    destruct (decide (i = Z.of_nat (length l))) as [->|].
    + rewrite Nat2Z.id, lookup_ge_None_2 by done. simpl. lia.
    + rewrite decide_True by (specialize (Hnz ltac:(lia)); lia).
      unfold MAX_NAME_LENGTH. case_decide; lia.
  - lia.
  - unfold FUEL. lia.
  - done.
Qed.

Section Directory.
Context (m : mem) (g : fs_globals) (Hwf : fs_wf m g).

Definition num_dentries : Z := ld32 m (bblock_ptr g).

Lemma num_dentries_small : 0 <= num_dentries <= 63.
Proof.
  unfold num_dentries. split; [apply ld32_range, Hwf|apply Hwf].
Qed.

Lemma dentry_addr_in i :
  0 <= i < num_dentries -> dentry_addr g i = bblock_ptr g + 64 + 64 * i /\ dentry_addr g i + 64 <= 4294967296.
Proof.
  intros Hi. pose proof num_dentries_small. pose proof (counts_small m g Hwf).
  destruct Hwf as [_ Hp Hb He _ _ _]. unfold image_size, BLOCK_SIZE in He.
  unfold dentry_addr. rewrite Hp. simpl. unfold BBLOCK_DENTRIES_OFF. rewrite u32_add_l.
  rewrite u32_small by lia. lia.
Qed.

Lemma name_byte i j :
  0 <= i < num_dentries -> 0 <= j <= 32 ->
  bget m (dentry_addr g i + j) = Some (ld8 m (dentry_addr g i + j)).
Proof.
  intros Hi Hj. pose proof (dentry_addr_in i Hi). pose proof num_dentries_small.
  destruct Hwf as [_ _ Hb _ _ _ _]. simpl. by rewrite decide_True by lia.
Qed.

Lemma name_field i j :
  0 <= i < num_dentries -> 0 <= j < 32 ->
  load_bytes m (dentry_addr g i) MAX_NAME_LENGTH !! Z.to_nat j = Some (ld8 m (dentry_addr g i + j)).
Proof.
  intros Hi Hj. pose proof (dentry_addr_in i Hi). destruct Hwf as [_ _ Hb _ _ _ _].
  pose proof num_dentries_small. rewrite lookup_load_bytes by done. by rewrite u32_small by lia.
Qed.

Lemma name_field_length i : length (load_bytes m (dentry_addr g i) MAX_NAME_LENGTH) = 32%nat.
Proof. apply Nat2Z.inj. by rewrite length_load_bytes. Qed.

Lemma dentry_name_length i : (length (dentry_name m g i) <= 32)%nat.
Proof. unfold dentry_name. etrans; [apply until_nul_length|]. by rewrite name_field_length. Qed.

Lemma dentry_name_char i k c :
  0 <= i < num_dentries -> dentry_name m g i !! k = Some c ->
  ld8 m (dentry_addr g i + Z.of_nat k) = c /\ 0 < c < 256.
Proof.
  intros Hi Hk. pose proof (lookup_lt_Some _ _ _ Hk). pose proof (dentry_name_length i).
  pose proof (until_nul_lookup _ _ _ Hk) as E.
  rewrite <- (Nat2Z.id k), name_field in E by (done || lia). injection E as E. split; [done|].
  pose proof (wf_mem _ _ Hwf (dentry_addr g i + Z.of_nat k)).
  pose proof (until_nul_nonzero (load_bytes m (dentry_addr g i) MAX_NAME_LENGTH)) as Hnz.
  rewrite Forall_lookup in Hnz. specialize (Hnz _ _ Hk). simpl in Hnz. lia.
Qed.

Lemma dentry_name_end i :
  0 <= i < num_dentries -> (length (dentry_name m g i) < 32)%nat ->
  ld8 m (dentry_addr g i + Z.of_nat (length (dentry_name m g i))) = 0.
Proof.
  intros Hi Hl. unfold dentry_name in *.
  pose proof (until_nul_end (load_bytes m (dentry_addr g i) MAX_NAME_LENGTH)) as E.
  rewrite name_field_length in E. specialize (E Hl).
  set (n := length (until_nul _)) in *. rewrite <- (Nat2Z.id n), name_field in E by (done || lia).
  by injection E.
Qed.

(** The entry [read_dentry_by_index] copies out. *)
Definition dentry_of (i : Z) : dentry_t :=
  mkDentry (strncpy_bytes (dentry_name m g i) 32)
    (s32 (ld32 m (u32 (dentry_addr g i + 32)))) (s32 (ld32 m (u32 (dentry_addr g i + 36)))).

Lemma dentry_name_chars i : 0 <= i < num_dentries -> Forall (fun c => 0 < c < 256) (dentry_name m g i).
Proof.
  intros Hi. rewrite Forall_lookup. intros k c Hk. by apply (dentry_name_char i k c).
Qed.

(** The name field, read through any index up to the end of its name. *)
Lemma dentry_name_at i j :
  0 <= i < num_dentries -> 0 <= j <= Z.of_nat (length (dentry_name m g i)) -> j < 32 ->
  ld8 m (dentry_addr g i + j) = default 0 (dentry_name m g i !! Z.to_nat j).
Proof.
  intros Hi Hj Hj'. destruct (decide (j = Z.of_nat (length (dentry_name m g i)))) as [->|].
  - rewrite Nat2Z.id, lookup_ge_None_2 by done. apply dentry_name_end; [done|lia].
  - destruct (lookup_lt_is_Some_2 (dentry_name m g i) (Z.to_nat j)) as [c E]; [lia|].
    destruct (dentry_name_char i _ c Hi E) as [Hc _]. rewrite Z2Nat.id in Hc by lia. by rewrite Hc, E.
Qed.

Lemma written_list (b b' : list Z) n l :
  length b = Z.to_nat n -> written b b' 0 n l n -> b' = strncpy_bytes l n.
Proof.
  intros Hb [Hcap W]. simpl in Hcap. apply list_eq. intros k.
  destruct (decide (k < Z.to_nat n)%nat).
  - specialize (W (Z.of_nat k)). simpl in W. rewrite decide_True in W by lia.
    rewrite arr_get_lookup, Z.sub_0_r, Nat2Z.id in W by lia. done.
  - rewrite !lookup_ge_None_2; [done| |lia].
    unfold strncpy_bytes. rewrite length_app, length_take, length_replicate. lia.
Qed.

Lemma read_dentry_by_index_in i d :
  0 <= i < num_dentries -> length (filename d) = 32%nat ->
  read_dentry_by_index m g i d = Some (0, dentry_of i).
Proof.
  intros Hi Hd. unfold read_dentry_by_index. change (ld32 m (bblock_ptr g)) with num_dentries.
  rewrite decide_False by lia.
  destruct (strncpy_spec (filename d) 0 (other m (dentry_addr g i)) 32 (dentry_name m g i)) as (b' & E & W).
  - lia.
  - done.
  - simpl. lia.
  - by apply dentry_name_chars.
  - intros b Hb. unfold other. split.
    + intros j Hj Hj'. rewrite name_byte by (done || lia). by rewrite dentry_name_at.
    + intros _. rewrite name_byte by (done || lia). eauto.
  - unfold MAX_NAME_LENGTH. rewrite E. simpl. by rewrite (written_list _ _ 32 _ Hd W).
Qed.

Lemma read_dentry_by_index_out i d :
  ~ (0 <= i < num_dentries) -> read_dentry_by_index m g i d = Some (-1, d).
Proof.
  intros Hi. unfold read_dentry_by_index. change (ld32 m (bblock_ptr g)) with num_dentries.
  by rewrite decide_True by lia.
Qed.

(** The directory entry a name refers to: the first whose name agrees with it
    in 32 characters. *)
Definition find_dentry (l : list Z) : option Z :=
  head (filter (fun i => dentry_name m g i = take 32 l) (seqZ 0 num_dentries)).

Lemma dentry_field i : 0 <= i < num_dentries -> field m (dentry_addr g i) 32 (dentry_name m g i).
Proof.
  intros Hi. pose proof (dentry_name_length i). split_and!; [lia| |].
  - intros k c Hk. pose proof (lookup_lt_Some _ _ _ Hk). destruct (dentry_name_char i k c Hi Hk) as [E R].
    rewrite name_byte, E by (done || lia). done.
  - intros Hl. rewrite name_byte, dentry_name_end by (done || lia). done.
Qed.

Lemma read_dentry_by_name_spec `{CBufLaws B} (b : B) fname l d :
  cstr b fname l -> length (filename d) = 32%nat ->
  read_dentry_by_name m g b fname d =
  Some (match l with
        | [] => (-1, d)
        | _ => match find_dentry l with Some i => (0, dentry_of i) | None => (-1, d) end
        end).
Proof.
  intros Hl Hd. unfold read_dentry_by_name. rewrite (fn_length_spec b fname (take 32 l)) by (apply (cstr_field b fname 32); done).
  rewrite bind_ret.
  pose proof num_dentries_small as Hn. change (ld32 m (bblock_ptr g)) with num_dentries.
  destruct l as [|c l']; [by rewrite decide_True|]. rewrite decide_False by (simpl; lia).
  set (l := c :: l') in *. rewrite s32_small by lia. unfold for_break. rewrite Z.sub_0_r.
  rewrite (fold_break_find (fun i => dentry_name m g i = take 32 l) (fun i => Some (0, dentry_of i))).
  - unfold find_dentry. by destruct (head _).
  - intros i Hi. apply elem_of_seqZ in Hi. unfold MAX_NAME_LENGTH.
    destruct (strncmp_field m (dentry_addr g i) b fname 32 (dentry_name m g i) (take 32 l)) as (r & -> & Hr);
      [done|apply dentry_field; lia|by apply (cstr_field b fname 32)|].
    destruct (decide (dentry_name m g i = take 32 l)) as [E|E].
    + apply Hr in E as ->. rewrite read_dentry_by_index_in by (done || lia). done.
    + assert (r <> 0) by tauto. by destruct r.
Qed.
End Directory.

(** ** Whole files and whole directories *)

(** A client that reads a file in pieces of [len] bytes into one buffer until
    a read returns 0 (the loop of cat and of the program loader's callers);
    [k] bounds the number of reads. *)
Fixpoint read_chunks (k : nat) (m : mem) (g : fs_globals) (buf len : Z) (file : FILE) : option (list Z) :=
  match k with
  | O => None
  | S k' =>
      let '(n, m1, file1) := fs_file_read m g buf len file in
      if decide (n = 0) then Some []
      else rest ← read_chunks k' m1 g buf len file1; Some (load_bytes m1 buf n ++ rest)
  end.

(** A client that reads directory entries until a read returns 0 (the loop of
    ls). *)
Fixpoint list_dir (k : nat) (m : mem) (g : fs_globals) (d : dentry_t) (buf len : Z) (file : FILE)
  : option (list (list Z)) :=
  match k with
  | O => None
  | S k' =>
      '(n, m1, file1) ← fs_dir_read m g d buf len file;
      if decide (n = 0) then Some []
      else rest ← list_dir k' m1 g d buf len file1; Some (load_bytes m1 buf n :: rest)
  end.

Section Clients.
Context (m : mem) (g : fs_globals) (Hwf : fs_wf m g).
Context (buf : Z) (Hbuf : 0 <= buf).

Lemma read_len_kept mi inode off len :
  image_kept m g mi -> read_len mi g inode off len = read_len m g inode off len.
Proof.
  intros HK. destruct (counts_kept m g Hwf mi HK) as [E _]. unfold read_len. rewrite E.
  case_decide; [|done]. by rewrite (file_size_kept m g Hwf).
Qed.

Lemma file_slice_kept mi i off n :
  image_kept m g mi -> 0 <= i < inode_count m g -> 0 <= off -> off + n <= file_size m g i ->
  file_slice mi g i off n = file_slice m g i off n.
Proof.
  intros HK Hi Ho Hn. unfold file_slice. apply map_ext_in. intros k Hk.
  apply list_elem_of_In, elem_of_seqZ in Hk. apply file_byte_kept; first [done|lia].
Qed.

Lemma read_chunks_spec k mi len file :
  image_kept m g mi -> mem_ok mi -> 0 <= f_inode file < inode_count m g ->
  0 < len -> buf + len <= 4294967296 -> len < 2147483648 ->
  (forall a, buf <= a < buf + len -> ~ in_image m g a) ->
  0 <= f_pos file <= file_size m g (f_inode file) ->
  file_size m g (f_inode file) - f_pos file < Z.of_nat k ->
  read_chunks k mi g buf len file
  = Some (file_slice m g (f_inode file) (f_pos file) (file_size m g (f_inode file) - f_pos file)).
Proof.
  intros HK Hok Hi Hlen Hend Hlen' Hdis. revert mi file HK Hok Hi.
  induction k as [|k IH]; intros mi file HK Hok Hi Hpos Hk; [lia|].
  pose proof (wf_size _ _ Hwf _ Hi) as Hmax. unfold BLOCK_SIZE, MAX_BLOCK_NUM in Hmax.
  set (size := file_size m g (f_inode file)) in *.
  pose proof (fs_wf_kept m g Hwf mi HK Hok) as Hwf'.
  destruct (counts_kept m g Hwf mi HK) as [Eic Edc].
  assert (Hn : read_len mi g (f_inode file) (f_pos file) len = Z.min len (size - f_pos file)).
  { rewrite read_len_kept by done. unfold read_len. rewrite decide_True by done. fold size. lia. }
  set (n := Z.min len (size - f_pos file)) in *.
  destruct (read_data_all mi g Hwf' (f_inode file) (f_pos file) buf len) as (m1 & E & Hm1).
  1-6: rewrite ?Hn, ?Eic; lia.
  { intros a. rewrite Hn. unfold in_image, image_size. rewrite Eic, Edc. intros Ha. apply Hdis. lia. }
  rewrite Hn in E, Hm1. simpl. unfold fs_file_read. rewrite u32_small by lia. rewrite E.
  case_decide as D.
  { replace (size - f_pos file) with 0 by lia. done. }
  rewrite s32_small by lia.
  assert (HK1 : image_kept m g m1).
  { intros a Ha. rewrite Hm1, decide_False; [by apply HK|]. intros ?. apply (Hdis a); [lia|done]. }
  rewrite IH; simpl; fold size; [|done| |done|lia..].
  - simpl. f_equal. rewrite (read_slice mi g m1 (f_inode file) (f_pos file) buf n) by (done || lia).
    rewrite file_slice_kept by (done || (fold size; lia)).
    rewrite <- file_slice_app by lia. f_equal. lia.
  - intros a. rewrite Hm1. case_decide; [unfold file_byte|]; apply Hok.
Qed.

Lemma num_dentries_kept mi : image_kept m g mi -> num_dentries mi g = num_dentries m g.
Proof.
  intros HK. unfold num_dentries. pose proof (counts_small m g Hwf). pose proof (wf_base _ _ Hwf).
  apply (kept_ld32 m g Hwf); [done|unfold in_image, image_size, BLOCK_SIZE; lia..].
Qed.

Lemma dentry_name_kept mi i :
  image_kept m g mi -> 0 <= i < num_dentries m g -> dentry_name mi g i = dentry_name m g i.
Proof.
  intros HK Hi. pose proof (dentry_addr_in m g Hwf i Hi) as [E Hend].
  pose proof (num_dentries_small m g Hwf). pose proof (counts_small m g Hwf). pose proof (wf_base _ _ Hwf).
  unfold dentry_name. f_equal. apply load_bytes_ext. intros j Hj. unfold MAX_NAME_LENGTH in Hj.
  rewrite u32_small by lia. apply HK. unfold in_image, image_size, BLOCK_SIZE. lia.
Qed.

Lemma dentry_of_kept mi i :
  image_kept m g mi -> 0 <= i < num_dentries m g -> dentry_of mi g i = dentry_of m g i.
Proof.
  intros HK Hi. pose proof (dentry_addr_in m g Hwf i Hi) as [E Hend].
  pose proof (num_dentries_small m g Hwf). pose proof (counts_small m g Hwf). pose proof (wf_base _ _ Hwf). pose proof (wf_end _ _ Hwf).
  unfold dentry_of. rewrite dentry_name_kept by done. unfold image_size, BLOCK_SIZE in *.
  rewrite !u32_small by lia. by rewrite !(kept_ld32 m g Hwf mi) by (done || (unfold in_image, image_size, BLOCK_SIZE; lia)).
Qed.

Lemma find_dentry_kept mi l : image_kept m g mi -> find_dentry mi g l = find_dentry m g l.
Proof.
  clear Hbuf. intros HK. unfold find_dentry. rewrite (num_dentries_kept mi HK). f_equal.
  assert (H : forall l0 : list Z, (forall i, i ∈ l0 -> 0 <= i < num_dentries m g) ->
    filter (fun i => dentry_name mi g i = take 32 l) l0 = filter (fun i => dentry_name m g i = take 32 l) l0).
  { induction l0 as [|i l0 IH]; intros Hin; [done|]. rewrite !filter_cons.
    rewrite (dentry_name_kept mi i HK) by (apply Hin; set_solver). rewrite IH by (intros j Hj; apply Hin; set_solver). done. }
  apply H. intros i Hi. apply elem_of_seqZ in Hi. lia.
Qed.

(** What one directory read does. *)
Lemma fs_dir_read_in d len file :
  length (filename d) = 32%nat -> 0 <= f_pos file < num_dentries m g -> buf + 33 <= 4294967296 ->
  let name := dentry_name m g (f_pos file) in
  exists m', fs_dir_read m g d buf len file
      = Some (Z.of_nat (length name), m', with_pos (f_pos file + 1) file) /\
    load_bytes m' buf 32 = strncpy_bytes name 32 /\
    (forall a, 0 <= a < 4294967296 -> ~ (buf <= a < buf + 32) -> ld8 m' a = ld8 m a) /\ mem_ok m'.
Proof.
  intros Hd Hp Hend name. pose proof (num_dentries_small m g Hwf) as Hn.
  pose proof (dentry_name_chars m g Hwf _ Hp) as Hch. fold name in Hch.
  assert (Hnl : (length name <= 32)%nat) by apply dentry_name_length.
  unfold fs_dir_read. rewrite u32_small by lia.
  rewrite read_dentry_by_index_in, bind_ret by done. cbv beta iota. rewrite decide_False by lia.
  change (filename (dentry_of m g (f_pos file))) with (strncpy_bytes name 32).
  set (src := strncpy_bytes name 32 ++ _).
  assert (Hsl : length (strncpy_bytes name 32) = 32%nat).
  { unfold strncpy_bytes. rewrite length_app, length_take, length_replicate. lia. }
  destruct (strncpy_spec m buf (other src 0) 32 name) as (m1 & E & [_ W]); [lia|done|simpl; lia|done| |].
  { intros b _. unfold other. simpl. split.
    - intros i Hi Hi'. rewrite arr_get_lookup by lia. unfold src.
      rewrite lookup_app_l by lia. apply strncpy_bytes_lookup. lia.
    - intros _. unfold src. rewrite arr_get_lookup by lia. apply lookup_lt_is_Some_2.
      rewrite length_app, Hsl. simpl. lia. }
  unfold MAX_NAME_LENGTH. rewrite E, bind_ret.
  assert (Hget : forall j, 0 <= j < 32 -> ld8 m1 (buf + j) = default 0 (name !! Z.to_nat j)).
  { intros j Hj. specialize (W (buf + j)). simpl in W. rewrite !decide_True in W by lia.
    replace (buf + j - buf) with j in W by lia. rewrite strncpy_bytes_lookup in W by lia. by injection W. }
  assert (Hcap : forall j, 0 <= j <= 32 -> bget m1 (buf + j) = Some (ld8 m1 (buf + j))).
  { intros j Hj. simpl. by rewrite decide_True by lia. }
  rewrite (fn_length_spec m1 buf name).
  2: { split_and!; [lia| |].
       - intros k c Hk. pose proof (lookup_lt_Some _ _ _ Hk).
         rewrite Hcap, Hget, Nat2Z.id, Hk by lia. rewrite Forall_lookup in Hch. split; [done|by eapply Hch].
       - intros ?. rewrite Hcap, Hget by lia. by rewrite Nat2Z.id, lookup_ge_None_2. }
  rewrite bind_ret, s32_small by lia. exists m1. split_and!; [done| | |].
  - apply list_eq. intros k. destruct (decide (k < 32)%nat).
    + rewrite <- (Nat2Z.id k), lookup_load_bytes, strncpy_bytes_lookup by lia.
      by rewrite u32_small, Hget by lia.
    + rewrite !lookup_ge_None_2; [done|lia|].
      pose proof (length_load_bytes m1 buf 32 ltac:(lia)). lia.
  - intros a Ha Ha'. specialize (W a). simpl in W.
    rewrite (decide_False (P := buf <= a < buf + 32)), !decide_True in W by done. by injection W.
  - eapply strncpy_mem_ok; [apply Hwf|done].
Qed.

Lemma strncpy_bytes_name k :
  take (length (dentry_name m g k)) (strncpy_bytes (dentry_name m g k) 32) = dentry_name m g k.
Proof.
  pose proof (dentry_name_length m g k). unfold strncpy_bytes.
  rewrite take_app_le by (rewrite length_take; lia). rewrite take_take, take_ge; [done|lia].
Qed.

Lemma load_bytes_take (m1 : mem) a n l :
  load_bytes m1 a 32 = l -> 0 <= n <= 32 -> load_bytes m1 a n = take (Z.to_nat n) l.
Proof.
  intros <- Hn. apply list_eq. intros k. pose proof (length_load_bytes m1 a n ltac:(lia)).
  pose proof (length_load_bytes m1 a 32 ltac:(lia)). destruct (decide (k < Z.to_nat n)%nat).
  - rewrite lookup_take_lt by done. rewrite <- (Nat2Z.id k), !lookup_load_bytes by lia. done.
  - rewrite !lookup_ge_None_2; [done|rewrite length_take; lia|lia].
Qed.
End Clients.

Section Listing.
Context (m : mem) (g : fs_globals) (Hwf : fs_wf m g).
Context (buf : Z) (Hbuf : 0 <= buf) (Hend : buf + 33 <= 4294967296).
Context (Hdis : forall a, buf <= a < buf + 32 -> ~ in_image m g a).

(** At the end of the directory nothing is read. *)
Lemma fs_dir_read_end d len file :
  f_pos file = num_dentries m g -> fs_dir_read m g d buf len file = Some (0, m, file).
Proof.
  intros E. pose proof (num_dentries_small m g Hwf). unfold fs_dir_read.
  rewrite read_dentry_by_index_out, bind_ret; [done|]. rewrite u32_small by lia. lia.
Qed.

Lemma list_dir_spec k mi d len file :
  image_kept m g mi -> mem_ok mi -> length (filename d) = 32%nat ->
  (forall i, 0 <= i < num_dentries m g -> dentry_name m g i <> []) ->
  0 <= f_pos file <= num_dentries m g -> num_dentries m g - f_pos file < Z.of_nat k ->
  list_dir k mi g d buf len file
  = Some (dentry_name m g <$> seqZ (f_pos file) (num_dentries m g - f_pos file)).
Proof.
  intros HK Hok Hd Hne. pose proof (num_dentries_small m g Hwf) as Hn.
  revert mi file HK Hok. induction k as [|k IH]; intros mi file HK Hok Hp Hk; [lia|]. simpl list_dir.
  pose proof (fs_wf_kept m g Hwf mi HK Hok) as Hwf'. pose proof (num_dentries_kept m g Hwf mi HK) as En.
  destruct (decide (f_pos file = num_dentries m g)) as [E|].
  { unfold fs_dir_read. rewrite read_dentry_by_index_out, bind_ret; [by rewrite E, Z.sub_diag|].
    rewrite En, u32_small by lia. lia. }
  destruct (fs_dir_read_in mi g Hwf' buf Hbuf d len file Hd ltac:(lia) Hend) as (m1 & -> & Hb & Hf & Hok1).
  rewrite bind_ret. cbv beta iota. rewrite (dentry_name_kept m g Hwf mi) in * by (done || lia).
  pose proof (dentry_name_length m g (f_pos file)) as Hl.
  assert (Hlen : (length (dentry_name m g (f_pos file)) <> 0)%nat).
  { intros E0%nil_length_inv. apply (Hne (f_pos file)); [lia|done]. }
  rewrite decide_False by lia. pose proof (wf_base _ _ Hwf). pose proof (wf_end _ _ Hwf).
  rewrite IH; [|intros a Ha; rewrite Hf; [by apply HK| |intros ?; by apply (Hdis a)]|done|simpl; lia..].
  - rewrite bind_ret. simpl f_pos. rewrite (seqZ_cons (f_pos file)) by lia. f_equal. simpl fmap. f_equal.
    + rewrite (load_bytes_take m1 buf _ _ Hb) by lia. rewrite Nat2Z.id. apply strncpy_bytes_name.
    + rewrite Z.add_1_r. do 2 f_equal. lia.
  - unfold in_image in Ha. lia.
Qed.
End Listing.

(** ** Properties *)

(** C20: [read_data] copies exactly the requested slice of the file, truncated
    at the end of the file (nothing for an inode number that is no file or an
    offset past the end), across data blocks in any order on the disk, and
    writes nothing but the caller's buffer. *)
Theorem read_data_correct (m : mem) (g : fs_globals) (inode off buf len : Z) :
  fs_wf m g -> inode <> inode_count m g ->
  0 <= off -> 0 <= len -> len + off < 4294967296 ->
  let n := if decide (0 <= inode < inode_count m g)
           then Z.max 0 (Z.min len (file_size m g inode - off)) else 0 in
  0 <= buf < 4294967296 -> buf + n <= 4294967296 ->
  (forall a, buf <= a < buf + n -> ~ in_image m g a) ->
  exists m', read_data m g inode off buf len = (n, m') /\
    load_bytes m' buf n = file_slice m g inode off n /\
    forall x, ~ (buf <= x < buf + n) -> ld8 m' x = ld8 m x.
Proof.
  intros Hwf Hne Hoff Hlen Hov n Hbuf Hbuf' Hdis.
  destruct (read_data_all m g Hwf inode off buf len) as (m' & E & Hm'); try done.
  exists m'. split; [done|]. split.
  - apply read_slice; [lia|subst n; case_decide; lia|done|done].
  - intros x Hx. rewrite Hm', decide_False; [done|]. exact Hx.
Qed.

(** Reading a regular file through its descriptor in pieces of any size,
    from position 0 until a read returns 0, yields the whole contents of the
    file, however its blocks are laid out. *)
Theorem read_whole_file (m : mem) (g : fs_globals) (buf len : Z) (file : FILE) :
  fs_wf m g -> 0 <= f_inode file < inode_count m g -> f_pos file = 0 ->
  0 <= buf -> 0 < len < 2147483648 -> buf + len <= 4294967296 ->
  (forall a, buf <= a < buf + len -> ~ in_image m g a) ->
  read_chunks (S (Z.to_nat (file_size m g (f_inode file)))) m g buf len file
  = Some (file_contents m g (f_inode file)).
Proof.
  intros Hwf Hi Hp Hbuf Hlen Hend Hdis.
  assert (0 <= file_size m g (f_inode file)) by apply ld32_range, Hwf.
  rewrite (read_chunks_spec m g Hwf buf Hbuf) by (done || lia || apply Hwf).
  rewrite Hp. unfold file_contents. by rewrite Z.sub_0_r.
Qed.

Lemma fs_open_spec (m : mem) (g : fs_globals) (dent : dentry_t) `{CBufLaws B} (b : B) (fname : Z)
  (l : list Z) (file : FILE) :
  fs_wf m g -> length (filename dent) = 32%nat -> cstr b fname l -> l <> [] ->
  fs_open m g dent b fname file =
  Some (match find_dentry m g l with
        | None => (-1, file)
        | Some i =>
            (0, let reg := filetype (dentry_of m g i) =? FILE_TYPE_REG in
                mkFILE (if reg then fs_file_ops_table else fs_dir_ops_table)
                  (inode_num (dentry_of m g i)) 0
                  (if reg then TASK_FILE_REG else TASK_FILE_DIR) (f_used file))
        end).
Proof.
  intros Hwf Hd Hl Hne. unfold fs_open. rewrite (read_dentry_by_name_spec m g Hwf b fname l dent Hl Hd).
  destruct l as [|c l']; [done|]. destruct (find_dentry m g (c :: l')) as [i|]; [|done].
  rewrite bind_ret. cbv beta iota. rewrite decide_False by lia.
  destruct (Z.eqb_spec (filetype (dentry_of m g i)) FILE_TYPE_REG) as [E|E].
  - by rewrite decide_True.
  - by rewrite decide_False.
Qed.

(** [fs_open] succeeds exactly when some directory entry carries the name
    (names compare in 32 characters); it then points the descriptor at the
    inode of the first such entry, at position 0, with the operations of the
    entry's type.  Otherwise it returns -1 and leaves the descriptor alone. *)
Theorem fs_open_correct (m : mem) (g : fs_globals) (dent : dentry_t) `{CBufLaws B} (b : B) (fname : Z)
  (l : list Z) (file : FILE) :
  fs_wf m g -> length (filename dent) = 32%nat -> cstr b fname l -> l <> [] ->
  fs_open m g dent b fname file =
  Some (match find_dentry m g l with
        | None => (-1, file)
        | Some i =>
            (0, let reg := filetype (dentry_of m g i) =? FILE_TYPE_REG in
                mkFILE (if reg then fs_file_ops_table else fs_dir_ops_table)
                  (inode_num (dentry_of m g i)) 0
                  (if reg then TASK_FILE_REG else TASK_FILE_DIR) (f_used file))
        end).
Proof. intros. by apply fs_open_spec. Qed.

(** Reading the directory entry by entry, until a read returns 0, lists
    the names of all entries of the boot block in order. *)
Theorem list_whole_dir (m : mem) (g : fs_globals) (d : dentry_t) (buf len : Z) (file : FILE) :
  fs_wf m g -> length (filename d) = 32%nat -> f_pos file = 0 ->
  (forall i, 0 <= i < num_dentries m g -> dentry_name m g i <> []) ->
  0 <= buf -> buf + 33 <= 4294967296 ->
  (forall a, buf <= a < buf + 32 -> ~ in_image m g a) ->
  list_dir 64 m g d buf len file = Some (dentry_name m g <$> seqZ 0 (num_dentries m g)).
Proof.
  intros Hwf Hd Hp Hne Hbuf Hend Hdis. pose proof (num_dentries_small m g Hwf).
  rewrite (list_dir_spec m g Hwf buf Hbuf Hend Hdis) by (done || lia || apply Hwf).
  by rewrite Hp, Z.sub_0_r.
Qed.

(** ** A concrete image *)

(** One directory with the entries "." and "hi"; "hi" is a regular file of
    five bytes in data block 1 of two. *)
Definition sample_fs : fs_globals := fs_init 0x500000.

Definition sample_image : mem :=
  let put := fun l a (m : mem) => store_bytes m a l in
  put [2; 0; 0; 0; 1; 0; 0; 0; 2; 0; 0; 0] 0x500000 (
  put (46 :: replicate 31 0 ++ [1; 0; 0; 0]) 0x500040 (
  put ([104; 105] ++ replicate 30 0 ++ [2; 0; 0; 0; 0; 0; 0; 0]) 0x500080 (
  put [5; 0; 0; 0; 1; 0; 0; 0] 0x501000 (
  put [72; 101; 108; 108; 111] 0x503000 ∅)))).

Lemma sample_wf : fs_wf sample_image sample_fs.
Proof.
  split.
  - unfold sample_image. eauto 8 using mem_ok_store_bytes, mem_ok_empty.
  - reflexivity.
  - by vm_compute.
  - by vm_compute.
  - by vm_compute.
  - intros i Hi. change (inode_count _ _) with 1 in Hi. assert (i = 0) as -> by lia. by vm_compute.
  - intros i k Hi Hk. change (inode_count _ _) with 1 in Hi. assert (i = 0) as -> by lia.
    change (file_size _ _ 0) with 5. unfold BLOCK_SIZE. intros. assert (k = 0) as -> by lia. by vm_compute.
Qed.

Definition sample_dentry : dentry_t := mkDentry (replicate 32 0) 0 0.
Definition sample_file : FILE := mkFILE fs_file_ops_table 0 0 TASK_FILE_REG 1.

Lemma sample_outside a : 0x400000 <= a < 0x400100 -> ~ in_image sample_image sample_fs a.
Proof.
  intros Ha [H _]. change (bblock_ptr sample_fs) with 0x500000 in H. lia.
Qed.

Lemma read_data_correct_witness :
  exists m', read_data sample_image sample_fs 0 1 0x400000 10 = (4, m') /\
    load_bytes m' 0x400000 4 = [101; 108; 108; 111].
Proof.
  destruct (read_data_correct sample_image sample_fs 0 1 0x400000 10) as (m' & E & L & _).
  - apply sample_wf.
  - by vm_compute.
  - lia.
  - lia.
  - lia.
  - lia.
  - by vm_compute.
  - intros a. change (if decide _ then _ else _) with 4. intros. apply sample_outside. lia.
  - exists m'. split; [exact E|]. etrans; [exact L|]. by vm_compute.
Defined.

Lemma read_whole_file_witness :
  read_chunks 6 sample_image sample_fs 0x400000 2 sample_file = Some [72; 101; 108; 108; 111].
Proof.
  assert (E : file_size sample_image sample_fs (f_inode sample_file) = 5) by (by vm_compute).
  pose proof (read_whole_file sample_image sample_fs 0x400000 2 sample_file sample_wf) as H.
  rewrite E in H. change (S (Z.to_nat 5)) with 6%nat in H.
  rewrite H; clear E H; [by vm_compute|by vm_compute|done|lia|lia|lia|].
  intros a Ha. apply sample_outside. lia.
Defined.

Lemma fs_open_correct_witness :
  fs_open sample_image sample_fs sample_dentry [104; 105; 0] 0 (mkFILE fs_dir_ops_table 7 7 TASK_FILE_DIR 1)
  = Some (0, sample_file).
Proof.
  rewrite (fs_open_correct sample_image sample_fs sample_dentry [104; 105; 0] 0 [104; 105]).
  - by vm_compute.
  - apply sample_wf.
  - done.
  - split; [|done]. intros [|[|k]] c; intros [= <-]; by vm_compute.
  - done.
Defined.

Lemma list_whole_dir_witness :
  list_dir 64 sample_image sample_fs sample_dentry 0x400000 32 (mkFILE fs_dir_ops_table 0 0 TASK_FILE_DIR 1)
  = Some [[46]; [104; 105]].
Proof.
  rewrite (list_whole_dir sample_image sample_fs).
  - by vm_compute.
  - apply sample_wf.
  - done.
  - done.
  - intros i Hi. change (num_dentries _ _) with 2 in Hi.
    assert (i = 0 \/ i = 1) as [-> | ->] by lia; by vm_compute.
  - lia.
  - lia.
  - intros a Ha. apply sample_outside. lia.
Defined.
