(* ===== verification/Term.v ===== *)
(** * The terminals: student-distrib/term.c

    Three virtual terminals of 80x25 character cells.  A terminal owns a page
    of video memory (the VGA text buffer when it is on screen, a backing page
    otherwise), a cursor, a line buffer edited by the keyboard and the state of
    the escape-sequence parser of its output.

    The functions of term.c that take a [term_t *cur_term] read and write only
    that structure, its page, and the VGA cursor ports; [con] is that footprint,
    with the outcome of the source's test [cur_term == &terms[cur_term_ind]] as
    its flag [front].  The functions that reach the array [terms] work on
    [tstate]. *)
From stdpp Require Import base tactics list numbers gmap option.
From Stdlib Require Import ZArith Lia.
From S2P Require Import Prelude CLib Task.

Open Scope Z_scope.

Definition TERM_NUM : Z := 3.
Definition TERM_BUF_SIZE : Z := 127.
Definition TERM_BUF_SIZE_W_NL : Z := 128.
Definition VIDEO : Z := 0xB8000.
Definition NUM_COLS : Z := 80.
Definition NUM_ROWS : Z := 25.
Definition DEF_ATTR : Z := 0x0F.
Definition VID_MEM_SIZE : Z := 2 * 80 * 25.

(** ** Keys: kb.h *)
Inductive key_type_t := KEY_RAW | KEY_PRINT.

Record key_t := mkKey {
  key_type : key_type_t;
  modifiers : Z;
  key_code : Z
}.

Definition KEY_TAB : Z := 0x80.
Definition KEY_ESC : Z := 0x81.
Definition KEY_BACK : Z := 0x82.
Definition KEY_ENTER : Z := 0x83.
Definition KEY_UP : Z := 0x84.
Definition KEY_DOWN : Z := 0x85.
Definition KEY_LEFT : Z := 0x86.
Definition KEY_RIGHT : Z := 0x87.
Definition KEY_INSERT : Z := 0x88.
Definition KEY_DEL : Z := 0x89.
Definition KEY_F1 : Z := 0x8A.
Definition KEY_F3 : Z := 0x8C.
Definition KEY_F10 : Z := 0x93.
Definition KEY_F12 : Z := 0x95.
Definition MOD_CTRL : Z := 0x80.
Definition MOD_SHIFT : Z := 0x40.
Definition MOD_ALT : Z := 0x20.

(** The macros P, R and C of kb.h. *)
Definition P_key (c : Z) : key_t := mkKey KEY_PRINT 0 c.
Definition R_key (c : Z) : key_t := mkKey KEY_RAW 0 c.
Definition C_key (c : Z) : key_t := mkKey KEY_RAW MOD_CTRL c.

(** ** A terminal *)
Inductive esc_state_t := IDLE | A_ESCAPE | A_BRACKET | ARG_PARSE | PARTIAL_FINISH.

#[export] Instance esc_state_eq_dec : EqDecision esc_state_t.
Proof. solve_decision. Defined.

Record term_t := mkTerm {
  term_buf : list Z;   (* char[TERM_BUF_SIZE_W_NL] *)
  term_buf_count : Z;   (* uint8_t *)
  term_read_done : Z;   (* uint8_t *)
  term_curpos : Z;   (* uint8_t *)
  cur_x : Z;   (* int8_t *)
  cur_y : Z;   (* int8_t *)
  cur_x_store : Z;   (* int8_t *)
  cur_y_store : Z;   (* int8_t *)
  attr : Z;   (* uint8_t *)
  reading : Z;   (* uint8_t *)
  video_mem : Z;   (* uint8_t * *)
  video_buffer : Z;   (* uint8_t * *)
  term_noecho : Z;   (* one bit *)
  term_canon : Z;   (* one bit *)
  cur_pid : Z;   (* uint8_t *)
  esc_state : esc_state_t;   (* field [state] *)
  esc_buf : list Z;   (* field [buf], int8_t[4] *)
  esc_buf_len : Z;   (* field [buf_len], uint8_t *)
  esc_args : list Z;   (* field [args], uint8_t[4] *)
  esc_arg_len : Z   (* field [arg_len], uint8_t *)
}.

Definition set_line (v0 : list Z) (v1 : Z) (v2 : Z) (t : term_t) : term_t :=
  mkTerm v0 v1 (term_read_done t) v2 (cur_x t) (cur_y t) (cur_x_store t) (cur_y_store t) (attr t)
    (reading t) (video_mem t) (video_buffer t) (term_noecho t) (term_canon t) (cur_pid t) (esc_state
    t) (esc_buf t) (esc_buf_len t) (esc_args t) (esc_arg_len t).
Definition set_read_done (v : Z) (t : term_t) : term_t :=
  mkTerm (term_buf t) (term_buf_count t) v (term_curpos t) (cur_x t) (cur_y t) (cur_x_store t)
    (cur_y_store t) (attr t) (reading t) (video_mem t) (video_buffer t) (term_noecho t) (term_canon
    t) (cur_pid t) (esc_state t) (esc_buf t) (esc_buf_len t) (esc_args t) (esc_arg_len t).
Definition set_cursor (v0 : Z) (v1 : Z) (t : term_t) : term_t :=
  mkTerm (term_buf t) (term_buf_count t) (term_read_done t) (term_curpos t) v0 v1 (cur_x_store t)
    (cur_y_store t) (attr t) (reading t) (video_mem t) (video_buffer t) (term_noecho t) (term_canon
    t) (cur_pid t) (esc_state t) (esc_buf t) (esc_buf_len t) (esc_args t) (esc_arg_len t).
Definition set_store (v0 : Z) (v1 : Z) (t : term_t) : term_t :=
  mkTerm (term_buf t) (term_buf_count t) (term_read_done t) (term_curpos t) (cur_x t) (cur_y t) v0
    v1 (attr t) (reading t) (video_mem t) (video_buffer t) (term_noecho t) (term_canon t) (cur_pid
    t) (esc_state t) (esc_buf t) (esc_buf_len t) (esc_args t) (esc_arg_len t).
Definition set_attr (v : Z) (t : term_t) : term_t :=
  mkTerm (term_buf t) (term_buf_count t) (term_read_done t) (term_curpos t) (cur_x t) (cur_y t)
    (cur_x_store t) (cur_y_store t) v (reading t) (video_mem t) (video_buffer t) (term_noecho t)
    (term_canon t) (cur_pid t) (esc_state t) (esc_buf t) (esc_buf_len t) (esc_args t) (esc_arg_len
    t).
Definition set_reading (v : Z) (t : term_t) : term_t :=
  mkTerm (term_buf t) (term_buf_count t) (term_read_done t) (term_curpos t) (cur_x t) (cur_y t)
    (cur_x_store t) (cur_y_store t) (attr t) v (video_mem t) (video_buffer t) (term_noecho t)
    (term_canon t) (cur_pid t) (esc_state t) (esc_buf t) (esc_buf_len t) (esc_args t) (esc_arg_len
    t).
Definition set_video_mem (v : Z) (t : term_t) : term_t :=
  mkTerm (term_buf t) (term_buf_count t) (term_read_done t) (term_curpos t) (cur_x t) (cur_y t)
    (cur_x_store t) (cur_y_store t) (attr t) (reading t) v (video_buffer t) (term_noecho t)
    (term_canon t) (cur_pid t) (esc_state t) (esc_buf t) (esc_buf_len t) (esc_args t) (esc_arg_len
    t).
Definition set_video_buffer (v : Z) (t : term_t) : term_t :=
  mkTerm (term_buf t) (term_buf_count t) (term_read_done t) (term_curpos t) (cur_x t) (cur_y t)
    (cur_x_store t) (cur_y_store t) (attr t) (reading t) (video_mem t) v (term_noecho t) (term_canon
    t) (cur_pid t) (esc_state t) (esc_buf t) (esc_buf_len t) (esc_args t) (esc_arg_len t).
Definition set_noecho (v : Z) (t : term_t) : term_t :=
  mkTerm (term_buf t) (term_buf_count t) (term_read_done t) (term_curpos t) (cur_x t) (cur_y t)
    (cur_x_store t) (cur_y_store t) (attr t) (reading t) (video_mem t) (video_buffer t) v
    (term_canon t) (cur_pid t) (esc_state t) (esc_buf t) (esc_buf_len t) (esc_args t) (esc_arg_len
    t).
Definition set_canon (v : Z) (t : term_t) : term_t :=
  mkTerm (term_buf t) (term_buf_count t) (term_read_done t) (term_curpos t) (cur_x t) (cur_y t)
    (cur_x_store t) (cur_y_store t) (attr t) (reading t) (video_mem t) (video_buffer t) (term_noecho
    t) v (cur_pid t) (esc_state t) (esc_buf t) (esc_buf_len t) (esc_args t) (esc_arg_len t).
Definition set_cur_pid (v : Z) (t : term_t) : term_t :=
  mkTerm (term_buf t) (term_buf_count t) (term_read_done t) (term_curpos t) (cur_x t) (cur_y t)
    (cur_x_store t) (cur_y_store t) (attr t) (reading t) (video_mem t) (video_buffer t) (term_noecho
    t) (term_canon t) v (esc_state t) (esc_buf t) (esc_buf_len t) (esc_args t) (esc_arg_len t).
Definition set_state (v : esc_state_t) (t : term_t) : term_t :=
  mkTerm (term_buf t) (term_buf_count t) (term_read_done t) (term_curpos t) (cur_x t) (cur_y t)
    (cur_x_store t) (cur_y_store t) (attr t) (reading t) (video_mem t) (video_buffer t) (term_noecho
    t) (term_canon t) (cur_pid t) v (esc_buf t) (esc_buf_len t) (esc_args t) (esc_arg_len t).
Definition set_esc_buf (v0 : list Z) (v1 : Z) (t : term_t) : term_t :=
  mkTerm (term_buf t) (term_buf_count t) (term_read_done t) (term_curpos t) (cur_x t) (cur_y t)
    (cur_x_store t) (cur_y_store t) (attr t) (reading t) (video_mem t) (video_buffer t) (term_noecho
    t) (term_canon t) (cur_pid t) (esc_state t) v0 v1 (esc_args t) (esc_arg_len t).
Definition set_esc_args (v0 : list Z) (v1 : Z) (t : term_t) : term_t :=
  mkTerm (term_buf t) (term_buf_count t) (term_read_done t) (term_curpos t) (cur_x t) (cur_y t)
    (cur_x_store t) (cur_y_store t) (attr t) (reading t) (video_mem t) (video_buffer t) (term_noecho
    t) (term_canon t) (cur_pid t) (esc_state t) (esc_buf t) (esc_buf_len t) v0 v1.

(** What the functions on one terminal touch: the terminal, memory, the writes
    to I/O ports (port, value) in order, and whether it is the terminal on
    screen. *)
Record con := mkCon {
  tm : term_t;
  vm : mem;
  ports : list (Z * Z);
  front : bool
}.


Definition on_tm (f : term_t -> term_t) (c : con) : con := mkCon (f (tm c)) (vm c) (ports c) (front c).
Definition poke (a v : Z) (c : con) : con := mkCon (tm c) (st8 (vm c) a v) (ports c) (front c).
(** [outb(data, port)] *)
Definition outb (data port : Z) (c : con) : con := mkCon (tm c) (vm c) (ports c ++ [(port, data)]) (front c).

(** ** Screen primitives *)

Definition getposx (c : con) : Z := cur_x (tm c).
Definition getposy (c : con) : Z := cur_y (tm c).

Definition clear (c : con) : con :=
  for_up 0 (NUM_ROWS * NUM_COLS) (fun i c =>
    let c := poke (video_mem (tm c) + Z.shiftl i 1) 32 c in
    poke (video_mem (tm c) + Z.shiftl i 1 + 1) (attr (tm c)) c) c.

(** A coordinate forced into [0 .. n-1]. *)
Definition clamp (n v : Z) : Z :=
  if decide (v < 0) then 0 else if decide (n <= v) then n - 1 else v.

Definition setpos (x y : Z) (c : con) : con :=
  let x := clamp NUM_COLS x in
  let y := clamp NUM_ROWS y in
  let c := on_tm (set_cursor (s8 x) (s8 y)) c in
  if front c then
    let curpos := u16 (cur_x (tm c) + cur_y (tm c) * NUM_COLS) in
    outb (Z.land (Z.shiftr curpos 8) 0xFF) 0x3D5
      (outb 0x0E 0x3D4 (outb (Z.land curpos 0xFF) 0x3D5 (outb 0x0F 0x3D4 c)))
  else c.

Definition setattr (a : Z) (c : con) : con := on_tm (set_attr (u8 a)) c.
Definition getattr (c : con) : Z := attr (tm c).

(** The test of [get_vid_char] and [set_vid_char]. *)
Definition off_screen (x y : Z) : Prop := x < 0 \/ NUM_COLS <= x \/ y < 0 \/ NUM_ROWS <= y.
#[export] Instance off_screen_dec x y : Decision (off_screen x y).
Proof. unfold off_screen. apply _. Defined.

Definition get_vid_char (x y : Z) (c : con) : Z :=
  if decide (off_screen x y) then 0
  else ld8 (vm c) (video_mem (tm c) + Z.shiftl (NUM_COLS * y + x) 1).

Definition set_vid_char (x y ch : Z) (c : con) : con :=
  if decide (off_screen x y) then c
  else
    let c := poke (video_mem (tm c) + Z.shiftl (NUM_COLS * y + x) 1) ch c in
    poke (video_mem (tm c) + Z.shiftl (NUM_COLS * y + x) 1 + 1) (attr (tm c)) c.

(** One cell of [scroll]: copy the cell below, attribute included. *)
Definition scroll_cell (y x : Z) (c : con) : con :=
  let c := setattr (ld8 (vm c) (video_mem (tm c) + Z.shiftl (NUM_COLS * (y + 1) + x) 1 + 1)) c in
  set_vid_char x y (get_vid_char x (y + 1) c) c.

Definition scroll (c : con) : con :=
  let old_attr := attr (tm c) in
  let c := for_up 0 (NUM_ROWS - 1) (fun y => for_up 0 NUM_COLS (scroll_cell y)) c in
  let c := setattr DEF_ATTR c in
  let c := for_up 0 NUM_COLS (fun x => set_vid_char x (NUM_ROWS - 1) 32) c in
  let c := setpos (cur_x (tm c)) (cur_y (tm c) - 1) c in
  setattr old_attr c.

Definition back (c : con) : con :=
  let x := s8 (cur_x (tm c) - 1) in
  let c := on_tm (fun t => if decide (x < 0) then set_cursor (s8 (x + NUM_COLS)) (s8 (cur_y t - 1)) t
                           else set_cursor x (cur_y t) t) c in
  setpos (cur_x (tm c)) (cur_y (tm c)) c.

Definition forward (c : con) : con :=
  let x := s8 (cur_x (tm c) + 1) in
  let c := on_tm (fun t => if decide (NUM_COLS <= x) then set_cursor (s8 (x - NUM_COLS)) (s8 (cur_y t + 1)) t
                           else set_cursor x (cur_y t) t) c in
  setpos (cur_x (tm c)) (cur_y (tm c)) c.

(** The end of [putc]: scroll when the cursor has left the screen. *)
Definition scroll_if_below (c : con) : con :=
  if decide (NUM_ROWS <= cur_y (tm c))
  then on_tm (fun t => set_cursor (cur_x t) (NUM_ROWS - 1) t) (scroll c) else c.

Definition putc (ch : Z) (c : con) : con :=
  let c :=
    if decide (ch = 10) then
      scroll_if_below (on_tm (fun t => set_cursor 0 (s8 (cur_y t + 1)) t) c)
    else if decide (ch = 13) then on_tm (fun t => set_cursor 0 (cur_y t) t) c
    else if decide (ch = 8) then
      let c := back c in set_vid_char (cur_x (tm c)) (cur_y (tm c)) 32 c
    else
      let c := set_vid_char (cur_x (tm c)) (cur_y (tm c)) ch c in
      let x := s8 (cur_x (tm c) + 1) in
      scroll_if_below (on_tm (fun t =>
        if decide (NUM_COLS <= x) then set_cursor (s8 (x - NUM_COLS)) (s8 (cur_y t + 1)) t
        else set_cursor x (cur_y t) t) c) in
  setpos (cur_x (tm c)) (cur_y (tm c)) c.

(** [puts(s, cur_term)]: the characters written, and the terminal. *)
Definition puts `{CBuf B} (b : B) (s : Z) (c : con) : option (Z * con) :=
  whileM (fun '(index, c) =>
    ch ← bget b (s + index);
    Some (if decide (ch = 0) then inr (index, c) else inl (index + 1, putc (u8 ch) c))) (0, c).

(** ** Escape sequences *)

(** [setattr((getattr() & keep) | bits)] *)
Definition mix_attr (keep bits : Z) (c : con) : con :=
  setattr (Z.lor (Z.land (getattr c) keep) bits) c.

(** [esc_funcs(f, args, arg_len, cur_term)]; [f] is the final character. *)
Definition esc_funcs (f : Z) (args : list Z) (arg_len : Z) (c : con) : option con :=
  if decide (f = 102) then              (* 'f' *)
    if decide (arg_len <> 0) then
      a ← arr_get args 0; Some (mix_attr 0xF0 (Z.land a 0x0F) c)
    else Some (mix_attr 0xF0 (Z.land DEF_ATTR 0x0F) c)
  else if decide (f = 98) then          (* 'b' *)
    if decide (arg_len <> 0) then
      a ← arr_get args 0; Some (mix_attr 0x0F (Z.shiftl (Z.land a 0x0F) 4) c)
    else Some (mix_attr 0x0F (Z.land DEF_ATTR 0xF0) c)
  else if decide (f = 112) then         (* 'p' *)
    if decide (1 < arg_len) then
      a1 ← arr_get args 1; a0 ← arr_get args 0; Some (setpos (a1 - 1) (a0 - 1) c)
    else Some c
  else if decide (f = 101) then         (* 'e' *)
    Some (if decide (arg_len = 0) then on_tm (set_store (getposx c) (getposy c)) c else c)
  else if decide (f = 114) then         (* 'r' *)
    Some (if decide (arg_len = 0) then setpos (cur_x_store (tm c)) (cur_y_store (tm c)) c else c)
  else if decide (f = 99) then          (* 'c' *)
    Some (if decide (arg_len = 0) then clear c else c)
  else if decide (f = 115 \/ f = 83) then   (* 's', 'S' *)
    let setting := c_bool (bool_decide (f = 115)) in
    if decide (arg_len <> 0) then
      a ← arr_get args 0;
      Some (if decide (a = 1) then on_tm (set_noecho setting) c
            else if decide (a = 2) then on_tm (set_canon setting) c
            else if decide (a = 3) then
              outb (if decide (setting <> 0) then 0x00 else 0x0F) 0x3D5 (outb 0x0B 0x3D4 c)
            else c)
    else Some c
  else Some c.

(** [cur_term->state = IDLE; cur_term->buf_len = cur_term->arg_len = 0] *)
Definition esc_idle (c : con) : con :=
  on_tm (fun t => set_esc_args (esc_args t) 0 (set_esc_buf (esc_buf t) 0 (set_state IDLE t))) c.

(** The [ARG_PARSE] part of [esc_parse]. *)
Definition esc_arg (ch : Z) (c : con) : option (Z * con) :=
  if isnum ch then
    if decide (esc_buf_len (tm c) < 3) then
      b ← arr_set (esc_buf (tm c)) (esc_buf_len (tm c)) ch;
      Some (0, on_tm (set_esc_buf b (u8 (esc_buf_len (tm c) + 1))) c)
    else Some (0, c)
  else
    c1 ← (if decide (esc_arg_len (tm c) < 3) then
            b ← arr_set (esc_buf (tm c)) (esc_buf_len (tm c)) 0;
            v ← atoi b 0 10;
            a ← arr_set (esc_args (tm c)) (esc_arg_len (tm c)) (u8 v);
            Some (on_tm (fun t => set_esc_args a (u8 (esc_arg_len t + 1))
                                    (set_esc_buf b (esc_buf_len t) t)) c)
          else Some c);
    let c2 := on_tm (fun t => set_esc_buf (esc_buf t) 0 t) c1 in
    if decide (ch <> 59) then           (* ';' *)
      c3 ← esc_funcs ch (esc_args (tm c2)) (esc_arg_len (tm c2)) c2;
      Some (0, esc_idle c3)
    else Some (0, c2).

(** [esc_parse(c, cur_term)]: 1 when the character is to be printed. *)
Definition esc_parse (ch : Z) (c : con) : option (Z * con) :=
  if decide (ch = 0x1b) then Some (0, on_tm (set_state A_ESCAPE) c)
  else if decide (esc_state (tm c) = A_ESCAPE /\ ch = 91) then Some (0, on_tm (set_state A_BRACKET) c)
  else if decide (esc_state (tm c) = A_BRACKET) then
    let c1 := on_tm (fun t => set_state ARG_PARSE
                (set_esc_buf (esc_buf t) 0 (set_esc_args (esc_args t) 0 t))) c in
    if isnum ch then esc_arg ch c1
    else c2 ← esc_funcs ch [] 0 c1; Some (0, esc_idle c2)
  else if decide (esc_state (tm c) = ARG_PARSE) then esc_arg ch c
  else Some (1, c).

(** The loop of [term_write] on one terminal. *)
Definition write_byte (ch : Z) (c : con) : option con :=
  '(p, c1) ← esc_parse ch c;
  Some (if decide (p <> 0) then putc ch c1 else c1).

Definition write_bytes (l : list Z) (c : con) : option con := foldM write_byte l c.

(** ** The line buffer *)

(** Insert at the cursor: shift the tail right, store, redraw the tail. *)
Definition addch (ch : Z) (c : con) : option con :=
  if decide (term_buf_count (tm c) < TERM_BUF_SIZE /\ reading (tm c) <> 0) then
    let count := term_buf_count (tm c) in
    let curpos := term_curpos (tm c) in
    b1 ← for_downM count curpos (fun i b => x ← arr_get b (i - 1); arr_set b i x) (term_buf (tm c));
    b2 ← arr_set b1 curpos ch;
    let c := on_tm (set_line b2 (u8 (count + 1)) (u8 (curpos + 1))) c in
    if decide (term_noecho (tm c) = 0) then
      let c := putc ch c in
      c ← for_upM (term_curpos (tm c)) (term_buf_count (tm c))
            (fun i c => x ← arr_get (term_buf (tm c)) i; Some (putc x c)) c;
      Some (for_down (term_buf_count (tm c) - term_curpos (tm c)) 0 (fun _ => back) c)
    else Some c
  else Some c.

(** Delete before the cursor: shift the tail left, redraw it and a blank. *)
Definition delch (c : con) : option con :=
  if decide (0 < term_curpos (tm c)) then
    let count := term_buf_count (tm c) in
    let curpos := term_curpos (tm c) in
    b1 ← for_upM (curpos - 1) (count - 1) (fun i b => x ← arr_get b (i + 1); arr_set b i x) (term_buf (tm c));
    let c := on_tm (set_line b1 (u8 (count - 1)) (u8 (curpos - 1))) c in
    if decide (term_canon (tm c) = 0) then
      let c := back c in
      let old_x := getposx c in
      let old_y := getposy c in
      c ← for_upM (term_curpos (tm c)) (term_buf_count (tm c))
            (fun i c => x ← arr_get (term_buf (tm c)) i; Some (putc x c)) c;
      let c := putc 32 c in
      Some (setpos old_x old_y c)
    else Some c
  else Some c.

Definition set_curpos (p : Z) (t : term_t) : term_t := set_line (term_buf t) (term_buf_count t) p t.

(** [cur_term->term_curpos--; back(cur_term)] and its mirror image. *)
Definition step_left (c : con) : con := back (on_tm (fun t => set_curpos (u8 (term_curpos t - 1)) t) c).
Definition step_right (c : con) : con := forward (on_tm (fun t => set_curpos (u8 (term_curpos t + 1)) t) c).

(** [isalnum] of the character before, and under, the cursor. *)
Definition alnum_before (c : con) : option bool :=
  x ← arr_get (term_buf (tm c)) (term_curpos (tm c) - 1); Some (isalnum x).
Definition alnum_at (c : con) : option bool :=
  x ← arr_get (term_buf (tm c)) (term_curpos (tm c)); Some (isalnum x).

(** [while (curpos && isalnum(term_buf[curpos - 1]) == want) body] *)
Definition while_before (want : bool) (body : con -> option con) (c : con) : option con :=
  whileM (fun c =>
    if decide (term_curpos (tm c) = 0) then Some (inr c)
    else
      w ← alnum_before c;
      if eqb w want then c' ← body c; Some (inl c') else Some (inr c)) c.

(** [while (curpos < count && isalnum(term_buf[curpos]) == want) body] *)
Definition while_at (want : bool) (body : con -> option con) (c : con) : option con :=
  whileM (fun c =>
    if decide (term_curpos (tm c) < term_buf_count (tm c)) then
      w ← alnum_at c;
      if eqb w want then c' ← body c; Some (inl c') else Some (inr c)
    else Some (inr c)) c.

Definition key_clear (c : con) : con :=                        (* C-L *)
  let n := term_curpos (tm c) in
  let c := for_up 0 n (fun _ => back) c in
  let c := for_down (getposy c) 0 (fun _ => scroll) c in
  for_up 0 n (fun _ => forward) c.

Definition key_left (c : con) : con :=                         (* C-B *)
  if decide (0 < term_curpos (tm c)) then step_left c else c.

Definition key_right (c : con) : con :=                        (* C-F *)
  if decide (term_curpos (tm c) < term_buf_count (tm c)) then step_right c else c.

Definition key_home (c : con) : option con :=                  (* C-A *)
  while (fun c => if decide (0 < term_curpos (tm c)) then inl (step_left c) else inr c) c.

Definition key_end (c : con) : option con :=                   (* C-E *)
  while (fun c => if decide (term_curpos (tm c) < term_buf_count (tm c))
                  then inl (step_right c) else inr c) c.

Definition key_kill_word (c : con) : option con :=             (* C-W *)
  if decide (term_curpos (tm c) = 0) then Some c
  else w ← alnum_before c; while_before w delch c.

Definition key_kill_line (c : con) : option con :=             (* C-U *)
  whileM (fun c => if decide (0 < term_curpos (tm c))
                   then c' ← delch c; Some (inl c') else Some (inr c)) c.

Definition key_word_left (c : con) : option con :=             (* M-B *)
  if decide (term_curpos (tm c) = 0) then Some c
  else w ← alnum_before c; while_before w (fun c => Some (step_left c)) c.

Definition key_word_right (c : con) : option con :=            (* M-F *)
  if decide (term_buf_count (tm c) <= term_curpos (tm c)) then Some c
  else w ← alnum_at c; while_at w (fun c => Some (step_right c)) c.

(** ** All terminals *)

(** The globals of term.c, the memory and ports they reach, and the PCBs (a
    keyboard interrupt raises a signal there).  [cur_term] is an index into
    [terms]. *)
Record tstate := mkTS {
  terms : list term_t;
  cur_term_ind : Z;
  cur_term : Z;
  vmem : mem;
  vports : list (Z * Z);
  pcbs : pcb_store
}.

Definition set_terms (l : list term_t) (s : tstate) : tstate :=
  mkTS l (cur_term_ind s) (cur_term s) (vmem s) (vports s) (pcbs s).
Definition set_front (i c : Z) (s : tstate) : tstate := mkTS (terms s) i c (vmem s) (vports s) (pcbs s).
Definition set_vmem (m : mem) (s : tstate) : tstate :=
  mkTS (terms s) (cur_term_ind s) (cur_term s) m (vports s) (pcbs s).
Definition set_pcbs (p : pcb_store) (s : tstate) : tstate :=
  mkTS (terms s) (cur_term_ind s) (cur_term s) (vmem s) (vports s) p.

(** The footprint of terminal [i], and putting it back. *)
Definition view (i : Z) (s : tstate) : option con :=
  t ← arr_get (terms s) i; Some (mkCon t (vmem s) (vports s) (bool_decide (i = cur_term_ind s))).

Definition unview (i : Z) (c : con) (s : tstate) : option tstate :=
  l ← arr_set (terms s) i (tm c);
  Some (mkTS l (cur_term_ind s) (cur_term s) (vm c) (ports c) (pcbs s)).

(** Run a function on terminal [i]. *)
Definition on_term (i : Z) (f : con -> option con) (s : tstate) : option tstate :=
  c ← view i s; c' ← f c; unview i c' s.

Definition set_video_mem_at (i v : Z) (s : tstate) : option tstate :=
  on_term i (fun c => Some (on_tm (set_video_mem v) c)) s.

(** [switch_term(ind)] *)
Definition switch_term (ind : Z) (s : tstate) : option tstate :=
  if decide (ind = cur_term_ind s) then Some s
  else
    old ← arr_get (terms s) (cur_term s);
    m1 ← memcpy (vmem s) (video_buffer old) VIDEO VID_MEM_SIZE;
    s1 ← set_video_mem_at (cur_term s) (video_buffer old) (set_vmem m1 s);
    let s2 := set_front ind ind s1 in
    s3 ← set_video_mem_at ind VIDEO s2;
    s4 ← on_term ind (fun c => Some (setpos (cur_x (tm c)) (cur_y (tm c)) c)) s3;
    new ← arr_get (terms s4) ind;
    m2 ← memcpy (vmem s4) VIDEO (video_buffer new) VID_MEM_SIZE;
    Some (set_vmem m2 s4).

(** C-C: print "^C" and raise SIG_KB_INT in the PCB of the terminal's
    process. *)
Definition key_interrupt (s : tstate) : option tstate :=
  s1 ← on_term (cur_term s) (fun c => '(_, c') ← puts [94; 67; 0] 0 c; Some c') s;
  t ← arr_get (terms s1) (cur_term_ind s1);
  let task_pcb := TASK_KSTACK_TOP (cur_pid t) in
  p ← pcbs s1 !! task_pcb;
  Some (set_pcbs (<[task_pcb := raise_signal SIG_KB_INT p]> (pcbs s1)) s1).

(** The branch of [term_key_handler] for MOD_CTRL. *)
Definition ctrl_key (k : Z) (s : tstate) : option tstate :=
  let on f := on_term (cur_term s) f s in
  if decide (k = 108) then on (fun c => Some (key_clear c))
  else if decide (k = 98) then on (fun c => Some (key_left c))
  else if decide (k = 102) then on (fun c => Some (key_right c))
  else if decide (k = 97) then on key_home
  else if decide (k = 101) then on key_end
  else if decide (k = 119) then on key_kill_word
  else if decide (k = 117) then on key_kill_line
  else if decide (k = 104) then on delch
  else if decide (k = 99) then key_interrupt s
  else if decide (k = 109) then on (fun c => Some (on_tm (set_read_done 1) c))
  else Some s.

(** The branch for MOD_ALT. *)
Definition alt_key (k : Z) (s : tstate) : option tstate :=
  if decide (KEY_F1 <= k <= KEY_F3) then switch_term (k - KEY_F1) s
  else if decide (k = 98) then on_term (cur_term s) key_word_left s
  else if decide (k = 102) then on_term (cur_term s) key_word_right s
  else Some s.

(** One activation of [term_key_handler]; [again] is its recursive call. *)
Definition key_handler_body (again : key_t -> tstate -> option tstate) (key : key_t) (s : tstate)
  : option tstate :=
  let s := set_front (cur_term_ind s) (cur_term_ind s) s in
  t ← arr_get (terms s) (cur_term s);
  if decide (term_canon t <> 0 /\
             ~ (modifiers key = MOD_ALT /\ KEY_F1 <= key_code key <= KEY_F3)) then
    on_term (cur_term s) (fun c =>
      addch (key_code key) (on_tm (fun t => set_curpos (term_buf_count t) t) c)) s
  else if decide (modifiers key = MOD_CTRL) then ctrl_key (key_code key) s
  else if decide (modifiers key = MOD_ALT) then alt_key (key_code key) s
  else if decide (key_code key = KEY_ENTER) then again (C_key 109) s
  else if decide (key_code key = KEY_BACK) then again (C_key 104) s
  else if decide (key_code key = KEY_LEFT) then again (C_key 98) s
  else if decide (key_code key = KEY_RIGHT) then again (C_key 102) s
  else if decide (KEY_F1 <= key_code key <= KEY_F12) then Some s
  else on_term (cur_term s) (addch (key_code key)) s.

(** [term_key_handler(key)]: the recursive calls are made with MOD_CTRL, so
    the recursion is one deep. *)
Definition term_key_handler (key : key_t) (s : tstate) : option tstate :=
  key_handler_body (key_handler_body (fun _ _ => None)) key s.

(** ** The file operations of stdin and stdout *)

Definition term_read_invalid : Z := -1.
Definition term_write_invalid : Z := -1.
Definition term_open : Z := 0.
Definition term_close : Z := -1.

(** Interrupts taken while a read waits: each is the effect of a handler. *)
Abbreviation irq := (tstate -> option tstate).

(** [while (!done) hlt]: take interrupts until the condition holds.  [None]: it
    never does (or a handler faults). *)
Fixpoint wait_until (done : tstate -> option bool) (irqs : list irq) (s : tstate)
  : option (tstate * list irq) :=
  d ← done s;
  if (d : bool) then Some (s, irqs)
  else match irqs with
       | [] => None
       | i :: rest => s' ← i s; wait_until done rest s'
       end.

(** The last part of a canonical-mode read: one character. *)
Definition read_char_finish (buf : Z) (c : con) : option con :=
  let c := on_tm (set_reading 0) c in
  ch ← arr_get (term_buf (tm c)) 0;
  let c := poke buf ch c in
  delch (on_tm (set_curpos 1) c).

(** The last part of a line read: echo the newline, store it, copy, reset. *)
Definition read_line_finish (buf nbytes : Z) (c : con) : option (Z * con) :=
  let c := on_tm (set_reading 0) c in
  let c := if decide (term_noecho (tm c) = 0) then putc 10 c else c in
  b ← arr_set (term_buf (tm c)) (term_buf_count (tm c)) 10;
  let count := u8 (term_buf_count (tm c) + 1) in
  let copy_count := if decide (nbytes < count) then nbytes else count in
  let c := mkCon (tm c) (store_bytes (vm c) buf (take (Z.to_nat copy_count) b)) (ports c) (front c) in
  Some (copy_count, on_tm (fun t => set_line b 0 0 (set_read_done 0 t)) c).

(** [term_read(buf, nbytes, file)] by a task on terminal [ind]. *)
Definition term_read (ind buf nbytes : Z) (irqs : list irq) (s : tstate)
  : option (Z * tstate * list irq) :=
  if decide (buf = 0) then Some (-1, s, irqs)
  else
    t ← arr_get (terms s) ind;
    s1 ← on_term ind (fun c => Some (on_tm (set_reading 1) c)) s;
    if decide (term_canon t <> 0) then
      '(s2, irqs) ← wait_until (fun s => t ← arr_get (terms s) ind;
                                         Some (bool_decide (term_buf_count t <> 0))) irqs s1;
      s3 ← on_term ind (read_char_finish buf) s2;
      Some (1, s3, irqs)
    else
      '(s2, irqs) ← wait_until (fun s => t ← arr_get (terms s) ind;
                                         Some (bool_decide (term_read_done t <> 0))) irqs s1;
      c ← view ind s2;
      '(n, c') ← read_line_finish buf nbytes c;
      s3 ← unview ind c' s2;
      Some (n, s3, irqs).

(** [term_write(buf, nbytes, file)] by a task on terminal [ind].  The bytes
    are read from the memory the terminal also writes to. *)
Definition term_write (ind buf nbytes : Z) (s : tstate) : option (Z * tstate) :=
  let s := set_front (cur_term_ind s) ind s in
  s' ← on_term ind (for_upM 0 nbytes (fun i c => write_byte (ld8 (vm c) (buf + i)) c)) s;
  Some (s32 nbytes, s').

(** [init_term()]; [s] holds the zero-initialised globals. *)
Definition init_term (s : tstate) : option tstate :=
  s ← on_term 0 (fun c =>
        let c := outb 0x0F 0x3D5 (outb 0x0B 0x3D4 (outb 0x00 0x3D5 (outb 0x0A 0x3D4 c))) in
        Some (on_tm (fun t => set_attr DEF_ATTR (set_video_mem VIDEO (set_video_buffer 0xB9000 t))) c)) s;
  s ← on_term 1 (fun c => Some (on_tm (fun t =>
        set_attr DEF_ATTR (set_video_mem 0xBA000 (set_video_buffer 0xBA000 t))) c)) s;
  s ← on_term 2 (fun c => Some (on_tm (fun t =>
        set_attr DEF_ATTR (set_video_mem 0xBB000 (set_video_buffer 0xBB000 t))) c)) s;
  s ← on_term 0 (fun c => Some (clear c)) s;
  s ← on_term 1 (fun c => Some (clear c)) s;
  on_term 2 (fun c => Some (clear c)) s.

(** ** printf *)

(** Local buffers of [printf], uninitialised. *)
Record printf_junk := mkJunk { junk64 : list Z; junk36 : list Z }.

(** One argument of [printf] is a 32-bit word; [esp] is the list of those not
    yet consumed.  [text] is the memory %s arguments point into. *)
Definition printf_spec (junk : printf_junk) (text : mem) (spec : Z) (alternate : bool) (esp : list Z) (c : con)
  : option (list Z * con) :=
  if decide (spec = 37) then Some (esp, putc 37 c)             (* %% *)
  else if decide (spec = 120) then                             (* %x *)
    match esp with
    | [] => None
    | v :: esp =>
        if alternate then
          b ← itoa v (junk64 junk) 8 16;
          starting_index ← strlen b 8;
          '(b, _) ← whileM (fun '(b, i) =>
                   if decide (i < 8) then b' ← bput b i 48; Some (inl (b', i + 1))
                   else Some (inr (b, i))) (b, starting_index);
          '(_, c) ← puts b starting_index c; Some (esp, c)
        else
          b ← itoa v (junk64 junk) 0 16;
          '(_, c) ← puts b 0 c; Some (esp, c)
    end
  else if decide (spec = 117) then                             (* %u *)
    match esp with
    | [] => None
    | v :: esp => b ← itoa v (junk36 junk) 0 10; '(_, c) ← puts b 0 c; Some (esp, c)
    end
  else if decide (spec = 100) then                             (* %d *)
    match esp with
    | [] => None
    | v :: esp =>
        let value := s32 v in
        b ← (if decide (value < 0) then
               b ← bput (junk36 junk) 0 45; itoa (u32 (- value)) b 1 10
             else itoa (u32 value) (junk36 junk) 0 10);
        '(_, c) ← puts b 0 c; Some (esp, c)
    end
  else if decide (spec = 99) then                              (* %c *)
    match esp with
    | [] => None
    | v :: esp => Some (esp, putc (u8 v) c)
    end
  else if decide (spec = 115) then                             (* %s *)
    match esp with
    | [] => None
    | v :: esp => '(_, c) ← puts text v c; Some (esp, c)
    end
  else Some (esp, c).

(** [printf(cur_term, format, ...)]: the value returned and the terminal. *)
Definition printf `{CBuf B} (junk : printf_junk) (text : mem) (fmt : B) (format : Z) (args : list Z) (c : con)
  : option (Z * con) :=
  whileM (fun '(buf, esp, c) =>
    ch ← bget fmt buf;
    if decide (ch = 0) then Some (inr (buf - format, c))
    else if decide (ch = 37) then
      (* skip '%' and the '#'s after it *)
      '(buf, alternate) ← whileM (fun '(buf, alternate) =>
          ch ← bget fmt buf;
          Some (if decide (ch = 35) then inl (buf + 1, true) else inr (buf, alternate)))
        (buf + 1, false);
      spec ← bget fmt buf;
      '(esp, c) ← printf_spec junk text spec alternate esp c;
      Some (inl (buf + 1, esp, c))
    else Some (inl (buf + 1, esp, putc (u8 ch) c))) (format, args, c).
