(* ===== verification/TermScreen.v ===== *)
(** * The screen of a terminal: what the drawing functions of term.c do

    The cells of a terminal's page, the frame of every drawing function (it
    moves the cursor and writes inside the page, nothing else), scrolling, plain
    output and escape sequences. *)
From stdpp Require Import base tactics list numbers gmap option.
From Stdlib Require Import ZArith Lia.
From S2P Require Import Prelude CLib Task Term.

Open Scope Z_scope.

(** ** Cells and frames *)

(** The address of cell (x, y) of a page, and its character and attribute. *)
Definition cell_addr (page x y : Z) : Z := page + 2 * (80 * y + x).
Definition cell (c : con) (x y : Z) : Z * Z :=
  let a := cell_addr (video_mem (tm c)) x y in (ld8 (vm c) a, ld8 (vm c) (a + 1)).

Definition on_page (page a : Z) : Prop := page <= a < page + VID_MEM_SIZE.

(** A cursor on the screen, an attribute that is a byte. *)
Record scr_ok (c : con) : Prop := {
  ok_x : 0 <= cur_x (tm c) < NUM_COLS;
  ok_y : 0 <= cur_y (tm c) < NUM_ROWS;
  ok_attr : 0 <= attr (tm c) < 256
}.

(** [c'] is [c] with the cursor moved and some bytes of the page changed. *)
Record draws (c c' : con) : Prop := {
  dr_tm : exists x y, tm c' = set_cursor x y (tm c);
  dr_front : front c' = front c;
  dr_vm : forall a, ~ on_page (video_mem (tm c)) a -> ld8 (vm c') a = ld8 (vm c) a;
  dr_ok : mem_ok (vm c) -> mem_ok (vm c')
}.

Lemma set_cursor_same t : set_cursor (cur_x t) (cur_y t) t = t.
Proof. by destruct t. Qed.

Lemma draws_refl c : draws c c.
Proof.
  split; [|done..]. exists (cur_x (tm c)), (cur_y (tm c)). by rewrite set_cursor_same.
Qed.

Lemma draws_trans c1 c2 c3 : draws c1 c2 -> draws c2 c3 -> draws c1 c3.
Proof.
  intros [(x1 & y1 & E1) F1 V1 O1] [(x2 & y2 & E2) F2 V2 O2]. split.
  - exists x2, y2. rewrite E2, E1. done.
  - congruence.
  - intros a Ha. rewrite V2, V1; [done|done|]. rewrite E1. done.
  - auto.
Qed.

#[export] Instance draws_preorder : PreOrder draws.
Proof. split; [exact draws_refl|exact draws_trans]. Qed.

Lemma draws_move x y c : draws c (on_tm (fun t => set_cursor x y t) c).
Proof. split; [by exists x, y|done..]. Qed.

Lemma draws_outb d p c : draws c (outb d p c).
Proof. split; [|done..]. exists (cur_x (tm c)), (cur_y (tm c)). by rewrite set_cursor_same. Qed.

Lemma draws_poke a v c : on_page (video_mem (tm c)) a -> draws c (poke a v c).
Proof.
  intros Ha. split; [|done| |].
  - exists (cur_x (tm c)), (cur_y (tm c)). by rewrite set_cursor_same.
  - intros b Hb. simpl. apply ld8_st8_ne. intros ->. done.
  - apply mem_ok_st8.
Qed.

#[export] Hint Resolve draws_refl draws_move draws_outb draws_poke : kern.

Lemma draws_page c c' : draws c c' -> video_mem (tm c') = video_mem (tm c).
Proof. intros [(x & y & ->) _ _ _]. done. Qed.

Lemma draws_attr c c' : draws c c' -> attr (tm c') = attr (tm c).
Proof. intros [(x & y & ->) _ _ _]. done. Qed.

(** ** The cursor *)

Lemma clamp_range n v : 0 < n -> 0 <= clamp n v < n.
Proof. intros. unfold clamp. repeat case_decide; lia. Qed.

Lemma clamp_in n v : 0 <= v < n -> clamp n v = v.
Proof. intros. unfold clamp. by rewrite !decide_False by lia. Qed.

Lemma clamp_s8 n v : 0 < n <= 128 -> s8 (clamp n v) = clamp n v.
Proof. intros. pose proof (clamp_range n v). apply s8_small. lia. Qed.

Lemma setpos_tm x y c : tm (setpos x y c) = set_cursor (clamp NUM_COLS x) (clamp NUM_ROWS y) (tm c).
Proof.
  unfold setpos. rewrite !clamp_s8 by (unfold NUM_COLS, NUM_ROWS; lia). by destruct (front _).
Qed.

Lemma setpos_vm x y c : vm (setpos x y c) = vm c.
Proof. unfold setpos. by destruct (front _). Qed.

Lemma setpos_front x y c : front (setpos x y c) = front c.
Proof. unfold setpos. by destruct (front (on_tm _ _)). Qed.

Lemma draws_setpos x y c : draws c (setpos x y c).
Proof.
  split; [|by rewrite setpos_front|by rewrite setpos_vm|by rewrite setpos_vm].
  eexists _, _. apply setpos_tm.
Qed.

Lemma scr_ok_setpos x y c : 0 <= attr (tm c) < 256 -> scr_ok (setpos x y c).
Proof. intros. split; rewrite setpos_tm; simpl; [apply clamp_range..|]; done. Qed.

#[export] Hint Resolve draws_setpos : kern.

Lemma back_tm c : scr_ok c ->
  tm (back c) = set_cursor ((cur_x (tm c) - 1) mod 80)
    (if decide (cur_x (tm c) = 0) then Z.max 0 (cur_y (tm c) - 1) else cur_y (tm c)) (tm c).
Proof.
  intros [Hx Hy _]. unfold NUM_COLS, NUM_ROWS in *. unfold back. rewrite setpos_tm.
  rewrite (s8_small (cur_x (tm c) - 1)) by lia. simpl.
  destruct (decide (cur_x (tm c) - 1 < 0)); simpl.
  - rewrite (decide_True (P := cur_x (tm c) = 0)) by lia. unfold NUM_COLS.
    rewrite !s8_small, clamp_in by lia. unfold clamp, set_cursor, NUM_ROWS; simpl.
    f_equal; [zlia|repeat case_decide; lia].
  - rewrite decide_False by lia. rewrite !clamp_in by (unfold NUM_COLS, NUM_ROWS; lia).
    unfold set_cursor; simpl. f_equal. zlia.
Qed.

Lemma forward_tm c : scr_ok c ->
  tm (forward c) = set_cursor ((cur_x (tm c) + 1) mod 80)
    (if decide (cur_x (tm c) = 79) then Z.min 24 (cur_y (tm c) + 1) else cur_y (tm c)) (tm c).
Proof.
  intros [Hx Hy _]. unfold NUM_COLS, NUM_ROWS in *. unfold forward. rewrite setpos_tm.
  rewrite (s8_small (cur_x (tm c) + 1)) by lia. unfold on_tm; simpl. unfold NUM_COLS.
  destruct (decide (80 <= cur_x (tm c) + 1)); simpl.
  - rewrite (decide_True (P := cur_x (tm c) = 79)) by lia.
    rewrite !s8_small, clamp_in by lia. unfold clamp, set_cursor, NUM_ROWS; simpl.
    f_equal; [zlia|repeat case_decide; lia].
  - rewrite decide_False by lia. rewrite !clamp_in by (unfold NUM_COLS, NUM_ROWS; lia).
    unfold set_cursor; simpl. f_equal. zlia.
Qed.

Lemma draws_back c : draws c (back c).
Proof.
  unfold back. etrans; [|apply draws_setpos]. split; [|done..]. simpl.
  case_decide; eauto.
Qed.

Lemma draws_forward c : draws c (forward c).
Proof.
  unfold forward. etrans; [|apply draws_setpos]. split; [|done..]. simpl.
  case_decide; eauto.
Qed.

Lemma scr_ok_back c : scr_ok c -> scr_ok (back c).
Proof. intros [_ _ Ha]. unfold back. apply scr_ok_setpos. simpl. by case_decide. Qed.

Lemma scr_ok_forward c : scr_ok c -> scr_ok (forward c).
Proof. intros [_ _ Ha]. unfold forward. apply scr_ok_setpos. simpl. by case_decide. Qed.

#[export] Hint Resolve draws_back draws_forward scr_ok_back scr_ok_forward : kern.

(** ** Cells *)

Lemma shiftl1 z : Z.shiftl z 1 = 2 * z.
Proof. rewrite Z.shiftl_mul_pow2 by lia. lia. Qed.

Lemma cell_on_page page x y :
  0 <= x < NUM_COLS -> 0 <= y < NUM_ROWS ->
  on_page page (cell_addr page x y) /\ on_page page (cell_addr page x y + 1).
Proof. unfold on_page, cell_addr, NUM_COLS, NUM_ROWS, VID_MEM_SIZE. lia. Qed.

(** The cells of two states of the same memory and page are the same. *)
Lemma cell_same c c' x y :
  vm c' = vm c -> video_mem (tm c') = video_mem (tm c) -> cell c' x y = cell c x y.
Proof. intros Hv Hp. unfold cell. by rewrite Hv, Hp. Qed.

Lemma cell_setpos a b c x y : cell (setpos a b c) x y = cell c x y.
Proof. apply cell_same; [apply setpos_vm|by rewrite setpos_tm]. Qed.

Lemma cell_on_tm f c x y :
  (forall t, video_mem (f t) = video_mem t) -> cell (on_tm f c) x y = cell c x y.
Proof. intros Hf. apply cell_same; [done|apply Hf]. Qed.

Lemma on_tm_on_tm f g c : on_tm f (on_tm g c) = on_tm (fun t => f (g t)) c.
Proof. done. Qed.

Lemma tm_on_tm f c : tm (on_tm f c) = f (tm c).
Proof. done. Qed.

Lemma cell_bytes c x y : mem_ok (vm c) -> 0 <= (cell c x y).1 < 256 /\ 0 <= (cell c x y).2 < 256.
Proof. intros H. split; apply H. Qed.

Lemma set_vid_char_tm x y ch c : tm (set_vid_char x y ch c) = tm c.
Proof. unfold set_vid_char. by case_decide. Qed.

Lemma draws_set_vid_char x y ch c : draws c (set_vid_char x y ch c).
Proof.
  unfold set_vid_char. case_decide as D; [done|]. unfold off_screen, NUM_COLS, NUM_ROWS in D.
  rewrite !shiftl1. etrans; apply draws_poke; simpl; unfold on_page, NUM_COLS, VID_MEM_SIZE; lia.
Qed.

Lemma set_vid_char_cell x y ch c x' y' :
  0 <= x < NUM_COLS -> 0 <= y < NUM_ROWS -> 0 <= x' < NUM_COLS -> 0 <= y' < NUM_ROWS ->
  0 <= attr (tm c) < 256 ->
  cell (set_vid_char x y ch c) x' y' = if decide (x = x' /\ y = y') then (u8 ch, attr (tm c)) else cell c x' y'.
Proof.
  intros Hx Hy Hx' Hy' Ha. unfold cell. rewrite set_vid_char_tm. unfold set_vid_char.
  unfold NUM_COLS, NUM_ROWS in *.
  rewrite decide_False by (unfold off_screen, NUM_COLS, NUM_ROWS; lia). rewrite !shiftl1. simpl.
  fold (cell_addr (video_mem (tm c)) x y). rewrite !ld8_st8.
  unfold cell_addr. destruct (decide (x = x' /\ y = y')) as [[-> ->]|Hne].
  - rewrite decide_False, !decide_True by lia. by rewrite (u8_small (attr _)) by lia.
  - assert (80 * y + x <> 80 * y' + x') by (destruct (decide (y = y')); lia).
    rewrite !decide_False by lia. done.
Qed.

Lemma get_vid_char_cell x y c : 0 <= x < NUM_COLS -> 0 <= y < NUM_ROWS -> get_vid_char x y c = (cell c x y).1.
Proof.
  intros Hx Hy. unfold get_vid_char. rewrite decide_False by (unfold off_screen; lia). rewrite shiftl1. done.
Qed.

(** ** Scrolling *)

(** Up to row [y], and in row [y] up to column [x0], every cell holds what the
    cell below held in [c]. *)
Record shifted (c : con) (y x0 : Z) (c' : con) : Prop := {
  sh_tm : exists a, tm c' = set_attr a (tm c) /\ 0 <= a < 256;
  sh_front : front c' = front c;
  sh_vm : forall a, ~ on_page (video_mem (tm c)) a -> ld8 (vm c') a = ld8 (vm c) a;
  sh_ok : mem_ok (vm c');
  sh_cell : forall x' y', 0 <= x' < NUM_COLS -> 0 <= y' < NUM_ROWS ->
    cell c' x' y' = if decide (y' < y \/ y' = y /\ x' < x0) then cell c x' (y' + 1) else cell c x' y'
}.

Lemma set_attr_attr a b t : set_attr a (set_attr b t) = set_attr a t.
Proof. done. Qed.

Lemma shifted_step c y x c' :
  0 <= y < NUM_ROWS - 1 -> 0 <= x < NUM_COLS -> shifted c y x c' -> shifted c y (x + 1) (scroll_cell y x c').
Proof.
  intros Hy Hx [(a & Et & Ha) Hf Hv Hok Hc]. unfold scroll_cell.
  assert (Ep : video_mem (tm c') = video_mem (tm c)) by by rewrite Et.
  set (a' := ld8 (vm c') _).
  assert (Ha' : a' = (cell c' x (y + 1)).2) by (unfold a'; rewrite shiftl1; done).
  assert (Hb' : 0 <= a' < 256) by apply Hok.
  set (d := setattr a' c').
  assert (Ed : tm d = set_attr a' (tm c)).
  { unfold d, setattr, on_tm. simpl. rewrite Et. by rewrite set_attr_attr, u8_small. }
  assert (Ec : forall x' y', cell d x' y' = cell c' x' y') by done.
  rewrite get_vid_char_cell by lia.
  pose proof (draws_set_vid_char x y (cell d x (y + 1)).1 d) as [_ Df Dv Dok].
  split.
  - exists a'. by rewrite set_vid_char_tm.
  - by rewrite Df.
  - intros b Hb. rewrite Dv by (rewrite Ed; done). by apply Hv.
  - by apply Dok.
  - assert (E1 : cell c' x (y + 1) = cell c x (y + 1)) by (rewrite Hc, decide_False by lia; done).
    intros x' y' Hx' Hy'. rewrite set_vid_char_cell by (first [lia | rewrite Ed; simpl; lia]).
    rewrite Ed. simpl attr. rewrite !Ec. destruct (decide (x = x' /\ y = y')) as [[<- <-]|Hne].
    + rewrite decide_True by lia. rewrite u8_small by apply (cell_bytes c' x (y + 1) Hok).
      rewrite Ha', E1. by destruct (cell c x (y + 1)).
    + rewrite Hc by lia. by repeat case_decide; try lia.
Qed.

Lemma shifted_row c y c' : shifted c y 80 c' -> shifted c (y + 1) 0 c'.
Proof.
  intros [Ht Hf Hv Hok Hc]. split; [done..|]. intros x' y' Hx' Hy'. unfold NUM_COLS in Hx'.
  rewrite Hc by (unfold NUM_COLS; lia). by repeat case_decide; try lia.
Qed.

Lemma shifted_all c :
  mem_ok (vm c) -> 0 <= attr (tm c) < 256 ->
  shifted c 24 0 (for_up 0 (NUM_ROWS - 1) (fun y => for_up 0 NUM_COLS (scroll_cell y)) c).
Proof.
  intros Hm Ha. apply (for_up_ind (fun y c' => shifted c y 0 c')); [unfold NUM_ROWS; lia| |].
  - split; [|done|done|done|].
    + exists (attr (tm c)). split; [by destruct (tm c)|done].
    + intros x' y' Hx' Hy'. by rewrite decide_False by lia.
  - intros y s Hy Hs. apply shifted_row.
    apply (for_up_ind (fun x c' => shifted c y x c')); [unfold NUM_COLS; lia|done|].
    intros x s' Hx Hs'. by apply shifted_step.
Qed.

(** The last row blanked up to column [x0]. *)
Record blanked (c : con) (x0 : Z) (c' : con) : Prop := {
  bl_draws : tm c' = tm c /\ front c' = front c;
  bl_vm : forall a, ~ on_page (video_mem (tm c)) a -> ld8 (vm c') a = ld8 (vm c) a;
  bl_ok : mem_ok (vm c');
  bl_cell : forall x' y', 0 <= x' < NUM_COLS -> 0 <= y' < NUM_ROWS ->
    cell c' x' y' = if decide (y' = 24 /\ x' < x0) then (32, attr (tm c)) else cell c x' y'
}.

Lemma blanked_all c :
  mem_ok (vm c) -> 0 <= attr (tm c) < 256 ->
  blanked c NUM_COLS (for_up 0 NUM_COLS (fun x => set_vid_char x (NUM_ROWS - 1) 32) c).
Proof.
  intros Hm Ha. apply (for_up_ind (fun x c' => blanked c x c')); [unfold NUM_COLS; lia| |].
  - split; [done..|]. intros. by rewrite decide_False by lia.
  - intros x s Hx [[Et Ef] Ev Eo Ec].
    pose proof (draws_set_vid_char x (NUM_ROWS - 1) 32 s) as [_ Df Dv Do]. split.
    + by rewrite set_vid_char_tm, Df.
    + intros a Hp. rewrite Dv by by rewrite Et. by apply Ev.
    + by apply Do.
    + intros x' y' Hx' Hy'. rewrite set_vid_char_cell by (first [done | unfold NUM_ROWS; lia | by rewrite Et]).
      rewrite Et, Ec by done. unfold NUM_ROWS. repeat case_decide; try lia; done.
Qed.

(** What [scroll] does with the shifted and blanked page. *)
Lemma scroll_tail c c1 c3 :
  mem_ok (vm c) -> 0 <= attr (tm c) < 256 ->
  shifted c 24 0 c1 -> blanked (setattr DEF_ATTR c1) NUM_COLS c3 ->
  let c' := setattr (attr (tm c)) (setpos (cur_x (tm c3)) (cur_y (tm c3) - 1) c3) in
  tm c' = set_cursor (clamp NUM_COLS (cur_x (tm c))) (clamp NUM_ROWS (cur_y (tm c) - 1)) (tm c) /\
  draws c c' /\
  forall x y, 0 <= x < NUM_COLS -> 0 <= y < NUM_ROWS ->
    cell c' x y = if decide (y = 24) then (32, DEF_ATTR) else cell c x (y + 1).
Proof.
  intros Hm Ha [(a & Et & Hab) Hf Hv Ho Hc] [[Bt Bf] Bv Bo Bc] c'.
  assert (Et2 : tm (setattr DEF_ATTR c1) = set_attr DEF_ATTR (tm c)).
  { unfold setattr, on_tm. simpl. by rewrite Et. }
  assert (Et3 : tm c3 = set_attr DEF_ATTR (tm c)) by congruence.
  assert (Et4 : tm c' = set_cursor (clamp NUM_COLS (cur_x (tm c))) (clamp NUM_ROWS (cur_y (tm c) - 1)) (tm c)).
  { unfold c', setattr, on_tm. simpl. rewrite setpos_tm, Et3, u8_small by done. by destruct (tm c). }
  split; [done|]. split.
  - split; [by eexists _, _| | |].
    + simpl. rewrite setpos_front, Bf. done.
    + intros b Hb. simpl. rewrite setpos_vm, Bv by by rewrite Et2. by apply Hv.
    + intros _. simpl. by rewrite setpos_vm.
  - intros x y Hx Hy. rewrite (cell_same c3); [|simpl; apply setpos_vm|by rewrite Et4, Et3].
    rewrite Bc by done. unfold NUM_COLS, NUM_ROWS in *. rewrite Et2. simpl attr.
    destruct (decide (y = 24)); [by rewrite decide_True by lia|]. rewrite decide_False by lia.
    rewrite (cell_same c1 (setattr _ c1)) by done. rewrite Hc by (unfold NUM_COLS, NUM_ROWS; lia).
    by rewrite decide_True by lia.
Qed.

(** The screen after [scroll]: every row shows the one below it, the last row
    is blank. *)
Lemma scroll_spec c :
  mem_ok (vm c) -> 0 <= attr (tm c) < 256 ->
  tm (scroll c) = set_cursor (clamp NUM_COLS (cur_x (tm c))) (clamp NUM_ROWS (cur_y (tm c) - 1)) (tm c) /\
  draws c (scroll c) /\
  forall x y, 0 <= x < NUM_COLS -> 0 <= y < NUM_ROWS ->
    cell (scroll c) x y = if decide (y = 24) then (32, DEF_ATTR) else cell c x (y + 1).
Proof.
  intros Hm Ha. pose proof (shifted_all c Hm Ha) as S. unfold scroll. revert S.
  generalize (for_up 0 (NUM_ROWS - 1) (fun y => for_up 0 NUM_COLS (scroll_cell y)) c) as c1. intros c1 S.
  assert (B : blanked (setattr DEF_ATTR c1) NUM_COLS
                (for_up 0 NUM_COLS (fun x => set_vid_char x (NUM_ROWS - 1) 32) (setattr DEF_ATTR c1))).
  { apply blanked_all; [exact (sh_ok _ _ _ _ S)|apply (u8_range DEF_ATTR)]. }
  revert B. generalize (for_up 0 NUM_COLS (fun x => set_vid_char x (NUM_ROWS - 1) 32) (setattr DEF_ATTR c1)) as c3.
  intros c3 B. exact (scroll_tail c c1 c3 Hm Ha S B).
Qed.

#[global] Opaque setpos set_vid_char scroll back forward.

(** ** The frame of [putc] *)

(** A console whose memory holds bytes and whose cursor is on the screen. *)
Definition con_ok (c : con) : Prop := mem_ok (vm c) /\ scr_ok c.

Lemma draws_scroll c : mem_ok (vm c) -> 0 <= attr (tm c) < 256 -> draws c (scroll c).
Proof. intros. by apply scroll_spec. Qed.

Lemma draws_scroll_if_below c : mem_ok (vm c) -> 0 <= attr (tm c) < 256 -> draws c (scroll_if_below c).
Proof.
  intros Hm Ha. unfold scroll_if_below. case_decide; [|done].
  etrans; [by apply draws_scroll|]. simpl. apply draws_move.
Qed.

Lemma cursor_tm x y t : cur_x (set_cursor x y t) = x /\ cur_y (set_cursor x y t) = y.
Proof. done. Qed.

Lemma scroll_if_below_y c :
  mem_ok (vm c) -> 0 <= attr (tm c) < 256 -> 0 <= cur_x (tm c) < NUM_COLS -> 0 <= cur_y (tm c) <= NUM_ROWS ->
  tm (scroll_if_below c) = set_cursor (cur_x (tm c)) (Z.min (cur_y (tm c)) 24) (tm c).
Proof.
  intros Hm Ha Hx Hy. unfold scroll_if_below. case_decide as D.
  - destruct (scroll_spec c Hm Ha) as (E & _ & _). rewrite tm_on_tm, E. simpl. rewrite clamp_in by done.
    unfold NUM_ROWS in *. by rewrite Z.min_r by lia.
  - unfold NUM_ROWS in *. rewrite Z.min_l by lia. by destruct (tm c).
Qed.

Lemma scroll_if_below_cell c x y :
  mem_ok (vm c) -> 0 <= attr (tm c) < 256 -> 0 <= x < NUM_COLS -> 0 <= y < NUM_ROWS ->
  cell (scroll_if_below c) x y =
  if decide (cur_y (tm c) < NUM_ROWS) then cell c x y
  else if decide (y = 24) then (32, DEF_ATTR) else cell c x (y + 1).
Proof.
  intros Hm Ha Hx Hy. unfold scroll_if_below. case_decide.
  - rewrite cell_on_tm by done. rewrite decide_False by lia. by apply scroll_spec.
  - by rewrite decide_True by lia.
Qed.

(** The position after a printed character, before any scrolling. *)
Definition advance (x y : Z) : Z * Z := if decide (x = 79) then (0, y + 1) else (x + 1, y).

(** A character that [putc] shows in a cell. *)
Definition shown (ch : Z) : Prop := ch <> 10 /\ ch <> 13 /\ ch <> 8.

Lemma putc_shown ch c :
  con_ok c -> shown ch ->
  let '(x', y') := advance (cur_x (tm c)) (cur_y (tm c)) in
  exists c1, putc ch c = setpos (cur_x (tm (scroll_if_below c1))) (cur_y (tm (scroll_if_below c1))) (scroll_if_below c1) /\
    tm c1 = set_cursor x' y' (tm c) /\ draws c c1 /\
    forall x y, 0 <= x < NUM_COLS -> 0 <= y < NUM_ROWS ->
      cell c1 x y = if decide (cur_x (tm c) = x /\ cur_y (tm c) = y) then (u8 ch, attr (tm c)) else cell c x y.
Proof.
  intros [Hm [Hx Hy Ha]] (N1 & N2 & N3). unfold advance, NUM_COLS, NUM_ROWS in *.
  destruct (if decide (cur_x (tm c) = 79) then _ else _) as [x' y'] eqn:E.
  eexists. split.
  { unfold putc. rewrite !decide_False by done. rewrite set_vid_char_tm. reflexivity. }
  split_and!.
  - simpl. rewrite set_vid_char_tm, s8_small by lia. unfold NUM_COLS.
    destruct (decide (cur_x (tm c) = 79)); simplify_eq.
    + rewrite decide_True, !s8_small by lia. f_equal. lia.
    + by rewrite decide_False by lia.
  - etrans; [apply draws_set_vid_char|]. split; [|done..]. rewrite tm_on_tm, set_vid_char_tm. cbv beta.
    clear E. case_decide; by eexists _, _.
  - intros x y Hx' Hy'. etrans; [apply (cell_same (set_vid_char (cur_x (tm c)) (cur_y (tm c)) ch c))|].
    + done.
    + rewrite tm_on_tm. cbv beta. clear E. by case_decide.
    + by apply set_vid_char_cell.
Qed.

Lemma advance_range x y : 0 <= x < NUM_COLS -> 0 <= y < NUM_ROWS ->
  0 <= (advance x y).1 < NUM_COLS /\ 0 <= (advance x y).2 <= NUM_ROWS.
Proof. unfold advance, NUM_COLS, NUM_ROWS. case_decide; simpl; lia. Qed.

(** The frame of the end of [putc]. *)
Lemma putc_finish c c1 :
  draws c c1 -> con_ok c -> 0 <= cur_x (tm c1) < NUM_COLS -> 0 <= cur_y (tm c1) <= NUM_ROWS ->
  let c2 := setpos (cur_x (tm (scroll_if_below c1))) (cur_y (tm (scroll_if_below c1))) (scroll_if_below c1) in
  draws c c2 /\ con_ok c2 /\ tm c2 = set_cursor (cur_x (tm c1)) (Z.min (cur_y (tm c1)) 24) (tm c1) /\
  forall x y, cell c2 x y = cell (scroll_if_below c1) x y.
Proof.
  intros D [Hm [_ _ Ha]] Hx Hy c2.
  assert (Hm1 : mem_ok (vm c1)) by by apply D.
  assert (Ha1 : 0 <= attr (tm c1) < 256) by by rewrite (draws_attr c).
  pose proof (scroll_if_below_y c1 Hm1 Ha1 Hx Hy) as E.
  assert (D2 : draws c c2).
  { etrans; [exact D|]. etrans; [by apply draws_scroll_if_below|]. apply draws_setpos. }
  split; [done|]. split_and!.
  - split; [by apply D2|]. apply scr_ok_setpos. by rewrite E.
  - unfold c2. rewrite setpos_tm, E. simpl. unfold NUM_ROWS in Hy.
    rewrite !clamp_in by (unfold NUM_ROWS; lia). done.
  - intros x y. apply cell_setpos.
Qed.

Lemma putc_ok ch c : con_ok c -> draws c (putc ch c) /\ con_ok (putc ch c).
Proof.
  intros Hc. pose proof Hc as [Hm [Hx Hy Ha]].
  destruct (decide (shown ch)) as [Hs|Hs].
  { pose proof (putc_shown ch c Hc Hs) as P. pose proof (advance_range _ _ Hx Hy) as R.
    destruct (advance _ _) as [x' y']. destruct P as (c1 & -> & Et & D & _).
    destruct (putc_finish c c1 D Hc) as (A & B & _); [rewrite Et; simpl in *; lia..|]. done. }
  unfold putc. destruct (decide (ch = 10)).
  { destruct (putc_finish c (on_tm (fun t => set_cursor 0 (s8 (cur_y t + 1)) t) c)) as (A & B & _).
    - split; [|done..]. by eexists _, _.
    - done.
    - simpl. unfold NUM_COLS. lia.
    - simpl. unfold NUM_ROWS in *. rewrite s8_small; lia.
    - done. }
  destruct (decide (ch = 13)).
  { assert (D : draws c (on_tm (fun t => set_cursor 0 (cur_y t) t) c)) by (split; [by eexists _, _|done..]).
    split; [etrans; [exact D|apply draws_setpos]|]. split; [by rewrite setpos_vm|]. by apply scr_ok_setpos. }
  destruct (decide (ch = 8)); [|destruct Hs; done].
  assert (D : draws c (set_vid_char (cur_x (tm (back c))) (cur_y (tm (back c))) 32 (back c))).
  { etrans; [apply draws_back|apply draws_set_vid_char]. }
  split; [etrans; [exact D|apply draws_setpos]|].
  split; [rewrite setpos_vm; by apply D|]. apply scr_ok_setpos. by rewrite (draws_attr _ _ D).
Qed.

Lemma con_ok_draws c c' : draws c c' -> con_ok c -> scr_ok c' -> con_ok c'.
Proof. intros D [Hm _] Hs. split; [by apply D|done]. Qed.

(** Printing one visible character away from the last cell. *)
Lemma putc_plain ch c :
  con_ok c -> shown ch -> cur_x (tm c) < 79 ->
  tm (putc ch c) = set_cursor (cur_x (tm c) + 1) (cur_y (tm c)) (tm c) /\
  forall x y, 0 <= x < NUM_COLS -> 0 <= y < NUM_ROWS ->
    cell (putc ch c) x y = if decide (cur_x (tm c) = x /\ cur_y (tm c) = y) then (u8 ch, attr (tm c)) else cell c x y.
Proof.
  intros Hc Hs Hx79. pose proof Hc as [Hm [Hx Hy Ha]]. pose proof (putc_shown ch c Hc Hs) as P.
  unfold advance in P. rewrite decide_False in P by lia. destruct P as (c1 & -> & Et & D & Hcell).
  unfold NUM_COLS, NUM_ROWS in *.
  destruct (putc_finish c c1 D Hc) as (_ & _ & E & Hf); [rewrite Et; unfold NUM_COLS, NUM_ROWS; simpl; lia..|].
  assert (Hm1 : mem_ok (vm c1)) by by apply D.
  split.
  - rewrite E, Et. simpl. by rewrite Z.min_l by lia.
  - intros x y Hx' Hy'. rewrite Hf. rewrite scroll_if_below_cell by (done || by rewrite (draws_attr c)).
    rewrite Et. simpl. rewrite decide_True by (unfold NUM_ROWS; lia). by apply Hcell.
Qed.

(** A newline: to the start of the next row, scrolling in the last one. *)
Lemma putc_newline c :
  con_ok c ->
  tm (putc 10 c) = set_cursor 0 (Z.min (cur_y (tm c) + 1) 24) (tm c) /\
  forall x y, 0 <= x < NUM_COLS -> 0 <= y < NUM_ROWS ->
    cell (putc 10 c) x y =
    if decide (cur_y (tm c) < 24) then cell c x y
    else if decide (y = 24) then (32, DEF_ATTR) else cell c x (y + 1).
Proof.
  intros Hc. pose proof Hc as [Hm [Hx Hy Ha]]. unfold NUM_ROWS in Hy.
  set (c1 := on_tm (fun t => set_cursor 0 (s8 (cur_y t + 1)) t) c).
  assert (E1 : tm c1 = set_cursor 0 (cur_y (tm c) + 1) (tm c)) by (simpl; by rewrite s8_small by lia).
  destruct (putc_finish c c1) as (_ & _ & E & Hf);
    [split; [by eexists _, _|done..]|done|rewrite E1; unfold NUM_COLS, NUM_ROWS; simpl; lia..|].
  assert (P : putc 10 c = setpos (cur_x (tm (scroll_if_below c1))) (cur_y (tm (scroll_if_below c1))) (scroll_if_below c1)) by done.
  rewrite P. split.
  - rewrite E, E1. done.
  - intros x y Hx' Hy'. rewrite Hf, scroll_if_below_cell by (first [done | by rewrite E1]).
    rewrite E1. simpl. unfold NUM_ROWS. rewrite (cell_same c c1) by done.
    destruct (decide (cur_y (tm c) < 24)); [by rewrite decide_True by lia|].
    rewrite decide_False by lia. by rewrite (cell_same c c1) by done.
Qed.

(** ** Clearing *)

Lemma clear_step c c' i :
  0 <= attr (tm c) < 256 -> 0 <= i < NUM_ROWS * NUM_COLS -> con_ok c -> draws c c' -> tm c' = tm c ->
  let c2 := poke (video_mem (tm c') + Z.shiftl i 1 + 1) (attr (tm c')) (poke (video_mem (tm c') + Z.shiftl i 1) 32 c') in
  draws c c2 /\ tm c2 = tm c /\
  forall x y, 0 <= x < NUM_COLS -> 0 <= y < NUM_ROWS ->
    cell c2 x y = if decide (80 * y + x = i) then (32, attr (tm c)) else cell c' x y.
Proof.
  intros Ha Hi Hc D E c2. unfold NUM_ROWS, NUM_COLS in *. split_and!.
  - etrans; [exact D|]. etrans; apply draws_poke; simpl; rewrite E, shiftl1; unfold on_page, VID_MEM_SIZE; lia.
  - done.
  - intros x y Hx Hy. unfold cell, c2. simpl. rewrite E, shiftl1, !ld8_st8. unfold cell_addr.
    destruct (decide (80 * y + x = i)).
    + rewrite decide_False, !decide_True by lia. by rewrite (u8_small (attr _)).
    + rewrite !decide_False by lia. done.
Qed.

Lemma clear_spec c :
  con_ok c ->
  draws c (clear c) /\ tm (clear c) = tm c /\
  forall x y, 0 <= x < NUM_COLS -> 0 <= y < NUM_ROWS -> cell (clear c) x y = (32, attr (tm c)).
Proof.
  intros Hc. pose proof Hc as [Hm [_ _ Ha]]. unfold clear.
  destruct (for_up_ind (fun i c' => draws c c' /\ tm c' = tm c /\
     forall x y, 0 <= x < NUM_COLS -> 0 <= y < NUM_ROWS -> 80 * y + x < i -> cell c' x y = (32, attr (tm c)))
     0 (NUM_ROWS * NUM_COLS)
     (fun i c => poke (video_mem (tm (poke (video_mem (tm c) + Z.shiftl i 1) 32 c)) + Z.shiftl i 1 + 1)
        (attr (tm (poke (video_mem (tm c) + Z.shiftl i 1) 32 c))) (poke (video_mem (tm c) + Z.shiftl i 1) 32 c)) c)
    as (D & E & C).
  - unfold NUM_ROWS, NUM_COLS. lia.
  - split_and!; [done|done|]. unfold NUM_COLS, NUM_ROWS. lia.
  - intros i c' Hi (D & E & C). destruct (clear_step c c' i Ha Hi Hc D E) as (D' & E' & C').
    split_and!; [exact D'|exact E'|]. intros x y Hx Hy Hlt. etrans; [by apply C'|].
    case_decide; [done|]. apply C; [done|done|lia].
  - split_and!; [exact D|exact E|]. intros x y Hx Hy. apply C; [done|done|].
    unfold NUM_COLS, NUM_ROWS in *. lia.
Qed.

(** Wherever the terminal's page is said to be, clearing writes there only. *)
Lemma clear_any c (P : Z -> Prop) : mem_ok (vm c) ->
  (forall i, 0 <= i < VID_MEM_SIZE -> P (video_mem (tm c) + i)) ->
  tm (clear c) = tm c /\ ports (clear c) = ports c /\ front (clear c) = front c /\ mem_ok (vm (clear c)) /\
  forall a, ~ P a -> ld8 (vm (clear c)) a = ld8 (vm c) a.
Proof.
  intros Hm HP. unfold clear.
  apply (for_up_inv (fun c1 => tm c1 = tm c /\ ports c1 = ports c /\ front c1 = front c /\ mem_ok (vm c1) /\
    forall a, ~ P a -> ld8 (vm c1) a = ld8 (vm c) a)); [by split_and!|].
  intros i c1 Hi (E1 & E2 & E3 & E4 & E5). unfold NUM_ROWS, NUM_COLS in Hi. cbn. rewrite E1. split_and!; try done.
  - by do 2 apply mem_ok_st8.
  - intros a Ha. rewrite shiftl1.
    assert (HP' : forall j, 0 <= j < VID_MEM_SIZE -> video_mem (tm c) + j <> a) by (intros j Hj <-; by apply Ha, HP).
    unfold VID_MEM_SIZE in HP'. pose proof (HP' (2 * i) ltac:(lia)). pose proof (HP' (2 * i + 1) ltac:(lia)).
    rewrite !ld8_st8_ne by lia. by apply E5.
Qed.

#[global] Opaque clear putc.

(** ** Output *)

(** What output never changes: the line being edited, the process, the pages. *)
Record same_line (t t' : term_t) : Prop := {
  sl_buf : term_buf t' = term_buf t;
  sl_count : term_buf_count t' = term_buf_count t;
  sl_curpos : term_curpos t' = term_curpos t;
  sl_done : term_read_done t' = term_read_done t;
  sl_reading : reading t' = reading t;
  sl_pid : cur_pid t' = cur_pid t;
  sl_page : video_mem t' = video_mem t;
  sl_buffer : video_buffer t' = video_buffer t
}.

Lemma same_line_trans t1 t2 t3 : same_line t1 t2 -> same_line t2 t3 -> same_line t1 t3.
Proof. intros [] []. split; congruence. Qed.

(** The frame of output: the line survives, memory changes in the page only. *)
Record writes (c c' : con) : Prop := {
  wr_line : same_line (tm c) (tm c');
  wr_front : front c' = front c;
  wr_vm : forall a, ~ on_page (video_mem (tm c)) a -> ld8 (vm c') a = ld8 (vm c) a;
  wr_ok : mem_ok (vm c) -> mem_ok (vm c')
}.

#[export] Instance writes_preorder : PreOrder writes.
Proof.
  split.
  - intros c. by split.
  - intros c1 c2 c3 [L1 F1 V1 O1] [L2 F2 V2 O2]. split.
    + by eapply same_line_trans.
    + congruence.
    + intros a Ha. rewrite V2 by by rewrite (sl_page _ _ L1). by apply V1.
    + auto.
Qed.

Lemma draws_writes c c' : draws c c' -> writes c c'.
Proof. intros [(x & y & E) F V O]. split; [rewrite E; by split|done..]. Qed.

(** A change of the terminal that output may make. *)
Lemma writes_tm f c : same_line (tm c) (f (tm c)) -> writes c (on_tm f c).
Proof. by split. Qed.

(** The state of the escape parser: the pending argument is a run of at most
    three digits, at most three arguments are kept. *)
Record esc_ok (t : term_t) : Prop := {
  eo_buf : length (esc_buf t) = 4%nat;
  eo_args : length (esc_args t) = 4%nat;
  eo_buf_len : 0 <= esc_buf_len t <= 3;
  eo_arg_len : 0 <= esc_arg_len t <= 3;
  eo_digits : forall i, 0 <= i < esc_buf_len t ->
    exists d, arr_get (esc_buf t) i = Some d /\ 48 <= d <= 57
}.

(** The fields of the escape parser. *)
Definition same_esc (t t' : term_t) : Prop :=
  esc_state t' = esc_state t /\ esc_buf t' = esc_buf t /\ esc_buf_len t' = esc_buf_len t /\
  esc_args t' = esc_args t /\ esc_arg_len t' = esc_arg_len t.

Lemma same_esc_ok t t' : same_esc t t' -> esc_ok t -> esc_ok t'.
Proof.
  intros (_ & E1 & E2 & E3 & E4) [].
  split; rewrite ?E1, ?E2, ?E3, ?E4; done.
Qed.

Lemma draws_same_esc c c' : draws c c' -> same_esc (tm c) (tm c').
Proof. intros [(x & y & ->) _ _ _]. done. Qed.

(** What every output step does. *)
Definition output (c c' : con) : Prop := writes c c' /\ con_ok c' /\ same_esc (tm c) (tm c').

Lemma output_draws c c' : draws c c' -> con_ok c' -> output c c'.
Proof. intros D Hc. split_and!; [by apply draws_writes|done|by apply draws_same_esc]. Qed.

Lemma output_setattr a c : con_ok c -> output c (setattr a c).
Proof.
  intros [Hm [Hx Hy Ha]]. split; [by apply writes_tm|]. split; [|done].
  split; [done|]. split; [done..|]. apply u8_range.
Qed.

Lemma output_setpos x y c : con_ok c -> output c (setpos x y c).
Proof.
  intros Hc. apply output_draws; [apply draws_setpos|].
  apply (con_ok_draws c); [apply draws_setpos|done|]. apply scr_ok_setpos. apply Hc.
Qed.

Lemma output_tm f c :
  (forall t, same_line t (f t)) -> (forall t, same_esc t (f t)) ->
  (forall t, cur_x (f t) = cur_x t /\ cur_y (f t) = cur_y t /\ attr (f t) = attr t) ->
  con_ok c -> output c (on_tm f c).
Proof.
  intros H1 H2 H3 [Hm [Hx Hy Ha]]. destruct (H3 (tm c)) as (E1 & E2 & E3).
  split; [by apply writes_tm|]. split; [|by apply H2].
  split; [done|]. by split; rewrite tm_on_tm, ?E1, ?E2, ?E3.
Qed.

Lemma output_putc ch c : con_ok c -> output c (putc ch c).
Proof. intros Hc. destruct (putc_ok ch c Hc). by apply output_draws. Qed.

Lemma output_outb2 d p d' p' c : con_ok c -> output c (outb d p (outb d' p' c)).
Proof. intros Hc. destruct Hc as [Hm [? ? ?]].
  apply output_draws; [etrans; apply draws_outb|]. by split. Qed.

Lemma output_store x y c : con_ok c -> output c (on_tm (set_store x y) c).
Proof. by apply output_tm. Qed.

Lemma output_noecho v c : con_ok c -> output c (on_tm (set_noecho v) c).
Proof. by apply output_tm. Qed.

Lemma output_canon v c : con_ok c -> output c (on_tm (set_canon v) c).
Proof. by apply output_tm. Qed.

Lemma output_clear c : con_ok c -> output c (clear c).
Proof.
  intros Hc. destruct (clear_spec c Hc) as (D & E & _). apply output_draws; [done|].
  apply (con_ok_draws c); [done|done|]. destruct Hc as [_ [? ? ?]]. by split; rewrite E.
Qed.

#[export] Hint Resolve output_setattr output_setpos output_outb2 output_store output_noecho output_canon
  output_clear output_putc : kern.

(** A final character of an escape sequence never faults. *)
Lemma esc_funcs_ok f args n c :
  con_ok c -> 0 <= n -> n <= Z.of_nat (length args) ->
  exists c', esc_funcs f args n c = Some c' /\ output c c'.
Proof.
  intros Hc Hn Hl.
  assert (H0 : n <> 0 -> exists a, arr_get args 0 = Some a).
  { intros ?. destruct (arr_get_Some args 0) as (a & E & _); [lia|eauto]. }
  assert (H1 : 1 < n -> exists a, arr_get args 1 = Some a).
  { intros ?. destruct (arr_get_Some args 1) as (a & E & _); [lia|eauto]. }
  assert (Hid : output c c) by by apply output_draws.
  unfold esc_funcs, mix_attr.
  repeat match goal with
    | |- context [if decide (n <> 0) then _ else _] =>
        destruct (decide (n <> 0)) as [N|N]; [destruct (H0 N) as [? ->]|]; rewrite ?bind_ret
    | |- context [if decide (1 < n) then _ else _] =>
        destruct (decide (1 < n)) as [N1|N1];
          [destruct (H1 N1) as [? ->]; try destruct (H0 ltac:(lia)) as [? ->]|]; rewrite ?bind_ret
    | |- context [if decide ?P then _ else _] => destruct (decide P)
    end; (eexists; split; [reflexivity|]);
    auto with kern.
Qed.

(** The digits collected so far, as a C string and as a number. *)
Lemma esc_number t b :
  esc_ok t -> arr_set (esc_buf t) (esc_buf_len t) 0 = Some b -> exists v, atoi b 0 10 = Some v.
Proof.
  intros [Hb _ Hn _ Hd] E. unfold arr_set in E. case_decide; [|done]. injection E as <-.
  set (l := take (Z.to_nat (esc_buf_len t)) (esc_buf t)).
  assert (Ll : length l = Z.to_nat (esc_buf_len t)) by (unfold l; rewrite length_take; lia).
  eexists. apply (atoi_fold _ _ l); [|lia]. unfold cstr. cbn [bget arr_buf].
  split; [|rewrite Ll, Z2Nat.id, Z.add_0_l by lia; rewrite arr_get_lookup by lia; apply list_lookup_insert_eq; lia].
  intros k c Hk. pose proof (lookup_lt_Some _ _ _ Hk). apply lookup_take_Some in Hk as [Hk Hlt].
    destruct (Hd (Z.of_nat k)) as (d & E & Hr); [lia|]. rewrite arr_get_lookup, Nat2Z.id in E by lia.
    rewrite Z.add_0_l, arr_get_lookup, Nat2Z.id, list_lookup_insert_ne by lia. split; [done|]. simplify_eq. lia.
Qed.

(** The parser state is reset, output is kept. *)
Definition out_esc (c c' : con) : Prop := writes c c' /\ con_ok c' /\ esc_ok (tm c').

Lemma out_esc_output c c' : output c c' -> esc_ok (tm c) -> out_esc c c'.
Proof. intros (W & Hc & E) He. split_and!; [done|done|by eapply same_esc_ok]. Qed.

Lemma out_esc_trans c1 c2 c3 : out_esc c1 c2 -> out_esc c2 c3 -> out_esc c1 c3.
Proof. intros (W1 & _ & _) (W2 & Hc & E). split_and!; [by etrans|done|done]. Qed.

(** A change of the parser state alone. *)
Lemma out_esc_tm f c :
  same_line (tm c) (f (tm c)) -> cur_x (f (tm c)) = cur_x (tm c) -> cur_y (f (tm c)) = cur_y (tm c) ->
  attr (f (tm c)) = attr (tm c) -> esc_ok (f (tm c)) -> con_ok c -> out_esc c (on_tm f c).
Proof.
  intros L E1 E2 E3 He [Hm [Hx Hy Ha]]. split_and!; [by apply writes_tm| |done].
  split; [done|]. by split; rewrite tm_on_tm, ?E1, ?E2, ?E3.
Qed.

Lemma esc_idle_ok c : con_ok c -> esc_ok (tm c) -> out_esc c (esc_idle c).
Proof.
  intros Hc [Hb Ha Hn Hm Hd]. apply out_esc_tm; try done. split; simpl; try done; try lia.
Qed.

Lemma esc_arg_ok ch c :
  con_ok c -> esc_ok (tm c) -> exists c', esc_arg ch c = Some (0, c') /\ out_esc c c'.
Proof.
  intros Hc He. pose proof He as [Hb Ha Hn Hm Hd]. unfold esc_arg. destruct (isnum ch) eqn:Hnum.
  { apply bool_decide_eq_true in Hnum. case_decide.
    2: { eexists. split; [done|]. apply out_esc_output; [by apply output_draws|done]. }
    rewrite arr_set_Some by lia. rewrite bind_ret. eexists. split; [done|].
    apply out_esc_tm; try done. split; simpl; rewrite ?length_insert; try done.
    - rewrite u8_small; lia.
    - rewrite u8_small by lia. intros i Hi. rewrite arr_get_lookup by lia.
      destruct (decide (i = esc_buf_len (tm c))) as [->|].
      + rewrite list_lookup_insert_eq by lia. eauto.
      + rewrite list_lookup_insert_ne by lia. destruct (Hd i) as (d & E & ?); [lia|].
        rewrite arr_get_lookup in E by lia. eauto. }
  assert (exists c1, (if decide (esc_arg_len (tm c) < 3) then
            b ← arr_set (esc_buf (tm c)) (esc_buf_len (tm c)) 0;
            v ← atoi b 0 10;
            a ← arr_set (esc_args (tm c)) (esc_arg_len (tm c)) (u8 v);
            Some (on_tm (fun t => set_esc_args a (u8 (esc_arg_len t + 1))
                                    (set_esc_buf b (esc_buf_len t) t)) c)
          else Some c) = Some c1 /\ out_esc c (on_tm (fun t => set_esc_buf (esc_buf t) 0 t) c1)) as (c1 & -> & O1).
  { case_decide.
    - destruct (arr_set (esc_buf (tm c)) (esc_buf_len (tm c)) 0) as [b|] eqn:Eb.
      2: { rewrite arr_set_Some in Eb by lia. done. }
      destruct (esc_number _ _ He Eb) as [v Ev]. rewrite bind_ret, Ev, bind_ret.
      rewrite arr_set_Some in * by lia. injection Eb as <-. rewrite bind_ret. eexists. split; [done|].
      rewrite on_tm_on_tm. apply out_esc_tm; try done.
      split; simpl; rewrite ?length_insert; try done; try lia. rewrite u8_small; lia.
    - eexists. split; [done|]. apply out_esc_tm; try done. by split; simpl; try lia. }
  rewrite bind_ret. set (c2 := on_tm _ c1) in *. clearbody c2. cbv zeta. case_decide; [|eauto].
  pose proof O1 as (_ & Hc2 & He2). pose proof He2 as [? ? ? ? ?].
  destruct (esc_funcs_ok ch (esc_args (tm c2)) (esc_arg_len (tm c2)) c2) as (c3 & -> & O3); [done|lia|lia|].
  rewrite bind_ret. eexists. split; [done|].
  eapply out_esc_trans; [exact O1|]. pose proof (out_esc_output _ _ O3 He2) as O3'.
  eapply out_esc_trans; [exact O3'|]. apply esc_idle_ok; apply O3'.
Qed.

Lemma esc_parse_ok ch c :
  con_ok c -> esc_ok (tm c) -> exists p c', esc_parse ch c = Some (p, c') /\ out_esc c c'.
Proof.
  intros Hc He. pose proof He as [Hb Ha Hn Hm Hd]. unfold esc_parse.
  case_decide; [eexists _, _; split; [done|]; apply out_esc_tm; done|].
  case_decide; [eexists _, _; split; [done|]; apply out_esc_tm; done|].
  case_decide.
  { set (c1 := on_tm _ c).
    assert (O1 : out_esc c c1) by (apply out_esc_tm; try done; by split; simpl; try lia).
    clearbody c1. pose proof O1 as (_ & Hc1 & He1). destruct (isnum ch).
    - destruct (esc_arg_ok ch c1 Hc1 He1) as (c2 & -> & O2). eexists _, _. split; [done|].
      by eapply out_esc_trans.
    - destruct (esc_funcs_ok ch [] 0 c1) as (c2 & -> & O2); [done|done|done|].
      rewrite bind_ret. eexists _, _. split; [done|]. pose proof (out_esc_output _ _ O2 He1) as O2'.
      eapply out_esc_trans; [exact O1|]. eapply out_esc_trans; [exact O2'|]. apply esc_idle_ok; apply O2'. }
  case_decide.
  - destruct (esc_arg_ok ch c Hc He) as (c2 & -> & O2). eauto.
  - eexists _, _. split; [done|]. apply out_esc_output; [by apply output_draws|done].
Qed.

Lemma write_byte_ok ch c :
  con_ok c -> esc_ok (tm c) -> exists c', write_byte ch c = Some c' /\ out_esc c c'.
Proof.
  intros Hc He. unfold write_byte. destruct (esc_parse_ok ch c Hc He) as (p & c1 & -> & O1).
  rewrite bind_ret. eexists. split; [done|]. pose proof O1 as (_ & Hc1 & He1). case_decide; [|done].
  eapply out_esc_trans; [exact O1|]. apply out_esc_output; [by apply output_putc|done].
Qed.

(** Any output leaves the terminal well-formed and changes nothing but its
    page, cursor, colour, modes and parser. *)
Lemma write_bytes_ok l c :
  con_ok c -> esc_ok (tm c) -> exists c', write_bytes l c = Some c' /\ out_esc c c'.
Proof.
  unfold write_bytes. revert c. induction l as [|ch l IH]; intros c Hc He; simpl.
  - eexists. split; [done|]. apply out_esc_output; [by apply output_draws|done].
  - destruct (write_byte_ok ch c Hc He) as (c1 & -> & O1). rewrite bind_ret.
    destruct (IH c1) as (c2 & -> & O2); [apply O1..|]. eexists. split; [done|]. by eapply out_esc_trans.
Qed.

(** ** Plain text *)

Definition printable (ch : Z) : Prop := 0 <= ch < 256 /\ shown ch /\ ch <> 0x1b.

Lemma write_byte_plain ch c :
  esc_state (tm c) = IDLE -> ch <> 0x1b -> write_byte ch c = Some (putc ch c).
Proof.
  intros Hs Hc. unfold write_byte, esc_parse. rewrite decide_False by done.
  by rewrite Hs, !decide_False by (by intros [[=] ?] || done).
Qed.

Lemma write_text_spec l c :
  con_ok c -> esc_state (tm c) = IDLE -> Forall printable l -> cur_x (tm c) + Z.of_nat (length l) < NUM_COLS ->
  exists c', write_bytes l c = Some c' /\
    tm c' = set_cursor (cur_x (tm c) + Z.of_nat (length l)) (cur_y (tm c)) (tm c) /\
    forall x y, 0 <= x < NUM_COLS -> 0 <= y < NUM_ROWS ->
      cell c' x y =
      match (if decide (y = cur_y (tm c) /\ cur_x (tm c) <= x) then l !! Z.to_nat (x - cur_x (tm c)) else None) with
      | Some ch => (ch, attr (tm c))
      | None => cell c x y
      end.
Proof.
  unfold write_bytes. revert c. induction l as [|ch l IH]; intros c Hc Hs Hl Hx; simpl foldM; simpl length in *.
  - eexists. split; [done|]. rewrite Z.add_0_r. split; [by destruct (tm c)|]. intros x y _ _.
    by case_decide.
  - apply Forall_cons_1 in Hl as [(Hr & Hsh & He) Hl']. rewrite write_byte_plain, bind_ret by done.
    destruct (putc_ok ch c Hc) as [_ Hc']. destruct (putc_plain ch c Hc Hsh) as [Et Ecell]; [unfold NUM_COLS in *; lia|].
    destruct (IH (putc ch c)) as (c' & E & Et' & Ecell'); [done|by rewrite Et|done|rewrite Et; simpl; lia|].
    exists c'. split; [done|]. rewrite Et', Et. split; [unfold set_cursor; simpl; f_equal; lia|].
    intros x y Hxx Hyy. rewrite Ecell', Ecell, Et by done. simpl.
    rewrite (u8_small ch) by done.
    destruct (decide (cur_x (tm c) = x /\ cur_y (tm c) = y)) as [[<- <-]|].
    + rewrite decide_False, decide_True by lia. by rewrite Z.sub_diag.
    + destruct (decide (y = cur_y (tm c) /\ cur_x (tm c) + 1 <= x)) as [D|D].
      * rewrite decide_True by lia.
        by replace (Z.to_nat (x - cur_x (tm c))) with (S (Z.to_nat (x - (cur_x (tm c) + 1)))) by lia.
      * destruct (decide (y = cur_y (tm c) /\ cur_x (tm c) <= x)); [lia|done].
Qed.

(** ** Escape sequences *)

(** [c] with another state of the escape parser. *)
Definition with_parser (st : esc_state_t) (b : list Z) (bl : Z) (a : list Z) (al : Z) (c : con) : con :=
  on_tm (fun t => set_state st (set_esc_buf b bl (set_esc_args a al t))) c.

Section Parser.
Context (c : con).

Lemma parser_tm st b bl a al :
  tm (with_parser st b bl a al c) = set_state st (set_esc_buf b bl (set_esc_args a al (tm c))).
Proof. done. Qed.

Lemma parse_bracket b bl a al :
  write_byte 91 (with_parser A_ESCAPE b bl a al c) = Some (with_parser A_BRACKET b bl a al c).
Proof. done. Qed.

(** The first character after the bracket starts an empty argument list. *)
Lemma parse_first ch b bl a al :
  isnum ch = true ->
  write_byte ch (with_parser A_BRACKET b bl a al c) = write_byte ch (with_parser ARG_PARSE b 0 a 0 c).
Proof.
  intros Hn. unfold write_byte, esc_parse. rewrite Hn.
  assert (ch <> 27 /\ ch <> 91) as [N1 N2] by (apply bool_decide_eq_true in Hn; lia).
  rewrite !(decide_False (P := ch = 27)) by done.
  rewrite !parser_tm. simpl esc_state.
  rewrite (decide_False (P := A_BRACKET = A_ESCAPE /\ _)) by (by intros [[=] ?] || done).
  rewrite (decide_False (P := ARG_PARSE = A_ESCAPE /\ _)) by (by intros [[=] ?] || done). done.
Qed.

Lemma parse_arg ch b bl a al :
  ch <> 27 -> ch <> 91 ->
  write_byte ch (with_parser ARG_PARSE b bl a al c)
  = ('(p, c1) ← esc_arg ch (with_parser ARG_PARSE b bl a al c); Some (if decide (p <> 0) then putc ch c1 else c1)).
Proof.
  intros N1 N2. unfold write_byte, esc_parse. rewrite decide_False by done. rewrite parser_tm. simpl esc_state.
  rewrite !decide_False by (by intros [[=] ?] || done). by rewrite decide_True by done.
Qed.

Lemma parse_digit ch b bl a al :
  isnum ch = true -> 0 <= bl < 3 -> length b = 4%nat ->
  write_byte ch (with_parser ARG_PARSE b bl a al c)
  = Some (with_parser ARG_PARSE (<[Z.to_nat bl := ch]> b) (bl + 1) a al c).
Proof.
  intros Hn Hbl Hb. assert (ch <> 27 /\ ch <> 91) as [N1 N2] by (apply bool_decide_eq_true in Hn; lia).
  rewrite parse_arg by done. unfold esc_arg. rewrite Hn, parser_tm. simpl esc_buf. simpl esc_buf_len.
  rewrite decide_True by lia. rewrite arr_set_Some by lia. rewrite bind_ret, u8_small by lia. done.
Qed.

Lemma parse_digits ds b bl a al :
  Forall (fun ch => isnum ch = true) ds -> 0 <= bl -> bl + Z.of_nat (length ds) <= 3 -> length b = 4%nat ->
  exists b', write_bytes ds (with_parser ARG_PARSE b bl a al c)
    = Some (with_parser ARG_PARSE b' (bl + Z.of_nat (length ds)) a al c) /\ length b' = 4%nat /\
    take (Z.to_nat bl + length ds) b' = take (Z.to_nat bl) b ++ ds.
Proof.
  unfold write_bytes. intros Hds. revert b bl.
  induction Hds as [|ch ds Hch Hds IH]; intros b bl Hbl Hlen Hb; simpl foldM; simpl length in *.
  - exists b. rewrite Z.add_0_r, app_nil_r, Nat.add_0_r. done.
  - rewrite parse_digit, bind_ret by (done || lia).
    destruct (IH (<[Z.to_nat bl := ch]> b) (bl + 1)) as (b' & -> & Hb' & Ht);
      [lia|lia|by rewrite length_insert|].
    exists b'. split; [do 2 f_equal; lia|]. split; [done|].
    replace (Z.to_nat bl + S (length ds))%nat with (Z.to_nat (bl + 1) + length ds)%nat by lia.
    rewrite Ht. replace (Z.to_nat (bl + 1)) with (Z.to_nat bl + 1)%nat by lia.
    rewrite take_insert_snoc by lia. by rewrite <- app_assoc.
Qed.

(** The number of an argument, in decimal. *)
Definition decimal (n : Z) : list Z := digit_char <$> digits 10 n.

Lemma decimal_length n : 0 <= n < 256 -> (1 <= length (decimal n) <= 3)%nat.
Proof.
  intros Hn. assert (E : Forall (fun n => (1 <= length (decimal n) <= 3)%nat) (seqZ 0 256)).
  { apply (bool_decide_unpack _). by vm_compute. }
  rewrite Forall_seqZ in E. apply E. lia.
Qed.

Lemma decimal_isnum n : Forall (fun ch => isnum ch = true) (decimal n).
Proof.
  unfold decimal. apply Forall_fmap. eapply Forall_impl; [|apply (digits_range 10); lia].
  intros d Hd. simpl in Hd. unfold isnum, digit_char. simpl. apply bool_decide_eq_true. rewrite decide_True; lia.
Qed.

(** The collected digits read back as the number. *)
Lemma decimal_atoi n b :
  0 <= n < 256 -> length b = 4%nat -> take (length (decimal n)) b = decimal n ->
  exists b', arr_set b (Z.of_nat (length (decimal n))) 0 = Some b' /\ length b' = 4%nat /\ atoi b' 0 10 = Some n.
Proof.
  intros Hn Hb Ht. pose proof (decimal_length n Hn) as Hl. rewrite arr_set_Some by lia. rewrite Nat2Z.id.
  eexists. split; [done|]. split; [by rewrite length_insert|].
  rewrite (atoi_spec _ 0 10 (digits 10 n)).
  - rewrite horner_digits by lia. f_equal. apply s32_small. lia.
  - lia.
  - apply digits_range. lia.
  - fold (decimal n). unfold cstr. cbn [bget arr_buf]. split.
    + intros k ch Hk. pose proof (lookup_lt_Some _ _ _ Hk).
      rewrite Z.add_0_l, arr_get_lookup, Nat2Z.id by lia. rewrite list_lookup_insert_ne by lia.
      split; [rewrite <- Ht in Hk; by apply lookup_take_Some in Hk as [Hk _]|].
      pose proof (decimal_isnum n) as F. rewrite Forall_lookup in F. specialize (F _ _ Hk).
      apply bool_decide_eq_true in F. lia.
    + rewrite Z.add_0_l, arr_get_lookup, Nat2Z.id by lia. apply list_lookup_insert_eq. lia.
  - pose proof (digits_length 10 n). lia.
Qed.

(** A number and the character that ends it: the argument is stored. *)
Lemma parse_number n ch b a al :
  0 <= n < 256 -> isnum ch = false -> ch <> 27 -> ch <> 91 -> length b = 4%nat -> length a = 4%nat -> 0 <= al < 3 ->
  exists b', length b' = 4%nat /\
  write_bytes (decimal n ++ [ch]) (with_parser ARG_PARSE b 0 a al c) =
  let c2 := with_parser ARG_PARSE b' 0 (<[Z.to_nat al := n]> a) (al + 1) c in
  if decide (ch <> 59)
  then c3 ← esc_funcs ch (<[Z.to_nat al := n]> a) (al + 1) c2; Some (esc_idle c3)
  else Some c2.
Proof.
  intros Hn Hch N1 N2 Hb Ha Hal. pose proof (decimal_length n Hn) as Hl.
  destruct (parse_digits (decimal n) b 0 a al (decimal_isnum n)) as (b1 & E & Hb1 & Ht); [lia|lia|done|].
  simpl in Ht. destruct (decimal_atoi n b1 Hn Hb1 Ht) as (b2 & E2 & Hb2 & E3).
  exists b2. split; [done|]. unfold write_bytes in *. rewrite foldM_app, E, bind_ret. simpl foldM.
  rewrite parse_arg by done. unfold esc_arg. rewrite Hch, parser_tm. simpl esc_buf. simpl esc_buf_len.
  simpl esc_arg_len. simpl esc_args. rewrite decide_True by lia. rewrite Z.add_0_l, E2, bind_ret, E3, bind_ret.
  rewrite arr_set_Some by lia. rewrite bind_ret, (u8_small n) by lia. cbv zeta.
  set (a' := <[Z.to_nat al := n]> a).
  assert (E4 : on_tm (fun t => set_esc_args a' (u8 (esc_arg_len t + 1)) (set_esc_buf b2 (esc_buf_len t) t))
                 (with_parser ARG_PARSE b1 (Z.of_nat (length (decimal n))) a al c)
               = with_parser ARG_PARSE b2 (Z.of_nat (length (decimal n))) a' (al + 1) c).
  { unfold with_parser. rewrite on_tm_on_tm. unfold on_tm. simpl. by rewrite u8_small by lia. }
  rewrite E4, bind_ret.
  change (on_tm (fun t => set_esc_buf (esc_buf t) 0 t) (with_parser ARG_PARSE b2 _ a' (al + 1) c))
    with (with_parser ARG_PARSE b2 0 a' (al + 1) c).
  change (esc_args (tm (with_parser ARG_PARSE b2 _ a' (al + 1) c))) with a'.
  change (esc_arg_len (tm (with_parser ARG_PARSE b2 _ a' (al + 1) c))) with (al + 1).
  case_decide; [by destruct (esc_funcs ch a' (al + 1) _)|done].
Qed.
End Parser.

(** ** Properties *)

(** The sequences a program writes: ESC [ f without arguments, ESC [ n f with one
    and ESC [ r ; c p with two. *)
Definition esc_seq0 (f : Z) : list Z := [27; 91; f].
Definition esc_seq1 (n f : Z) : list Z := 27 :: 91 :: decimal n ++ [f].
Definition esc_seq2 (n1 n2 f : Z) : list Z := 27 :: 91 :: decimal n1 ++ [59] ++ decimal n2 ++ [f].

Lemma parse_esc_any c :
  write_byte 27 c = Some (with_parser A_ESCAPE (esc_buf (tm c)) (esc_buf_len (tm c))
                            (esc_args (tm c)) (esc_arg_len (tm c)) c).
Proof. destruct c as [[] ? ? ?]. done. Qed.

Lemma decimal_cons n : 0 <= n < 256 -> exists d l, decimal n = d :: l /\ isnum d = true.
Proof.
  intros Hn. pose proof (decimal_length n Hn). pose proof (decimal_isnum n) as F.
  destruct (decimal n) as [|d l]; [simpl in *; lia|]. inversion_clear F. eauto.
Qed.

(** The start of a sequence, from any state of the parser. *)
Lemma parse_start c n l :
  0 <= n < 256 ->
  write_bytes (27 :: 91 :: decimal n ++ l) c
  = write_bytes (decimal n ++ l) (with_parser ARG_PARSE (esc_buf (tm c)) 0 (esc_args (tm c)) 0 c).
Proof.
  intros Hn. unfold write_bytes. rewrite foldM_cons, parse_esc_any, bind_ret.
  rewrite foldM_cons, parse_bracket, bind_ret.
  destruct (decimal_cons n Hn) as (d & l' & -> & Hd). simpl app. rewrite !foldM_cons. by rewrite parse_first.
Qed.

(** One argument, from any state. *)
Lemma parse_seq1 c n f :
  0 <= n < 256 -> esc_ok (tm c) -> isnum f = false -> f <> 27 -> f <> 91 -> f <> 59 ->
  exists b, length b = 4%nat /\ write_bytes (esc_seq1 n f) c =
    (let a := <[O := n]> (esc_args (tm c)) in
     c3 ← esc_funcs f a 1 (with_parser ARG_PARSE b 0 a 1 c); Some (esc_idle c3)).
Proof.
  intros Hn He Hf N1 N2 N3. unfold esc_seq1. rewrite parse_start by done.
  destruct (parse_number c n f (esc_buf (tm c)) (esc_args (tm c)) 0) as (b & Hb & ->); try done; try apply He.
  exists b. split; [done|]. cbv zeta. by rewrite decide_True by done.
Qed.

(** Two arguments, from any state. *)
Lemma parse_seq2 c n1 n2 f :
  0 <= n1 < 256 -> 0 <= n2 < 256 -> esc_ok (tm c) -> isnum f = false -> f <> 27 -> f <> 91 -> f <> 59 ->
  exists b, length b = 4%nat /\ write_bytes (esc_seq2 n1 n2 f) c =
    (let a := <[1%nat := n2]> (<[O := n1]> (esc_args (tm c))) in
     c3 ← esc_funcs f a 2 (with_parser ARG_PARSE b 0 a 2 c); Some (esc_idle c3)).
Proof.
  intros Hn1 Hn2 He Hf N1 N2 N3. unfold esc_seq2. rewrite parse_start by done.
  change (decimal n1 ++ [59] ++ decimal n2 ++ [f]) with (decimal n1 ++ ([59] ++ (decimal n2 ++ [f]))).
  rewrite app_assoc. unfold write_bytes. rewrite foldM_app.
  destruct (parse_number c n1 59 (esc_buf (tm c)) (esc_args (tm c)) 0) as (b & Hb & E); try done; try apply He.
  unfold write_bytes in E. rewrite E. cbv zeta. rewrite decide_False by (intros X; by apply X).
  rewrite bind_ret. change (0 + 1) with 1. change (Z.to_nat 0) with O.
  destruct (parse_number c n2 f b (<[O := n1]> (esc_args (tm c))) 1) as (b2 & Hb2 & E2); try done.
  { rewrite length_insert. apply He. }
  exists b2. split; [done|]. unfold write_bytes in E2.
  change (1 + 1) with 2 in E2. change (Z.to_nat 1) with 1%nat in E2. rewrite E2.
  cbv zeta. by rewrite decide_True by done.
Qed.

(** C27: Plain text written to a terminal appears, with the current colours, in
    the cells from the cursor on; no other cell changes and the cursor ends
    after the text. *)
Theorem write_text_correct (l : list Z) (c : con) :
  con_ok c -> esc_state (tm c) = IDLE -> Forall printable l ->
  cur_x (tm c) + Z.of_nat (length l) < NUM_COLS ->
  exists c', write_bytes l c = Some c' /\
    tm c' = set_cursor (cur_x (tm c) + Z.of_nat (length l)) (cur_y (tm c)) (tm c) /\
    (forall k ch, l !! k = Some ch -> cell c' (cur_x (tm c) + Z.of_nat k) (cur_y (tm c)) = (ch, attr (tm c))) /\
    (forall x y, 0 <= x < NUM_COLS -> 0 <= y < NUM_ROWS ->
       ~ (y = cur_y (tm c) /\ cur_x (tm c) <= x < cur_x (tm c) + Z.of_nat (length l)) ->
       cell c' x y = cell c x y).
Proof.
  intros Hc Hs Hl Hx. pose proof Hc as [_ [Hx0 Hy0 _]].
  destruct (write_text_spec l c Hc Hs Hl Hx) as (c' & E & Et & Ec).
  exists c'. split; [done|]. split; [done|]. split.
  - intros k ch Hk. pose proof (lookup_lt_Some _ _ _ Hk). rewrite Ec by lia. rewrite decide_True by lia.
    replace (Z.to_nat (cur_x (tm c) + Z.of_nat k - cur_x (tm c))) with k by lia. by rewrite Hk.
  - intros x y Hxx Hyy Hne. rewrite Ec by done. case_decide; [|done].
    rewrite lookup_ge_None_2; [done|lia].
Qed.

(** A newline moves the cursor to the start of the next row; in the last
    row the screen scrolls: every row shows what was below it and the last
    row is blank in the default colours. *)
Theorem newline_correct (c : con) :
  con_ok c ->
  tm (putc 10 c) = set_cursor 0 (Z.min (cur_y (tm c) + 1) 24) (tm c) /\
  forall x y, 0 <= x < NUM_COLS -> 0 <= y < NUM_ROWS ->
    cell (putc 10 c) x y =
    if decide (cur_y (tm c) < 24) then cell c x y
    else if decide (y = 24) then (32, DEF_ATTR) else cell c x (y + 1).
Proof. apply putc_newline. Qed.

Lemma insert_first (n : Z) l : (0 < length l)%nat -> arr_get (<[O := n]> l) 0 = Some n.
Proof. intros. rewrite arr_get_lookup by lia. by apply list_lookup_insert_eq. Qed.

Lemma esc_colour_f n args c :
  arr_get args 0 = Some n -> esc_funcs 102 args 1 c = Some (mix_attr 0xF0 (Z.land n 0x0F) c).
Proof. unfold esc_funcs. simpl. by intros ->. Qed.

Lemma esc_colour_b n args c :
  arr_get args 0 = Some n -> esc_funcs 98 args 1 c = Some (mix_attr 0x0F (Z.shiftl (Z.land n 0x0F) 4) c).
Proof. unfold esc_funcs. simpl. by intros ->. Qed.

Lemma esc_position n m args c :
  arr_get args 0 = Some n -> arr_get args 1 = Some m -> esc_funcs 112 args 2 c = Some (setpos (m - 1) (n - 1) c).
Proof. unfold esc_funcs. simpl. by intros -> ->. Qed.

(** Without arguments, from any state. *)
Lemma parse_seq0 c f : isnum f = false -> f <> 27 -> f <> 91 ->
  write_bytes (esc_seq0 f) c =
    (c3 ← esc_funcs f [] 0 (with_parser ARG_PARSE (esc_buf (tm c)) 0 (esc_args (tm c)) 0 c); Some (esc_idle c3)).
Proof.
  intros Hf N1 N2. unfold esc_seq0, write_bytes. rewrite foldM_cons, parse_esc_any, bind_ret.
  rewrite foldM_cons, parse_bracket, bind_ret, foldM_cons. unfold write_byte, esc_parse. rewrite Hf.
  rewrite (decide_False (P := f = 27)) by done. rewrite !parser_tm. simpl esc_state.
  rewrite (decide_False (P := A_BRACKET = A_ESCAPE /\ _)) by (by intros [[=] ?] || done). rewrite decide_True by done.
  set (c1 := on_tm _ _). change c1 with (with_parser ARG_PARSE (esc_buf (tm c)) 0 (esc_args (tm c)) 0 c).
  by destruct (esc_funcs f [] 0 _) as [c3|].
Qed.

(** The parser with nothing in it. *)
Definition parser_idle (b a : list Z) (t : term_t) : term_t := set_state IDLE (set_esc_buf b 0 (set_esc_args a 0 t)).

(** The text [l] changes the terminal as [f] says and prints nothing; the parser
    is idle again. *)
Definition escapes (l : list Z) (c : con) (f : term_t -> term_t) : Prop :=
  exists c' b a, write_bytes l c = Some c' /\ tm c' = parser_idle b a (f (tm c)) /\ vm c' = vm c /\ front c' = front c.

Lemma idle_tm c t st b bl a al : tm c = set_state st (set_esc_buf b bl (set_esc_args a al t)) -> tm (esc_idle c) = parser_idle b a t.
Proof. unfold esc_idle. rewrite tm_on_tm. by intros ->. Qed.

Lemma escapes_end l c c3 f st b bl a al : write_bytes l c = Some (esc_idle c3) ->
  tm c3 = set_state st (set_esc_buf b bl (set_esc_args a al (f (tm c)))) -> vm c3 = vm c -> front c3 = front c -> escapes l c f.
Proof. intros E Et Ev Ef. exists (esc_idle c3), b, a. split; [exact E|]. split; [by eapply idle_tm|by split]. Qed.

Lemma setpos_escapes l c x y b a al : write_bytes l c = Some (esc_idle (setpos x y (with_parser ARG_PARSE b 0 a al c))) ->
  escapes l c (set_cursor (clamp NUM_COLS x) (clamp NUM_ROWS y)).
Proof. intros E. apply (escapes_end _ _ _ _ ARG_PARSE b 0 a al E); [by rewrite setpos_tm|by rewrite setpos_vm|by rewrite setpos_front]. Qed.

Lemma mix_escapes l c keep bits v b a al : write_bytes l c = Some (esc_idle (mix_attr keep bits (with_parser ARG_PARSE b 0 a al c))) ->
  Z.lor (Z.land (attr (tm c)) keep) bits = v -> 0 <= v < 256 -> escapes l c (set_attr v).
Proof.
  intros E Ev Hv. apply (escapes_end _ _ _ _ ARG_PARSE b 0 a al E); [|done..]. unfold mix_attr, setattr. rewrite tm_on_tm.
  change (getattr (with_parser ARG_PARSE b 0 a al c)) with (attr (tm c)). by rewrite Ev, u8_small.
Qed.

(** The settings of ESC [ n s and ESC [ n S: the value given to a flag, and the
    last line of the cursor. *)
Definition setting_chars : list (Z * Z * Z) := [(115, 1, 0x00); (83, 0, 0x0F)].

Lemma esc_restore c : esc_funcs 114 [] 0 c = Some (setpos (cur_x_store (tm c)) (cur_y_store (tm c)) c).
Proof. done. Qed.

Lemma cell_idle c x y : cell (esc_idle c) x y = cell c x y.
Proof. done. Qed.

(** The sequences one by one. *)
Section Sequences.
Context (c : con) (Hc : con_ok c) (He : esc_ok (tm c)).

Lemma args_first n : arr_get (<[O := n]> (esc_args (tm c))) 0 = Some n.
Proof. apply insert_first. destruct He as [_ Ha _ _ _]. lia. Qed.

Lemma nibbles_below x y : 0 <= x < 256 -> 0 <= y < 256 -> 0 <= Z.lor x y < 256.
Proof. intros Hx Hy. by apply (lor_below _ _ 8). Qed.

Lemma foreground n : 0 <= n < 256 -> escapes (esc_seq1 n 102) c (set_attr (Z.lor (Z.land (attr (tm c)) 0xF0) (Z.land n 0x0F))).
Proof.
  intros Hn. destruct (parse_seq1 c n 102 Hn He) as (b & _ & E); [done..|]. cbv zeta in E.
  rewrite (esc_colour_f n) in E by apply args_first. rewrite bind_ret in E. apply (mix_escapes _ _ _ _ _ _ _ _ E); [done|].
  apply nibbles_below; [by apply (land_below _ _ 8)|]. pose proof (land_below n 15 4). lia.
Qed.

Lemma background n : 0 <= n < 256 ->
  escapes (esc_seq1 n 98) c (set_attr (Z.lor (Z.land (attr (tm c)) 0x0F) (Z.shiftl (Z.land n 0x0F) 4))).
Proof.
  intros Hn. destruct (parse_seq1 c n 98 Hn He) as (b & _ & E); [done..|]. cbv zeta in E.
  rewrite (esc_colour_b n) in E by apply args_first. rewrite bind_ret in E. apply (mix_escapes _ _ _ _ _ _ _ _ E); [done|].
  apply nibbles_below; [by apply (land_below _ _ 8)|]. rewrite Z.shiftl_mul_pow2 by lia. pose proof (land_below n 15 4). lia.
Qed.

Lemma default_colours :
  escapes (esc_seq0 102) c (set_attr (Z.lor (Z.land (attr (tm c)) 0xF0) 15)) /\ escapes (esc_seq0 98) c (set_attr (Z.land (attr (tm c)) 0x0F)).
Proof.
  assert (H : forall k, 0 <= k < 256 -> 0 <= Z.land (attr (tm c)) k < 256) by (intros k Hk; by apply (land_below _ _ 8)).
  split.
  - pose proof (parse_seq0 c 102 eq_refl ltac:(done) ltac:(done)) as E. apply (mix_escapes _ _ 0xF0 15 _ _ _ _ E); [done|].
    apply nibbles_below; [by apply H|lia].
  - pose proof (parse_seq0 c 98 eq_refl ltac:(done) ltac:(done)) as E. apply (mix_escapes _ _ 0x0F 0 _ _ _ _ E); [apply Z.lor_0_r|by apply H].
Qed.

Lemma position n m : 0 <= n < 256 -> 0 <= m < 256 ->
  escapes (esc_seq2 n m 112) c (set_cursor (clamp NUM_COLS (m - 1)) (clamp NUM_ROWS (n - 1))).
Proof.
  intros Hn Hm. destruct (parse_seq2 c n m 112 Hn Hm He) as (b & _ & E); [done..|]. cbv zeta in E. destruct He as [_ Ha _ _ _].
  rewrite (esc_position n m), bind_ret in E; [by apply (setpos_escapes _ _ _ _ _ _ _ E)| |].
  - rewrite arr_get_lookup by lia. change (Z.to_nat 0) with O. rewrite list_lookup_insert_ne by done. apply list_lookup_insert_eq. lia.
  - rewrite arr_get_lookup by lia. apply list_lookup_insert_eq. rewrite length_insert. lia.
Qed.

Lemma store_restore :
  escapes (esc_seq0 101) c (set_store (cur_x (tm c)) (cur_y (tm c))) /\
  escapes (esc_seq0 114) c (set_cursor (clamp NUM_COLS (cur_x_store (tm c))) (clamp NUM_ROWS (cur_y_store (tm c)))).
Proof.
  split.
  - pose proof (parse_seq0 c 101 eq_refl ltac:(done) ltac:(done)) as E. by apply (escapes_end _ _ _ _ ARG_PARSE (esc_buf (tm c)) 0 (esc_args (tm c)) 0 E).
  - pose proof (parse_seq0 c 114 eq_refl ltac:(done) ltac:(done)) as E. rewrite esc_restore, bind_ret in E. revert E.
    rewrite parser_tm. intros E. exact (setpos_escapes _ _ _ _ _ _ _ E).
Qed.

Lemma cleared : exists c' b a, write_bytes (esc_seq0 99) c = Some c' /\ tm c' = parser_idle b a (tm c) /\
  forall x y, 0 <= x < NUM_COLS -> 0 <= y < NUM_ROWS -> cell c' x y = (32, attr (tm c)).
Proof.
  pose proof (parse_seq0 c 99 eq_refl ltac:(done) ltac:(done)) as E. set (c1 := with_parser _ _ _ _ _ c) in E.
  assert (Hc1 : con_ok c1) by (destruct Hc as [Hm [Hx Hy Ha]]; split; [exact Hm|split; [exact Hx|exact Hy|exact Ha]]). pose proof (eq_refl : attr (tm c1) = attr (tm c)) as Ec.
  destruct (clear_spec c1 Hc1) as (_ & Et & Hcell).
  change (esc_funcs 99 [] 0 c1) with (Some (clear c1)) in E. rewrite bind_ret in E.
  exists (esc_idle (clear c1)), (esc_buf (tm c)), (esc_args (tm c)). split; [exact E|]. split; [apply (idle_tm _ _ ARG_PARSE (esc_buf (tm c)) 0 (esc_args (tm c)) 0), Et|].
  intros x y Hx Hy. rewrite cell_idle, Hcell by done. by rewrite Ec.
Qed.

Lemma settings f v line : (f, v, line) ∈ setting_chars ->
  escapes (esc_seq1 1 f) c (set_noecho v) /\ escapes (esc_seq1 2 f) c (set_canon v) /\
  exists c' b a, write_bytes (esc_seq1 3 f) c = Some c' /\ tm c' = parser_idle b a (tm c) /\ vm c' = vm c /\
    ports c' = ports c ++ [(0x3D4, 0x0B); (0x3D5, line)].
Proof.
  intros Hf. assert (Hcase : (f = 115 /\ v = 1 /\ line = 0x00) \/ (f = 83 /\ v = 0 /\ line = 0x0F)) by by
    (apply elem_of_cons in Hf as [[= -> -> ->]|[[= -> -> ->]|[]%elem_of_nil]%elem_of_cons]; [by left|by right]).
  assert (Hg : forall n, 0 <= n < 256 -> exists b, write_bytes (esc_seq1 n f) c =
    (c3 ← esc_funcs f (<[O := n]> (esc_args (tm c))) 1 (with_parser ARG_PARSE b 0 (<[O := n]> (esc_args (tm c))) 1 c); Some (esc_idle c3))).
  { intros n Hn. destruct (parse_seq1 c n f Hn He) as (b & _ & E); [by destruct Hcase as [(-> & _)|(-> & _)]|destruct Hcase; lia..|]. by exists b. }
  assert (Hs : forall n b, esc_funcs f (<[O := n]> (esc_args (tm c))) 1 (with_parser ARG_PARSE b 0 (<[O := n]> (esc_args (tm c))) 1 c) =
    let c1 := with_parser ARG_PARSE b 0 (<[O := n]> (esc_args (tm c))) 1 c in
    Some (if decide (n = 1) then on_tm (set_noecho v) c1 else if decide (n = 2) then on_tm (set_canon v) c1
          else if decide (n = 3) then outb line 0x3D5 (outb 0x0B 0x3D4 c1) else c1)).
  { intros n b. destruct Hcase as [(-> & -> & ->)|(-> & -> & ->)]; unfold esc_funcs; simpl; by rewrite args_first. }
  split; [|split].
  - destruct (Hg 1 ltac:(done)) as (b & E). rewrite Hs, bind_ret in E. by apply (escapes_end _ _ _ _ ARG_PARSE b 0 (<[O := 1]> (esc_args (tm c))) 1 E).
  - destruct (Hg 2 ltac:(done)) as (b & E). rewrite Hs, bind_ret in E. by apply (escapes_end _ _ _ _ ARG_PARSE b 0 (<[O := 2]> (esc_args (tm c))) 1 E).
  - destruct (Hg 3 ltac:(done)) as (b & E). rewrite Hs, bind_ret in E. eexists _, b, (<[O := 3]> (esc_args (tm c))).
    split; [exact E|]. split; [by apply (idle_tm _ _ ARG_PARSE b 0 (<[O := 3]> (esc_args (tm c))) 1)|]. split; [done|].
    symmetry. apply (app_assoc (ports c) [_] [_]).
Qed.

(** What takes no argument, or two, ignores one; what takes one of three, any other. *)
Lemma ignored n f : 0 <= n < 256 -> f ∈ [112; 101; 114; 99] \/ (f ∈ [115; 83] /\ n ∉ [1; 2; 3]) -> escapes (esc_seq1 n f) c id.
Proof.
  intros Hn Hf. assert (Hcase : f ∈ [112; 101; 114; 99; 115; 83]) by (destruct Hf as [Hf|[Hf _]]; rewrite !elem_of_cons in *; tauto).
  destruct (parse_seq1 c n f Hn He) as (b & _ & E); [by (revert f Hf Hcase; intros f _; rewrite !elem_of_cons, elem_of_nil; intuition subst)| | | |].
  1-3: intros ->; revert Hcase; apply (bool_decide_unpack _); by vm_compute.
  cbv zeta in E. set (a := <[O := n]> _) in E. set (c1 := with_parser _ _ _ _ _ c) in E.
  assert (Ef : esc_funcs f a 1 c1 = Some c1).
  { pose proof (args_first n) as Ha. fold a in Ha. rewrite !elem_of_cons, elem_of_nil in Hcase.
    destruct Hcase as [->|[->|[->|[->|[->|[->|[]]]]]]]; try done.
    all: destruct Hf as [Hf|[_ Hf]]; [exfalso; revert Hf; apply (bool_decide_unpack _); by vm_compute|].
    all: unfold esc_funcs; simpl; rewrite Ha, bind_ret; rewrite !not_elem_of_cons in Hf; by rewrite !decide_False by (apply Hf). }
  rewrite Ef, bind_ret in E. by apply (escapes_end _ _ _ _ ARG_PARSE b 0 a 1 E).
Qed.

Lemma no_effect f : isnum f = false -> f ∉ [27; 91; 102; 98; 101; 114; 99] -> escapes (esc_seq0 f) c id.
Proof.
  intros Hf Hn. rewrite !not_elem_of_cons in Hn. destruct Hn as (N1 & N2 & N3 & N4 & N6 & N7 & N8 & _).
  pose proof (parse_seq0 c f Hf N1 N2) as E. set (c1 := with_parser _ _ _ _ _ c) in E.
  assert (Ef : esc_funcs f [] 0 c1 = Some c1) by (unfold esc_funcs; repeat case_decide; done || lia).
  rewrite Ef, bind_ret in E.
  by apply (escapes_end _ _ _ _ ARG_PARSE (esc_buf (tm c)) 0 (esc_args (tm c)) 0 E).
Qed.
End Sequences.

(** C30: The escape sequences do what they say, whatever state the parser was left
    in, print nothing and leave the parser idle and every other field of the
    terminal as it was.  ESC [ n f and ESC [ n b set the foreground and the
    background colour and keep the other, without n they set it back to white and
    black; ESC [ r ; c p moves the cursor to row r and column c (from 1, forced
    onto the screen); ESC [ e stores the position of the cursor and ESC [ r goes
    back to the one stored; ESC [ c makes every cell of the screen blank in the
    current colours; ESC [ n s and ESC [ n S turn the first and the second flag of
    the terminal on and off, and with 3 the shape of the cursor.  Any other
    character, and one of these with an argument it does not take, ends a sequence
    without effect. *)
Theorem escape_sequences_correct (n m : Z) (c : con) :
  con_ok c -> esc_ok (tm c) -> 0 <= n < 256 -> 0 <= m < 256 -> let t := tm c in
  escapes (esc_seq1 n 102) c (set_attr (Z.lor (Z.land (attr t) 0xF0) (Z.land n 0x0F))) /\
  escapes (esc_seq1 n 98) c (set_attr (Z.lor (Z.land (attr t) 0x0F) (Z.shiftl (Z.land n 0x0F) 4))) /\
  escapes (esc_seq0 102) c (set_attr (Z.lor (Z.land (attr t) 0xF0) 15)) /\
  escapes (esc_seq0 98) c (set_attr (Z.land (attr t) 0x0F)) /\
  escapes (esc_seq2 n m 112) c (set_cursor (clamp NUM_COLS (m - 1)) (clamp NUM_ROWS (n - 1))) /\
  escapes (esc_seq0 101) c (set_store (cur_x t) (cur_y t)) /\
  escapes (esc_seq0 114) c (set_cursor (clamp NUM_COLS (cur_x_store t)) (clamp NUM_ROWS (cur_y_store t))) /\
  (exists c' b a, write_bytes (esc_seq0 99) c = Some c' /\ tm c' = parser_idle b a t /\
    forall x y, 0 <= x < NUM_COLS -> 0 <= y < NUM_ROWS -> cell c' x y = (32, attr t)) /\
  (forall f v line, (f, v, line) ∈ setting_chars ->
    escapes (esc_seq1 1 f) c (set_noecho v) /\ escapes (esc_seq1 2 f) c (set_canon v) /\
    exists c' b a, write_bytes (esc_seq1 3 f) c = Some c' /\ tm c' = parser_idle b a t /\ vm c' = vm c /\
      ports c' = ports c ++ [(0x3D4, 0x0B); (0x3D5, line)]) /\
  (forall f, isnum f = false -> f ∉ [27; 91; 102; 98; 101; 114; 99] -> escapes (esc_seq0 f) c id) /\
  (forall f, f ∈ [112; 101; 114; 99] \/ (f ∈ [115; 83] /\ n ∉ [1; 2; 3]) -> escapes (esc_seq1 n f) c id).
Proof.
  intros Hc He Hn Hm t. split; [by apply foreground|]. split; [by apply background|].
  destruct (default_colours c) as [H1 H2]. do 2 (split; [done|]). split; [by apply position|].
  destruct (store_restore c) as [H3 H4]. do 2 (split; [done|]). split; [by apply cleared|].
  split; [intros f v line Hf; by apply settings|]. split; [by apply no_effect|intros f; by apply ignored].
Qed.

(** ** A concrete terminal *)

Definition blank_term (page buffer : Z) : term_t :=
  mkTerm (replicate 128 0) 0 0 0 0 0 0 0 DEF_ATTR 0 page buffer 0 0 0 IDLE (replicate 4 0) 0 (replicate 4 0) 0.

Definition sample_con : con := mkCon (blank_term VIDEO 0xB9000) ∅ [] true.

Lemma sample_con_ok : con_ok sample_con.
Proof. split; [apply mem_ok_empty|]. split; by vm_compute. Qed.

Lemma blank_esc_ok page buffer : esc_ok (blank_term page buffer).
Proof. split; simpl; try done. lia. Qed.

Lemma write_text_correct_witness :
  exists c', write_bytes [72; 105] sample_con = Some c' /\ cell c' 1 0 = (105, 15).
Proof.
  destruct (write_text_correct [72; 105] sample_con) as (c' & E & _ & C & _).
  - apply sample_con_ok.
  - done.
  - repeat constructor; by vm_compute.
  - by vm_compute.
  - exists c'. split; [exact E|]. apply (C 1%nat 105). done.
Defined.

Lemma newline_correct_witness : cell (putc 10 sample_con) 3 7 = (0, 0).
Proof.
  destruct (newline_correct sample_con sample_con_ok) as [_ C].
  rewrite (C 3 7); [by vm_compute|by vm_compute|by vm_compute].
Defined.

(** The cursor goes to the last column of the fifth row; the colours 2048 sets
    back. *)
Lemma escape_sequences_correct_witness :
  (exists c', write_bytes (esc_seq2 5 200 112) sample_con = Some c' /\ (cur_x (tm c'), cur_y (tm c')) = (79, 4)) /\
  exists c', write_bytes (esc_seq0 102) sample_con = Some c' /\ attr (tm c') = 15.
Proof.
  destruct (escape_sequences_correct 5 200 sample_con) as (_ & _ & (c2 & b2 & a2 & E2 & T2 & _) & _ & (c1 & b1 & a1 & E1 & T1 & _) & _).
  - apply sample_con_ok.
  - apply blank_esc_ok.
  - lia.
  - lia.
  - split.
    + exists c1. split; [exact E1|]. rewrite T1. by vm_compute.
    + exists c2. split; [exact E2|]. rewrite T2. by vm_compute.
Defined.
