(* ===== verification/TermLine.v ===== *)
(** * Line editing: the keyboard side of term.c against an abstract editor

    The abstract state is a line with a gap at the cursor: the text before it,
    nearest character first, and the text after it.  Each editing key of the
    terminal is shown to implement an operation on it. *)
From stdpp Require Import base tactics list numbers gmap option.
From Stdlib Require Import ZArith Lia.
From S2P Require Import Prelude CLib Task Term TermScreen.

Open Scope Z_scope.

(** ** The abstract editor *)

Abbreviation editor := (list Z * list Z)%type.

Definition ed_insert (ch : Z) '((b, a) : editor) : editor :=
  if decide (Z.of_nat (length b + length a) < TERM_BUF_SIZE) then (ch :: b, a) else (b, a).
Definition ed_backspace '((b, a) : editor) : editor := (tail b, a).
Definition ed_left '((b, a) : editor) : editor :=
  match b with [] => (b, a) | ch :: b' => (b', ch :: a) end.
Definition ed_right '((b, a) : editor) : editor :=
  match a with [] => (b, a) | ch :: a' => (ch :: b, a') end.

(** Going backwards over the characters that [keep] holds of; [step] says what
    happens to each (moved behind the cursor, or dropped). *)
Fixpoint run_before (keep : Z -> bool) (step : Z -> list Z -> list Z) (b a : list Z) : editor :=
  match b with
  | ch :: b' => if keep ch then run_before keep step b' (step ch a) else (b, a)
  | [] => ([], a)
  end.

Fixpoint run_after (keep : Z -> bool) (b a : list Z) : editor :=
  match a with
  | ch :: a' => if keep ch then run_after keep (ch :: b) a' else (b, a)
  | [] => (b, [])
  end.

Definition move (ch : Z) (a : list Z) : list Z := ch :: a.
Definition kill (ch : Z) (a : list Z) : list Z := a.
Definition any (ch : Z) : bool := true.
(** The class of the character next to the cursor. *)
Definition like (ch : Z) : Z -> bool := fun x => eqb (isalnum x) (isalnum ch).

Definition ed_home '((b, a) : editor) : editor := run_before any move b a.
Definition ed_end '((b, a) : editor) : editor := run_after any b a.
Definition ed_kill_line '((b, a) : editor) : editor := run_before any kill b a.
Definition ed_kill_word '((b, a) : editor) : editor :=
  match b with [] => (b, a) | ch :: _ => run_before (like ch) kill b a end.
Definition ed_word_left '((b, a) : editor) : editor :=
  match b with [] => (b, a) | ch :: _ => run_before (like ch) move b a end.
Definition ed_word_right '((b, a) : editor) : editor :=
  match a with [] => (b, a) | ch :: _ => run_after (like ch) b a end.

(** The text of the line. *)
Definition ed_text '((b, a) : editor) : list Z := reverse b ++ a.

(** ** The line buffer as an editor *)

Record line_ok (t : term_t) : Prop := {
  lo_buf : length (term_buf t) = 128%nat;
  lo_count : 0 <= term_buf_count t <= TERM_BUF_SIZE;
  lo_curpos : 0 <= term_curpos t <= term_buf_count t
}.

Definition ed_of (t : term_t) : editor :=
  (reverse (take (Z.to_nat (term_curpos t)) (term_buf t)),
   drop (Z.to_nat (term_curpos t)) (take (Z.to_nat (term_buf_count t)) (term_buf t))).

Definition line_text (t : term_t) : list Z := take (Z.to_nat (term_buf_count t)) (term_buf t).

Lemma ed_of_text t : line_ok t -> ed_text (ed_of t) = line_text t.
Proof.
  intros [Hb Hc Hp]. unfold ed_text, ed_of, line_text. rewrite reverse_involutive.
  assert (E : take (Z.to_nat (term_curpos t)) (term_buf t)
    = take (Z.to_nat (term_curpos t)) (take (Z.to_nat (term_buf_count t)) (term_buf t))).
  { rewrite take_take. f_equal. lia. }
  rewrite E. apply take_drop.
Qed.

Lemma ed_of_lengths t : line_ok t ->
  Z.of_nat (length (ed_of t).1) = term_curpos t /\
  Z.of_nat (length (ed_of t).2) = term_buf_count t - term_curpos t.
Proof.
  intros [Hb Hc Hp]. unfold TERM_BUF_SIZE in *. unfold ed_of. simpl.
  rewrite length_reverse, length_drop, !length_take. lia.
Qed.

(** The character before, and the one after, the cursor. *)
Lemma ed_of_before t ch b a :
  line_ok t -> ed_of t = (ch :: b, a) -> 0 < term_curpos t /\ arr_get (term_buf t) (term_curpos t - 1) = Some ch.
Proof.
  intros Hl E. destruct (ed_of_lengths t Hl) as [L1 _]. destruct Hl as [Hb Hc Hp]. unfold TERM_BUF_SIZE in *.
  rewrite E in L1. simpl in L1. split; [lia|]. rewrite arr_get_lookup by lia. unfold ed_of in E.
  injection E as E _. apply (f_equal reverse) in E. rewrite reverse_involutive, reverse_cons in E.
  assert (E' : take (Z.to_nat (term_curpos t)) (term_buf t) !! (Z.to_nat (term_curpos t - 1)) = Some ch).
  { rewrite E. replace (Z.to_nat (term_curpos t - 1)) with (length (reverse b)) by (rewrite length_reverse; lia).
    apply list_lookup_middle. done. }
  by apply lookup_take_Some in E' as [? _].
Qed.

Lemma ed_of_after t b ch a :
  line_ok t -> ed_of t = (b, ch :: a) ->
  term_curpos t < term_buf_count t /\ arr_get (term_buf t) (term_curpos t) = Some ch.
Proof.
  intros Hl E. destruct (ed_of_lengths t Hl) as [_ L2]. destruct Hl as [Hb Hc Hp].
  rewrite E in L2. simpl in L2. split; [lia|]. rewrite arr_get_lookup by lia. unfold ed_of in E.
  injection E as _ E.
  assert (E' : drop (Z.to_nat (term_curpos t)) (take (Z.to_nat (term_buf_count t)) (term_buf t)) !! 0%nat = Some ch).
  { by rewrite E. }
  rewrite lookup_drop, Nat.add_0_r in E'. by apply lookup_take_Some in E' as [? _].
Qed.

Lemma ed_of_start t b a : line_ok t -> ed_of t = (b, a) -> (b = [] <-> term_curpos t = 0).
Proof.
  intros Hl E. destruct (ed_of_lengths t Hl) as [L _]. rewrite E in L. simpl in L.
  destruct b; simpl in L; split; intros; try done; try lia.
Qed.

Lemma ed_of_finish t b a : line_ok t -> ed_of t = (b, a) -> (a = [] <-> term_curpos t = term_buf_count t).
Proof.
  intros Hl E. destruct (ed_of_lengths t Hl) as [_ L]. rewrite E in L. simpl in L.
  destruct a; simpl in L; split; intros; try done; try lia.
Qed.

(** ** Shifting the buffer *)

Lemma shift_right (l : list Z) n p :
  0 <= p <= n -> n < Z.of_nat (length l) ->
  exists l', for_downM n p (fun i b => x ← arr_get b (i - 1); arr_set b i x) l = Some l' /\
    length l' = length l /\
    forall k, 0 <= k -> l' !! Z.to_nat k = if decide (p < k <= n) then l !! Z.to_nat (k - 1) else l !! Z.to_nat k.
Proof.
  intros Hp Hn.
  destruct (for_downM_ind (fun i b => length b = length l /\
     forall k, 0 <= k -> b !! Z.to_nat k = if decide (i < k <= n) then l !! Z.to_nat (k - 1) else l !! Z.to_nat k)
     n p (fun i b => x ← arr_get b (i - 1); arr_set b i x) l) as (l' & E & Hl & Hk).
  - lia.
  - split; [done|]. intros k Hk. by rewrite decide_False by lia.
  - intros i b Hi [Hb Hk]. destruct (arr_get_Some b (i - 1)) as (x & E & Ex); [lia|].
    rewrite E, bind_ret, arr_set_Some by lia. eexists. split; [done|]. split; [by rewrite length_insert|].
    intros k Hk0. destruct (decide (k = i)) as [->|].
    + rewrite list_lookup_insert_eq, decide_True by lia. rewrite Hk in Ex by lia.
      by rewrite decide_False in Ex by lia.
    + rewrite list_lookup_insert_ne, Hk by lia. by repeat case_decide; try lia.
  - eauto.
Qed.

Lemma shift_left (l : list Z) p n :
  0 <= p <= n -> n < Z.of_nat (length l) ->
  exists l', for_upM p n (fun i b => x ← arr_get b (i + 1); arr_set b i x) l = Some l' /\
    length l' = length l /\
    forall k, 0 <= k -> l' !! Z.to_nat k = if decide (p <= k < n) then l !! Z.to_nat (k + 1) else l !! Z.to_nat k.
Proof.
  intros Hp Hn.
  destruct (for_upM_ind (fun i b => length b = length l /\
     forall k, 0 <= k -> b !! Z.to_nat k = if decide (p <= k < i) then l !! Z.to_nat (k + 1) else l !! Z.to_nat k)
     p n (fun i b => x ← arr_get b (i + 1); arr_set b i x) l) as (l' & E & Hl & Hk).
  - lia.
  - split; [done|]. intros k Hk. by rewrite decide_False by lia.
  - intros i b Hi [Hb Hk]. destruct (arr_get_Some b (i + 1)) as (x & E & Ex); [lia|].
    rewrite E, bind_ret, arr_set_Some by lia. eexists. split; [done|]. split; [by rewrite length_insert|].
    intros k Hk0. destruct (decide (k = i)) as [->|].
    + rewrite list_lookup_insert_eq, decide_True by lia. rewrite Hk in Ex by lia.
      by rewrite decide_False in Ex by lia.
    + rewrite list_lookup_insert_ne, Hk by lia. by repeat case_decide; try lia.
  - eauto.
Qed.

(** A buffer described by its lookups, as an editor state. *)
Lemma list_eq_Z (l1 l2 : list Z) :
  (forall k, 0 <= k -> l1 !! Z.to_nat k = l2 !! Z.to_nat k) -> l1 = l2.
Proof. intros H. apply list_eq. intros i. rewrite <- (Nat2Z.id i). apply H. lia. Qed.

Lemma insert_ed (l : list Z) n p ch :
  0 <= p <= n -> n < Z.of_nat (length l) ->
  exists l1 l2, for_downM n p (fun i b => x ← arr_get b (i - 1); arr_set b i x) l = Some l1 /\
    arr_set l1 p ch = Some l2 /\ length l2 = length l /\
    take (Z.to_nat (p + 1)) l2 = take (Z.to_nat p) l ++ [ch] /\
    drop (Z.to_nat (p + 1)) (take (Z.to_nat (n + 1)) l2) = drop (Z.to_nat p) (take (Z.to_nat n) l).
Proof.
  intros Hp Hn. destruct (shift_right l n p Hp Hn) as (l1 & E & Hl & Hk).
  exists l1. rewrite arr_set_Some by lia. eexists. split; [done|]. split; [done|].
  split; [by rewrite length_insert|]. split.
  - replace (Z.to_nat (p + 1)) with (Z.to_nat p + 1)%nat by lia. rewrite take_insert_snoc by lia. f_equal.
    apply list_eq_Z. intros k Hk0. destruct (decide (k < p)).
    + rewrite !lookup_take_lt, Hk by lia. by rewrite decide_False by lia.
    + rewrite !lookup_take_ge by lia. done.
  - apply list_eq_Z. intros k Hk0. rewrite !lookup_drop. destruct (decide (p + k < n)).
    + rewrite !lookup_take_lt by lia. rewrite list_lookup_insert_ne by lia.
      replace (Z.to_nat (p + 1) + Z.to_nat k)%nat with (Z.to_nat (p + 1 + k)) by lia.
      rewrite Hk, decide_True by lia. f_equal. lia.
    + rewrite !lookup_take_ge by lia. done.
Qed.

Lemma delete_ed (l : list Z) n p ch b :
  0 < p <= n -> n <= Z.of_nat (length l) -> reverse (take (Z.to_nat p) l) = ch :: b ->
  exists l1, for_upM (p - 1) (n - 1) (fun i b => x ← arr_get b (i + 1); arr_set b i x) l = Some l1 /\
    length l1 = length l /\
    reverse (take (Z.to_nat (p - 1)) l1) = b /\
    drop (Z.to_nat (p - 1)) (take (Z.to_nat (n - 1)) l1) = drop (Z.to_nat p) (take (Z.to_nat n) l).
Proof.
  intros Hp Hn Hb. destruct (shift_left l (p - 1) (n - 1)) as (l1 & E & Hl & Hk); [lia..|].
  exists l1. split; [done|]. split; [done|]. split.
  - apply (f_equal reverse) in Hb. rewrite reverse_involutive, reverse_cons in Hb.
    assert (Hlb : length b = Z.to_nat (p - 1)).
    { apply (f_equal length) in Hb. rewrite length_take, length_app, length_reverse in Hb. simpl in Hb. lia. }
    assert (Ht : take (Z.to_nat (p - 1)) l = reverse b).
    { replace (Z.to_nat (p - 1)) with (Z.to_nat (p - 1) `min` Z.to_nat p)%nat by lia.
      rewrite <- take_take, Hb. rewrite take_app_le by (rewrite length_reverse; lia).
      apply take_ge. rewrite length_reverse. lia. }
    rewrite <- (reverse_involutive b), <- Ht. f_equal. apply list_eq_Z. intros k Hk0. destruct (decide (k < p - 1)).
    + rewrite !lookup_take_lt, Hk by lia. by rewrite decide_False by lia.
    + rewrite !lookup_take_ge by lia. done.
  - apply list_eq_Z. intros k Hk0. rewrite !lookup_drop. destruct (decide (p + k < n)).
    + rewrite !lookup_take_lt by lia.
      replace (Z.to_nat (p - 1) + Z.to_nat k)%nat with (Z.to_nat (p - 1 + k)) by lia.
      rewrite Hk, decide_True by lia. f_equal. lia.
    + rewrite !lookup_take_ge by lia. done.
Qed.

(** ** The frame of an editing key *)

(** The line and the cursor change, memory in the page only. *)
Record edits (c c' : con) : Prop := {
  et_tm : exists b n p x y, tm c' = set_cursor x y (set_line b n p (tm c));
  et_front : front c' = front c;
  et_vm : forall a, ~ on_page (video_mem (tm c)) a -> ld8 (vm c') a = ld8 (vm c) a;
  et_ok : mem_ok (vm c) -> mem_ok (vm c')
}.

#[export] Instance edits_preorder : PreOrder edits.
Proof.
  split.
  - intros c. split; [|done..].
    exists (term_buf (tm c)), (term_buf_count (tm c)), (term_curpos (tm c)), (cur_x (tm c)), (cur_y (tm c)).
    by destruct (tm c).
  - intros c1 c2 c3 [(b & n & p & x & y & E1) F1 V1 O1] [(b' & n' & p' & x' & y' & E2) F2 V2 O2]. split.
    + eexists _, _, _, _, _. rewrite E2, E1. done.
    + congruence.
    + intros a Ha. rewrite V2 by by rewrite E1. by apply V1.
    + auto.
Qed.

Lemma draws_edits c c' : draws c c' -> edits c c'.
Proof. intros [(x & y & E) F V O]. split; [|done..].
  exists (term_buf (tm c)), (term_buf_count (tm c)), (term_curpos (tm c)), x, y. rewrite E. by destruct (tm c). Qed.

Lemma edits_line b n p c : edits c (on_tm (set_line b n p) c).
Proof. split; [|done..]. exists b, n, p, (cur_x (tm c)), (cur_y (tm c)). rewrite tm_on_tm. by destruct (tm c). Qed.

(** What every editing operation does to the console: [f] is its effect on the
    line. *)
Record edited (f : editor -> editor) (c c' : con) : Prop := {
  ed_frame : edits c c';
  ed_con : con_ok c';
  ed_line : line_ok (tm c');
  ed_eq : ed_of (tm c') = f (ed_of (tm c))
}.

Definition line_con (c : con) : Prop := con_ok c /\ line_ok (tm c).

Lemma edited_trans f g c1 c2 c3 : edited f c1 c2 -> edited g c2 c3 -> edited (fun e => g (f e)) c1 c3.
Proof. intros [F1 C1 L1 E1] [F2 C2 L2 E2]. split; [by etrans|done|done|]. by rewrite E2, E1. Qed.

Lemma edited_line_con f c c' : edited f c c' -> line_con c'.
Proof. intros []. by split. Qed.

Lemma edited_id c : line_con c -> edited (fun e => e) c c.
Proof. intros [Hc Hl]. by split. Qed.

(** Drawing does not touch the line. *)
Lemma draws_line_ok c c' : draws c c' -> line_ok (tm c) -> line_ok (tm c').
Proof. intros [(x & y & E) _ _ _] [? ? ?]. by split; rewrite E. Qed.

Lemma draws_ed_of c c' : draws c c' -> ed_of (tm c') = ed_of (tm c).
Proof. intros [(x & y & E) _ _ _]. by rewrite E. Qed.

Lemma edited_draws f c c1 c2 : edited f c c1 -> draws c1 c2 -> con_ok c2 -> edited f c c2.
Proof.
  intros [F C L E] D Hc. split; [|done|by eapply draws_line_ok|].
  - etrans; [exact F|by apply draws_edits].
  - by rewrite (draws_ed_of c1 c2).
Qed.

Lemma edited_ext f g c c' : f (ed_of (tm c)) = g (ed_of (tm c)) -> edited f c c' -> edited g c c'.
Proof. intros H [F C L E]. split; [done..|]. by rewrite E. Qed.

(** Changing the line fields alone. *)
Lemma edited_line f c b n p :
  con_ok c -> length b = 128%nat -> 0 <= n <= TERM_BUF_SIZE -> 0 <= p <= n ->
  (reverse (take (Z.to_nat p) b), drop (Z.to_nat p) (take (Z.to_nat n) b)) = f (ed_of (tm c)) ->
  edited f c (on_tm (set_line b n p) c).
Proof.
  intros [Hm [Hx Hy Ha]] Hb Hn Hp E. split; [apply edits_line| | |done].
  - split; [done|]. by split.
  - by split.
Qed.

(** ** Redrawing *)

Definition redraw (lo hi : Z) (c : con) : option con :=
  for_upM lo hi (fun i c => x ← arr_get (term_buf (tm c)) i; Some (putc x c)) c.

Lemma redraw_ok c lo hi :
  con_ok c -> length (term_buf (tm c)) = 128%nat -> 0 <= lo <= hi -> hi <= 128 ->
  exists c', redraw lo hi c = Some c' /\ draws c c' /\ con_ok c'.
Proof.
  intros Hc Hb Hlo Hhi.
  destruct (for_upM_ind (fun _ c' => draws c c' /\ con_ok c') lo hi
    (fun i c => x ← arr_get (term_buf (tm c)) i; Some (putc x c)) c) as (c' & E & D & Hc').
  - lia.
  - by split.
  - intros i c' Hi [D Hc']. pose proof D as [(x & y & Et) _ _ _]. rewrite Et. simpl.
    destruct (arr_get_Some (term_buf (tm c)) i) as (ch & -> & _); [lia|]. rewrite bind_ret.
    destruct (putc_ok ch c' Hc') as [D' Hc2]. eexists. split; [done|]. split; [by etrans|done].
  - exists c'. split; [exact E|done].
Qed.

Lemma backs_ok n c : con_ok c -> draws c (for_down n 0 (fun _ => back) c) /\ con_ok (for_down n 0 (fun _ => back) c).
Proof.
  intros Hc. apply (for_down_inv (fun c' => draws c c' /\ con_ok c')).
  - by split.
  - intros i c' _ [D Hc']. split; [etrans; [exact D|apply draws_back]|].
    apply (con_ok_draws c'); [apply draws_back|done|]. apply scr_ok_back. apply Hc'.
Qed.

(** ** Inserting and deleting *)

Lemma addch_spec ch c :
  line_con c -> reading (tm c) <> 0 ->
  exists c', addch ch c = Some c' /\ edited (ed_insert ch) c c'.
Proof.
  intros [Hc Hl] Hr. pose proof Hl as [Hb Hn Hp]. destruct (ed_of_lengths _ Hl) as [L1 L2].
  unfold addch. unfold TERM_BUF_SIZE in *. destruct (decide (term_buf_count (tm c) < 127)) as [Hlt|Hge].
  2: { rewrite decide_False by tauto. exists c. split; [done|].
       apply (edited_ext (fun e => e)); [|by apply edited_id]. unfold ed_insert, TERM_BUF_SIZE.
       destruct (ed_of (tm c)) as [b a]. simpl in *. by rewrite decide_False by lia. }
  rewrite decide_True by done.
  destruct (insert_ed (term_buf (tm c)) (term_buf_count (tm c)) (term_curpos (tm c)) ch)
    as (b1 & b2 & E1 & E2 & Hb2 & T1 & T2); [lia..|].
  rewrite E1, bind_ret, E2, bind_ret. cbv zeta. rewrite !u8_small by lia.
  set (c1 := on_tm (set_line b2 _ _) c).
  assert (Ed : edited (ed_insert ch) c c1).
  { apply edited_line; [done|lia|unfold TERM_BUF_SIZE; lia|lia|].
    rewrite T1, T2, reverse_snoc. unfold ed_insert, TERM_BUF_SIZE, ed_of.
    rewrite decide_True; [done|]. revert L1 L2. unfold ed_of. simpl. lia. }
  pose proof Ed as [_ Hc1 Hl1 _]. case_decide; [|by eexists].
  destruct (putc_ok ch c1 Hc1) as [D2 Hc2].
  assert (Eb : term_buf (tm (putc ch c1)) = b2 /\ term_curpos (tm (putc ch c1)) = term_curpos (tm c) + 1 /\
               term_buf_count (tm (putc ch c1)) = term_buf_count (tm c) + 1).
  { pose proof D2 as [(x & y & Et) _ _ _]. by rewrite Et. }
  destruct Eb as (Eb & Ep & En).
  destruct (redraw_ok (putc ch c1) (term_curpos (tm (putc ch c1))) (term_buf_count (tm (putc ch c1))))
    as (c3 & E3 & D3 & Hc3); [done|by rewrite Eb, Hb2|lia|lia|].
  unfold redraw in E3. rewrite E3, bind_ret. eexists. split; [done|].
  destruct (backs_ok (term_buf_count (tm c3) - term_curpos (tm c3)) c3 Hc3) as [D4 Hc4].
  eapply edited_draws; [exact Ed| |done]. etrans; [exact D2|]. etrans; [exact D3|exact D4].
Qed.

Lemma delch_spec c :
  line_con c -> exists c', delch c = Some c' /\ edited ed_backspace c c'.
Proof.
  intros [Hc Hl]. pose proof Hl as [Hb Hn Hp]. unfold TERM_BUF_SIZE in *. unfold delch.
  destruct (ed_of (tm c)) as [b a] eqn:Ee. destruct (decide (0 < term_curpos (tm c))) as [Hpos|Hpos].
  2: { exists c. split; [done|]. apply (edited_ext (fun e => e)); [|by apply edited_id].
       rewrite Ee. assert (b = []) as ->; [|done]. apply (ed_of_start _ _ _ Hl Ee). lia. }
  destruct b as [|ch b].
  { exfalso. destruct (ed_of_start _ _ _ Hl Ee) as [H _]. specialize (H eq_refl). lia. }
  destruct (delete_ed (term_buf (tm c)) (term_buf_count (tm c)) (term_curpos (tm c)) ch b)
    as (b1 & E1 & Hb1 & T1 & T2); [lia|lia|unfold ed_of in Ee; by injection Ee|].
  rewrite E1, bind_ret. cbv zeta. rewrite !u8_small by lia.
  set (c1 := on_tm (set_line b1 _ _) c).
  assert (Ed : edited ed_backspace c c1).
  { apply edited_line; [done|lia|unfold TERM_BUF_SIZE; lia|lia|].
    rewrite T1, T2, Ee. simpl. f_equal. unfold ed_of in Ee. by injection Ee. }
  pose proof Ed as [_ Hc1 Hl1 _]. case_decide; [|by eexists].
  assert (D2 : draws c1 (back c1)) by apply draws_back.
  assert (Hc2 : con_ok (back c1)) by (apply (con_ok_draws c1); [done|done|apply scr_ok_back; apply Hc1]).
  pose proof (draws_line_ok _ _ D2 Hl1) as [Lb Ln Lp]. unfold TERM_BUF_SIZE in *.
  destruct (redraw_ok (back c1) (term_curpos (tm (back c1))) (term_buf_count (tm (back c1))))
    as (c3 & E3 & D3 & Hc3); [done|done|lia|lia|].
  unfold redraw in E3. rewrite E3, bind_ret. eexists. split; [done|].
  destruct (putc_ok 32 c3 Hc3) as [D4 Hc4].
  assert (D5 : draws c1 (setpos (getposx (back c1)) (getposy (back c1)) (putc 32 c3))).
  { etrans; [exact D2|]. etrans; [exact D3|]. etrans; [exact D4|apply draws_setpos]. }
  eapply edited_draws; [exact Ed|exact D5|]. apply (con_ok_draws c1); [done|done|].
  apply scr_ok_setpos. apply Hc4.
Qed.

(** ** Moving *)

Lemma ed_step_left t ch b a :
  line_ok t -> ed_of t = (ch :: b, a) -> ed_of (set_curpos (term_curpos t - 1) t) = (b, ch :: a).
Proof.
  intros Hl E. destruct (ed_of_before t ch b a Hl E) as [Hpos Hch]. pose proof Hl as [Hb Hn Hp].
  rewrite arr_get_lookup in Hch by lia. unfold TERM_BUF_SIZE in *.
  unfold ed_of in E. injection E as E1 E2. unfold ed_of. simpl.
  replace (Z.to_nat (term_curpos t)) with (S (Z.to_nat (term_curpos t - 1))) in E1, E2 by lia.
  rewrite (take_S_r _ _ ch Hch), reverse_snoc in E1. injection E1 as E1. f_equal; [done|].
  rewrite <- E2. apply drop_S. by rewrite lookup_take_lt by lia.
Qed.

Lemma ed_step_right t ch b a :
  line_ok t -> ed_of t = (b, ch :: a) -> ed_of (set_curpos (term_curpos t + 1) t) = (ch :: b, a).
Proof.
  intros Hl E. destruct (ed_of_after t b ch a Hl E) as [Hlt Hch]. pose proof Hl as [Hb Hn Hp].
  rewrite arr_get_lookup in Hch by lia. unfold TERM_BUF_SIZE in *.
  unfold ed_of in E. injection E as E1 E2. unfold ed_of. simpl.
  replace (Z.to_nat (term_curpos t + 1)) with (S (Z.to_nat (term_curpos t))) by lia.
  rewrite (take_S_r _ _ ch Hch), reverse_snoc, E1. f_equal.
  rewrite (drop_S _ ch) in E2 by (rewrite lookup_take_lt by lia; done). by injection E2.
Qed.

(** A move of the cursor in the line, then on the screen. *)
Lemma edited_move f p c c' :
  line_con c -> 0 <= p <= term_buf_count (tm c) -> ed_of (set_curpos p (tm c)) = f (ed_of (tm c)) ->
  draws (on_tm (set_curpos p) c) c' -> scr_ok c' -> edited f c c'.
Proof.
  intros [Hc Hl] Hp E D Hs. pose proof Hl as [Hb Hn _].
  assert (Ed : edited f c (on_tm (fun t => set_line (term_buf (tm c)) (term_buf_count (tm c)) p t) c)).
  { by apply edited_line. }
  eapply edited_draws; [exact Ed|exact D|]. eapply con_ok_draws; [exact D|apply Ed|done].
Qed.

Lemma step_left_spec c ch b a :
  line_con c -> ed_of (tm c) = (ch :: b, a) -> edited ed_left c (step_left c).
Proof.
  intros Hc E. pose proof Hc as [Hc0 Hl]. destruct (ed_of_before _ _ _ _ Hl E) as [Hpos _].
  pose proof Hl as [Hb Hn Hp]. unfold TERM_BUF_SIZE in *. unfold step_left.
  assert (E2 : on_tm (fun t => set_curpos (u8 (term_curpos t - 1)) t) c = on_tm (set_curpos (term_curpos (tm c) - 1)) c).
  { unfold on_tm. by rewrite u8_small by lia. }
  rewrite E2. apply (edited_move _ (term_curpos (tm c) - 1)); [done|lia|by rewrite (ed_step_left _ _ _ _ Hl E), E| |].
  - apply draws_back.
  - apply scr_ok_back. destruct Hc0 as [_ [? ? ?]]. by split.
Qed.

Lemma step_right_spec c ch b a :
  line_con c -> ed_of (tm c) = (b, ch :: a) -> edited ed_right c (step_right c).
Proof.
  intros Hc E. pose proof Hc as [Hc0 Hl]. destruct (ed_of_after _ _ _ _ Hl E) as [Hlt _].
  pose proof Hl as [Hb Hn Hp]. unfold TERM_BUF_SIZE in *. unfold step_right.
  assert (E2 : on_tm (fun t => set_curpos (u8 (term_curpos t + 1)) t) c = on_tm (set_curpos (term_curpos (tm c) + 1)) c).
  { unfold on_tm. by rewrite u8_small by lia. }
  rewrite E2. apply (edited_move _ (term_curpos (tm c) + 1)); [done|lia|by rewrite (ed_step_right _ _ _ _ Hl E), E| |].
  - apply draws_forward.
  - apply scr_ok_forward. destruct Hc0 as [_ [? ? ?]]. by split.
Qed.

(** ** Loops over the line *)

(** A loop that walks backwards, doing [step] to each character. *)
Lemma run_before_spec (keep : Z -> bool) (step : Z -> list Z -> list Z) (f : con -> option (con + con)) c :
  line_con c ->
  (forall c, line_con c ->
     match ed_of (tm c) with
     | ([], _) => f c = Some (inr c)
     | (ch :: b, a) =>
         if keep ch then exists c', f c = Some (inl c') /\ edited (fun _ => (b, step ch a)) c c'
         else f c = Some (inr c)
     end) ->
  exists c', whileM f c = Some c' /\
    edited (fun '(b, a) => run_before keep step b a) c c'.
Proof.
  intros Hc Hf.
  destruct (whileM_total
    (fun c' => line_con c' /\ exists b a, ed_of (tm c') = (b, a) /\
       edited (fun _ => (b, a)) c c' /\
       run_before keep step b a = (let '(b, a) := ed_of (tm c) in run_before keep step b a))
    (fun c' => Z.of_nat (length (ed_of (tm c')).1))
    (fun c' => edited (fun '(b, a) => run_before keep step b a) c c') f c) as (c' & E & Hc').
  - intros c1 (Hc1 & b & a & E1 & Ed & Hrun). specialize (Hf c1 Hc1). rewrite E1 in Hf.
    assert (Hstop : run_before keep step b a = (b, a) -> edited (fun '(b, a) => run_before keep step b a) c c1).
    { intros Hs. apply (edited_ext (fun _ => (b, a))); [|done]. destruct (ed_of (tm c)) as [b0 a0]. by rewrite <- Hrun. }
    destruct b as [|ch b]; [rewrite Hf; by apply Hstop|].
    destruct (keep ch) eqn:K.
    + destruct Hf as (c2 & -> & Ed2). pose proof (ed_eq _ _ _ Ed2) as E2. simpl in E2. split.
      * split; [by eapply edited_line_con|]. exists b, (step ch a). split; [done|]. split.
        -- exact (edited_trans (fun _ => (ch :: b, a)) (fun _ => (b, step ch a)) _ _ _ Ed Ed2).
        -- rewrite <- Hrun. simpl. by rewrite K.
      * rewrite E1, E2. simpl. lia.
    + rewrite Hf. apply Hstop. simpl. by rewrite K.
  - split; [done|]. destruct (ed_of (tm c)) as [b a] eqn:Ee. exists b, a. split; [done|]. split; [|done].
    apply (edited_ext (fun e => e)); [done|by apply edited_id].
  - destruct Hc as [_ [Hb Hn Hp]]. unfold ed_of. simpl. rewrite length_reverse, length_take. unfold FUEL. lia.
  - eauto.
Qed.

Lemma run_after_spec (keep : Z -> bool) (f : con -> option (con + con)) c :
  line_con c ->
  (forall c, line_con c ->
     match ed_of (tm c) with
     | (_, []) => f c = Some (inr c)
     | (b, ch :: a) =>
         if keep ch then exists c', f c = Some (inl c') /\ edited (fun _ => (ch :: b, a)) c c'
         else f c = Some (inr c)
     end) ->
  exists c', whileM f c = Some c' /\ edited (fun '(b, a) => run_after keep b a) c c'.
Proof.
  intros Hc Hf.
  destruct (whileM_total
    (fun c' => line_con c' /\ exists b a, ed_of (tm c') = (b, a) /\
       edited (fun _ => (b, a)) c c' /\
       run_after keep b a = (let '(b, a) := ed_of (tm c) in run_after keep b a))
    (fun c' => Z.of_nat (length (ed_of (tm c')).2))
    (fun c' => edited (fun '(b, a) => run_after keep b a) c c') f c) as (c' & E & Hc').
  - intros c1 (Hc1 & b & a & E1 & Ed & Hrun). specialize (Hf c1 Hc1). rewrite E1 in Hf.
    assert (Hstop : run_after keep b a = (b, a) -> edited (fun '(b, a) => run_after keep b a) c c1).
    { intros Hs. apply (edited_ext (fun _ => (b, a))); [|done]. destruct (ed_of (tm c)) as [b0 a0]. by rewrite <- Hrun. }
    destruct a as [|ch a]; [rewrite Hf; by apply Hstop|].
    destruct (keep ch) eqn:K.
    + destruct Hf as (c2 & -> & Ed2). pose proof (ed_eq _ _ _ Ed2) as E2. simpl in E2. split.
      * split; [by eapply edited_line_con|]. exists (ch :: b), a. split; [done|]. split.
        -- exact (edited_trans (fun _ => (b, ch :: a)) (fun _ => (ch :: b, a)) _ _ _ Ed Ed2).
        -- rewrite <- Hrun. simpl. by rewrite K.
      * rewrite E1, E2. simpl. lia.
    + rewrite Hf. apply Hstop. simpl. by rewrite K.
  - split; [done|]. destruct (ed_of (tm c)) as [b a] eqn:Ee. exists b, a. split; [done|]. split; [|done].
    apply (edited_ext (fun e => e)); [done|by apply edited_id].
  - destruct Hc as [_ [Hb Hn Hp]]. unfold ed_of. simpl. rewrite length_drop, length_take. unfold FUEL. lia.
  - eauto.
Qed.

(** ** The editing keys *)

Lemma alnum_before_spec c ch b a :
  line_con c -> ed_of (tm c) = (ch :: b, a) -> alnum_before c = Some (isalnum ch).
Proof. intros [_ Hl] E. unfold alnum_before. by destruct (ed_of_before _ _ _ _ Hl E) as [_ ->]. Qed.

Lemma alnum_at_spec c b ch a :
  line_con c -> ed_of (tm c) = (b, ch :: a) -> alnum_at c = Some (isalnum ch).
Proof. intros [_ Hl] E. unfold alnum_at. by destruct (ed_of_after _ _ _ _ Hl E) as [_ ->]. Qed.

(** A [while] loop that never faults is a [whileM] loop. *)
Lemma while_whileM {S R} (f : S -> S + R) s : while f s = whileM (fun s => Some (f s)) s.
Proof.
  unfold whileM, while. rewrite !loop_loop_nat. generalize (Pos.to_nat FUEL). intros n. revert s.
  induction n as [|n IH]; intros s; simpl; [done|]. unfold strict. destruct (f s) as [s'|r]; [|done].
  apply IH.
Qed.

Lemma key_left_spec c : line_con c -> edited ed_left c (key_left c).
Proof.
  intros Hc. pose proof Hc as [_ Hl]. unfold key_left. destruct (ed_of (tm c)) as [[|ch b] a] eqn:E.
  - rewrite decide_False by (apply (ed_of_start _ _ _ Hl) in E as [E _]; specialize (E eq_refl); lia).
    apply (edited_ext (fun e => e)); [by rewrite E|by apply edited_id].
  - rewrite decide_True by by apply (ed_of_before _ _ _ _ Hl E). by eapply step_left_spec.
Qed.

Lemma key_right_spec c : line_con c -> edited ed_right c (key_right c).
Proof.
  intros Hc. pose proof Hc as [_ Hl]. unfold key_right. destruct (ed_of (tm c)) as [b [|ch a]] eqn:E.
  - rewrite decide_False by (apply (ed_of_finish _ _ _ Hl) in E as [E _]; specialize (E eq_refl); lia).
    apply (edited_ext (fun e => e)); [by rewrite E|by apply edited_id].
  - rewrite decide_True by by apply (ed_of_after _ _ _ _ Hl E). by eapply step_right_spec.
Qed.

Lemma key_home_spec c : line_con c -> exists c', key_home c = Some c' /\ edited ed_home c c'.
Proof.
  intros Hc. unfold key_home. rewrite while_whileM.
  apply (run_before_spec any move); [done|]. intros c1 Hc1. pose proof Hc1 as [_ Hl].
  destruct (ed_of (tm c1)) as [[|ch b] a] eqn:E.
  - rewrite decide_False; [done|]. apply (ed_of_start _ _ _ Hl) in E as [E _]. specialize (E eq_refl). lia.
  - rewrite decide_True by by apply (ed_of_before _ _ _ _ Hl E). eexists. split; [done|].
    eapply edited_ext; [|by eapply step_left_spec]. by rewrite E.
Qed.

Lemma key_end_spec c : line_con c -> exists c', key_end c = Some c' /\ edited ed_end c c'.
Proof.
  intros Hc. unfold key_end. rewrite while_whileM.
  apply (run_after_spec any); [done|]. intros c1 Hc1. pose proof Hc1 as [_ Hl].
  destruct (ed_of (tm c1)) as [b [|ch a]] eqn:E.
  - rewrite decide_False; [done|]. apply (ed_of_finish _ _ _ Hl) in E as [E _]. specialize (E eq_refl). lia.
  - rewrite decide_True by by apply (ed_of_after _ _ _ _ Hl E). eexists. split; [done|].
    eapply edited_ext; [|by eapply step_right_spec]. by rewrite E.
Qed.

Lemma key_kill_line_spec c : line_con c -> exists c', key_kill_line c = Some c' /\ edited ed_kill_line c c'.
Proof.
  intros Hc. unfold key_kill_line. apply (run_before_spec any kill); [done|].
  intros c1 Hc1. pose proof Hc1 as [_ Hl]. destruct (ed_of (tm c1)) as [[|ch b] a] eqn:E.
  - rewrite decide_False; [done|]. apply (ed_of_start _ _ _ Hl) in E as [E _]. specialize (E eq_refl). lia.
  - rewrite decide_True by by apply (ed_of_before _ _ _ _ Hl E).
    destruct (delch_spec c1 Hc1) as (c2 & -> & Ed). eexists. split; [done|].
    eapply edited_ext; [|exact Ed]. by rewrite E.
Qed.

(** The loops over one character class. *)
Lemma while_before_spec w step body c :
  line_con c ->
  (forall c ch b a, line_con c -> ed_of (tm c) = (ch :: b, a) ->
     exists c', body c = Some c' /\ edited (fun _ => (b, step ch a)) c c') ->
  exists c', while_before w body c = Some c' /\
    edited (fun '(b, a) => run_before (fun x => eqb (isalnum x) w) step b a) c c'.
Proof.
  intros Hc Hbody. unfold while_before. apply run_before_spec; [done|]. intros c1 Hc1. pose proof Hc1 as [_ Hl].
  destruct (ed_of (tm c1)) as [[|ch b] a] eqn:E.
  - rewrite decide_True; [done|]. by apply (ed_of_start _ _ _ Hl) in E as [E _]; auto.
  - destruct (ed_of_before _ _ _ _ Hl E) as [Hpos _]. rewrite decide_False by lia.
    rewrite (alnum_before_spec _ _ _ _ Hc1 E), bind_ret. destruct (eqb (isalnum ch) w); [|done].
    destruct (Hbody c1 ch b a Hc1 E) as (c2 & -> & Ed). eauto.
Qed.

Lemma while_at_spec w c :
  line_con c ->
  exists c', while_at w (fun c => Some (step_right c)) c = Some c' /\
    edited (fun '(b, a) => run_after (fun x => eqb (isalnum x) w) b a) c c'.
Proof.
  intros Hc. unfold while_at. apply run_after_spec; [done|]. intros c1 Hc1. pose proof Hc1 as [_ Hl].
  destruct (ed_of (tm c1)) as [b [|ch a]] eqn:E.
  - rewrite decide_False; [done|]. apply (ed_of_finish _ _ _ Hl) in E as [E _]. specialize (E eq_refl). lia.
  - destruct (ed_of_after _ _ _ _ Hl E) as [Hpos _]. rewrite decide_True by lia.
    rewrite (alnum_at_spec _ _ _ _ Hc1 E), bind_ret. destruct (eqb (isalnum ch) w); [|done].
    rewrite bind_ret. eexists. split; [done|]. eapply edited_ext; [|by eapply step_right_spec]. by rewrite E.
Qed.

Lemma key_kill_word_spec c : line_con c -> exists c', key_kill_word c = Some c' /\ edited ed_kill_word c c'.
Proof.
  intros Hc. pose proof Hc as [_ Hl]. unfold key_kill_word. destruct (ed_of (tm c)) as [[|ch b] a] eqn:E.
  - rewrite decide_True by (by apply (ed_of_start _ _ _ Hl) in E as [E _]; auto).
    eexists. split; [done|]. apply (edited_ext (fun e => e)); [by rewrite E|by apply edited_id].
  - destruct (ed_of_before _ _ _ _ Hl E) as [Hpos _]. rewrite decide_False by lia.
    rewrite (alnum_before_spec _ _ _ _ Hc E), bind_ret.
    destruct (while_before_spec (isalnum ch) kill delch c Hc) as (c' & -> & Ed).
    + intros c1 x b1 a1 Hc1 E1. destruct (delch_spec c1 Hc1) as (c2 & -> & Ed2). eexists. split; [done|].
      eapply edited_ext; [|exact Ed2]. by rewrite E1.
    + eexists. split; [done|]. eapply edited_ext; [|exact Ed]. by rewrite E.
Qed.

Lemma key_word_left_spec c : line_con c -> exists c', key_word_left c = Some c' /\ edited ed_word_left c c'.
Proof.
  intros Hc. pose proof Hc as [_ Hl]. unfold key_word_left. destruct (ed_of (tm c)) as [[|ch b] a] eqn:E.
  - rewrite decide_True by (by apply (ed_of_start _ _ _ Hl) in E as [E _]; auto).
    eexists. split; [done|]. apply (edited_ext (fun e => e)); [by rewrite E|by apply edited_id].
  - destruct (ed_of_before _ _ _ _ Hl E) as [Hpos _]. rewrite decide_False by lia.
    rewrite (alnum_before_spec _ _ _ _ Hc E), bind_ret.
    destruct (while_before_spec (isalnum ch) move (fun c => Some (step_left c)) c Hc) as (c' & -> & Ed).
    + intros c1 x b1 a1 Hc1 E1. eexists. split; [done|].
      eapply edited_ext; [|by eapply step_left_spec]. by rewrite E1.
    + eexists. split; [done|]. eapply edited_ext; [|exact Ed]. by rewrite E.
Qed.

Lemma key_word_right_spec c : line_con c -> exists c', key_word_right c = Some c' /\ edited ed_word_right c c'.
Proof.
  intros Hc. pose proof Hc as [_ Hl]. unfold key_word_right. destruct (ed_of (tm c)) as [b [|ch a]] eqn:E.
  - rewrite decide_True by (apply (ed_of_finish _ _ _ Hl) in E as [E _]; specialize (E eq_refl); lia).
    eexists. split; [done|]. apply (edited_ext (fun e => e)); [by rewrite E|by apply edited_id].
  - destruct (ed_of_after _ _ _ _ Hl E) as [Hpos _]. rewrite decide_False by lia.
    rewrite (alnum_at_spec _ _ _ _ Hc E), bind_ret.
    destruct (while_at_spec (isalnum ch) c Hc) as (c' & -> & Ed).
    eexists. split; [done|]. eapply edited_ext; [|exact Ed]. by rewrite E.
Qed.

(** C-L keeps the line. *)
Lemma for_draws (body : con -> con) (lo hi : Z) c :
  (forall c, con_ok c -> draws c (body c) /\ con_ok (body c)) -> con_ok c ->
  draws c (for_up lo hi (fun _ => body) c) /\ con_ok (for_up lo hi (fun _ => body) c).
Proof.
  intros Hb Hc. apply (for_up_inv (fun c' => draws c c' /\ con_ok c')); [by split|].
  intros _ c' _ [D Hc']. destruct (Hb c' Hc') as [D' Hc'']. split; [by etrans|done].
Qed.

Lemma back_con c : con_ok c -> draws c (back c) /\ con_ok (back c).
Proof.
  intros Hc. split; [apply draws_back|]. apply (con_ok_draws c); [apply draws_back|done|].
  apply scr_ok_back, Hc.
Qed.

Lemma forward_con c : con_ok c -> draws c (forward c) /\ con_ok (forward c).
Proof.
  intros Hc. split; [apply draws_forward|]. apply (con_ok_draws c); [apply draws_forward|done|].
  apply scr_ok_forward, Hc.
Qed.

Lemma scroll_con c : con_ok c -> draws c (scroll c) /\ con_ok (scroll c).
Proof.
  intros [Hm [Hx Hy Ha]]. destruct (scroll_spec c Hm Ha) as (E & D & _). split; [done|].
  apply (con_ok_draws c); [done|split; [done|by split]|].
  split; rewrite E; simpl; [apply clamp_range; unfold NUM_COLS; lia|apply clamp_range; unfold NUM_ROWS; lia|done].
Qed.

Lemma key_clear_spec c : line_con c -> edited (fun e => e) c (key_clear c).
Proof.
  intros Hc. unfold key_clear.
  destruct (for_draws back 0 (term_curpos (tm c)) c back_con) as [D1 C1]; [apply Hc|].
  set (c1 := for_up 0 _ (fun _ => back) c) in *. clearbody c1.
  assert (H2 : draws c1 (for_down (getposy c1) 0 (fun _ => scroll) c1) /\ con_ok (for_down (getposy c1) 0 (fun _ => scroll) c1)).
  { apply (for_down_inv (fun c' => draws c1 c' /\ con_ok c')); [by split|].
    intros _ c' _ [D Hc']. destruct (scroll_con c' Hc') as [D' Hc'']. split; [by etrans|done]. }
  destruct H2 as [D2 C2]. set (c2 := for_down _ 0 _ c1) in *. clearbody c2.
  destruct (for_draws forward 0 (term_curpos (tm c)) c2 forward_con C2) as [D3 C3].
  eapply edited_draws; [by apply edited_id| |exact C3]. etrans; [exact D1|]. etrans; [exact D2|exact D3].
Qed.
