(* ===== verification/TermSys.v ===== *)
(** * The three terminals together: switching, the keyboard handler, blocking
    reads and writes

    The invariant of the terminal subsystem and what its entry points do to
    every terminal: each keeps its line, its screen and its place in memory
    whatever the others do. *)
From stdpp Require Import base tactics list numbers gmap option.
From Stdlib Require Import ZArith Lia.
From S2P Require Import Prelude CLib Task Term TermScreen TermLine.

Open Scope Z_scope.

(** ** The invariant *)

(** The backing page of terminal [i]. *)
Definition backing (i : Z) : Z := 0xB9000 + 0x1000 * i.

(** The page terminal [i] writes to when [cur] is on screen. *)
Definition page_of (cur i : Z) : Z := if decide (i = cur) then VIDEO else backing i.

Record term_wf (cur i : Z) (t : term_t) : Prop := {
  tw_line : line_ok t;
  tw_esc : esc_ok t;
  tw_x : 0 <= cur_x t < NUM_COLS;
  tw_y : 0 <= cur_y t < NUM_ROWS;
  tw_attr : 0 <= attr t < 256;
  tw_buffer : video_buffer t = backing i;
  tw_page : video_mem t = page_of cur i
}.

Record twf (s : tstate) : Prop := {
  ts_len : length (terms s) = 3%nat;
  ts_cur : 0 <= cur_term_ind s < TERM_NUM;
  ts_term : forall i t, arr_get (terms s) i = Some t -> term_wf (cur_term_ind s) i t;
  ts_mem : mem_ok (vmem s)
}.

(** What is on the screen of terminal [i], displayed or not. *)
Definition screen_of (s : tstate) (i : Z) : option (list Z) :=
  t ← arr_get (terms s) i; Some (load_bytes (vmem s) (video_mem t) VID_MEM_SIZE).

Lemma backing_range i : 0 <= i < TERM_NUM -> 0xB9000 <= backing i <= 0xBB000.
Proof. unfold backing, TERM_NUM. lia. Qed.

Lemma page_range cur i : 0 <= i < TERM_NUM -> 0xB8000 <= page_of cur i <= 0xBB000.
Proof. intros Hi. pose proof (backing_range i Hi). unfold page_of, VIDEO. case_decide; lia. Qed.

(** Pages of different terminals do not meet. *)
Lemma pages_disjoint cur i j a :
  0 <= i < TERM_NUM -> 0 <= j < TERM_NUM -> i <> j ->
  on_page (page_of cur i) a -> ~ on_page (page_of cur j) a.
Proof.
  unfold page_of, on_page, backing, VIDEO, TERM_NUM, VID_MEM_SIZE. intros. repeat case_decide; lia.
Qed.

Lemma term_at s i : twf s -> 0 <= i < TERM_NUM -> exists t, arr_get (terms s) i = Some t /\ term_wf (cur_term_ind s) i t.
Proof.
  intros [Hl _ Ht _] Hi. unfold TERM_NUM in Hi. destruct (arr_get_Some (terms s) i) as (t & E & _); [lia|].
  exists t. split; [done|by apply Ht].
Qed.

(** The console of a terminal of a well-formed state. *)
Definition con_at (s : tstate) (i : Z) (t : term_t) : con :=
  mkCon t (vmem s) (vports s) (bool_decide (i = cur_term_ind s)).

Lemma con_at_line s i t : twf s -> term_wf (cur_term_ind s) i t -> line_con (con_at s i t).
Proof. intros Hs [? ? ? ? ? ? ?]. split; [|done]. split; [apply Hs|]. by split. Qed.

(** ** Running a function on one terminal *)

(** The state with terminal [i] replaced by the console [c]. *)
Definition put_con (s : tstate) (i : Z) (c : con) : tstate :=
  mkTS (<[Z.to_nat i := tm c]> (terms s)) (cur_term_ind s) (cur_term s) (vm c) (ports c) (pcbs s).

Lemma arr_get_insert {A} (l : list A) i j v :
  0 <= i < Z.of_nat (length l) ->
  arr_get (<[Z.to_nat i := v]> l) j = if decide (j = i) then Some v else arr_get l j.
Proof.
  intros Hi. unfold arr_get. repeat case_decide; try lia; try done.
  - subst. apply list_lookup_insert_eq. lia.
  - apply list_lookup_insert_ne. lia.
Qed.

Lemma on_term_eq s i t f :
  arr_get (terms s) i = Some t ->
  on_term i f s = (c ← f (con_at s i t); Some (put_con s i c)).
Proof.
  intros E. unfold on_term, view. rewrite E, !bind_ret. fold (con_at s i t).
  destruct (f (con_at s i t)) as [c|]; [|done]. rewrite !bind_ret. unfold unview.
  assert (Hi : 0 <= i < Z.of_nat (length (terms s))).
  { unfold arr_get in E. case_decide; [|done]. apply lookup_lt_Some in E. lia. }
  by rewrite arr_set_Some by done.
Qed.

(** Another terminal sees nothing of it. *)
Record apart (s s' : tstate) (i : Z) : Prop := {
  ap_terms : forall j, j <> i -> arr_get (terms s') j = arr_get (terms s) j;
  ap_screen : forall j, 0 <= j < TERM_NUM -> j <> i -> screen_of s' j = screen_of s j;
  ap_mem : forall a, ~ on_page (page_of (cur_term_ind s) i) a -> ld8 (vmem s') a = ld8 (vmem s) a;
  ap_ind : cur_term_ind s' = cur_term_ind s;
  ap_pcbs : pcbs s' = pcbs s
}.

Lemma put_con_twf s i t c :
  twf s -> 0 <= i < TERM_NUM -> arr_get (terms s) i = Some t ->
  con_ok c -> line_ok (tm c) -> esc_ok (tm c) -> video_mem (tm c) = video_mem t -> video_buffer (tm c) = video_buffer t ->
  twf (put_con s i c) /\ forall j, arr_get (terms (put_con s i c)) j = if decide (j = i) then Some (tm c) else arr_get (terms s) j.
Proof.
  intros Hs Hi Et [Hm [Hx Hy Ha]] Hl He Ep Eb. pose proof Hs as [Hlen Hcur Hterm Hmem].
  destruct (Hterm i t Et) as [_ _ _ _ _ Hbuf Hpage]. unfold TERM_NUM in *.
  assert (Hget : forall j, arr_get (terms (put_con s i c)) j = if decide (j = i) then Some (tm c) else arr_get (terms s) j).
  { intros j. apply arr_get_insert. lia. }
  split; [|exact Hget]. split; [simpl; by rewrite length_insert|done| |done].
  intros j t' E. rewrite Hget in E. case_decide; [|by apply Hterm]. simplify_eq.
  split; try done; [by rewrite Eb|by rewrite Ep].
Qed.

Lemma put_con_wf s i t c :
  twf s -> 0 <= i < TERM_NUM -> arr_get (terms s) i = Some t ->
  con_ok c -> line_ok (tm c) -> esc_ok (tm c) ->
  video_mem (tm c) = video_mem t -> video_buffer (tm c) = video_buffer t ->
  (forall a, ~ on_page (video_mem t) a -> ld8 (vm c) a = ld8 (vmem s) a) ->
  twf (put_con s i c) /\ apart s (put_con s i c) i /\ arr_get (terms (put_con s i c)) i = Some (tm c).
Proof.
  intros Hs Hi Et Hc Hl He Ep Eb Hf. destruct (put_con_twf s i t c Hs Hi Et Hc Hl He Ep Eb) as [W Hget].
  destruct (ts_term s Hs i t Et) as [_ _ _ _ _ Hbuf Hpage]. split_and!; [exact W| |by rewrite Hget, decide_True].
  split; [|..|done|done].
  - intros j Hj. by rewrite Hget, decide_False.
  - intros j Hj Hne. unfold screen_of. rewrite Hget, decide_False by done.
    destruct (term_at s j Hs Hj) as (tj & Ej & [_ _ _ _ _ _ Hpj]). rewrite Ej, !bind_ret. f_equal.
    apply load_bytes_ext. intros k Hk. apply Hf. rewrite Hpage, Hpj.
    pose proof (page_range (cur_term_ind s) j Hj). unfold VID_MEM_SIZE in Hk.
    rewrite u32_small by lia. apply (pages_disjoint _ j i); [done|done|done|].
    unfold on_page, VID_MEM_SIZE. lia.
  - intros a Hna. apply Hf. by rewrite Hpage.
Qed.

(** An editing function on terminal [i]. *)
Lemma on_term_edit s i t f g :
  twf s -> 0 <= i < TERM_NUM -> arr_get (terms s) i = Some t ->
  (exists c', f (con_at s i t) = Some c' /\ edited g (con_at s i t) c') ->
  exists s' t', on_term i f s = Some s' /\ twf s' /\ apart s s' i /\
    arr_get (terms s') i = Some t' /\ ed_of t' = g (ed_of t) /\
    exists b n p x y, t' = set_cursor x y (set_line b n p t).
Proof.
  intros Hs Hi Et (c' & Ef & Ed). rewrite (on_term_eq s i t f Et), Ef, bind_ret.
  pose proof (ts_term s Hs i t Et) as Hw.
  destruct Ed as [[(b & n & p & x & y & Etm) Hfr Hv Ho] Hc Hl He]. simpl in Etm.
  destruct (put_con_wf s i t c' Hs Hi Et Hc Hl) as (W & A & G).
  - rewrite Etm. apply (same_esc_ok t); [done|by eapply tw_esc].
  - by rewrite Etm.
  - by rewrite Etm.
  - exact Hv.
  - eexists _, (tm c'). split_and!; [done|done|done|done|exact He|]. eauto 10.
Qed.

(** The same for a change that only touches flags (reading, read_done). *)
Lemma on_term_flag s i t (h : term_t -> term_t) :
  twf s -> 0 <= i < TERM_NUM -> arr_get (terms s) i = Some t ->
  (term_wf (cur_term_ind s) i t -> term_wf (cur_term_ind s) i (h t)) -> 
  exists s', on_term i (fun c => Some (on_tm h c)) s = Some s' /\ twf s' /\ apart s s' i /\
    arr_get (terms s') i = Some (h t).
Proof.
  intros Hs Hi Et Hh. rewrite (on_term_eq s i t _ Et), bind_ret.
  pose proof (ts_term s Hs i t Et) as Hw. specialize (Hh Hw).
  destruct (put_con_wf s i t (on_tm h (con_at s i t)) Hs Hi Et) as (W & A & G).
  - split; [apply Hs|]. destruct Hh. by split.
  - by destruct Hh.
  - by destruct Hh.
  - simpl. destruct Hw, Hh. congruence.
  - simpl. destruct Hw, Hh. congruence.
  - done.
  - eexists. split_and!; [done|done|done|exact G].
Qed.

(** Output to terminal [i]. *)
Lemma on_term_output s i t f :
  twf s -> 0 <= i < TERM_NUM -> arr_get (terms s) i = Some t ->
  (exists c', f (con_at s i t) = Some c' /\ out_esc (con_at s i t) c') ->
  exists s' t', on_term i f s = Some s' /\ twf s' /\ apart s s' i /\
    arr_get (terms s') i = Some t' /\ same_line t t'.
Proof.
  intros Hs Hi Et (c' & Ef & (W & Hc & He)). rewrite (on_term_eq s i t f Et), Ef, bind_ret.
  pose proof (ts_term s Hs i t Et) as Hw. destruct W as [L Hfr Hv Ho].
  destruct (put_con_wf s i t c' Hs Hi Et Hc) as (W & A & G).
  - destruct Hw as [[? ? ?] _ _ _ _ _ _], L as [E1 E2 E3 _ _ _ _ _]. simpl in *.
    split; rewrite ?E1, ?E2, ?E3; done.
  - done.
  - apply L.
  - apply L.
  - exact Hv.
  - eexists _, (tm c'). split_and!; [done|done|done|done|exact L].
Qed.

(** ** Writing *)

Lemma same_line_ed t t' : same_line t t' -> ed_of t' = ed_of t.
Proof. intros [E1 E2 E3 _ _ _ _ _]. unfold ed_of. by rewrite E1, E2, E3. Qed.

Lemma set_front_wf s i j : twf s -> i = cur_term_ind s -> twf (set_front i j s).
Proof. intros [? ? ? ?] ->. by split. Qed.

Lemma write_loop_ok buf n c :
  con_ok c -> esc_ok (tm c) -> 0 <= n ->
  exists c', for_upM 0 n (fun i c => write_byte (ld8 (vm c) (buf + i)) c) c = Some c' /\ out_esc c c'.
Proof.
  intros Hc He Hn.
  apply (for_upM_ind (fun _ c' => out_esc c c')); [done|apply out_esc_output; [by apply output_draws|done]|].
  intros i c' _ O. pose proof O as (_ & Hc' & He').
  destruct (write_byte_ok (ld8 (vm c') (buf + i)) c' Hc' He') as (c2 & -> & O2).
  eexists. split; [done|]. by eapply out_esc_trans.
Qed.

Lemma term_write_spec s i buf n :
  twf s -> 0 <= i < TERM_NUM -> 0 <= n < 2147483648 ->
  exists s', term_write i buf n s = Some (n, s') /\ twf s' /\ apart s s' i /\
    forall t, arr_get (terms s) i = Some t -> exists t', arr_get (terms s') i = Some t' /\ same_line t t'.
Proof.
  intros Hs Hi Hn. unfold term_write.
  pose proof (set_front_wf s _ i Hs eq_refl) as Hs1.
  destruct (term_at s i Hs Hi) as (t & Et & Hw).
  destruct (on_term_output (set_front (cur_term_ind s) i s) i t
    (for_upM 0 n (fun i c => write_byte (ld8 (vm c) (buf + i)) c))) as (s' & t' & E & W & A & G & L); try done.
  { destruct (con_at_line _ i t Hs1 Hw) as [Hc _]. apply write_loop_ok; [done|by eapply tw_esc|lia]. }
  rewrite E, bind_ret, s32_small by lia. eexists. split; [done|]. split; [done|]. split.
  - destruct A as [A1 A2 A3 A4 A5]. by split.
  - intros t0 E0. simplify_eq. eauto.
Qed.

(** ** Switching *)

Lemma ld8_copied m m' d s n x : copied m m' d s n -> ld8 m' x = if decide (d <= x < d + n) then ld8 m (s + (x - d)) else ld8 m x.
Proof. intros C. apply C. Qed.

(** The two copies of [switch_term]. *)
Lemma switch_copies m cur ind :
  mem_ok m -> 0 <= cur < TERM_NUM -> 0 <= ind < TERM_NUM -> cur <> ind ->
  exists m1 m2, memcpy m (backing cur) VIDEO VID_MEM_SIZE = Some m1 /\
    memcpy m1 VIDEO (backing ind) VID_MEM_SIZE = Some m2 /\ mem_ok m2 /\
    (forall i k, 0 <= i < TERM_NUM -> 0 <= k < VID_MEM_SIZE ->
      ld8 m2 (page_of ind i + k) = ld8 m (page_of cur i + k)) /\
    (forall a, (forall i, 0 <= i < TERM_NUM -> ~ on_page (page_of cur i) a /\ ~ on_page (page_of ind i) a) ->
      ld8 m2 a = ld8 m a).
Proof.
  intros Hm Hc Hi Hne. pose proof (backing_range cur Hc). pose proof (backing_range ind Hi).
  unfold VID_MEM_SIZE, VIDEO in *.
  destruct (memcpy_spec m (backing cur) 0xB8000 4000) as (m1 & E1 & C1); [done|lia..|].
  assert (Hm1 : mem_ok m1) by by eapply copied_ok.
  destruct (memcpy_spec m1 0xB8000 (backing ind) 4000) as (m2 & E2 & C2); [done|lia..|].
  exists m1, m2. split; [done|]. split; [done|]. split; [by eapply copied_ok|].
  unfold backing, page_of, VIDEO, TERM_NUM in *. split.
  - intros i k Hi' Hk. rewrite (ld8_copied _ _ _ _ _ _ C2), !(ld8_copied _ _ _ _ _ _ C1).
    unfold backing. repeat case_decide; subst; try lia; f_equal; lia.
  - intros a Ha. rewrite (ld8_copied _ _ _ _ _ _ C2), !(ld8_copied _ _ _ _ _ _ C1).
    pose proof (Ha ind Hi) as [A1 A2]. pose proof (Ha cur Hc) as [A3 A4].
    unfold on_page, VID_MEM_SIZE, backing in *. repeat case_decide; try lia; done.
Qed.

Lemma setpos_same c :
  0 <= cur_x (tm c) < NUM_COLS -> 0 <= cur_y (tm c) < NUM_ROWS ->
  tm (setpos (cur_x (tm c)) (cur_y (tm c)) c) = tm c.
Proof. intros Hx Hy. rewrite setpos_tm, !clamp_in by done. apply set_cursor_same. Qed.

Lemma set_video_mem_self t : set_video_mem (video_mem t) t = t.
Proof. by destruct t. Qed.

Lemma term_wf_switch cur ind i t : term_wf cur i t -> term_wf ind i (set_video_mem (page_of ind i) t).
Proof. intros [[? ? ?] [? ? ? ? ?] ? ? ? ? ?]. split; [by split|by split|done..]. Qed.

(** What [switch_term] leaves: each terminal moved to its page for the new
    foreground, its contents with it. *)
Record switched (s s' : tstate) (ind : Z) : Prop := {
  sw_ind : cur_term_ind s' = ind /\ cur_term s' = ind;
  sw_pcbs : pcbs s' = pcbs s;
  sw_terms : forall i, arr_get (terms s') i = set_video_mem (page_of ind i) <$> arr_get (terms s) i;
  sw_page : forall i k, 0 <= i < TERM_NUM -> 0 <= k < VID_MEM_SIZE ->
    ld8 (vmem s') (page_of ind i + k) = ld8 (vmem s) (page_of (cur_term_ind s) i + k);
  sw_mem : forall a, (forall i, 0 <= i < TERM_NUM -> ~ on_page (page_of (cur_term_ind s) i) a /\ ~ on_page (page_of ind i) a) ->
    ld8 (vmem s') a = ld8 (vmem s) a;
  sw_ok : mem_ok (vmem s')
}.

Lemma switched_wf s s' ind : twf s -> 0 <= ind < TERM_NUM -> switched s s' ind -> twf s'.
Proof.
  intros Hs Hi [[E1 E2] _ Ht _ _ Ho]. split.
  - pose proof (ts_len s Hs) as Hl. destruct (decide (length (terms s') = 3%nat)) as [|Hne]; [done|].
    exfalso. pose proof (Ht 2) as H2. pose proof (Ht 3) as H3. rewrite !arr_get_lookup in H2, H3 by lia.
    change (Z.to_nat 2) with 2%nat in H2. change (Z.to_nat 3) with 3%nat in H3.
    rewrite (lookup_ge_None_2 (terms s)) in H3 by (rewrite Hl; lia). simpl in H3.
    apply lookup_ge_None_1 in H3. destruct (lookup_lt_is_Some_2 (terms s) 2) as [x Hx]; [lia|].
    rewrite Hx in H2. simpl in H2. apply lookup_lt_Some in H2. lia.
  - by rewrite E1.
  - intros i t. rewrite Ht, E1. intros (t0 & E & ->)%fmap_Some. eapply term_wf_switch. by apply (ts_term s Hs).
  - done.
Qed.

Lemma switched_screen s s' ind i :
  twf s -> 0 <= ind < TERM_NUM -> 0 <= i < TERM_NUM -> switched s s' ind -> screen_of s' i = screen_of s i.
Proof.
  intros Hs Hind Hi [_ _ Ht Hp _ _]. unfold screen_of. rewrite Ht.
  destruct (term_at s i Hs Hi) as (t & E & [_ _ _ _ _ _ Epage]). rewrite E. simpl. f_equal.
  rewrite Epage. apply list_eq_Z. intros k Hk. destruct (decide (k < VID_MEM_SIZE)).
  - rewrite !lookup_load_bytes by lia. f_equal.
    pose proof (page_range ind i Hi). pose proof (page_range (cur_term_ind s) i Hi). unfold VID_MEM_SIZE in *.
    rewrite !u32_small by lia. apply Hp; [done|]. unfold VID_MEM_SIZE. lia.
  - pose proof (length_load_bytes (vmem s') (page_of ind i) VID_MEM_SIZE ltac:(done)).
    pose proof (length_load_bytes (vmem s) (page_of (cur_term_ind s) i) VID_MEM_SIZE ltac:(done)).
    rewrite !lookup_ge_None_2 by lia. done.
Qed.

Lemma switch_term_spec s ind :
  twf s -> cur_term s = cur_term_ind s -> 0 <= ind < TERM_NUM ->
  exists s', switch_term ind s = Some s' /\ switched s s' ind.
Proof.
  intros Hs Hcur Hind. pose proof Hs as [Hlen Hci Hterm Hmem]. unfold switch_term. case_decide as D.
  { exists s. split; [done|]. split; try done.
    - by rewrite D.
    - intros i. destruct (arr_get (terms s) i) as [t|] eqn:E; [|done]. simpl. f_equal.
      destruct (Hterm i t E) as [_ _ _ _ _ _ Ep]. rewrite D, <- Ep. symmetry. apply set_video_mem_self.
    - intros i k _ _. by rewrite D. }
  rewrite Hcur. set (cur := cur_term_ind s) in *.
  destruct (term_at s cur Hs Hci) as (told & Eo & Wo). destruct (term_at s ind Hs Hind) as (tnew & En & Wn).
  rewrite Eo, bind_ret. pose proof Wo as [_ _ _ _ _ Ebo _]. pose proof Wn as [_ _ Hx Hy _ Ebn Epn].
  destruct (switch_copies (vmem s) cur ind Hmem Hci Hind ltac:(done)) as (m1 & m2 & E1 & E2 & Hm2 & Hp & Hrest).
  unfold TERM_NUM in *.
  rewrite Ebo, E1, bind_ret. unfold set_video_mem_at. rewrite (on_term_eq (set_vmem m1 s) cur told) by done.
  rewrite !bind_ret. set (s1 := put_con _ cur _).
  assert (G1 : forall j, arr_get (terms s1) j = if decide (j = cur) then Some (set_video_mem (backing cur) told) else arr_get (terms s) j).
  { intros j. apply arr_get_insert. lia. }
  assert (En1 : arr_get (terms (set_front ind ind s1)) ind = Some tnew) by (simpl; rewrite G1, decide_False by done; done).
  rewrite (on_term_eq _ ind tnew) by done. rewrite !bind_ret. set (s3 := put_con _ ind _).
  assert (G3 : forall j, arr_get (terms s3) j = if decide (j = ind) then Some (set_video_mem VIDEO tnew) else arr_get (terms s1) j).
  { intros j. apply arr_get_insert. simpl. rewrite length_insert. lia. }
  assert (En3 : arr_get (terms s3) ind = Some (set_video_mem VIDEO tnew)) by (rewrite G3, decide_True; done).
  rewrite (on_term_eq s3 ind _) by exact En3. rewrite !bind_ret.
  set (c4 := con_at s3 ind (set_video_mem VIDEO tnew)).
  assert (E4 : tm (setpos (cur_x (tm c4)) (cur_y (tm c4)) c4) = set_video_mem VIDEO tnew) by by apply setpos_same.
  assert (V4 : vm (setpos (cur_x (tm c4)) (cur_y (tm c4)) c4) = m1) by (rewrite setpos_vm; done).
  set (s4 := put_con s3 ind _).
  assert (G4 : forall j, arr_get (terms s4) j = if decide (j = ind) then Some (set_video_mem VIDEO tnew) else arr_get (terms s3) j).
  { intros j. unfold s4, put_con. cbn [terms]. rewrite E4. apply arr_get_insert. simpl. rewrite !length_insert. lia. }
  rewrite G4, decide_True, bind_ret by done.
  assert (Ev4 : vmem s4 = m1) by (unfold s4, put_con; cbn [vmem]; exact V4).
  rewrite Ev4. change (video_buffer (set_video_mem VIDEO tnew)) with (video_buffer tnew). rewrite Ebn, E2, bind_ret.
  eexists. split; [reflexivity|]. split; [split; reflexivity|reflexivity| |exact Hp|exact Hrest|exact Hm2].
  intros j. cbn [terms set_vmem]. rewrite G4, G3, G1. destruct (decide (j = ind)) as [->|Hj].
  { rewrite En. simpl. unfold page_of. by rewrite decide_True. }
  destruct (decide (j = cur)) as [->|Hjc].
  { rewrite Eo. simpl. unfold page_of. by rewrite decide_False. }
  destruct (arr_get (terms s) j) as [t|] eqn:Ej; [|done]. simpl. f_equal.
  destruct (Hterm j t Ej) as [_ _ _ _ _ _ Ep]. unfold page_of in Ep |- *.
  rewrite decide_False in Ep by done. rewrite decide_False by done. rewrite <- Ep. symmetry. apply set_video_mem_self.
Qed.

(** ** The keyboard handler *)

Lemma puts_spec `{CBuf B} (b : B) s l c :
  cstr b s l -> Z.of_nat (length l) < 4294967296 -> con_ok c ->
  exists c', puts b s c = Some (Z.of_nat (length l), c') /\ draws c c' /\ con_ok c' /\
    c' = foldl (fun c ch => putc ch c) c l.
Proof.
  intros Hl Hlen Hc. unfold puts.
  match goal with |- context [whileM ?f ?st] => destruct (whileM_total
    (fun '(i, c') => 0 <= i <= Z.of_nat (length l) /\ draws c c' /\ con_ok c' /\
        c' = foldl (fun c ch => putc ch c) c (take (Z.to_nat i) l))
    (fun '(i, _) => Z.of_nat (length l) - i)
    (fun '(i, c') => i = Z.of_nat (length l) /\ draws c c' /\ con_ok c' /\
        c' = foldl (fun c ch => putc ch c) c l) f st) as ([i c'] & E & Hi & D & Hc' & Ef) end.
  - intros [i c'] (Hi & D & Hc' & Ef). rewrite (cstr_at b s l) by done. rewrite bind_ret.
    destruct (decide (i = Z.of_nat (length l))) as [->|].
    + rewrite Nat2Z.id, lookup_ge_None_2 by done. simpl. split_and!; [done|done|done|].
      by rewrite Nat2Z.id, firstn_all in Ef.
    + destruct (lookup_lt_is_Some_2 l (Z.to_nat i)) as [ch E]; [lia|].
      destruct (cstr_char b s l _ ch Hl E) as [_ Hr]. rewrite E. simpl default. rewrite decide_False by lia.
      rewrite u8_small by lia. destruct (putc_ok ch c' Hc') as [D' Hc'']. split; [|lia].
      split_and!; [lia|lia|by etrans|done|].
      replace (Z.to_nat (i + 1)) with (S (Z.to_nat i)) by lia.
      rewrite (take_S_r _ _ ch E), foldl_app. simpl. by rewrite Ef.
  - by split_and!; [lia|lia|..].
  - unfold FUEL. lia.
  - subst i. eauto.
Qed.

(** The effect of a key on the line being edited. *)
Definition ctrl_edit (k : Z) (e : editor) : editor :=
  if decide (k = 98) then ed_left e
  else if decide (k = 102) then ed_right e
  else if decide (k = 97) then ed_home e
  else if decide (k = 101) then ed_end e
  else if decide (k = 119) then ed_kill_word e
  else if decide (k = 117) then ed_kill_line e
  else if decide (k = 104) then ed_backspace e
  else e.

Definition alt_edit (k : Z) (e : editor) : editor :=
  if decide (k = 98) then ed_word_left e
  else if decide (k = 102) then ed_word_right e
  else e.

(** A character typed: kept only while a task is reading the terminal. *)
Definition type_char (t : term_t) (ch : Z) (e : editor) : editor :=
  if decide (reading t = 0) then e else ed_insert ch e.

(** A key that [term_key_handler] passes on to [switch_term]. *)
Definition switch_key (k : key_t) : Prop := modifiers k = MOD_ALT /\ KEY_F1 <= key_code k <= KEY_F3.

Definition key_edit (t : term_t) (k : key_t) (e : editor) : editor :=
  if decide (term_canon t <> 0 /\ ~ switch_key k) then type_char t (key_code k) (ed_end e)
  else if decide (modifiers k = MOD_CTRL) then ctrl_edit (key_code k) e
  else if decide (modifiers k = MOD_ALT) then
    if decide (KEY_F1 <= key_code k <= KEY_F3) then e else alt_edit (key_code k) e
  else if decide (key_code k = KEY_ENTER) then e
  else if decide (key_code k = KEY_BACK) then ed_backspace e
  else if decide (key_code k = KEY_LEFT) then ed_left e
  else if decide (key_code k = KEY_RIGHT) then ed_right e
  else if decide (KEY_F1 <= key_code k <= KEY_F12) then e
  else type_char t (key_code k) e.

(** The keys that end a line. *)
Definition enter_key (t : term_t) (k : key_t) : bool :=
  bool_decide (term_canon t = 0) &&
  (bool_decide (modifiers k = MOD_CTRL /\ key_code k = 109) ||
   bool_decide (modifiers k <> MOD_CTRL /\ modifiers k <> MOD_ALT /\ key_code k = KEY_ENTER)).

(** PCBs change in their pending signals only. *)
Definition signalled (st st' : pcb_store) : Prop :=
  forall a, st' !! a = st !! a \/ exists p v, st !! a = Some p /\ st' !! a = Some (with_signals v p).

Lemma signalled_refl st : signalled st st.
Proof. by left. Qed.

Lemma signalled_trans st1 st2 st3 : signalled st1 st2 -> signalled st2 st3 -> signalled st1 st3.
Proof.
  intros H1 H2 a. destruct (H1 a) as [E1|(p & v & E & E1)], (H2 a) as [E2|(q & w & Eq & E2)].
  - left. congruence.
  - right. rewrite E1 in Eq. eauto.
  - right. exists p, v. split; [done|congruence].
  - right. exists p, w. split; [done|]. rewrite E1 in Eq. injection Eq as <-. by rewrite E2.
Qed.

Lemma signalled_pcb st st' a p : signalled st st' -> st !! a = Some p -> exists v, st' !! a = Some (with_signals v p).
Proof.
  intros H E. destruct (H a) as [->|(q & v & Eq & ->)]; [exists (signals p); rewrite E; by destruct p|].
  rewrite E in Eq. injection Eq as <-. eauto.
Qed.

(** What work on the terminals leaves alone: the processes in front, the memory
    outside the pages of the terminals, and the PCBs but for pending signals. *)
Definition mild (s s' : tstate) : Prop :=
  (forall j, cur_pid <$> arr_get (terms s') j = cur_pid <$> arr_get (terms s) j) /\
  (forall a, ~ (VIDEO <= a < 0xBC000) -> ld8 (vmem s') a = ld8 (vmem s) a) /\
  signalled (pcbs s) (pcbs s').

Lemma mild_refl s : mild s s.
Proof. split; [done|]. split; [done|apply signalled_refl]. Qed.

Lemma mild_trans s1 s2 s3 : mild s1 s2 -> mild s2 s3 -> mild s1 s3.
Proof.
  intros (F1 & M1 & P1) (F2 & M2 & P2). split; [intros j; by rewrite F2|].
  split; [intros a Ha; by rewrite M2, M1|by eapply signalled_trans].
Qed.

Lemma mild_pcb s s' a : mild s s' -> is_Some (pcbs s !! a) -> is_Some (pcbs s' !! a).
Proof. intros (_ & _ & M) [p E]. destruct (signalled_pcb _ _ _ _ M E) as [v ->]. eauto. Qed.

(** Work on one terminal. *)
Lemma apart_mild s s' i t t' : apart s s' i -> 0 <= i < TERM_NUM -> arr_get (terms s) i = Some t ->
  arr_get (terms s') i = Some t' -> cur_pid t' = cur_pid t -> mild s s'.
Proof.
  intros [A1 _ A3 _ A5] Hi Et Et' Ep. split; [|split].
  - intros j. destruct (decide (j = i)) as [->|D]; [rewrite Et, Et'; cbn; by rewrite Ep|by rewrite A1].
  - intros a Ha. apply A3. pose proof (page_range (cur_term_ind s) i Hi). unfold on_page, VIDEO, VID_MEM_SIZE in *. lia.
  - rewrite A5. apply signalled_refl.
Qed.

(** What handling a key does to the terminal [i] it is typed at. *)
Definition handled (s s' : tstate) (i : Z) (t : term_t) (f : editor -> editor) (done : Z) : Prop :=
  twf s' /\ exists t', arr_get (terms s') i = Some t' /\ ed_of t' = f (ed_of t) /\ term_read_done t' = done /\
    (reading t' = reading t /\ term_canon t' = term_canon t /\ term_noecho t' = term_noecho t /\
     cur_pid t' = cur_pid t) /\
    mild s s'.

Lemma addch_idle ch c : reading (tm c) = 0 -> addch ch c = Some c.
Proof. intros H. unfold addch. rewrite decide_False; [done|]. by intros [_ ?]. Qed.

Lemma type_char_spec ch c :
  line_con c -> exists c', addch ch c = Some c' /\ edited (type_char (tm c) ch) c c'.
Proof.
  intros Hc. unfold type_char. destruct (decide (reading (tm c) = 0)) as [Hr|Hr].
  - exists c. split; [by apply addch_idle|by apply edited_id].
  - destruct (addch_spec ch c Hc Hr) as (c' & E & Ed). exists c'. split; [done|].
    exact Ed.
Qed.

Lemma run_after_any b a : run_after any b a = (reverse a ++ b, []).
Proof.
  revert b. induction a as [|ch a IH]; intros b; simpl; [done|].
  rewrite IH, reverse_cons, <- app_assoc. done.
Qed.

(** A character typed in canonical mode goes to the end of the line. *)
Lemma canon_char_spec ch c :
  line_con c ->
  exists c', addch ch (on_tm (fun t => set_curpos (term_buf_count t) t) c) = Some c' /\
    edited (fun e => type_char (tm c) ch (ed_end e)) c c'.
Proof.
  intros Hc. pose proof Hc as [Hc0 Hl]. pose proof Hl as [Hb Hn Hp].
  set (c1 := on_tm _ c).
  assert (Ed : edited ed_end c c1).
  { apply (edited_move _ (term_buf_count (tm c))); [done|lia| |done|].
    - destruct (ed_of (tm c)) as [b a] eqn:E. simpl. rewrite run_after_any.
      unfold ed_of in *. simpl in *. injection E as <- <-.
      rewrite drop_ge by (rewrite length_take; lia). f_equal.
      rewrite <- reverse_app. f_equal. unfold TERM_BUF_SIZE in *.
      rewrite <- (take_drop (Z.to_nat (term_curpos (tm c))) (take (Z.to_nat (term_buf_count (tm c))) (term_buf (tm c)))) at 1.
      by rewrite take_take, Nat.min_l by lia.
    - destruct Hc0 as [_ [? ? ?]]. by split. }
  destruct (type_char_spec ch c1) as (c' & E & Ed2); [by eapply edited_line_con|].
  exists c'. split; [done|]. exact (edited_trans _ _ _ _ _ Ed Ed2).
Qed.

Lemma edit_handled s i t f g :
  twf s -> 0 <= i < TERM_NUM -> arr_get (terms s) i = Some t ->
  (line_con (con_at s i t) -> exists c', f (con_at s i t) = Some c' /\ edited g (con_at s i t) c') ->
  exists s', on_term i f s = Some s' /\ handled s s' i t g (term_read_done t) /\ apart s s' i.
Proof.
  intros Hs Hi Et Hf.
  destruct (on_term_edit s i t f g Hs Hi Et) as (s' & t' & E & W & A & G & Ee & b & n & p & x & y & Etm).
  { apply Hf, con_at_line; [done|by apply (ts_term s Hs)]. }
  exists s'. split; [done|]. split; [|done]. split; [done|]. exists t'. subst t'.
  do 4 (split; [done|]). by eapply apart_mild.
Qed.

Lemma read_done_wf v cur i t : term_wf cur i t -> term_wf cur i (set_read_done v t).
Proof. intros [[? ? ?] [? ? ? ? ?] ? ? ? ? ?]. split; [by split|by split|done..]. Qed.

Lemma interrupt_spec s t p :
  twf s -> cur_term s = cur_term_ind s -> arr_get (terms s) (cur_term_ind s) = Some t ->
  pcbs s !! TASK_KSTACK_TOP (cur_pid t) = Some p ->
  exists s', key_interrupt s = Some s' /\
    handled s s' (cur_term_ind s) t (fun e => e) (term_read_done t) /\ cur_term_ind s' = cur_term_ind s /\
    pcbs s' = <[TASK_KSTACK_TOP (cur_pid t) := raise_signal SIG_KB_INT p]> (pcbs s).
Proof.
  intros Hs Hc Et Hp. unfold key_interrupt. rewrite Hc.
  destruct (on_term_edit s (cur_term_ind s) t (fun c => '(_, c') ← puts [94; 67; 0] 0 c; Some c') (fun e => e))
    as (s1 & t1 & E & W & A & G & Ee & b & n & q & x & y & Etm); [done|apply Hs|done| |].
  { pose proof (con_at_line s _ t Hs (ts_term s Hs _ _ Et)) as Hl. pose proof Hl as [Hc0 _].
    destruct (puts_spec [94; 67; 0] 0 [94; 67] (con_at s (cur_term_ind s) t)) as (c' & -> & D & Hc' & _); [|done|done|].
    - split; [|done]. intros [|[|k]] ch; intros [= <-]; by vm_compute.
    - eexists. split; [reflexivity|]. eapply edited_draws; [by apply edited_id|done|done]. }
  assert (Epid : cur_pid t1 = cur_pid t) by by rewrite Etm.
  pose proof (apart_mild _ _ _ _ _ A (ts_cur s Hs) Et G Epid) as (F1 & M1 & _).
  destruct A as [_ _ _ Ai Ap]. rewrite E, bind_ret, Ai, G, bind_ret. cbv zeta. rewrite Ap. rewrite Epid, Hp, bind_ret.
  eexists. split; [done|]. split_and!; [|by rewrite <- Ai|done].
  split; [by destruct W as [? ? ? ?]; split|]. exists t1. split; [done|]. split; [done|].
  split; [by rewrite Etm|]. split; [by rewrite Etm|]. split; [exact F1|]. split; [exact M1|]. cbn [pcbs set_pcbs]. intros a.
  destruct (decide (a = TASK_KSTACK_TOP (cur_pid t))) as [->|].
  - right. rewrite lookup_insert_eq. by eexists _, _.
  - left. by rewrite lookup_insert_ne.
Qed.

Lemma ctrl_key_spec s t k :
  twf s -> cur_term s = cur_term_ind s -> arr_get (terms s) (cur_term_ind s) = Some t ->
  is_Some (pcbs s !! TASK_KSTACK_TOP (cur_pid t)) ->
  exists s', ctrl_key k s = Some s' /\
    handled s s' (cur_term_ind s) t (ctrl_edit k) (if decide (k = 109) then 1 else term_read_done t) /\
    cur_term_ind s' = cur_term_ind s.
Proof.
  intros Hs Hc Et [p Hp]. pose proof (ts_cur s Hs) as Hi. set (i := cur_term_ind s) in *.
  assert (Hedit : forall f g, (forall c, line_con c -> exists c', f c = Some c' /\ edited g c c') ->
    k <> 109 -> (forall e, ctrl_edit k e = g e) ->
    exists s', on_term i f s = Some s' /\
      handled s s' i t (ctrl_edit k) (if decide (k = 109) then 1 else term_read_done t) /\ cur_term_ind s' = i).
  { intros f g Hf Hk Hg. destruct (edit_handled s i t f g Hs Hi Et) as (s' & E & (W & t' & G & Ee & R) & [_ _ _ Ai _]).
    { apply Hf. }
    exists s'. split; [done|]. split; [|done]. split; [done|]. exists t'. split; [done|].
    rewrite decide_False by done. split; [by rewrite Hg|done]. }
  unfold ctrl_key. cbv zeta. rewrite Hc. fold i.
  repeat match goal with
    | |- context [if decide (k = ?n) then _ else _] =>
        lazymatch n with 109 => fail | _ => idtac end;
        destruct (decide (k = n)) as [Hk|?]
    end.
  - apply (Hedit _ (fun e => e)); [intros c Hl; eexists; split; [done|by apply key_clear_spec]|lia|by subst].
  - apply (Hedit _ ed_left); [intros c Hl; eexists; split; [done|by apply key_left_spec]|lia|by subst].
  - apply (Hedit _ ed_right); [intros c Hl; eexists; split; [done|by apply key_right_spec]|lia|by subst].
  - apply (Hedit _ ed_home); [apply key_home_spec|lia|by subst].
  - apply (Hedit _ ed_end); [apply key_end_spec|lia|by subst].
  - apply (Hedit _ ed_kill_word); [apply key_kill_word_spec|lia|by subst].
  - apply (Hedit _ ed_kill_line); [apply key_kill_line_spec|lia|by subst].
  - apply (Hedit _ ed_backspace); [apply delch_spec|lia|by subst].
  - destruct (interrupt_spec s t p Hs Hc Et Hp) as (s' & E & H & Hi' & _).
    exists s'. rewrite decide_False by lia. split; [done|]. split; [by subst k|done].
  - assert (Hid : forall e, ctrl_edit k e = e).
    { intros e. unfold ctrl_edit. by rewrite !decide_False by done. }
    case_decide.
    + destruct (on_term_flag s i t (set_read_done 1) Hs Hi Et) as (s' & E & W & A & G).
      { apply read_done_wf. }
      pose proof (ap_ind _ _ _ A) as Ai.
      exists s'. split; [done|]. split; [|done]. split; [done|]. exists (set_read_done 1 t).
      split; [done|]. split; [by rewrite Hid|]. do 2 (split; [done|]).
      by apply (apart_mild s s' i t (set_read_done 1 t) A Hi Et G).
    + exists s. split; [done|]. split; [|done]. split; [done|]. exists t. split; [done|]. rewrite Hid.
      do 3 (split; [done|]). apply mild_refl.
Qed.

Lemma switched_mild s s' ind : 0 <= ind < TERM_NUM -> switched s s' ind -> mild s s'.
Proof.
  intros Hi Sw. split; [|split].
  - intros j. rewrite (sw_terms _ _ _ Sw). by destruct (arr_get (terms s) j).
  - intros a Ha. apply (sw_mem _ _ _ Sw). intros i Hi'.
    pose proof (page_range (cur_term_ind s) i Hi'). pose proof (page_range ind i Hi').
    unfold on_page, VIDEO, VID_MEM_SIZE in *. lia.
  - rewrite (sw_pcbs _ _ _ Sw). apply signalled_refl.
Qed.

Lemma alt_key_spec s t k :
  twf s -> cur_term s = cur_term_ind s -> arr_get (terms s) (cur_term_ind s) = Some t ->
  exists s', alt_key k s = Some s' /\
    handled s s' (cur_term_ind s) t
      (if decide (KEY_F1 <= k <= KEY_F3) then fun e => e else alt_edit k) (term_read_done t) /\
    (~ (KEY_F1 <= k <= KEY_F3) -> cur_term_ind s' = cur_term_ind s).
Proof.
  intros Hs Hc Et. pose proof (ts_cur s Hs) as Hi. unfold alt_key, alt_edit. case_decide as D.
  { unfold KEY_F1, KEY_F3 in *.
    destruct (switch_term_spec s (k - 0x8A) Hs Hc) as (s' & E & Sw); [unfold TERM_NUM; lia|].
    exists s'. split; [done|]. split; [|done].
    split; [eapply switched_wf; [done| |done]; unfold TERM_NUM; lia|].
    eexists. rewrite (sw_terms _ _ _ Sw), Et. split; [done|]. do 3 (split; [done|]).
    apply (switched_mild s s' (k - 0x8A)); [unfold TERM_NUM; lia|exact Sw]. }
  rewrite Hc. repeat case_decide.
  - destruct (edit_handled s _ t key_word_left ed_word_left Hs Hi Et) as (s' & E & H' & [_ _ _ Ai _]);
      [apply key_word_left_spec|eauto].
  - destruct (edit_handled s _ t key_word_right ed_word_right Hs Hi Et) as (s' & E & H' & [_ _ _ Ai _]);
      [apply key_word_right_spec|eauto].
  - exists s. split; [done|]. split; [|done]. split; [done|]. exists t. do 4 (split; [done|]). apply mild_refl.
Qed.

Lemma handler_body_spec s t key again :
  twf s -> arr_get (terms s) (cur_term_ind s) = Some t ->
  is_Some (pcbs s !! TASK_KSTACK_TOP (cur_pid t)) ->
  (forall k, modifiers key <> MOD_CTRL -> term_canon t = 0 ->
    again (C_key k) (set_front (cur_term_ind s) (cur_term_ind s) s)
    = ctrl_key k (set_front (cur_term_ind s) (cur_term_ind s) s)) ->
  exists s', key_handler_body again key s = Some s' /\
    handled s s' (cur_term_ind s) t (key_edit t key) (if enter_key t key then 1 else term_read_done t) /\
    (~ switch_key key -> cur_term_ind s' = cur_term_ind s).
Proof.
  intros Hs Et Hp Hag. pose proof (ts_cur s Hs) as Hi. unfold key_handler_body.
  pose proof (set_front_wf s _ (cur_term_ind s) Hs eq_refl) as Hs0.
  set (s0 := set_front (cur_term_ind s) (cur_term_ind s) s) in *.
  assert (Hh : forall s' f d, handled s0 s' (cur_term_ind s) t f d -> handled s s' (cur_term_ind s) t f d) by done.
  change (cur_term s0) with (cur_term_ind s). change (terms s0) with (terms s). rewrite Et, bind_ret.
  unfold key_edit. fold (switch_key key).
  destruct (decide (term_canon t <> 0 /\ ~ switch_key key)) as [D|D].
  { destruct (edit_handled s0 (cur_term_ind s) t (fun c =>
      addch (key_code key) (on_tm (fun t => set_curpos (term_buf_count t) t) c))
      (fun e => type_char t (key_code key) (ed_end e)) Hs0 Hi Et) as (s' & E & H' & [_ _ _ Ai _]).
    { intros Hl. apply (canon_char_spec (key_code key) _ Hl). }
    exists s'. split; [done|]. split; [|done]. assert (enter_key t key = false) as ->; [|done].
    unfold enter_key. by rewrite bool_decide_false by tauto. }
  destruct (decide (modifiers key = MOD_CTRL)) as [Hm|Hm].
  { destruct (ctrl_key_spec s0 t (key_code key) Hs0 eq_refl Et Hp) as (s' & E & H' & Ai).
    exists s'. split; [done|]. split; [|done]. assert (Hcan : term_canon t = 0).
    { destruct (decide (term_canon t = 0)); [done|]. exfalso. apply D. split; [done|].
      intros [Hm' _]. rewrite Hm in Hm'. done. }
    unfold enter_key. rewrite (bool_decide_true (term_canon t = 0)) by done.
    rewrite (bool_decide_false (modifiers key <> MOD_CTRL /\ _)) by tauto. rewrite orb_false_r. simpl.
    destruct (decide (key_code key = 109)).
    - by rewrite bool_decide_true by done.
    - by rewrite bool_decide_false by tauto. }
  assert (Hent : enter_key t key = bool_decide (term_canon t = 0) &&
    bool_decide (modifiers key <> MOD_ALT /\ key_code key = KEY_ENTER)).
  { unfold enter_key. f_equal. rewrite (bool_decide_false (modifiers key = MOD_CTRL /\ _)) by tauto. simpl.
    apply bool_decide_ext. tauto. }
  destruct (decide (modifiers key = MOD_ALT)) as [Ha|Ha].
  { destruct (alt_key_spec s0 t (key_code key) Hs0 eq_refl Et) as (s' & E & H' & Ai).
    exists s'. split; [done|]. rewrite Hent, (bool_decide_false (modifiers key <> MOD_ALT /\ _)) by tauto.
    rewrite andb_false_r. split; [by case_decide|]. intros Hns. apply Ai. intros ?. by apply Hns. }
  assert (Hcan : term_canon t = 0).
  { destruct (decide (term_canon t = 0)); [done|]. exfalso. apply D. split; [done|]. by intros [? _]. }
  assert (Hctrl : forall k (g : editor -> editor), (forall e, ctrl_edit k e = g e) -> exists s', again (C_key k) s0 = Some s' /\
    handled s0 s' (cur_term_ind s) t g (if decide (k = 109) then 1 else term_read_done t) /\
    (~ switch_key key -> cur_term_ind s' = cur_term_ind s)).
  { intros k g Hg. rewrite Hag by done. destruct (ctrl_key_spec s0 t k Hs0 eq_refl Et Hp) as (s' & E & (W & t' & G & Ee & R) & Ai).
    exists s'. split; [done|]. split; [|done]. split; [done|]. exists t'. by rewrite <- Hg. }
  rewrite Hent, (bool_decide_true (term_canon t = 0)) by done. simpl.
  destruct (decide (key_code key = KEY_ENTER)) as [He|He].
  { rewrite bool_decide_true by done. by apply (Hctrl 109 (fun e => e)). }
  rewrite bool_decide_false by tauto.
  destruct (decide (key_code key = KEY_BACK)); [by apply (Hctrl 104 ed_backspace)|].
  destruct (decide (key_code key = KEY_LEFT)); [by apply (Hctrl 98 ed_left)|].
  destruct (decide (key_code key = KEY_RIGHT)); [by apply (Hctrl 102 ed_right)|].
  destruct (decide (KEY_F1 <= key_code key <= KEY_F12)).
  { exists s0. split; [done|]. split; [|done]. split; [done|]. exists t. do 4 (split; [done|]). apply (mild_refl s). }
  destruct (edit_handled s0 (cur_term_ind s) t (addch (key_code key)) (type_char t (key_code key)) Hs0 Hi Et)
    as (s' & E & H' & [_ _ _ Ai _]); [|by exists s'].
  intros Hl. apply (type_char_spec (key_code key) _ Hl).
Qed.

(** The recursive call of the handler is a control key. *)
Lemma handler_again s t k :
  arr_get (terms s) (cur_term_ind s) = Some t -> term_canon t = 0 ->
  key_handler_body (fun _ _ => None) (C_key k) (set_front (cur_term_ind s) (cur_term_ind s) s)
  = ctrl_key k (set_front (cur_term_ind s) (cur_term_ind s) s).
Proof.
  intros Et Hc. unfold key_handler_body. cbn [cur_term_ind set_front terms cur_term]. rewrite Et, bind_ret.
  rewrite decide_False by tauto. done.
Qed.

Lemma key_handler_spec s t key :
  twf s -> arr_get (terms s) (cur_term_ind s) = Some t ->
  is_Some (pcbs s !! TASK_KSTACK_TOP (cur_pid t)) ->
  exists s', term_key_handler key s = Some s' /\
    handled s s' (cur_term_ind s) t (key_edit t key) (if enter_key t key then 1 else term_read_done t) /\
    (~ switch_key key -> cur_term_ind s' = cur_term_ind s).
Proof.
  intros Hs Et Hp. apply handler_body_spec; [done..|]. intros k _ Hc. by apply (handler_again s t).
Qed.

(** ** Reading a line *)

Lemma key_edit_ext t t' k e :
  reading t' = reading t -> term_canon t' = term_canon t -> key_edit t' k e = key_edit t k e.
Proof. intros E1 E2. unfold key_edit, type_char. by rewrite E1, E2. Qed.

Lemma enter_key_ext t t' k : term_canon t' = term_canon t -> enter_key t' k = enter_key t k.
Proof. intros E. unfold enter_key. by rewrite E. Qed.

(** The line after a run of keys. *)
Definition keys_edit (t : term_t) (ks : list key_t) (e : editor) : editor :=
  foldl (fun e k => key_edit t k e) e ks.

Lemma keys_edit_ext t t' ks e :
  reading t' = reading t -> term_canon t' = term_canon t -> keys_edit t' ks e = keys_edit t ks e.
Proof.
  intros E1 E2. unfold keys_edit. revert e. induction ks as [|k ks IH]; intros e; simpl; [done|].
  by rewrite (key_edit_ext t t'), IH.
Qed.

(** The wait of a line read, on the terminal [i] in front. *)
Definition line_ready (i : Z) (s : tstate) : option bool :=
  t ← arr_get (terms s) i; Some (bool_decide (term_read_done t <> 0)).

Lemma line_ready_eq i s t :
  arr_get (terms s) i = Some t -> line_ready i s = Some (bool_decide (term_read_done t <> 0)).
Proof. intros E. unfold line_ready. by rewrite E. Qed.

Lemma wait_step done k ks rest s :
  wait_until done (map term_key_handler (k :: ks) ++ rest) s =
  (d ← done s; if (d : bool) then Some (s, map term_key_handler (k :: ks) ++ rest)
               else s' ← term_key_handler k s; wait_until done (map term_key_handler ks ++ rest) s').
Proof. done. Qed.

Lemma wait_line s i t ks kenter rest :
  twf s -> i = cur_term_ind s -> arr_get (terms s) i = Some t -> term_read_done t = 0 ->
  is_Some (pcbs s !! TASK_KSTACK_TOP (cur_pid t)) ->
  Forall (fun k => ~ switch_key k /\ enter_key t k = false) ks -> enter_key t kenter = true ->
  exists s', wait_until (line_ready i) (map term_key_handler (ks ++ [kenter]) ++ rest) s = Some (s', rest) /\
    handled s s' i t (fun e => key_edit t kenter (keys_edit t ks e)) 1.
Proof.
  intros Hs -> Et Hd Hp Hks Hent. revert s t Hs Et Hd Hp Hks Hent.
  induction ks as [|k ks IH]; intros s t Hs Et Hd Hp Hks Hent.
  - change ([] ++ [kenter]) with (kenter :: []). rewrite wait_step. rewrite (line_ready_eq _ _ _ Et), bind_ret.
    rewrite bool_decide_false by (rewrite Hd; tauto).
    destruct (key_handler_spec s t kenter Hs Et Hp) as (s' & E & (W & t' & G & Ee & Er & R) & _).
    rewrite E, bind_ret. exists s'. rewrite Hent in Er. split.
    + simpl map. destruct rest; simpl; rewrite (line_ready_eq _ _ _ G), bind_ret;
        by rewrite bool_decide_true by (rewrite Er; done).
    + split; [done|]. exists t'. done.
  - apply Forall_cons_1 in Hks as [[Hns Hne] Hks].
    change ((k :: ks) ++ [kenter]) with (k :: (ks ++ [kenter])).
    rewrite wait_step. rewrite (line_ready_eq _ _ _ Et), bind_ret.
    rewrite bool_decide_false by (rewrite Hd; tauto).
    destruct (key_handler_spec s t k Hs Et Hp) as (s1 & E & (W & t1 & G & Ee & Er & (R1 & R2 & R3 & R4) & Hpc) & Hi).
    rewrite E, bind_ret. specialize (Hi Hns). rewrite Hne in Er. rewrite <- Hi in G.
    destruct (IH s1 t1) as (s' & E' & (W' & t' & G' & Ee' & Er' & (R1' & R2' & R3' & R4') & Hpc')).
    + done.
    + done.
    + by rewrite Er.
    + rewrite R4. by eapply mild_pcb.
    + eapply Forall_impl; [|exact Hks]. intros k' [? ?]. by rewrite (enter_key_ext t t1).
    + by rewrite (enter_key_ext t t1).
    + rewrite Hi in *. exists s'. split; [exact E'|]. split; [done|]. exists t'. split; [done|]. split.
      * rewrite Ee', Ee. simpl. rewrite (key_edit_ext t t1) by done. by rewrite (keys_edit_ext t t1).
      * split; [done|]. split; [by rewrite R1', R2', R3', R4'|]. by eapply mild_trans.
Qed.

Lemma read_line_spec buf nbytes c :
  line_con c -> esc_ok (tm c) -> 0 <= buf -> buf + 128 <= 4294967296 -> 0 <= nbytes ->
  let l := line_text (tm c) ++ [10] in
  let n := Z.min nbytes (Z.of_nat (length l)) in
  exists c', read_line_finish buf nbytes c = Some (n, c') /\
    line_con c' /\ esc_ok (tm c') /\ video_mem (tm c') = video_mem (tm c) /\ video_buffer (tm c') = video_buffer (tm c) /\
    load_bytes (vm c') buf n = u8 <$> take (Z.to_nat n) l /\
    line_text (tm c') = [] /\ term_read_done (tm c') = 0 /\ reading (tm c') = 0 /\
    (forall a, ~ on_page (video_mem (tm c)) a -> ~ (buf <= a < buf + n) -> ld8 (vm c') a = ld8 (vm c) a) /\
    cur_pid (tm c') = cur_pid (tm c).
Proof.
  intros [Hc Hl] He Hbuf Hend Hn l n. pose proof Hl as [Hb Hcnt Hp]. unfold TERM_BUF_SIZE in *.
  assert (Hll : Z.of_nat (length l) = term_buf_count (tm c) + 1).
  { unfold l, line_text. rewrite length_app, length_take. simpl. lia. }
  unfold read_line_finish. set (c1 := on_tm (set_reading 0) c).
  assert (Hc1 : con_ok c1) by (destruct Hc as [? [? ? ?]]; by split).
  set (c2 := if decide (term_noecho (tm c1) = 0) then putc 10 c1 else c1).
  assert (H2 : draws c1 c2 /\ con_ok c2) by (unfold c2; case_decide; [by apply putc_ok|by split]).
  clearbody c2. destruct H2 as [[(x & y & Et) _ Hv2 _] Hc2]. rewrite Et. simpl term_buf. simpl term_buf_count.
  rewrite arr_set_Some by lia. rewrite bind_ret. cbv zeta. rewrite u8_small by lia.
  set (b := <[Z.to_nat (term_buf_count (tm c)) := 10]> (term_buf (tm c))).
  assert (Hn' : (if decide (nbytes < term_buf_count (tm c) + 1) then nbytes else term_buf_count (tm c) + 1) = n).
  { unfold n. rewrite Hll. case_decide; lia. }
  rewrite Hn'.
  assert (Htb : take (Z.to_nat n) b = take (Z.to_nat n) l).
  { apply list_eq_Z. intros k Hk. destruct (decide (k < n)).
    - rewrite !lookup_take_lt by lia. unfold b, l, line_text. destruct (decide (k = term_buf_count (tm c))) as [->|].
      + rewrite list_lookup_insert_eq by lia. rewrite lookup_app_r; rewrite length_take; [|lia].
        by replace (_ - _)%nat with O by lia.
      + rewrite list_lookup_insert_ne by lia. rewrite lookup_app_l by (rewrite length_take; lia).
        by rewrite lookup_take_lt by lia.
    - by rewrite !lookup_take_ge by lia. }
  assert (Hlen : Z.of_nat (length (take (Z.to_nat n) b)) = n).
  { rewrite Htb, length_take. lia. }
  eexists. split; [reflexivity|]. simpl. split_and!; try done.
  - split.
    + destruct Hc2 as [Hm2 [Hx2 Hy2 Ha2]]. rewrite Et in Hx2, Hy2, Ha2. split; [by apply mem_ok_store_bytes|]. by split.
    + split; simpl; [unfold b; by rewrite length_insert|unfold TERM_BUF_SIZE; lia|lia].
  - by apply (same_esc_ok (tm c)).
  - apply list_eq_Z. intros k Hk. destruct (decide (k < n)).
    + rewrite lookup_load_bytes by lia. rewrite u32_small by lia.
      rewrite ld8_store_bytes by lia. rewrite decide_True by lia. replace (buf + k - buf) with k by lia.
      rewrite Htb, list_lookup_fmap.
      destruct (lookup_lt_is_Some_2 (take (Z.to_nat n) l) (Z.to_nat k)) as [v ->]; [rewrite length_take; lia|done].
    + pose proof (length_load_bytes (store_bytes (vm c2) buf (take (Z.to_nat n) b)) buf n ltac:(lia)).
      rewrite !lookup_ge_None_2; [done|rewrite length_fmap, length_take; lia|lia].
  - intros a Ha Hna. rewrite ld8_store_bytes by lia. rewrite decide_False by lia. by apply Hv2.
Qed.

(** ** Initialisation *)

(** The zero-initialised static array. *)
Definition zero_term : term_t :=
  mkTerm (replicate 128 0) 0 0 0 0 0 0 0 0 0 0 0 0 0 0 IDLE (replicate 4 0) 0 (replicate 4 0) 0.

Lemma blank_term_wf cur i : term_wf cur i (blank_term (page_of cur i) (backing i)).
Proof.
  split; [|apply blank_esc_ok|unfold blank_term; simpl; unfold NUM_COLS; lia
          |unfold blank_term; simpl; unfold NUM_ROWS; lia|unfold blank_term; simpl; unfold DEF_ATTR; lia|done..].
  split; unfold blank_term; simpl; [done|unfold TERM_BUF_SIZE; lia|lia].
Qed.

Lemma blank_state_wf ct m ps st :
  mem_ok m ->
  twf (mkTS (map (fun i => blank_term (page_of 0 i) (backing i)) [0; 1; 2]) 0 ct m ps st).
Proof.
  intros Hm. split; [done|simpl; unfold TERM_NUM; lia| |done]. intros i t. simpl cur_term_ind. simpl terms.
  unfold arr_get. case_decide; [|done]. intros E. assert (Hi : (Z.to_nat i < 3)%nat) by by apply lookup_lt_Some in E.
  assert (i = 0 \/ i = 1 \/ i = 2) as [-> | [-> | ->]] by lia; injection E as <-; apply blank_term_wf.
Qed.

Lemma clear_on s i t :
  twf s -> 0 <= i < TERM_NUM -> arr_get (terms s) i = Some t ->
  exists s', on_term i (fun c => Some (clear c)) s = Some s' /\ twf s' /\ apart s s' i.
Proof.
  intros Hs Hi Et. destruct (on_term_output s i t (fun c => Some (clear c)) Hs Hi Et) as (s' & t' & E & W & A & _).
  - eexists. split; [done|]. pose proof (ts_term s Hs i t Et) as Hw. apply out_esc_output; [|by eapply tw_esc].
    apply output_clear. by destruct (con_at_line s i t Hs Hw).
  - eauto.
Qed.

Lemma clear_all s :
  twf s -> cur_term_ind s = 0 ->
  exists s', (s ← on_term 0 (fun c => Some (clear c)) s;
              s ← on_term 1 (fun c => Some (clear c)) s;
              on_term 2 (fun c => Some (clear c)) s) = Some s' /\ twf s' /\ cur_term_ind s' = 0.
Proof.
  intros Hs Hc.
  destruct (term_at s 0 Hs ltac:(done)) as (t0 & E0 & _).
  destruct (clear_on s 0 t0 Hs ltac:(done) E0) as (s1 & -> & W1 & [_ _ _ A1 _]). rewrite bind_ret.
  destruct (term_at s1 1 W1 ltac:(done)) as (t1 & E1 & _).
  destruct (clear_on s1 1 t1 W1 ltac:(done) E1) as (s2 & -> & W2 & [_ _ _ A2 _]). rewrite bind_ret.
  destruct (term_at s2 2 W2 ltac:(done)) as (t2 & E2 & _).
  destruct (clear_on s2 2 t2 W2 ltac:(done) E2) as (s3 & -> & W3 & [_ _ _ A3 _]).
  exists s3. split; [done|]. split; [done|]. congruence.
Qed.

(** A line read whose interrupts wait as the keys [ks], then Enter, do. *)
Lemma term_read_line_spec (s : tstate) (t : term_t) (buf nbytes : Z) (ks : list key_t) (kenter : key_t)
  (irqs rest : list irq) :
  twf s -> arr_get (terms s) (cur_term_ind s) = Some t -> term_canon t = 0 -> term_read_done t = 0 ->
  is_Some (pcbs s !! TASK_KSTACK_TOP (cur_pid t)) ->
  0 < buf -> buf + 128 <= 4294967296 -> 0 <= nbytes ->
  Forall (fun k => ~ switch_key k /\ enter_key t k = false) ks -> enter_key t kenter = true ->
  (forall s1 s2, wait_until (line_ready (cur_term_ind s)) (map term_key_handler (ks ++ [kenter]) ++ rest) s1 = Some (s2, rest) ->
                 wait_until (line_ready (cur_term_ind s)) irqs s1 = Some (s2, rest)) ->
  let line := ed_text (keys_edit (set_reading 1 t) ks (ed_of t)) ++ [10] in
  let n := Z.min nbytes (Z.of_nat (length line)) in
  exists s' t', term_read (cur_term_ind s) buf nbytes irqs s
      = Some (n, s', rest) /\
    load_bytes (vmem s') buf n = u8 <$> take (Z.to_nat n) line /\
    arr_get (terms s') (cur_term_ind s) = Some t' /\ line_text t' = [] /\ term_read_done t' = 0 /\ reading t' = 0.
Proof.
  intros Hs Et Hcan Hd Hp Hbuf Hend Hn Hks Hent Hirq line n. set (i := cur_term_ind s) in *.
  pose proof (ts_cur s Hs) as Hi. fold i in Hi. unfold term_read. rewrite decide_False by lia. rewrite Et, bind_ret.
  destruct (on_term_flag s i t (set_reading 1) Hs Hi Et) as (s1 & E1 & W1 & [_ _ _ A1 A2] & G1).
  { intros [[? ? ?] [? ? ? ? ?] ? ? ? ? ?]. split; [by split|by split|done..]. }
  rewrite E1, bind_ret. rewrite decide_False by (rewrite Hcan; tauto).
  destruct (wait_line s1 i (set_reading 1 t) ks kenter rest W1) as (s2 & E2 & (W2 & t2 & G2 & Ee & _)); try done.
  { by rewrite A2. }
  apply Hirq in E2. unfold line_ready in E2. rewrite E2, bind_ret. cbv beta iota. unfold view. rewrite G2, !bind_ret.
  fold (con_at s2 i t2). pose proof (ts_term s2 W2 i t2 G2) as Hw2.
  pose proof (con_at_line s2 i t2 W2 Hw2) as Hl2.
  assert (Hline : line_text t2 ++ [10] = line).
  { unfold line. rewrite <- (ed_of_text t2) by by destruct Hl2. rewrite Ee.
    assert (Hk : forall e, key_edit (set_reading 1 t) kenter e = e); [|by rewrite Hk].
    intros e. unfold enter_key in Hent. unfold key_edit. simpl term_canon.
    rewrite decide_False by (rewrite Hcan; tauto). rewrite Hcan in Hent. simpl in Hent.
    apply orb_true_iff in Hent as [Hent|Hent]; apply bool_decide_eq_true in Hent.
    - destruct Hent as [-> ->]. by vm_compute.
    - destruct Hent as (H1 & H2 & H3). by rewrite decide_False, decide_False, decide_True by done. }
  destruct (read_line_spec buf nbytes (con_at s2 i t2) Hl2) as (c' & E3 & [Hc' Hl'] & He' & Ep & Eb & Hbytes & Ht & Hrd & Hr & _);
    [by eapply tw_esc|lia|lia|lia|].
  simpl line_text in *. rewrite Hline in *. fold n in E3, Hbytes. rewrite E3, bind_ret.
  unfold unview. assert (Hlen : length (terms s2) = 3%nat) by apply W2. unfold TERM_NUM in Hi.
  rewrite arr_set_Some by lia. rewrite !bind_ret.
  eexists _, (tm c'). split; [reflexivity|]. split; [exact Hbytes|]. split; [|done].
  cbn [terms]. rewrite arr_get_insert by lia. by rewrite decide_True.
Qed.

(** ** Properties *)

(** C17: Every key typed has, on the line being edited, exactly the effect of
    the corresponding editor operation (insert, backspace, moves by character,
    word and line, kills), the line is finished by Enter and C-M only, and the
    handler never faults and keeps the invariant of the terminals. *)
Theorem key_handler_correct (s : tstate) (t : term_t) (key : key_t) :
  twf s -> arr_get (terms s) (cur_term_ind s) = Some t ->
  is_Some (pcbs s !! TASK_KSTACK_TOP (cur_pid t)) ->
  exists s' t', term_key_handler key s = Some s' /\ twf s' /\
    arr_get (terms s') (cur_term_ind s) = Some t' /\
    ed_of t' = key_edit t key (ed_of t) /\
    term_read_done t' = (if enter_key t key then 1 else term_read_done t).
Proof.
  intros Hs Et Hp. destruct (key_handler_spec s t key Hs Et Hp) as (s' & E & (W & t' & G & Ee & Er & _) & _).
  by exists s', t'.
Qed.

(** C28: Switching terminals keeps what every terminal shows, moves the chosen
    one to the VGA page and the previous one to its backing page, leaves lines,
    cursors and modes alone, and writes no memory but the pages. *)
Theorem switch_term_correct (s : tstate) (ind : Z) :
  twf s -> cur_term s = cur_term_ind s -> 0 <= ind < TERM_NUM ->
  exists s', switch_term ind s = Some s' /\ twf s' /\ cur_term_ind s' = ind /\
    (forall i, 0 <= i < TERM_NUM -> screen_of s' i = screen_of s i) /\
    (forall i t, arr_get (terms s) i = Some t ->
       arr_get (terms s') i = Some (set_video_mem (page_of ind i) t)) /\
    (forall a, ~ (VIDEO <= a < 0xBC000) -> ld8 (vmem s') a = ld8 (vmem s) a).
Proof.
  intros Hs Hc Hi. destruct (switch_term_spec s ind Hs Hc Hi) as (s' & E & Sw).
  exists s'. split; [done|]. split; [exact (switched_wf s s' ind Hs Hi Sw)|].
  split; [by destruct (sw_ind _ _ _ Sw)|]. split; [|split].
  - intros i Hi'. exact (switched_screen s s' ind i Hs Hi Hi' Sw).
  - intros i t Et. by rewrite (sw_terms _ _ _ Sw), Et.
  - intros a Ha. apply (sw_mem _ _ _ Sw). intros i Hi'.
    pose proof (page_range (cur_term_ind s) i Hi'). pose proof (page_range ind i Hi').
    unfold on_page, VIDEO, VID_MEM_SIZE in *. lia.
Qed.

(** C32: A write to a terminal never faults, whatever the bytes, returns the
    count, and changes nothing of the other terminals (their screens, lines,
    cursors and parsers), no memory outside the writer's page, and not the line
    its own user is typing. *)
Theorem term_write_isolated (s : tstate) (i buf n : Z) :
  twf s -> 0 <= i < TERM_NUM -> 0 <= n < 2147483648 ->
  exists s', term_write i buf n s = Some (n, s') /\ twf s' /\
    (forall j, 0 <= j < TERM_NUM -> j <> i ->
       arr_get (terms s') j = arr_get (terms s) j /\ screen_of s' j = screen_of s j) /\
    (forall a, ~ on_page (page_of (cur_term_ind s) i) a -> ld8 (vmem s') a = ld8 (vmem s) a) /\
    (forall t, arr_get (terms s) i = Some t ->
       exists t', arr_get (terms s') i = Some t' /\ ed_of t' = ed_of t).
Proof.
  intros Hs Hi Hn. destruct (term_write_spec s i buf n Hs Hi Hn) as (s' & E & W & [A1 A2 A3 A4 A5] & L).
  exists s'. split; [done|]. split; [done|]. split; [|split; [done|]].
  - intros j Hj Hne. split; [by apply A1|by apply A2].
  - intros t Et. destruct (L t Et) as (t' & Et' & Sl). exists t'. split; [done|]. by apply same_line_ed.
Qed.

(** A line read returns, once Enter is typed, the line as edited by the
    keys typed before it, followed by a newline, cut at the size of the
    caller's buffer; the terminal's line is then empty and not finished.  The
    read returns with the Enter: later interrupts are not consumed. *)
Theorem term_read_line_correct (s : tstate) (t : term_t) (buf nbytes : Z) (ks : list key_t) (kenter : key_t)
  (rest : list irq) :
  twf s -> arr_get (terms s) (cur_term_ind s) = Some t -> term_canon t = 0 -> term_read_done t = 0 ->
  is_Some (pcbs s !! TASK_KSTACK_TOP (cur_pid t)) ->
  0 < buf -> buf + 128 <= 4294967296 -> 0 <= nbytes ->
  Forall (fun k => ~ switch_key k /\ enter_key t k = false) ks -> enter_key t kenter = true ->
  let line := ed_text (keys_edit (set_reading 1 t) ks (ed_of t)) ++ [10] in
  let n := Z.min nbytes (Z.of_nat (length line)) in
  exists s' t', term_read (cur_term_ind s) buf nbytes (map term_key_handler (ks ++ [kenter]) ++ rest) s
      = Some (n, s', rest) /\
    load_bytes (vmem s') buf n = u8 <$> take (Z.to_nat n) line /\
    arr_get (terms s') (cur_term_ind s) = Some t' /\ line_text t' = [] /\ term_read_done t' = 0 /\ reading t' = 0.
Proof. intros. by apply (term_read_line_spec s t buf nbytes ks kenter). Qed.

(** Initialisation establishes the invariant from the zero-initialised
    array, with terminal 0 in front. *)
Theorem init_term_correct (m : mem) (ct : Z) (ps : list (Z * Z)) (st : pcb_store) :
  mem_ok m ->
  exists s', init_term (mkTS [zero_term; zero_term; zero_term] 0 ct m ps st) = Some s' /\ twf s' /\
    cur_term_ind s' = 0.
Proof.
  intros Hm. unfold init_term.
  erewrite (on_term_eq _ 0) by reflexivity. rewrite !bind_ret.
  erewrite (on_term_eq _ 1) by reflexivity. rewrite !bind_ret.
  erewrite (on_term_eq _ 2) by reflexivity. rewrite !bind_ret.
  apply clear_all; [|done].
  change (put_con _ 2 _) with
    (mkTS (map (fun i => blank_term (page_of 0 i) (backing i)) [0; 1; 2]) 0 ct m
       ((((ps ++ [(0x3D4, 0x0A)]) ++ [(0x3D5, 0x00)]) ++ [(0x3D4, 0x0B)]) ++ [(0x3D5, 0x0F)]) st).
  by apply blank_state_wf.
Qed.

(** ** A concrete system *)

Definition sample_pcb : PCB_t :=
  mkPCB (replicate 8 (mkFILE stdin_file_ops_table 0 0 TASK_FILE_TERM 0)) 0 None 0 0 0 0 0 0 (replicate 5 0).

Definition sample_ts : tstate :=
  mkTS (map (fun i => blank_term (page_of 0 i) (backing i)) [0; 1; 2]) 0 0 ∅ []
    {[ TASK_KSTACK_TOP 0 := sample_pcb ]}.

Lemma sample_ts_wf : twf sample_ts.
Proof. apply blank_state_wf, mem_ok_empty. Qed.

Lemma key_handler_correct_witness :
  exists s' t', term_key_handler (R_key KEY_ENTER) sample_ts = Some s' /\
    arr_get (terms s') 0 = Some t' /\ term_read_done t' = 1.
Proof.
  destruct (key_handler_correct sample_ts (blank_term VIDEO (backing 0)) (R_key KEY_ENTER))
    as (s' & t' & E & _ & G & _ & D).
  - apply sample_ts_wf.
  - reflexivity.
  - eexists. reflexivity.
  - exists s', t'. split; [exact E|]. split; [exact G|exact D].
Defined.

Lemma switch_term_correct_witness :
  exists s', switch_term 2 sample_ts = Some s' /\ cur_term_ind s' = 2 /\ screen_of s' 0 = screen_of sample_ts 0.
Proof.
  destruct (switch_term_correct sample_ts 2) as (s' & E & _ & I & S & _).
  - apply sample_ts_wf.
  - reflexivity.
  - unfold TERM_NUM. lia.
  - exists s'. split; [exact E|]. split; [exact I|]. apply S. unfold TERM_NUM. lia.
Defined.

Lemma term_write_isolated_witness :
  exists s', term_write 1 0x8048000 3 sample_ts = Some (3, s') /\ screen_of s' 0 = screen_of sample_ts 0.
Proof.
  destruct (term_write_isolated sample_ts 1 0x8048000 3) as (s' & E & _ & S & _).
  - apply sample_ts_wf.
  - unfold TERM_NUM. lia.
  - lia.
  - exists s'. split; [exact E|]. apply (S 0); [unfold TERM_NUM; lia|lia].
Defined.

(** "lsx", backspace, Enter. *)
Lemma term_read_line_correct_witness :
  exists s', term_read 0 0x8048000 100
    (map term_key_handler [P_key 108; P_key 115; P_key 120; R_key KEY_BACK; R_key KEY_ENTER] ++ []) sample_ts
    = Some (3, s', []) /\ load_bytes (vmem s') 0x8048000 3 = [108; 115; 10].
Proof.
  destruct (term_read_line_correct sample_ts (blank_term VIDEO (backing 0)) 0x8048000 100
    [P_key 108; P_key 115; P_key 120; R_key KEY_BACK] (R_key KEY_ENTER) []) as (s' & t' & E & L & _).
  - apply sample_ts_wf.
  - reflexivity.
  - reflexivity.
  - reflexivity.
  - eexists. reflexivity.
  - lia.
  - lia.
  - lia.
  - repeat constructor; by (intros [? ?] || vm_compute).
  - reflexivity.
  - exists s'. split; [exact E|]. etrans; [exact L|]. by vm_compute.
Defined.

Lemma init_term_correct_witness :
  exists s', init_term (mkTS [zero_term; zero_term; zero_term] 0 0 ∅ [] ∅) = Some s' /\ cur_term_ind s' = 0.
Proof.
  destruct (init_term_correct ∅ 0 [] ∅) as (s' & E & _ & I).
  - apply mem_ok_empty.
  - exists s'. split; [exact E|exact I].
Defined.
