(* ===== verification/TermPrint.v ===== *)
(** * printf: the formatted output of term.c

    What [printf] sends to the terminal, through the local buffers, [itoa] and
    [puts] of the source: first each number conversion, then whole formats
    against their meaning. *)
From stdpp Require Import base tactics list numbers gmap option.
From Stdlib Require Import ZArith Lia.
From S2P Require Import Prelude CLib Task Term TermScreen TermLine TermSys.

Open Scope Z_scope.

(** The characters sent to a terminal one by one. *)
Definition emit (l : list Z) (c : con) : con := foldl (fun c ch => putc ch c) c l.

(** The digits of a number as characters, and padded to eight. *)
Definition number (r v : Z) : list Z := digit_char <$> digits r v.
Definition hex8 (v : Z) : list Z := replicate (8 - length (number 16 v)) 48 ++ number 16 v.
Definition signed (v : Z) : list Z := if decide (v < 0) then 45 :: number 10 (- v) else number 10 v.

Lemma digits_low_bound k n r v :
  2 <= r -> 0 <= v < r ^ Z.of_nat k -> (length (digits_low n r v) <= k)%nat.
Proof.
  intros Hr. revert n v. induction k as [|k IH]; intros n v Hv.
  - simpl in Hv. assert (v = 0) as -> by lia. by rewrite digits_low_0.
  - destruct n as [|n]; [simpl; lia|].
    change (digits_low (S n) r v) with (if decide (v = 0) then [] else v mod r :: digits_low n r (v / r)).
    case_decide; [simpl; lia|]. simpl length.
    apply le_n_S, IH. rewrite Nat2Z.inj_succ, Z.pow_succ_r in Hv by lia. split; [apply Z.div_pos; lia|].
    apply Z.div_lt_upper_bound; lia.
Qed.

Lemma number_length r v : (1 <= length (number r v) <= 32)%nat.
Proof. unfold number. rewrite length_fmap. pose proof (digits_length r v). lia. Qed.

Lemma hex_length v : 0 <= v < 4294967296 -> (1 <= length (number 16 v) <= 8)%nat.
Proof.
  intros Hv. pose proof (number_length 16 v). split; [lia|]. unfold number, digits in *. rewrite length_fmap.
  case_decide; [simpl; lia|]. rewrite length_reverse. apply digits_low_bound; [lia|done].
Qed.

Lemma hex8_length v : 0 <= v < 4294967296 -> length (hex8 v) = 8%nat.
Proof. intros Hv. pose proof (hex_length v Hv). unfold hex8. rewrite length_app, length_replicate. lia. Qed.

Section Conversions.
Context (junk : printf_junk) (text : mem) (c : con).
Context (H64 : length (junk64 junk) = 64%nat) (H36 : length (junk36 junk) = 36%nat) (Hc : con_ok c).

Lemma puts_emit (b : list Z) s l :
  cstr b s l -> Z.of_nat (length l) < 4294967296 -> puts b s c = Some (Z.of_nat (length l), emit l c).
Proof. intros Hl Hn. destruct (puts_spec b s l c Hl Hn Hc) as (c' & -> & _ & _ & ->). done. Qed.

(** A number printed from the start of a local buffer. *)
Lemma print_number (b0 : list Z) r v :
  0 <= v < 4294967296 -> 2 <= r <= 36 -> (33 <= length b0)%nat ->
  exists b, itoa v b0 0 r = Some b /\ puts b 0 c = Some (Z.of_nat (length (number r v)), emit (number r v) c).
Proof.
  intros Hv Hr Hb. destruct (itoa_spec v b0 0 r Hv Hr ltac:(lia)) as (b & E & _ & Hs & _).
  - cbn [bcap arr_buf]. lia.
  - exists b. split; [done|]. pose proof (number_length r v). apply puts_emit; [exact Hs|lia].
Qed.

Lemma spec_u v esp alt :
  0 <= v < 4294967296 -> printf_spec junk text 117 alt (v :: esp) c = Some (esp, emit (number 10 v) c).
Proof.
  intros Hv. unfold printf_spec. rewrite !(decide_False (P := 117 = _)) by lia. rewrite decide_True by done.
  destruct (print_number (junk36 junk) 10 v) as (b & -> & E); [lia|lia|lia|]. by rewrite bind_ret, E.
Qed.

Lemma spec_x v esp :
  0 <= v < 4294967296 -> printf_spec junk text 120 false (v :: esp) c = Some (esp, emit (number 16 v) c).
Proof.
  intros Hv. unfold printf_spec. rewrite !(decide_False (P := 120 = 37)) by lia. rewrite decide_True by done.
  destruct (print_number (junk64 junk) 16 v) as (b & -> & E); [lia|lia|lia|]. by rewrite bind_ret, E.
Qed.

Lemma spec_d v esp alt :
  0 <= v < 4294967296 -> printf_spec junk text 100 alt (v :: esp) c = Some (esp, emit (signed (s32 v)) c).
Proof.
  intros Hv. unfold printf_spec. rewrite !(decide_False (P := 100 = _)) by lia. rewrite decide_True by done.
  unfold signed. pose proof (s32_range v) as Hr. cbv zeta. case_decide as D.
  - destruct (bput_in (junk36 junk) 0 45) as [b0 E0]; [cbn [bcap arr_buf]; lia|]. rewrite E0, bind_ret.
    rewrite u32_small by lia.
    assert (L0 : bcap b0 = 36) by (rewrite (bput_cap _ _ _ _ E0); cbn [bcap arr_buf]; lia).
    destruct (itoa_spec (- s32 v) b0 1 10) as (b & -> & _ & Hs & Hk); [lia|lia|lia|lia|]. rewrite bind_ret.
    fold (number 10 (- s32 v)) in Hs. pose proof (number_length 10 (- s32 v)).
    rewrite (puts_emit b 0 (45 :: number 10 (- s32 v))); [done| |simpl length; lia].
    destruct Hs as [Hs1 Hs2]. split.
    + intros [|k] ch; simpl lookup.
      * intros [= <-]. rewrite Hk by lia. rewrite (bput_get _ _ _ _ _ E0). rewrite decide_True by lia. done.
      * intros E. replace (0 + Z.of_nat (S k)) with (1 + Z.of_nat k) by lia. by apply Hs1.
    + simpl length. replace (0 + Z.of_nat (S (length (number 10 (- s32 v))))) with (1 + Z.of_nat (length (number 10 (- s32 v)))) by lia.
      exact Hs2.
  - rewrite u32_small by lia.
    destruct (print_number (junk36 junk) 10 (s32 v)) as (b & -> & E); [lia|lia|lia|]. by rewrite !bind_ret, E.
Qed.

(** The padding loop of %#x: zeros from [i] up to the digits at 8. *)
Lemma pad_spec (b : list Z) l :
  cstr b 8 l -> (1 <= length l <= 8)%nat ->
  exists b' i, whileM (fun '(b, i) => if decide (i < 8) then b' ← bput b i 48; Some (inl (b', i + 1))
                   else Some (inr (b, i))) (b, Z.of_nat (length l)) = Some (b', i) /\
    cstr b' (Z.of_nat (length l)) (replicate (8 - length l) 48 ++ l).
Proof.
  intros Hs Hl. set (n := Z.of_nat (length l)) in *.
  assert (Hcap : n + 8 < bcap b).
  { destruct Hs as [_ Hz]. apply bget_bound in Hz. lia. }
  match goal with |- context [whileM ?f ?st] => destruct (whileM_total
    (fun '(b1, i) => n <= i <= 8 /\ bcap b1 = bcap b /\
       forall j, bget b1 j = if decide (n <= j < i) then Some 48 else bget b j)
    (fun '(_, i) => 8 - i)
    (fun '(b1, i) => forall j, bget b1 j = if decide (n <= j < 8) then Some 48 else bget b j) f st)
    as ([b' i] & E & Hb') end.
  - intros [b1 i] (Hi & Hc1 & Hg). destruct (decide (i < 8)).
    + destruct (bput_in b1 i 48) as [b2 E2]; [lia|]. rewrite E2, bind_ret. split; [|lia].
      split; [lia|]. split; [by rewrite (bput_cap _ _ _ _ E2)|]. intros j.
      rewrite (bput_get _ _ _ _ j E2), Hg. change (u8 48) with 48. by repeat case_decide; try lia.
    + intros j. rewrite Hg. by repeat case_decide; try lia.
  - split; [lia|]. split; [done|]. intros j. by rewrite decide_False by lia.
  - unfold FUEL. lia.
  - exists b', i. split; [exact E|]. destruct Hs as [Hs1 Hs2].
    assert (Hlen : Z.of_nat (length (replicate (8 - length l) 48 ++ l)) = 8).
    { rewrite length_app, length_replicate. lia. }
    split.
    + intros k ch Hk. rewrite Hb'. destruct (decide (k < 8 - length l)%nat).
      * rewrite decide_True by lia. rewrite lookup_app_l in Hk by (rewrite length_replicate; lia).
        apply lookup_replicate in Hk as [-> _]. done.
      * rewrite decide_False by lia. rewrite lookup_app_r in Hk by (rewrite length_replicate; lia).
        rewrite length_replicate in Hk. specialize (Hs1 _ _ Hk).
        replace (n + Z.of_nat k) with (8 + Z.of_nat (k - (8 - length l))) by lia. done.
    + rewrite Hlen, Hb', decide_False by lia. rewrite <- Hs2. f_equal. lia.
Qed.

Lemma spec_hex8 v esp :
  0 <= v < 4294967296 -> printf_spec junk text 120 true (v :: esp) c = Some (esp, emit (hex8 v) c).
Proof.
  intros Hv. unfold printf_spec. rewrite !(decide_False (P := 120 = 37)) by lia. rewrite decide_True by done.
  destruct (itoa_spec v (junk64 junk) 8 16 Hv) as (b & -> & _ & Hs & _); [lia|lia|cbn [bcap arr_buf]; lia|].
  rewrite bind_ret. fold (number 16 v) in Hs. pose proof (hex_length v Hv) as Hl.
  rewrite (strlen_spec b 8 _ Hs) by lia. rewrite bind_ret.
  destruct (pad_spec b _ Hs Hl) as (b' & i & -> & Hs'). rewrite bind_ret. cbv beta iota.
  rewrite (puts_emit b' _ _ Hs') by (pose proof (hex8_length v Hv); unfold hex8 in *; lia). done.
Qed.
End Conversions.

(** Skipping the '#'s after a '%'. *)
Lemma skip_alt (fmt : list Z) p alt spec :
  (alt = true -> arr_get fmt p = Some 35) -> arr_get fmt (p + c_bool alt) = Some spec -> spec <> 35 ->
  whileM (fun '(buf, alternate) =>
          ch ← bget fmt buf;
          Some (if decide (ch = 35) then inl (buf + 1, true) else inr (buf, alternate))) (p, false)
  = Some (p + c_bool alt, alt).
Proof.
  intros H1 H2 Hne.
  match goal with |- whileM ?f ?st = _ => destruct (whileM_total
    (fun '(b, a) => (b = p /\ a = false) \/ (b = p + c_bool alt /\ a = alt))
    (fun '(b, _) => p + 1 - b) (fun r => r = (p + c_bool alt, alt)) f st) as (r & E & ->) end.
  - intros [b a] Hb. assert (Hcase : (alt = true /\ b = p /\ a = false) \/ (b = p + c_bool alt /\ a = alt)).
    { destruct alt; simpl c_bool in *; [tauto|]. destruct Hb as [[-> ->]|[-> ->]]; right; split; try done; lia. }
    cbn [bget arr_buf]. destruct Hcase as [(-> & -> & ->)|[-> ->]].
    + rewrite H1, bind_ret, decide_True by done. simpl c_bool. split; [by right|lia].
    + rewrite H2, bind_ret, decide_False by done. done.
  - by left.
  - unfold FUEL. lia.
  - done.
Qed.

(** A format of one conversion, "%s" or "%#s" for the letter s. *)
Definition one_format (alt : bool) (spec : Z) : list Z :=
  if alt then [37; 35; spec; 0] else [37; spec; 0].

Lemma printf_one junk text args c alt spec esp c' :
  printf_spec junk text spec alt args c = Some (esp, c') -> spec <> 35 ->
  printf junk text (one_format alt spec) 0 args c = Some (2 + c_bool alt, c').
Proof.
  intros Hs Hne. unfold printf.
  match goal with |- whileM ?f ?st = _ => destruct (whileM_total
    (fun sx => sx = (0, args, c) \/ sx = (2 + c_bool alt, esp, c'))
    (fun '(b, _, _) => 2 + c_bool alt - b) (fun r => r = (2 + c_bool alt, c')) f st) as (r & E & ->) end.
  - intros [[b a] c1] [[= -> -> ->]|[= -> -> ->]].
    + change (bget (one_format alt spec) 0) with (arr_get (one_format alt spec) 0).
      assert (arr_get (one_format alt spec) 0 = Some 37) as -> by by destruct alt.
      rewrite bind_ret. rewrite decide_False, decide_True by lia.
      rewrite (skip_alt (one_format alt spec) (0 + 1) alt spec).
      * rewrite bind_ret. cbv beta iota. cbn [bget arr_buf].
        assert (arr_get (one_format alt spec) (0 + 1 + c_bool alt) = Some spec) as -> by by destruct alt.
        rewrite bind_ret, Hs, bind_ret. cbv beta iota. split; [right; do 2 f_equal; lia|].
        destruct alt; simpl; lia.
      * by intros ->.
      * by destruct alt.
      * done.
    + cbn [bget arr_buf].
      assert (arr_get (one_format alt spec) (2 + c_bool alt) = Some 0) as -> by by destruct alt.
      rewrite bind_ret, decide_True by done. by rewrite Z.sub_0_r.
  - by left.
  - destruct alt; unfold FUEL; simpl; lia.
  - done.
Qed.

(** ** Whole formats *)

(** What one conversion writes, and the arguments left; [str] gives the strings
    at the addresses that hold one. *)
Definition conversion (str : Z -> option (list Z)) (spec : Z) (alternate : bool) (args : list Z) : option (list Z * list Z) :=
  if decide (spec = 37) then Some ([37], args)
  else if decide (spec = 120 \/ spec = 117 \/ spec = 100 \/ spec = 99 \/ spec = 115) then
    match args with
    | [] => None
    | v :: args =>
        out ← (if decide (spec = 115) then str v
               else Some (if decide (spec = 120) then (if alternate then hex8 v else number 16 v)
                          else if decide (spec = 117) then number 10 v
                          else if decide (spec = 100) then signed (s32 v) else [u8 v]));
        Some (out, args)
    end
  else Some ([], args).

(** What a format writes; [mode] is [Some alternate] after a percent sign.  A
    format that ends in a percent sign, or asks for more arguments than there
    are, has no meaning. *)
Fixpoint render (str : Z -> option (list Z)) (mode : option bool) (fmt args : list Z) : option (list Z) :=
  match mode, fmt with
  | None, [] => Some []
  | None, ch :: fmt =>
      if decide (ch = 37) then render str (Some false) fmt args else (ch ::.) <$> render str None fmt args
  | Some _, [] => None
  | Some alternate, ch :: fmt =>
      if decide (ch = 35) then render str (Some true) fmt args
      else '(out, args) ← conversion str ch alternate args; (out ++.) <$> render str None fmt args
  end.

Lemma emit_app l1 l2 c : emit (l1 ++ l2) c = emit l2 (emit l1 c).
Proof. apply foldl_app. Qed.

Lemma emit_ok l c : con_ok c -> con_ok (emit l c).
Proof. revert c. induction l as [|ch l IH]; intros c Hc; [done|]. by apply IH, putc_ok. Qed.

Lemma emit_draws l c : con_ok c -> draws c (emit l c).
Proof.
  revert c. induction l as [|ch l IH]; intros c Hc; [apply draws_refl|]. destruct (putc_ok ch c Hc) as [H1 H2].
  eapply draws_trans; [exact H1|by apply IH].
Qed.

Section Formats.
Context {B : Type} `{CBufLaws B} (junk : printf_junk) (text : mem) (str : Z -> option (list Z)).
Context (Hstr : forall v s, str v = Some s -> cstr text v s /\ Z.of_nat (length s) < 4294967296).
Context (H64 : length (junk64 junk) = 64%nat) (H36 : length (junk36 junk) = 36%nat).

(** The arguments are words. *)
Definition args_ok (args : list Z) : Prop := Forall (fun v => 0 <= v < 4294967296) args.

Lemma conversion_correct spec alt args out rest c :
  conversion str spec alt args = Some (out, rest) -> args_ok args -> con_ok c ->
  printf_spec junk text spec alt args c = Some (rest, emit out c) /\ args_ok rest.
Proof.
  unfold conversion. intros E Ha Hc. case_decide as D37.
  { subst spec. injection E as <- <-. done. }
  case_decide as D.
  - destruct args as [|v args]; [done|]. apply list.Forall_cons in Ha as [Hv Ha].
    apply bind_Some in E as (w & Ew & E). injection E as <- <-. split; [|done].
    destruct D as [->|[->|[->|[->| ->]]]];
      repeat (first [rewrite decide_True in Ew by lia | rewrite decide_False in Ew by lia]); try injection Ew as <-.
    + destruct alt; [by apply spec_hex8|by apply spec_x].
    + by apply spec_u.
    + by apply spec_d.
    + unfold printf_spec. repeat (first [rewrite decide_True by lia | rewrite decide_False by lia]). done.
    + unfold printf_spec. repeat (first [rewrite decide_True by lia | rewrite decide_False by lia]).
      destruct (Hstr v w Ew) as [Hs Hn]. destruct (puts_spec text v _ c Hs Hn Hc) as (c' & -> & _ & _ & ->). done.
  - injection E as <- <-. split; [|done]. unfold printf_spec. by rewrite !decide_False by lia.
Qed.

(** Skipping the '#'s after a '%'. *)
Lemma skip_flags (fmt : B) p l k a esp o :
  cstr fmt p l -> Z.of_nat (length l) < 4294967296 -> render str (Some a) (drop k l) esp = Some o ->
  exists k' alt spec, whileM (fun '(buf, alternate) =>
          ch ← bget fmt buf;
          Some (if decide (ch = 35) then inl (buf + 1, true) else inr (buf, alternate))) (p + Z.of_nat k, a)
      = Some (p + Z.of_nat k', alt) /\
    l !! k' = Some spec /\ spec <> 35 /\ (k <= k')%nat /\ render str (Some alt) (drop k' l) esp = Some o.
Proof.
  intros Hl Hn Ho.
  assert (Hin : forall j a', render str (Some a') (drop j l) esp = Some o -> exists ch, l !! j = Some ch /\
    render str (Some a') (drop j l) esp = render str (Some a') (ch :: drop (S j) l) esp).
  { intros j a' E. destruct (l !! j) as [ch|] eqn:El; [exists ch; by rewrite (drop_S l ch j El)|].
    apply lookup_ge_None_1 in El. by rewrite drop_ge in E. }
  match goal with |- context [whileM ?f ?st] => destruct (whileM_total
    (fun '(b, a') => exists j, (k <= j)%nat /\ b = p + Z.of_nat j /\ render str (Some a') (drop j l) esp = Some o)
    (fun '(b, _) => p + Z.of_nat (length l) - b)
    (fun '(b, alt) => exists j spec, (k <= j)%nat /\ b = p + Z.of_nat j /\ l !! j = Some spec /\ spec <> 35 /\
       render str (Some alt) (drop j l) esp = Some o) f st) as ([b alt] & E & j & spec & Hj & -> & Es & Hne & Hr) end.
  - intros [b a'] (j & Hj & -> & Hr). destruct (Hin j a' Hr) as (ch & Ech & Er). pose proof (lookup_lt_Some _ _ _ Ech).
    rewrite (cstr_at _ _ _ (Z.of_nat j) Hl), Nat2Z.id, Ech, bind_ret by lia. change (default 0 (Some ch)) with ch. case_decide as D.
    + subst ch. rewrite Er in Hr. cbn [render] in Hr. rewrite decide_True in Hr by done.
      split; [|lia]. exists (S j). split; [lia|]. split; [lia|exact Hr].
    + exists j, ch. by rewrite Hr.
  - by exists k.
  - destruct (Hin k a Ho) as (ch & Ech & _). apply lookup_lt_Some in Ech. unfold FUEL. lia.
  - exists j, alt, spec. by rewrite E.
Qed.

(** [printf] writes what its format means. *)
Lemma printf_render (fmt : B) p l args out c :
  cstr fmt p l -> Z.of_nat (length l) < 4294967296 -> args_ok args -> con_ok c ->
  render str None l args = Some out -> printf junk text fmt p args c = Some (Z.of_nat (length l), emit out c).
Proof.
  intros Hl Hn Ha Hc Hout. unfold printf.
  match goal with |- whileM ?f ?st = _ => destruct (whileM_total
    (fun '(b, esp, c1) => exists k done o, (k <= length l)%nat /\ b = p + Z.of_nat k /\ c1 = emit done c /\ args_ok esp /\
       render str None (drop k l) esp = Some o /\ done ++ o = out)
    (fun '(b, _, _) => p + Z.of_nat (length l) - b) (fun r => r = (Z.of_nat (length l), emit out c)) f st) as (r & E & ->) end;
    [| |unfold FUEL; lia|exact E].
  - intros [[b esp] c1] (k & dn & o & Hk & -> & -> & Hesp & Hr & Ho). pose proof (emit_ok dn c Hc) as Hc1.
    rewrite (cstr_at _ _ _ (Z.of_nat k) Hl), Nat2Z.id, bind_ret by lia.
    destruct (l !! k) as [ch|] eqn:Ech; [change (default 0 (Some ch)) with ch|].
    2:{ change (default 0 (@None Z)) with 0. apply lookup_ge_None_1 in Ech. rewrite decide_True by done. rewrite drop_ge in Hr by done. injection Hr as <-.
        rewrite app_nil_r in Ho. subst. f_equal. lia. }
    destruct (proj1 Hl k ch Ech) as [_ Hch]. pose proof (lookup_lt_Some _ _ _ Ech) as Hlt. rewrite decide_False by lia.
    rewrite (drop_S l ch k Ech) in Hr. cbn [render] in Hr. destruct (decide (ch = 37)) as [D|D].
    + replace (p + Z.of_nat k + 1) with (p + Z.of_nat (S k)) by lia.
      destruct (skip_flags fmt p l (S k) false esp o Hl Hn Hr) as (k' & alt & spec & -> & Es & Hne & Hkk & Hr').
      rewrite bind_ret. cbv beta iota. pose proof (lookup_lt_Some _ _ _ Es).
      rewrite (cstr_at _ _ _ (Z.of_nat k') Hl), Nat2Z.id, Es, bind_ret by lia. change (default 0 (Some spec)) with spec.
      rewrite (drop_S l spec k' Es) in Hr'. cbn [render] in Hr'. rewrite decide_False in Hr' by done.
      apply bind_Some in Hr' as ([w rest] & Ew & Hr'). apply fmap_Some in Hr' as (o2 & Ho2 & ->).
      destruct (conversion_correct spec alt esp w rest _ Ew Hesp Hc1) as [-> Hrest]. rewrite bind_ret. cbv beta iota.
      split; [|lia]. exists (S k'), (dn ++ w), o2. split; [lia|]. split; [lia|]. split; [by rewrite emit_app|].
      split; [done|]. split; [done|]. by rewrite <- app_assoc.
    + apply fmap_Some in Hr as (o2 & Ho2 & ->). split; [|lia].
      exists (S k), (dn ++ [ch]), o2. split; [lia|]. split; [lia|]. split; [rewrite emit_app, u8_small by lia; done|].
      split; [done|]. split; [done|]. by rewrite <- app_assoc.
  - exists 0%nat, [], out. rewrite Z.add_0_r. split; [lia|]. by rewrite drop_0.
Qed.
End Formats.

(** The number conversions of [printf] send exactly the right characters,
    whatever the uninitialised local buffers hold: %d the signed decimal with
    a minus sign, %u the unsigned decimal, %x the hexadecimal digits and %#x the
    hexadecimal padded with zeros to eight digits. *)
Theorem printf_numbers_correct (junk : printf_junk) (text : mem) (c : con) (v : Z) (esp : list Z) :
  length (junk64 junk) = 64%nat -> length (junk36 junk) = 36%nat -> con_ok c -> 0 <= v < 4294967296 ->
  printf junk text (one_format false 100) 0 (v :: esp) c = Some (2, emit (signed (s32 v)) c) /\
  printf junk text (one_format false 117) 0 (v :: esp) c = Some (2, emit (number 10 v) c) /\
  printf junk text (one_format false 120) 0 (v :: esp) c = Some (2, emit (number 16 v) c) /\
  printf junk text (one_format true 120) 0 (v :: esp) c = Some (3, emit (hex8 v) c) /\
  length (hex8 v) = 8%nat.
Proof.
  intros H64 H36 Hc Hv. split_and!.
  - eapply (printf_one _ _ _ _ false); [by apply spec_d|done].
  - eapply (printf_one _ _ _ _ false); [by apply spec_u|done].
  - eapply (printf_one _ _ _ _ false); [by apply spec_x|done].
  - eapply (printf_one _ _ _ _ true); [by apply spec_hex8|done].
  - by apply hex8_length.
Qed.

Definition sample_junk : printf_junk := mkJunk (replicate 64 0x55) (replicate 36 0x55).

Lemma printf_numbers_correct_witness :
  printf sample_junk ∅ (one_format true 120) 0 [48879] sample_con
  = Some (3, emit [48; 48; 48; 48; 66; 69; 69; 70] sample_con).
Proof.
  destruct (printf_numbers_correct sample_junk ∅ sample_con 48879 []) as (_ & _ & _ & E & _).
  - done.
  - done.
  - apply sample_con_ok.
  - lia.
  - exact E.
Defined.

(** C33: [printf] writes exactly the text its format means, for every format
    and arguments that give it one: the characters of the format with each
    conversion replaced by the digits, the character or the string it stands
    for; whatever the uninitialised local buffers hold, one character after the
    other, within the terminal's page.  The result is the length of the format. *)
Theorem printf_correct {B : Type} `{CBufLaws B} (junk : printf_junk) (text : mem) (str : Z -> option (list Z))
  (fmt : B) (p : Z) (l args out : list Z) (c : con) :
  length (junk64 junk) = 64%nat -> length (junk36 junk) = 36%nat -> con_ok c ->
  (forall v s, str v = Some s -> cstr text v s /\ Z.of_nat (length s) < 4294967296) ->
  cstr fmt p l -> Z.of_nat (length l) < 4294967296 -> args_ok args -> render str None l args = Some out ->
  printf junk text fmt p args c = Some (Z.of_nat (length l), emit out c) /\ con_ok (emit out c) /\ draws c (emit out c).
Proof.
  intros H64 H36 Hc Hs Hl Hn Ha Hr. split; [by apply printf_render with (str := str)|]. split; [by apply emit_ok|by apply emit_draws].
Qed.

(** "%u: %#x%%" *)
Definition sample_format : list Z := [37; 117; 58; 32; 37; 35; 120; 37; 37].

Lemma printf_correct_witness :
  printf sample_junk ∅ (sample_format ++ [0]) 0 [14; 48879] sample_con
  = Some (9, emit [49; 52; 58; 32; 48; 48; 48; 48; 66; 69; 69; 70; 37] sample_con).
Proof.
  destruct (printf_correct sample_junk ∅ (fun _ => None) (sample_format ++ [0]) 0 sample_format [14; 48879]
    [49; 52; 58; 32; 48; 48; 48; 48; 66; 69; 69; 70; 37] sample_con) as (E & _).
  - done.
  - done.
  - apply sample_con_ok.
  - done.
  - split; [|done]. intros k ch E. pose proof (lookup_lt_Some _ _ _ E) as Hk. cbn [length sample_format] in Hk.
    rewrite Z.add_0_l. cbn [bget arr_buf]. rewrite arr_get_lookup, Nat2Z.id, lookup_app_l by (cbn; lia). split; [done|].
    assert (Hall : Forall (fun x => 0 < x < 256) sample_format) by (repeat constructor).
    rewrite Forall_lookup in Hall. by apply (Hall k).
  - done.
  - by repeat constructor.
  - by vm_compute.
  - exact E.
Defined.
