(* ===== verification/Rtc.v ===== *)
(** * The virtual real-time clock: student-distrib/rtc.c

    One hardware clock serves every open RTC descriptor.  A descriptor keeps,
    in the bit fields of its [inode], its frequency, its ratio to the system
    frequency and the ticks not yet read, and in its [pos] the hardware ticks
    left until its next tick.  The driver reaches descriptors and signals through
    pointers; the class [FileStore] states what it relies on, and the store of
    PCBs is an instance. *)
From stdpp Require Import base tactics list numbers gmap option.
From Stdlib Require Import ZArith Lia.
From S2P Require Import Prelude CLib Task.

Open Scope Z_scope.

(** ** Reaching descriptors *)

Class FileStore (St : Type) := {
  fs_get : St -> fptr -> option FILE;               (* *file *)
  fs_set : St -> fptr -> FILE -> option St;         (* *file = f *)
  st_signal : Z -> Z -> St -> option St             (* pcb->signals |= SIG_FLAG(s) *)
}.

Class FileStoreLaws (St : Type) `{FileStore St} := {
  fs_set_some : forall st fp f f0, fs_get st fp = Some f0 -> exists st', fs_set st fp f = Some st';
  fs_set_get : forall st fp f st' fp', fs_set st fp f = Some st' ->
    fs_get st' fp' = if decide (fp = fp') then Some f else fs_get st fp';
  st_signal_get : forall a s st st' fp, st_signal a s st = Some st' -> fs_get st' fp = fs_get st fp;
  st_signal_set : forall a s st st' fp f, fs_set st fp f = Some st' ->
    is_Some (st_signal a s st) -> is_Some (st_signal a s st');
  st_signal_signal : forall a s b s' st st', st_signal b s' st = Some st' ->
    is_Some (st_signal a s st) -> is_Some (st_signal a s st')
}.

#[export] Instance pcb_files : FileStore pcb_store := {
  fs_get := get_file;
  fs_set := set_file;
  st_signal a s st := p ← st !! a; Some (<[a := raise_signal s p]> st)
}.

Lemma pcb_signal_some a s (st : pcb_store) : is_Some (st_signal a s st) <-> is_Some (st !! a).
Proof.
  simpl. destruct (st !! a); simpl; split; intros [? [=]]; eauto.
Qed.

#[export] Instance pcb_files_laws : FileStoreLaws pcb_store.
Proof.
  split.
  - intros st fp f f0. apply set_file_Some.
  - apply set_file_get.
  - intros a s st st' [b i]. simpl. unfold get_file. simpl. destruct (st !! a) as [p|] eqn:E; simpl; [|done].
    intros [= <-]. destruct (decide (a = b)) as [->|].
    + by rewrite lookup_insert_eq, E.
    + by rewrite lookup_insert_ne.
  - intros a s st st' [b i] f E. rewrite !pcb_signal_some. simpl in E. unfold set_file in E. simpl in E.
    destruct (st !! b) as [q|] eqn:Eb; simpl in E; [|done].
    destruct (arr_set (open_files q) i f); simpl in E; [|done]. injection E as <-.
    destruct (decide (a = b)) as [->|]; [rewrite lookup_insert_eq; eauto|by rewrite lookup_insert_ne].
  - intros a s b s' st st' E. rewrite !pcb_signal_some. simpl in E.
    destruct (st !! b) as [q|] eqn:Eb; simpl in E; [|done]. injection E as <-.
    destruct (decide (a = b)) as [->|]; [rewrite lookup_insert_eq; eauto|by rewrite lookup_insert_ne].
Qed.

(** ** Constants and bit fields *)

Definition RTC_SYS_MAX_FREQ : Z := 8192.
Definition RTC_USER_MAX_FREQ : Z := 1024.
Definition RTC_USER_DEF_FREQ : Z := 2.
Definition RTC_ADDR_PORT : Z := 0x70.
Definition RTC_DATA_PORT : Z := 0x71.
Definition RTC_REG_B : Z := 0x8B.
Definition RTC_FREQ_SELECT : Z := 0x8A.
Definition SYS_COUNTER_MAX : Z := RTC_SYS_MAX_FREQ * 10.

Definition MSK_5 : Z := 0x1F.
Definition MSK_10 : Z := 0x3FF.
Definition RTC_FREQ_SHIFT : Z := 0.
Definition RTC_RATIO_SHIFT : Z := 5.
Definition RTC_COUNT_SHIFT : Z := 10.
Definition RTC_FREQ_MSK : Z := Z.shiftl MSK_5 RTC_FREQ_SHIFT.
Definition RTC_RATIO_MSK : Z := Z.shiftl MSK_5 RTC_RATIO_SHIFT.
Definition RTC_COUNT_MSK : Z := Z.shiftl MSK_10 RTC_COUNT_SHIFT.

Definition set_by_msk (dst msk src : Z) : Z := Z.lor (Z.land dst (Z.lnot msk)) (Z.land msk src).

Definition set_rtc_freq_field (inode freq : Z) : Z := set_by_msk inode RTC_FREQ_MSK (Z.shiftl freq RTC_FREQ_SHIFT).
Definition set_rtc_ratio_field (inode ratio : Z) : Z := set_by_msk inode RTC_RATIO_MSK (Z.shiftl ratio RTC_RATIO_SHIFT).
Definition set_rtc_count_field (inode count : Z) : Z := set_by_msk inode RTC_COUNT_MSK (Z.shiftl count RTC_COUNT_SHIFT).

Definition get_rtc_freq (inode : Z) : Z := Z.shiftr (Z.land inode RTC_FREQ_MSK) RTC_FREQ_SHIFT.
Definition get_rtc_ratio (inode : Z) : Z := Z.shiftr (Z.land inode RTC_RATIO_MSK) RTC_RATIO_SHIFT.
Definition get_rtc_count (inode : Z) : Z := Z.shiftr (Z.land inode RTC_COUNT_MSK) RTC_COUNT_SHIFT.

(** [get_target_count(sys_int_freq, target_int_freq)]: the divider between two
    power-of-two frequencies.  The shift is an [int]: past bit 31 it is
    undefined. *)
Definition get_target_count (sys_int_freq target_int_freq : Z) : option Z :=
  whileM (fun i =>
    if decide (31 <= i) then None
    else Some (if decide (s32 (Z.shiftl target_int_freq i) < sys_int_freq) then inl (i + 1)
               else inr (Z.shiftl 1 i))) 0.

(** ** The driver's globals *)

Record rtc_globals := mkRtc {
  sys_freq : Z;
  sys_freq_pow : Z;
  sys_counter_step : Z;
  time_elasped : list Z;                 (* MAX_PROC_NUM entries *)
  rtc_files : list (option fptr);        (* MAX_PROC_NUM entries *)
  rtc_ports : list (Z * Z)               (* writes to I/O ports: port, value *)
}.

Definition set_freq (f p step : Z) (g : rtc_globals) : rtc_globals :=
  mkRtc f p step (time_elasped g) (rtc_files g) (rtc_ports g).
Definition set_elapsed (l : list Z) (g : rtc_globals) : rtc_globals :=
  mkRtc (sys_freq g) (sys_freq_pow g) (sys_counter_step g) l (rtc_files g) (rtc_ports g).
Definition set_files (l : list (option fptr)) (g : rtc_globals) : rtc_globals :=
  mkRtc (sys_freq g) (sys_freq_pow g) (sys_counter_step g) (time_elasped g) l (rtc_ports g).
Definition rtc_outb (data port : Z) (g : rtc_globals) : rtc_globals :=
  mkRtc (sys_freq g) (sys_freq_pow g) (sys_counter_step g) (time_elasped g) (rtc_files g)
    (rtc_ports g ++ [(port, data)]).

(** Select register A and replace its rate nibble; [prev] is the value read
    from the device.  The argument of [outb] is a byte. *)
Definition write_rate (prev rate : Z) (g : rtc_globals) : rtc_globals :=
  rtc_outb (u8 (Z.lor (Z.land prev 0xF0) rate)) RTC_DATA_PORT
    (rtc_outb RTC_FREQ_SELECT RTC_ADDR_PORT (rtc_outb RTC_FREQ_SELECT RTC_ADDR_PORT g)).

(** [init_rtc()], after the IDT and PIC set-up; [prev_b], [prev_a] are the
    values read from registers B and A. *)
Definition init_rtc (prev_b prev_a : Z) (g : rtc_globals) : rtc_globals :=
  let g := rtc_outb RTC_REG_B RTC_ADDR_PORT g in
  let g := rtc_outb RTC_REG_B RTC_ADDR_PORT g in
  let g := rtc_outb (u8 (Z.lor prev_b 0x40)) RTC_DATA_PORT g in
  let g := write_rate prev_a 3 g in
  set_freq (Z.shiftl 1 1) 1 (RTC_SYS_MAX_FREQ / 2) g.

(** ** One descriptor *)

(** [reset_rtc_info(file, freq_pow)] *)
Definition reset_rtc_info (sys_pow freq_pow : Z) (file : FILE) : FILE :=
  let inode_val := set_rtc_freq_field 0 freq_pow in
  let inode_val := set_rtc_ratio_field inode_val (sys_pow - freq_pow) in
  let inode_val := set_rtc_count_field inode_val 0 in
  with_pos (Z.shiftl 1 (get_rtc_ratio inode_val)) (with_inode inode_val file).

(** The part of [rtc_isr] on one descriptor: count down, and on 0 add a tick
    (at most 32 are kept). *)
Definition tick_file (file : FILE) : FILE :=
  let file := with_pos (s32 (f_pos file - 1)) file in
  if decide (f_pos file <= 0) then
    let file := with_pos (Z.shiftl 1 (get_rtc_ratio (f_inode file))) file in
    let count := get_rtc_count (f_inode file) + 1 in
    let count := if decide (32 < count) then 32 else count in
    with_inode (set_rtc_count_field (f_inode file) count) file
  else file.

(** The power of two the source searches for: the least [p >= 1] with
    [freq <= 1 << p]. *)
Definition find_pow (freq : Z) : option Z :=
  whileM (fun p =>
    if decide (31 <= p) then None
    else Some (if decide (Z.shiftl 1 p < freq) then inl (p + 1) else inr p)) 1.

Section Driver.
Context {St : Type} `{FileStore St}.

(** The driver works on its globals and the store. *)
Abbreviation world := (rtc_globals * St)%type.

(** Update the descriptor a pointer refers to. *)
Definition modify (fp : fptr) (f : FILE -> FILE) (st : St) : option St :=
  file ← fs_get st fp; fs_set st fp (f file).

(** The loop of [rtc_set_pi_freq] over the open descriptors. *)
Definition reset_all (sys_pow : Z) (files : list (option fptr)) (st : St) : option St :=
  foldM (fun rtc st =>
    match rtc with
    | Some fp => modify fp (fun file => reset_rtc_info sys_pow (get_rtc_freq (f_inode file)) file) st
    | None => Some st
    end) files st.

(** [rtc_set_pi_freq(freq)]; [prev] is what register A reads as. *)
Definition rtc_set_pi_freq (prev freq : Z) '((g, st) : world) : option (Z * world) :=
  if decide (freq = sys_freq g) then Some (0, (g, st))
  else
    freq_pow ← find_pow freq;
    if decide (freq <> Z.shiftl 1 freq_pow) then Some (-1, (g, st))
    else
      let rtc_rate_val := 16 - freq_pow in
      let g := set_freq (Z.shiftl 1 freq_pow) freq_pow (Z.shiftr RTC_SYS_MAX_FREQ freq_pow) g in
      let g := write_rate prev (Z.land rtc_rate_val 0xF) g in
      st ← reset_all (sys_freq_pow g) (rtc_files g) st;
      Some (0, (g, st)).

(** [rtc_write(buf, length, file)]; [buf] is [None] for NULL, else the 32-bit
    word it points to. *)
Definition rtc_write (prev : Z) (buf : option Z) (len : Z) (fp : fptr) '((g, st) : world)
  : option (Z * world) :=
  match buf with
  | None => Some (-1, (g, st))
  | Some freq =>
      if decide (len < 4) then Some (-1, (g, st))
      else if decide (RTC_USER_MAX_FREQ < freq) then Some (-1, (g, st))
      else
        freq_pow ← find_pow freq;
        if decide (freq <> Z.shiftl 1 freq_pow) then Some (-1, (g, st))
        else if decide (sys_freq g < freq) then
          st ← modify fp (fun file => with_inode (set_rtc_freq_field (f_inode file) freq_pow) file) st;
          '(_, w) ← rtc_set_pi_freq prev freq (g, st);
          Some (0, w)
        else
          st ← modify fp (reset_rtc_info (sys_freq_pow g) freq_pow) st;
          Some (0, (g, st))
  end.

(** One iteration of [rtc_isr]; [cur] is the PCB [get_cur_pcb()] finds. *)
Definition isr_slot (cur i : Z) '((g, st) : world) : option world :=
  t ← arr_get (time_elasped g) i;
  let t := s32 (t + sys_counter_step g) in
  '(t, st) ← (if decide (SYS_COUNTER_MAX <= t) then st ← st_signal cur SIG_ALARM st; Some (0, st)
              else Some (t, st));
  l ← arr_set (time_elasped g) i t;
  let g := set_elapsed l g in
  cur_file ← arr_get (rtc_files g) i;
  match cur_file with
  | Some fp => st ← modify fp tick_file st; Some (g, st)
  | None => Some (g, st)
  end.

(** [rtc_isr()]: acknowledge register C, then every slot. *)
Definition rtc_isr (cur : Z) '((g, st) : world) : option world :=
  for_upM 0 MAX_PROC_NUM (isr_slot cur) (rtc_outb 0x0C RTC_ADDR_PORT g, st).

(** [rtc_read(buf, length, file)]: halt until a tick is pending, taking the
    interrupts [irqs], then consume it. *)
Fixpoint rtc_wait (fp : fptr) (irqs : list (world -> option world)) (w : world)
  : option (world * list (world -> option world)) :=
  let '(g, st) := w in
  file ← fs_get st fp;
  if decide (get_rtc_count (f_inode file) = 0) then
    match irqs with
    | [] => None
    | i :: rest => w ← i (g, st); rtc_wait fp rest w
    end
  else Some ((g, st), irqs).

Definition rtc_read (fp : fptr) (irqs : list (world -> option world)) (w : world)
  : option (Z * world * list (world -> option world)) :=
  '((g, st), irqs) ← rtc_wait fp irqs w;
  st ← modify fp (fun file =>
         let count := get_rtc_count (f_inode file) in
         if decide (1 <= count) then with_inode (set_rtc_count_field (f_inode file) (count - 1)) file
         else file) st;
  Some (0, (g, st), irqs).

(** [rtc_open(filename, file)].  With every slot taken the source halts the
    machine: [None]. *)
Definition rtc_open (fp : fptr) '((g, st) : world) : option (Z * world) :=
  freq_pow ← find_pow RTC_USER_DEF_FREQ;
  if decide (RTC_USER_DEF_FREQ <> Z.shiftl 1 freq_pow) then Some (-1, (g, st))
  else
    st ← modify fp (fun file =>
           with_type TASK_FILE_RTC (with_file_ops rtc_file_ops_table
             (reset_rtc_info (sys_freq_pow g) freq_pow file))) st;
    match for_break 0 MAX_PROC_NUM (fun i (_ : unit) =>
            match arr_get (rtc_files g) i with
            | Some None => inr (Some i)
            | Some (Some _) => inl tt
            | None => inr None
            end) tt with
    | inr (Some i) =>
        files ← arr_set (rtc_files g) i (Some fp);
        elapsed ← arr_set (time_elasped g) i 0;
        Some (0, (set_elapsed elapsed (set_files files g), st))
    | _ => None
    end.

(** The search of [rtc_close] for the fastest descriptor left.  Both variables
    are [uint32_t] and start at -1, that is 0xFFFFFFFF. *)
Definition close_search (files : list (option fptr)) (st : St) : option (Z * Z) :=
  for_upM 0 MAX_PROC_NUM (fun i '(max_i, max_freq) =>
    f ← arr_get files i;
    match f with
    | None => Some (max_i, max_freq)
    | Some fp =>
        file ← fs_get st fp;
        let tmp_freq := get_rtc_freq (f_inode file) in
        Some (if decide (max_freq < tmp_freq) then (i, tmp_freq) else (max_i, max_freq))
    end) (u32 (-1), u32 (-1)).

(** [rtc_close(file)] *)
Definition rtc_close (prev : Z) (fp : fptr) '((g, st) : world) : option (Z * world) :=
  let files := map (fun f => if decide (f = Some fp) then None else f) (rtc_files g) in
  let g := set_files files g in
  '(max_i, max_freq) ← close_search files st;
  if decide (max_i <> u32 (-1)) then rtc_set_pi_freq prev (s32 max_freq) (g, st)
  else Some (0, (g, st)).

End Driver.

(** ** Bit fields *)

(** The three fields of the source are such fields. *)
Lemma field_masks :
  RTC_FREQ_MSK = Z.shiftl (Z.ones 5) 0 /\ RTC_RATIO_MSK = Z.shiftl (Z.ones 5) 5 /\
  RTC_COUNT_MSK = Z.shiftl (Z.ones 10) 10.
Proof. done. Qed.

Lemma get_freq_bits n : get_rtc_freq n = bits 0 5 n.
Proof. done. Qed.
Lemma get_ratio_bits n : get_rtc_ratio n = bits 5 5 n.
Proof. done. Qed.
Lemma get_count_bits n : get_rtc_count n = bits 10 10 n.
Proof. done. Qed.
Lemma set_freq_bits n v : set_rtc_freq_field n v = with_bits 0 5 v n.
Proof. done. Qed.
Lemma set_ratio_bits n v : set_rtc_ratio_field n v = with_bits 5 5 v n.
Proof. done. Qed.
Lemma set_count_bits n v : set_rtc_count_field n v = with_bits 10 10 v n.
Proof. done. Qed.

Create Rewrite HintDb rtc.
#[export] Hint Rewrite get_freq_bits get_ratio_bits get_count_bits set_freq_bits set_ratio_bits set_count_bits : rtc.
#[export] Hint Rewrite bits_set_same bits_set_other bits_zero using (cbn; lia) : rtc.

Lemma reset_fields sys p file :
  0 <= p < 32 -> 0 <= sys - p < 32 ->
  let f := reset_rtc_info sys p file in
  get_rtc_freq (f_inode f) = p /\ get_rtc_ratio (f_inode f) = sys - p /\ get_rtc_count (f_inode f) = 0 /\
  f_pos f = 2 ^ (sys - p).
Proof.
  intros Hp Hs. unfold reset_rtc_info. simpl. autorewrite with rtc.
  split_and!; try done. by rewrite Z.shiftl_1_l.
Qed.

(** ** One descriptor under the clock *)

(** A well-formed descriptor under a system frequency of [2^sp]. *)
Record file_ok (sp : Z) (f : FILE) : Prop := {
  fo_freq : 1 <= get_rtc_freq (f_inode f) <= 10;
  fo_sys : get_rtc_freq (f_inode f) <= sp;
  fo_ratio : get_rtc_ratio (f_inode f) = sp - get_rtc_freq (f_inode f);
  fo_count : get_rtc_count (f_inode f) <= 32;
  fo_pos : 1 <= f_pos f <= 2 ^ get_rtc_ratio (f_inode f)
}.

Lemma count_nonneg n : 0 <= get_rtc_count n.
Proof. rewrite get_count_bits. apply (bits_range 10 10 n); lia. Qed.

Lemma pow_le_1024 r : 0 <= r <= 10 -> 1 <= 2 ^ r <= 1024.
Proof. intros Hr. pose proof (Z.pow_le_mono_r 2 0 r). pose proof (Z.pow_le_mono_r 2 r 10). lia. Qed.

Lemma reset_ok sp p f : 1 <= p <= 10 -> p <= sp <= 10 -> file_ok sp (reset_rtc_info sp p f).
Proof.
  intros Hp Hs. destruct (reset_fields sp p f) as (E1 & E2 & E3 & E4); [lia|lia|].
  pose proof (pow_le_1024 (sp - p) ltac:(lia)).
  split; rewrite ?E1, ?E2, ?E3, ?E4; lia.
Qed.

(** What an interrupt does to a descriptor's fields. *)
Lemma tick_fields sp f :
  file_ok sp f -> sp <= 10 ->
  let f' := tick_file f in
  get_rtc_freq (f_inode f') = get_rtc_freq (f_inode f) /\
  get_rtc_ratio (f_inode f') = get_rtc_ratio (f_inode f) /\
  (if decide (f_pos f = 1)
   then f_pos f' = 2 ^ get_rtc_ratio (f_inode f) /\
        get_rtc_count (f_inode f') = Z.min 32 (get_rtc_count (f_inode f) + 1)
   else f_pos f' = f_pos f - 1 /\ get_rtc_count (f_inode f') = get_rtc_count (f_inode f)).
Proof.
  intros [H1 H2 H3 H4 H5] Hs. pose proof (pow_le_1024 (get_rtc_ratio (f_inode f)) ltac:(lia)).
  pose proof (count_nonneg (f_inode f)). unfold tick_file. simpl. rewrite s32_small by lia.
  destruct (decide (f_pos f = 1)) as [E|E].
  - rewrite decide_True by lia. simpl.
    replace (if decide (32 < get_rtc_count (f_inode f) + 1) then 32 else get_rtc_count (f_inode f) + 1)
      with (Z.min 32 (get_rtc_count (f_inode f) + 1)) by (case_decide; lia).
    set (cnt := Z.min 32 _). assert (0 <= cnt < 2 ^ 10) by (subst cnt; cbn; lia).
    autorewrite with rtc. split_and!; try done. by rewrite Z.shiftl_1_l.
  - rewrite decide_False by lia. done.
Qed.

Lemma tick_ok sp f : file_ok sp f -> sp <= 10 -> file_ok sp (tick_file f).
Proof.
  intros Hf Hs. destruct (tick_fields sp f Hf Hs) as (E1 & E2 & E3). destruct Hf as [H1 H2 H3 H4 H5].
  pose proof (pow_le_1024 (get_rtc_ratio (f_inode f)) ltac:(lia)).
  split; rewrite ?E1, ?E2; try lia; case_decide; lia.
Qed.

(** [k] interrupts after the descriptor was set, with [pos] at its ratio. *)
Lemma ticks_spec sp f k :
  file_ok sp f -> sp <= 10 -> f_pos f = 2 ^ get_rtc_ratio (f_inode f) -> get_rtc_count (f_inode f) = 0 ->
  let r := get_rtc_ratio (f_inode f) in
  let f' := Nat.iter k tick_file f in
  file_ok sp f' /\ get_rtc_ratio (f_inode f') = r /\
  get_rtc_count (f_inode f') = Z.min 32 (Z.of_nat k / 2 ^ r) /\
  f_pos f' = 2 ^ r - Z.of_nat k mod 2 ^ r.
Proof.
  intros Hf Hs Hp Hc r. pose proof Hf as [H1 H2 H3 H4 H5]. fold r in H3.
  pose proof (pow_le_1024 r ltac:(lia)) as Hr. induction k as [|k IH]; simpl.
  - change (Z.of_nat 0) with 0. rewrite Z.div_0_l, Z.mod_0_l by lia. split_and!; [done|done|lia|]. fold r in Hp. lia.
  - destruct IH as (Hf' & Er & Ec & Ep). destruct (tick_fields sp _ Hf' Hs) as (_ & E2 & E3).
    split; [by apply tick_ok|]. split; [by rewrite E2|]. rewrite Er in E3.
    rewrite Nat2Z.inj_succ, <- Z.add_1_r.
    set (n := Z.of_nat k) in *. set (m := 2 ^ r) in *.
    pose proof (Z.div_mod n m ltac:(lia)). pose proof (Z.mod_pos_bound n m ltac:(lia)).
    case_decide as D.
    + assert (Hm : n mod m = m - 1) by lia.
      assert (E : (n + 1) / m = n / m + 1) by (symmetry; apply (Z.div_unique_pos _ _ _ 0); lia).
      assert (E' : (n + 1) mod m = 0) by (symmetry; apply (Z.mod_unique_pos _ _ (n / m + 1)); lia).
      destruct E3 as [-> ->]. rewrite Ec, E, E'. lia.
    + assert (E : (n + 1) / m = n / m) by (symmetry; apply (Z.div_unique_pos _ _ _ (n mod m + 1)); lia).
      assert (E' : (n + 1) mod m = n mod m + 1) by (symmetry; apply (Z.mod_unique_pos _ _ (n / m)); lia).
      destruct E3 as [-> ->]. rewrite Ec, E, E'. lia.
Qed.

(** ** The power-of-two search *)

Lemma find_pow_spec freq :
  freq <= 1024 -> exists p, find_pow freq = Some p /\ 1 <= p <= 10 /\ freq <= 2 ^ p /\ (p = 1 \/ 2 ^ (p - 1) < freq).
Proof.
  intros Hf. unfold find_pow.
  match goal with |- context [whileM ?f ?st] => destruct (whileM_total
    (fun p => 1 <= p <= 10 /\ (p = 1 \/ 2 ^ (p - 1) < freq)) (fun p => 30 - p)
    (fun p => 1 <= p <= 10 /\ freq <= 2 ^ p /\ (p = 1 \/ 2 ^ (p - 1) < freq)) f st) as (p & E & Hp) end.
  - intros p [Hp Hl]. rewrite decide_False by lia. rewrite Z.shiftl_1_l.
    destruct (decide (2 ^ p < freq)) as [D|D]; [|split_and!; [lia|lia|lia|done]].
    assert (p <> 10) by (intros ->; cbn in D; lia).
    split; [|lia]. split; [lia|]. right. by replace (p + 1 - 1) with p by lia.
  - split; [lia|by left].
  - unfold FUEL. lia.
  - eauto.
Qed.

(** The test that follows it accepts exactly the powers of two from 2. *)
Lemma find_pow_exact freq p :
  freq <= 1024 -> find_pow freq = Some p -> (freq = 2 ^ p <-> exists k, 1 <= k <= 10 /\ freq = 2 ^ k).
Proof.
  intros Hf E. destruct (find_pow_spec freq Hf) as (p' & E' & Hp & Hle & Hlt). simplify_eq.
  split; [eauto|]. intros (k & Hk & ->).
  assert (k <= p). { apply (Z.pow_le_mono_r_iff 2); lia. }
  destruct Hlt as [->|Hlt]; [f_equal; lia|]. assert (p - 1 < k) by (apply (Z.pow_lt_mono_r_iff 2); lia).
  f_equal. lia.
Qed.

Lemma find_pow_of k : 1 <= k <= 10 -> find_pow (2 ^ k) = Some k.
Proof.
  intros Hk. pose proof (pow_le_1024 k ltac:(lia)).
  destruct (find_pow_spec (2 ^ k)) as (p & E & Hp & _); [lia|].
  assert (2 ^ k = 2 ^ p) as E2 by (apply (find_pow_exact _ p); [lia|done|eauto]).
  rewrite E. f_equal. symmetry. by apply (Z.pow_inj_r 2); [lia..|].
Qed.

(** ** The invariant of the driver *)

Section Proofs.
Context {St : Type} `{FileStoreLaws St}.

Abbreviation world := (rtc_globals * St)%type.

(** The descriptors in use. *)
Definition registered (g : rtc_globals) : list fptr := omap id (rtc_files g).

Record rtc_inv (w : world) : Prop := {
  ri_pow : 1 <= sys_freq_pow w.1 <= 10;
  ri_freq : sys_freq w.1 = 2 ^ sys_freq_pow w.1;
  ri_step : sys_counter_step w.1 = 2 ^ (13 - sys_freq_pow w.1);
  ri_times : length (time_elasped w.1) = Z.to_nat MAX_PROC_NUM;
  ri_time : forall i t, time_elasped w.1 !! i = Some t -> 0 <= t < SYS_COUNTER_MAX /\ (sys_counter_step w.1 | t);
  ri_slots : length (rtc_files w.1) = Z.to_nat MAX_PROC_NUM;
  ri_distinct : NoDup (registered w.1);
  ri_file : forall fp, fp ∈ registered w.1 -> exists f, fs_get w.2 fp = Some f /\ file_ok (sys_freq_pow w.1) f
}.

Lemma elem_registered g fp : fp ∈ registered g <-> Some fp ∈ rtc_files g.
Proof.
  unfold registered. rewrite list_elem_of_omap. split; [intros (x & Hx & E); simpl in E; by subst|by exists (Some fp)].
Qed.

(** The store with [h] applied to the descriptors satisfying [P]. *)
Definition store_map (P : fptr -> Prop) `{forall fp, Decision (P fp)} (h : FILE -> FILE) (st st' : St) : Prop :=
  forall fp, fs_get st' fp = if decide (P fp) then h <$> fs_get st fp else fs_get st fp.

Lemma modify_spec fp h st f :
  fs_get st fp = Some f -> exists st', modify fp h st = Some st' /\ store_map (eq fp) h st st' /\
    (forall a s, is_Some (st_signal a s st) -> is_Some (st_signal a s st')).
Proof.
  intros E. unfold modify. rewrite E, bind_ret. destruct (fs_set_some st fp (h f) f E) as [st' E'].
  exists st'. split; [done|]. split; [|intros a s; by apply (st_signal_set a s st st' fp (h f))].
  intros fp'. rewrite (fs_set_get _ _ _ _ _ E').
  case_decide as D; [|done]. rewrite <- D, E. done.
Qed.

Lemma store_map_get P `{forall fp, Decision (P fp)} h st st' fp f :
  store_map P h st st' -> fs_get st fp = Some f -> fs_get st' fp = Some (if decide (P fp) then h f else f).
Proof. intros M E. rewrite (M fp), E. by case_decide. Qed.

(** The loop of [rtc_set_pi_freq] resets every descriptor in use. *)
Lemma reset_all_spec sp files st :
  NoDup (omap id files) -> (forall fp, Some fp ∈ files -> is_Some (fs_get st fp)) ->
  exists st', reset_all sp files st = Some st' /\
    store_map (fun fp => Some fp ∈ files) (fun f => reset_rtc_info sp (get_rtc_freq (f_inode f)) f) st st' /\
    (forall a s, is_Some (st_signal a s st) -> is_Some (st_signal a s st')).
Proof.
  unfold reset_all. revert st. induction files as [|[fp|] l IH]; intros st Hnd Hex.
  - exists st. split; [done|]. split; [|done]. intros fp. rewrite decide_False by set_solver. done.
  - apply list.NoDup_cons in Hnd as [Hni Hnd]. simpl in Hni.
    destruct (Hex fp) as [f Ef]; [set_solver|]. rewrite foldM_cons.
    destruct (modify_spec fp (fun file => reset_rtc_info sp (get_rtc_freq (f_inode file)) file) st f Ef)
      as (st1 & -> & M1 & S1). rewrite bind_ret.
    destruct (IH st1) as (st2 & -> & M2 & S2); [done| |].
    { intros fp' Hin. rewrite (M1 fp'). destruct (Hex fp') as [f' ->]; [set_solver|]. case_decide; eauto. }
    exists st2. split; [done|]. split; [|eauto]. intros fp'. rewrite (M2 fp'), (M1 fp').
    destruct (decide (fp = fp')) as [<-|Hne].
    + rewrite decide_False; [|intros Hin; apply Hni, list_elem_of_omap; eauto].
      rewrite (decide_True (P := Some fp ∈ _)) by set_solver. done.
    + destruct (decide (Some fp' ∈ l)); [rewrite decide_True by set_solver|rewrite decide_False by set_solver]; done.
  - rewrite foldM_cons, bind_ret. destruct (IH st) as (st' & -> & M & S); [done|set_solver|].
    exists st'. split; [done|]. split; [|done]. intros fp'. rewrite (M fp').
    destruct (decide (Some fp' ∈ l)); [rewrite decide_True by set_solver|rewrite decide_False by set_solver]; done.
Qed.
Lemma world_files g st fp :
  rtc_inv (g, st) -> Some fp ∈ rtc_files g -> exists f, fs_get st fp = Some f /\ file_ok (sys_freq_pow g) f.
Proof. intros I Hin. apply (ri_file _ I). by apply elem_registered. Qed.

(** The step divides the ten-second count. *)
Lemma step_facts p : 1 <= p <= 10 ->
  0 < 2 ^ (13 - p) <= 4096 /\ (2 ^ (13 - p) | SYS_COUNTER_MAX).
Proof.
  intros Hp. split.
  - pose proof (Z.pow_pos_nonneg 2 (13 - p) ltac:(lia) ltac:(lia)).
    pose proof (Z.pow_le_mono_r 2 (13 - p) 12 ltac:(lia) ltac:(lia)). change (2 ^ 12) with 4096 in *. lia.
  - exists (2 ^ p * 10). unfold SYS_COUNTER_MAX, RTC_SYS_MAX_FREQ. change 8192 with (2 ^ 13).
    replace 13 with (p + (13 - p)) at 1 by lia. rewrite Z.pow_add_r by lia. lia.
Qed.

Lemma step_divides p q : 1 <= q <= p -> p <= 10 -> (2 ^ (13 - p) | 2 ^ (13 - q)).
Proof.
  intros Hq Hp. exists (2 ^ (p - q)). rewrite <- Z.pow_add_r by lia. f_equal. lia.
Qed.

(** Raising the system frequency to [2^k] re-bases every descriptor in use. *)
Lemma set_pi_freq_spec prev k g st0 st :
  rtc_inv (g, st0) -> sys_freq_pow g < k <= 10 ->
  (forall fp, Some fp ∈ rtc_files g -> exists f, fs_get st fp = Some f /\ 1 <= get_rtc_freq (f_inode f) <= k) ->
  exists g' st',
    rtc_set_pi_freq prev (2 ^ k) (g, st) = Some (0, (g', st')) /\ rtc_inv (g', st') /\
    sys_freq_pow g' = k /\ rtc_files g' = rtc_files g /\ time_elasped g' = time_elasped g /\
    (exists v, rtc_ports g' = rtc_ports g ++ [(RTC_ADDR_PORT, RTC_FREQ_SELECT); (RTC_ADDR_PORT, RTC_FREQ_SELECT);
                                              (RTC_DATA_PORT, v)] /\ Z.land v 15 = 16 - k) /\
    store_map (fun fp => Some fp ∈ rtc_files g) (fun f => reset_rtc_info k (get_rtc_freq (f_inode f)) f) st st' /\
    (forall a s, is_Some (st_signal a s st) -> is_Some (st_signal a s st')).
Proof.
  intros I Hk Hfiles. pose proof (ri_pow _ I) as Hp. simpl in Hp.
  unfold rtc_set_pi_freq. rewrite decide_False.
  2:{ pose proof (ri_freq _ I) as Ef. simpl in Ef. rewrite Ef. intros E. apply (Z.pow_inj_r 2) in E; lia. }
  rewrite (find_pow_of k), bind_ret, decide_False by (rewrite ?Z.shiftl_1_l; lia). cbv zeta.
  set (g' := write_rate _ _ _).
  assert (Eg : rtc_files g' = rtc_files g /\ sys_freq_pow g' = k /\ time_elasped g' = time_elasped g) by done.
  destruct Eg as (Ef & Ep & Et). rewrite Ef, Ep.
  destruct (reset_all_spec k (rtc_files g) st (ri_distinct _ I)) as (st' & -> & M & S).
  { intros fp Hin. destruct (Hfiles fp Hin) as (f & -> & _). eauto. }
  rewrite bind_ret. exists g', st'. split; [done|]. split_and!; try done.
  - destruct (step_facts k ltac:(lia)) as [Hs _].
    split; simpl; rewrite ?Ep, ?Et.
    + lia.
    + subst g'. simpl. by rewrite Z.shiftl_1_l.
    + subst g'. simpl. unfold RTC_SYS_MAX_FREQ. change 8192 with (2 ^ 13).
      rewrite Z.shiftr_div_pow2 by lia. rewrite <- Z.pow_sub_r by lia. done.
    + apply (ri_times _ I).
    + intros i t Ht. destruct (ri_time _ I i t Ht) as [Hr Hd]. split; [done|].
      pose proof (ri_step _ I) as Es. simpl in Es, Hd. rewrite Es in Hd. subst g'. simpl.
      unfold RTC_SYS_MAX_FREQ. change 8192 with (2 ^ 13).
      rewrite Z.shiftr_div_pow2, <- Z.pow_sub_r by lia.
      eapply Z.divide_trans; [|exact Hd]. by apply step_divides; lia.
    + apply (ri_slots _ I).
    + apply (ri_distinct _ I).
    + intros fp Hin. apply elem_registered in Hin. rewrite Ef in Hin.
      destruct (Hfiles fp Hin) as (f & E & Hf). rewrite (store_map_get _ _ _ _ _ _ M E), decide_True by done.
      eexists. split; [done|]. apply reset_ok; lia.
  - exists (u8 (Z.lor (Z.land prev 240) (Z.land (16 - k) 15))). subst g'. simpl. rewrite <- !app_assoc. split; [done|].
    unfold u8. change 256 with (2 ^ 8). rewrite <- Z.land_ones by lia.
    apply Z.bits_inj'. intros i Hi. rewrite !Z.land_spec, Z.lor_spec, !Z.land_spec.
    assert (C : i = 0 \/ i = 1 \/ i = 2 \/ i = 3 \/ 4 <= i) by lia.
    destruct C as [->|[->|[->|[->|C]]]]; simpl; rewrite ?andb_false_r, ?andb_true_r, ?orb_false_l; try done.
    change 15 with (Z.ones 4). rewrite Z.ones_spec_high by lia. rewrite andb_false_r.
    by rewrite (testbit_above (16 - k) 4) by lia.
Qed.
Lemma modify_inv g st fp h f st' :
  rtc_inv (g, st) -> fs_get st fp = Some f ->
  (Some fp ∈ rtc_files g -> file_ok (sys_freq_pow g) (h f)) ->
  store_map (eq fp) h st st' -> rtc_inv (g, st').
Proof.
  intros I E Hh M. destruct I as [I1 I2 I3 I4 I5 I6 I7 I8]. split; try assumption.
  intros fp' Hin. destruct (I8 fp' Hin) as (f' & E' & Hf'). simpl in *.
  rewrite (store_map_get _ _ _ _ _ _ M E'). eexists; split; [done|].
  case_decide as D; [|done]. subst fp'. rewrite E in E'. injection E' as <-.
  apply Hh. by apply elem_registered.
Qed.

(** ** Interrupts *)

Lemma isr_slot_spec cur g st i :
  rtc_inv (g, st) -> 0 <= i < MAX_PROC_NUM -> is_Some (st_signal cur SIG_ALARM st) ->
  exists t cur_file st',
    time_elasped g !! Z.to_nat i = Some t /\ rtc_files g !! Z.to_nat i = Some cur_file /\
    isr_slot cur i (g, st)
    = Some (set_elapsed (<[Z.to_nat i := (t + sys_counter_step g) mod SYS_COUNTER_MAX]> (time_elasped g)) g, st') /\
    store_map (fun fp => cur_file = Some fp) tick_file st st' /\ is_Some (st_signal cur SIG_ALARM st').
Proof.
  intros I Hi Hsig. destruct I as [I1 I2 I3 I4 I5 I6 I7 I8]. simpl in *.
  destruct (lookup_lt_is_Some_2 (time_elasped g) (Z.to_nat i)) as [t Et]; [lia|].
  destruct (lookup_lt_is_Some_2 (rtc_files g) (Z.to_nat i)) as [cf Ef]; [lia|].
  destruct (I5 _ _ Et) as [Ht Hd]. destruct (step_facts (sys_freq_pow g) I1) as [Hs HdM].
  rewrite <- I3 in Hs, HdM. set (step := sys_counter_step g) in *.
  assert (Hle : t + step <= SYS_COUNTER_MAX).
  { destruct Hd as [a Ha], HdM as [b Hb]. assert (a < b) by nia. nia. }
  assert (Hbound : SYS_COUNTER_MAX = 81920) by done.
  assert (Hmod : (t + step) mod SYS_COUNTER_MAX
                 = if decide (SYS_COUNTER_MAX <= t + step) then 0 else t + step).
  { case_decide; [replace (t + step) with SYS_COUNTER_MAX by lia; by rewrite Z_mod_same_full|by rewrite Z.mod_small by lia]. }
  exists t, cf. unfold isr_slot. fold step. rewrite (arr_get_lookup (time_elasped g)), Et, bind_ret by lia.
  cbv zeta. rewrite s32_small by lia.
  assert (exists st1, (if decide (SYS_COUNTER_MAX <= t + step)
      then st ← st_signal cur SIG_ALARM st; Some (0, st) else Some (t + step, st)) = Some ((t + step) mod SYS_COUNTER_MAX, st1)
      /\ (forall fp, fs_get st1 fp = fs_get st fp) /\ is_Some (st_signal cur SIG_ALARM st1)) as (st1 & -> & Eg & Hsig1).
  { rewrite Hmod. case_decide; [|by exists st].
    destruct Hsig as [st1 E1]. exists st1. rewrite E1, bind_ret. split; [done|]. split.
    - intros fp. by apply (st_signal_get cur SIG_ALARM).
    - eapply st_signal_signal; eauto. }
  rewrite bind_ret, arr_set_Some, bind_ret by lia. cbv zeta. simpl rtc_files.
  rewrite arr_get_lookup by lia. rewrite Ef, bind_ret.
  destruct cf as [fp|].
  - destruct (I8 fp) as (f & Hf & _). { apply elem_registered. simpl. by apply (list_elem_of_lookup_2 _ (Z.to_nat i)). }
    simpl in Hf. rewrite <- Eg in Hf. destruct (modify_spec fp tick_file st1 f Hf) as (st2 & -> & M & S).
    exists st2. rewrite bind_ret. split_and!; try done; try by apply S. intros fp'. rewrite (M fp'), !Eg.
    destruct (decide (fp = fp')), (decide (Some fp = Some fp')); congruence.
  - exists st1. by split_and!.
Qed.

(** Ticking keeps the invariant of the store. *)
Lemma tick_inv g st l (P : fptr -> Prop) `{forall fp, Decision (P fp)} st' :
  rtc_inv (g, st) -> store_map P tick_file st st' -> length l = Z.to_nat MAX_PROC_NUM ->
  (forall i t, l !! i = Some t -> 0 <= t < SYS_COUNTER_MAX /\ (sys_counter_step g | t)) ->
  rtc_inv (set_elapsed l g, st').
Proof.
  intros [I1 I2 I3 I4 I5 I6 I7 I8] M Hl Ht. split; try assumption.
  intros fp Hin. destruct (I8 fp Hin) as (f & E & Hf). simpl in *.
  rewrite (store_map_get _ _ _ _ _ _ M E). eexists; split; [done|]. case_decide; [|done].
  apply tick_ok; [done|lia].
Qed.

Lemma time_step g st t :
  rtc_inv (g, st) -> 0 <= t < SYS_COUNTER_MAX -> (sys_counter_step g | t) ->
  0 <= (t + sys_counter_step g) mod SYS_COUNTER_MAX < SYS_COUNTER_MAX /\
  (sys_counter_step g | (t + sys_counter_step g) mod SYS_COUNTER_MAX).
Proof.
  intros I Ht Hd. destruct (step_facts (sys_freq_pow g) (ri_pow _ I)) as [_ HdM].
  pose proof (ri_step _ I) as Es. simpl in Es. rewrite <- Es in HdM.
  split; [by apply Z.mod_pos_bound|]. rewrite Z.mod_eq by done.
  apply Z.divide_sub_r; [by apply Z.divide_add_r; [|apply Z.divide_refl]|]. by apply Z.divide_mul_l.
Qed.

Definition ticked (g : rtc_globals) (t : Z) : Z := (t + sys_counter_step g) mod SYS_COUNTER_MAX.

(** One interrupt: every timer advances, every descriptor in use ticks. *)
Lemma rtc_isr_spec cur g st :
  rtc_inv (g, st) -> is_Some (st_signal cur SIG_ALARM st) ->
  exists g' st',
    rtc_isr cur (g, st) = Some (g', st') /\ rtc_inv (g', st') /\ is_Some (st_signal cur SIG_ALARM st') /\
    sys_freq_pow g' = sys_freq_pow g /\ rtc_files g' = rtc_files g /\ sys_counter_step g' = sys_counter_step g /\
    time_elasped g' = ticked g <$> time_elasped g /\
    store_map (fun fp => Some fp ∈ rtc_files g) tick_file st st'.
Proof.
  intros I Hsig. unfold rtc_isr. set (g0 := rtc_outb _ _ g).
  destruct (for_upM_ind (fun i '(g', st') =>
    g' = set_elapsed ((ticked g <$> take (Z.to_nat i) (time_elasped g)) ++ drop (Z.to_nat i) (time_elasped g)) g0 /\
    rtc_inv (g', st') /\
    is_Some (st_signal cur SIG_ALARM st') /\
    store_map (fun fp => Some fp ∈ take (Z.to_nat i) (rtc_files g)) tick_file st st')
    0 MAX_PROC_NUM (isr_slot cur) (g0, st)) as ([g' st'] & E & Eg & I' & Hs' & M).
  - done.
  - split_and!; try done.
    destruct I; by split.
  - intros i [g' st'] Hi (Eg & I' & Hs' & M).
    destruct (isr_slot_spec cur g' st' i I' Hi Hs') as (t & cf & st2 & Et & Ef & -> & M2 & Hs2).
    eexists; split; [done|]. cbv beta iota.
    pose proof (ri_times _ I) as Lt. pose proof (ri_slots _ I) as Lf. simpl in Lt, Lf.
    assert (Es : sys_counter_step g' = sys_counter_step g) by (by subst g').
    assert (Er : rtc_files g' = rtc_files g) by (by subst g').
    rewrite Es. rewrite Er in Ef. unfold MAX_PROC_NUM in *.
    replace (Z.to_nat (i + 1)) with (S (Z.to_nat i)) by lia.
    assert (Et' : time_elasped g !! Z.to_nat i = Some t).
    { rewrite Eg in Et. simpl in Et. rewrite lookup_app_r in Et by (rewrite length_fmap, length_take; lia).
      rewrite lookup_drop, length_fmap, length_take in Et. rewrite <- Et. f_equal. lia. }
    assert (Ht : 0 <= t < SYS_COUNTER_MAX /\ (sys_counter_step g | t)) by apply (ri_time _ I (Z.to_nat i) t Et').
    split_and!.
    + rewrite Eg. simpl. unfold set_elapsed. simpl. f_equal.
      rewrite (take_S_r _ _ t), fmap_app, <- app_assoc by done. simpl.
      rewrite (drop_S _ t) by done.
      rewrite insert_app_r_alt by (rewrite length_fmap, length_take; lia).
      rewrite length_fmap, length_take, (Nat.min_l (Z.to_nat i)) by lia. by rewrite Nat.sub_diag.
    + apply (tick_inv g' st' _ (fun fp => cf = Some fp)); [done|done| |].
      * rewrite length_insert. apply (ri_times _ I').
      * intros j u Hu. apply list_lookup_insert_Some in Hu as [(<- & <- & _)|[_ Hu]].
        -- rewrite Es. apply (time_step g st); [done|apply Ht..].
        -- by apply (ri_time _ I' j u).
    + done.
    + intros fp. rewrite (M2 fp), (M fp), (take_S_r _ _ cf) by done.
      pose proof (ri_distinct _ I) as Hnd. unfold registered in Hnd. simpl in Hnd.
      rewrite <- (take_drop_middle _ _ _ Ef), omap_app in Hnd. apply list.NoDup_app in Hnd as (_ & Hnd & _).
      destruct (decide (cf = Some fp)) as [->|Hne].
      * rewrite decide_False. 2:{ intros Hin. apply (Hnd fp); [|simpl; by left]. apply list_elem_of_omap. by exists (Some fp). }
        by rewrite (decide_True (P := Some fp ∈ _ ++ _)) by set_solver.
      * destruct (decide (Some fp ∈ take (Z.to_nat i) (rtc_files g)));
        [rewrite (decide_True (P := Some fp ∈ _ ++ _)) by set_solver
        |rewrite (decide_False (P := Some fp ∈ _ ++ _)) by set_solver]; done.
  - exists g', st'. pose proof (ri_times _ I) as Lt. pose proof (ri_slots _ I) as Lf. simpl in Lt, Lf.
    rewrite <- Lt, <- Lf in *. rewrite !take_ge, drop_ge, app_nil_r in * by lia.
    split_and!; try done; by subst g'.
Qed.
Lemma iter_mod t s n M : 0 < M -> 0 <= t < M ->
  Nat.iter n (fun t => (t + s) mod M) t = (t + Z.of_nat n * s) mod M.
Proof.
  intros HM Ht. induction n as [|n IH].
  - simpl. by rewrite Z.add_0_r, Z.mod_small by lia.
  - rewrite Nat.iter_succ, IH, Zplus_mod_idemp_l. f_equal. lia.
Qed.

(** [n] interrupts in a row. *)
Definition isrs (cur : Z) (n : nat) (w : world) : option world := Nat.iter n (fun o => o ≫= rtc_isr cur) (Some w).

Lemma isrs_spec cur n g st :
  rtc_inv (g, st) -> is_Some (st_signal cur SIG_ALARM st) ->
  exists g' st', isrs cur n (g, st) = Some (g', st') /\ rtc_inv (g', st') /\ is_Some (st_signal cur SIG_ALARM st') /\
    sys_freq_pow g' = sys_freq_pow g /\ rtc_files g' = rtc_files g /\ sys_counter_step g' = sys_counter_step g /\
    time_elasped g' = Nat.iter n (ticked g) <$> time_elasped g /\
    store_map (fun fp => Some fp ∈ rtc_files g) (Nat.iter n tick_file) st st'.
Proof.
  intros I Hs. induction n as [|n IH].
  - exists g, st. split_and!; try done; simpl.
    + by rewrite list_fmap_id.
    + intros fp. destruct (fs_get st fp); by case_decide.
  - destruct IH as (g1 & st1 & E & I1 & Hs1 & Ep & Ef & Est & Et & M).
    destruct (rtc_isr_spec cur g1 st1 I1 Hs1) as (g2 & st2 & E2 & I2 & Hs2 & Ep2 & Ef2 & Est2 & Et2 & M2).
    exists g2, st2. unfold isrs in *. rewrite Nat.iter_succ, E, bind_ret.
    split_and!; try done; try congruence.
    + rewrite Et2, Et, <- list_fmap_compose. apply list_fmap_ext. intros _ x _. simpl.
      unfold ticked. by rewrite Est.
    + intros fp. rewrite (M2 fp), (M fp), Ef. destruct (decide (Some fp ∈ rtc_files g)); [|done].
      by destruct (fs_get st fp).
Qed.

(** C26: every open descriptor is a clock of its own rate.  [n] interrupts
    after a descriptor was configured, it has accumulated one tick per
    2^(system power - own power) interrupts, up to the 32 that are kept; with
    the hardware at 2^(system power) Hz this is its own frequency.  The alarm
    timers have advanced by [n] steps, modulo ten seconds, and the driver's
    invariant holds again. *)
Theorem rtc_ticks_correct cur n g st fp f :
  rtc_inv (g, st) -> is_Some (st_signal cur SIG_ALARM st) ->
  Some fp ∈ rtc_files g -> fs_get st fp = Some f ->
  get_rtc_count (f_inode f) = 0 -> f_pos f = 2 ^ get_rtc_ratio (f_inode f) ->
  exists g' st' f', isrs cur n (g, st) = Some (g', st') /\ rtc_inv (g', st') /\ fs_get st' fp = Some f' /\
    get_rtc_count (f_inode f') = Z.min 32 (Z.of_nat n / 2 ^ (sys_freq_pow g - get_rtc_freq (f_inode f))) /\
    time_elasped g' = (fun t => (t + Z.of_nat n * 2 ^ (13 - sys_freq_pow g)) mod 81920) <$> time_elasped g.
Proof.
  intros I Hs Hin E Hc Hp. destruct (isrs_spec cur n g st I Hs) as (g' & st' & En & I' & _ & _ & _ & Est & Et & M).
  destruct (world_files _ _ _ I Hin) as (f0 & E0 & Hf). rewrite E in E0. injection E0 as <-.
  pose proof (ri_pow _ I) as Hpow. simpl in Hpow.
  destruct (ticks_spec _ f n Hf ltac:(lia) Hp Hc) as (_ & _ & Hcount & _).
  exists g', st', (Nat.iter n tick_file f). split_and!; [done|done| | |].
  - by rewrite (store_map_get _ _ _ _ _ _ M E), decide_True.
  - by rewrite Hcount, (fo_ratio _ _ Hf).
  - rewrite Et. apply list_fmap_ext. intros i t Ht.
    unfold ticked. pose proof (ri_step _ I) as Es. simpl in Es. rewrite Es.
    apply iter_mod; [done|]. by apply (ri_time _ I i t).
Qed.

(** [rtc_write] accepts exactly a four-byte power of two from 2 to 1024.
    The descriptor is then a clock of that rate, at the start of a period and
    with no tick pending; the system frequency is the greater of the old one
    and the new, and every other descriptor is still consistent with it.  On
    anything else it returns -1 and changes nothing. *)
Theorem rtc_write_correct prev buf len fp g st :
  rtc_inv (g, st) -> Some fp ∈ rtc_files g ->
  (exists k g' st' f', buf = Some (2 ^ k) /\ 4 <= len /\ 1 <= k <= 10 /\
     rtc_write prev buf len fp (g, st) = Some (0, (g', st')) /\ rtc_inv (g', st') /\
     sys_freq g' = Z.max (sys_freq g) (2 ^ k) /\ rtc_files g' = rtc_files g /\
     fs_get st' fp = Some f' /\ get_rtc_freq (f_inode f') = k /\ get_rtc_count (f_inode f') = 0 /\
     f_pos f' = 2 ^ get_rtc_ratio (f_inode f')) \/
  ((forall k, 1 <= k <= 10 -> 4 <= len -> buf <> Some (2 ^ k)) /\
   rtc_write prev buf len fp (g, st) = Some (-1, (g, st))).
Proof.
  intros I Hin. unfold rtc_write. destruct buf as [freq|]; [|by right].
  destruct (decide (len < 4)); [right; split; [lia|done]|].
  destruct (decide (RTC_USER_MAX_FREQ < freq)) as [D|D]; unfold RTC_USER_MAX_FREQ in D.
  { right. split; [|done]. intros k Hk _ [= ->]. pose proof (pow_le_1024 k). lia. }
  destruct (find_pow_spec freq ltac:(lia)) as (p & E & Hp & _).
  pose proof (find_pow_exact freq p ltac:(lia) E) as Hex. rewrite E, bind_ret, Z.shiftl_1_l.
  destruct (decide (freq <> 2 ^ p)) as [Hne|Heq].
  { right. split; [|done]. intros k Hk _ [= ->]. apply Hne, Hex. eauto. }
  left. assert (freq = 2 ^ p) as -> by lia. destruct (world_files _ _ _ I Hin) as (f & Ef & Hf).
  pose proof (ri_pow _ I) as Hpow. pose proof (ri_freq _ I) as Hfreq. simpl in Hpow, Hfreq. exists p.
  case_decide as Dq.
  - assert (Hlt : sys_freq_pow g < p) by (apply (Z.pow_lt_mono_r_iff 2); lia).
    destruct (modify_spec fp (fun file => with_inode (set_rtc_freq_field (f_inode file) p) file) st f Ef)
      as (st1 & -> & M & _). rewrite bind_ret.
    assert (Hff : get_rtc_freq (set_rtc_freq_field (f_inode f) p) = p) by (autorewrite with rtc; done).
    destruct (set_pi_freq_spec prev p g st st1 I) as (g' & st2 & -> & I2 & Ep & Efl & _ & _ & M2 & _); [lia| |].
    { intros fp' Hin'. destruct (world_files _ _ _ I Hin') as (f' & Ef' & Hf').
      rewrite (store_map_get _ _ _ _ _ _ M Ef'). eexists; split; [done|].
      case_decide; [simpl; rewrite ?Hff|]; [|destruct Hf'; lia].
      subst fp'. rewrite Ef in Ef'. injection Ef' as <-. rewrite Hff. lia. }
    rewrite bind_ret. pose proof (store_map_get _ _ _ _ _ _ M Ef) as E1.
    rewrite decide_True in E1 by done. pose proof (store_map_get _ _ _ _ _ _ M2 E1) as E2.
    rewrite decide_True in E2 by done. simpl in E2. rewrite Hff in E2.
    destruct (reset_fields p p (with_inode (set_rtc_freq_field (f_inode f) p) f)) as (R1 & R2 & R3 & R4); [lia..|].
    eexists g', st2, _. split_and!; try done; try lia.
    + pose proof (ri_freq _ I2) as Hfreq2. simpl in Hfreq2. rewrite Hfreq2, Ep. lia.
    + by rewrite R4, R2.
  - assert (Hle : p <= sys_freq_pow g) by (apply (Z.pow_le_mono_r_iff 2); lia).
    destruct (modify_spec fp (reset_rtc_info (sys_freq_pow g) p) st f Ef) as (st1 & -> & M & _). rewrite bind_ret.
    pose proof (store_map_get _ _ _ _ _ _ M Ef) as E1. rewrite decide_True in E1 by done.
    destruct (reset_fields (sys_freq_pow g) p f) as (R1 & R2 & R3 & R4); [lia..|].
    eexists g, st1, _. split_and!; try done; try lia.
    + apply (modify_inv g st fp (reset_rtc_info (sys_freq_pow g) p) f); try done. intros _. apply reset_ok; lia.
    + by rewrite R4, R2.
Qed.
(** ** Reading *)

(** Waiting takes the interrupts up to the descriptor's next tick. *)
Lemma rtc_wait_spec cur fp p m : forall g st f,
  rtc_inv (g, st) -> is_Some (st_signal cur SIG_ALARM st) -> Some fp ∈ rtc_files g -> fs_get st fp = Some f ->
  get_rtc_count (f_inode f) = 0 -> f_pos f = Z.of_nat p -> (p <= m)%nat ->
  exists g' st' f', rtc_wait fp (replicate m (rtc_isr cur)) (g, st)
      = Some ((g', st'), replicate (m - p) (rtc_isr cur)) /\
    isrs cur p (g, st) = Some (g', st') /\ rtc_inv (g', st') /\
    rtc_files g' = rtc_files g /\ fs_get st' fp = Some f' /\ get_rtc_count (f_inode f') = 1.
Proof.
  revert m. induction p as [|p IH]; intros m g st f I Hs Hin E Hc Hp Hle;
    destruct (world_files _ _ _ I Hin) as (f0 & E0 & Hf); rewrite E in E0; injection E0 as <-.
  - destruct Hf. lia.
  - destruct m as [|m]; [lia|]. pose proof (ri_pow _ I) as Hpow. simpl in Hpow.
    destruct (rtc_isr_spec cur g st I Hs) as (g1 & st1 & E1 & I1 & Hs1 & Ep1 & Ef1 & _ & _ & M1).
    pose proof (store_map_get _ _ _ _ _ _ M1 E) as Ef. rewrite decide_True in Ef by done.
    destruct (tick_fields _ f Hf) as (_ & Hr & Ht); [lia|].
    cbn [replicate rtc_wait]. rewrite E, bind_ret, decide_True, E1, bind_ret by done.
    assert (Eit : forall k, isrs cur (S k) (g, st) = isrs cur k (g1, st1)).
    { intros k. unfold isrs. rewrite Nat.iter_succ_r, bind_ret, E1. done. }
    destruct (decide (f_pos f = 1)) as [D|D].
    + assert (p = 0%nat) as -> by lia. rewrite Hc in Ht. destruct Ht as [_ Ht].
      exists g1, st1, (tick_file f). split_and!; [|by rewrite Eit|done|done|done|by rewrite Ht].
      rewrite Nat.sub_succ, Nat.sub_0_r. destruct m; cbn [replicate rtc_wait];
        rewrite Ef, bind_ret, decide_False; try done; rewrite Ht; done.
    + destruct Ht as [Hpos Hcnt].
      destruct (IH m g1 st1 (tick_file f)) as (g' & st' & f' & Ew & Ei & I' & Efl & Eg & Hc'); try done;
        [by rewrite Ef1|by rewrite Hcnt|lia|lia|].
      exists g', st', f'. rewrite Ew, Eit. split_and!; try done. congruence.
Qed.

(** A tick taken. *)
Definition take_tick (file : FILE) : FILE :=
  let count := get_rtc_count (f_inode file) in
  if decide (1 <= count) then with_inode (set_rtc_count_field (f_inode file) (count - 1)) file else file.

Lemma take_tick_ok sp f : file_ok sp f -> 1 <= get_rtc_count (f_inode f) ->
  file_ok sp (take_tick f) /\ get_rtc_count (f_inode (take_tick f)) = get_rtc_count (f_inode f) - 1.
Proof.
  intros [F1 F2 F3 F4 F5] Hc. unfold take_tick. cbv zeta. rewrite decide_True by done.
  assert (0 <= get_rtc_count (f_inode f) - 1 < 2 ^ 10) by (cbn; lia).
  cbn [f_inode with_inode].
  assert (T1 : get_rtc_count (set_rtc_count_field (f_inode f) (get_rtc_count (f_inode f) - 1)) = get_rtc_count (f_inode f) - 1 /\
    get_rtc_freq (set_rtc_count_field (f_inode f) (get_rtc_count (f_inode f) - 1)) = get_rtc_freq (f_inode f) /\
    get_rtc_ratio (set_rtc_count_field (f_inode f) (get_rtc_count (f_inode f) - 1)) = get_rtc_ratio (f_inode f))
    by (autorewrite with rtc; done).
  destruct T1 as (T1 & T2 & T3). split; [|done]. split; cbn [f_inode f_pos with_inode]; rewrite ?T1, ?T2, ?T3; lia.
Qed.

(** C34: [rtc_read] blocks until the descriptor has a tick, and takes exactly
    one.  With a tick pending it takes no interrupt; with none it takes those
    left of the descriptor's period, no more, and leaves the rest. *)
Theorem rtc_read_correct cur fp g st f m d :
  rtc_inv (g, st) -> is_Some (st_signal cur SIG_ALARM st) -> Some fp ∈ rtc_files g -> fs_get st fp = Some f ->
  d = (if decide (get_rtc_count (f_inode f) = 0) then Z.to_nat (f_pos f) else 0%nat) -> (d <= m)%nat ->
  exists g1 st1 g' st' f',
    isrs cur d (g, st) = Some (g1, st1) /\
    rtc_read fp (replicate m (rtc_isr cur)) (g, st) = Some (0, (g', st'), replicate (m - d) (rtc_isr cur)) /\
    g' = g1 /\ rtc_inv (g', st') /\ fs_get st' fp = Some f' /\
    get_rtc_count (f_inode f') = Z.max 0 (get_rtc_count (f_inode f) - 1) /\
    (forall fp', fp' <> fp -> fs_get st' fp' = fs_get st1 fp').
Proof.
  intros I Hs Hin E -> Hm. destruct (world_files _ _ _ I Hin) as (f0 & E0 & Hf). rewrite E in E0. injection E0 as <-.
  assert (Hw : exists g1 st1 f1, isrs cur (if decide (get_rtc_count (f_inode f) = 0) then Z.to_nat (f_pos f) else 0%nat) (g, st)
      = Some (g1, st1) /\
    rtc_wait fp (replicate m (rtc_isr cur)) (g, st) = Some ((g1, st1), replicate (m -
      if decide (get_rtc_count (f_inode f) = 0) then Z.to_nat (f_pos f) else 0%nat) (rtc_isr cur)) /\
    rtc_inv (g1, st1) /\ Some fp ∈ rtc_files g1 /\ fs_get st1 fp = Some f1 /\
    get_rtc_count (f_inode f1) = Z.max 1 (get_rtc_count (f_inode f))).
  { pose proof (count_nonneg (f_inode f)). case_decide as D.
    - destruct (rtc_wait_spec cur fp (Z.to_nat (f_pos f)) m g st f) as (g' & st' & f' & Ew & Ei & I' & Efl & Eg & Hc');
        try done; [destruct Hf; lia|]. exists g', st', f'. rewrite Efl, D. done.
    - exists g, st, f. rewrite Nat.sub_0_r. split_and!; try done; [|lia].
      destruct m; cbn [replicate rtc_wait]; rewrite E, bind_ret, decide_False by done; done. }
  destruct Hw as (g1 & st1 & f1 & Ei & Ew & I1 & Hin1 & Ef1 & Hc1).
  unfold rtc_read. rewrite Ew, bind_ret. fold take_tick.
  destruct (modify_spec fp take_tick st1 f1 Ef1) as (st2 & -> & M & _). rewrite bind_ret.
  destruct (world_files _ _ _ I1 Hin1) as (f2 & E2 & Hf1). rewrite Ef1 in E2. injection E2 as <-.
  destruct (take_tick_ok _ _ Hf1) as [T0 T1]; [lia|]. exists g1, st1, g1, st2, (take_tick f1). split_and!; try done.
  - by apply (modify_inv g1 st1 fp take_tick f1).
  - by rewrite (store_map_get _ _ _ _ _ _ M Ef1), decide_True.
  - rewrite T1, Hc1. pose proof (count_nonneg (f_inode f)). lia.
  - intros fp' Hne. rewrite (M fp'). by rewrite decide_False by done.
Qed.

(** ** Opening and closing *)

(** The search of [rtc_open] finds the first free slot. *)
Lemma free_search (l : list (option fptr)) :
  length l = Z.to_nat MAX_PROC_NUM ->
  for_break 0 MAX_PROC_NUM (fun i (_ : unit) =>
    match arr_get l i with
    | Some None => inr (Some i)
    | Some (Some _) => inl tt
    | None => inr None
    end) tt
  = match list_find (fun s => s = None) l with Some (j, _) => inr (Some (Z.of_nat j)) | None => inl tt end.
Proof.
  intros Hlen.
  pose proof (for_break_ind (fun i (_ : unit) => forall k, (k < Z.to_nat i)%nat -> l !! k <> Some None)
    (fun r => exists j, r = Some (Z.of_nat j) /\ list_find (fun s => s = None) l = Some (j, None))
    0 MAX_PROC_NUM (fun i (_ : unit) =>
    match arr_get l i with
    | Some None => inr (Some i)
    | Some (Some _) => inl tt
    | None => inr None
    end) tt ltac:(done) ltac:(simpl; lia)) as Hind.
  lapply Hind; clear Hind.
  - destruct (for_break _ _ _ _) as [[]|r].
    + intros Hall. destruct (list_find _ l) as [[j x]|] eqn:Ej; [|done].
      apply list_find_Some in Ej as (Ej & -> & _). exfalso.
      pose proof (lookup_lt_Some _ _ _ Ej). apply (Hall j); [lia|done].
    + intros (j & -> & ->). done.
  - intros i [] Hi Hb. rewrite arr_get_lookup by lia.
    destruct (lookup_lt_is_Some_2 l (Z.to_nat i)) as [[fp|] Ex]; [lia|..]; rewrite Ex.
    + intros k Hk Ek. destruct (decide (k = Z.to_nat i)) as [->|]; [congruence|]. apply (Hb k); [lia|done].
    + exists (Z.to_nat i). rewrite Z2Nat.id by lia. split; [done|]. apply list_find_Some.
      split_and!; [done|done|]. intros k y Hk Hlt ->. by apply (Hb k).
Qed.

Lemma omap_insert_free (l : list (option fptr)) j fp :
  l !! j = Some None -> omap id (<[j := Some fp]> l) ≡ₚ fp :: omap id l.
Proof.
  revert j. induction l as [|x l IH]; intros [|j] Hj; simplify_eq/=; [done|].
  destruct x as [y|]; simpl; [|by apply IH]. etransitivity; [apply perm_skip, (IH j Hj)|apply perm_swap].
Qed.

(** [rtc_open] makes the descriptor a 2 Hz clock and registers it in the
    first free slot, with a fresh alarm timer; the invariant is kept.  With no
    slot free it does not return. *)
Lemma rtc_open_spec g st fp f :
  rtc_inv (g, st) -> Some fp ∉ rtc_files g -> fs_get st fp = Some f ->
  match list_find (fun s => s = None) (rtc_files g) with
  | Some (j, _) =>
      exists g' st' f', rtc_open fp (g, st) = Some (0, (g', st')) /\ rtc_inv (g', st') /\
        rtc_files g' = <[j := Some fp]> (rtc_files g) /\ time_elasped g' = <[j := 0]> (time_elasped g) /\
        sys_freq g' = sys_freq g /\ fs_get st' fp = Some f' /\
        f_type f' = TASK_FILE_RTC /\ file_ops f' = rtc_file_ops_table /\ get_rtc_freq (f_inode f') = 1 /\
        get_rtc_count (f_inode f') = 0 /\ fs_set st fp f' = Some st'
  | None => rtc_open fp (g, st) = None
  end.
Proof.
  intros I Hni E. pose proof (ri_pow _ I) as Hpow. pose proof (ri_slots _ I) as Hlen. simpl in Hpow, Hlen.
  set (h := fun file => with_type TASK_FILE_RTC (with_file_ops rtc_file_ops_table (reset_rtc_info (sys_freq_pow g) 1 file))).
  destruct (modify_spec fp h st f E) as (st1 & Em & M & _).
  pose proof (free_search _ Hlen) as Hsearch.
  unfold rtc_open. change (find_pow RTC_USER_DEF_FREQ) with (find_pow (2 ^ 1)).
  rewrite find_pow_of, bind_ret, decide_False by (try lia; intros D; by apply D). cbv zeta. fold h. rewrite Em, bind_ret, Hsearch.
  destruct (list_find _ _) as [[j x]|] eqn:Ej; [|done].
  apply list_find_Some in Ej as (Ej & -> & _). pose proof (lookup_lt_Some _ _ _ Ej).
  pose proof (ri_times _ I) as Lt. simpl in Lt.
  rewrite !arr_set_Some, !bind_ret by lia. rewrite Nat2Z.id.
  destruct (reset_fields (sys_freq_pow g) 1 f) as (R1 & R2 & R3 & R4); [lia..|].
  assert (Eset : fs_set st fp (h f) = Some st1) by (unfold modify in Em; by rewrite E, bind_ret in Em).
  eexists _, st1, (h f). split_and!; try done.
  - destruct I as [I1 I2 I3 I4 I5 I6 I7 I8]. simpl in *. split; simpl; try done.
    + by rewrite length_insert.
    + intros i t Ht. apply list_lookup_insert_Some in Ht as [(<- & <- & _)|[_ Ht]]; [|by apply (I5 i)].
      split; [done|]. apply Z.divide_0_r.
    + by rewrite length_insert.
    + unfold registered. simpl. rewrite (omap_insert_free _ _ _ Ej). constructor; [|done].
      by rewrite (elem_registered g).
    + intros fp' Hin. rewrite (M fp'). case_decide as D.
      * subst fp'. rewrite E. exists (h f). split; [done|].
        destruct (reset_ok (sys_freq_pow g) 1 f) as [F1 F2 F3 F4 F5]; [lia..|]. by split.
      * apply I8. apply elem_registered. apply elem_registered in Hin. simpl in Hin.
        apply list_elem_of_lookup in Hin as [k Hk]. apply list_lookup_insert_Some in Hk as [(_ & [= ->] & _)|[_ Hk]]; [done|].
        by eapply list_elem_of_lookup_2.
  - by rewrite (store_map_get _ _ _ _ _ _ M E), decide_True.
Qed.

(** The search of [rtc_close] never finds anything: its maximum starts at the
    largest 32-bit value. *)
Lemma close_search_spec g st :
  rtc_inv (g, st) -> close_search (rtc_files g) st = Some (u32 (-1), u32 (-1)).
Proof.
  intros I. unfold close_search.
  destruct (for_upM_ind (fun _ m => m = (u32 (-1), u32 (-1))) 0 MAX_PROC_NUM (fun i '(max_i, max_freq) =>
    f ← arr_get (rtc_files g) i;
    match f with
    | None => Some (max_i, max_freq)
    | Some fp =>
        file ← fs_get st fp;
        let tmp_freq := get_rtc_freq (f_inode file) in
        Some (if decide (max_freq < tmp_freq) then (i, tmp_freq) else (max_i, max_freq))
    end) (u32 (-1), u32 (-1))) as (m & E & ->); [done|done| |done].
  intros i _ Hi ->. pose proof (ri_slots _ I) as Hl. simpl in Hl.
  destruct (lookup_lt_is_Some_2 (rtc_files g) (Z.to_nat i)) as [x Ex]; [lia|].
  rewrite arr_get_lookup, Ex, bind_ret by lia. destruct x as [fp|]; [|eauto].
  destruct (world_files g st fp I) as (f & -> & Hf). { by eapply list_elem_of_lookup_2. }
  rewrite bind_ret. destruct Hf. cbv zeta. rewrite decide_False by (change (u32 (-1)) with 4294967295; lia). eauto.
Qed.

Lemma omap_release (l : list (option fptr)) fp :
  omap id (map (fun s => if decide (s = Some fp) then None else s) l) = filter (fun x => x <> fp) (omap id l).
Proof.
  induction l as [|[x|] l IH]; [done| |exact IH].
  change (omap id (Some x :: l)) with (x :: omap id l). rewrite filter_cons, <- IH. cbn [map].
  repeat case_decide; try congruence; reflexivity.
Qed.

Lemma rtc_close_spec prev g st fp :
  rtc_inv (g, st) ->
  exists files, rtc_close prev fp (g, st) = Some (0, (set_files files g, st)) /\ rtc_inv (set_files files g, st) /\
    length files = length (rtc_files g) /\
    (forall i s, rtc_files g !! i = Some s -> files !! i = Some (if decide (s = Some fp) then None else s)).
Proof.
  intros I. unfold rtc_close. set (files := map _ _). exists files.
  assert (I' : rtc_inv (set_files files g, st)).
  { destruct I as [I1 I2 I3 I4 I5 I6 I7 I8]. split; try assumption.
    - simpl. subst files. by rewrite length_map.
    - unfold registered. simpl. subst files. rewrite omap_release. by apply list.NoDup_filter.
    - intros fp' Hin. apply I8. unfold registered in *. simpl in Hin. subst files.
      rewrite omap_release in Hin. by apply list_elem_of_filter in Hin as [_ Hin]. }
  pose proof (close_search_spec _ _ I') as Hc. change (rtc_files (set_files files g)) with files in Hc.
  cbv zeta. rewrite Hc, bind_ret, decide_False by (intros D; by apply D).
  split_and!; try done.
  - subst files. by rewrite length_map.
  - intros i s E. subst files. change (map ?f ?l) with (f <$> l). by rewrite list_lookup_fmap, E.
Qed.

(** [rtc_close] takes the descriptor off the list and changes nothing
    else: the other descriptors keep their slots, ticks and rates, and the
    hardware keeps its frequency, whatever frequencies are left. *)
Theorem rtc_close_correct prev g st fp :
  rtc_inv (g, st) ->
  exists files, rtc_close prev fp (g, st) = Some (0, (set_files files g, st)) /\ rtc_inv (set_files files g, st) /\
    length files = length (rtc_files g) /\
    (forall i s, rtc_files g !! i = Some s -> files !! i = Some (if decide (s = Some fp) then None else s)).
Proof. by apply rtc_close_spec. Qed.
End Proofs.

(** what [init_rtc] writes and what it records disagree.  The rate nibble
    written to register A is 3, for which the hardware interrupts at
    32768 >> (3 - 1) = 8192 Hz, while [sys_freq] says 2 Hz; the rest of
    register A keeps its value, and bit 6 of register B is set. *)
Theorem init_rtc_rate prev_b prev_a g :
  exists b a,
    rtc_ports (init_rtc prev_b prev_a g)
    = rtc_ports g ++ [(RTC_ADDR_PORT, RTC_REG_B); (RTC_ADDR_PORT, RTC_REG_B); (RTC_DATA_PORT, b);
                      (RTC_ADDR_PORT, RTC_FREQ_SELECT); (RTC_ADDR_PORT, RTC_FREQ_SELECT); (RTC_DATA_PORT, a)] /\
    Z.testbit b 6 = true /\ Z.land a 15 = 3 /\ Z.land a 240 = Z.land prev_a 240 /\
    sys_freq (init_rtc prev_b prev_a g) = 2 /\ sys_freq_pow (init_rtc prev_b prev_a g) = 1.
Proof.
  exists (u8 (Z.lor prev_b 64)), (u8 (Z.lor (Z.land prev_a 240) 3)).
  split; [simpl; by rewrite <- !app_assoc|]. unfold u8. change 256 with (2 ^ 8).
  rewrite <- !Z.land_ones by lia. split_and!; try done.
  - rewrite Z.land_spec, Z.lor_spec. by rewrite orb_true_r.
  - apply Z.bits_inj'. intros i Hi. rewrite !Z.land_spec, Z.lor_spec, Z.land_spec.
    destruct (decide (i < 8)); [|rewrite (testbit_above 15 4), (testbit_above 3 4) by lia; by rewrite andb_false_r].
    assert (i = 0 \/ i = 1 \/ i = 2 \/ i = 3 \/ i = 4 \/ i = 5 \/ i = 6 \/ i = 7) as C by lia.
    destruct C as [->|[->|[->|[->|[->|[->|[->| ->]]]]]]]; simpl; rewrite ?andb_false_r, ?andb_true_r; done.
  - apply Z.bits_inj'. intros i Hi. rewrite !Z.land_spec, Z.lor_spec, Z.land_spec.
    destruct (decide (i < 8)); [|rewrite (testbit_above 240 8) by lia; by rewrite !andb_false_r].
    assert (i = 0 \/ i = 1 \/ i = 2 \/ i = 3 \/ i = 4 \/ i = 5 \/ i = 6 \/ i = 7) as C by lia.
    destruct C as [->|[->|[->|[->|[->|[->|[->| ->]]]]]]]; simpl; rewrite ?andb_false_r, ?andb_true_r, ?orb_false_r; done.
Qed.

(** ** A concrete clock *)

(** The task with kernel stack 0 holds a 2 Hz and a 512 Hz descriptor, under a
    system frequency of 1024 Hz. *)
Definition sample_file (p : Z) : FILE := reset_rtc_info 10 p (mkFILE rtc_file_ops_table 0 0 TASK_FILE_RTC 1).
Definition sample_store : pcb_store :=
  {[ TASK_KSTACK_TOP 0 :=
       mkPCB ([sample_file 1; sample_file 9] ++ replicate 6 (sample_file 1)) 0 None 0 0 0 0 0 0 (replicate 5 0) ]}.
Definition sample_fp (i : Z) : fptr := (TASK_KSTACK_TOP 0, i).
Definition sample_rtc : rtc_globals :=
  mkRtc 1024 10 8 (replicate 10 80) ([Some (sample_fp 0); None; Some (sample_fp 1)] ++ replicate 7 None) [].

Lemma sample_rtc_inv : rtc_inv (sample_rtc, sample_store).
Proof.
  split; try (vm_compute; done).
  - intros i t Ht. apply lookup_replicate_1 in Ht as [-> _]. split; [done|]. by exists 10.
  - vm_compute. repeat constructor; set_solver.
  - intros fp Hin. change (registered _) with [sample_fp 0; sample_fp 1] in Hin.
    apply elem_of_cons in Hin as [->|Hin]; [|apply list_elem_of_singleton in Hin as ->].
    + exists (sample_file 1). split; [done|]. apply reset_ok; done.
    + exists (sample_file 9). split; [done|]. apply reset_ok; done.
Qed.

Lemma sample_signal : is_Some (st_signal (TASK_KSTACK_TOP 0) SIG_ALARM sample_store).
Proof. vm_compute. eauto. Qed.

Lemma rtc_ticks_correct_witness :
  exists g' st' f', isrs (TASK_KSTACK_TOP 0) 11 (sample_rtc, sample_store) = Some (g', st') /\
    fs_get st' (sample_fp 1) = Some f' /\ get_rtc_count (f_inode f') = 5.
Proof.
  destruct (rtc_ticks_correct (TASK_KSTACK_TOP 0) 11 sample_rtc sample_store (sample_fp 1) (sample_file 9))
    as (g' & st' & f' & E & _ & Ef & Ec & _).
  - apply sample_rtc_inv.
  - apply sample_signal.
  - vm_compute. right. right. left.
  - reflexivity.
  - reflexivity.
  - reflexivity.
  - exists g', st', f'. split; [exact E|]. split; [exact Ef|]. rewrite Ec. reflexivity.
Defined.

Lemma rtc_write_correct_witness :
  exists g' st' f', rtc_write 0x26 (Some 64) 4 (sample_fp 0) (sample_rtc, sample_store) = Some (0, (g', st')) /\
    fs_get st' (sample_fp 0) = Some f' /\ get_rtc_freq (f_inode f') = 6.
Proof.
  destruct (rtc_write_correct 0x26 (Some 64) 4 (sample_fp 0) sample_rtc sample_store)
    as [(k & g' & st' & f' & Eb & _ & Hk & E & _ & _ & _ & Ef & Ek & _)|[H _]].
  - apply sample_rtc_inv.
  - vm_compute. left.
  - injection Eb as Eb. exists g', st', f'. split; [exact E|]. split; [exact Ef|]. rewrite Ek.
    apply (Z.pow_inj_r 2); [lia..|]. by rewrite <- Eb.
  - exfalso. by apply (H 6).
Defined.

Lemma rtc_read_correct_witness :
  exists g' st' irqs, rtc_read (sample_fp 1) (replicate 5 (rtc_isr (TASK_KSTACK_TOP 0))) (sample_rtc, sample_store)
    = Some (0, (g', st'), irqs) /\ length irqs = 3%nat.
Proof.
  destruct (rtc_read_correct (TASK_KSTACK_TOP 0) (sample_fp 1) sample_rtc sample_store (sample_file 9) 5 2)
    as (g1 & st1 & g' & st' & f' & _ & E & _).
  - apply sample_rtc_inv.
  - apply sample_signal.
  - vm_compute. right. right. left.
  - reflexivity.
  - reflexivity.
  - lia.
  - exists g', st', (replicate 3 (rtc_isr (TASK_KSTACK_TOP 0))). split; [exact E|reflexivity].
Defined.

Lemma rtc_open_spec_witness :
  exists g' st', rtc_open (sample_fp 5) (sample_rtc, sample_store) = Some (0, (g', st')) /\
    rtc_files g' !! 1%nat = Some (Some (sample_fp 5)).
Proof.
  assert (H := rtc_open_spec sample_rtc sample_store (sample_fp 5) (sample_file 1) sample_rtc_inv).
  destruct H as (g' & st' & f' & E & _ & Ef & _).
  - vm_compute. set_solver.
  - reflexivity.
  - exists g', st'. split; [exact E|]. rewrite Ef. reflexivity.
Defined.

Lemma rtc_close_correct_witness :
  exists files, rtc_close 0x26 (sample_fp 0) (sample_rtc, sample_store) = Some (0, (set_files files sample_rtc, sample_store)).
Proof.
  destruct (rtc_close_correct 0x26 sample_rtc sample_store (sample_fp 0) sample_rtc_inv) as (files & E & _).
  exists files. exact E.
Defined.
