(* ===== verification/Kb.v ===== *)
(** * The keyboard driver: student-distrib/kb.c

    A scan-code state machine over four modifier flags and the 0xE0 prefix.  A
    pressed key is looked up in the table its modifiers choose and handed to
    the handler of keys, which is a parameter of the interrupt routine here:
    the terminals' [term_key_handler] in the kernel, a log in the statements on
    what is delivered. *)
From stdpp Require Import base tactics list numbers gmap option.
From Stdlib Require Import ZArith Lia Ascii String.
From S2P Require Import Prelude CLib Task Term TermScreen TermLine TermSys.

Open Scope Z_scope.

(** ** The tables *)

Definition PRINT_KEY_NUM : Z := 0x3A.
Definition A_key (c : Z) : key_t := mkKey KEY_RAW MOD_ALT c.

(** The byte of a character constant. *)
Definition code (c : ascii) : Z := Z.of_N (N_of_ascii c).

#[local] Abbreviation P c := (P_key (code c%char)).
#[local] Abbreviation C c := (C_key (code c%char)).
#[local] Abbreviation A c := (A_key (code c%char)).

Definition keyboard_map : list key_t := [
    R_key 0; R_key KEY_ESC; P "1"; P "2"; P "3"; P "4"; P "5"; P "6"; P "7"; P "8"; P "9"; P "0";
    P "-"; P "="; R_key KEY_BACK; R_key KEY_TAB; P "q"; P "w"; P "e"; P "r"; P "t"; P "y"; P "u";
    P "i"; P "o"; P "p"; P "["; P "]"; R_key KEY_ENTER; R_key 0; P "a"; P "s"; P "d"; P "f";
    P "g"; P "h"; P "j"; P "k"; P "l"; P ";"; P "'"; P "`"; R_key 0; P "\"; P "z"; P "x"; P "c";
    P "v"; P "b"; P "n"; P "m"; P ","; P "."; P "/"; R_key 0; P "*"; R_key 0; P " "
].

Definition shift_map : list key_t := [
    R_key 0; R_key KEY_ESC; P "!"; P "@"; P "#"; P "$"; P "%"; P "^"; P "&"; P "*"; P "("; P ")";
    P "_"; P "+"; R_key KEY_BACK; R_key KEY_TAB; P "Q"; P "W"; P "E"; P "R"; P "T"; P "Y"; P "U";
    P "I"; P "O"; P "P"; P "{"; P "}"; R_key KEY_ENTER; R_key 0; P "A"; P "S"; P "D"; P "F";
    P "G"; P "H"; P "J"; P "K"; P "L"; P ":"; P_key 34; P "~"; R_key 0; P "|"; P "Z"; P "X";
    P "C"; P "V"; P "B"; P "N"; P "M"; P "<"; P ">"; P "?"; R_key 0; P "*"; R_key 0; P " "
].

Definition ctrl_map : list key_t := [
    R_key 0; C_key KEY_ESC; C "1"; C "2"; C "3"; C "4"; C "5"; C "6"; C "7"; C "8"; C "9"; C "0";
    C "-"; C "="; C_key KEY_BACK; C_key KEY_TAB; C "q"; C "w"; C "e"; C "r"; C "t"; C "y"; C "u";
    C "i"; C "o"; C "p"; C "["; C "]"; C_key KEY_ENTER; R_key 0; C "a"; C "s"; C "d"; C "f";
    C "g"; C "h"; C "j"; C "k"; C "l"; C ";"; C "'"; C "`"; R_key 0; C "\"; C "z"; C "x"; C "c";
    C "v"; C "b"; C "n"; C "m"; C ","; C "."; C "/"; R_key 0; C "*"; R_key 0; C " "
].

Definition alt_map : list key_t := [
    R_key 0; A_key KEY_ESC; A "1"; A "2"; A "3"; A "4"; A "5"; A "6"; A "7"; A "8"; A "9"; A "0";
    A "-"; A "="; A_key KEY_BACK; A_key KEY_TAB; A "q"; A "w"; A "e"; A "r"; A "t"; A "y"; A "u";
    A "i"; A "o"; A "p"; A "["; A "]"; A_key KEY_ENTER; R_key 0; A "a"; A "s"; A "d"; A "f";
    A "g"; A "h"; A "j"; A "k"; A "l"; A ";"; A "'"; A "`"; R_key 0; A "\"; A "z"; A "x"; A "c";
    A "v"; A "b"; A "n"; A "m"; A ","; A "."; A "/"; R_key 0; A "*"; R_key 0; A " "
].

(** ** State *)

Record kb_t := mkKb { kb_shift : Z; kb_ctrl : Z; kb_alt : Z; kb_caps : Z; scan_state : Z }.

Definition set_shift (v : Z) (k : kb_t) : kb_t := mkKb v (kb_ctrl k) (kb_alt k) (kb_caps k) (scan_state k).
Definition set_ctrl (v : Z) (k : kb_t) : kb_t := mkKb (kb_shift k) v (kb_alt k) (kb_caps k) (scan_state k).
Definition set_alt (v : Z) (k : kb_t) : kb_t := mkKb (kb_shift k) (kb_ctrl k) v (kb_caps k) (scan_state k).
Definition set_caps (v : Z) (k : kb_t) : kb_t := mkKb (kb_shift k) (kb_ctrl k) (kb_alt k) v (scan_state k).
Definition set_scan (v : Z) (k : kb_t) : kb_t := mkKb (kb_shift k) (kb_ctrl k) (kb_alt k) (kb_caps k) v.

(** At boot. *)
Definition kb_idle : kb_t := mkKb 0 0 0 0 0.

(** The three tests that mark a function key with the modifiers held. *)
Definition mark_modifiers (kb : kb_t) (key : key_t) : key_t :=
  let orm m key := mkKey (key_type key) (u8 (Z.lor (modifiers key) m)) (key_code key) in
  let key := if decide (kb_ctrl kb <> 0) then orm MOD_CTRL key else key in
  let key := if decide (kb_shift kb <> 0) then orm MOD_SHIFT key else key in
  if decide (kb_alt kb <> 0) then orm MOD_ALT key else key.

Section Driver.
Context {T : Type} (term_key_handler : key_t -> T -> option T).

(** The [default] branch: F1 to F10 and the keys of the tables. *)
Definition plain_key (keycode pressed : Z) '((kb, s) : kb_t * T) : option (kb_t * T) :=
  let deliver map := k ← arr_get map keycode; s ← term_key_handler k s; Some (kb, s) in
  if decide (0x3B <= keycode <= 0x44 /\ pressed <> 0) then
    s ← term_key_handler (mark_modifiers kb (R_key (u8 (KEY_F1 + keycode - 0x3B)))) s; Some (kb, s)
  else if decide (PRINT_KEY_NUM <= keycode) then Some (kb, s)
  else if decide (pressed = 0) then Some (kb, s)
  else if decide (kb_caps kb <> 0) then
    k ← arr_get keyboard_map keycode;
    if decide (kb_shift kb = 0 /\ 97 <= key_code k <= 122) then deliver shift_map else deliver keyboard_map
  else if decide (kb_shift kb <> 0) then deliver shift_map
  else if decide (kb_ctrl kb <> 0) then deliver ctrl_map
  else if decide (kb_alt kb <> 0) then deliver alt_map
  else deliver keyboard_map.

(** [kb_isr()]; [status] and [keycode] are the bytes read from ports 0x64 and
    0x60, [junk] the uninitialised [key] of its frame. *)
Definition kb_isr (status keycode : Z) (junk : key_t) '((kb, s) : kb_t * T) : option (kb_t * T) :=
  if decide (Z.land status 0x01 = 0) then Some (kb, s)
  else if decide (keycode = 0xE0) then Some (set_scan 1 kb, s)
  else
    let pressed := if decide (Z.land keycode 0x80 = 0) then 1 else 0 in
    let keycode := Z.land keycode 0x7F in
    let twice k := s ← term_key_handler k s; s ← term_key_handler (mark_modifiers kb junk) s; Some (kb, s) in
    if decide (scan_state kb = 0) then
      if decide (keycode = 0x2A \/ keycode = 0x36) then Some (set_shift pressed kb, s)
      else if decide (keycode = 0x1D) then Some (set_ctrl pressed kb, s)
      else if decide (keycode = 0x38) then Some (set_alt pressed kb, s)
      else if decide (keycode = 0x3A) then
        Some (if decide (pressed <> 0) then set_caps (Z.lxor (kb_caps kb) 1) kb else kb, s)
      else if decide (keycode = 0x57) then
        if decide (pressed <> 0) then twice (R_key 0x94) else Some (kb, s)
      else if decide (keycode = 0x58) then
        if decide (pressed <> 0) then twice (R_key KEY_F12) else Some (kb, s)
      else plain_key keycode pressed (kb, s)
    else if decide (scan_state kb = 1) then
      if decide (keycode = 0x1D) then Some (set_scan 0 (set_ctrl pressed kb), s)
      else if decide (keycode = 0x38) then Some (set_scan 0 (set_alt pressed kb), s)
      else if decide (keycode = 0x4B /\ pressed <> 0) then
        s ← term_key_handler (R_key KEY_LEFT) s; Some (set_scan 0 kb, s)
      else if decide (keycode = 0x4D /\ pressed <> 0) then
        s ← term_key_handler (R_key KEY_RIGHT) s; Some (set_scan 0 kb, s)
      else Some (set_scan 0 kb, s)
    else Some (kb, s).

(** A sequence of bytes from the keyboard, each with its interrupt. *)
Definition kb_bytes (bytes : list Z) (w : kb_t * T) : option (kb_t * T) :=
  foldM (fun b w => kb_isr 1 b (R_key 0) w) bytes w.

End Driver.

(** ** What is delivered *)

Definition log_key (k : key_t) (l : list key_t) : option (list key_t) := Some (l ++ [k]).

(** The keys one byte delivers, with the new state. *)
Definition scan (status b : Z) (junk : key_t) (kb : kb_t) : option (kb_t * list key_t) :=
  kb_isr log_key status b junk (kb, []).

(** The routine with any handler hands it the logged keys in order. *)
Lemma plain_key_log {T} (h : key_t -> T -> option T) keycode pressed kb s :
  0 <= keycode ->
  exists ks, plain_key log_key keycode pressed (kb, []) = Some (kb, ks) /\ (List.length ks <= 1)%nat /\
    plain_key h keycode pressed (kb, s) = (s' ← foldM h ks s; Some (kb, s')).
Proof.
  intros Hk. unfold plain_key.
  assert (D0 : forall k, exists ks, (l ← log_key k []; Some (kb, l)) = Some (kb, ks) /\ (List.length ks <= 1)%nat /\
      (s ← h k s; Some (kb, s)) = (s' ← foldM h ks s; Some (kb, s'))).
  { intros k. exists [k]. split; [done|]. split; [done|]. simpl. by destruct (h k s). }
  assert (D : forall map : list key_t, keycode < Z.of_nat (List.length map) ->
    exists ks, (k ← arr_get map keycode; l ← log_key k []; Some (kb, l)) = Some (kb, ks) /\ (List.length ks <= 1)%nat /\
      (k ← arr_get map keycode; s ← h k s; Some (kb, s)) = (s' ← foldM h ks s; Some (kb, s'))).
  { intros map Hl. destruct (arr_get_Some map keycode ltac:(lia)) as (k & -> & _). apply D0. }
  assert (N : exists ks, Some (kb, []) = Some (kb, ks) /\ (List.length ks <= 1)%nat /\
      Some (kb, s) = (s' ← foldM h ks s; Some (kb, s'))) by (exists []; split_and!; (done || simpl; lia)).
  case_decide; [apply D0|].
  case_decide as Dn; [exact N|]. unfold PRINT_KEY_NUM in Dn. case_decide; [exact N|]. cbv zeta.
  destruct (arr_get_Some keyboard_map keycode) as (k & Ek & _); [simpl; lia|].
  repeat case_decide; rewrite ?Ek, ?bind_ret; try case_decide; first [apply D0|apply D; simpl; lia].
Qed.

Lemma kb_isr_log {T} (h : key_t -> T -> option T) status b junk kb s :
  0 <= b < 256 -> scan_state kb = 0 \/ scan_state kb = 1 ->
  exists kb' ks, scan status b junk kb = Some (kb', ks) /\
    (scan_state kb' = 0 \/ scan_state kb' = 1) /\
    kb_isr h status b junk (kb, s) = (s' ← foldM h ks s; Some (kb', s')) /\
    ((List.length ks <= 1)%nat \/ exists k, ks = [k; mark_modifiers kb junk] /\ (k = R_key 0x94 \/ k = R_key KEY_F12)).
Proof.
  intros Hb Hs. unfold scan, kb_isr.
  assert (N : forall kb', scan_state kb' = 0 \/ scan_state kb' = 1 -> exists kb'' ks, Some (kb', []) = Some (kb'', ks) /\
    (scan_state kb'' = 0 \/ scan_state kb'' = 1) /\ Some (kb', s) = (s' ← foldM h ks s; Some (kb'', s')) /\
    ((List.length ks <= 1)%nat \/ exists k, ks = [k; mark_modifiers kb junk] /\ (k = R_key 0x94 \/ k = R_key KEY_F12))).
  { intros kb' H'. exists kb', []. split_and!; try done. left. simpl. lia. }
  assert (D : forall k kb', scan_state kb' = 0 \/ scan_state kb' = 1 ->
    exists kb'' ks, (l ← log_key k []; Some (kb', l)) = Some (kb'', ks) /\
    (scan_state kb'' = 0 \/ scan_state kb'' = 1) /\ (s ← h k s; Some (kb', s)) = (s' ← foldM h ks s; Some (kb'', s')) /\
    ((List.length ks <= 1)%nat \/ exists k, ks = [k; mark_modifiers kb junk] /\ (k = R_key 0x94 \/ k = R_key KEY_F12))).
  { intros k kb' H'. exists kb', [k]. split_and!; [done|done|simpl; by destruct (h k s)|by left]. }
  assert (W : forall k, k = R_key 0x94 \/ k = R_key KEY_F12 -> exists kb'' ks,
    (l ← log_key k []; l ← log_key (mark_modifiers kb junk) l; Some (kb, l)) = Some (kb'', ks) /\
    (scan_state kb'' = 0 \/ scan_state kb'' = 1) /\
    (s ← h k s; s ← h (mark_modifiers kb junk) s; Some (kb, s)) = (s' ← foldM h ks s; Some (kb'', s')) /\
    ((List.length ks <= 1)%nat \/ exists k, ks = [k; mark_modifiers kb junk] /\ (k = R_key 0x94 \/ k = R_key KEY_F12))).
  { intros k H'. exists kb, [k; mark_modifiers kb junk]. split_and!; [done|done| |right; eauto].
    simpl. destruct (h k s) as [s1|]; simpl; [|done]. by destruct (h _ s1). }
  case_decide; [by apply N|]. case_decide; [by apply N; right|]. cbv zeta.
  assert (Hk : 0 <= Z.land b 127) by (apply Z.land_nonneg; lia).
  set (pressed := if decide (Z.land b 128 = 0) then 1 else 0). set (keycode := Z.land b 127) in *.
  case_decide as D0.
  - repeat (case_decide; [first [by apply N|by (apply N; case_decide)|case_decide; [by apply W; tauto|by apply N]]|]).
    destruct (plain_key_log h keycode pressed kb s Hk) as (ks & -> & Hl & ->). exists kb, ks. split_and!; try done. by left.
  - destruct (decide (scan_state kb = 1)); [|lia].
    repeat (case_decide; [first [apply N; by left|apply D; by left]|]). apply N. by left.
Qed.

(** A run of bytes, in the states that occur. *)
Fixpoint scans (bytes : list Z) (kb : kb_t) : option (kb_t * list (list key_t)) :=
  match bytes with
  | [] => Some (kb, [])
  | b :: bytes =>
      '(kb, ks) ← scan 1 b (R_key 0) kb;
      '(kb, kss) ← scans bytes kb;
      Some (kb, ks :: kss)
  end.

Lemma scans_app l1 l2 kb :
  scans (l1 ++ l2) kb =
  '(kb, ks1) ← scans l1 kb; '(kb, ks2) ← scans l2 kb; Some (kb, ks1 ++ ks2).
Proof.
  revert kb. induction l1 as [|b l1 IH]; intros kb; simpl.
  - destruct (scans l2 kb) as [[kb' ks]|]; done.
  - destruct (scan 1 b (R_key 0) kb) as [[kb1 k1]|]; simpl; [|done]. rewrite IH.
    destruct (scans l1 kb1) as [[kb2 k2]|]; simpl; [|done]. by destruct (scans l2 kb2) as [[kb3 k3]|].
Qed.

(** A run of bytes hands the handler the keys delivered, in order. *)
Lemma kb_bytes_scans {T} (h : key_t -> T -> option T) bytes kb s :
  Forall (fun b => 0 <= b < 256) bytes -> scan_state kb = 0 \/ scan_state kb = 1 ->
  exists kb' kss, scans bytes kb = Some (kb', kss) /\ (scan_state kb' = 0 \/ scan_state kb' = 1) /\
    kb_bytes h bytes (kb, s) = (s' ← foldM h (List.concat kss) s; Some (kb', s')).
Proof.
  revert kb s. induction bytes as [|b bytes IH]; intros kb s Hb Hs.
  - exists kb, []. done.
  - apply Forall_cons_1 in Hb as [Hb Hbs]. unfold kb_bytes. rewrite foldM_cons.
    destruct (kb_isr_log h 1 b (R_key 0) kb s Hb Hs) as (kb1 & ks & E & H1 & -> & _).
    cbn [scans]. rewrite E, bind_ret.
    assert (Hex : exists kb' kss, scans bytes kb1 = Some (kb', kss) /\ (scan_state kb' = 0 \/ scan_state kb' = 1)).
    { destruct (IH kb1 s Hbs H1) as (kb' & kss & ? & ? & _). eauto. }
    destruct Hex as (kb' & kss & E' & H'). rewrite E', bind_ret. exists kb', (ks :: kss). split_and!; [done..|].
    simpl List.concat. rewrite foldM_app. destruct (foldM h ks s) as [s1|]; [|done]. rewrite !bind_ret.
    destruct (IH kb1 s1 Hbs H1) as (kb2 & kss2 & E2 & _ & E3). rewrite E' in E2. injection E2 as <- <-. exact E3.
Qed.

(** ** The US layout

    The reference the tables are checked against: for a run of keys, the code
    of its first key and the characters without and with Shift. *)
Definition codes (s : string) : list Z := List.map code (list_ascii_of_string s).

Definition us_layout : list (Z * list Z * list Z) := [
  (0x02, codes "1234567890-=", codes "!@#$%^&*()_+");
  (0x10, codes "qwertyuiop[]", codes "QWERTYUIOP{}");
  (0x1E, codes "asdfghjkl;'`", codes "ASDFGHJKL:" ++ [34; 126]);
  (0x2B, codes "\zxcvbnm,./", codes "|ZXCVBNM<>?");
  (0x39, codes " ", codes " ")
].

Definition index_of (c : Z) (l : list Z) : option Z :=
  match list_find (fun x => x = c) l with Some (i, _) => Some (Z.of_nat i) | None => None end.

(** What a keyboard sends when a character is typed: the key down and up, with
    the left Shift held where it is needed. *)
Definition type_char_codes (c : Z) : list Z :=
  match omap (fun '(first, plain, shifted) =>
          match index_of c plain, index_of c shifted with
          | Some i, _ => Some [first + i; first + i + 0x80]
          | None, Some i => Some [0x2A; first + i; first + i + 0x80; 0xAA]
          | None, None => None
          end) us_layout with
  | bytes :: _ => bytes
  | [] => []
  end.

Definition type_text (text : list Z) : list Z := List.concat (List.map type_char_codes text).

(** Every printable character, typed with no modifier held, delivers itself. *)
Lemma type_char_scans c :
  32 <= c < 127 ->
  exists kss, scans (type_char_codes c) kb_idle = Some (kb_idle, kss) /\ List.concat kss = [P_key c] /\
    Forall (fun ks : list key_t => (List.length ks <= 1)%nat) kss /\ Forall (fun b => 0 <= b < 256) (type_char_codes c).
Proof.
  intros Hc.
  assert (H : Forall (fun c => exists kss, scans (type_char_codes c) kb_idle = Some (kb_idle, kss) /\
    List.concat kss = [P_key c] /\ Forall (fun ks : list key_t => (List.length ks <= 1)%nat) kss /\
    Forall (fun b => 0 <= b < 256) (type_char_codes c)) (seqZ 32 95)).
  { let l := eval vm_compute in (seqZ 32 95) in change (seqZ 32 95) with l.
    repeat (constructor; [eexists; split; [vm_compute; reflexivity|]; split; [reflexivity|];
                          split; repeat (constructor; [simpl; lia|]); by constructor|]). constructor. }
  rewrite List.Forall_forall in H. apply H, list_elem_of_In, elem_of_seqZ. lia.
Qed.

Lemma type_text_scans text :
  Forall (fun c => 32 <= c < 127) text ->
  exists kss, scans (type_text text) kb_idle = Some (kb_idle, kss) /\ List.concat kss = List.map P_key text /\
    Forall (fun ks : list key_t => (List.length ks <= 1)%nat) kss /\ Forall (fun b => 0 <= b < 256) (type_text text).
Proof.
  induction text as [|c text IH]; intros Ht; [by exists []|].
  apply Forall_cons_1 in Ht as [Hc Ht]. destruct (type_char_scans c Hc) as (k1 & E1 & C1 & L1 & B1).
  destruct (IH Ht) as (k2 & E2 & C2 & L2 & B2). exists (k1 ++ k2). unfold type_text. simpl.
  fold (type_text text). rewrite scans_app, E1, bind_ret, E2, bind_ret, List.concat_app, C1, C2.
  split_and!; [done|done|by apply Forall_app_2|by apply Forall_app_2].
Qed.

(** ** From the keyboard to a blocked reader *)

(** The interrupts of a run of bytes, each with the state of the driver it
    finds. *)
Fixpoint kb_irqs (bytes : list Z) (kb : kb_t) : list irq :=
  match bytes with
  | [] => []
  | b :: bytes =>
      (fun s => '(_, s') ← kb_isr term_key_handler 1 b (R_key 0) (kb, s); Some s')
      :: match scan 1 b (R_key 0) kb with Some (kb', _) => kb_irqs bytes kb' | None => [] end
  end.

Definition hands (i : irq) (ks : list key_t) : Prop := forall s, i s = foldM term_key_handler ks s.

Lemma kb_irqs_hand bytes kb kb' kss :
  Forall (fun b => 0 <= b < 256) bytes -> scan_state kb = 0 \/ scan_state kb = 1 ->
  scans bytes kb = Some (kb', kss) -> Forall2 hands (kb_irqs bytes kb) kss.
Proof.
  revert kb kss. induction bytes as [|b bytes IH]; intros kb kss Hb Hs E; cbn [scans kb_irqs] in *.
  - injection E as <- <-. constructor.
  - apply Forall_cons_1 in Hb as [Hb Hbs].
    destruct (scan 1 b (R_key 0) kb) as [[kb1 ks]|] eqn:E1; [|done]. rewrite bind_ret in E.
    destruct (scans bytes kb1) as [[kb2 kss']|] eqn:E2; [|done]. injection E as <- <-.
    assert (H1 : scan_state kb1 = 0 \/ scan_state kb1 = 1).
    { destruct (kb_isr_log log_key 1 b (R_key 0) kb [] Hb Hs) as (? & ? & E & H1 & _). rewrite E1 in E. by simplify_eq. }
    constructor; [|by apply IH]. intros s.
    destruct (kb_isr_log term_key_handler 1 b (R_key 0) kb s Hb Hs) as (? & ? & E & _ & -> & _).
    rewrite E1 in E. injection E as <- <-. by destruct (foldM term_key_handler ks s).
Qed.

(** Waiting with interrupts that each handle at most one key is waiting with
    the keys. *)
Lemma wait_kss d irqs kss k rest s s' :
  Forall2 hands irqs (kss ++ [[k]]) -> Forall (fun ks : list key_t => (List.length ks <= 1)%nat) kss ->
  wait_until d (List.map term_key_handler (List.concat kss ++ [k]) ++ rest) s = Some (s', rest) ->
  wait_until d (irqs ++ rest) s = Some (s', rest).
Proof.
  revert irqs s. induction kss as [|ks kss IH]; intros irqs s Hi Hl Hw.
  - simpl app in Hi. inversion Hi as [|i0 ? irqs0 ? H0 Hr]; subst. inversion Hr; subst.
    cbn [List.concat app List.map wait_until] in *. destruct (d s) as [[|]|]; simpl in *; [| |done].
    + exfalso. injection Hw as _ Hw. apply (f_equal (@List.length _)) in Hw. simpl in Hw. lia.
    + rewrite (H0 s). cbn [foldM]. by destruct (term_key_handler k s).
  - simpl app in Hi. inversion Hi as [|i0 ? irqs0 ? H0 Hr]; subst. apply Forall_cons_1 in Hl as [Hl Hls].
    destruct ks as [|k' [|? ?]]; [| |simpl in Hl; lia].
    + cbn [app wait_until]. simpl List.concat in Hw. rewrite (H0 s). cbn [foldM]. rewrite bind_ret.
      destruct (d s) as [[|]|] eqn:Ed; simpl; [|by apply IH|].
      * exfalso. destruct (List.concat kss ++ [k]) as [|k1 l] eqn:El; [by destruct (List.concat kss)|].
        cbn [List.map app wait_until] in Hw. rewrite Ed, bind_ret in Hw. injection Hw as _ Hw.
        apply (f_equal (@List.length _)) in Hw. rewrite length_cons, length_app in Hw. lia.
      * destruct (List.map _ _ ++ rest); cbn [wait_until] in Hw; by rewrite Ed in Hw.
    + change (List.concat ([k'] :: kss) ++ [k]) with (k' :: (List.concat kss ++ [k])) in Hw.
      cbn [app wait_until List.map] in *. destruct (d s) as [[|]|] eqn:Ed; simpl in *; [|  |done].
      * exfalso. injection Hw as _ Hw. apply (f_equal (@List.length _)) in Hw.
        rewrite length_cons, length_app in Hw. lia.
      * rewrite (H0 s). cbn [foldM]. destruct (term_key_handler k' s) as [s1|]; [|done].
        simpl in *. by apply IH.
Qed.

(** Printable keys append to the line. *)
Lemma keys_edit_text t text b :
  reading t <> 0 -> term_canon t = 0 -> Forall (fun c => 32 <= c < 127) text ->
  Z.of_nat (List.length b + List.length text) <= TERM_BUF_SIZE ->
  keys_edit t (List.map P_key text) (b, []) = (reverse text ++ b, []).
Proof.
  intros Hr Hc. revert b. induction text as [|c text IH]; intros b Ht Hl; [done|].
  apply Forall_cons_1 in Ht as [Hch Ht]. simpl List.length in Hl.
  unfold keys_edit. simpl foldl. fold (keys_edit t (List.map P_key text)).
  assert (E : key_edit t (P_key c) (b, []) = (c :: b, [])).
  { unfold key_edit, P_key, type_char, KEY_ENTER, KEY_BACK, KEY_LEFT, KEY_RIGHT, KEY_F1, KEY_F12. cbn [modifiers key_code].
    rewrite decide_False by tauto. do 2 rewrite decide_False by done. do 5 rewrite decide_False by lia.
    rewrite decide_False by done. simpl. rewrite decide_True by (simpl; lia). done. }
  fold (keys_edit t (List.map P_key text) (key_edit t (P_key c) (b, []))). rewrite E.
  rewrite IH by (done || simpl; lia). by rewrite reverse_cons, <- app_assoc.
Qed.

(** ** Properties *)

(** On a US keyboard, typing any printable text with no modifier held
    hands the handler exactly the text's characters, in order, and leaves the
    driver with no modifier held. *)
Theorem typing_correct {T} (h : key_t -> T -> option T) (s : T) (text : list Z) :
  Forall (fun c => 32 <= c < 127) text ->
  kb_bytes h (type_text text) (kb_idle, s) = (s' ← foldM h (List.map P_key text) s; Some (kb_idle, s')).
Proof.
  intros Ht. destruct (type_text_scans text Ht) as (kss & E & C & _ & B).
  destruct (kb_bytes_scans h (type_text text) kb_idle s B ltac:(by left)) as (kb' & kss' & E' & _ & ->).
  rewrite E in E'. injection E' as <- <-. by rewrite C.
Qed.

(** A modifier's codes going down and up, with its mask. *)
Definition chord_mods : list (list Z * list Z * Z) :=
  [([0x1D], [0x9D], MOD_CTRL); ([0xE0; 0x1D], [0xE0; 0x9D], MOD_CTRL);
   ([0x38], [0xB8], MOD_ALT); ([0xE0; 0x38], [0xE0; 0xB8], MOD_ALT)].

(** The scan codes and key codes of the unshifted keys and of F1 to F10. *)
Definition chord_keys : list (Z * Z) :=
  List.concat (List.map (fun '(first, plain, _) => zip (seqZ first (Z.of_nat (List.length plain))) plain) us_layout)
  ++ zip (seqZ 0x3B 10) (seqZ KEY_F1 10).

(** Control or Alt, left or right, with a key of the layout or F1 to F10,
    delivers that key alone, marked with the modifier, and leaves no modifier
    held. *)
Theorem chords_correct {T} (h : key_t -> T -> option T) (s : T) down up mask k c :
  (down, up, mask) ∈ chord_mods -> (k, c) ∈ chord_keys ->
  kb_bytes h (down ++ [k; k + 0x80] ++ up) (kb_idle, s) = (s' ← h (mkKey KEY_RAW mask c) s; Some (kb_idle, s')).
Proof.
  intros Hm Hk.
  assert (E : exists kss, scans (down ++ [k; k + 128] ++ up) kb_idle = Some (kb_idle, kss) /\
    List.concat kss = [mkKey KEY_RAW mask c] /\ Forall (fun b => 0 <= b < 256) (down ++ [k; k + 128] ++ up)).
  { revert Hm Hk. unfold chord_mods. let l := eval vm_compute in chord_keys in change chord_keys with l.
    intros Hm Hk. repeat (apply elem_of_cons in Hm as [[= -> -> ->]|Hm]); [..|by apply not_elem_of_nil in Hm];
    (repeat (apply elem_of_cons in Hk as [[= -> ->]|Hk]); [..|by apply not_elem_of_nil in Hk]);
    (eexists; split; [vm_compute; reflexivity|]; split; [reflexivity|]; repeat (constructor; [lia|]); by constructor). }
  destruct E as (kss & E & C & B).
  destruct (kb_bytes_scans h (down ++ [k; k + 128] ++ up) kb_idle s B ltac:(by left)) as (kb' & kss' & E' & _ & ->).
  rewrite E in E'. injection E' as <- <-. rewrite C. simpl. by destruct (h _ s).
Qed.

(** An interrupt of the keyboard, on the terminals. *)
Lemma kb_isr_spec (status b : Z) (junk : key_t) (kb : kb_t) (s : tstate) (t : term_t) :
  0 <= b < 256 -> scan_state kb = 0 \/ scan_state kb = 1 ->
  twf s -> arr_get (terms s) (cur_term_ind s) = Some t -> is_Some (pcbs s !! TASK_KSTACK_TOP (cur_pid t)) ->
  exists kb' s', kb_isr term_key_handler status b junk (kb, s) = Some (kb', s') /\ twf s' /\ mild s s' /\
    (scan_state kb' = 0 \/ scan_state kb' = 1) /\ (Z.land status 1 = 0 -> kb' = kb /\ s' = s).
Proof.
  intros Hb Hk Hs Et Hp.
  destruct (kb_isr_log term_key_handler status b junk kb s Hb Hk) as (kb' & ks & Es & Hk' & E & Hl).
  assert (Hdead : Z.land status 1 = 0 -> kb' = kb /\ ks = []).
  { intros H0. unfold scan, kb_isr in Es. rewrite decide_True in Es by done. by injection Es as <- <-. }
  assert (Hone : forall k, exists s', term_key_handler k s = Some s' /\ twf s' /\ mild s s' /\ (~ switch_key k ->
    exists t', arr_get (terms s') (cur_term_ind s') = Some t' /\ is_Some (pcbs s' !! TASK_KSTACK_TOP (cur_pid t')))).
  { intros k. destruct (key_handler_spec s t k Hs Et Hp) as (s' & E' & (W & t' & G & _ & _ & (_ & _ & _ & R) & Hpc) & Hi).
    exists s'. do 3 (split; [done|]). intros Hns. exists t'. rewrite (Hi Hns), R. split; [done|]. by eapply mild_pcb. }
  assert (Hks : exists s', foldM term_key_handler ks s = Some s' /\ twf s' /\ mild s s' /\ (ks = [] -> s' = s)).
  { destruct Hl as [Hl|(k & -> & Hkk)].
    - destruct ks as [|k [|? ?]]; [exists s; split_and!; [done|done|apply mild_refl|done]| |simpl in Hl; lia].
      destruct (Hone k) as (s' & E' & W & Hm & _). exists s'. cbn [foldM]. by rewrite E'.
    - destruct (Hone k) as (s1 & E1 & W1 & Hm1 & R). destruct R as (t1 & Et1 & Hp1).
      { intros [Hm _]. destruct Hkk as [-> | ->]; done. }
      destruct (key_handler_spec s1 t1 (mark_modifiers kb junk) W1 Et1 Hp1) as (s2 & E2 & (W2 & _ & _ & _ & _ & _ & Hm2) & _).
      exists s2. cbn [foldM]. rewrite E1, bind_ret, E2. split_and!; [done|done|by eapply mild_trans|done]. }
  destruct Hks as (s' & Ef & W & Hm & Hsame). exists kb', s'. rewrite E, Ef. do 4 (split; [done|]).
  intros H0. destruct (Hdead H0) as [-> ->]. auto.
Qed.

(** No byte, in any state the driver reaches and whatever the status port
    reads, makes the interrupt routine fault: the terminals keep their
    invariant, the processes in front of them, all other memory and the PCBs but
    for pending signals stay, and the scan state is one of the two. *)
Theorem kb_isr_safe (status b : Z) (junk : key_t) (kb : kb_t) (s : tstate) (t : term_t) :
  0 <= b < 256 -> scan_state kb = 0 \/ scan_state kb = 1 ->
  twf s -> arr_get (terms s) (cur_term_ind s) = Some t -> is_Some (pcbs s !! TASK_KSTACK_TOP (cur_pid t)) ->
  exists kb' s', kb_isr term_key_handler status b junk (kb, s) = Some (kb', s') /\ twf s' /\ mild s s' /\
    (scan_state kb' = 0 \/ scan_state kb' = 1) /\ (Z.land status 1 = 0 -> kb' = kb /\ s' = s).
Proof. apply kb_isr_spec. Qed.

(** C19: A task blocked in a line read gets the text typed on the keyboard: the
    scan codes of a printable text and Enter, delivered by interrupts while it
    waits, make [term_read] return with the text and a newline, cut at the
    size of its buffer. *)
Theorem keyboard_read_correct (s : tstate) (t : term_t) (buf nbytes : Z) (text : list Z) :
  twf s -> arr_get (terms s) (cur_term_ind s) = Some t -> term_canon t = 0 -> term_read_done t = 0 ->
  term_buf_count t = 0 -> is_Some (pcbs s !! TASK_KSTACK_TOP (cur_pid t)) ->
  0 < buf -> buf + 128 <= 4294967296 -> 0 <= nbytes ->
  Forall (fun c => 32 <= c < 127) text -> Z.of_nat (List.length text) <= TERM_BUF_SIZE ->
  let n := Z.min nbytes (Z.of_nat (List.length text) + 1) in
  exists s', term_read (cur_term_ind s) buf nbytes (kb_irqs (type_text text ++ [0x1C]) kb_idle) s = Some (n, s', []) /\
    load_bytes (vmem s') buf n = take (Z.to_nat n) (text ++ [10]).
Proof.
  intros Hs Et Hcan Hd Hcount Hp Hbuf Hend Hn Ht Hlen n.
  destruct (type_text_scans text Ht) as (kss & E & C & L & B).
  assert (E1 : scans (type_text text ++ [0x1C]) kb_idle = Some (kb_idle, kss ++ [[R_key KEY_ENTER]])).
  { rewrite scans_app, E, bind_ret. done. }
  assert (Hhand : Forall2 hands (kb_irqs (type_text text ++ [0x1C]) kb_idle) (kss ++ [[R_key KEY_ENTER]])).
  { apply (kb_irqs_hand _ _ kb_idle); [|by left|done]. apply Forall_app_2; [done|]. repeat constructor; lia. }
  pose proof (ts_term s Hs _ _ Et) as Hw. destruct (tw_line _ _ _ Hw) as [Lb Lc Lp].
  assert (Hed : ed_of t = ([], [])).
  { unfold ed_of. assert (term_curpos t = 0) as -> by lia. by rewrite Hcount. }
  destruct (term_read_line_spec s t buf nbytes (List.map P_key text) (R_key KEY_ENTER)
    (kb_irqs (type_text text ++ [0x1C]) kb_idle) []) as (s' & t' & Er & Hload & _); try done.
  - apply Forall_map. eapply Forall_impl; [|exact Ht]. intros c Hc. split; [by intros [? _]|].
    unfold enter_key, P_key, KEY_ENTER, MOD_CTRL, MOD_ALT. cbn [modifiers key_code].
    simpl in Hc. do 2 rewrite (bool_decide_false (_ /\ _)) by lia. apply andb_false_r.
  - unfold enter_key. by rewrite bool_decide_true by done.
  - intros s1 s2 Hwait. rewrite <- (app_nil_r (kb_irqs _ _)).
    apply (wait_kss _ _ kss (R_key KEY_ENTER)); [done|done|]. by rewrite C.
  - rewrite Hed in Er, Hload.
    rewrite (keys_edit_text (set_reading 1 t) text []) in Er, Hload by (done || simpl; lia).
    unfold ed_text in Er, Hload. rewrite !app_nil_r, reverse_involutive in Er, Hload.
    rewrite length_app in Er, Hload. replace (Z.of_nat (List.length text + List.length [10]))
      with (Z.of_nat (List.length text) + 1) in Er, Hload by (simpl; lia). fold n in Er, Hload.
    exists s'. split; [done|]. rewrite Hload. rewrite <- (list_fmap_id (take _ _)) at 2.
    apply list_fmap_ext. intros i x Hx. apply u8_small.
    rewrite lookup_take in Hx. case_decide; [|done].
    assert (Hall : Forall (fun c => 0 <= c < 256) (text ++ [10])).
    { apply Forall_app_2; [|by repeat constructor]. eapply Forall_impl; [|exact Ht]. simpl. lia. }
    by apply (Forall_lookup_1 _ _ _ _ Hall Hx).
Qed.

(** ** Witnesses *)

Lemma typing_correct_witness :
  kb_bytes log_key (type_text (codes "ls -A; Hi?")) (kb_idle, []) = Some (kb_idle, List.map P_key (codes "ls -A; Hi?")).
Proof.
  rewrite (typing_correct log_key [] (codes "ls -A; Hi?")); [reflexivity|].
  repeat (constructor; [vm_compute; split; congruence|]). constructor.
Defined.

Lemma chords_correct_witness :
  kb_bytes log_key [0x38; 0x3C; 0xBC; 0xB8] (kb_idle, []) = Some (kb_idle, [A_key 0x8B]).
Proof.
  apply (chords_correct log_key [] [0x38] [0xB8] MOD_ALT 0x3C 0x8B).
  - vm_compute. right. right. left.
  - vm_compute. repeat (left || right).
Defined.

Lemma kb_isr_safe_witness :
  exists kb' s', kb_isr term_key_handler 1 0x58 (mkKey KEY_RAW 7 200) (kb_idle, sample_ts) = Some (kb', s') /\ twf s'.
Proof.
  destruct (kb_isr_safe 1 0x58 (mkKey KEY_RAW 7 200) kb_idle sample_ts (blank_term VIDEO (backing 0)))
    as (kb' & s' & E & W & _).
  - lia.
  - left. reflexivity.
  - apply sample_ts_wf.
  - reflexivity.
  - eexists. reflexivity.
  - exists kb', s'. split; [exact E|exact W].
Defined.

Lemma keyboard_read_correct_witness :
  exists s', term_read 0 0x8048000 100 (kb_irqs (type_text (codes "Cat frame0.txt") ++ [0x1C]) kb_idle) sample_ts
    = Some (15, s', []) /\ load_bytes (vmem s') 0x8048000 15 = codes "Cat frame0.txt" ++ [10].
Proof.
  destruct (keyboard_read_correct sample_ts (blank_term VIDEO (backing 0)) 0x8048000 100 (codes "Cat frame0.txt"))
    as (s' & E & L).
  - apply sample_ts_wf.
  - reflexivity.
  - reflexivity.
  - reflexivity.
  - reflexivity.
  - eexists. reflexivity.
  - lia.
  - lia.
  - lia.
  - repeat (constructor; [vm_compute; split; congruence|]). constructor.
  - vm_compute. discriminate.
  - exists s'. split; [exact E|]. exact L.
Defined.
