(* ===== verification/I8259.v ===== *)
(** * The interrupt controller: student-distrib/i8259.c

    The driver keeps the mask of each of the two chips and writes it to the
    chip's data port on every change.  A write to a port is an entry of a log,
    oldest first. *)
From stdpp Require Import base tactics list numbers gmap option.
From Stdlib Require Import ZArith Lia.
From S2P Require Import Prelude.

Open Scope Z_scope.

Definition MASTER_8259_PORT : Z := 0x20.
Definition MASTER_8259_DATA : Z := 0x21.
Definition SLAVE_8259_PORT : Z := 0xA0.
Definition SLAVE_8259_DATA : Z := 0xA1.
Definition ICW1 : Z := 0x11.
Definition ICW2_MASTER : Z := 0x20.
Definition ICW2_SLAVE : Z := 0x28.
Definition ICW3_MASTER : Z := 0x04.
Definition ICW3_SLAVE : Z := 0x02.
Definition ICW4 : Z := 0x01.
Definition EOI : Z := 0x60.
Definition KB_IRQ : Z := 1.
Definition SLAVE_PIC_IRQ : Z := 2.
Definition RTC_IRQ : Z := 8.
Definition ALL_MASKED : Z := 0xFF.
Definition TO_UNMASK : Z := 0xFE.
Definition TO_MASK : Z := 0x01.
Definition SLAVE_IRQ_OFF : Z := 8.

Record pic := mkPic {
  master_mask : Z;               (* uint8_t *)
  slave_mask : Z;                (* uint8_t *)
  pic_ports : list (Z * Z)       (* port, value *)
}.

Definition pic_outb (data port : Z) (p : pic) : pic :=
  mkPic (master_mask p) (slave_mask p) (pic_ports p ++ [(port, u8 data)]).
Definition set_master (v : Z) (p : pic) : pic := mkPic v (slave_mask p) (pic_ports p).
Definition set_slave (v : Z) (p : pic) : pic := mkPic (master_mask p) v (pic_ports p).

(** [i8259_init()] *)
Definition i8259_init (p : pic) : pic :=
  let p := set_slave ALL_MASKED (set_master ALL_MASKED p) in
  let p := pic_outb ALL_MASKED MASTER_8259_DATA p in
  let p := pic_outb ALL_MASKED SLAVE_8259_DATA p in
  let p := pic_outb ICW1 MASTER_8259_PORT p in
  let p := pic_outb ICW1 SLAVE_8259_PORT p in
  let p := pic_outb ICW2_MASTER MASTER_8259_DATA p in
  let p := pic_outb ICW2_SLAVE SLAVE_8259_DATA p in
  let p := pic_outb ICW3_MASTER MASTER_8259_DATA p in
  let p := pic_outb ICW3_SLAVE SLAVE_8259_DATA p in
  let p := pic_outb ICW4 MASTER_8259_DATA p in
  let p := pic_outb ICW4 SLAVE_8259_DATA p in
  let p := pic_outb ALL_MASKED MASTER_8259_DATA p in
  pic_outb ALL_MASKED SLAVE_8259_DATA p.

(** [enable_irq(irq_num)]; [irq_num] is a [uint32_t]. *)
Definition enable_irq (irq_num : Z) (p : pic) : pic :=
  if decide (irq_num < 0 \/ irq_num > 15) then p
  else if decide (irq_num < SLAVE_IRQ_OFF) then
    let enable := for_up 0 irq_num (fun _ enable => u8 (Z.shiftl enable 1 + 1)) TO_UNMASK in
    let p := set_master (Z.land (master_mask p) enable) p in
    pic_outb (master_mask p) MASTER_8259_DATA p
  else
    let enable := for_up SLAVE_IRQ_OFF irq_num (fun _ enable => u8 (Z.shiftl enable 1 + 1)) TO_UNMASK in
    let p := set_slave (Z.land (slave_mask p) enable) p in
    let p := set_master (Z.land (master_mask p) (Z.lnot ICW3_SLAVE)) p in
    pic_outb (master_mask p) MASTER_8259_DATA (pic_outb (slave_mask p) SLAVE_8259_DATA p).

(** [disable_irq(irq_num)] *)
Definition disable_irq (irq_num : Z) (p : pic) : pic :=
  if decide (irq_num < 0 \/ irq_num > 15) then p
  else if decide (irq_num < SLAVE_IRQ_OFF) then
    let disable := for_up 0 irq_num (fun _ disable => u8 (Z.shiftl disable 1)) TO_MASK in
    let p := set_master (Z.lor (master_mask p) disable) p in
    pic_outb (master_mask p) MASTER_8259_DATA p
  else
    let disable := for_up SLAVE_IRQ_OFF irq_num (fun _ disable => u8 (Z.shiftl disable 1)) TO_MASK in
    let p := set_slave (Z.lor (slave_mask p) disable) p in
    let p := if decide (slave_mask p = 0) then set_master (Z.lor (master_mask p) ICW3_SLAVE) p else p in
    pic_outb (master_mask p) MASTER_8259_DATA (pic_outb (slave_mask p) SLAVE_8259_DATA p).

(** [send_eoi(irq_num)] *)
Definition send_eoi (irq_num : Z) (p : pic) : pic :=
  if decide (irq_num < 0 \/ irq_num > 15) then p
  else if decide (irq_num < SLAVE_IRQ_OFF) then pic_outb (Z.lor irq_num EOI) MASTER_8259_PORT p
  else
    pic_outb (Z.lor ICW3_SLAVE EOI) MASTER_8259_PORT
      (pic_outb (Z.lor (irq_num - SLAVE_IRQ_OFF) EOI) SLAVE_8259_PORT p).

(** ** The lines of the two chips *)

(** Line [n] of 0 to 15 is masked. *)
Definition masked (p : pic) (n : Z) : bool :=
  if decide (n < 8) then Z.testbit (master_mask p) n else Z.testbit (slave_mask p) (n - 8).

(** What a chip was last told. *)
Definition last_write (port : Z) (l : list (Z * Z)) : option Z :=
  match filter (fun w => w.1 = port) (reverse l) with w :: _ => Some w.2 | [] => None end.

Record pic_ok (p : pic) : Prop := {
  pk_master : 0 <= master_mask p < 256;
  pk_slave : 0 <= slave_mask p < 256;
  pk_told_master : last_write MASTER_8259_DATA (pic_ports p) = Some (master_mask p);
  pk_told_slave : last_write SLAVE_8259_DATA (pic_ports p) = Some (slave_mask p)
}.

Lemma last_write_snoc port l p v :
  last_write port (l ++ [(p, v)]) = if decide (p = port) then Some v else last_write port l.
Proof. unfold last_write. rewrite reverse_snoc, filter_cons. simpl. by case_decide. Qed.

(** A loop that does not look at its counter. *)
Lemma foldl_const {A B} (f : B -> B) (l : list A) z : foldl (fun s _ => f s) z l = Nat.iter (length l) f z.
Proof.
  revert z. induction l as [|x l IH]; intros z; [done|].
  cbn [foldl length]. by rewrite IH, <- Nat.iter_succ_r.
Qed.

(** The masks the loops of [enable_irq] and [disable_irq] compute. *)
Lemma enable_mask lo n :
  0 <= n < 8 -> for_up lo (lo + n) (fun _ enable => u8 (Z.shiftl enable 1 + 1)) TO_UNMASK = 255 - 2 ^ n.
Proof.
  intros Hn. unfold for_up. replace (lo + n - lo) with n by lia.
  rewrite (foldl_const (fun s => u8 (Z.shiftl s 1 + 1))), length_seqZ.
  assert (C : n = 0 \/ n = 1 \/ n = 2 \/ n = 3 \/ n = 4 \/ n = 5 \/ n = 6 \/ n = 7) by lia.
  destruct C as [->|[->|[->|[->|[->|[->|[->| ->]]]]]]]; reflexivity.
Qed.

Lemma disable_mask lo n :
  0 <= n < 8 -> for_up lo (lo + n) (fun _ disable => u8 (Z.shiftl disable 1)) TO_MASK = 2 ^ n.
Proof.
  intros Hn. unfold for_up. replace (lo + n - lo) with n by lia.
  rewrite (foldl_const (fun s => u8 (Z.shiftl s 1))), length_seqZ.
  assert (C : n = 0 \/ n = 1 \/ n = 2 \/ n = 3 \/ n = 4 \/ n = 5 \/ n = 6 \/ n = 7) by lia.
  destruct C as [->|[->|[->|[->|[->|[->|[->| ->]]]]]]]; reflexivity.
Qed.

Lemma unmask_bit m n i :
  0 <= m < 256 -> 0 <= n < 8 -> 0 <= i ->
  Z.testbit (Z.land m (255 - 2 ^ n)) i = Z.testbit m i && negb (n =? i).
Proof.
  intros Hm Hn Hi. rewrite Z.land_spec. destruct (decide (i < 8)).
  - f_equal. assert (C : n = 0 \/ n = 1 \/ n = 2 \/ n = 3 \/ n = 4 \/ n = 5 \/ n = 6 \/ n = 7) by lia.
    assert (D : i = 0 \/ i = 1 \/ i = 2 \/ i = 3 \/ i = 4 \/ i = 5 \/ i = 6 \/ i = 7) by lia.
    destruct C as [->|[->|[->|[->|[->|[->|[->| ->]]]]]]], D as [->|[->|[->|[->|[->|[->|[->| ->]]]]]]]; reflexivity.
  - by rewrite (testbit_above m 8) by lia.
Qed.

Lemma mask_bit m n i :
  0 <= n -> 0 <= i -> Z.testbit (Z.lor m (2 ^ n)) i = Z.testbit m i || (n =? i).
Proof. intros Hn Hi. by rewrite Z.lor_spec, Z.pow2_bits_eqb by lia. Qed.

Lemma pow2_byte n : 0 <= n < 8 -> 0 <= 2 ^ n < 2 ^ 8.
Proof. intros Hn. split; [by apply Z.pow_nonneg|]. apply Z.pow_lt_mono_r; lia. Qed.

Lemma unmask_range m k : 0 <= m < 256 -> 0 <= Z.land m k < 256.
Proof. intros Hm. rewrite Z.land_comm. apply (land_below k m 8); lia. Qed.

Lemma told_ok p m :
  pic_ok p -> 0 <= m < 256 -> pic_ok (pic_outb m MASTER_8259_DATA (set_master m p)).
Proof.
  intros [H1 H2 H3 H4] Hm. unfold pic_outb, set_master. split; cbn [master_mask slave_mask pic_ports]; try assumption;
    rewrite last_write_snoc; [|done]. rewrite decide_True by done. unfold u8. by rewrite Z.mod_small.
Qed.

Lemma told_both_ok p m s :
  pic_ok p -> 0 <= m < 256 -> 0 <= s < 256 ->
  pic_ok (pic_outb m MASTER_8259_DATA (pic_outb s SLAVE_8259_DATA (set_master m (set_slave s p)))).
Proof.
  intros [H1 H2 H3 H4] Hm Hs. unfold pic_outb, set_master, set_slave.
  split; cbn [master_mask slave_mask pic_ports]; try assumption; rewrite !last_write_snoc; unfold u8; rewrite !Z.mod_small by done; done.
Qed.

Lemma init_ok p : pic_ok (i8259_init p).
Proof. split; try done; unfold i8259_init; simpl; rewrite !last_write_snoc; done. Qed.

(** ** Properties *)

(** After initialisation every line is masked, and the two chips know it. *)
Theorem i8259_init_correct (p : pic) :
  pic_ok (i8259_init p) /\ forall n, 0 <= n < 16 -> masked (i8259_init p) n = true.
Proof.
  split.
  - apply init_ok.
  - intros n Hn. unfold masked. simpl. change ALL_MASKED with (Z.ones 8).
    case_decide; by apply Z.ones_spec_low; lia.
Qed.

(** [enable_irq] unmasks its line and [disable_irq] masks it, whatever the
    lines masked before, and the chips are told the new masks.  Both leave the
    other lines alone, but for one thing: enabling a line of the slave chip also
    unmasks line 1 of the master, and line 2, to which the slave is wired, has
    to be enabled by the caller.  Numbers past 15 change nothing. *)
Theorem irq_mask_correct (p : pic) (n : Z) :
  pic_ok p -> 0 <= n ->
  let p1 := enable_irq n p in let p2 := disable_irq n p in
  pic_ok p1 /\ pic_ok p2 /\
  (n < 16 -> forall i, 0 <= i < 16 ->
     masked p1 i = masked p i && negb (i =? n) && negb ((8 <=? n) && (i =? 1)) /\
     masked p2 i = masked p i || (i =? n)) /\
  (16 <= n -> p1 = p /\ p2 = p).
Proof.
  intros Hp Hn p1 p2. destruct (decide (n > 15)) as [D|D].
  { subst p1 p2. unfold enable_irq, disable_irq. rewrite !decide_True by lia. split; [done|]. split; [done|]. split; [lia|done]. }
  pose proof Hp as [H1 H2 H3 H4]. subst p1 p2. unfold enable_irq, disable_irq, SLAVE_IRQ_OFF.
  rewrite !(decide_False (P := n < 0 \/ n > 15)) by lia. destruct (decide (n < 8)) as [Hl|Hl].
  - pose proof (enable_mask 0 n ltac:(lia)) as E1. pose proof (disable_mask 0 n ltac:(lia)) as E2.
    rewrite Z.add_0_l in E1, E2. rewrite E1, E2. cbv zeta.
    assert (R1 := unmask_range (master_mask p) (255 - 2 ^ n) H1).
    assert (R2 : 0 <= Z.lor (master_mask p) (2 ^ n) < 256).
    { apply (lor_below _ _ 8); [lia|lia|]. apply (pow2_byte n); lia. }
    split; [|split; [|split; [|lia]]].
    + by apply told_ok.
    + by apply told_ok.
    + intros _ i Hi. unfold masked. simpl. rewrite (proj2 (Z.leb_gt 8 n)) by lia. simpl. rewrite andb_true_r.
      destruct (decide (i < 8)).
      * rewrite unmask_bit, mask_bit by lia. by rewrite Z.eqb_sym.
      * rewrite (proj2 (Z.eqb_neq i n)) by lia. by rewrite andb_true_r, orb_false_r.
  - pose proof (enable_mask 8 (n - 8) ltac:(lia)) as E1. pose proof (disable_mask 8 (n - 8) ltac:(lia)) as E2.
    replace (8 + (n - 8)) with n in E1, E2 by lia. rewrite E1, E2. cbv zeta.
    assert (R1 := unmask_range (slave_mask p) (255 - 2 ^ (n - 8)) H2).
    assert (R2 : 0 <= Z.lor (slave_mask p) (2 ^ (n - 8)) < 256).
    { apply (lor_below _ _ 8); [lia|lia|]. apply (pow2_byte (n - 8)); lia. }
    assert (R3 := unmask_range (master_mask p) (Z.lnot ICW3_SLAVE) H1).
    cbn [slave_mask set_slave].
    assert (N : Z.lor (slave_mask p) (2 ^ (n - 8)) <> 0).
    { intros E. apply Z.lor_eq_0_iff in E as [_ E]. pose proof (Z.pow_pos_nonneg 2 (n - 8)). lia. }
    rewrite (decide_False (P := Z.lor _ _ = 0)) by done.
    split; [|split; [|split; [|lia]]].
    + by apply told_both_ok.
    + by apply told_both_ok.
    + intros _ i Hi. unfold masked. simpl. rewrite (proj2 (Z.leb_le 8 n)) by lia. simpl.
      destruct (decide (i < 8)).
      * rewrite (proj2 (Z.eqb_neq i n)) by lia. rewrite andb_true_r, orb_false_r. split; [|done].
        change (Z.lnot ICW3_SLAVE) with (Z.lnot (2 ^ 1)). rewrite Z.land_spec, Z.lnot_spec, Z.pow2_bits_eqb by lia.
        by rewrite (Z.eqb_sym 1 i).
      * rewrite unmask_bit, mask_bit by lia. rewrite (proj2 (Z.eqb_neq i 1)) by lia. rewrite andb_true_r.
        replace (n - 8 =? i - 8) with (i =? n); [done|]. apply eq_true_iff_eq. rewrite !Z.eqb_eq. lia.
Qed.

Lemma irq_mask_correct_witness :
  let p := enable_irq 8 (i8259_init (mkPic 0 0 [])) in
  pic_ok p /\ masked p 8 = false /\ masked p 1 = false /\ masked p 2 = true.
Proof.
  destruct (irq_mask_correct (i8259_init (mkPic 0 0 [])) 8) as (H & _ & B & _).
  - apply init_ok.
  - lia.
  - split; [exact H|]. split; [|split]; (etransitivity; [apply B; lia|reflexivity]).
Defined.

(** An end of interrupt names its line to the chip that raised it; for a
    line of the slave, the master is told about line 2 after it. *)
Theorem send_eoi_correct (p : pic) (n : Z) :
  0 <= n ->
  pic_ports (send_eoi n p) = pic_ports p ++
    (if decide (n < 8) then [(MASTER_8259_PORT, 0x60 + n)]
     else if decide (n < 16) then [(SLAVE_8259_PORT, 0x60 + (n - 8)); (MASTER_8259_PORT, 0x60 + SLAVE_PIC_IRQ)]
     else []) /\
  master_mask (send_eoi n p) = master_mask p /\ slave_mask (send_eoi n p) = slave_mask p.
Proof.
  intros Hn. unfold send_eoi.
  assert (E : forall k, 0 <= k < 8 -> u8 (Z.lor k EOI) = 0x60 + k).
  { intros k Hk. assert (C : k = 0 \/ k = 1 \/ k = 2 \/ k = 3 \/ k = 4 \/ k = 5 \/ k = 6 \/ k = 7) by lia.
    destruct C as [->|[->|[->|[->|[->|[->|[->| ->]]]]]]]; reflexivity. }
  unfold SLAVE_IRQ_OFF. destruct (decide (n < 8)).
  - rewrite decide_False by lia. unfold pic_outb. simpl. by rewrite E by lia.
  - destruct (decide (n < 16)).
    + rewrite decide_False by lia. unfold pic_outb. simpl. by rewrite E, <- app_assoc by lia.
    + rewrite decide_True by lia. by rewrite app_nil_r.
Qed.

Lemma send_eoi_correct_witness :
  pic_ports (send_eoi 8 (mkPic 255 255 [])) = [(SLAVE_8259_PORT, 0x60); (MASTER_8259_PORT, 0x62)].
Proof. apply (send_eoi_correct (mkPic 255 255 []) 8). lia. Defined.
