(* ===== verification/Page.v ===== *)
(** * Paging: student-distrib/page.c

    The page directory and the two page tables as arrays of 32-bit entries, in
    which the structures of page.h are bit fields.  [walk] is the processor's
    translation (two levels, with 4 MB pages), in terms of which the effect of
    [init_page] and of the kernel's later changes is stated. *)
From stdpp Require Import base tactics list numbers gmap option.
From Stdlib Require Import ZArith Lia.
From S2P Require Import Prelude Task.

Open Scope Z_scope.

Definition MAX_ENTRIES : Z := 1024.
Definition ADDRESS_SHIFT : Z := 12.
Definition VID_MEM_ADDR : Z := 0xB8.
Definition BACKGROUND_1 : Z := 0xB9.
Definition BACKGROUND_2 : Z := 0xBA.
Definition BACKGROUND_3 : Z := 0xBB.

(** A bit field: its first bit and width. *)
Abbreviation bitfield := (Z * Z)%type.

(** The fields of [page_PDE], [table_PDE] and [PTE_t]; those up to the size bit
    are at the same place in all three. *)
Definition present : bitfield := (0, 1).
Definition read_write : bitfield := (1, 1).
Definition user_super : bitfield := (2, 1).
Definition pwt : bitfield := (3, 1).
Definition pcd : bitfield := (4, 1).
Definition accessed : bitfield := (5, 1).
Definition dirty : bitfield := (6, 1).
Definition page_size : bitfield := (7, 1).
Definition global : bitfield := (8, 1).
Definition available : bitfield := (9, 3).
Definition page_PDE_pat : bitfield := (12, 1).
Definition page_PDE_reserved : bitfield := (13, 9).
Definition page_PDE_page_addr : bitfield := (22, 10).
Definition table_PDE_reserved : bitfield := (6, 1).
Definition table_PDE_table_addr : bitfield := (12, 20).
Definition PTE_pat : bitfield := (7, 1).
Definition PTE_page_addr : bitfield := (12, 20).

Definition field_of (f : bitfield) (e : Z) : Z := bits f.1 f.2 e.

(** A run of assignments to the fields of an entry. *)
Definition assign (l : list (bitfield * Z)) (e : Z) : Z :=
  foldl (fun e '(f, v) => with_bits f.1 f.2 v e) e l.

Record paging := mkPaging {
  page_directory : list Z;
  vidmem_page_table : list Z;
  user_vidmem_page_table : list Z
}.

(** [a[i].x = ...; a[i].y = ...] *)
Definition update (i : Z) (f : Z -> Z) (l : list Z) : option (list Z) :=
  e ← arr_get l i; arr_set l i (f e).

(** The entries [init_page] sets up, as it assigns them. *)
Definition table_entry (us table : Z) : list (bitfield * Z) :=
  [(present, 1); (read_write, 1); (user_super, us); (pwt, 0); (pcd, 0); (accessed, 0); (table_PDE_reserved, 0);
   (page_size, 0); (global, 0); (available, 0); (table_PDE_table_addr, Z.shiftr table ADDRESS_SHIFT)].

Definition page_entry (p us g addr : Z) : list (bitfield * Z) :=
  [(present, p); (read_write, 1); (user_super, us); (pwt, 0); (pcd, 0); (accessed, 0); (dirty, 0); (page_size, 1);
   (global, g); (available, 0); (page_PDE_pat, 0); (page_PDE_reserved, 0); (page_PDE_page_addr, addr)].

Definition vidmem_entry (i : Z) : list (bitfield * Z) :=
  (if decide (i = VID_MEM_ADDR \/ i = BACKGROUND_1 \/ i = BACKGROUND_2 \/ i = BACKGROUND_3)
   then [(present, 1); (user_super, 1)] else [(present, 0); (user_super, 0)]) ++
  [(read_write, 1); (pwt, 0); (pcd, 0); (accessed, 0); (dirty, 0); (PTE_pat, 0); (global, 0); (available, 0);
   (PTE_page_addr, i)].

Definition user_vidmem_entry (i : Z) : list (bitfield * Z) :=
  [(read_write, 1); (pwt, 0); (pcd, 0); (accessed, 0); (dirty, 0); (PTE_pat, 0); (global, 0); (available, 0);
   (PTE_page_addr, i)] ++
  (if decide (i = 0) then [(present, 1); (user_super, 1); (PTE_page_addr, VID_MEM_ADDR)]
   else [(present, 0); (user_super, 0)]).

(** [init_page()]; [vt] and [ut] are the addresses of the two page tables.  The
    control registers, which it loads last, are not modelled: [walk] is what
    they turn on. *)
Definition init_page (vt ut : Z) (p : paging) : option paging :=
  pd ← update 0 (assign (table_entry 0 vt)) (page_directory p);
  pd ← update 1 (assign (page_entry 1 1 1 1)) pd;
  v ← for_upM 0 MAX_ENTRIES (fun i => update i (assign (vidmem_entry i))) (vidmem_page_table p);
  u ← for_upM 0 MAX_ENTRIES (fun i => update i (assign (user_vidmem_entry i))) (user_vidmem_page_table p);
  pd ← for_upM 2 MAX_ENTRIES (fun j => update j (assign (page_entry 0 0 0 0))) pd;
  pd ← update USER_PAGE_INDEX (assign (page_entry 1 1 0 USER_PAGE_INDEX)) pd;
  pd ← update USER_VIDMEM_INDEX (assign (table_entry 1 ut)) pd;
  Some (mkPaging pd v u).

(** [page_directory[USER_PAGE_INDEX].page_PDE.page_addr = TASK_PAGE_INDEX(pid)]:
    the user page becomes that of the task [pid]. *)
Definition set_task_page (pid : Z) (p : paging) : option paging :=
  pd ← update USER_PAGE_INDEX (assign [(page_PDE_page_addr, TASK_PAGE_INDEX pid)]) (page_directory p);
  Some (mkPaging pd (vidmem_page_table p) (user_vidmem_page_table p)).

(** [user_vidmem_page_table[0].page_addr = addr] *)
Definition set_vidmap_page (addr : Z) (p : paging) : option paging :=
  u ← update 0 (assign [(PTE_page_addr, addr)]) (user_vidmem_page_table p);
  Some (mkPaging (page_directory p) (vidmem_page_table p) u).

(** ** Translation *)

(** A virtual address through the tables: the physical address and whether user
    code may use it; [None] is a page fault.  [vt] and [ut] are the page tables
    a directory entry can point to. *)
Definition walk (vt ut : Z) (p : paging) (va : Z) : option (Z * bool) :=
  pde ← arr_get (page_directory p) (Z.shiftr va 22);
  if decide (field_of present pde = 0) then None
  else if decide (field_of page_size pde = 1) then
    Some (field_of page_PDE_page_addr pde * 2 ^ 22 + va mod 2 ^ 22, bool_decide (field_of user_super pde = 1))
  else
    table ← (let a := field_of table_PDE_table_addr pde * 2 ^ 12 in
             if decide (a = vt) then Some (vidmem_page_table p)
             else if decide (a = ut) then Some (user_vidmem_page_table p) else None);
    pte ← arr_get table (Z.shiftr va 12 mod 2 ^ 10);
    if decide (field_of present pte = 0) then None
    else Some (field_of PTE_page_addr pte * 2 ^ 12 + va mod 2 ^ 12,
               bool_decide (field_of user_super pde = 1 /\ field_of user_super pte = 1)).

(** The map the kernel runs with: the pages of video memory (not for user code)
    and the kernel's page where they are, the user page at the physical 4 MB
    page [up], and one page for user code to draw on at physical page [vp]. *)
Definition kernel_map (up vp va : Z) : option (Z * bool) :=
  if decide (0xB8000 <= va < 0xBC000) then Some (va, false)
  else if decide (0x400000 <= va < 0x800000) then Some (va, true)
  else if decide (TASK_VIRT_PAGE_BEG <= va < TASK_VIRT_PAGE_END) then
    Some (0x400000 * up + (va - TASK_VIRT_PAGE_BEG), true)
  else if decide (TASK_VIDMEM_START <= va < TASK_VIDMEM_START + 0x1000) then
    Some (0x1000 * vp + (va - TASK_VIDMEM_START), true)
  else None.

(** ** Entries *)

(** The value of a field after assignments: the last one made to it. *)
Fixpoint last_field (g : bitfield) (l : list (bitfield * Z)) : option Z :=
  match l with
  | [] => None
  | (f, v) :: l =>
      match last_field g l with
      | Some x => Some x
      | None => if decide (f = g) then Some v else None
      end
  end.

(** Each assigned field is [g] or apart from it. *)
Definition apart (g : bitfield) (l : list (bitfield * Z)) : Prop :=
  Forall (fun '((s, w), v) => 0 <= s /\ 0 <= w /\
    ((s, w) = g /\ 0 <= v < 2 ^ w \/ (s, w) <> g /\ (g.1 + g.2 <= s \/ s + w <= g.1))) l.

Lemma assign_app l1 l2 e : assign l2 (assign l1 e) = assign (l1 ++ l2) e.
Proof. unfold assign. by rewrite foldl_app. Qed.

Lemma field_assign g l e :
  0 <= g.1 -> 0 <= g.2 -> apart g l -> field_of g (assign l e) = default (field_of g e) (last_field g l).
Proof.
  intros H1 H2. revert e. induction l as [|[[s w] v] l IH]; intros e Ha; [done|].
  apply Forall_cons_1 in Ha as [(Hs & Hw & Hd) Ha]. change (assign ((s, w, v) :: l) e) with (assign l (with_bits s w v e)).
  rewrite IH by done. simpl. destruct (last_field g l); [done|]. simpl. case_decide as D.
  - subst g. simpl. destruct Hd as [[_ Hv]|[Hd _]]; [by apply bits_set_same|done].
  - destruct Hd as [[? _]|[_ Hd]]; [done|]. by apply bits_set_other.
Qed.

(** What the translation looks at of an entry of the directory. *)
Definition dir_entry (vt ut up i e : Z) : Prop :=
  if decide (i = 0 \/ i = USER_VIDMEM_INDEX) then
    field_of present e = 1 /\ field_of page_size e = 0 /\ field_of user_super e = (if decide (i = 0) then 0 else 1) /\
    field_of table_PDE_table_addr e = Z.shiftr (if decide (i = 0) then vt else ut) 12
  else if decide (i = 1 \/ i = USER_PAGE_INDEX) then
    field_of present e = 1 /\ field_of page_size e = 1 /\ field_of user_super e = 1 /\
    field_of page_PDE_page_addr e = (if decide (i = 1) then 1 else up)
  else field_of present e = 0.

Definition table_pte (mapped : bool) (addr e : Z) : Prop :=
  if mapped then field_of present e = 1 /\ field_of user_super e = 1 /\ field_of PTE_page_addr e = addr
  else field_of present e = 0.

(** The state of the paging structures that gives the map [kernel_map up vp]. *)
Record paging_ok (vt ut up vp : Z) (p : paging) : Prop := {
  pg_dir_len : Z.of_nat (length (page_directory p)) = MAX_ENTRIES;
  pg_vid_len : Z.of_nat (length (vidmem_page_table p)) = MAX_ENTRIES;
  pg_user_len : Z.of_nat (length (user_vidmem_page_table p)) = MAX_ENTRIES;
  pg_dir : forall i e, arr_get (page_directory p) i = Some e -> dir_entry vt ut up i e;
  pg_vid : forall i e, arr_get (vidmem_page_table p) i = Some e ->
    table_pte (bool_decide (VID_MEM_ADDR <= i <= BACKGROUND_3)) i e;
  pg_user : forall i e, arr_get (user_vidmem_page_table p) i = Some e -> table_pte (bool_decide (i = 0)) vp e
}.

(** The page tables are page-aligned and distinct. *)
Definition tables_ok (vt ut : Z) : Prop :=
  0 <= vt < 2 ^ 32 /\ vt mod 2 ^ 12 = 0 /\ 0 <= ut < 2 ^ 32 /\ ut mod 2 ^ 12 = 0 /\ vt <> ut.

Ltac fld := rewrite field_assign;
  [reflexivity|cbn; lia|cbn; lia|].

Ltac aparts := unfold apart; repeat (apply Forall_cons_2;
  [split; [cbn; lia|split; [cbn; lia|first [left; split; [reflexivity|cbn; lia]|right; split; [done|cbn; lia]]]]|]);
  apply Forall_nil_2.

Lemma page_entry_fields p us g addr e :
  0 <= p < 2 -> 0 <= us < 2 -> 0 <= addr < 1024 ->
  field_of present (assign (page_entry p us g addr) e) = p /\
  field_of page_size (assign (page_entry p us g addr) e) = 1 /\
  field_of user_super (assign (page_entry p us g addr) e) = us /\
  field_of page_PDE_page_addr (assign (page_entry p us g addr) e) = addr.
Proof. intros Hp Hu Ha. split_and!; (fld; aparts). Qed.

Lemma table_entry_fields us t e :
  0 <= us < 2 -> 0 <= t < 2 ^ 32 ->
  field_of present (assign (table_entry us t) e) = 1 /\
  field_of page_size (assign (table_entry us t) e) = 0 /\
  field_of user_super (assign (table_entry us t) e) = us /\
  field_of table_PDE_table_addr (assign (table_entry us t) e) = Z.shiftr t 12.
Proof.
  intros Hu Ht. assert (0 <= Z.shiftr t ADDRESS_SHIFT < 2 ^ 20).
  { unfold ADDRESS_SHIFT. rewrite Z.shiftr_div_pow2 by lia. change (2 ^ 12) with 4096. change (2 ^ 20) with 1048576.
    change (2 ^ 32) with 4294967296 in Ht. zlia. }
  split_and!; (fld; unfold table_entry; aparts).
Qed.

Lemma vidmem_entry_pte i e :
  0 <= i < 1024 -> table_pte (bool_decide (VID_MEM_ADDR <= i <= BACKGROUND_3)) i (assign (vidmem_entry i) e).
Proof.
  intros Hi. unfold vidmem_entry, VID_MEM_ADDR, BACKGROUND_1, BACKGROUND_2, BACKGROUND_3. case_decide as D.
  - rewrite bool_decide_true by lia. unfold table_pte. split_and!; (fld; cbn [app]; aparts).
  - rewrite bool_decide_false by lia. unfold table_pte. fld; cbn [app]; aparts.
Qed.

Lemma user_vidmem_entry_pte i e :
  0 <= i < 1024 -> table_pte (bool_decide (i = 0)) VID_MEM_ADDR (assign (user_vidmem_entry i) e).
Proof.
  intros Hi. unfold user_vidmem_entry, VID_MEM_ADDR. case_decide as D.
  - rewrite bool_decide_true by done. unfold table_pte. split_and!; (fld; cbn [app]; aparts).
  - rewrite bool_decide_false by done. unfold table_pte. fld; cbn [app]; aparts.
Qed.

(** ** Updates *)

Lemma update_spec i f l :
  0 <= i < Z.of_nat (length l) ->
  exists l', update i f l = Some l' /\ length l' = length l /\
    forall j, arr_get l' j = if decide (j = i) then f <$> arr_get l j else arr_get l j.
Proof.
  intros Hi. unfold update. destruct (arr_get_Some l i Hi) as (e & E & El). rewrite E, bind_ret, arr_set_Some by done.
  eexists. split; [done|]. split; [apply length_insert|]. intros j. case_decide as D.
  - subst j. rewrite E. rewrite arr_get_lookup by lia. simpl. apply list_lookup_insert_eq. lia.
  - unfold arr_get. case_decide; [|done]. apply list_lookup_insert_ne. lia.
Qed.

Lemma update_loop lo hi (g : Z -> Z -> Z) l :
  0 <= lo <= hi -> hi <= Z.of_nat (length l) ->
  exists l', for_upM lo hi (fun i => update i (g i)) l = Some l' /\ length l' = length l /\
    forall j, arr_get l' j = if decide (lo <= j < hi) then g j <$> arr_get l j else arr_get l j.
Proof.
  intros Hlo Hhi.
  destruct (for_upM_ind (fun i l' => length l' = length l /\
    forall j, arr_get l' j = if decide (lo <= j < i) then g j <$> arr_get l j else arr_get l j)
    lo hi (fun i => update i (g i)) l) as (l' & E & H).
  - lia.
  - split; [done|]. intros j. by rewrite decide_False by lia.
  - intros i l1 Hi [Hlen Hl1]. destruct (update_spec i (g i) l1) as (l2 & E & L2 & H2); [lia|].
    exists l2. split; [done|]. split; [congruence|]. intros j. rewrite H2, Hl1. repeat case_decide; try lia; try done.
    by subst j.
  - by exists l'.
Qed.

(** Take the branches that arithmetic decides. *)
Ltac deciding H := repeat first [rewrite decide_True in H by lia|rewrite decide_False in H by lia].
Ltac deciding_goal := repeat first [rewrite decide_True by lia|rewrite decide_False by lia].

Lemma init_page_spec vt ut p :
  tables_ok vt ut -> length (page_directory p) = 1024%nat -> length (vidmem_page_table p) = 1024%nat ->
  length (user_vidmem_page_table p) = 1024%nat ->
  exists p', init_page vt ut p = Some p' /\ paging_ok vt ut USER_PAGE_INDEX VID_MEM_ADDR p'.
Proof.
  intros (Hv & _ & Hu & _ & _) L1 L2 L3. unfold init_page, MAX_ENTRIES.
  destruct (update_spec 0 (assign (table_entry 0 vt)) (page_directory p)) as (d1 & -> & M1 & D1); [lia|]. rewrite bind_ret.
  destruct (update_spec 1 (assign (page_entry 1 1 1 1)) d1) as (d2 & -> & M2 & D2); [lia|]. rewrite bind_ret.
  destruct (update_loop 0 1024 (fun i => assign (vidmem_entry i)) (vidmem_page_table p)) as (v & -> & Mv & Dv); [lia..|].
  rewrite bind_ret.
  destruct (update_loop 0 1024 (fun i => assign (user_vidmem_entry i)) (user_vidmem_page_table p)) as (u & -> & Mu & Du); [lia..|].
  rewrite bind_ret.
  destruct (update_loop 2 1024 (fun _ => assign (page_entry 0 0 0 0)) d2) as (d3 & -> & M3 & D3); [lia..|]. rewrite bind_ret.
  destruct (update_spec USER_PAGE_INDEX (assign (page_entry 1 1 0 USER_PAGE_INDEX)) d3) as (d4 & -> & M4 & D4);
    [change USER_PAGE_INDEX with 32; lia|]. rewrite bind_ret.
  destruct (update_spec USER_VIDMEM_INDEX (assign (table_entry 1 ut)) d4) as (d5 & -> & M5 & D5); [change USER_VIDMEM_INDEX with 34; lia|]. rewrite bind_ret.
  eexists. split; [done|]. split; cbn [page_directory vidmem_page_table user_vidmem_page_table];
    unfold MAX_ENTRIES; try lia.
  - intros i e E. assert (Hi : 0 <= i < 1024).
    { unfold arr_get in E. case_decide; [|done]. apply lookup_lt_Some in E. lia. }
    change USER_PAGE_INDEX with 32 in *. change USER_VIDMEM_INDEX with 34 in *.
    rewrite D5, D4, D3, D2, D1 in E. unfold dir_entry. change USER_VIDMEM_INDEX with 34. change USER_PAGE_INDEX with 32.
    destruct (decide (i = 34)) as [->|].
    { deciding E; deciding_goal. apply fmap_Some in E as (x & _ & ->). apply table_entry_fields; lia. }
    destruct (decide (i = 32)) as [->|].
    { deciding E; deciding_goal. apply fmap_Some in E as (x & _ & ->). apply page_entry_fields; lia. }
    destruct (decide (2 <= i < 1024)).
    { deciding E; deciding_goal. apply fmap_Some in E as (x & _ & ->). refine (proj1 (page_entry_fields 0 0 0 0 x _ _ _)); lia. }
    destruct (decide (i = 1)) as [->|].
    { deciding E; deciding_goal. apply fmap_Some in E as (x & _ & ->). apply page_entry_fields; lia. }
    assert (i = 0) as -> by lia. deciding E; deciding_goal. apply fmap_Some in E as (x & _ & ->).
    apply table_entry_fields; lia.
  - intros i e E. rewrite Dv in E. case_decide; [|unfold arr_get in E; case_decide; [apply lookup_lt_Some in E; lia|done]].
    destruct (arr_get (vidmem_page_table p) i); [|done]. injection E as <-. by apply vidmem_entry_pte.
  - intros i e E. rewrite Du in E. case_decide; [|unfold arr_get in E; case_decide; [apply lookup_lt_Some in E; lia|done]].
    destruct (arr_get (user_vidmem_page_table p) i); [|done]. injection E as <-. by apply user_vidmem_entry_pte.
Qed.

(** ** The map *)

#[global] Opaque assign field_of.

Lemma aligned_table vt e : 0 <= vt -> vt mod 2 ^ 12 = 0 -> e = Z.shiftr vt 12 -> e * 2 ^ 12 = vt.
Proof. intros Hv Ha ->. rewrite Z.shiftr_div_pow2 by lia. change (2 ^ 12) with 4096 in *. zlia. Qed.

Lemma walk_table vt ut up vp p va i t (m : bool) addr (us : bool) :
  0 <= va < 2 ^ 32 -> i = Z.shiftr va 22 ->
  (forall e, arr_get (page_directory p) i = Some e ->
    field_of present e = 1 /\ field_of page_size e = 0 /\ field_of user_super e = (if us then 1 else 0) /\
    (if decide (field_of table_PDE_table_addr e * 2 ^ 12 = vt) then Some (vidmem_page_table p)
     else if decide (field_of table_PDE_table_addr e * 2 ^ 12 = ut) then Some (user_vidmem_page_table p) else None) = Some t) ->
  paging_ok vt ut up vp p -> Z.of_nat (length t) = MAX_ENTRIES ->
  (forall e, arr_get t (Z.shiftr va 12 mod 2 ^ 10) = Some e -> table_pte m addr e) ->
  walk vt ut p va = if m then Some (addr * 2 ^ 12 + va mod 2 ^ 12, us) else None.
Proof.
  intros Hva Hi Hd Hp Ht Hte. unfold walk. rewrite <- Hi.
  assert (0 <= i < 1024). { subst i. rewrite Z.shiftr_div_pow2 by lia. change (2 ^ 32) with 4294967296 in Hva.
    change (2 ^ 22) with 4194304. zlia. }
  pose proof (pg_dir_len _ _ _ _ _ Hp) as Hl. unfold MAX_ENTRIES in *.
  destruct (arr_get_Some (page_directory p) i) as (e & Ee & _); [lia|]. rewrite Ee, bind_ret.
  destruct (Hd e Ee) as (E1 & E2 & E3 & E4). rewrite E1, E2, decide_False, decide_False by lia. cbv zeta.
  rewrite E4, bind_ret. pose proof (Z.mod_pos_bound (Z.shiftr va 12) (2 ^ 10) ltac:(lia)).
  change (2 ^ 10) with 1024 in *.
  destruct (arr_get_Some t (Z.shiftr va 12 mod 1024)) as (x & Ex & _); [lia|]. rewrite Ex, bind_ret.
  specialize (Hte x Ex). destruct m; unfold table_pte in Hte.
  - destruct Hte as (F1 & F2 & F3). rewrite F1, F2, F3, decide_False by lia. do 2 f_equal.
    rewrite E3. destruct us; by apply bool_decide_ext || (rewrite bool_decide_false by lia; done) || (rewrite bool_decide_true by lia; done).
  - by rewrite Hte, decide_True.
Qed.

(** In that state the processor's translation is the kernel's map. *)
Lemma walk_kernel_map vt ut up vp p va :
  tables_ok vt ut -> paging_ok vt ut up vp p -> 0 <= va < 2 ^ 32 ->
  walk vt ut p va = kernel_map up vp va.
Proof.
  intros (Hv & Av & Hu & Au & Hne) Hp Hva. pose proof Hp as [Ld Lv Lu Hd Hvid Huser].
  set (i := Z.shiftr va 22). assert (Ei : i = va / 4194304) by (subst i; by rewrite Z.shiftr_div_pow2 by lia).
  assert (E12 : Z.shiftr va 12 mod 2 ^ 10 = va / 4096 mod 1024) by (by rewrite Z.shiftr_div_pow2 by lia).
  change (2 ^ 32) with 4294967296 in *.
  assert (Hi : 0 <= i < 1024) by (rewrite Ei; zlia).
  unfold kernel_map, TASK_VIRT_PAGE_BEG, TASK_VIRT_PAGE_END, TASK_VIDMEM_START.
  destruct (decide (i = 0)) as [D0|D0].
  { rewrite (walk_table vt ut up vp p va i (vidmem_page_table p)
      (bool_decide (VID_MEM_ADDR <= va / 4096 mod 1024 <= BACKGROUND_3)) (va / 4096 mod 1024) false); try done.
    - unfold VID_MEM_ADDR, BACKGROUND_3. case_bool_decide as B.
      + rewrite decide_True by zlia. do 2 f_equal. change (2 ^ 12) with 4096. zlia.
      + by rewrite !decide_False by zlia.
    - intros e E. specialize (Hd i e E). rewrite D0 in Hd. unfold dir_entry in Hd. rewrite decide_True in Hd by by left.
      destruct Hd as (F1 & F2 & F3 & F4). rewrite decide_True in F3, F4 by done.
      split_and!; [done|done|done|]. by rewrite (aligned_table vt _ ltac:(lia) Av F4), decide_True.
    - intros e E. rewrite E12 in E. by apply Hvid. }
  destruct (decide (i = 34)) as [D1|D1].
  { rewrite (walk_table vt ut up vp p va i (user_vidmem_page_table p)
      (bool_decide (va / 4096 mod 1024 = 0)) vp true); try done.
    - case_bool_decide as B.
      + rewrite !decide_False by zlia. rewrite decide_True by zlia. do 2 f_equal. change (2 ^ 12) with 4096. zlia.
      + by rewrite !decide_False by zlia.
    - intros e E. specialize (Hd i e E). rewrite D1 in Hd. unfold dir_entry in Hd. change USER_VIDMEM_INDEX with 34 in Hd.
      rewrite decide_True in Hd by by right.
      destruct Hd as (F1 & F2 & F3 & F4). rewrite decide_False in F3, F4 by lia.
      split_and!; [done|done|done|]. rewrite (aligned_table ut _ ltac:(lia) Au F4), decide_False, decide_True; congruence.
    - intros e E. rewrite E12 in E. by apply Huser. }
  unfold walk. fold i. unfold MAX_ENTRIES in Ld. destruct (arr_get_Some (page_directory p) i) as (e & Ee & _); [lia|].
  rewrite Ee, bind_ret. specialize (Hd i e Ee). unfold dir_entry in Hd.
  change USER_VIDMEM_INDEX with 34 in Hd. change USER_PAGE_INDEX with 32 in Hd. rewrite decide_False in Hd by lia.
  change (2 ^ 22) with 4194304. destruct (decide (i = 1 \/ i = 32)) as [D|D].
  - destruct Hd as (F1 & F2 & F3 & F4). rewrite F1, F2, F3, F4, decide_False, decide_True by lia.
    rewrite bool_decide_true by done. destruct (decide (i = 1)).
    + rewrite decide_False, decide_True by zlia. do 2 f_equal. zlia.
    + rewrite decide_False, decide_False, decide_True by zlia. do 2 f_equal. zlia.
  - rewrite Hd, (decide_True (P := 0 = 0)) by done. by rewrite !decide_False by zlia.
Qed.

(** Changing the page of the user page or of the drawing page. *)
Lemma set_task_page_ok vt ut up vp pid p :
  paging_ok vt ut up vp p -> 0 <= TASK_PAGE_INDEX pid < 1024 ->
  exists p', set_task_page pid p = Some p' /\ paging_ok vt ut (TASK_PAGE_INDEX pid) vp p'.
Proof.
  intros [Ld Lv Lu Hd Hvid Huser] Hpid. unfold set_task_page. unfold MAX_ENTRIES in *.
  destruct (update_spec USER_PAGE_INDEX (assign [(page_PDE_page_addr, TASK_PAGE_INDEX pid)]) (page_directory p))
    as (d & -> & L & D); [change USER_PAGE_INDEX with 32; lia|]. rewrite bind_ret. eexists. split; [done|].
  split; cbn [page_directory vidmem_page_table user_vidmem_page_table]; unfold MAX_ENTRIES; try done; try lia.
  intros i e E. rewrite D in E. case_decide as Di; [|specialize (Hd i e E); unfold dir_entry in *;
    case_decide; [done|]; case_decide; [|done]; rewrite decide_True in * by tauto; done].
  subst i. apply fmap_Some in E as (x & Ex & ->). specialize (Hd _ x Ex). unfold dir_entry in *.
  change USER_PAGE_INDEX with 32 in *. change USER_VIDMEM_INDEX with 34 in *.
  rewrite decide_False in Hd |- * by lia. rewrite decide_True in Hd |- * by lia.
  destruct Hd as (F1 & F2 & F3 & F4). rewrite decide_False in F4 |- * by lia.
  rewrite !field_assign by (cbn; lia || aparts). cbn [last_field]. done.
Qed.

Lemma set_vidmap_page_ok vt ut up vp addr p :
  paging_ok vt ut up vp p -> 0 <= addr < 2 ^ 20 ->
  exists p', set_vidmap_page addr p = Some p' /\ paging_ok vt ut up addr p'.
Proof.
  intros [Ld Lv Lu Hd Hvid Huser] Ha. unfold set_vidmap_page. unfold MAX_ENTRIES in *.
  destruct (update_spec 0 (assign [(PTE_page_addr, addr)]) (user_vidmem_page_table p))
    as (u & -> & L & D); [lia|]. rewrite bind_ret. eexists. split; [done|].
  split; cbn [page_directory vidmem_page_table user_vidmem_page_table]; unfold MAX_ENTRIES; try done; try lia.
  intros i e E. rewrite D in E. case_decide as Di.
  - subst i. apply fmap_Some in E as (x & Ex & ->). specialize (Huser _ x Ex). rewrite bool_decide_true in Huser |- * by done.
    unfold table_pte in *. destruct Huser as (F1 & F2 & F3). rewrite !field_assign by (cbn; lia || aparts). done.
  - specialize (Huser i e E). by rewrite bool_decide_false in Huser |- * by done.
Qed.

(** ** Properties *)

(** C25: After [init_page], whatever the tables held, the processor translates
    every 32-bit address as [kernel_map] says: the text pages of video memory
    and the kernel's 4 MB at their own addresses, the user page, the page that
    shows video memory to user code, and a fault anywhere else.  (The kernel's
    page is open to user code.) *)
Theorem init_page_correct (vt ut : Z) (p : paging) :
  tables_ok vt ut -> length (page_directory p) = 1024%nat -> length (vidmem_page_table p) = 1024%nat ->
  length (user_vidmem_page_table p) = 1024%nat ->
  exists p', init_page vt ut p = Some p' /\ paging_ok vt ut USER_PAGE_INDEX VID_MEM_ADDR p' /\
    forall va, 0 <= va < 2 ^ 32 -> walk vt ut p' va = kernel_map USER_PAGE_INDEX VID_MEM_ADDR va.
Proof.
  intros Ht L1 L2 L3. destruct (init_page_spec vt ut p Ht L1 L2 L3) as (p' & E & Hp).
  exists p'. split; [done|]. split; [done|]. intros va Hva. by apply walk_kernel_map.
Qed.

Definition user_address (va : Z) : Prop := TASK_VIRT_PAGE_BEG <= va < TASK_VIRT_PAGE_END.

(** C18: Tasks are isolated by the user page: with the page of task [pid] set,
    user addresses go to the 4 MB at 8 MB + 4 MB * pid, every other address
    translates as before, and no user address of one task has the physical
    address of a user address of another or of the kernel. *)
Theorem task_pages_isolated (vt ut up vp : Z) (p : paging) (pid1 pid2 : Z) :
  tables_ok vt ut -> paging_ok vt ut up vp p -> 0 <= pid1 < MAX_PROC_NUM -> 0 <= pid2 < MAX_PROC_NUM ->
  exists p1 p2, set_task_page pid1 p = Some p1 /\ set_task_page pid2 p = Some p2 /\
    (forall va, user_address va ->
       walk vt ut p1 va = Some (0x800000 + 0x400000 * pid1 + (va - TASK_VIRT_PAGE_BEG), true)) /\
    (forall va, 0 <= va < 2 ^ 32 -> ~ user_address va -> walk vt ut p1 va = walk vt ut p va) /\
    (pid1 <> pid2 -> forall va1 va2 a1 a2, user_address va1 -> user_address va2 ->
       walk vt ut p1 va1 = Some (a1, true) -> walk vt ut p2 va2 = Some (a2, true) -> a1 <> a2 /\ 0x800000 <= a1).
Proof.
  intros Ht Hp H1 H2. unfold MAX_PROC_NUM in *.
  destruct (set_task_page_ok vt ut up vp pid1 p Hp) as (p1 & E1 & Hp1); [unfold TASK_PAGE_INDEX, TASK_START_PAGE; lia|].
  destruct (set_task_page_ok vt ut up vp pid2 p Hp) as (p2 & E2 & Hp2); [unfold TASK_PAGE_INDEX, TASK_START_PAGE; lia|].
  assert (W : forall q pid, paging_ok vt ut (TASK_PAGE_INDEX pid) vp q -> forall va, user_address va ->
    walk vt ut q va = Some (0x800000 + 0x400000 * pid + (va - TASK_VIRT_PAGE_BEG), true)).
  { unfold user_address, TASK_VIRT_PAGE_BEG, TASK_VIRT_PAGE_END. intros q pid Hq va Hva.
    rewrite (walk_kernel_map vt ut (TASK_PAGE_INDEX pid) vp) by (done || lia).
    unfold kernel_map, TASK_VIRT_PAGE_BEG, TASK_VIRT_PAGE_END, TASK_PAGE_INDEX, TASK_START_PAGE.
    rewrite decide_False, decide_False, decide_True by lia. do 2 f_equal. lia. }
  exists p1, p2. split_and!; [done|done|by apply W| |].
  - intros va Hva Hu. rewrite (walk_kernel_map vt ut _ vp p1), (walk_kernel_map vt ut _ vp p) by done.
    unfold kernel_map. unfold user_address in Hu. by rewrite (decide_False (P := TASK_VIRT_PAGE_BEG <= va < _)),
      (decide_False (P := TASK_VIRT_PAGE_BEG <= va < _)) by done.
  - intros Hne va1 va2 a1 a2 U1 U2 A1 A2. rewrite (W p1 pid1 Hp1) in A1 by done. rewrite (W p2 pid2 Hp2) in A2 by done.
    injection A1 as <-. injection A2 as <-. unfold user_address, TASK_VIRT_PAGE_BEG, TASK_VIRT_PAGE_END in *. lia.
Qed.

(** ** Concrete tables *)

Definition blank_paging : paging := mkPaging (replicate 1024 0) (replicate 1024 0) (replicate 1024 0).

Lemma blank_tables : tables_ok 0x402000 0x403000.
Proof. split_and!; done. Qed.

Lemma init_page_correct_witness :
  exists p', init_page 0x402000 0x403000 blank_paging = Some p' /\ walk 0x402000 0x403000 p' 0x8800123 = Some (0xB8123, true).
Proof.
  destruct (init_page_correct 0x402000 0x403000 blank_paging) as (p' & E & _ & W).
  - apply blank_tables.
  - apply length_replicate.
  - apply length_replicate.
  - apply length_replicate.
  - exists p'. split; [exact E|]. rewrite W; [|lia]. reflexivity.
Defined.

Lemma blank_paging_init : exists p, paging_ok 0x402000 0x403000 32 0xB8 p.
Proof.
  destruct (init_page_spec 0x402000 0x403000 blank_paging) as (p & _ & H);
    [apply blank_tables|apply length_replicate..|]. by exists p.
Qed.

Lemma task_pages_isolated_witness :
  exists p p1, set_task_page 3 p = Some p1 /\ walk 0x402000 0x403000 p1 0x8048000 = Some (0x1448000, true).
Proof.
  destruct blank_paging_init as [p Hp].
  destruct (task_pages_isolated 0x402000 0x403000 32 0xB8 p 3 4) as (p1 & p2 & E & _ & W & _).
  - apply blank_tables.
  - exact Hp.
  - unfold MAX_PROC_NUM. lia.
  - unfold MAX_PROC_NUM. lia.
  - exists p, p1. split; [exact E|]. apply W. split; [discriminate|reflexivity].
Defined.
