(* ===== verification/Malloc.v ===== *)
(** * The user heap: syscall_malloc and syscall_free of student-distrib/syscall.c

    A task's heap is cut into blocks of 32 bytes.  A map of 2048 descriptors at
    the start of the user page lists its objects in address order, used and
    free; the PCB counts them.  A descriptor is two bytes: a used bit and a
    15-bit number of blocks. *)
From stdpp Require Import base tactics list numbers gmap option.
From Stdlib Require Import ZArith Lia.
From S2P Require Import Prelude Task.

Open Scope Z_scope.

Definition MALLOC_MAP_SIZE : Z := 4096.
Definition MALLOC_HEAP_SIZE : Z := 256 * 1024 / 32.
Definition MALLOC_OBJ_NUM : Z := 2048.
Definition MALLOC_BLOCK_SIZE : Z := 32.
Definition MALLOC_HEAP_MAP_START : Z := TASK_VIRT_PAGE_BEG + PCB_SIZE.
Definition HEAP_START : Z := TASK_VIRT_PAGE_BEG + PCB_SIZE + MALLOC_MAP_SIZE.

Record malloc_obj_t := mkObj { obj_used : Z; obj_size : Z }.

(** The assignments to the two bit fields. *)
Definition set_used (v : Z) (o : malloc_obj_t) : malloc_obj_t := mkObj (v mod 2) (obj_size o).
Definition set_size (v : Z) (o : malloc_obj_t) : malloc_obj_t := mkObj (obj_used o) (v mod 32768).

(** The map, of MALLOC_OBJ_NUM descriptors, and [malloc_obj_count] of the PCB.
    An access past the map is outside the object: [None]. *)
Abbreviation heap := (list malloc_obj_t * Z)%type.

(** [malloc_objs[i].f = v] *)
Definition set_obj (i : Z) (f : malloc_obj_t -> malloc_obj_t) (objs : list malloc_obj_t) : option (list malloc_obj_t) :=
  o ← arr_get objs i; arr_set objs i (f o).

(** [malloc_objs[i] = malloc_objs[j]] *)
Definition copy_obj (i j : Z) (objs : list malloc_obj_t) : option (list malloc_obj_t) :=
  o ← arr_get objs j; arr_set objs i o.

(** Cut object [i], of [obj_block_size] blocks: move those from [i] on up by one,
    then set the two parts. *)
Definition split_obj (i size obj_block_size count : Z) (objs : list malloc_obj_t) : option (list malloc_obj_t) :=
  objs ← for_downM (s16 count) (i - 1) (fun j => copy_obj (j + 1) j) objs;
  objs ← set_obj i (set_used 1) objs;
  objs ← set_obj i (set_size (size / 32 + 1)) objs;
  oi ← arr_get objs i;
  set_obj (i + 1) (set_size (obj_block_size - obj_size oi)) objs.

(** [syscall_malloc(size)]; [size] is a [uint32_t].  The loop variable is an
    [int16_t]; [total_empty_size] is never used. *)
Definition syscall_malloc (size : Z) '((objs, count) : heap) : option (Z * heap) :=
  whileM (fun '(i, obj_ptr) =>
    if decide (u32 i < count) then
      o ← arr_get objs i;
      let obj_block_size := obj_size o in
      let obj_bytes := u32 (obj_block_size * MALLOC_BLOCK_SIZE) in
      let next := Some (inl (s16 (i + 1), u32 (obj_ptr + obj_block_size * MALLOC_BLOCK_SIZE))) in
      if decide (obj_used o = 0) then
        if decide (size < obj_bytes) then
          if decide (count = MALLOC_OBJ_NUM) then Some (inr (0, (objs, count)))
          else
            objs ← split_obj i size obj_block_size count objs;
            Some (inr (obj_ptr, (objs, u32 (count + 1))))
        else if decide (obj_bytes < size) then next
        else
          objs ← set_obj i (set_used 1) objs;
          Some (inr (obj_ptr, (objs, count)))
      else next
    else Some (inr (0, (objs, count)))) (0, HEAP_START).

(** [syscall_free(ptr)] *)
Definition syscall_free (ptr : Z) '((objs, count) : heap) : option (Z * heap) :=
  if decide (ptr = 0) then Some (0, (objs, count))
  else
    '(i, obj_ptr) ← whileM (fun '(i, obj_ptr) =>
        if decide (i < count /\ obj_ptr < ptr) then
          o ← arr_get objs i;
          Some (inl (u16 (i + 1), u32 (obj_ptr + obj_size o * MALLOC_BLOCK_SIZE)))
        else Some (inr (i, obj_ptr))) (0, HEAP_START);
    if decide (obj_ptr <> ptr) then Some (-1, (objs, count))
    else
      o ← arr_get objs i;
      let empty_size := obj_size o in
      '(move, empty_size) ← (if decide (i < count) then
           n ← arr_get objs (i + 1);
           Some (if decide (obj_used n = 0) then (1, u16 (empty_size + obj_size n)) else (0, empty_size))
         else Some (0, empty_size));
      '(move, empty_size, i) ← (if decide (0 < i) then
           p ← arr_get objs (i - 1);
           if decide (obj_used p = 0) then
             n ← arr_get objs (i + 1);
             Some (move + 1, u16 (empty_size + obj_size n), i - 1)
           else Some (move, empty_size, i)
         else Some (move, empty_size, i));
      let count := u32 (count - move) in
      objs ← for_upM (i + 1) count (fun j => copy_obj j (j + move)) objs;
      objs ← set_obj i (set_used 0) objs;
      objs ← set_obj i (set_size empty_size) objs;
      Some (0, (objs, count)).

(** ** The heap as a list of objects *)

Definition blocks (h : heap) : list malloc_obj_t := take (Z.to_nat h.2) h.1.

(** The number of blocks of the first [k] objects, and where the next lies. *)
Definition total (l : list malloc_obj_t) : Z := foldr (fun o n => obj_size o + n) 0 l.
Definition start (l : list malloc_obj_t) (k : nat) : Z := HEAP_START + 32 * total (take k l).

Record heap_ok (h : heap) : Prop := {
  hp_map : length h.1 = Z.to_nat MALLOC_OBJ_NUM;
  hp_count : 1 <= h.2 <= MALLOC_OBJ_NUM;
  hp_used : Forall (fun o => obj_used o = 0 \/ obj_used o = 1) (blocks h);
  hp_size : Forall (fun o => 0 <= obj_size o) (blocks h);
  hp_total : total (blocks h) = MALLOC_HEAP_SIZE
}.

(** An object that can serve a request. *)
Definition fits (size : Z) (o : malloc_obj_t) : Prop := obj_used o = 0 /\ size <= 32 * obj_size o.

#[export] Instance fits_dec size o : Decision (fits size o).
Proof. unfold fits. apply _. Defined.

(** First fit: a request smaller than the object leaves the rest as a free
    object after it. *)
Definition serve (size : Z) (o : malloc_obj_t) : list malloc_obj_t :=
  if decide (size = 32 * obj_size o) then [mkObj 1 (obj_size o)]
  else [mkObj 1 (size / 32 + 1); mkObj 0 (obj_size o - (size / 32 + 1))].

Definition malloc_spec (size : Z) (l : list malloc_obj_t) : Z * list malloc_obj_t :=
  match list_find (fits size) l with
  | Some (k, o) => (start l k, take k l ++ serve size o ++ drop (S k) l)
  | None => (0, l)
  end.

Lemma total_app l1 l2 : total (l1 ++ l2) = total l1 + total l2.
Proof. unfold total. induction l1 as [|o l1 IH]; simpl; lia. Qed.

Lemma total_nonneg l : Forall (fun o => 0 <= obj_size o) l -> 0 <= total l.
Proof. induction 1; simpl; lia. Qed.

Lemma total_take_le l k : Forall (fun o => 0 <= obj_size o) l -> 0 <= total (take k l) <= total l.
Proof.
  intros H. assert (E : total l = total (take k l) + total (drop k l)) by by rewrite <- total_app, take_drop.
  pose proof (total_nonneg (take k l) ltac:(by apply Forall_take)).
  pose proof (total_nonneg (drop k l) ltac:(by apply Forall_drop)). lia.
Qed.

Lemma total_take_S l k o :
  l !! k = Some o -> total (take (S k) l) = total (take k l) + obj_size o.
Proof. intros E. rewrite (take_S_r _ _ _ E), total_app. simpl. lia. Qed.

Lemma serve_total size o : fits size o -> 0 <= size -> total (serve size o) = obj_size o /\
  Forall (fun o => obj_used o = 0 \/ obj_used o = 1) (serve size o) /\ Forall (fun o => 0 <= obj_size o) (serve size o).
Proof.
  intros [Hu Hs] H0. unfold serve. case_decide; simpl.
  - split; [lia|]. split; repeat constructor; simpl; lia.
  - assert (0 <= size / 32 < obj_size o) by zlia. split; [lia|]. split; repeat constructor; simpl; lia.
Qed.

(** ** The loop that makes room *)

Lemma copy_up objs i count :
  0 <= i <= count -> count + 1 < Z.of_nat (length objs) ->
  exists objs', for_downM count (i - 1) (fun j => copy_obj (j + 1) j) objs = Some objs' /\ length objs' = length objs /\
    forall j, objs' !! j = if decide (Z.to_nat i < j <= Z.to_nat count + 1)%nat then objs !! (j - 1)%nat else objs !! j.
Proof.
  intros Hi Hc.
  destruct (for_downM_ind (fun k (o : list malloc_obj_t) => length o = length objs /\
    forall j, o !! j = if decide (Z.to_nat (k + 1) < j <= Z.to_nat count + 1)%nat then objs !! (j - 1)%nat else objs !! j)
    count (i - 1) (fun j => copy_obj (j + 1) j) objs) as (o & E & L & H).
  - lia.
  - split; [done|]. intros j. by rewrite decide_False by lia.
  - intros k o Hk [Ho H]. unfold copy_obj. destruct (arr_get_Some o k) as (x & -> & Ex); [lia|]. rewrite bind_ret.
    rewrite arr_set_Some by lia. eexists. split; [done|]. split; [by rewrite length_insert|]. intros j.
    replace (k - 1 + 1) with k by lia. destruct (decide (j = Z.to_nat (k + 1))) as [->|Hne].
    + rewrite list_lookup_insert_eq by lia. rewrite decide_True by lia.
      rewrite H, decide_False in Ex by lia. rewrite <- Ex. f_equal. lia.
    + rewrite list_lookup_insert_ne by lia. rewrite H. repeat case_decide; (done || lia).
  - exists o. split; [done|]. split; [done|]. intros j. rewrite H.
    replace (i - 1 + 1) with i by lia. done.
Qed.

(** After it the object is there twice and the rest is one place further. *)
Lemma make_room objs k count o :
  objs !! k = Some o -> (k < count)%nat -> (count + 1 < length objs)%nat ->
  exists rest, for_downM (Z.of_nat count) (Z.of_nat k - 1) (fun j => copy_obj (j + 1) j) objs
    = Some (take k objs ++ [o; o] ++ drop (S k) (take count objs) ++ rest) /\
    length (take k objs ++ [o; o] ++ drop (S k) (take count objs) ++ rest) = length objs.
Proof.
  intros Eo Hk Hc. pose proof (lookup_lt_Some _ _ _ Eo).
  destruct (copy_up objs (Z.of_nat k) (Z.of_nat count)) as (objs' & E & L & Hl); [lia|lia|].
  exists (drop (S count) objs').
  assert (Eq : objs' = take k objs ++ [o; o] ++ drop (S k) (take count objs) ++ drop (S count) objs').
  { assert (L3 : length (drop (S k) (take count objs)) = (count - S k)%nat).
    { rewrite length_drop, length_take. lia. }
    apply list_eq. intros j. rewrite Hl, !Nat2Z.id. destruct (decide (j < k)%nat).
    { rewrite decide_False by lia. rewrite lookup_app_l by (rewrite length_take; lia). by rewrite lookup_take_lt by lia. }
    rewrite lookup_app_r by (rewrite length_take; lia). rewrite length_take, (Nat.min_l k) by lia.
    destruct (decide (j = k)) as [->|]. { rewrite Nat.sub_diag, decide_False by lia. done. }
    destruct (decide (j = S k)) as [->|].
    { rewrite decide_True by lia. replace (S k - k)%nat with 1%nat by lia. simpl.
      by replace (k - 0)%nat with k by lia. }
    rewrite lookup_app_r by (simpl; lia). change (length [o; o]) with 2%nat.
    destruct (decide (j <= count)%nat).
    - rewrite decide_True by lia. rewrite lookup_app_l by lia. rewrite lookup_drop, lookup_take_lt by lia. f_equal. lia.
    - rewrite lookup_app_r by lia. rewrite L3, lookup_drop.
      replace (S count + (j - k - 2 - (count - S k)))%nat with j by lia. rewrite Hl, !Nat2Z.id. done. }
  rewrite <- Eq. split; [exact E|exact L].
Qed.

Lemma heap_start_range : 0 < HEAP_START < 268435456.
Proof. split; reflexivity. Qed.

(** ** Allocation *)

Lemma get_mid {A} (l1 : list A) o l2 i : i = Z.of_nat (length l1) -> arr_get (l1 ++ o :: l2) i = Some o.
Proof. intros ->. rewrite arr_get_lookup by lia. rewrite Nat2Z.id, lookup_app_r, Nat.sub_diag by lia. done. Qed.

Lemma set_mid l1 o l2 i f : i = Z.of_nat (length l1) -> set_obj i f (l1 ++ o :: l2) = Some (l1 ++ f o :: l2).
Proof.
  intros ->. unfold set_obj. rewrite get_mid, bind_ret by done. rewrite arr_set_Some by (rewrite length_app; simpl; lia).
  f_equal. rewrite Nat2Z.id, insert_app_r_alt, Nat.sub_diag by lia. done.
Qed.

Lemma block_at h k o : heap_ok h -> h.1 !! k = Some o -> (k < Z.to_nat h.2)%nat ->
  blocks h !! k = Some o /\ 0 <= obj_size o <= MALLOC_HEAP_SIZE /\
  0 <= total (take k (blocks h)) <= MALLOC_HEAP_SIZE - obj_size o /\ (obj_used o = 0 \/ obj_used o = 1).
Proof.
  intros [_ _ Hu Hs Ht] E Hk. assert (E' : blocks h !! k = Some o) by (unfold blocks; by rewrite lookup_take_lt).
  split; [done|]. pose proof (Forall_lookup_1 _ _ _ _ Hs E') as Ho. pose proof (Forall_lookup_1 _ _ _ _ Hu E') as Hu'.
  simpl in Ho, Hu'. pose proof (total_take_le (blocks h) (S k) Hs) as H1. pose proof (total_take_le (blocks h) k Hs) as H2.
  rewrite (total_take_S _ _ _ E') in H1. rewrite Ht in *. split; [lia|]. split; [lia|done].
Qed.

Lemma blocks_mid (l1 : list malloc_obj_t) o l2 count :
  (length l1 < count)%nat -> take count (l1 ++ o :: l2) = l1 ++ o :: take (count - S (length l1)) l2.
Proof.
  intros H. replace count with (length l1 + S (count - S (length l1)))%nat at 1 by lia. by rewrite take_app_add.
Qed.

Lemma take_drop_S (objs : list malloc_obj_t) k count o :
  objs !! k = Some o -> (k < count)%nat ->
  take count objs = take k (take count objs) ++ o :: drop (S k) (take count objs).
Proof. intros E Hk. symmetry. apply take_drop_middle. by rewrite lookup_take_lt. Qed.

(** The two ways an object is handed out. *)
Lemma split_obj_spec objs k count size o :
  length objs = 2048%nat -> objs !! k = Some o -> Z.of_nat k < count -> count < 2047 ->
  obj_used o = 0 -> 0 <= size < 32 * obj_size o -> obj_size o <= 8192 ->
  exists objs', split_obj (Z.of_nat k) size (obj_size o) count objs = Some objs' /\ length objs' = length objs /\
    blocks (objs', count + 1) = take k (blocks (objs, count)) ++ serve size o ++ drop (S k) (blocks (objs, count)).
Proof.
  intros Hl Eo Hk Hc Hfree Hsz Ho. unfold split_obj. rewrite s16_small by lia.
  destruct (make_room objs k (Z.to_nat count) o Eo) as (rest & Em & Lm); [lia|lia|].
  rewrite Z2Nat.id in Em by lia. rewrite Em, bind_ret.
  assert (Lt : Z.of_nat k = Z.of_nat (length (take k objs))) by (rewrite length_take; lia).
  assert (Hq : 0 <= size / 32 < obj_size o) by zlia.
  cbn [app]. do 2 rewrite (set_mid (take k objs)), bind_ret by done. rewrite get_mid, bind_ret by done.
  assert (Esh : forall x y R, take k objs ++ x :: y :: R = (take k objs ++ [x]) ++ y :: R) by (intros; by rewrite <- app_assoc).
  rewrite Esh.
  rewrite set_mid by (rewrite length_app; simpl; lia).
  eexists. split; [reflexivity|]. rewrite <- app_assoc. cbn [app]. split.
  - etransitivity; [|exact Lm]. rewrite !length_app. cbn [length]. rewrite !length_app. lia.
  - unfold blocks, set_used, set_size, serve. cbn [fst snd obj_used obj_size]. rewrite decide_False by lia.
    rewrite !(Z.mod_small _ 32768) by lia. change (1 mod 2) with 1. rewrite Hfree.
    assert (Lk : length (take k objs) = k) by (rewrite length_take; lia).
    rewrite blocks_mid, Lk by lia. rewrite take_take, Nat.min_l by lia. f_equal. cbn [app]. f_equal.
    replace (Z.to_nat (count + 1) - S k)%nat with (S (Z.to_nat count - S k)) by lia. cbn [take]. f_equal.
    apply take_app_length'. rewrite length_drop, length_take. lia.
Qed.

Lemma use_obj_spec objs k count o :
  length objs = 2048%nat -> objs !! k = Some o -> Z.of_nat k < count ->
  exists objs', set_obj (Z.of_nat k) (set_used 1) objs = Some objs' /\ length objs' = length objs /\
    blocks (objs', count) = take k (blocks (objs, count)) ++ [mkObj 1 (obj_size o)] ++ drop (S k) (blocks (objs, count)).
Proof.
  intros Hl Eo Hk. assert (Lk : length (take k objs) = k).
  { pose proof (lookup_lt_Some _ _ _ Eo). rewrite length_take. lia. }
  pose proof (take_drop_middle objs k o Eo) as Esp. exists (take k objs ++ mkObj 1 (obj_size o) :: drop (S k) objs).
  split; [rewrite <- Esp at 1; by rewrite set_mid by lia|]. split.
  - rewrite <- Esp at 3. by rewrite !length_app.
  - unfold blocks. cbn [fst snd]. rewrite blocks_mid, Lk by lia. rewrite take_take, Nat.min_l by lia. f_equal.
    cbn [app]. f_equal. rewrite take_drop_commute. do 2 f_equal. lia.
Qed.

(** What the loop returns: the first fit, split unless it is exact.  A full map
    ends the search at the first object that would have to be split. *)
Lemma malloc_run size objs count :
  heap_ok (objs, count) -> 0 <= size < 4294967296 -> count <> MALLOC_OBJ_NUM - 1 ->
  match list_find (fits size) (blocks (objs, count)) with
  | None => syscall_malloc size (objs, count) = Some (0, (objs, count))
  | Some (k, o) =>
      if decide (size <> 32 * obj_size o /\ count = MALLOC_OBJ_NUM)
      then syscall_malloc size (objs, count) = Some (0, (objs, count))
      else exists objs',
        syscall_malloc size (objs, count) = Some (start (blocks (objs, count)) k,
          (objs', count + Z.of_nat (length (serve size o)) - 1)) /\ length objs' = length objs /\
        blocks (objs', count + Z.of_nat (length (serve size o)) - 1)
        = take k (blocks (objs, count)) ++ serve size o ++ drop (S k) (blocks (objs, count))
  end.
Proof.
  intros Hh Hsz Hc. pose proof Hh as [Hl Hcount Hu Hs Ht]. simpl in Hl, Hcount. unfold MALLOC_OBJ_NUM in *.
  set (bs := blocks (objs, count)) in *.
  assert (Lb : length bs = Z.to_nat count) by (subst bs; unfold blocks; simpl; rewrite length_take; lia).
  set (Q := fun r : Z * heap =>
    match list_find (fits size) bs with
    | None => r = (0, (objs, count))
    | Some (k, o) =>
      if decide (size <> 32 * obj_size o /\ count = 2048) then r = (0, (objs, count))
      else exists objs', r = (start bs k, (objs', count + Z.of_nat (length (serve size o)) - 1)) /\
        length objs' = length objs /\
        blocks (objs', count + Z.of_nat (length (serve size o)) - 1) = take k bs ++ serve size o ++ drop (S k) bs
    end).
  assert (H : exists r, syscall_malloc size (objs, count) = Some r /\ Q r).
  { unfold syscall_malloc. apply (whileM_total
      (fun '(i, p) => 0 <= i <= count /\ p = start bs (Z.to_nat i) /\
         forall j o, (j < Z.to_nat i)%nat -> bs !! j = Some o -> ~ fits size o)
      (fun '(i, _) => count - i)).
    - intros [i p] (Hi & -> & Hno). rewrite u32_small by lia. destruct (decide (i < count)) as [Hlt|Hlt].
      2:{ unfold Q. destruct (list_find (fits size) bs) as [[k o]|] eqn:Ef; [|done].
          apply list_find_Some in Ef as (Ek & Hf & _). pose proof (lookup_lt_Some _ _ _ Ek).
          by destruct (Hno k o ltac:(lia) Ek). }
      destruct (arr_get_Some objs i) as (o & Eo & Elo); [lia|]. rewrite Eo, bind_ret. cbv zeta.
      destruct (block_at (objs, count) (Z.to_nat i) o Hh Elo ltac:(simpl; lia)) as (Eb & Hos & Hts & Huo).
      fold bs in Eb, Hts. change MALLOC_HEAP_SIZE with 8192 in Hos, Hts.
      assert (Hbytes : u32 (obj_size o * MALLOC_BLOCK_SIZE) = 32 * obj_size o).
      { unfold MALLOC_BLOCK_SIZE. rewrite u32_small by lia. lia. }
      assert (Hnext : ~ fits size o -> match @Some (Z * Z + Z * heap) (inl (s16 (i + 1), u32 (start bs (Z.to_nat i) + obj_size o * MALLOC_BLOCK_SIZE))) with
        | Some (inl s') => (let '(i, p) := s' in 0 <= i <= count /\ p = start bs (Z.to_nat i) /\
             forall j o, (j < Z.to_nat i)%nat -> bs !! j = Some o -> ~ fits size o) /\
             0 <= (let '(i, _) := s' in count - i) < count - i
        | Some (inr r) => Q r | None => False end).
      { intros Hnf. rewrite s16_small by lia. split; [|lia]. split; [lia|]. split.
        - replace (Z.to_nat (i + 1)) with (S (Z.to_nat i)) by lia. unfold start.
          rewrite (total_take_S _ _ _ Eb). unfold MALLOC_BLOCK_SIZE.
          rewrite u32_small by (pose proof heap_start_range; lia). lia.
        - intros j o' Hj Ej. destruct (decide (j = Z.to_nat i)) as [->|]; [|apply (Hno j); [lia|done]].
          rewrite Eb in Ej. by injection Ej as <-. }
      rewrite Hbytes. destruct (decide (obj_used o = 0)) as [Hfree|Hused].
      2:{ apply Hnext. by intros [? _]. }
      assert (Hfind : fits size o -> list_find (fits size) bs = Some (Z.to_nat i, o)).
      { intros Hf. apply list_find_Some. split_and!; [done|done|]. intros j y Ej Hj. by apply (Hno j). }
      destruct (decide (size < 32 * obj_size o)) as [Hsplit|Hns].
      + assert (Hf : fits size o) by (split; [done|lia]).
        destruct (decide (count = MALLOC_OBJ_NUM)) as [Hfull|Hroom]; unfold MALLOC_OBJ_NUM in *.
        { unfold Q. rewrite (Hfind Hf). by rewrite decide_True by lia. }
        destruct (split_obj_spec objs (Z.to_nat i) count size o) as (objs' & Em & Lm & Eb'); try done; try lia.
        rewrite Z2Nat.id in Em by lia. rewrite Em, bind_ret, u32_small by lia. unfold Q. rewrite (Hfind Hf), decide_False by lia.
        replace (count + Z.of_nat (length (serve size o)) - 1) with (count + 1)
          by (unfold serve; rewrite decide_False by lia; simpl; lia).
        by exists objs'.
      + destruct (decide (32 * obj_size o < size)) as [Hbig|Hexact].
        { apply Hnext. intros [_ ?]. lia. }
        assert (Hf : fits size o) by (split; [done|lia]).
        destruct (use_obj_spec objs (Z.to_nat i) count o) as (objs' & Em & Lm & Eb'); try done; try lia.
        rewrite Z2Nat.id in Em by lia. rewrite Em, bind_ret. unfold Q. rewrite (Hfind Hf), decide_False by lia.
        unfold serve. rewrite decide_True by lia.
        rewrite Z.add_simpl_r. by exists objs'.
    - split; [lia|]. split; [done|]. intros j o Hj. lia.
    - unfold FUEL. lia. }
  destruct H as (r & E & HQ). unfold Q in HQ. rewrite E.
  destruct (list_find (fits size) bs) as [[k o]|]; [|by rewrite HQ].
  case_decide; [by rewrite HQ|]. destruct HQ as (objs' & -> & ? & ?). by exists objs'.
Qed.

(** ** Freeing *)

(** Object [k] becomes free and takes in the next one if that is free. *)
Definition free_spec (k : nat) (l : list malloc_obj_t) : list malloc_obj_t :=
  match l !! k, l !! S k with
  | Some o, Some n =>
      if decide (obj_used n = 0) then take k l ++ mkObj 0 (obj_size o + obj_size n) :: drop (S (S k)) l
      else take k l ++ mkObj 0 (obj_size o) :: drop (S k) l
  | _, _ => l
  end.

(** [k] is the first object at its address, is not the last, and does not follow
    a free one. *)
Definition freeable (l : list malloc_obj_t) (k : nat) : Prop :=
  (S k < length l)%nat /\
  forall j o, k = S j -> l !! j = Some o -> 0 < obj_size o /\ obj_used o <> 0.

Lemma copy_down objs lo hi move :
  0 <= lo <= hi -> 0 <= move -> hi + move <= Z.of_nat (length objs) ->
  exists objs', for_upM lo hi (fun j => copy_obj j (j + move)) objs = Some objs' /\ length objs' = length objs /\
    forall j, objs' !! j = if decide (Z.to_nat lo <= j < Z.to_nat hi)%nat then objs !! (j + Z.to_nat move)%nat else objs !! j.
Proof.
  intros Hlo Hm Hhi.
  destruct (for_upM_ind (fun k (o : list malloc_obj_t) => length o = length objs /\
    forall j, o !! j = if decide (Z.to_nat lo <= j < Z.to_nat k)%nat then objs !! (j + Z.to_nat move)%nat else objs !! j)
    lo hi (fun j => copy_obj j (j + move)) objs) as (o & E & L & Hl).
  - lia.
  - split; [done|]. intros j. by rewrite decide_False by lia.
  - intros k o Hk [Ho Hl]. unfold copy_obj. destruct (arr_get_Some o (k + move)) as (x & -> & Ex); [lia|]. rewrite bind_ret.
    rewrite arr_set_Some by lia. eexists. split; [done|]. split; [by rewrite length_insert|]. intros j.
    destruct (decide (j = Z.to_nat k)) as [->|Hne].
    + rewrite list_lookup_insert_eq by lia. rewrite decide_True by lia.
      rewrite Hl, decide_False in Ex by lia. rewrite <- Ex. f_equal. lia.
    + rewrite list_lookup_insert_ne by lia. rewrite Hl. repeat case_decide; (done || lia).
  - by exists o.
Qed.

Lemma start_le l j k : Forall (fun o => 0 <= obj_size o) l -> (j <= k)%nat -> start l j <= start l k.
Proof.
  intros Hs Hj. unfold start. replace (take j l) with (take j (take k l)) by (by rewrite take_take, Nat.min_l by lia).
  pose proof (total_take_le (take k l) j ltac:(by apply Forall_take)). lia.
Qed.

Lemma start_range h k : heap_ok h -> HEAP_START <= start (blocks h) k <= HEAP_START + 262144.
Proof.
  intros [_ _ _ Hs Ht]. pose proof (total_take_le (blocks h) k Hs). unfold start. rewrite Ht in *.
  change MALLOC_HEAP_SIZE with 8192 in *. lia.
Qed.

(** The search of [syscall_free] stops at the object. *)
Lemma free_finds objs count k :
  heap_ok (objs, count) -> freeable (blocks (objs, count)) k ->
  whileM (fun '(i, obj_ptr) =>
        if decide (i < count /\ obj_ptr < start (blocks (objs, count)) k) then
          o ← arr_get objs i;
          Some (inl (u16 (i + 1), u32 (obj_ptr + obj_size o * MALLOC_BLOCK_SIZE)))
        else Some (inr (i, obj_ptr))) (0, HEAP_START) = Some (Z.of_nat k, start (blocks (objs, count)) k).
Proof.
  intros Hh [Hk Hp]. pose proof Hh as [Hl Hcount Hu Hs Ht]. simpl in Hl, Hcount. unfold MALLOC_OBJ_NUM in *.
  set (bs := blocks (objs, count)) in *.
  assert (Lb : length bs = Z.to_nat count) by (subst bs; unfold blocks; simpl; rewrite length_take; lia).
  match goal with |- whileM ?f ?st = _ => destruct (whileM_total
    (fun '(i, p) => 0 <= i <= Z.of_nat k /\ p = start bs (Z.to_nat i)) (fun '(i, _) => Z.of_nat k - i)
    (fun r => r = (Z.of_nat k, start bs k)) f st) as (r & E & ->) end; [| | |done].
  - intros [i p] [Hi ->]. destruct (decide (i = Z.of_nat k)) as [->|Hne].
    { rewrite Nat2Z.id, decide_False by lia. done. }
    assert (Hlt : start bs (Z.to_nat i) < start bs k).
    { destruct k as [|k']; [lia|]. destruct (lookup_lt_is_Some_2 bs k') as [o Eo]; [lia|].
      destruct (Hp k' o eq_refl Eo) as [Hpos _].
      pose proof (start_le bs (Z.to_nat i) k' Hs ltac:(lia)). unfold start in *. rewrite (total_take_S _ _ _ Eo). lia. }
    rewrite decide_True by lia. destruct (arr_get_Some objs i) as (o & -> & Eo); [lia|]. rewrite bind_ret.
    destruct (block_at (objs, count) (Z.to_nat i) o Hh Eo ltac:(simpl; lia)) as (Eb & Hos & Hts & _).
    fold bs in Eb, Hts. change MALLOC_HEAP_SIZE with 8192 in *.
    unfold u16. rewrite Z.mod_small by lia. split; [|lia]. split; [lia|].
    replace (Z.to_nat (i + 1)) with (S (Z.to_nat i)) by lia. unfold start. rewrite (total_take_S _ _ _ Eb).
    unfold MALLOC_BLOCK_SIZE. pose proof heap_start_range. rewrite u32_small by lia. lia.
  - split; [lia|done].
  - unfold FUEL. lia.
Qed.

Lemma free_run objs count k :
  heap_ok (objs, count) -> freeable (blocks (objs, count)) k ->
  exists h', syscall_free (start (blocks (objs, count)) k) (objs, count) = Some (0, h') /\
    length h'.1 = length objs /\ 1 <= h'.2 <= count /\ blocks h' = free_spec k (blocks (objs, count)).
Proof.
  intros Hh Hf. pose proof Hh as [Hl Hcount Hu Hs Ht]. pose proof Hf as [Hk Hp]. simpl in Hl, Hcount. unfold MALLOC_OBJ_NUM in *.
  pose proof (free_finds objs count k Hh Hf) as Hsearch. pose proof (start_range (objs, count) k Hh) as Hr.
  pose proof heap_start_range. set (bs := blocks (objs, count)) in *.
  assert (Lb : length bs = Z.to_nat count) by (subst bs; unfold blocks; simpl; rewrite length_take; lia).
  unfold syscall_free. rewrite decide_False by lia. rewrite Hsearch, bind_ret. cbv beta iota.
  rewrite decide_False by (intros Hne; by apply Hne).
  destruct (lookup_lt_is_Some_2 objs k) as [o Eo]; [lia|]. destruct (lookup_lt_is_Some_2 objs (S k)) as [n En]; [lia|].
  destruct (block_at (objs, count) k o Hh Eo ltac:(simpl; lia)) as (Ebo & Hos & Hto & _).
  destruct (block_at (objs, count) (S k) n Hh En ltac:(simpl; lia)) as (Ebn & Hns & Htn & _).
  fold bs in Ebo, Ebn, Hto, Htn. change MALLOC_HEAP_SIZE with 8192 in *. rewrite (total_take_S _ _ _ Ebo) in Htn.
  rewrite (arr_get_lookup objs (Z.of_nat k)), Nat2Z.id, Eo, bind_ret, decide_True by lia. cbv zeta.
  rewrite (arr_get_lookup objs (Z.of_nat k + 1)) by lia.
  replace (Z.to_nat (Z.of_nat k + 1)) with (S k) by lia. rewrite En, !bind_ret.
  set (mv := if decide (obj_used n = 0) then 1 else 0).
  set (sz := if decide (obj_used n = 0) then obj_size o + obj_size n else obj_size o).
  assert (Emv : (if decide (obj_used n = 0) then (1, u16 (obj_size o + obj_size n)) else (0, obj_size o)) = (mv, sz)).
  { subst mv sz. destruct (decide (obj_used n = 0)); [|done]. unfold u16. by rewrite Z.mod_small by lia. }
  rewrite Emv. cbv beta iota.
  assert (Hmv : 0 <= mv <= 1) by (subst mv; destruct (decide (obj_used n = 0)); lia).
  assert (Hprev : (if decide (0 < Z.of_nat k) then
           p ← arr_get objs (Z.of_nat k - 1);
           if decide (obj_used p = 0) then n ← Some n; Some (mv + 1, u16 (sz + obj_size n), Z.of_nat k - 1)
           else Some (mv, sz, Z.of_nat k) else Some (mv, sz, Z.of_nat k)) = Some (mv, sz, Z.of_nat k)).
  { destruct (decide (0 < Z.of_nat k)); [|reflexivity]. destruct k as [|j]; [lia|]. destruct (lookup_lt_is_Some_2 objs j) as [p Ep]; [lia|].
    destruct (block_at (objs, count) j p Hh Ep ltac:(simpl; lia)) as (Ebp & _). fold bs in Ebp.
    rewrite arr_get_lookup by lia. replace (Z.to_nat (Z.of_nat (S j) - 1)) with j by lia. rewrite Ep, bind_ret.
    destruct (Hp j p eq_refl Ebp) as [_ Hpu]. by rewrite decide_False by done. }
  rewrite Hprev, bind_ret. cbv beta iota. rewrite u32_small by lia.
  destruct (copy_down objs (Z.of_nat k + 1) (count - mv) mv) as (objs1 & -> & L1 & C1); [lia|lia|lia|]. rewrite bind_ret.
  assert (E1 : objs1 !! k = Some o) by (rewrite C1, decide_False by lia; done).
  pose proof (take_drop_middle objs1 k o E1) as Esp.
  assert (Lk : length (take k objs1) = k) by (rewrite length_take; lia).
  rewrite <- Esp. rewrite set_mid, bind_ret by lia. rewrite set_mid, bind_ret by lia.
  eexists. split; [reflexivity|]. cbn [fst snd]. split; [|split; [lia|]].
  - rewrite <- L1. rewrite <- Esp at 3. by rewrite !length_app.
  - unfold blocks at 1. cbn [fst snd]. unfold set_used, set_size. cbn [obj_used obj_size]. change (0 mod 2) with 0.
    assert (Hsz : sz mod 32768 = sz). { apply Z.mod_small. subst sz. destruct (decide (obj_used n = 0)); lia. }
    rewrite Hsz, blocks_mid, Lk by lia. unfold free_spec. rewrite Ebo, Ebn.
    assert (Etk : take k objs1 = take k bs).
    { apply list_eq. intros j. destruct (decide (j < k)%nat).
      - rewrite !lookup_take_lt by lia. rewrite C1, decide_False by lia. subst bs. unfold blocks. simpl.
        by rewrite lookup_take_lt by lia.
      - by rewrite !lookup_take_ge by lia. }
    rewrite Etk.
    assert (Etl : take (Z.to_nat (count - mv) - S k) (drop (S k) objs1) = drop (S k + Z.to_nat mv) bs).
    { apply list_eq. intros j. rewrite lookup_drop. subst bs. unfold blocks. cbn [fst snd].
      destruct (decide (j < Z.to_nat (count - mv) - S k)%nat).
      - rewrite !lookup_take_lt, lookup_drop by lia. rewrite C1, decide_True by lia. f_equal. lia.
      - rewrite !lookup_take_ge by lia. done. }
    rewrite Etl. subst mv sz. destruct (decide (obj_used n = 0)); do 3 f_equal; lia.
Qed.

(** ** Properties *)

(** The address and size in bytes of the used objects, from address [a] on. *)
Fixpoint regions (a : Z) (l : list malloc_obj_t) : list (Z * Z) :=
  match l with
  | [] => []
  | o :: l => (if decide (obj_used o = 0) then [] else [(a, 32 * obj_size o)]) ++ regions (a + 32 * obj_size o) l
  end.

Lemma regions_app a l1 l2 : regions a (l1 ++ l2) = regions a l1 ++ regions (a + 32 * total l1) l2.
Proof.
  revert a. induction l1 as [|o l1 IH]; intros a; simpl; [by rewrite Z.add_0_r|].
  rewrite IH, <- app_assoc. do 3 f_equal. lia.
Qed.

(** The regions lie in order in the range of the objects. *)
Lemma regions_bounds a l : Forall (fun o => 0 <= obj_size o) l ->
  Forall (fun '(b, n) => a <= b /\ 0 <= n /\ b + n <= a + 32 * total l) (regions a l).
Proof.
  revert a. induction l as [|o l IH]; intros a Hs; [done|]. apply Forall_cons_1 in Hs as [Ho Hs].
  pose proof (total_nonneg l Hs). change (total (o :: l)) with (obj_size o + total l). cbn [regions]. apply Forall_app_2; [case_decide; [done|]|].
  - constructor; [lia|done].
  - eapply Forall_impl; [|by apply IH]. intros [b n]. lia.
Qed.

Lemma malloc_spec_ok size l :
  Forall (fun o => obj_used o = 0 \/ obj_used o = 1) l -> Forall (fun o => 0 <= obj_size o) l -> 0 <= size ->
  let l' := (malloc_spec size l).2 in
  total l' = total l /\ Forall (fun o => obj_used o = 0 \/ obj_used o = 1) l' /\ Forall (fun o => 0 <= obj_size o) l'.
Proof.
  intros Hu Hs H0. unfold malloc_spec. destruct (list_find (fits size) l) as [[k o]|] eqn:E; [|done].
  apply list_find_Some in E as (Ek & Hf & _). simpl. destruct (serve_total size o Hf H0) as (Ht & Hu' & Hs').
  assert (Et : total l = total (take k l) + (obj_size o + total (drop (S k) l))).
  { rewrite <- (take_drop_middle l k o Ek) at 1. by rewrite total_app. }
  rewrite Et, !total_app, Ht. split; [lia|]. split; repeat apply Forall_app_2; try done; (by apply Forall_take) || (by apply Forall_drop).
Qed.

(** A request served. *)
Lemma malloc_region (size : Z) (h : heap) :
  heap_ok h -> 0 <= size < 4294967296 -> h.2 < MALLOC_OBJ_NUM - 1 ->
  exists ptr h', syscall_malloc size h = Some (ptr, h') /\ heap_ok h' /\
    (ptr, blocks h') = malloc_spec size (blocks h) /\
    match list_find (fits size) (blocks h) with
    | None => ptr = 0 /\ h' = h
    | Some _ => exists r1 r2 n,
        regions HEAP_START (blocks h) = r1 ++ r2 /\ regions HEAP_START (blocks h') = r1 ++ (ptr, n) :: r2 /\
        size <= n /\ HEAP_START <= ptr /\ ptr + n <= HEAP_START + 256 * 1024 /\
        Forall (fun '(b, m) => b + m <= ptr) r1 /\ Forall (fun '(b, m) => ptr + n <= b) r2
    end.
Proof.
  destruct h as [objs count]. intros Hh Hsz Hc. pose proof Hh as [Hl Hcount Hu Hs Ht]. simpl in Hl, Hcount, Hc.
  pose proof (malloc_run size objs count Hh Hsz ltac:(lia)) as Hrun.
  destruct (malloc_spec_ok size _ Hu Hs ltac:(lia)) as (Ht' & Hu' & Hs'). unfold malloc_spec in *.
  destruct (list_find (fits size) (blocks (objs, count))) as [[k o]|] eqn:E; [|by exists 0, (objs, count)].
  rewrite decide_False in Hrun by (unfold MALLOC_OBJ_NUM in *; lia). destruct Hrun as (objs' & Em & Lm & Eb).
  apply list_find_Some in E as (Ek & [Hfree Hfit] & _). cbn [snd] in Ht', Hu', Hs'.
  eexists _, _. split; [exact Em|]. unfold MALLOC_OBJ_NUM in *. split.
  { split; cbn [fst snd]; rewrite ?Eb; try done.
    - by rewrite Lm.
    - unfold serve. case_decide; simpl; unfold MALLOC_OBJ_NUM; lia.
    - by rewrite Ht'. }
  split; [by rewrite Eb|]. set (bs := blocks (objs, count)) in *.
  pose proof (take_drop_middle bs k o Ek) as El.
  assert (Hsz' : exists n, serve size o = [mkObj 1 n] /\ n = obj_size o /\ size <= 32 * n \/
                  serve size o = [mkObj 1 n; mkObj 0 (obj_size o - n)] /\ 0 <= n <= obj_size o /\ size <= 32 * n).
  { unfold serve. case_decide; [exists (obj_size o); left; split_and!; (done || lia)|].
    exists (size / 32 + 1). right. split; [done|]. zlia. }
  destruct Hsz' as (n & Hserve). exists (regions HEAP_START (take k bs)),
    (regions (start bs k + 32 * obj_size o) (drop (S k) bs)), (32 * n).
  assert (Hn : 0 <= n <= obj_size o /\ size <= 32 * n) by (destruct Hserve as [(_ & -> & ?)|(_ & ? & ?)]; lia).
  pose proof (total_take_le bs (S k) Hs) as Hk. rewrite (total_take_S _ _ _ Ek), Ht in Hk. change MALLOC_HEAP_SIZE with 8192 in Hk.
  pose proof (total_take_le bs k Hs) as Hk0.
  split_and!.
  - rewrite <- El at 1. rewrite regions_app. cbn [regions]. by rewrite decide_True.
  - rewrite Eb, regions_app. f_equal. fold (start bs k).
    destruct Hserve as [(-> & -> & _)|(-> & _)]; cbn [app regions obj_used obj_size]; [done|].
    rewrite decide_False, decide_True by done. cbn [app]. do 2 f_equal. lia.
  - lia.
  - unfold start. lia.
  - unfold start. lia.
  - eapply Forall_impl; [|apply regions_bounds; by apply Forall_take]. intros [b m]. unfold start. lia.
  - eapply Forall_impl; [|apply regions_bounds; by apply Forall_drop]. intros [b m]. lia.
Qed.

(** C12: [syscall_malloc] serves a request from the first free object that is
    large enough, and returns its address; with none it returns NULL and
    changes nothing.  The map stays well formed (the sizes still add up to the
    heap), and the address is that of a region of at least [size] bytes, inside
    the heap, that overlaps no object in use; every object in use before keeps
    its region. *)
Theorem malloc_correct (size : Z) (h : heap) :
  heap_ok h -> 0 <= size < 4294967296 -> h.2 < MALLOC_OBJ_NUM - 1 ->
  exists ptr h', syscall_malloc size h = Some (ptr, h') /\ heap_ok h' /\
    (ptr, blocks h') = malloc_spec size (blocks h) /\
    match list_find (fits size) (blocks h) with
    | None => ptr = 0 /\ h' = h
    | Some _ => exists r1 r2 n,
        regions HEAP_START (blocks h) = r1 ++ r2 /\ regions HEAP_START (blocks h') = r1 ++ (ptr, n) :: r2 /\
        size <= n /\ HEAP_START <= ptr /\ ptr + n <= HEAP_START + 256 * 1024 /\
        Forall (fun '(b, m) => b + m <= ptr) r1 /\ Forall (fun '(b, m) => ptr + n <= b) r2
    end.
Proof. apply malloc_region. Qed.

Lemma free_spec_ok k l :
  Forall (fun o => obj_used o = 0 \/ obj_used o = 1) l -> Forall (fun o => 0 <= obj_size o) l ->
  let l' := free_spec k l in
  total l' = total l /\ Forall (fun o => obj_used o = 0 \/ obj_used o = 1) l' /\ Forall (fun o => 0 <= obj_size o) l'.
Proof.
  intros Hu Hs. unfold free_spec. destruct (l !! k) as [o|] eqn:Eo; [|done]. destruct (l !! S k) as [n|] eqn:En; [|done].
  pose proof (Forall_lookup_1 _ _ _ _ Hs Eo) as Ho. pose proof (Forall_lookup_1 _ _ _ _ Hs En) as Hn. simpl in Ho, Hn.
  pose proof (take_drop_middle l k o Eo) as El. pose proof (drop_S l n (S k) En) as Ed.
  assert (Et : total l = total (take k l) + (obj_size o + (obj_size n + total (drop (S (S k)) l)))).
  { rewrite <- El at 1. rewrite Ed, total_app. done. }
  case_decide.
  - split; [rewrite total_app, Et; simpl; lia|]. split; (apply Forall_app_2; [by apply Forall_take|]);
      constructor; simpl; try lia; try (by left); by apply Forall_drop.
  - split; [rewrite total_app, Et, Ed; simpl; lia|]. split; (apply Forall_app_2; [by apply Forall_take|]);
      constructor; simpl; try lia; try (by left); by apply Forall_drop.
Qed.

(** [syscall_free] of the address of an object in use that does not follow
    a free one frees it, merging it with the next object if that is free; the
    map stays well formed.  NULL is accepted and ignored.  An address at which
    no object starts is refused with -1. *)
Theorem free_correct (ptr : Z) (h : heap) :
  heap_ok h -> 0 <= ptr < 4294967296 ->
  (forall k, freeable (blocks h) k -> ptr = start (blocks h) k ->
     exists h', syscall_free ptr h = Some (0, h') /\ heap_ok h' /\ blocks h' = free_spec k (blocks h)) /\
  (ptr = 0 -> syscall_free ptr h = Some (0, h)) /\
  (ptr <> 0 -> (forall j, (j <= length (blocks h))%nat -> ptr <> start (blocks h) j) -> syscall_free ptr h = Some (-1, h)).
Proof.
  destruct h as [objs count]. intros Hh Hp. pose proof Hh as [Hl Hcount Hu Hs Ht]. simpl in Hl, Hcount. split_and!.
  - intros k Hf ->. destruct (free_run objs count k Hh Hf) as (h' & E & L & C & B). exists h'. split; [done|].
    split; [|done]. destruct (free_spec_ok k _ Hu Hs) as (Ht' & Hu' & Hs').
    split; rewrite ?B; try done; [by rewrite L|lia|by rewrite Ht'].
  - intros ->. done.
  - intros Hz Hno. unfold syscall_free. rewrite decide_False by done. unfold MALLOC_OBJ_NUM in *.
    set (bs := blocks (objs, count)) in *.
    assert (Lb : length bs = Z.to_nat count) by (subst bs; unfold blocks; simpl; rewrite length_take; lia).
    match goal with |- context [whileM ?f ?st] => destruct (whileM_total
      (fun '(i, p) => 0 <= i <= count /\ p = start bs (Z.to_nat i)) (fun '(i, _) => count - i)
      (fun '(i, p) => p <> ptr) f st) as ([i p] & -> & Hne) end.
    + intros [i p] [Hi ->]. case_decide as D; [|intros E; by apply (Hno (Z.to_nat i)); [lia|]].
      destruct (arr_get_Some objs i) as (o & -> & Eo); [lia|]. rewrite bind_ret.
      destruct (block_at (objs, count) (Z.to_nat i) o Hh Eo ltac:(simpl; lia)) as (Eb & Hos & Hts & _).
      fold bs in Eb, Hts. change MALLOC_HEAP_SIZE with 8192 in *.
      unfold u16. rewrite Z.mod_small by lia. split; [|lia]. split; [lia|].
      replace (Z.to_nat (i + 1)) with (S (Z.to_nat i)) by lia. unfold start. rewrite (total_take_S _ _ _ Eb).
      unfold MALLOC_BLOCK_SIZE. pose proof heap_start_range. rewrite u32_small by lia. lia.
    + split; [lia|done].
    + unfold FUEL. lia.
    + rewrite bind_ret. cbv beta iota. by rewrite decide_True.
Qed.

(** C29: Allocating and freeing are inverse: when the first fit does not follow
    a free object, and an exact fit is not followed by one, freeing the
    address [syscall_malloc] returned gives back the very list of objects. *)
Theorem malloc_free_roundtrip (size : Z) (h : heap) (k : nat) (o : malloc_obj_t) :
  heap_ok h -> 0 <= size < 4294967296 -> h.2 < MALLOC_OBJ_NUM - 1 ->
  list_find (fits size) (blocks h) = Some (k, o) ->
  (forall j p, k = S j -> blocks h !! j = Some p -> 0 < obj_size p /\ obj_used p <> 0) ->
  (size = 32 * obj_size o -> exists n, blocks h !! S k = Some n /\ obj_used n <> 0) ->
  exists ptr h1 h2, syscall_malloc size h = Some (ptr, h1) /\ syscall_free ptr h1 = Some (0, h2) /\ blocks h2 = blocks h.
Proof.
  destruct h as [objs count]. intros Hh Hsz Hc Hfind Hprev Hexact. pose proof Hh as [Hl Hcount Hu Hs Ht].
  simpl in Hl, Hcount, Hc. pose proof (malloc_run size objs count Hh Hsz ltac:(lia)) as Hrun. rewrite Hfind in Hrun.
  rewrite decide_False in Hrun by (unfold MALLOC_OBJ_NUM in *; lia). destruct Hrun as (objs' & Em & Lm & Eb).
  pose proof (malloc_spec_ok size _ Hu Hs ltac:(lia)) as Hspec. unfold malloc_spec in Hspec. rewrite Hfind in Hspec.
  cbn [snd] in Hspec. destruct Hspec as (Ht' & Hu' & Hs').
  apply list_find_Some in Hfind as (Ek & [Hfree Hfit] & _). set (bs := blocks (objs, count)) in *.
  set (count' := count + Z.of_nat (length (serve size o)) - 1) in *.
  assert (Lk : length (take k bs) = k). { pose proof (lookup_lt_Some _ _ _ Ek). rewrite length_take. lia. }
  assert (Hlen : (1 <= length (serve size o) <= 2)%nat) by (unfold serve; case_decide; simpl; lia).
  assert (Hh1 : heap_ok (objs', count')).
  { unfold MALLOC_OBJ_NUM in *. split; cbn [fst snd]; rewrite ?Eb; try done.
    - by rewrite Lm.
    - subst count'. unfold MALLOC_OBJ_NUM. lia.
    - by rewrite Ht'. }
  assert (Hstart : start bs k = start (blocks (objs', count')) k).
  { rewrite Eb. unfold start. do 3 f_equal. by rewrite take_app_length' by done. }
  assert (Hb1 : blocks (objs', count') !! k = Some (mkObj 1 (if decide (size = 32 * obj_size o) then obj_size o else size / 32 + 1))).
  { rewrite Eb, lookup_app_r by lia. rewrite Lk, Nat.sub_diag. unfold serve. by case_decide. }
  assert (Hb2 : exists n, blocks (objs', count') !! S k = Some n /\
    (if decide (size = 32 * obj_size o) then obj_used n <> 0 else n = mkObj 0 (obj_size o - (size / 32 + 1)))).
  { rewrite Eb. rewrite lookup_app_r by lia. rewrite Lk. replace (S k - k)%nat with 1%nat by lia. unfold serve.
    destruct (decide (size = 32 * obj_size o)) as [D|D]; [|by eexists].
    destruct (Hexact D) as (n & En & Hn). exists n. split; [|done]. simpl. rewrite lookup_drop. by rewrite Nat.add_0_r. }
  destruct Hb2 as (n & Hb2 & Hn).
  destruct (free_run objs' count' k Hh1) as (h2 & Ef & _ & _ & Eb2).
  { split; [by apply (lookup_lt_Some _ _ n)|]. intros j p -> Ej. rewrite Eb, lookup_app_l in Ej by lia.
    rewrite lookup_take_lt in Ej by lia. by apply (Hprev j). }
  rewrite <- Hstart in Ef. exists (start bs k), (objs', count'), h2. split; [exact Em|]. split; [exact Ef|].
  rewrite Eb2. unfold free_spec. rewrite Hb1, Hb2.
  assert (Etk : take k (blocks (objs', count')) = take k bs).
  { rewrite Eb. by rewrite take_app_length' by done. }
  rewrite Etk. etransitivity; [|exact (take_drop_middle bs k o Ek)]. cbn [obj_size].
  assert (Ed : forall j, drop (k + j) (blocks (objs', count')) = drop j (serve size o ++ drop (S k) bs)).
  { intros j. rewrite Eb, drop_app_ge by lia. f_equal. lia. }
  assert (Eo : mkObj 0 (obj_size o) = o) by (clear -Hfree; destruct o; simpl in *; by subst). f_equal.
  unfold serve in Ed. destruct (decide (size = 32 * obj_size o)) as [D|D].
  - rewrite (decide_False (P := obj_used n = 0)) by exact Hn. specialize (Ed 1%nat). rewrite Nat.add_1_r in Ed. rewrite Ed, Eo. done.
  - subst n. rewrite decide_True by done. specialize (Ed 2%nat). replace (k + 2)%nat with (S (S k)) in Ed by lia.
    rewrite Ed. cbn [app drop obj_size]. replace (size / 32 + 1 + (obj_size o - (size / 32 + 1))) with (obj_size o) by lia. by rewrite Eo.
Qed.

(** ** What goes wrong outside those conditions *)

(** With 2047 objects, splitting one moves the last descriptor past the end of
    the map. *)
Lemma malloc_overruns_map objs o size :
  length objs = 2048%nat -> objs !! 0%nat = Some o -> obj_used o = 0 -> 0 <= size < 32 * obj_size o -> obj_size o <= 8192 ->
  syscall_malloc size (objs, MALLOC_OBJ_NUM - 1) = None.
Proof.
  intros Hl Eo Hfree Hsz Ho. unfold syscall_malloc. apply whileM_fault. change (u32 0) with 0.
  rewrite decide_True by done. rewrite arr_get_lookup by done. change (Z.to_nat 0) with 0%nat. rewrite Eo, bind_ret. cbv zeta. rewrite decide_True by done.
  unfold MALLOC_BLOCK_SIZE. rewrite u32_small, decide_True, decide_False by (lia || done).
  unfold split_obj, for_downM. rewrite s16_small by (unfold MALLOC_OBJ_NUM; lia).
  rewrite seqZ_snoc by (unfold MALLOC_OBJ_NUM; lia). rewrite reverse_snoc, foldM_cons. unfold MALLOC_OBJ_NUM.
  assert (E : copy_obj (2047 + 1) 2047 objs = None).
  { unfold copy_obj. destruct (arr_get objs 2047); [|done]. rewrite bind_ret. apply arr_set_None. lia. }
  cbv beta. replace (0 - 1 + 1 + (2048 - 1 - (0 - 1) - 1)) with 2047 by lia. by rewrite E.
Qed.

(** A heap of four objects; the rest of the map is zero. *)
Definition sample_heap (l : list malloc_obj_t) : heap :=
  (l ++ replicate (2048 - length l) (mkObj 0 0), Z.of_nat (length l)).

(** Freeing an object that follows a free one adds the size of the object after
    it instead of the one before: the heap of 8192 blocks then has 8187. *)
Lemma free_after_free_corrupts :
  let l := [mkObj 0 10; mkObj 1 2; mkObj 1 5; mkObj 0 8175] in
  heap_ok (sample_heap l) /\
  exists h', syscall_free (start l 1) (sample_heap l) = Some (0, h') /\
    blocks h' = [mkObj 0 7; mkObj 1 5; mkObj 0 8175] /\ total (blocks h') = 8187.
Proof.
  split; [split; [reflexivity|done|by repeat constructor|repeat constructor; done|reflexivity]|].
  eexists. split; [vm_compute; reflexivity|]. by vm_compute.
Qed.

(** Freeing the last object of the heap loses it when the stale descriptor after
    it reads as free: an empty map remains, from which nothing is served. *)
Lemma free_last_loses_heap :
  exists h1 h2, syscall_malloc (256 * 1024) (sample_heap [mkObj 0 8192]) = Some (HEAP_START, h1) /\
    syscall_free HEAP_START h1 = Some (0, h2) /\ h2.2 = 0 /\ syscall_malloc 1 h2 = Some (0, h2).
Proof.
  eexists _, _. split; [vm_compute; reflexivity|]. split; [vm_compute; reflexivity|]. by vm_compute.
Qed.

(** ** Witnesses *)

Definition sample_objs : list malloc_obj_t := [mkObj 1 4; mkObj 0 100; mkObj 1 5; mkObj 0 8083].

Lemma sample_heap_ok : heap_ok (sample_heap sample_objs).
Proof. split; [reflexivity|done|by repeat constructor|repeat constructor; done|reflexivity]. Qed.

Lemma malloc_correct_witness :
  exists h', syscall_malloc 1000 (sample_heap sample_objs) = Some (HEAP_START + 128, h') /\ heap_ok h'.
Proof.
  destruct (malloc_correct 1000 (sample_heap sample_objs)) as (ptr & h' & E & Hh & Hs & _).
  - apply sample_heap_ok.
  - lia.
  - reflexivity.
  - exists h'. split; [|exact Hh]. replace (HEAP_START + 128) with ptr; [exact E|].
    apply (f_equal fst) in Hs. exact Hs.
Defined.

Lemma free_correct_witness :
  exists h', syscall_free (HEAP_START + 3329) (sample_heap sample_objs) = Some (-1, h').
Proof.
  destruct (free_correct (HEAP_START + 3329) (sample_heap sample_objs)) as (_ & _ & H).
  - apply sample_heap_ok.
  - vm_compute. split; congruence.
  - exists (sample_heap sample_objs). apply H; [discriminate|].
    intros j Hj. change (length _) with 4%nat in Hj. do 5 (destruct j as [|j]; [vm_compute; discriminate|]). lia.
Defined.

Lemma malloc_free_roundtrip_witness :
  exists ptr h1 h2, syscall_malloc 3200 (sample_heap sample_objs) = Some (ptr, h1) /\ syscall_free ptr h1 = Some (0, h2) /\
    blocks h2 = sample_objs.
Proof.
  apply (malloc_free_roundtrip 3200 (sample_heap sample_objs) 1 (mkObj 0 100)).
  - apply sample_heap_ok.
  - lia.
  - reflexivity.
  - vm_compute. reflexivity.
  - intros j p [= <-] [= <-]. split; [reflexivity|discriminate].
  - intros _. exists (mkObj 1 5). split; [reflexivity|discriminate].
Defined.
