(* ===== verification/UserAlloc.v ===== *)
(** * Allocation in user programs: ece391_calloc and ece391_strdup of syscalls/ece391support.c

    Both call [ece391_malloc], which is [syscall_malloc] on the map of the
    caller's heap, and write the region it returns.  Neither looks at what malloc
    returned: without memory the bytes go to the addresses from 0 on. *)
From stdpp Require Import base tactics list numbers gmap option.
From Stdlib Require Import ZArith Lia.
From S2P Require Import Prelude CLib Support Task Malloc.

Open Scope Z_scope.

(** [ece391_calloc(bytes)] *)
Definition ece391_calloc (bytes : Z) '((h, m) : heap * mem) : option (Z * (heap * mem)) :=
  '(ptr, h) ← syscall_malloc bytes h;
  m ← for_upM 0 bytes (fun i m => bput m (ptr + i) 0) m;
  Some (ptr, (h, m)).

(** [ece391_strdup(str)] *)
Definition ece391_strdup (str : Z) '((h, m) : heap * mem) : option (Z * (heap * mem)) :=
  len ← ece391_strlen m str;
  '(new_str, h) ← syscall_malloc (u32 (len + 1)) h;
  m ← ece391_strcpy m new_str str;
  m ← bput m (new_str + len) 0;
  Some (new_str, (h, m)).

(** The loop that clears. *)
Lemma clear_bytes ptr bytes m : mem_ok m -> 0 <= ptr -> 0 <= bytes -> ptr + bytes <= 4294967296 ->
  exists m', for_upM 0 bytes (fun i m => bput m (ptr + i) 0) m = Some m' /\ mem_ok m' /\
    forall a, ld8 m' a = if decide (ptr <= a < ptr + bytes) then 0 else ld8 m a.
Proof.
  intros Hm Hp Hb Hc.
  destruct (for_upM_ind (fun i x => mem_ok x /\ forall a, ld8 x a = if decide (ptr <= a < ptr + i) then 0 else ld8 m a)
    0 bytes (fun i m => bput m (ptr + i) 0) m Hb) as (m' & E & Hm' & Hs).
  - split; [done|]. intros a. by rewrite decide_False by lia.
  - intros i x Hi [Hx Hs]. exists (st8 x (ptr + i) 0). split; [cbn [bput mem_buf]; by rewrite decide_True by lia|].
    split; [by apply mem_ok_st8|]. intros a. destruct (decide (a = ptr + i)) as [->|D].
    + rewrite ld8_st8_eq. by rewrite decide_True by lia.
    + rewrite ld8_st8_ne, Hs by lia. destruct (decide (ptr <= a < ptr + i)); [by rewrite decide_True by lia|by rewrite decide_False by lia].
  - by exists m'.
Qed.

Section Alloc.
Context (h : heap) (m : mem) (Hh : heap_ok h) (Hm : mem_ok m) (Hcount : h.2 < MALLOC_OBJ_NUM - 1).

(** The region returned is the caller's alone and reads as zeros. *)
Lemma calloc_zeroed bytes : 0 <= bytes < 4294967296 -> list_find (fits bytes) (blocks h) <> None ->
  exists ptr h' m', ece391_calloc bytes (h, m) = Some (ptr, (h', m')) /\ heap_ok h' /\ mem_ok m' /\
    HEAP_START <= ptr /\ ptr + bytes <= HEAP_START + 256 * 1024 /\
    forall a, ld8 m' a = if decide (ptr <= a < ptr + bytes) then 0 else ld8 m a.
Proof.
  intros Hb Hf. destruct (malloc_region bytes h Hh Hb Hcount) as (ptr & h' & E & Hh' & _ & R).
  destruct (list_find (fits bytes) (blocks h)) as [x|]; [|done]. destruct R as (r1 & r2 & n & _ & _ & Hn & Hp & Hend & _).
  destruct (clear_bytes ptr bytes m Hm) as (m' & Em & Hm' & Hs); [pose proof heap_start_range; lia..|].
  exists ptr, h', m'. unfold ece391_calloc. rewrite E, bind_ret, Em, bind_ret. split_and!; try done. lia.
Qed.

(** Without memory the bytes from address 0 on are cleared, and NULL returned. *)
Lemma calloc_null bytes : 0 <= bytes < 4294967296 -> list_find (fits bytes) (blocks h) = None ->
  exists m', ece391_calloc bytes (h, m) = Some (0, (h, m')) /\ forall a, ld8 m' a = if decide (0 <= a < bytes) then 0 else ld8 m a.
Proof.
  intros Hb Hf. destruct (malloc_region bytes h Hh Hb Hcount) as (ptr & h' & E & _ & _ & R). rewrite Hf in R. destruct R as [-> ->].
  destruct (clear_bytes 0 bytes m Hm) as (m' & Em & _ & Hs); [lia..|].
  exists m'. unfold ece391_calloc. rewrite E, bind_ret, Em, bind_ret. by split.
Qed.

(** A string behind the heap, copied into it. *)
Lemma strdup_copies str l : cstr m str l -> Z.of_nat (length l) + 1 < 4294967296 -> HEAP_START + 256 * 1024 <= str ->
  list_find (fits (Z.of_nat (length l) + 1)) (blocks h) <> None ->
  exists ptr h' m', ece391_strdup str (h, m) = Some (ptr, (h', m')) /\ heap_ok h' /\ mem_ok m' /\ cstr m' ptr l /\
    HEAP_START <= ptr /\ ptr + (Z.of_nat (length l) + 1) <= HEAP_START + 256 * 1024 /\
    forall a, ~ (ptr <= a <= ptr + Z.of_nat (length l)) -> ld8 m' a = ld8 m a.
Proof.
  intros Hl Hlen Hstr Hf. unfold ece391_strdup. rewrite (ece391_strlen_spec m str l Hl), bind_ret, u32_small by lia.
  destruct (malloc_region (Z.of_nat (length l) + 1) h Hh ltac:(lia) Hcount) as (ptr & h' & E & Hh' & _ & R).
  destruct (list_find _ (blocks h)) as [x|]; [|done]. destruct R as (r1 & r2 & n & _ & _ & Hn & Hp & Hend & _).
  assert (Hcap : 0 <= ptr /\ ptr + Z.of_nat (length l) < 4294967296) by (pose proof heap_start_range; lia).
  destruct (ece391_strcpy_mem m ptr str l Hm Hl) as (m1 & E1 & Hm1 & Hc1 & Hk1); [lia..|].
  rewrite E, bind_ret, E1, bind_ret.
  assert (Ebp : bput m1 (ptr + Z.of_nat (length l)) 0 = Some (st8 m1 (ptr + Z.of_nat (length l)) 0)) by (cbn [bput mem_buf]; by rewrite decide_True by lia).
  rewrite Ebp, bind_ret. eexists ptr, h', _. split; [done|]. split; [done|]. split; [by apply mem_ok_st8|].
  assert (Hsame : forall a, ld8 (st8 m1 (ptr + Z.of_nat (length l)) 0) a = ld8 m1 a).
  { intros a. destruct (decide (a = ptr + Z.of_nat (length l))) as [->|D]; [|by rewrite ld8_st8_ne].
    rewrite ld8_st8_eq. destruct Hc1 as [_ Hz]. cbn [bget mem_buf] in Hz. rewrite decide_True in Hz by lia. apply (inj Some) in Hz. by rewrite Hz. }
  split; [|split; [done|split; [lia|]]].
  - destruct Hc1 as [H1 H2]. split; [intros k c Hk; destruct (H1 k c Hk) as [H3 H4]; split; [|done]; rewrite <- H3|rewrite <- H2]; cbn [bget mem_buf]; by rewrite Hsame.
  - intros a Ha. rewrite Hsame. by apply Hk1.
Qed.
End Alloc.
