(* ===== verification/Syscall.v ===== *)
(** * The kernel's state and the system calls on files: student-distrib/syscall.c

    One record holds what the system calls reach: the terminals, the memory as
    the processor sees it and the PCBs (the record of term.c), the clock, the
    file system, the paging structures with the user page they last mapped, the
    contents of the user pages that are not mapped, the task state segment and
    the table of process numbers. *)
From stdpp Require Import base tactics list numbers gmap option.
From Stdlib Require Import ZArith Lia.
From S2P Require Import Prelude CLib Task FileSys Term TermSys Rtc Page.

Open Scope Z_scope.

(** ** State *)

Record tss_t := mkTss { esp0 : Z; ss0 : Z }.

Record kernel := mkKernel {
  k_ts : tstate;
  k_rtc : rtc_globals;
  k_fs : fs_globals;
  k_paging : paging;
  k_mapped : Z;                 (* the 4 MB page the user addresses go to *)
  k_pages : gmap Z mem;         (* the user pages that are not mapped *)
  tss : tss_t;
  pid_used : list Z             (* MAX_PROC_NUM entries *)
}.

Definition set_ts (t : tstate) (k : kernel) : kernel :=
  mkKernel t (k_rtc k) (k_fs k) (k_paging k) (k_mapped k) (k_pages k) (tss k) (pid_used k).
Definition set_rtc (r : rtc_globals) (k : kernel) : kernel :=
  mkKernel (k_ts k) r (k_fs k) (k_paging k) (k_mapped k) (k_pages k) (tss k) (pid_used k).
Definition set_paging (p : paging) (k : kernel) : kernel :=
  mkKernel (k_ts k) (k_rtc k) (k_fs k) p (k_mapped k) (k_pages k) (tss k) (pid_used k).
Definition set_mapped (q : Z) (ps : gmap Z mem) (k : kernel) : kernel :=
  mkKernel (k_ts k) (k_rtc k) (k_fs k) (k_paging k) q ps (tss k) (pid_used k).
Definition set_tss (t : tss_t) (k : kernel) : kernel :=
  mkKernel (k_ts k) (k_rtc k) (k_fs k) (k_paging k) (k_mapped k) (k_pages k) t (pid_used k).
Definition set_pid_used (l : list Z) (k : kernel) : kernel :=
  mkKernel (k_ts k) (k_rtc k) (k_fs k) (k_paging k) (k_mapped k) (k_pages k) (tss k) l.

Definition k_mem (k : kernel) : mem := vmem (k_ts k).
Definition k_pcbs (k : kernel) : pcb_store := pcbs (k_ts k).
Definition set_kmem (m : mem) (k : kernel) : kernel := set_ts (set_vmem m (k_ts k)) k.
Definition set_kpcbs (st : pcb_store) (k : kernel) : kernel := set_ts (set_pcbs st (k_ts k)) k.

(** [pcb->... = ...] through the address of a PCB. *)
Definition on_pcb (a : Z) (f : PCB_t -> PCB_t) (k : kernel) : option kernel :=
  p ← k_pcbs k !! a; Some (set_kpcbs (<[a := f p]> (k_pcbs k)) k).

(** [terms[i].cur_pid = pid] *)
Definition set_term_pid (i pid : Z) (k : kernel) : option kernel :=
  t ← arr_get (terms (k_ts k)) i;
  l ← arr_set (terms (k_ts k)) i (set_cur_pid pid t);
  Some (set_ts (set_terms l (k_ts k)) k).

(** ** The user page

    Loading CR3 empties the translation cache, so that the user addresses
    [TASK_VIRT_PAGE_BEG, TASK_VIRT_PAGE_END) go to the 4 MB page the directory
    names.  Memory is kept as it is addressed: the bytes at user addresses are
    put aside as the page that was mapped, and those of the new page put in
    their place. *)
#[export] Instance user_address_dec va : Decision (user_address va).
Proof. unfold user_address. apply _. Defined.

Definition user_part (m : mem) : mem := filter (fun '(a, _) => user_address a) m.
Definition kernel_part (m : mem) : mem := filter (fun '(a, _) => ~ user_address a) m.
Definition page_of_task (q : Z) (k : kernel) : mem := default ∅ (k_pages k !! q).

Definition map_page (q : Z) (k : kernel) : kernel :=
  if decide (q = k_mapped k) then k
  else
    let page := user_part (page_of_task q k) in
    let ps := <[k_mapped k := user_part (k_mem k)]> (k_pages k) in
    set_mapped q ps (set_kmem (kernel_part (k_mem k) ∪ page) k).

(** [movl page_directory, %cr3] *)
Definition load_cr3 (k : kernel) : option kernel :=
  e ← arr_get (page_directory (k_paging k)) USER_PAGE_INDEX;
  Some (map_page (field_of page_PDE_page_addr e) k).

(** The user page set to that of a task and the translations reloaded. *)
Definition switch_page (pid : Z) (k : kernel) : option kernel :=
  p ← set_task_page pid (k_paging k);
  load_cr3 (set_paging p k).

(** ** File operations through the tables *)

(** What the environment supplies: the uninitialised local [dentry_t] and
    FILE and arrays, the interrupts served while a read blocks (on the
    terminals and on the clock), and what register A of the clock reads as. *)
Record env := mkEnv {
  e_dentry : dentry_t;
  e_file : FILE;
  e_array : Z -> list Z;                 (* an uninitialised char[n] *)
  e_tirqs : list irq;
  e_rirqs : list (rtc_globals * pcb_store -> option (rtc_globals * pcb_store));
  e_reg_a : Z
}.

(** The clock's functions on the kernel. *)
Definition on_rtc (f : rtc_globals * pcb_store -> option (Z * (rtc_globals * pcb_store))) (k : kernel)
  : option (Z * kernel) :=
  '(r, (g, st)) ← f (k_rtc k, k_pcbs k); Some (r, set_rtc g (set_kpcbs st k)).

(** [file->file_ops->read(buf, nbytes, file)], run by the task whose PCB is at
    [cur]. *)
Definition file_read (e : env) (cur buf nbytes : Z) (fp : fptr) (k : kernel) : option (Z * kernel) :=
  file ← get_file (k_pcbs k) fp;
  match file_ops file with
  | fs_file_ops_table =>
      let '(n, m, file') := fs_file_read (k_mem k) (k_fs k) buf nbytes file in
      st ← set_file (k_pcbs k) fp file';
      Some (n, set_kpcbs st (set_kmem m k))
  | fs_dir_ops_table =>
      '(n, m, file') ← fs_dir_read (k_mem k) (k_fs k) (e_dentry e) buf nbytes file;
      st ← set_file (k_pcbs k) fp file';
      Some (n, set_kpcbs st (set_kmem m k))
  | rtc_file_ops_table =>
      on_rtc (fun w => '(r, w', _) ← rtc_read fp (e_rirqs e) w; Some (r, w')) k
  | stdin_file_ops_table =>
      p ← k_pcbs k !! cur;
      '(n, s, _) ← term_read (term_ind p) buf nbytes (e_tirqs e) (k_ts k);
      Some (n, set_ts s k)
  | stdout_file_ops_table => Some (term_read_invalid, k)
  end.

(** [file->file_ops->write(buf, nbytes, file)] *)
Definition file_write (e : env) (cur buf nbytes : Z) (fp : fptr) (k : kernel) : option (Z * kernel) :=
  file ← get_file (k_pcbs k) fp;
  match file_ops file with
  | fs_file_ops_table => Some (fs_file_write buf nbytes file, k)
  | fs_dir_ops_table => Some (fs_dir_write buf nbytes file, k)
  | rtc_file_ops_table =>
      on_rtc (rtc_write (e_reg_a e) (if decide (buf = 0) then None else Some (ld32 (k_mem k) buf)) nbytes fp) k
  | stdin_file_ops_table => Some (term_write_invalid, k)
  | stdout_file_ops_table =>
      p ← k_pcbs k !! cur;
      '(n, s) ← term_write (term_ind p) buf nbytes (k_ts k);
      Some (n, set_ts s k)
  end.

(** [file->file_ops->close(file)] *)
Definition file_close (e : env) (fp : fptr) (k : kernel) : option (Z * kernel) :=
  file ← get_file (k_pcbs k) fp;
  match file_ops file with
  | fs_file_ops_table => Some (fs_file_close file, k)
  | fs_dir_ops_table => Some (fs_dir_close file, k)
  | rtc_file_ops_table => on_rtc (rtc_close (e_reg_a e) fp) k
  | stdin_file_ops_table | stdout_file_ops_table => Some (term_close, k)
  end.

(** [task_pcb->open_files[i].flags.used = u] *)
Definition set_fd_used (fp : fptr) (u : Z) (k : kernel) : option kernel :=
  file ← get_file (k_pcbs k) fp;
  st ← set_file (k_pcbs k) fp (with_used u file);
  Some (set_kpcbs st k).

(** ** The system calls on descriptors

    [esp] is the stack pointer the call runs with: it lies on the kernel stack
    of the calling task. *)

Definition syscall_read (e : env) (esp fd buf nbytes : Z) (k : kernel) : option (Z * kernel) :=
  if decide (buf = 0) then Some (-1, k)
  else if decide (fd < 0 \/ TASK_MAX_FILES <= fd) then Some (-1, k)
  else
    let task_pcb := get_cur_pcb esp in
    file ← get_file (k_pcbs k) (task_pcb, fd);
    if decide (f_used file = 0) then Some (-1, k)
    else file_read e task_pcb buf nbytes (task_pcb, fd) k.

Definition syscall_write (e : env) (esp fd buf nbytes : Z) (k : kernel) : option (Z * kernel) :=
  if decide (buf = 0) then Some (-1, k)
  else if decide (fd < 0 \/ TASK_MAX_FILES <= fd) then Some (-1, k)
  else
    let task_pcb := get_cur_pcb esp in
    file ← get_file (k_pcbs k) (task_pcb, fd);
    if decide (f_used file = 0) then Some (-1, k)
    else file_write e task_pcb buf nbytes (task_pcb, fd) k.

Definition syscall_close (e : env) (esp fd : Z) (k : kernel) : option (Z * kernel) :=
  if decide (fd < 0 \/ TASK_MAX_FILES <= fd) then Some (-1, k)
  else
    let task_pcb := get_cur_pcb esp in
    file ← get_file (k_pcbs k) (task_pcb, fd);
    if decide (f_used file = 0) then Some (-1, k)
    else
      '(r, k1) ← file_close e (task_pcb, fd) k;
      if decide (r <> 0) then Some (-1, k1)
      else k2 ← set_fd_used (task_pcb, fd) 0 k1; Some (0, k2).

(** The search of [syscall_open]: the first descriptor from 2 on not in use. *)
Definition free_fd (p : PCB_t) : option (option Z) :=
  match for_break 2 TASK_MAX_FILES (fun i (_ : unit) =>
          match arr_get (open_files p) i with
          | None => inr None
          | Some f => if decide (f_used f = 0) then inr (Some i) else inl tt
          end) tt with
  | inl _ => Some None
  | inr None => None
  | inr (Some i) => Some (Some i)
  end.

(** [fs_open(filename, &task_pcb->open_files[i])] *)
Definition open_fs (e : env) (fname : Z) (fp : fptr) (k : kernel) : option (Z * kernel) :=
  file ← get_file (k_pcbs k) fp;
  '(r, file') ← fs_open (k_mem k) (k_fs k) (e_dentry e) (k_mem k) fname file;
  st ← set_file (k_pcbs k) fp file';
  Some (r, set_kpcbs st k).

Definition syscall_open (e : env) (esp fname : Z) (k : kernel) : option (Z * kernel) :=
  '(r, dent) ← read_dentry_by_name (k_mem k) (k_fs k) (k_mem k) fname (e_dentry e);
  if decide (r <> 0) then Some (-1, k)
  else
    let task_pcb := get_cur_pcb esp in
    p ← k_pcbs k !! task_pcb;
    i ← free_fd p;
    match i with
    | None => Some (-1, k)
    | Some i =>
        '(retval, k1) ← (if decide (filetype dent = FILE_TYPE_RTC)
                         then on_rtc (rtc_open (task_pcb, i)) k
                         else open_fs e fname (task_pcb, i) k);
        if decide (retval <> 0) then Some (-1, k1)
        else k2 ← set_fd_used (task_pcb, i) 1 k1; Some (i, k2)
    end.

(** ** Other system calls on the calling task *)

Definition syscall_getargs (esp buf nbytes : Z) (k : kernel) : option (Z * kernel) :=
  if decide (buf = 0) then Some (-1, k)
  else
    p ← k_pcbs k !! get_cur_pcb esp;
    match cmd_args p with
    | None => Some (-1, k)
    | Some args =>
        n ← strlen args 0;
        if decide (nbytes < u32 (n + 1)) then Some (-1, k)
        else m ← strcpy (k_mem k) buf (other args 0); Some (0, set_kmem m k)
    end.

Definition syscall_vidmap (screen_start : Z) (k : kernel) : option (Z * kernel) :=
  if decide (u32 screen_start < TASK_VIRT_PAGE_BEG \/ TASK_VIRT_PAGE_END <= u32 screen_start) then Some (-1, k)
  else
    let m := st32 (k_mem k) screen_start TASK_VIDMEM_START in
    Some (s32 (ld32 m screen_start), set_kmem m k).

(** The bound admits [signum = SIG_SIZE], an index past the array. *)
Definition syscall_set_handler (esp signum handler : Z) (k : kernel) : option (Z * kernel) :=
  if decide (signum < 0 \/ SIG_SIZE < signum) then Some (-1, k)
  else
    p ← k_pcbs k !! get_cur_pcb esp;
    l ← arr_set (signal_handlers p) signum handler;
    Some (0, set_kpcbs (<[get_cur_pcb esp := with_signal_handlers l p]> (k_pcbs k)) k).

(** ** The invariant of the kernel *)

Definition pid_in_use (k : kernel) (pid : Z) : Prop := arr_get (pid_used k) pid = Some 1.

Record pcb_ok (p : PCB_t) : Prop := {
  pk_files : length (open_files p) = Z.to_nat TASK_MAX_FILES;
  pk_handlers : length (signal_handlers p) = Z.to_nat SIG_SIZE;
  pk_term : 0 <= term_ind p < TERM_NUM
}.

(** The parent pointer is NULL or the PCB of a process with its number. *)
Definition parent_ok (k : kernel) (p : PCB_t) : Prop :=
  parent p = 0 \/
  exists ppid q, 1 <= ppid < MAX_PROC_NUM /\ parent p = TASK_KSTACK_TOP ppid /\
    k_pcbs k !! parent p = Some q /\ pcb_pid q = ppid.

(** A registered clock descriptor belongs to a process in use, which has it
    open. *)
Definition clock_owned (k : kernel) (fp : fptr) : Prop :=
  exists pid f, 1 <= pid < MAX_PROC_NUM /\ fp.1 = TASK_KSTACK_TOP pid /\ pid_in_use k pid /\
    2 <= fp.2 < TASK_MAX_FILES /\ get_file (k_pcbs k) fp = Some f /\ f_used f <> 0 /\ file_ops f = rtc_file_ops_table.

(** The end of the kernel's 4 MB below the stacks of the processes. *)
Definition KSTACKS : Z := TASK_KSTACK_TOP (MAX_PROC_NUM - 1).

Record kernel_ok (k : kernel) : Prop := {
  ko_terms : twf (k_ts k);
  ko_paging : exists vt ut vp, paging_ok vt ut (k_mapped k) vp (k_paging k);
  ko_pages : forall q, mem_ok (page_of_task q k);
  ko_rtc : rtc_inv (k_rtc k, k_pcbs k);
  ko_fs : fs_wf (k_mem k) (k_fs k);
  ko_image : 0x400000 <= bblock_ptr (k_fs k) /\ bblock_ptr (k_fs k) + image_size (k_mem k) (k_fs k) <= KSTACKS;
  ko_used : length (pid_used k) = Z.to_nat MAX_PROC_NUM /\ Forall (fun u => u = 0 \/ u = 1) (pid_used k);
  ko_pcb : forall pid, 0 <= pid < MAX_PROC_NUM -> exists p, k_pcbs k !! TASK_KSTACK_TOP pid = Some p /\ pcb_ok p;
  ko_number : forall pid p, 0 <= pid < MAX_PROC_NUM -> pid_in_use k pid -> k_pcbs k !! TASK_KSTACK_TOP pid = Some p ->
    pcb_pid p = pid /\ parent_ok k p;
  ko_clock : forall fp, Some fp ∈ rtc_files (k_rtc k) -> clock_owned k fp
}.

(** ** Lemmas on the user page *)

Lemma ld8_user_part m a : ld8 (user_part m) a = if decide (user_address a) then ld8 m a else 0.
Proof.
  unfold ld8, user_part. case_decide as D.
  - destruct (m !! a) as [v|] eqn:E.
    + by rewrite (map_lookup_filter_Some_2 _ _ _ v).
    + by rewrite map_lookup_filter, E.
  - rewrite map_lookup_filter_None_2; [done|]. right. intros v _. exact D.
Qed.

Lemma ld8_kernel_union m page a :
  (forall x, ~ user_address x -> page !! x = None) ->
  ld8 (kernel_part m ∪ page) a = if decide (user_address a) then ld8 page a else ld8 m a.
Proof.
  intros Hp. unfold ld8, kernel_part. rewrite lookup_union. case_decide as D.
  - rewrite (map_lookup_filter_None_2 _ m) by (right; intros v _; by intros H). by rewrite option_union_left_id.
  - rewrite Hp by done. rewrite option_union_right_id. destruct (m !! a) as [v|] eqn:E.
    + by rewrite (map_lookup_filter_Some_2 _ _ _ v).
    + by rewrite map_lookup_filter, E.
Qed.

(** The byte at user address [a] of the 4 MB page [q], mapped or not. *)
Definition page_byte (k : kernel) (q a : Z) : Z :=
  ld8 (if decide (q = k_mapped k) then k_mem k else page_of_task q k) a.

(** Loading CR3 shows page [q] at the user addresses, changes no other address
    and loses no byte of any page. *)
Lemma map_page_mem q k a :
  ld8 (k_mem (map_page q k)) a = if decide (user_address a) then page_byte k q a else ld8 (k_mem k) a.
Proof.
  unfold map_page, page_byte. destruct (decide (q = k_mapped k)) as [->|Hq]; [by case_decide|].
  cbn [k_mem set_mapped set_kmem set_ts k_ts set_vmem vmem]. rewrite ld8_kernel_union.
  - case_decide; [|done]. rewrite ld8_user_part. by case_decide.
  - intros x Hx. apply map_lookup_filter_None_2. right. intros v _. exact Hx.
Qed.

Lemma map_page_byte q k q' a : user_address a -> page_byte (map_page q k) q' a = page_byte k q' a.
Proof.
  intros Ha. unfold page_byte at 1. destruct (decide (q' = k_mapped (map_page q k))) as [E|E].
  - rewrite map_page_mem, decide_True by done. f_equal. rewrite E.
    unfold map_page. by case_decide.
  - unfold map_page in E |- *. destruct (decide (q = k_mapped k)) as [->|Hq].
    + unfold page_byte. by rewrite decide_False.
    + cbn in E. unfold page_of_task, page_byte. cbn [k_pages set_mapped].
      destruct (decide (q' = k_mapped k)) as [->|Hq'].
      * rewrite lookup_insert_eq. cbn [default]. unfold id. rewrite ld8_user_part. by rewrite decide_True.
      * rewrite lookup_insert_ne by done. done.
Qed.

(** Nothing but the memory, the page mapped and the pages put aside changes. *)
Definition with_memory (m : mem) (q : Z) (ps : gmap Z mem) (k : kernel) : kernel := set_mapped q ps (set_kmem m k).

Lemma map_page_eq q k : exists m ps, map_page q k = with_memory m q ps k.
Proof.
  unfold map_page, with_memory. case_decide as D; [|eauto]. exists (k_mem k), (k_pages k).
  rewrite D. by destruct k as [[] ? ? ? ? ? ? ?].
Qed.

Lemma mem_ok_user_part m : mem_ok m -> mem_ok (user_part m).
Proof. intros H a. rewrite ld8_user_part. case_decide; [apply H|lia]. Qed.

Lemma map_page_ok q k : mem_ok (k_mem k) -> (forall q, mem_ok (page_of_task q k)) ->
  mem_ok (k_mem (map_page q k)) /\ forall q', mem_ok (page_of_task q' (map_page q k)).
Proof.
  intros Hm Hp. split.
  - intros a. rewrite map_page_mem. unfold page_byte. repeat case_decide; [apply Hm|apply Hp|apply Hm].
  - unfold map_page. case_decide; [done|]. intros q'. unfold page_of_task. cbn [k_pages set_mapped].
    destruct (decide (q' = k_mapped k)) as [->|].
    + rewrite lookup_insert_eq. by apply mem_ok_user_part.
    + rewrite lookup_insert_ne by done. apply Hp.
Qed.

(** The page the directory names is the one mapped. *)
Lemma load_cr3_spec vt ut up vp k : paging_ok vt ut up vp (k_paging k) -> load_cr3 k = Some (map_page up k).
Proof.
  intros Hok. unfold load_cr3. pose proof (pg_dir_len _ _ _ _ _ Hok) as L. unfold MAX_ENTRIES in L.
  destruct (arr_get_Some (page_directory (k_paging k)) USER_PAGE_INDEX) as (x & Ex & _); [change USER_PAGE_INDEX with 32; lia|].
  rewrite Ex, bind_ret. pose proof (pg_dir _ _ _ _ _ Hok _ _ Ex) as Hd. unfold dir_entry in Hd.
  change USER_PAGE_INDEX with 32 in Hd. change USER_VIDMEM_INDEX with 34 in Hd.
  rewrite decide_False, decide_True, decide_False in Hd by lia. by destruct Hd as (_ & _ & _ & ->).
Qed.

(** Switching to the page of a task. *)
Lemma switch_page_spec vt ut vp k pid :
  paging_ok vt ut (k_mapped k) vp (k_paging k) -> 0 <= pid < MAX_PROC_NUM ->
  exists p, switch_page pid k = Some (map_page (TASK_PAGE_INDEX pid) (set_paging p k)) /\
    set_task_page pid (k_paging k) = Some p /\
    paging_ok vt ut (TASK_PAGE_INDEX pid) vp p.
Proof.
  intros Hp Hpid. unfold switch_page. unfold MAX_PROC_NUM in Hpid.
  destruct (set_task_page_ok vt ut _ vp pid _ Hp) as (p & E & Hok); [unfold TASK_PAGE_INDEX, TASK_START_PAGE; lia|].
  exists p. rewrite E, bind_ret. split; [|done]. by apply (load_cr3_spec vt ut _ vp).
Qed.
