(* ===== verification/Fd.v ===== *)
(** * The descriptor table of a task: open, read, write and close

    What the system calls on descriptors do, on the invariant of the kernel:
    which descriptor an open returns and what it refers to, how a file is read
    through it, and which calls are refused. *)
From stdpp Require Import base tactics list numbers gmap option.
From Stdlib Require Import ZArith Lia.
From S2P Require Import Prelude CLib Task FileSys Term TermScreen TermSys Rtc Page Syscall.

Open Scope Z_scope.

(** ** Updates of descriptors only *)

(** The PCBs of [st'] are those of [st] but for their descriptors. *)
Definition files_only (st st' : pcb_store) : Prop :=
  forall a p, st !! a = Some p ->
    exists l, st' !! a = Some (with_open_files l p) /\ length l = length (open_files p).

Lemma files_only_refl st : files_only st st.
Proof. intros a p E. exists (open_files p). split; [|done]. rewrite E. by destruct p. Qed.

Lemma files_only_trans st1 st2 st3 : files_only st1 st2 -> files_only st2 st3 -> files_only st1 st3.
Proof.
  intros H1 H2 a p E. destruct (H1 a p E) as (l & E2 & L). destruct (H2 a _ E2) as (l' & E3 & L').
  exists l'. split; [exact E3|]. by rewrite L'.
Qed.

Lemma set_file_only st fp f st' : set_file st fp f = Some st' -> files_only st st'.
Proof.
  unfold set_file. destruct (st !! fp.1) as [p|] eqn:E; simpl; [|done].
  unfold arr_set. case_decide; simpl; [|done]. intros [= <-] a q Eq.
  destruct (decide (fp.1 = a)) as [<-|Hne].
  - rewrite E in Eq. injection Eq as <-. rewrite lookup_insert_eq. eexists. split; [done|]. apply length_insert.
  - rewrite lookup_insert_ne by done. rewrite Eq. exists (open_files q). split; [|done]. by destruct q.
Qed.

Lemma files_only_pcb_ok st st' a p : files_only st st' -> st !! a = Some p -> pcb_ok p ->
  exists p', st' !! a = Some p' /\ pcb_ok p' /\ pcb_pid p' = pcb_pid p /\ parent p' = parent p.
Proof.
  intros H E [H1 H2 H3]. destruct (H a p E) as (l & E' & L). eexists. split; [exact E'|].
  split; [|done]. split; [simpl; lia|done..].
Qed.

(** The kernel after an operation on descriptors. *)
Definition with_files (g : rtc_globals) (st : pcb_store) (k : kernel) : kernel := set_rtc g (set_kpcbs st k).

Lemma with_files_ok k g st :
  kernel_ok k -> files_only (k_pcbs k) st -> rtc_inv (g, st) ->
  (forall fp, Some fp ∈ rtc_files g -> clock_owned (with_files g st k) fp) ->
  kernel_ok (with_files g st k).
Proof.
  intros Hk Hf Hr Hc. destruct Hk as [K1 K2 K3 K4 K5 K6 K7 K8 K9 K10]. split; try done.
  - destruct K1 as [T1 T2 T3 T4]. split; done.
  - intros pid Hpid. destruct (K8 pid Hpid) as (p & E & Hp).
    destruct (files_only_pcb_ok _ _ _ _ Hf E Hp) as (p' & E' & Hp' & _). by exists p'.
  - intros pid p' Hpid Hu E'. destruct (K8 pid Hpid) as (p & E & Hp).
    destruct (K9 pid p Hpid Hu E) as [N Par]. destruct (Hf _ _ E) as (l & El & _).
    change (k_pcbs (with_files g st k)) with st in E'. rewrite E' in El. injection El as ->. split; [done|].
    destruct Par as [|(ppid & q & Hpp & Ep & Eq & Nq)]; [by left|right].
    destruct (Hf _ _ Eq) as (lq & Eq' & _). by exists ppid, (with_open_files lq q).
Qed.

(** Updating a descriptor the clock does not hold. *)
Lemma set_file_rtc_inv g st fp f st' :
  rtc_inv (g, st) -> set_file st fp f = Some st' -> Some fp ∉ rtc_files g -> rtc_inv (g, st').
Proof.
  intros [I1 I2 I3 I4 I5 I6 I7 I8] E Hni. split; try assumption. intros fp' Hin.
  destruct (I8 fp' Hin) as (f' & E' & Hf'). exists f'. split; [|done].
  change (get_file st' fp' = Some f'). rewrite (set_file_get _ _ _ _ _ E), decide_False; [done|].
  intros ->. apply Hni. by apply elem_registered.
Qed.

Lemma clock_owned_file k g st fp f :
  clock_owned k fp -> get_file st fp = Some f -> f_used f <> 0 -> file_ops f = rtc_file_ops_table ->
  clock_owned (with_files g st k) fp.
Proof. intros (pid & f0 & H1 & H2 & H3 & H4 & _) E Hu Ho. by exists pid, f. Qed.

(** The store with one descriptor replaced. *)
Definition put_file (st : pcb_store) (a : Z) (p : PCB_t) (i : Z) (f : FILE) : pcb_store :=
  <[a := with_open_files (<[Z.to_nat i := f]> (open_files p)) p]> st.

Lemma set_file_put st a p i f :
  st !! a = Some p -> 0 <= i < Z.of_nat (length (open_files p)) -> set_file st (a, i) f = Some (put_file st a p i f).
Proof. intros E Hi. unfold set_file. cbn [fst snd]. rewrite E, bind_ret, arr_set_Some by done. done. Qed.

(** A second update of the same descriptor. *)
Lemma set_file_again st fp f1 st1 f2 st2 :
  set_file st fp f1 = Some st1 -> set_file st1 fp f2 = Some st2 -> set_file st fp f2 = Some st2.
Proof.
  unfold set_file. destruct fp as [a i]. cbn [fst snd]. destruct (st !! a) as [p|]; simpl; [|done].
  unfold arr_set. case_decide as D; simpl; [|done]. intros [= <-]. rewrite lookup_insert_eq. simpl.
  rewrite length_insert, decide_True by done. simpl. rewrite list_insert_insert_eq, insert_insert_eq. done.
Qed.

(** Memory may change outside the image. *)
Lemma set_disk_ok k m : kernel_ok k -> fs_wf m (k_fs k) -> bblock_ptr (k_fs k) + image_size m (k_fs k) <= KSTACKS -> kernel_ok (set_kmem m k).
Proof.
  intros [K1 K2 K3 K4 K5 [K6 _] K7 K8 K9 K10] Hwf Hsize. split; try done.
  destruct K1 as [T1 T2 T3 T4]. split; try done. apply (wf_mem _ _ Hwf).
Qed.

Lemma set_kmem_ok k m : kernel_ok k -> mem_ok m -> image_kept (k_mem k) (k_fs k) m -> kernel_ok (set_kmem m k).
Proof.
  intros Hk Hm HK. destruct (counts_kept _ _ (ko_fs _ Hk) m HK) as [E1 E2]. destruct (ko_image _ Hk) as [_ Hsize].
  apply set_disk_ok; [exact Hk|by apply (fs_wf_kept _ _ (ko_fs _ Hk))|]. unfold image_size in *. by rewrite E1, E2.
Qed.

(** Output to a terminal keeps the kernel's invariant. *)
Lemma set_ts_ok k ts : kernel_ok k -> twf ts -> pcbs ts = k_pcbs k ->
  (forall a, ~ (0xB8000 <= a < 0xBC000) -> ld8 (vmem ts) a = ld8 (k_mem k) a) -> kernel_ok (set_ts ts k).
Proof.
  intros Hk Ht Ep Em.
  assert (HK : image_kept (k_mem k) (k_fs k) (vmem ts)).
  { intros a Ha. apply Em. destruct (ko_image _ Hk) as [Hb _]. unfold in_image in Ha. lia. }
  assert (Hk' : kernel_ok (set_kmem (vmem ts) k)) by (apply set_kmem_ok; [done|apply Ht|done]).
  destruct Hk' as [K1 K2 K3 K4 K5 K6 K7 K8 K9 K10]. change (k_pcbs (set_kmem (vmem ts) k)) with (k_pcbs k) in *.
  split; try done.
  - change (rtc_inv (k_rtc k, pcbs ts)). by rewrite Ep.
  - change (k_pcbs (set_ts ts k)) with (pcbs ts). by rewrite Ep.
  - intros pid p Hpid Hu E. change (k_pcbs (set_ts ts k)) with (pcbs ts) in E. rewrite Ep in E.
    destruct (K9 pid p Hpid Hu E) as [Hn Hp]. split; [done|]. destruct Hp as [Hp|(pp & q & H1 & H2 & H3 & H4)]; [by left|right].
    exists pp, q. do 2 (split; [done|]). split; [|done]. change (k_pcbs (set_ts ts k)) with (pcbs ts). by rewrite Ep.
  - intros fp Hin. destruct (K10 fp Hin) as (q & f & H1 & H2 & H3 & H4 & H5 & H6). exists q, f.
    do 4 (split; [done|]). split; [|done]. change (k_pcbs (set_ts ts k)) with (pcbs ts). rewrite Ep. exact H5.
Qed.

(** An update of a PCB that keeps its descriptors, number, parent and terminal. *)
Lemma pcb_update_ok k a p p' :
  kernel_ok k -> k_pcbs k !! a = Some p -> pcb_ok p' -> open_files p' = open_files p -> pcb_pid p' = pcb_pid p ->
  parent p' = parent p -> kernel_ok (set_kpcbs (<[a := p']> (k_pcbs k)) k).
Proof.
  intros Hk Ep Hp' Hf Hn Hpar. set (st := <[a := p']> (k_pcbs k)).
  assert (Hfile : forall fp, get_file st fp = get_file (k_pcbs k) fp).
  { intros [b i]. unfold get_file, st. cbn [fst snd]. destruct (decide (a = b)) as [<-|Hne].
    - by rewrite lookup_insert_eq, Ep, !bind_ret, Hf.
    - by rewrite lookup_insert_ne. }
  assert (Hst : forall b q, k_pcbs k !! b = Some q -> exists q', st !! b = Some q' /\ pcb_pid q' = pcb_pid q /\
      parent q' = parent q /\ (pcb_ok q -> pcb_ok q')).
  { intros b q Eq. unfold st. destruct (decide (a = b)) as [<-|Hne].
    - rewrite lookup_insert_eq. exists p'. rewrite Ep in Eq. injection Eq as <-. done.
    - rewrite lookup_insert_ne by done. by exists q. }
  destruct Hk as [K1 K2 K3 K4 K5 K6 K7 K8 K9 K10]. split; try done.
  - destruct K1 as [T1 T2 T3 T4]. by split.
  - destruct K4 as [I1 I2 I3 I4 I5 I6 I7 I8]. split; try assumption. intros fp Hin.
    destruct (I8 fp Hin) as (f & Ef & Hfo). exists f. split; [|done]. change (get_file st fp = Some f). by rewrite Hfile.
  - intros pid Hpid. destruct (K8 pid Hpid) as (q & Eq & Hq). destruct (Hst _ q Eq) as (q' & Eq' & _ & _ & Ho).
    exists q'. split; [exact Eq'|by apply Ho].
  - intros pid q' Hpid Hu Eq'. destruct (K8 pid Hpid) as (q & Eq & Hq). destruct (Hst _ q Eq) as (q2 & Eq2 & N & P & _).
    change (st !! TASK_KSTACK_TOP pid = Some q') in Eq'. rewrite Eq2 in Eq'. injection Eq' as <-.
    destruct (K9 pid q Hpid Hu Eq) as [Nq Pq]. split; [congruence|]. unfold parent_ok. rewrite P.
    destruct Pq as [Pq|(pp & qp & H1 & H2 & H3 & H4)]; [by left|right].
    destruct (Hst _ qp H3) as (qp' & E' & N' & _). exists pp, qp'. split; [done|]. split; [done|]. split; [exact E'|congruence].
  - intros fp Hin. destruct (K10 fp Hin) as (q & f & H1 & H2 & H3 & H4 & H5 & H6). exists q, f.
    do 4 (split; [done|]). split; [|done]. change (get_file st fp = Some f). by rewrite Hfile.
Qed.

(** ** The calling task *)

(** The descriptors from 2 on that are not in use, in order. *)
Definition fd_free (p : PCB_t) (i : Z) : Prop := f_used <$> arr_get (open_files p) i = Some 0.
#[export] Instance fd_free_dec p i : Decision (fd_free p i).
Proof. unfold fd_free. apply _. Defined.
Definition lowest_free (p : PCB_t) : option Z := head (filter (fd_free p) (seqZ 2 6)).

Lemma free_fd_spec p : pcb_ok p -> free_fd p = Some (lowest_free p).
Proof.
  intros Hp. unfold free_fd, lowest_free, for_break. change (TASK_MAX_FILES - 2) with 6.
  rewrite (fold_break_find (fd_free p) Some).
  - by destruct (head _).
  - intros i Hi. apply elem_of_seqZ in Hi.
    destruct (arr_get_Some (open_files p) i) as (f & E & _);
      [rewrite (pk_files _ Hp); unfold TASK_MAX_FILES; lia|].
    destruct (decide (fd_free p i)) as [D|D]; unfold fd_free in D; rewrite E in D |- *; cbn in D.
    + rewrite decide_True by congruence. done.
    + rewrite decide_False by congruence. done.
Qed.

Lemma lowest_free_in p fd : lowest_free p = Some fd -> 2 <= fd < TASK_MAX_FILES /\ fd_free p fd.
Proof.
  unfold lowest_free. intros E.
  destruct (filter (fd_free p) (seqZ 2 6)) as [|x l] eqn:El; [done|]. injection E as ->.
  assert (Hin : fd ∈ filter (fd_free p) (seqZ 2 6)) by (rewrite El; set_solver).
  apply list_elem_of_filter in Hin as [Hf Hin]. apply elem_of_seqZ in Hin. unfold TASK_MAX_FILES. split; [lia|done].
Qed.

Definition caller (c : Z) : Z := TASK_KSTACK_TOP c.

Lemma caller_eq c esp :
  1 <= c < MAX_PROC_NUM -> TASK_KSTACK_TOP c <= esp < TASK_KSTACK_BOT c -> get_cur_pcb esp = caller c.
Proof. intros. apply get_cur_pcb_stack; [lia|done]. Qed.

(** The clock's list without a descriptor. *)
Definition released (fp : fptr) (files : list (option fptr)) : list (option fptr) :=
  map (fun s => if decide (s = Some fp) then None else s) files.

Lemma released_in fp files fp' : Some fp' ∈ released fp files -> Some fp' ∈ files /\ fp' <> fp.
Proof.
  unfold released. intros Hin. apply list_elem_of_In, in_map_iff in Hin as (s & E & Hin).
  apply list_elem_of_In in Hin. case_decide; [done|]. subst s. split; [done|congruence].
Qed.

Lemma in_released fp files fp' : Some fp' ∈ files -> fp' <> fp -> Some fp' ∈ released fp files.
Proof.
  intros Hin Hne. unfold released. apply list_elem_of_In, in_map_iff. exists (Some fp').
  split; [|by apply list_elem_of_In]. rewrite decide_False; congruence.
Qed.

Lemma released_again fp files j :
  Some fp ∉ files -> files !! j = Some None -> released fp (<[j := Some fp]> files) = files.
Proof.
  intros Hni Hj. pose proof (lookup_lt_Some _ _ _ Hj). apply list_eq. intros i. unfold released.
  change (map ?f ?l) with (f <$> l). rewrite list_lookup_fmap. destruct (decide (i = j)) as [->|Hne].
  - rewrite list_lookup_insert_eq, Hj by done. cbn. by rewrite decide_True.
  - rewrite list_lookup_insert_ne by done. destruct (files !! i) as [s|] eqn:E; [|done]. cbn.
    rewrite decide_False; [done|]. intros ->. apply Hni. by eapply list_elem_of_lookup_2.
Qed.

(** The close operation of an open descriptor: only the clock's list changes. *)
Lemma file_close_spec e k a i f :
  kernel_ok k -> get_file (k_pcbs k) (a, i) = Some f ->
  exists r g, file_close e (a, i) k = Some (r, set_rtc g k) /\
    r = (if decide (file_ops f = stdin_file_ops_table \/ file_ops f = stdout_file_ops_table) then -1 else 0) /\
    rtc_inv (g, k_pcbs k) /\
    (file_ops f = rtc_file_ops_table -> rtc_files g = released (a, i) (rtc_files (k_rtc k))) /\
    (file_ops f <> rtc_file_ops_table -> g = k_rtc k).
Proof.
  intros Hk Ef. unfold file_close. rewrite Ef, bind_ret.
  assert (Hsame : k = set_rtc (k_rtc k) k) by (by destruct k).
  pose proof (ko_rtc _ Hk) as I.
  destruct (file_ops f) eqn:Eo.
  - exists 0, (k_rtc k). rewrite <- Hsame. split_and!; done.
  - exists 0, (k_rtc k). rewrite <- Hsame. split_and!; done.
  - destruct (rtc_close_spec (e_reg_a e) _ _ (a, i) I) as (files & E & I' & Hl & Hf).
    exists 0, (set_files files (k_rtc k)). unfold on_rtc. rewrite E, bind_ret. cbv beta iota.
    split_and!; try done.
    + clear. by destruct k as [[] ? ? ? ? ? ? ?].
    + intros _. apply list_eq. intros j. unfold released. change (map ?f ?l) with (f <$> l). rewrite list_lookup_fmap.
      cbn [rtc_files set_files]. destruct (rtc_files (k_rtc k) !! j) as [s|] eqn:Es; [by rewrite (Hf j s Es)|].
      apply lookup_ge_None in Es. apply lookup_ge_None. lia.
  - exists (-1), (k_rtc k). rewrite <- Hsame. split_and!; done.
  - exists (-1), (k_rtc k). rewrite <- Hsame. split_and!; done.
Qed.

Section Caller.
Context (e : env) (k : kernel) (c esp : Z).
Context (Hk : kernel_ok k) (Hc : 1 <= c < MAX_PROC_NUM) (Hesp : TASK_KSTACK_TOP c <= esp < TASK_KSTACK_BOT c).
Context (Hu : pid_in_use k c) (He : length (filename (e_dentry e)) = 32%nat).

Abbreviation caller := (caller c).

Lemma caller_pcb : exists p, k_pcbs k !! caller = Some p /\ pcb_ok p.
Proof. apply (ko_pcb _ Hk). lia. Qed.

Lemma caller_file p fd : k_pcbs k !! caller = Some p -> get_file (k_pcbs k) (caller, fd) = arr_get (open_files p) fd.
Proof. intros E. unfold get_file. cbn [fst snd]. by rewrite E. Qed.

Lemma caller_file_some fd : 0 <= fd < TASK_MAX_FILES -> exists f, get_file (k_pcbs k) (caller, fd) = Some f.
Proof.
  intros Hfd. destruct caller_pcb as (p & E & Hp). rewrite (caller_file p fd E).
  destruct (arr_get_Some (open_files p) fd) as (f & Ef & _); [|eauto].
  rewrite (pk_files _ Hp). unfold TASK_MAX_FILES in *. lia.
Qed.

(** A descriptor not in use is not on the clock. *)
Lemma free_not_registered p fd :
  k_pcbs k !! caller = Some p -> fd_free p fd -> Some (caller, fd) ∉ rtc_files (k_rtc k).
Proof.
  intros E Hf Hin. destruct (ko_clock _ Hk _ Hin) as (pid & f & _ & _ & _ & _ & Ef & Hne & _).
  rewrite (caller_file p fd E) in Ef. unfold fd_free in Hf. rewrite Ef in Hf. cbn in Hf. congruence.
Qed.

(** The entry a name refers to; the empty name refers to none. *)
Definition lookup_name (l : list Z) : option Z :=
  match l with [] => None | _ => find_dentry (k_mem k) (k_fs k) l end.

(** What a descriptor opened on directory entry [i] holds. *)
Definition opened (i : Z) : FILE :=
  let d := dentry_of (k_mem k) (k_fs k) i in
  let reg := filetype d =? FILE_TYPE_REG in
  mkFILE (if reg then fs_file_ops_table else fs_dir_ops_table) (inode_num d) 0
    (if reg then TASK_FILE_REG else TASK_FILE_DIR) 1.

Lemma syscall_open_none fname l :
  cstr (k_mem k) fname l -> lookup_name l = None -> syscall_open e esp fname k = Some (-1, k).
Proof.
  intros Hl Hn. unfold syscall_open.
  rewrite (read_dentry_by_name_spec _ _ (ko_fs _ Hk) _ _ l) by done. unfold lookup_name in Hn.
  destruct l as [|x l]; [done|]. rewrite Hn. done.
Qed.

Lemma syscall_open_full fname l i p :
  cstr (k_mem k) fname l -> lookup_name l = Some i -> k_pcbs k !! caller = Some p -> lowest_free p = None ->
  syscall_open e esp fname k = Some (-1, k).
Proof.
  intros Hl Hn Ep Hfree. destruct caller_pcb as (p' & Ep' & Hp). rewrite Ep in Ep'. injection Ep' as <-.
  unfold syscall_open. rewrite (read_dentry_by_name_spec _ _ (ko_fs _ Hk) _ _ l) by done. unfold lookup_name in Hn.
  destruct l as [|x l]; [done|]. rewrite Hn, bind_ret. cbv beta iota. rewrite decide_False by lia.
  cbv zeta. rewrite (caller_eq c), Ep, bind_ret, free_fd_spec, bind_ret by done. by rewrite Hfree.
Qed.

(** A file or directory: the descriptor is filled in and nothing else changes. *)
Lemma syscall_open_file fname l i p fd :
  cstr (k_mem k) fname l -> lookup_name l = Some i -> k_pcbs k !! caller = Some p -> lowest_free p = Some fd ->
  filetype (dentry_of (k_mem k) (k_fs k) i) <> FILE_TYPE_RTC ->
  syscall_open e esp fname k = Some (fd, set_kpcbs (put_file (k_pcbs k) caller p fd (opened i)) k) /\
  kernel_ok (set_kpcbs (put_file (k_pcbs k) caller p fd (opened i)) k).
Proof.
  intros Hl Hn Ep Hfree Ht. destruct caller_pcb as (p' & Ep' & Hp). rewrite Ep in Ep'. injection Ep' as <-.
  destruct (lowest_free_in p fd Hfree) as [Hfd Hff]. pose proof (pk_files _ Hp) as Hlen.
  assert (Hin : 0 <= fd < Z.of_nat (length (open_files p))) by (rewrite Hlen; unfold TASK_MAX_FILES in *; lia).
  destruct (arr_get_Some (open_files p) fd Hin) as (f & Ef & _).
  assert (Eset : forall f', set_file (k_pcbs k) (caller, fd) f' = Some (put_file (k_pcbs k) caller p fd f'))
    by (intros; by apply set_file_put).
  split.
  - unfold syscall_open. rewrite (read_dentry_by_name_spec _ _ (ko_fs _ Hk) _ _ l) by done. unfold lookup_name in Hn.
    destruct l as [|x l]; [done|]. rewrite Hn, bind_ret. cbv beta iota. rewrite decide_False by lia.
    cbv zeta. rewrite (caller_eq c), Ep, bind_ret, free_fd_spec, bind_ret by done. rewrite Hfree. cbv iota.
    rewrite decide_False by done. unfold open_fs. rewrite (caller_file p fd Ep), Ef, bind_ret.
    rewrite (fs_open_spec _ _ (e_dentry e) _ fname (x :: l)) by (done || apply (ko_fs _ Hk)).
    rewrite Hn, bind_ret. cbv beta iota zeta. rewrite Eset, !bind_ret. cbv beta iota. rewrite decide_False by lia.
    unfold set_fd_used. change (k_pcbs (set_kpcbs ?st k)) with st.
    rewrite (set_file_get _ _ _ _ _ (Eset _)), decide_True, bind_ret by done.
    destruct (set_file_Some (put_file (k_pcbs k) caller p fd
       (mkFILE (if filetype (dentry_of (k_mem k) (k_fs k) i) =? FILE_TYPE_REG then fs_file_ops_table else fs_dir_ops_table)
          (inode_num (dentry_of (k_mem k) (k_fs k) i)) 0
          (if filetype (dentry_of (k_mem k) (k_fs k) i) =? FILE_TYPE_REG then TASK_FILE_REG else TASK_FILE_DIR) (f_used f)))
       (caller, fd) (opened i) _ (eq_trans (set_file_get _ _ _ _ (caller, fd) (Eset _)) (decide_True _ _ eq_refl)))
      as (st2 & E2).
    pose proof (set_file_again _ _ _ _ _ _ (Eset _) E2) as E3. rewrite Eset in E3. injection E3 as <-.
    unfold with_used. cbn [file_ops f_inode f_pos f_type]. unfold opened in E2 at 1. cbv zeta in E2. rewrite E2, bind_ret. done.
  - change (set_kpcbs ?st k) with (set_rtc (k_rtc k) (set_kpcbs st k)).
    apply (with_files_ok k (k_rtc k)); [done|by eapply set_file_only|..].
    + eapply set_file_rtc_inv; [apply (ko_rtc _ Hk)|apply Eset|]. by apply (free_not_registered p).
    + intros fp Hin'. destruct (ko_clock _ Hk fp Hin') as (pid & f0 & H1 & H2 & H3 & H4 & E5 & H6 & H7).
      apply (clock_owned_file k _ _ _ f0); [by apply (ko_clock _ Hk)| |done|done].
      rewrite (set_file_get _ _ _ _ _ (Eset _)), decide_False; [done|].
      intros <-. by apply (free_not_registered p fd Ep Hff).
Qed.

(** *** Reading *)

(** The position of a descriptor advanced and memory outside the image
    changed: the invariant stays. *)
Lemma advanced_ok p fd f m pos :
  k_pcbs k !! caller = Some p -> 0 <= fd < TASK_MAX_FILES -> arr_get (open_files p) fd = Some f ->
  file_ops f <> rtc_file_ops_table -> mem_ok m -> image_kept (k_mem k) (k_fs k) m ->
  kernel_ok (set_kpcbs (put_file (k_pcbs k) caller p fd (with_pos pos f)) (set_kmem m k)).
Proof.
  intros Ep Hfd Ef Hops Hmok HK.
  destruct caller_pcb as (p' & Ep' & Hp). rewrite Ep in Ep'. injection Ep' as <-.
  assert (Hin : 0 <= fd < Z.of_nat (length (open_files p))) by (rewrite (pk_files _ Hp); unfold TASK_MAX_FILES in *; lia).
  assert (Eset : forall f', set_file (k_pcbs k) (caller, fd) f' = Some (put_file (k_pcbs k) caller p fd f'))
    by (intros; by apply set_file_put).
  apply set_kmem_ok with (m := m) in Hk as Hk'; [|done|done].
  change (set_kpcbs ?st (set_kmem m k)) with (with_files (k_rtc k) st (set_kmem m k)).
  apply with_files_ok; [done|by eapply set_file_only|..].
  + eapply set_file_rtc_inv; [apply (ko_rtc _ Hk)|apply Eset|]. intros Hreg. destruct (ko_clock _ Hk _ Hreg) as (pid & f0 & _ & _ & _ & _ & E5 & _ & E7).
    rewrite (caller_file p fd Ep) in E5. congruence.
  + intros fp Hin'. destruct (ko_clock _ Hk fp Hin') as (pid & f0 & H1 & H2 & H3 & H4 & E5 & H6 & H7).
    apply (clock_owned_file (set_kmem m k) _ _ _ f0); [by apply (ko_clock _ Hk')| |done|done].
    rewrite (set_file_get _ _ _ _ _ (Eset _)), decide_False; [done|].
    intros <-. rewrite (caller_file p fd Ep) in E5. congruence.
Qed.

(** Reading a regular file: the slice at the position goes to the buffer, the
    position advances, and nothing else changes. *)
Lemma syscall_read_file p fd f buf nbytes :
  k_pcbs k !! caller = Some p -> 0 <= fd < TASK_MAX_FILES -> arr_get (open_files p) fd = Some f ->
  f_used f <> 0 -> file_ops f = fs_file_ops_table -> f_inode f <> inode_count (k_mem k) (k_fs k) ->
  0 <= f_pos f -> 0 <= nbytes -> f_pos f + nbytes < 2147483648 ->
  (nbytes = 0 -> user_address buf) -> (forall a, buf <= a < buf + nbytes -> user_address a) ->
  let n := read_len (k_mem k) (k_fs k) (f_inode f) (f_pos f) nbytes in
  exists m, syscall_read e esp fd buf nbytes k
      = Some (n, set_kpcbs (put_file (k_pcbs k) caller p fd (with_pos (f_pos f + n) f)) (set_kmem m k)) /\
    load_bytes m buf n = file_slice (k_mem k) (k_fs k) (f_inode f) (f_pos f) n /\
    (forall x, ~ (buf <= x < buf + n) -> ld8 m x = ld8 (k_mem k) x) /\
    kernel_ok (set_kpcbs (put_file (k_pcbs k) caller p fd (with_pos (f_pos f + n) f)) (set_kmem m k)).
Proof.
  intros Ep Hfd Ef Hused Hops Hino Hpos Hn Hov Hb0 Hbuf n.
  destruct caller_pcb as (p' & Ep' & Hp). rewrite Ep in Ep'. injection Ep' as <-.
  assert (Hb : 0 < buf /\ buf + nbytes <= TASK_VIRT_PAGE_END).
  { unfold user_address, TASK_VIRT_PAGE_BEG, TASK_VIRT_PAGE_END in *.
    destruct (decide (nbytes = 0)) as [D|D]; [specialize (Hb0 D); lia|].
    pose proof (Hbuf buf ltac:(lia)). pose proof (Hbuf (buf + nbytes - 1) ltac:(lia)). lia. }
  assert (Hnr : 0 <= n <= nbytes) by (subst n; unfold read_len; case_decide; lia).
  pose proof (pk_files _ Hp) as Hlen.
  assert (Hin : 0 <= fd < Z.of_nat (length (open_files p))) by (rewrite Hlen; unfold TASK_MAX_FILES in *; lia).
  assert (Eset : forall f', set_file (k_pcbs k) (caller, fd) f' = Some (put_file (k_pcbs k) caller p fd f'))
    by (intros; by apply set_file_put).
  unfold TASK_VIRT_PAGE_END in Hb.
  assert (Hout : forall a, buf <= a < buf + n -> ~ in_image (k_mem k) (k_fs k) a).
  { intros a Ha [H1 H2]. destruct (ko_image _ Hk) as [_ Hi]. specialize (Hbuf a ltac:(lia)).
    unfold user_address, TASK_VIRT_PAGE_BEG, KSTACKS, MAX_PROC_NUM, TASK_KSTACK_TOP in *. lia. }
  destruct (read_data_all _ _ (ko_fs _ Hk) (f_inode f) (f_pos f) buf nbytes) as (m & E & Hm);
    [done|done|done|lia|lia|fold n; lia|exact Hout|].
  fold n in E, Hm. exists m.
  assert (Hrd : syscall_read e esp fd buf nbytes k
      = Some (n, set_kpcbs (put_file (k_pcbs k) caller p fd (with_pos (f_pos f + n) f)) (set_kmem m k))).
  { unfold syscall_read. rewrite decide_False by lia. rewrite decide_False by lia. cbv zeta.
    rewrite (caller_eq c), (caller_file p fd Ep), Ef, bind_ret, decide_False by done.
    unfold file_read. rewrite (caller_file p fd Ep), Ef, bind_ret, Hops. unfold fs_file_read.
    rewrite (u32_small (f_pos f)) by lia. rewrite E. rewrite s32_small by lia.
    rewrite Eset, bind_ret. done. }
  split; [exact Hrd|]. split; [|split].
  - apply read_slice; [lia|lia|lia|exact Hm].
  - intros x Hx. by rewrite Hm, decide_False.
  - assert (HK : image_kept (k_mem k) (k_fs k) m).
    { intros a Ha. rewrite Hm. case_decide as D; [|done]. by destruct (Hout a D). }
    assert (Hmok : mem_ok m).
    { intros a. rewrite Hm. case_decide; [unfold file_byte|]; apply (wf_mem _ _ (ko_fs _ Hk)). }
    apply (advanced_ok p fd f); [done..|by rewrite Hops|done|done].
Qed.

(** The position of an open directory. *)
Lemma syscall_read_dir p fd f buf nbytes :
  k_pcbs k !! caller = Some p -> 0 <= fd < TASK_MAX_FILES -> arr_get (open_files p) fd = Some f ->
  f_used f <> 0 -> file_ops f = fs_dir_ops_table -> 0 <= f_pos f <= num_dentries (k_mem k) (k_fs k) ->
  (forall a, buf <= a < buf + 32 -> user_address a) ->
  let name := if decide (f_pos f = num_dentries (k_mem k) (k_fs k)) then [] else dentry_name (k_mem k) (k_fs k) (f_pos f) in
  let pos := Z.min (f_pos f + 1) (num_dentries (k_mem k) (k_fs k)) in
  exists m, syscall_read e esp fd buf nbytes k
      = Some (Z.of_nat (length name), set_kpcbs (put_file (k_pcbs k) caller p fd (with_pos pos f)) (set_kmem m k)) /\
    load_bytes m buf (Z.of_nat (length name)) = name /\
    (forall x, 0 <= x < 4294967296 -> ~ (buf <= x < buf + 32) -> ld8 m x = ld8 (k_mem k) x) /\
    kernel_ok (set_kpcbs (put_file (k_pcbs k) caller p fd (with_pos pos f)) (set_kmem m k)) /\
    image_kept (k_mem k) (k_fs k) m.
Proof.
  intros Ep Hfd Ef Hused Hops Hpos Hbuf name pos. pose proof (ko_fs _ Hk) as Hwf. pose proof (num_dentries_small _ _ Hwf) as Hnd.
  destruct caller_pcb as (p' & Ep' & Hp). rewrite Ep in Ep'. injection Ep' as <-. pose proof (pk_files _ Hp) as Hlen.
  assert (Hin : 0 <= fd < Z.of_nat (length (open_files p))) by (rewrite Hlen; unfold TASK_MAX_FILES in *; lia).
  assert (Eset : forall f', set_file (k_pcbs k) (caller, fd) f' = Some (put_file (k_pcbs k) caller p fd f'))
    by (intros; by apply set_file_put).
  pose proof (Hbuf buf ltac:(lia)) as H0. pose proof (Hbuf (buf + 31) ltac:(lia)) as H31.
  unfold user_address, TASK_VIRT_PAGE_BEG, TASK_VIRT_PAGE_END in H0, H31.
  assert (Hsame : with_pos (f_pos f) f = f) by (by destruct f).
  assert (Hrd : exists m, fs_dir_read (k_mem k) (k_fs k) (e_dentry e) buf nbytes f = Some (Z.of_nat (length name), m, with_pos pos f) /\
    load_bytes m buf (Z.of_nat (length name)) = name /\
    (forall x, 0 <= x < 4294967296 -> ~ (buf <= x < buf + 32) -> ld8 m x = ld8 (k_mem k) x) /\ mem_ok m).
  { subst name pos. case_decide as D.
    - exists (k_mem k). rewrite (fs_dir_read_end _ _ Hwf buf) by done. replace (Z.min _ _) with (f_pos f) by lia. rewrite Hsame.
      split; [done|]. split; [done|]. split; [done|apply Hwf].
    - destruct (fs_dir_read_in _ _ Hwf buf ltac:(lia) (e_dentry e) nbytes f He ltac:(lia) ltac:(lia)) as (m & E & Hb & Hm & Hok).
      exists m. replace (Z.min _ _) with (f_pos f + 1) by lia. split; [exact E|]. split; [|done].
      pose proof (dentry_name_length (k_mem k) (k_fs k) (f_pos f)).
      rewrite (load_bytes_take m buf _ _ Hb) by lia. rewrite Nat2Z.id. apply strncpy_bytes_name. }
  destruct Hrd as (m & E & Hb & Hm & Hok). exists m.
  assert (HK : image_kept (k_mem k) (k_fs k) m).
  { intros a Ha. pose proof (wf_base _ _ Hwf). pose proof (wf_end _ _ Hwf). destruct (ko_image _ Hk) as [_ Hi].
    unfold in_image, KSTACKS, MAX_PROC_NUM, TASK_KSTACK_TOP in *. apply Hm; lia. }
  split; [|split; [done|split; [done|split; [apply (advanced_ok p fd f); [done..|by rewrite Hops|done|done]|done]]]].
  unfold syscall_read. rewrite decide_False by lia. rewrite decide_False by lia. cbv zeta.
  rewrite (caller_eq c), (caller_file p fd Ep), Ef, bind_ret, decide_False by done.
  unfold file_read. rewrite (caller_file p fd Ep), Ef, bind_ret, Hops, E, bind_ret. cbv beta iota. by rewrite Eset, bind_ret.
Qed.

(** *** Closing *)

Lemma syscall_close_spec p fd f :
  k_pcbs k !! caller = Some p -> 0 <= fd < TASK_MAX_FILES -> arr_get (open_files p) fd = Some f -> f_used f <> 0 ->
  if decide (file_ops f = stdin_file_ops_table \/ file_ops f = stdout_file_ops_table)
  then syscall_close e esp fd k = Some (-1, k)
  else exists g, syscall_close e esp fd k = Some (0, with_files g (put_file (k_pcbs k) caller p fd (with_used 0 f)) k) /\
    (file_ops f = rtc_file_ops_table -> rtc_files g = released (caller, fd) (rtc_files (k_rtc k))) /\
    (file_ops f <> rtc_file_ops_table -> g = k_rtc k) /\
    kernel_ok (with_files g (put_file (k_pcbs k) caller p fd (with_used 0 f)) k).
Proof.
  intros Ep Hfd Ef Hused. destruct caller_pcb as (p' & Ep' & Hp). rewrite Ep in Ep'. injection Ep' as <-.
  pose proof (pk_files _ Hp) as Hlen.
  assert (Hin : 0 <= fd < Z.of_nat (length (open_files p))) by (rewrite Hlen; unfold TASK_MAX_FILES in *; lia).
  pose proof (caller_file p fd Ep) as Eg. rewrite Ef in Eg.
  destruct (file_close_spec e k caller fd f Hk Eg) as (r & g & E & Er & I & Hreg & Hsame).
  assert (Hcl : syscall_close e esp fd k =
    if decide (r <> 0) then Some (-1, set_rtc g k)
    else k2 ← set_fd_used (caller, fd) 0 (set_rtc g k); Some (0, k2)).
  { unfold syscall_close. rewrite decide_False by lia. cbv zeta. rewrite (caller_eq c), Eg, bind_ret, decide_False by done.
    by rewrite E, bind_ret. }
  rewrite Hcl. clear Hcl E. destruct (decide (file_ops f = _ \/ _)) as [D|D]; rewrite Er.
  { rewrite decide_True by lia. rewrite Hsame by (destruct D; congruence). do 2 f_equal. by destruct k. }
  rewrite decide_False by lia. exists g.
  assert (Eset : set_file (k_pcbs k) (caller, fd) (with_used 0 f) = Some (put_file (k_pcbs k) caller p fd (with_used 0 f)))
    by (by apply set_file_put).
  assert (Hold : forall fp, Some fp ∈ rtc_files g -> Some fp ∈ rtc_files (k_rtc k) /\ fp <> (caller, fd)).
  { intros fp H. destruct (decide (file_ops f = rtc_file_ops_table)) as [Dr|Dr];
      [rewrite Hreg in H by done; by apply released_in in H|]. rewrite Hsame in H by done. split; [done|].
    intros ->. destruct (ko_clock _ Hk _ H) as (pid & f0 & _ & _ & _ & _ & E0 & _ & E1). congruence. }
  split_and!; try done.
  - unfold set_fd_used. change (k_pcbs (set_rtc g k)) with (k_pcbs k). rewrite Eg, bind_ret, Eset, bind_ret. done.
  - apply with_files_ok; [done|by eapply set_file_only|eapply set_file_rtc_inv; [done..|]; intros H; by destruct (Hold _ H)|].
    intros fp H. destruct (Hold fp H) as [H1 H2].
    destruct (ko_clock _ Hk fp H1) as (pid & f0 & P1 & P2 & P3 & P4 & P5 & P6 & P7).
    apply (clock_owned_file k _ _ _ f0); [by apply (ko_clock _ Hk)| |done|done].
    rewrite (set_file_get _ _ _ _ _ Eset), decide_False; [done|]. by intros <-.
Qed.

(** *** Refused calls *)

(** A number that is no descriptor, or one not in use. *)
Definition bad_fd (fd : Z) : Prop :=
  ~ (0 <= fd < TASK_MAX_FILES) \/ exists f, get_file (k_pcbs k) (caller, fd) = Some f /\ f_used f = 0.

Lemma bad_fd_refused fd buf nbytes :
  bad_fd fd -> syscall_read e esp fd buf nbytes k = Some (-1, k) /\ syscall_write e esp fd buf nbytes k = Some (-1, k) /\
    syscall_close e esp fd k = Some (-1, k).
Proof.
  intros Hbad. unfold syscall_read, syscall_write, syscall_close. rewrite (caller_eq c esp) by done.
  assert (H : (fd < 0 \/ TASK_MAX_FILES <= fd) \/
    ~ (fd < 0 \/ TASK_MAX_FILES <= fd) /\ exists f, get_file (k_pcbs k) (caller, fd) = Some f /\ f_used f = 0).
  { destruct Hbad as [H|H]; destruct (decide (fd < 0 \/ TASK_MAX_FILES <= fd)); [by left|lia|by left|by right]. }
  destruct H as [H|(H & f & -> & Hf)].
  - rewrite !(decide_True (P := fd < 0 \/ _)) by done. by case_decide.
  - rewrite !(decide_False (P := fd < 0 \/ _)) by done. cbv zeta. rewrite !bind_ret, !(decide_True (P := f_used f = 0)) by done.
    by case_decide.
Qed.

Lemma null_buffer_refused fd nbytes :
  syscall_read e esp fd 0 nbytes k = Some (-1, k) /\ syscall_write e esp fd 0 nbytes k = Some (-1, k).
Proof. done. Qed.

(** Writing a file or a directory. *)
Lemma write_file_refused fd buf nbytes f :
  get_file (k_pcbs k) (caller, fd) = Some f ->
  file_ops f ∈ [fs_file_ops_table; fs_dir_ops_table; stdin_file_ops_table] ->
  syscall_write e esp fd buf nbytes k = Some (-1, k).
Proof.
  intros Ef Ho. unfold syscall_write. destruct (decide (buf = 0)); [done|]. destruct (decide (fd < 0 \/ _)); [done|].
  cbv zeta. rewrite (caller_eq c), Ef, bind_ret by done. destruct (decide (f_used f = 0)); [done|].
  unfold file_write. rewrite Ef, bind_ret. rewrite !elem_of_cons, elem_of_nil in Ho. by destruct Ho as [->|[->|[->|[]]]].
Qed.

Lemma read_stdout_refused fd buf nbytes f :
  get_file (k_pcbs k) (caller, fd) = Some f -> file_ops f = stdout_file_ops_table ->
  syscall_read e esp fd buf nbytes k = Some (-1, k).
Proof.
  intros Ef Ho. unfold syscall_read. destruct (decide (buf = 0)); [done|]. destruct (decide (fd < 0 \/ _)); [done|].
  cbv zeta. rewrite (caller_eq c), Ef, bind_ret by done. destruct (decide (f_used f = 0)); [done|].
  unfold file_read. by rewrite Ef, bind_ret, Ho.
Qed.

(** *** Opening the clock *)

Lemma syscall_open_clock fname l i p fd j :
  cstr (k_mem k) fname l -> lookup_name l = Some i -> k_pcbs k !! caller = Some p -> lowest_free p = Some fd ->
  filetype (dentry_of (k_mem k) (k_fs k) i) = FILE_TYPE_RTC ->
  list_find (fun s => s = None) (rtc_files (k_rtc k)) = Some (j, None) ->
  exists g f, syscall_open e esp fname k = Some (fd, with_files g (put_file (k_pcbs k) caller p fd f) k) /\
    f_used f = 1 /\ f_type f = TASK_FILE_RTC /\ file_ops f = rtc_file_ops_table /\
    get_rtc_freq (f_inode f) = 1 /\ get_rtc_count (f_inode f) = 0 /\
    rtc_files g = <[j := Some (caller, fd)]> (rtc_files (k_rtc k)) /\
    kernel_ok (with_files g (put_file (k_pcbs k) caller p fd f) k).
Proof.
  intros Hl Hn Ep Hfree Ht Hj. destruct caller_pcb as (p' & Ep' & Hp). rewrite Ep in Ep'. injection Ep' as <-.
  destruct (lowest_free_in p fd Hfree) as [Hfd Hff]. pose proof (pk_files _ Hp) as Hlen.
  assert (Hin : 0 <= fd < Z.of_nat (length (open_files p))) by (rewrite Hlen; unfold TASK_MAX_FILES in *; lia).
  destruct (arr_get_Some (open_files p) fd Hin) as (f0 & Ef0 & _).
  pose proof (caller_file p fd Ep) as Eg. rewrite Ef0 in Eg.
  pose proof (rtc_open_spec (k_rtc k) (k_pcbs k) (caller, fd) f0 (ko_rtc _ Hk) (free_not_registered p fd Ep Hff) Eg) as Ho.
  rewrite Hj in Ho. destruct Ho as (g & st & f & E & I & Hfiles & _ & _ & Ef & Et & Eo & Efr & Ect & Es).
  change (fs_get st (caller, fd)) with (get_file st (caller, fd)) in Ef. change (set_file (k_pcbs k) (caller, fd) f = Some st) in Es.
  destruct (set_file_Some st (caller, fd) (with_used 1 f) f Ef) as (st2 & E2).
  pose proof (set_file_again _ _ _ _ _ _ Es E2) as E3. rewrite (set_file_put _ _ p) in E3 by done. injection E3 as E3.
  exists g, (with_used 1 f). rewrite E3. split_and!; try done.
  - unfold syscall_open. rewrite (read_dentry_by_name_spec _ _ (ko_fs _ Hk) _ _ l) by done. unfold lookup_name in Hn.
    destruct l as [|x l]; [done|]. rewrite Hn, bind_ret. cbv beta iota. rewrite decide_False by lia.
    cbv zeta. rewrite (caller_eq c), Ep, bind_ret, free_fd_spec, bind_ret by done. rewrite Hfree. cbv iota.
    rewrite decide_True by done. unfold on_rtc. rewrite E, bind_ret. cbv beta iota. rewrite bind_ret. cbv beta iota.
    rewrite decide_False by lia. unfold set_fd_used.
    change (k_pcbs (set_rtc g (set_kpcbs st k))) with st. by rewrite Ef, bind_ret, E2, bind_ret.
  - assert (Hput : set_file (k_pcbs k) (caller, fd) (with_used 1 f) = Some st2) by (by rewrite (set_file_put _ _ p), E3).
    apply with_files_ok; [done|by eapply set_file_only|..].
    + destruct I as [I1 I2 I3 I4 I5 I6 I7 I8]. split; try assumption. intros fp' H.
      destruct (I8 fp' H) as (f' & E' & F'). change (get_file st fp' = Some f') in E'. cbn [snd].
      change (exists f1, get_file st2 fp' = Some f1 /\ file_ok (sys_freq_pow g) f1).
      rewrite (set_file_get _ _ _ _ _ E2). destruct (decide ((caller, fd) = fp')) as [<-|Hne]; [|by exists f'].
      rewrite Ef in E'. injection E' as <-. exists (with_used 1 f). split; [done|]. destruct F'. by split.
    + intros fp H. rewrite Hfiles in H. apply list_elem_of_lookup in H as [j' H].
      apply list_lookup_insert_Some in H as [(_ & [= <-] & _)|[_ H]].
      * exists c, (with_used 1 f). split_and!; try done; try (cbn [snd]; lia).
        change (get_file st2 (caller, fd) = Some (with_used 1 f)). by rewrite (set_file_get _ _ _ _ _ E2), decide_True.
      * apply list_elem_of_lookup_2 in H. destruct (ko_clock _ Hk fp H) as (pid & f' & P1 & P2 & P3 & P4 & P5 & P6 & P7).
        apply (clock_owned_file k _ _ _ f'); [by apply (ko_clock _ Hk)| |done|done].
        rewrite (set_file_get _ _ _ _ _ Hput), decide_False; [done|]. intros <-. by apply (free_not_registered p fd Ep Hff).
Qed.
End Caller.

(** ** A disk that stays *)

Lemma lookup_name_range k l i : lookup_name k l = Some i -> 0 <= i < num_dentries (k_mem k) (k_fs k).
Proof.
  destruct l as [|x l]; [done|]. unfold lookup_name, find_dentry. intros E. apply head_Some in E as [l' E].
  assert (Hin : i ∈ filter (fun i => dentry_name (k_mem k) (k_fs k) i = take 32 (x :: l)) (seqZ 0 (num_dentries (k_mem k) (k_fs k))))
    by (rewrite E; set_solver). apply list_elem_of_filter in Hin as [_ Hin]. apply elem_of_seqZ in Hin. lia.
Qed.

Section Disk.
Context (k k' : kernel) (Hwf : fs_wf (k_mem k) (k_fs k)) (Hfs : k_fs k' = k_fs k).
Context (HK : image_kept (k_mem k) (k_fs k) (k_mem k')).

Lemma lookup_name_kept l : lookup_name k' l = lookup_name k l.
Proof. destruct l as [|x l]; [done|]. unfold lookup_name. rewrite Hfs. by apply find_dentry_kept. Qed.

Lemma file_contents_kept i : 0 <= i < inode_count (k_mem k) (k_fs k) ->
  file_contents (k_mem k') (k_fs k) i = file_contents (k_mem k) (k_fs k) i.
Proof.
  intros Hi. unfold file_contents. rewrite (file_size_kept _ _ Hwf) by done. apply (file_slice_kept _ _ Hwf); [done|done|lia|lia].
Qed.
End Disk.

(** With every slot of the clock taken the open does not return. *)
Lemma syscall_open_clock_full e k c esp fname l i p fd :
  kernel_ok k -> 1 <= c < MAX_PROC_NUM -> TASK_KSTACK_TOP c <= esp < TASK_KSTACK_BOT c ->
  length (filename (e_dentry e)) = 32%nat ->
  cstr (k_mem k) fname l -> lookup_name k l = Some i -> k_pcbs k !! caller c = Some p -> lowest_free p = Some fd ->
  filetype (dentry_of (k_mem k) (k_fs k) i) = FILE_TYPE_RTC ->
  list_find (fun s => s = None) (rtc_files (k_rtc k)) = None ->
  syscall_open e esp fname k = None.
Proof.
  intros Hk Hc Hesp He Hl Hn Ep Hfree Ht Hj.
  destruct (ko_pcb _ Hk c) as (p' & Ep' & Hp); [lia|]. change (TASK_KSTACK_TOP c) with (caller c) in Ep'. rewrite Ep in Ep'. injection Ep' as <-.
  destruct (lowest_free_in p fd Hfree) as [Hfd Hff].
  destruct (arr_get_Some (open_files p) fd) as (f0 & Ef0 & _); [rewrite (pk_files _ Hp); unfold TASK_MAX_FILES in *; lia|].
  pose proof (caller_file k c p fd Ep) as Eg. rewrite Ef0 in Eg.
  pose proof (rtc_open_spec (k_rtc k) (k_pcbs k) (caller c, fd) f0 (ko_rtc _ Hk) (free_not_registered k c Hk p fd Ep Hff) Eg) as Ho.
  rewrite Hj in Ho. unfold syscall_open. rewrite (read_dentry_by_name_spec _ _ (ko_fs _ Hk) _ _ l) by done.
  unfold lookup_name in Hn. destruct l as [|x l]; [done|]. rewrite Hn, bind_ret. cbv beta iota. rewrite decide_False by lia.
  cbv zeta. rewrite (caller_eq c), Ep, bind_ret, free_fd_spec, bind_ret by done. rewrite Hfree. cbv iota.
  rewrite decide_True by done. unfold on_rtc. by rewrite Ho.
Qed.

Lemma opened_not_term k i : ~ (file_ops (opened k i) = stdin_file_ops_table \/ file_ops (opened k i) = stdout_file_ops_table).
Proof. unfold opened. cbn [file_ops]. destruct (_ =? _); intros [|]; done. Qed.

(** The descriptor just filled in, closed. *)
Lemma close_after e k c esp g p fd f :
  1 <= c < MAX_PROC_NUM -> TASK_KSTACK_TOP c <= esp < TASK_KSTACK_BOT c -> pid_in_use k c ->
  length (filename (e_dentry e)) = 32%nat ->
  kernel_ok (with_files g (put_file (k_pcbs k) (caller c) p fd f) k) ->
  length (open_files p) = Z.to_nat TASK_MAX_FILES -> 0 <= fd < TASK_MAX_FILES -> f_used f <> 0 ->
  ~ (file_ops f = stdin_file_ops_table \/ file_ops f = stdout_file_ops_table) ->
  exists g2, syscall_close e esp fd (with_files g (put_file (k_pcbs k) (caller c) p fd f) k)
      = Some (0, with_files g2 (put_file (k_pcbs k) (caller c) p fd (with_used 0 f)) k) /\
    kernel_ok (with_files g2 (put_file (k_pcbs k) (caller c) p fd (with_used 0 f)) k) /\
    (file_ops f = rtc_file_ops_table -> rtc_files g2 = released (caller c, fd) (rtc_files g)) /\
    (file_ops f <> rtc_file_ops_table -> g2 = g).
Proof.
  intros Hc Hesp Hu He Hk1 Hlen Hfd Hused Ho. set (k1 := with_files g _ k) in *.
  set (p1 := with_open_files (<[Z.to_nat fd := f]> (open_files p)) p).
  assert (Ep1 : k_pcbs k1 !! caller c = Some p1) by apply lookup_insert_eq.
  pose proof (syscall_close_spec e k1 c esp Hk1 Hc Hesp Hu He p1 fd f Ep1 Hfd) as H. rewrite decide_False in H by done.
  destruct H as (g2 & E & Hr & Hs & Hk2); [|done|].
  { rewrite arr_get_lookup by lia. apply list_lookup_insert_eq. unfold TASK_MAX_FILES in *. lia. }
  exists g2.
  assert (Eq : with_files g2 (put_file (k_pcbs k1) (caller c) p1 fd (with_used 0 f)) k1
             = with_files g2 (put_file (k_pcbs k) (caller c) p fd (with_used 0 f)) k).
  { assert (Ep2 : with_open_files (<[Z.to_nat fd := with_used 0 f]> (open_files p1)) p1
                = with_open_files (<[Z.to_nat fd := with_used 0 f]> (open_files p)) p).
    { subst p1. unfold with_open_files. cbn [open_files]. by rewrite list_insert_insert_eq. }
    assert (Eput : put_file (k_pcbs k1) (caller c) p1 fd (with_used 0 f) = put_file (k_pcbs k) (caller c) p fd (with_used 0 f)).
    { change (k_pcbs k1) with (put_file (k_pcbs k) (caller c) p fd f). unfold put_file. rewrite Ep2. apply insert_insert_eq. }
    rewrite Eput. reflexivity. }
  rewrite Eq in E, Hk2. done.
Qed.

Lemma put_file_facts g k a p fd f :
  k_pcbs k !! a = Some p -> length (open_files p) = Z.to_nat TASK_MAX_FILES -> 0 <= fd < TASK_MAX_FILES ->
  f_used f = 0 -> lowest_free p = Some fd ->
  let p2 := with_open_files (<[Z.to_nat fd := f]> (open_files p)) p in
  k_pcbs (with_files g (put_file (k_pcbs k) a p fd f) k) !! a = Some p2 /\ lowest_free p2 = Some fd /\
  (forall j, j <> fd -> arr_get (open_files p2) j = arr_get (open_files p) j) /\
  (forall a', a' <> a -> k_pcbs (with_files g (put_file (k_pcbs k) a p fd f) k) !! a' = k_pcbs k !! a').
Proof.
  intros Ep Hlen Hfd Hu Hlow p2.
  assert (Hj : forall j, j <> fd -> arr_get (open_files p2) j = arr_get (open_files p) j).
  { intros j Hj. unfold arr_get. case_decide; [|done]. cbn. apply list_lookup_insert_ne. lia. }
  split_and!; [apply lookup_insert_eq| |done|intros a' Ha; by apply lookup_insert_ne].
  rewrite <- Hlow. unfold lowest_free. f_equal. apply list_filter_iff. intros j.
  destruct (decide (j = fd)) as [->|Hne].
  - destruct (lowest_free_in p fd Hlow) as [_ Hff]. split; [done|intros _].
    unfold fd_free. rewrite arr_get_lookup by lia. cbn. rewrite list_lookup_insert_eq; [cbn; by rewrite Hu|].
    unfold TASK_MAX_FILES in *. lia.
  - unfold fd_free. by rewrite Hj.
Qed.

(** ** Reading a file to its end *)

(** A client that reads from a descriptor into one buffer until a read returns
    0 or fails; [n] bounds the number of calls. *)
Fixpoint read_all (n : nat) (e : env) (esp fd buf nbytes : Z) (k : kernel) : option (list Z * kernel) :=
  match n with
  | O => None
  | S n' =>
      '(r, k1) ← syscall_read e esp fd buf nbytes k;
      if decide (r <= 0) then Some ([], k1)
      else '(l, k2) ← read_all n' e esp fd buf nbytes k1; Some (load_bytes (k_mem k1) buf r ++ l, k2)
  end.

Section ReadAll.
Context (e : env) (c esp : Z) (m0 : mem) (g : fs_globals) (fd buf nbytes : Z).
Context (Hwf : fs_wf m0 g) (Hc : 1 <= c < MAX_PROC_NUM) (Hesp : TASK_KSTACK_TOP c <= esp < TASK_KSTACK_BOT c).
Context (He : length (filename (e_dentry e)) = 32%nat).
Context (Hfd : 0 <= fd < TASK_MAX_FILES) (Hn : 0 < nbytes < 1073741824).
Context (Hbuf : forall a, buf <= a < buf + nbytes -> user_address a).

Lemma image_kept_read m k r :
  kernel_ok k -> 0 <= r <= nbytes -> image_kept m0 g (k_mem k) -> k_fs k = g ->
  (forall x, ~ (buf <= x < buf + r) -> ld8 m x = ld8 (k_mem k) x) -> image_kept m0 g m.
Proof.
  intros Hk Hr HK Hg Hm a Ha. rewrite Hm; [by apply HK|]. intros Hin.
  destruct (ko_image _ Hk) as [_ Hi]. rewrite Hg in Hi. destruct Ha as [H1 H2].
  destruct (counts_kept _ _ Hwf _ HK) as [E1 E2]. unfold image_size in *. rewrite E1, E2 in Hi.
  specialize (Hbuf a ltac:(lia)). unfold user_address, TASK_VIRT_PAGE_BEG, KSTACKS, MAX_PROC_NUM, TASK_KSTACK_TOP in *. lia.
Qed.

Lemma read_all_spec n : forall k p f,
  kernel_ok k -> k_fs k = g -> image_kept m0 g (k_mem k) ->
  k_pcbs k !! caller c = Some p -> arr_get (open_files p) fd = Some f -> f_used f <> 0 ->
  file_ops f = fs_file_ops_table -> 0 <= f_inode f < inode_count m0 g ->
  0 <= f_pos f <= file_size m0 g (f_inode f) -> file_size m0 g (f_inode f) - f_pos f < Z.of_nat n ->
  exists k', read_all n e esp fd buf nbytes k
    = Some (file_slice m0 g (f_inode f) (f_pos f) (file_size m0 g (f_inode f) - f_pos f), k') /\ kernel_ok k'.
Proof.
  induction n as [|n IH]; intros k p f Hk Hg HK Ep Ef Hu Ho Hi Hp Hfuel; [lia|].
  pose proof (wf_size _ _ Hwf _ Hi) as Hsz. unfold BLOCK_SIZE, MAX_BLOCK_NUM in Hsz.
  destruct (counts_kept _ _ Hwf _ HK) as [Ec _].
  destruct (syscall_read_file e k c esp Hk Hc Hesp He p fd f buf nbytes Ep Hfd Ef Hu Ho) as (m & E & L & Hm & Hk');
    [rewrite Hg, Ec; lia|lia|lia|lia|lia|done|].
  rewrite Hg, (read_len_kept _ _ Hwf _ _ _ _ HK) in E, L, Hm, Hk'.
  assert (Er : read_len m0 g (f_inode f) (f_pos f) nbytes = Z.min nbytes (file_size m0 g (f_inode f) - f_pos f)).
  { unfold read_len. rewrite decide_True by lia. lia. }
  rewrite Er in E, L, Hm, Hk'. cbn [read_all]. rewrite E, bind_ret. cbv beta iota.
  destruct (decide (f_pos f = file_size m0 g (f_inode f))) as [D|D].
  - rewrite decide_True by lia. eexists. split; [|exact Hk'].
    replace (_ - f_pos f) with 0 by lia. done.
  - rewrite decide_False by lia. set (r := Z.min _ _) in *.
    pose proof (image_kept_read m k r Hk ltac:(lia) HK Hg Hm) as HKm.
    destruct (ko_pcb _ Hk c) as (p' & Ep' & Hpok); [lia|]. change (TASK_KSTACK_TOP c) with (caller c) in Ep'.
    rewrite Ep in Ep'. injection Ep' as <-.
    destruct (IH (set_kpcbs (put_file (k_pcbs k) (caller c) p fd (with_pos (f_pos f + r) f)) (set_kmem m k))
      (with_open_files (<[Z.to_nat fd:=with_pos (f_pos f + r) f]> (open_files p)) p) (with_pos (f_pos f + r) f))
      as (k' & E' & Hk2); try done.
    + apply lookup_insert_eq.
    + rewrite arr_get_lookup by lia. cbn [open_files with_open_files]. apply list_lookup_insert_eq.
      rewrite (pk_files _ Hpok). unfold TASK_MAX_FILES in *. lia.
    + cbn [f_inode f_pos with_pos]. lia.
    + cbn [f_inode f_pos with_pos]. lia.
    + exists k'. split; [|done]. rewrite E', bind_ret. cbv beta iota.
      cbn [f_inode f_pos with_pos]. change (k_mem (set_kpcbs _ (set_kmem m k))) with m. rewrite L.
      rewrite (file_slice_kept _ _ Hwf) by (done || lia). rewrite <- file_slice_app by lia. do 2 f_equal. f_equal. lia.
Qed.
End ReadAll.

(** ** Properties *)

(** A system call by process [c] on its kernel stack. *)
Record calling (e : env) (k : kernel) (c esp : Z) : Prop := {
  ca_kernel : kernel_ok k;
  ca_pid : 1 <= c < MAX_PROC_NUM;
  ca_stack : TASK_KSTACK_TOP c <= esp < TASK_KSTACK_BOT c;
  ca_used : pid_in_use k c;
  ca_env : length (filename (e_dentry e)) = 32%nat
}.

(** [syscall_open] returns the lowest descriptor from 2 on that is not in
    use, filled in for the first directory entry of that name (a file or the
    directory at position 0, or a registered 2 Hz clock), and keeps the
    invariant; an unknown or empty name and a full table give -1 and change
    nothing; with ten clocks open, opening one more does not return. *)
Theorem open_correct (e : env) (k : kernel) (c esp fname : Z) (l : list Z) (p : PCB_t) :
  calling e k c esp -> cstr (k_mem k) fname l -> k_pcbs k !! TASK_KSTACK_TOP c = Some p ->
  match lookup_name k l, lowest_free p with
  | Some i, Some fd =>
      if decide (filetype (dentry_of (k_mem k) (k_fs k) i) = FILE_TYPE_RTC) then
        match list_find (fun s => s = None) (rtc_files (k_rtc k)) with
        | Some (j, _) =>
            exists g f, syscall_open e esp fname k
                = Some (fd, with_files g (put_file (k_pcbs k) (TASK_KSTACK_TOP c) p fd f) k) /\
              f_used f = 1 /\ f_type f = TASK_FILE_RTC /\ file_ops f = rtc_file_ops_table /\
              get_rtc_freq (f_inode f) = 1 /\ get_rtc_count (f_inode f) = 0 /\
              rtc_files g = <[j := Some (TASK_KSTACK_TOP c, fd)]> (rtc_files (k_rtc k)) /\
              kernel_ok (with_files g (put_file (k_pcbs k) (TASK_KSTACK_TOP c) p fd f) k)
        | None => syscall_open e esp fname k = None
        end
      else
        let k' := set_kpcbs (put_file (k_pcbs k) (TASK_KSTACK_TOP c) p fd (opened k i)) k in
        syscall_open e esp fname k = Some (fd, k') /\ kernel_ok k'
  | _, _ => syscall_open e esp fname k = Some (-1, k)
  end.
Proof.
  intros [Hk Hc Hesp Hu He] Hl Ep. destruct (lookup_name k l) as [i|] eqn:En; [|by eapply syscall_open_none].
  destruct (lowest_free p) as [fd|] eqn:Ef; [|by eapply syscall_open_full].
  case_decide as D; [|by eapply syscall_open_file].
  destruct (list_find _ _) as [[j x]|] eqn:Ej.
  - pose proof Ej as Ej'. apply list_find_Some in Ej' as (_ & -> & _). by eapply syscall_open_clock.
  - by eapply syscall_open_clock_full.
Qed.

(** C8: a regular file opened by name and read through the descriptor, in
    pieces of any size and until a read returns 0, gives the whole contents of
    the file; the kernel's invariant holds at the end. *)
Theorem open_read_all (e : env) (k : kernel) (c esp fname buf nbytes : Z) (l : list Z) (p : PCB_t) (i fd : Z) :
  calling e k c esp -> cstr (k_mem k) fname l -> k_pcbs k !! TASK_KSTACK_TOP c = Some p ->
  lookup_name k l = Some i -> lowest_free p = Some fd ->
  filetype (dentry_of (k_mem k) (k_fs k) i) = FILE_TYPE_REG ->
  let ino := inode_num (dentry_of (k_mem k) (k_fs k) i) in
  0 <= ino < inode_count (k_mem k) (k_fs k) -> 0 < nbytes < 1073741824 ->
  (forall a, buf <= a < buf + nbytes -> user_address a) ->
  exists k1 k2, syscall_open e esp fname k = Some (fd, k1) /\
    read_all (S (Z.to_nat (file_size (k_mem k) (k_fs k) ino))) e esp fd buf nbytes k1
      = Some (file_contents (k_mem k) (k_fs k) ino, k2) /\ kernel_ok k2.
Proof.
  intros [Hk Hc Hesp Hu He] Hl Ep En Ef Ht ino Hi Hn Hbuf.
  destruct (syscall_open_file e k c esp Hk Hc Hesp He fname l i p fd) as [E Hk1]; [done..|by rewrite Ht|].
  destruct (lowest_free_in p fd Ef) as [Hfd _].
  assert (0 <= file_size (k_mem k) (k_fs k) ino) by apply ld32_range, (ko_fs _ Hk).
  destruct (ko_pcb _ Hk c) as (p' & Ep' & Hpok); [lia|]. rewrite Ep in Ep'. injection Ep' as <-.
  edestruct (read_all_spec e c esp (k_mem k) (k_fs k) fd buf nbytes (ko_fs _ Hk) Hc Hesp He ltac:(lia) Hn Hbuf
    (S (Z.to_nat (file_size (k_mem k) (k_fs k) ino)))
    (set_kpcbs (put_file (k_pcbs k) (caller c) p fd (opened k i)) k)
    (with_open_files (<[Z.to_nat fd := opened k i]> (open_files p)) p) (opened k i)) as (k2 & E2 & Hk2);
    try done; try (cbn [f_pos f_inode opened]; fold ino; lia).
  - apply lookup_insert_eq.
  - rewrite arr_get_lookup by lia. apply list_lookup_insert_eq. rewrite (pk_files _ Hpok). unfold TASK_MAX_FILES in *. lia.
  - unfold opened. rewrite Ht. done.
  - eexists _, k2. split; [exact E|]. split; [|done]. rewrite E2. cbn [f_inode f_pos opened]. fold ino.
    unfold file_contents. by rewrite Z.sub_0_r.
Qed.

(** C35: calls on a number that is not an open descriptor (out of range, or not
    in use), with a NULL buffer, a write to a file, a directory or the standard
    input, a read from the standard output and a close of the terminal
    descriptors return -1 and change nothing at all. *)
Theorem bad_descriptors_refused (e : env) (k : kernel) (c esp fd buf nbytes : Z) (p : PCB_t) :
  calling e k c esp -> k_pcbs k !! TASK_KSTACK_TOP c = Some p ->
  (bad_fd k c fd -> syscall_read e esp fd buf nbytes k = Some (-1, k) /\
     syscall_write e esp fd buf nbytes k = Some (-1, k) /\ syscall_close e esp fd k = Some (-1, k)) /\
  syscall_read e esp fd 0 nbytes k = Some (-1, k) /\ syscall_write e esp fd 0 nbytes k = Some (-1, k) /\
  forall f, 0 <= fd < TASK_MAX_FILES -> arr_get (open_files p) fd = Some f ->
    (file_ops f ∈ [fs_file_ops_table; fs_dir_ops_table; stdin_file_ops_table] ->
       syscall_write e esp fd buf nbytes k = Some (-1, k)) /\
    (file_ops f = stdout_file_ops_table -> syscall_read e esp fd buf nbytes k = Some (-1, k)) /\
    (file_ops f = stdin_file_ops_table \/ file_ops f = stdout_file_ops_table ->
       syscall_close e esp fd k = Some (-1, k)).
Proof.
  intros [Hk Hc Hesp Hu He] Ep. split; [intros Hbad; by eapply bad_fd_refused|].
  split; [done|]. split; [done|]. intros f Hfd Ef. pose proof (caller_file k c p fd Ep) as Eg. rewrite Ef in Eg.
  split; [intros Ho; by eapply write_file_refused|]. split; [intros Ho; by eapply read_stdout_refused|]. intros Ho.
  destruct (decide (f_used f = 0)) as [D|D]; [eapply bad_fd_refused; try done; right; by exists f|].
  pose proof (syscall_close_spec e k c esp Hk Hc Hesp Hu He p fd f Ep Hfd Ef D) as H. by rewrite decide_True in H.
Qed.

(** C36: opening a name and closing the descriptor gives back the descriptor
    and the clock's slot: the same descriptor is the next one to be returned,
    the other descriptors, the list of open clocks and the memory are as they
    were before the open. *)
Theorem open_close_roundtrip (e : env) (k : kernel) (c esp fname : Z) (l : list Z) (p : PCB_t) (i fd : Z) :
  calling e k c esp -> cstr (k_mem k) fname l -> k_pcbs k !! TASK_KSTACK_TOP c = Some p ->
  lookup_name k l = Some i -> lowest_free p = Some fd -> None ∈ rtc_files (k_rtc k) ->
  exists k1 k2 p2, syscall_open e esp fname k = Some (fd, k1) /\ syscall_close e esp fd k1 = Some (0, k2) /\
    kernel_ok k2 /\ k_mem k2 = k_mem k /\ rtc_files (k_rtc k2) = rtc_files (k_rtc k) /\
    k_pcbs k2 !! TASK_KSTACK_TOP c = Some p2 /\ lowest_free p2 = Some fd /\
    (forall j, j <> fd -> arr_get (open_files p2) j = arr_get (open_files p) j) /\
    (forall a, a <> TASK_KSTACK_TOP c -> k_pcbs k2 !! a = k_pcbs k !! a).
Proof.
  intros [Hk Hc Hesp Hu He] Hl Ep En Ef Hslot. destruct (lowest_free_in p fd Ef) as [Hfd Hff].
  destruct (ko_pcb _ Hk c) as (p' & Ep' & [Hlen _ _]); [lia|]. rewrite Ep in Ep'. injection Ep' as <-.
  assert (Hfd0 : 0 <= fd < TASK_MAX_FILES) by lia.
  destruct (decide (filetype (dentry_of (k_mem k) (k_fs k) i) = FILE_TYPE_RTC)) as [D|D].
  - destruct (list_find_elem_of (fun s => s = None) _ _ Hslot eq_refl) as [[j x] Ej].
    pose proof Ej as Ej'. apply list_find_Some in Ej' as (Es & -> & _).
    destruct (syscall_open_clock e k c esp Hk Hc Hesp Hu He fname l i p fd j) as (g & f & E & Hused & _ & Ho & _ & _ & Eg & Hk1);
      [done..|].
    destruct (close_after e k c esp g p fd f) as (g2 & E2 & Hk2 & Hreg & _); try done; [lia|rewrite Ho; by intros [|]|].
    eexists _, _, _. split; [exact E|]. split; [exact E2|]. split; [exact Hk2|]. split; [done|].
    split; [|by apply put_file_facts]. cbn [k_rtc with_files set_rtc]. rewrite Hreg, Eg by done.
    apply released_again; [by apply (free_not_registered k c Hk p)|done].
  - destruct (syscall_open_file e k c esp Hk Hc Hesp He fname l i p fd) as (E & Hk1); [done..|].
    destruct (close_after e k c esp (k_rtc k) p fd (opened k i)) as (g2 & E2 & Hk2 & _ & Hsame);
      try done; [apply opened_not_term|].
    eexists _, _, _. split; [exact E|]. split; [exact E2|]. split; [exact Hk2|]. split; [done|].
    split; [|by apply put_file_facts]. cbn [k_rtc with_files set_rtc].
    rewrite Hsame; [done|]. unfold opened. cbn [file_ops]. by destruct (_ =? _).
Qed.

(** ** A concrete kernel *)

(** A directory with ".", "rtc", the text file "hi" and the program "sh"; the
    user page of process 1, which is running, holds a few strings. *)
Definition demo_fs : fs_globals := fs_init 0x500000.

Definition demo_image : mem :=
  let put := fun l a (m : mem) => store_bytes m a l in
  put [4; 0; 0; 0; 2; 0; 0; 0; 2; 0; 0; 0] 0x500000 (
  put (46 :: replicate 31 0 ++ [1; 0; 0; 0]) 0x500040 (
  put ([114; 116; 99] ++ replicate 29 0 ++ [0; 0; 0; 0]) 0x500080 (
  put ([104; 105] ++ replicate 30 0 ++ [2; 0; 0; 0; 0; 0; 0; 0]) 0x5000C0 (
  put ([115; 104] ++ replicate 30 0 ++ [2; 0; 0; 0; 1; 0; 0; 0]) 0x500100 (
  put [5; 0; 0; 0; 1; 0; 0; 0] 0x501000 (
  put [30; 0; 0; 0; 0; 0; 0; 0] 0x502000 (
  put ([0x7F; 69; 76; 70] ++ replicate 20 0 ++ [0x18; 0x80; 0x04; 0x08; 0x90; 0x90]) 0x503000 (
  put [72; 101; 108; 108; 111] 0x504000 (
  put [104; 105; 0] 0x8100000 (
  put [114; 116; 99; 0] 0x8100010 (
  put [115; 104; 32; 97; 32; 98; 0] 0x8100020 ∅))))))))))).

Definition demo_file (ops : file_ops_table_t) (u : Z) : FILE := mkFILE ops 0 0 TASK_FILE_TERM u.

Definition demo_pcb (pid : Z) : PCB_t :=
  mkPCB ([demo_file stdin_file_ops_table 1; demo_file stdout_file_ops_table 1] ++ replicate 6 (demo_file fs_file_ops_table 0))
    0 None 0 0 0 pid 0 1 (replicate 5 0).

Definition demo_pcbs : pcb_store := list_to_map (map (fun i => (TASK_KSTACK_TOP i, demo_pcb i)) (seqZ 0 10)).

Definition demo_ts : tstate :=
  mkTS (map (fun i => blank_term (page_of 0 i) (backing i)) [0; 1; 2]) 0 0 demo_image [] demo_pcbs.

Definition demo_rtc : rtc_globals := mkRtc 2 1 4096 (replicate 10 0) (replicate 10 None) [].

Definition demo_paging : paging :=
  default blank_paging (init_page 0x402000 0x403000 blank_paging ≫= set_task_page 1).

Definition demo_kernel : kernel :=
  mkKernel demo_ts demo_rtc demo_fs demo_paging 3 ∅ (mkTss (TASK_KSTACK_BOT 1) KERNEL_DS) ([0; 1] ++ replicate 8 0).

Definition demo_env : env := mkEnv (mkDentry (replicate 32 0) 0 0) (demo_file stdin_file_ops_table 0)
  (fun n => replicate (Z.to_nat n) 0) [] [] 0.

Definition demo_esp : Z := TASK_KSTACK_BOT 1 - 64.

(** The images of the examples are checked by evaluation. *)
Ltac check_disk Hmem :=
  split;
  [ exact Hmem | reflexivity | by vm_compute | by vm_compute | by vm_compute
  | intros i Hi; change (0 <= i < 2) in Hi; assert (i = 0 \/ i = 1) as [-> | ->] by lia; by vm_compute
  | intros i k Hi; change (0 <= i < 2) in Hi; unfold BLOCK_SIZE; assert (i = 0 \/ i = 1) as [-> | ->] by lia;
    match goal with |- context [file_size ?m ?g ?i] => let v := eval vm_compute in (file_size m g i) in change (file_size m g i) with v end;
    intros; assert (k = 0) as -> by lia; by vm_compute ].

Lemma demo_image_mem : mem_ok demo_image.
Proof. unfold demo_image. eauto 20 using mem_ok_store_bytes, mem_ok_empty. Qed.

Lemma demo_wf : fs_wf demo_image demo_fs.
Proof. check_disk demo_image_mem. Qed.

Lemma demo_paging_ok : paging_ok 0x402000 0x403000 3 0xB8 demo_paging.
Proof.
  assert (Hi : 0 <= TASK_PAGE_INDEX 1 < 1024) by (unfold TASK_PAGE_INDEX, TASK_START_PAGE; lia).
  destruct (init_page_spec 0x402000 0x403000 blank_paging) as (p & E & H);
    [apply blank_tables|apply length_replicate..|].
  destruct (set_task_page_ok _ _ _ _ 1 p H Hi) as (p' & E' & H'). unfold demo_paging. rewrite E, bind_ret, E'. exact H'.
Qed.

Lemma pid_cases pid : 0 <= pid < MAX_PROC_NUM ->
  pid = 0 \/ pid = 1 \/ pid = 2 \/ pid = 3 \/ pid = 4 \/ pid = 5 \/ pid = 6 \/ pid = 7 \/ pid = 8 \/ pid = 9.
Proof. unfold MAX_PROC_NUM. lia. Qed.

Lemma demo_pcb_at pid : 0 <= pid < MAX_PROC_NUM -> demo_pcbs !! TASK_KSTACK_TOP pid = Some (demo_pcb pid).
Proof. intros H. destruct (pid_cases pid H) as [->|[->|[->|[->|[->|[->|[->|[->|[->| ->]]]]]]]]]; by vm_compute. Qed.

Lemma demo_ok : kernel_ok demo_kernel.
Proof.
  split.
  - apply blank_state_wf, (wf_mem _ _ demo_wf).
  - exists 0x402000, 0x403000, 0xB8. apply demo_paging_ok.
  - intros q. apply mem_ok_empty.
  - split; try done.
    + intros i t. change (time_elasped demo_rtc) with (replicate 10 0). intros [-> _]%lookup_replicate. split; [done|apply Z.divide_0_r].
    + change (registered demo_rtc) with (@nil fptr). constructor.
    + intros fp. change (registered demo_rtc) with (@nil fptr). set_solver.
  - apply demo_wf.
  - split; by vm_compute.
  - split; [done|]. repeat constructor; by (left + right).
  - intros pid H. exists (demo_pcb pid). split; [by apply demo_pcb_at|]. by split.
  - intros pid p H _ E. change (demo_pcbs !! TASK_KSTACK_TOP pid = Some p) in E. rewrite demo_pcb_at in E by done.
    injection E as <-. split; [done|by left].
  - intros fp H. change (rtc_files (k_rtc demo_kernel)) with (replicate 10 (@None fptr)) in H.
    by apply elem_of_replicate in H as [[=] _].
Qed.

Lemma demo_calling : calling demo_env demo_kernel 1 demo_esp.
Proof. split; [apply demo_ok|done..]. Qed.

Lemma demo_name a l : (forall i, (i < length l)%nat -> bget demo_image (a + Z.of_nat i) = l !! i) ->
  Forall (fun c => 0 < c < 256) l -> bget demo_image (a + Z.of_nat (length l)) = Some 0 -> cstr (k_mem demo_kernel) a l.
Proof.
  intros H1 H2 H3. split; [|exact H3]. intros k c E. pose proof (lookup_lt_Some _ _ _ E).
  split; [|by rewrite Forall_lookup in H2; apply (H2 k)]. change (k_mem demo_kernel) with demo_image. by rewrite H1.
Qed.

Ltac demo_string := apply demo_name; [|repeat (apply Forall_cons_2; [lia|]); apply Forall_nil_2|by vm_compute];
  let i := fresh in intros i ?; do 8 (destruct i as [|i]; [first [by vm_compute|simpl in *; lia]|]); simpl in *; lia.

Lemma demo_hi : cstr (k_mem demo_kernel) 0x8100000 [104; 105].
Proof. demo_string. Qed.
Lemma demo_rtc_name : cstr (k_mem demo_kernel) 0x8100010 [114; 116; 99].
Proof. demo_string. Qed.
Lemma demo_command : cstr (k_mem demo_kernel) 0x8100020 [115; 104; 32; 97; 32; 98].
Proof. demo_string. Qed.

Lemma open_correct_witness :
  exists k', syscall_open demo_env demo_esp 0x8100000 demo_kernel = Some (2, k') /\ kernel_ok k'.
Proof.
  assert (D : filetype (dentry_of (k_mem demo_kernel) (k_fs demo_kernel) 2) <> FILE_TYPE_RTC) by (by vm_compute).
  pose proof (open_correct demo_env demo_kernel 1 demo_esp 0x8100000 [104; 105] (demo_pcb 1)
    demo_calling demo_hi (demo_pcb_at 1 ltac:(unfold MAX_PROC_NUM; lia))) as H.
  change (lookup_name demo_kernel [104; 105]) with (Some 2) in H.
  change (lowest_free (demo_pcb 1)) with (Some 2) in H. cbv iota in H.
  rewrite (decide_False (P := filetype (dentry_of (k_mem demo_kernel) (k_fs demo_kernel) 2) = FILE_TYPE_RTC)) in H by exact D.
  eexists. exact H.
Defined.

Lemma open_read_all_witness :
  exists k1 k2, syscall_open demo_env demo_esp 0x8100000 demo_kernel = Some (2, k1) /\
    read_all 6 demo_env demo_esp 2 0x8200000 2 k1 = Some ([72; 101; 108; 108; 111], k2).
Proof.
  destruct (open_read_all demo_env demo_kernel 1 demo_esp 0x8100000 0x8200000 2 [104; 105] (demo_pcb 1) 2 2)
    as (k1 & k2 & E1 & E2 & _).
  - apply demo_calling.
  - apply demo_hi.
  - apply demo_pcb_at. unfold MAX_PROC_NUM. lia.
  - by vm_compute.
  - by vm_compute.
  - by vm_compute.
  - by vm_compute.
  - lia.
  - unfold user_address, TASK_VIRT_PAGE_BEG, TASK_VIRT_PAGE_END. lia.
  - change (S (Z.to_nat _)) with 6%nat in E2. change (file_contents _ _ _) with [72; 101; 108; 108; 111] in E2.
    exists k1, k2. split; [exact E1|exact E2].
Defined.

Lemma bad_descriptors_refused_witness :
  syscall_read demo_env demo_esp 9 0x8200000 4 demo_kernel = Some (-1, demo_kernel) /\
  syscall_write demo_env demo_esp 0 0x8200000 4 demo_kernel = Some (-1, demo_kernel) /\
  syscall_read demo_env demo_esp 1 0x8200000 4 demo_kernel = Some (-1, demo_kernel) /\
  syscall_close demo_env demo_esp 1 demo_kernel = Some (-1, demo_kernel).
Proof.
  pose proof (demo_pcb_at 1 ltac:(unfold MAX_PROC_NUM; lia)) as Ep.
  split; [|split].
  - refine (proj1 (proj1 (bad_descriptors_refused demo_env demo_kernel 1 demo_esp 9 0x8200000 4 (demo_pcb 1) demo_calling Ep) _)).
    left. unfold TASK_MAX_FILES. lia.
  - destruct (bad_descriptors_refused demo_env demo_kernel 1 demo_esp 0 0x8200000 4 (demo_pcb 1) demo_calling Ep) as (_ & _ & _ & H).
    destruct (H (demo_file stdin_file_ops_table 1)) as (H1 & _); [unfold TASK_MAX_FILES; lia|reflexivity|].
    apply H1. right. right. left.
  - destruct (bad_descriptors_refused demo_env demo_kernel 1 demo_esp 1 0x8200000 4 (demo_pcb 1) demo_calling Ep) as (_ & _ & _ & H).
    destruct (H (demo_file stdout_file_ops_table 1)) as (_ & H2 & H3); [unfold TASK_MAX_FILES; lia|reflexivity|].
    split; [by apply H2|apply H3; by right].
Defined.

Lemma open_close_roundtrip_witness :
  exists k1 k2, syscall_open demo_env demo_esp 0x8100010 demo_kernel = Some (2, k1) /\
    syscall_close demo_env demo_esp 2 k1 = Some (0, k2) /\ rtc_files (k_rtc k2) = replicate 10 None.
Proof.
  destruct (open_close_roundtrip demo_env demo_kernel 1 demo_esp 0x8100010 [114; 116; 99] (demo_pcb 1) 1 2)
    as (k1 & k2 & p2 & E1 & E2 & _ & _ & R & _).
  - apply demo_calling.
  - apply demo_rtc_name.
  - apply demo_pcb_at. unfold MAX_PROC_NUM. lia.
  - by vm_compute.
  - by vm_compute.
  - apply list_elem_of_here.
  - exists k1, k2. split; [exact E1|]. split; [exact E2|exact R].
Defined.
