(* ===== verification/Exec.v ===== *)
(** * Running programs: _syscall_execute and _syscall_halt of student-distrib/syscall.c

    Execute parses the command, checks and loads the image of a program into
    the user page of a fresh process and leaves for user mode; halt returns to
    the parent, whose call of execute returns the status. *)
From stdpp Require Import base tactics list numbers gmap option.
From Stdlib Require Import ZArith Lia.
From S2P Require Import Prelude CLib Task FileSys Term TermSys Rtc Page Malloc Syscall.

Open Scope Z_scope.

Definition ELF_ENTRY_OFFSET : Z := 24.

(** The part of [hw_context_t] the C code uses: the registers an interrupt
    pushed on the kernel stack. *)
Record hw_context_t := mkCtx {
  regs : list Z;             (* 10 words *)
  irq_num : Z;
  error : Z;
  ctx_addr : Z;              (* the user instruction pointer *)
  ctx_cs : Z;
  eflags : Z;
  ctx_esp : Z;
  ctx_ds : Z
}.

Definition with_target (addr esp : Z) (c : hw_context_t) : hw_context_t :=
  mkCtx (regs c) (irq_num c) (error c) addr (ctx_cs c) (eflags c) esp (ctx_ds c).

(** ** Execute *)

(** The first unused process number from 1 on. *)
Definition free_pid (used : list Z) : option (option Z) :=
  match for_break 1 MAX_PROC_NUM (fun pid (_ : unit) =>
          match arr_get used pid with
          | None => inr None
          | Some u => if decide (u = 0) then inr (Some pid) else inl tt
          end) tt with
  | inl _ => Some None
  | inr None => None
  | inr (Some pid) => Some (Some pid)
  end.

(** The command line split as the source does: the copy of the command word
    and the copy of the arguments, if there are any.  The characters are
    [int8_t]; the length of the arguments is kept in a [uint8_t]. *)
Definition parse_command (e : env) (m : mem) (command : Z) : option (list Z * option (list Z)) :=
  i ← whileM (fun i => c ← bget m (command + i); Some (if decide (32 < s8 c) then inl (i + 1) else inr i)) 0;
  args ← whileM (fun a => c ← bget m a; Some (if decide (s8 c = 32) then inl (a + 1) else inr a)) (command + i);
  c ← bget m args;
  filename ← strncpy (e_array e (i + 1)) 0 (other m command) (i + 1);
  filename ← bput filename i 0;
  if decide (c = 0) then Some (filename, None)
  else
    n ← strlen m args;
    let arg_len := u8 n in
    copied_args ← strncpy (e_array e (arg_len + 1)) 0 (other m args) (arg_len + 1);
    copied_args ← bput copied_args arg_len 0;
    Some (filename, Some copied_args).

(** [fs_file_read(buf, BUF_SIZE, &f)] into the buffer at [buf]. *)
Definition read_buf (buf : Z) (f : FILE) (k : kernel) : Z * FILE * kernel :=
  let '(n, m, f') := fs_file_read (k_mem k) (k_fs k) buf BUF_SIZE f in (n, f', set_kmem m k).

(** The loop that copies the image, 256 bytes at a time, from [cur] on. *)
Definition load_image (buf read_size : Z) (f : FILE) (k : kernel) : option kernel :=
  m ← memcpy (k_mem k) TASK_IMG_START_ADDR buf read_size;
  whileM (fun '(cur, f, k) =>
    let '(n, f, k) := read_buf buf f k in
    if decide (0 < n) then
      m ← memcpy (k_mem k) cur buf n; Some (inl (u32 (cur + n), f, set_kmem m k))
    else Some (inr k)) (u32 (TASK_IMG_START_ADDR + read_size), f, set_kmem m k).

(** An open descriptor on the terminal. *)
Definition term_file (ops : file_ops_table_t) (f : FILE) : FILE :=
  with_file_ops ops (with_type TASK_FILE_TERM (with_used 1 f)).

Definition setup_files (l : list FILE) : option (list FILE) :=
  f0 ← arr_get l 0;
  l ← arr_set l 0 (term_file stdin_file_ops_table f0);
  f1 ← arr_get l 1;
  l ← arr_set l 1 (term_file stdout_file_ops_table f1);
  for_upM 2 TASK_MAX_FILES (fun i l => f ← arr_get l i; arr_set l i (with_used 0 f)) l.

(** The PCB of the new process from what lay at its address; [parent_of] is
    the value stored in [parent], [ind] the terminal. *)
Definition setup_pcb (pid parent_of ind : Z) (args : option (list Z)) (p : PCB_t) : option PCB_t :=
  files ← setup_files (open_files p);
  handlers ← for_upM 0 SIG_SIZE (fun i l => arr_set l i 0) (signal_handlers p);
  Some (mkPCB files parent_of args (pcb_esp p) (pcb_ebp p) 0 pid ind 1 handlers).

(** [malloc_objs[0]]: a 16-bit word with the used bit lowest. *)
Definition st16 (m : mem) (a v : Z) : mem := st8 (st8 m a v) (u32 (a + 1)) (v / 256).

Definition init_heap (m : mem) : mem :=
  let a := MALLOC_HEAP_MAP_START in
  let m := st16 m a (with_bits 0 1 0 (ld16 m a)) in
  st16 m a (with_bits 1 15 MALLOC_HEAP_SIZE (ld16 m a)).

(** How execute ends: it returns to its caller, or leaves for user mode at an
    entry point with a stack. *)
Inductive exec_result := Return (v : Z) | Enter (entry_addr esp : Z).

(** [_syscall_execute(command, term_ind)] called with the stack pointer [esp]
    and frame pointer [ebp]; [kbuf] is where its local [buf] lies. *)
Definition _syscall_execute (e : env) (esp ebp kbuf command ind : Z) (k : kernel) : option (exec_result * kernel) :=
  pid ← free_pid (pid_used k);
  match pid with
  | None => Some (Return (-1), k)
  | Some pid =>
      '(filename, args) ← parse_command e (k_mem k) command;
      '(r, f) ← fs_open (k_mem k) (k_fs k) (e_dentry e) filename 0 (e_file e);
      if decide (r = -1) then Some (Return (-1), k)
      else
        let '(read_size, f, k) := read_buf kbuf f k in
        let at_ i := ld8 (k_mem k) (u32 (kbuf + i)) in
        if decide (at_ 0 <> 0x7F \/ at_ 1 <> 69 \/ at_ 2 <> 76 \/ at_ 3 <> 70) then Some (Return (-1), k)
        else
          let entry_addr := s32 (ld32 (k_mem k) (u32 (kbuf + ELF_ENTRY_OFFSET))) in
          if decide (entry_addr < TASK_IMG_START_ADDR) then Some (Return (-1), k)
          else
            k ← switch_page pid k;
            k ← load_image kbuf read_size f k;
            let cur_pcb := get_cur_pcb esp in
            let task_pcb := TASK_KSTACK_TOP pid in
            k ← on_pcb cur_pcb (with_saved esp ebp) k;
            cur ← k_pcbs k !! cur_pcb;
            old ← k_pcbs k !! task_pcb;
            let parent_of := if decide (cur_pcb <> TASK_KSTACK_TOP 0 /\ ind = -1) then cur_pcb else 0 in
            let tind := if decide (ind <> -1) then u8 ind else term_ind cur in
            new ← setup_pcb pid parent_of tind args old;
            let k := set_kpcbs (<[task_pcb := new]> (k_pcbs k)) k in
            let k := set_kmem (init_heap (k_mem k)) k in
            k ← set_term_pid (if decide (ind <> -1) then ind else term_ind cur) pid k;
            let k := set_tss (mkTss (TASK_KSTACK_BOT pid) KERNEL_DS) k in
            used ← arr_set (pid_used k) pid 1;
            Some (Enter entry_addr TASK_VIRT_PAGE_END, set_pid_used used k)
  end.

Definition syscall_execute (e : env) (esp ebp kbuf command : Z) (k : kernel) : option (exec_result * kernel) :=
  _syscall_execute e esp ebp kbuf command (-1) k.

(** ** Halt *)

(** How halt ends: a task without a parent goes back to its own entry point
    (the call returns 0 with the context changed); otherwise the parent's
    stack and frame pointers are restored and its execute returns the status. *)
Inductive halt_result := Restarted (c : hw_context_t) | Resumed (esp ebp status : Z).

(** The loop that closes the descriptors from 2 on; results are ignored. *)
Definition close_files (e : env) (task_pcb : Z) (k : kernel) : option kernel :=
  for_upM 2 TASK_MAX_FILES (fun i k =>
    file ← get_file (k_pcbs k) (task_pcb, i);
    if decide (f_used file <> 0) then '(_, k) ← file_close e (task_pcb, i) k; Some k
    else Some k) k.

Definition _syscall_halt (e : env) (esp status : Z) (context : hw_context_t) (k : kernel)
  : option (halt_result * kernel) :=
  let task_pcb := get_cur_pcb esp in
  p ← k_pcbs k !! task_pcb;
  if decide (parent p = 0) then
    let entry_addr := ld32 (k_mem k) (TASK_IMG_START_ADDR + ELF_ENTRY_OFFSET) in
    Some (Restarted (with_target entry_addr TASK_VIRT_PAGE_END context), k)
  else
    k ← close_files e task_pcb k;
    pp ← k_pcbs k !! parent p;
    let ppid := pcb_pid pp in
    p0 ← set_task_page ppid (k_paging k);
    let k := set_tss (mkTss (TASK_KSTACK_BOT ppid) (ss0 (tss k))) (set_paging p0 k) in
    k ← load_cr3 k;
    used ← arr_set (pid_used k) (pcb_pid p) 0;
    let k := set_pid_used used k in
    k ← set_term_pid (term_ind p) ppid k;
    Some (Resumed (pcb_esp pp) (pcb_ebp pp) status, k).

(** [syscall_halt(status)]: the argument is a byte. *)
Definition syscall_halt (e : env) (esp status : Z) (context : hw_context_t) (k : kernel) : option (halt_result * kernel) :=
  _syscall_halt e esp (u8 status) context k.
