(* ===== verification/Process.v ===== *)
(** * Processes: what execute and halt achieve

    The parsing of a command line, the loading of an image, the state of the
    kernel after a program is started, refused or halted. *)
From stdpp Require Import base tactics list numbers gmap option.
From Stdlib Require Import ZArith Lia.
From S2P Require Import Prelude CLib Task FileSys Term TermScreen TermSys Rtc Page Malloc Syscall Exec Fd.

Open Scope Z_scope.

(** ** Command lines *)

(** The longest prefix of characters satisfying [P]. *)
Fixpoint span (P : Z -> Prop) `{forall x, Decision (P x)} (l : list Z) : list Z :=
  match l with
  | c :: l' => if decide (P c) then c :: span P l' else []
  | [] => []
  end.

(** The characters of a command word: above the blank as [int8_t]. *)
Abbreviation in_word := (fun c => 32 < s8 c).
Abbreviation is_blank := (fun c => s8 c = 32).

(** The command word, and the text after it and the blanks that follow. *)
Definition command_word (l : list Z) : list Z := span in_word l.
Definition command_args (l : list Z) : list Z :=
  let rest := drop (length (command_word l)) l in drop (length (span is_blank rest)) rest.

(** The arguments a program sees: their length is kept in one byte. *)
Definition kept_args (a : list Z) : option (list Z) :=
  match a with [] => None | _ => Some (take (Z.to_nat (u8 (Z.of_nat (length a)))) a) end.

Lemma span_length P `{forall x, Decision (P x)} l : (length (span P l) <= length l)%nat.
Proof. induction l as [|c l IH]; simpl; [lia|]. case_decide; simpl; lia. Qed.

Lemma span_lookup P `{forall x, Decision (P x)} l k :
  (k < length (span P l))%nat -> exists c, l !! k = Some c /\ P c.
Proof.
  revert k. induction l as [|c l IH]; intros k; simpl; [lia|]. case_decide; simpl; [|lia].
  destruct k as [|k]; intros Hk; simpl; [eauto|apply IH; lia].
Qed.

Lemma span_end P `{forall x, Decision (P x)} l c : l !! length (span P l) = Some c -> ~ P c.
Proof.
  induction l as [|d l IH]; simpl; [done|]. case_decide; simpl; [exact IH|by intros [= <-]].
Qed.

Lemma span_take P `{forall x, Decision (P x)} l : span P l = take (length (span P l)) l.
Proof. induction l as [|c l IH]; simpl; [done|]. case_decide; simpl; [by f_equal|done]. Qed.

Section Strings.
Context {B : Type} `{CBufLaws B}.

Lemma cstr_drop (b : B) s l n : (n <= length l)%nat -> cstr b s l -> cstr b (s + Z.of_nat n) (drop n l).
Proof.
  intros Hn [Hl He]. split.
  - intros k c E. rewrite lookup_drop in E. destruct (Hl _ _ E) as [E' R]. split; [|done].
    rewrite <- E'. f_equal. lia.
  - rewrite <- He. f_equal. rewrite length_drop. lia.
Qed.

Lemma cstr_bound (b : B) s l : cstr b s l -> bcap b <= 4294967296 -> 0 <= s + Z.of_nat (length l) < 4294967296.
Proof. intros [_ He] Hc. pose proof (bget_bound b _ _ He). lia. Qed.

(** A loop that walks a string while a test holds. *)
Lemma scan_spec P `{forall x, Decision (P x)} (b : B) base s l :
  cstr b (base + s) l -> ~ P 0 -> Z.of_nat (length l) < 4294967296 ->
  whileM (fun i => c ← bget b (base + i); Some (if decide (P c) then inl (i + 1) else inr i)) s
  = Some (s + Z.of_nat (length (span P l))).
Proof.
  intros [Hl He] HP0 Hlen. pose proof (span_length P l) as Hs.
  destruct (whileM_total (fun i => s <= i <= s + Z.of_nat (length (span P l))) (fun i => s + Z.of_nat (length (span P l)) - i)
    (fun r => r = s + Z.of_nat (length (span P l)))
    (fun i => c ← bget b (base + i); Some (if decide (P c) then inl (i + 1) else inr i)) s) as (r & -> & ->);
    [|lia|unfold FUEL; lia|done].
  intros i Hi. set (k := Z.to_nat (i - s)).
  destruct (decide (k < length (span P l))%nat) as [Hk|Hk].
  - destruct (span_lookup P l k Hk) as (c & E & Hc). destruct (Hl _ _ E) as [E' _].
    replace (base + i) with (base + s + Z.of_nat k) by lia. rewrite E', bind_ret, decide_True by done. lia.
  - assert (i = s + Z.of_nat (length (span P l))) as -> by lia.
    destruct (l !! length (span P l)) as [c|] eqn:E.
    + destruct (Hl _ _ E) as [E' _]. rewrite Z.add_assoc, E', bind_ret, decide_False; [done|by eapply span_end].
    + apply lookup_ge_None in E. replace (length (span P l)) with (length l) by lia.
      rewrite Z.add_assoc, He, bind_ret, decide_False by done. done.
Qed.
End Strings.

(** The first [i] characters of a string copied into an array of [i + 1]. *)
Lemma copy_prefix (m : mem) src l (buf : list Z) i :
  cstr m src l -> 0 <= i <= Z.of_nat (length l) -> Z.of_nat (length buf) = i + 1 -> i + 1 < 4294967296 ->
  exists b, strncpy buf 0 (other m src) (i + 1) = Some b /\ bput b i 0 = Some (take (Z.to_nat i) l ++ [0]).
Proof.
  intros Hl Hi Hbuf Hn. assert (Hend : src + Z.of_nat (length l) < 4294967296) by (apply (cstr_bound m _ _ Hl); simpl; lia).
  assert (Hr : Forall (fun c => 0 < c < 256) l).
  { apply Forall_lookup. intros k c E. by destruct (proj1 Hl _ _ E). }
  assert (H0 : 0 <= src).
  { destruct Hl as [Hl He]. destruct l as [|c l]; [apply bget_bound in He; simpl in He; lia|].
    destruct (Hl O c eq_refl) as [E _]. apply bget_bound in E. lia. }
  destruct (strncpy_spec buf 0 (other m src) (i + 1) l) as (b & E & W); [lia|lia|simpl; lia|done| |].
  - intros b _. unfold other. split.
    + intros j Hj Hj'. by apply cstr_at.
    + intros Hn2. apply bget_in. simpl. lia.
  - exists b. split; [exact E|]. apply written_list in W; [|lia]. subst b. unfold strncpy_bytes.
    cbn [bput arr_buf]. rewrite u8_small by lia. rewrite arr_set_Some.
    2:{ rewrite length_app, length_take, length_replicate. lia. }
    f_equal. apply list_eq. intros k. destruct (decide (k < Z.to_nat i)%nat).
    + rewrite list_lookup_insert_ne by lia. rewrite !lookup_app_l by (rewrite length_take; lia).
      by rewrite !lookup_take_lt by lia.
    + destruct (decide (k = Z.to_nat i)) as [->|].
      * rewrite list_lookup_insert_eq by (rewrite length_app, length_take, length_replicate; lia).
        rewrite lookup_app_r by (rewrite length_take; lia).
        by replace (Z.to_nat i - length (take (Z.to_nat i) l))%nat with O by (rewrite length_take; lia).
      * rewrite !lookup_ge_None_2; [done|..]; rewrite ?length_insert, length_app, length_take, ?length_replicate; simpl; lia.
Qed.

(** An environment whose local variables are objects of the right sizes. *)
Record env_ok (e : env) : Prop := {
  eo_dentry : length (filename (e_dentry e)) = 32%nat;
  eo_array : forall n, 0 <= n -> Z.of_nat (length (e_array e n)) = n
}.

(** The copies of the command word and of the arguments. *)
Lemma parse_command_spec e m command l :
  env_ok e -> cstr m command l -> Z.of_nat (length l) < 4294967295 ->
  parse_command e m command =
    Some (command_word l ++ [0], (fun a => a ++ [0]) <$> kept_args (command_args l)).
Proof.
  intros He Hl Hlen. pose proof (span_length in_word l) as Hw. unfold parse_command.
  pose proof (cstr_bound m _ _ Hl ltac:(simpl; lia)) as Hb.
  pose proof (scan_spec in_word m command 0 l) as S1. rewrite Z.add_0_r, Z.add_0_l in S1.
  rewrite S1 by (done || lia). clear S1. rewrite bind_ret.
  fold (command_word l). fold (command_word l) in Hw. set (i := length (command_word l)) in *.
  pose proof (cstr_drop m command l i Hw Hl) as Hrest. set (rest := drop i l) in *.
  assert (Hrl : (length rest <= length l)%nat) by (subst rest; rewrite length_drop; lia).
  pose proof (scan_spec is_blank m 0 (command + Z.of_nat i) rest Hrest ltac:(done) ltac:(lia)) as S2.
  cbv beta in S2. change (fun i0 : Z => bget m (0 + i0) ≫= @?f i0) with (fun i0 : Z => bget m i0 ≫= f i0) in S2.
  cbv beta in S2. rewrite S2, bind_ret. clear S2.
  pose proof (cstr_drop m _ rest (length (span is_blank rest)) (span_length _ _) Hrest) as Hargs.
  change (drop (length (span is_blank rest)) rest) with (command_args l) in Hargs.
  set (args := command + Z.of_nat i + Z.of_nat (length (span is_blank rest))) in *.
  assert (Hal : (length (command_args l) <= length l)%nat).
  { unfold command_args. rewrite !length_drop. lia. }
  pose proof (cstr_at m args (command_args l) 0 Hargs ltac:(lia)) as Hc. rewrite Z.add_0_r in Hc. rewrite Hc, bind_ret.
  destruct (copy_prefix m command l (e_array e (Z.of_nat i + 1)) (Z.of_nat i) Hl) as (b & -> & Eb);
    [lia|apply (eo_array _ He); lia|lia|].
  rewrite bind_ret, Eb, bind_ret, Nat2Z.id.
  replace (take i l) with (command_word l) by apply span_take.
  destruct (command_args l) as [|a al] eqn:Ea; [done|]. cbn [lookup list_lookup Z.to_nat default].
  assert (0 < a < 256) by (by destruct (proj1 Hargs O a eq_refl)).
  change (default 0 ((a :: al) !! 0%nat)) with a. rewrite (decide_False (P := a = 0)) by lia.
  rewrite (strlen_spec m args (a :: al)) by (done || lia). rewrite bind_ret. cbv zeta.
  pose proof (u8_range (Z.of_nat (length (a :: al)))) as Hu. set (n := u8 _) in *.
  assert (Hnl : n <= Z.of_nat (length (a :: al))) by (subst n; unfold u8; apply Z.mod_le; simpl; lia).
  destruct (copy_prefix m args (a :: al) (e_array e (n + 1)) n Hargs) as (b' & -> & Eb');
    [lia|apply (eo_array _ He); lia|lia|].
  rewrite bind_ret, Eb', bind_ret. done.
Qed.

(** ** Loading an image *)

(** Memory with the image kept has the same image. *)
Lemma kept_image m g (Hwf : fs_wf m g) mi a : image_kept m g mi -> in_image m g a <-> in_image mi g a.
Proof.
  intros HK. destruct (counts_kept _ _ Hwf _ HK) as [E1 E2]. unfold in_image, image_size. by rewrite E1, E2.
Qed.

Section Load.
Context (m0 : mem) (g : fs_globals) (ino kbuf : Z).
Context (Hwf : fs_wf m0 g) (Himg : 0x400000 <= bblock_ptr g /\ bblock_ptr g + image_size m0 g <= KSTACKS).
Context (Hino : 0 <= ino < inode_count m0 g) (Hsize : TASK_IMG_START_ADDR + file_size m0 g ino <= TASK_VIRT_PAGE_END).
Context (Hkbuf : KSTACKS <= kbuf /\ kbuf + BUF_SIZE <= 0x800000).

Definition in_kbuf (x : Z) : Prop := kbuf <= x < kbuf + BUF_SIZE.
Abbreviation size := (file_size m0 g ino).

(** What lies outside the image of the file system. *)
Lemma outside x : (in_kbuf x \/ user_address x) -> ~ in_image m0 g x.
Proof.
  unfold in_kbuf, user_address, in_image, KSTACKS, MAX_PROC_NUM, TASK_KSTACK_TOP, BUF_SIZE, TASK_VIRT_PAGE_BEG, TASK_VIRT_PAGE_END in *.
  lia.
Qed.

Lemma kept_outside mi m : image_kept m0 g mi -> (forall x, ~ in_kbuf x -> ~ user_address x -> ld8 m x = ld8 mi x) ->
  image_kept m0 g m.
Proof.
  intros HK Hm x Hx. rewrite Hm; [by apply HK|intros H; by apply (outside x (or_introl H))|intros H; by apply (outside x (or_intror H))].
Qed.

(** One read of the loader. *)
Lemma read_buf_spec k f :
  k_fs k = g -> mem_ok (k_mem k) -> image_kept m0 g (k_mem k) -> f_inode f = ino -> 0 <= f_pos f <= size ->
  let n := Z.min BUF_SIZE (size - f_pos f) in
  exists m, read_buf kbuf f k = (n, with_pos (f_pos f + n) f, set_kmem m k) /\ mem_ok m /\
    forall x, ld8 m x = if decide (kbuf <= x < kbuf + n) then file_byte m0 g ino (f_pos f + (x - kbuf)) else ld8 (k_mem k) x.
Proof.
  intros Hg Hm HK Hf Hpos n. pose proof (wf_size _ _ Hwf _ Hino) as Hs. unfold BLOCK_SIZE, MAX_BLOCK_NUM in Hs.
  pose proof (fs_wf_kept _ _ Hwf _ HK Hm) as Hwf'. destruct (counts_kept _ _ Hwf _ HK) as [Ec _].
  unfold KSTACKS, MAX_PROC_NUM, TASK_KSTACK_TOP, BUF_SIZE in *.
  assert (Er : read_len (k_mem k) g ino (f_pos f) 256 = n).
  { rewrite (read_len_kept _ _ Hwf _ _ _ _ HK). unfold read_len. rewrite decide_True by done. lia. }
  destruct (read_data_all _ _ Hwf' ino (f_pos f) kbuf 256) as (m & E & Hx); rewrite ?Er; try lia.
  { intros a Ha. rewrite <- (kept_image m0 g Hwf _ a HK). apply outside. left. unfold in_kbuf, BUF_SIZE. lia. }
  rewrite Er in E, Hx. exists m. split.
  - unfold read_buf, fs_file_read. rewrite Hg, Hf, (u32_small (f_pos f)) by lia. unfold BUF_SIZE. rewrite E.
    by rewrite s32_small by lia.
  - assert (Hb : forall x, kbuf <= x < kbuf + n ->
        file_byte (k_mem k) g ino (f_pos f + (x - kbuf)) = file_byte m0 g ino (f_pos f + (x - kbuf))).
    { intros x Hx'. apply file_byte_kept; [done..|lia]. }
    split.
    + intros a. rewrite Hx. case_decide; [unfold file_byte|]; apply Hm.
    + intros x. rewrite Hx. case_decide as D; [by apply Hb|done].
Qed.

(** The first [pos] bytes of the file at the load address; the loader's buffer
    may hold anything. *)
Definition loaded (m1 m : mem) (pos : Z) : Prop :=
  mem_ok m /\
  forall x, ~ in_kbuf x ->
    ld8 m x = if decide (TASK_IMG_START_ADDR <= x < TASK_IMG_START_ADDR + pos)
              then file_byte m0 g ino (x - TASK_IMG_START_ADDR) else ld8 m1 x.

Lemma loaded_kept m1 m pos : image_kept m0 g m1 -> 0 <= pos <= size -> loaded m1 m pos -> image_kept m0 g m.
Proof.
  intros HK Hp [_ Hx]. apply (kept_outside m1); [done|]. intros x H1 H2. rewrite Hx, decide_False; [done| |done].
  unfold user_address, TASK_IMG_START_ADDR, TASK_VIRT_PAGE_BEG, TASK_VIRT_PAGE_END in *. lia.
Qed.

(** The bytes just read are copied behind those loaded before. *)
Lemma copy_chunk m1 m pos n :
  loaded m1 m pos -> 0 <= pos -> 0 <= n <= BUF_SIZE -> pos + n <= size ->
  (forall x, kbuf <= x < kbuf + n -> ld8 m x = file_byte m0 g ino (pos + (x - kbuf))) ->
  exists m', memcpy m (TASK_IMG_START_ADDR + pos) kbuf n = Some m' /\ loaded m1 m' (pos + n).
Proof.
  intros [Hm Hx] Hp Hn Hpn Hb.
  unfold in_kbuf, TASK_IMG_START_ADDR, TASK_VIRT_PAGE_END, KSTACKS, MAX_PROC_NUM, TASK_KSTACK_TOP, BUF_SIZE in *.
  destruct (memcpy_spec m (0x8048000 + pos) kbuf n Hm) as (m' & E & C); [lia..|]. exists m'. split; [exact E|].
  split; [by apply (copied_ok _ _ _ _ _ Hm C)|]. intros x Hk. rewrite C.
  destruct (decide (0x8048000 + pos <= x < 0x8048000 + pos + n)).
  - rewrite Hb by lia. unfold TASK_IMG_START_ADDR. rewrite decide_True by lia. f_equal. lia.
  - rewrite Hx by (unfold in_kbuf, BUF_SIZE in Hk; lia). unfold TASK_IMG_START_ADDR. by repeat case_decide; try lia.
Qed.

Lemma load_image_spec k1 f :
  k_fs k1 = g -> mem_ok (k_mem k1) -> image_kept m0 g (k_mem k1) -> f_inode f = ino ->
  f_pos f = Z.min BUF_SIZE size -> 
  (forall x, kbuf <= x < kbuf + f_pos f -> ld8 (k_mem k1) x = file_byte m0 g ino (x - kbuf)) ->
  exists m, load_image kbuf (f_pos f) f k1 = Some (set_kmem m k1) /\ loaded (k_mem k1) m size.
Proof.
  intros Hg Hm HK Hf Hpos Hb. assert (H0 : 0 <= size) by apply ld32_range, Hwf.
  pose proof (wf_size _ _ Hwf _ Hino) as Hs. unfold BLOCK_SIZE, MAX_BLOCK_NUM in Hs.
  assert (Hinit : loaded (k_mem k1) (k_mem k1) 0).
  { split; [done|]. intros x _. by rewrite decide_False by lia. }
  destruct (copy_chunk (k_mem k1) (k_mem k1) 0 (f_pos f) Hinit) as (m & E & L); [lia|unfold BUF_SIZE in *; lia|lia| |].
  { intros x Hx. by rewrite Hb. }
  unfold load_image. rewrite Z.add_0_r in E. rewrite E, bind_ret. rewrite Z.add_0_l in L.
  destruct (whileM_total
    (fun '(cur, f, k) => exists m, k = set_kmem m k1 /\ loaded (k_mem k1) m (f_pos f) /\ f_inode f = ino /\
       0 <= f_pos f <= size /\ cur = TASK_IMG_START_ADDR + f_pos f)
    (fun '(_, f, _) => size - f_pos f)
    (fun k => exists m, k = set_kmem m k1 /\ loaded (k_mem k1) m size)
    (fun '(cur, f, k) =>
      let '(n, f, k) := read_buf kbuf f k in
      if decide (0 < n) then
        m ← memcpy (k_mem k) cur kbuf n; Some (inl (u32 (cur + n), f, set_kmem m k))
      else Some (inr k)) (u32 (TASK_IMG_START_ADDR + f_pos f), f, set_kmem m k1)) as (k & E' & m' & -> & L').
  - intros [[cur f'] k] (m' & -> & L' & Hf' & Hp' & ->).
    pose proof (loaded_kept _ _ _ HK Hp' L') as HK'.
    destruct (read_buf_spec (set_kmem m' k1) f' Hg (proj1 L') HK' Hf' Hp') as (m2 & E2 & Hm2 & Hx2).
    rewrite E2. set (n := Z.min BUF_SIZE (size - f_pos f')) in *.
    assert (L2 : loaded (k_mem k1) m2 (f_pos f')).
    { split; [done|]. intros x Hk. rewrite Hx2, decide_False by (unfold in_kbuf in Hk; unfold BUF_SIZE in *; lia). by apply L'. }
    destruct (decide (0 < n)) as [D|D].
    + destruct (copy_chunk (k_mem k1) m2 (f_pos f') n L2) as (m3 & E3 & L3); [lia|lia|lia| |].
      { intros x Hx. by rewrite Hx2, decide_True. }
      change (k_mem (set_kmem m2 (set_kmem m' k1))) with m2. rewrite E3, bind_ret.
      split; [|cbn [f_pos with_pos]; lia]. exists m3. cbn [f_pos f_inode with_pos]. split; [done|]. split; [exact L3|].
      split; [done|]. split; [lia|]. unfold TASK_IMG_START_ADDR, TASK_VIRT_PAGE_END in *. rewrite u32_small by lia. lia.
    + exists m2. split; [done|]. replace size with (f_pos f'); [exact L2|unfold BUF_SIZE in *; lia].
  - exists m. split; [done|]. split; [exact L|]. split; [done|]. split; [unfold BUF_SIZE in *; lia|].
    unfold TASK_IMG_START_ADDR, TASK_VIRT_PAGE_END, BUF_SIZE in *. by rewrite u32_small by lia.
  - unfold FUEL, BUF_SIZE in *. lia.
  - exists m'. split; [exact E'|exact L'].
Qed.
End Load.

(** ** Process numbers and PCBs *)

Definition pid_free (used : list Z) (pid : Z) : Prop := arr_get used pid = Some 0.
#[export] Instance pid_free_dec used pid : Decision (pid_free used pid).
Proof. unfold pid_free. apply _. Defined.

(** The process number execute takes: the lowest free one from 1 on. *)
Definition lowest_pid (used : list Z) : option Z := head (filter (pid_free used) (seqZ 1 9)).

Lemma free_pid_spec used : length used = Z.to_nat MAX_PROC_NUM -> free_pid used = Some (lowest_pid used).
Proof.
  intros Hl. unfold free_pid, lowest_pid, for_break. change (MAX_PROC_NUM - 1) with 9.
  rewrite (fold_break_find (pid_free used) Some).
  - by destruct (head _).
  - intros i Hi. apply elem_of_seqZ in Hi.
    destruct (arr_get_Some used i) as (u & E & _); [unfold MAX_PROC_NUM in *; lia|].
    destruct (decide (pid_free used i)) as [D|D]; unfold pid_free in D; rewrite E in D |- *.
    + rewrite decide_True by congruence. done.
    + rewrite decide_False by congruence. done.
Qed.

Lemma lowest_pid_in used pid : lowest_pid used = Some pid -> 1 <= pid < MAX_PROC_NUM /\ pid_free used pid.
Proof.
  unfold lowest_pid. intros E. destruct (filter (pid_free used) (seqZ 1 9)) as [|x l] eqn:El; [done|].
  injection E as ->. assert (Hin : pid ∈ filter (pid_free used) (seqZ 1 9)) by (rewrite El; set_solver).
  apply list_elem_of_filter in Hin as [Hf Hin]. apply elem_of_seqZ in Hin. unfold MAX_PROC_NUM. split; [lia|done].
Qed.

(** The descriptors of a new process. *)
Definition new_files (l : list FILE) : list FILE :=
  imap (fun i f => if decide (i = O) then term_file stdin_file_ops_table f
                   else if decide (i = 1%nat) then term_file stdout_file_ops_table f else with_used 0 f) l.

Definition new_pcb (pid parent_of ind : Z) (args : option (list Z)) (p : PCB_t) : PCB_t :=
  mkPCB (new_files (open_files p)) parent_of args (pcb_esp p) (pcb_ebp p) 0 pid ind 1 (replicate 5 0).

Lemma setup_pcb_spec pid parent_of ind args p :
  pcb_ok p -> setup_pcb pid parent_of ind args p = Some (new_pcb pid parent_of ind args p).
Proof.
  intros [Hf Hh _]. unfold setup_pcb, new_pcb. destruct p as [fs par ca esp ebp sg pd ti mc hs]. cbn [open_files signal_handlers pcb_esp pcb_ebp] in *.
  destruct fs as [|f0 [|f1 [|f2 [|f3 [|f4 [|f5 [|f6 [|f7 [|? ?]]]]]]]]]; try done.
  destruct hs as [|h0 [|h1 [|h2 [|h3 [|h4 [|? ?]]]]]]; done.
Qed.

Lemma new_files_lookup l i f : arr_get l i = Some f ->
  arr_get (new_files l) i = Some (if decide (i = 0) then term_file stdin_file_ops_table f
                                  else if decide (i = 1) then term_file stdout_file_ops_table f else with_used 0 f).
Proof.
  unfold arr_get. case_decide; [|done]. intros E. unfold new_files. rewrite list_lookup_imap, E. cbn.
  repeat case_decide; try done; lia.
Qed.

Lemma new_pcb_ok pid parent_of ind args p : pcb_ok p -> 0 <= ind < TERM_NUM -> pcb_ok (new_pcb pid parent_of ind args p).
Proof. intros [Hf _ _] Hi. split; [|done|done]. cbn. unfold new_files. by rewrite length_imap. Qed.

(** ** The heap of a new process *)

(** The map of objects as it lies in memory. *)
Definition read_obj (m : mem) (i : Z) : malloc_obj_t :=
  let w := ld16 m (MALLOC_HEAP_MAP_START + 2 * i) in mkObj (bits 0 1 w) (bits 1 15 w).
Definition read_heap (m : mem) : list malloc_obj_t := map (read_obj m) (seqZ 0 MALLOC_OBJ_NUM).

Lemma bits_u16 sh w v : 0 <= sh -> 0 <= w -> sh + w <= 16 -> bits sh w (u16 v) = bits sh w v.
Proof.
  intros Hs Hw Hsw. apply Z.bits_inj'. intros i Hi. rewrite !bits_testbit by lia.
  destruct (Z.ltb_spec i w); [|done]. unfold u16. change 65536 with (2 ^ 16).
  by rewrite Z.mod_pow2_bits_low by lia.
Qed.

Lemma ld16_st16 m a v : 0 <= a < 4294967295 -> ld16 (st16 m a v) a = u16 v.
Proof.
  intros Ha. unfold ld16, st16. rewrite !(u32_small (a + 1)) by lia.
  rewrite ld8_st8_eq, ld8_st8_ne, ld8_st8_eq by lia. wrap_lia.
Qed.

Lemma init_heap_other m x :
  x <> MALLOC_HEAP_MAP_START -> x <> MALLOC_HEAP_MAP_START + 1 -> ld8 (init_heap m) x = ld8 m x.
Proof.
  intros H1 H2. unfold init_heap, st16. cbv zeta. rewrite !(u32_small (MALLOC_HEAP_MAP_START + 1)) by (by vm_compute).
  by rewrite !ld8_st8_ne.
Qed.

Lemma mem_ok_init_heap m : mem_ok m -> mem_ok (init_heap m).
Proof. intros H. unfold init_heap, st16. auto with kern. Qed.

(** A single free object of the whole heap. *)
Lemma init_heap_ok m : heap_ok (read_heap (init_heap m), 1).
Proof.
  assert (Hl : length (read_heap (init_heap m)) = Z.to_nat MALLOC_OBJ_NUM).
  { unfold read_heap. by rewrite length_map, length_seqZ. }
  assert (H0 : read_obj (init_heap m) 0 = mkObj 0 MALLOC_HEAP_SIZE).
  { unfold read_obj. rewrite Z.mul_0_r, Z.add_0_r. unfold init_heap. cbv zeta.
    assert (Ha : 0 <= MALLOC_HEAP_MAP_START < 4294967295) by (by vm_compute).
    rewrite !ld16_st16 by done. rewrite !bits_u16 by lia.
    rewrite (bits_set_same _ 1 15) by (by vm_compute). rewrite bits_set_other by lia. rewrite bits_u16 by lia.
    by rewrite bits_set_same by lia. }
  assert (Hb : blocks (read_heap (init_heap m), 1) = [mkObj 0 MALLOC_HEAP_SIZE]).
  { unfold blocks, read_heap. cbn [fst snd]. change (Z.to_nat 1) with 1%nat. rewrite seqZ_cons by done.
    cbn [map take]. by rewrite H0. }
  split; rewrite ?Hb; [exact Hl|cbn; unfold MALLOC_OBJ_NUM; lia| | |by vm_compute];
    apply Forall_singleton; [by left|by vm_compute].
Qed.

(** ** Programs *)

(** Byte [i] of a file, and its word at [i]. *)
Definition byte_at (data : list Z) (i : nat) : Z := default 0 (data !! i).
Definition word_at (data : list Z) (i : nat) : Z :=
  byte_at data i + 256 * byte_at data (i + 1) + 65536 * byte_at data (i + 2) + 16777216 * byte_at data (i + 3).

Definition elf_magic (data : list Z) : Prop := take 4 data = [0x7F; 69; 76; 70].
Definition elf_entry (data : list Z) : Z := s32 (word_at data 24).

(** A program the kernel accepts and that fits the user page. *)
Record loadable (data : list Z) : Prop := {
  ld_header : (28 <= length data)%nat;
  ld_magic : elf_magic data;
  ld_entry : TASK_IMG_START_ADDR <= elf_entry data;
  ld_fits : TASK_IMG_START_ADDR + Z.of_nat (length data) <= TASK_VIRT_PAGE_END
}.

Lemma file_contents_length m g i : mem_ok m -> Z.of_nat (length (file_contents m g i)) = file_size m g i.
Proof.
  intros Hm. unfold file_contents, file_slice. rewrite length_map, length_seqZ.
  pose proof (ld32_range m (inode_addr g i) Hm). unfold file_size. lia.
Qed.

Lemma file_contents_byte m g i j :
  0 <= Z.of_nat j < file_size m g i -> byte_at (file_contents m g i) j = file_byte m g i (Z.of_nat j).
Proof.
  intros Hj. unfold byte_at, file_contents, file_slice. change (map ?f ?l) with (f <$> l).
  rewrite list_lookup_fmap, lookup_seqZ_lt by lia. done.
Qed.

Lemma magic_bytes data : (4 <= length data)%nat ->
  elf_magic data <-> byte_at data 0 = 0x7F /\ byte_at data 1 = 69 /\ byte_at data 2 = 76 /\ byte_at data 3 = 70.
Proof.
  intros Hl. unfold elf_magic, byte_at. destruct data as [|a [|b [|c [|d l]]]]; simpl in Hl; try lia. cbn.
  split; [intros H; injection H; intros; subst; done|intros (E1 & E2 & E3 & E4); subst; done].
Qed.

(** A read of the loader's buffer after the first piece of the file. *)
Lemma header_byte m m0 g ino kbuf j :
  (forall x, ld8 m x = if decide (kbuf <= x < kbuf + Z.min BUF_SIZE (file_size m0 g ino))
                       then file_byte m0 g ino (x - kbuf) else ld8 m0 x) ->
  0 <= kbuf -> kbuf + BUF_SIZE <= 4294967296 -> (j < length (file_contents m0 g ino))%nat -> (j < 28)%nat -> mem_ok m0 ->
  ld8 m (u32 (kbuf + Z.of_nat j)) = byte_at (file_contents m0 g ino) j.
Proof.
  intros Hx Hk Hk2 Hj Hj2 Hm. pose proof (file_contents_length m0 g ino Hm). unfold BUF_SIZE in *.
  rewrite u32_small by lia. rewrite Hx, decide_True by lia. rewrite file_contents_byte by lia. f_equal. lia.
Qed.

Lemma header_word m data kbuf :
  (forall j, (j < 28)%nat -> ld8 m (u32 (kbuf + Z.of_nat j)) = byte_at data j) -> 0 <= kbuf -> kbuf + 256 <= 4294967296 ->
  ld32 m (u32 (kbuf + ELF_ENTRY_OFFSET)) = word_at data 24.
Proof.
  intros Hj H1 H2. unfold ld32, word_at, ELF_ENTRY_OFFSET.
  pose proof (Hj 24%nat ltac:(lia)) as E0. pose proof (Hj 25%nat ltac:(lia)) as E1.
  pose proof (Hj 26%nat ltac:(lia)) as E2. pose proof (Hj 27%nat ltac:(lia)) as E3.
  clear Hj. rewrite u32_small in E0, E1, E2, E3 by lia. rewrite (u32_small (kbuf + 24)) by lia.
  rewrite (u32_small (kbuf + 24 + 1)), (u32_small (kbuf + 24 + 2)), (u32_small (kbuf + 24 + 3)) by lia.
  change (24 + 1)%nat with 25%nat. change (24 + 2)%nat with 26%nat. change (24 + 3)%nat with 27%nat.
  rewrite <- E0, <- E1, <- E2, <- E3.
  replace (kbuf + 24 + 1) with (kbuf + Z.of_nat 25) by lia. replace (kbuf + 24 + 2) with (kbuf + Z.of_nat 26) by lia.
  replace (kbuf + 24 + 3) with (kbuf + Z.of_nat 27) by lia. by replace (kbuf + 24) with (kbuf + Z.of_nat 24) by lia.
Qed.

(** *** Loading into the user page of a process *)
Section Load2.
Context (k : kernel) (ino kbuf pid : Z) (f : FILE) (vt ut vp : Z).
Context (Hk : kernel_ok k) (Hpid : 0 <= pid < MAX_PROC_NUM).
Context (Hp : paging_ok vt ut (k_mapped k) vp (k_paging k)).
Abbreviation m0 := (k_mem k).
Abbreviation g := (k_fs k).
Abbreviation data := (file_contents m0 g ino).
Context (Hino : 0 <= ino < inode_count m0 g) (Hsize : TASK_IMG_START_ADDR + file_size m0 g ino <= TASK_VIRT_PAGE_END).
Context (Hkbuf : KSTACKS <= kbuf /\ kbuf + BUF_SIZE <= 0x800000) (Hf : f_inode f = ino) (Hf0 : f_pos f = 0).

(** The first piece, in the loader's buffer. *)
Lemma first_read :
  let n := Z.min BUF_SIZE (file_size m0 g ino) in
  exists m, read_buf kbuf f k = (n, with_pos n f, set_kmem m k) /\ mem_ok m /\ image_kept m0 g m /\
    forall x, ld8 m x = if decide (kbuf <= x < kbuf + n) then file_byte m0 g ino (x - kbuf) else ld8 m0 x.
Proof.
  intros n. pose proof (ko_fs _ Hk) as Hwf. pose proof (wf_mem _ _ Hwf) as Hm.
  assert (0 <= file_size m0 g ino) by (by apply ld32_range).
  destruct (read_buf_spec m0 g ino kbuf Hwf (ko_image _ Hk) Hino Hkbuf k f) as (m & E & Hmk & Hx);
    [done|done|by intros ? ?|done|lia|].
  rewrite Hf0, Z.sub_0_r in E, Hx. rewrite Z.add_0_l in E. exists m. split; [exact E|]. split; [done|]. split.
  - apply (kept_outside m0 g kbuf (ko_image _ Hk) Hkbuf m0); [by intros ? ?|].
    intros x Hxk _. rewrite Hx, decide_False; [done|]. unfold in_kbuf, BUF_SIZE in *. lia.
  - exact Hx.
Qed.

(** The whole image in the user page of the process. *)
Record image_in_page (p : paging) (m : mem) (ps : gmap Z mem) : Prop := {
  ip_ok : mem_ok m;
  ip_pages : forall q, mem_ok (default ∅ (ps !! q));
  ip_image : load_bytes m TASK_IMG_START_ADDR (Z.of_nat (length data)) = data;
  ip_kernel : forall a, ~ user_address a -> ~ in_kbuf kbuf a -> ld8 m a = ld8 m0 a;
  ip_others : forall q a, q <> TASK_PAGE_INDEX pid -> user_address a -> ld8 (default ∅ (ps !! q)) a = page_byte k q a;
  ip_paging : paging_ok vt ut (TASK_PAGE_INDEX pid) vp p
}.

Lemma load_program m n :
  n = Z.min BUF_SIZE (file_size m0 g ino) -> mem_ok m -> image_kept m0 g m ->
  (forall x, ld8 m x = if decide (kbuf <= x < kbuf + n) then file_byte m0 g ino (x - kbuf) else ld8 m0 x) ->
  exists p m' ps, (k1 ← switch_page pid (set_kmem m k); load_image kbuf n (with_pos n f) k1)
      = Some (with_memory m' (TASK_PAGE_INDEX pid) ps (set_paging p k)) /\
    image_in_page p m' ps.
Proof.
  intros Hn Hm HK Hx. pose proof (ko_fs _ Hk) as Hwf.
  destruct (switch_page_spec vt ut vp (set_kmem m k) pid Hp Hpid) as (p & E & _ & Hp').
  rewrite E, bind_ret. set (k1 := map_page (TASK_PAGE_INDEX pid) (set_paging p (set_kmem m k))).
  destruct (map_page_eq (TASK_PAGE_INDEX pid) (set_paging p (set_kmem m k))) as (mm & ps & Eq). fold k1 in Eq.
  destruct (map_page_ok (TASK_PAGE_INDEX pid) (set_paging p (set_kmem m k)) Hm (ko_pages _ Hk)) as [Hm1 Hps]. fold k1 in Hm1, Hps.
  assert (Hmem1 : forall a, ~ user_address a -> ld8 (k_mem k1) a = ld8 m a).
  { intros a Ha. subst k1. by rewrite map_page_mem, decide_False. }
  assert (Hnu : forall a, KSTACKS <= a < 0x800000 -> ~ user_address a).
  { unfold user_address, TASK_VIRT_PAGE_BEG. lia. }
  assert (0 <= file_size m0 g ino) by apply ld32_range, Hwf.
  destruct (load_image_spec m0 g ino kbuf Hwf (ko_image _ Hk) Hino Hsize Hkbuf k1 (with_pos n f)) as (m' & E' & L).
  - by rewrite Eq.
  - done.
  - apply (kept_outside m0 g kbuf (ko_image _ Hk) Hkbuf m); [done|]. intros x _ Hu. by apply Hmem1.
  - done.
  - done.
  - cbn [f_pos with_pos]. intros x Hxk. rewrite Hmem1 by (apply Hnu; unfold BUF_SIZE in *; lia). by rewrite Hx, decide_True.
  - cbn [f_pos with_pos] in E'. exists p, m', ps. split.
    + rewrite E'. by rewrite Eq.
    + assert (Hps' : k_pages k1 = ps) by (by rewrite Eq).
      pose proof (file_contents_length m0 g ino (wf_mem _ _ Hwf)) as Hlen.
      split.
      * apply L.
      * intros q. rewrite <- Hps'. apply Hps.
      * rewrite Hlen. unfold file_contents, load_bytes, file_slice. apply map_ext_in. intros i Hi.
        apply list_elem_of_In, elem_of_seqZ in Hi. unfold TASK_IMG_START_ADDR, TASK_VIRT_PAGE_END in *.
        rewrite u32_small by lia. rewrite (proj2 L) by (unfold in_kbuf, BUF_SIZE in *; lia).
        rewrite decide_True by (unfold TASK_IMG_START_ADDR; lia). f_equal. unfold TASK_IMG_START_ADDR. lia.
      * intros a Ha Hka. rewrite (proj2 L), decide_False by (done || (unfold user_address, TASK_IMG_START_ADDR, TASK_VIRT_PAGE_BEG, TASK_VIRT_PAGE_END in *; lia)).
        rewrite Hmem1, Hx, decide_False; [done| |done]. unfold in_kbuf, BUF_SIZE in *. lia.
      * intros q a Hq Ha. rewrite <- Hps'.
        pose proof (map_page_byte (TASK_PAGE_INDEX pid) (set_paging p (set_kmem m k)) q a Ha) as Hb. fold k1 in Hb.
        unfold page_byte in Hb at 1. rewrite decide_False in Hb by (by rewrite Eq). etrans; [exact Hb|].
        unfold page_byte. cbn [k_mapped set_paging set_kmem set_ts]. case_decide; [|done].
        change (k_mem (set_paging p (set_kmem m k))) with m. rewrite Hx, decide_False; [done|]. intros Hin.
        apply (Hnu a); [unfold BUF_SIZE in *; lia|done].
      * exact Hp'.
Qed.
End Load2.

(** ** Starting a process *)

(** The terminal and the parent of a process started by process [c] with the
    argument [ind] of execute. *)
Definition new_term (ind : Z) (p : PCB_t) : Z := if decide (ind <> -1) then ind else term_ind p.
Definition new_parent (c ind : Z) : Z := if decide (c <> 0 /\ ind = -1) then TASK_KSTACK_TOP c else 0.

(** The state after process [c] (with PCB [pc]) started the program [data] as
    process [pid]. *)
Record started (k k' : kernel) (c : Z) (pc : PCB_t) (esp ebp kbuf ind pid : Z) (args : option (list Z)) (data : list Z) : Prop := {
  sd_page : k_mapped k' = TASK_PAGE_INDEX pid;
  sd_image : load_bytes (k_mem k') TASK_IMG_START_ADDR (Z.of_nat (length data)) = data;
  sd_heap : heap_ok (read_heap (k_mem k'), 1);
  sd_others : forall q a, q <> TASK_PAGE_INDEX pid -> user_address a -> page_byte k' q a = page_byte k q a;
  sd_kernel : forall a, ~ user_address a -> ~ in_kbuf kbuf a -> ld8 (k_mem k') a = ld8 (k_mem k) a;
  sd_pcb : exists old, k_pcbs k !! TASK_KSTACK_TOP pid = Some old /\
    k_pcbs k' !! TASK_KSTACK_TOP pid = Some (new_pcb pid (new_parent c ind) (new_term ind pc) ((fun a => a ++ [0]) <$> args) old);
  sd_caller : k_pcbs k' !! TASK_KSTACK_TOP c = Some (with_saved esp ebp pc);
  sd_pcbs : forall a, a <> TASK_KSTACK_TOP pid -> a <> TASK_KSTACK_TOP c -> k_pcbs k' !! a = k_pcbs k !! a;
  sd_used : pid_used k' = <[Z.to_nat pid := 1]> (pid_used k);
  sd_terms : exists t, arr_get (terms (k_ts k)) (new_term ind pc) = Some t /\
    terms (k_ts k') = <[Z.to_nat (new_term ind pc) := set_cur_pid pid t]> (terms (k_ts k));
  sd_tss : tss k' = mkTss (TASK_KSTACK_BOT pid) KERNEL_DS;
  sd_rest : k_rtc k' = k_rtc k /\ k_fs k' = k_fs k
}.

Lemma free_pid_ne k c pid : (c <> 0 -> pid_in_use k c) -> 1 <= pid -> pid_free (pid_used k) pid -> pid <> c.
Proof.
  intros Hu Hpid Hfree ->. specialize (Hu ltac:(lia)). unfold pid_in_use in Hu. unfold pid_free in Hfree. congruence.
Qed.

Section Start.
Context (k : kernel) (c : Z) (pc : PCB_t) (esp ebp kbuf ind pid : Z) (args : option (list Z)) (ino : Z).
Context (vt ut vp : Z) (p : paging) (m : mem) (ps : gmap Z mem).
Context (Hk : kernel_ok k) (Hc : 0 <= c < MAX_PROC_NUM) (Hu : c <> 0 -> pid_in_use k c).
Context (Hesp : TASK_KSTACK_TOP c <= esp < TASK_KSTACK_BOT c) (Hpc : k_pcbs k !! TASK_KSTACK_TOP c = Some pc).
Context (Hpid : 1 <= pid < MAX_PROC_NUM) (Hfree : pid_free (pid_used k) pid) (Hind : -1 <= ind < TERM_NUM).
Context (Hino : 0 <= ino < inode_count (k_mem k) (k_fs k)).
Context (Hsize : TASK_IMG_START_ADDR + file_size (k_mem k) (k_fs k) ino <= TASK_VIRT_PAGE_END).
Context (Hkbuf : KSTACKS <= kbuf /\ kbuf + BUF_SIZE <= 0x800000).
Context (HI : image_in_page k ino kbuf pid vt ut vp p m ps).

Lemma new_pid_ne : pid <> c.
Proof. apply (free_pid_ne k); [done|lia|done]. Qed.

Lemma new_term_range : pcb_ok pc -> 0 <= new_term ind pc < TERM_NUM.
Proof. intros [_ _ Ht]. unfold new_term. case_decide; lia. Qed.

Lemma caller_pcb_ok : pcb_ok pc.
Proof. destruct (ko_pcb _ Hk c Hc) as (p' & E & H). congruence. Qed.

(** The PCBs, terminals and process numbers after the start. *)
Definition start_pcbs (old : PCB_t) : pcb_store :=
  <[TASK_KSTACK_TOP pid := new_pcb pid (new_parent c ind) (new_term ind pc) ((fun a => a ++ [0]) <$> args) old]>
    (<[TASK_KSTACK_TOP c := with_saved esp ebp pc]> (k_pcbs k)).
Definition start_terms (t : term_t) : list term_t := <[Z.to_nat (new_term ind pc) := set_cur_pid pid t]> (terms (k_ts k)).

Definition start_kernel (old : PCB_t) (t : term_t) : kernel :=
  mkKernel (mkTS (start_terms t) (cur_term_ind (k_ts k)) (cur_term (k_ts k)) (init_heap m) (vports (k_ts k)) (start_pcbs old))
    (k_rtc k) (k_fs k) p (TASK_PAGE_INDEX pid) ps (mkTss (TASK_KSTACK_BOT pid) KERNEL_DS)
    (<[Z.to_nat pid := 1]> (pid_used k)).

Lemma start_finish (r : exec_result) :
  exists old t, k_pcbs k !! TASK_KSTACK_TOP pid = Some old /\ arr_get (terms (k_ts k)) (new_term ind pc) = Some t /\
    (let k := with_memory m (TASK_PAGE_INDEX pid) ps (set_paging p k) in
     let cur_pcb := get_cur_pcb esp in
     let task_pcb := TASK_KSTACK_TOP pid in
     k ← on_pcb cur_pcb (with_saved esp ebp) k;
     cur ← k_pcbs k !! cur_pcb;
     old ← k_pcbs k !! task_pcb;
     let parent_of := if decide (cur_pcb <> TASK_KSTACK_TOP 0 /\ ind = -1) then cur_pcb else 0 in
     let tind := if decide (ind <> -1) then u8 ind else term_ind cur in
     new ← setup_pcb pid parent_of tind ((fun a => a ++ [0]) <$> args) old;
     let k := set_kpcbs (<[task_pcb := new]> (k_pcbs k)) k in
     let k := set_kmem (init_heap (k_mem k)) k in
     k ← set_term_pid (if decide (ind <> -1) then ind else term_ind cur) pid k;
     let k := set_tss (mkTss (TASK_KSTACK_BOT pid) KERNEL_DS) k in
     used ← arr_set (pid_used k) pid 1;
     Some (r, set_pid_used used k)) = Some (r, start_kernel old t).
Proof.
  pose proof caller_pcb_ok as Hpcok. pose proof (new_term_range Hpcok) as Htr.
  destruct (ko_pcb _ Hk pid ltac:(lia)) as (old & Eold & Hold).
  destruct (term_at _ (new_term ind pc) (ko_terms _ Hk) Htr) as (t & Et & _).
  exists old, t. split; [done|]. split; [done|].
  destruct (ko_used _ Hk) as [Hul _]. pose proof (ts_len _ (ko_terms _ Hk)) as Htl.
  cbv zeta. rewrite (get_cur_pcb_stack c) by done. unfold on_pcb.
  change (k_pcbs (with_memory m (TASK_PAGE_INDEX pid) ps (set_paging p k))) with (k_pcbs k).
  rewrite Hpc, !bind_ret. change (k_pcbs (set_kpcbs ?st ?kk)) with st. rewrite lookup_insert_eq, bind_ret.
  rewrite lookup_insert_ne by (intros E; apply TASK_KSTACK_TOP_inj in E; by apply new_pid_ne).
  rewrite Eold, bind_ret.
  assert (E1 : (if decide (TASK_KSTACK_TOP c <> TASK_KSTACK_TOP 0 /\ ind = -1) then TASK_KSTACK_TOP c else 0) = new_parent c ind).
  { unfold new_parent. repeat case_decide; try done; exfalso.
    - match goal with H : ~ (c <> 0 /\ _), H' : _ /\ _ |- _ => apply H; destruct H' as [H' ?]; split; [|done]; intros ->; by apply H' end.
    - match goal with H : c <> 0 /\ _, H' : ~ _ |- _ => apply H'; destruct H as [H ?]; split; [|done]; intros E; by apply TASK_KSTACK_TOP_inj in E end. }
  assert (E2 : (if decide (ind <> -1) then u8 ind else term_ind (with_saved esp ebp pc)) = new_term ind pc).
  { unfold new_term. destruct (decide (ind <> -1)); [|reflexivity]. apply u8_small. unfold TERM_NUM in *. lia. }
  assert (E3 : (if decide (ind <> -1) then ind else term_ind (with_saved esp ebp pc)) = new_term ind pc) by reflexivity.
  rewrite E1, E2, E3, setup_pcb_spec, bind_ret by done. unfold set_term_pid.
  change (terms (k_ts (set_kmem _ _))) with (terms (k_ts k)). rewrite Et, bind_ret.
  rewrite arr_set_Some, !bind_ret by (rewrite Htl; unfold TERM_NUM in *; lia).
  change (pid_used (set_tss _ _)) with (pid_used k).
  rewrite arr_set_Some, bind_ret by (rewrite Hul; unfold MAX_PROC_NUM in *; lia).
  reflexivity.
Qed.

Lemma heap_map_user a : a = MALLOC_HEAP_MAP_START \/ a = MALLOC_HEAP_MAP_START + 1 -> TASK_VIRT_PAGE_BEG <= a < TASK_IMG_START_ADDR.
Proof.
  change MALLOC_HEAP_MAP_START with (0x8000000 + 204). unfold TASK_VIRT_PAGE_BEG, TASK_IMG_START_ADDR. lia.
Qed.

Lemma start_started old t :
  k_pcbs k !! TASK_KSTACK_TOP pid = Some old -> arr_get (terms (k_ts k)) (new_term ind pc) = Some t ->
  started k (start_kernel old t) c pc esp ebp kbuf ind pid args (file_contents (k_mem k) (k_fs k) ino).
Proof.
  intros Eold Et. pose proof (file_contents_length (k_mem k) (k_fs k) ino (wf_mem _ _ (ko_fs _ Hk))) as Hlen.
  assert (Hmap : forall a, ~ (TASK_VIRT_PAGE_BEG <= a < TASK_IMG_START_ADDR) -> ld8 (init_heap m) a = ld8 m a).
  { intros a Ha. apply init_heap_other; intros ->; apply Ha, heap_map_user; auto. }
  split; try done.
  - rewrite <- (ip_image _ _ _ _ _ _ _ _ _ _ HI) at 2. apply load_bytes_ext. intros i Hi. apply Hmap.
    unfold TASK_VIRT_PAGE_BEG, TASK_VIRT_PAGE_END, TASK_IMG_START_ADDR in *. rewrite u32_small by lia. lia.
  - apply init_heap_ok.
  - intros q a Hq Ha. unfold page_byte at 1. cbn [k_mapped start_kernel]. rewrite decide_False by done.
    by apply (ip_others _ _ _ _ _ _ _ _ _ _ HI).
  - intros a Ha Hka. change (ld8 (init_heap m) a = ld8 (k_mem k) a). rewrite Hmap.
    + by apply (ip_kernel _ _ _ _ _ _ _ _ _ _ HI).
    + unfold user_address, TASK_VIRT_PAGE_END, TASK_IMG_START_ADDR in *. lia.
  - exists old. split; [done|]. apply lookup_insert_eq.
  - change (start_pcbs old !! TASK_KSTACK_TOP c = Some (with_saved esp ebp pc)). unfold start_pcbs.
    rewrite lookup_insert_ne; [apply lookup_insert_eq|]. intros E. apply TASK_KSTACK_TOP_inj in E. by apply new_pid_ne.
  - intros a Ha1 Ha2. change (start_pcbs old !! a = k_pcbs k !! a). unfold start_pcbs. by rewrite !lookup_insert_ne.
  - by exists t.
Qed.

(** What the PCBs of the other processes are after the start. *)
Lemma start_pcbs_lookup old a q : k_pcbs k !! a = Some q -> a <> TASK_KSTACK_TOP pid ->
  exists q', start_pcbs old !! a = Some q' /\ open_files q' = open_files q /\
    (pcb_ok q -> pcb_ok q') /\ pcb_pid q' = pcb_pid q /\ parent q' = parent q.
Proof.
  intros E Ha. unfold start_pcbs. rewrite lookup_insert_ne by done.
  destruct (decide (a = TASK_KSTACK_TOP c)) as [->|Hne].
  - rewrite Hpc in E. injection E as <-. rewrite lookup_insert_eq. eexists. split; [done|]. split_and!; try done.
    intros [H1 H2 H3]. by split.
  - rewrite lookup_insert_ne by done. exists q. by split_and!.
Qed.

Lemma start_file old a i f : a <> TASK_KSTACK_TOP pid -> get_file (k_pcbs k) (a, i) = Some f ->
  get_file (start_pcbs old) (a, i) = Some f.
Proof.
  intros Ha. unfold get_file. cbn [fst snd]. destruct (k_pcbs k !! a) as [q|] eqn:E; [|done].
  destruct (start_pcbs_lookup old a q E Ha) as (q' & -> & Ef & _). by rewrite !bind_ret, Ef.
Qed.

Lemma used_start j : 0 <= j -> j <> pid -> arr_get (<[Z.to_nat pid := 1]> (pid_used k)) j = arr_get (pid_used k) j.
Proof. intros Hj Hne. rewrite !arr_get_lookup by done. apply list_lookup_insert_ne. lia. Qed.

Lemma start_ok old t :
  k_pcbs k !! TASK_KSTACK_TOP pid = Some old -> arr_get (terms (k_ts k)) (new_term ind pc) = Some t ->
  kernel_ok (start_kernel old t).
Proof.
  intros Eold Et. pose proof (start_started old t Eold Et) as S. pose proof caller_pcb_ok as Hpcok.
  pose proof (new_term_range Hpcok) as Htr.
  assert (Hm : mem_ok (init_heap m)) by apply mem_ok_init_heap, (ip_ok _ _ _ _ _ _ _ _ _ _ HI).
  assert (HK : image_kept (k_mem k) (k_fs k) (init_heap m)).
  { intros a Ha. assert (Ho : ~ (in_kbuf kbuf a \/ user_address a)).
    { intros H. by apply (outside _ _ _ (ko_image _ Hk) Hkbuf a H). }
    apply (sd_kernel _ _ _ _ _ _ _ _ _ _ _ S); tauto. }
  assert (Hown : forall fp, Some fp ∈ rtc_files (k_rtc k) -> clock_owned (start_kernel old t) fp /\ fp.1 <> TASK_KSTACK_TOP pid).
  { intros [a i] Hin. destruct (ko_clock _ Hk _ Hin) as (q & f & H1 & H2 & H3 & H4 & H5 & H6). cbn [fst snd] in *.
    assert (Hne : q <> pid) by (intros ->; unfold pid_in_use in H3; unfold pid_free in Hfree; congruence).
    assert (Ha : a <> TASK_KSTACK_TOP pid) by (rewrite H2; intros E; by apply TASK_KSTACK_TOP_inj in E).
    split; [|done]. exists q, f. split; [done|]. split; [done|]. split.
    - unfold pid_in_use. cbn [pid_used start_kernel]. by rewrite used_start by lia.
    - split; [done|]. split; [|done]. by apply (start_file old a i f). }
  destruct Hk as [K1 K2 K3 K4 K5 K6 K7 K8 K9 K10]. split.
  - destruct K1 as [T1 T2 T3 T4]. split.
    + change (length (start_terms t) = 3%nat). unfold start_terms. by rewrite length_insert.
    + done.
    + intros i t'. change (arr_get (start_terms t) i = Some t' -> term_wf (cur_term_ind (k_ts k)) i t').
      unfold arr_get, start_terms. case_decide; [|done].
      intros [(Hi & <- & _)|[_ E]]%list_lookup_insert_Some; [|apply T3; by rewrite arr_get_lookup].
      replace i with (new_term ind pc) by lia. destruct (T3 _ _ Et) as [[L1 L2 L3] [O1 O2 O3] ? ? ? ? ?].
      split; [by split|by split|done..].
    + exact Hm.
  - exists vt, ut, vp. apply (ip_paging _ _ _ _ _ _ _ _ _ _ HI).
  - intros q. apply (ip_pages _ _ _ _ _ _ _ _ _ _ HI).
  - destruct K4 as [I1 I2 I3 I4 I5 I6 I7 I8]. split; try assumption. intros fp Hin.
    destruct (I8 fp Hin) as (f & Ef & Hf). exists f. split; [|done]. destruct fp as [a i].
    apply (start_file old); [|done]. apply elem_registered in Hin. by destruct (Hown _ Hin) as [_ ?].
  - by apply (fs_wf_kept _ _ K5).
  - change (0x400000 <= bblock_ptr (k_fs k) /\ bblock_ptr (k_fs k) + image_size (init_heap m) (k_fs k) <= KSTACKS).
    destruct (counts_kept _ _ K5 _ HK) as [E1 E2]. unfold image_size in *. by rewrite E1, E2.
  - destruct K7 as [U1 U2]. split; cbn [pid_used start_kernel]; [by rewrite length_insert|].
    apply Forall_insert; [done|by right].
  - intros j Hj. destruct (decide (j = pid)) as [->|Hne].
    + eexists. split; [apply lookup_insert_eq|]. apply new_pcb_ok; [|done].
      destruct (K8 pid Hj) as (o & Eo & Ho). congruence.
    + destruct (K8 j Hj) as (q & Eq & Hq).
      destruct (start_pcbs_lookup old _ q Eq) as (q' & Eq' & _ & Hq' & _); [intros E; by apply TASK_KSTACK_TOP_inj in E|].
      exists q'. split; [exact Eq'|by apply Hq'].
  - intros j q Hj Hju Eq. destruct (decide (j = pid)) as [->|Hne].
    + change (start_pcbs old !! TASK_KSTACK_TOP pid = Some q) in Eq. unfold start_pcbs in Eq.
      rewrite lookup_insert_eq in Eq. injection Eq as <-. split; [done|].
      unfold parent_ok, new_parent. cbn [parent new_pcb]. case_decide as D; [|by left]. right.
      destruct D as [D1 D2]. destruct (K9 c pc Hc (Hu D1) Hpc) as [Hn _].
      exists c, (with_saved esp ebp pc). split; [lia|]. split; [done|]. split; [|done].
      apply (sd_caller _ _ _ _ _ _ _ _ _ _ _ S).
    + destruct (K8 j Hj) as (q0 & Eq0 & Hq0).
      destruct (start_pcbs_lookup old _ q0 Eq0) as (q' & Eq' & _ & Hq' & Hp' & Hpar); [intros E; by apply TASK_KSTACK_TOP_inj in E|].
      change (start_pcbs old !! TASK_KSTACK_TOP j = Some q) in Eq. rewrite Eq' in Eq. injection Eq as <-.
      unfold pid_in_use in Hju. cbn [pid_used start_kernel] in Hju. rewrite used_start in Hju by lia.
      destruct (K9 j q0 Hj Hju Eq0) as [N P]. split; [congruence|].
      unfold parent_ok. rewrite Hpar. destruct P as [P|(pp & qp & P1 & P2 & P3 & P4)]; [by left|right].
      destruct (decide (pp = pid)) as [->|Hpp].
      * eexists pid, _. split; [done|]. split; [done|]. split; [rewrite P2; apply lookup_insert_eq|done].
      * destruct (start_pcbs_lookup old _ qp P3) as (qp' & Ep' & _ & _ & Hpp' & _);
          [rewrite P2; intros E; by apply TASK_KSTACK_TOP_inj in E|].
        exists pp, qp'. split; [done|]. split; [done|]. split; [exact Ep'|congruence].
  - intros fp Hin. by apply Hown.
Qed.
End Start.

(** ** Execute *)

(** Process [c] (or the kernel, [c = 0]) calls execute: its stack, the buffer
    of the call on it, and the command line in memory. *)
Record executing (e : env) (k : kernel) (c esp kbuf command ind : Z) (l : list Z) (pc : PCB_t) : Prop := {
  ex_kernel : kernel_ok k;
  ex_env : env_ok e;
  ex_pid : 0 <= c < MAX_PROC_NUM;
  ex_used : c <> 0 -> pid_in_use k c;
  ex_stack : TASK_KSTACK_TOP c <= esp < TASK_KSTACK_BOT c;
  ex_kbuf : TASK_KSTACK_TOP c <= kbuf /\ kbuf + BUF_SIZE <= TASK_KSTACK_BOT c;
  ex_ind : -1 <= ind < TERM_NUM;
  ex_pcb : k_pcbs k !! TASK_KSTACK_TOP c = Some pc;
  ex_command : cstr (k_mem k) command l;
  ex_length : Z.of_nat (length l) < 4294967295
}.

(** The program a command names. *)
Definition program_of (k : kernel) (l : list Z) : option Z :=
  inode_num ∘ dentry_of (k_mem k) (k_fs k) <$> lookup_name k (command_word l).

Lemma program_kept k k' l : fs_wf (k_mem k) (k_fs k) -> k_fs k' = k_fs k -> image_kept (k_mem k) (k_fs k) (k_mem k') ->
  program_of k' l = program_of k l.
Proof.
  intros Hwf Hfs HK. unfold program_of. rewrite (lookup_name_kept k k' Hwf Hfs HK), Hfs.
  destruct (lookup_name k (command_word l)) as [i|] eqn:E; [|done]. cbn [fmap option_fmap option_map]. unfold compose.
  by rewrite (dentry_of_kept _ _ Hwf _ i HK (lookup_name_range _ _ _ E)).
Qed.

Section Execute.
Context (e : env) (k : kernel) (c esp ebp kbuf command ind : Z) (l : list Z) (pc : PCB_t).
Context (X : executing e k c esp kbuf command ind l pc).

Lemma kbuf_range : KSTACKS <= kbuf /\ kbuf + BUF_SIZE <= 0x800000.
Proof.
  pose proof (ex_pid _ _ _ _ _ _ _ _ _ X). pose proof (ex_kbuf _ _ _ _ _ _ _ _ _ X).
  unfold KSTACKS, MAX_PROC_NUM, TASK_KSTACK_TOP, TASK_KSTACK_BOT in *. lia.
Qed.

(** The steps up to the opened file. *)
Lemma execute_open pid :
  lowest_pid (pid_used k) = Some pid ->
  parse_command e (k_mem k) command = Some (command_word l ++ [0], (fun a => a ++ [0]) <$> kept_args (command_args l)) /\
  exists f, fs_open (k_mem k) (k_fs k) (e_dentry e) (command_word l ++ [0]) 0 (e_file e)
    = Some (match program_of k l with Some _ => 0 | None => -1 end, f) /\
    (forall ino, program_of k l = Some ino -> f_inode f = ino /\ f_pos f = 0).
Proof.
  intros Hpid. destruct X as [Hk He _ _ _ _ _ _ Hl Hlen]. split; [by apply parse_command_spec|].
  assert (Hw : cstr (command_word l ++ [0]) 0 (command_word l)).
  { assert (Hr : Forall (fun x => 0 < x < 256) (command_word l)).
    { apply Forall_lookup. intros j x E. unfold command_word in E. rewrite span_take in E.
      apply lookup_take_Some in E as [E _]. by destruct (proj1 Hl _ _ E). }
    split.
    - intros j x E. rewrite Z.add_0_l. pose proof (lookup_lt_Some _ _ _ E). cbn [bget arr_buf].
      rewrite arr_get_lookup, Nat2Z.id, lookup_app_l by lia. split; [done|]. rewrite Forall_lookup in Hr. by apply (Hr j).
    - rewrite Z.add_0_l. cbn [bget arr_buf]. rewrite arr_get_lookup, Nat2Z.id, lookup_app_r by lia. by rewrite Nat.sub_diag. }
  unfold program_of, lookup_name. destruct (command_word l) as [|w ws] eqn:Ew.
  - unfold fs_open. rewrite (read_dentry_by_name_spec _ _ (ko_fs _ Hk) _ 0 []) by (done || apply (eo_dentry _ He)).
    rewrite bind_ret. cbv beta iota. rewrite decide_True by lia. eexists. by split.
  - rewrite (fs_open_spec _ _ (e_dentry e) _ 0 (w :: ws)) by (done || apply (ko_fs _ Hk) || apply (eo_dentry _ He)).
    destruct (find_dentry _ _ _) as [i|]; eexists; split; try done. intros ino [= <-]. done.
Qed.

Lemma execute_start pid ino :
  lowest_pid (pid_used k) = Some pid -> program_of k l = Some ino -> 0 <= ino < inode_count (k_mem k) (k_fs k) ->
  loadable (file_contents (k_mem k) (k_fs k) ino) ->
  exists k', _syscall_execute e esp ebp kbuf command ind k
      = Some (Enter (elf_entry (file_contents (k_mem k) (k_fs k) ino)) TASK_VIRT_PAGE_END, k') /\
    kernel_ok k' /\
    started k k' c pc esp ebp kbuf ind pid (kept_args (command_args l)) (file_contents (k_mem k) (k_fs k) ino).
Proof.
  intros Hpid Hprog Hino [Lh Lm Le Lf]. destruct (execute_open pid Hpid) as (Eparse & f & Eopen & Hf).
  rewrite Hprog in Eopen. destruct (Hf ino Hprog) as [Hfi Hfp]. destruct (lowest_pid_in _ _ Hpid) as [Hp1 Hfree].
  pose proof kbuf_range as Hkb. destruct X as [Hk He Hc Hu Hesp _ Hind Hpc Hl Hlen].
  pose proof (wf_mem _ _ (ko_fs _ Hk)) as Hm0.
  pose proof (file_contents_length (k_mem k) (k_fs k) ino Hm0) as Hsz. set (data := file_contents _ _ _) in *.
  rewrite Hsz in Lf. destruct (ko_paging _ Hk) as (vt & ut & vp & Hpg).
  destruct (first_read k ino kbuf f Hk Hino Hkb Hfi Hfp) as (m & Erd & Hm & HK & Hx).
  set (n := Z.min BUF_SIZE (file_size (k_mem k) (k_fs k) ino)) in *.
  destruct (load_program k ino kbuf pid f vt ut vp Hk ltac:(lia) Hpg Hino Lf Hkb Hfi m n eq_refl Hm HK Hx)
    as (p & m' & ps & Eload & HI).
  apply bind_Some in Eload as (k1 & Esw & Eload).
  edestruct (start_finish k c pc esp ebp) with (pid := pid) (ind := ind) (args := kept_args (command_args l)) (p := p) (m := m')
    (ps := ps) (r := Enter (elf_entry data) TASK_VIRT_PAGE_END) as (old & t & Eold & Et & Efin); try done.
  exists (start_kernel k c pc esp ebp ind pid (kept_args (command_args l)) p m' ps old t). split.
  - assert (Hb : forall j, (j < 28)%nat -> ld8 m (u32 (kbuf + Z.of_nat j)) = byte_at data j).
    { intros j Hj. unfold KSTACKS, TASK_KSTACK_TOP, MAX_PROC_NUM, BUF_SIZE in Hkb.
      apply (header_byte m (k_mem k) (k_fs k) ino kbuf j Hx); [lia|unfold BUF_SIZE; lia|fold data; lia|lia|done]. }
    assert (Hkr : 0 <= kbuf /\ kbuf + 256 <= 4294967296).
    { unfold KSTACKS, TASK_KSTACK_TOP, MAX_PROC_NUM, BUF_SIZE in Hkb. lia. }
    apply (magic_bytes data) in Lm as (B0 & B1 & B2 & B3); [|lia].
    pose proof (header_word m data kbuf Hb (proj1 Hkr) (proj2 Hkr)) as Hw.
    unfold _syscall_execute. rewrite free_pid_spec by apply (ko_used _ Hk). rewrite Hpid, bind_ret. cbv iota.
    rewrite Eparse, bind_ret. cbv beta iota. rewrite Eopen, bind_ret. cbv beta iota. rewrite decide_False by lia.
    rewrite Erd. cbv zeta. change (k_mem (set_kmem m k)) with m.
    rewrite (Hb 0%nat ltac:(lia) : ld8 m (u32 (kbuf + 0)) = _), (Hb 1%nat ltac:(lia) : ld8 m (u32 (kbuf + 1)) = _),
      (Hb 2%nat ltac:(lia) : ld8 m (u32 (kbuf + 2)) = _), (Hb 3%nat ltac:(lia) : ld8 m (u32 (kbuf + 3)) = _).
    rewrite decide_False by lia. rewrite Hw. fold (elf_entry data). rewrite decide_False by lia.
    rewrite Esw, bind_ret, Eload, bind_ret. exact Efin.
  - split.
    + apply (start_ok k c pc esp ebp kbuf ind pid _ ino vt ut vp p m' ps); try done.
    + apply (start_started k c pc esp ebp kbuf ind pid _ ino vt ut vp p m' ps); try done.
Qed.

(** *** Refused commands *)

Lemma execute_no_pid : lowest_pid (pid_used k) = None -> _syscall_execute e esp ebp kbuf command ind k = Some (Return (-1), k).
Proof.
  intros Hn. destruct X as [Hk _ _ _ _ _ _ _ _ _]. unfold _syscall_execute.
  by rewrite free_pid_spec, Hn by apply (ko_used _ Hk).
Qed.

Lemma execute_no_file pid : lowest_pid (pid_used k) = Some pid -> program_of k l = None ->
  _syscall_execute e esp ebp kbuf command ind k = Some (Return (-1), k).
Proof.
  intros Hpid Hn. destruct (execute_open pid Hpid) as (Ep & f & Eo & _). destruct X as [Hk _ _ _ _ _ _ _ _ _].
  unfold _syscall_execute. rewrite free_pid_spec, Hpid, bind_ret by apply (ko_used _ Hk). cbv iota.
  rewrite Ep, bind_ret. cbv beta iota. rewrite Eo, Hn, bind_ret. cbv beta iota. by rewrite decide_True by lia.
Qed.

(** The header is looked at before anything but the loader's buffer changes. *)
Lemma execute_bad_header pid ino :
  lowest_pid (pid_used k) = Some pid -> program_of k l = Some ino -> 0 <= ino < inode_count (k_mem k) (k_fs k) ->
  let data := file_contents (k_mem k) (k_fs k) ino in
  (4 <= length data)%nat -> (elf_magic data -> (28 <= length data)%nat /\ elf_entry data < TASK_IMG_START_ADDR) ->
  exists m, _syscall_execute e esp ebp kbuf command ind k = Some (Return (-1), set_kmem m k) /\
    (forall a, ~ in_kbuf kbuf a -> ld8 m a = ld8 (k_mem k) a) /\ kernel_ok (set_kmem m k).
Proof.
  intros Hpid Hprog Hino data Hlen Hbad. destruct (execute_open pid Hpid) as (Ep & f & Eo & Hf).
  rewrite Hprog in Eo. destruct (Hf ino Hprog) as [Hfi Hfp]. pose proof kbuf_range as Hkb. destruct X as [Hk _ _ _ _ _ _ _ _ _].
  pose proof (wf_mem _ _ (ko_fs _ Hk)) as Hm0.
  pose proof (file_contents_length (k_mem k) (k_fs k) ino Hm0) as Hsz. fold data in Hsz.
  destruct (first_read k ino kbuf f Hk Hino Hkb Hfi Hfp) as (m & Erd & Hm & HK & Hx). exists m.
  assert (Hb : forall j, (j < 28)%nat -> (j < length data)%nat -> ld8 m (u32 (kbuf + Z.of_nat j)) = byte_at data j).
  { intros j Hj Hj2. unfold KSTACKS, TASK_KSTACK_TOP, MAX_PROC_NUM, BUF_SIZE in Hkb.
    apply (header_byte m (k_mem k) (k_fs k) ino kbuf j Hx); [lia|unfold BUF_SIZE; lia|fold data; lia|lia|done]. }
  split; [|split].
  - unfold _syscall_execute. rewrite free_pid_spec, Hpid, bind_ret by apply (ko_used _ Hk). cbv iota.
    rewrite Ep, bind_ret. cbv beta iota. rewrite Eo, bind_ret. cbv beta iota. rewrite decide_False by lia.
    rewrite Erd. cbv zeta. change (k_mem (set_kmem m k)) with m.
    rewrite (Hb 0%nat ltac:(lia) ltac:(lia) : ld8 m (u32 (kbuf + 0)) = _), (Hb 1%nat ltac:(lia) ltac:(lia) : ld8 m (u32 (kbuf + 1)) = _),
      (Hb 2%nat ltac:(lia) ltac:(lia) : ld8 m (u32 (kbuf + 2)) = _), (Hb 3%nat ltac:(lia) ltac:(lia) : ld8 m (u32 (kbuf + 3)) = _).
    destruct (decide (byte_at data 0 <> 127 \/ _)) as [D|D]; [done|].
    destruct Hbad as [Hl He]; [apply (magic_bytes data); [lia|]; lia|].
    rewrite (header_word m data kbuf); [|intros j Hj; apply Hb; lia|unfold KSTACKS, TASK_KSTACK_TOP, MAX_PROC_NUM, BUF_SIZE in Hkb; lia..].
    fold (elf_entry data). by rewrite decide_True by lia.
  - intros a Ha. rewrite Hx, decide_False; [done|]. unfold in_kbuf, BUF_SIZE in *. lia.
  - by apply set_kmem_ok.
Qed.
End Execute.

(** ** Halt *)

(** Closing only shortens the clock's list. *)
Lemma set_rtc_ok k g : kernel_ok k -> rtc_inv (g, k_pcbs k) ->
  (forall fp, Some fp ∈ rtc_files g -> Some fp ∈ rtc_files (k_rtc k)) -> kernel_ok (set_rtc g k).
Proof. intros [K1 K2 K3 K4 K5 K6 K7 K8 K9 K10] I Hs. split; try done. intros fp Hin. by apply K10, Hs. Qed.

(** After the loop of halt no descriptor of the process is on the clock, and
    nothing else changed. *)
Lemma close_files_spec e k c p :
  kernel_ok k -> 0 <= c < MAX_PROC_NUM -> k_pcbs k !! TASK_KSTACK_TOP c = Some p ->
  exists g, close_files e (TASK_KSTACK_TOP c) k = Some (set_rtc g k) /\ kernel_ok (set_rtc g k) /\
    (forall fp, Some fp ∈ rtc_files g -> Some fp ∈ rtc_files (k_rtc k) /\ fp.1 <> TASK_KSTACK_TOP c) /\
    (forall fp, fp.1 <> TASK_KSTACK_TOP c -> Some fp ∈ rtc_files (k_rtc k) -> Some fp ∈ rtc_files g).
Proof.
  intros Hk Hc Ep. destruct (ko_pcb _ Hk c Hc) as (p' & Ep' & Hp). rewrite Ep in Ep'. injection Ep' as <-.
  unfold close_files.
  match goal with |- context [for_upM 2 TASK_MAX_FILES ?body k] =>
    destruct (for_upM_ind (fun i k' => exists g, k' = set_rtc g k /\ kernel_ok (set_rtc g k) /\
      (forall fp, Some fp ∈ rtc_files g -> Some fp ∈ rtc_files (k_rtc k) /\ (fp.1 = TASK_KSTACK_TOP c -> i <= fp.2)) /\
      (forall fp, fp.1 <> TASK_KSTACK_TOP c -> Some fp ∈ rtc_files (k_rtc k) -> Some fp ∈ rtc_files g))
    2 TASK_MAX_FILES body k) as (k' & E & g & -> & Hk' & Hg & Hback); [unfold TASK_MAX_FILES; lia| | |] end.
  - exists (k_rtc k). assert (E : k = set_rtc (k_rtc k) k) by (by destruct k). rewrite <- E. split; [done|]. split; [done|]. split; [|done].
    intros fp Hin. split; [done|]. intros _. destruct (ko_clock _ Hk fp Hin) as (q & f & _ & _ & _ & H & _). lia.
  - intros i k' Hi (g & -> & Hk' & Hg & Hback).
    destruct (arr_get_Some (open_files p) i) as (f & Ef & _); [rewrite (pk_files _ Hp); unfold TASK_MAX_FILES in *; lia|].
    assert (Eg : get_file (k_pcbs (set_rtc g k)) (TASK_KSTACK_TOP c, i) = Some f).
    { unfold get_file. cbn [fst snd]. change (k_pcbs (set_rtc g k)) with (k_pcbs k). by rewrite Ep, bind_ret. }
    assert (Hnot : f_used f = 0 \/ file_ops f <> rtc_file_ops_table -> Some (TASK_KSTACK_TOP c, i) ∉ rtc_files g).
    { intros H Hin. destruct (ko_clock _ Hk' _ Hin) as (q & f' & _ & _ & _ & _ & E1 & E2 & E3). rewrite Eg in E1.
      injection E1 as <-. by destruct H. }
    assert (Hnext : forall g', (forall fp, Some fp ∈ rtc_files g' -> Some fp ∈ rtc_files g) ->
        Some (TASK_KSTACK_TOP c, i) ∉ rtc_files g' ->
        forall fp, Some fp ∈ rtc_files g' -> Some fp ∈ rtc_files (k_rtc k) /\ (fp.1 = TASK_KSTACK_TOP c -> i + 1 <= fp.2)).
    { intros g' Hsub Hni [a j] Hin. destruct (Hg _ (Hsub _ Hin)) as [H1 H2]. split; [done|]. cbn [fst snd] in *.
      intros ->. specialize (H2 eq_refl). destruct (decide (j = i)) as [->|]; [done|lia]. }
    cbv beta. rewrite Eg, bind_ret. destruct (decide (f_used f <> 0)) as [Du|Du].
    + destruct (file_close_spec e (set_rtc g k) (TASK_KSTACK_TOP c) i f Hk' Eg) as (r & g' & Ec & _ & I & Hrel & Hsame).
      rewrite Ec, bind_ret. exists (set_rtc g' k). split; [done|]. exists g'. split; [done|].
      assert (Hsub : forall fp, Some fp ∈ rtc_files g' -> Some fp ∈ rtc_files g).
      { intros fp Hin. destruct (decide (file_ops f = rtc_file_ops_table)) as [D|D];
          [rewrite (Hrel D) in Hin; by apply released_in in Hin as [Hin _]|]. rewrite (Hsame D) in Hin. exact Hin. }
      split; [|split].
      * apply (set_rtc_ok (set_rtc g k) g'); done.
      * apply Hnext; [done|]. destruct (decide (file_ops f = rtc_file_ops_table)) as [D|D].
        -- rewrite (Hrel D). intros Hin. apply released_in in Hin as [_ Hin]. done.
        -- rewrite (Hsame D). apply Hnot. by right.
      * intros fp Hfp Hin. specialize (Hback fp Hfp Hin). destruct (decide (file_ops f = rtc_file_ops_table)) as [D|D]; [|by rewrite (Hsame D)].
        rewrite (Hrel D). apply in_released; [done|]. by intros ->.
    + exists (set_rtc g k). split; [done|]. exists g. split; [done|]. split; [done|]. split; [|exact Hback].
      apply Hnext; [done|]. apply Hnot. left. destruct (decide (f_used f = 0)); [done|tauto].
  - exists g. split; [exact E|]. split; [done|]. split; [|exact Hback]. intros fp Hin. destruct (Hg fp Hin) as [H1 H2]. split; [done|].
    intros Ha. specialize (H2 Ha). destruct (ko_clock _ Hk fp H1) as (q & f & _ & _ & _ & H & _). lia.
Qed.

(** What halt of process [c] (with PCB [p]) leaves for its parent [pp]. *)
Record halted (k k' : kernel) (c : Z) (p : PCB_t) (pp : Z) : Prop := {
  hd_page : k_mapped k' = TASK_PAGE_INDEX pp;
  hd_user : forall q a, user_address a -> page_byte k' q a = page_byte k q a;
  hd_kernel : forall a, ~ user_address a -> ld8 (k_mem k') a = ld8 (k_mem k) a;
  hd_pcbs : k_pcbs k' = k_pcbs k;
  hd_used : pid_used k' = <[Z.to_nat c := 0]> (pid_used k);
  hd_terms : exists t, arr_get (terms (k_ts k)) (term_ind p) = Some t /\
    terms (k_ts k') = <[Z.to_nat (term_ind p) := set_cur_pid pp t]> (terms (k_ts k));
  hd_tss : tss k' = mkTss (TASK_KSTACK_BOT pp) (ss0 (tss k));
  hd_clock : forall fp, Some fp ∈ rtc_files (k_rtc k') -> Some fp ∈ rtc_files (k_rtc k) /\ fp.1 <> TASK_KSTACK_TOP c;
  hd_others : forall fp, fp.1 <> TASK_KSTACK_TOP c -> Some fp ∈ rtc_files (k_rtc k) -> Some fp ∈ rtc_files (k_rtc k');
  hd_fs : k_fs k' = k_fs k
}.

Section Halt.
Context (e : env) (k : kernel) (c esp : Z) (p : PCB_t).
Context (Hk : kernel_ok k) (Hc : 1 <= c < MAX_PROC_NUM) (Hu : pid_in_use k c).
Context (Hesp : TASK_KSTACK_TOP c <= esp < TASK_KSTACK_BOT c) (Hp : k_pcbs k !! TASK_KSTACK_TOP c = Some p).

(** A process without a parent starts its image again. *)
Lemma halt_root status ctx : parent p = 0 ->
  _syscall_halt e esp status ctx k
  = Some (Restarted (with_target (ld32 (k_mem k) (TASK_IMG_START_ADDR + ELF_ENTRY_OFFSET)) TASK_VIRT_PAGE_END ctx), k).
Proof.
  intros H0. unfold _syscall_halt. rewrite (get_cur_pcb_stack c), Hp, bind_ret by (done || lia).
  by rewrite decide_True.
Qed.

Lemma halt_child status ctx pp q :
  parent p = TASK_KSTACK_TOP pp -> 1 <= pp < MAX_PROC_NUM -> k_pcbs k !! TASK_KSTACK_TOP pp = Some q -> pcb_pid q = pp ->
  exists k', _syscall_halt e esp status ctx k = Some (Resumed (pcb_esp q) (pcb_ebp q) status, k') /\
    halted k k' c p pp /\ kernel_ok k'.
Proof.
  intros Hpar Hpp Hq Npp. destruct (close_files_spec e k c p Hk ltac:(lia) Hp) as (g & Ecl & Hkg & Hg & Hback).
  destruct (ko_number _ Hk c p ltac:(lia) Hu Hp) as [Np _]. destruct (ko_pcb _ Hk c ltac:(lia)) as (p' & Ep' & Hpok).
  rewrite Hp in Ep'. injection Ep' as <-.
  destruct (ko_paging _ Hk) as (vt & ut & vp & Hpg).
  destruct (set_task_page_ok vt ut _ vp pp _ Hpg) as (pg & Epg & Hpg');
    [unfold TASK_PAGE_INDEX, TASK_START_PAGE, MAX_PROC_NUM in *; lia|].
  set (k1 := set_tss (mkTss (TASK_KSTACK_BOT pp) (ss0 (tss k))) (set_paging pg (set_rtc g k))).
  destruct (map_page_eq (TASK_PAGE_INDEX pp) k1) as (m & ps & Eq).
  destruct (map_page_ok (TASK_PAGE_INDEX pp) k1 (wf_mem _ _ (ko_fs _ Hk)) (ko_pages _ Hk)) as [Hm Hps].
  pose proof (map_page_mem (TASK_PAGE_INDEX pp) k1) as Hmem. pose proof (map_page_byte (TASK_PAGE_INDEX pp) k1) as Hbyte.
  destruct (term_at _ (term_ind p) (ko_terms _ Hk) (pk_term _ Hpok)) as (t & Et & _).
  destruct (ko_used _ Hk) as [Hul Huf]. pose proof (ts_len _ (ko_terms _ Hk)) as Htl. pose proof (pk_term _ Hpok) as Htr.
  set (k' := mkKernel (mkTS (<[Z.to_nat (term_ind p) := set_cur_pid pp t]> (terms (k_ts k))) (cur_term_ind (k_ts k))
      (cur_term (k_ts k)) m (vports (k_ts k)) (k_pcbs k)) g (k_fs k) pg (TASK_PAGE_INDEX pp) ps
      (mkTss (TASK_KSTACK_BOT pp) (ss0 (tss k))) (<[Z.to_nat c := 0]> (pid_used k))).
  exists k'. rewrite Eq in Hm, Hps, Hmem, Hbyte.
  change (k_mem (with_memory m (TASK_PAGE_INDEX pp) ps k1)) with m in Hm, Hmem.
  assert (HH : halted k k' c p pp).
  { split; try done.
    - intros a Ha. change (ld8 m a = ld8 (k_mem k) a). by rewrite Hmem, decide_False.
    - by exists t. }
  split; [|split; [exact HH|]].
  - unfold _syscall_halt. rewrite (get_cur_pcb_stack c), Hp, bind_ret by (done || lia).
    rewrite decide_False by (rewrite Hpar; unfold TASK_KSTACK_TOP, MAX_PROC_NUM in *; lia).
    rewrite Ecl, bind_ret. change (k_pcbs (set_rtc g k)) with (k_pcbs k). rewrite Hpar, Hq, bind_ret. cbv zeta.
    rewrite Npp. change (k_paging (set_rtc g k)) with (k_paging k). rewrite Epg, bind_ret.
    change (tss (set_rtc g k)) with (tss k). fold k1. rewrite (load_cr3_spec vt ut (TASK_PAGE_INDEX pp) vp k1 Hpg'), bind_ret, Eq.
    change (pid_used (with_memory m (TASK_PAGE_INDEX pp) ps k1)) with (pid_used k). rewrite Np.
    rewrite arr_set_Some, bind_ret by (rewrite Hul; unfold MAX_PROC_NUM in *; lia). unfold set_term_pid.
    change (terms (k_ts (set_pid_used ?u (with_memory m (TASK_PAGE_INDEX pp) ps k1)))) with (terms (k_ts k)).
    rewrite Et, bind_ret, arr_set_Some, !bind_ret by (rewrite Htl; unfold TERM_NUM in *; lia). done.
  - assert (HK : image_kept (k_mem k) (k_fs k) m).
    { intros a Ha. apply (hd_kernel _ _ _ _ _ HH). destruct Ha as [H1 H2]. destruct (ko_image _ Hk) as [_ H3].
      unfold user_address, TASK_VIRT_PAGE_BEG, KSTACKS, MAX_PROC_NUM, TASK_KSTACK_TOP in *. lia. }
    destruct Hkg as [K1 K2 K3 K4 K5 K6 K7 K8 K9 K10].
    assert (Huse : forall j, 0 <= j -> pid_in_use k' j -> j <> c /\ pid_in_use k j).
    { intros j Hj. unfold pid_in_use. cbn [pid_used k']. rewrite !arr_get_lookup by done.
      intros [(_ & ? & _)|[H1 H2]]%list_lookup_insert_Some; [done|]. split; [intros ->; by apply H1|done]. }
    split; try done.
    + destruct (ko_terms _ Hk) as [T1 T2 T3 T4]. split; [|done| |done].
      * change (length (<[Z.to_nat (term_ind p) := set_cur_pid pp t]> (terms (k_ts k))) = 3%nat). by rewrite length_insert.
      * intros i t'. change (arr_get (<[Z.to_nat (term_ind p) := set_cur_pid pp t]> (terms (k_ts k))) i = Some t' ->
          term_wf (cur_term_ind (k_ts k)) i t'). unfold arr_get. case_decide; [|done].
        intros [(Hi & <- & _)|[_ E]]%list_lookup_insert_Some; [|apply T3; by rewrite arr_get_lookup].
        replace i with (term_ind p) by lia. destruct (T3 _ _ Et) as [[L1 L2 L3] [O1 O2 O3] ? ? ? ? ?].
        split; [by split|by split|done..].
    + by exists vt, ut, vp.
    + by apply (fs_wf_kept _ _ K5).
    + destruct K6 as [H1 H2]. split; [done|].
      change (bblock_ptr (k_fs k) + image_size m (k_fs k) <= KSTACKS).
      change (bblock_ptr (k_fs k) + image_size (k_mem k) (k_fs k) <= KSTACKS) in H2.
      destruct (counts_kept _ _ (ko_fs _ Hk) _ HK) as [E1 E2]. unfold image_size in *. by rewrite E1, E2.
    + split; cbn [pid_used k']; [by rewrite length_insert|]. apply Forall_insert; [done|by left].
    + intros j pj Hj Hju Ej. destruct (Huse j ltac:(lia) Hju) as [_ Hjk]. by apply (K9 j pj).
    + intros fp Hin. destruct (K10 fp Hin) as (j & f & H1 & H2 & H3 & H4). exists j, f. split; [done|]. split; [done|].
      split; [|done]. destruct (Hg fp Hin) as [_ Hne]. assert (j <> c) by (intros ->; by apply Hne).
      unfold pid_in_use. cbn [pid_used k']. rewrite arr_get_lookup by lia. rewrite list_lookup_insert_ne by lia.
      unfold pid_in_use in H3. by rewrite arr_get_lookup in H3 by lia.
Qed.
End Halt.

(** ** The arguments of a program *)

Lemma strcpy_store (m : mem) dest (a : list Z) :
  Forall (fun c => 0 < c < 256) a -> 0 <= dest -> dest + Z.of_nat (length a) + 1 <= 4294967296 ->
  strcpy m dest (other (a ++ [0]) 0) = Some (store_bytes m dest (a ++ [0])).
Proof.
  intros Ha Hd He. unfold strcpy.
  match goal with |- whileM ?f ?s = _ =>
    destruct (whileM_total (fun '(b, i) => 0 <= i <= Z.of_nat (length a) /\ b = store_bytes m dest (take (Z.to_nat i) a))
      (fun '(_, i) => Z.of_nat (length a) - i) (fun b => b = store_bytes m dest (a ++ [0])) f s) as (b & -> & ->) end;
    [| |unfold FUEL; lia|done].
  - intros [b i] [Hi ->]. unfold other. rewrite Z.add_0_l. cbn [bget arr_buf].
    destruct (decide (i = Z.of_nat (length a))) as [->|Hne].
    + rewrite arr_get_lookup, Nat2Z.id, lookup_app_r, Nat.sub_diag by lia. change ([0] !! 0%nat) with (Some 0).
      rewrite bind_ret, decide_True by done.
      cbn [bput mem_buf]. rewrite decide_True, bind_ret by lia. rewrite firstn_all. symmetry. apply store_bytes_app; lia.
    + destruct (lookup_lt_is_Some_2 a (Z.to_nat i)) as [c E]; [lia|].
      assert (Hc : 0 < c < 256) by (rewrite Forall_lookup in Ha; by apply (Ha (Z.to_nat i))).
      rewrite arr_get_lookup, lookup_app_l, E, bind_ret by lia. rewrite decide_False by lia.
      cbn [bput mem_buf]. rewrite decide_True, bind_ret by lia. split; [|lia]. split; [lia|].
      replace (Z.to_nat (i + 1)) with (S (Z.to_nat i)) by lia. rewrite (take_S_r _ _ c E).
      rewrite store_bytes_app by (rewrite ?length_take; lia). rewrite length_take.
      by replace (Z.of_nat (Z.to_nat i `min` length a)) with i by lia.
  - split; [lia|done].
Qed.

Lemma getargs_spec k c esp p buf nbytes a :
  0 <= c < MAX_PROC_NUM -> TASK_KSTACK_TOP c <= esp < TASK_KSTACK_BOT c -> k_pcbs k !! TASK_KSTACK_TOP c = Some p ->
  cmd_args p = (fun a => a ++ [0]) <$> a -> (forall l, a = Some l -> Forall (fun c => 0 < c < 256) l /\ (length l < 256)%nat) ->
  0 < buf -> buf + nbytes <= 4294967296 ->
  syscall_getargs esp buf nbytes k =
    Some (match a with
          | Some l => if decide (nbytes < Z.of_nat (length l) + 1) then (-1, k)
                      else (0, set_kmem (store_bytes (k_mem k) buf (l ++ [0])) k)
          | None => (-1, k)
          end).
Proof.
  intros Hc Hesp Ep Ea Hl Hb Hn. unfold syscall_getargs. rewrite decide_False by lia.
  rewrite (get_cur_pcb_stack c), Ep, bind_ret, Ea by done. destruct a as [l|]; [|done]. cbn [fmap option_fmap option_map].
  destruct (Hl l eq_refl) as [Hr Hlen].
  rewrite (strlen_spec (l ++ [0]) 0 l); [|split|lia].
  - rewrite bind_ret, u32_small by lia. case_decide; [done|]. by rewrite strcpy_store by (done || lia).
  - intros j x E. pose proof (lookup_lt_Some _ _ _ E). rewrite Z.add_0_l. cbn [bget arr_buf].
    rewrite arr_get_lookup, Nat2Z.id, lookup_app_l by lia. split; [done|]. rewrite Forall_lookup in Hr. by apply (Hr j).
  - rewrite Z.add_0_l. cbn [bget arr_buf]. rewrite arr_get_lookup, Nat2Z.id, lookup_app_r by lia. by rewrite Nat.sub_diag.
Qed.

(** The characters of the arguments are those of the command line. *)
Lemma kept_args_chars (m : mem) command l a :
  cstr m command l -> kept_args (command_args l) = Some a -> Forall (fun c => 0 < c < 256) a /\ (length a < 256)%nat.
Proof.
  intros [Hl _] Ha.
  assert (Hr : Forall (fun c => 0 < c < 256) l) by (apply Forall_lookup; intros j x E; by destruct (Hl _ _ E)).
  unfold kept_args in Ha. destruct (command_args l) as [|x xs] eqn:E; [done|]. injection Ha as <-. rewrite <- E. split.
  - apply Forall_take. unfold command_args. by do 2 apply Forall_drop.
  - rewrite length_take. eapply Nat.le_lt_trans; [apply Nat.le_min_l|].
    match goal with |- context [u8 ?z] => pose proof (u8_range z) end. lia.
Qed.

(** ** Properties *)

(** C5: Execute of a command whose first word names a loadable program puts the
    whole file at the load address of the user page of the lowest free process
    number, with an empty heap, no argument bytes lost but those past the 8-bit
    length, fresh descriptors and handlers, the caller as parent (or none, for
    a terminal of its own) and the caller's registers saved, and enters the
    program's entry point.  No other process's page, PCB or terminal and no
    kernel memory but the call's own buffer changes, and the invariant holds. *)
Theorem execute_correct (e : env) (k : kernel) (c esp ebp kbuf command ind : Z) (l : list Z) (pc : PCB_t) (pid ino : Z) :
  executing e k c esp kbuf command ind l pc -> lowest_pid (pid_used k) = Some pid ->
  program_of k l = Some ino -> 0 <= ino < inode_count (k_mem k) (k_fs k) ->
  let data := file_contents (k_mem k) (k_fs k) ino in
  loadable data ->
  exists k', _syscall_execute e esp ebp kbuf command ind k = Some (Enter (elf_entry data) TASK_VIRT_PAGE_END, k') /\
    kernel_ok k' /\ started k k' c pc esp ebp kbuf ind pid (kept_args (command_args l)) data.
Proof. intros X Hpid Hprog Hino data Hd. by apply execute_start. Qed.

(** C37: Execute returns -1, with only its own buffer on the kernel stack
    written, when no process number is free, when no file has the name of the
    command word (the empty one included), when the file does not begin with
    the ELF magic, and when the entry point lies below the load address. *)
Theorem execute_refused (e : env) (k : kernel) (c esp ebp kbuf command ind : Z) (l : list Z) (pc : PCB_t) :
  executing e k c esp kbuf command ind l pc ->
  (lowest_pid (pid_used k) = None \/ program_of k l = None ->
     _syscall_execute e esp ebp kbuf command ind k = Some (Return (-1), k)) /\
  (forall ino, is_Some (lowest_pid (pid_used k)) -> program_of k l = Some ino -> 0 <= ino < inode_count (k_mem k) (k_fs k) ->
     let data := file_contents (k_mem k) (k_fs k) ino in
     (4 <= length data)%nat -> (elf_magic data -> (28 <= length data)%nat /\ elf_entry data < TASK_IMG_START_ADDR) ->
     exists m, _syscall_execute e esp ebp kbuf command ind k = Some (Return (-1), set_kmem m k) /\
       (forall a, ~ in_kbuf kbuf a -> ld8 m a = ld8 (k_mem k) a) /\ kernel_ok (set_kmem m k)).
Proof.
  intros X. split.
  - intros H. destruct (lowest_pid (pid_used k)) as [pid|] eqn:E; [|by eapply execute_no_pid].
    destruct H as [H|H]; [done|]. by eapply execute_no_file.
  - intros ino [pid Hpid] Hprog Hino data Hlen Hbad. by eapply execute_bad_header.
Qed.

(** What a program leaves of the kernel's state while it runs as process [pid]
    for its parent [c]: its own PCB still names the parent and the terminal,
    and the parent's page and PCB, and the process numbers, are untouched. *)
Record child_ran (k1 k2 : kernel) (c pid : Z) : Prop := {
  cr_ok : kernel_ok k2;
  cr_child : forall p1, k_pcbs k1 !! TASK_KSTACK_TOP pid = Some p1 ->
    exists p2, k_pcbs k2 !! TASK_KSTACK_TOP pid = Some p2 /\ parent p2 = parent p1 /\ term_ind p2 = term_ind p1;
  cr_parent : k_pcbs k2 !! TASK_KSTACK_TOP c = k_pcbs k1 !! TASK_KSTACK_TOP c;
  cr_page : forall a, user_address a -> page_byte k2 (TASK_PAGE_INDEX c) a = page_byte k1 (TASK_PAGE_INDEX c) a;
  cr_used : pid_used k2 = pid_used k1
}.

(** C10: Execute and halt nest like a call and a return.  Whatever the program
    does to its own page and the rest of the machine, its halt resumes the
    parent with the registers execute saved and the status given, with the
    parent's page mapped and every byte of it as it was, the process number
    free again, the parent in front of the terminal, and none of the child's
    clocks left. *)
Theorem execute_halt_roundtrip (e : env) (k : kernel) (c esp ebp kbuf command : Z) (l : list Z) (pc : PCB_t)
  (pid ino : Z) :
  executing e k c esp kbuf command (-1) l pc -> c <> 0 -> lowest_pid (pid_used k) = Some pid ->
  program_of k l = Some ino -> 0 <= ino < inode_count (k_mem k) (k_fs k) ->
  loadable (file_contents (k_mem k) (k_fs k) ino) -> k_mapped k = TASK_PAGE_INDEX c ->
  exists entry k1, _syscall_execute e esp ebp kbuf command (-1) k = Some (Enter entry TASK_VIRT_PAGE_END, k1) /\
    kernel_ok k1 /\
    (forall e2 k2 esp2 status ctx, child_ran k1 k2 c pid -> TASK_KSTACK_TOP pid <= esp2 < TASK_KSTACK_BOT pid ->
     exists k3, syscall_halt e2 esp2 status ctx k2 = Some (Resumed esp ebp (u8 status), k3) /\ kernel_ok k3 /\
       k_mapped k3 = TASK_PAGE_INDEX c /\ (forall a, user_address a -> ld8 (k_mem k3) a = ld8 (k_mem k) a) /\
       pid_used k3 = pid_used k /\ k_pcbs k3 !! TASK_KSTACK_TOP c = Some (with_saved esp ebp pc) /\
       (exists t, arr_get (terms (k_ts k3)) (term_ind pc) = Some t /\ cur_pid t = c) /\
       esp0 (tss k3) = TASK_KSTACK_BOT c /\
       (forall i, Some (TASK_KSTACK_TOP pid, i) ∉ rtc_files (k_rtc k3))).
Proof.
  intros X Hc0 Hpid Hprog Hino Hd Hmap.
  destruct (execute_start e k c esp ebp kbuf command (-1) l pc X pid ino Hpid Hprog Hino Hd) as (k1 & E1 & Hk1 & S).
  eexists _, k1. split; [exact E1|]. split; [done|]. intros e2 k2 esp2 status ctx [C1 C2 C3 C4 C5] Hesp2.
  destruct (lowest_pid_in _ _ Hpid) as [Hp1 Hfree].
  destruct X as [Hk He Hc Hu Hesp _ _ Hpc _ _]. destruct (ko_used _ Hk) as [Hul _].
  destruct (sd_pcb _ _ _ _ _ _ _ _ _ _ _ S) as (old & _ & Enew).
  destruct (C2 _ Enew) as (p2 & Ep2 & Hpar & Hti).
  assert (Hpar2 : parent p2 = TASK_KSTACK_TOP c).
  { rewrite Hpar. cbn [parent new_pcb]. unfold new_parent. by rewrite decide_True. }
  assert (Hti2 : term_ind p2 = term_ind pc).
  { rewrite Hti. cbn [term_ind new_pcb]. unfold new_term. by rewrite decide_False by tauto. }
  assert (Huse2 : pid_in_use k2 pid).
  { unfold pid_in_use. rewrite C5, (sd_used _ _ _ _ _ _ _ _ _ _ _ S), arr_get_lookup by lia.
    apply list_lookup_insert_eq. rewrite Hul. unfold MAX_PROC_NUM in *. lia. }
  pose proof (sd_caller _ _ _ _ _ _ _ _ _ _ _ S) as Ec1. rewrite <- C3 in Ec1.
  destruct (ko_number _ Hk c pc ltac:(lia) (Hu Hc0) Hpc) as [Nc _].
  destruct (halt_child e2 k2 pid esp2 p2 C1 Hp1 Huse2 Hesp2 Ep2 (u8 status) ctx c (with_saved esp ebp pc) Hpar2 ltac:(lia) Ec1 Nc)
    as (k3 & E3 & H & Hk3).
  exists k3. split; [exact E3|]. split; [done|]. split; [apply H|]. split_and!.
  - intros a Ha. pose proof (hd_user _ _ _ _ _ H (TASK_PAGE_INDEX c) a Ha) as Hb.
    rewrite C4, (sd_others _ _ _ _ _ _ _ _ _ _ _ S) in Hb; [|intros E; apply (free_pid_ne k c pid Hu (proj1 Hp1) Hfree); unfold TASK_PAGE_INDEX in E; lia|done..].
    unfold page_byte in Hb. by rewrite (hd_page _ _ _ _ _ H), Hmap, !decide_True in Hb.
  - rewrite (hd_used _ _ _ _ _ H), C5, (sd_used _ _ _ _ _ _ _ _ _ _ _ S), list_insert_insert_eq.
    apply list_insert_id. unfold pid_free in Hfree. by rewrite arr_get_lookup in Hfree by lia.
  - by rewrite (hd_pcbs _ _ _ _ _ H).
  - destruct (hd_terms _ _ _ _ _ H) as (t & Et & ->). exists (set_cur_pid c t). split; [|done].
    rewrite Hti2 in Et |- *. unfold arr_get in *. case_decide; [|done]. apply list_lookup_insert_eq. by eapply lookup_lt_Some.
  - by rewrite (hd_tss _ _ _ _ _ H).
  - intros i Hin. by destruct (hd_clock _ _ _ _ _ H _ Hin).
Qed.

(** The program just started reads, with getargs, exactly the arguments of
    its command line: the text after the command word and the blanks that
    follow it, its length taken modulo 256; -1 without arguments or with a
    buffer too small, and nothing is written then. *)
Theorem execute_getargs (e : env) (k : kernel) (c esp ebp kbuf command ind : Z) (l : list Z) (pc : PCB_t)
  (pid ino esp2 buf nbytes : Z) :
  executing e k c esp kbuf command ind l pc -> lowest_pid (pid_used k) = Some pid ->
  program_of k l = Some ino -> 0 <= ino < inode_count (k_mem k) (k_fs k) ->
  loadable (file_contents (k_mem k) (k_fs k) ino) -> TASK_KSTACK_TOP pid <= esp2 < TASK_KSTACK_BOT pid ->
  0 < buf -> buf + nbytes <= 4294967296 ->
  exists r k1, _syscall_execute e esp ebp kbuf command ind k = Some (r, k1) /\
    syscall_getargs esp2 buf nbytes k1 =
      Some (match kept_args (command_args l) with
            | Some a => if decide (nbytes < Z.of_nat (length a) + 1) then (-1, k1)
                        else (0, set_kmem (store_bytes (k_mem k1) buf (a ++ [0])) k1)
            | None => (-1, k1)
            end).
Proof.
  intros X Hpid Hprog Hino Hd Hesp2 Hb Hn.
  destruct (execute_start e k c esp ebp kbuf command ind l pc X pid ino Hpid Hprog Hino Hd) as (k1 & E1 & Hk1 & S).
  eexists _, k1. split; [exact E1|]. destruct (lowest_pid_in _ _ Hpid) as [Hp1 _].
  destruct (sd_pcb _ _ _ _ _ _ _ _ _ _ _ S) as (old & _ & Enew).
  apply (getargs_spec k1 pid esp2 _ buf nbytes _ ltac:(lia) Hesp2 Enew); [done| |done..].
  intros a Ha. eapply kept_args_chars; [apply (ex_command _ _ _ _ _ _ _ _ _ X)|exact Ha].
Qed.

(** ** A concrete run *)

(** A kernel without clocks in use, given other processes. *)
Lemma set_processes_ok k st used :
  kernel_ok k -> (forall fp, Some fp ∉ rtc_files (k_rtc k)) ->
  length used = Z.to_nat MAX_PROC_NUM -> Forall (fun u => u = 0 \/ u = 1) used ->
  (forall pid, 0 <= pid < MAX_PROC_NUM -> exists p, st !! TASK_KSTACK_TOP pid = Some p /\ pcb_ok p) ->
  (forall pid p, 0 <= pid < MAX_PROC_NUM -> st !! TASK_KSTACK_TOP pid = Some p ->
    pcb_pid p = pid /\ parent_ok (set_kpcbs st k) p) ->
  kernel_ok (set_pid_used used (set_kpcbs st k)).
Proof.
  intros [K1 K2 K3 K4 K5 K6 K7 K8 K9 K10] Hclock Hl Hf Hpcb Hnum. split; [| | | | | |by split|exact Hpcb| |].
  - destruct K1 as [T1 T2 T3 T4]. by split.
  - exact K2.
  - exact K3.
  - destruct K4 as [I1 I2 I3 I4 I5 I6 I7 I8]. split; try assumption. intros fp Hin. exfalso.
    apply elem_registered in Hin. by apply (Hclock fp).
  - exact K5.
  - exact K6.
  - intros pid p Hpid _ Ep. by apply Hnum.
  - intros fp Hin. exfalso. by apply (Hclock fp).
Qed.

Definition demo_kbuf : Z := TASK_KSTACK_BOT 1 - 1024.

Lemma demo_env_ok : env_ok demo_env.
Proof. split; [done|]. intros n Hn. unfold demo_env. cbn [e_array]. rewrite length_replicate. lia. Qed.

Lemma demo_executing :
  executing demo_env demo_kernel 1 demo_esp demo_kbuf 0x8100020 (-1) [115; 104; 32; 97; 32; 98] (demo_pcb 1).
Proof.
  split; [apply demo_ok|apply demo_env_ok|done|done|done|done|done|by apply demo_pcb_at|apply demo_command|done].
Qed.

(** The program "sh". *)
Lemma demo_loadable : loadable (file_contents demo_image demo_fs 1).
Proof. split; [apply Nat.leb_le; by vm_compute|by vm_compute..]. Qed.

(** The command line "hi": a file that is no program. *)
Lemma demo_executing_hi :
  executing demo_env demo_kernel 1 demo_esp demo_kbuf 0x8100000 (-1) [104; 105] (demo_pcb 1).
Proof.
  split; [apply demo_ok|apply demo_env_ok|done|done|done|done|done|by apply demo_pcb_at|apply demo_hi|done].
Qed.

Lemma execute_correct_witness :
  exists k', _syscall_execute demo_env demo_esp 0 demo_kbuf 0x8100020 (-1) demo_kernel
      = Some (Enter 0x8048018 TASK_VIRT_PAGE_END, k') /\
    pid_used k' = [0; 1; 1; 0; 0; 0; 0; 0; 0; 0].
Proof.
  destruct (execute_correct demo_env demo_kernel 1 demo_esp 0 demo_kbuf 0x8100020 (-1) [115; 104; 32; 97; 32; 98] (demo_pcb 1) 2 1)
    as (k' & E & _ & S).
  - apply demo_executing.
  - by vm_compute.
  - by vm_compute.
  - by vm_compute.
  - apply demo_loadable.
  - exists k'. split; [exact E|]. etrans; [exact (sd_used _ _ _ _ _ _ _ _ _ _ _ S)|]. reflexivity.
Defined.

Lemma execute_refused_witness :
  exists m, _syscall_execute demo_env demo_esp 0 demo_kbuf 0x8100000 (-1) demo_kernel = Some (Return (-1), set_kmem m demo_kernel).
Proof.
  destruct (proj2 (execute_refused demo_env demo_kernel 1 demo_esp 0 demo_kbuf 0x8100000 (-1) [104; 105] (demo_pcb 1)
    demo_executing_hi) 0) as (m & E & _).
  - eexists. by vm_compute.
  - by vm_compute.
  - by vm_compute.
  - vm_compute. lia.
  - intros H. vm_compute in H. discriminate H.
  - exists m. exact E.
Defined.

Lemma execute_halt_roundtrip_witness :
  exists entry k1 k3, _syscall_execute demo_env demo_esp 7 demo_kbuf 0x8100020 (-1) demo_kernel
      = Some (Enter entry TASK_VIRT_PAGE_END, k1) /\
    syscall_halt demo_env (TASK_KSTACK_BOT 2 - 64) 258 (mkCtx [] 0 0 0 0 0 0 0) k1 = Some (Resumed demo_esp 7 2, k3) /\
    pid_used k3 = pid_used demo_kernel.
Proof.
  destruct (execute_halt_roundtrip demo_env demo_kernel 1 demo_esp 7 demo_kbuf 0x8100020 [115; 104; 32; 97; 32; 98] (demo_pcb 1) 2 1)
    as (entry & k1 & E & Hk1 & H).
  - apply demo_executing.
  - lia.
  - by vm_compute.
  - by vm_compute.
  - by vm_compute.
  - apply demo_loadable.
  - reflexivity.
  - destruct (H demo_env k1 (TASK_KSTACK_BOT 2 - 64) 258 (mkCtx [] 0 0 0 0 0 0 0)) as (k3 & E3 & _ & _ & _ & U & _).
    + split; [exact Hk1|intros p1 Hp1; exists p1; split; [exact Hp1|split; reflexivity]|reflexivity|intros a _; reflexivity|reflexivity].
    + clear. unfold TASK_KSTACK_TOP, TASK_KSTACK_BOT. lia.
    + exists entry, k1, k3. split; [exact E|]. split; [exact E3|exact U].
Defined.

(** "sh a b": the program reads "a b". *)
Lemma execute_getargs_witness :
  exists r k1 k2, _syscall_execute demo_env demo_esp 0 demo_kbuf 0x8100020 (-1) demo_kernel = Some (r, k1) /\
    syscall_getargs (TASK_KSTACK_BOT 2 - 64) 0x8200000 100 k1 = Some (0, k2) /\
    load_bytes (k_mem k2) 0x8200000 4 = [97; 32; 98; 0].
Proof.
  destruct (execute_getargs demo_env demo_kernel 1 demo_esp 0 demo_kbuf 0x8100020 (-1) [115; 104; 32; 97; 32; 98] (demo_pcb 1) 2 1
    (TASK_KSTACK_BOT 2 - 64) 0x8200000 100) as (r & k1 & E & G).
  - apply demo_executing.
  - by vm_compute.
  - by vm_compute.
  - by vm_compute.
  - apply demo_loadable.
  - by vm_compute.
  - lia.
  - lia.
  - change (kept_args _) with (Some [97; 32; 98]) in G. exists r, k1, (set_kmem (store_bytes (k_mem k1) 0x8200000 [97; 32; 98; 0]) k1).
    split; [exact E|]. split; [exact G|].
    change (k_mem (set_kmem ?m k1)) with m. cbn [store_bytes]. unfold load_bytes.
    change (seqZ 0 4) with [0; 1; 2; 3]. cbn [map].
    change (u32 (0x8200000 + 0)) with 0x8200000. change (u32 (0x8200000 + 1)) with 0x8200001.
    change (u32 (0x8200000 + 2)) with 0x8200002. change (u32 (0x8200000 + 3)) with 0x8200003.
    change (u32 (0x8200001 + 1)) with 0x8200002. change (u32 (0x8200002 + 1)) with 0x8200003.
    rewrite !ld8_st8. by vm_compute.
Defined.
