(* ===== verification/Signals.v ===== *)
(** * Signals: student-distrib/signals.c and _syscall_sigreturn of syscall.c

    On the way back to user mode the kernel looks at the pending signals of the
    running task: a handler is entered with the interrupted context saved on the
    user stack, and its return restores that context through a system call;
    without a handler the first three signals end the task and the others are
    dropped. *)
From stdpp Require Import base tactics list numbers gmap option.
From Stdlib Require Import ZArith Lia.
From S2P Require Import Prelude CLib Task FileSys Term TermScreen TermSys Rtc Page Malloc Syscall Exec Fd Process.

Open Scope Z_scope.

(** ** The context on the user stack *)

(** [sizeof(hw_context_t)]: 17 words, packed. *)
Definition sizeof_context : Z := 68.

Definition ctx_words (c : hw_context_t) : list Z :=
  regs c ++ [irq_num c; error c; ctx_addr c; ctx_cs c; eflags c; ctx_esp c; ctx_ds c].

(** [*p = w0, w1, ...] and [*saved_context = *context]. *)
Fixpoint store_words (m : mem) (a : Z) (l : list Z) : mem :=
  match l with
  | [] => m
  | w :: l' => store_words (st32 m a w) (u32 (a + 4)) l'
  end.

Definition store_ctx (m : mem) (a : Z) (c : hw_context_t) : mem := store_words m a (ctx_words c).

(** The fields of the context saved at [a]. *)
Definition ctx_word (m : mem) (a i : Z) : Z := ld32 m (u32 (a + 4 * i)).

(** ** Delivery *)

(** How [check_signals] ends: it returns to the context it may have changed, or
    the task is gone and its parent resumes. *)
Inductive signal_result := Back (context : hw_context_t) | Gone (esp ebp status : Z).

(** The entry of a handler: the context, the signal's number and the address of
    [sigreturn_linkage] (an assembly routine at [linkage]) are pushed. *)
Definition push_handler (linkage i handler : Z) (context : hw_context_t) (m : mem) : mem * hw_context_t :=
  let user_esp := u32 (ctx_esp context - sizeof_context) in
  let m := store_ctx m user_esp context in
  let user_esp := u32 (user_esp - 4) in
  let m := st32 m user_esp i in
  let user_esp := u32 (user_esp - 4) in
  let m := st32 m user_esp linkage in
  (m, with_target handler user_esp context).

(** One turn of the loop over the signals. *)
Definition signal_step (linkage : Z) (e : env) (esp i : Z) '((k, context) : kernel * hw_context_t)
  : (kernel * hw_context_t) + option (signal_result * kernel) :=
  let task_pcb := get_cur_pcb esp in
  let mask := u8 (SIG_FLAG i) in
  match k_pcbs k !! task_pcb with
  | None => inr None
  | Some p =>
      if decide (Z.land (signals p) mask <> 0) then
        let p := with_signals (s8 (Z.land (signals p) (Z.lnot mask))) p in
        let k := set_kpcbs (<[task_pcb := p]> (k_pcbs k)) k in
        match arr_get (signal_handlers p) i with
        | None => inr None
        | Some handler =>
            if decide (handler <> 0) then
              let '(m, context) := push_handler linkage i handler context (k_mem k) in
              inr (Some (Back context, set_kmem m k))
            else if decide (i < 3) then
              match _syscall_halt e esp 256 context k with
              | None => inr None
              | Some (Restarted context, k) => inl (k, context)
              | Some (Resumed esp ebp status, k) => inr (Some (Gone esp ebp status, k))
              end
            else inl (k, context)
        end
      else inl (k, context)
  end.

Definition check_signals (linkage : Z) (e : env) (esp : Z) (context : hw_context_t) (k : kernel)
  : option (signal_result * kernel) :=
  p ← k_pcbs k !! get_cur_pcb esp;
  if decide (signals p = 0) then Some (Back context, k)
  else if decide (ctx_cs context <> USER_CS) then Some (Back context, k)
  else
    match for_break 0 SIG_SIZE (signal_step linkage e esp) (k, context) with
    | inl (k, context) => Some (Back context, k)
    | inr r => r
    end.

(** [_syscall_sigreturn(context)]: the stack pointer, the instruction pointer
    and the ten registers come back from the user stack; the return value is 0. *)
Definition _syscall_sigreturn (context : hw_context_t) (m : mem) : option (Z * hw_context_t) :=
  let saved := ctx_esp context in
  let context := with_target (ctx_word m saved 12) (ctx_word m saved 15) context in
  l ← for_upM 0 10 (fun i l => arr_set l i (ctx_word m saved i)) (regs context);
  Some (0, mkCtx l (irq_num context) (error context) (ctx_addr context) (ctx_cs context) (eflags context)
             (ctx_esp context) (ctx_ds context)).

(** ** The saved context *)

(** A 32-bit store changes four bytes. *)
Lemma st32_other m a v x : 0 <= a -> a + 4 <= 4294967296 -> ~ (a <= x < a + 4) -> ld8 (st32 m a v) x = ld8 m x.
Proof. intros Ha Hb Hx. unfold st32. rewrite !(u32_small (a + _)) by lia. by rewrite !ld8_st8_ne by lia. Qed.

Lemma store_words_other m a l x : 0 <= a -> a + 4 * Z.of_nat (length l) <= 4294967296 ->
  ~ (a <= x < a + 4 * Z.of_nat (length l)) -> ld8 (store_words m a l) x = ld8 m x.
Proof.
  revert m a. induction l as [|w l IH]; intros m a Ha Hl Hx; [done|]. cbn [length store_words] in *.
  destruct l as [|z l]; [cbn in *; apply st32_other; lia|]. cbn [length] in *.
  rewrite (u32_small (a + 4)) by lia. rewrite IH by (cbn [length]; lia). apply st32_other; lia.
Qed.

Lemma ld32_store_words (m : mem) a l i w :
  0 <= a -> a + 4 * Z.of_nat (length l) <= 4294967296 -> Forall (fun w => 0 <= w < 4294967296) l ->
  l !! i = Some w -> ld32 (store_words m a l) (a + 4 * Z.of_nat i) = w.
Proof.
  revert m a i. induction l as [|x l IH]; intros m a i Ha Hl Hr Hi; [done|].
  inversion_clear Hr as [|? ? Hx Hr']. cbn [length] in Hl. cbn [store_words].
  destruct i as [|i]; cbn [lookup list_lookup] in Hi.
  - injection Hi as ->. rewrite Z.add_0_r. etrans; [|apply (ld32_st32 m a w); [lia|done]].
    apply ld32_agree; [lia..|]. intros y Hy. destruct l as [|z l]; [done|]. cbn [length] in Hl.
    rewrite (u32_small (a + 4)) by lia. apply store_words_other; cbn [length]; lia.
  - destruct l as [|z l]; [done|]. cbn [length] in Hl. rewrite (u32_small (a + 4)) by lia.
    replace (a + 4 * Z.of_nat (S i)) with (a + 4 + 4 * Z.of_nat i) by lia. apply IH; [lia|cbn [length]; lia|done|done].
Qed.

(** ** Pending signals *)

Definition pending (p : PCB_t) (i : Z) : Prop := Z.testbit (signals p) i = true.

Lemma mask_test s i : 0 <= i < SIG_SIZE -> (Z.land s (u8 (SIG_FLAG i)) <> 0 <-> Z.testbit s i = true).
Proof.
  intros Hi. unfold SIG_FLAG, SIG_SIZE in *.
  assert (E : u8 (Z.shiftl 1 i) = 2 ^ i).
  { rewrite Z.shiftl_1_l. apply u8_small. pose proof (Z.pow_pos_nonneg 2 i ltac:(lia) ltac:(lia)).
    pose proof (Z.pow_le_mono_r 2 i 4 ltac:(lia) ltac:(lia)). change (2 ^ 4) with 16 in *. lia. }
  rewrite E. split.
  - intros H. destruct (Z.testbit s i) eqn:B; [done|]. exfalso. apply H. apply Z.bits_inj'. intros j Hj.
    rewrite Z.land_spec, Z.bits_0. destruct (decide (j = i)) as [->|Hne]; [by rewrite B|].
    rewrite Z.pow2_bits_false by lia. apply andb_false_r.
  - intros B H. assert (B2 : Z.testbit (Z.land s (2 ^ i)) i = true) by (rewrite Z.land_spec, B, Z.pow2_bits_true by lia; done).
    by rewrite H, Z.bits_0 in B2.
Qed.

(** The pending signals after one was taken. *)
Definition taken (i : Z) (p : PCB_t) : PCB_t := with_signals (s8 (Z.land (signals p) (Z.lnot (u8 (SIG_FLAG i))))) p.

Lemma s8_testbit z i : 0 <= i < 8 -> Z.testbit (s8 z) i = Z.testbit z i.
Proof.
  intros Hi. assert (E : s8 z mod 2 ^ 8 = z mod 2 ^ 8) by (change (2 ^ 8) with 256; wrap_lia).
  rewrite <- (Z.mod_pow2_bits_low (s8 z) 8 i), <- (Z.mod_pow2_bits_low z 8 i) by lia. by rewrite E.
Qed.

Lemma pending_taken i p j : 0 <= i < SIG_SIZE -> 0 <= j < 8 -> pending (taken i p) j <-> pending p j /\ j <> i.
Proof.
  intros Hi Hj. unfold pending, taken. cbn [signals with_signals]. rewrite s8_testbit, Z.land_spec, Z.lnot_spec by lia.
  assert (E : Z.testbit (u8 (SIG_FLAG i)) j = bool_decide (j = i)).
  { unfold SIG_FLAG. rewrite Z.shiftl_1_l. unfold u8. change 256 with (2 ^ 8). rewrite Z.mod_pow2_bits_low by lia.
    case_bool_decide as D; [subst; apply Z.pow2_bits_true; unfold SIG_SIZE in Hi; lia|apply Z.pow2_bits_false; lia]. }
  rewrite E. case_bool_decide; simpl; rewrite ?andb_false_r, ?andb_true_r; split; try done; try tauto.
Qed.

(** ** One turn of the loop *)
Section Step.
Context (linkage : Z) (e : env) (k : kernel) (c esp : Z) (p : PCB_t) (context : hw_context_t).
Context (Hc : 0 <= c < MAX_PROC_NUM) (Hesp : TASK_KSTACK_TOP c <= esp < TASK_KSTACK_BOT c).
Context (Hp : k_pcbs k !! TASK_KSTACK_TOP c = Some p).

Lemma step_not_pending i : 0 <= i < SIG_SIZE -> ~ pending p i -> signal_step linkage e esp i (k, context) = inl (k, context).
Proof.
  intros Hi Hn. unfold signal_step. rewrite (get_cur_pcb_stack c), Hp by done. cbv zeta.
  destruct (decide (Z.land (signals p) (u8 (SIG_FLAG i)) <> 0)) as [D|D]; [|done].
  exfalso. apply Hn. by apply mask_test.
Qed.

Definition taken_kernel (i : Z) : kernel := set_kpcbs (<[TASK_KSTACK_TOP c := taken i p]> (k_pcbs k)) k.

Lemma step_pending i h : 0 <= i < SIG_SIZE -> pending p i -> arr_get (signal_handlers p) i = Some h ->
  signal_step linkage e esp i (k, context) =
    if decide (h <> 0) then
      inr (Some (Back (push_handler linkage i h context (k_mem k)).2,
                 set_kmem (push_handler linkage i h context (k_mem k)).1 (taken_kernel i)))
    else if decide (i < 3) then
      match _syscall_halt e esp 256 context (taken_kernel i) with
      | None => inr None
      | Some (Restarted context, k) => inl (k, context)
      | Some (Resumed esp ebp status, k) => inr (Some (Gone esp ebp status, k))
      end
    else inl (taken_kernel i, context).
Proof.
  intros Hi Hpend Hh. unfold signal_step. rewrite (get_cur_pcb_stack c), Hp by done. cbv zeta.
  destruct (decide (Z.land (signals p) (u8 (SIG_FLAG i)) <> 0)) as [D|D];
    [|exfalso; apply D; by apply mask_test].
  cbn [signal_handlers with_signals]. rewrite Hh. destruct (decide (h <> 0)); [|done]. reflexivity.
Qed.

(** The loop up to the first pending signal. *)
Lemma loop_first_pending i : 0 <= i < SIG_SIZE -> (forall j, 0 <= j < i -> ~ pending p j) -> signals p <> 0 ->
  ctx_cs context = USER_CS ->
  check_signals linkage e esp context k =
    match fold_break (signal_step linkage e esp) (i :: seqZ (i + 1) (SIG_SIZE - (i + 1))) (k, context) with
    | inl (k, context) => Some (Back context, k)
    | inr r => r
    end.
Proof.
  intros Hi Hlow Hs Hcs. unfold check_signals. rewrite (get_cur_pcb_stack c), Hp, bind_ret by done.
  rewrite decide_False by done. rewrite decide_False by tauto. unfold for_break.
  replace (SIG_SIZE - 0) with (i + (SIG_SIZE - i)) by lia. rewrite seqZ_app by lia. rewrite Z.add_0_l.
  rewrite fold_break_skip.
  - rewrite seqZ_cons by lia. by replace (Z.pred (SIG_SIZE - i)) with (SIG_SIZE - (i + 1)) by lia.
  - intros j Hj. apply elem_of_seqZ in Hj. apply step_not_pending; [lia|]. apply Hlow. lia.
Qed.
End Step.

Lemma pending_nonzero p i : pending p i -> signals p <> 0.
Proof. unfold pending. intros H E. by rewrite E, Z.bits_0 in H. Qed.

(** ** The frame of a handler *)

(** A context of an interrupt in user mode: words, and a user stack with room
    for a frame. *)
Record user_context (c : hw_context_t) : Prop := {
  uc_cs : ctx_cs c = USER_CS;
  uc_regs : length (regs c) = 10%nat;
  uc_words : Forall (fun w => 0 <= w < 4294967296) (ctx_words c);
  uc_stack : TASK_VIRT_PAGE_BEG + 76 <= ctx_esp c <= TASK_VIRT_PAGE_END
}.

Lemma mem_ok_st32 m a v : mem_ok m -> mem_ok (st32 m a v).
Proof. intros H. unfold st32. auto 6 with kern. Qed.

Lemma mem_ok_store_words m a l : mem_ok m -> mem_ok (store_words m a l).
Proof. revert m a. induction l as [|w l IH]; intros m a H; [done|]. apply IH, mem_ok_st32, H. Qed.

Section Frame.
Context (linkage i h : Z) (c : hw_context_t) (m : mem).
Context (Hc : user_context c) (Hlink : 0 <= linkage < 4294967296) (Hi : 0 <= i < SIG_SIZE).

Abbreviation frame := (push_handler linkage i h c m).1.

Lemma frame_eq : frame = st32 (st32 (store_words m (ctx_esp c - 68) (ctx_words c)) (ctx_esp c - 72) i) (ctx_esp c - 76) linkage.
Proof.
  destruct Hc as [_ _ _ Hs]. unfold TASK_VIRT_PAGE_BEG, TASK_VIRT_PAGE_END in Hs.
  unfold push_handler, sizeof_context, store_ctx. cbv zeta. cbn [fst].
  rewrite (u32_small (ctx_esp c - 68)) by lia. rewrite (u32_small (ctx_esp c - 68 - 4)) by lia.
  rewrite (u32_small (ctx_esp c - 68 - 4 - 4)) by lia.
  replace (ctx_esp c - 68 - 4) with (ctx_esp c - 72) by lia. by replace (ctx_esp c - 72 - 4) with (ctx_esp c - 76) by lia.
Qed.

Lemma frame_context : (push_handler linkage i h c m).2 = with_target h (ctx_esp c - 76) c.
Proof.
  destruct Hc as [_ _ _ Hs]. unfold TASK_VIRT_PAGE_BEG, TASK_VIRT_PAGE_END in Hs.
  unfold push_handler, sizeof_context. cbv zeta. cbn [snd]. f_equal. rewrite (u32_small (ctx_esp c - 68)) by lia.
  rewrite (u32_small (ctx_esp c - 68 - 4)) by lia. rewrite u32_small; lia.
Qed.

Lemma frame_length : length (ctx_words c) = 17%nat.
Proof. unfold ctx_words. rewrite length_app, (uc_regs _ Hc). done. Qed.

Lemma frame_other x : ~ (ctx_esp c - 76 <= x < ctx_esp c) -> ld8 frame x = ld8 m x.
Proof.
  intros Hx. rewrite frame_eq. pose proof frame_length. destruct Hc as [_ _ _ Hs].
  unfold TASK_VIRT_PAGE_BEG, TASK_VIRT_PAGE_END in Hs.
  rewrite !st32_other by lia. apply store_words_other; lia.
Qed.

Lemma frame_word j w : ctx_words c !! j = Some w -> ld32 frame (ctx_esp c - 68 + 4 * Z.of_nat j) = w.
Proof.
  intros Hw. pose proof frame_length. pose proof (lookup_lt_Some _ _ _ Hw). destruct Hc as [_ _ Hws Hs].
  unfold TASK_VIRT_PAGE_BEG, TASK_VIRT_PAGE_END in Hs. rewrite frame_eq.
  etrans; [|apply (ld32_store_words m (ctx_esp c - 68) (ctx_words c) j w); [lia|lia|done|done]].
  apply ld32_agree; [lia|lia|]. intros x Hx. by rewrite !st32_other by lia.
Qed.

Lemma frame_top : ld32 frame (ctx_esp c - 76) = linkage /\ ld32 frame (ctx_esp c - 72) = i.
Proof.
  destruct Hc as [_ _ _ Hs]. unfold TASK_VIRT_PAGE_BEG, TASK_VIRT_PAGE_END, SIG_SIZE in *. rewrite frame_eq. split.
  - apply ld32_st32; lia.
  - etrans; [|apply (ld32_st32 (store_words m (ctx_esp c - 68) (ctx_words c)) (ctx_esp c - 72) i); lia].
    apply ld32_agree; [lia|lia|]. intros x Hx. by rewrite st32_other by lia.
Qed.

Lemma frame_ok : mem_ok m -> mem_ok frame.
Proof. intros Hm. rewrite frame_eq. by apply mem_ok_st32, mem_ok_st32, mem_ok_store_words. Qed.
End Frame.

(** *** Its return *)

(** The system call made with the stack pointer at a saved context restores
    the context: the registers, the instruction pointer and the stack pointer;
    the rest is that of the call itself. *)
Lemma sigreturn_spec m (c c2 : hw_context_t) :
  user_context c -> ctx_esp c2 = ctx_esp c - 68 -> length (regs c2) = 10%nat ->
  (forall j w, ctx_words c !! j = Some w -> ld32 m (ctx_esp c - 68 + 4 * Z.of_nat j) = w) ->
  _syscall_sigreturn c2 m = Some (0, mkCtx (regs c) (irq_num c2) (error c2) (ctx_addr c) (ctx_cs c2) (eflags c2)
                                       (ctx_esp c) (ctx_ds c2)).
Proof.
  intros Hc Hesp Hr2 Hw. pose proof (uc_regs _ Hc) as Hr. pose proof (uc_stack _ Hc) as Hs.
  unfold TASK_VIRT_PAGE_BEG, TASK_VIRT_PAGE_END in Hs.
  assert (Hword : forall j w, ctx_words c !! j = Some w -> ctx_word m (ctx_esp c2) (Z.of_nat j) = w).
  { intros j w E. unfold ctx_word. pose proof (lookup_lt_Some _ _ _ E) as Hl. rewrite frame_length in Hl by done.
    rewrite u32_small by lia. rewrite Hesp. by apply Hw. }
  assert (Ea : ctx_word m (ctx_esp c2) 12 = ctx_addr c).
  { apply (Hword 12%nat). unfold ctx_words. rewrite lookup_app_r by lia. by rewrite Hr. }
  assert (Ee : ctx_word m (ctx_esp c2) 15 = ctx_esp c).
  { apply (Hword 15%nat). unfold ctx_words. rewrite lookup_app_r by lia. by rewrite Hr. }
  unfold _syscall_sigreturn. cbv zeta. cbn [regs with_target].
  destruct (for_upM_ind (fun i l => length l = 10%nat /\ take (Z.to_nat i) l = take (Z.to_nat i) (regs c)) 0 10
    (fun i l => arr_set l i (ctx_word m (ctx_esp c2) i)) (regs c2)) as (l & El & Hl & Et); [lia|done| |].
  - intros i l Hi [Hl Ht]. rewrite arr_set_Some by lia. eexists. split; [done|].
    split; [by rewrite length_insert|]. replace (Z.to_nat (i + 1)) with (Z.to_nat i + 1)%nat by lia.
    rewrite take_insert_snoc by lia. rewrite Ht.
    destruct (lookup_lt_is_Some_2 (regs c) (Z.to_nat i)) as [w E]; [lia|].
    rewrite Nat.add_1_r, (take_S_r _ _ w E). do 2 f_equal. rewrite <- (Z2Nat.id i) at 1 by lia. apply Hword.
    unfold ctx_words. rewrite lookup_app_l by lia. exact E.
  - change (Z.to_nat 10) with 10%nat in Et. rewrite !firstn_all2 in Et by lia. subst l.
    rewrite El, bind_ret. cbn [irq_num error ctx_addr ctx_cs eflags ctx_esp ctx_ds with_target]. by rewrite Ea, Ee.
Qed.

(** ** Delivery, without the loop *)

(** The lowest pending signal. *)
Definition lowest_pending (p : PCB_t) (i : Z) : Prop :=
  0 <= i < SIG_SIZE /\ pending p i /\ forall j, 0 <= j < i -> ~ pending p j.

(** A task about to return to user mode with the context of its interrupt. *)
Record returning (k : kernel) (c esp : Z) (p : PCB_t) (context : hw_context_t) : Prop := {
  rt_kernel : kernel_ok k;
  rt_pid : 1 <= c < MAX_PROC_NUM;
  rt_used : pid_in_use k c;
  rt_stack : TASK_KSTACK_TOP c <= esp < TASK_KSTACK_BOT c;
  rt_pcb : k_pcbs k !! TASK_KSTACK_TOP c = Some p;
  rt_context : user_context context
}.

Lemma taken_pcb_ok i p : pcb_ok p -> pcb_ok (taken i p).
Proof. intros [H1 H2 H3]. by split. Qed.

Section Deliver.
Context (linkage : Z) (e : env) (k : kernel) (c esp : Z) (p : PCB_t) (context : hw_context_t).
Context (R : returning k c esp p context).

Lemma returning_pcb_ok : pcb_ok p.
Proof.
  destruct R as [Hk Hc _ _ Ep _]. destruct (ko_pcb _ Hk c) as (q & Eq & Hq); [lia|]. rewrite Ep in Eq. by injection Eq as <-.
Qed.

Lemma taken_kernel_ok i : kernel_ok (taken_kernel k c p i).
Proof.
  destruct R as [Hk _ _ _ Ep _]. apply (pcb_update_ok k _ p (taken i p) Hk Ep); try done.
  apply taken_pcb_ok, returning_pcb_ok.
Qed.

(** The frame of a handler lies in the user page: the invariant survives it. *)
Lemma frame_kernel_ok i h : 0 <= linkage < 4294967296 -> 0 <= i < SIG_SIZE ->
  kernel_ok (set_kmem (push_handler linkage i h context (k_mem k)).1 (taken_kernel k c p i)).
Proof.
  intros Hl Hi. pose proof (rt_kernel _ _ _ _ _ R) as Hk. pose proof (rt_context _ _ _ _ _ R) as Hu.
  apply set_kmem_ok; [apply taken_kernel_ok| |].
  - apply frame_ok; [done..|]. apply (wf_mem _ _ (ko_fs _ Hk)).
  - intros x Hx. change (k_mem (taken_kernel k c p i)) with (k_mem k). apply frame_other; [done..|].
    destruct (ko_image _ Hk) as [_ Himg]. unfold in_image in Hx. change (k_fs (taken_kernel k c p i)) with (k_fs k) in Hx.
    change (k_mem (taken_kernel k c p i)) with (k_mem k) in Hx. pose proof (uc_stack _ Hu) as Hs.
    unfold KSTACKS, TASK_KSTACK_TOP, MAX_PROC_NUM, TASK_VIRT_PAGE_BEG in *. lia.
Qed.

Lemma deliver i h : 0 <= linkage < 4294967296 -> lowest_pending p i -> arr_get (signal_handlers p) i = Some h ->
  h <> 0 ->
  check_signals linkage e esp context k =
    Some (Back (with_target h (ctx_esp context - 76) context),
          set_kmem (push_handler linkage i h context (k_mem k)).1 (taken_kernel k c p i)).
Proof.
  intros Hl (Hi & Hpend & Hlow) Hh Hne. destruct R as [Hk Hc _ Hesp Ep Hu].
  rewrite (loop_first_pending linkage e k c esp p context ltac:(lia) Hesp Ep i Hi Hlow (pending_nonzero _ _ Hpend) (uc_cs _ Hu)).
  cbn [fold_break]. rewrite (step_pending linkage e k c esp p context ltac:(lia) Hesp Ep i h Hi Hpend Hh).
  rewrite decide_True by done. by rewrite frame_context.
Qed.

(** No handler, and one of the first three signals: the task is halted. *)
Lemma default_halt i pp q : lowest_pending p i -> arr_get (signal_handlers p) i = Some 0 -> i < 3 ->
  parent p = TASK_KSTACK_TOP pp -> 1 <= pp < MAX_PROC_NUM -> k_pcbs k !! TASK_KSTACK_TOP pp = Some q -> pcb_pid q = pp ->
  c <> pp ->
  exists k', check_signals linkage e esp context k = Some (Gone (pcb_esp q) (pcb_ebp q) 256, k') /\
    halted (taken_kernel k c p i) k' c (taken i p) pp /\ kernel_ok k'.
Proof.
  intros (Hi & Hpend & Hlow) Hh H3 Hpar Hpp Hq Nq Hne. pose proof (taken_kernel_ok i) as Hkt. destruct R as [Hk Hc Hused Hesp Ep Hu].
  assert (Ept : k_pcbs (taken_kernel k c p i) !! TASK_KSTACK_TOP c = Some (taken i p)) by apply lookup_insert_eq.
  assert (Eqt : k_pcbs (taken_kernel k c p i) !! TASK_KSTACK_TOP pp = Some q).
  { etrans; [|exact Hq]. apply lookup_insert_ne. intros E. by apply Hne, TASK_KSTACK_TOP_inj. }
  destruct (halt_child e _ c esp (taken i p) Hkt Hc Hused Hesp Ept 256 context pp q Hpar Hpp Eqt Nq) as (k' & Eh & Hh' & Hk').
  exists k'. split; [|done].
  rewrite (loop_first_pending linkage e k c esp p context ltac:(lia) Hesp Ep i Hi Hlow (pending_nonzero _ _ Hpend) (uc_cs _ Hu)).
  cbn [fold_break]. rewrite (step_pending linkage e k c esp p context ltac:(lia) Hesp Ep i 0 Hi Hpend Hh).
  rewrite (decide_False (P := 0 <> 0)) by lia. rewrite decide_True by done. by rewrite Eh.
Qed.

(** Signals 3 and 4 without a handler are dropped. *)
Lemma ignore_loop l : forall s, Forall (fun i => 0 <= i < SIG_SIZE) l ->
  (forall i, i ∈ l -> Z.testbit s i = true -> 3 <= i /\ arr_get (signal_handlers p) i = Some 0) ->
  exists s', fold_break (signal_step linkage e esp) l (set_kpcbs (<[TASK_KSTACK_TOP c := with_signals s p]> (k_pcbs k)) k, context)
      = inl (set_kpcbs (<[TASK_KSTACK_TOP c := with_signals s' p]> (k_pcbs k)) k, context) /\
    forall j, 0 <= j < 8 -> Z.testbit s' j = true <-> Z.testbit s j = true /\ j ∉ l.
Proof.
  destruct R as [Hk Hc Hused Hesp Ep Hu]. induction l as [|i l IH]; intros s Hl Hdrop; [exists s; split; [done|set_solver]|].
  inversion_clear Hl as [|? ? Hi Hl']. cbn [fold_break].
  set (ks := set_kpcbs (<[TASK_KSTACK_TOP c := with_signals s p]> (k_pcbs k)) k).
  assert (Es : k_pcbs ks !! TASK_KSTACK_TOP c = Some (with_signals s p)) by apply lookup_insert_eq.
  destruct (Z.testbit s i) eqn:B.
  - destruct (Hdrop i ltac:(set_solver) B) as [H3 Hh].
    rewrite (step_pending linkage e ks c esp (with_signals s p) context ltac:(lia) Hesp Es i 0 Hi B Hh).
    rewrite (decide_False (P := 0 <> 0)) by lia. rewrite decide_False by lia.
    assert (E : taken_kernel ks c (with_signals s p) i
                = set_kpcbs (<[TASK_KSTACK_TOP c := with_signals (signals (taken i (with_signals s p))) p]> (k_pcbs k)) k).
    { unfold taken_kernel, ks, set_kpcbs, k_pcbs, set_ts, set_pcbs. cbn [k_ts pcbs k_rtc k_fs k_paging k_mapped k_pages tss pid_used].
      by rewrite insert_insert_eq. }
    rewrite E. pose proof (pending_taken i (with_signals s p)) as Hpt. unfold pending in Hpt. cbn [signals with_signals] in Hpt.
    destruct (IH (signals (taken i (with_signals s p))) Hl') as (s' & E' & Hs').
    + intros j Hj Bj. apply Hdrop; [set_solver|]. rewrite list.Forall_forall in Hl'. specialize (Hl' j Hj). unfold SIG_SIZE in Hl'.
      by apply (proj1 (Hpt j Hi ltac:(lia)) Bj).
    + exists s'. split; [exact E'|]. intros j Hj. rewrite Hs', (Hpt j Hi) by done. set_solver.
  - rewrite (step_not_pending linkage e ks c esp (with_signals s p) context ltac:(lia) Hesp Es i Hi).
    + destruct (IH s Hl') as (s' & E' & Hs'); [intros j Hj; apply Hdrop; set_solver|]. exists s'. split; [exact E'|].
      intros j Hj. rewrite Hs' by done. destruct (decide (j = i)) as [->|]; [rewrite B|]; set_solver.
    + unfold pending. cbn [signals with_signals]. by rewrite B.
Qed.

Lemma ignore : signals p <> 0 ->
  (forall i, 0 <= i < SIG_SIZE -> pending p i -> 3 <= i /\ arr_get (signal_handlers p) i = Some 0) ->
  exists s, check_signals linkage e esp context k =
      Some (Back context, set_kpcbs (<[TASK_KSTACK_TOP c := with_signals s p]> (k_pcbs k)) k) /\
    forall j, 0 <= j < 8 -> Z.testbit s j = true <-> pending p j /\ SIG_SIZE <= j.
Proof.
  intros Hs Hdrop. destruct (ignore_loop (seqZ 0 SIG_SIZE) (signals p)) as (s & E & Hsig).
  - apply list.Forall_forall. intros i Hi. by apply elem_of_seqZ in Hi.
  - intros i Hi. apply elem_of_seqZ in Hi. by apply Hdrop.
  - destruct R as [Hk Hc Hused Hesp Ep Hu]. exists s. split.
    + unfold check_signals. rewrite (get_cur_pcb_stack c), Ep, bind_ret by (done || lia).
      rewrite decide_False by done. rewrite decide_False by (intros Hn; by apply Hn, uc_cs).
      unfold for_break. change (SIG_SIZE - 0) with SIG_SIZE.
      assert (Ek : set_kpcbs (<[TASK_KSTACK_TOP c := with_signals (signals p) p]> (k_pcbs k)) k = k).
      { replace (with_signals (signals p) p) with p by (by destruct p). rewrite insert_id by done.
        destruct k as [ts ? ? ? ? ? ? ?]. by destruct ts. }
      rewrite Ek in E. by rewrite E.
    + intros j Hj. rewrite Hsig by done. rewrite elem_of_seqZ. unfold pending, SIG_SIZE. intuition lia.
Qed.
End Deliver.

(** ** Properties *)

(** C11: A handler is a detour.  The lowest pending signal with a handler enters
    it at its address with a frame below the interrupted stack pointer, above
    the linkage and the signal's number, nothing else in memory changed and only
    this signal taken; when the handler has returned to the linkage, the system
    call it makes restores every register, the instruction pointer and the
    stack pointer of the interruption. *)
Theorem handler_roundtrip (linkage : Z) (e : env) (k : kernel) (c esp : Z) (p : PCB_t) (context : hw_context_t) (i h : Z) :
  returning k c esp p context -> 0 <= linkage < 4294967296 -> lowest_pending p i ->
  arr_get (signal_handlers p) i = Some h -> h <> 0 ->
  exists k', check_signals linkage e esp context k = Some (Back (with_target h (ctx_esp context - 76) context), k') /\
    kernel_ok k' /\
    (forall a, ~ (ctx_esp context - 76 <= a < ctx_esp context) -> ld8 (k_mem k') a = ld8 (k_mem k) a) /\
    ld32 (k_mem k') (ctx_esp context - 76) = linkage /\ ld32 (k_mem k') (ctx_esp context - 72) = i /\
    k_pcbs k' = <[TASK_KSTACK_TOP c := with_signals (signals (taken i p)) p]> (k_pcbs k) /\
    (forall j, 0 <= j < 8 -> pending (taken i p) j <-> pending p j /\ j <> i) /\
    (forall m ctx, ctx_esp ctx = ctx_esp context - 68 -> length (regs ctx) = 10%nat ->
      (forall a, ctx_esp context - 68 <= a < ctx_esp context -> ld8 m a = ld8 (k_mem k') a) ->
      _syscall_sigreturn ctx m
      = Some (0, mkCtx (regs context) (irq_num ctx) (error ctx) (ctx_addr context) (ctx_cs ctx) (eflags ctx)
                   (ctx_esp context) (ctx_ds ctx))).
Proof.
  intros R Hl Hlow Hh Hne. pose proof (rt_context _ _ _ _ _ R) as Hu. destruct (proj1 Hlow) as [Hi0 Hi].
  destruct (frame_top linkage i h context (k_mem k) Hu Hl ltac:(done)) as [Ht1 Ht2].
  eexists. split; [by apply (deliver linkage e k c esp p context R i h)|].
  split; [by apply (frame_kernel_ok linkage k c esp p context R)|].
  split; [by apply frame_other|]. split; [exact Ht1|]. split; [exact Ht2|]. split; [done|].
  split; [intros j Hj; by apply pending_taken|].
  intros m ctx Hesp Hr Hm. apply sigreturn_spec; [done..|]. intros j w Hw.
  pose proof (frame_length context Hu) as Hlen. pose proof (lookup_lt_Some _ _ _ Hw) as Hj.
  pose proof (uc_stack _ Hu) as Hs. unfold TASK_VIRT_PAGE_BEG, TASK_VIRT_PAGE_END in Hs.
  rewrite <- (frame_word linkage i h context (k_mem k) Hu j w Hw).
  apply ld32_agree; [lia..|]. intros x Hx. apply Hm. lia.
Qed.

(** Without a handler, the lowest pending signal ends the task when it is
    a division by zero, a bad access or the interrupt key: its parent's execute
    resumes with status 256.  An alarm or user signal alone is dropped.  With no
    signal pending, or on the way back to the kernel, nothing happens. *)
Theorem default_actions (linkage : Z) (e : env) (k : kernel) (c esp : Z) (p : PCB_t) (context : hw_context_t) :
  returning k c esp p context ->
  (forall i pp q, lowest_pending p i -> arr_get (signal_handlers p) i = Some 0 -> i < 3 ->
    1 <= pp < MAX_PROC_NUM -> pp <> c -> parent p = TASK_KSTACK_TOP pp -> k_pcbs k !! TASK_KSTACK_TOP pp = Some q ->
    pcb_pid q = pp ->
    exists k', check_signals linkage e esp context k = Some (Gone (pcb_esp q) (pcb_ebp q) 256, k') /\ kernel_ok k' /\
      k_mapped k' = TASK_PAGE_INDEX pp /\ pid_used k' = <[Z.to_nat c := 0]> (pid_used k) /\
      (forall fp, Some fp ∈ rtc_files (k_rtc k') -> fp.1 <> TASK_KSTACK_TOP c)) /\
  (signals p <> 0 ->
    (forall i, 0 <= i < SIG_SIZE -> pending p i -> 3 <= i /\ arr_get (signal_handlers p) i = Some 0) ->
    exists s, check_signals linkage e esp context k =
        Some (Back context, set_kpcbs (<[TASK_KSTACK_TOP c := with_signals s p]> (k_pcbs k)) k) /\
      forall i, 0 <= i < SIG_SIZE -> ~ pending (with_signals s p) i) /\
  (signals p = 0 -> check_signals linkage e esp context k = Some (Back context, k)) /\
  (forall ctx, ctx_cs ctx <> USER_CS -> check_signals linkage e esp ctx k = Some (Back ctx, k)).
Proof.
  intros R. split_and!.
  - intros i pp q Hlow Hh H3 Hpp Hne Hpar Eq Nq.
    destruct (default_halt linkage e k c esp p context R i pp q Hlow Hh H3 Hpar Hpp Eq Nq ltac:(done)) as (k' & E & H & Hk').
    exists k'. split; [exact E|]. split; [done|]. split; [apply H|]. split; [apply H|].
    intros fp Hin. by destruct (hd_clock _ _ _ _ _ H fp Hin).
  - intros Hs Hdrop. destruct (ignore linkage e k c esp p context R Hs Hdrop) as (s & E & Hsig).
    exists s. split; [exact E|]. intros i Hi Hp. unfold SIG_SIZE in *. apply Hsig in Hp; [lia|lia].
  - intros Hs. destruct R as [Hk Hc _ Hesp Ep _]. unfold check_signals.
    rewrite (get_cur_pcb_stack c), Ep, bind_ret by (done || lia). by rewrite decide_True.
  - intros ctx Hcs. destruct R as [Hk Hc _ Hesp Ep _]. unfold check_signals.
    rewrite (get_cur_pcb_stack c), Ep, bind_ret by (done || lia). case_decide; [done|]. by rewrite decide_True.
Qed.

(** ** A concrete run *)

(** Process 2, child of process 1, with the given signals and handlers. *)
Definition demo_child (s : Z) (hs : list Z) : PCB_t :=
  mkPCB (open_files (demo_pcb 2)) (TASK_KSTACK_TOP 1) None 0 0 s 2 0 1 hs.

Definition demo_family (s : Z) (hs : list Z) : kernel :=
  set_pid_used ([0; 1; 1] ++ replicate 7 0) (set_kpcbs (<[TASK_KSTACK_TOP 2 := demo_child s hs]> demo_pcbs) demo_kernel).

Definition demo_context : hw_context_t := mkCtx [1; 2; 3; 4; 5; 6; 7; 8; 9; 10] 0 0 0x8048100 USER_CS 0x202 0x8300000 USER_DS.

Lemma family_pcb s hs pid : 0 <= pid < MAX_PROC_NUM ->
  (<[TASK_KSTACK_TOP 2 := demo_child s hs]> demo_pcbs) !! TASK_KSTACK_TOP pid
  = Some (if decide (pid = 2) then demo_child s hs else demo_pcb pid).
Proof.
  intros H. case_decide as D; [subst; apply lookup_insert_eq|].
  rewrite lookup_insert_ne; [by apply demo_pcb_at|]. intros E. by apply TASK_KSTACK_TOP_inj in E.
Qed.

Lemma demo_returning s hs : length hs = 5%nat ->
  returning (demo_family s hs) 2 (TASK_KSTACK_BOT 2 - 64) (demo_child s hs) demo_context.
Proof.
  intros Hhs. split; [|done|done|done|by apply lookup_insert_eq|].
  - apply set_processes_ok; [apply demo_ok| |done| | |].
    + intros fp H. change (rtc_files (k_rtc demo_kernel)) with (replicate 10 (@None fptr)) in H.
      by apply elem_of_replicate in H as [[=] _].
    + repeat constructor; by (left + right).
    + intros pid H. rewrite family_pcb by done. eexists. split; [done|]. case_decide; by split.
    + intros pid p H Ep. rewrite family_pcb in Ep by done. injection Ep as <-. case_decide as D; [|split; [done|by left]].
      subst pid. split; [done|]. right. exists 1, (demo_pcb 1). do 2 (split; [done|]). split; [|done]. by apply (family_pcb s hs 1).
  - by split; try done; repeat constructor.
Qed.

(** The alarm (signal 3) with a handler at 0x8048500. *)
Lemma handler_roundtrip_witness :
  exists k', check_signals 0x400abc demo_env (TASK_KSTACK_BOT 2 - 64) demo_context (demo_family 8 [0; 0; 0; 0x8048500; 0])
      = Some (Back (with_target 0x8048500 (0x8300000 - 76) demo_context), k') /\
    ld32 (k_mem k') (0x8300000 - 72) = 3 /\
    _syscall_sigreturn (mkCtx (replicate 10 0) 0 0 0 USER_CS 0x246 (0x8300000 - 68) USER_DS) (k_mem k')
    = Some (0, mkCtx [1; 2; 3; 4; 5; 6; 7; 8; 9; 10] 0 0 0x8048100 USER_CS 0x246 0x8300000 USER_DS).
Proof.
  destruct (handler_roundtrip 0x400abc demo_env (demo_family 8 [0; 0; 0; 0x8048500; 0]) 2 (TASK_KSTACK_BOT 2 - 64)
    (demo_child 8 [0; 0; 0; 0x8048500; 0]) demo_context 3 0x8048500) as (k' & E & _ & _ & _ & Ei & _ & _ & Hr).
  - by apply demo_returning.
  - done.
  - split; [done|]. split; [done|]. intros j Hj. unfold pending. assert (j = 0 \/ j = 1 \/ j = 2) as [->|[->| ->]] by lia; done.
  - done.
  - done.
  - exists k'. split; [exact E|]. split; [exact Ei|].
    rewrite (Hr (k_mem k') (mkCtx (replicate 10 0) 0 0 0 USER_CS 0x246 (0x8300000 - 68) USER_DS)); clear; done.
Defined.

(** A bad access without a handler; an alarm without one. *)
Lemma default_actions_witness :
  (exists k', check_signals 0x400abc demo_env (TASK_KSTACK_BOT 2 - 64) demo_context (demo_family 10 (replicate 5 0))
      = Some (Gone 0 0 256, k') /\ k_mapped k' = TASK_PAGE_INDEX 1 /\ pid_used k' = [0; 1; 0] ++ replicate 7 0) /\
  (exists s, check_signals 0x400abc demo_env (TASK_KSTACK_BOT 2 - 64) demo_context (demo_family 8 (replicate 5 0))
      = Some (Back demo_context, set_kpcbs (<[TASK_KSTACK_TOP 2 := with_signals s (demo_child 8 (replicate 5 0))]>
          (k_pcbs (demo_family 8 (replicate 5 0)))) (demo_family 8 (replicate 5 0)))).
Proof.
  split.
  - destruct (default_actions 0x400abc demo_env (demo_family 10 (replicate 5 0)) 2 (TASK_KSTACK_BOT 2 - 64)
      (demo_child 10 (replicate 5 0)) demo_context) as (H & _); [by apply demo_returning|].
    destruct (H 1 1 (demo_pcb 1)) as (k' & E & _ & Em & Eu & _).
    + split; [done|]. split; [done|]. intros j Hj. unfold pending. assert (j = 0) as -> by lia. done.
    + done.
    + lia.
    + done.
    + done.
    + done.
    + by vm_compute.
    + done.
    + exists k'. split; [exact E|]. split; [exact Em|exact Eu].
  - destruct (default_actions 0x400abc demo_env (demo_family 8 (replicate 5 0)) 2 (TASK_KSTACK_BOT 2 - 64)
      (demo_child 8 (replicate 5 0)) demo_context) as (_ & H & _); [by apply demo_returning|].
    destruct H as (s & E & _).
    + done.
    + intros i Hi Hp. unfold SIG_SIZE in Hi. assert (i = 0 \/ i = 1 \/ i = 2 \/ i = 3 \/ i = 4) as [->|[->|[->|[->| ->]]]] by lia; done.
    + exists s. exact E.
Defined.
