(* ===== verification/Sched.v ===== *)
(** * The scheduler: student-distrib/scheduling.c

    Every tick of the interval timer moves on to the next terminal and switches
    to the process in front of it, or starts a shell there; the running process
    leaves its stack and frame pointers in its PCB and gets them back when its
    terminal's turn comes again. *)
From stdpp Require Import base tactics list numbers gmap option.
From Stdlib Require Import ZArith Lia.
From S2P Require Import Prelude CLib Task FileSys Term TermScreen TermSys Rtc I8259 Page Malloc Syscall Exec Fd Process.

Open Scope Z_scope.

Definition CLOCK_TICK_RATE : Z := 1193182.
Definition _33HZ_DIV : Z := 36157.
Definition PIT_DATA0_PORT : Z := 0x40.
Definition PIT_CMD_REG : Z := 0x43.
Definition PIT_MODE3 : Z := 0x36.
Definition PIT_IRQNUM : Z := 0.

(** ** The timer *)

(** The writes to the timer of [init_pit], and its line enabled; its gate in the
    IDT is that of idt.c. *)
Definition init_pit (p : pic) : pic :=
  let set_30MS := Z.quot CLOCK_TICK_RATE _33HZ_DIV in
  let p := pic_outb PIT_MODE3 PIT_CMD_REG p in
  let p := pic_outb (Z.land set_30MS 0xFF) PIT_DATA0_PORT p in
  let p := pic_outb (Z.shiftr set_30MS 8) PIT_DATA0_PORT p in
  enable_irq PIT_IRQNUM p.

(** ** A tick *)

Record sched := mkSched {
  s_kernel : kernel;
  cur_proc_ind : Z;            (* uint8_t, static in pit_isr *)
  s_pic : pic
}.

(** Where a tick finds the machine: the stack and frame pointers of [pit_isr],
    those of a call of [_syscall_execute] it makes with its local buffer, the
    address of the string "shell", and what the uninitialised [next_pid] holds. *)
Record tick := mkTick {
  t_esp : Z;
  t_ebp : Z;
  t_xesp : Z;
  t_xebp : Z;
  t_kbuf : Z;
  t_shell : Z;
  t_next_pid : Z
}.

(** How a tick ends: on the stack it started on, in user mode in a new shell, or
    on another process's stack. *)
Inductive tick_result := Stay | Entered (entry_addr esp : Z) | Switched (esp ebp : Z).

(** The second half of [pit_isr], from the setup of the next process's paging. *)
Definition switch_to (esp ebp next_pid : Z) (k : kernel) : option (tick_result * kernel) :=
  let cur_proc := get_cur_pcb esp in
  let next_proc := TASK_KSTACK_TOP next_pid in
  pg ← set_task_page next_pid (k_paging k);
  let k := set_paging pg k in
  np ← k_pcbs k !! next_proc;
  pg ← set_vidmap_page (if decide (term_ind np <> cur_term_ind (k_ts k)) then BACKGROUND_1 + term_ind np
                        else VID_MEM_ADDR) (k_paging k);
  let k := set_paging pg k in
  let k := set_tss (mkTss (TASK_KSTACK_BOT next_pid) KERNEL_DS) k in
  k ← load_cr3 k;
  k ← on_pcb cur_proc (with_saved esp ebp) k;
  np ← k_pcbs k !! next_proc;
  Some (Switched (pcb_esp np) (pcb_ebp np), k).

(** What follows the choice of the next process: back to the interrupted one if
    it is the same, otherwise the switch. *)
Definition pit_rest (t : tick) (next_pid : Z) (k : kernel) : option (tick_result * kernel) :=
  p ← k_pcbs k !! get_cur_pcb (t_esp t);
  if decide (pcb_pid p = next_pid) then Some (Stay, k) else switch_to (t_esp t) (t_ebp t) next_pid k.

Definition pit_isr (e : env) (t : tick) (s : sched) : option (tick_result * sched) :=
  let pic := send_eoi PIT_IRQNUM (s_pic s) in
  let cur_proc := get_cur_pcb (t_esp t) in
  if decide (cur_proc = 0) then Some (Stay, mkSched (s_kernel s) (cur_proc_ind s) pic)
  else
    let ind := u8 (Z.rem (cur_proc_ind s + 1) TERM_NUM) in
    let next next_pid k := '(r, k) ← pit_rest t next_pid k; Some (r, mkSched k ind pic) in
    term ← arr_get (terms (k_ts (s_kernel s))) ind;
    if decide (cur_pid term = 0) then
      '(r, k) ← _syscall_execute e (t_xesp t) (t_xebp t) (t_kbuf t) (t_shell t) ind (s_kernel s);
      match r with
      | Enter entry_addr esp => Some (Entered entry_addr esp, mkSched k ind pic)
      | Return _ => next (t_next_pid t) k
      end
    else next (cur_pid term) (s_kernel s).

(** ** A tick left behind *)

(** A tick that starts a shell does not return: [_syscall_execute] leaves for user
    mode, and the pointers it saves for the interrupted process are those of its
    own frame.  Whoever switches to that process therefore returns from the call
    of execute into this old activation of [pit_isr], which goes on behind the
    call with [next_pid] never set.  The ticks left behind, by process: *)
Abbreviation left_behind := (gmap Z tick).

(** The process whose kernel stack holds [esp]. *)
Definition stack_pid (esp : Z) : Z := (0x800000 - get_cur_pcb esp) / 0x2000 - 1.

(** The processor goes on with the pointers [esp] and [ebp].  If they lead into
    the call of execute of a tick left behind, that tick goes on, and may switch
    again. *)
Fixpoint go_on (fuel : nat) (left : left_behind) (esp ebp : Z) (k : kernel) : option (left_behind * kernel) :=
  match left !! stack_pid esp with
  | None => Some (left, k)
  | Some t =>
      if decide (esp = t_xesp t /\ ebp = t_xebp t) then
        match fuel with
        | O => None
        | S fuel =>
            '(r, k) ← pit_rest t (t_next_pid t) k;
            let left := delete (stack_pid esp) left in
            match r with
            | Switched esp ebp => go_on fuel left esp ebp k
            | _ => Some (left, k)
            end
        end
      else Some (left, k)
  end.

(** What becomes of the machine after [pit_isr] has left it with [r]: the ticks
    left behind, and the kernel.  Each tick left behind goes on at most once, so
    their number is fuel enough. *)
Definition after_tick (t : tick) (left : left_behind) (r : tick_result) (k : kernel) : option (left_behind * kernel) :=
  match r with
  | Stay => Some (left, k)
  | Entered _ _ => Some (<[stack_pid (t_esp t) := t]> left, k)
  | Switched esp ebp => go_on (size left) left esp ebp k
  end.

(** ** The switch *)

(** Remapping the user page keeps the invariant. *)
Lemma remap_ok vt ut q vp p k :
  kernel_ok k -> paging_ok vt ut q vp p -> kernel_ok (map_page q (set_paging p k)).
Proof.
  intros Hk Hp. destruct (map_page_ok q (set_paging p k) (wf_mem _ _ (ko_fs _ Hk)) (ko_pages _ Hk)) as [Hm Hps].
  pose proof (map_page_mem q (set_paging p k)) as Hmem.
  destruct (map_page_eq q (set_paging p k)) as (m & ps & E). rewrite E in Hm, Hps, Hmem |- *.
  assert (HK : image_kept (k_mem k) (k_fs k) m).
  { intros a Ha. change (k_mem (with_memory m q ps (set_paging p k))) with m in Hmem. rewrite Hmem.
    rewrite decide_False; [done|]. destruct (ko_image _ Hk) as [_ Hi]. unfold in_image, user_address, KSTACKS in *.
    unfold TASK_KSTACK_TOP, MAX_PROC_NUM, TASK_VIRT_PAGE_BEG in *. lia. }
  destruct Hk as [K1 K2 K3 K4 K5 K6 K7 K8 K9 K10]. split; [| |exact Hps|exact K4| | |exact K7|exact K8|exact K9|exact K10].
  - destruct K1 as [T1 T2 T3 T4]. by split.
  - by exists vt, ut, vp.
  - by apply (fs_wf_kept _ _ K5).
  - destruct (counts_kept _ _ K5 m HK) as [E1 E2].
    change (0x400000 <= bblock_ptr (k_fs k) /\ bblock_ptr (k_fs k) + image_size m (k_fs k) <= KSTACKS).
    unfold image_size in *. by rewrite E1, E2.
Qed.

Lemma set_tss_ok t k : kernel_ok k -> kernel_ok (set_tss t k).
Proof. intros [K1 K2 K3 K4 K5 K6 K7 K8 K9 K10]. by split. Qed.

(** What a switch from process [c] (with PCB [p]) to process [pid] (with PCB
    [q]) leaves. *)
Record switched (k k' : kernel) (c esp ebp : Z) (p : PCB_t) (pid : Z) (q : PCB_t) : Prop := {
  sw_page : k_mapped k' = TASK_PAGE_INDEX pid;
  sw_user : forall u a, user_address a -> page_byte k' u a = page_byte k u a;
  sw_kernel : forall a, ~ user_address a -> ld8 (k_mem k') a = ld8 (k_mem k) a;
  sw_pcbs : k_pcbs k' = <[TASK_KSTACK_TOP c := with_saved esp ebp p]> (k_pcbs k);
  sw_vidmap : forall vt ut vp, paging_ok vt ut (k_mapped k) vp (k_paging k) -> tables_ok vt ut ->
    walk vt ut (k_paging k') TASK_VIDMEM_START = Some (page_of (cur_term_ind (k_ts k)) (term_ind q), true);
  sw_tss : tss k' = mkTss (TASK_KSTACK_BOT pid) KERNEL_DS;
  sw_terms : terms (k_ts k') = terms (k_ts k) /\ cur_term_ind (k_ts k') = cur_term_ind (k_ts k);
  sw_rest : k_rtc k' = k_rtc k /\ k_fs k' = k_fs k /\ pid_used k' = pid_used k
}.

(** The page of video memory a task's mapping points to. *)
Definition vid_page (cur i : Z) : Z := if decide (i <> cur) then BACKGROUND_1 + i else VID_MEM_ADDR.

Lemma vid_page_eq cur i : 0 <= i < TERM_NUM -> 0x1000 * vid_page cur i = page_of cur i.
Proof.
  intros Hi. unfold vid_page, page_of, backing, BACKGROUND_1, VID_MEM_ADDR, VIDEO.
  destruct (decide (i = cur)) as [->|Hne]; case_decide; try lia; by destruct H.
Qed.

Lemma arr_terms k k' i : terms (k_ts k') = terms (k_ts k) -> arr_get (terms (k_ts k')) i = arr_get (terms (k_ts k)) i.
Proof. by intros ->. Qed.

Section Switch.
Context (k : kernel) (c esp ebp : Z) (p : PCB_t) (pid : Z) (q : PCB_t).
Context (Hk : kernel_ok k) (Hc : 0 <= c < MAX_PROC_NUM) (Hesp : TASK_KSTACK_TOP c <= esp < TASK_KSTACK_BOT c).
Context (Hp : k_pcbs k !! TASK_KSTACK_TOP c = Some p) (Hpid : 0 <= pid < MAX_PROC_NUM).
Context (Hq : k_pcbs k !! TASK_KSTACK_TOP pid = Some q) (Hne : pid <> c).

Lemma switch_to_spec :
  exists k', switch_to esp ebp pid k = Some (Switched (pcb_esp q) (pcb_ebp q), k') /\
    kernel_ok k' /\ switched k k' c esp ebp p pid q.
Proof.
  destruct (ko_pcb _ Hk pid Hpid) as (q' & Eq' & Hqok). rewrite Hq in Eq'. injection Eq' as <-.
  destruct (ko_pcb _ Hk c Hc) as (p' & Ep' & Hpok). rewrite Hp in Ep'. injection Ep' as <-.
  pose proof (pk_term _ Hqok) as Hterm. set (cur := cur_term_ind (k_ts k)).
  assert (Hvp : 0 <= vid_page cur (term_ind q) < 2 ^ 20).
  { change (2 ^ 20) with 1048576. unfold vid_page, BACKGROUND_1, VID_MEM_ADDR, TERM_NUM in *. case_decide; lia. }
  destruct (ko_paging _ Hk) as (vt & ut & vp & Hpg).
  destruct (set_task_page_ok vt ut _ vp pid _ Hpg) as (p1 & E1 & Hp1);
    [unfold TASK_PAGE_INDEX, TASK_START_PAGE, MAX_PROC_NUM in *; lia|].
  destruct (set_vidmap_page_ok vt ut _ vp (vid_page cur (term_ind q)) p1 Hp1 Hvp) as (p2 & E2 & Hp2).
  set (k1 := set_tss (mkTss (TASK_KSTACK_BOT pid) KERNEL_DS) k).
  pose proof (remap_ok vt ut _ _ p2 k1 (set_tss_ok _ _ Hk) Hp2) as Hk2.
  pose proof (map_page_mem (TASK_PAGE_INDEX pid) (set_paging p2 k1)) as Hmem.
  pose proof (map_page_byte (TASK_PAGE_INDEX pid) (set_paging p2 k1)) as Hbyte.
  destruct (map_page_eq (TASK_PAGE_INDEX pid) (set_paging p2 k1)) as (m & ps & Em). rewrite Em in Hk2, Hmem, Hbyte.
  assert (Eload : load_cr3 (set_paging p2 k1) = Some (with_memory m (TASK_PAGE_INDEX pid) ps (set_paging p2 k1))).
  { rewrite (load_cr3_spec vt ut _ _ (set_paging p2 k1) Hp2). by rewrite Em. }
  set (k2 := with_memory m (TASK_PAGE_INDEX pid) ps (set_paging p2 k1)) in *.
  set (k3 := set_kpcbs (<[TASK_KSTACK_TOP c := with_saved esp ebp p]> (k_pcbs k2)) k2).
  exists k3. split; [|split].
  - unfold switch_to. rewrite (get_cur_pcb_stack c), E1, bind_ret by done. cbv zeta.
    change (k_pcbs (set_paging p1 k)) with (k_pcbs k). rewrite Hq, bind_ret.
    change (set_vidmap_page _ _) with (set_vidmap_page (vid_page cur (term_ind q)) p1). rewrite E2, bind_ret.
    change (set_tss _ (set_paging p2 (set_paging p1 k))) with (set_paging p2 k1). rewrite Eload, bind_ret.
    unfold on_pcb. change (k_pcbs k2) with (k_pcbs k). rewrite Hp, !bind_ret.
    change (k_pcbs (set_kpcbs ?st k2)) with st. rewrite lookup_insert_ne, Hq; [done|].
    intros E. by apply TASK_KSTACK_TOP_inj in E.
  - apply (pcb_update_ok k2 _ p (with_saved esp ebp p) Hk2 Hp); [|done..]. destruct Hpok as [O1 O2 O3]. by split.
  - split; [reflexivity| | |reflexivity| |reflexivity|by split|by split].
    + intros u a Ha. apply (Hbyte u a Ha).
    + intros a Ha. change (k_mem k3) with (k_mem k2). rewrite Hmem. by rewrite decide_False.
    + intros vt' ut' vp' Hpg' Ht. destruct (set_task_page_ok vt' ut' _ vp' pid _ Hpg') as (p1' & E1' & Hp1');
        [unfold TASK_PAGE_INDEX, TASK_START_PAGE, MAX_PROC_NUM in *; lia|]. rewrite E1 in E1'. injection E1' as <-.
      destruct (set_vidmap_page_ok vt' ut' _ vp' (vid_page cur (term_ind q)) p1 Hp1' Hvp) as (p2' & E2' & Hp2').
      rewrite E2 in E2'. injection E2' as <-. change (k_paging k3) with p2.
      rewrite (walk_kernel_map vt' ut' _ _ p2 TASK_VIDMEM_START Ht Hp2') by done. rewrite <- (vid_page_eq cur) by done.
      unfold kernel_map. rewrite (decide_False (P := 0xB8000 <= TASK_VIDMEM_START < 0xBC000)) by (vm_compute; intuition discriminate).
      rewrite decide_False by (vm_compute; intuition discriminate). rewrite decide_False by (vm_compute; intuition discriminate).
      rewrite decide_True by (split; [done|vm_compute; done]). do 2 f_equal. lia.
Qed.
End Switch.

(** ** One tick *)

(** The process in front of terminal [i]. *)
Definition front (k : kernel) (i : Z) : option Z := cur_pid <$> arr_get (terms (k_ts k)) i.

Definition next_term (i : Z) : Z := (i + 1) mod TERM_NUM.

(** The tick interrupts process [c] on its kernel stack. *)
Record interrupts (t : tick) (s : sched) (c : Z) (p : PCB_t) : Prop := {
  it_kernel : kernel_ok (s_kernel s);
  it_ind : 0 <= cur_proc_ind s < TERM_NUM;
  it_pid : 0 <= c < MAX_PROC_NUM;
  it_stack : TASK_KSTACK_TOP c <= t_esp t < TASK_KSTACK_BOT c;
  it_pcb : k_pcbs (s_kernel s) !! TASK_KSTACK_TOP c = Some p
}.

Section Tick.
Context (e : env) (t : tick) (s : sched) (c : Z) (p : PCB_t) (I : interrupts t s c p).

Abbreviation k := (s_kernel s).
Abbreviation ind := (next_term (cur_proc_ind s)).

Lemma tick_ind : u8 (Z.rem (cur_proc_ind s + 1) TERM_NUM) = ind /\ 0 <= ind < TERM_NUM.
Proof.
  pose proof (it_ind _ _ _ _ I) as Hi. unfold next_term, TERM_NUM in *. rewrite Z.rem_mod_nonneg by lia.
  pose proof (Z.mod_pos_bound (cur_proc_ind s + 1) 3 ltac:(lia)). split; [apply u8_small; lia|lia].
Qed.

(** The first half of a tick. *)
Lemma tick_rest pid : front k ind = Some pid -> pid <> 0 ->
  pit_isr e t s = '(r, k) ← pit_rest t pid k; Some (r, mkSched k ind (send_eoi PIT_IRQNUM (s_pic s))).
Proof.
  intros Hf Hpid. destruct tick_ind as [Ei _]. destruct I as [Hk _ Hc Hesp Hp]. unfold pit_isr.
  rewrite (get_cur_pcb_stack c), Ei by done. unfold front in Hf. apply fmap_Some in Hf as (term & Et & ->).
  rewrite decide_False by (unfold TASK_KSTACK_TOP, MAX_PROC_NUM in *; lia). cbv zeta. rewrite Et, bind_ret.
  by rewrite decide_False.
Qed.

Lemma tick_to pid :
  front k ind = Some pid -> pid <> 0 ->
  pit_isr e t s =
    if decide (pcb_pid p = pid) then Some (Stay, mkSched k ind (send_eoi PIT_IRQNUM (s_pic s)))
    else '(r, k) ← switch_to (t_esp t) (t_ebp t) pid k; Some (r, mkSched k ind (send_eoi PIT_IRQNUM (s_pic s))).
Proof.
  intros Hf Hpid. rewrite (tick_rest pid) by done. destruct I as [_ _ Hc Hesp Hp]. unfold pit_rest.
  rewrite (get_cur_pcb_stack c), Hp, bind_ret by done. by case_decide.
Qed.

Lemma tick_switch pid q :
  front k ind = Some pid -> 1 <= pid < MAX_PROC_NUM -> pid <> c -> pcb_pid p = c ->
  k_pcbs k !! TASK_KSTACK_TOP pid = Some q ->
  exists k', pit_isr e t s = Some (Switched (pcb_esp q) (pcb_ebp q), mkSched k' ind (send_eoi PIT_IRQNUM (s_pic s))) /\
    kernel_ok k' /\ switched k k' c (t_esp t) (t_ebp t) p pid q.
Proof.
  intros Hf Hpid Hne Hpp Hq. rewrite (tick_to pid Hf) by lia. rewrite decide_False by congruence.
  destruct I as [Hk _ Hc Hesp Hp].
  destruct (switch_to_spec k c (t_esp t) (t_ebp t) p pid q Hk Hc Hesp Hp ltac:(lia) Hq Hne) as (k' & E & Hk' & S).
  exists k'. by rewrite E, bind_ret.
Qed.
End Tick.

(** ** The tail of a tick *)

Lemma stack_pid_eq c esp : 0 <= c < MAX_PROC_NUM -> TASK_KSTACK_TOP c <= esp < TASK_KSTACK_BOT c -> stack_pid esp = c.
Proof.
  intros Hc Hesp. unfold stack_pid. rewrite (get_cur_pcb_stack c) by done. unfold TASK_KSTACK_TOP.
  replace (0x800000 - (0x800000 - 0x2000 * (c + 1))) with ((c + 1) * 0x2000) by lia. rewrite Z.div_mul by done. lia.
Qed.

Section Tail.
Context (t : tick) (k : kernel) (c : Z) (p : PCB_t).
Context (Hk : kernel_ok k) (Hc : 0 <= c < MAX_PROC_NUM) (Hesp : TASK_KSTACK_TOP c <= t_esp t < TASK_KSTACK_BOT c).
Context (Hp : k_pcbs k !! TASK_KSTACK_TOP c = Some p) (Hpp : pcb_pid p = c).

Lemma pit_rest_stay : pit_rest t c k = Some (Stay, k).
Proof. unfold pit_rest. rewrite (get_cur_pcb_stack c), Hp, bind_ret by done. by rewrite decide_True. Qed.

Lemma pit_rest_switch pid q : 0 <= pid < MAX_PROC_NUM -> pid <> c -> k_pcbs k !! TASK_KSTACK_TOP pid = Some q ->
  exists k', pit_rest t pid k = Some (Switched (pcb_esp q) (pcb_ebp q), k') /\ kernel_ok k' /\
    switched k k' c (t_esp t) (t_ebp t) p pid q.
Proof.
  intros Hpid Hne Hq. unfold pit_rest. rewrite (get_cur_pcb_stack c), Hp, bind_ret by done. rewrite decide_False by congruence.
  by apply switch_to_spec.
Qed.
End Tail.

(** ** A process that waits for its turn *)

(** Process [d] is suspended with these pointers, its page holds [f]. *)
Definition waits (k : kernel) (d esp ebp : Z) (f : Z -> Z) : Prop :=
  exists q, k_pcbs k !! TASK_KSTACK_TOP d = Some q /\ pcb_esp q = esp /\ pcb_ebp q = ebp /\
    forall a, user_address a -> page_byte k (TASK_PAGE_INDEX d) a = f a.

(** A stretch of execution of process [c], interrupts included: the processes
    in front of the terminals stay, and those that wait are not touched. *)
Record ran (k k' : kernel) (c : Z) : Prop := {
  rn_ok : kernel_ok k';
  rn_front : forall i, front k' i = front k i;
  rn_used : forall d, pid_in_use k d -> pid_in_use k' d;
  rn_waits : forall d esp ebp f, 1 <= d < MAX_PROC_NUM -> d <> c -> pid_in_use k d -> waits k d esp ebp f ->
    waits k' d esp ebp f
}.

Section Waits.
Context (k k' : kernel) (c esp ebp : Z) (p : PCB_t) (pid : Z) (q : PCB_t).
Context (S : switched k k' c esp ebp p pid q).

Lemma switched_front i : front k' i = front k i.
Proof. destruct (sw_terms _ _ _ _ _ _ _ _ S) as [E _]. unfold front. by rewrite E. Qed.

Lemma switched_used d : pid_in_use k d -> pid_in_use k' d.
Proof. destruct (sw_rest _ _ _ _ _ _ _ _ S) as (_ & _ & E). unfold pid_in_use. by rewrite E. Qed.

Lemma switched_waits d esp' ebp' f : d <> c -> waits k d esp' ebp' f -> waits k' d esp' ebp' f.
Proof.
  intros Hd (x & Ex & H1 & H2 & Hf). exists x. split; [|split; [done|split; [done|]]].
  - rewrite (sw_pcbs _ _ _ _ _ _ _ _ S), lookup_insert_ne; [done|]. intros E. by apply Hd, TASK_KSTACK_TOP_inj.
  - intros a Ha. rewrite (sw_user _ _ _ _ _ _ _ _ S) by done. by apply Hf.
Qed.

(** The process switched from waits with its pointers and its page. *)
Lemma switched_suspends : waits k' c esp ebp (page_byte k (TASK_PAGE_INDEX c)).
Proof.
  exists (with_saved esp ebp p). split; [|split; [done|split; [done|]]].
  - rewrite (sw_pcbs _ _ _ _ _ _ _ _ S). apply lookup_insert_eq.
  - intros a Ha. by apply (sw_user _ _ _ _ _ _ _ _ S).
Qed.

(** The process switched to sees its page. *)
Lemma switched_mem f : waits k pid (pcb_esp q) (pcb_ebp q) f -> forall a, user_address a -> ld8 (k_mem k') a = f a.
Proof.
  intros (x & _ & _ & _ & Hf) a Ha. rewrite <- Hf by done. rewrite <- (sw_user _ _ _ _ _ _ _ _ S) by done.
  unfold page_byte. by rewrite (sw_page _ _ _ _ _ _ _ _ S), decide_True.
Qed.
End Waits.

(** A tick that resumes a waiting process. *)
Lemma tick_resume e t s c p d esp ebp f :
  interrupts t s c p -> 1 <= c -> pid_in_use (s_kernel s) c -> front (s_kernel s) (next_term (cur_proc_ind s)) = Some d ->
  1 <= d < MAX_PROC_NUM -> d <> c -> waits (s_kernel s) d esp ebp f ->
  exists q k', pit_isr e t s = Some (Switched esp ebp, mkSched k' (next_term (cur_proc_ind s)) (send_eoi PIT_IRQNUM (s_pic s))) /\
    kernel_ok k' /\ switched (s_kernel s) k' c (t_esp t) (t_ebp t) p d q /\
    (forall a, user_address a -> ld8 (k_mem k') a = f a) /\ k_mapped k' = TASK_PAGE_INDEX d.
Proof.
  intros I Hc1 Hu Hf Hd Hne W. pose proof W as (q & Eq & <- & <- & Hpage).
  destruct (ko_number _ (it_kernel _ _ _ _ I) c p (it_pid _ _ _ _ I) Hu (it_pcb _ _ _ _ I)) as [Hpp _].
  destruct (tick_switch e t s c p I d q Hf Hd Hne Hpp Eq) as (k' & E & Hk' & S).
  exists q, k'. split; [exact E|]. split; [done|]. split; [done|]. split; [by apply (switched_mem _ _ _ _ _ _ _ _ S)|apply S].
Qed.

(** "shell" *)
Definition shell_word : list Z := [115; 104; 101; 108; 108].

(** A tick that finds nothing in front of the next terminal. *)
Lemma tick_shell e t s c p pid ino :
  interrupts t s c p -> let k := s_kernel s in let ind := next_term (cur_proc_ind s) in
  front k ind = Some 0 -> executing e k c (t_xesp t) (t_kbuf t) (t_shell t) ind shell_word p ->
  lowest_pid (pid_used k) = Some pid -> program_of k shell_word = Some ino ->
  0 <= ino < inode_count (k_mem k) (k_fs k) -> loadable (file_contents (k_mem k) (k_fs k) ino) ->
  exists k', pit_isr e t s = Some (Entered (elf_entry (file_contents (k_mem k) (k_fs k) ino)) TASK_VIRT_PAGE_END,
                                   mkSched k' ind (send_eoi PIT_IRQNUM (s_pic s))) /\
    kernel_ok k' /\ front k' ind = Some pid /\
    started k k' c p (t_xesp t) (t_xebp t) (t_kbuf t) ind pid None (file_contents (k_mem k) (k_fs k) ino).
Proof.
  intros I k ind Hf X Hpid Hprog Hino Hd. destruct (tick_ind t s c p I) as [Ei Hind].
  destruct (execute_start e k c _ (t_xebp t) _ _ _ _ p X pid ino Hpid Hprog Hino Hd) as (k' & E & Hk' & S).
  change (kept_args (command_args shell_word)) with (@None (list Z)) in S.
  exists k'. split; [|split; [done|split; [|exact S]]].
  + destruct I as [Hk _ Hc Hesp Hp]. unfold pit_isr. rewrite (get_cur_pcb_stack c), Ei by done.
    rewrite decide_False by (clear - Hc; unfold TASK_KSTACK_TOP, MAX_PROC_NUM in *; lia). cbv zeta.
    unfold front in Hf. apply fmap_Some in Hf as (term & Et & E0). fold k ind. rewrite Et, bind_ret.
    rewrite decide_True by done. rewrite E, bind_ret. done.
  + destruct (sd_terms _ _ _ _ _ _ _ _ _ _ _ S) as (term & Et & E').
    assert (En : new_term ind p = ind) by (unfold new_term; rewrite decide_True; [done|clear - Hind; lia]).
    rewrite En in Et, E'. unfold front. rewrite E', arr_get_lookup by (clear - Hind; lia).
    rewrite list_lookup_insert_eq; [done|]. unfold arr_get in Et. case_decide; [|done]. by eapply lookup_lt_Some.
Qed.

(** ** Properties *)

(** C21: One tick, in every case.  A different process in front of the next
    terminal is switched to: its page is mapped, its mapping of video memory
    goes to its terminal's page, the kernel stack of the task state segment is
    its own, the pointers of the interrupted process are saved, and nothing
    else changes.  The process already running stays.  An empty terminal gets a
    shell of its own, without a parent. *)
Theorem pit_isr_correct (e : env) (t : tick) (s : sched) (c : Z) (p : PCB_t) :
  interrupts t s c p ->
  let k := s_kernel s in let ind := next_term (cur_proc_ind s) in let pic := send_eoi PIT_IRQNUM (s_pic s) in
  0 <= ind < TERM_NUM /\
  (forall pid q, front k ind = Some pid -> 1 <= pid < MAX_PROC_NUM -> pid <> c -> pcb_pid p = c ->
    k_pcbs k !! TASK_KSTACK_TOP pid = Some q ->
    exists k', pit_isr e t s = Some (Switched (pcb_esp q) (pcb_ebp q), mkSched k' ind pic) /\
      kernel_ok k' /\ switched k k' c (t_esp t) (t_ebp t) p pid q) /\
  (front k ind = Some (pcb_pid p) -> pcb_pid p <> 0 -> pit_isr e t s = Some (Stay, mkSched k ind pic)) /\
  (forall pid ino, front k ind = Some 0 -> executing e k c (t_xesp t) (t_kbuf t) (t_shell t) ind shell_word p ->
    lowest_pid (pid_used k) = Some pid -> program_of k shell_word = Some ino ->
    0 <= ino < inode_count (k_mem k) (k_fs k) -> loadable (file_contents (k_mem k) (k_fs k) ino) ->
    exists k', pit_isr e t s = Some (Entered (elf_entry (file_contents (k_mem k) (k_fs k) ino)) TASK_VIRT_PAGE_END,
                                     mkSched k' ind pic) /\
      kernel_ok k' /\ front k' ind = Some pid /\
      started k k' c p (t_xesp t) (t_xebp t) (t_kbuf t) ind pid None (file_contents (k_mem k) (k_fs k) ino)).
Proof.
  intros I k ind pic. destruct (tick_ind t s c p I) as [Ei Hind]. split; [done|]. split_and!.
  - intros pid q Hf Hpid Hne Hpp Hq. by apply (tick_switch e t s c p I).
  - intros Hf Hpp. rewrite (tick_to e t s c p I _ Hf Hpp). by rewrite decide_True.
  - intros pid ino Hf X Hpid Hprog Hino Hd.
    apply (tick_shell e t s c p pid ino I Hf X Hpid Hprog Hino Hd).
Qed.

(** C7: Round robin is fair and transparent.  With a process in front of each
    of the three terminals, a process interrupted by a tick runs again at the
    third tick after, whatever the other two do to themselves in between:
    exactly with the stack and frame pointers it was interrupted with, and with
    its page as it left it; in between the two others each get one turn. *)
Theorem round_robin (e : env) (t0 : tick) (s0 : sched) (c0 c1 c2 : Z) (p0 : PCB_t) (esp1 ebp1 esp2 ebp2 : Z) (f1 f2 : Z -> Z) :
  interrupts t0 s0 c0 p0 -> k_mapped (s_kernel s0) = TASK_PAGE_INDEX c0 ->
  front (s_kernel s0) (cur_proc_ind s0) = Some c0 ->
  front (s_kernel s0) (next_term (cur_proc_ind s0)) = Some c1 ->
  front (s_kernel s0) (next_term (next_term (cur_proc_ind s0))) = Some c2 ->
  Forall (fun c => 1 <= c < MAX_PROC_NUM /\ pid_in_use (s_kernel s0) c) [c0; c1; c2] -> NoDup [c0; c1; c2] ->
  waits (s_kernel s0) c1 esp1 ebp1 f1 -> waits (s_kernel s0) c2 esp2 ebp2 f2 ->
  exists s1, pit_isr e t0 s0 = Some (Switched esp1 ebp1, s1) /\ k_mapped (s_kernel s1) = TASK_PAGE_INDEX c1 /\
  forall e1 t1 k1 p1, ran (s_kernel s1) k1 c1 -> interrupts t1 (mkSched k1 (cur_proc_ind s1) (s_pic s1)) c1 p1 ->
  exists s2, pit_isr e1 t1 (mkSched k1 (cur_proc_ind s1) (s_pic s1)) = Some (Switched esp2 ebp2, s2) /\
    k_mapped (s_kernel s2) = TASK_PAGE_INDEX c2 /\
  forall e2 t2 k2 p2, ran (s_kernel s2) k2 c2 -> interrupts t2 (mkSched k2 (cur_proc_ind s2) (s_pic s2)) c2 p2 ->
  exists s3, pit_isr e2 t2 (mkSched k2 (cur_proc_ind s2) (s_pic s2)) = Some (Switched (t_esp t0) (t_ebp t0), s3) /\
    kernel_ok (s_kernel s3) /\ k_mapped (s_kernel s3) = TASK_PAGE_INDEX c0 /\ cur_proc_ind s3 = cur_proc_ind s0 /\
    forall a, user_address a -> ld8 (k_mem (s_kernel s3)) a = ld8 (k_mem (s_kernel s0)) a.
Proof.
  intros I0 Hmap F0 F1 F2 Hall Hnd W1 W2.
  apply list.Forall_cons in Hall as [[H0 U0] Hall]. apply list.Forall_cons in Hall as [[H1 U1] Hall].
  apply list.Forall_cons in Hall as [[H2 U2] _].
  apply list.NoDup_cons in Hnd as [N0 Hnd]. apply list.NoDup_cons in Hnd as [N1 _].
  assert (D01 : c1 <> c0) by set_solver. assert (D02 : c2 <> c0) by set_solver. assert (D12 : c2 <> c1) by set_solver.
  assert (Eback : next_term (next_term (next_term (cur_proc_ind s0))) = cur_proc_ind s0).
  { pose proof (it_ind _ _ _ _ I0) as Hi. clear - Hi. unfold next_term, TERM_NUM in *. zlia. }
  destruct (tick_resume e t0 s0 c0 p0 c1 esp1 ebp1 f1 I0 ltac:(lia) U0 F1 H1 D01 W1) as (q1 & s1 & E1 & Hk1 & S1 & _ & M1).
  eexists. split; [exact E1|]. split; [exact M1|]. cbn [s_kernel cur_proc_ind s_pic].
  assert (W0 : waits s1 c0 (t_esp t0) (t_ebp t0) (ld8 (k_mem (s_kernel s0)))).
  { destruct (switched_suspends _ _ _ _ _ _ _ _ S1) as (q & Q1 & Q2 & Q3 & Q4). exists q. do 3 (split; [done|]).
    intros a Ha. rewrite Q4 by done. unfold page_byte. by rewrite Hmap, decide_True. }
  pose proof (switched_waits _ _ _ _ _ _ _ _ S1 c2 _ _ _ D02 W2) as W2'.
  intros e1 t1 k1 p1 R1 I1.
  assert (F2' : front k1 (next_term (next_term (cur_proc_ind s0))) = Some c2)
    by (rewrite (rn_front _ _ _ R1), (switched_front _ _ _ _ _ _ _ _ S1); exact F2).
  assert (Us1 : forall d, pid_in_use (s_kernel s0) d -> pid_in_use s1 d) by apply (switched_used _ _ _ _ _ _ _ _ S1).
  assert (Uk1 : forall d, pid_in_use (s_kernel s0) d -> pid_in_use k1 d) by (intros d Hd; by apply (rn_used _ _ _ R1), Us1).
  destruct (tick_resume e1 t1 _ c1 p1 c2 esp2 ebp2 f2 I1 ltac:(lia) (Uk1 c1 U1) F2' H2 D12) as (q2 & s2 & E2 & Hk2 & S2 & _ & M2).
  { by apply (rn_waits _ _ _ R1); [| |apply Us1|]. }
  eexists. split; [exact E2|]. split; [exact M2|]. cbn [s_kernel cur_proc_ind s_pic] in S2 |- *.
  assert (W0' : waits s2 c0 (t_esp t0) (t_ebp t0) (ld8 (k_mem (s_kernel s0)))).
  { apply (switched_waits _ _ _ _ _ _ _ _ S2); [congruence|]. by apply (rn_waits _ _ _ R1); [|congruence|apply Us1|]. }
  intros e2 t2 k2 p2 R2 I2.
  assert (Us2 : forall d, pid_in_use (s_kernel s0) d -> pid_in_use s2 d)
    by (intros d Hd; by apply (switched_used _ _ _ _ _ _ _ _ S2), Uk1).
  assert (F0' : front k2 (next_term (next_term (next_term (cur_proc_ind s0)))) = Some c0).
  { rewrite Eback, (rn_front _ _ _ R2), (switched_front _ _ _ _ _ _ _ _ S2), (rn_front _ _ _ R1),
      (switched_front _ _ _ _ _ _ _ _ S1). exact F0. }
  destruct (tick_resume e2 t2 _ c2 p2 c0 (t_esp t0) (t_ebp t0) (ld8 (k_mem (s_kernel s0))) I2 ltac:(lia)
    (rn_used _ _ _ R2 _ (Us2 c2 U2)) F0' H0 ltac:(congruence)) as (q3 & s3 & E3 & Hk3 & S3 & Hmem & M3).
  { by apply (rn_waits _ _ _ R2); [|congruence|apply Us2|]. }
  eexists. split; [exact E3|]. split; [done|]. split; [exact M3|]. split; [exact Eback|exact Hmem].
Qed.

(** ** A concrete run *)

(** The divisor written for the 1.19 MHz clock is 33, a rate of 36 kHz. *)
Lemma init_pit_divisor p :
  pic_ports (init_pit p) = pic_ports p ++ [(PIT_CMD_REG, PIT_MODE3); (PIT_DATA0_PORT, 33); (PIT_DATA0_PORT, 0);
                                           (MASTER_8259_DATA, u8 (Z.land (master_mask p) 0xFE))].
Proof.
  unfold init_pit, enable_irq, pic_outb, set_master. cbn [master_mask slave_mask pic_ports]. cbv zeta.
  rewrite decide_False, decide_True by (unfold PIT_IRQNUM, SLAVE_IRQ_OFF; lia). by rewrite <- !app_assoc.
Qed.

(** Processes 1, 2 and 3 in front of the terminals 0, 1 and 2. *)
Definition demo_front_pcb (pid esp : Z) : PCB_t :=
  mkPCB (open_files (demo_pcb pid)) 0 None esp (esp + 8) 0 pid (pid - 1) 1 (replicate 5 0).

Definition demo_front_pcbs : pcb_store :=
  <[TASK_KSTACK_TOP 2 := demo_front_pcb 2 0x7FBF00]> (<[TASK_KSTACK_TOP 3 := demo_front_pcb 3 0x7F9F00]> demo_pcbs).

Definition demo_fronts : list term_t :=
  map (fun i => set_cur_pid (i + 1) (blank_term (page_of 0 i) (backing i))) [0; 1; 2].

Definition demo_three : kernel := set_pid_used ([0; 1; 1; 1] ++ replicate 6 0) (set_kpcbs demo_front_pcbs demo_kernel).

Definition demo_sched : sched :=
  mkSched (set_ts (set_terms demo_fronts (k_ts demo_three)) demo_three) 0 (mkPic 0xFE 0xFF []).

Definition demo_tick (esp : Z) : tick := mkTick esp (esp + 8) 0 0 0 0 0.

Lemma set_terms_ok l k : kernel_ok k -> length l = 3%nat ->
  (forall i t, arr_get l i = Some t -> term_wf (cur_term_ind (k_ts k)) i t) ->
  kernel_ok (set_ts (set_terms l (k_ts k)) k).
Proof. intros [K1 K2 K3 K4 K5 K6 K7 K8 K9 K10] Hl Ht. split; try done. destruct K1 as [T1 T2 T3 T4]. by split. Qed.

Lemma demo_front_at pid : 0 <= pid < MAX_PROC_NUM ->
  exists p, demo_front_pcbs !! TASK_KSTACK_TOP pid = Some p /\ pcb_ok p /\ pcb_pid p = pid /\ parent p = 0.
Proof.
  intros H. unfold demo_front_pcbs. destruct (decide (pid = 2)) as [->|H2]; [eexists; split; [apply lookup_insert_eq|by split]|].
  rewrite lookup_insert_ne by (intros E; by apply TASK_KSTACK_TOP_inj in E).
  destruct (decide (pid = 3)) as [->|H3]; [eexists; split; [apply lookup_insert_eq|by split]|].
  rewrite lookup_insert_ne by (intros E; by apply TASK_KSTACK_TOP_inj in E).
  exists (demo_pcb pid). split; [by apply demo_pcb_at|by split].
Qed.

Lemma demo_sched_ok : kernel_ok (s_kernel demo_sched).
Proof.
  unfold demo_sched. cbn [s_kernel]. apply set_terms_ok.
  - apply set_processes_ok; [apply demo_ok| |done| | |].
    + intros fp H. change (rtc_files (k_rtc demo_kernel)) with (replicate 10 (@None fptr)) in H.
      by apply elem_of_replicate in H as [[=] _].
    + repeat constructor; by (left + right).
    + intros pid H. destruct (demo_front_at pid H) as (p & E & Hp & _). by exists p.
    + intros pid p H Ep. destruct (demo_front_at pid H) as (p' & E & _ & Hn & Hpar). rewrite Ep in E. injection E as <-.
      split; [done|by left].
  - done.
  - pose proof (ts_term _ (ko_terms _ demo_ok)) as T. intros i t E.
    change demo_fronts with (fmap (set_cur_pid (i + 1)) [] ++ demo_fronts) in E. cbn [app fmap list_fmap] in E.
    assert (Hi : i = 0 \/ i = 1 \/ i = 2).
    { unfold arr_get in E. case_decide; [|done]. apply lookup_lt_Some in E. change (length demo_fronts) with 3%nat in E. lia. }
    destruct Hi as [->|[->| ->]]; injection E as <-.
    + destruct (T 0 (blank_term (page_of 0 0) (backing 0)) eq_refl) as [[L1 L2 L3] [O1 O2 O3] ? ? ? ? ?]. by split; [split|split|..].
    + destruct (T 1 (blank_term (page_of 0 1) (backing 1)) eq_refl) as [[L1 L2 L3] [O1 O2 O3] ? ? ? ? ?]. by split; [split|split|..].
    + destruct (T 2 (blank_term (page_of 0 2) (backing 2)) eq_refl) as [[L1 L2 L3] [O1 O2 O3] ? ? ? ? ?]. by split; [split|split|..].
Qed.

Lemma demo_interrupts : interrupts (demo_tick demo_esp) demo_sched 1 (demo_pcb 1).
Proof. split; [apply demo_sched_ok|done|done|done|]. by vm_compute. Qed.

Lemma pit_isr_correct_witness :
  exists k', pit_isr demo_env (demo_tick demo_esp) demo_sched
    = Some (Switched 0x7FBF00 0x7FBF08, mkSched k' 1 (mkPic 0xFE 0xFF [(MASTER_8259_PORT, 0x60)])) /\ kernel_ok k'.
Proof.
  destruct (pit_isr_correct demo_env (demo_tick demo_esp) demo_sched 1 (demo_pcb 1) demo_interrupts) as (_ & H & _).
  destruct (H 2 (demo_front_pcb 2 0x7FBF00)) as (k' & E & Hk' & _).
  - by vm_compute.
  - done.
  - lia.
  - done.
  - by vm_compute.
  - exists k'. split; [exact E|exact Hk'].
Defined.

Lemma round_robin_witness :
  exists s1, pit_isr demo_env (demo_tick demo_esp) demo_sched = Some (Switched 0x7FBF00 0x7FBF08, s1) /\
    k_mapped (s_kernel s1) = TASK_PAGE_INDEX 2.
Proof.
  destruct (round_robin demo_env (demo_tick demo_esp) demo_sched 1 2 3 (demo_pcb 1) 0x7FBF00 0x7FBF08 0x7F9F00 0x7F9F08
    (page_byte (s_kernel demo_sched) (TASK_PAGE_INDEX 2)) (page_byte (s_kernel demo_sched) (TASK_PAGE_INDEX 3)))
    as (s1 & E & Em & _).
  - apply demo_interrupts.
  - done.
  - by vm_compute.
  - by vm_compute.
  - by vm_compute.
  - repeat constructor; by vm_compute.
  - repeat constructor; set_solver.
  - exists (demo_front_pcb 2 0x7FBF00). split; [by vm_compute|done].
  - exists (demo_front_pcb 3 0x7F9F00). split; [by vm_compute|done].
  - exists s1. split; [exact E|exact Em].
Defined.
