(* ===== verification/Idt.v ===== *)
(** * Interrupt descriptors and exceptions: student-distrib/idt.c, x86_desc.h

    The table of 256 gates as the pairs of words the processor reads, with the
    fields of [idt_desc_t] as bit fields; the first-level handlers are assembly
    routines known by their addresses.  An exception is reported on the first
    terminal and becomes a signal of the running task. *)
From Stdlib Require Import Ascii.
From stdpp Require Import base tactics list numbers gmap option strings.
From Stdlib Require Import ZArith Lia.
From S2P Require Import Prelude CLib Support Task FileSys Term TermScreen TermSys TermPrint Rtc I8259 Page Malloc Syscall Exec Fd Process Signals Sched.

#[local] Open Scope string_scope.
#[local] Open Scope list_scope.
Open Scope Z_scope.

Definition NUM_VEC : Z := 256.
Definition SYSCALL_IDX : Z := 0x80.
Definition PIT_INT : Z := 0x20.
Definition KB_INT : Z := 0x21.
Definition RTC_INT : Z := 0x28.

(** ** Descriptors *)

(** [idt_desc_t]: [val[0]] and [val[1]]. *)
Record idt_desc_t := mkDesc { val0 : Z; val1 : Z }.

(** The fields in [val[0]] and in [val[1]]. *)
Definition offset_15_00 : bitfield := (0, 16).
Definition seg_selector : bitfield := (16, 16).
Definition reserved3 : bitfield := (8, 1).
Definition reserved2 : bitfield := (9, 1).
Definition reserved1 : bitfield := (10, 1).
Definition gate_size : bitfield := (11, 1).
Definition reserved0 : bitfield := (12, 1).
Definition gate_dpl : bitfield := (13, 2).
Definition gate_present : bitfield := (15, 1).
Definition offset_31_16 : bitfield := (16, 16).

(** [SET_IDT_ENTRY(str, handler)] *)
Definition SET_IDT_ENTRY (handler : Z) (d : idt_desc_t) : idt_desc_t :=
  mkDesc (assign [(offset_15_00, Z.land handler 0xFFFF)] (val0 d))
         (assign [(offset_31_16, Z.shiftr (Z.land handler 0xFFFF0000) 16)] (val1 d)).

(** [f(idt[i])] *)
Definition on_gate (i : Z) (f : idt_desc_t -> idt_desc_t) (idt : list idt_desc_t) : option (list idt_desc_t) :=
  d ← arr_get idt i; arr_set idt i (f d).

(** The assembly routines. *)
Inductive isr :=
  | _de_isr | _db_isr | _nmi_isr | _bp_isr | _of_isr | _br_isr | _ud_isr | _nm_isr | _df_isr | _cso_isr | _ts_isr
  | _np_isr | _ss_isr | _gp_isr | _pf_isr | _mf_isr | _ac_isr | _mc_isr | _xf_isr | _pit_isr | _kb_isr | _rtc_isr
  | _syscall_isr.

(** The calls of [SET_IDT_ENTRY] after the loop of [idt_init]. *)
Definition idt_entries : list (Z * isr) :=
  [(0, _de_isr); (1, _db_isr); (2, _nmi_isr); (3, _bp_isr); (4, _of_isr); (5, _br_isr); (6, _ud_isr); (7, _nm_isr);
   (8, _df_isr); (9, _cso_isr); (10, _ts_isr); (11, _np_isr); (12, _ss_isr); (13, _gp_isr); (14, _pf_isr); (15, _db_isr);
   (16, _mf_isr); (17, _ac_isr); (18, _mc_isr); (19, _xf_isr); (SYSCALL_IDX, _syscall_isr)].

(** The body of the loop of [idt_init]. *)
Definition init_gate (addr : isr -> Z) (i : Z) (d : idt_desc_t) : idt_desc_t :=
  let d := mkDesc (assign [(seg_selector, KERNEL_CS)] (val0 d))
             (assign [(reserved3, 0); (reserved2, 1); (reserved1, 1); (gate_size, 1); (reserved0, 0);
                      (gate_present, c_bool (bool_decide (i < 20)))] (val1 d)) in
  let d := if decide (i = SYSCALL_IDX) then mkDesc (val0 d) (assign [(gate_dpl, 3); (gate_present, 1)] (val1 d))
           else mkDesc (val0 d) (assign [(gate_dpl, 0)] (val1 d)) in
  if decide (i > 19 /\ i < 32) then SET_IDT_ENTRY (addr _db_isr) d else d.

(** [idt_init()] *)
Definition idt_init (addr : isr -> Z) (idt : list idt_desc_t) : option (list idt_desc_t) :=
  idt ← for_upM 0 NUM_VEC (fun i => on_gate i (init_gate addr i)) idt;
  foldM (fun '(i, h) => on_gate i (SET_IDT_ENTRY (addr h))) idt_entries idt.

(** [SET_IDT_ENTRY(idt[i], h); idt[i].present = 1;] of [init_pit], [init_kb] and
    [init_rtc]. *)
Definition install (addr : isr -> Z) (i : Z) (h : isr) (idt : list idt_desc_t) : option (list idt_desc_t) :=
  on_gate i (fun d => let d := SET_IDT_ENTRY (addr h) d in mkDesc (val0 d) (assign [(gate_present, 1)] (val1 d))) idt.

(** ** Exceptions *)

Definition fault_format : list Z := codes (line "exception: irq: %u, error: %u, addr: 0x%#x").
Definition exception_format : list Z := codes (line "exception: irq: %u, error: %u").

(** [exception_handler(irq_num, errorcode)]; [cr2] is the control register. *)
Definition exception_handler (junk : printf_junk) (cr2 esp irq_num errorcode : Z) (k : kernel) : option kernel :=
  let '(fmt, args) := if decide (irq_num = 14) then (fault_format, [irq_num; errorcode; cr2])
                      else (exception_format, [irq_num; errorcode]) in
  ts ← on_term 0 (fun c => '(_, c) ← printf junk (vm c) (fmt ++ [0]) 0 args c; Some c) (k_ts k);
  on_pcb (get_cur_pcb esp) (raise_signal (if decide (irq_num = 0) then SIG_DIV_ZERO else SIG_SEGFAULT)) (set_ts ts k).

(** ** The processor's view *)

(** The handler a present 32-bit interrupt gate (type 01110) in the kernel's
    segment names, with the privilege level software needs to raise it. *)
Definition gate (d : idt_desc_t) : option (Z * Z) :=
  if decide (field_of gate_present (val1 d) = 1 /\ field_of reserved0 (val1 d) = 0 /\ field_of gate_size (val1 d) = 1 /\
             field_of reserved1 (val1 d) = 1 /\ field_of reserved2 (val1 d) = 1 /\ field_of reserved3 (val1 d) = 0 /\
             field_of seg_selector (val0 d) = KERNEL_CS) then
    Some (Z.shiftl (field_of offset_31_16 (val1 d)) 16 + field_of offset_15_00 (val0 d), field_of gate_dpl (val1 d))
  else None.

(** The routine a list of entries names for a vector. *)
Definition handler_in (l : list (Z * isr)) (i : Z) : option isr := snd <$> find (fun e => bool_decide (e.1 = i)) l.

(** The vectors the drivers install, in the order of the kernel's start. *)
Definition driver_entries : list (Z * isr) := [(RTC_INT, _rtc_isr); (KB_INT, _kb_isr); (PIT_INT, _pit_isr)].

(** What each vector does in the running kernel. *)
Definition vector (addr : isr -> Z) (i : Z) : option (Z * Z) :=
  (fun h => (addr h, if decide (i = SYSCALL_IDX) then 3 else 0)) <$> handler_in (idt_entries ++ driver_entries) i.

(** ** Lemmas on gates *)

(** A gate's fields other than the address. *)
Record gate_form (pres dpl : Z) (d : idt_desc_t) : Prop := {
  gf_present : field_of gate_present (val1 d) = pres;
  gf_r0 : field_of reserved0 (val1 d) = 0;
  gf_size : field_of gate_size (val1 d) = 1;
  gf_r1 : field_of reserved1 (val1 d) = 1;
  gf_r2 : field_of reserved2 (val1 d) = 1;
  gf_r3 : field_of reserved3 (val1 d) = 0;
  gf_seg : field_of seg_selector (val0 d) = KERNEL_CS;
  gf_dpl : field_of gate_dpl (val1 d) = dpl
}.

Definition gate_address (d : idt_desc_t) : Z :=
  Z.shiftl (field_of offset_31_16 (val1 d)) 16 + field_of offset_15_00 (val0 d).

Lemma gate_of_form pres dpl d : gate_form pres dpl d ->
  gate d = if decide (pres = 1) then Some (gate_address d, dpl) else None.
Proof.
  intros [H1 H2 H3 H4 H5 H6 H7 H8]. unfold gate. rewrite H1, H2, H3, H4, H5, H6, H7, H8.
  case_decide as D; case_decide as D'; [done|tauto|tauto|done].
Qed.

Lemma low_half v : 0 <= v < 2 ^ 32 -> Z.land v 0xFFFF = v mod 2 ^ 16.
Proof. intros H. change 0xFFFF with (Z.ones 16). by rewrite Z.land_ones by lia. Qed.

Lemma high_half v : 0 <= v < 2 ^ 32 -> Z.shiftr (Z.land v 0xFFFF0000) 16 = v / 2 ^ 16.
Proof.
  intros H. rewrite Z.shiftr_land. change (Z.shiftr 0xFFFF0000 16) with (Z.ones 16).
  rewrite Z.land_ones, Z.shiftr_div_pow2 by lia. apply Z.mod_small. split; [apply Z.div_pos; lia|apply Z.div_lt_upper_bound; lia].
Qed.

(** [SET_IDT_ENTRY] sets the address and nothing else. *)
Lemma set_entry_form v pres dpl d : 0 <= v < 2 ^ 32 -> gate_form pres dpl d -> gate_form pres dpl (SET_IDT_ENTRY v d).
Proof.
  intros Hv [H1 H2 H3 H4 H5 H6 H7 H8]. unfold SET_IDT_ENTRY. rewrite low_half, high_half by done.
  pose proof (Z.mod_pos_bound v (2 ^ 16) ltac:(lia)).
  assert (0 <= v / 2 ^ 16 < 2 ^ 16) by (split; [apply Z.div_pos; lia|apply Z.div_lt_upper_bound; lia]).
  split; cbn [val0 val1]; (etrans; [apply field_assign; [cbn; lia|cbn; lia|aparts]|done]).
Qed.

Lemma set_entry_address v d : 0 <= v < 2 ^ 32 -> gate_address (SET_IDT_ENTRY v d) = v.
Proof.
  intros Hv. unfold gate_address, SET_IDT_ENTRY. cbn [val0 val1]. rewrite low_half, high_half by done.
  pose proof (Z.mod_pos_bound v (2 ^ 16) ltac:(lia)).
  assert (0 <= v / 2 ^ 16 < 2 ^ 16) by (split; [apply Z.div_pos; lia|apply Z.div_lt_upper_bound; lia]).
  assert (E1 : field_of offset_31_16 (assign [(offset_31_16, v / 2 ^ 16)] (val1 d)) = v / 2 ^ 16).
  { etrans; [apply field_assign; [cbn; lia|cbn; lia|aparts]|done]. }
  assert (E0 : field_of offset_15_00 (assign [(offset_15_00, v mod 2 ^ 16)] (val0 d)) = v mod 2 ^ 16).
  { etrans; [apply field_assign; [cbn; lia|cbn; lia|aparts]|done]. }
  rewrite E1, E0, Z.shiftl_mul_pow2 by lia. pose proof (Z.div_mod v (2 ^ 16) ltac:(lia)). lia.
Qed.

(** The loop's body, whatever was in the entry. *)
Lemma init_gate_form addr i d : (forall h, 0 <= addr h < 2 ^ 32) ->
  gate_form (c_bool (bool_decide (i < 20 \/ i = SYSCALL_IDX))) (if decide (i = SYSCALL_IDX) then 3 else 0) (init_gate addr i d).
Proof.
  intros Ha. unfold init_gate.
  set (d1 := mkDesc (assign _ _) (assign _ _)).
  assert (Hk : 0 <= KERNEL_CS < 2 ^ 16) by done.
  assert (Hp : 0 <= c_bool (bool_decide (i < 20)) < 2) by (case_bool_decide; simpl; lia).
  assert (H1 : forall v, 0 <= v < 4 -> gate_form (c_bool (bool_decide (i < 20))) v (mkDesc (val0 d1) (assign [(gate_dpl, v)] (val1 d1)))).
  { intros v Hv. subst d1. cbn [val0 val1]. revert Hp. generalize (c_bool (bool_decide (i < 20))). intros pr Hp.
    split; cbn [val0 val1]; repeat (etrans; [apply field_assign; [cbn; lia|cbn; lia|aparts]|]); done. }
  assert (H2 : gate_form 1 3 (mkDesc (val0 d1) (assign [(gate_dpl, 3); (gate_present, 1)] (val1 d1)))).
  { subst d1. cbn [val0 val1]. revert Hp. generalize (c_bool (bool_decide (i < 20))). intros pr Hp.
    split; cbn [val0 val1]; repeat (etrans; [apply field_assign; [cbn; lia|cbn; lia|aparts]|]); done. }
  clearbody d1. cbv zeta. destruct (decide (i = SYSCALL_IDX)) as [D|D].
  - rewrite (bool_decide_true (i < 20 \/ i = SYSCALL_IDX)) by auto. unfold SYSCALL_IDX in D.
    rewrite decide_False by lia. exact H2.
  - replace (bool_decide (i < 20 \/ i = SYSCALL_IDX)) with (bool_decide (i < 20)) by (apply bool_decide_ext; tauto).
    specialize (H1 0 ltac:(lia)). destruct (decide (i > 19 /\ i < 32)); [by apply set_entry_form|done].
Qed.

(** ** Lemmas on tables *)

(** One update of a table. *)
Lemma on_gate_spec i f idt : 0 <= i < Z.of_nat (length idt) ->
  exists idt', on_gate i f idt = Some idt' /\ length idt' = length idt /\
    forall j, 0 <= j -> arr_get idt' j = if decide (j = i) then f <$> arr_get idt j else arr_get idt j.
Proof.
  intros Hi. unfold on_gate. destruct (arr_get_Some idt i Hi) as (d & -> & Ed). rewrite bind_ret, arr_set_Some by done.
  eexists. split; [done|]. split; [apply length_insert|]. intros j Hj. rewrite !arr_get_lookup by done. case_decide as D.
  - subst j. rewrite Ed. apply list_lookup_insert_eq. by apply lookup_lt_Some in Ed.
  - apply list_lookup_insert_ne. lia.
Qed.

(** A table whose gates have the given present bits, privilege levels and, where
    known, addresses. *)
Definition table_of (pres : Z -> bool) (dpl : Z -> Z) (a : Z -> option Z) (idt : list idt_desc_t) : Prop :=
  Z.of_nat (length idt) = NUM_VEC /\
  forall i, 0 <= i < NUM_VEC -> exists d, arr_get idt i = Some d /\ gate_form (c_bool (pres i)) (dpl i) d /\
    forall v, a i = Some v -> gate_address d = v.

(** The address a list of entries gives a vector; the last one counts. *)
Fixpoint addresses (addr : isr -> Z) (l : list (Z * isr)) (a : Z -> option Z) : Z -> option Z :=
  match l with
  | [] => a
  | (i, h) :: l => addresses addr l (fun j => if decide (j = i) then Some (addr h) else a j)
  end.

Section Tables.
Context (addr : isr -> Z) (Haddr : forall h, 0 <= addr h < 2 ^ 32).

(** The loop of [idt_init], from any table of the right length. *)
Lemma init_loop idt : Z.of_nat (length idt) = NUM_VEC ->
  exists idt', for_upM 0 NUM_VEC (fun i => on_gate i (init_gate addr i)) idt = Some idt' /\
    table_of (fun i => bool_decide (i < 20 \/ i = SYSCALL_IDX)) (fun i => if decide (i = SYSCALL_IDX) then 3 else 0)
      (fun _ => None) idt'.
Proof.
  intros Hl.
  destruct (for_upM_ind (fun n t => Z.of_nat (length t) = NUM_VEC /\ forall i, 0 <= i < n -> exists d, arr_get t i = Some d /\
      gate_form (c_bool (bool_decide (i < 20 \/ i = SYSCALL_IDX))) (if decide (i = SYSCALL_IDX) then 3 else 0) d)
    0 NUM_VEC (fun i => on_gate i (init_gate addr i)) idt) as (t & E & Hlt & Ht).
  - done.
  - split; [done|]. intros i Hi. lia.
  - intros i t Hi [Hlt Ht]. destruct (on_gate_spec i (init_gate addr i) t) as (t' & E & Hlt' & Ht'); [lia|].
    exists t'. split; [done|]. split; [lia|]. intros j Hj. rewrite Ht' by lia. case_decide as D.
    + subst j. destruct (arr_get_Some t i) as (d & -> & _); [lia|]. eexists. split; [done|]. by apply init_gate_form.
    + apply Ht. lia.
  - exists t. split; [done|]. split; [done|]. intros i Hi. destruct (Ht i Hi) as (d & Ed & Hf). by exists d.
Qed.

(** Setting an address. *)
Lemma set_address i h pres dpl a idt : 0 <= i < NUM_VEC -> table_of pres dpl a idt ->
  exists idt', on_gate i (SET_IDT_ENTRY (addr h)) idt = Some idt' /\
    table_of pres dpl (fun j => if decide (j = i) then Some (addr h) else a j) idt'.
Proof.
  intros Hi [Hl Ht]. destruct (on_gate_spec i (SET_IDT_ENTRY (addr h)) idt) as (t' & E & Hlt' & Ht'); [lia|].
  exists t'. split; [done|]. split; [lia|]. intros j Hj. destruct (Ht j Hj) as (d & Ed & Hf & Ha).
  rewrite Ht', Ed by lia. destruct (decide (j = i)); [|by exists d].
  eexists. split; [done|]. split; [by apply set_entry_form|]. intros v [= <-]. by apply set_entry_address.
Qed.

(** A driver's line becomes present. *)
Lemma install_ok i h pres dpl a idt : 0 <= i < NUM_VEC -> table_of pres dpl a idt ->
  exists idt', install addr i h idt = Some idt' /\
    table_of (fun j => bool_decide (j = i) || pres j) dpl (fun j => if decide (j = i) then Some (addr h) else a j) idt'.
Proof.
  intros Hi [Hl Ht].
  set (f := fun d => let d := SET_IDT_ENTRY (addr h) d in mkDesc (val0 d) (assign [(gate_present, 1)] (val1 d))).
  destruct (on_gate_spec i f idt) as (t' & E & Hlt' & Ht'); [lia|].
  exists t'. split; [done|]. split; [lia|]. intros j Hj. destruct (Ht j Hj) as (d & Ed & Hf & Ha).
  rewrite Ht', Ed by lia. destruct (decide (j = i)) as [->|D]; [|rewrite bool_decide_false by done; by exists d].
  rewrite bool_decide_true by done. eexists. split; [done|].
  pose proof (set_entry_form (addr h) _ _ d (Haddr h) Hf) as Hf'. pose proof (set_entry_address (addr h) d (Haddr h)) as Ha'.
  unfold f. revert Hf' Ha'. generalize (SET_IDT_ENTRY (addr h) d). intros d' [H1 H2 H3 H4 H5 H6 H7 H8] Ha'. split.
  - split; cbn [val0 val1]; try done; (etrans; [apply field_assign; [cbn; lia|cbn; lia|aparts]|done]).
  - intros v [= <-]. etrans; [|exact Ha']. unfold gate_address. cbn [val0 val1]. f_equal. f_equal.
    etrans; [apply field_assign; [cbn; lia|cbn; lia|aparts]|done].
Qed.

Lemma set_addresses l : forall pres dpl a idt, Forall (fun e => 0 <= e.1 < NUM_VEC) l -> table_of pres dpl a idt ->
  exists idt', foldM (fun '(i, h) => on_gate i (SET_IDT_ENTRY (addr h))) l idt = Some idt' /\
    table_of pres dpl (addresses addr l a) idt'.
Proof.
  induction l as [|[i h] l IH]; intros pres dpl a idt Hl Ht; [by exists idt|].
  inversion_clear Hl as [|? ? Hi Hl']. destruct (set_address i h pres dpl a idt Hi Ht) as (t & E & Ht').
  cbn [foldM]. rewrite E. cbn [mbind option_bind]. by apply IH.
Qed.
End Tables.

(** ** Lemmas on exceptions *)

(** What is written for an exception. *)
Definition exception_message (irq_num errorcode cr2 : Z) : list Z :=
  codes "exception: irq: " ++ number 10 irq_num ++ codes ", error: " ++ number 10 errorcode ++
  (if decide (irq_num = 14) then codes ", addr: 0x" ++ hex8 cr2 else []) ++ [10].

Definition exception_call (irq_num errorcode cr2 : Z) : list Z * list Z :=
  if decide (irq_num = 14) then (fault_format, [irq_num; errorcode; cr2]) else (exception_format, [irq_num; errorcode]).

Lemma message_rendered irq err cr2 :
  render (fun _ => None) None (exception_call irq err cr2).1 (exception_call irq err cr2).2
  = Some (exception_message irq err cr2).
Proof.
  unfold exception_call, exception_message. case_decide as D.
  - subst irq. lazy -[number hex8]. reflexivity.
  - lazy -[number hex8]. reflexivity.
Qed.

Lemma plain_cstr (l : list Z) : Forall (fun x => 0 < x < 256) l -> cstr (l ++ [0]) 0 l.
Proof.
  intros Hl. split.
  - intros k ch E. pose proof (lookup_lt_Some _ _ _ E) as Hk. rewrite Z.add_0_l. cbn [bget arr_buf].
    rewrite arr_get_lookup, Nat2Z.id, lookup_app_l by lia. split; [done|]. rewrite Forall_lookup in Hl. by apply (Hl k).
  - rewrite Z.add_0_l. cbn [bget arr_buf]. rewrite arr_get_lookup, Nat2Z.id by lia. by rewrite list_lookup_middle.
Qed.

Lemma call_plain irq err cr2 : Forall (fun x => 0 < x < 256) (exception_call irq err cr2).1.
Proof.
  assert (H : Forall (fun x => 0 < x < 256) fault_format /\ Forall (fun x => 0 < x < 256) exception_format).
  { split; apply (bool_decide_unpack _); by vm_compute. }
  unfold exception_call. case_decide; apply H.
Qed.

(** The signal an exception raises. *)
Definition exception_signal (irq_num : Z) : Z := if decide (irq_num = 0) then SIG_DIV_ZERO else SIG_SEGFAULT.

Lemma raised_lowest irq p : signals p = 0 -> lowest_pending (raise_signal (exception_signal irq) p) (exception_signal irq).
Proof.
  intros Hs. unfold lowest_pending, pending, raise_signal. cbn [signals with_signals]. rewrite Hs.
  unfold exception_signal. case_decide; (split; [done|]; split; [done|]; intros j Hj).
  - unfold SIG_DIV_ZERO in Hj. lia.
  - unfold SIG_SEGFAULT in Hj. replace j with 0 by lia. done.
Qed.

(** The whole handler: the text on the first terminal, then the signal. *)
Lemma exception_handler_spec junk cr2 c esp irq err k p :
  kernel_ok k -> 0 <= c < MAX_PROC_NUM -> TASK_KSTACK_TOP c <= esp < TASK_KSTACK_BOT c ->
  k_pcbs k !! TASK_KSTACK_TOP c = Some p -> length (junk64 junk) = 64%nat -> length (junk36 junk) = 36%nat ->
  args_ok [irq; err; cr2] ->
  exists ts, on_term 0 (fun d => Some (emit (exception_message irq err cr2) d)) (k_ts k) = Some ts /\
    TermSys.apart (k_ts k) ts 0 /\
    exception_handler junk cr2 esp irq err k
      = Some (set_kpcbs (<[TASK_KSTACK_TOP c := raise_signal (exception_signal irq) p]> (k_pcbs k)) (set_ts ts k)) /\
    kernel_ok (set_kpcbs (<[TASK_KSTACK_TOP c := raise_signal (exception_signal irq) p]> (k_pcbs k)) (set_ts ts k)).
Proof.
  intros Hk Hc Hesp Ep H64 H36 Hargs. pose proof (ko_terms _ Hk) as Ht.
  destruct (term_at (k_ts k) 0 Ht ltac:(done)) as (t & Et & Hw). destruct (con_at_line _ 0 t Ht Hw) as [Hcon _].
  set (msg := exception_message irq err cr2).
  destruct (on_term_output (k_ts k) 0 t (fun d => Some (emit msg d)) Ht ltac:(done) Et) as (ts & t' & E & W & A & _).
  { eexists. split; [done|]. apply out_esc_output; [|by eapply tw_esc].
    apply output_draws; [by apply emit_draws|by apply emit_ok]. }
  exists ts. split; [exact E|]. split; [exact A|].
  assert (Epcbs : pcbs ts = k_pcbs k) by apply A.
  assert (Hkt : kernel_ok (set_ts ts k)).
  { apply set_ts_ok; [done|done|done|]. intros a Ha. apply A.
    pose proof (page_range (cur_term_ind (k_ts k)) 0 ltac:(done)). unfold on_page, VID_MEM_SIZE. lia. }
  destruct (ko_pcb _ Hk c ltac:(done)) as (p0 & Ep0 & Hp0). rewrite Ep in Ep0. injection Ep0 as <-.
  split.
  - unfold exception_handler. fold (exception_call irq err cr2).
    assert (Hargs' : args_ok (exception_call irq err cr2).2).
    { unfold exception_call. case_decide; [done|]. by repeat apply list.Forall_cons in Hargs as [? Hargs]; repeat apply Forall_cons_2. }
    pose proof (message_rendered irq err cr2) as Hr. pose proof (call_plain irq err cr2) as Hp. fold msg in Hr.
    assert (Hn : Z.of_nat (length (exception_call irq err cr2).1) < 4294967296) by (unfold exception_call; by case_decide).
    destruct (exception_call irq err cr2) as [fmt args]. cbn [fst snd] in *.
    assert (Epr : printf junk (vm (con_at (k_ts k) 0 t)) (fmt ++ [0]) 0 args (con_at (k_ts k) 0 t)
                  = Some (Z.of_nat (length fmt), emit msg (con_at (k_ts k) 0 t))).
    { eapply (printf_render junk _ (fun _ => None)).
      - intros v s [=].
      - exact H64.
      - exact H36.
      - by apply plain_cstr.
      - exact Hn.
      - exact Hargs'.
      - exact Hcon.
      - exact Hr. }
    rewrite (on_term_eq (k_ts k) 0 t _ Et) in E. rewrite (on_term_eq (k_ts k) 0 t _ Et), Epr. rewrite bind_ret in E. cbn [mbind option_bind].
    apply (inj Some) in E. subst ts.
    rewrite (get_cur_pcb_stack c) by (done || lia). unfold on_pcb.
    change (k_pcbs (set_ts (put_con (k_ts k) 0 (emit msg (con_at (k_ts k) 0 t))) k)) with (k_pcbs k).
    by rewrite Ep.
  - rewrite <- Epcbs. apply (pcb_update_ok (set_ts ts k) (TASK_KSTACK_TOP c) p); try done.
    + change (pcbs ts !! TASK_KSTACK_TOP c = Some p). by rewrite Epcbs.
    + destruct Hp0 as [H1 H2 H3]. split; [done|exact H2|done].
Qed.
(** ** Properties *)

(** The table the kernel runs with. *)
Definition boot_idt (addr : isr -> Z) (idt : list idt_desc_t) : option (list idt_desc_t) :=
  idt ← idt_init addr idt;
  foldM (fun '(i, h) => install addr i h) driver_entries idt.

Lemma entries_range : Forall (fun e => 0 <= e.1 < NUM_VEC) idt_entries.
Proof. repeat (apply Forall_cons_2; [cbn; split; done|]). apply Forall_nil_2. Qed.

(** A vector without an entry is absent. *)
Lemma other_vector addr i (x : Z * Z) : 0 <= i -> i ∉ (idt_entries ++ driver_entries).*1 ->
  (if decide (c_bool (bool_decide (i = PIT_INT) || (bool_decide (i = KB_INT) || (bool_decide (i = RTC_INT) ||
     bool_decide (i < 20 \/ i = SYSCALL_IDX)))) = 1) then Some x else None) = vector addr i.
Proof.
  intros Hi Hni. unfold vector, handler_in.
  assert (Hf : find (fun e => bool_decide (e.1 = i)) (idt_entries ++ driver_entries) = None).
  { destruct (find _ _) as [[j h]|] eqn:E; [|done]. apply find_some in E as [Hin Hb]. apply bool_decide_eq_true in Hb.
    destruct Hni. apply list_elem_of_fmap. exists (j, h). split; [done|]. by apply list_elem_of_In. }
  rewrite Hf. cbn [fmap option_fmap option_map]. apply decide_False.
  cbn in Hni. rewrite !not_elem_of_cons in Hni. unfold PIT_INT, KB_INT, RTC_INT, SYSCALL_IDX in *.
  rewrite !bool_decide_false by lia. done.
Qed.

Lemma boot_idt_spec (addr : isr -> Z) (idt : list idt_desc_t) :
  (forall h, 0 <= addr h < 2 ^ 32) -> Z.of_nat (length idt) = NUM_VEC ->
  exists idt', boot_idt addr idt = Some idt' /\ Z.of_nat (length idt') = NUM_VEC /\
    forall i, 0 <= i < NUM_VEC -> (d ← arr_get idt' i; gate d) = vector addr i.
Proof.
  intros Ha Hl. unfold boot_idt, idt_init.
  destruct (init_loop addr Ha idt Hl) as (t0 & E0 & H0). rewrite E0, bind_ret.
  destruct (set_addresses addr Ha idt_entries _ _ _ t0 entries_range H0) as (t1 & E1 & H1). rewrite E1, bind_ret.
  cbn [driver_entries foldM].
  destruct (install_ok addr Ha RTC_INT _rtc_isr _ _ _ t1 ltac:(done) H1) as (t2 & -> & H2). cbn [mbind option_bind].
  destruct (install_ok addr Ha KB_INT _kb_isr _ _ _ t2 ltac:(done) H2) as (t3 & -> & H3). cbn [mbind option_bind].
  destruct (install_ok addr Ha PIT_INT _pit_isr _ _ _ t3 ltac:(done) H3) as (t4 & -> & H4). cbn [mbind option_bind].
  exists t4. split; [done|]. destruct H4 as [Hlen H4]. split; [done|]. intros i Hi.
  destruct (H4 i Hi) as (d & Ed & Hf & Hv). rewrite Ed, bind_ret, (gate_of_form _ _ _ Hf).
  destruct (decide (i ∈ (idt_entries ++ driver_entries).*1)) as [D|D]; [|apply other_vector; [lia|done]].
  clear - D Hv. revert Hv. cbn in D. repeat (apply elem_of_cons in D as [->|D]; [intros Hv; rewrite (Hv _ eq_refl); reflexivity|]).
  by apply elem_of_nil in D.
Qed.

(** C22: After [idt_init] and the three drivers' initialisations, whatever the
    table held before, the processor finds behind each vector exactly the
    intended routine: the exceptions 0 to 19, the timer, the keyboard and the
    clock with the kernel's privilege only, the system call for user code too;
    every other vector is absent. *)
Theorem boot_idt_correct (addr : isr -> Z) (idt : list idt_desc_t) :
  (forall h, 0 <= addr h < 2 ^ 32) -> Z.of_nat (length idt) = NUM_VEC ->
  exists idt', boot_idt addr idt = Some idt' /\ Z.of_nat (length idt') = NUM_VEC /\
    forall i, 0 <= i < NUM_VEC -> (d ← arr_get idt' i; gate d) = vector addr i.
Proof. apply boot_idt_spec. Qed.

Lemma boot_idt_correct_witness :
  exists idt', boot_idt (fun _ => 0x400100) (replicate 256 (mkDesc 0 0)) = Some idt' /\
    (d ← arr_get idt' 0x80; gate d) = Some (0x400100, 3) /\ (d ← arr_get idt' 0x22; gate d) = None.
Proof.
  destruct (boot_idt_correct (fun _ => 0x400100) (replicate 256 (mkDesc 0 0))) as (idt' & E & _ & Hv).
  - done.
  - done.
  - exists idt'. split; [exact E|].
    split; (etrans; [apply Hv; unfold NUM_VEC; lia|by vm_compute]).
Defined.

(** C14: An exception in user code is reported on the first terminal, its text
    and nothing else, and becomes the signal of a division by zero (vector 0) or
    of a bad access (all others) of the running task.  On the way back the task
    is ended with status 256, or its handler for the signal is entered. *)
Theorem exception_ends_task (linkage : Z) (e : env) (k : kernel) (c esp : Z) (p : PCB_t) (context : hw_context_t)
  (junk : printf_junk) (cr2 irq err : Z) :
  returning k c esp p context -> signals p = 0 -> length (junk64 junk) = 64%nat -> length (junk36 junk) = 36%nat ->
  args_ok [irq; err; cr2] ->
  exists ts k1, exception_handler junk cr2 esp irq err k = Some k1 /\ kernel_ok k1 /\
    on_term 0 (fun d => Some (emit (exception_message irq err cr2) d)) (k_ts k) = Some ts /\ TermSys.apart (k_ts k) ts 0 /\
    terms (k_ts k1) = terms ts /\ k_mem k1 = vmem ts /\
    (forall pp q, arr_get (signal_handlers p) (exception_signal irq) = Some 0 -> 1 <= pp < MAX_PROC_NUM -> pp <> c ->
      parent p = TASK_KSTACK_TOP pp -> k_pcbs k !! TASK_KSTACK_TOP pp = Some q -> pcb_pid q = pp ->
      exists k2, check_signals linkage e esp context k1 = Some (Gone (pcb_esp q) (pcb_ebp q) 256, k2) /\ kernel_ok k2 /\
        pid_used k2 = <[Z.to_nat c := 0]> (pid_used k)) /\
    (forall h, arr_get (signal_handlers p) (exception_signal irq) = Some h -> h <> 0 -> 0 <= linkage < 4294967296 ->
      exists k2, check_signals linkage e esp context k1 = Some (Back (with_target h (ctx_esp context - 76) context), k2) /\
        kernel_ok k2).
Proof.
  intros [Hk Hc Hu Hesp Ep Hctx] Hs H64 H36 Hargs.
  destruct (exception_handler_spec junk cr2 c esp irq err k p Hk ltac:(lia) Hesp Ep H64 H36 Hargs) as (ts & E & A & Eh & Hk1).
  set (s := exception_signal irq) in *. set (k1 := set_kpcbs _ (set_ts ts k)) in *.
  assert (Hlow : lowest_pending (raise_signal s p) s) by by apply raised_lowest.
  assert (Hs3 : 0 <= s < 3) by (subst s; unfold exception_signal; by case_decide).
  assert (R : returning k1 c esp (raise_signal s p) context).
  { split; [exact Hk1|exact Hc|exact Hu|exact Hesp|by apply lookup_insert_eq|exact Hctx]. }
  exists ts, k1. do 4 (split; [done|]). split; [done|]. split; [done|]. split.
  - intros pp q Hh Hpp Hne Hpar Eq Nq.
    destruct (default_halt linkage e k1 c esp _ context R s pp q Hlow Hh ltac:(lia) Hpar Hpp) as (k2 & E2 & H2 & Hk2).
    + etrans; [|exact Eq]. apply lookup_insert_ne. intros Ek. by apply Hne, TASK_KSTACK_TOP_inj.
    + exact Nq.
    + done.
    + exists k2. split; [exact E2|]. split; [exact Hk2|]. apply H2.
  - intros h Hh Hne Hl. eexists. split; [by apply (deliver linkage e k1 c esp _ context R s h)|].
    apply (frame_kernel_ok linkage k1 c esp _ context R s h); [done|unfold SIG_SIZE; lia].
Qed.

(** A page fault of process 2, child of process 1. *)
Lemma exception_ends_task_witness :
  exists ts k1 k2, exception_handler sample_junk 0xDEAD0000 (TASK_KSTACK_BOT 2 - 64) 14 6 (demo_family 0 (replicate 5 0)) = Some k1 /\
    terms (k_ts k1) = terms ts /\
    check_signals 0x400abc demo_env (TASK_KSTACK_BOT 2 - 64) demo_context k1 = Some (Gone 0 0 256, k2) /\
    pid_used k2 = [0; 1; 0] ++ replicate 7 0.
Proof.
  destruct (exception_ends_task 0x400abc demo_env (demo_family 0 (replicate 5 0)) 2 (TASK_KSTACK_BOT 2 - 64)
    (demo_child 0 (replicate 5 0)) demo_context sample_junk 0xDEAD0000 14 6) as (ts & k1 & E & _ & _ & _ & Et & _ & H & _).
  - by apply demo_returning.
  - done.
  - done.
  - done.
  - by repeat constructor.
  - destruct (H 1 (demo_pcb 1)) as (k2 & E2 & _ & Eu).
    + reflexivity.
    + unfold MAX_PROC_NUM. lia.
    + lia.
    + reflexivity.
    + by vm_compute.
    + done.
    + exists ts, k1, k2. split; [exact E|]. split; [exact Et|]. split; [exact E2|exact Eu].
Defined.
