(* ===== verification/Serial.v ===== *)
(** * The serial line and the Tux controller: student-distrib/serial.c, tuxctl.c

    The driver of the line keeps a message to send and a packet being received,
    both in arrays of [int]; the controller's driver sends commands and turns
    packets into keys.  The opcodes come from a header outside the repository
    and are a parameter, as is the effect of the instruction [da] and, for the
    handler of keys, the state it works on. *)
From stdpp Require Import base tactics list numbers gmap option.
From Stdlib Require Import ZArith Lia.
From S2P Require Import Prelude Term TermSys.

Open Scope Z_scope.

Definition SERIAL_PORT : Z := 0x3f8.
Definition RX_PACKET_SIZE : Z := 3.
Definition TX_BUFFER_SIZE : Z := 16.

(** ** The line *)

(** The globals of serial.c.  [tx_buf] is kept as the 64 bytes of the array, as
    the message is copied into it byte by byte; [rx_buf] as its three [int]s. *)
Record serial := mkSerial {
  rx_ind : Z;
  rx_buf : list Z;
  tx_ind : Z;
  tx_dat_len : Z;
  tx_buf : list Z;
  serial_ports : list (Z * Z)          (* writes to I/O ports: port, value *)
}.

Definition serial_outb (data port : Z) (s : serial) : serial :=
  mkSerial (rx_ind s) (rx_buf s) (tx_ind s) (tx_dat_len s) (tx_buf s) (serial_ports s ++ [(port, u8 data)]).
Definition set_rx (i : Z) (b : list Z) (s : serial) : serial :=
  mkSerial i b (tx_ind s) (tx_dat_len s) (tx_buf s) (serial_ports s).
Definition set_tx (i n : Z) (b : list Z) (s : serial) : serial :=
  mkSerial (rx_ind s) (rx_buf s) i n b (serial_ports s).

Definition init_serial (s : serial) : serial :=
  let s := serial_outb 0x00 (SERIAL_PORT + 1) s in
  let s := serial_outb 0x80 (SERIAL_PORT + 3) s in
  let s := serial_outb 0x0C (SERIAL_PORT + 0) s in
  let s := serial_outb 0x00 (SERIAL_PORT + 1) s in
  let s := serial_outb 0x03 (SERIAL_PORT + 3) s in
  let s := serial_outb 0xC7 (SERIAL_PORT + 2) s in
  serial_outb 0x03 (SERIAL_PORT + 4) s.

(** The tests of the status register, given the value read. *)
Definition data_ready (status : Z) : Z := Z.land status 0x01.
Definition transmit_empty (status : Z) : Z := Z.land status 0x20.

(** [tx_buf[i]], an [int] of four bytes, the low one first. *)
Definition tx_word (s : serial) (i : Z) : option Z :=
  b0 ← arr_get (tx_buf s) (4 * i); b1 ← arr_get (tx_buf s) (4 * i + 1);
  b2 ← arr_get (tx_buf s) (4 * i + 2); b3 ← arr_get (tx_buf s) (4 * i + 3);
  Some (b0 + 256 * b1 + 65536 * b2 + 16777216 * b3).

(** [serial_write(buf, size)]: the [memcpy] into [tx_buf] and the first byte. *)
Definition serial_write (buf : list Z) (size : Z) (s : serial) : option serial :=
  if decide (TX_BUFFER_SIZE <= size) then Some s
  else
    let s := set_tx 1 size (take (Z.to_nat size) buf ++ drop (Z.to_nat size) (tx_buf s)) s in
    v ← tx_word s 0;
    Some (serial_outb v SERIAL_PORT s).

(** [(unsigned char * ) rx_buf]: the bytes of an array of [int]s. *)
Definition int_bytes (l : list Z) : list Z :=
  concat ((fun v => [u8 v; u8 (Z.shiftr v 8); u8 (Z.shiftr v 16); u8 (Z.shiftr v 24)]) <$> l)%list.

(** ** The controller *)

Inductive tux_cmd_t :=
  | TUX_SET_LED | TUX_READ_LED | TUX_BUTTONS | TUX_INIT | TUX_LED_REQUEST | TUX_LED_ACK | TUX_SET_SCORE.

(** The opcodes of mtcp.h the driver uses. *)
Record mtcp := mkMtcp {
  MTCP_BIOC_EVENT : Z; MTCP_RESET : Z; MTCP_ACK : Z;      (* first byte of a packet *)
  MTCP_BIOC_ON : Z; MTCP_LED_SET : Z                      (* commands *)
}.

Definition HEX_DATA : list Z :=
  [0xE7; 0x06; 0xCB; 0x8F; 0x2E; 0xAD; 0xED; 0x86; 0xEF; 0xAF; 0xE6; 0x6D; 0xE1; 0x4F; 0xE9; 0xE8].

(** The globals of the two files. *)
Record tux := mkTux {
  tux_serial : serial;
  busy : Z;
  button_state : Z;
  old_button_state : Z
}.

Definition set_serial (s : serial) (t : tux) : tux := mkTux s (busy t) (button_state t) (old_button_state t).
Definition set_busy (b : Z) (t : tux) : tux := mkTux (tux_serial t) b (button_state t) (old_button_state t).

(** The zero-initialised arrays and the initial values. *)
Definition tux_start : tux := mkTux (mkSerial 0 (replicate 3 0) 0 0 (replicate 64 0) []) 0 0xFF 0xFF.

Section Driver.
Context (op : mtcp) (da : Z -> Z).
Context {S : Type} (key : key_t -> S -> option S) (poke : Z -> Z -> S -> S).

(** The driver's globals and the rest of the machine; an interrupt changes both. *)
Abbreviation machine := (tux * S)%type.

Definition on_tux (f : tux -> tux) (m : machine) : machine := (f m.1, m.2).
Definition on_serial (f : serial -> option serial) (m : machine) : option machine :=
  s ← f (tux_serial m.1); Some (set_serial s m.1, m.2).

(** [while (busy);]: take interrupts until the driver is no longer busy. *)
Fixpoint while_busy (irqs : list (machine -> option machine)) (m : machine) : option (machine * list (machine -> option machine)) :=
  if decide (busy m.1 = 0) then Some (m, irqs)
  else
    match irqs with
    | [] => None
    | i :: rest => m ← i m; while_busy rest m
    end.

(** The end of [tuxctl_ioctl(TUX_INIT)] and of [show_score]: wait, then send. *)
Definition send (buf : list Z) (size : Z) (irqs : list (machine -> option machine)) (m : machine)
  : option (machine * list (machine -> option machine)) :=
  '(m, irqs) ← while_busy irqs m;
  m ← on_serial (serial_write buf size) (on_tux (set_busy 1) m);
  Some (m, irqs).

(** [show_score(score)]; the last two of its eight bytes are not sent. *)
Definition show_score (score : Z) (irqs : list (machine -> option machine)) (m : machine)
  : option (machine * list (machine -> option machine)) :=
  let score := if decide (score > 9999) then 9999 else score in
  let digits := da score in
  h0 ← arr_get HEX_DATA (Z.land digits 0x0F);
  h1 ← arr_get HEX_DATA (Z.land digits (Z.shiftl 0x0F 1));
  h2 ← arr_get HEX_DATA (Z.land digits (Z.shiftl 0x0F 2));
  h3 ← arr_get HEX_DATA (Z.land digits (Z.shiftl 0x0F 3));
  send [MTCP_LED_SET op; 0x0F; h0; h1; h2; h3] 6 irqs m.

(** [tuxctl_ioctl(cmd, arg)]: the return value, the machine and the interrupts
    still to come. *)
Definition tuxctl_ioctl (cmd : tux_cmd_t) (arg : Z) (irqs : list (machine -> option machine)) (m : machine)
  : option (Z * machine * list (machine -> option machine)) :=
  match cmd with
  | TUX_INIT => '(m, irqs) ← send [MTCP_BIOC_ON op] 1 irqs m; Some (0, m, irqs)
  | TUX_BUTTONS =>
      if decide (arg = 0) then Some (-1, m, irqs)
      else Some (0, (m.1, poke arg (u8 (Z.lnot (button_state m.1))) m.2), irqs)
  | TUX_SET_SCORE => '(m, irqs) ← show_score arg irqs m; Some (0, m, irqs)
  | _ => Some (-1, m, irqs)
  end.

(** The buttons of an event, from the second and third bytes of its packet. *)
Definition buttons (b c : Z) : Z :=
  u8 (Z.lor (Z.shiftl (Z.lor (Z.lor (Z.land c 0x09) (Z.shiftr (Z.land c 0x04) 1)) (Z.shiftl (Z.land c 0x02) 1)) 4)
            (Z.land b 0x0F)).

(** The key of a direction. *)
Definition direction_key (d : Z) : option key_t :=
  if decide (d = 0x01) then Some (P_key 119)              (* w *)
  else if decide (d = 0x02) then Some (P_key 115)         (* s *)
  else if decide (d = 0x08) then Some (P_key 100)         (* d *)
  else if decide (d = 0x04) then Some (P_key 97)          (* a *)
  else None.

(** [tuxctl_handle_packet(packet)], called with interrupts off. *)
Definition tuxctl_handle_packet (packet : list Z) (m : machine) : option machine :=
  a ← arr_get packet 0; b ← arr_get packet 1; c ← arr_get packet 2;
  if decide (a = MTCP_BIOC_EVENT op) then
    let t := mkTux (tux_serial m.1) (busy m.1) (buttons b c) (button_state m.1) in
    match direction_key (Z.land (Z.shiftr (button_state t) 4) 0x0F) with
    | Some k => s ← key k m.2; Some (t, s)
    | None => Some (t, m.2)
    end
  else if decide (a = MTCP_RESET op) then '(_, m, _) ← tuxctl_ioctl TUX_INIT 0 [] m; Some m
  else if decide (a = MTCP_ACK op) then Some (on_tux (set_busy 0) m)
  else Some m.

(** [serial_isr()]; the status register is read twice, the data in between. *)
Definition serial_receive (data : Z) (m : machine) : option machine :=
  let s := tux_serial m.1 in
  b ← arr_set (rx_buf s) (rx_ind s) data;
  let s := set_rx (rx_ind s + 1) b s in
  if decide (rx_ind s = RX_PACKET_SIZE) then
    let s := set_rx 0 (rx_buf s) s in
    tuxctl_handle_packet (int_bytes (rx_buf s)) (set_serial s m.1, m.2)
  else Some (set_serial s m.1, m.2).

Definition serial_transmit (m : machine) : option machine :=
  on_serial (fun s =>
    if decide (tx_ind s <> tx_dat_len s) then
      v ← tx_word s (tx_ind s);
      Some (serial_outb v SERIAL_PORT (set_tx (tx_ind s + 1) (tx_dat_len s) (tx_buf s) s))
    else Some s) m.

Definition serial_isr (status1 data status2 : Z) (m : machine) : option machine :=
  m ← (if decide (data_ready status1 <> 0) then serial_receive data m else Some m);
  if decide (transmit_empty status2 <> 0) then serial_transmit m else Some m.

(** [init_tuxctl()] *)
Definition init_tuxctl (irqs : list (machine -> option machine)) (m : machine)
  : option (machine * list (machine -> option machine)) :=
  m ← on_serial (fun s => Some (init_serial s)) m;
  '(_, m, irqs) ← tuxctl_ioctl TUX_INIT 0 irqs m;
  '(_, m, irqs) ← tuxctl_ioctl TUX_SET_SCORE 0 irqs m;
  Some (m, irqs).
End Driver.

#[export] Instance key_type_eq_dec : EqDecision key_type_t.
Proof. solve_decision. Defined.

#[export] Instance key_t_eq_dec : EqDecision key_t.
Proof. solve_decision. Defined.

(** ** Properties of the line *)

Section Line.
Context (op : mtcp) (da : Z -> Z) {S : Type} (key : key_t -> S -> option S) (poke : Z -> Z -> S -> S).

Record serial_ok (s : serial) : Prop := {
  so_rx : length (rx_buf s) = 3%nat;
  so_tx : length (tx_buf s) = 64%nat;
  so_bytes : Forall (fun b => 0 <= b < 256) (tx_buf s)
}.

(** What the line has been sent. *)
Definition sent (s : serial) : list Z := snd <$> filter (fun w => w.1 = SERIAL_PORT) (serial_ports s).

(** Some interrupts, with the values they read. *)
Definition isrs (l : list (Z * Z * Z)) (m : tux * S) : option (tux * S) :=
  foldM (fun '(s1, d, s2) m => serial_isr op da key poke s1 d s2 m) l m.

Lemma tx_word_low s i : serial_ok s -> 0 <= i < TX_BUFFER_SIZE ->
  exists v, tx_word s i = Some v /\ arr_get (tx_buf s) (4 * i) = Some (u8 v).
Proof.
  intros [_ Hl Hb] Hi. unfold TX_BUFFER_SIZE in Hi. unfold tx_word.
  destruct (arr_get_Some (tx_buf s) (4 * i)) as (b0 & E0 & L0); [lia|].
  destruct (arr_get_Some (tx_buf s) (4 * i + 1)) as (b1 & E1 & _); [lia|].
  destruct (arr_get_Some (tx_buf s) (4 * i + 2)) as (b2 & E2 & _); [lia|].
  destruct (arr_get_Some (tx_buf s) (4 * i + 3)) as (b3 & E3 & _); [lia|].
  rewrite E0, E1, E2, E3, !bind_ret. eexists. split; [done|]. f_equal.
  pose proof (proj1 (list.Forall_lookup _ _) Hb _ _ L0) as Hr. cbn in Hr. unfold u8.
  rewrite <- (Z.mod_small b0 256 Hr) at 1.
  replace (b0 + 256 * b1 + 65536 * b2 + 16777216 * b3) with (b0 + (b1 + 256 * b2 + 65536 * b3) * 256) by lia.
  by rewrite Z_mod_plus_full.
Qed.

(** Byte [4 * i] of a buffer, for each [i] below [n]. *)
Definition every_fourth (b : list Z) (n : Z) : list Z := (fun i => default 0 (arr_get b (4 * i))) <$> seqZ 0 n.

Lemma every_fourth_snoc b n : 0 <= n -> every_fourth b (n + 1) = every_fourth b n ++ [default 0 (arr_get b (4 * n))].
Proof.
  intros Hn. unfold every_fourth. rewrite (seqZ_snoc 0 (n + 1)) by lia. rewrite fmap_app. cbn [fmap list_fmap].
  by replace (n + 1 - 1) with n by lia.
Qed.

Lemma sent_outb v s : sent (serial_outb v SERIAL_PORT s) = sent s ++ [u8 v].
Proof. unfold sent. cbn [serial_ports serial_outb]. rewrite (list.filter_app _ (serial_ports s)), fmap_app. done. Qed.

(** A line in the middle of a message of [n] bytes, [i] of them sent. *)
Record sending (s0 : list Z) (tx : list Z) (n i : Z) (s : serial) : Prop := {
  sg_ok : serial_ok s;
  sg_buf : tx_buf s = tx;
  sg_len : tx_dat_len s = n;
  sg_ind : tx_ind s = i;
  sg_sent : sent s = s0 ++ every_fourth tx i
}.

Lemma send_word s0 tx n i s s1 v : sending s0 tx n i s -> 0 <= i < TX_BUFFER_SIZE -> tx_word s i = Some v ->
  s1 = serial_outb v SERIAL_PORT (set_tx (i + 1) (tx_dat_len s) (tx_buf s) s) -> sending s0 tx n (i + 1) s1.
Proof.
  intros [Ok Eb En Ei Es] Hi Ev ->. destruct (tx_word_low s i Ok Hi) as (w & Ew & Hlow). rewrite Ev in Ew. injection Ew as <-.
  split; [|done|done|done|].
  - destruct Ok. by split.
  - rewrite sent_outb. change (sent (set_tx _ _ _ s)) with (sent s). rewrite Es, every_fourth_snoc by lia.
    rewrite <- Eb, Hlow. cbn [default]. by rewrite app_assoc.
Qed.

Lemma transmit_step s0 tx n i (m : tux * S) : sending s0 tx n i (tux_serial m.1) -> 0 <= i < TX_BUFFER_SIZE -> i <> n ->
  exists s1, serial_transmit m = Some (set_serial s1 m.1, m.2) /\ sending s0 tx n (i + 1) s1.
Proof.
  intros H Hi Hn. pose proof H as [Ok Eb En Ei Es]. unfold serial_transmit, on_serial. rewrite En, Ei, decide_True by done.
  destruct (tx_word_low _ i Ok Hi) as (v & Ev & _). rewrite Ev, !bind_ret. eexists. split; [done|].
  apply (send_word s0 tx n i (tux_serial m.1) _ v H Hi Ev). by rewrite En.
Qed.

Lemma transmit_done s0 tx n (m : tux * S) : sending s0 tx n n (tux_serial m.1) -> serial_transmit m = Some m.
Proof.
  intros [Ok Eb En Ei Es]. unfold serial_transmit, on_serial. rewrite En, Ei, decide_False by (intros X; by apply X).
  rewrite bind_ret. destruct m as [[s b bs ob] x]. done.
Qed.

(** Interrupts of a line that has nothing to read and can send. *)
Definition only_sends (i : Z * Z * Z) : Prop := data_ready i.1.1 = 0 /\ transmit_empty i.2 <> 0.

Lemma isrs_cons s1 d s2 l m : isrs ((s1, d, s2) :: l) m = (m ← serial_isr op da key poke s1 d s2 m; isrs l m).
Proof. done. Qed.

Lemma isr_sends s1 d s2 (m : tux * S) : only_sends (s1, d, s2) -> serial_isr op da key poke s1 d s2 m = serial_transmit m.
Proof.
  intros [H1 H2]. unfold serial_isr. rewrite decide_False by (intros X; by apply X). by rewrite bind_ret, decide_True.
Qed.

Lemma sends_rest s0 tx n l : 1 <= n < TX_BUFFER_SIZE -> Forall only_sends l -> forall i (m : tux * S),
  1 <= i <= n -> sending s0 tx n i (tux_serial m.1) ->
  exists s1, isrs l m = Some (set_serial s1 m.1, m.2) /\ sending s0 tx n (Z.min n (i + Z.of_nat (length l))) s1.
Proof.
  intros Hn. induction 1 as [|[[st1 d] st2] l Hx _ IH]; intros i m Hi H.
  - exists (tux_serial m.1). cbn [length]. split; [by destruct m as [[]]|]. by replace (Z.min n (i + Z.of_nat 0)) with i by lia.
  - rewrite isrs_cons, (isr_sends st1 d st2 m Hx).
    destruct (decide (i = n)) as [->|D].
    + rewrite (transmit_done s0 tx n m H), bind_ret. destruct (IH n m ltac:(lia) H) as (s1 & E & H1'). exists s1. split; [exact E|].
      replace (Z.min n (n + Z.of_nat (length ((st1, d, st2) :: l)))) with (Z.min n (n + Z.of_nat (length l))) by (simpl; lia). done.
    + destruct (transmit_step s0 tx n i m H ltac:(unfold TX_BUFFER_SIZE in *; lia) D) as (s1 & E & Hs). rewrite E, bind_ret.
      destruct (IH (i + 1) (set_serial s1 m.1, m.2) ltac:(lia) Hs) as (s2 & E2 & H2'). exists s2. split; [exact E2|].
      replace (Z.min n (i + Z.of_nat (length ((st1, d, st2) :: l)))) with (Z.min n (i + 1 + Z.of_nat (length l))) by (simpl; lia). done.
Qed.

Lemma serial_write_spec buf n s : serial_ok s -> 1 <= n < TX_BUFFER_SIZE -> n <= Z.of_nat (length buf) ->
  Forall (fun b => 0 <= b < 256) buf ->
  exists s1, serial_write buf n s = Some s1 /\ rx_ind s1 = rx_ind s /\
    sending (sent s) (take (Z.to_nat n) buf ++ drop (Z.to_nat n) (tx_buf s)) n 1 s1.
Proof.
  intros [Hrx Htx Hb] Hn Hlen Hbuf. unfold serial_write. rewrite decide_False by lia. set (tx := take _ buf ++ _).
  assert (H0 : sending (sent s) tx n 0 (set_tx 0 n tx s)).
  { split; [|done|done|done|by rewrite app_nil_r]. split; [done| |].
    - cbn [tx_buf set_tx]. subst tx. rewrite length_app, length_take, length_drop. unfold TX_BUFFER_SIZE in Hn. lia.
    - cbn [tx_buf set_tx]. subst tx. apply Forall_app. split; [by apply Forall_take|by apply Forall_drop]. }
  destruct (tx_word_low (set_tx 0 n tx s) 0 (sg_ok _ _ _ _ _ H0) ltac:(done)) as (v & Ev & _).
  change (tx_word (set_tx 1 n tx s) 0) with (tx_word (set_tx 0 n tx s) 0). rewrite Ev, bind_ret. eexists. split; [done|]. split; [done|].
  by apply (send_word (sent s) tx n 0 (set_tx 0 n tx s) _ v H0 ltac:(done) Ev).
Qed.

(** C40: A message of [n] bytes is sent as [n] bytes, the first at once and each
    other by an interrupt; no further interrupt sends anything.  The message
    stands in an array of [int]s filled byte by byte and sent element by element:
    what goes out is every fourth byte of it and then what the array held
    before, so only the first byte is the message's. *)
Theorem serial_sends (buf : list Z) (n : Z) (m : tux * S) (l : list (Z * Z * Z)) :
  serial_ok (tux_serial m.1) -> 1 <= n < TX_BUFFER_SIZE -> n <= Z.of_nat (length buf) -> Forall (fun b => 0 <= b < 256) buf ->
  Forall only_sends l -> n <= Z.of_nat (length l) + 1 ->
  exists s0 s1, on_serial (serial_write buf n) m = Some (set_serial s0 m.1, m.2) /\
    sent s0 = sent (tux_serial m.1) ++ take 1 buf /\
    isrs l (set_serial s0 m.1, m.2) = Some (set_serial s1 m.1, m.2) /\
    sent s1 = sent (tux_serial m.1) ++ every_fourth (take (Z.to_nat n) buf ++ drop (Z.to_nat n) (tx_buf (tux_serial m.1))) n.
Proof.
  intros Ok Hn Hlen Hbuf Hl Hm. destruct (serial_write_spec buf n _ Ok Hn Hlen Hbuf) as (s0 & E0 & _ & H0).
  destruct (sends_rest _ _ n l Hn Hl 1 (set_serial s0 m.1, m.2) ltac:(lia) H0) as (s1 & E1 & H1).
  exists s0, s1. unfold on_serial. rewrite E0, bind_ret. split; [done|]. split; [|split; [exact E1|]].
  - rewrite (sg_sent _ _ _ _ _ H0). f_equal. destruct buf as [|b buf]; [simpl in Hlen; lia|].
    replace (Z.to_nat n) with (Datatypes.S (Z.to_nat (n - 1))) by lia. reflexivity.
  - rewrite (sg_sent _ _ _ _ _ H1). by replace (Z.min n (1 + Z.of_nat (length l))) with n by lia.
Qed.











(** ** Initialisation *)

(** The four digits index the table of segments. *)
Definition digits_ok (digits : Z) : Prop := Forall (fun k => 0 <= Z.land digits (Z.shiftl 0x0F k) < 16) [0; 1; 2; 3].

Lemma hex_digit i : 0 <= i < 16 -> exists h, arr_get HEX_DATA i = Some h /\ 0 <= h < 256.
Proof.
  intros Hi. destruct (arr_get_Some HEX_DATA i) as (h & E & L); [done|]. exists h. split; [done|].
  assert (H : Forall (fun h => 0 <= h < 256) HEX_DATA) by (apply (bool_decide_unpack _); by vm_compute).
  apply (proj1 (list.Forall_lookup _ _) H _ _ L).
Qed.

Lemma send_idle buf n irqs (m : tux * S) : serial_ok (tux_serial m.1) -> busy m.1 = 0 -> 1 <= n < TX_BUFFER_SIZE ->
  n <= Z.of_nat (length buf) -> Forall (fun b => 0 <= b < 256) buf ->
  exists s, send buf n irqs m = Some ((set_busy 1 (set_serial s m.1), m.2), irqs) /\ serial_ok s.
Proof.
  intros Ok Hb Hn Hl Hbuf. unfold send. assert (E : while_busy irqs m = Some (m, irqs)) by (destruct irqs; cbn [while_busy]; by rewrite decide_True).
  rewrite E, bind_ret. destruct (serial_write_spec buf n _ Ok Hn Hl Hbuf) as (s & Es & _ & H).
  exists s. unfold on_serial, on_tux. cbn [fst snd]. change (tux_serial (set_busy 1 m.1)) with (tux_serial m.1).
  rewrite Es, !bind_ret. split; [done|]. apply H.
Qed.

Lemma while_busy_end irqs : forall (m m' : tux * S) rest, while_busy irqs m = Some (m', rest) -> busy m'.1 = 0.
Proof.
  induction irqs as [|i irqs IH]; intros m m' rest; cbn [while_busy]; case_decide as D; try done.
  - by intros [= <- <-].
  - by intros [= <- <-].
  - destruct (i m) as [m1|]; [|done]. rewrite bind_ret. apply IH.
Qed.

(** The start sends the first command and is done when an interrupt has ended
    the wait for its acknowledgement; else it never is. *)
Lemma init_tuxctl_spec irqs (m : tux * S) :
  serial_ok (tux_serial m.1) -> busy m.1 = 0 -> 0 <= MTCP_BIOC_ON op < 256 -> 0 <= MTCP_LED_SET op < 256 -> digits_ok (da 0) ->
  exists s, serial_ok s /\
    let m1 := (set_busy 1 (set_serial s m.1), m.2) in
    match while_busy irqs m1 with
    | Some (m2, rest) => serial_ok (tux_serial m2.1) ->
        exists s2, init_tuxctl op da poke irqs m = Some ((set_busy 1 (set_serial s2 m2.1), m2.2), rest) /\ serial_ok s2
    | None => init_tuxctl op da poke irqs m = None
    end.
Proof.
  intros Ok Hb H1 H2 Hd. unfold init_tuxctl, on_serial. rewrite !bind_ret. cbn [tuxctl_ioctl].
  set (m0 := (set_serial (init_serial (tux_serial m.1)) m.1, m.2)).
  destruct (send_idle [MTCP_BIOC_ON op] 1 irqs m0) as (s & E & Hs); [by destruct Ok|done|done|done|by apply Forall_cons_2|].
  rewrite E, !bind_ret. cbv beta iota. exists s. split; [done|]. cbv zeta. cbn [fst snd] in *.
  change (set_busy 1 (set_serial s m0.1), m0.2) with (set_busy 1 (set_serial s m.1), m.2).
  set (m1 := (set_busy 1 (set_serial s m.1), m.2)).
  unfold show_score. rewrite decide_False by done.
  apply list.Forall_cons in Hd as [D0 Hd]. apply list.Forall_cons in Hd as [D1 Hd]. apply list.Forall_cons in Hd as [D2 Hd].
  apply list.Forall_cons in Hd as [D3 _]. change (Z.shiftl 15 0) with 0x0F in D0.
  destruct (hex_digit _ D0) as (h0 & E0 & R0). destruct (hex_digit _ D1) as (h1 & E1 & R1).
  destruct (hex_digit _ D2) as (h2 & E2 & R2). destruct (hex_digit _ D3) as (h3 & E3 & R3). rewrite E0, E1, E2, E3, !bind_ret.
  destruct (while_busy irqs m1) as [[m2 rest]|] eqn:Ew.
  - intros Ok2. destruct (send_idle [MTCP_LED_SET op; 15; h0; h1; h2; h3] 6 rest m2) as (s2 & Es2 & Hs2);
      [done|by eapply while_busy_end|done|done|by repeat apply Forall_cons_2|].
    exists s2. split; [|done]. unfold send in *. rewrite Ew, bind_ret.
    assert (E' : while_busy rest m2 = Some (m2, rest)) by (destruct rest; cbn [while_busy]; by rewrite decide_True by (by eapply while_busy_end)).
    rewrite E', bind_ret in Es2. cbv beta iota in Es2 |- *. by rewrite Es2.
  - unfold send. by rewrite Ew.
Qed.
End Line.

(** ** A concrete run *)

(** The keys pressed, as a log; opcodes of a controller. *)
Definition log_key (k : key_t) (l : list key_t) : option (list key_t) := Some (l ++ [k])%list.
Definition demo_mtcp : mtcp := mkMtcp 0x50 0x5F 0x40 0xE0 0xC6.
Definition no_poke (_ _ : Z) (l : list key_t) : list key_t := l.

Lemma tux_start_ok : serial_ok (tux_serial tux_start).
Proof. split; [done|done|]. apply (bool_decide_unpack _). by vm_compute. Qed.

(** Six bytes: the first, the fifth, then zeros. *)
Lemma serial_sends_witness :
  exists s0 s1, on_serial (serial_write [1; 2; 3; 4; 5; 6] 6) (tux_start, @nil key_t) = Some (set_serial s0 tux_start, []) /\
    isrs demo_mtcp id log_key no_poke (replicate 5 (0, 0, 0x20)) (set_serial s0 tux_start, []) = Some (set_serial s1 tux_start, []) /\
    sent s1 = [1; 5; 0; 0; 0; 0].
Proof.
  destruct (serial_sends demo_mtcp id log_key no_poke [1; 2; 3; 4; 5; 6] 6 (tux_start, []) (replicate 5 (0, 0, 0x20)))
    as (s0 & s1 & E0 & _ & E1 & Es).
  - apply tux_start_ok.
  - done.
  - done.
  - apply (bool_decide_unpack _). by vm_compute.
  - repeat apply Forall_cons_2; try done; apply Forall_nil_2.
  - done.
  - exists s0, s1. split; [exact E0|]. split; [exact E1|]. rewrite Es. by vm_compute.
Defined.

