(* ===== verification/Boot.v ===== *)
(** * The start of the kernel: student-distrib/kernel.c

    [entry] is called by the boot loader's code with paging and interrupts off.
    It checks what the loader passed, sets up the segment descriptors of the LDT
    and the TSS, and runs the initialisation of every component, in order.  Its
    result is the state every other theorem on the kernel starts from. *)
From stdpp Require Import base tactics list numbers gmap option.
From Stdlib Require Import ZArith Lia.
From S2P Require Import Prelude CLib Task FileSys Term TermScreen TermSys Rtc I8259 Page Malloc Syscall Exec Fd Process Sched Idt Serial.

Open Scope Z_scope.

Definition MULTIBOOT_BOOTLOADER_MAGIC : Z := 0x2BADB002.
Definition KERNEL_TSS : Z := 0x30.
Definition KERNEL_LDT : Z := 0x38.
Definition TSS_SIZE : Z := 104.
Definition KB_IRQ : Z := 1.
Definition SLAVE_PIC_IRQ : Z := 2.
Definition RTC_IRQ : Z := 8.

(** ** Segment descriptors *)

(** [seg_desc_t]: [val[0]] and [val[1]]. *)
Record seg_desc_t := mkSeg { seg0 : Z; seg1 : Z }.

(** The fields in [val[0]] and in [val[1]]. *)
Definition seg_lim_15_00 : bitfield := (0, 16).
Definition base_15_00 : bitfield := (16, 16).
Definition base_23_16 : bitfield := (0, 8).
Definition seg_type : bitfield := (8, 4).
Definition seg_sys : bitfield := (12, 1).
Definition seg_dpl : bitfield := (13, 2).
Definition seg_present : bitfield := (15, 1).
Definition seg_lim_19_16 : bitfield := (16, 4).
Definition seg_avail : bitfield := (20, 1).
Definition seg_reserved : bitfield := (21, 1).
Definition seg_opsize : bitfield := (22, 1).
Definition seg_granularity : bitfield := (23, 1).
Definition base_31_24 : bitfield := (24, 8).

(** [SET_LDT_PARAMS(str, addr, lim)] and [SET_TSS_PARAMS(str, addr, lim)] have the
    same text. *)
Definition SET_SEG_PARAMS (addr lim : Z) (d : seg_desc_t) : seg_desc_t :=
  mkSeg (assign [(base_15_00, Z.land addr 0x0000FFFF); (seg_lim_15_00, Z.land lim 0x0000FFFF)] (seg0 d))
        (assign [(base_31_24, Z.shiftr (Z.land addr 0xFF000000) 24); (base_23_16, Z.shiftr (Z.land addr 0x00FF0000) 16);
                 (seg_lim_19_16, Z.shiftr (Z.land lim 0x000F0000) 16)] (seg1 d)).

(** The two local descriptors of [entry], from what the stack held. *)
Definition the_ldt_desc (ldt ldt_size : Z) (junk : seg_desc_t) : seg_desc_t :=
  SET_SEG_PARAMS ldt ldt_size
    (mkSeg (seg0 junk)
       (assign [(seg_granularity, 0); (seg_opsize, 1); (seg_reserved, 0); (seg_avail, 0); (seg_present, 1);
                (seg_dpl, 0); (seg_sys, 0); (seg_type, 2)] (seg1 junk))).

Definition the_tss_desc (tss tss_size : Z) (junk : seg_desc_t) : seg_desc_t :=
  SET_SEG_PARAMS tss tss_size
    (mkSeg (assign [(seg_lim_15_00, Z.land TSS_SIZE 0x0000FFFF)] (seg0 junk))
       (assign [(seg_granularity, 0); (seg_opsize, 0); (seg_reserved, 0); (seg_avail, 0);
                (seg_lim_19_16, Z.land TSS_SIZE 0x000F0000); (seg_present, 1); (seg_dpl, 0); (seg_sys, 0); (seg_type, 9)]
               (seg1 junk))).

(** ** The machine *)

Record machine := mkMachine {
  bm_kernel : kernel;
  bm_idt : list idt_desc_t;
  bm_pic : pic;
  ldt_desc_ptr : seg_desc_t;            (* the two entries of the GDT *)
  tss_desc_ptr : seg_desc_t;
  ldtr : Z;                             (* the selectors loaded *)
  tr : Z;
  tss_ldt : Z                           (* tss.ldt_segment_selector *)
}.

Definition set_kernel (k : kernel) (m : machine) : machine :=
  mkMachine k (bm_idt m) (bm_pic m) (ldt_desc_ptr m) (tss_desc_ptr m) (ldtr m) (tr m) (tss_ldt m).
Definition set_idt (i : list idt_desc_t) (m : machine) : machine :=
  mkMachine (bm_kernel m) i (bm_pic m) (ldt_desc_ptr m) (tss_desc_ptr m) (ldtr m) (tr m) (tss_ldt m).
Definition on_kernel (f : kernel -> option kernel) (m : machine) : option machine := k ← f (bm_kernel m); Some (set_kernel k m).
Definition on_idt (f : list idt_desc_t -> option (list idt_desc_t)) (m : machine) : option machine :=
  i ← f (bm_idt m); Some (set_idt i m).
Definition on_pic (f : pic -> pic) (m : machine) : machine :=
  mkMachine (bm_kernel m) (bm_idt m) (f (bm_pic m)) (ldt_desc_ptr m) (tss_desc_ptr m) (ldtr m) (tr m) (tss_ldt m).
Definition load_ldt (d : seg_desc_t) (m : machine) : machine :=
  mkMachine (bm_kernel m) (bm_idt m) (bm_pic m) d (tss_desc_ptr m) KERNEL_LDT (tr m) (tss_ldt m).
Definition load_tss (d : seg_desc_t) (m : machine) : machine :=
  mkMachine (set_tss (mkTss 0x800000 KERNEL_DS) (bm_kernel m)) (bm_idt m) (bm_pic m) (ldt_desc_ptr m) d (ldtr m) KERNEL_TSS KERNEL_LDT.

(** What the linker and the assembly files fix. *)
Record linked := mkLinked {
  ldt_addr : Z; ldt_size : Z; tss_addr : Z; tss_size : Z;
  isr_addr : isr -> Z;
  vid_table : Z; user_table : Z         (* the addresses of the two page tables *)
}.

(** What a start finds: the stack under the two local descriptors and the two
    registers [init_rtc] reads. *)
Record found := mkFound { junk_ldt : seg_desc_t; junk_tss : seg_desc_t; reg_b : Z; reg_a : Z }.

Inductive boot_result := Returned | Idle.

Section Entry.
Context (op : mtcp) (da : Z -> Z) (L : linked) (F : found).

Definition on_terms (f : tstate -> option tstate) (k : kernel) : option kernel := ts ← f (k_ts k); Some (set_ts ts k).

(** [CHECK_FLAG(flags, bit)] *)
Definition CHECK_FLAG (flags bit : Z) : Z := Z.land flags (Z.shiftl 1 bit).

(** The drivers' starts, each with its gate. *)
Definition boot_rtc (m : machine) : option machine :=
  m ← on_idt (install (isr_addr L) RTC_INT _rtc_isr) m;
  on_kernel (fun k => Some (set_rtc (init_rtc (reg_b F) (reg_a F) (k_rtc k)) k))
    (on_pic (enable_irq SLAVE_PIC_IRQ) (on_pic (enable_irq RTC_IRQ) m)).

Definition init_kb (m : machine) : option machine :=
  on_idt (install (isr_addr L) KB_INT _kb_isr) (on_pic (enable_irq KB_IRQ) m).

Definition boot_pit (m : machine) : option machine :=
  m ← on_idt (install (isr_addr L) PIT_INT _pit_isr) m;
  Some (on_pic init_pit m).

(** [entry] from the IDT to the terminals. *)
Definition boot_devices (bblock_addr : Z) (m : machine) : option machine :=
  m ← on_idt (idt_init (isr_addr L)) m;
  m ← on_kernel (fun k => p ← init_page (vid_table L) (user_table L) (k_paging k); Some (set_paging p k)) m;
  m ← boot_rtc (on_pic i8259_init m);
  m ← init_kb m;
  m ← on_kernel (fun k => Some (mkKernel (k_ts k) (k_rtc k) (fs_init bblock_addr) (k_paging k) (k_mapped k) (k_pages k) (tss k) (pid_used k))) m;
  on_kernel (on_terms init_term) m.

(** [entry(magic, addr)]; [irqs] are the interrupts served while [init_tuxctl]
    waits. *)
Definition entry (magic addr : Z) (irqs : list (tux * machine -> option (tux * machine))) (tm : tux * machine)
  : option (boot_result * (tux * machine)) :=
  let '(t, m) := tm in
  m ← on_kernel (on_terms (on_term 0 (fun c => Some (clear c)))) m;
  if decide (magic <> MULTIBOOT_BOOTLOADER_MAGIC) then Some (Returned, (t, m))
  else
    let mbi := k_mem (bm_kernel m) in
    let flags := ld32 mbi addr in
    if decide (CHECK_FLAG flags 4 <> 0 /\ CHECK_FLAG flags 5 <> 0) then Some (Returned, (t, m))
    else
      let m := load_ldt (the_ldt_desc (ldt_addr L) (ldt_size L) (junk_ldt F)) m in
      let m := load_tss (the_tss_desc (tss_addr L) (tss_size L) (junk_tss F)) m in
      let mod_ := ld32 mbi (u32 (addr + 24)) in
      m ← boot_devices (ld32 mbi mod_) m;
      '((t, m), _) ← init_tuxctl op da (fun a v m => default m (on_kernel (fun k => Some (set_kmem (st8 (k_mem k) a v) k)) m)) irqs (t, m);
      m ← boot_pit m;
      Some (Idle, (t, m)).
End Entry.

(** ** The descriptors as the processor reads them *)

Definition seg_base (d : seg_desc_t) : Z :=
  Z.shiftl (field_of base_31_24 (seg1 d)) 24 + Z.shiftl (field_of base_23_16 (seg1 d)) 16 + field_of base_15_00 (seg0 d).
Definition seg_limit (d : seg_desc_t) : Z := Z.shiftl (field_of seg_lim_19_16 (seg1 d)) 16 + field_of seg_lim_15_00 (seg0 d).

(** A present system segment of the kernel of a type, measured in bytes. *)
Definition system_segment (ty : Z) (d : seg_desc_t) : Prop :=
  field_of seg_present (seg1 d) = 1 /\ field_of seg_sys (seg1 d) = 0 /\ field_of seg_dpl (seg1 d) = 0 /\
  field_of seg_type (seg1 d) = ty /\ field_of seg_granularity (seg1 d) = 0.

Lemma bits_div sh w n : 0 <= sh -> 0 <= w -> bits sh w n = n / 2 ^ sh mod 2 ^ w.
Proof.
  intros Hs Hw. unfold bits. rewrite Z.shiftr_land, Z.shiftr_shiftl_l, Z.sub_diag, Z.shiftl_0_r, Z.land_ones, Z.shiftr_div_pow2 by lia.
  done.
Qed.

Lemma seg_params_fields addr lim d :
  field_of base_15_00 (seg0 (SET_SEG_PARAMS addr lim d)) = bits 0 16 addr /\
  field_of seg_lim_15_00 (seg0 (SET_SEG_PARAMS addr lim d)) = bits 0 16 lim /\
  field_of base_31_24 (seg1 (SET_SEG_PARAMS addr lim d)) = bits 24 8 addr /\
  field_of base_23_16 (seg1 (SET_SEG_PARAMS addr lim d)) = bits 16 8 addr /\
  field_of seg_lim_19_16 (seg1 (SET_SEG_PARAMS addr lim d)) = bits 16 4 lim.
Proof.
  pose proof (bits_range 0 16 addr ltac:(lia) ltac:(lia)) as R1. pose proof (bits_range 0 16 lim ltac:(lia) ltac:(lia)) as R2.
  pose proof (bits_range 24 8 addr ltac:(lia) ltac:(lia)) as R3. pose proof (bits_range 16 8 addr ltac:(lia) ltac:(lia)) as R4.
  pose proof (bits_range 16 4 lim ltac:(lia) ltac:(lia)) as R5.
  assert (E : forall n, Z.land n 0x0000FFFF = bits 0 16 n) by (intros n; unfold bits; by rewrite Z.shiftr_0_r).
  unfold SET_SEG_PARAMS. cbn [seg0 seg1]. rewrite !E.
  change (Z.shiftr (Z.land addr 0xFF000000) 24) with (bits 24 8 addr).
  change (Z.shiftr (Z.land addr 0x00FF0000) 16) with (bits 16 8 addr).
  change (Z.shiftr (Z.land lim 0x000F0000) 16) with (bits 16 4 lim).
  split_and!; (fld; aparts).
Qed.

Lemma seg_params_address addr lim d : 0 <= addr < 2 ^ 32 -> 0 <= lim < 2 ^ 20 ->
  seg_base (SET_SEG_PARAMS addr lim d) = addr /\ seg_limit (SET_SEG_PARAMS addr lim d) = lim.
Proof.
  intros Ha Hl. destruct (seg_params_fields addr lim d) as (E1 & E2 & E3 & E4 & E5). unfold seg_base, seg_limit.
  rewrite E1, E2, E3, E4, E5, !bits_div, !Z.shiftl_mul_pow2 by lia. change (2 ^ 32) with 4294967296 in Ha. change (2 ^ 20) with 1048576 in Hl.
  change (2 ^ 24) with 16777216. change (2 ^ 16) with 65536. change (2 ^ 8) with 256. change (2 ^ 4) with 16. change (2 ^ 0) with 1.
  split; zlia.
Qed.

Lemma ldt_segment a n d : system_segment 2 (the_ldt_desc a n d).
Proof.
  unfold system_segment, the_ldt_desc, SET_SEG_PARAMS. cbn [seg1]. rewrite assign_app. cbn [app]. split_and!; (fld; aparts).
Qed.

Lemma tss_segment a n d : system_segment 9 (the_tss_desc a n d).
Proof.
  unfold system_segment, the_tss_desc, SET_SEG_PARAMS. cbn [seg1]. rewrite assign_app. cbn [app]. split_and!; (fld; aparts).
Qed.

(** ** The terminals from nothing *)

(** Memory below [lo], or outside the text buffer's four pages, is kept. *)
Definition video (a : Z) : Prop := 0xB8000 <= a < 0xBC000.

(** The terminals as [init_term] leaves them. *)
Definition fresh_terms : list term_t := map (fun i => blank_term (page_of 0 i) (backing i)) [0; 1; 2].

Lemma clear_term l i t ct m ps st (P : Z -> Prop) : arr_get l i = Some t -> mem_ok m ->
  (forall j, 0 <= j < VID_MEM_SIZE -> P (video_mem t + j)) ->
  exists m', on_term i (fun c => Some (clear c)) (mkTS l 0 ct m ps st) = Some (mkTS l 0 ct m' ps st) /\ mem_ok m' /\
    forall a, ~ P a -> ld8 m' a = ld8 m a.
Proof.
  intros Et Hm HP. set (s := mkTS l 0 ct m ps st).
  pose proof (clear_any (con_at s i t) P Hm HP) as H. rewrite (on_term_eq s i t _ Et), bind_ret.
  generalize dependent (clear (con_at s i t)). intros c (E1 & E2 & E3 & E4 & E5). exists (vm c). unfold put_con.
  rewrite E1, E2. split; [|exact (conj E4 E5)]. cbn [tm con_at ports]. f_equal. unfold s. f_equal.
  apply list_insert_id. unfold arr_get in Et. by case_decide.
Qed.

Lemma init_term_spec ct m ps st : mem_ok m ->
  exists m' ps', init_term (mkTS [zero_term; zero_term; zero_term] 0 ct m ps st) = Some (mkTS fresh_terms 0 ct m' ps' st) /\
    mem_ok m' /\ forall a, ~ video a -> ld8 m' a = ld8 m a.
Proof.
  intros Hm. unfold init_term.
  erewrite (on_term_eq _ 0) by reflexivity. rewrite !bind_ret.
  erewrite (on_term_eq _ 1) by reflexivity. rewrite !bind_ret.
  erewrite (on_term_eq _ 2) by reflexivity. rewrite !bind_ret.
  set (ps' := (((ps ++ [(0x3D4, 0x0A)]) ++ [(0x3D5, 0x00)]) ++ [(0x3D4, 0x0B)]) ++ [(0x3D5, 0x0F)]).
  change (put_con _ 2 _) with (mkTS fresh_terms 0 ct m ps' st).
  assert (HP : forall i, 0 <= i < TERM_NUM -> forall j, 0 <= j < VID_MEM_SIZE -> video (page_of 0 i + j)).
  { intros i Hi j Hj. pose proof (page_range 0 i Hi). unfold video, VID_MEM_SIZE in *. lia. }
  pose proof (HP 0 ltac:(done)) as P0. pose proof (HP 1 ltac:(done)) as P1. pose proof (HP 2 ltac:(done)) as P2.
  destruct (clear_term fresh_terms 0 _ ct m ps' st video eq_refl Hm P0) as (m1 & E1 & H1 & K1). rewrite E1, bind_ret.
  destruct (clear_term fresh_terms 1 _ ct m1 ps' st video eq_refl H1 P1) as (m2 & E2 & H2 & K2). rewrite E2, bind_ret.
  destruct (clear_term fresh_terms 2 _ ct m2 ps' st video eq_refl H2 P2) as (m3 & E3 & H3 & K3).
  exists m3, ps'. split; [exact E3|]. split; [exact H3|]. intros a Ha. rewrite (K3 a Ha), (K2 a Ha). exact (K1 a Ha).
Qed.

(** ** Before and after *)

(** What [entry] finds: a kernel whose statics are as the linker left them, a
    multiboot record outside the first 4000 bytes and a module that is a
    well-formed image in the kernel's 4 MB; the memory of the process control
    blocks reads as blocks of no process. *)
Record startable (L : linked) (m : machine) (addr boot_ptr : Z) : Prop := {
  st_tables : tables_ok (vid_table L) (user_table L);
  st_isrs : forall h, 0 <= isr_addr L h < 2 ^ 32;
  st_ldt : 0 <= ldt_addr L < 2 ^ 32 /\ 0 <= ldt_size L < 2 ^ 20;
  st_tss : 0 <= tss_addr L < 2 ^ 32 /\ 0 <= tss_size L < 2 ^ 20;
  st_terms : terms (k_ts (bm_kernel m)) = [zero_term; zero_term; zero_term] /\ cur_term_ind (k_ts (bm_kernel m)) = 0;
  st_mem : mem_ok (k_mem (bm_kernel m));
  st_idt : Z.of_nat (length (bm_idt m)) = NUM_VEC;
  st_paging : length (page_directory (k_paging (bm_kernel m))) = 1024%nat /\
    length (vidmem_page_table (k_paging (bm_kernel m))) = 1024%nat /\ length (user_vidmem_page_table (k_paging (bm_kernel m))) = 1024%nat;
  st_mapped : k_mapped (bm_kernel m) = USER_PAGE_INDEX;
  st_pages : forall q, mem_ok (page_of_task q (bm_kernel m));
  st_rtc : time_elasped (k_rtc (bm_kernel m)) = replicate 10 0 /\ rtc_files (k_rtc (bm_kernel m)) = replicate 10 None;
  st_pids : pid_used (bm_kernel m) = replicate 10 0;
  st_pcbs : forall pid, 0 <= pid < MAX_PROC_NUM -> exists p, k_pcbs (bm_kernel m) !! TASK_KSTACK_TOP pid = Some p /\ pcb_ok p;
  st_record : VID_MEM_SIZE <= addr /\ addr + 28 <= 2 ^ 32 /\ VID_MEM_SIZE <= ld32 (k_mem (bm_kernel m)) (addr + 24) /\
    ld32 (k_mem (bm_kernel m)) (addr + 24) + 4 <= 2 ^ 32;
  st_module : ld32 (k_mem (bm_kernel m)) (ld32 (k_mem (bm_kernel m)) (addr + 24)) = boot_ptr;
  st_image : fs_wf (k_mem (bm_kernel m)) (fs_init boot_ptr) /\ 0x400000 <= boot_ptr /\
    boot_ptr + image_size (k_mem (bm_kernel m)) (fs_init boot_ptr) <= KSTACKS
}.

(** The lines of the interrupt controller the kernel listens to. *)
Definition lines : list Z := [0; 1; 2; 8].

(** A kernel that has started and runs nothing yet. *)
Record booted (k : kernel) (p : pic) (img : mem) (boot_ptr : Z) : Prop := {
  bo_kernel : kernel_ok k;
  bo_files : k_fs k = fs_init boot_ptr;
  bo_image : image_kept img (fs_init boot_ptr) (k_mem k);
  bo_front : forall i, 0 <= i < TERM_NUM -> front k i = Some 0;
  bo_used : pid_used k = replicate 10 0;
  bo_tss : tss k = mkTss 0x800000 KERNEL_DS;
  bo_masks : master_mask p = 0xF8 /\ slave_mask p = 0xFE
}.

(** Interrupts before the first process: the kernel keeps its invariant, no
    process appears and the tables stay. *)
Record calm (m m' : machine) : Prop := {
  cl_kernel : kernel_ok (bm_kernel m');
  cl_files : k_fs (bm_kernel m') = k_fs (bm_kernel m);
  cl_image : forall a, 0x400000 <= a < KSTACKS -> ld8 (k_mem (bm_kernel m')) a = ld8 (k_mem (bm_kernel m)) a;
  cl_front : forall i, front (bm_kernel m') i = front (bm_kernel m) i;
  cl_used : pid_used (bm_kernel m') = pid_used (bm_kernel m);
  cl_tss : tss (bm_kernel m') = tss (bm_kernel m);
  cl_masks : master_mask (bm_pic m') = master_mask (bm_pic m) /\ slave_mask (bm_pic m') = slave_mask (bm_pic m);
  cl_idt : bm_idt m' = bm_idt m;
  cl_segs : ldt_desc_ptr m' = ldt_desc_ptr m /\ tss_desc_ptr m' = tss_desc_ptr m /\ ldtr m' = ldtr m /\ tr m' = tr m /\
    tss_ldt m' = tss_ldt m
}.

Lemma calm_refl m : kernel_ok (bm_kernel m) -> calm m m.
Proof. intros H. by split. Qed.

Lemma calm_trans m1 m2 m3 : calm m1 m2 -> calm m2 m3 -> calm m1 m3.
Proof.
  intros [A1 A2 A3 A4 A5 A6 [A7 A7'] A8 (A9 & A10 & A11 & A12 & A13)] [B1 B2 B3 B4 B5 B6 [B7 B7'] B8 (B9 & B10 & B11 & B12 & B13)].
  split; [exact B1|congruence|intros a Ha; by rewrite B3, A3|intros i; by rewrite B4, A4|congruence..| |congruence|].
  - split; congruence.
  - split_and!; congruence.
Qed.

(** ** The devices *)

(** The kernel once its components are initialised. *)
Definition started_kernel (ts : tstate) (r : rtc_globals) (boot_ptr : Z) (p : paging) (k : kernel) : kernel :=
  mkKernel ts r (fs_init boot_ptr) p (k_mapped k) (k_pages k) (tss k) (pid_used k).

Lemma init_rtc_inv b a g st : time_elasped g = replicate 10 0 -> rtc_files g = replicate 10 None -> rtc_inv (init_rtc b a g, st).
Proof.
  intros Ht Hf. assert (Er : registered (init_rtc b a g) = []).
  { unfold registered. change (rtc_files (init_rtc b a g)) with (rtc_files g). by rewrite Hf. }
  split; cbn [fst snd].
  - change (sys_freq_pow (init_rtc b a g)) with 1. lia.
  - reflexivity.
  - reflexivity.
  - change (time_elasped (init_rtc b a g)) with (time_elasped g). by rewrite Ht.
  - change (time_elasped (init_rtc b a g)) with (time_elasped g). rewrite Ht. intros i t [-> _]%lookup_replicate.
    split; [done|apply Z.divide_0_r].
  - change (rtc_files (init_rtc b a g)) with (rtc_files g). by rewrite Hf.
  - rewrite Er. constructor.
  - rewrite Er. set_solver.
Qed.

Section Start.
Context (L : linked) (F : found) (m : machine) (addr boot_ptr : Z) (St : startable L m addr boot_ptr).

Lemma image_in_kernel a : in_image (k_mem (bm_kernel m)) (fs_init boot_ptr) a -> 0x400000 <= a < KSTACKS.
Proof. destruct (st_image _ _ _ _ St) as (_ & H1 & H2). unfold in_image. cbn [bblock_ptr fs_init]. lia. Qed.

Lemma started_kernel_ok ct m' ps p r :
  mem_ok m' -> (forall a, 0x400000 <= a < KSTACKS -> ld8 m' a = ld8 (k_mem (bm_kernel m)) a) ->
  paging_ok (vid_table L) (user_table L) USER_PAGE_INDEX VID_MEM_ADDR p -> r = init_rtc (reg_b F) (reg_a F) (k_rtc (bm_kernel m)) ->
  let ts := mkTS fresh_terms 0 ct m' ps (k_pcbs (bm_kernel m)) in
  forall k, k_mapped k = k_mapped (bm_kernel m) -> k_pages k = k_pages (bm_kernel m) -> pid_used k = pid_used (bm_kernel m) ->
  kernel_ok (started_kernel ts r boot_ptr p k).
Proof.
  intros Hm Hkept Hp -> ts k E1 E2 E3. destruct (st_image _ _ _ _ St) as (Hwf & Hb & He). destruct (st_rtc _ _ _ _ St) as [Ht Hf].
  assert (HK : image_kept (k_mem (bm_kernel m)) (fs_init boot_ptr) m') by (intros a Ha; apply Hkept, image_in_kernel, Ha).
  destruct (counts_kept _ _ Hwf m' HK) as [C1 C2].
  split; unfold started_kernel; cbn [k_ts k_rtc k_fs k_paging k_mapped pid_used].
  - by apply blank_state_wf.
  - exists (vid_table L), (user_table L), VID_MEM_ADDR. by rewrite E1, (st_mapped _ _ _ _ St).
  - intros q. unfold page_of_task. cbn [k_pages]. rewrite E2. apply (st_pages _ _ _ _ St).
  - by apply init_rtc_inv.
  - by apply (fs_wf_kept _ _ Hwf).
  - split; [done|]. unfold image_size in *. change (k_mem _) with m'. by rewrite C1, C2.
  - rewrite E3, (st_pids _ _ _ _ St). split; [done|]. repeat constructor; by (left + right).
  - apply (st_pcbs _ _ _ _ St).
  - intros pid q _ Hu. unfold pid_in_use in Hu. cbn [pid_used] in Hu. rewrite E3, (st_pids _ _ _ _ St) in Hu.
    unfold arr_get in Hu. case_decide; [|done]. by apply lookup_replicate in Hu as [? _].
  - intros fp. change (rtc_files (init_rtc _ _ _)) with (rtc_files (k_rtc (bm_kernel m))). rewrite Hf.
    by intros [[=] _]%elem_of_replicate.
Qed.
End Start.

Lemma boot_idt_steps addr idt idt' : boot_idt addr idt = Some idt' ->
  exists i0 i1 i2, idt_init addr idt = Some i0 /\ install addr RTC_INT _rtc_isr i0 = Some i1 /\
    install addr KB_INT _kb_isr i1 = Some i2 /\ install addr PIT_INT _pit_isr i2 = Some idt'.
Proof.
  unfold boot_idt. destruct (idt_init addr idt) as [i0|] eqn:E0; [|done]. rewrite bind_ret. unfold driver_entries. cbn [foldM].
  destruct (install addr RTC_INT _rtc_isr i0) as [i1|] eqn:E1; [|done]. cbn [mbind option_bind].
  destruct (install addr KB_INT _kb_isr i1) as [i2|] eqn:E2; [|done]. cbn [mbind option_bind].
  destruct (install addr PIT_INT _pit_isr i2) as [i3|] eqn:E3; [|done]. cbn [mbind option_bind]. intros [= <-]. by exists i0, i1, i2.
Qed.

(** The controller once the clock's and the keyboard's drivers have started. *)
Definition devices_pic (p : pic) : pic := enable_irq KB_IRQ (enable_irq SLAVE_PIC_IRQ (enable_irq RTC_IRQ (i8259_init p))).

Lemma devices_pic_masks p : master_mask (devices_pic p) = 0xF9 /\ slave_mask (devices_pic p) = 0xFE.
Proof. by split. Qed.

Lemma init_pit_masks p : master_mask (init_pit p) = Z.land (master_mask p) 0xFE /\ slave_mask (init_pit p) = slave_mask p.
Proof. by split. Qed.

Lemma on_kernel_eq f m k : f (bm_kernel m) = Some k -> on_kernel f m = Some (set_kernel k m).
Proof. intros E. unfold on_kernel. by rewrite E. Qed.

Lemma on_idt_eq f m i : f (bm_idt m) = Some i -> on_idt f m = Some (set_idt i m).
Proof. intros E. unfold on_idt. by rewrite E. Qed.

Section Devices.
Context (L : linked) (F : found) (boot_ptr : Z) (m : machine).
Context (ct : Z) (mm : mem) (ps : list (Z * Z)) (st : pcb_store) (Hts : k_ts (bm_kernel m) = mkTS [zero_term; zero_term; zero_term] 0 ct mm ps st).

Lemma boot_devices_spec i0 i1 i2 p : mem_ok mm ->
  idt_init (isr_addr L) (bm_idt m) = Some i0 -> install (isr_addr L) RTC_INT _rtc_isr i0 = Some i1 ->
  install (isr_addr L) KB_INT _kb_isr i1 = Some i2 -> init_page (vid_table L) (user_table L) (k_paging (bm_kernel m)) = Some p ->
  exists m' ps', boot_devices L F boot_ptr m =
      Some (mkMachine (started_kernel (mkTS fresh_terms 0 ct m' ps' st) (init_rtc (reg_b F) (reg_a F) (k_rtc (bm_kernel m))) boot_ptr p (bm_kernel m))
              i2 (devices_pic (bm_pic m)) (ldt_desc_ptr m) (tss_desc_ptr m) (ldtr m) (tr m) (tss_ldt m)) /\
    mem_ok m' /\ forall a, ~ video a -> ld8 m' a = ld8 mm a.
Proof.
  intros Hm E0 E1 E2 Ep. destruct (init_term_spec ct mm ps st Hm) as (m' & ps' & Et & Hm' & Hk). exists m', ps'. split; [|exact (conj Hm' Hk)].
  unfold boot_devices. rewrite (on_idt_eq _ _ i0 E0), bind_ret.
  rewrite (on_kernel_eq _ _ (set_paging p (bm_kernel m))), bind_ret by (change (bm_kernel (set_idt i0 m)) with (bm_kernel m); by rewrite Ep).
  unfold boot_rtc. erewrite (on_idt_eq (install (isr_addr L) RTC_INT _rtc_isr)) by exact E1. rewrite bind_ret. erewrite on_kernel_eq by reflexivity. rewrite bind_ret.
  unfold init_kb. erewrite (on_idt_eq (install (isr_addr L) KB_INT _kb_isr)) by exact E2. rewrite bind_ret. erewrite on_kernel_eq by reflexivity. rewrite bind_ret.
  erewrite on_kernel_eq; [reflexivity|]. unfold on_terms. cbn [k_ts set_kernel bm_kernel].
  change (init_term _ ) with (init_term (k_ts (bm_kernel m))). rewrite Hts, Et, bind_ret. reflexivity.
Qed.
End Devices.

(** ** The wait for the controller *)

Abbreviation interrupt := (tux * machine -> option (tux * machine)).

(** Interrupts that leave a kernel without processes and the serial driver in
    order. *)
Definition calm_interrupt (i : interrupt) : Prop := forall t m t' m', i (t, m) = Some (t', m') ->
  kernel_ok (bm_kernel m) -> serial_ok (tux_serial t) -> calm m m' /\ serial_ok (tux_serial t').

Lemma while_calm irqs : Forall calm_interrupt irqs -> forall t m t' m' rest,
  while_busy irqs (t, m) = Some ((t', m'), rest) -> kernel_ok (bm_kernel m) -> serial_ok (tux_serial t) ->
  calm m m' /\ serial_ok (tux_serial t').
Proof.
  induction 1 as [|i irqs Hi _ IH]; intros t m t' m' rest; cbn [while_busy fst].
  - case_decide; [|done]. intros [= <- <- _] Hk Hs. split; [by apply calm_refl|exact Hs].
  - case_decide.
    + intros [= <- <- _] Hk Hs. split; [by apply calm_refl|exact Hs].
    + destruct (i (t, m)) as [[t1 m1]|] eqn:E; [|done]. rewrite bind_ret. intros Hw Hk Hs.
      destruct (Hi _ _ _ _ E Hk Hs) as [C1 S1]. destruct (IH _ _ _ _ _ Hw (cl_kernel _ _ C1) S1) as [C2 S2].
      split; [by eapply calm_trans|exact S2].
Qed.

(** The segments of the start. *)
Definition segments_ok (L : linked) (m : machine) : Prop :=
  (system_segment 2 (ldt_desc_ptr m) /\ seg_base (ldt_desc_ptr m) = ldt_addr L /\ seg_limit (ldt_desc_ptr m) = ldt_size L) /\
  (system_segment 9 (tss_desc_ptr m) /\ seg_base (tss_desc_ptr m) = tss_addr L /\ seg_limit (tss_desc_ptr m) = tss_size L) /\
  ldtr m = KERNEL_LDT /\ tr m = KERNEL_TSS /\ tss_ldt m = KERNEL_LDT.

Section Booting.
Context (op : mtcp) (da : Z -> Z) (L : linked) (F : found) (m : machine) (addr boot_ptr : Z) (St : startable L m addr boot_ptr).
Context (Hflags : ~ (CHECK_FLAG (ld32 (k_mem (bm_kernel m)) addr) 4 <> 0 /\ CHECK_FLAG (ld32 (k_mem (bm_kernel m)) addr) 5 <> 0)).

Abbreviation mem0 := (k_mem (bm_kernel m)).

(** The first [clear(terms)] finds no page of video memory yet. *)
Lemma first_clear : exists ct m1 ps,
  on_kernel (on_terms (on_term 0 (fun c => Some (clear c)))) m
    = Some (set_kernel (set_ts (mkTS [zero_term; zero_term; zero_term] 0 ct m1 ps (k_pcbs (bm_kernel m))) (bm_kernel m)) m) /\
  mem_ok m1 /\ forall a, ~ (0 <= a < VID_MEM_SIZE) -> ld8 m1 a = ld8 mem0 a.
Proof.
  destruct (st_terms _ _ _ _ St) as [Et Ec]. pose proof (st_mem _ _ _ _ St) as Hm. unfold on_kernel, on_terms.
  unfold k_mem, k_pcbs in *. destruct (k_ts (bm_kernel m)) as [ts i ct mm ps st]. cbn [terms cur_term_ind vmem pcbs] in *. subst ts i.
  assert (HP : forall j, 0 <= j < VID_MEM_SIZE -> (fun a => 0 <= a < VID_MEM_SIZE) (video_mem zero_term + j)) by (intros j Hj; exact Hj).
  destruct (clear_term [zero_term; zero_term; zero_term] 0 zero_term ct mm ps st _ eq_refl Hm HP) as (m1 & E & H1 & K1).
  exists ct, m1, ps. rewrite E, !bind_ret. split; [done|exact (conj H1 K1)].
Qed.

(** Everything up to the controller's start. *)
Lemma entry_devices irqs t : exists p p2 i2 m2 ps2 ct,
  boot_idt (isr_addr L) (bm_idt m) = Some p /\ install (isr_addr L) PIT_INT _pit_isr i2 = Some p /\
  paging_ok (vid_table L) (user_table L) USER_PAGE_INDEX VID_MEM_ADDR p2 /\
  mem_ok m2 /\ (forall a, 0x400000 <= a < KSTACKS -> ld8 m2 a = ld8 mem0 a) /\
  let k := started_kernel (mkTS fresh_terms 0 ct m2 ps2 (k_pcbs (bm_kernel m))) (init_rtc (reg_b F) (reg_a F) (k_rtc (bm_kernel m)))
             boot_ptr p2 (set_tss (mkTss 0x800000 KERNEL_DS) (bm_kernel m)) in
  let m1 := mkMachine k i2 (devices_pic (bm_pic m)) (the_ldt_desc (ldt_addr L) (ldt_size L) (junk_ldt F))
              (the_tss_desc (tss_addr L) (tss_size L) (junk_tss F)) KERNEL_LDT KERNEL_TSS KERNEL_LDT in
  entry op da L F MULTIBOOT_BOOTLOADER_MAGIC addr irqs (t, m) =
    ('((t, m), _) ← init_tuxctl op da (fun a v m => default m (on_kernel (fun k => Some (set_kmem (st8 (k_mem k) a v) k)) m)) irqs (t, m1);
     m ← boot_pit L m; Some (Idle, (t, m))).
Proof.
  destruct (boot_idt_spec (isr_addr L) (bm_idt m) (st_isrs _ _ _ _ St) (st_idt _ _ _ _ St)) as (i3 & Ei & _ & _).
  destruct (boot_idt_steps _ _ _ Ei) as (i0 & i1 & i2 & E0 & E1 & E2 & E3).
  destruct (st_paging _ _ _ _ St) as (L1 & L2 & L3).
  destruct (init_page_spec _ _ (k_paging (bm_kernel m)) (st_tables _ _ _ _ St) L1 L2 L3) as (p2 & Ep & Hp).
  destruct first_clear as (ct & mc & psc & Ec & Hmc & Kc).
  set (kc := set_ts (mkTS [zero_term; zero_term; zero_term] 0 ct mc psc (k_pcbs (bm_kernel m))) (bm_kernel m)) in *.
  set (mt := load_tss (the_tss_desc (tss_addr L) (tss_size L) (junk_tss F)) (load_ldt (the_ldt_desc (ldt_addr L) (ldt_size L) (junk_ldt F)) (set_kernel kc m))).
  destruct (boot_devices_spec L F boot_ptr mt ct mc psc (k_pcbs (bm_kernel m)) eq_refl i0 i1 i2 p2 Hmc E0 E1 E2 Ep)
    as (m2 & ps2 & Eb & Hm2 & K2).
  exists i3, p2, i2, m2, ps2, ct. split; [exact Ei|]. split; [exact E3|]. split; [exact Hp|]. split; [exact Hm2|].
  assert (Kept : forall a, 0x400000 <= a < KSTACKS -> ld8 m2 a = ld8 mem0 a).
  { intros a Ha. rewrite K2 by (unfold video; lia). apply Kc. unfold VID_MEM_SIZE. lia. }
  split; [exact Kept|]. cbv zeta. unfold entry. rewrite Ec, bind_ret. rewrite decide_False by (intros X; by apply X).
  destruct (st_record _ _ _ _ St) as (A1 & A2 & A3 & A4). change (k_mem (bm_kernel (set_kernel kc m))) with mc.
  assert (Ld : forall a, VID_MEM_SIZE <= a -> a + 4 <= 2 ^ 32 -> ld32 mc a = ld32 mem0 a).
  { intros a Ha Hb. apply ld32_agree; [unfold VID_MEM_SIZE in Ha; lia|exact Hb|]. intros x Hx. apply Kc. lia. }
  rewrite (Ld addr) by (change (2 ^ 32) with 4294967296 in *; lia). rewrite (decide_False (P := _ /\ _)) by exact Hflags.
  rewrite u32_small by (unfold VID_MEM_SIZE in *; change (2 ^ 32) with 4294967296 in *; lia).
  rewrite (Ld (addr + 24)) by (change (2 ^ 32) with 4294967296 in *; lia). rewrite (Ld (ld32 mem0 (addr + 24))) by exact A3 || exact A4.
  rewrite (st_module _ _ _ _ St). fold mt. rewrite Eb, bind_ret. reflexivity.
Qed.
End Booting.

(** ** Properties *)

(** C4: The start of the kernel.  Whatever lies in the tables and on the stack,
    [entry] reaches the start of the Tux controller with the kernel's invariant
    established, and sends the controller its first command.  There it waits: if
    no interrupt clears [busy] it never returns (and the controller's own line,
    4, is masked).  Otherwise it ends in the idle loop with the invariant still
    holding, the file system of the module it was given, no process, an empty
    terminal on each screen, every vector leading to its routine, the segments of
    the LDT and the TSS where they are, and exactly the lines of the timer, the
    keyboard, the second chip and the clock open. *)
Theorem boot_correct (op : mtcp) (da : Z -> Z) (L : linked) (F : found) (m : machine) (addr boot_ptr : Z) (t : tux) (irqs : list interrupt) :
  startable L m addr boot_ptr ->
  ~ (CHECK_FLAG (ld32 (k_mem (bm_kernel m)) addr) 4 <> 0 /\ CHECK_FLAG (ld32 (k_mem (bm_kernel m)) addr) 5 <> 0) ->
  serial_ok (tux_serial t) -> busy t = 0 -> 0 <= MTCP_BIOC_ON op < 256 -> 0 <= MTCP_LED_SET op < 256 -> digits_ok (da 0) ->
  Forall calm_interrupt irqs ->
  let start := entry op da L F MULTIBOOT_BOOTLOADER_MAGIC addr irqs (t, m) in
  exists t1 m1, kernel_ok (bm_kernel m1) /\ busy t1 = 1 /\ masked (bm_pic m1) 4 = true /\
    match while_busy irqs (t1, m1) with
    | None => start = None
    | Some _ => exists t' m', start = Some (Idle, (t', m')) /\
        booted (bm_kernel m') (bm_pic m') (k_mem (bm_kernel m)) boot_ptr /\ segments_ok L m' /\
        (forall i, 0 <= i < NUM_VEC -> (d ← arr_get (bm_idt m') i; gate d) = vector (isr_addr L) i) /\
        forall n, 0 <= n < 16 -> masked (bm_pic m') n = bool_decide (n ∉ lines)
    end.
Proof.
  intros St Hflags Hs Hb H1 H2 Hd Hirqs start.
  destruct (entry_devices op da L F m addr boot_ptr St Hflags irqs t) as (i3 & p2 & i2 & m2 & ps2 & ct & Ei & Epit & Hp & Hm2 & K2 & Eentry).
  cbv zeta in Eentry. fold start in Eentry. set (m1 := mkMachine _ i2 _ _ _ _ _ _) in Eentry.
  assert (Hk1 : kernel_ok (bm_kernel m1)) by (apply (started_kernel_ok L F m addr boot_ptr St ct m2 ps2 p2 _ Hm2 K2 Hp eq_refl); reflexivity).
  set (poke := fun a v m => _) in Eentry.
  destruct (init_tuxctl_spec op da poke irqs (t, m1) Hs Hb H1 H2 Hd) as (s & Hs1 & Ht). cbn [fst snd] in Ht.
  exists (set_busy 1 (set_serial s t)), m1. split; [exact Hk1|]. split; [reflexivity|]. split; [reflexivity|].
  destruct (while_busy irqs (set_busy 1 (set_serial s t), m1)) as [[[t2 m3] rest]|] eqn:Ew; [|by rewrite Eentry, Ht].
  destruct (while_calm irqs Hirqs _ _ _ _ _ Ew Hk1 Hs1) as [C Hs2]. destruct (Ht Hs2) as (s2 & Einit & _). cbn [fst snd] in Einit.
  rewrite Eentry, Einit, bind_ret. cbv beta iota.
  destruct C as [C1 C2 C3 C4 C5 C6 [C7 C7'] C8 (C9 & C10 & C11 & C12 & C13)].
  unfold boot_pit. erewrite (on_idt_eq (install (isr_addr L) PIT_INT _pit_isr)) by (rewrite C8; exact Epit). rewrite !bind_ret.
  destruct (init_pit_masks (bm_pic m3)) as [M1 M2]. destruct (devices_pic_masks (bm_pic m)) as [D1 D2].
  change (bm_pic m1) with (devices_pic (bm_pic m)) in C7, C7'. rewrite C7, D1 in M1. rewrite C7', D2 in M2. change (Z.land 0xF9 0xFE) with 0xF8 in M1.
  eexists _, _. split; [reflexivity|]. split; [|split; [|split]].
  - split; cbn [bm_kernel on_pic set_idt bm_pic].
    + exact C1.
    + by rewrite C2.
    + intros a Ha. pose proof (image_in_kernel L m addr boot_ptr St a Ha) as Hr. rewrite C3 by exact Hr. by apply K2.
    + intros i Hi. rewrite C4. unfold TERM_NUM in Hi. assert (i = 0 \/ i = 1 \/ i = 2) as [->|[->| ->]] by lia; reflexivity.
    + rewrite C5. apply (st_pids _ _ _ _ St).
    + by rewrite C6.
    + by split.
  - unfold segments_ok. cbn [ldt_desc_ptr tss_desc_ptr ldtr tr tss_ldt on_pic set_idt]. rewrite C9, C10, C11, C12, C13.
    destruct (st_ldt _ _ _ _ St) as [La Ll]. destruct (st_tss _ _ _ _ St) as [Ta Tl].
    pose proof (seg_params_address (ldt_addr L) (ldt_size L)) as HL. pose proof (seg_params_address (tss_addr L) (tss_size L)) as HT.
    split; [split; [apply ldt_segment|by apply HL]|]. split; [split; [apply tss_segment|by apply HT]|by split].
  - destruct (boot_idt_spec (isr_addr L) (bm_idt m) (st_isrs _ _ _ _ St) (st_idt _ _ _ _ St)) as (i3' & Ei' & _ & Hv).
    rewrite Ei in Ei'. injection Ei' as <-. exact Hv.
  - intros n Hn. cbn [bm_pic on_pic set_idt]. unfold masked. rewrite M1, M2.
    assert (C : n ∈ seqZ 0 16) by (apply elem_of_seqZ; lia). clear -C. revert n C. apply list.Forall_forall.
    repeat (apply Forall_cons_2; [by vm_compute|]). apply Forall_nil_2.
Qed.

(** ** The first ticks *)

(** A stretch in which process [c] runs and starts no other; nothing writes to
    the disk's image. *)
Record alone (k k' : kernel) (c : Z) : Prop := {
  al_ran : ran k k' c;
  al_files : k_fs k' = k_fs k;
  al_image : image_kept (k_mem k) (k_fs k) (k_mem k');
  al_used : pid_used k' = pid_used k
}.

(** The disk holds the shell, [data], as file [ino]. *)
Record has_shell (k : kernel) (ino : Z) (data : list Z) : Prop := {
  hs_program : program_of k shell_word = Some ino;
  hs_inode : 0 <= ino < inode_count (k_mem k) (k_fs k);
  hs_data : file_contents (k_mem k) (k_fs k) ino = data;
  hs_loadable : loadable data
}.

Lemma has_shell_kept k k' ino data : fs_wf (k_mem k) (k_fs k) -> k_fs k' = k_fs k -> image_kept (k_mem k) (k_fs k) (k_mem k') ->
  has_shell k ino data -> has_shell k' ino data.
Proof.
  intros Hwf Hfs HK [H1 H2 H3 H4]. destruct (counts_kept _ _ Hwf _ HK) as [C _]. split.
  - by rewrite (program_kept k k' _ Hwf Hfs HK).
  - by rewrite Hfs, C.
  - by rewrite Hfs, (file_contents_kept k k').
  - exact H4.
Qed.

(** What a tick that starts a shell leaves. *)
Record shell_started (k k' : kernel) (c xesp xebp ind pid ino : Z) (data : list Z) : Prop := {
  ss_ok : kernel_ok k';
  ss_front : forall i, 0 <= i < TERM_NUM -> front k' i = if decide (i = ind) then Some pid else front k i;
  ss_used : pid_used k' = <[Z.to_nat pid := 1]> (pid_used k);
  ss_shell : has_shell k' ino data;
  ss_mapped : k_mapped k' = TASK_PAGE_INDEX pid;
  ss_caller : waits k' c xesp xebp (page_byte k (TASK_PAGE_INDEX c));
  ss_waits : forall d esp ebp f, 1 <= d < MAX_PROC_NUM -> d <> c -> d <> pid -> waits k d esp ebp f -> waits k' d esp ebp f
}.

Lemma tick_starts e t s c p pid ino data : interrupts t s c p -> let k := s_kernel s in let ind := next_term (cur_proc_ind s) in
  front k ind = Some 0 -> executing e k c (t_xesp t) (t_kbuf t) (t_shell t) ind shell_word p ->
  lowest_pid (pid_used k) = Some pid -> has_shell k ino data -> pid <> c ->
  exists k', pit_isr e t s = Some (Entered (elf_entry data) TASK_VIRT_PAGE_END, mkSched k' ind (send_eoi PIT_IRQNUM (s_pic s))) /\
    shell_started k k' c (t_xesp t) (t_xebp t) ind pid ino data.
Proof.
  intros I k ind Hf X Hpid HS Hne. pose proof HS as [P1 P2 P3 P4]. rewrite <- P3 in P4.
  destruct (tick_shell e t s c p pid ino I Hf X Hpid P1 P2 P4) as (k' & E & Hk' & Hfr & S). fold k in E, S. rewrite P3 in E, S.
  exists k'. split; [exact E|]. destruct (tick_ind t s c p I) as [_ Hind]. fold ind in Hind, Hfr, S.
  destruct (lowest_pid_in _ _ Hpid) as [Hpr _]. pose proof (it_kernel _ _ _ _ I) as Hk. fold k in Hk.
  destruct (sd_rest _ _ _ _ _ _ _ _ _ _ _ S) as [_ Hfs]. pose proof (ex_kbuf _ _ _ _ _ _ _ _ _ X) as [Kb1 _].
  assert (Hpage : forall d, d <> pid -> TASK_PAGE_INDEX d <> TASK_PAGE_INDEX pid) by (intros d; unfold TASK_PAGE_INDEX; lia).
  split.
  - exact Hk'.
  - intros i Hi. destruct (decide (i = ind)) as [->|D]; [exact Hfr|].
    destruct (sd_terms _ _ _ _ _ _ _ _ _ _ _ S) as (term & Et & E').
    assert (En : new_term ind p = ind) by (unfold new_term; rewrite decide_True; [done|clear - Hind; lia]).
    rewrite En in Et, E'. unfold front. rewrite E'. rewrite arr_get_insert; [by rewrite decide_False|].
    unfold arr_get in Et. case_decide; [|done]. apply lookup_lt_Some in Et. lia.
  - apply (sd_used _ _ _ _ _ _ _ _ _ _ _ S).
  - apply (has_shell_kept k); [apply Hk|exact Hfs| |exact HS]. intros a Ha.
    destruct (ko_image _ Hk) as [Hb1 Hb2]. unfold in_image in Ha.
    assert (Hlow : KSTACKS <= TASK_KSTACK_TOP c).
    { pose proof (it_pid _ _ _ _ I) as Hc. clear - Hc. unfold KSTACKS, TASK_KSTACK_TOP, MAX_PROC_NUM in *. lia. }
    apply (sd_kernel _ _ _ _ _ _ _ _ _ _ _ S).
    + clear - Ha Hb2. unfold user_address, KSTACKS, TASK_KSTACK_TOP, MAX_PROC_NUM, TASK_VIRT_PAGE_BEG in *. lia.
    + unfold in_kbuf. lia.
  - apply (sd_page _ _ _ _ _ _ _ _ _ _ _ S).
  - exists (with_saved (t_xesp t) (t_xebp t) p). split; [apply (sd_caller _ _ _ _ _ _ _ _ _ _ _ S)|]. split; [done|]. split; [done|].
    intros a Ha. apply (sd_others _ _ _ _ _ _ _ _ _ _ _ S); [by apply Hpage, not_eq_sym|exact Ha].
  - intros d esp ebp f Hd D1 D2 (q & Eq & Q1 & Q2 & Q3). exists q. split; [|split; [exact Q1|split; [exact Q2|]]].
    + rewrite (sd_pcbs _ _ _ _ _ _ _ _ _ _ _ S); [exact Eq| |]; intros Ea; apply TASK_KSTACK_TOP_inj in Ea; [by apply D2|by apply D1].
    + intros a Ha. rewrite (sd_others _ _ _ _ _ _ _ _ _ _ _ S); [by apply Q3|by apply Hpage|exact Ha].
Qed.

Lemma alone_front k k' c i : alone k k' c -> front k' i = front k i.
Proof. intros A. apply (rn_front _ _ _ (al_ran _ _ _ A)). Qed.

Lemma alone_shell k k' c ino data : kernel_ok k -> alone k k' c -> has_shell k ino data -> has_shell k' ino data.
Proof. intros Hk [A1 A2 A3 A4]. by apply (has_shell_kept k), A3; [apply Hk|]. Qed.

(** After the start, three ticks put a shell in front of every terminal, each
    in a process of its own, whatever the shells already started do in between:
    terminal 1 first, then 2, then 0, at the entry point of the program on the
    disk.  The two interrupted shells wait with their pointers and their pages as
    they left them, which is where the round robin takes over. *)
Theorem shells_start (k0 : kernel) (pic0 : pic) (img : mem) (boot_ptr ino : Z) (data : list Z) :
  booted k0 pic0 img boot_ptr -> has_shell k0 ino data ->
  forall e0 t0 p0, interrupts t0 (mkSched k0 0 pic0) 0 p0 ->
    executing e0 k0 0 (t_xesp t0) (t_kbuf t0) (t_shell t0) 1 shell_word p0 ->
  exists s1, pit_isr e0 t0 (mkSched k0 0 pic0) = Some (Entered (elf_entry data) TASK_VIRT_PAGE_END, s1) /\
  forall k1 e1 t1 p1, alone (s_kernel s1) k1 1 -> interrupts t1 (mkSched k1 (cur_proc_ind s1) (s_pic s1)) 1 p1 ->
    executing e1 k1 1 (t_xesp t1) (t_kbuf t1) (t_shell t1) 2 shell_word p1 ->
  exists s2, pit_isr e1 t1 (mkSched k1 (cur_proc_ind s1) (s_pic s1)) = Some (Entered (elf_entry data) TASK_VIRT_PAGE_END, s2) /\
  forall k2 e2 t2 p2, alone (s_kernel s2) k2 2 -> interrupts t2 (mkSched k2 (cur_proc_ind s2) (s_pic s2)) 2 p2 ->
    executing e2 k2 2 (t_xesp t2) (t_kbuf t2) (t_shell t2) 0 shell_word p2 ->
  exists s3, pit_isr e2 t2 (mkSched k2 (cur_proc_ind s2) (s_pic s2)) = Some (Entered (elf_entry data) TASK_VIRT_PAGE_END, s3) /\
    kernel_ok (s_kernel s3) /\ cur_proc_ind s3 = 0 /\ k_mapped (s_kernel s3) = TASK_PAGE_INDEX 3 /\
    front (s_kernel s3) 0 = Some 3 /\ front (s_kernel s3) 1 = Some 1 /\ front (s_kernel s3) 2 = Some 2 /\
    Forall (pid_in_use (s_kernel s3)) [1; 2; 3] /\
    waits (s_kernel s3) 1 (t_xesp t1) (t_xebp t1) (page_byte k1 (TASK_PAGE_INDEX 1)) /\
    waits (s_kernel s3) 2 (t_xesp t2) (t_xebp t2) (page_byte k2 (TASK_PAGE_INDEX 2)).
Proof.
  intros [B1 B2 B3 B4 B5 B6 B7] HS e0 t0 p0 I0 X0.
  destruct (tick_starts e0 t0 _ 0 p0 1 ino data I0 (B4 1 ltac:(done)) X0) as (s1 & E1 & [S1 F1 U1 H1 M1 W1 O1]);
    [cbn [s_kernel]; by rewrite B5|exact HS|done|]. cbn [s_kernel s_pic] in *. change (next_term (cur_proc_ind _)) with 1 in *.
  eexists. split; [exact E1|]. cbn [s_kernel cur_proc_ind s_pic]. intros k1 e1 t1 p1 A1 I1 X1.
  assert (U1' : pid_used k1 = [0; 1; 0; 0; 0; 0; 0; 0; 0; 0]) by (by rewrite (al_used _ _ _ A1), U1, B5).
  destruct (tick_starts e1 t1 _ 1 p1 2 ino data I1) as (s2 & E2 & [S2 F2 U2 H2 M2 W2 O2]);
    [cbn [s_kernel cur_proc_ind]; rewrite (alone_front _ _ _ _ A1), F1 by done; by rewrite decide_False by done; apply B4
    |exact X1|cbn [s_kernel]; by rewrite U1'|by eapply alone_shell|done|]. cbn [s_kernel s_pic cur_proc_ind] in *. change (next_term 1) with 2 in *.
  eexists. split; [exact E2|]. cbn [s_kernel cur_proc_ind s_pic]. intros k2 e2 t2 p2 A2 I2 X2.
  assert (U2' : pid_used s2 = [0; 1; 1; 0; 0; 0; 0; 0; 0; 0]) by (by rewrite U2, U1').
  assert (Fr2 : forall i, 0 <= i < TERM_NUM -> front k2 i = if decide (i = 2) then Some 2 else if decide (i = 1) then Some 1 else Some 0).
  { intros i Hi. rewrite (alone_front _ _ _ _ A2), F2 by done. case_decide; [done|]. rewrite (alone_front _ _ _ _ A1), F1 by done.
    case_decide; [done|]. by apply B4. }
  destruct (tick_starts e2 t2 _ 2 p2 3 ino data I2) as (s3 & E3 & [S3 F3 U3 H3 M3 W3 O3]);
    [cbn [s_kernel cur_proc_ind]; by rewrite Fr2|exact X2|cbn [s_kernel]; by rewrite (al_used _ _ _ A2), U2'|by eapply alone_shell|done|].
  cbn [s_kernel s_pic cur_proc_ind] in *. change (next_term 2) with 0 in *.
  assert (Hw : waits k2 1 (t_xesp t1) (t_xebp t1) (page_byte k1 (TASK_PAGE_INDEX 1))).
  { apply (rn_waits _ _ _ (al_ran _ _ _ A2)); [done|done| |exact W2]. unfold pid_in_use. by rewrite U2'. }
  eexists. split; [exact E3|]. cbn [s_kernel cur_proc_ind]. split; [exact S3|]. split; [done|]. split; [exact M3|].
  rewrite !F3 by done. rewrite decide_True by done. rewrite !decide_False by done. rewrite !Fr2 by done.
  split; [done|]. split; [done|]. split; [done|]. split.
  - unfold pid_in_use. rewrite U3, (al_used _ _ _ A2), U2'. repeat (apply Forall_cons_2; [done|]). apply Forall_nil_2.
  - split; [|exact W3]. by apply O3.
Qed.

(** ** A concrete start *)

(** The concrete disk with its program named "shell", and the boot loader's
    record at 0x10000. *)
Definition boot_memory : mem :=
  store_bytes (store_bytes (store_bytes demo_image 0x500100 [115; 104; 101; 108; 108]) 0x10018 [0; 0; 2; 0]) 0x20000 [0; 0; 0x50; 0].

Definition demo_linked : linked := mkLinked 0x401000 31 0x401100 103 (fun _ => 0x400100) 0x402000 0x403000.
Definition demo_found : found := mkFound (mkSeg 0xFFFFFFFF 0xFFFFFFFF) (mkSeg 0xFFFFFFFF 0xFFFFFFFF) 2 0x26.

Definition demo_machine : machine :=
  mkMachine
    (mkKernel (mkTS [zero_term; zero_term; zero_term] 0 0 boot_memory [] demo_pcbs) (mkRtc 0 0 0 (replicate 10 0) (replicate 10 None) [])
       (mkFs 0 0 0) blank_paging USER_PAGE_INDEX ∅ (mkTss 0 0) (replicate 10 0))
    (replicate 256 (mkDesc 0 0)) (mkPic 0 0 []) (mkSeg 0 0) (mkSeg 0 0) 0 0 0.

Lemma boot_memory_wf : fs_wf boot_memory demo_fs.
Proof.
  assert (Hm : mem_ok boot_memory) by (unfold boot_memory; do 3 apply mem_ok_store_bytes; apply demo_image_mem).
  check_disk Hm.
Qed.

Lemma demo_startable : startable demo_linked demo_machine 0x10000 0x500000.
Proof.
  split.
  - by vm_compute.
  - intros h. cbn. lia.
  - by vm_compute.
  - by vm_compute.
  - by split.
  - apply (wf_mem _ _ boot_memory_wf).
  - reflexivity.
  - split_and!; apply length_replicate.
  - reflexivity.
  - intros q. apply mem_ok_empty.
  - by split.
  - reflexivity.
  - intros pid H. exists (demo_pcb pid). split; [by apply demo_pcb_at|by split].
  - apply (bool_decide_unpack _). by vm_compute.
  - by vm_compute.
  - split; [exact boot_memory_wf|]. apply (bool_decide_unpack _). by vm_compute.
Qed.

(** An interrupt that ends the wait. *)
Definition acknowledge : interrupt := fun '(t, m) => Some (set_busy 0 t, m).

Lemma acknowledge_calm : calm_interrupt acknowledge.
Proof. intros t m t' m' [= <- <-] Hk Hs. split; [by apply calm_refl|exact Hs]. Qed.

Lemma boot_correct_witness :
  exists t m, entry demo_mtcp (fun n => n) demo_linked demo_found MULTIBOOT_BOOTLOADER_MAGIC 0x10000 [acknowledge] (tux_start, demo_machine)
      = Some (Idle, (t, m)) /\ kernel_ok (bm_kernel m) /\ seg_base (tss_desc_ptr m) = 0x401100 /\ masked (bm_pic m) 0 = false.
Proof.
  destruct (boot_correct demo_mtcp (fun n => n) demo_linked demo_found demo_machine 0x10000 0x500000 tux_start [acknowledge])
    as (t1 & m1 & _ & Hb & _ & H).
  - apply demo_startable.
  - apply (bool_decide_unpack _). by vm_compute.
  - apply tux_start_ok.
  - reflexivity.
  - done.
  - done.
  - apply (bool_decide_unpack _). by vm_compute.
  - apply Forall_cons_2; [apply acknowledge_calm|apply Forall_nil_2].
  - cbn [while_busy fst] in H. rewrite decide_False in H by lia. cbn [acknowledge mbind option_bind fst] in H. rewrite decide_True in H by done.
    destruct H as (t & m & E & B & (_ & (_ & Hbase & _) & _) & _ & Hm). exists t, m. split; [exact E|]. split; [apply B|].
    split; [exact Hbase|]. etrans; [apply Hm; lia|]. by vm_compute.
Defined.

(** The kernel after the start, before the first tick. *)
Definition idle_kernel : kernel :=
  started_kernel (mkTS fresh_terms 0 0 boot_memory [] demo_pcbs) (init_rtc 2 0x26 (k_rtc (bm_kernel demo_machine))) 0x500000
    (default blank_paging (init_page 0x402000 0x403000 blank_paging)) (set_tss (mkTss 0x800000 KERNEL_DS) (bm_kernel demo_machine)).

Lemma idle_kernel_ok : kernel_ok idle_kernel.
Proof.
  destruct (init_page_spec 0x402000 0x403000 blank_paging) as (p & E & H); [apply blank_tables|apply length_replicate..|].
  unfold idle_kernel. rewrite E. apply (started_kernel_ok demo_linked demo_found demo_machine 0x10000 0x500000 demo_startable);
    [apply (wf_mem _ _ boot_memory_wf)|reflexivity|exact H|reflexivity..].
Qed.

(** A tick on the stack of the start; "shell" is read from the disk's directory. *)
Definition idle_tick : tick := mkTick 0x7FFF00 0x7FFF08 0x7FFE00 0x7FFE08 0x7FF000 0x500100 0.

Lemma idle_interrupts : interrupts idle_tick (mkSched idle_kernel 0 (mkPic 0xF8 0xFE [])) 0 (demo_pcb 0).
Proof. split; [apply idle_kernel_ok|done|done|done|]. by apply (demo_pcb_at 0). Qed.

Lemma idle_booted : booted idle_kernel (mkPic 0xF8 0xFE []) boot_memory 0x500000.
Proof.
  split.
  - apply idle_kernel_ok.
  - reflexivity.
  - intros a Ha. reflexivity.
  - intros i Hi. unfold TERM_NUM in Hi. assert (i = 0 \/ i = 1 \/ i = 2) as [->|[->| ->]] by lia; reflexivity.
  - reflexivity.
  - reflexivity.
  - by split.
Qed.

Lemma idle_shell : has_shell idle_kernel 1 (file_contents boot_memory demo_fs 1).
Proof.
  split; [by vm_compute|apply (bool_decide_unpack _); by vm_compute|reflexivity|].
  split; [apply Nat.leb_le; by vm_compute|by vm_compute..].
Qed.

Lemma idle_word : cstr (k_mem idle_kernel) 0x500100 shell_word.
Proof.
  split; [|by vm_compute]. intros j ch Ej.
  do 5 (destruct j as [|j]; [injection Ej as <-; split; [by vm_compute|lia]|]). done.
Qed.

Lemma shells_start_witness :
  exists s1, pit_isr demo_env idle_tick (mkSched idle_kernel 0 (mkPic 0xF8 0xFE [])) = Some (Entered 0x8048018 TASK_VIRT_PAGE_END, s1).
Proof.
  destruct (shells_start idle_kernel (mkPic 0xF8 0xFE []) boot_memory 0x500000 1 (file_contents boot_memory demo_fs 1))
    with (e0 := demo_env) (t0 := idle_tick) (p0 := demo_pcb 0) as (s1 & E & _).
  - apply idle_booted.
  - apply idle_shell.
  - apply idle_interrupts.
  - split; [apply idle_kernel_ok|apply demo_env_ok|done|done|done|done|done|by apply (demo_pcb_at 0)|apply idle_word|done].
  - exists s1. assert (Ed : elf_entry (file_contents boot_memory demo_fs 1) = 0x8048018) by (by vm_compute). rewrite Ed in E. exact E.
Defined.
