(* ===== verification/Steady.v ===== *)
(** * What a running process may do to the rest of the system

    The system calls on descriptors, the interrupts of the keyboard and of the
    clock and the process's own stores leave the tables of processes, the pages
    of the others and the kernel's memory alone: [steady] says so, and each of
    them is shown to be steady on the invariant of the whole system. *)
From stdpp Require Import base tactics list numbers gmap option.
From Stdlib Require Import ZArith Lia.
From S2P Require Import Prelude CLib Task FileSys Term TermScreen TermLine TermSys Rtc Kb Page Malloc Syscall Fd Exec Process Signals.

Open Scope Z_scope.

(** ** The invariant of the system *)

(** A descriptor in use refers to something. *)
Definition valid_file (k : kernel) (fp : fptr) (f : FILE) : Prop :=
  match file_ops f with
  | fs_file_ops_table => 0 <= f_inode f < inode_count (k_mem k) (k_fs k) /\ 0 <= f_pos f <= file_size (k_mem k) (k_fs k) (f_inode f)
  | fs_dir_ops_table => 0 <= f_pos f <= num_dentries (k_mem k) (k_fs k)
  | rtc_file_ops_table => Some fp ∈ rtc_files (k_rtc k)
  | stdin_file_ops_table | stdout_file_ops_table => True
  end.

Definition valid_args (a : option (list Z)) : Prop :=
  forall l, a = Some l -> exists s, l = s ++ [0] /\ Forall (fun c => 0 < c < 256) s /\ (length s < 256)%nat.

Record valid_task (k : kernel) (a : Z) (p : PCB_t) : Prop := {
  vt_args : valid_args (cmd_args p);
  vt_files : forall fd f, arr_get (open_files p) fd = Some f -> f_used f <> 0 -> valid_file k (a, fd) f
}.

(** Every directory entry has an index node, and a file is refused for its
    header or fits the page of a process. *)
Record disk_ok (k : kernel) : Prop := {
  dk_inode : forall i, 0 <= i < num_dentries (k_mem k) (k_fs k) ->
    0 <= inode_num (dentry_of (k_mem k) (k_fs k) i) < inode_count (k_mem k) (k_fs k);
  dk_data : forall i, 0 <= i < inode_count (k_mem k) (k_fs k) ->
    let data := file_contents (k_mem k) (k_fs k) i in
    loadable data \/ (4 <= length data)%nat /\ (elf_magic data -> (28 <= length data)%nat /\ elf_entry data < TASK_IMG_START_ADDR)
}.

Record system_ok (k : kernel) : Prop := {
  so_kernel : kernel_ok k;
  so_tasks : forall pid p, 1 <= pid < MAX_PROC_NUM -> pid_in_use k pid -> k_pcbs k !! TASK_KSTACK_TOP pid = Some p ->
    valid_task k (TASK_KSTACK_TOP pid) p;
  so_disk : disk_ok k;
  so_fronts : forall i t, arr_get (terms (k_ts k)) i = Some t -> 0 <= cur_pid t < MAX_PROC_NUM
}.

(** ** Steady changes *)

(** The kernel's memory but for the pages of the terminals and the kernel
    stacks, where the local buffers of calls lie. *)
Definition kept_address (a : Z) : Prop :=
  ~ user_address a /\ ~ (VIDEO <= a < 0xBC000) /\ ~ (KSTACKS <= a < 0x800000) /\ 0 <= a < 4294967296.

(** The identity of a process and its place in the tables. *)
Record same_task (p p' : PCB_t) : Prop := {
  sk_parent : parent p' = parent p;
  sk_pid : pcb_pid p' = pcb_pid p;
  sk_term : term_ind p' = term_ind p;
  sk_args : cmd_args p' = cmd_args p;
  sk_esp : pcb_esp p' = pcb_esp p;
  sk_ebp : pcb_ebp p' = pcb_ebp p;
  sk_files : length (open_files p') = length (open_files p);
  sk_handlers : length (signal_handlers p') = length (signal_handlers p)
}.

#[export] Instance same_task_po : PreOrder same_task.
Proof. split; [by intros p|]. intros p q r [] []. split; congruence. Qed.

Definition same_tasks (st st' : pcb_store) : Prop :=
  forall a p, st !! a = Some p -> exists p', st' !! a = Some p' /\ same_task p p'.

#[export] Instance same_tasks_po : PreOrder same_tasks.
Proof.
  split; [intros st a p E; by exists p|]. intros s1 s2 s3 H1 H2 a p E.
  destruct (H1 a p E) as (q & E2 & S2), (H2 a q E2) as (r & E3 & S3). exists r. split; [done|by etrans].
Qed.

Lemma same_tasks_insert st a p p' : st !! a = Some p -> same_task p p' -> same_tasks st (<[a := p']> st).
Proof.
  intros E S b q Eq. destruct (decide (a = b)) as [<-|D].
  - rewrite lookup_insert_eq. exists p'. split; [done|]. rewrite E in Eq. by injection Eq as <-.
  - rewrite lookup_insert_ne by done. by exists q.
Qed.

(** The top of the kernel stack of the process that runs. *)
Definition busy_stack (k : kernel) : Z := esp0 (tss k) - 0x2000.

(** What a running process and the interrupts that find it running leave of the
    system; of the clocks, those of the other processes. *)
Record steady (k k' : kernel) : Prop := {
  st_ok : system_ok k';
  st_mapped : k_mapped k' = k_mapped k;
  st_pages : k_pages k' = k_pages k;
  st_used : pid_used k' = pid_used k;
  st_tss : tss k' = tss k;
  st_front : forall i, cur_pid <$> arr_get (terms (k_ts k')) i = cur_pid <$> arr_get (terms (k_ts k)) i;
  st_fs : k_fs k' = k_fs k;
  st_kernel : forall a, kept_address a -> ld8 (k_mem k') a = ld8 (k_mem k) a;
  st_tasks : same_tasks (k_pcbs k) (k_pcbs k');
  st_clocks : forall fp, Some fp ∈ rtc_files (k_rtc k) -> fp.1 <> busy_stack k -> Some fp ∈ rtc_files (k_rtc k')
}.

Lemma steady_refl k : system_ok k -> steady k k.
Proof. intros H. by split. Qed.

Lemma steady_trans k1 k2 k3 : steady k1 k2 -> steady k2 k3 -> steady k1 k3.
Proof.
  intros [A1 A2 A3 A4 A5 A6 A7 A8 A9 A10] [B1 B2 B3 B4 B5 B6 B7 B8 B9 B10]. split; [done|congruence..| |congruence| |by etrans|].
  - intros i. by rewrite B6.
  - intros a Ha. by rewrite B8, A8.
  - intros fp Hin Hne. apply B10; [by apply A10|]. unfold busy_stack. by rewrite A5.
Qed.

(** The disk is out of reach. *)
Lemma image_kept_address k a : kernel_ok k -> in_image (k_mem k) (k_fs k) a -> kept_address a.
Proof.
  intros Hk [H1 H2]. destruct (ko_image _ Hk) as [H3 H4].
  unfold kept_address, user_address, VIDEO, KSTACKS, MAX_PROC_NUM, TASK_KSTACK_TOP, TASK_VIRT_PAGE_BEG, TASK_VIRT_PAGE_END in *. lia.
Qed.

Lemma kept_image_kept k m : kernel_ok k -> (forall a, kept_address a -> ld8 m a = ld8 (k_mem k) a) -> image_kept (k_mem k) (k_fs k) m.
Proof. intros Hk H a Ha. apply H. by eapply image_kept_address. Qed.

Lemma steady_image k k' : kernel_ok k -> steady k k' -> image_kept (k_mem k) (k_fs k) (k_mem k').
Proof. intros Hk S. apply kept_image_kept; [done|apply S]. Qed.

Section Kept.
Context (k k' : kernel) (Hk : kernel_ok k) (Hfs : k_fs k' = k_fs k).
Context (HK : image_kept (k_mem k) (k_fs k) (k_mem k')).

Lemma valid_file_kept fp f : (Some fp ∈ rtc_files (k_rtc k) -> Some fp ∈ rtc_files (k_rtc k')) ->
  valid_file k fp f -> valid_file k' fp f.
Proof.
  pose proof (ko_fs _ Hk) as Hwf. destruct (counts_kept _ _ Hwf _ HK) as [E _].
  intros Hr. unfold valid_file. rewrite Hfs. destruct (file_ops f); [|by rewrite (num_dentries_kept _ _ Hwf _ HK)|exact Hr|done|done].
  rewrite E. intros [Hi Hp]. by rewrite (file_size_kept _ _ Hwf).
Qed.

Lemma disk_ok_kept : disk_ok k -> disk_ok k'.
Proof.
  pose proof (ko_fs _ Hk) as Hwf. destruct (counts_kept _ _ Hwf _ HK) as [E _]. intros [D1 D2].
  split; rewrite Hfs, ?E.
  - rewrite (num_dentries_kept _ _ Hwf _ HK). intros i Hi. rewrite (dentry_of_kept _ _ Hwf) by done. by apply D1.
  - intros i Hi. rewrite (file_contents_kept k k' Hwf HK) by done. by apply D2.
Qed.
End Kept.

Section Intro.
Context (k : kernel) (g : rtc_globals) (ts : tstate).
Context (Hs : system_ok k) (Hmem : forall a, kept_address a -> ld8 (vmem ts) a = ld8 (k_mem k) a).
Context (Hst : same_tasks (k_pcbs k) (pcbs ts)).

Abbreviation k' := (set_rtc g (set_ts ts k)).

Lemma intro_image : image_kept (k_mem k) (k_fs k) (vmem ts).
Proof. apply kept_image_kept; [apply Hs|exact Hmem]. Qed.

(** The invariant of the kernel, from the parts that changed. *)
Lemma retasked_ok : twf ts -> rtc_inv (g, pcbs ts) -> (forall fp, Some fp ∈ rtc_files g -> clock_owned (set_ts ts k) fp) -> kernel_ok k'.
Proof.
  intros Ht Hg Hclock. pose proof intro_image as HK. destruct Hs as [Hk _ _ _].
  destruct (counts_kept _ _ (ko_fs _ Hk) _ HK) as [E1 E2].
  destruct Hk as [K1 K2 K3 K4 K5 K6 K7 K8 K9 K10]. split; try done.
  - change (fs_wf (vmem ts) (k_fs k)). by apply (fs_wf_kept _ _ K5); [|apply Ht].
  - change (0x400000 <= bblock_ptr (k_fs k) /\ bblock_ptr (k_fs k) + image_size (vmem ts) (k_fs k) <= KSTACKS).
    unfold image_size in *. by rewrite E1, E2.
  - intros pid Hpid. destruct (K8 pid Hpid) as (p & Ep & [P1 P2 P3]). destruct (Hst _ p Ep) as (p' & Ep' & [S1 S2 S3 S4 _ _ S5 S6]).
    exists p'. split; [exact Ep'|]. split; congruence.
  - intros pid p' Hpid Hu Ep'. destruct (K8 pid Hpid) as (p & Ep & _). destruct (Hst _ p Ep) as (q & Eq & [S1 S2 S3 S4 _ _ S5 S6]).
    change (pcbs ts !! TASK_KSTACK_TOP pid = Some p') in Ep'. rewrite Eq in Ep'. injection Ep' as <-.
    destruct (K9 pid p Hpid Hu Ep) as [N P]. split; [congruence|]. unfold parent_ok. rewrite S1.
    destruct P as [P|(pp & r & H1 & H2 & H3 & H4)]; [by left|right]. destruct (Hst _ r H3) as (r' & Er' & [_ R2 _ _ _ _ _ _]).
    exists pp, r'. split; [done|]. split; [done|]. split; [exact Er'|congruence].
Qed.

Lemma steady_intro : kernel_ok k' ->
  (forall i, cur_pid <$> arr_get (terms ts) i = cur_pid <$> arr_get (terms (k_ts k)) i) ->
  (forall pid p fd f, 1 <= pid < MAX_PROC_NUM -> pid_in_use k pid -> pcbs ts !! TASK_KSTACK_TOP pid = Some p ->
    arr_get (open_files p) fd = Some f -> f_used f <> 0 -> valid_file k' (TASK_KSTACK_TOP pid, fd) f) ->
  (forall fp, Some fp ∈ rtc_files (k_rtc k) -> fp.1 <> busy_stack k -> Some fp ∈ rtc_files g) -> steady k k'.
Proof.
  intros Hk' Hfront Hfiles Hclocks. destruct Hs as [Hk Htasks Hdisk Hfr]. split; try done. split.
  - exact Hk'.
  - intros pid p Hpid Hu Ep. split; [|intros fd f Ef Huf; by apply (Hfiles pid p fd f)].
    destruct (ko_pcb _ Hk pid ltac:(lia)) as (q & Eq & _). destruct (Hst _ q Eq) as (q' & Eq' & [_ _ _ Ea _ _ _ _]).
    change (pcbs ts !! TASK_KSTACK_TOP pid = Some p) in Ep. rewrite Eq' in Ep. injection Ep as <-. rewrite Ea.
    by apply (Htasks pid q).
  - apply (disk_ok_kept k k' Hk eq_refl intro_image Hdisk).
  - intros i t Et. change (arr_get (terms ts) i = Some t) in Et. specialize (Hfront i). rewrite Et in Hfront. cbn in Hfront.
    symmetry in Hfront. apply fmap_Some in Hfront as (t0 & E0 & ->). by apply (Hfr i).
Qed.
End Intro.

(** Memory at addresses of the process, the pages of the terminals or the
    kernel stacks. *)
Lemma steady_mem k m : system_ok k -> mem_ok m -> (forall a, kept_address a -> ld8 m a = ld8 (k_mem k) a) -> steady k (set_kmem m k).
Proof.
  intros Hs Hm HK. pose proof (so_kernel _ Hs) as Hk.
  change (set_kmem m k) with (set_rtc (k_rtc k) (set_ts (set_vmem m (k_ts k)) k)). apply steady_intro; [done|exact HK|reflexivity| |done| |done].
  - change (kernel_ok (set_kmem m k)). apply set_kmem_ok; [done..|by apply kept_image_kept].
  - intros pid p fd f Hpid Hp Ep Ef Huf.
    apply (valid_file_kept k (set_kmem m k) Hk eq_refl (kept_image_kept k m Hk HK)); [done|]. by apply (vt_files _ _ _ (so_tasks _ Hs pid p Hpid Hp Ep) fd).
Qed.

Lemma steady_user_mem k m : system_ok k -> mem_ok m -> (forall a, ~ user_address a -> ld8 m a = ld8 (k_mem k) a) -> steady k (set_kmem m k).
Proof. intros Hs Hm Hu. apply steady_mem; [done..|]. intros a [Ha _]. by apply Hu. Qed.

(** One descriptor of one process filled in. *)
Lemma steady_file k g m a p fd f : system_ok k -> (forall a, kept_address a -> ld8 m a = ld8 (k_mem k) a) ->
  k_pcbs k !! a = Some p ->
  let k' := set_rtc g (set_kpcbs (put_file (k_pcbs k) a p fd f) (set_kmem m k)) in
  kernel_ok k' -> (f_used f <> 0 -> valid_file k' (a, fd) f) ->
  (forall fp, fp <> (a, fd) -> Some fp ∈ rtc_files (k_rtc k) -> Some fp ∈ rtc_files g) ->
  0 <= fd < Z.of_nat (length (open_files p)) -> a = busy_stack k -> steady k k'.
Proof.
  intros Hs HK Ep k' Hk' Hf Hr Hfd Hcur. pose proof (so_kernel _ Hs) as Hk. subst k'.
  change (set_rtc g (set_kpcbs (put_file (k_pcbs k) a p fd f) (set_kmem m k)))
    with (set_rtc g (set_ts (set_pcbs (put_file (k_pcbs k) a p fd f) (set_vmem m (k_ts k))) k)) in *.
  apply steady_intro; [done|exact HK| |exact Hk'|done| |intros fp Hin Hne; apply Hr; [intros ->; by apply Hne|done]].
  - apply (same_tasks_insert _ _ p); [done|]. split; try done. cbn. apply length_insert.
  - intros pid q i fi Hpid Hu Eq Efi Hfu. cbn [pcbs set_pcbs] in Eq. unfold put_file in Eq.
    assert (Hold : (TASK_KSTACK_TOP pid, i) <> (a, fd) -> forall q0, k_pcbs k !! TASK_KSTACK_TOP pid = Some q0 ->
      arr_get (open_files q0) i = Some fi -> valid_file (set_rtc g (set_ts (set_pcbs (put_file (k_pcbs k) a p fd f) (set_vmem m (k_ts k))) k)) (TASK_KSTACK_TOP pid, i) fi).
    { intros Hne q0 E0 Ei. apply (valid_file_kept k (set_rtc g (set_ts (set_pcbs (put_file (k_pcbs k) a p fd f) (set_vmem m (k_ts k))) k)) Hk eq_refl
        (kept_image_kept k m Hk HK)); [by apply Hr|].
      by apply (vt_files _ _ _ (so_tasks _ Hs pid q0 Hpid Hu E0) i). }
    destruct (decide (a = TASK_KSTACK_TOP pid)) as [->|D].
    + rewrite lookup_insert_eq in Eq. injection Eq as <-. cbn [open_files with_open_files] in Efi. rewrite arr_get_insert in Efi by done.
      destruct (decide (i = fd)) as [->|Di]; [injection Efi as <-; by apply Hf|]. by apply (Hold ltac:(congruence) p).
    + rewrite lookup_insert_ne in Eq by done. by apply (Hold ltac:(congruence) q).
Qed.

(** ** The clock *)

(** The driver changes only the descriptors on its list, and of the processes
    only their pending signals. *)
Definition driven (reg : list (option fptr)) (st st' : pcb_store) : Prop :=
  forall a p, st !! a = Some p -> exists p', st' !! a = Some p' /\ same_task p p' /\
    forall i f, arr_get (open_files p) i = Some f -> exists f', arr_get (open_files p') i = Some f' /\
      (f' = f \/ Some (a, i) ∈ reg /\ file_ops f' = file_ops f /\ f_used f' = f_used f).

#[export] Instance driven_po reg : PreOrder (driven reg).
Proof.
  split.
  - intros st a p E. exists p. split; [done|]. split; [done|]. intros i f Ef. exists f. by split; [|left].
  - intros s1 s2 s3 H1 H2 a p E. destruct (H1 a p E) as (q & E2 & S2 & F2), (H2 a q E2) as (r & E3 & S3 & F3).
    exists r. split; [done|]. split; [by etrans|]. intros i f Ef.
    destruct (F2 i f Ef) as (f2 & Ef2 & R2), (F3 i f2 Ef2) as (f3 & Ef3 & R3). exists f3. split; [done|].
    destruct R2 as [->|(I2 & O2 & U2)], R3 as [->|(I3 & O3 & U3)]; [by left|by right|by right|]. right. split; [done|]. split; congruence.
Qed.

Lemma driven_tasks reg st st' : driven reg st st' -> same_tasks st st'.
Proof. intros D a p E. destruct (D a p E) as (p' & E' & S & _). by exists p'. Qed.

(** What the driver does to one descriptor. *)
Definition retimes (h : FILE -> FILE) : Prop := forall f, file_ops (h f) = file_ops f /\ f_used (h f) = f_used f.

Lemma driven_modify reg fp h (st st' : pcb_store) : Some fp ∈ reg -> retimes h -> modify fp h st = Some st' -> driven reg st st'.
Proof.
  intros Hr Hh E. unfold modify in E. apply bind_Some in E as (f & Ef & E). destruct fp as [b j].
  change (get_file st (b, j) = Some f) in Ef. change (set_file st (b, j) (h f) = Some st') in E.
  unfold get_file, set_file in Ef, E. cbn [fst snd] in *. destruct (st !! b) as [q|] eqn:Eq; [|done]. cbn in Ef, E.
  unfold arr_set in E. destruct (decide (0 <= j < Z.of_nat (length (open_files q)))) as [Hj|]; [|done]. cbn in E. injection E as <-.
  intros a p Ep. destruct (decide (b = a)) as [<-|D].
  - rewrite lookup_insert_eq. eexists. split; [done|]. rewrite Eq in Ep. injection Ep as <-. split.
    + split; try done. cbn. apply length_insert.
    + intros i f' Ef'. cbn [open_files with_open_files]. rewrite arr_get_insert by done. destruct (decide (i = j)) as [->|].
      * exists (h f). split; [done|]. right. rewrite Ef in Ef'. injection Ef' as <-. split; [done|apply Hh].
      * exists f'. by split; [|left].
  - rewrite lookup_insert_ne by done. exists p. split; [done|]. split; [done|]. intros i f' Ef'. exists f'. by split; [|left].
Qed.

Lemma driven_signal reg a s (st st' : pcb_store) : st_signal a s st = Some st' -> driven reg st st'.
Proof.
  intros E. cbn in E. apply bind_Some in E as (p & Ep & E). injection E as <-. intros b q Eq.
  destruct (decide (a = b)) as [<-|D].
  - rewrite lookup_insert_eq. eexists. split; [done|]. rewrite Ep in Eq. injection Eq as <-. split; [done|].
    intros i f Ef. exists f. by split; [|left].
  - rewrite lookup_insert_ne by done. exists q. split; [done|]. split; [done|]. intros i f Ef. exists f. by split; [|left].
Qed.

Lemma tick_retimes : retimes tick_file.
Proof. intros f. unfold tick_file. cbv zeta. by case_decide. Qed.
Lemma reset_retimes sp p : retimes (reset_rtc_info sp p).
Proof. by intros f. Qed.
Lemma take_retimes : retimes take_tick.
Proof. intros f. unfold take_tick. cbv zeta. by case_decide. Qed.

Lemma driven_isr cur g (st : pcb_store) g' st' : rtc_isr cur (g, st) = Some (g', st') -> rtc_files g' = rtc_files g /\ driven (rtc_files g) st st'.
Proof.
  unfold rtc_isr. intros E.
  refine (foldM_inv (fun w : rtc_globals * pcb_store => rtc_files w.1 = rtc_files g /\ driven (rtc_files g) st w.2)
    (isr_slot cur) _ _ _ _ _ E); [|by split; [|reflexivity]]. clear E g' st'.
  intros i [g1 st1] [g2 st2] [R1 D1] E. cbn [fst snd] in *. unfold isr_slot in E.
  apply bind_Some in E as (t & Et & E). apply bind_Some in E as ([t' st3] & E3 & E). apply bind_Some in E as (l & El & E).
  apply bind_Some in E as (cf & Ecf & E). cbn [rtc_files set_elapsed] in Ecf. rewrite R1 in Ecf.
  assert (D3 : driven (rtc_files g) st st3).
  { etrans; [exact D1|]. destruct (decide (SYS_COUNTER_MAX <= _)).
    - apply bind_Some in E3 as (st4 & E4 & [= _ <-]). by eapply driven_signal.
    - injection E3 as _ <-. reflexivity. }
  destruct cf as [fp|]; [|by injection E as <- <-]. apply bind_Some in E as (st5 & E5 & E). injection E as <- <-.
  split; [done|]. etrans; [exact D3|]. apply (driven_modify _ fp tick_file); [|apply tick_retimes|done].
  rewrite arr_get_lookup in Ecf; [by eapply list_elem_of_lookup_2|]. unfold arr_get in Ecf. by case_decide as D; [|done].
Qed.

Lemma driven_reset reg sp l : forall st st' : pcb_store, (forall fp, Some fp ∈ l -> Some fp ∈ reg) -> reset_all sp l st = Some st' ->
  driven reg st st'.
Proof.
  unfold reset_all. induction l as [|[fp|] l IH]; intros st st' Hl E.
  - by injection E as <-.
  - rewrite foldM_cons in E. apply bind_Some in E as (st1 & E1 & E). etrans; [|apply (IH st1); [set_solver|exact E]].
    apply (driven_modify _ fp _ _ _ (Hl fp ltac:(set_solver)) (fun f => reset_retimes _ _ f) E1).
  - rewrite foldM_cons, bind_ret in E. apply IH; [set_solver|exact E].
Qed.

Lemma driven_write prev buf len fp g (st : pcb_store) r g' st' : Some fp ∈ rtc_files g ->
  rtc_write prev buf len fp (g, st) = Some (r, (g', st')) -> rtc_files g' = rtc_files g /\ driven (rtc_files g) st st'.
Proof.
  intros Hfp. unfold rtc_write. destruct buf as [freq|]; [|by intros [= _ <- <-]].
  case_decide; [by intros [= _ <- <-]|]. case_decide; [by intros [= _ <- <-]|]. intros E. apply bind_Some in E as (fpow & Ef & E).
  case_decide; [by injection E as _ <- <-|]. case_decide.
  - apply bind_Some in E as (st1 & E1 & E). apply bind_Some in E as ([r2 [g2 st2]] & E2 & E). injection E as _ <- <-.
    assert (D1 : driven (rtc_files g) st st1) by (by eapply driven_modify; [exact Hfp| |exact E1]).
    unfold rtc_set_pi_freq in E2. case_decide; [by injection E2 as _ <- <-|]. apply bind_Some in E2 as (fp2 & Ef2 & E2).
    case_decide; [by injection E2 as _ <- <-|]. apply bind_Some in E2 as (st3 & E3 & E2). injection E2 as _ <- <-. split; [done|].
    etrans; [exact D1|]. by eapply driven_reset; [|exact E3].
  - apply bind_Some in E as (st1 & E1 & E). injection E as _ <- <-. split; [done|]. eapply driven_modify; [exact Hfp|apply reset_retimes|exact E1].
Qed.

(** Terminals and descriptors changed as their drivers do. *)
Lemma driven_steady k g ts : system_ok k -> twf ts -> (forall a, kept_address a -> ld8 (vmem ts) a = ld8 (k_mem k) a) ->
  (forall i, cur_pid <$> arr_get (terms ts) i = cur_pid <$> arr_get (terms (k_ts k)) i) ->
  driven (rtc_files (k_rtc k)) (k_pcbs k) (pcbs ts) -> rtc_files g = rtc_files (k_rtc k) -> rtc_inv (g, pcbs ts) ->
  steady k (set_rtc g (set_ts ts k)).
Proof.
  intros Hs Ht Hmem Hfront D Hg Hinv. pose proof (driven_tasks _ _ _ D) as Hst. pose proof (so_kernel _ Hs) as Hk.
  pose proof (kept_image_kept k _ Hk Hmem) as HK. apply steady_intro; [done..| |done| |by rewrite Hg].
  - apply retasked_ok; [done..|]. intros [a i] Hin. rewrite Hg in Hin. pose proof (ko_clock _ Hk _ Hin) as (pid & f & H1 & H2 & H3 & H4 & H5 & H6).
    unfold get_file in H5. cbn [fst snd] in *. apply bind_Some in H5 as (p & Ep & Ef).
    destruct (D a p Ep) as (p' & Ep' & _ & F). destruct (F i f Ef) as (f' & Ef' & R). exists pid, f'. do 4 (split; [done|]).
    split; [unfold get_file; cbn [fst snd]; change (k_pcbs (set_ts ts k)) with (pcbs ts); by rewrite Ep'|].
    destruct R as [->|(_ & R1 & R2)]; [done|]. by rewrite R1, R2.
  - intros pid p' fd f' Hpid Hu Ep' Ef' Huf. destruct (ko_pcb _ Hk pid ltac:(lia)) as (p & Ep & _).
    destruct (D _ p Ep) as (q & Eq & Sk & F). rewrite Ep' in Eq. injection Eq as <-.
    assert (Hfd : 0 <= fd < Z.of_nat (length (open_files p))).
    { rewrite <- (sk_files _ _ Sk). unfold arr_get in Ef'. case_decide; [|done]. apply lookup_lt_Some in Ef'. lia. }
    destruct (arr_get_Some (open_files p) fd Hfd) as (f & Ef & _). destruct (F fd f Ef) as (f2 & Ef2 & R).
    rewrite Ef' in Ef2. injection Ef2 as <-. destruct R as [->|(Hin & R1 & R2)].
    + apply (valid_file_kept k (set_rtc g (set_ts ts k)) Hk eq_refl HK); [cbn [k_rtc set_rtc]; by rewrite Hg|].
      by apply (vt_files _ _ _ (so_tasks _ Hs pid p Hpid Hu Ep) fd).
    + pose proof (ko_clock _ Hk _ Hin) as (q & f0 & _ & _ & _ & _ & E0 & _ & O0).
      unfold get_file in E0. cbn [fst snd] in E0. rewrite Ep in E0. cbn in E0. rewrite Ef in E0. injection E0 as <-.
      unfold valid_file. rewrite R1, O0. cbn [k_rtc set_rtc]. by rewrite Hg.
Qed.

Lemma signalled_driven reg st st' : signalled st st' -> driven reg st st'.
Proof.
  intros S a p Ep. destruct (signalled_pcb _ _ _ _ S Ep) as [v Ev]. eexists. split; [exact Ev|]. split; [done|].
  intros i f Ef. exists f. by split; [|left].
Qed.

Lemma signalled_file st st' fp : signalled st st' -> get_file st' fp = get_file st fp.
Proof.
  intros S. unfold get_file. destruct (S fp.1) as [->|(p & v & -> & ->)]; done.
Qed.

Lemma signalled_rtc_inv g (st st' : pcb_store) : signalled st st' -> rtc_inv (g, st) -> rtc_inv (g, st').
Proof.
  intros S [I1 I2 I3 I4 I5 I6 I7 I8]. split; try assumption. intros fp Hin. destruct (I8 fp Hin) as (f & Ef & Hf).
  exists f. split; [|done]. change (get_file st' fp = Some f). by rewrite (signalled_file st).
Qed.

(** The terminals, with the bytes a read stores. *)
Lemma terms_steady k ts : system_ok k -> twf ts -> (forall a, kept_address a -> ld8 (vmem ts) a = ld8 (k_mem k) a) ->
  (forall i, cur_pid <$> arr_get (terms ts) i = cur_pid <$> arr_get (terms (k_ts k)) i) ->
  signalled (k_pcbs k) (pcbs ts) -> steady k (set_ts ts k).
Proof.
  intros Hs Ht Hmem Hfront S. change (set_ts ts k) with (set_rtc (k_rtc k) (set_ts ts k)).
  apply driven_steady; try done; [by apply signalled_driven|]. apply (signalled_rtc_inv _ (k_pcbs k)); [done|].
  apply (ko_rtc _ (so_kernel _ Hs)).
Qed.

Lemma mild_steady k ts : system_ok k -> twf ts -> mild (k_ts k) ts -> steady k (set_ts ts k).
Proof.
  intros Hs Ht (M1 & M2 & M3). apply terms_steady; [done..| |done|done]. intros a (_ & Ha & _). by apply M2.
Qed.

Lemma clock_steady k g st : system_ok k -> driven (rtc_files (k_rtc k)) (k_pcbs k) st -> rtc_files g = rtc_files (k_rtc k) ->
  rtc_inv (g, st) -> steady k (set_rtc g (set_kpcbs st k)).
Proof.
  intros Hs D Hg Hi. apply (driven_steady k g (set_pcbs st (k_ts k))); try done. pose proof (ko_terms _ (so_kernel _ Hs)) as [T1 T2 T3 T4]. by split.
Qed.

(** *** The interrupts *)

(** Any byte from the keyboard. *)
Lemma keyboard_steady status b junk kb k kb' ts : system_ok k -> 0 <= b < 256 -> scan_state kb = 0 \/ scan_state kb = 1 ->
  kb_isr term_key_handler status b junk (kb, k_ts k) = Some (kb', ts) -> steady k (set_ts ts k) /\ (scan_state kb' = 0 \/ scan_state kb' = 1).
Proof.
  intros Hs Hb Hkb E. pose proof (so_kernel _ Hs) as Hk. pose proof (ko_terms _ Hk) as Ht.
  destruct (term_at _ _ Ht (ts_cur _ Ht)) as (t & Et & _).
  destruct (ko_pcb _ Hk (cur_pid t) (so_fronts _ Hs _ _ Et)) as (p & Ep & _).
  destruct (kb_isr_spec status b junk kb (k_ts k) t Hb Hkb Ht Et) as (kb2 & s2 & E2 & W & M & S2 & _); [by eexists|].
  rewrite E in E2. injection E2 as <- <-. split; [by apply mild_steady|done].
Qed.

(** An interrupt of the clock. *)
Lemma rtc_steady cur k g st p : system_ok k -> k_pcbs k !! cur = Some p -> rtc_isr cur (k_rtc k, k_pcbs k) = Some (g, st) ->
  steady k (set_rtc g (set_kpcbs st k)).
Proof.
  intros Hs Ep E. pose proof (so_kernel _ Hs) as Hk. destruct (driven_isr _ _ _ _ _ E) as [Hg D].
  destruct (rtc_isr_spec cur (k_rtc k) (k_pcbs k) (ko_rtc _ Hk)) as (g2 & st2 & E2 & I & _).
  { apply pcb_signal_some. by eexists. }
  rewrite E in E2. injection E2 as <- <-. by apply clock_steady.
Qed.

(** ** The terminals *)

(** Each process in front of a terminal has a PCB. *)
Definition live_fronts (s : tstate) : Prop :=
  forall i t, arr_get (terms s) i = Some t -> is_Some (pcbs s !! TASK_KSTACK_TOP (cur_pid t)).

Lemma mild_live s s' : mild s s' -> live_fronts s -> live_fronts s'.
Proof.
  intros M H i t' E'. pose proof M as (F & _ & _). specialize (F i). rewrite E' in F. cbn in F.
  symmetry in F. apply fmap_Some in F as (t & E & ->). apply (mild_pcb _ _ _ M). by apply (H i).
Qed.

Lemma system_live k : system_ok k -> live_fronts (k_ts k).
Proof. intros Hs i t E. destruct (ko_pcb _ (so_kernel _ Hs) _ (so_fronts _ Hs i t E)) as (p & Ep & _). by exists p. Qed.

(** Keys typed while a read waits. *)
Lemma keys_mild ks s s' : twf s -> live_fronts s -> foldM term_key_handler ks s = Some s' -> twf s' /\ mild s s'.
Proof.
  intros W L. apply (foldM_inv (fun s' => twf s' /\ mild s s')); [|split; [done|apply mild_refl]].
  intros key s1 s2 [W1 M1] E. destruct (term_at s1 _ W1 (ts_cur _ W1)) as (t & Et & _).
  destruct (key_handler_spec s1 t key W1 Et (mild_live _ _ M1 L _ _ Et)) as (s3 & E3 & (W3 & _ & _ & _ & _ & _ & M3) & _).
  rewrite E in E3. injection E3 as <-. split; [done|by eapply mild_trans].
Qed.

Definition key_irqs (irqs : list irq) : Prop := Forall (fun i => exists ks, hands i ks) irqs.

Lemma wait_mild done irqs : forall s s' rest, key_irqs irqs -> twf s -> live_fronts s ->
  wait_until done irqs s = Some (s', rest) -> twf s' /\ mild s s' /\ done s' = Some true.
Proof.
  induction irqs as [|i irqs IH]; intros s s' rest Hi W L E; cbn [wait_until] in E; apply bind_Some in E as ([|] & Ed & E); try done.
  - injection E as <- <-. split; [done|split; [apply mild_refl|done]].
  - injection E as <- <-. split; [done|split; [apply mild_refl|done]].
  - apply Forall_cons_1 in Hi as [[ks Hks] Hi]. apply bind_Some in E as (s1 & E1 & E). rewrite (Hks s) in E1.
    destruct (keys_mild ks s s1 W L E1) as [W1 M1]. destruct (IH s1 s' rest Hi W1 (mild_live _ _ M1 L) E) as (W2 & M2 & D).
    split; [done|]. split; [by eapply mild_trans|done].
Qed.

(** What a read leaves on its terminal. *)
Record finished (buf n : Z) (c c' : con) : Prop := {
  fi_con : con_ok c';
  fi_line : line_ok (tm c');
  fi_esc : esc_ok (tm c');
  fi_mem : video_mem (tm c') = video_mem (tm c);
  fi_buffer : video_buffer (tm c') = video_buffer (tm c);
  fi_pid : cur_pid (tm c') = cur_pid (tm c);
  fi_bytes : forall a, ~ on_page (video_mem (tm c)) a -> ~ (buf <= a < buf + Z.max 1 n) -> ld8 (vm c') a = ld8 (vm c) a
}.

Lemma read_char_finished buf n c c' : line_con c -> esc_ok (tm c) -> term_buf_count (tm c) <> 0 ->
  read_char_finish buf c = Some c' -> finished buf n c c'.
Proof.
  intros [Hc Hl] He Hn E. unfold read_char_finish in E. apply bind_Some in E as (ch & _ & E).
  set (c1 := on_tm (set_curpos 1) (poke buf ch (on_tm (set_reading 0) c))) in E.
  assert (Hl1 : line_con c1).
  { destruct Hc as [Hm [Hx Hy Ha]], Hl as [L1 L2 L3]. split.
    - split; [by apply mem_ok_st8|by split].
    - split; cbn; [done|done|lia]. }
  destruct (delch_spec c1 Hl1) as (c2 & E2 & [[(b & m & p & x & y & Et) _ Hv _] Hc2 Hline _]). rewrite E in E2. injection E2 as <-.
  split; [done|done|..]; rewrite ?Et; try done.
  - destruct He. by split.
  - intros a Ha Hb. rewrite Hv by done. change (vm c1) with (st8 (vm c) buf ch). apply ld8_st8_ne. lia.
Qed.

Lemma read_line_finished buf n c r c' : line_con c -> esc_ok (tm c) -> 0 <= buf -> buf + 128 <= 4294967296 -> 0 <= n ->
  read_line_finish buf n c = Some (r, c') -> finished buf n c c'.
Proof.
  intros Hc He Hb Hb2 Hn E.
  destruct (read_line_spec buf n c Hc He Hb Hb2 Hn) as (c2 & E2 & [Hc2 Hl2] & He2 & H1 & H2 & _ & _ & _ & _ & H3 & H4).
  rewrite E in E2. injection E2 as _ <-. split; try done. intros a Ha Hnb. apply H3; [done|]. lia.
Qed.

(** The memory a read on a terminal may change. *)
Definition read_leaves (buf n : Z) (s s' : tstate) : Prop :=
  (forall j, cur_pid <$> arr_get (terms s') j = cur_pid <$> arr_get (terms s) j) /\
  (forall a, ~ (VIDEO <= a < 0xBC000) -> ~ (buf <= a < buf + Z.max 1 n) -> ld8 (vmem s') a = ld8 (vmem s) a) /\
  signalled (pcbs s) (pcbs s').

Lemma finished_leaves s i t c' buf n : twf s -> 0 <= i < TERM_NUM -> arr_get (terms s) i = Some t ->
  finished buf n (con_at s i t) c' -> twf (put_con s i c') /\ read_leaves buf n s (put_con s i c').
Proof.
  intros W Hi Et [F1 F2 F3 F4 F5 F6 F7]. destruct (put_con_twf s i t c' W Hi Et F1 F2 F3 F4 F5) as [W' G]. split; [done|]. split; [|split].
  - intros j. rewrite G. destruct (decide (j = i)) as [->|]; [|done]. rewrite Et. cbn. by rewrite F6.
  - intros a Ha Hb. apply F7; [|done]. cbn. rewrite (tw_page _ _ _ (ts_term s W i t Et)).
    pose proof (page_range (cur_term_ind s) i Hi). unfold on_page, VIDEO, VID_MEM_SIZE in *. lia.
  - apply signalled_refl.
Qed.

Lemma leaves_after buf n s1 s2 s3 : mild s1 s2 -> read_leaves buf n s2 s3 -> read_leaves buf n s1 s3.
Proof.
  intros (F1 & M1 & P1) (F2 & M2 & P2). split; [intros j; by rewrite F2|]. split; [|by eapply signalled_trans].
  intros a Ha Hb. by rewrite M2, M1.
Qed.

(** The two halves of [term_read], before and after the wait, and what ends it. *)
Definition term_read_begin (ind : Z) (s : tstate) : option (Z * tstate) :=
  t ← arr_get (terms s) ind;
  s1 ← on_term ind (fun c => Some (on_tm (set_reading 1) c)) s;
  Some (term_canon t, s1).

Definition term_ready (canon ind : Z) (s : tstate) : option bool :=
  t ← arr_get (terms s) ind;
  Some (bool_decide ((if decide (canon <> 0) then term_buf_count t else term_read_done t) <> 0)).

Definition term_read_end (canon ind buf nbytes : Z) (s : tstate) : option (Z * tstate) :=
  if decide (canon <> 0) then
    s3 ← on_term ind (read_char_finish buf) s;
    Some (1, s3)
  else
    c ← view ind s;
    '(n, c') ← read_line_finish buf nbytes c;
    s3 ← unview ind c' s;
    Some (n, s3).

Lemma wait_until_ext f g irqs : (forall s, f s = g s) -> forall s, wait_until f irqs s = wait_until g irqs s.
Proof.
  intros H. induction irqs as [|i irqs IH]; intros s; cbn [wait_until]; rewrite H; destruct (g s) as [[|]|]; cbn; try done.
  destruct (i s); cbn; [apply IH|done].
Qed.

Lemma term_read_split ind buf n irqs s : buf <> 0 ->
  term_read ind buf n irqs s =
    '(canon, s1) ← term_read_begin ind s;
    '(s2, rest) ← wait_until (term_ready canon ind) irqs s1;
    '(r, s3) ← term_read_end canon ind buf n s2;
    Some (r, s3, rest).
Proof.
  intros Hb. unfold term_read, term_read_begin. rewrite decide_False by done.
  destruct (arr_get (terms s) ind) as [t|]; [|done]. rewrite !bind_ret.
  destruct (on_term ind _ s) as [s1|]; [|done]. rewrite !bind_ret. unfold term_read_end.
  destruct (decide (term_canon t <> 0)) as [D|D].
  - rewrite (wait_until_ext _ (term_ready (term_canon t) ind)) by (intros x; unfold term_ready; destruct (arr_get (terms x) ind); [cbn; by rewrite decide_True|done]).
    destruct (wait_until _ irqs s1) as [[s2 rest]|]; [|done]. cbn. by destruct (on_term ind _ s2).
  - rewrite (wait_until_ext _ (term_ready (term_canon t) ind)) by (intros x; unfold term_ready; destruct (arr_get (terms x) ind); [cbn; by rewrite decide_False|done]).
    destruct (wait_until _ irqs s1) as [[s2 rest]|]; [|done]. cbn. destruct (view ind s2) as [c|]; [|done]. cbn.
    destruct (read_line_finish buf n c) as [[r c']|]; [|done]. cbn. by destruct (unview ind c' s2).
Qed.

Lemma read_begin_mild ind s canon s1 : twf s -> 0 <= ind < TERM_NUM -> term_read_begin ind s = Some (canon, s1) -> twf s1 /\ mild s s1.
Proof.
  intros W Hi E. unfold term_read_begin in E. apply bind_Some in E as (t & Et & E). apply bind_Some in E as (s1' & E1 & E). injection E as <- <-.
  destruct (on_term_flag s ind t (set_reading 1) W Hi Et) as (s2 & E2 & W1 & A1 & G1).
  { intros [[? ? ?] [? ? ? ? ?] ? ? ? ? ?]. split; [by split|by split|done..]. }
  rewrite E1 in E2. injection E2 as <-. split; [exact W1|]. exact (apart_mild _ _ _ _ _ A1 Hi Et G1 eq_refl).
Qed.

Lemma read_end_leaves canon ind buf n s r s' : twf s -> 0 <= ind < TERM_NUM -> 0 < buf -> buf + 128 <= 4294967296 -> 0 <= n ->
  term_ready canon ind s = Some true -> term_read_end canon ind buf n s = Some (r, s') -> twf s' /\ read_leaves buf n s s'.
Proof.
  intros W Hi Hb Hb2 Hn D E. destruct (term_at s ind W Hi) as (t & Et & Hw). unfold term_ready in D. rewrite Et, bind_ret in D.
  apply (inj Some), bool_decide_eq_true in D. unfold term_read_end in E. destruct (decide (canon <> 0)) as [C|C].
  - apply bind_Some in E as (s3 & E3 & E). injection E as _ <-. rewrite (on_term_eq s ind t _ Et) in E3.
    apply bind_Some in E3 as (c' & Ec & [= <-]). apply (finished_leaves s ind t c' buf n W Hi Et).
    by apply read_char_finished; [apply con_at_line|apply (tw_esc _ _ _ Hw)| |].
  - apply bind_Some in E as (c & Ec & E). apply bind_Some in E as ([n' c'] & Er & E). apply bind_Some in E as (s3 & E3 & E).
    injection E as _ <-. unfold view in Ec. rewrite Et, bind_ret in Ec. injection Ec as <-.
    unfold unview in E3. pose proof (ts_len _ W) as Hlen. rewrite arr_set_Some, bind_ret in E3 by (unfold TERM_NUM in Hi; lia).
    injection E3 as <-. apply (finished_leaves s ind t c' buf n W Hi Et).
    eapply read_line_finished; [by apply con_at_line|by eapply tw_esc|lia|done|done|exact Er].
Qed.

Lemma term_read_leaves ind buf n irqs s r s' rest : twf s -> live_fronts s -> key_irqs irqs -> 0 <= ind < TERM_NUM ->
  0 < buf -> buf + 128 <= 4294967296 -> 0 <= n -> term_read ind buf n irqs s = Some (r, s', rest) -> twf s' /\ read_leaves buf n s s'.
Proof.
  intros W L Hirq Hi Hb Hb2 Hn E. rewrite term_read_split in E by lia.
  apply bind_Some in E as ([canon s1] & E1 & E). apply bind_Some in E as ([s2 rest2] & E2 & E).
  apply bind_Some in E as ([r3 s3] & E3 & E). injection E as _ <- _.
  destruct (read_begin_mild ind s canon s1 W Hi E1) as [W1 M1].
  destruct (wait_mild _ irqs s1 s2 rest2 Hirq W1 (mild_live _ _ M1 L) E2) as (W2 & M2 & D).
  destruct (read_end_leaves canon ind buf n s2 r3 s3 W2 Hi Hb Hb2 Hn D E3) as [W3 R3].
  split; [done|]. eapply leaves_after; [exact M1|]. by eapply leaves_after.
Qed.

(** Blocking on the clock. *)
Lemma rtc_wait_driven cur fp irqs : forall g (st : pcb_store) g' st' rest, rtc_inv (g, st) -> is_Some (st !! cur) ->
  Forall (eq (rtc_isr cur)) irqs -> rtc_wait fp irqs (g, st) = Some ((g', st'), rest) ->
  rtc_files g' = rtc_files g /\ driven (rtc_files g) st st' /\ rtc_inv (g', st') /\
  exists f, get_file st' fp = Some f /\ get_rtc_count (f_inode f) <> 0.
Proof.
  induction irqs as [|i irqs IH]; intros g st g' st' rest I Hc Hi E; cbn [rtc_wait] in E; apply bind_Some in E as (f & Ef & E);
    destruct (decide (get_rtc_count (f_inode f) = 0)) as [D|D]; try done.
  - injection E as <- <- <-. split; [done|]. split; [reflexivity|]. split; [done|by exists f].
  - apply Forall_cons_1 in Hi as [<- Hi]. apply bind_Some in E as ([g1 st1] & E1 & E).
    destruct (driven_isr _ _ _ _ _ E1) as [R1 D1].
    destruct (rtc_isr_spec cur g st I) as (g2 & st2 & E2 & I2 & S2 & _); [by apply pcb_signal_some|].
    rewrite E1 in E2. injection E2 as <- <-. apply pcb_signal_some in S2.
    destruct (IH g1 st1 g' st' rest I2 S2 Hi E) as (R2 & D2 & I' & F). split; [congruence|]. split; [|done].
    etrans; [exact D1|]. by rewrite <- R1.
  - injection E as <- <- <-. split; [done|]. split; [reflexivity|]. split; [done|by exists f].
Qed.

(** The second half of [rtc_read], and what ends its wait. *)
Definition rtc_ready (fp : fptr) (st : pcb_store) : option bool :=
  file ← get_file st fp; Some (bool_decide (get_rtc_count (f_inode file) <> 0)).

Definition rtc_read_end (fp : fptr) '((g, st) : rtc_globals * pcb_store) : option (Z * (rtc_globals * pcb_store)) :=
  st ← modify fp take_tick st;
  Some (0, (g, st)).

Lemma rtc_read_split fp irqs (w : rtc_globals * pcb_store) :
  rtc_read fp irqs w = '(w1, rest) ← rtc_wait fp irqs w; '(r, w2) ← rtc_read_end fp w1; Some (r, w2, rest).
Proof.
  unfold rtc_read, rtc_read_end. destruct (rtc_wait fp irqs w) as [[[g st] rest]|]; [|done]. rewrite !bind_ret.
  match goal with |- (modify fp ?f st ≫= _) = _ => change f with take_tick end. by destruct (modify fp take_tick st).
Qed.

Lemma rtc_end_driven fp g (st : pcb_store) r g' st' : rtc_inv (g, st) -> Some fp ∈ rtc_files g -> rtc_ready fp st = Some true ->
  rtc_read_end fp (g, st) = Some (r, (g', st')) -> g' = g /\ driven (rtc_files g) st st' /\ rtc_inv (g, st').
Proof.
  intros I Hfp D E. unfold rtc_ready in D. apply bind_Some in D as (f & Ef & D). apply (inj Some), bool_decide_eq_true in D.
  unfold rtc_read_end in E. apply bind_Some in E as (st2 & Em & E). injection E as _ <- <-.
  split; [done|]. split; [apply (driven_modify _ fp take_tick); [done|apply take_retimes|exact Em]|].
  change (fs_get st fp = Some f) in Ef. destruct (modify_spec fp take_tick st f Ef) as (st3 & E3 & M & _). rewrite Em in E3. injection E3 as <-.
  apply (modify_inv g st fp take_tick f st2 I Ef); [|done]. intros Hin.
  destruct (world_files g st fp I Hin) as (f' & Ef' & Hf). rewrite Ef in Ef'. injection Ef' as <-.
  apply take_tick_ok; [done|]. pose proof (count_nonneg (f_inode f)). lia.
Qed.

Lemma rtc_read_driven cur fp irqs g (st : pcb_store) r g' st' rest : rtc_inv (g, st) -> is_Some (st !! cur) -> Some fp ∈ rtc_files g ->
  Forall (eq (rtc_isr cur)) irqs -> rtc_read fp irqs (g, st) = Some (r, (g', st'), rest) ->
  rtc_files g' = rtc_files g /\ driven (rtc_files g) st st' /\ rtc_inv (g', st').
Proof.
  intros I Hc Hfp Hi E. rewrite rtc_read_split in E. apply bind_Some in E as ([[g1 st1] rest1] & Ew & E).
  apply bind_Some in E as ([r2 [g2 st2]] & E2 & E). injection E as _ <- <- _.
  destruct (rtc_wait_driven cur fp irqs g st g1 st1 rest1 I Hc Hi Ew) as (R1 & D1 & I1 & f & Ef & Hn).
  destruct (rtc_end_driven fp g1 st1 r2 g2 st2 I1) as (-> & D2 & I2); [by rewrite R1| |exact E2|].
  - unfold rtc_ready. rewrite Ef, bind_ret. by rewrite bool_decide_true.
  - rewrite R1 in D2. split; [done|]. split; [by etrans|done].
Qed.

(** ** System calls of a process *)

(** The local variables of a call of process [c], and the interrupts while it
    blocks: keys, and ticks of the clock on its own stack. *)
Record call_env (c : Z) (e : env) : Prop := {
  ce_env : env_ok e;
  ce_keys : key_irqs (e_tirqs e);
  ce_ticks : Forall (eq (rtc_isr (TASK_KSTACK_TOP c))) (e_rirqs e)
}.

(** A buffer in the page of the process. *)
Definition user_buffer (buf n : Z) : Prop := user_address buf /\ 0 <= n /\ buf + n <= TASK_VIRT_PAGE_END.

(** A call by process [c], which is running on its kernel stack. *)
Record in_call (e : env) (k : kernel) (c esp : Z) : Prop := {
  ic_system : system_ok k;
  ic_env : call_env c e;
  ic_pid : 1 <= c < MAX_PROC_NUM;
  ic_used : pid_in_use k c;
  ic_stack : TASK_KSTACK_TOP c <= esp < TASK_KSTACK_BOT c;
  ic_current : esp0 (tss k) = TASK_KSTACK_BOT c
}.

Section Calls.
Context (e : env) (k : kernel) (c esp : Z) (C : in_call e k c esp).

Lemma call_kernel : kernel_ok k.
Proof. apply C. Qed.

Lemma call_stack : TASK_KSTACK_TOP c = busy_stack k.
Proof. unfold busy_stack. rewrite (ic_current _ _ _ _ C). unfold TASK_KSTACK_TOP, TASK_KSTACK_BOT. lia. Qed.

Lemma call_pcb : exists p, k_pcbs k !! TASK_KSTACK_TOP c = Some p /\ pcb_ok p /\ valid_task k (TASK_KSTACK_TOP c) p.
Proof.
  destruct C as [Hs _ Hc Hu _ _]. destruct (ko_pcb _ (so_kernel _ Hs) c) as (p & Ep & Hp); [lia|]. exists p. split; [done|]. split; [done|].
  by apply (so_tasks _ Hs c).
Qed.

Lemma user_kept buf n a : user_buffer buf n -> kept_address a -> ~ (buf <= a < buf + Z.max 1 n).
Proof.
  intros ((H1 & H2) & H3 & H4) [Ha _] Hin. apply Ha. unfold user_address, TASK_VIRT_PAGE_BEG, TASK_VIRT_PAGE_END in *. lia.
Qed.

(** A string of the kernel in the buffer of the process. *)
Lemma getargs_steady buf n r k' : user_buffer buf n -> syscall_getargs esp buf n k = Some (r, k') -> steady k k'.
Proof.
  intros Hb E. destruct call_pcb as (p & Ep & _ & [Ha _]). destruct C as [Hs _ Hc _ Hesp _]. pose proof Hb as ((B1 & B2) & B3 & B4).
  unfold TASK_VIRT_PAGE_BEG, TASK_VIRT_PAGE_END in *.
  assert (Hargs : exists a, cmd_args p = (fun a => a ++ [0]) <$> a /\ (forall l, a = Some l -> Forall (fun c => 0 < c < 256) l /\ (length l < 256)%nat)).
  { destruct (cmd_args p) as [l|] eqn:El; [|by exists None]. destruct (Ha l eq_refl) as (s & -> & Hc1 & Hl). exists (Some s).
    split; [done|]. by intros l [= <-]. }
  destruct Hargs as (a & Eargs & Hl).
  rewrite (getargs_spec k c esp p buf n a ltac:(lia) Hesp Ep Eargs Hl ltac:(lia) ltac:(lia)) in E.
  destruct a as [l|]; [|injection E as _ <-; by apply steady_refl].
  destruct (decide (n < Z.of_nat (length l) + 1)); injection E as _ <-; [by apply steady_refl|].
  apply steady_user_mem; [done|apply mem_ok_store_bytes, (wf_mem _ _ (ko_fs _ call_kernel))|].
  intros x Hx. rewrite ld8_store_bytes by (rewrite ?length_app; cbn; lia). rewrite decide_False; [done|]. intros Hin. apply Hx.
  rewrite length_app in Hin. cbn in Hin. unfold user_address, TASK_VIRT_PAGE_BEG, TASK_VIRT_PAGE_END. lia.
Qed.

(** The pointer to video memory, stored in the page of the process. *)
Lemma vidmap_steady start r k' : 0 <= start -> start + 4 <= TASK_VIRT_PAGE_END -> syscall_vidmap start k = Some (r, k') -> steady k k'.
Proof.
  intros H0 H4 E. pose proof (ic_system _ _ _ _ C) as Hs. unfold syscall_vidmap in E. unfold TASK_VIRT_PAGE_END in *. rewrite u32_small in E by lia.
  case_decide as D; injection E as _ <-; [by apply steady_refl|]. unfold TASK_VIRT_PAGE_BEG in D.
  apply steady_user_mem; [done|apply mem_ok_st32, (wf_mem _ _ (ko_fs _ call_kernel))|].
  intros x Hx. apply st32_other; [lia|lia|]. intros Hin. apply Hx. unfold user_address, TASK_VIRT_PAGE_BEG, TASK_VIRT_PAGE_END. lia.
Qed.

(** A change of the PCB of the caller that keeps its identity and its files. *)
Lemma pcb_steady p p' : k_pcbs k !! TASK_KSTACK_TOP c = Some p -> same_task p p' -> open_files p' = open_files p ->
  steady k (set_kpcbs (<[TASK_KSTACK_TOP c := p']> (k_pcbs k)) k).
Proof.
  intros Ep S Ef. pose proof (ic_system _ _ _ _ C) as Hs. pose proof call_kernel as Hk. set (k' := set_kpcbs _ k).
  change (steady k (set_rtc (k_rtc k) (set_kpcbs (<[TASK_KSTACK_TOP c := p']> (k_pcbs k)) k))).
  apply clock_steady; [done| |done|].
  - intros a q Eq. destruct (decide (TASK_KSTACK_TOP c = a)) as [<-|D].
    + rewrite lookup_insert_eq. exists p'. split; [done|]. rewrite Ep in Eq. injection Eq as <-. split; [done|].
      intros i f Efi. exists f. rewrite Ef. by split; [|left].
    + rewrite lookup_insert_ne by done. exists q. split; [done|]. split; [done|]. intros i f Efi. exists f. by split; [|left].
  - destruct (ko_rtc _ Hk) as [I1 I2 I3 I4 I5 I6 I7 I8]. split; try assumption. intros fp Hin. destruct (I8 fp Hin) as (f & Ef' & Hf).
    exists f. split; [|done]. change (get_file (<[TASK_KSTACK_TOP c := p']> (k_pcbs k)) fp = Some f).
    change (get_file (k_pcbs k) fp = Some f) in Ef'. rewrite <- Ef'. unfold get_file.
    destruct (decide (TASK_KSTACK_TOP c = fp.1)) as [<-|D]; [rewrite lookup_insert_eq, Ep; cbn; by rewrite Ef|by rewrite lookup_insert_ne].
Qed.

Lemma set_handler_steady signum handler r k' : syscall_set_handler esp signum handler k = Some (r, k') -> steady k k'.
Proof.
  intros E. pose proof C as [Hs _ Hc _ Hesp _]. unfold syscall_set_handler in E. case_decide; [injection E as _ <-; by apply steady_refl|].
  rewrite (get_cur_pcb_stack c) in E by (done || lia). apply bind_Some in E as (p & Ep & E). apply bind_Some in E as (l & El & E).
  injection E as _ <-. apply (pcb_steady p); [done| |done]. split; try done. cbn. unfold arr_set in El. case_decide; [|done].
  injection El as <-. apply length_insert.
Qed.
(** *** Descriptors *)

Lemma on_rtc_driven f r k' : on_rtc f k = Some (r, k') ->
  (forall g st, f (k_rtc k, k_pcbs k) = Some (r, (g, st)) ->
     rtc_files g = rtc_files (k_rtc k) /\ driven (rtc_files (k_rtc k)) (k_pcbs k) st /\ rtc_inv (g, st)) -> steady k k'.
Proof.
  intros E Hf. unfold on_rtc in E. apply bind_Some in E as ([r' [g st]] & Ef & E). injection E as -> <-.
  destruct (Hf g st Ef) as (R & D & I). by apply clock_steady; [apply C| | |].
Qed.

(** The operations of a descriptor in use. *)
Section Descriptor.
Context (p : PCB_t) (fd : Z) (f : FILE).
Context (Ep : k_pcbs k !! TASK_KSTACK_TOP c = Some p) (Hfd : 0 <= fd < TASK_MAX_FILES).
Context (Ef : arr_get (open_files p) fd = Some f) (Hused : f_used f <> 0).

Lemma descriptor_valid : valid_file k (TASK_KSTACK_TOP c, fd) f.
Proof. destruct call_pcb as (q & Eq & _ & V). rewrite Ep in Eq. injection Eq as <-. by apply (vt_files _ _ _ V fd). Qed.

Lemma descriptor_get : get_file (k_pcbs k) (TASK_KSTACK_TOP c, fd) = Some f.
Proof. unfold get_file. cbn [fst snd]. by rewrite Ep. Qed.

Lemma descriptor_slot : 0 <= fd < Z.of_nat (length (open_files p)).
Proof.
  destruct call_pcb as (q & Eq & [Hl _ _] & _). rewrite Ep in Eq. injection Eq as <-. rewrite Hl. unfold TASK_MAX_FILES in *. lia.
Qed.

Lemma env_dentry : length (filename (e_dentry e)) = 32%nat.
Proof. apply (eo_dentry _ (ce_env _ _ (ic_env _ _ _ _ C))). Qed.

(** A file: the position stays within its size. *)
Lemma read_file_steady buf n r k' : user_buffer buf n -> file_ops f = fs_file_ops_table ->
  syscall_read e esp fd buf n k = Some (r, k') -> steady k k'.
Proof.
  intros ([B1 B2] & B3 & B4) Ho E. pose proof descriptor_valid as V. unfold valid_file in V. rewrite Ho in V. destruct V as [Vi Vp].
  pose proof C as [Hs _ Hc Hu Hesp _]. pose proof call_kernel as Hk. pose proof (wf_size _ _ (ko_fs _ Hk) _ Vi) as Hsz.
  unfold BLOCK_SIZE, MAX_BLOCK_NUM, TASK_VIRT_PAGE_BEG, TASK_VIRT_PAGE_END in *.
  assert (Hb : forall a, buf <= a < buf + n -> user_address a) by (intros a Ha; unfold user_address, TASK_VIRT_PAGE_BEG, TASK_VIRT_PAGE_END; lia).
  destruct (syscall_read_file e k c esp Hk Hc Hesp env_dentry p fd f buf n Ep Hfd Ef Hused Ho) as (m & E2 & _ & Hm & Hk');
    [lia|lia|done|lia|by split|done|].
  rewrite E in E2. injection E2 as -> ->. set (l := read_len _ _ _ _ _) in *.
  assert (Hl : 0 <= l <= n /\ f_pos f + l <= file_size (k_mem k) (k_fs k) (f_inode f)).
  { subst l. unfold read_len. rewrite decide_True by done. lia. }
  change (set_kpcbs ?st (set_kmem m k)) with (set_rtc (k_rtc k) (set_kpcbs st (set_kmem m k))).
  assert (HK : forall a, kept_address a -> ld8 m a = ld8 (k_mem k) a).
  { intros a [Ha _]. apply Hm. intros Hin. apply Ha, Hb. lia. }
  apply steady_file; [done|exact HK|done|exact Hk'| |done|apply descriptor_slot|apply call_stack].
  intros _. apply (valid_file_kept k); [done|done|by apply kept_image_kept|done|]. unfold valid_file. cbn [file_ops f_inode f_pos with_pos]. rewrite Ho.
  split; [done|]. unfold caller. lia.
Qed.

(** A directory: the position stays within the entries. *)
Lemma read_dir_steady buf n r k' : user_buffer buf 32 -> file_ops f = fs_dir_ops_table ->
  syscall_read e esp fd buf n k = Some (r, k') -> steady k k'.
Proof.
  intros ([B1 B2] & B3 & B4) Ho E. pose proof descriptor_valid as V. unfold valid_file in V. rewrite Ho in V.
  pose proof C as [Hs _ Hc Hu Hesp _]. pose proof call_kernel as Hk. unfold TASK_VIRT_PAGE_BEG, TASK_VIRT_PAGE_END in *.
  assert (Hb : forall a, buf <= a < buf + 32 -> user_address a) by (intros a Ha; unfold user_address, TASK_VIRT_PAGE_BEG, TASK_VIRT_PAGE_END; lia).
  destruct (syscall_read_dir e k c esp Hk Hc Hesp env_dentry p fd f buf n Ep Hfd Ef Hused Ho V Hb) as (m & E2 & _ & Hm & Hk' & _).
  rewrite E in E2. injection E2 as -> ->. change (set_kpcbs ?st (set_kmem m k)) with (set_rtc (k_rtc k) (set_kpcbs st (set_kmem m k))).
  assert (HK : forall a, kept_address a -> ld8 m a = ld8 (k_mem k) a).
  { intros a (Ha & _ & _ & Hr). apply Hm; [done|]. intros Hin. by apply Ha, Hb. }
  apply steady_file; [done|exact HK|done|exact Hk'| |done|apply descriptor_slot|apply call_stack].
  intros _. apply (valid_file_kept k); [done|done|by apply kept_image_kept|done|]. unfold valid_file. cbn [file_ops f_inode f_pos with_pos]. rewrite Ho.
  unfold caller. lia.
Qed.

(** The clock and the terminal. *)
Lemma read_clock_steady buf n r k' : file_ops f = rtc_file_ops_table ->
  file_read e (TASK_KSTACK_TOP c) buf n (TASK_KSTACK_TOP c, fd) k = Some (r, k') -> steady k k'.
Proof.
  intros Ho E. pose proof descriptor_valid as V. unfold valid_file in V. rewrite Ho in V.
  unfold file_read in E. rewrite descriptor_get, bind_ret, Ho in E. apply (on_rtc_driven _ _ _ E). intros g st Er.
  apply bind_Some in Er as ([[r' [g' st']] rest] & Er & E'). injection E' as -> -> ->.
  apply (rtc_read_driven (TASK_KSTACK_TOP c) (TASK_KSTACK_TOP c, fd) (e_rirqs e) _ _ r _ _ rest);
    [apply (ko_rtc _ call_kernel)|by exists p|done|apply (ic_env _ _ _ _ C)|exact Er].
Qed.

Lemma read_terminal_steady buf n r k' : user_buffer buf n -> file_ops f = stdin_file_ops_table ->
  file_read e (TASK_KSTACK_TOP c) buf n (TASK_KSTACK_TOP c, fd) k = Some (r, k') -> steady k k'.
Proof.
  intros Hb Ho E. pose proof C as [Hs He Hc _ _ _]. pose proof call_kernel as Hk. destruct call_pcb as (q & Eq & Hp & _).
  rewrite Ep in Eq. injection Eq as <-. pose proof Hb as ((B1 & B2) & B3 & B4). unfold TASK_VIRT_PAGE_BEG, TASK_VIRT_PAGE_END in B1, B2, B4.
  unfold file_read in E. rewrite descriptor_get, bind_ret, Ho, Ep, bind_ret in E.
  apply bind_Some in E as ([[r' s'] rest] & Er & E). injection E as _ <-.
  destruct (term_read_leaves (term_ind p) buf n (e_tirqs e) (k_ts k) r' s' rest) as (W & F & M & S); try done; [apply Hk|by apply system_live|apply He|apply Hp|lia|lia|].
  apply terms_steady; try done. intros a Ha. apply M; [apply Ha|]. by apply user_kept.
Qed.

Lemma write_clock_steady buf n r k' : file_ops f = rtc_file_ops_table ->
  file_write e (TASK_KSTACK_TOP c) buf n (TASK_KSTACK_TOP c, fd) k = Some (r, k') -> steady k k'.
Proof.
  intros Ho E. pose proof descriptor_valid as V. unfold valid_file in V. rewrite Ho in V.
  unfold file_write in E. rewrite descriptor_get, bind_ret, Ho in E. apply (on_rtc_driven _ _ _ E). intros g st Er.
  destruct (driven_write _ _ _ _ _ _ _ _ _ V Er) as [R D]. split; [done|]. split; [done|].
  destruct (rtc_write_correct (e_reg_a e) (if decide (buf = 0) then None else Some (ld32 (k_mem k) buf)) n (TASK_KSTACK_TOP c, fd)
    (k_rtc k) (k_pcbs k) (ko_rtc _ call_kernel) V) as [(j & g2 & st2 & f2 & _ & _ & _ & E2 & I & _)|[_ E2]]; rewrite Er in E2; injection E2.
  - intros -> -> _. exact I.
  - intros -> -> _. apply (ko_rtc _ call_kernel).
Qed.

Lemma write_terminal_steady buf n r k' : 0 <= n < 2147483648 -> file_ops f = stdout_file_ops_table ->
  file_write e (TASK_KSTACK_TOP c) buf n (TASK_KSTACK_TOP c, fd) k = Some (r, k') -> steady k k'.
Proof.
  intros Hn Ho E. pose proof C as [Hs He Hc _ _ _]. pose proof call_kernel as Hk. destruct call_pcb as (q & Eq & Hp & _).
  rewrite Ep in Eq. injection Eq as <-. unfold file_write in E. rewrite descriptor_get, bind_ret, Ho, Ep, bind_ret in E.
  destruct (term_write_spec (k_ts k) (term_ind p) buf n (ko_terms _ Hk) (pk_term _ Hp) Hn) as (s' & Ew & W & A & G).
  rewrite Ew, bind_ret in E. injection E as _ <-. destruct (term_at _ (term_ind p) (ko_terms _ Hk) (pk_term _ Hp)) as (t & Et & _).
  destruct (G t Et) as (t' & Et' & L). apply mild_steady; [done..|].
  apply (apart_mild _ _ _ _ _ A (pk_term _ Hp) Et Et'). apply L.
Qed.

Lemma close_steady r k' : syscall_close e esp fd k = Some (r, k') -> steady k k'.
Proof.
  intros E. pose proof C as [Hs _ Hc Hu Hesp _]. pose proof call_kernel as Hk.
  pose proof (syscall_close_spec e k c esp Hk Hc Hesp Hu env_dentry p fd f Ep Hfd Ef Hused) as H.
  destruct (decide (file_ops f = stdin_file_ops_table \/ file_ops f = stdout_file_ops_table)).
  { rewrite E in H. injection H as _ ->. by apply steady_refl. }
  destruct H as (g & E2 & R1 & R2 & Hk'). rewrite E in E2. injection E2 as _ ->. unfold caller in *. unfold with_files in *.
  assert (Em : forall st, set_kpcbs st k = set_kpcbs st (set_kmem (k_mem k) k)) by (by destruct k as [[] ? ? ? ? ? ? ?]).
  rewrite Em in Hk' |- *. apply steady_file; [done|done|done|exact Hk'|done| |apply descriptor_slot|apply call_stack].
  intros fp Hne Hin. destruct (decide (file_ops f = rtc_file_ops_table)) as [D|D]; [|by rewrite R2]. rewrite R1 by done.
  by apply in_released.
Qed.
End Descriptor.

(** What a descriptor number stands for: nothing, or an open descriptor. *)
Lemma descriptor_cases fd : bad_fd k c fd \/ exists p f, k_pcbs k !! TASK_KSTACK_TOP c = Some p /\ 0 <= fd < TASK_MAX_FILES /\
  arr_get (open_files p) fd = Some f /\ f_used f <> 0.
Proof.
  destruct (decide (0 <= fd < TASK_MAX_FILES)) as [D|D]; [|by left; left].
  destruct call_pcb as (p & Ep & [Hl _ _] & _).
  destruct (arr_get_Some (open_files p) fd) as (f & Ef & _); [rewrite Hl; unfold TASK_MAX_FILES in *; lia|].
  destruct (decide (f_used f = 0)) as [U|U].
  - left; right. exists f. split; [|done]. unfold get_file. cbn [fst snd]. change (caller c) with (TASK_KSTACK_TOP c). by rewrite Ep.
  - right. exists p, f. done.
Qed.

(** An operation reaches the table of the descriptor, or is refused. *)
Lemma read_dispatch p fd f buf n : k_pcbs k !! TASK_KSTACK_TOP c = Some p -> 0 <= fd < TASK_MAX_FILES ->
  arr_get (open_files p) fd = Some f -> f_used f <> 0 -> buf <> 0 ->
  syscall_read e esp fd buf n k = file_read e (TASK_KSTACK_TOP c) buf n (TASK_KSTACK_TOP c, fd) k /\
  syscall_write e esp fd buf n k = file_write e (TASK_KSTACK_TOP c) buf n (TASK_KSTACK_TOP c, fd) k.
Proof.
  intros Ep Hfd Ef Hu Hb. pose proof C as [_ _ Hc _ Hesp _]. unfold syscall_read, syscall_write.
  rewrite !(decide_False (P := buf = 0)), !(decide_False (P := fd < 0 \/ _)) by lia. cbv zeta. rewrite (get_cur_pcb_stack c) by (done || lia).
  rewrite (descriptor_get p fd f Ep Ef), !bind_ret. by rewrite !decide_False.
Qed.

Lemma read_steady fd buf n r k' : user_buffer buf n -> user_buffer buf 32 -> syscall_read e esp fd buf n k = Some (r, k') -> steady k k'.
Proof.
  intros Hb Hb2 E. pose proof C as [Hs _ Hc Hu Hesp _]. destruct (descriptor_cases fd) as [Hbad|(p & f & Ep & Hfd & Ef & Hused)].
  { destruct (bad_fd_refused e k c esp Hc Hesp env_dentry fd buf n) as (E2 & _); [exact Hbad|].
    rewrite E in E2. injection E2 as _ ->. by apply steady_refl. }
  destruct (read_dispatch p fd f buf n Ep Hfd Ef Hused) as [Ed _].
  { destruct Hb as ((B1 & _) & _). unfold TASK_VIRT_PAGE_BEG in B1. lia. }
  destruct (file_ops f) eqn:Ho.
  - exact (read_file_steady p fd f Ep Hfd Ef Hused buf n r k' Hb Ho E).
  - exact (read_dir_steady p fd f Ep Hfd Ef Hused buf n r k' Hb2 Ho E).
  - rewrite Ed in E. exact (read_clock_steady p fd f Ep Ef Hused buf n r k' Ho E).
  - rewrite Ed in E. exact (read_terminal_steady p fd f Ep Ef buf n r k' Hb Ho E).
  - rewrite Ed in E. unfold file_read in E. rewrite (descriptor_get p fd f Ep Ef), bind_ret, Ho in E. injection E as _ <-. by apply steady_refl.
Qed.

Lemma write_steady fd buf n r k' : 0 <= n < 2147483648 -> syscall_write e esp fd buf n k = Some (r, k') -> steady k k'.
Proof.
  intros Hn E. pose proof C as [Hs _ Hc Hu Hesp _]. destruct (decide (buf = 0)) as [->|Hb0].
  { unfold syscall_write in E. rewrite decide_True in E by done. injection E as _ <-. by apply steady_refl. }
  destruct (descriptor_cases fd) as [Hbad|(p & f & Ep & Hfd & Ef & Hused)].
  { destruct (bad_fd_refused e k c esp Hc Hesp env_dentry fd buf n) as (_ & E2 & _); [exact Hbad|].
    rewrite E in E2. injection E2 as _ ->. by apply steady_refl. }
  destruct (read_dispatch p fd f buf n Ep Hfd Ef Hused Hb0) as [_ Ed]. rewrite Ed in E.
  destruct (file_ops f) eqn:Ho; try (unfold file_write in E; rewrite (descriptor_get p fd f Ep Ef), bind_ret, Ho in E; injection E as _ <-; by apply steady_refl).
  - exact (write_clock_steady p fd f Ep Ef Hused buf n r k' Ho E).
  - exact (write_terminal_steady p fd f Ep Ef buf n r k' Hn Ho E).
Qed.

Lemma close_call_steady fd r k' : syscall_close e esp fd k = Some (r, k') -> steady k k'.
Proof.
  intros E. pose proof C as [Hs _ Hc Hu Hesp _]. destruct (descriptor_cases fd) as [Hbad|(p & f & Ep & Hfd & Ef & Hused)].
  { destruct (bad_fd_refused e k c esp Hc Hesp env_dentry fd 0 0) as (_ & _ & E2); [exact Hbad|].
    rewrite E in E2. injection E2 as _ ->. by apply steady_refl. }
  exact (close_steady p fd f Ep Hfd Ef Hused r k' E).
Qed.

Lemma open_steady fname l r k' : cstr (k_mem k) fname l -> syscall_open e esp fname k = Some (r, k') -> steady k k'.
Proof.
  intros Hl E. pose proof C as [Hs He Hc Hu Hesp _]. pose proof call_kernel as Hk. destruct call_pcb as (p & Ep & Hp & _).
  destruct (lookup_name k l) as [i|] eqn:En.
  2: { rewrite (syscall_open_none e k esp Hk env_dentry fname l Hl En) in E. injection E as _ <-. by apply steady_refl. }
  destruct (lowest_free p) as [fd|] eqn:Efree.
  2: { rewrite (syscall_open_full e k c esp Hk Hc Hesp env_dentry fname l i p Hl En Ep Efree) in E. injection E as _ <-. by apply steady_refl. }
  destruct (lowest_free_in p fd Efree) as [Hfd Hff]. assert (Hslot : 0 <= fd < Z.of_nat (length (open_files p))).
  { destruct Hp as [Hpl _ _]. rewrite Hpl. unfold TASK_MAX_FILES in *. lia. }
  assert (Em : forall st, set_kpcbs st k = set_kpcbs st (set_kmem (k_mem k) k)) by (by destruct k as [[] ? ? ? ? ? ? ?]).
  pose proof (lookup_name_range _ _ _ En) as Hi. pose proof (dk_inode _ (so_disk _ Hs) i Hi) as Hino.
  destruct (decide (filetype (dentry_of (k_mem k) (k_fs k) i) = FILE_TYPE_RTC)) as [D|D].
  - destruct (list_find (fun s => s = None) (rtc_files (k_rtc k))) as [[j x]|] eqn:Ej.
    2: { by rewrite (syscall_open_clock_full e k c esp fname l i p fd Hk Hc Hesp env_dentry Hl En Ep Efree D Ej) in E. }
    pose proof Ej as Ej'. apply list_find_Some in Ej' as (Es & -> & _).
    destruct (syscall_open_clock e k c esp Hk Hc Hesp Hu env_dentry fname l i p fd j Hl En Ep Efree D Ej) as (g & f & E2 & _ & _ & Ho & _ & _ & Eg & Hk').
    rewrite E in E2. injection E2 as _ ->. unfold with_files, caller in *. rewrite Em in Hk' |- *.
    pose proof (lookup_lt_Some _ _ _ Es) as Hj.
    apply steady_file; [done|done|done|exact Hk'| | |exact Hslot|apply call_stack].
    + intros _. unfold valid_file. rewrite Ho. cbn [k_rtc set_rtc]. rewrite Eg.
      apply list_elem_of_lookup_2 with j. by apply list_lookup_insert_eq.
    + intros fp Hne Hin. rewrite Eg. apply list_elem_of_lookup in Hin as [j' Hin]. apply list_elem_of_lookup_2 with j'.
      rewrite list_lookup_insert_ne; [done|]. intros <-. congruence.
  - destruct (syscall_open_file e k c esp Hk Hc Hesp env_dentry fname l i p fd Hl En Ep Efree D) as [E2 Hk'].
    rewrite E in E2. injection E2 as _ ->. unfold caller in *. rewrite Em in Hk' |- *.
    apply (steady_file k (k_rtc k) (k_mem k)); [done|done|done|exact Hk'| |done|exact Hslot|apply call_stack].
    intros _. apply (valid_file_kept k); [done|done|done|done|]. unfold valid_file, opened. cbn [file_ops f_inode f_pos].
    destruct (filetype _ =? FILE_TYPE_REG).
    + split; [exact Hino|]. split; [lia|]. apply ld32_range, (ko_fs _ Hk).
    + pose proof (num_dentries_small _ _ (ko_fs _ Hk)). lia.
Qed.
End Calls.

(** ** Signals *)

Lemma in_call_steady e k k' c esp : in_call e k c esp -> steady k k' -> in_call e k' c esp.
Proof.
  intros [H1 H2 H3 H4 H5 H6] S. split; try done; [apply S| |by rewrite (st_tss _ _ S)]. unfold pid_in_use. by rewrite (st_used _ _ S).
Qed.

(** A halt that does not leave the process changes its context only. *)
Lemma halt_restarts e esp status ctx k ctx' k' : _syscall_halt e esp status ctx k = Some (Restarted ctx', k') ->
  k' = k /\ ctx' = with_target (ld32 (k_mem k) (TASK_IMG_START_ADDR + ELF_ENTRY_OFFSET)) TASK_VIRT_PAGE_END ctx.
Proof.
  unfold _syscall_halt. intros E. apply bind_Some in E as (p & _ & E). case_decide; [by injection E as <- <-|].
  apply bind_Some in E as (k1 & _ & E). apply bind_Some in E as (pp & _ & E). apply bind_Some in E as (pg & _ & E).
  apply bind_Some in E as (k2 & _ & E). apply bind_Some in E as (u & _ & E). by apply bind_Some in E as (k3 & _ & E).
Qed.

Lemma user_context_restart k ctx : mem_ok (k_mem k) -> user_context ctx ->
  user_context (with_target (ld32 (k_mem k) (TASK_IMG_START_ADDR + ELF_ENTRY_OFFSET)) TASK_VIRT_PAGE_END ctx).
Proof.
  intros Hm [U1 U2 U3 U4]. split; try done.
  unfold ctx_words in U3 |- *. cbn. apply Forall_app in U3 as [R3 U3]. apply Forall_app. split; [exact R3|].
  repeat match goal with H : Forall _ (_ :: _) |- _ => apply Forall_cons_1 in H as [? H] end.
  repeat (apply Forall_cons_2; [first [done|by apply ld32_range|unfold TASK_VIRT_PAGE_END; lia]|]). apply Forall_nil_2.
Qed.

(** How the check for signals before a return to user mode ends. *)
Definition checked (e : env) (esp : Z) (k : kernel) (r : signal_result * kernel) : Prop :=
  match r with
  | (Back _, k') => steady k k'
  | (Gone a b s, k') => exists k1 ctx, steady k k1 /\ _syscall_halt e esp 256 ctx k1 = Some (Resumed a b s, k')
  end.

Lemma checked_after e esp k k1 r : steady k k1 -> checked e esp k1 r -> checked e esp k r.
Proof.
  intros S. destruct r as [[ctx|a b s] k']; cbn; [by eapply steady_trans|].
  intros (k2 & ctx & S2 & E). exists k2, ctx. split; [by eapply steady_trans|done].
Qed.

Lemma signals_loop linkage e c esp l : 0 <= linkage < 4294967296 -> Forall (fun i => 0 <= i < SIG_SIZE) l ->
  forall k ctx, in_call e k c esp -> user_context ctx ->
  match fold_break (signal_step linkage e esp) l (k, ctx) with
  | inl (k', _) => steady k k'
  | inr (Some r) => checked e esp k r
  | inr None => True
  end.
Proof.
  intros Hlink. induction l as [|i l IH]; intros Hl k ctx C U; [by apply steady_refl, C|]. apply Forall_cons_1 in Hl as [Hi Hl].
  destruct (call_pcb e k c esp C) as (p & Ep & Hp & _). pose proof C as [Hs _ Hc _ Hesp _].
  assert (Hgo : forall k1 ctx1, steady k k1 -> user_context ctx1 ->
    match fold_break (signal_step linkage e esp) l (k1, ctx1) with
    | inl (k', _) => steady k k' | inr (Some r) => checked e esp k r | inr None => True end).
  { intros k1 ctx1 S1 U1. specialize (IH Hl k1 ctx1 (in_call_steady _ _ _ _ _ C S1) U1).
    destruct (fold_break _ _ _) as [[k' ?]|[r|]]; [by eapply steady_trans|by eapply checked_after|done]. }
  cbn [fold_break]. destruct (decide (Z.testbit (signals p) i = true)) as [P|P].
  2: { rewrite (step_not_pending linkage e k c esp p ctx ltac:(lia) Hesp Ep i Hi P). apply Hgo; [by apply steady_refl|done]. }
  destruct (arr_get_Some (signal_handlers p) i) as (h & Eh & _); [rewrite (pk_handlers _ Hp); unfold SIG_SIZE in *; lia|].
  rewrite (step_pending linkage e k c esp p ctx ltac:(lia) Hesp Ep i h Hi P Eh).
  assert (S1 : steady k (taken_kernel k c p i)) by (by apply (pcb_steady e k c esp C p (taken i p) Ep)).
  destruct (decide (h <> 0)).
  - cbn. eapply steady_trans; [exact S1|]. apply steady_user_mem; [apply S1| |].
    + apply (frame_ok linkage i h ctx); [done..|]. apply (wf_mem _ _ (ko_fs _ (so_kernel _ Hs))).
    + intros a Ha. apply (frame_other linkage i h ctx); [done..|]. intros Hin. apply Ha. pose proof (uc_stack _ U). unfold user_address. lia.
  - destruct (decide (i < 3)); [|by apply Hgo].
    destruct (_syscall_halt e esp 256 ctx (taken_kernel k c p i)) as [[[ctx'|a b s] k']|] eqn:E; [| |done].
    + destruct (halt_restarts _ _ _ _ _ _ _ E) as [-> ->]. apply Hgo; [done|]. apply user_context_restart; [|done].
      apply (wf_mem _ _ (ko_fs _ (so_kernel _ (st_ok _ _ S1)))).
    + exists (taken_kernel k c p i), ctx. split; [exact S1|exact E].
Qed.

Lemma check_signals_checked linkage e c esp ctx k r : 0 <= linkage < 4294967296 -> in_call e k c esp -> user_context ctx ->
  check_signals linkage e esp ctx k = Some r -> checked e esp k r.
Proof.
  intros Hlink C U E. unfold check_signals in E. apply bind_Some in E as (p & _ & E).
  assert (R : checked e esp k (Back ctx, k)) by apply steady_refl, C.
  case_decide; [by injection E as <-|]. case_decide; [by injection E as <-|].
  pose proof (signals_loop linkage e c esp (seqZ 0 SIG_SIZE) Hlink) as L. unfold for_break in E. change (SIG_SIZE - 0) with SIG_SIZE in E.
  specialize (L ltac:(apply list.Forall_forall; intros i Hi; by apply elem_of_seqZ in Hi) k ctx C U).
  destruct (fold_break _ _ _) as [[k' ctx']|[r'|]]; [injection E as <-; exact L|injection E as <-; exact L|done].
Qed.
