(* ===== verification/HeapCall.v ===== *)
(** * The heap's system calls on the kernel: student-distrib/syscall.c

    [Malloc] has the two calls on a list of descriptors and their number.  The
    descriptors are halfwords of the page of the process and the number is in its
    PCB; here the calls read and write them there. *)
From stdpp Require Import base tactics list numbers gmap option.
From Stdlib Require Import ZArith Lia.
From S2P Require Import Prelude CLib Task FileSys Term TermSys Rtc Page Malloc Syscall Fd Exec Process Steady.

Open Scope Z_scope.

(** [malloc_objs[i] = o]: the used bit lowest, then the size. *)
Definition store_obj (m : mem) (i : Z) (o : malloc_obj_t) : mem :=
  st16 m (MALLOC_HEAP_MAP_START + 2 * i) (obj_used o + 2 * obj_size o).

Definition write_heap (objs : list malloc_obj_t) (m : mem) : mem :=
  for_up 0 MALLOC_OBJ_NUM (fun i m => match arr_get objs i with Some o => store_obj m i o | None => m end) m.

(** A call of [syscall_malloc] or [syscall_free] by the process whose stack this
    is. *)
Definition heap_call (f : heap -> option (Z * heap)) (esp : Z) (k : kernel) : option (Z * kernel) :=
  p ← k_pcbs k !! get_cur_pcb esp;
  '(r, (objs, count)) ← f (read_heap (k_mem k), malloc_obj_count p);
  Some (r, set_kpcbs (<[get_cur_pcb esp := with_malloc_obj_count count p]> (k_pcbs k)) (set_kmem (write_heap objs (k_mem k)) k)).

(** ** The calls read back what they wrote *)

(** A descriptor fits its halfword. *)
Definition obj_ok (o : malloc_obj_t) : Prop := 0 <= obj_used o < 2 /\ 0 <= obj_size o < 32768.

Lemma map_range i : 0 <= i < MALLOC_OBJ_NUM ->
  TASK_VIRT_PAGE_BEG <= MALLOC_HEAP_MAP_START + 2 * i /\ MALLOC_HEAP_MAP_START + 2 * i + 2 <= TASK_VIRT_PAGE_END.
Proof.
  intros Hi. assert (H : TASK_VIRT_PAGE_BEG <= MALLOC_HEAP_MAP_START /\ MALLOC_HEAP_MAP_START + 4096 <= TASK_VIRT_PAGE_END) by (by vm_compute).
  unfold MALLOC_OBJ_NUM in Hi. lia.
Qed.

Lemma st16_other m a v x : 0 <= a -> a + 2 <= 4294967296 -> ~ (a <= x < a + 2) -> ld8 (st16 m a v) x = ld8 m x.
Proof. intros Ha Hb Hx. unfold st16. rewrite (u32_small (a + 1)) by lia. by rewrite !ld8_st8_ne by lia. Qed.

Lemma read_store m i o : 0 <= i < MALLOC_OBJ_NUM -> obj_ok o -> read_obj (store_obj m i o) i = o.
Proof.
  intros Hi [Hu Hs]. pose proof (map_range i Hi) as Hr. unfold TASK_VIRT_PAGE_END in Hr. unfold read_obj, store_obj. cbv zeta.
  rewrite ld16_st16, !bits_u16 by (unfold TASK_VIRT_PAGE_BEG in Hr; lia). destruct o as [u z]. cbn [obj_used obj_size] in *.
  f_equal.
  - unfold bits. rewrite Z.shiftl_0_r, Z.shiftr_0_r, Z.land_ones by lia. change (2 ^ 1) with 2. zlia.
  - unfold bits. rewrite Z.shiftr_land, Z.shiftr_shiftl_l, Z.sub_diag, Z.shiftl_0_r, Z.land_ones, Z.shiftr_div_pow2 by lia.
    change (2 ^ 1) with 2. change (2 ^ 15) with 32768. zlia.
Qed.

Lemma read_store_ne m i j o : 0 <= i < MALLOC_OBJ_NUM -> 0 <= j < MALLOC_OBJ_NUM -> i <> j -> read_obj (store_obj m i o) j = read_obj m j.
Proof.
  intros Hi Hj Hne. pose proof (map_range i Hi) as Hr. pose proof (map_range j Hj) as Hq. unfold TASK_VIRT_PAGE_BEG, TASK_VIRT_PAGE_END in *.
  unfold read_obj, store_obj, ld16. rewrite (u32_small (MALLOC_HEAP_MAP_START + 2 * j + 1)) by lia. by rewrite !st16_other by lia.
Qed.

Lemma read_write_heap objs m : length objs = Z.to_nat MALLOC_OBJ_NUM -> Forall obj_ok objs -> read_heap (write_heap objs m) = objs.
Proof.
  intros Hl Hok. assert (H : forall j, 0 <= j < MALLOC_OBJ_NUM -> arr_get objs j = Some (read_obj (write_heap objs m) j)).
  { unfold write_heap. apply (for_up_ind (fun i x => forall j, 0 <= j < i -> arr_get objs j = Some (read_obj x j)) 0 MALLOC_OBJ_NUM); [done|lia|].
    intros i x Hi IH j Hj. destruct (arr_get_Some objs i) as (o & Eo & Lo); [lia|]. rewrite Eo. destruct (decide (j = i)) as [->|D].
    - rewrite read_store; [done|done|]. rewrite list.Forall_lookup in Hok. by apply (Hok (Z.to_nat i)).
    - rewrite read_store_ne by lia. apply IH. lia. }
  apply list_eq. intros j. unfold read_heap. destruct (decide (j < Z.to_nat MALLOC_OBJ_NUM)%nat) as [D|D].
  - specialize (H (Z.of_nat j) ltac:(lia)). rewrite arr_get_lookup, Nat2Z.id in H by lia. rewrite H.
    change (map ?f ?l) with (f <$> l). rewrite list_lookup_fmap, lookup_seqZ_lt by lia. cbn. by rewrite Z.add_0_l.
  - rewrite !lookup_ge_None_2; [done|lia|]. rewrite length_map, length_seqZ. unfold MALLOC_OBJ_NUM in *. lia.
Qed.

(** ** What the calls leave of the system *)

Lemma write_heap_kept objs m : mem_ok m -> mem_ok (write_heap objs m) /\ forall a, ~ user_address a -> ld8 (write_heap objs m) a = ld8 m a.
Proof.
  intros Hm. unfold write_heap. apply (for_up_inv (fun x => mem_ok x /\ forall a, ~ user_address a -> ld8 x a = ld8 m a)); [by split|].
  intros i x Hi [Hx Hs]. destruct (arr_get objs i) as [o|]; [|done]. split.
  - unfold store_obj, st16. auto with kern.
  - intros a Ha. pose proof (map_range i Hi) as Hr. unfold store_obj. rewrite st16_other; [by apply Hs|..];
      unfold user_address, TASK_VIRT_PAGE_BEG, TASK_VIRT_PAGE_END in *; lia.
Qed.

Lemma heap_steady f e k c esp r k' : in_call e k c esp -> heap_call f esp k = Some (r, k') -> steady k k'.
Proof.
  intros C E. pose proof C as [Hs _ Hc _ Hesp _]. unfold heap_call in E. rewrite (get_cur_pcb_stack c) in E by (done || lia).
  apply bind_Some in E as (p & Ep & E). apply bind_Some in E as ([r2 [objs count]] & _ & E). apply (inj Some) in E. injection E as _ <-.
  destruct (write_heap_kept objs (k_mem k) (wf_mem _ _ (ko_fs _ (so_kernel _ Hs)))) as [Hm Hkept].
  pose proof (steady_user_mem k _ Hs Hm Hkept) as S. eapply steady_trans; [exact S|].
  by apply (pcb_steady e _ c esp (in_call_steady _ _ _ _ _ C S) p).
Qed.
