(* ===== verification/Block.v ===== *)
(** * Reads that block

    [syscall_read] on the terminal or on the clock enables interrupts and halts
    the processor until there is something to return.  Here the call is cut in
    two where it waits, so that the rest of the system can go on in between:
    [read_begin] is the way into the wait and [read_end] the way out of it, and
    [syscall_read_split] shows that the call is the one, the wait, and the other. *)
From stdpp Require Import base tactics list numbers gmap option.
From Stdlib Require Import ZArith Lia.
From S2P Require Import Prelude CLib Task FileSys Term TermScreen TermSys Rtc Page Malloc Syscall Fd Exec Process Steady.

Open Scope Z_scope.

(** What a blocked read waits for, with the locals it comes back to: a line or a
    character of terminal [ind], or a tick of the clock of a descriptor. *)
Inductive wait := On_line (canon ind buf nbytes : Z) | On_clock (fp : fptr).

(** [syscall_read] up to the wait; [None] if the read does not block. *)
Definition read_begin (esp fd buf nbytes : Z) (k : kernel) : option (wait * kernel) :=
  if decide (buf = 0) then None
  else if decide (fd < 0 \/ TASK_MAX_FILES <= fd) then None
  else
    let task_pcb := get_cur_pcb esp in
    file ← get_file (k_pcbs k) (task_pcb, fd);
    if decide (f_used file = 0) then None
    else
      match file_ops file with
      | stdin_file_ops_table =>
          p ← k_pcbs k !! task_pcb;
          '(canon, s) ← term_read_begin (term_ind p) (k_ts k);
          Some (On_line canon (term_ind p) buf nbytes, set_ts s k)
      | rtc_file_ops_table => Some (On_clock (task_pcb, fd), k)
      | _ => None
      end.

(** The condition of the loop around [hlt]. *)
Definition read_ready (w : wait) (k : kernel) : option bool :=
  match w with
  | On_line canon ind _ _ => term_ready canon ind (k_ts k)
  | On_clock fp => rtc_ready fp (k_pcbs k)
  end.

(** The rest of the call. *)
Definition read_end (w : wait) (k : kernel) : option (Z * kernel) :=
  match w with
  | On_line canon ind buf nbytes => '(n, s) ← term_read_end canon ind buf nbytes (k_ts k); Some (n, set_ts s k)
  | On_clock fp => on_rtc (rtc_read_end fp) k
  end.

(** The wait, if nothing but the interrupts of the environment happens. *)
Definition wait_alone (e : env) (w : wait) (k : kernel) : option kernel :=
  match w with
  | On_line canon ind _ _ => '(s, _) ← wait_until (term_ready canon ind) (e_tirqs e) (k_ts k); Some (set_ts s k)
  | On_clock fp => '((g, st), _) ← rtc_wait fp (e_rirqs e) (k_rtc k, k_pcbs k); Some (set_rtc g (set_kpcbs st k))
  end.

Lemma syscall_read_split e esp fd buf n k w k1 : read_begin esp fd buf n k = Some (w, k1) ->
  syscall_read e esp fd buf n k = k2 ← wait_alone e w k1; read_end w k2.
Proof.
  unfold read_begin, syscall_read. case_decide as Hb; [done|]. case_decide; [done|]. cbv zeta.
  destruct (get_file (k_pcbs k) (get_cur_pcb esp, fd)) as [f|] eqn:Ef; [|done]. rewrite !bind_ret. case_decide; [done|].
  unfold file_read. rewrite Ef, bind_ret. destruct (file_ops f); try done.
  - intros [= <- <-]. unfold wait_alone, read_end, on_rtc. rewrite rtc_read_split.
    destruct (rtc_wait _ (e_rirqs e) _) as [[[g st] rest]|]; [|done]. rewrite !bind_ret.
    change (k_rtc (set_rtc g (set_kpcbs st k))) with g. change (k_pcbs (set_rtc g (set_kpcbs st k))) with st.
    by destruct (rtc_read_end _ (g, st)) as [[r [g2 st2]]|].
  - intros E. apply bind_Some in E as (p & Ep & E). apply bind_Some in E as ([canon s1] & E1 & E). apply (inj Some) in E. injection E as <- <-.
    rewrite Ep, bind_ret, term_read_split, E1, bind_ret by done. unfold wait_alone, read_end. change (k_ts (set_ts s1 k)) with s1.
    destruct (wait_until _ (e_tirqs e) s1) as [[s2 rest]|]; [|done]. rewrite !bind_ret. change (k_ts (set_ts s2 _)) with s2.
    by destruct (term_read_end _ _ _ _ s2) as [[r s3]|].
Qed.

(** What a process that waits relies on. *)
Definition blocked_ok (k : kernel) (c : Z) (w : wait) : Prop :=
  match w with
  | On_line _ ind buf nbytes => 0 <= ind < TERM_NUM /\ user_buffer buf nbytes
  | On_clock fp => fp.1 = TASK_KSTACK_TOP c /\ Some fp ∈ rtc_files (k_rtc k)
  end.

Lemma begin_steady e k c esp fd buf n w k' : in_call e k c esp -> user_buffer buf n -> read_begin esp fd buf n k = Some (w, k') ->
  steady k k' /\ blocked_ok k' c w.
Proof.
  intros C Hb E. pose proof C as [Hs He Hc Hu Hesp _]. pose proof (so_kernel _ Hs) as Hk.
  destruct (call_pcb e k c esp C) as (p & Ep & Hp & V). unfold read_begin in E.
  case_decide; [done|]. case_decide as Hfd; [done|]. cbv zeta in E. rewrite (get_cur_pcb_stack c) in E by (done || lia).
  unfold get_file in E. cbn [fst snd] in E. rewrite Ep, bind_ret in E.
  apply bind_Some in E as (f & Ef & E). case_decide as Hused; [done|]. destruct (file_ops f) eqn:Ho; try done.
  - apply (inj Some) in E. injection E as <- <-. split; [by apply steady_refl|]. split; [done|].
    pose proof (vt_files _ _ _ V fd f Ef Hused) as Hv. unfold valid_file in Hv. by rewrite Ho in Hv.
  - apply bind_Some in E as ([canon s1] & E1 & E). apply (inj Some) in E. injection E as <- <-.
    destruct (read_begin_mild _ _ _ _ (ko_terms _ Hk) (pk_term _ Hp) E1) as [W M].
    split; [by apply mild_steady|]. split; [apply (pk_term _ Hp)|exact Hb].
Qed.

Lemma end_steady k c w r k' : system_ok k -> blocked_ok k c w -> read_ready w k = Some true -> read_end w k = Some (r, k') -> steady k k'.
Proof.
  intros Hs Hw D E. pose proof (so_kernel _ Hs) as Hk. destruct w as [canon ind buf n|fp]; cbn [blocked_ok read_ready read_end] in *.
  - destruct Hw as [Hi Hb]. apply bind_Some in E as ([r2 s] & E2 & E). apply (inj Some) in E. injection E as _ <-.
    pose proof Hb as ((B1 & B2) & B3 & B4). unfold TASK_VIRT_PAGE_BEG, TASK_VIRT_PAGE_END in B1, B2, B4.
    destruct (read_end_leaves canon ind buf n (k_ts k) r2 s (ko_terms _ Hk) Hi) as (W & F & M & S); [lia|lia|done|exact D|exact E2|].
    apply terms_steady; try done. intros a Ha. apply M; [apply Ha|]. by apply user_kept.
  - destruct Hw as [_ Hfp]. unfold on_rtc in E. apply bind_Some in E as ([r2 [g st]] & E2 & E). apply (inj Some) in E. injection E as _ <-.
    destruct (rtc_end_driven fp (k_rtc k) (k_pcbs k) r2 g st (ko_rtc _ Hk) Hfp D E2) as (-> & Dr & I). by apply clock_steady.
Qed.

(** A process that waits is not disturbed by steps of others. *)
Lemma blocked_kept k k' c w : blocked_ok k c w ->
  (forall fp, Some fp ∈ rtc_files (k_rtc k) -> fp.1 = TASK_KSTACK_TOP c -> Some fp ∈ rtc_files (k_rtc k')) -> blocked_ok k' c w.
Proof. intros Hw H. destruct w as [|fp]; [exact Hw|]. destruct Hw as [H1 H2]. split; [done|by apply H]. Qed.
