(* ===== verification/System.v ===== *)
(** * The system: processes in front of three terminals

    The abstract machine is a stack of process numbers for each terminal, the
    terminal whose turn it is and the process that runs: a program started goes on
    top, a program that ends uncovers the one that started it, a tick moves on to
    the next terminal.  A tick that starts a shell is left behind on the stack of
    the process it interrupted, and goes on when that process gets the processor
    again, with a number for the next process it never set.  The detailed machine
    (the kernel, the keyboard's state, the scheduler) makes its steps with the
    functions of the source, and is shown to implement it; a read that blocks is
    two steps, with anything in between. *)
From stdpp Require Import base tactics list numbers gmap option relations.
From Stdlib Require Import ZArith Lia.
From S2P Require Import Prelude CLib Task FileSys Term TermScreen TermSys TermPrint Rtc Kb I8259 Page Malloc Syscall Fd Exec Process Signals Sched Idt Boot Steady HeapCall Block.

Open Scope Z_scope.

(** ** The abstract machine *)

Record schedule := mkSchedule {
  stacks : list (list Z);        (* a stack of processes per terminal, top first *)
  turn : Z;                      (* the terminal the last tick turned to *)
  running : Z;                   (* the process that runs; 0 is the start of the kernel *)
  astray : gmap Z Z              (* processes inside a tick left behind: where it leads *)
}.

Definition stack_of (A : schedule) (i : Z) : list Z := default [] (arr_get (stacks A) i).
Definition top (l : list Z) : Z := default 0 (head l).

Definition live (A : schedule) (pid : Z) : Prop := exists i, 0 <= i < TERM_NUM /\ pid ∈ stack_of A i.

Definition set_stack (i : Z) (l : list Z) (A : schedule) : schedule :=
  mkSchedule (<[Z.to_nat i := l]> (stacks A)) (turn A) (running A) (astray A).
Definition push (i pid : Z) (A : schedule) : schedule := set_stack i (pid :: stack_of A i) A.
Definition set_running (pid : Z) (A : schedule) : schedule := mkSchedule (stacks A) (turn A) pid (astray A).

(** The lowest number not in use. *)
Definition fresh (A : schedule) (pid : Z) : Prop :=
  1 <= pid < MAX_PROC_NUM /\ ~ live A pid /\ forall d, 1 <= d < pid -> live A d.

(** Process [c] gets the processor: if it is inside a tick left behind, that tick
    goes on, to [c] itself or to another process. *)
Fixpoint lands (fuel : nat) (f : gmap Z Z) (c : Z) : Z * gmap Z Z :=
  match f !! c with
  | None => (c, f)
  | Some v =>
      if decide (v = c) then (c, delete c f)
      else match fuel with O => (c, f) | S fuel => lands fuel (delete c f) v end
  end.

(** What a step is about: the running process or a device, a program started,
    a process ended, signals before the return to user mode, or the timer. *)
Inductive event := Run | Execute | Halt | Signals | Tick.

Inductive sched_step : event -> schedule -> schedule -> Prop :=
  | Stays A : sched_step Run A A
  | Refused A : sched_step Execute A A
  | Starts A i pid l : 0 <= i < TERM_NUM -> stack_of A i = running A :: l -> fresh A pid ->
      sched_step Execute A (set_running pid (push i pid A))
  | Again A i : 0 <= i < TERM_NUM -> stack_of A i = [running A] -> sched_step Halt A A
  | Handled A : sched_step Signals A A
  | Ends v A i pp l : v = Halt \/ v = Signals -> 0 <= i < TERM_NUM -> stack_of A i = running A :: pp :: l ->
      sched_step v A (set_running pp (set_stack i (pp :: l) A))
  | Moves A d f : stack_of A (next_term (turn A)) <> [] ->
      lands (size (astray A)) (astray A) (top (stack_of A (next_term (turn A)))) = (d, f) ->
      sched_step Tick A (mkSchedule (stacks A) (next_term (turn A)) d f)
  | Shell A pid v : stack_of A (next_term (turn A)) = [] -> fresh A pid ->
      sched_step Tick A (mkSchedule (stacks (push (next_term (turn A)) pid A)) (next_term (turn A)) pid (<[running A := v]> (astray A))).

(** ** The detailed machine *)

(** The kernel and its scheduler, the keyboard, the processes inside a read that
    blocks, and the ticks left behind. *)
Record os := mkOs { o_sched : sched; o_kb : kb_t; o_blocked : gmap Z wait; o_left : left_behind }.

Definition o_kernel (s : os) : kernel := s_kernel (o_sched s).
Definition with_kernel (k : kernel) (s : os) : os :=
  mkOs (mkSched k (cur_proc_ind (o_sched s)) (s_pic (o_sched s))) (o_kb s) (o_blocked s) (o_left s).

(** The processor enters the kernel on the stack of process [c]. *)
Definition current (k : kernel) (c : Z) : Prop := 0 <= c < MAX_PROC_NUM /\ esp0 (tss k) = TASK_KSTACK_BOT c.
Definition on_stack (c esp : Z) : Prop := TASK_KSTACK_TOP c <= esp < TASK_KSTACK_BOT c.

(** The system calls that neither start nor end a process. *)
Inductive call :=
  | Read (fd buf nbytes : Z) | Write (fd buf nbytes : Z) | Open (fname : Z) | Close (fd : Z)
  | Getargs (buf nbytes : Z) | Vidmap (screen_start : Z) | Set_handler (signum handler : Z)
  | Malloc (size : Z) | Free (ptr : Z).

Definition run_call (e : env) (esp : Z) (x : call) (k : kernel) : option (Z * kernel) :=
  match x with
  | Read fd buf n => syscall_read e esp fd buf n k
  | Write fd buf n => syscall_write e esp fd buf n k
  | Open fname => syscall_open e esp fname k
  | Close fd => syscall_close e esp fd k
  | Getargs buf n => syscall_getargs esp buf n k
  | Vidmap start => syscall_vidmap start k
  | Set_handler signum handler => syscall_set_handler esp signum handler k
  | Malloc size => heap_call (syscall_malloc size) esp k
  | Free ptr => heap_call (syscall_free ptr) esp k
  end.

(** The pointers a program passes lie in its page, a name is a string, and a
    buffer to read into holds the name of a directory entry. *)
Definition call_ok (k : kernel) (x : call) : Prop :=
  match x with
  | Read _ buf n => user_buffer buf n /\ user_buffer buf 32
  | Write _ _ n => 0 <= n < 2147483648
  | Open fname => exists l, cstr (k_mem k) fname l
  | Close _ => True
  | Getargs buf n => user_buffer buf n
  | Vidmap start => 0 <= start /\ start + 4 <= TASK_VIRT_PAGE_END
  | Set_handler _ _ | Malloc _ | Free _ => True
  end.

(** A command, and where the local buffer of execute lies. *)
Record command_ok (k : kernel) (c kbuf command : Z) (l : list Z) : Prop := {
  co_kbuf : TASK_KSTACK_TOP c <= kbuf /\ kbuf + BUF_SIZE <= TASK_KSTACK_BOT c;
  co_string : cstr (k_mem k) command l;
  co_length : Z.of_nat (length l) < 4294967295
}.

(** The number a tick left behind leads to when it goes on was never set.  The
    model follows it as long as it is 0 (what a fresh stack holds) or that of a
    process in front of a terminal; any other sends the processor to a stack
    nobody waits on. *)
Definition in_front (k : kernel) (pid : Z) : Prop := pid = 0 \/ exists i, 0 <= i < TERM_NUM /\ front k i = Some pid.

Fixpoint leads_ok (fuel : nat) (k : kernel) (left : left_behind) (d : Z) : Prop :=
  match left !! d with
  | None => True
  | Some t =>
      in_front k (t_next_pid t) /\
      (t_next_pid t <> d -> match fuel with O => True | S fuel => leads_ok fuel k (delete d left) (t_next_pid t) end)
  end.

(** The stack pointer of a tick; if it starts a shell, those of the call of
    execute, the string "shell" it passes, and a number left for the process; if
    not, where the ticks left behind lead from the next process. *)
Record tick_ok (k : kernel) (left : left_behind) (c ind : Z) (t : tick) : Prop := {
  to_esp : on_stack c (t_esp t);
  to_shell : front k (next_term ind) = Some 0 ->
    on_stack c (t_xesp t) /\ command_ok k c (t_kbuf t) (t_shell t) shell_word /\ lowest_pid (pid_used k) <> None;
  to_leads : forall d, front k (next_term ind) = Some d -> d <> 0 -> leads_ok (size left) k left d
}.

(** Process [c] runs and is in the kernel, with this stack pointer. *)
Record in_kernel (s : os) (c esp : Z) (e : env) : Prop := {
  ik_current : current (o_kernel s) c;
  ik_pid : 1 <= c;
  ik_free : o_blocked s !! c = None;
  ik_stack : on_stack c esp;
  ik_env : call_env c e
}.

(** One step: the program of the running process writes its page and its mapping
    of video memory, or makes a system call; it blocks in a read, or the read it
    is blocked in goes on; an interrupt is served, or an exception of the program;
    signals are looked at before the return to user mode.  A tick is [pit_isr] and
    whatever ticks left behind go on before a process does. *)
Inductive os_step (linkage : Z) (s : os) : event -> os -> Prop :=
  | Step_user c m : current (o_kernel s) c -> 1 <= c -> o_blocked s !! c = None -> mem_ok m ->
      (forall a, ~ user_address a -> ~ (VIDEO <= a < 0xBC000) -> ld8 m a = ld8 (k_mem (o_kernel s)) a) ->
      os_step linkage s Run (with_kernel (set_kmem m (o_kernel s)) s)
  | Step_call c e esp x r k : in_kernel s c esp e -> call_ok (o_kernel s) x ->
      run_call e esp x (o_kernel s) = Some (r, k) -> os_step linkage s Run (with_kernel k s)
  | Step_block c e esp fd buf n w k : in_kernel s c esp e -> user_buffer buf n ->
      read_begin esp fd buf n (o_kernel s) = Some (w, k) ->
      os_step linkage s Run (mkOs (o_sched (with_kernel k s)) (o_kb s) (<[c := w]> (o_blocked s)) (o_left s))
  | Step_wake c w r k : current (o_kernel s) c -> o_blocked s !! c = Some w -> read_ready w (o_kernel s) = Some true ->
      read_end w (o_kernel s) = Some (r, k) ->
      os_step linkage s Run (mkOs (o_sched (with_kernel k s)) (o_kb s) (delete c (o_blocked s)) (o_left s))
  | Step_key status b junk kb ts : 0 <= b < 256 ->
      kb_isr term_key_handler status b junk (o_kb s, k_ts (o_kernel s)) = Some (kb, ts) ->
      os_step linkage s Run (mkOs (o_sched (with_kernel (set_ts ts (o_kernel s)) s)) kb (o_blocked s) (o_left s))
  | Step_clock c g st : current (o_kernel s) c -> rtc_isr (TASK_KSTACK_TOP c) (k_rtc (o_kernel s), k_pcbs (o_kernel s)) = Some (g, st) ->
      os_step linkage s Run (with_kernel (set_rtc g (set_kpcbs st (o_kernel s))) s)
  | Step_fault c e esp junk cr2 irq err k : in_kernel s c esp e -> length (junk64 junk) = 64%nat -> length (junk36 junk) = 36%nat ->
      args_ok [irq; err; cr2] -> exception_handler junk cr2 esp irq err (o_kernel s) = Some k -> os_step linkage s Run (with_kernel k s)
  | Step_signals c e esp ctx r k : in_kernel s c esp e -> user_context ctx ->
      check_signals linkage e esp ctx (o_kernel s) = Some (r, k) -> os_step linkage s Signals (with_kernel k s)
  | Step_execute c e esp ebp kbuf command l r k : in_kernel s c esp e -> command_ok (o_kernel s) c kbuf command l ->
      syscall_execute e esp ebp kbuf command (o_kernel s) = Some (r, k) -> os_step linkage s Execute (with_kernel k s)
  | Step_halt c e esp status ctx r k : in_kernel s c esp e ->
      syscall_halt e esp status ctx (o_kernel s) = Some (r, k) -> os_step linkage s Halt (with_kernel k s)
  | Step_tick c e t r sc left k : current (o_kernel s) c -> env_ok e -> tick_ok (o_kernel s) (o_left s) c (cur_proc_ind (o_sched s)) t ->
      pit_isr e t (o_sched s) = Some (r, sc) -> after_tick t (o_left s) r (s_kernel sc) = Some (left, k) ->
      os_step linkage s Tick (mkOs (mkSched k (cur_proc_ind sc) (s_pic sc)) (o_kb s) (o_blocked s) left).

(** ** The abstraction *)

(** The processes of a terminal, each started by the one under it. *)
Fixpoint chain (st : pcb_store) (i : Z) (l : list Z) : Prop :=
  match l with
  | [] => True
  | c :: l' => (exists p, st !! TASK_KSTACK_TOP c = Some p /\ term_ind p = i /\
                  parent p = match l' with [] => 0 | pp :: _ => TASK_KSTACK_TOP pp end) /\ chain st i l'
  end.

Record represents (k : kernel) (A : schedule) : Prop := {
  rp_length : length (stacks A) = 3%nat;
  rp_turn : 0 <= turn A < TERM_NUM;
  rp_nodup : forall i, 0 <= i < TERM_NUM -> NoDup (stack_of A i);
  rp_apart : forall i j pid, 0 <= i < TERM_NUM -> 0 <= j < TERM_NUM -> pid ∈ stack_of A i -> pid ∈ stack_of A j -> i = j;
  rp_range : forall pid, live A pid -> 1 <= pid < MAX_PROC_NUM;
  rp_live : forall pid, 1 <= pid < MAX_PROC_NUM -> (pid_in_use k pid <-> live A pid);
  rp_front : forall i, 0 <= i < TERM_NUM -> front k i = Some (top (stack_of A i));
  rp_chain : forall i, 0 <= i < TERM_NUM -> chain (k_pcbs k) i (stack_of A i)
}.

(** A process that can get the processor: in front of a terminal, or the start of
    the kernel. *)
Definition on_top (A : schedule) (d : Z) : Prop := d = 0 \/ exists i l, 0 <= i < TERM_NUM /\ stack_of A i = d :: l.

(** The invariant of the machine, with the abstract state it stands for: the
    kernel's own invariant with valid descriptors, the processes as the stacks
    say, the running process's page mapped and its stack the one the processor
    enters, the stack pointers of the others on their own stacks, and the ticks
    left behind where the pointers saved for their processes lead. *)
Record os_ok (s : os) (A : schedule) : Prop := {
  ok_system : system_ok (o_kernel s);
  ok_stacks : represents (o_kernel s) A;
  ok_turn : cur_proc_ind (o_sched s) = turn A;
  ok_scan : scan_state (o_kb s) = 0 \/ scan_state (o_kb s) = 1;
  ok_top : on_top A (running A);
  ok_current : esp0 (tss (o_kernel s)) = TASK_KSTACK_BOT (running A);
  ok_mapped : running A <> 0 -> k_mapped (o_kernel s) = TASK_PAGE_INDEX (running A);
  ok_idle : running A = 0 -> forall d, live A d -> k_mapped (o_kernel s) <> TASK_PAGE_INDEX d;
  ok_zero : exists p, k_pcbs (o_kernel s) !! TASK_KSTACK_TOP 0 = Some p /\ pcb_pid p = 0;
  ok_saved : forall d p, d = 0 \/ live A d -> d <> running A -> k_pcbs (o_kernel s) !! TASK_KSTACK_TOP d = Some p -> on_stack d (pcb_esp p);
  ok_shell : exists ino data, has_shell (o_kernel s) ino data;
  ok_blocked : forall c w, o_blocked s !! c = Some w -> live A c /\ blocked_ok (o_kernel s) c w;
  ok_left : forall d t, o_left s !! d = Some t -> d <> running A /\ on_top A d /\ on_stack d (t_esp t) /\
    exists p, k_pcbs (o_kernel s) !! TASK_KSTACK_TOP d = Some p /\ pcb_esp p = t_xesp t /\ pcb_ebp p = t_xebp t;
  ok_astray : astray A = t_next_pid <$> o_left s
}.

(** ** Stacks *)

Lemma stack_of_set i l A j : length (stacks A) = 3%nat -> 0 <= i < TERM_NUM ->
  stack_of (set_stack i l A) j = if decide (j = i) then l else stack_of A j.
Proof.
  intros Hl Hi. unfold stack_of, set_stack. cbn [stacks]. rewrite arr_get_insert by (rewrite Hl; unfold TERM_NUM in Hi; lia).
  by case_decide.
Qed.

Lemma top_in l : top l <> 0 -> top l ∈ l.
Proof. destruct l as [|x l]; [done|]. intros _. by left. Qed.

Lemma top_zero A k i : represents k A -> 0 <= i < TERM_NUM -> (top (stack_of A i) = 0 <-> stack_of A i = []).
Proof.
  intros R Hi. split; [|by intros ->]. destruct (stack_of A i) as [|x l] eqn:E; [done|]. cbn. intros ->.
  assert (H : live A 0) by (exists i; split; [done|]; rewrite E; by left). apply (rp_range _ _ R) in H. lia.
Qed.

Lemma chain_kept st st' i l : chain st i l ->
  (forall d p, d ∈ l -> st !! TASK_KSTACK_TOP d = Some p ->
     exists p', st' !! TASK_KSTACK_TOP d = Some p' /\ term_ind p' = term_ind p /\ parent p' = parent p) -> chain st' i l.
Proof.
  induction l as [|d l IH]; [done|]. intros [(p & Ep & Et & Epar) Hc] H. split.
  - destruct (H d p) as (p' & Ep' & Et' & Epar'); [by left|done|]. exists p'. split; [done|]. split; congruence.
  - apply IH; [done|]. intros d' p' Hd. apply H. by right.
Qed.

Lemma chain_at st i l d : chain st i l -> d ∈ l -> exists p, st !! TASK_KSTACK_TOP d = Some p /\ term_ind p = i.
Proof.
  induction l as [|x l IH]; [by intros _ H%not_elem_of_nil|]. intros [(p & Ep & Et & _) Hc] [->|Hd]%elem_of_cons; [by exists p|by apply IH].
Qed.

Lemma on_top_live A d : on_top A d -> d <> 0 -> live A d.
Proof. intros [->|(i & l & Hi & E)] H; [done|]. exists i. split; [done|]. rewrite E. by left. Qed.

Lemma on_top_range k A d : represents k A -> on_top A d -> 0 <= d < MAX_PROC_NUM.
Proof.
  intros R H. destruct (decide (d = 0)) as [->|D]; [done|]. pose proof (rp_range _ _ R d (on_top_live A d H D)). lia.
Qed.

Lemma top_on_top A i : 0 <= i < TERM_NUM -> on_top A (top (stack_of A i)).
Proof. intros Hi. destruct (stack_of A i) as [|d l] eqn:E; [by left|]. right. by exists i, l. Qed.

Lemma in_front_on_top k A d : represents k A -> in_front k d -> on_top A d.
Proof.
  intros R [->|(i & Hi & E)]; [by left|]. rewrite (rp_front _ _ R i Hi) in E. injection E as <-. by apply top_on_top.
Qed.

Lemma on_top_in_front k A d : represents k A -> on_top A d -> in_front k d.
Proof.
  intros R [->|(i & l & Hi & E)]; [by left|]. right. exists i. split; [done|]. by rewrite (rp_front _ _ R i Hi), E.
Qed.

(** What is said of the stacks does not depend on who runs. *)
Lemma represents_same k A A' : represents k A -> stacks A' = stacks A -> 0 <= turn A' < TERM_NUM -> represents k A'.
Proof.
  destruct A as [l i r f], A' as [l' i' r' f']. cbn [stacks turn]. intros [R1 R2 R3 R4 R5 R6 R7 R8] -> Hi. by split.
Qed.

(** The first of a filtered range. *)
Lemma head_filter_seqZ (P : Z -> Prop) `{forall x, Decision (P x)} m : forall a x,
  head (filter P (seqZ a (Z.of_nat m))) = Some x -> forall d, a <= d < x -> ~ P d.
Proof.
  induction m as [|m IH]; intros a x E d Hd; [done|]. rewrite seqZ_cons, filter_cons in E by lia.
  replace (Z.pred (Z.of_nat (S m))) with (Z.of_nat m) in E by lia. case_decide as D; [injection E as ->; lia|].
  destruct (decide (d = a)) as [->|]; [done|]. apply (IH (Z.succ a) x E). lia.
Qed.

(** The number a new process gets. *)
Lemma lowest_fresh k A pid : kernel_ok k -> represents k A -> lowest_pid (pid_used k) = Some pid -> fresh A pid.
Proof.
  intros Hk R E. destruct (ko_used _ Hk) as [Hl Hu]. destruct (lowest_pid_in _ _ E) as [Hp Hf]. unfold pid_free in Hf. split; [done|]. split.
  - rewrite <- (rp_live _ _ R) by done. unfold pid_in_use. congruence.
  - intros d Hd. apply (rp_live _ _ R); [lia|]. unfold lowest_pid in E.
    pose proof (head_filter_seqZ (pid_free (pid_used k)) 9 1 pid E d Hd) as Hn. unfold pid_free in Hn. unfold pid_in_use.
    destruct (arr_get_Some (pid_used k) d) as (u & Eu & _); [unfold MAX_PROC_NUM in *; lia|].
    assert (Hu' : u = 0 \/ u = 1).
    { rewrite Forall_lookup in Hu. apply (Hu (Z.to_nat d)). by rewrite arr_get_lookup in Eu by lia. }
    destruct Hu' as [-> | ->]; [by destruct Hn|done].
Qed.

(** ** Steps that stay *)

Lemma represents_steady k k' A : represents k A -> steady k k' -> represents k' A.
Proof.
  intros [R1 R2 R3 R4 R5 R6 R7 R8] S. split; try done.
  - intros pid Hp. unfold pid_in_use. rewrite (st_used _ _ S). by apply R6.
  - intros i Hi. unfold front. rewrite (st_front _ _ S). by apply R7.
  - intros i Hi. apply (chain_kept (k_pcbs k)); [by apply R8|]. intros d p _ Ep.
    destruct (st_tasks _ _ S _ _ Ep) as (p' & Ep' & [S1 S2 S3 S4 S5 S6 S7 S8]). by exists p'.
Qed.

Lemma steady_pcb k k' a p' : steady k k' -> is_Some (k_pcbs k !! a) -> k_pcbs k' !! a = Some p' ->
  exists p, k_pcbs k !! a = Some p /\ same_task p p'.
Proof.
  intros S [p Ep] Ep'. destruct (st_tasks _ _ S _ _ Ep) as (p2 & E2 & Sk). exists p. split; [done|]. rewrite Ep' in E2. by injection E2 as ->.
Qed.

Lemma os_ok_steady s A k kb b : os_ok s A -> steady (o_kernel s) k -> scan_state kb = 0 \/ scan_state kb = 1 ->
  (forall c w, b !! c = Some w -> live A c /\ blocked_ok k c w) -> os_ok (mkOs (o_sched (with_kernel k s)) kb b (o_left s)) A.
Proof.
  intros [O1 O2 O3 O4 O5 O6 O7 O8 O9 O10 O11 _ O13 O14] S Hkb Hb. split; try done.
  - apply S.
  - by eapply represents_steady.
  - change (esp0 (tss k) = TASK_KSTACK_BOT (running A)). by rewrite (st_tss _ _ S).
  - change (running A <> 0 -> k_mapped k = TASK_PAGE_INDEX (running A)). by rewrite (st_mapped _ _ S).
  - change (running A = 0 -> forall d, live A d -> k_mapped k <> TASK_PAGE_INDEX d). by rewrite (st_mapped _ _ S).
  - destruct O9 as (p & Ep & H). destruct (st_tasks _ _ S _ _ Ep) as (p' & Ep' & Sk). exists p'. split; [exact Ep'|].
    by rewrite (sk_pid _ _ Sk).
  - intros d p Hd Hne Ep. change (k_pcbs k !! TASK_KSTACK_TOP d = Some p) in Ep.
    assert (Hr : 0 <= d < MAX_PROC_NUM) by (destruct Hd as [->|Hd]; [done|]; pose proof (rp_range _ _ O2 d Hd); lia).
    destruct (ko_pcb _ (so_kernel _ O1) d Hr) as (q & Eq & _).
    destruct (st_tasks _ _ S _ _ Eq) as (q' & Eq' & Sk). rewrite Ep in Eq'. injection Eq' as <-. rewrite (sk_esp _ _ Sk). by apply (O10 d q).
  - destruct O11 as (ino & data & Hd). exists ino, data. change (has_shell k ino data). apply (has_shell_kept (o_kernel s)); [|apply S| |done].
    + apply (ko_fs _ (so_kernel _ O1)).
    + apply steady_image; [apply O1|done].
  - intros d t Ed. destruct (O13 d t Ed) as (H1 & H2 & H3 & p & Ep & H4 & H5). do 3 (split; [done|]).
    destruct (st_tasks _ _ S _ _ Ep) as (p' & Ep' & Sk). exists p'. split; [exact Ep'|]. by rewrite (sk_esp _ _ Sk), (sk_ebp _ _ Sk).
Qed.

(** The processes that wait go on waiting, if the running one is not among them,
    or no clock is closed. *)
Lemma blocked_same s A k : os_ok s A -> (forall fp, Some fp ∈ rtc_files (k_rtc (o_kernel s)) -> Some fp ∈ rtc_files (k_rtc k)) ->
  forall c w, o_blocked s !! c = Some w -> live A c /\ blocked_ok k c w.
Proof.
  intros O H c w E. destruct (ok_blocked _ _ O c w E) as [Hl Hw]. split; [done|]. apply (blocked_kept (o_kernel s)); [done|].
  intros fp Hin _. by apply H.
Qed.

Lemma blocked_other s A k : os_ok s A -> o_blocked s !! running A = None -> steady (o_kernel s) k ->
  forall c w, o_blocked s !! c = Some w -> live A c /\ blocked_ok k c w.
Proof.
  intros O Hf S c w E. destruct (ok_blocked _ _ O c w E) as [Hl Hw]. split; [done|]. apply (blocked_kept (o_kernel s)); [done|].
  intros fp Hin Hfp. apply (st_clocks _ _ S); [done|]. unfold busy_stack. rewrite Hfp, (ok_current _ _ O).
  assert (Hne : c <> running A) by congruence. unfold TASK_KSTACK_TOP, TASK_KSTACK_BOT. lia.
Qed.

(** The current process is the running one. *)
Lemma current_running s A c : os_ok s A -> current (o_kernel s) c -> c = running A.
Proof. intros O [_ Hc]. rewrite (ok_current _ _ O) in Hc. unfold TASK_KSTACK_BOT in Hc. lia. Qed.

Lemma running_live s A : os_ok s A -> running A <> 0 -> live A (running A).
Proof. intros O. by apply on_top_live, O. Qed.

Lemma current_in_use s A c : os_ok s A -> current (o_kernel s) c -> 1 <= c -> pid_in_use (o_kernel s) c.
Proof.
  intros O Hc H1. pose proof (current_running s A c O Hc) as E. apply (rp_live _ _ (ok_stacks _ _ O)); [destruct Hc; lia|].
  rewrite E. apply (running_live s A O). lia.
Qed.

(** A call of the running process. *)
Lemma current_call s A c e esp : os_ok s A -> in_kernel s c esp e -> in_call e (o_kernel s) c esp.
Proof.
  intros O [Hc H1 _ Hesp He]. split; [apply O|done|destruct Hc; lia|by apply (current_in_use s A)|done|apply Hc].
Qed.

Strategy expand [run_call].

Lemma call_steady e k c esp x r k' : in_call e k c esp -> call_ok k x -> run_call e esp x k = Some (r, k') -> steady k k'.
Proof.
  intros C Hx E. destruct x; unfold call_ok in Hx; unfold run_call in E.
  - destruct Hx as [H1 H2]. exact (read_steady e k c esp C _ _ _ _ _ H1 H2 E).
  - exact (write_steady e k c esp C _ _ _ _ _ Hx E).
  - destruct Hx as [l Hl]. exact (open_steady e k c esp C _ _ _ _ Hl E).
  - exact (close_call_steady e k c esp C _ _ _ E).
  - exact (getargs_steady e k c esp C _ _ _ _ Hx E).
  - destruct Hx as [H1 H2]. exact (vidmap_steady e k c esp C _ _ _ H1 H2 E).
  - exact (set_handler_steady e k c esp C _ _ _ _ E).
  - exact (heap_steady _ e k c esp r k' C E).
  - exact (heap_steady _ e k c esp r k' C E).
Qed.

Lemma user_steady k m : system_ok k -> mem_ok m ->
  (forall a, ~ user_address a -> ~ (VIDEO <= a < 0xBC000) -> ld8 m a = ld8 (k_mem k) a) -> steady k (set_kmem m k).
Proof. intros Hs Hm H. apply steady_mem; [done..|]. intros a (H1 & H2 & _). by apply H. Qed.

(** An exception of the running process: the text on the first terminal, and the
    signal. *)
Lemma fault_steady junk cr2 e k c esp irq err k' : in_call e k c esp -> length (junk64 junk) = 64%nat -> length (junk36 junk) = 36%nat ->
  args_ok [irq; err; cr2] -> exception_handler junk cr2 esp irq err k = Some k' -> steady k k'.
Proof.
  intros C H64 H36 Ha E. pose proof C as [Hs He Hc Hu Hesp Hcur]. pose proof (so_kernel _ Hs) as Hk. destruct (call_pcb e k c esp C) as (p & Ep & _).
  destruct (exception_handler_spec junk cr2 c esp irq err k p Hk ltac:(lia) Hesp Ep H64 H36 Ha) as (ts & Et & _ & E2 & _).
  rewrite E in E2. apply (inj Some) in E2 as ->. pose proof (ko_terms _ Hk) as W. destruct (term_at (k_ts k) 0 W ltac:(done)) as (t & Ett & Hw).
  destruct (con_at_line _ 0 t W Hw) as [Hcon _].
  destruct (on_term_output (k_ts k) 0 t (fun d => Some (emit (exception_message irq err cr2) d)) W ltac:(done) Ett) as (ts2 & t2 & E2 & W2 & A & Et2 & L).
  { eexists. split; [done|]. apply out_esc_output; [|by eapply tw_esc]. apply output_draws; [by apply emit_draws|by apply emit_ok]. }
  rewrite Et in E2. apply (inj Some) in E2 as <-.
  assert (S1 : steady k (set_ts ts k)) by (apply mild_steady; [done..|]; apply (apart_mild _ _ _ _ _ A ltac:(done) Ett Et2), L).
  eapply steady_trans; [exact S1|]. assert (Epcbs : pcbs ts = k_pcbs k) by apply A. rewrite <- Epcbs.
  apply (pcb_steady e (set_ts ts k) c esp (in_call_steady _ _ _ _ _ C S1) p); [|done|done].
  change (pcbs ts !! TASK_KSTACK_TOP c = Some p). by rewrite Epcbs.
Qed.

(** ** A process started *)

Section Started.
Context (e : env) (k k' : kernel) (c esp ebp kbuf command ind : Z) (l : list Z) (pc : PCB_t) (pid : Z) (data : list Z).
Context (Hs : system_ok k) (X : executing e k c esp kbuf command ind l pc) (Hpid : lowest_pid (pid_used k) = Some pid).
Context (S : started k k' c pc esp ebp kbuf ind pid (kept_args (command_args l)) data) (Hk' : kernel_ok k').

Lemma started_pid : 1 <= pid < MAX_PROC_NUM /\ ~ pid_in_use k pid.
Proof. destruct (lowest_pid_in _ _ Hpid) as [H1 H2]. split; [done|]. unfold pid_free in H2. unfold pid_in_use. congruence. Qed.

Lemma started_ne : pid <> c.
Proof. destruct started_pid as [H1 H2]. intros ->. apply H2, (ex_used _ _ _ _ _ _ _ _ _ X). lia. Qed.

Lemma started_used d : 0 <= d -> pid_in_use k' d <-> d = pid \/ pid_in_use k d.
Proof.
  intros Hd. destruct started_pid as [H1 H2]. unfold pid_in_use. rewrite (sd_used _ _ _ _ _ _ _ _ _ _ _ S), !arr_get_lookup by done.
  destruct (ko_used _ (so_kernel _ Hs)) as [Hl _]. unfold MAX_PROC_NUM in *. destruct (decide (d = pid)) as [->|D].
  - rewrite list_lookup_insert_eq by lia. split; [by left|done].
  - rewrite list_lookup_insert_ne by lia. split; [by right|by intros [?|?]].
Qed.

Lemma started_kept a : kept_address a -> ld8 (k_mem k') a = ld8 (k_mem k) a.
Proof.
  intros (H1 & _ & H3 & _). apply (sd_kernel _ _ _ _ _ _ _ _ _ _ _ S); [done|]. intros Hin. apply H3.
  pose proof (kbuf_range _ _ _ _ _ _ _ _ _ X). unfold in_kbuf in Hin. lia.
Qed.

Lemma started_image : image_kept (k_mem k) (k_fs k) (k_mem k').
Proof. apply kept_image_kept; [apply Hs|apply started_kept]. Qed.

(** The processes that were there. *)
Lemma started_others d p : d <> pid -> k_pcbs k !! TASK_KSTACK_TOP d = Some p -> exists p', k_pcbs k' !! TASK_KSTACK_TOP d = Some p' /\
  open_files p' = open_files p /\ cmd_args p' = cmd_args p /\ term_ind p' = term_ind p /\ parent p' = parent p /\
  (pcb_esp p' = if decide (d = c) then esp else pcb_esp p) /\ (pcb_ebp p' = if decide (d = c) then ebp else pcb_ebp p) /\ pcb_pid p' = pcb_pid p.
Proof.
  intros Hd Ep. destruct (decide (d = c)) as [->|D].
  - pose proof (ex_pcb _ _ _ _ _ _ _ _ _ X) as Epc. rewrite Ep in Epc. injection Epc as <-.
    eexists. split; [apply (sd_caller _ _ _ _ _ _ _ _ _ _ _ S)|]. by split_and!.
  - exists p. rewrite (sd_pcbs _ _ _ _ _ _ _ _ _ _ _ S); [by split_and!|..]; intros E; by apply TASK_KSTACK_TOP_inj in E.
Qed.

Lemma started_new : exists old, k_pcbs k' !! TASK_KSTACK_TOP pid
  = Some (new_pcb pid (new_parent c ind) (new_term ind pc) ((fun a => a ++ [0]) <$> kept_args (command_args l)) old).
Proof. destruct (sd_pcb _ _ _ _ _ _ _ _ _ _ _ S) as (old & _ & E). by exists old. Qed.

(** A fresh process has the two descriptors of its terminal. *)
Lemma new_valid old : valid_task k' (TASK_KSTACK_TOP pid) (new_pcb pid (new_parent c ind) (new_term ind pc) ((fun a => a ++ [0]) <$> kept_args (command_args l)) old).
Proof.
  split.
  - intros s E. apply fmap_Some in E as (a & Ea & ->). exists a. split; [done|].
    by apply (kept_args_chars (k_mem k) command l); [apply (ex_command _ _ _ _ _ _ _ _ _ X)|].
  - intros fd f Ef Hu. cbn [open_files new_pcb] in Ef.
    assert (Hf : exists f0, arr_get (open_files old) fd = Some f0).
    { unfold arr_get in *. case_decide; [|done]. apply lookup_lt_is_Some_2. apply lookup_lt_Some in Ef. unfold new_files in Ef. by rewrite length_imap in Ef. }
    destruct Hf as (f0 & Ef0). rewrite (new_files_lookup _ _ _ Ef0) in Ef. injection Ef as <-.
    repeat case_decide; done.
Qed.

Lemma started_system : system_ok k'.
Proof.
  pose proof Hs as [Hk Htasks Hdisk Hfr]. destruct (sd_rest _ _ _ _ _ _ _ _ _ _ _ S) as [Ertc Efs]. split.
  - exact Hk'.
  - intros d p Hd Hu Ep. destruct (decide (d = pid)) as [->|D].
    { destruct started_new as (old & E). rewrite Ep in E. injection E as ->. apply new_valid. }
    apply started_used in Hu as [->|Hu]; [done| |lia]. destruct (ko_pcb _ Hk d ltac:(lia)) as (q & Eq & _).
    destruct (started_others d q D Eq) as (q' & Eq' & Ef & Ea & _). rewrite Ep in Eq'. injection Eq' as <-.
    destruct (Htasks d q Hd Hu Eq) as [V1 V2]. split; [by rewrite Ea|]. rewrite Ef. intros fd f Ef' Huf.
    apply (valid_file_kept k k' Hk Efs started_image); [by rewrite Ertc|]. by apply V2.
  - by apply (disk_ok_kept k k' Hk Efs started_image).
  - intros i t Et. destruct (sd_terms _ _ _ _ _ _ _ _ _ _ _ S) as (t0 & Et0 & E). rewrite E in Et.
    assert (Hi : 0 <= new_term ind pc < Z.of_nat (length (terms (k_ts k)))).
    { unfold arr_get in Et0. case_decide; [|done]. apply lookup_lt_Some in Et0. lia. }
    rewrite arr_get_insert in Et by done. case_decide; [|by apply (Hfr i)]. injection Et as <-. cbn. destruct started_pid. lia.
Qed.

Lemma started_shell : (exists ino d, has_shell k ino d) -> exists ino d, has_shell k' ino d.
Proof.
  intros (ino & d & H). exists ino, d. apply (has_shell_kept k); [apply Hs|apply (sd_rest _ _ _ _ _ _ _ _ _ _ _ S)|apply started_image|done].
Qed.

(** On the stacks, the new process goes on top. *)
Lemma started_represents A i : represents k A -> 0 <= i < TERM_NUM -> new_term ind pc = i ->
  new_parent c ind = match stack_of A i with [] => 0 | pp :: _ => TASK_KSTACK_TOP pp end -> represents k' (push i pid A).
Proof.
  intros [R1 R2 R3 R4 R5 R6 R7 R8] Hi Hterm Hpar. destruct started_pid as [P1 P2].
  assert (Hst : forall j, stack_of (push i pid A) j = if decide (j = i) then pid :: stack_of A i else stack_of A j) by (intros j; by apply stack_of_set).
  assert (Hnew : forall j, 0 <= j < TERM_NUM -> pid ∉ stack_of A j).
  { intros j Hj Hin. apply P2, R6; [done|]. by exists j. }
  assert (Hlive : forall d, live (push i pid A) d <-> d = pid \/ live A d).
  { intros d. split.
    - intros (j & Hj & Hin). rewrite Hst in Hin. destruct (decide (j = i)) as [->|D]; [|right; by exists j].
      apply elem_of_cons in Hin as [->|Hin]; [by left|right; by exists i].
    - intros [->|(j & Hj & Hin)]; [exists i; split; [done|]; rewrite Hst, decide_True by done; by left|].
      exists j. split; [done|]. rewrite Hst. destruct (decide (j = i)) as [->|D]; [by right|done]. }
  split.
  - unfold push, set_stack. cbn [stacks]. by rewrite length_insert.
  - done.
  - intros j Hj. rewrite Hst. destruct (decide (j = i)) as [->|D]; [|by apply R3]. apply list.NoDup_cons. split; [by apply Hnew|by apply R3].
  - intros j1 j2 d H1 H2. rewrite !Hst. intros I1 I2.
    assert (Hcase : forall j, 0 <= j < TERM_NUM -> d ∈ (if decide (j = i) then pid :: stack_of A i else stack_of A j) -> d = pid /\ j = i \/ d ∈ stack_of A j).
    { intros j Hj. destruct (decide (j = i)) as [->|D]; [intros [->|?]%elem_of_cons; [by left|by right]|by right]. }
    destruct (Hcase j1 H1 I1) as [[-> ->]|I1'], (Hcase j2 H2 I2) as [[E ->]|I2']; try done.
    + by destruct (Hnew j2 H2).
    + subst d. by destruct (Hnew j1 H1).
    + by apply (R4 j1 j2 d).
  - intros d Hd. apply Hlive in Hd as [->|Hd]; [done|by apply R5].
  - intros d Hd. rewrite started_used, Hlive, R6 by lia. done.
  - intros j Hj. destruct (sd_terms _ _ _ _ _ _ _ _ _ _ _ S) as (t0 & Et0 & E). rewrite Hterm in Et0, E. unfold front. rewrite E.
    assert (Hil : 0 <= i < Z.of_nat (length (terms (k_ts k)))).
    { unfold arr_get in Et0. case_decide; [|done]. apply lookup_lt_Some in Et0. lia. }
    rewrite arr_get_insert, Hst by done. case_decide; [done|]. by apply R7.
  - intros j Hj. rewrite Hst. assert (Hold : chain (k_pcbs k') j (stack_of A j)).
    { apply (chain_kept (k_pcbs k)); [by apply R8|]. intros d p Hin Ep.
      destruct (started_others d p) as (p' & Ep' & _ & _ & Et & Epar & _); [by intros ->; apply (Hnew j Hj)|done|by exists p']. }
    destruct (decide (j = i)) as [->|D]; [|done]. destruct started_new as (old & Enew). split; [|done]. eexists. split; [exact Enew|]. done.
Qed.

(** The saved stack pointers of those that wait. *)
Lemma started_saved d p : on_stack c esp -> d <> pid -> (d <> c -> forall q, k_pcbs k !! TASK_KSTACK_TOP d = Some q -> on_stack d (pcb_esp q)) ->
  0 <= d < MAX_PROC_NUM -> k_pcbs k' !! TASK_KSTACK_TOP d = Some p -> on_stack d (pcb_esp p).
Proof.
  intros Hesp Hd Hw Hr Ep. destruct (ko_pcb _ (so_kernel _ Hs) d Hr) as (q & Eq & _).
  destruct (started_others d q Hd Eq) as (q' & Eq' & _ & _ & _ & _ & E & _). rewrite Ep in Eq'. injection Eq' as <-. rewrite E.
  case_decide as D; [by subst d|]. by apply (Hw D q).
Qed.
End Started.

(** ** A process ended *)

Section Halted.
Context (k k' : kernel) (c pp i : Z) (p : PCB_t) (l : list Z) (A : schedule).
Context (Hs : system_ok k) (R : represents k A) (Hi : 0 <= i < TERM_NUM) (Hl : stack_of A i = c :: pp :: l).
Context (Hp : k_pcbs k !! TASK_KSTACK_TOP c = Some p) (H : halted k k' c p pp) (Hk' : kernel_ok k').

Lemma halted_in : c ∈ stack_of A i /\ pp ∈ stack_of A i /\ c <> pp.
Proof.
  rewrite Hl. split; [by left|]. split; [right; by left|]. pose proof (rp_nodup _ _ R i Hi) as Hnd. rewrite Hl in Hnd.
  apply list.NoDup_cons in Hnd as [Hn _]. intros ->. apply Hn. by left.
Qed.

Lemma halted_range d : d ∈ stack_of A i -> 1 <= d < MAX_PROC_NUM.
Proof. intros Hd. apply (rp_range _ _ R). by exists i. Qed.

Lemma halted_term : term_ind p = i.
Proof.
  destruct (chain_at _ _ _ c (rp_chain _ _ R i Hi) (proj1 halted_in)) as (q & Eq & Et). rewrite Hp in Eq. by injection Eq as <-.
Qed.

Lemma halted_used d : 0 <= d -> pid_in_use k' d <-> d <> c /\ pid_in_use k d.
Proof.
  intros Hd. pose proof (halted_range c (proj1 halted_in)) as Hc. unfold pid_in_use. rewrite (hd_used _ _ _ _ _ H), !arr_get_lookup by done.
  destruct (ko_used _ (so_kernel _ Hs)) as [Hlen _]. unfold MAX_PROC_NUM in *. destruct (decide (d = c)) as [->|D].
  - rewrite list_lookup_insert_eq by lia. split; [done|by intros [? _]].
  - rewrite list_lookup_insert_ne by lia. split; [done|by intros [_ ?]].
Qed.

Lemma halted_image : image_kept (k_mem k) (k_fs k) (k_mem k').
Proof. apply kept_image_kept; [apply Hs|]. intros a [Ha _]. by apply (hd_kernel _ _ _ _ _ H). Qed.

Lemma halted_system : system_ok k'.
Proof.
  pose proof Hs as [Hk Htasks Hdisk Hfr]. pose proof (hd_fs _ _ _ _ _ H) as Efs. split.
  - exact Hk'.
  - intros d q Hd Hu Eq. apply halted_used in Hu as [Hne Hu]; [|lia]. rewrite (hd_pcbs _ _ _ _ _ H) in Eq.
    destruct (Htasks d q Hd Hu Eq) as [V1 V2]. split; [done|]. intros fd f Ef Huf.
    apply (valid_file_kept k k' Hk Efs halted_image); [|by apply V2].
    apply (hd_others _ _ _ _ _ H). cbn. intros E. by apply TASK_KSTACK_TOP_inj in E.
  - by apply (disk_ok_kept k k' Hk Efs halted_image).
  - intros j t Et. destruct (hd_terms _ _ _ _ _ H) as (t0 & Et0 & E). rewrite E in Et.
    assert (Hj : 0 <= term_ind p < Z.of_nat (length (terms (k_ts k)))).
    { unfold arr_get in Et0. case_decide; [|done]. apply lookup_lt_Some in Et0. lia. }
    rewrite arr_get_insert in Et by done. case_decide; [|by apply (Hfr j)]. injection Et as <-. cbn.
    pose proof (halted_range pp (proj1 (proj2 halted_in))). lia.
Qed.

Lemma halted_shell : (exists ino d, has_shell k ino d) -> exists ino d, has_shell k' ino d.
Proof.
  intros (ino & d & Hd). exists ino, d. apply (has_shell_kept k); [apply Hs|apply (hd_fs _ _ _ _ _ H)|apply halted_image|done].
Qed.

Lemma halted_represents : represents k' (set_stack i (pp :: l) A).
Proof.
  destruct R as [R1 R2 R3 R4 R5 R6 R7 R8]. destruct halted_in as (Hin & Hpp & Hne).
  assert (Hst : forall j, stack_of (set_stack i (pp :: l) A) j = if decide (j = i) then pp :: l else stack_of A j) by (intros j; by apply stack_of_set).
  pose proof (R3 i Hi) as Hnd. rewrite Hl in Hnd. apply list.NoDup_cons in Hnd as [Hc Hnd].
  assert (Hsub : forall j d, 0 <= j < TERM_NUM -> d ∈ stack_of (set_stack i (pp :: l) A) j <-> d <> c /\ d ∈ stack_of A j).
  { intros j d Hj. rewrite Hst. destruct (decide (j = i)) as [->|D].
    - rewrite Hl, (elem_of_cons _ _ c). split; [intros Hd; split; [by intros ->|by right]|by intros [? [?|?]]].
    - split; [intros Hd; split; [|done]|by intros [_ ?]]. intros ->. by apply D, (R4 j i c). }
  assert (Hlive : forall d, live (set_stack i (pp :: l) A) d <-> d <> c /\ live A d).
  { intros d. split.
    - intros (j & Hj & Hd). apply Hsub in Hd as [? ?]; [|done]. split; [done|by exists j].
    - intros [Hd (j & Hj & Hd')]. exists j. split; [done|]. by apply Hsub. }
  split.
  - unfold set_stack. cbn [stacks]. by rewrite length_insert.
  - done.
  - intros j Hj. rewrite Hst. destruct (decide (j = i)); [done|by apply R3].
  - intros j1 j2 d H1 H2 [_ I1]%Hsub [_ I2]%Hsub; [|done..]. by apply (R4 j1 j2 d).
  - intros d [_ Hd]%Hlive. by apply R5.
  - intros d Hd. rewrite halted_used, Hlive, R6 by lia. done.
  - intros j Hj. destruct (hd_terms _ _ _ _ _ H) as (t0 & Et0 & E). rewrite halted_term in Et0, E. unfold front. rewrite E.
    assert (Hil : 0 <= i < Z.of_nat (length (terms (k_ts k)))).
    { unfold arr_get in Et0. case_decide; [|done]. apply lookup_lt_Some in Et0. lia. }
    rewrite arr_get_insert, Hst by done. case_decide; [done|]. by apply R7.
  - intros j Hj. rewrite Hst, (hd_pcbs _ _ _ _ _ H). destruct (decide (j = i)) as [->|D]; [|by apply R8].
    specialize (R8 i Hi). rewrite Hl in R8. apply R8.
Qed.
End Halted.

(** A halt starts the only process of a terminal again, or uncovers the one
    under it. *)
Lemma halt_cases e k c esp status ctx r k' A i p l0 :
  system_ok k -> represents k A -> 0 <= i < TERM_NUM -> stack_of A i = c :: l0 -> on_stack c esp -> k_pcbs k !! TASK_KSTACK_TOP c = Some p ->
  _syscall_halt e esp status ctx k = Some (r, k') ->
  (l0 = [] /\ (exists ctx', r = Restarted ctx') /\ k' = k) \/
  exists pp l q, l0 = pp :: l /\ k_pcbs k !! TASK_KSTACK_TOP pp = Some q /\ r = Resumed (pcb_esp q) (pcb_ebp q) status /\
    halted k k' c p pp /\ kernel_ok k'.
Proof.
  intros Hs R Hi Hl Hesp Ep E. pose proof (so_kernel _ Hs) as Hk.
  assert (Hrange : forall d, d ∈ stack_of A i -> 1 <= d < MAX_PROC_NUM) by (intros d Hd; apply (rp_range _ _ R); by exists i).
  pose proof (rp_chain _ _ R i Hi) as Hc. pose proof Hrange as Hr. rewrite Hl in Hc, Hr. destruct Hc as [(p' & Ep' & _ & Epar) Hc].
  rewrite Ep in Ep'. injection Ep' as <-. pose proof (Hr c ltac:(by left)) as Hcr.
  assert (Hu : pid_in_use k c) by (apply (rp_live _ _ R); [done|]; exists i; split; [done|]; rewrite Hl; by left).
  destruct l0 as [|pp l]; [left|right].
  { rewrite (halt_root e k c esp p Hcr Hesp Ep status ctx Epar) in E. injection E as <- <-. split; [done|]. split; [by eexists|done]. }
  destruct Hc as [(q & Eq & _) _]. pose proof (Hr pp ltac:(right; by left)) as Hpr.
  assert (Hup : pid_in_use k pp) by (apply (rp_live _ _ R); [done|]; exists i; split; [done|]; rewrite Hl; right; by left).
  destruct (ko_number _ Hk pp q ltac:(lia) Hup Eq) as [Nq _].
  destruct (halt_child e k c esp p Hk Hcr Hu Hesp Ep status ctx pp q Epar Hpr Eq Nq) as (k2 & E2 & Hh & Hk2).
  rewrite E in E2. injection E2 as -> ->. by exists pp, l, q.
Qed.

(** ** The steps that move *)

Section Moves.
Context (s : os) (A : schedule) (O : os_ok s A).

Abbreviation k := (o_kernel s).

Lemma running_range : 0 <= running A < MAX_PROC_NUM.
Proof. apply (on_top_range k A); apply O. Qed.

Lemma running_pcb : exists p, k_pcbs k !! TASK_KSTACK_TOP (running A) = Some p /\ pcb_pid p = running A.
Proof.
  pose proof running_range as H. destruct (decide (running A = 0)) as [E|D]; [rewrite E; apply O|].
  destruct (ko_pcb _ (so_kernel _ (ok_system _ _ O)) _ H) as (p & Ep & _). exists p. split; [done|].
  apply (ko_number _ (so_kernel _ (ok_system _ _ O)) _ p H); [|done]. apply (rp_live _ _ (ok_stacks _ _ O)); [lia|by apply (running_live s A O)].
Qed.

(** The process that runs is on top of its stack. *)
Lemma running_stack : running A <> 0 -> exists i l, 0 <= i < TERM_NUM /\ stack_of A i = running A :: l.
Proof. intros H. by destruct (ok_top _ _ O). Qed.

(** Nothing is left behind on the stack of the running process. *)
Lemma running_left : o_left s !! running A = None.
Proof. destruct (o_left s !! running A) as [t|] eqn:E; [|done]. by destruct (ok_left _ _ O _ _ E) as [H _]. Qed.

(** A process on top is on one stack only, and nobody below. *)
Lemma top_alone i d l : 0 <= i < TERM_NUM -> stack_of A i = d :: l -> forall x, on_top A x -> x ∈ d :: l -> x = d.
Proof.
  intros Hi E x [->|(j & l' & Hj & E')] Hin.
  - pose proof (rp_range _ _ (ok_stacks _ _ O) 0) as H. destruct H as [H _]; [|lia]. exists i. split; [done|]. by rewrite E.
  - assert (j = i) as ->; [|congruence]. apply (rp_apart _ _ (ok_stacks _ _ O) j i x Hj Hi); [rewrite E'; by left|by rewrite E].
Qed.

Lemma ended c e esp status ctx r k' : c = running A -> c <> 0 -> o_blocked s !! c = None -> on_stack c esp ->
  _syscall_halt e esp status ctx k = Some (r, k') -> exists i l0, 0 <= i < TERM_NUM /\ stack_of A i = c :: l0 /\
  ((l0 = [] /\ (exists ctx', r = Restarted ctx') /\ k' = k) \/
   exists pp l, l0 = pp :: l /\ os_ok (with_kernel k' s) (set_running pp (set_stack i (pp :: l) A)) /\
    exists p, halted k k' c p pp).
Proof.
  intros -> Hc Hfree Hesp E. pose proof O as [O1 O2 O3 O4 O5 O6 O7 O8 O9 O10 O11 O12 O13 O14].
  destruct running_pcb as (p & Ep & _). destruct (running_stack Hc) as (i & l0 & Hi & Hl). exists i, l0. do 2 (split; [done|]).
  destruct (halt_cases e k _ esp status ctx r k' A i p l0 O1 O2 Hi Hl Hesp Ep E) as [(-> & Hr & ->)|(pp & l & q & -> & Eq & -> & H & Hk')];
    [by left|right].
  exists pp, l. split; [done|]. split; [|by exists p].
  destruct (halted_in k k' (running A) pp i p l A O2 Hi Hl Ep H) as (Hin & Hpp & Hne).
  assert (Hppr : 1 <= pp < MAX_PROC_NUM) by (apply (rp_range _ _ O2); by exists i).
  assert (Hk2 : represents k' (set_stack i (pp :: l) A)) by (by apply (halted_represents k k' (running A) pp i p l A)).
  assert (Hst : forall j, stack_of (set_running pp (set_stack i (pp :: l) A)) j = if decide (j = i) then pp :: l else stack_of A j)
    by (intros j; apply stack_of_set; [apply O2|done]).
  assert (Hlv : forall d, live (set_stack i (pp :: l) A) d -> d <> running A /\ live A d).
  { intros d Hd. pose proof (rp_range _ _ Hk2 d Hd) as Hdr. apply (rp_live _ _ Hk2 d Hdr) in Hd.
    destruct (proj1 (halted_used k k' (running A) pp i p l A O1 O2 Hi Hl Ep H d ltac:(lia)) Hd) as [? Hd'].
    split; [done|]. by apply (rp_live _ _ O2 d Hdr). }
  assert (Hpcb : k_pcbs (o_kernel (with_kernel k' s)) = k_pcbs k) by apply (hd_pcbs _ _ _ _ _ H).
  split; try done.
  - by apply (halted_system k k' (running A) pp i p l A).
  - by apply (represents_same k' (set_stack i (pp :: l) A)); [|done|apply O2].
  - right. exists i, l. split; [done|]. by rewrite Hst, decide_True.
  - change (esp0 (tss k') = TASK_KSTACK_BOT pp). by rewrite (hd_tss _ _ _ _ _ H).
  - intros _. apply (hd_page _ _ _ _ _ H).
  - intros E0. change (pp = 0) in E0. lia.
  - rewrite Hpcb. exact O9.
  - intros d q' Hd Hne' Ed. rewrite Hpcb in Ed. apply (O10 d q'); [| |exact Ed].
    + destruct Hd as [Hd|Hd]; [by left|right]. by apply Hlv.
    + destruct Hd as [->|Hd]; [congruence|]. by apply Hlv.
  - exact (halted_shell k k' _ pp p O1 H O11).
  - intros d w Ed. assert (Hne' : d <> running A) by (intros ->; unfold with_kernel in Ed; cbn [o_blocked] in Ed; congruence).
    destruct (O12 d w Ed) as [Hd Hw]. split.
    + apply (rp_live _ _ Hk2); [by apply (rp_range _ _ O2)|]. apply (halted_used k k' (running A) pp i p l A O1 O2 Hi Hl Ep H);
        [pose proof (rp_range _ _ O2 d Hd); lia|]. split; [done|]. by apply (rp_live _ _ O2), Hd; apply (rp_range _ _ O2).
    + apply (blocked_kept k); [done|]. intros fp Hfile Hfp. apply (hd_others _ _ _ _ _ H); [|done]. rewrite Hfp. intros E'.
      by apply TASK_KSTACK_TOP_inj in E'.
  - intros d t Ed. destruct (O13 d t Ed) as (H1 & H2 & H3 & H4). rewrite Hpcb. split_and!; [| |done|done].
    + intros ->. apply H1. apply (top_alone i (running A) (pp :: l) Hi Hl pp H2). right. by left.
    + destruct H2 as [->|(j & l' & Hj & E')]; [by left|right]. exists j, l'. split; [done|]. rewrite Hst, decide_False; [done|].
      intros ->. congruence.
Qed.

(** Execute starts a process on top of the caller, or changes nothing of the
    system. *)
Lemma execute_cases e esp ebp kbuf command ind l pc r k' :
  executing e k (running A) esp kbuf command ind l pc -> _syscall_execute e esp ebp kbuf command ind k = Some (r, k') ->
  (exists v, r = Return v /\ steady k k') \/
  (exists pid data entry, r = Enter entry TASK_VIRT_PAGE_END /\ lowest_pid (pid_used k) = Some pid /\
     started k k' (running A) pc esp ebp kbuf ind pid (kept_args (command_args l)) data /\ kernel_ok k').
Proof.
  intros X E. pose proof (ok_system _ _ O) as Hs. pose proof (so_disk _ Hs) as [D1 D2].
  destruct (lowest_pid (pid_used k)) as [pid|] eqn:Epid.
  2: { rewrite (execute_no_pid e k _ esp ebp kbuf command ind l pc X Epid) in E. injection E as <- <-. left. exists (-1). split; [done|by apply steady_refl]. }
  destruct (program_of k l) as [ino|] eqn:Eprog.
  2: { rewrite (execute_no_file e k _ esp ebp kbuf command ind l pc X pid Epid Eprog) in E. injection E as <- <-. left. exists (-1). split; [done|by apply steady_refl]. }
  assert (Hino : 0 <= ino < inode_count (k_mem k) (k_fs k)).
  { unfold program_of in Eprog. apply fmap_Some in Eprog as (i & Ei & ->). by apply D1, (lookup_name_range _ _ _ Ei). }
  destruct (D2 ino Hino) as [Hl|[Hlen Hbad]].
  - destruct (execute_start e k _ esp ebp kbuf command ind l pc X pid ino Epid Eprog Hino Hl) as (k2 & E2 & Hk2 & S).
    rewrite E in E2. injection E2 as -> ->. right. eexists pid, _, _. by split_and!.
  - destruct (execute_bad_header e k _ esp ebp kbuf command ind l pc X pid ino Epid Eprog Hino Hlen Hbad) as (m & E2 & Hm & Hk2).
    rewrite E in E2. injection E2 as -> ->. left. exists (-1). split; [done|]. apply steady_mem; [done|apply (wf_mem _ _ (ko_fs _ Hk2))|].
    intros a (_ & _ & Ha & _). apply Hm. intros Hin. apply Ha. pose proof (kbuf_range _ _ _ _ _ _ _ _ _ X). unfold in_kbuf in Hin. lia.
Qed.

Section Begun.
Context (e : env) (esp ebp kbuf command ind : Z) (l : list Z) (pc : PCB_t) (pid : Z) (data : list Z) (k' : kernel) (i : Z).
Context (Hi : 0 <= i < TERM_NUM) (X : executing e k (running A) esp kbuf command ind l pc).
Context (Hesp : on_stack (running A) esp) (Hpid : lowest_pid (pid_used k) = Some pid).
Context (S : started k k' (running A) pc esp ebp kbuf ind pid (kept_args (command_args l)) data) (Hk' : kernel_ok k').
Context (Ht : new_term ind pc = i).
Context (Hpar : new_parent (running A) ind = match stack_of A i with [] => 0 | pp :: _ => TASK_KSTACK_TOP pp end).
Context (Hi_top : forall d l, stack_of A i = d :: l -> d = running A).

Lemma begun_represents : represents k' (push i pid A).
Proof. exact (started_represents e k k' _ esp ebp kbuf command ind l pc pid data (ok_system _ _ O) X Hpid S A i (ok_stacks _ _ O) Hi Ht Hpar). Qed.

Lemma begun_live d : live (push i pid A) d -> d = pid \/ live A d.
Proof.
  intros Hd. pose proof begun_represents as R. pose proof (rp_range _ _ R d Hd) as Hdr. apply (rp_live _ _ R d Hdr) in Hd.
  apply (started_used k k' _ esp ebp kbuf ind l pc pid data (ok_system _ _ O) Hpid S) in Hd as [->|Hd]; [by left|right|lia].
  by apply (rp_live _ _ (ok_stacks _ _ O) d Hdr).
Qed.

Lemma begun_top d : on_top A d -> d <> running A \/ stack_of A i = [] -> d <> pid /\
  (d = 0 \/ exists j l, 0 <= j < TERM_NUM /\ stack_of (push i pid A) j = d :: l).
Proof.
  intros Hd Hne. destruct (started_pid k pid Hpid) as [P1 P2]. destruct Hd as [->|(j & l' & Hj & E)]; [split; [lia|by left]|]. split.
  - intros ->. apply P2, (rp_live _ _ (ok_stacks _ _ O)); [done|]. exists j. split; [done|]. rewrite E. by left.
  - right. exists j, l'. split; [done|]. unfold push. rewrite stack_of_set by (done || apply (rp_length _ _ (ok_stacks _ _ O))).
    rewrite decide_False; [done|]. intros ->. destruct Hne as [Hne|Hne]; [|congruence]. by apply Hne, (Hi_top _ l').
Qed.

(** The tick left behind, if it is one that started the program. *)
Lemma begun left j pic : 0 <= j < TERM_NUM ->
  (forall d t, left !! d = Some t -> o_left s !! d = Some t \/
    d = running A /\ stack_of A i = [] /\ on_stack d (t_esp t) /\ t_xesp t = esp /\ t_xebp t = ebp) ->
  os_ok (mkOs (mkSched k' j pic) (o_kb s) (o_blocked s) left)
    (mkSchedule (stacks (push i pid A)) j pid (t_next_pid <$> left)).
Proof.
  intros Hj Hleft. pose proof O as [O1 O2 O3 O4 O5 O6 O7 O8 O9 O10 O11 O12 O13 O14].
  pose proof begun_represents as R. destruct (started_pid k pid Hpid) as [P1 P2].
  pose proof (started_others e k k' _ esp ebp kbuf command ind l pc pid data X S) as Hoth.
  split; try done.
  - exact (started_system e k k' _ esp ebp kbuf command ind l pc pid data O1 X Hpid S Hk').
  - by apply (represents_same k' (push i pid A)).
  - right. exists i, (stack_of A i). split; [done|]. change (stack_of (push i pid A) i = pid :: stack_of A i).
    unfold push. rewrite stack_of_set by (done || apply (rp_length _ _ O2)). by rewrite decide_True.
  - change (esp0 (tss k') = TASK_KSTACK_BOT pid). by rewrite (sd_tss _ _ _ _ _ _ _ _ _ _ _ S).
  - intros _. apply (sd_page _ _ _ _ _ _ _ _ _ _ _ S).
  - intros E0. change (pid = 0) in E0. lia.
  - destruct O9 as (p & Ep & H). destruct (Hoth 0 p ltac:(lia) Ep) as (p' & Ep' & _ & _ & _ & _ & _ & _ & E). exists p'. split; [exact Ep'|congruence].
  - intros d p Hd Hne Ep. change (d <> pid) in Hne.
    assert (Hd' : d = 0 \/ live A d) by (destruct Hd as [Hd|Hd]; [by left|right]; by destruct (begun_live d Hd)).
    apply (started_saved e k k' _ esp ebp kbuf command ind l pc pid data O1 X S d p Hesp Hne); [| |exact Ep].
    + intros Hdc q Eq. by apply (O10 d q).
    + destruct Hd' as [->|Hd']; [done|]. pose proof (rp_range _ _ O2 d Hd'). lia.
  - exact (started_shell e k k' _ esp ebp kbuf command ind l pc pid data O1 X S O11).
  - intros d w Ed. destruct (O12 d w Ed) as [Hd Hw]. pose proof (rp_range _ _ O2 d Hd) as Hdr. split.
    + apply (rp_live _ _ R d Hdr). apply (started_used k k' _ esp ebp kbuf ind l pc pid data O1 Hpid S); [lia|]. right. by apply (rp_live _ _ O2 d Hdr).
    + apply (blocked_kept k); [done|]. intros fp Hfile _. destruct (sd_rest _ _ _ _ _ _ _ _ _ _ _ S) as [E _].
      change (Some fp ∈ rtc_files (k_rtc k')). by rewrite E.
  - intros d t Ed. change (left !! d = Some t) in Ed.
    assert (H : on_top A d /\ (d <> running A \/ stack_of A i = []) /\ on_stack d (t_esp t)).
    { destruct (Hleft d t Ed) as [H|(-> & H1 & H2 & _)]; [|split; [done|split; [by right|done]]]. destruct (O13 d t H) as (H1 & H2 & H3 & _). split; [done|]. split; [by left|done]. }
    destruct H as (H1 & H2 & H3). destruct (begun_top d H1 H2) as [T1 T2]. split; [exact T1|]. split; [exact T2|]. split; [exact H3|].
    destruct (ko_pcb _ (so_kernel _ O1) d (on_top_range k A d O2 H1)) as (p & Ep & _).
    destruct (Hoth d p T1 Ep) as (p' & Ep' & _ & _ & _ & _ & Ee & Eb & _). exists p'. split; [exact Ep'|]. rewrite Ee, Eb.
    destruct (Hleft d t Ed) as [H|(-> & _ & _ & <- & <-)]; [|by rewrite !decide_True].
    destruct (O13 d t H) as (N1 & _ & _ & q & Eq & N2 & N3). rewrite !decide_False by done. rewrite Ep in Eq. by injection Eq as <-.
Qed.
End Begun.

(** The interrupt of the timer finds the running process. *)
Lemma ticking t : on_stack (running A) (t_esp t) -> exists p, interrupts t (o_sched s) (running A) p.
Proof.
  intros Ht. destruct running_pcb as (p & Ep & _). exists p. split; [apply O| |apply running_range|done|exact Ep].
  rewrite (ok_turn _ _ O). apply (ok_stacks _ _ O).
Qed.

Lemma next_range : 0 <= next_term (turn A) < TERM_NUM.
Proof. unfold next_term. by apply Z.mod_pos_bound. Qed.

(** What a switch leaves of the system. *)
Lemma switched_system c esp ebp p d q k' : kernel_ok k' -> k_pcbs k !! TASK_KSTACK_TOP c = Some p ->
  switched k k' c esp ebp p d q -> system_ok k' /\ (represents k' A) /\ (exists ino data, has_shell k' ino data).
Proof.
  intros Hk' Ep S. pose proof O as [O1 O2 _ _ _ _ _ _ _ _ O9 _ _ _]. pose proof O1 as [Hk Htasks Hdisk Hfr].
  destruct (sw_rest _ _ _ _ _ _ _ _ S) as (Ertc & Efs & Eu). destruct (sw_terms _ _ _ _ _ _ _ _ S) as [Et _].
  assert (HK : image_kept (k_mem k) (k_fs k) (k_mem k')).
  { apply kept_image_kept; [done|]. intros a [Ha _]. by apply (sw_kernel _ _ _ _ _ _ _ _ S). }
  assert (Hst : forall a x, k_pcbs k !! a = Some x -> exists x', k_pcbs k' !! a = Some x' /\ open_files x' = open_files x /\
    cmd_args x' = cmd_args x /\ term_ind x' = term_ind x /\ parent x' = parent x).
  { intros a x Ea. rewrite (sw_pcbs _ _ _ _ _ _ _ _ S). destruct (decide (TASK_KSTACK_TOP c = a)) as [<-|D].
    - rewrite lookup_insert_eq. rewrite Ep in Ea. injection Ea as <-. by eexists.
    - rewrite lookup_insert_ne by done. by exists x. }
  split; [split|split].
  - exact Hk'.
  - intros pid x' Hpid Hu Ex'. unfold pid_in_use in Hu. rewrite Eu in Hu. destruct (ko_pcb _ Hk pid ltac:(lia)) as (x & Ex & _).
    destruct (Hst _ x Ex) as (x2 & Ex2 & Ef & Ea & _). rewrite Ex' in Ex2. injection Ex2 as <-.
    destruct (Htasks pid x Hpid Hu Ex) as [V1 V2]. split; [by rewrite Ea|]. rewrite Ef. intros fd f Efd Huf.
    apply (valid_file_kept k k' Hk Efs HK); [by rewrite Ertc|]. by apply V2.
  - by apply (disk_ok_kept k k' Hk Efs HK).
  - intros i t E. rewrite Et in E. by apply (Hfr i).
  - destruct O2 as [R1 R2 R3 R4 R5 R6 R7 R8]. split; try done.
    + intros pid Hpid. unfold pid_in_use. rewrite Eu. by apply R6.
    + intros i Hi. unfold front. rewrite Et. by apply R7.
    + intros i Hi. apply (chain_kept (k_pcbs k)); [by apply R8|]. intros x y _ Ey. destruct (Hst _ y Ey) as (y' & Ey' & _ & _ & H1 & H2). by exists y'.
  - destruct O9 as (ino & data & H). exists ino, data. by apply (has_shell_kept k); [apply (ko_fs _ Hk)|..].
Qed.

(** A tick, or one left behind, switches from the running process to another in
    front: as soon as nothing is left behind on its stack, that one runs. *)
Lemma hop t d ind pic : on_stack (running A) (t_esp t) -> on_top A d -> d <> running A -> 0 <= ind < TERM_NUM ->
  exists p q k', pit_rest t d k = Some (Switched (pcb_esp q) (pcb_ebp q), k') /\ k_pcbs k !! TASK_KSTACK_TOP d = Some q /\
    on_stack d (pcb_esp q) /\ switched k k' (running A) (t_esp t) (t_ebp t) p d q /\
    os_ok (mkOs (mkSched k' ind pic) (o_kb s) (o_blocked s) (delete d (o_left s))) (mkSchedule (stacks A) ind d (delete d (astray A))).
Proof.
  intros Hesp Hd Hne Hind. destruct running_pcb as (p & Ep & Np). pose proof O as [O1 O2 O3 O4 O5 O6 O7 O8 O9 O10 O11 O12 O13 O14].
  pose proof (on_top_range k A d O2 Hd) as Hdr. destruct (ko_pcb _ (so_kernel _ O1) d Hdr) as (q & Eq & _).
  destruct (pit_rest_switch t k (running A) p (so_kernel _ O1) running_range Hesp Ep Np d q Hdr Hne Eq) as (k' & E & Hk' & S).
  assert (Hlive : d = 0 \/ live A d) by (destruct (decide (d = 0)); [by left|right; by apply on_top_live]).
  destruct (switched_system (running A) _ _ p d q k' Hk' Ep S) as (Hs' & R' & Hsh).
  assert (Hpcb : forall x px, k_pcbs k' !! TASK_KSTACK_TOP x = Some px ->
    if decide (x = running A) then px = with_saved (t_esp t) (t_ebp t) p else k_pcbs k !! TASK_KSTACK_TOP x = Some px).
  { intros x px Ex. rewrite (sw_pcbs _ _ _ _ _ _ _ _ S) in Ex. case_decide as D.
    - subst x. rewrite lookup_insert_eq in Ex. by injection Ex as <-.
    - rewrite lookup_insert_ne in Ex; [done|]. intros E'. apply D. symmetry. by apply TASK_KSTACK_TOP_inj. }
  exists p, q, k'. split; [exact E|]. split; [exact Eq|]. split; [by apply (O10 d q)|]. split; [exact S|]. split; try done.
  - by apply (represents_same k' A).
  - change (esp0 (tss k') = TASK_KSTACK_BOT d). by rewrite (sw_tss _ _ _ _ _ _ _ _ S).
  - intros _. apply (sw_page _ _ _ _ _ _ _ _ S).
  - intros E0 x Hx. change (d = 0) in E0. subst d. change (k_mapped k' <> TASK_PAGE_INDEX x). rewrite (sw_page _ _ _ _ _ _ _ _ S).
    change (live A x) in Hx. pose proof (rp_range _ _ O2 x Hx). unfold TASK_PAGE_INDEX. lia.
  - destruct O9 as (p0 & E0 & N0). change (exists y, k_pcbs k' !! TASK_KSTACK_TOP 0 = Some y /\ pcb_pid y = 0).
    destruct (ko_pcb _ Hk' 0 ltac:(done)) as (y & Ey & _). exists y. split; [exact Ey|]. specialize (Hpcb 0 y Ey). case_decide as D.
    + subst y. change (pcb_pid p = 0). congruence.
    + rewrite E0 in Hpcb. by injection Hpcb as <-.
  - intros x px Hx Hxd Epx. change (x <> d) in Hxd. change (k_pcbs k' !! TASK_KSTACK_TOP x = Some px) in Epx.
    specialize (Hpcb x px Epx). case_decide as D; [by subst|]. by apply (O10 x px).
  - intros x w Ew. destruct (O12 x w Ew) as [Hx Hw]. split; [exact Hx|]. apply (blocked_kept k); [exact Hw|]. intros fp Hfile _.
    destruct (sw_rest _ _ _ _ _ _ _ _ S) as [E' _]. change (Some fp ∈ rtc_files (k_rtc k')). by rewrite E'.
  - intros x y Ey. change (delete d (o_left s) !! x = Some y) in Ey. apply lookup_delete_Some in Ey as [Hxd Ey].
    destruct (O13 x y Ey) as (H1 & H2 & H3 & px & Epx & H4). split; [by intros ->|]. do 2 (split; [done|]). exists px. split; [|exact H4].
    change (k_pcbs k' !! TASK_KSTACK_TOP x = Some px). rewrite (sw_pcbs _ _ _ _ _ _ _ _ S).
    rewrite lookup_insert_ne; [exact Epx|]. intros E'. apply H1. symmetry. by apply TASK_KSTACK_TOP_inj.
  - change (delete d (astray A) = t_next_pid <$> delete d (o_left s)). rewrite O14. symmetry. apply fmap_delete.
Qed.

(** A terminal without a process gets a shell; the tick is left behind. *)
Lemma given_shell t e : env_ok e -> tick_ok k (o_left s) (running A) (turn A) t -> stack_of A (next_term (turn A)) = [] ->
  exists r sc pid p data, pit_isr e t (o_sched s) = Some (r, sc) /\
    after_tick t (o_left s) r (s_kernel sc) = Some (<[running A := t]> (o_left s), s_kernel sc) /\ fresh A pid /\
    (KSTACKS <= t_kbuf t /\ t_kbuf t + BUF_SIZE <= 0x800000) /\ cur_proc_ind sc = next_term (turn A) /\
    os_ok (mkOs sc (o_kb s) (o_blocked s) (<[running A := t]> (o_left s)))
      (mkSchedule (stacks (push (next_term (turn A)) pid A)) (next_term (turn A)) pid (<[running A := t_next_pid t]> (astray A))) /\
    started k (s_kernel sc) (running A) p (t_xesp t) (t_xebp t) (t_kbuf t) (next_term (turn A)) pid None data.
Proof.
  intros He [T1 T2 _] Hnil. destruct (ticking t T1) as (p & I). pose proof (ok_stacks _ _ O) as O2.
  pose proof next_range as Hn. pose proof (so_kernel _ (ok_system _ _ O)) as Hk. destruct (ok_shell _ _ O) as (ino & data & [Sh1 Sh2 Sh3 Sh4]).
  pose proof (rp_front _ _ O2 _ Hn) as Hf. rewrite Hnil in Hf. change (top []) with 0 in Hf. destruct (T2 Hf) as (Hx & [T3 T4 T5] & T6).
  destruct (lowest_pid (pid_used k)) as [pid|] eqn:Epid; [|done].
  assert (X : executing e k (running A) (t_xesp t) (t_kbuf t) (t_shell t) (next_term (turn A)) shell_word p).
  { split; [done|done|apply (it_pid _ _ _ _ I)| |done|done| |apply (it_pcb _ _ _ _ I)|done|done].
    - intros H. apply (rp_live _ _ O2); [by apply (rp_range _ _ O2), (running_live s A O)|by apply (running_live s A O)].
    - lia. }
  rewrite <- Sh3 in Sh4.
  pose proof (tick_shell e t (o_sched s) (running A) p pid ino I) as TS. cbv zeta in TS. rewrite (ok_turn _ _ O) in TS.
  destruct (TS Hf X Epid Sh1 Sh2 Sh4) as (k' & E2 & Hk' & _ & S).
  assert (Hfresh : fresh A pid) by by apply (lowest_fresh k).
  assert (Ht : new_term (next_term (turn A)) p = next_term (turn A)) by (unfold new_term; rewrite decide_True; [done|lia]).
  assert (Hpar : new_parent (running A) (next_term (turn A)) = match stack_of A (next_term (turn A)) with [] => 0 | pp :: _ => TASK_KSTACK_TOP pp end).
  { rewrite Hnil. unfold new_parent. rewrite decide_False; [done|]. intros [_ H]. lia. }
  assert (Htop : forall d l, stack_of A (next_term (turn A)) = d :: l -> d = running A) by (intros d l E; congruence).
  opose proof (begun e (t_xesp t) (t_xebp t) (t_kbuf t) (t_shell t) (next_term (turn A)) shell_word p pid _ k' (next_term (turn A)) Hn X Hx Epid S Hk' Ht Hpar Htop
    (<[running A := t]> (o_left s)) (next_term (turn A)) (send_eoi PIT_IRQNUM (s_pic (o_sched s))) Hn _) as Ok.
  { intros d y Ey. apply lookup_insert_Some in Ey as [[<- <-]|[_ Ey]]; [right|by left]. by split_and!. }
  assert (Ea : t_next_pid <$> <[running A := t]> (o_left s) = <[running A := t_next_pid t]> (astray A))
    by (rewrite (ok_astray _ _ O); apply fmap_insert).
  rewrite Ea in Ok.
  eexists _, _, pid, p, _. split; [exact E2|]. split; [|split; [exact Hfresh|split; [exact (kbuf_range _ _ _ _ _ _ _ _ _ X)|split; [done|split; [exact Ok|exact S]]]]].
  cbn [after_tick]. by rewrite (stack_pid_eq (running A)) by (apply running_range || exact T1).
Qed.
End Moves.

(** ** The ticks left behind go on *)

(** The pointers saved for a process that does not run, [e] before and [e'] after,
    with the tick left behind on its stack: they stay, unless the tick went on and
    switched away, which leaves its own. *)
Definition follows (o o' : option tick) (e e' : Z * Z) : Prop :=
  (e' = e /\ (o' = o \/ o' = None)) \/ exists t, o = Some t /\ e' = (t_esp t, t_ebp t) /\ o' = None.

Lemma follows_refl o e : follows o o e e.
Proof. left. by split; [|left]. Qed.

Lemma follows_trans o1 o2 o3 e1 e2 e3 : follows o1 o2 e1 e2 -> follows o2 o3 e2 e3 -> follows o1 o3 e1 e3.
Proof.
  intros [[-> [-> | ->]]|(t & -> & -> & ->)] [[-> [-> | ->]]|(t' & E & -> & ->)]; try done.
  all: try (left; split; [done|by (left + right)]).
  all: right; by eexists.
Qed.

(** What the processes and the kernel's memory see of a chain of switches. *)
Record crossed (k : kernel) (l : left_behind) (k' : kernel) (l' : left_behind) : Prop := {
  cx_fs : k_fs k' = k_fs k;
  cx_kernel : forall a, ~ user_address a -> ld8 (k_mem k') a = ld8 (k_mem k) a;
  cx_waits : forall d esp ebp f, waits k d esp ebp f ->
    exists esp' ebp', waits k' d esp' ebp' f /\ follows (l !! d) (l' !! d) (esp, ebp) (esp', ebp')
}.

Lemma crossed_trans k1 l1 k2 l2 k3 l3 : crossed k1 l1 k2 l2 -> crossed k2 l2 k3 l3 -> crossed k1 l1 k3 l3.
Proof.
  intros [A1 A2 A3] [B1 B2 B3]. split; [congruence|intros a Ha; by rewrite B2, A2|]. intros d esp ebp f W.
  destruct (A3 _ _ _ _ W) as (esp1 & ebp1 & W1 & F1), (B3 _ _ _ _ W1) as (esp2 & ebp2 & W2 & F2). exists esp2, ebp2.
  split; [done|by eapply follows_trans].
Qed.

(** A tick left behind ends. *)
Lemma crossed_end k l c : crossed k l k (delete c l).
Proof.
  split; [done..|]. intros d esp ebp f W. exists esp, ebp. split; [done|]. left. split; [done|].
  destruct (decide (c = d)) as [<-|D]; [right; apply lookup_delete_eq|left; by rewrite lookup_delete_ne].
Qed.

(** A switch by the tick left behind on the stack of [c]. *)
Lemma crossed_switch k k' l c t p d q : l !! c = Some t -> switched k k' c (t_esp t) (t_ebp t) p d q -> crossed k l k' (delete c l).
Proof.
  intros Ec S. split; [apply (sw_rest _ _ _ _ _ _ _ _ S)|apply (sw_kernel _ _ _ _ _ _ _ _ S)|]. intros x esp ebp f W.
  destruct (decide (c = x)) as [<-|D].
  - destruct (switched_suspends _ _ _ _ _ _ _ _ S) as (y & Y1 & Y2 & Y3 & Y4). exists (t_esp t), (t_ebp t). split.
    + exists y. do 3 (split; [done|]). intros a Ha. rewrite Y4 by done. destruct W as (z & _ & _ & _ & Hf). by apply Hf.
    + right. exists t. split; [done|]. split; [done|apply lookup_delete_eq].
  - exists esp, ebp. split; [apply (switched_waits _ _ _ _ _ _ _ _ S x); [congruence|done]|]. rewrite lookup_delete_ne by done. apply follows_refl.
Qed.

Lemma in_front_same k k' d : (forall i, front k' i = front k i) -> in_front k d -> in_front k' d.
Proof. intros H [->|(i & Hi & E)]; [by left|right]. exists i. by rewrite H. Qed.

Lemma leads_same k k' : (forall i, front k' i = front k i) -> forall fuel l d, leads_ok fuel k l d -> leads_ok fuel k' l d.
Proof.
  intros H. induction fuel as [|n IH]; intros l d; cbn [leads_ok]; destruct (l !! d) as [t|]; try done.
  - intros [H1 _]. split; [by apply (in_front_same k)|done].
  - intros [H1 H2]. split; [by apply (in_front_same k)|]. intros Hne. by apply IH, H2.
Qed.

Lemma os_eta s : mkOs (mkSched (o_kernel s) (cur_proc_ind (o_sched s)) (s_pic (o_sched s))) (o_kb s) (o_blocked s) (o_left s) = s.
Proof. by destruct s as [[k i p] kb b l]. Qed.

Lemma schedule_eta A : mkSchedule (stacks A) (turn A) (running A) (astray A) = A.
Proof. by destruct A. Qed.

(** Each tick left behind goes on at most once, so that the processor reaches a
    process. *)
Lemma goes_on fuel : forall s A left esp ebp, os_ok s A -> o_left s = delete (running A) left -> on_stack (running A) esp ->
  (forall t, left !! running A = Some t -> esp = t_xesp t /\ ebp = t_xebp t /\ on_stack (running A) (t_esp t)) ->
  (size left <= fuel)%nat -> leads_ok fuel (o_kernel s) left (running A) ->
  exists left' k' d f, go_on fuel left esp ebp (o_kernel s) = Some (left', k') /\ lands fuel (t_next_pid <$> left) (running A) = (d, f) /\
    os_ok (mkOs (mkSched k' (cur_proc_ind (o_sched s)) (s_pic (o_sched s))) (o_kb s) (o_blocked s) left') (mkSchedule (stacks A) (turn A) d f) /\
    crossed (o_kernel s) left k' left'.
Proof.
  induction fuel as [|n IH]; intros s A left esp ebp O El Hesp Hleft Hsize Hlead; pose proof (running_range s A O) as Hr.
  all: cbn [go_on lands leads_ok] in Hlead |- *; rewrite (stack_pid_eq (running A)) by done; rewrite lookup_fmap.
  all: destruct (left !! running A) as [t|] eqn:Et; cbn [fmap option_fmap option_map].
  2, 4: exists left, (o_kernel s), (running A), (t_next_pid <$> left); do 2 (split; [done|]);
    rewrite delete_id in El by done; rewrite <- El, <- (ok_astray _ _ O), os_eta, schedule_eta; split; [done|];
    split; [done..|]; intros d e1 e2 f W; exists e1, e2; split; [done|apply follows_refl].
  { assert (left = ∅) as -> by (apply map_size_empty_inv; lia). done. }
  destruct (Hleft t eq_refl) as (-> & -> & Hstk). rewrite decide_True by done. destruct Hlead as [Hin Hlead].
  destruct (running_pcb s A O) as (p & Ep & Np). pose proof (so_kernel _ (ok_system _ _ O)) as Hk.
  assert (Ef : delete (running A) (t_next_pid <$> left) = t_next_pid <$> delete (running A) left) by (symmetry; apply fmap_delete).
  rewrite Ef, <- El. clear Ef. destruct (decide (t_next_pid t = running A)) as [Ev|Dv].
  - rewrite Ev, (pit_rest_stay t (o_kernel s) (running A) p Hr Hstk Ep Np), bind_ret.
    exists (o_left s), (o_kernel s), (running A), (t_next_pid <$> o_left s). do 2 (split; [done|]).
    split; [by rewrite <- (ok_astray _ _ O), os_eta, schedule_eta|]. rewrite El. apply crossed_end.
  - pose proof (in_front_on_top _ A _ (ok_stacks _ _ O) Hin) as Hv.
    destruct (hop s A O t (t_next_pid t) (turn A) (s_pic (o_sched s)) Hstk Hv Dv (rp_turn _ _ (ok_stacks _ _ O)))
      as (p2 & q & k' & E & Eq & Hq & S & O').
    rewrite E, bind_ret. set (s1 := mkOs _ _ _ _) in O'. set (A1 := mkSchedule _ _ _ _) in O'.
    assert (Hfr : forall i, front k' i = front (o_kernel s) i) by (intros i; apply (switched_front _ _ _ _ _ _ _ _ S)).
    opose proof (IH s1 A1 (o_left s) (pcb_esp q) (pcb_ebp q) O' eq_refl Hq _ _ _) as (left' & k2 & d & f & G1 & G2 & G3 & G4).
    + intros t' Et'. change (o_left s !! t_next_pid t = Some t') in Et'. destruct (ok_left _ _ O _ _ Et') as (_ & _ & H3 & px & Epx & H4 & H5). rewrite Eq in Epx. by injection Epx as <-.
    + rewrite El, map_size_delete_Some; [lia|by eexists].
    + rewrite El. apply (leads_same (o_kernel s)); [exact Hfr|]. by apply Hlead.
    + exists left', k2, d, f. split; [exact G1|]. split; [exact G2|]. split; [rewrite (ok_turn _ _ O); exact G3|].
      apply (crossed_trans _ _ k' (o_left s)); [|exact G4]. rewrite El. by apply (crossed_switch _ _ _ _ t p2 (t_next_pid t) q).
Qed.

(** What a tick that found a process in front did to the others. *)
Record turned (s s' : os) (c : Z) : Prop := {
  td_fs : k_fs (o_kernel s') = k_fs (o_kernel s);
  td_kernel : forall a, ~ user_address a -> ld8 (k_mem (o_kernel s')) a = ld8 (k_mem (o_kernel s)) a;
  td_waits : forall d esp ebp f, d <> c -> waits (o_kernel s) d esp ebp f ->
    exists esp' ebp', waits (o_kernel s') d esp' ebp' f /\ follows (o_left s !! d) (o_left s' !! d) (esp, ebp) (esp', ebp');
  td_suspends : current (o_kernel s') c \/ exists esp ebp, waits (o_kernel s') c esp ebp (page_byte (o_kernel s) (TASK_PAGE_INDEX c))
}.

(** The next process is switched to, and the ticks left behind go on. *)
Lemma moved s A t e : os_ok s A -> on_stack (running A) (t_esp t) -> stack_of A (next_term (turn A)) <> [] ->
  leads_ok (size (o_left s)) (o_kernel s) (o_left s) (top (stack_of A (next_term (turn A)))) ->
  exists r sc left k' d f, pit_isr e t (o_sched s) = Some (r, sc) /\ after_tick t (o_left s) r (s_kernel sc) = Some (left, k') /\
    cur_proc_ind sc = next_term (turn A) /\
    lands (size (astray A)) (astray A) (top (stack_of A (next_term (turn A)))) = (d, f) /\
    let s' := mkOs (mkSched k' (cur_proc_ind sc) (s_pic sc)) (o_kb s) (o_blocked s) left in
    os_ok s' (mkSchedule (stacks A) (next_term (turn A)) d f) /\ turned s s' (running A).
Proof.
  intros O Hesp Hne Hlead. destruct (ticking s A O t Hesp) as (p & I). pose proof (ok_stacks _ _ O) as R. pose proof (next_range A) as Hn.
  set (i := next_term (turn A)) in *. set (d := top (stack_of A i)) in *. pose proof (top_on_top A i Hn) as Hd. fold d in Hd.
  assert (Hd0 : d <> 0) by (intros H; by apply Hne, (top_zero A (o_kernel s) i R Hn)).
  assert (Esize : size (astray A) = size (o_left s)) by (rewrite (ok_astray _ _ O); apply map_size_fmap).
  pose proof (tick_rest e t (o_sched s) (running A) p I d) as Et. rewrite (ok_turn _ _ O) in Et. fold i in Et.
  specialize (Et (rp_front _ _ R i Hn) Hd0).
  change (s_kernel (o_sched s)) with (o_kernel s) in Et.
  destruct (decide (d = running A)) as [Ed|Dd].
  - destruct (running_pcb s A O) as (p2 & Ep2 & Np2).
    rewrite Ed, (pit_rest_stay t _ (running A) p2 (running_range s A O) Hesp Ep2 Np2), bind_ret in Et.
    eexists _, _, (o_left s), (o_kernel s), d, (astray A). split; [exact Et|]. split; [done|]. split; [done|]. split.
    { rewrite Ed. assert (En : astray A !! running A = None) by (by rewrite (ok_astray _ _ O), lookup_fmap, (running_left s A O)).
      destruct (size (astray A)); cbn [lands]; by rewrite En. }
    cbv zeta. split; [|split; try done].
    + destruct O as [O1 O2 O3 O4 O5 O6 O7 O8 O9 O10 O11 O12 O13 O14]. rewrite Ed. split; try done. by apply (represents_same _ A).
    + intros x esp ebp f _ W. exists esp, ebp. split; [exact W|apply follows_refl].
    + left. split; [apply (running_range s A O)|apply O].
  - destruct (hop s A O t d i (send_eoi PIT_IRQNUM (s_pic (o_sched s))) Hesp Hd Dd Hn) as (p2 & q & k1 & E & Eq & Hq & S & O').
    rewrite E, bind_ret in Et. set (s1 := mkOs _ _ _ _) in O'. set (A1 := mkSchedule _ _ _ _) in O'.
    assert (Hfr : forall j, front k1 j = front (o_kernel s) j) by (intros j; apply (switched_front _ _ _ _ _ _ _ _ S)).
    opose proof (goes_on (size (o_left s)) s1 A1 (o_left s) (pcb_esp q) (pcb_ebp q) O' eq_refl Hq _ _ _) as (left' & k2 & d2 & f & G1 & G2 & G3 & G4).
    + intros t' Et'. change (o_left s !! d = Some t') in Et'. destruct (ok_left _ _ O _ _ Et') as (_ & _ & H3 & px & Epx & H4 & H5). rewrite Eq in Epx. by injection Epx as <-.
    + done.
    + by apply (leads_same (o_kernel s)).
    + eexists _, _, left', k2, d2, f. split; [exact Et|]. split; [exact G1|]. split; [done|].
      split; [rewrite Esize, (ok_astray _ _ O); exact G2|]. cbv zeta. split; [exact G3|]. destruct G4 as [C1 C2 C3]. split.
      * change (k_fs k2 = k_fs (o_kernel s)). rewrite C1. apply (sw_rest _ _ _ _ _ _ _ _ S).
      * intros a Ha. change (ld8 (k_mem k2) a = ld8 (k_mem (o_kernel s)) a). rewrite C2 by done. by apply (sw_kernel _ _ _ _ _ _ _ _ S).
      * intros x esp ebp g Hx W. by apply C3, (switched_waits _ _ _ _ _ _ _ _ S).
      * right. destruct (C3 _ _ _ _ (switched_suspends _ _ _ _ _ _ _ _ S)) as (esp & ebp & W & _). by exists esp, ebp.
Qed.

(** ** One step of the system *)

(** What a step did to the kernel, with the abstract step it stands for. *)
Inductive outcome (s s' : os) (A : schedule) (v : event) : schedule -> Prop :=
  | Stayed : steady (o_kernel s) (o_kernel s') -> o_left s' = o_left s -> sched_step v A A -> outcome s s' A v A
  | Began A' esp ebp kbuf ind pid p args data : started (o_kernel s) (o_kernel s') (running A) p esp ebp kbuf ind pid args data ->
      KSTACKS <= kbuf /\ kbuf + BUF_SIZE <= 0x800000 -> fresh A pid ->
      (forall d, d <> running A -> o_left s' !! d = o_left s !! d) -> sched_step v A A' -> outcome s s' A v A'
  | Finished A' k p pp : v = Halt \/ v = Signals -> steady (o_kernel s) k -> halted k (o_kernel s') (running A) p pp ->
      o_left s' = o_left s -> sched_step v A A' -> outcome s s' A v A'
  | Turned A' : turned s s' (running A) -> sched_step v A A' -> outcome s s' A v A'.

Section Step.
Context (s : os) (A : schedule) (O : os_ok s A).

Lemma stayed v k kb b : steady (o_kernel s) k -> scan_state kb = 0 \/ scan_state kb = 1 -> sched_step v A A ->
  (forall c w, b !! c = Some w -> live A c /\ blocked_ok k c w) ->
  exists A', outcome s (mkOs (o_sched (with_kernel k s)) kb b (o_left s)) A v A' /\ os_ok (mkOs (o_sched (with_kernel k s)) kb b (o_left s)) A'.
Proof. intros S Hkb Hst Hb. exists A. split; [by apply Stayed|by apply os_ok_steady]. Qed.

(** The running process, which is not blocked, changes its state. *)
Lemma stayed_kernel v c k : current (o_kernel s) c -> o_blocked s !! c = None -> steady (o_kernel s) k -> sched_step v A A ->
  exists A', outcome s (with_kernel k s) A v A' /\ os_ok (with_kernel k s) A'.
Proof.
  intros Hc Hf S Hst. apply (stayed v k (o_kb s) (o_blocked s) S (ok_scan _ _ O) Hst). apply (blocked_other s A k O); [|exact S].
  by rewrite <- (current_running s A c O Hc).
Qed.

Lemma finished_by v c e esp status ctx k a b st k' : in_kernel s c esp e -> v = Halt \/ v = Signals ->
  steady (o_kernel s) k -> _syscall_halt e esp status ctx k = Some (Resumed a b st, k') ->
  exists A', outcome s (with_kernel k' s) A v A' /\ os_ok (with_kernel k' s) A'.
Proof.
  intros [Hc H1 Hf Hesp He] Hv S E. pose proof (current_running s A c O Hc) as Ec. assert (Hc0 : c <> 0) by lia.
  pose proof Hf as Hf'. rewrite Ec in Hf'. pose proof (blocked_other s A k O Hf' S) as Hb.
  pose proof (os_ok_steady s A k (o_kb s) (o_blocked s) O S (ok_scan _ _ O) Hb) as O'.
  destruct (ended _ A O' c e esp status ctx _ k' Ec Hc0 Hf Hesp E) as (i & l0 & Hi & Hl & [(_ & (? & [=]) & _)|(pp & l & -> & Ok & p & H)]).
  rewrite Ec in Hl, H. eexists. split; [|exact Ok]. by apply (Finished _ _ _ _ _ k p pp); [..|apply (Ends v A i pp l)].
Qed.

Lemma execute_step c e esp ebp kbuf command l r k : in_kernel s c esp e ->
  command_ok (o_kernel s) c kbuf command l -> syscall_execute e esp ebp kbuf command (o_kernel s) = Some (r, k) ->
  exists A', outcome s (with_kernel k s) A Execute A' /\ os_ok (with_kernel k s) A'.
Proof.
  intros [Hc H1 Hf Hesp He] [C1 C2 C3] E. pose proof (current_running s A c O Hc) as Ec. destruct (running_pcb s A O) as (p & Ep & _).
  assert (Hne : running A <> 0) by lia. destruct (running_stack s A O Hne) as (i & l0 & Hi & Hl0).
  assert (X : executing e (o_kernel s) (running A) esp kbuf command (-1) l p).
  { split; [apply O|apply He|rewrite <- Ec; apply Hc| |by rewrite <- Ec|by rewrite <- Ec|unfold TERM_NUM; lia|exact Ep|exact C2|exact C3].
    intros _. rewrite <- Ec. by apply (current_in_use s A c). }
  destruct (execute_cases s A O e esp ebp kbuf command (-1) l p r k X E) as [(v & _ & S)|(pid & data & entry & _ & Hpid & S & Hk')].
  { apply (stayed_kernel Execute c k Hc Hf S). apply Refused. }
  pose proof (ok_stacks _ _ O) as R.
  destruct (chain_at _ _ _ (running A) (rp_chain _ _ R i Hi)) as (p' & Ep' & Et); [rewrite Hl0; by left|].
  rewrite Ep in Ep'. injection Ep' as <-.
  assert (Hesp' : on_stack (running A) esp) by (by rewrite <- Ec).
  assert (Ht : new_term (-1) p = i) by (unfold new_term; rewrite decide_False; [exact Et|intros H; by apply H]).
  assert (Hpar : new_parent (running A) (-1) = match stack_of A i with [] => 0 | pp :: _ => TASK_KSTACK_TOP pp end).
  { rewrite Hl0. unfold new_parent. by rewrite decide_True. }
  assert (Htop : forall d l, stack_of A i = d :: l -> d = running A) by (intros d l1 E1; congruence).
  opose proof (begun s A O e esp ebp kbuf command (-1) l p pid data k i Hi X Hesp' Hpid S Hk' Ht Hpar Htop
    (o_left s) (turn A) (s_pic (o_sched s)) (rp_turn _ _ R) _) as Ok; [by left|].
  rewrite <- (ok_astray _ _ O) in Ok.
  exists (set_running pid (push i pid A)). split; [|unfold with_kernel; rewrite (ok_turn _ _ O); exact Ok].
  assert (Hfresh : fresh A pid) by (apply (lowest_fresh (o_kernel s)); [apply O|exact R|exact Hpid]).
  apply (Began _ _ _ _ _ esp ebp kbuf (-1) pid p (kept_args (command_args l)) data);
    [exact S|exact (kbuf_range _ _ _ _ _ _ _ _ _ X)|exact Hfresh|done|]. by apply (Starts A i pid l0).
Qed.

Lemma tick_step c e t : current (o_kernel s) c -> env_ok e -> tick_ok (o_kernel s) (o_left s) c (cur_proc_ind (o_sched s)) t ->
  exists r sc left k, pit_isr e t (o_sched s) = Some (r, sc) /\ after_tick t (o_left s) r (s_kernel sc) = Some (left, k) /\
    cur_proc_ind sc = next_term (turn A) /\
    let s' := mkOs (mkSched k (cur_proc_ind sc) (s_pic sc)) (o_kb s) (o_blocked s) left in
    (stack_of A (next_term (turn A)) = [] -> left = <[c := t]> (o_left s)) /\
    exists A', outcome s s' A Tick A' /\ os_ok s' A'.
Proof.
  intros Hc He Ht. rewrite (current_running s A c O Hc), (ok_turn _ _ O) in *.
  destruct (decide (stack_of A (next_term (turn A)) = [])) as [Hnil|Hne].
  - destruct (given_shell s A O t e He Ht Hnil) as (r & sc & pid & p & data & E & Ea & Hf & Hkb & Ei & Ok & S).
    exists r, sc, (<[running A := t]> (o_left s)), (s_kernel sc). do 3 (split; [done|]). cbv zeta. split; [done|]. destruct sc as [k i pic].
    eexists. split; [|exact Ok]. eapply Began; [exact S|exact Hkb|exact Hf| |by apply Shell]. intros d Hd. by apply lookup_insert_ne.
  - opose proof (moved s A t e O (to_esp _ _ _ _ _ Ht) Hne _) as (r & sc & left & k & d & f & E & Ea & Ei & El & Ok & Td).
    { apply (to_leads _ _ _ _ _ Ht); [apply (rp_front _ _ (ok_stacks _ _ O)), next_range|].
      by intros H%(top_zero A (o_kernel s) _ (ok_stacks _ _ O) (next_range A)). }
    exists r, sc, left, k. do 3 (split; [done|]). cbv zeta. split; [done|]. eexists. split; [|exact Ok]. eapply Turned; [exact Td|by apply Moves].
Qed.

Lemma block_step c e esp fd buf n w k : in_kernel s c esp e -> user_buffer buf n -> read_begin esp fd buf n (o_kernel s) = Some (w, k) ->
  exists A', outcome s (mkOs (o_sched (with_kernel k s)) (o_kb s) (<[c := w]> (o_blocked s)) (o_left s)) A Run A' /\
    os_ok (mkOs (o_sched (with_kernel k s)) (o_kb s) (<[c := w]> (o_blocked s)) (o_left s)) A'.
Proof.
  intros I Hb E. pose proof I as [Hc H1 Hf _ _]. destruct (begin_steady e _ c esp fd buf n w k (current_call s A c e esp O I) Hb E) as [S Hw].
  apply (stayed Run k (o_kb s) _ S (ok_scan _ _ O) (Stays A)). intros d w' Ed. pose proof (current_running s A c O Hc) as Ec.
  destruct (decide (c = d)) as [<-|D].
  - rewrite lookup_insert_eq in Ed. injection Ed as <-. split; [|exact Hw]. rewrite Ec. apply (running_live s A O). lia.
  - rewrite lookup_insert_ne in Ed by done. rewrite Ec in Hf. by apply (blocked_other s A k O Hf S).
Qed.

Lemma wake_step c w r k : current (o_kernel s) c -> o_blocked s !! c = Some w -> read_ready w (o_kernel s) = Some true ->
  read_end w (o_kernel s) = Some (r, k) ->
  exists A', outcome s (mkOs (o_sched (with_kernel k s)) (o_kb s) (delete c (o_blocked s)) (o_left s)) A Run A' /\
    os_ok (mkOs (o_sched (with_kernel k s)) (o_kb s) (delete c (o_blocked s)) (o_left s)) A'.
Proof.
  intros Hc Hw D E. destruct (ok_blocked _ _ O c w Hw) as [_ Hok]. pose proof (end_steady _ c w r k (ok_system _ _ O) Hok D E) as S.
  apply (stayed Run k (o_kb s) _ S (ok_scan _ _ O) (Stays A)). intros d w' Ed. destruct (decide (c = d)) as [<-|Dn]; [by rewrite lookup_delete_eq in Ed|].
  rewrite lookup_delete_ne in Ed by done. destruct (ok_blocked _ _ O d w' Ed) as [Hl Hw']. split; [exact Hl|].
  apply (blocked_kept (o_kernel s)); [exact Hw'|]. intros fp Hin Hfp. apply (st_clocks _ _ S); [done|]. unfold busy_stack.
  rewrite Hfp, (proj2 Hc). unfold TASK_KSTACK_TOP, TASK_KSTACK_BOT. lia.
Qed.

Lemma step_outcome linkage v s' : 0 <= linkage < 4294967296 -> os_step linkage s v s' -> exists A', outcome s s' A v A' /\ os_ok s' A'.
Proof.
  intros Hlink [c m Hc H1 Hf Hm Hmem|c e esp x r k I Hx E|c e esp fd buf n w k I Hb E|c w r k Hc Hw D E|status b junk kb ts Hb E|c g st Hc E
    |c e esp junk cr2 irq err k I H64 H36 Ha E|c e esp ctx r k I Hctx E|c e esp ebp kbuf command l r k I Hcmd E|c e esp status ctx r k I E|c e t r sc left k Hc He Ht E Ea].
  - apply (stayed_kernel Run c); [done|done|apply user_steady; [apply O|done..]|apply Stays].
  - apply (stayed_kernel Run c); [apply I|apply I| |apply Stays]. by apply (call_steady e (o_kernel s) c esp x r k (current_call s A c e esp O I)).
  - by apply (block_step c e esp fd buf n w k).
  - by apply (wake_step c w r k).
  - destruct (keyboard_steady status b junk (o_kb s) (o_kernel s) kb ts (ok_system _ _ O) Hb (ok_scan _ _ O) E) as [S Hkb].
    apply (stayed Run _ kb _ S Hkb (Stays A)). by apply (blocked_same s A).
  - destruct (running_pcb s A O) as (p & Ep & _). rewrite (current_running s A c O Hc) in E.
    pose proof (rtc_steady _ _ _ _ p (ok_system _ _ O) Ep E) as S. destruct (driven_isr _ _ _ _ _ E) as [Hg _].
    apply (stayed Run _ (o_kb s) (o_blocked s) S (ok_scan _ _ O) (Stays A)). apply (blocked_same s A _ O). cbn [k_rtc set_rtc]. by rewrite Hg.
  - apply (stayed_kernel Run c); [apply I|apply I| |apply Stays].
    by apply (fault_steady junk cr2 e (o_kernel s) c esp irq err k (current_call s A c e esp O I)).
  - pose proof (check_signals_checked linkage e c esp ctx (o_kernel s) (r, k) Hlink (current_call s A c e esp O I) Hctx E) as Hch.
    destruct r as [ctx'|a b st]; cbn in Hch; [apply (stayed_kernel Signals c); [apply I|apply I|exact Hch|apply Handled]|].
    destruct Hch as (k1 & ctx1 & S & E1). apply (finished_by Signals c e esp 256 ctx1 k1 a b st k I); [by right|done|done].
  - by apply (execute_step c e esp ebp kbuf command l r).
  - pose proof I as [Hc H1 Hf Hesp He]. assert (Ec : c = running A) by by apply (current_running s A). assert (Hc0 : c <> 0) by lia.
    destruct (ended s A O c e esp (u8 status) ctx r k Ec Hc0 Hf Hesp E) as (i & l0 & Hi & Hl & [(-> & _ & ->)|(pp & l & -> & Ok & p & H)]).
    + apply (stayed_kernel Halt c _ Hc Hf); [apply steady_refl, O|]. rewrite Ec in Hl. by apply (Again A i).
    + rewrite Ec in Hl, H. eexists. split; [|exact Ok]. apply (Finished _ _ _ _ _ (o_kernel s) p pp); [by left|apply steady_refl, O|exact H|done|].
      apply (Ends Halt A i pp l); [by left|exact Hi|exact Hl].
  - destruct (tick_step c e t Hc He Ht) as (r2 & sc2 & l2 & k2 & E2 & Ea2 & _ & _ & H). rewrite E in E2. apply (inj Some) in E2.
    injection E2 as <- <-. rewrite Ea in Ea2. apply (inj Some) in Ea2. by injection Ea2 as <- <-.
Qed.
End Step.

(** ** A process that does not run *)

Lemma sched_step_live v A A' d : length (stacks A) = 3%nat -> sched_step v A A' -> live A d ->
  (v = Halt \/ v = Signals -> d <> running A) -> live A' d.
Proof.
  intros Hlen St (i & Hi & Hd) Hne.
  assert (Hpush : forall j pid, 0 <= j < TERM_NUM -> live (push j pid A) d).
  { intros j pid Hj. exists i. split; [done|]. unfold push. rewrite stack_of_set by done. case_decide; [subst; by right|done]. }
  destruct St as [A|A|A j pid l Hj _ _|A j _ _|A|v A j pp l Hv Hj Hl|A d' f _ _|A pid x _ _]; try (by exists i).
  - exact (Hpush j pid Hj).
  - exists i. split; [done|]. change (d ∈ stack_of (set_stack j (pp :: l) A) i). rewrite stack_of_set by done. case_decide as D; [|done].
    subst i. rewrite Hl in Hd. apply elem_of_cons in Hd as [->|Hd]; [by destruct (Hne Hv)|done].
  - apply (Hpush (next_term (turn A)) pid). unfold next_term. by apply Z.mod_pos_bound.
Qed.

(** What changes nothing of the tables leaves a page that is not mapped. *)
Lemma steady_waits k k' d esp ebp f : steady k k' -> k_mapped k <> TASK_PAGE_INDEX d -> waits k d esp ebp f -> waits k' d esp ebp f.
Proof.
  intros S Hd (q & Eq & <- & <- & Hf). destruct (st_tasks _ _ S _ _ Eq) as (q' & Eq' & Sk). exists q'. split; [exact Eq'|].
  split; [apply (sk_esp _ _ Sk)|]. split; [apply (sk_ebp _ _ Sk)|]. intros a Ha. rewrite <- (Hf a Ha).
  unfold page_byte, page_of_task. rewrite (st_mapped _ _ S), (st_pages _ _ S). by rewrite !decide_False by congruence.
Qed.

Lemma halted_waits k k' c p pp d esp ebp f : halted k k' c p pp -> waits k d esp ebp f -> waits k' d esp ebp f.
Proof.
  intros H (q & Eq & <- & <- & Hf). exists q. rewrite (hd_pcbs _ _ _ _ _ H). do 3 (split; [done|]). intros a Ha.
  rewrite (hd_user _ _ _ _ _ H) by done. by apply Hf.
Qed.

Lemma started_waits k k' c pc esp ebp kbuf ind pid args data d esp' ebp' f :
  started k k' c pc esp ebp kbuf ind pid args data -> d <> pid -> d <> c -> waits k d esp' ebp' f -> waits k' d esp' ebp' f.
Proof.
  intros S D1 D2 (q & Eq & <- & <- & Hf). exists q. split; [|do 2 (split; [done|])].
  - rewrite (sd_pcbs _ _ _ _ _ _ _ _ _ _ _ S); [done|..]; intros E; by apply TASK_KSTACK_TOP_inj in E.
  - intros a Ha. rewrite (sd_others _ _ _ _ _ _ _ _ _ _ _ S); [by apply Hf|unfold TASK_PAGE_INDEX; lia|done].
Qed.

(** The page of a process that does not run is not the one mapped. *)
Lemma other_page s A d : os_ok s A -> live A d -> d <> running A -> k_mapped (o_kernel s) <> TASK_PAGE_INDEX d.
Proof.
  intros O Hl Hne. destruct (decide (running A = 0)) as [H|H]; [by apply (ok_idle _ _ O)|].
  rewrite (ok_mapped _ _ O H). unfold TASK_PAGE_INDEX. lia.
Qed.

Lemma outcome_waits s s' A v A' d esp ebp f : os_ok s A -> outcome s s' A v A' -> live A d -> d <> running A ->
  waits (o_kernel s) d esp ebp f ->
  exists esp' ebp', waits (o_kernel s') d esp' ebp' f /\ follows (o_left s !! d) (o_left s' !! d) (esp, ebp) (esp', ebp').
Proof.
  intros O Out Hl Hne W. pose proof (other_page s A d O Hl Hne) as Hm.
  assert (Hkeep : o_left s' !! d = o_left s !! d -> waits (o_kernel s') d esp ebp f ->
    exists esp' ebp', waits (o_kernel s') d esp' ebp' f /\ follows (o_left s !! d) (o_left s' !! d) (esp, ebp) (esp', ebp')).
  { intros -> W'. exists esp, ebp. split; [done|apply follows_refl]. }
  destruct Out as [S El _|A' esp0 ebp0 kbuf ind pid p args data S _ Hf El _|A' k p pp _ S H El _|A' Td _].
  - apply Hkeep; [by rewrite El|by apply (steady_waits (o_kernel s))].
  - apply Hkeep; [by apply El|]. apply (started_waits _ _ _ _ _ _ _ _ _ _ _ d _ _ _ S); [|done|exact W]. intros ->. by apply Hf.
  - apply Hkeep; [by rewrite El|]. apply (halted_waits k _ _ _ _ _ _ _ _ H). by apply (steady_waits (o_kernel s)).
  - by apply (td_waits _ _ _ Td).
Qed.

Lemma outcome_step s s' A v A' : outcome s s' A v A' -> sched_step v A A'.
Proof. by intros []. Qed.

(** A step in which process [d] does not run. *)
Definition without (linkage d : Z) (s s' : os) : Prop := ~ current (o_kernel s) d /\ exists v, os_step linkage s v s'.

Lemma current_ok s A : os_ok s A -> current (o_kernel s) (running A).
Proof. intros O. split; [by apply (running_range s)|apply (ok_current _ _ O)]. Qed.

Lemma without_steps linkage d s s' : 0 <= linkage < 4294967296 -> relations.rtc (without linkage d) s s' ->
  forall A esp ebp f, os_ok s A -> live A d -> waits (o_kernel s) d esp ebp f ->
  exists A' esp' ebp', os_ok s' A' /\ live A' d /\ waits (o_kernel s') d esp' ebp' f /\
    follows (o_left s !! d) (o_left s' !! d) (esp, ebp) (esp', ebp').
Proof.
  intros Hlink. induction 1 as [s|s s1 s' [Hn (v & St)] _ IH]; intros A esp ebp f O Hl W.
  { exists A, esp, ebp. do 3 (split; [done|]). apply follows_refl. }
  assert (Hne : d <> running A) by (intros ->; by apply Hn, current_ok).
  destruct (step_outcome s A O linkage v s1 Hlink St) as (A1 & Out & O1).
  destruct (outcome_waits s s1 A v A1 d esp ebp f O Out Hl Hne W) as (esp1 & ebp1 & W1 & F1).
  destruct (IH A1 esp1 ebp1 f O1) as (A2 & esp2 & ebp2 & O2 & Hl2 & W2 & F2); [|exact W1|].
  - apply (sched_step_live v A A1); [apply (ok_stacks _ _ O)|by apply (outcome_step s s1)|done|by intros _].
  - exists A2, esp2, ebp2. do 3 (split; [done|]). by eapply follows_trans.
Qed.

(** The page of the running process is the one it sees. *)
Lemma waits_seen s A d esp ebp f : os_ok s A -> 1 <= d -> current (o_kernel s) d -> waits (o_kernel s) d esp ebp f ->
  forall a, user_address a -> ld8 (k_mem (o_kernel s)) a = f a.
Proof.
  intros O Hd Hc (q & _ & _ & _ & Hf) a Ha. rewrite <- (Hf a Ha). pose proof (current_running s A d O Hc) as E.
  unfold page_byte. rewrite decide_True; [done|]. rewrite (ok_mapped _ _ O) by lia. by rewrite E.
Qed.

(** The kernel's own memory, its disk and its strings, through any step. *)
Lemma outcome_kept s s' A v A' : os_ok s A -> outcome s s' A v A' ->
  k_fs (o_kernel s') = k_fs (o_kernel s) /\ forall a, kept_address a -> ld8 (k_mem (o_kernel s')) a = ld8 (k_mem (o_kernel s)) a.
Proof.
  intros O [S _ _|A1 esp ebp kbuf ind pid p args data S Hkb _ _ _|A1 k p pp _ S H _ _|A1 Td _].
  - split; apply S.
  - split; [apply (sd_rest _ _ _ _ _ _ _ _ _ _ _ S)|]. intros a (H1 & _ & H3 & _). apply (sd_kernel _ _ _ _ _ _ _ _ _ _ _ S); [done|].
    intros Hin. apply H3. unfold in_kbuf in Hin. lia.
  - split; [by rewrite (hd_fs _ _ _ _ _ H), (st_fs _ _ S)|]. intros a Ha. rewrite (hd_kernel _ _ _ _ _ H) by apply Ha. by apply S.
  - split; [apply (td_fs _ _ _ Td)|]. intros a [Ha _]. by apply (td_kernel _ _ _ Td).
Qed.

(** ** Runs *)

Section Run.
Context {S : Type} (step : S -> event -> S -> Prop).

Inductive run : S -> list event -> S -> Prop :=
  | run_nil s : run s [] s
  | run_cons s v s1 l s2 : step s v s1 -> run s1 l s2 -> run s (v :: l) s2.

Lemma run_one s v s' : step s v s' -> run s [v] s'.
Proof. intros H. eapply run_cons; [exact H|apply run_nil]. Qed.
End Run.

Definition sched_run : schedule -> list event -> schedule -> Prop := run (fun A v A' => sched_step v A A').
Definition os_run (linkage : Z) : os -> list event -> os -> Prop := run (os_step linkage).

Lemma runs_refine linkage s l s' : 0 <= linkage < 4294967296 -> os_run linkage s l s' -> forall A, os_ok s A ->
  exists A', sched_run A l A' /\ os_ok s' A' /\ k_fs (o_kernel s') = k_fs (o_kernel s) /\
    forall a, kept_address a -> ld8 (k_mem (o_kernel s')) a = ld8 (k_mem (o_kernel s)) a.
Proof.
  intros Hlink. induction 1 as [s|s v s1 l s' St _ IH]; intros A O; [exists A; split; [apply run_nil|by split_and!]|].
  destruct (step_outcome s A O linkage v s1 Hlink St) as (A1 & Out & O1). destruct (IH A1 O1) as (A2 & R & O2 & Hfs & Hm).
  destruct (outcome_kept s s1 A v A1 O Out) as [Hfs1 Hm1]. exists A2. split; [by eapply run_cons; [eapply outcome_step|]|].
  split; [exact O2|]. split; [congruence|]. intros a Ha. by rewrite Hm, Hm1.
Qed.

(** The number of ticks in a run. *)
Definition is_tick (v : event) : bool := match v with Tick => true | _ => false end.
Definition ticks (l : list event) : Z := Z.of_nat (length (filter is_tick l)).

Lemma ticks_cons v l : ticks (v :: l) = (if is_tick v then 1 else 0) + ticks l.
Proof. unfold ticks. rewrite filter_cons. destruct (is_tick v); [rewrite decide_True by done; cbn [length]; lia|by rewrite decide_False by (intros [])]. Qed.

Lemma sched_step_turn v A A' : sched_step v A A' -> turn A' = if is_tick v then next_term (turn A) else turn A.
Proof. intros St. destruct St as [| | | | |v A i pp l [-> | ->] _ _| |]; done. Qed.

Lemma sched_run_turn A l A' : sched_run A l A' -> 0 <= turn A < TERM_NUM -> turn A' = (turn A + ticks l) mod TERM_NUM.
Proof.
  induction 1 as [A|A v A1 l A2 St _ IH]; intros Ht.
  - change (ticks []) with 0. rewrite Z.add_0_r. symmetry. by apply Z.mod_small.
  - pose proof (sched_step_turn v A A1 St) as E. rewrite ticks_cons. destruct (is_tick v).
    + rewrite IH by (rewrite E; unfold next_term; by apply Z.mod_pos_bound). rewrite E. unfold next_term.
      rewrite Z.add_mod_idemp_l by done. f_equal. lia.
    + rewrite IH by (by rewrite E). rewrite E. f_equal.
Qed.

Lemma not_ending v : v = Tick \/ v = Execute -> ~ (v = Halt \/ v = Signals).
Proof. by intros [-> | ->] [?|?]. Qed.

(** A process that a step takes off the processor waits with its page as it is. *)
Lemma suspended s A v s' A' c : os_ok s A -> current (o_kernel s) c -> 1 <= c -> v = Tick \/ v = Execute -> outcome s s' A v A' ->
  ~ current (o_kernel s') c -> live A' c /\ exists esp ebp, waits (o_kernel s') c esp ebp (ld8 (k_mem (o_kernel s))).
Proof.
  intros O Hc H1 Hv Out Hn. pose proof (current_running s A c O Hc) as Ec. assert (Hne : running A <> 0) by lia.
  pose proof (ok_mapped _ _ O Hne) as Hm. rewrite <- Ec in Hm. pose proof (ok_stacks _ _ O) as R.
  assert (Hseen : forall a, page_byte (o_kernel s) (TASK_PAGE_INDEX c) a = ld8 (k_mem (o_kernel s)) a).
  { intros a. unfold page_byte. by rewrite decide_True. }
  split.
  { apply (sched_step_live v A A'); [apply R|by apply (outcome_step s s')|by rewrite Ec; apply (running_live s A O)|].
    intros Hv'. by destruct (not_ending v Hv). }
  destruct Out as [S _ _|A' esp0 ebp0 kbuf ind pid p args data S _ Hf _ _|A' k p pp Hv' S H _ _|A' Td _].
  - destruct Hn. destruct Hc as [Hr Hc]. split; [exact Hr|]. by rewrite (st_tss _ _ S).
  - rewrite <- Ec in S. exists esp0, ebp0. exists (with_saved esp0 ebp0 p). split; [apply (sd_caller _ _ _ _ _ _ _ _ _ _ _ S)|].
    do 2 (split; [done|]). intros a Ha. rewrite (sd_others _ _ _ _ _ _ _ _ _ _ _ S); [apply Hseen| |exact Ha].
    intros E. assert (pid = c) as -> by (unfold TASK_PAGE_INDEX in E; lia). apply Hf. rewrite Ec. by apply (running_live s A O).
  - by destruct (not_ending v Hv).
  - rewrite <- Ec in Td. destruct (td_suspends _ _ _ Td) as [?|(esp & ebp & x & X1 & X2 & X3 & X4)]; [done|]. exists esp, ebp, x.
    do 3 (split; [done|]). intros a Ha. by rewrite X4.
Qed.

(** ** The start *)

Definition no_process : schedule := mkSchedule [[]; []; []] 0 0 ∅.

Lemma no_process_stack i : stack_of no_process i = [].
Proof.
  unfold stack_of, no_process, arr_get. cbn [stacks]. case_decide; [|done].
  by destruct (Z.to_nat i) as [|[|[|n]]].
Qed.

Lemma no_process_live d : ~ live no_process d.
Proof. intros (i & _ & H). rewrite no_process_stack in H. by apply elem_of_nil in H. Qed.

(** The kernel that has started stands for no process at all.  What its stack
    holds in the place of a process number reads zero: nothing ever wrote it. *)
Definition unnumbered (k : kernel) : Prop := exists p, k_pcbs k !! TASK_KSTACK_TOP 0 = Some p /\ pcb_pid p = 0.

Lemma booted_ok k pic img ptr : booted k pic img ptr -> unnumbered k -> disk_ok k -> (exists ino data, has_shell k ino data) ->
  os_ok (mkOs (mkSched k 0 pic) kb_idle ∅ ∅) no_process.
Proof.
  intros [B1 B2 B3 B4 B5 B6 B7] Hz Hd Hsh. assert (Hu : forall d, ~ pid_in_use k d).
  { intros d. unfold pid_in_use, arr_get. rewrite B5. case_decide; [|done]. intros [E _]%lookup_replicate. done. }
  split; try done.
  - split; [exact B1|intros d p _ H; by destruct (Hu d)|exact Hd|]. intros i t E.
    change (arr_get (terms (k_ts k)) i = Some t) in E. pose proof (ts_len _ (ko_terms _ B1)) as Hl.
    assert (Hi : 0 <= i < TERM_NUM).
    { unfold arr_get in E. case_decide; [|done]. apply lookup_lt_Some in E. unfold TERM_NUM. lia. }
    specialize (B4 i Hi). unfold front in B4. rewrite E in B4. injection B4 as ->. done.
  - split; try done.
    + intros i _. rewrite no_process_stack. constructor.
    + intros i j d _ _ H. rewrite no_process_stack in H. by apply elem_of_nil in H.
    + intros d H. by destruct (no_process_live d).
    + intros d _. split; intros H; [by destruct (Hu d)|by destruct (no_process_live d)].
    + intros i Hi. rewrite no_process_stack. by apply B4.
    + intros i _. by rewrite no_process_stack.
  - by left.
  - by left.
  - change (esp0 (tss k) = TASK_KSTACK_BOT 0). by rewrite B6.
  - intros _ d H. by destruct (no_process_live d).
  - intros d p [->|H]; [done|by destruct (no_process_live d)].
Qed.

(** ** How many ticks go astray *)

(** The terminals without a process: each will get its shell from a tick, which is
    left behind. *)
Definition empties (A : schedule) : nat := length (filter (fun i => stack_of A i = []) [0; 1; 2]).
Definition slack (A : schedule) : nat := (empties A + size (astray A))%nat.

Lemma lands_size fuel : forall f c d f', lands fuel f c = (d, f') ->
  (size f' <= size f)%nat /\ (d <> c -> (size f' < size f)%nat /\ exists v, f !! c = Some v /\ v <> c).
Proof.
  induction fuel as [|n IH]; intros f c d f'; cbn [lands]; destruct (f !! c) as [v|] eqn:E.
  2, 4: by intros [= <- <-].
  all: assert (Hs : size (delete c f) = Nat.pred (size f)) by (apply map_size_delete_Some; by eexists).
  all: assert (Hp : size f <> 0%nat) by (intros H%map_size_empty_inv; by subst f).
  all: destruct (decide (v = c)) as [->|D]; [intros [= <- <-]; split; [lia|done]|].
  - by intros [= <- <-].
  - intros H. destruct (IH _ _ _ _ H) as [H1 _]. split; [lia|]. intros _. split; [lia|by exists v].
Qed.

Lemma empties_less A A' : (forall i, 0 <= i < TERM_NUM -> stack_of A i <> [] -> stack_of A' i <> []) -> (empties A' <= empties A)%nat.
Proof.
  intros H. unfold empties. rewrite !filter_cons, !filter_nil.
  pose proof (H 0 ltac:(done)). pose proof (H 1 ltac:(done)). pose proof (H 2 ltac:(done)). repeat case_decide; cbn [length]; (lia || tauto).
Qed.

Lemma empties_fewer A A' i : (forall i, 0 <= i < TERM_NUM -> stack_of A i <> [] -> stack_of A' i <> []) ->
  0 <= i < TERM_NUM -> stack_of A i = [] -> stack_of A' i <> [] -> (empties A' < empties A)%nat.
Proof.
  intros H Hi E E'. unfold empties. rewrite !filter_cons, !filter_nil.
  pose proof (H 0 ltac:(done)). pose proof (H 1 ltac:(done)). pose proof (H 2 ltac:(done)).
  assert (i = 0 \/ i = 1 \/ i = 2) as [->|[-> | ->]] by (unfold TERM_NUM in Hi; lia); repeat case_decide; cbn [length]; (lia || tauto).
Qed.

(** Nothing makes more of them. *)
Lemma sched_step_slack v A A' : length (stacks A) = 3%nat -> sched_step v A A' -> (slack A' <= slack A)%nat.
Proof.
  intros Hlen St. assert (Hset : forall i l, 0 <= i < TERM_NUM -> l <> [] -> forall j, 0 <= j < TERM_NUM -> stack_of A j <> [] -> stack_of (set_stack i l A) j <> []).
  { intros i l Hi Hl j _ Hj. rewrite stack_of_set by done. by case_decide. }
  unfold slack. destruct St as [A|A|A i pid l Hi _ _|A i _ _|A|v A i pp l _ Hi _|A d f _ El|A pid x Hnil _]; try lia.
  - pose proof (empties_less A (push i pid A) (Hset i (pid :: stack_of A i) Hi ltac:(done))). exact (proj1 (Nat.add_le_mono_r _ _ _) H).
  - pose proof (empties_less A (set_stack i (pp :: l) A) (Hset i (pp :: l) Hi ltac:(done))). exact (proj1 (Nat.add_le_mono_r _ _ _) H).
  - destruct (lands_size _ _ _ _ _ El) as [H _]. change (empties (mkSchedule (stacks A) (next_term (turn A)) d f)) with (empties A).
    cbn [astray]. lia.
  - assert (Hi : 0 <= next_term (turn A) < TERM_NUM) by apply next_range. set (i := next_term (turn A)) in *.
    opose proof (empties_fewer A (push i pid A) i (Hset i (pid :: stack_of A i) Hi ltac:(done)) Hi Hnil _) as H.
    { unfold push. rewrite stack_of_set by done. by rewrite decide_True. }
    change (empties (mkSchedule (stacks (push i pid A)) i pid (<[running A := x]> (astray A)))) with (empties (push i pid A)).
    cbn [astray]. destruct (astray A !! running A) eqn:E.
    + rewrite map_size_insert_Some by (by eexists). lia.
    + rewrite map_size_insert_None by done. lia.
Qed.

(** The same count in the kernel. *)
Definition to_stray (s : os) : nat := Nat.add (length (filter (fun i => front (o_kernel s) i = Some 0) [0; 1; 2])) (size (o_left s)).

Lemma to_stray_slack s A : os_ok s A -> to_stray s = slack A.
Proof.
  intros O. pose proof (ok_stacks _ _ O) as R. unfold to_stray, slack. rewrite (ok_astray _ _ O), map_size_fmap. f_equal.
  unfold empties. rewrite !filter_cons, !filter_nil.
  assert (H : forall i, 0 <= i < TERM_NUM -> (front (o_kernel s) i = Some 0 <-> stack_of A i = [])).
  { intros i Hi. rewrite (rp_front _ _ R i Hi). rewrite <- (top_zero A (o_kernel s) i R Hi). split; [by intros [= ->]|by intros ->]. }
  pose proof (H 0 ltac:(done)). pose proof (H 1 ltac:(done)). pose proof (H 2 ltac:(done)). repeat case_decide; cbn [length]; (lia || tauto).
Qed.

Lemma sched_run_slack A l A' : sched_run A l A' -> length (stacks A) = 3%nat -> (slack A' <= slack A)%nat.
Proof.
  induction 1 as [A|A v A1 l A2 St _ IH]; intros Hlen; [lia|]. pose proof (sched_step_slack v A A1 Hlen St).
  enough (length (stacks A1) = 3%nat) by (specialize (IH ltac:(done)); lia).
  destruct St; cbn [stacks set_running push set_stack]; by rewrite ?length_insert.
Qed.

(** The two ways of a tick. *)
Lemma tick_turns A A' : sched_step Tick A A' ->
  (stack_of A (next_term (turn A)) <> [] /\ exists d f,
    lands (size (astray A)) (astray A) (top (stack_of A (next_term (turn A)))) = (d, f) /\
    A' = mkSchedule (stacks A) (next_term (turn A)) d f) \/
  (stack_of A (next_term (turn A)) = [] /\ exists pid v, fresh A pid /\
    A' = mkSchedule (stacks (push (next_term (turn A)) pid A)) (next_term (turn A)) pid (<[running A := v]> (astray A))).
Proof.
  intros St. remember Tick as v eqn:Ev. destruct St as [| | | | |v A i pp l [-> | ->] _ _|A d f Hne El|A pid x Hnil Hf]; try done.
  - left. split; [done|]. by exists d, f.
  - right. split; [done|]. by exists pid, x.
Qed.

(** The process in front of the terminal a tick turns to. *)
Lemma tick_serves s1 A1 s2 A2 : os_ok s1 A1 -> os_ok s2 A2 -> sched_step Tick A1 A2 ->
  exists pid, 1 <= pid < MAX_PROC_NUM /\ front (o_kernel s2) (turn A2) = Some pid /\
    ((current (o_kernel s2) pid /\ k_mapped (o_kernel s2) = TASK_PAGE_INDEX pid) \/
     ((slack A2 < slack A1)%nat /\ (exists t, o_left s1 !! pid = Some t /\ t_next_pid t <> pid) /\
      exists d, current (o_kernel s2) d /\ in_front (o_kernel s2) d)).
Proof.
  intros O1 O2 St. pose proof (ok_stacks _ _ O1) as R1. pose proof (ok_stacks _ _ O2) as R2. pose proof (rp_turn _ _ R2) as Ht.
  assert (Hruns : running A2 <> 0 -> running A2 = top (stack_of A2 (turn A2)) -> exists pid, 1 <= pid < MAX_PROC_NUM /\
    front (o_kernel s2) (turn A2) = Some pid /\ current (o_kernel s2) pid /\ k_mapped (o_kernel s2) = TASK_PAGE_INDEX pid).
  { intros H E. exists (running A2). split; [by apply (rp_range _ _ R2), (running_live s2)|]. split; [by rewrite (rp_front _ _ R2), E|].
    split; [by apply current_ok|by apply (ok_mapped _ _ O2)]. }
  destruct (tick_turns A1 A2 St) as [(Hne & d & f & El & E2)|(Hnil & pid & x & (Hpid & _) & E2)].
  - set (i := next_term (turn A1)) in *. set (pid := top (stack_of A1 i)) in *.
    assert (Et : turn A2 = i) by by rewrite E2. assert (Es : stack_of A2 i = stack_of A1 i) by by rewrite E2.
    assert (Er : running A2 = d) by by rewrite E2. assert (Ef : astray A2 = f) by by rewrite E2.
    assert (Ee : empties A2 = empties A1) by by rewrite E2.
    assert (Hp0 : pid <> 0) by (intros H; by apply Hne, (top_zero A1 (o_kernel s1) i R1 (next_range A1))).
    destruct (decide (d = pid)) as [Ed|Dd].
    + destruct Hruns as (p & H1 & H2 & H3); [congruence|by rewrite Er, Et, Es|]. exists p. do 2 (split; [done|]). by left.
    + destruct (lands_size _ _ _ _ _ El) as [_ H]. destruct (H Dd) as (Hlt & v & Ev & Hv).
      exists pid. split; [apply (rp_range _ _ R1); exists i; split; [apply (next_range A1)|by apply top_in]|].
      split; [rewrite (rp_front _ _ R2), Et, Es by done; done|]. right. split; [unfold slack; rewrite Ee, Ef; lia|]. split.
      * rewrite (ok_astray _ _ O1), lookup_fmap in Ev. apply fmap_Some in Ev as (t & Elt & ->). by exists t.
      * exists (running A2). split; [by apply current_ok|]. apply (on_top_in_front _ A2); [done|apply O2].
  - assert (Er : running A2 = pid) by by rewrite E2. destruct Hruns as (p & H1 & H2 & H3); [lia| |exists p; do 2 (split; [done|]); by left].
    rewrite Er, E2. cbn [turn]. change (pid = top (stack_of (push (next_term (turn A1)) pid A1) (next_term (turn A1)))).
    unfold push. rewrite stack_of_set by (apply R1 || apply next_range). by rewrite decide_True.
Qed.

(** ** Properties *)

(** C1: The kernel implements the machine of stacks and turns.  Every step of the
    detailed system is a step of the abstract one: the calls, the interrupts of
    the keyboard and of the clock, exceptions, the two halves of a read that
    blocks and the program's own stores change nothing; execute pushes the lowest
    free number on the caller's terminal or changes nothing; a halt, or a signal without a handler, uncovers the process that
    started the running one, and the shell a terminal began with starts again; a
    tick turns to the next terminal and gives it a shell if it has no process.
    The invariant holds again, the files stay where they are and the kernel's
    own memory is not written. *)
Theorem system_refines (linkage : Z) (s s' : os) (A : schedule) (v : event) :
  0 <= linkage < 4294967296 -> os_ok s A -> os_step linkage s v s' ->
  exists A', sched_step v A A' /\ os_ok s' A' /\ k_fs (o_kernel s') = k_fs (o_kernel s) /\
    forall a, kept_address a -> ld8 (k_mem (o_kernel s')) a = ld8 (k_mem (o_kernel s)) a.
Proof.
  intros Hlink O St. destruct (step_outcome s A O linkage v s' Hlink St) as (A' & Out & O'). exists A'.
  split; [by apply (outcome_step s s')|]. split; [exact O'|by apply (outcome_kept s s' A v A')].
Qed.

(** C2: A process taken off the processor, by a tick or by a program it starts,
    is not disturbed.  Whatever happens while it does not run (other processes
    running, system calls, keys, the clock, signals, programs started and
    ended, any number of ticks), when it runs again its page reads as it left it.
    The stack and frame pointers saved for it are on its own kernel stack and
    those of then; or, if the tick that took it off started a shell and was left
    behind in the call of execute they lead into, that tick has gone on once,
    with its unset number, and has left its own pointers in their place. *)
Theorem process_undisturbed (linkage : Z) (s1 s2 s3 : os) (A : schedule) (c : Z) (v : event) :
  0 <= linkage < 4294967296 -> os_ok s1 A -> current (o_kernel s1) c -> 1 <= c -> v = Tick \/ v = Execute ->
  os_step linkage s1 v s2 -> ~ current (o_kernel s2) c -> relations.rtc (without linkage c) s2 s3 -> current (o_kernel s3) c ->
  (forall a, user_address a -> ld8 (k_mem (o_kernel s3)) a = ld8 (k_mem (o_kernel s1)) a) /\
  o_left s3 !! c = None /\
  exists q2 q3, k_pcbs (o_kernel s2) !! TASK_KSTACK_TOP c = Some q2 /\ k_pcbs (o_kernel s3) !! TASK_KSTACK_TOP c = Some q3 /\
    on_stack c (pcb_esp q2) /\
    ((pcb_esp q3 = pcb_esp q2 /\ pcb_ebp q3 = pcb_ebp q2) \/
     exists t, o_left s2 !! c = Some t /\ pcb_esp q2 = t_xesp t /\ pcb_ebp q2 = t_xebp t /\
       on_stack c (t_esp t) /\ pcb_esp q3 = t_esp t /\ pcb_ebp q3 = t_ebp t).
Proof.
  intros Hlink O1 Hc1 H1 Hv St Hn Hrun Hc3. destruct (step_outcome s1 A O1 linkage v s2 Hlink St) as (A2 & Out & O2).
  destruct (suspended s1 A v s2 A2 c O1 Hc1 H1 Hv Out Hn) as (Hl & esp & ebp & W2).
  destruct (without_steps linkage c s2 s3 Hlink Hrun A2 esp ebp _ O2 Hl W2) as (A3 & esp3 & ebp3 & O3 & _ & W3 & F).
  split; [exact (waits_seen s3 A3 c _ _ _ O3 H1 Hc3 W3)|]. split.
  { rewrite (current_running s3 A3 c O3 Hc3). by apply (running_left s3 A3). }
  destruct W2 as (q2 & E2 & <- & <- & _), W3 as (q3 & E3 & <- & <- & _). exists q2, q3. do 2 (split; [done|]). split.
  - apply (ok_saved _ _ O2 c q2 (or_intror Hl)); [|exact E2]. intros ->. by apply Hn, current_ok.
  - destruct F as [[F _]|(t & Et & F & _)]; injection F as E4 E5; [by left|right]. exists t.
    destruct (ok_left _ _ O2 c t Et) as (_ & _ & Hs & q & Eq & Q1 & Q2). rewrite E2 in Eq. injection Eq as <-. by split_and!.
Qed.

(** C3: From a started kernel whose disk holds a shell, every state any run
    reaches satisfies the invariant of the system: the kernel's invariant, every
    open descriptor valid, the processes of each terminal a chain of parents with
    its front on top, no process at two terminals, the page and the kernel stack
    of the running process in place, the saved pointers of the others on their
    stacks, those of a tick left behind where it was left.  The abstract machine
    makes the same run from no process at all. *)
Theorem reachable_ok (linkage : Z) (k0 : kernel) (pic0 : pic) (img : mem) (boot_ptr ino : Z) (data : list Z) (l : list event) (s : os) :
  0 <= linkage < 4294967296 -> booted k0 pic0 img boot_ptr -> unnumbered k0 -> disk_ok k0 -> has_shell k0 ino data ->
  os_run linkage (mkOs (mkSched k0 0 pic0) kb_idle ∅ ∅) l s ->
  exists A, sched_run no_process l A /\ os_ok s A /\ k_fs (o_kernel s) = fs_init boot_ptr /\
    forall a, kept_address a -> ld8 (k_mem (o_kernel s)) a = ld8 (k_mem k0) a.
Proof.
  intros Hlink Hb Hz Hd Hsh Hrun. rewrite <- (bo_files _ _ _ _ Hb).
  apply (runs_refine linkage _ l s Hlink Hrun no_process). apply (booted_ok k0 pic0 img boot_ptr Hb Hz Hd). by exists ino, data.
Qed.

(** C6: Every terminal is served.  In any run of the system the terminal a tick
    turns to is the start's plus the number of ticks, modulo three; it has a
    process in front after the tick, and that process runs, with its page mapped
    and its kernel stack in the task state segment, unless a tick left behind on
    its stack goes on with a number that is not its own, and another process in
    front (or the start of the kernel) runs instead.  This can happen no more
    often than there were ticks left behind and terminals without a shell at the
    start: the count never grows and each time it shrinks.  The next tick never
    fails. *)
Theorem every_terminal_served (linkage : Z) (s s1 s2 : os) (A : schedule) (l : list event) :
  0 <= linkage < 4294967296 -> os_ok s A -> os_run linkage s l s1 -> os_step linkage s1 Tick s2 ->
  let ind := cur_proc_ind (o_sched s2) in
  ind = (cur_proc_ind (o_sched s) + ticks l + 1) mod TERM_NUM /\
  (exists pid, 1 <= pid < MAX_PROC_NUM /\ front (o_kernel s2) ind = Some pid /\
    ((current (o_kernel s2) pid /\ k_mapped (o_kernel s2) = TASK_PAGE_INDEX pid) \/
     ((to_stray s2 < to_stray s1)%nat /\ (exists t, o_left s1 !! pid = Some t /\ t_next_pid t <> pid) /\
      exists d, current (o_kernel s2) d /\ in_front (o_kernel s2) d))) /\
  (to_stray s1 <= to_stray s)%nat /\
  (forall c e t, current (o_kernel s2) c -> env_ok e -> tick_ok (o_kernel s2) (o_left s2) c ind t ->
    exists s3, os_step linkage s2 Tick s3 /\ cur_proc_ind (o_sched s3) = next_term ind).
Proof.
  intros Hlink O Hrun St. destruct (runs_refine linkage s l s1 Hlink Hrun A O) as (A1 & Run & O1 & _).
  destruct (step_outcome s1 A1 O1 linkage Tick s2 Hlink St) as (A2 & Out & O2). pose proof (outcome_step _ _ _ _ _ Out) as St2.
  pose proof (ok_stacks _ _ O) as R. pose proof (ok_stacks _ _ O1) as R1. pose proof (ok_stacks _ _ O2) as R2. cbv zeta. split; [|split; [|split]].
  - rewrite (ok_turn _ _ O2), (ok_turn _ _ O), (sched_step_turn _ _ _ St2). cbn [is_tick]. unfold next_term.
    rewrite (sched_run_turn A l A1 Run (rp_turn _ _ R)), Z.add_mod_idemp_l by done. done.
  - rewrite (ok_turn _ _ O2), (to_stray_slack s1 A1 O1), (to_stray_slack s2 A2 O2).
    by apply tick_serves.
  - rewrite (to_stray_slack s1 A1 O1), (to_stray_slack s A O). apply (sched_run_slack A l A1 Run), R.
  - intros c e t Hc He Ht. destruct (tick_step s2 A2 O2 c e t Hc He Ht) as (r & sc & left & k & E & Ea & Ei & _).
    eexists. split; [exact (Step_tick linkage s2 c e t r sc left k Hc He Ht E Ea)|]. cbn [o_sched cur_proc_ind]. by rewrite Ei, (ok_turn _ _ O2).
Qed.

(** ** A concrete run *)

Definition idle_os : os := mkOs (mkSched idle_kernel 0 (mkPic 0xF8 0xFE [])) kb_idle ∅ ∅.

Lemma idle_disk : disk_ok idle_kernel.
Proof.
  split.
  - assert (En : num_dentries (k_mem idle_kernel) (k_fs idle_kernel) = 4) by by vm_compute. rewrite En. intros i Hi.
    assert (C : i ∈ seqZ 0 4) by (apply elem_of_seqZ; lia). clear En Hi. revert i C. apply list.Forall_forall.
    apply (bool_decide_unpack _). by vm_compute.
  - assert (En : inode_count (k_mem idle_kernel) (k_fs idle_kernel) = 2) by by vm_compute. rewrite En. intros i Hi.
    assert (i = 0 \/ i = 1) as [-> | ->] by lia; cbv zeta.
    + right. split; [apply Nat.leb_le; by vm_compute|]. intros H. exfalso. revert H.
      unfold elf_magic. change (~ (take 4 (file_contents (k_mem idle_kernel) (k_fs idle_kernel) 0) = [127; 69; 76; 70])).
      apply (bool_decide_unpack _). by vm_compute.
    + left. pose proof (hs_loadable _ _ _ idle_shell) as H. exact H.
Qed.

Lemma idle_unnumbered : unnumbered idle_kernel.
Proof. destruct idle_interrupts as [_ _ _ _ E]. by exists (demo_pcb 0). Qed.

Lemma idle_os_ok : os_ok idle_os no_process.
Proof. apply (booted_ok _ _ _ _ idle_booted idle_unnumbered idle_disk). eexists _, _. apply idle_shell. Qed.

(** A tick on the stack of process [c], with zero where it never sets a number. *)
Definition tick_on (c : Z) : tick :=
  mkTick (TASK_KSTACK_BOT c - 256) (TASK_KSTACK_BOT c - 248) (TASK_KSTACK_BOT c - 512) (TASK_KSTACK_BOT c - 504)
    (TASK_KSTACK_BOT c - 4096) 0x500100 0.

Lemma lowest_some k A d : represents k A -> 1 <= d < MAX_PROC_NUM -> ~ live A d -> kernel_ok k -> lowest_pid (pid_used k) <> None.
Proof.
  intros R Hd Hl Hk E. unfold lowest_pid in E. apply head_None in E.
  assert (Hin : d ∈ @nil Z).
  { rewrite <- E. apply list_elem_of_filter. split; [|apply elem_of_seqZ; unfold MAX_PROC_NUM in *; lia]. rewrite <- (rp_live _ _ R d Hd) in Hl.
    destruct (ko_used _ Hk) as [Hlen Hu]. unfold pid_free, pid_in_use in *.
    destruct (arr_get_Some (pid_used k) d) as (u & Eu & _); [unfold MAX_PROC_NUM in *; lia|]. rewrite Eu in Hl |- *.
    rewrite arr_get_lookup in Eu by lia. rewrite list.Forall_lookup in Hu. destruct (Hu _ _ Eu) as [->| ->]; [done|by destruct Hl]. }
  by apply elem_of_nil in Hin.
Qed.

(** Every tick left behind holds zero. *)
Definition zero_left (left : left_behind) : Prop := forall d t, left !! d = Some t -> t_next_pid t = 0.

Lemma zero_leads k fuel : forall left d, zero_left left -> leads_ok fuel k left d.
Proof.
  induction fuel as [|n IH]; intros left d H; cbn [leads_ok]; (destruct (left !! d) as [t|] eqn:E; [|done]); rewrite (H d t E).
  - split; [by left|done].
  - split; [by left|]. intros _. apply IH. intros x y [_ Ex]%lookup_delete_Some. by apply (H x y).
Qed.

Lemma lands_sub fuel : forall f c d f', lands fuel f c = (d, f') -> f' ⊆ f.
Proof.
  induction fuel as [|n IH]; intros f c d f'; cbn [lands]; destruct (f !! c) as [v|]; try (by intros [= <- <-]); case_decide.
  - intros [= <- <-]. apply delete_subseteq.
  - by intros [= <- <-].
  - intros [= <- <-]. apply delete_subseteq.
  - intros E. etrans; [by apply (IH _ _ _ _ E)|apply delete_subseteq].
Qed.

Lemma zero_astray s A : os_ok s A -> zero_left (o_left s) <-> (forall d v, astray A !! d = Some v -> v = 0).
Proof.
  intros O. rewrite (ok_astray _ _ O). split.
  - intros H d v E. rewrite lookup_fmap in E. apply fmap_Some in E as (t & E & ->). by apply (H d).
  - intros H d t E. apply (H d). by rewrite lookup_fmap, E.
Qed.

(** One more tick, as long as a number is left for a shell. *)
Lemma next_tick s A d : os_ok s A -> cstr (k_mem (o_kernel s)) 0x500100 shell_word -> zero_left (o_left s) ->
  1 <= d < MAX_PROC_NUM -> ~ live A d ->
  exists s' A', os_step 0x8000000 s Tick s' /\ sched_step Tick A A' /\ os_ok s' A' /\
    cstr (k_mem (o_kernel s')) 0x500100 shell_word /\ zero_left (o_left s').
Proof.
  intros O Hw Hz Hd Hl. pose proof (current_ok s A O) as Hc.
  assert (Ht : tick_ok (o_kernel s) (o_left s) (running A) (cur_proc_ind (o_sched s)) (tick_on (running A))).
  { destruct Hc as [Hc _]. unfold tick_on, on_stack. split; cbn [t_esp t_xesp t_kbuf t_shell].
    - unfold on_stack, TASK_KSTACK_BOT, TASK_KSTACK_TOP; lia.
    - intros _. split; [unfold on_stack, TASK_KSTACK_BOT, TASK_KSTACK_TOP; lia|]. split; [|by apply (lowest_some _ A d), O; [apply O|..]].
      split; [unfold TASK_KSTACK_BOT, TASK_KSTACK_TOP, BUF_SIZE; lia|exact Hw|done].
    - intros x _ _. by apply zero_leads. }
  destruct (tick_step s A O _ demo_env _ Hc demo_env_ok Ht) as (r & sc & left & k & E & Ea & Ei & El & A' & Out & O').
  set (s' := mkOs _ _ _ _) in *. exists s', A'. split; [exact (Step_tick 0x8000000 s (running A) demo_env _ r sc left k Hc demo_env_ok Ht E Ea)|].
  pose proof (outcome_step _ _ _ _ _ Out) as St. split; [exact St|]. split; [exact O'|].
  destruct (outcome_kept _ _ _ _ _ O Out) as [_ Hk]. split.
  - destruct Hw as [W1 W2].
    assert (Hs : forall j, 0 <= j < 6 -> bget (k_mem k) (0x500100 + j) = bget (k_mem (o_kernel s)) (0x500100 + j)).
    { intros j Hj. cbn [bget mem_buf]. change (k_mem k) with (k_mem (o_kernel s')). rewrite Hk; [done|].
      unfold kept_address, user_address, VIDEO, KSTACKS, TASK_KSTACK_TOP, MAX_PROC_NUM, TASK_VIRT_PAGE_BEG. lia. }
    change (length shell_word) with 5%nat in W2. split.
    + intros j ch Ej. pose proof (lookup_lt_Some _ _ _ Ej) as Hj. change (length shell_word) with 5%nat in Hj.
      change (k_mem (o_kernel s')) with (k_mem k). rewrite Hs by lia. by apply W1.
    + change (length shell_word) with 5%nat. change (k_mem (o_kernel s')) with (k_mem k). rewrite Hs by lia. exact W2.
  - destruct (tick_turns A A' St) as [(Hne & x & f & Els & ->)|(Hnil & _)].
    + apply (zero_astray s' _ O'). intros y v Ey. cbn [astray] in Ey. apply (proj1 (zero_astray s A O) Hz y v).
      by apply (lookup_weaken f); [|apply (lands_sub _ _ _ _ _ Els)].
    + change (zero_left left). rewrite (El Hnil). intros y t Ey. apply lookup_insert_Some in Ey as [[_ <-]|[_ Ey]]; [done|by apply (Hz y)].
Qed.

(** The lowest number when none below it is free. *)
Lemma fresh_is A pid d : fresh A pid -> 1 <= d -> ~ live A d -> (forall x, 1 <= x < d -> live A x) -> pid = d.
Proof.
  intros (H1 & H2 & H3) Hd Hl Hlow. destruct (decide (pid < d)); [destruct H2; apply Hlow; lia|].
  destruct (decide (d < pid)); [destruct Hl; apply H3; lia|lia].
Qed.

Definition one_shell : schedule := mkSchedule [[]; [1]; []] 1 1 {[0 := 0]}.
Definition two_shells : schedule := mkSchedule [[]; [1]; [2]] 2 2 (<[1 := 0]> {[0 := 0]}).
Definition three_shells (i pid : Z) (f : gmap Z Z) : schedule := mkSchedule [[3]; [1]; [2]] i pid f.
Definition all_left : gmap Z Z := <[2 := 0]> (<[1 := 0]> {[0 := 0]}).

(** The processes of a concrete schedule. *)
Lemma live_three a b c i r f d : live (mkSchedule [a; b; c] i r f) d <-> d ∈ a ++ b ++ c.
Proof.
  rewrite !elem_of_app. split.
  - intros (j & Hj & H). unfold TERM_NUM in Hj. assert (j = 0 \/ j = 1 \/ j = 2) as [->|[->| ->]] by lia; cbn in H; tauto.
  - intros [H|[H|H]]; [exists 0|exists 1|exists 2]; by split.
Qed.

(** A shell in an empty terminal, by a tick that holds zero. *)
Lemma shell_tick A A' d : sched_step Tick A A' -> stack_of A (next_term (turn A)) = [] -> (forall x v, astray A' !! x = Some v -> v = 0) ->
  1 <= d -> ~ live A d -> (forall x, 1 <= x < d -> live A x) ->
  A' = mkSchedule (stacks (push (next_term (turn A)) d A)) (next_term (turn A)) d (<[running A := 0]> (astray A)).
Proof.
  intros [[Hne _]|(_ & pid & v & Hf & ->)]%tick_turns Hnil Hz Hd Hl Hlow; [done|]. rewrite (fresh_is A pid d Hf Hd Hl Hlow).
  assert (v = 0) as ->; [|done]. apply (Hz (running A)). cbn [astray]. apply lookup_insert_eq.
Qed.

Lemma moving_tick A A' d f : sched_step Tick A A' -> stack_of A (next_term (turn A)) <> [] ->
  lands (size (astray A)) (astray A) (top (stack_of A (next_term (turn A)))) = (d, f) ->
  A' = mkSchedule (stacks A) (next_term (turn A)) d f.
Proof. intros [(_ & d' & f' & E & ->)|[? _]]%tick_turns Hne E'; [|done]. rewrite E' in E. by injection E as <- <-. Qed.

(** The schedules of seven ticks from the start: a shell for every terminal; then
    the ticks left behind by the first three go on, each with the number zero, and
    the start of the kernel runs twice in the place of a shell; and then the shells
    take turns. *)
Inductive milestone : nat -> schedule -> Prop :=
  | ms0 : milestone 0 no_process
  | ms1 : milestone 1 one_shell
  | ms2 : milestone 2 two_shells
  | ms3 : milestone 3 (three_shells 0 3 all_left)
  | ms4 : milestone 4 (three_shells 1 0 {[2 := 0]})
  | ms5 : milestone 5 (three_shells 2 0 ∅)
  | ms6 : milestone 6 (three_shells 0 3 ∅)
  | ms7 : milestone 7 (three_shells 1 1 ∅).

Lemma milestone_tick n A A' : milestone n A -> (n < 7)%nat -> sched_step Tick A A' -> (forall x v, astray A' !! x = Some v -> v = 0) ->
  milestone (S n) A'.
Proof.
  intros M Hn St Hz. destruct M; [| | | | | | |lia].
  - rewrite (shell_tick _ _ 1 St ltac:(done) Hz); [exact ms1|done|apply no_process_live|lia].
  - rewrite (shell_tick _ _ 2 St ltac:(done) Hz); [exact ms2|done|unfold one_shell; rewrite live_three; by apply (bool_decide_unpack _)|].
    intros x Hx. unfold one_shell. rewrite live_three. assert (x = 1) as -> by lia. by apply (bool_decide_unpack _).
  - rewrite (shell_tick _ _ 3 St ltac:(done) Hz); [exact ms3|done|unfold two_shells; rewrite live_three; by apply (bool_decide_unpack _)|].
    intros x Hx. unfold two_shells. rewrite live_three. assert (x = 1 \/ x = 2) as [-> | ->] by lia; by apply (bool_decide_unpack _).
  - rewrite (moving_tick _ _ 0 {[2 := 0]} St); [exact ms4|done|by vm_compute].
  - rewrite (moving_tick _ _ 0 ∅ St); [exact ms5|done|by vm_compute].
  - rewrite (moving_tick _ _ 3 ∅ St); [exact ms6|done|by vm_compute].
  - rewrite (moving_tick _ _ 1 ∅ St); [exact ms7|done|by vm_compute].
Qed.

(** A state reached by [n] ticks. *)
Record ticked (n : nat) (s : os) (A : schedule) : Prop := {
  tk_at : milestone n A;
  tk_ok : os_ok s A;
  tk_word : cstr (k_mem (o_kernel s)) 0x500100 shell_word;
  tk_zero : zero_left (o_left s)
}.

Lemma ticked_next n s A : (n < 7)%nat -> ticked n s A -> exists s' A', os_step 0x8000000 s Tick s' /\ ticked (S n) s' A'.
Proof.
  intros Hn [M O W Z]. destruct (next_tick s A 9 O W Z) as (s' & A' & T & St & O' & W' & Z'); [done| |].
  { destruct M; [apply no_process_live|..]; unfold one_shell, two_shells, three_shells; rewrite live_three; by apply (bool_decide_unpack _). }
  exists s', A'. split; [exact T|]. split; [|done..]. apply (milestone_tick n A A' M Hn St). by apply (zero_astray s').
Qed.

Lemma ticked_start : ticked 0 idle_os no_process.
Proof. split; [exact ms0|exact idle_os_ok|exact idle_word|]. intros d t E. change ((∅ : gmap Z tick) !! d = Some t) in E. by apply lookup_empty_Some in E. Qed.

(** [n] ticks on, and [m] more. *)
Lemma ticked_run m : forall n s A, (n + m <= 7)%nat -> ticked n s A -> exists s' A', os_run 0x8000000 s (replicate m Tick) s' /\ ticked (n + m) s' A'.
Proof.
  induction m as [|m IH]; intros n s A Hn T.
  - exists s, A. split; [apply run_nil|]. by rewrite Nat.add_0_r.
  - destruct (ticked_next n s A) as (s1 & A1 & St & T1); [lia|done|]. destruct (IH (S n) s1 A1) as (s' & A' & R & T'); [lia|done|].
    exists s', A'. split; [by eapply run_cons|]. by replace (n + S m)%nat with (S n + m)%nat by lia.
Qed.

(** The process that runs after [n] ticks. *)
Definition runs_after (n : nat) : Z := nth n [0; 1; 2; 3; 0; 0; 3; 1] 0.

Lemma ticked_current n s A d : ticked n s A -> current (o_kernel s) d <-> d = runs_after n.
Proof.
  intros [M O _ _]. assert (E : running A = runs_after n) by by destruct M. rewrite <- E. split.
  - by apply current_running.
  - intros ->. by apply current_ok.
Qed.

(** The fourth tick after the start turns to the terminal of shell 1, but the tick
    that shell was left inside goes on with a number never set, and with a zero
    there the start of the kernel runs. *)
Lemma fourth_tick_astray : exists s, os_run 0x8000000 idle_os (replicate 4 Tick) s /\ cur_proc_ind (o_sched s) = 1 /\
  front (o_kernel s) 1 = Some 1 /\ current (o_kernel s) 0.
Proof.
  destruct (ticked_run 4 0 idle_os no_process) as (s & A & R & T); [lia|exact ticked_start|]. exists s. split; [exact R|].
  pose proof T as [M O _ _]. assert (EA : A = three_shells 1 0 {[2 := 0]}) by (by inversion M). subst A.
  split; [by rewrite (ok_turn _ _ O)|]. split; [by rewrite (rp_front _ _ (ok_stacks _ _ O))|]. by apply (ticked_current 4 _ _ 0 T).
Qed.

Lemma system_refines_witness : exists s s' A A', os_run 0x8000000 idle_os (replicate 3 Tick) s /\ os_step 0x8000000 s Tick s' /\
  sched_step Tick A A' /\ os_ok s' A'.
Proof.
  destruct (ticked_run 3 0 idle_os no_process) as (s & A & R & T); [lia|exact ticked_start|].
  destruct (ticked_next 3 s A) as (s' & A2 & St & _); [lia|exact T|].
  destruct (system_refines 0x8000000 s s' A Tick) as (A' & St' & O & _); [lia|apply (tk_ok _ _ _ T)|exact St|].
  exists s, s', A, A'. split; [exact R|]. split; [exact St|]. by split.
Defined.

(** Shell 1 is taken off by the second tick, which starts the second shell, and
    runs again after the seventh; its tick has gone on in the fourth. *)
Lemma process_undisturbed_witness : exists s1 s7, current (o_kernel s1) 1 /\ current (o_kernel s7) 1 /\
  forall a, user_address a -> ld8 (k_mem (o_kernel s7)) a = ld8 (k_mem (o_kernel s1)) a.
Proof.
  destruct (ticked_next 0 idle_os no_process) as (s1 & A1 & _ & T1); [lia|exact ticked_start|].
  destruct (ticked_next 1 s1 A1) as (s2 & A2 & St2 & T2); [lia|exact T1|].
  destruct (ticked_next 2 s2 A2) as (s3 & A3 & St3 & T3); [lia|exact T2|].
  destruct (ticked_next 3 s3 A3) as (s4 & A4 & St4 & T4); [lia|exact T3|].
  destruct (ticked_next 4 s4 A4) as (s5 & A5 & St5 & T5); [lia|exact T4|].
  destruct (ticked_next 5 s5 A5) as (s6 & A6 & St6 & T6); [lia|exact T5|].
  destruct (ticked_next 6 s6 A6) as (s7 & A7 & St7 & T7); [lia|exact T6|].
  assert (C1 : current (o_kernel s1) 1) by by apply (ticked_current 1 s1 A1 1 T1).
  assert (C7 : current (o_kernel s7) 1) by by apply (ticked_current 7 s7 A7 1 T7).
  exists s1, s7. split; [exact C1|]. split; [exact C7|].
  apply (process_undisturbed 0x8000000 s1 s2 s7 A1 1 Tick); [lia|apply (tk_ok _ _ _ T1)|exact C1|lia|by left|exact St2| | |exact C7].
  - by intros H%(ticked_current 2 s2 A2 1 T2).
  - eapply rtc_l; [split; [by intros H%(ticked_current 2 s2 A2 1 T2)|eexists; exact St3]|].
    eapply rtc_l; [split; [by intros H%(ticked_current 3 s3 A3 1 T3)|eexists; exact St4]|].
    eapply rtc_l; [split; [by intros H%(ticked_current 4 s4 A4 1 T4)|eexists; exact St5]|].
    eapply rtc_l; [split; [by intros H%(ticked_current 5 s5 A5 1 T5)|eexists; exact St6]|].
    eapply rtc_l; [split; [by intros H%(ticked_current 6 s6 A6 1 T6)|eexists; exact St7]|]. apply rtc_refl.
Defined.

Lemma reachable_ok_witness : exists s A, os_run 0x8000000 idle_os (replicate 7 Tick) s /\
  sched_run no_process (replicate 7 Tick) A /\ os_ok s A.
Proof.
  destruct (ticked_run 7 0 idle_os no_process) as (s & A & R & T); [lia|exact ticked_start|].
  destruct (reachable_ok 0x8000000 idle_kernel (mkPic 0xF8 0xFE []) boot_memory 0x500000 1 (file_contents boot_memory demo_fs 1)
    (replicate 7 Tick) s) as (A' & R' & O & _); [lia|exact idle_booted|exact idle_unnumbered|exact idle_disk|exact idle_shell|exact R|].
  exists s, A'. split; [exact R|]. by split.
Defined.

(** The fourth tick goes astray, and uses up what was left to. *)
Lemma every_terminal_served_witness : exists s s', os_run 0x8000000 idle_os (replicate 3 Tick) s /\ os_step 0x8000000 s Tick s' /\
  cur_proc_ind (o_sched s') = 1 /\ front (o_kernel s') 1 = Some 1 /\ current (o_kernel s') 0 /\ (to_stray s' < to_stray s)%nat.
Proof.
  destruct (ticked_run 3 0 idle_os no_process) as (s & A & R & T); [lia|exact ticked_start|].
  destruct (ticked_next 3 s A) as (s' & A' & St & T'); [lia|exact T|].
  destruct (every_terminal_served 0x8000000 idle_os s s' no_process (replicate 3 Tick)) as (Ei & (pid & Hp & F & Hr) & _);
    [lia|exact idle_os_ok|exact R|exact St|].
  assert (Ei1 : cur_proc_ind (o_sched s') = 1) by (rewrite Ei; by vm_compute). rewrite Ei1 in F.
  assert (C0 : current (o_kernel s') 0) by by apply (ticked_current 4 s' A' 0 T').
  exists s, s'. split; [exact R|]. split; [exact St|]. split; [exact Ei1|]. destruct Hr as [[C _]|(Hlt & _)].
  - apply (ticked_current 4 s' A' pid T') in C. change (runs_after 4) with 0 in C. lia.
  - split; [|by split]. pose proof T' as [M O _ _]. assert (EA : A' = three_shells 1 0 {[2 := 0]}) by (by inversion M). subst A'.
    by rewrite (rp_front _ _ (ok_stacks _ _ O)).
Defined.
