(* ===== verification/Programs.v ===== *)
(** * User programs: syscalls/ece391cat.c, ls, grep, shell, hello, counter

    The programs over the class of machines they run on: memory they load from
    and store to, and the system calls.  [Promises] and [Interactive] state what
    a program relies on: what a call does to its memory, to its descriptors and
    to what is shown on the terminal.  The theorems on the programs are proved
    against these classes. *)
From Stdlib Require Import Ascii.
From stdpp Require Import base tactics list numbers gmap option strings.
From Stdlib Require Import ZArith Lia.
From S2P Require Import Prelude CLib Support Task Page.

#[local] Open Scope string_scope.
#[local] Open Scope list_scope.
Open Scope Z_scope.

(** ** The machine *)

(** The memory a program sees and the system calls it makes, with the values
    they return; a call that does not return, or a fault, is [None]. *)
Class Machine (S : Type) := {
  u_mem : S -> mem;
  u_set : mem -> S -> S;
  u_read : Z -> Z -> Z -> S -> option (Z * S);       (* fd, buf, nbytes *)
  u_write : Z -> Z -> Z -> S -> option (Z * S);
  u_open : Z -> S -> option (Z * S);
  u_close : Z -> S -> option (Z * S);
  u_getargs : Z -> Z -> S -> option (Z * S);
  u_execute : Z -> S -> option (Z * S)
}.

Section Programs.
Context {S : Type} `{Machine S}.

(** The address of each string literal of the program. *)
Context (lit : string -> Z).

Definition peek (a : Z) (s : S) : Z := ld8 (u_mem s) a.
Definition poke (a v : Z) (s : S) : S := u_set (st8 (u_mem s) a v) s.
Definition on_memory (f : mem -> option mem) (s : S) : option S := m ← f (u_mem s); Some (u_set m s).

(** [ece391_fdputs(fd, s)] *)
Definition ece391_fdputs (fd a : Z) (s : S) : option S :=
  n ← ece391_strlen (u_mem s) a;
  '(_, s) ← u_write fd a n s;
  Some s.

Definition say (t : string) (s : S) : option S := ece391_fdputs 1 (lit t) s.

(** [ece391cat.c: main], with its array [buf[1024]] at an address. *)
Definition cat_copy (buf fd : Z) (s : S) : option (S + Z * S) :=
  '(cnt, s) ← u_read fd buf 1024 s;
  if decide (0 <> cnt) then
    if decide (-1 = cnt) then s ← say (line "file read failed") s; Some (inr (3, s))
    else
      '(w, s) ← u_write 1 buf cnt s;
      if decide (-1 = w) then Some (inr (3, s)) else Some (inl s)
  else Some (inr (0, s)).

Definition cat (buf : Z) (s : S) : option (Z * S) :=
  '(r, s) ← u_getargs buf 1024 s;
  if decide (0 <> r) then s ← say (line "could not read arguments") s; Some (3, s)
  else
    '(fd, s) ← u_open buf s;
    if decide (-1 = fd) then s ← say (line "file not found") s; Some (2, s)
    else whileM (cat_copy buf fd) s.

(** [ece391ls.c: main], with [buf[33]]. *)
Definition SBUFSIZE : Z := 33.

Definition ls_entry (buf fd : Z) (s : S) : option (S + Z * S) :=
  '(cnt, s) ← u_read fd buf (SBUFSIZE - 1) s;
  if decide (0 <> cnt) then
    if decide (-1 = cnt) then s ← say (line "directory entry read failed") s; Some (inr (3, s))
    else
      let s := poke (buf + cnt) 10 s in
      '(w, s) ← u_write 1 buf (cnt + 1) s;
      if decide (-1 = w) then Some (inr (3, s)) else Some (inl s)
  else Some (inr (0, s)).

Definition ls (buf : Z) (s : S) : option (Z * S) :=
  '(fd, s) ← u_open (lit ".") s;
  if decide (-1 = fd) then s ← say (line "directory open failed") s; Some (2, s)
  else whileM (ls_entry buf fd) s.

(** [ece391hello.c: main], with [buf[1024]]. *)
Definition BUFSIZE : Z := 1024.

Definition hello (buf : Z) (s : S) : option (Z * S) :=
  s ← say "Hi, what's your name? " s;
  '(cnt, s) ← u_read 0 buf (BUFSIZE - 1) s;
  if decide (-1 = cnt) then s ← say (line "Can't read name from keyboard.") s; Some (3, s)
  else
    let s := poke (buf + cnt) 0 s in
    s ← say "Hello, " s;
    s ← ece391_fdputs 1 buf s;
    Some (0, s).

(** [ece391shell.c: main], with [buf[1024]]: the prompt and the read of a turn
    of its loop, then what the turn does with the line. *)
Definition shell_prompt (buf : Z) (s : S) : option (Z * S) :=
  s ← say "391OS> " s;
  u_read 0 buf (BUFSIZE - 1) s.

Definition shell_run (buf cnt : Z) (s : S) : option (S + Z * S) :=
  let cnt := if decide (cnt > 0 /\ 10 = peek (buf + (cnt - 1)) s) then cnt - 1 else cnt in
  let s := poke (buf + cnt) 0 s in
  c ← ece391_strcmp (u_mem s) buf (lit "exit");
  if decide (0 = c) then Some (inr (0, s))
  else if decide (0 = peek buf s) then Some (inl s)
  else
    '(rval, s) ← u_execute buf s;
    s ← (if decide (-1 = rval) then say (line "no such command") s
         else if decide (256 = rval) then say (line "program terminated by exception") s
         else if decide (0 <> rval) then say (line "program terminated abnormally") s
         else Some s);
    Some (inl s).

Definition shell_step (buf : Z) (s : S) : option (S + Z * S) :=
  '(cnt, s) ← shell_prompt buf s;
  if decide (-1 = cnt) then s ← say (line "read from keyboard failed") s; Some (inr (3, s))
  else shell_run buf cnt s.

Definition shell (buf : Z) (s : S) : option (Z * S) :=
  s ← say (line "Starting 391 Shell") s;
  whileM (shell_step buf) s.

(** [ece391counter.c: main], with [buf[1024]].  [cnt] is unsigned, so the error
    of the read is compared as 2^32-1. *)
Definition counter_max (c : Z) : Z :=
  if decide (c = 48) then 100 else if decide (c = 49) then 10000 else if decide (c = 50) then 100000 else 0.

Definition counter_line (buf i : Z) (s : S) : option S :=
  s ← on_memory (fun m => ece391_itoa (u32 (i + 1)) m buf 10) s;
  s ← ece391_fdputs 1 buf s;
  say (line "") s.

Definition counter (buf : Z) (s : S) : option (Z * S) :=
  s ← say (line "Enter the Test Number: (0): 100, (1): 10000, (2): 100000") s;
  '(r, s) ← u_read 0 buf (BUFSIZE - 1) s;
  let cnt := u32 r in
  if decide (u32 (-1) = cnt) then s ← say (line "Can't read the number from keyboard.") s; Some (3, s)
  else
    let s := poke (buf + cnt) 0 s in
    n ← ece391_strlen (u_mem s) buf;
    if decide (n > 2 \/ n = 2 /\ (peek buf s < 48 \/ peek buf s > 50)) then
      s ← say (line "Wrong Choice!") s; Some (0, s)
    else
      s ← for_upM 0 (counter_max (peek buf s)) (counter_line buf) s;
      Some (0, s).
End Programs.

(** ** What a program relies on *)

(** What can be read from a descriptor: the rest of a regular file, the names
    left of a directory, or something no promise is made of. *)
Inductive content := Regular (l : list Z) | Names (l : list (list Z)) | Device.

(** What the person at the terminal does: types a line, and runs a program
    that writes some text and ends with a status. *)
Inductive event := Typed (l : list Z) | Ran (status : Z) (out : list Z).

(** The observations on a machine the promises are stated in. *)
Class Observe (S : Type) := {
  ready : S -> Prop;                              (* between two calls *)
  shows : list Z -> S -> S -> Prop;               (* the text a run writes on the terminal *)
  args : S -> option (list Z);                    (* the arguments of the program *)
  named : S -> list Z -> option content;          (* what a name opens *)
  left : S -> Z -> option content;                (* what an open descriptor has left *)
  slots : S -> list Z;                            (* the free descriptors, the next first *)
  future : S -> list event                        (* what will be typed and run *)
}.

(** The next descriptor. *)
Definition slot {S : Type} {OS : Observe S} (s : S) : option Z := head (slots s).

Section Steps.
Context {S : Type} `{Machine S, Observe S}.

(** A piece of a run that stores at [touched] addresses only, reads from the
    descriptors [fds] only and writes [out]. *)
Record step (touched : Z -> Prop) (fds : Z -> Prop) (out : list Z) (s s' : S) : Prop := {
  st_ready : ready s';
  st_mem : forall a, user_address a -> ~ touched a -> ld8 (u_mem s') a = ld8 (u_mem s) a;
  st_args : args s' = args s;
  st_named : forall l, named s' l = named s l;
  st_left : forall fd, ~ fds fd -> left s' fd = left s fd;
  st_future : ~ fds 0 -> future s' = future s;
  st_shows : shows out s s'
}.

Definition region (a n : Z) (x : Z) : Prop := a <= x < a + n.
Definition nowhere (x : Z) : Prop := False.
Definition only (fd x : Z) : Prop := x = fd.

(** The piece a read of [n] bytes delivers and what is left. *)
Definition chunk (n : Z) (c : content) : list Z :=
  match c with
  | Regular l => take (Z.to_nat n) l
  | Names (x :: _) => x
  | _ => []
  end.
Definition rest (n : Z) (c : content) : content :=
  match c with
  | Regular l => Regular (drop (Z.to_nat n) l)
  | Names (_ :: l) => Names l
  | c => c
  end.

(** A buffer large enough for a piece: directories always deliver 32 bytes. *)
Definition room (n : Z) (c : content) : Prop :=
  match c with Regular _ => 0 < n < 1073741824 | Names _ => 32 <= n | Device => False end.
End Steps.

Class Promises (S : Type) `{Machine S, Observe S} : Prop := {
  pr_mem : forall s : S, ready s -> mem_ok (u_mem s);
  pr_set : forall (s : S) m, ready s -> mem_ok m -> (forall a, ~ user_address a -> ld8 m a = ld8 (u_mem s) a) ->
    u_mem (u_set m s) = m /\ step user_address nowhere [] s (u_set m s) /\ slots (u_set m s) = slots s;
  pr_nil : forall s : S, shows [] s s;
  pr_app : forall l1 l2 (s1 s2 s3 : S), shows l1 s1 s2 -> shows l2 s2 s3 -> shows (l1 ++ l2) s1 s3;
  pr_write : forall (s : S) buf n, ready s -> 0 <= n < 2147483648 -> user_address buf ->
    (forall a, region buf n a -> user_address a) ->
    exists s', u_write 1 buf n s = Some (n, s') /\ step nowhere nowhere (load_bytes (u_mem s) buf n) s s' /\ slots s' = slots s;
  pr_getargs : forall (s : S) buf n, ready s -> 0 < n -> (forall a, region buf n a -> user_address a) ->
    exists r s', u_getargs buf n s = Some (r, s') /\ step (region buf n) nowhere [] s s' /\ slots s' = slots s /\
      match args s with
      | Some a => if decide (n < Z.of_nat (length a) + 1) then r = -1 else r = 0 /\ cstr (u_mem s') buf a
      | None => r = -1
      end;
  pr_open : forall (s : S) a l, ready s -> cstr (u_mem s) a l -> (named s l = None \/ slot s = None) ->
    exists s', u_open a s = Some (-1, s') /\ step nowhere nowhere [] s s' /\ slots s' = slots s;
  pr_opened : forall (s : S) a l c fd, ready s -> cstr (u_mem s) a l -> named s l = Some c -> c <> Device -> slot s = Some fd ->
    2 <= fd /\ exists s', u_open a s = Some (fd, s') /\ step nowhere (only fd) [] s s' /\ left s fd = None /\ left s' fd = Some c /\ slots s' = tail (slots s);
  pr_close : forall (s : S) fd c, ready s -> left s fd = Some c -> c <> Device -> 2 <= fd ->
    exists s', u_close fd s = Some (0, s') /\ step nowhere (only fd) [] s s' /\ left s' fd = None /\ slots s' <> [];
  pr_read : forall (s : S) fd buf n c, ready s -> left s fd = Some c -> room n c ->
    (forall a, region buf n a -> user_address a) ->
    let k := Z.of_nat (length (chunk n c)) in
    k <= n /\ exists s', u_read fd buf n s = Some (k, s') /\ step (region buf n) (only fd) [] s s' /\ slots s' = slots s /\
      load_bytes (u_mem s') buf k = chunk n c /\ left s' fd = Some (rest n c)
}.

(** The terminal and the programs started from it. *)
Class Interactive (S : Type) `{Machine S, Observe S} : Prop := {
  in_line : forall (s : S) buf n l ev, ready s -> future s = Typed l :: ev -> Z.of_nat (length l) <= n ->
    Forall (fun c => 0 <= c < 256) l ->
    (forall a, region buf n a -> user_address a) ->
    exists s', u_read 0 buf n s = Some (Z.of_nat (length l), s') /\ step (region buf n) (only 0) [] s s' /\
      load_bytes (u_mem s') buf (Z.of_nat (length l)) = l /\ future s' = ev;
  in_execute : forall (s : S) buf l r out ev, ready s -> cstr (u_mem s) buf l -> future s = Ran r out :: ev ->
    exists s', u_execute buf s = Some (r, s') /\ step nowhere (only 0) out s s' /\ future s' = ev
}.

(** ** Lemmas on pieces of runs *)

Lemma load_bytes_cstr (m : mem) a l : cstr m a l -> load_bytes m a (Z.of_nat (length l)) = l.
Proof.
  intros [Hl _]. apply list_eq. intros k. destruct (l !! k) as [c|] eqn:E.
  - pose proof (lookup_lt_Some _ _ _ E). destruct (Hl k c E) as [Hg _]. cbn [bget mem_buf] in Hg. case_decide as D; [|done].
    rewrite <- (Nat2Z.id k) at 1. rewrite lookup_load_bytes, u32_small by lia. done.
  - apply lookup_ge_None in E. apply lookup_ge_None_2.
    pose proof (length_load_bytes m a (Z.of_nat (length l)) ltac:(lia)). lia.
Qed.

(** Bytes that read as a string and its NUL are one. *)
Lemma loaded_cstr (m : mem) a l : load_bytes m a (Z.of_nat (length l) + 1) = l ++ [0] -> Forall (fun c => 0 < c < 256) l ->
  0 <= a -> a + Z.of_nat (length l) < 4294967296 -> cstr m a l.
Proof.
  intros Hl Hf Ha Hb. assert (Hget : forall k, (k <= length l)%nat -> bget m (a + Z.of_nat k) = (l ++ [0]) !! k).
  { intros k Hk. cbn [bget mem_buf]. rewrite decide_True by lia.
    rewrite <- Hl, <- (Nat2Z.id k), lookup_load_bytes, u32_small, Nat2Z.id by lia. done. }
  split.
  - intros k c E. pose proof (lookup_lt_Some _ _ _ E). rewrite Hget, lookup_app_l, E by lia. split; [done|].
    rewrite Forall_lookup in Hf. by apply (Hf k).
  - rewrite Hget by lia. by apply list_lookup_middle.
Qed.

Lemma load_bytes_snoc (m : mem) a n : 0 <= n -> load_bytes m a (n + 1) = load_bytes m a n ++ [ld8 m (u32 (a + n))].
Proof.
  intros Hn. unfold load_bytes. rewrite (seqZ_snoc 0 (n + 1)) by lia. rewrite map_app. cbn [map].
  replace (n + 1 - 1) with n by lia. done.
Qed.

(** A byte stored behind a piece of a buffer. *)
Lemma load_bytes_behind (m : mem) buf l c : (forall a, buf <= a < buf + Z.of_nat (length l) + 1 -> user_address a) ->
  load_bytes m buf (Z.of_nat (length l)) = l -> 0 <= c < 256 ->
  load_bytes (st8 m (buf + Z.of_nat (length l)) c) buf (Z.of_nat (length l) + 1) = l ++ [c].
Proof.
  intros Hu Hl Hc. pose proof (Hu (buf + Z.of_nat (length l)) ltac:(lia)) as Hu1. pose proof (Hu buf ltac:(lia)) as Hu0.
  unfold user_address, TASK_VIRT_PAGE_BEG, TASK_VIRT_PAGE_END in Hu0, Hu1.
  rewrite load_bytes_snoc, u32_small, ld8_st8_eq, u8_small by lia. f_equal. rewrite <- Hl at 3. apply load_bytes_ext.
  intros i Hi. rewrite u32_small by lia. apply ld8_st8_ne. lia.
Qed.

(** A byte of a piece of a buffer. *)
Lemma load_bytes_nth (m : mem) buf l i c : (forall a, buf <= a < buf + Z.of_nat (length l) -> user_address a) ->
  load_bytes m buf (Z.of_nat (length l)) = l -> l !! i = Some c -> ld8 m (buf + Z.of_nat i) = c.
Proof.
  intros Hu Hl E. pose proof (lookup_lt_Some _ _ _ E) as Hi. pose proof (Hu (buf + Z.of_nat i) ltac:(lia)) as Ha.
  unfold user_address, TASK_VIRT_PAGE_BEG, TASK_VIRT_PAGE_END in Ha.
  rewrite <- Hl, <- (Nat2Z.id i), lookup_load_bytes, u32_small in E by lia. by injection E.
Qed.

(** A string survives stores elsewhere. *)
Lemma cstr_same (m m' : mem) a l : cstr m a l ->
  (forall x, region a (Z.of_nat (length l) + 1) x -> ld8 m' x = ld8 m x) -> cstr m' a l.
Proof.
  intros [Hl Hz] Hm. unfold region in Hm. split; cbn [bget mem_buf] in *.
  - intros k c E. pose proof (lookup_lt_Some _ _ _ E). destruct (Hl k c E) as [Hg Hc]. split; [|done].
    by rewrite Hm by lia.
  - by rewrite Hm by lia.
Qed.

Section Runs.
Context {S : Type} {MS : Machine S} {OS : Observe S} {PS : Promises S} (lit : string -> Z).

Lemma step_trans T F o1 o2 s1 s2 s3 : step T F o1 s1 s2 -> step T F o2 s2 s3 -> step T F (o1 ++ o2) s1 s3.
Proof.
  intros [R1 M1 A1 N1 L1 F1 S1] [R2 M2 A2 N2 L2 F2 S2]. split; try congruence; try done.
  - intros a Ha Ht. rewrite M2 by done. by apply M1.
  - intros fd Hfd. rewrite L2 by done. by apply L1.
  - intros H0. rewrite F2 by done. by apply F1.
  - by eapply pr_app.
Qed.

(** The same with the text given up to equality. *)
Lemma step_then T F o o1 o2 s1 s2 s3 : step T F o1 s1 s2 -> step T F o2 s2 s3 -> o = o1 ++ o2 -> step T F o s1 s3.
Proof. intros H1 H2 ->. by eapply step_trans. Qed.

Lemma step_refl T F s : ready s -> step T F [] s s.
Proof. intros Hr. split; try done. apply pr_nil. Qed.

Lemma step_weaken (T T' F F' : Z -> Prop) o s s' :
  step T F o s s' -> (forall a, T a -> T' a) -> (forall fd, F fd -> F' fd) -> step T' F' o s s'.
Proof. intros [R1 M1 A1 N1 L1 F1 S1] HT HF. split; auto. Qed.

Lemma step_quiet T F o s s' : step nowhere nowhere o s s' -> step T F o s s'.
Proof. intros Hs. by eapply step_weaken; [exact Hs| |]. Qed.

(** A string at an address, apart from the addresses a program stores to. *)
Definition stands (T : Z -> Prop) (s : S) (a : Z) (l : list Z) : Prop :=
  cstr (u_mem s) a l /\ Z.of_nat (length l) < 2147483648 /\
  forall x, region a (Z.of_nat (length l) + 1) x -> user_address x /\ ~ T x.

Lemma stands_step T F o s s' a l : step T F o s s' -> stands T s a l -> stands T s' a l.
Proof.
  intros Hs (Hc & Hl & Ha). split; [|done]. eapply cstr_same; [exact Hc|]. intros x Hx.
  destruct (Ha x Hx). by apply (st_mem _ _ _ _ _ Hs).
Qed.

(** A string literal of the program. *)
Definition placed (T : Z -> Prop) (s : S) (t : string) : Prop := stands T s (lit t) (codes t).

Lemma placed_step T F o s s' t : step T F o s s' -> placed T s t -> placed T s' t.
Proof. apply stands_step. Qed.

Lemma fdputs_spec s a l : ready s -> cstr (u_mem s) a l -> Z.of_nat (length l) < 2147483648 ->
  (forall x, region a (Z.of_nat (length l) + 1) x -> user_address x) ->
  exists s', ece391_fdputs 1 a s = Some s' /\ step nowhere nowhere l s s'.
Proof.
  intros Hr Hc Hn Ha. unfold region in Ha. unfold ece391_fdputs. rewrite (ece391_strlen_spec _ _ l) by (done || lia).
  rewrite bind_ret. destruct (pr_write s a (Z.of_nat (length l)) Hr ltac:(lia)) as (s' & E & Hs & _);
    [apply Ha; lia|intros x Hx; unfold region in Hx; apply Ha; lia|].
  rewrite E, bind_ret. cbv beta iota. exists s'. split; [done|]. by rewrite (load_bytes_cstr _ _ l) in Hs.
Qed.

Lemma fdputs_stands T F s a l : ready s -> stands T s a l -> exists s', ece391_fdputs 1 a s = Some s' /\ step T F l s s'.
Proof.
  intros Hr (Hc & Hl & Ha). destruct (fdputs_spec s a l Hr Hc Hl) as (s' & E & Hs).
  - intros x Hx. by apply Ha.
  - exists s'. split; [exact E|]. by apply step_quiet.
Qed.

Lemma say_spec T F s t : ready s -> placed T s t -> exists s', say lit t s = Some s' /\ step T F (codes t) s s'.
Proof. apply fdputs_stands. Qed.

(** Storing to some of the addresses a program may store to. *)
Lemma store_spec T F m s : ready s -> mem_ok m -> (forall a, T a -> user_address a) ->
  (forall a, ~ T a -> ld8 m a = ld8 (u_mem s) a) -> step T F [] s (u_set m s) /\ u_mem (u_set m s) = m /\ slots (u_set m s) = slots s.
Proof.
  intros Hr Hm HT Ho. destruct (pr_set s m Hr Hm) as (Em & Hs & Es).
  - intros a Ha. apply Ho. intros Ht. by apply Ha, HT.
  - split; [|done]. destruct Hs as [R1 M1 A1 N1 L1 F1 S1]. split; try done; auto. intros x Hx Hnx. rewrite Em. by apply Ho.
Qed.

Lemma poke_spec T F a v s : ready s -> user_address a -> T a -> step T F [] s (poke a v s) /\
  u_mem (poke a v s) = st8 (u_mem s) a v /\ slots (poke a v s) = slots s.
Proof.
  intros Hr Ha HT. unfold poke. destruct (pr_set s (st8 (u_mem s) a v) Hr) as (Em & Hs & Es).
  - by apply mem_ok_st8, pr_mem.
  - intros x Hx. apply ld8_st8_ne. intros ->. done.
  - split; [|done]. destruct Hs as [R1 M1 A1 N1 L1 F1 S1]. split; try done; auto.
    intros x Hx Hnx. rewrite Em. apply ld8_st8_ne. by intros ->.
Qed.
End Runs.

(** ** Contents *)

(** Names up to the first empty one, at which a reader of the directory stops. *)
Fixpoint until_empty (l : list (list Z)) : list (list Z) :=
  match l with
  | [] | [] :: _ => []
  | x :: l => x :: until_empty l
  end.

(** The text of a file or a directory, read to its end. *)
Definition text (c : content) : list Z :=
  match c with
  | Regular l => l
  | Names l => concat (until_empty l)
  | Device => []
  end.

(** The number of reads it can take. *)
Definition weight (c : content) : Z :=
  match c with
  | Regular l => Z.of_nat (length l)
  | Names l => Z.of_nat (length l)
  | Device => 0
  end.

Lemma weight_nonneg c : 0 <= weight c.
Proof. destruct c; simpl; lia. Qed.

Lemma chunk_end n c : room n c -> chunk n c = [] -> text c = [].
Proof.
  destruct c as [l|[|x l]|]; simpl; try done.
  - intros Hn Hl. destruct l as [|y l]; [done|]. replace (Z.to_nat n) with (Datatypes.S (Z.to_nat (n - 1))) in Hl by lia. done.
  - by intros _ ->.
Qed.

Lemma chunk_text n c : room n c -> chunk n c <> [] ->
  text c = chunk n c ++ text (rest n c) /\ room n (rest n c) /\ 0 <= weight (rest n c) < weight c.
Proof.
  destruct c as [l|[|x l]|]; simpl; try done.
  - intros Hn Hl. rewrite take_drop. split; [done|]. split; [done|]. rewrite length_drop.
    destruct l as [|y l]; [by destruct (Z.to_nat n)|]. simpl. lia.
  - intros Hn Hx. destruct x as [|y x]; [done|]. split; [done|]. split; [done|]. simpl. lia.
Qed.

(** ** cat *)
Section Cat.
Context {S : Type} {MS : Machine S} {OS : Observe S} {PS : Promises S} (lit : string -> Z).
Context (buf : Z) (Hbuf : forall a, region buf 1024 a -> user_address a).

Lemma cat_copies s fd c : ready s -> left s fd = Some c -> room 1024 c -> weight c < Z.pos FUEL ->
  exists s', whileM (cat_copy lit buf fd) s = Some (0, s') /\ step (region buf 1024) (only fd) (text c) s s'.
Proof.
  intros Hr Hleft Hroom Hw.
  destruct (whileM_total (fun s' => exists o c', step (region buf 1024) (only fd) o s s' /\ left s' fd = Some c' /\
      text c = o ++ text c' /\ room 1024 c')
    (fun s' => match left s' fd with Some c' => weight c' | None => 0 end)
    (fun '(r, s') => r = 0 /\ step (region buf 1024) (only fd) (text c) s s') (cat_copy lit buf fd) s) as ([r s'] & E & -> & Hs).
  - intros s1 (o & c1 & H1 & L1 & Et & Rm1).
    pose proof (st_ready _ _ _ _ _ H1) as Hr1. rewrite L1. unfold cat_copy.
    destruct (pr_read s1 fd buf 1024 c1 Hr1 L1 Rm1 Hbuf) as (Hk & s2 & E2 & H2 & _ & Hb & L2). rewrite E2, bind_ret. cbv beta iota.
    set (k := Z.of_nat (length (chunk 1024 c1))) in *.
    assert (H12 : step (region buf 1024) (only fd) o s s2) by (eapply step_then; [exact H1|exact H2|by rewrite app_nil_r]).
    destruct (decide (chunk 1024 c1 = [])) as [Hc|Hc].
    + subst k. rewrite Hc. rewrite decide_False by (intros X; apply X; done). split; [done|].
      rewrite Et, (chunk_end 1024 c1 Rm1 Hc), app_nil_r. exact H12.
    + assert (0 < k) by (subst k; destruct (chunk 1024 c1); [done|simpl; lia]).
      rewrite decide_True by lia. rewrite decide_False by lia.
      destruct (pr_write s2 buf k (st_ready _ _ _ _ _ H2) ltac:(lia)) as (s3 & E3 & H3 & _);
        [apply Hbuf; unfold region; lia|intros x Hx; apply Hbuf; unfold region in *; lia|].
      rewrite E3, bind_ret. cbv beta iota. rewrite decide_False by lia.
      destruct (chunk_text 1024 c1 Rm1 Hc) as (Et1 & Rm2 & Hdec).
      assert (L3 : left s3 fd = Some (rest 1024 c1)) by (by rewrite (st_left _ _ _ _ _ H3) by (by intros [])).
      rewrite L3. split; [|done]. exists (o ++ chunk 1024 c1), (rest 1024 c1). split; [|split; [done|]].
      * eapply step_then; [exact H12|apply step_quiet; exact H3|by rewrite Hb].
      * split; [by rewrite Et, Et1, app_assoc|done].
  - exists [], c. split; [by apply step_refl|done].
  - rewrite Hleft. pose proof (weight_nonneg c). lia.
  - exists s'. done.
Qed.

(** What cat does: its status and what it writes. *)
Definition cat_spec (s : S) : option (Z * list Z) :=
  match args s with
  | Some a =>
      if decide (1024 < Z.of_nat (length a) + 1) then Some (3, codes (line "could not read arguments"))
      else
        match named s a, slot s with
        | Some Device, Some _ => None
        | Some c, Some _ => Some (0, text c)
        | _, _ => Some (2, codes (line "file not found"))
        end
  | None => Some (3, codes (line "could not read arguments"))
  end.

(** The descriptor a program opens next. *)
Definition opening (s : S) (fd : Z) : Prop := slot s = Some fd.

Lemma cat_runs s r out :
  ready s -> placed lit (region buf 1024) s (line "could not read arguments") ->
  placed lit (region buf 1024) s (line "file not found") ->
  (forall l c, named s l = Some c -> weight c < Z.pos FUEL) -> cat_spec s = Some (r, out) ->
  exists s', cat lit buf s = Some (r, s') /\ step (region buf 1024) (opening s) out s s'.
Proof.
  intros Hr Ha Hf Hw Hspec. unfold cat, cat_spec in *.
  destruct (pr_getargs s buf 1024 Hr ltac:(lia) Hbuf) as (rg & s1 & E1 & H1 & Sl1 & Hargs). rewrite E1, bind_ret. cbv beta iota.
  pose proof (st_ready _ _ _ _ _ H1) as Hr1.
  assert (H1' : step (region buf 1024) (opening s) [] s s1) by (eapply step_weaken; [exact H1|done|by intros ? []]).
  assert (Hrefused : rg = -1 -> Some (3, codes (line "could not read arguments")) = Some (r, out) ->
    exists s', (if decide (0 <> rg) then s ← say lit (line "could not read arguments") s1; Some (3, s)
      else '(fd, s) ← u_open buf s1; if decide (-1 = fd) then s ← say lit (line "file not found") s; Some (2, s)
           else whileM (cat_copy lit buf fd) s) = Some (r, s') /\ step (region buf 1024) (opening s) out s s').
  { intros -> [= <- <-]. rewrite decide_True by lia.
    destruct (say_spec lit (region buf 1024) (opening s) s1 _ Hr1 (placed_step _ _ _ _ _ _ _ H1 Ha)) as (s2 & E2 & H2).
    rewrite E2, bind_ret. exists s2. split; [done|]. by eapply step_then. }
  destruct (args s) as [a|] eqn:Ea; [|by apply Hrefused]. destruct (decide (1024 < Z.of_nat (length a) + 1)) as [Dn|Dn]; [by apply Hrefused|].
  destruct Hargs as [-> Hc]. rewrite decide_False by (intros X; by apply X).
  assert (Hnone : named s a = None \/ slot s = None -> r = 2 /\ out = codes (line "file not found") ->
    exists s', ('(fd, s) ← u_open buf s1; if decide (-1 = fd) then s ← say lit (line "file not found") s; Some (2, s)
      else whileM (cat_copy lit buf fd) s) = Some (r, s') /\ step (region buf 1024) (opening s) out s s').
  { intros Hno [-> ->]. destruct (pr_open s1 buf a Hr1 Hc) as (s2 & E2 & H2 & _).
    - by unfold slot; rewrite (st_named _ _ _ _ _ H1), Sl1.
    - assert (H12 : step (region buf 1024) (opening s) [] s s2) by (eapply step_then; [exact H1'|by apply step_quiet|done]).
      rewrite E2, bind_ret. cbv beta iota. rewrite decide_True by done.
      destruct (say_spec lit (region buf 1024) (opening s) s2 _ (st_ready _ _ _ _ _ H2) (placed_step _ _ _ _ _ _ _ H12 Hf)) as (s3 & E3 & H3).
      rewrite E3, bind_ret. exists s3. split; [done|]. by eapply step_then. }
  destruct (named s a) as [c|] eqn:En; [|apply Hnone; [by left|by injection Hspec as <- <-]].
  destruct (slot s) as [fd|] eqn:Es; [|apply Hnone; [by right|by destruct c; injection Hspec as <- <-]].
  assert (Hdev : c <> Device) by (by intros ->).
  assert (r = 0 /\ out = text c) as [-> ->] by (by destruct c; [injection Hspec as <- <-|injection Hspec as <- <-|]).
  destruct (pr_opened s1 buf a c fd Hr1 Hc) as (Hfd & s2 & E2 & H2 & _ & L2 & _); [by rewrite (st_named _ _ _ _ _ H1)|done|by unfold slot; rewrite Sl1|].
  rewrite E2, bind_ret. cbv beta iota. rewrite decide_False by lia.
  destruct (cat_copies s2 fd c (st_ready _ _ _ _ _ H2) L2) as (s3 & E3 & H3); [by destruct c|by eapply Hw|].
  exists s3. split; [exact E3|].
  assert (Hopen : forall x, only fd x -> opening s x) by (intros ? ->; exact Es).
  apply (step_then _ _ _ [] (text c) _ _ _ H1'); [|done]. apply (step_then _ _ _ [] (text c) _ s2); [| |done].
  - eapply step_weaken; [exact H2|by intros ? []|exact Hopen].
  - eapply step_weaken; [exact H3|done|exact Hopen].
Qed.
End Cat.

(** ** ls *)
Section Ls.
Context {S : Type} {MS : Machine S} {OS : Observe S} {PS : Promises S} (lit : string -> Z).
Context (buf : Z) (Hbuf : forall a, region buf 33 a -> user_address a).

(** Each name on a line. *)
Definition listing (l : list (list Z)) : list Z := concat ((fun x => x ++ [10]) <$> until_empty l).

Lemma ls_entries s fd l : ready s -> left s fd = Some (Names l) -> Z.of_nat (length l) < Z.pos FUEL ->
  exists s', whileM (ls_entry lit buf fd) s = Some (0, s') /\ step (region buf 33) (only fd) (listing l) s s'.
Proof.
  intros Hr Hleft Hw.
  destruct (whileM_total (fun s' => exists o l', step (region buf 33) (only fd) o s s' /\ left s' fd = Some (Names l') /\
      listing l = o ++ listing l')
    (fun s' => match left s' fd with Some c' => weight c' | None => 0 end)
    (fun '(r, s') => r = 0 /\ step (region buf 33) (only fd) (listing l) s s') (ls_entry lit buf fd) s) as ([r s'] & E & -> & Hs).
  - intros s1 (o & l1 & H1 & L1 & Et).
    pose proof (st_ready _ _ _ _ _ H1) as Hr1. rewrite L1. unfold ls_entry. change (SBUFSIZE - 1) with 32.
    destruct (pr_read s1 fd buf 32 (Names l1) Hr1 L1 ltac:(done)) as (Hk & s2 & E2 & H2 & _ & Hb & L2);
      [intros x Hx; apply Hbuf; unfold region in *; lia|]. rewrite E2, bind_ret. cbv beta iota.
    set (k := Z.of_nat (length (chunk 32 (Names l1)))) in *.
    assert (H12 : step (region buf 33) (only fd) o s s2).
    { eapply step_then; [exact H1| |by rewrite app_nil_r]. eapply step_weaken; [exact H2| |done].
      intros x Hx. unfold region in *. lia. }
    destruct (decide (chunk 32 (Names l1) = [])) as [Hc|Hc].
    + subst k. rewrite Hc, decide_False by (intros X; apply X; done). split; [done|]. rewrite Et.
      assert (listing l1 = []) as -> by (destruct l1 as [|x l1]; [done|cbn [chunk] in Hc; by subst x]).
      by rewrite app_nil_r.
    + destruct l1 as [|x l1]; [done|]. cbn [chunk rest] in *.
      assert (0 < k) by (subst k; destruct x; [done|simpl; lia]). rewrite decide_True by lia. rewrite decide_False by lia. cbv zeta.
      destruct (poke_spec (region buf 33) nowhere (buf + k) 10 s2 (st_ready _ _ _ _ _ H2)) as (H3 & Em & _);
        [apply Hbuf; unfold region; lia|unfold region; lia|]. set (s3 := poke (buf + k) 10 s2) in *.
      destruct (pr_write s3 buf (k + 1) (st_ready _ _ _ _ _ H3) ltac:(lia)) as (s4 & E4 & H4 & _);
        [apply Hbuf; unfold region; lia|intros a Ha; apply Hbuf; unfold region in *; lia|].
      rewrite E4, bind_ret. cbv beta iota. rewrite decide_False by lia.
      assert (Hout : load_bytes (u_mem s3) buf (k + 1) = x ++ [10]).
      { rewrite Em. apply load_bytes_behind; [|exact Hb|lia]. intros a Ha. apply Hbuf. unfold region. lia. }
      assert (L4 : left s4 fd = Some (Names l1)).
      { by rewrite (st_left _ _ _ _ _ H4), (st_left _ _ _ _ _ H3) by (by intros []). }
      rewrite L4. split; [|simpl; lia]. exists (o ++ x ++ [10]), l1. split; [|split; [done|]].
      * eapply step_then; [eapply step_then; [exact H12|eapply step_weaken; [exact H3|done|by intros ? []]|done]|apply step_quiet; exact H4|by rewrite Hout, app_nil_r].
      * rewrite Et. destruct x; [done|]. unfold listing. cbn [until_empty fmap list_fmap concat]. by rewrite <- !app_assoc.
  - exists [], l. split; [by apply step_refl|done].
  - rewrite Hleft. simpl. lia.
  - exists s'. done.
Qed.

Lemma ls_runs s : ready s -> placed lit (region buf 33) s "." -> placed lit (region buf 33) s (line "directory open failed") ->
  match named s (codes "."), slot s with
  | Some (Names l), Some fd =>
      Z.of_nat (length l) < Z.pos FUEL ->
      exists s', ls lit buf s = Some (0, s') /\ step (region buf 33) (opening s) (listing l) s s'
  | None, _ | _, None =>
      exists s', ls lit buf s = Some (2, s') /\ step (region buf 33) (opening s) (codes (line "directory open failed")) s s'
  | _, _ => True
  end.
Proof.
  intros Hr (Hdot & _ & Hd) Hf. unfold ls.
  assert (Hnone : named s (codes ".") = None \/ slot s = None ->
    exists s', ('(fd, s) ← u_open (lit ".") s; if decide (-1 = fd) then s ← say lit (line "directory open failed") s; Some (2, s)
      else whileM (ls_entry lit buf fd) s) = Some (2, s') /\ step (region buf 33) (opening s) (codes (line "directory open failed")) s s').
  { intros Hno. destruct (pr_open s (lit ".") (codes ".") Hr Hdot Hno) as (s2 & E2 & H2 & _).
    rewrite E2, bind_ret. cbv beta iota. rewrite decide_True by done. pose proof (st_ready _ _ _ _ _ H2) as Hr2.
    assert (Hf2 : placed lit (region buf 33) s2 (line "directory open failed")).
    { eapply (placed_step lit _ nowhere); [by apply step_quiet|exact Hf]. }
    destruct (say_spec lit (region buf 33) (opening s) s2 _ Hr2 Hf2) as (s3 & E3 & H3).
    rewrite E3, bind_ret. exists s3. split; [done|]. eapply step_then; [by apply step_quiet|exact H3|done]. }
  destruct (named s (codes ".")) as [c|] eqn:En; [|apply Hnone; by left].
  destruct (slot s) as [fd|] eqn:Es; [|destruct c; apply Hnone; by right].
  destruct c as [|l|]; [done| |done]. intros Hw.
  destruct (pr_opened s (lit ".") (codes ".") (Names l) fd Hr Hdot En ltac:(done) Es) as (Hfd & s2 & E2 & H2 & _ & L2 & _).
  rewrite E2, bind_ret. cbv beta iota. rewrite decide_False by lia.
  destruct (ls_entries s2 fd l (st_ready _ _ _ _ _ H2) L2 Hw) as (s3 & E3 & H3). exists s3. split; [exact E3|].
  assert (Hopen : forall x, only fd x -> opening s x) by (intros ? ->; exact Es).
  apply (step_then _ _ _ [] (listing l) _ s2); [| |done].
  - eapply step_weaken; [exact H2|by intros ? []|exact Hopen].
  - eapply step_weaken; [exact H3|done|exact Hopen].
Qed.
End Ls.

(** ** The shell *)
Section Shell.
Context {S : Type} {MS : Machine S} {OS : Observe S} {PS : Promises S} {IS : Interactive S} (lit : string -> Z).
Context (buf : Z) (Hbuf : forall a, region buf 1024 a -> user_address a).

(** A typed line without its newline. *)
Definition command (l : list Z) : list Z :=
  match last l with
  | Some c => if decide (c = 10) then take (length l - 1) l else l
  | None => l
  end.

(** What the shell says of a program's status. *)
Definition verdict (r : Z) : list Z :=
  if decide (r = -1) then codes (line "no such command")
  else if decide (r = 256) then codes (line "program terminated by exception")
  else if decide (r <> 0) then codes (line "program terminated abnormally") else [].

(** A turn: the line typed, the status and the output of what it runs, if it
    runs anything. *)
Definition turn_events (t : list Z * Z * list Z) : list event :=
  let '(l, r, out) := t in Typed l :: if decide (command l = []) then [] else [Ran r out].
Definition turn_output (t : list Z * Z * list Z) : list Z :=
  let '(l, r, out) := t in codes "391OS> " ++ if decide (command l = []) then [] else out ++ verdict r.

Definition typeable (l : list Z) : Prop := Z.of_nat (length l) <= 1023 /\ Forall (fun c => 0 < c < 256) l.

Lemma command_prefix l : command l = take (length (command l)) l /\ (length (command l) <= length l)%nat.
Proof.
  unfold command. assert (H : l = take (length l) l) by (by rewrite firstn_all).
  destruct (last l) as [x|]; [|done]. case_decide; [|done]. rewrite length_take. split; [f_equal; lia|lia].
Qed.

(** The string left in the buffer by the shell. *)
Lemma shell_strip s l : ready s -> typeable l -> load_bytes (u_mem s) buf (Z.of_nat (length l)) = l ->
  let cnt := Z.of_nat (length l) in
  let cnt := if decide (cnt > 0 /\ 10 = peek (buf + (cnt - 1)) s) then cnt - 1 else cnt in
  step (region buf 1024) nowhere [] s (poke (buf + cnt) 0 s) /\ cstr (u_mem (poke (buf + cnt) 0 s)) buf (command l).
Proof.
  intros Hr [Hlen Hch] Hl cnt0 cnt.
  assert (Hu : forall i, 0 <= i < 1024 -> user_address (buf + i)) by (intros i Hi; apply Hbuf; unfold region; lia).
  assert (Hget : forall k c, l !! k = Some c -> ld8 (u_mem s) (buf + Z.of_nat k) = c).
  { intros k c E. apply (load_bytes_nth _ _ l); [|exact Hl|exact E]. intros a Ha. apply Hbuf. unfold region. lia. }
  assert (Ecnt : cnt = Z.of_nat (length (command l))).
  { subst cnt. unfold command. rewrite last_lookup. destruct (length l) as [|n] eqn:En.
    - destruct l; [|done]. rewrite decide_False by (subst cnt0; simpl; lia). done.
    - cbn [Nat.pred]. destruct (lookup_lt_is_Some_2 l n) as [x Ex]; [lia|]. rewrite Ex.
      assert (Ep : peek (buf + (cnt0 - 1)) s = x).
      { unfold peek. replace (buf + (cnt0 - 1)) with (buf + Z.of_nat n) by lia. by apply Hget. }
      rewrite Ep. destruct (decide (x = 10)) as [->|D]; [rewrite decide_True by lia|rewrite decide_False by lia; lia].
      rewrite length_take. lia. }
  destruct (command_prefix l) as [Hpre Hple].
  destruct (poke_spec (region buf 1024) nowhere (buf + cnt) 0 s Hr) as (H1 & Em & _);
    [apply Hu; lia|unfold region; lia|]. split; [exact H1|]. rewrite Em, Ecnt.
  assert (Hb : forall i, 0 <= i < 1024 -> 0 <= buf + i < 4294967296).
  { intros i Hi. pose proof (Hu i Hi) as Ha. unfold user_address, TASK_VIRT_PAGE_BEG, TASK_VIRT_PAGE_END in Ha. lia. }
  split; cbn [bget mem_buf].
  - intros k c E. pose proof (lookup_lt_Some _ _ _ E). rewrite Hpre in E. apply lookup_take_Some in E as [E _].
    rewrite decide_True, ld8_st8_ne by (try apply Hb; lia). rewrite (Hget k c E). split; [done|].
    rewrite Forall_lookup in Hch. by apply (Hch k).
  - rewrite decide_True, ld8_st8_eq by (apply Hb; lia). done.
Qed.

(** The literals of the shell's loop. *)
Definition shell_texts : list string :=
  ["391OS> "; "exit"; line "no such command"; line "program terminated by exception"; line "program terminated abnormally"].

Abbreviation T := (region buf 1024).

Lemma texts_step F o s s' : step T F o s s' -> Forall (placed lit T s) shell_texts -> Forall (placed lit T s') shell_texts.
Proof. intros Hs Ht. eapply list.Forall_impl; [exact Ht|]. intros t. by eapply placed_step. Qed.

(** The prompt and the line typed after it. *)
Lemma shell_prompted s l ev : ready s -> Forall (placed lit T s) shell_texts -> typeable l -> future s = Typed l :: ev ->
  exists s', shell_prompt lit buf s = Some (Z.of_nat (length l), s') /\ step T (only 0) (codes "391OS> ") s s' /\
    future s' = ev /\ load_bytes (u_mem s') buf (Z.of_nat (length l)) = l.
Proof.
  intros Hr Ht [Hlen Hch] Hf. unfold shell_prompt. unfold shell_texts in Ht. apply list.Forall_cons in Ht as [Ht _].
  destruct (say_spec lit T nowhere s _ Hr Ht) as (s1 & E1 & H1). rewrite E1, bind_ret. change (BUFSIZE - 1) with 1023.
  destruct (in_line s1 buf 1023 l ev (st_ready _ _ _ _ _ H1)) as (s2 & E2 & H2 & Hb & Hf2).
  - by rewrite (st_future _ _ _ _ _ H1) by (by intros []).
  - done.
  - eapply list.Forall_impl; [exact Hch|]. simpl. lia.
  - intros x Hx. apply Hbuf. unfold region in *. lia.
  - exists s2. split; [exact E2|]. split; [|done]. eapply step_then; [|eapply step_weaken; [exact H2| |done]|by rewrite app_nil_r].
    + eapply step_weaken; [exact H1|done|by intros ? []].
    + unfold region. lia.
Qed.

(** What the shell says after a program. *)
Lemma shell_verdict F s r : ready s -> Forall (placed lit T s) shell_texts ->
  exists s', (if decide (-1 = r) then say lit (line "no such command") s
     else if decide (256 = r) then say lit (line "program terminated by exception") s
     else if decide (0 <> r) then say lit (line "program terminated abnormally") s
     else Some s) = Some s' /\ step T F (verdict r) s s'.
Proof.
  intros Hr Ht. unfold verdict, shell_texts in *. rewrite !list.Forall_cons in Ht. destruct Ht as (_ & _ & H1 & H2 & H3 & _).
  destruct (decide (-1 = r)) as [<-|D1]; [rewrite decide_True by done; by apply say_spec|]. rewrite (decide_False (P := r = -1)) by lia.
  destruct (decide (256 = r)) as [<-|D2]; [rewrite decide_True by done; by apply say_spec|]. rewrite (decide_False (P := r = 256)) by lia.
  destruct (decide (0 <> r)) as [D3|D3]; [rewrite decide_True by lia; by apply say_spec|]. rewrite decide_False by lia.
  exists s. split; [done|]. by apply step_refl.
Qed.

(** A turn of the shell with a line other than "exit". *)
Lemma shell_turn s l r out ev : ready s -> Forall (placed lit T s) shell_texts -> typeable l -> command l <> codes "exit" ->
  future s = turn_events (l, r, out) ++ ev ->
  exists s', shell_step lit buf s = Some (inl s') /\ step T (only 0) (turn_output (l, r, out)) s s' /\ future s' = ev.
Proof.
  intros Hr Ht Hl Hne Hf. cbn [turn_events turn_output app] in *.
  destruct (shell_prompted s l _ Hr Ht Hl Hf) as (s1 & E1 & H1 & Hf1 & Hb1).
  pose proof (st_ready _ _ _ _ _ H1) as Hr1. unfold shell_step. rewrite E1, bind_ret. cbv beta iota. rewrite decide_False by lia.
  destruct (shell_strip s1 l Hr1 Hl Hb1) as [H2 Hc]. unfold shell_run. cbv zeta in *.
  set (s2 := poke _ 0 s1) in *.
  assert (H12 : step T (only 0) (codes "391OS> ") s s2).
  { eapply step_then; [exact H1| |by rewrite app_nil_r]. eapply step_weaken; [exact H2|done|by intros ? []]. }
  pose proof (st_ready _ _ _ _ _ H2) as Hr2.
  pose proof (texts_step _ _ _ _ H12 Ht) as Ht2. pose proof Ht2 as Hexit. unfold shell_texts in Hexit. rewrite !list.Forall_cons in Hexit.
  destruct Hexit as (_ & (Hexit & _) & _).
  destruct (command_prefix l) as [Hpre Hple]. pose proof Hl as [Hlen Hch].
  assert (Hch2 : Forall (fun x => 0 < x) (command l)).
  { rewrite Hpre. apply Forall_take. eapply list.Forall_impl; [exact Hch|]. simpl. lia. }
  rewrite (ece391_strcmp_spec _ _ _ (command l) (codes "exit") Hc Hexit) by lia. rewrite bind_ret.
  destruct (difference_sign (command l) (codes "exit") Hch2 ltac:(repeat constructor)) as [Hdiff _].
  rewrite decide_False by (intros X; by apply Hne, Hdiff).
  pose proof (cstr_at _ _ _ 0 Hc ltac:(lia)) as Hp. rewrite Z.add_0_r in Hp. cbn [bget mem_buf] in Hp.
  pose proof (Hbuf buf ltac:(unfold region; lia)) as Hu. unfold user_address, TASK_VIRT_PAGE_BEG, TASK_VIRT_PAGE_END in Hu.
  rewrite decide_True in Hp by lia. injection Hp as Hp. unfold peek. rewrite Hp. change (Z.to_nat 0) with 0%nat.
  assert (Hf2 : future s2 = (if decide (command l = []) then [] else [Ran r out]) ++ ev).
  { by rewrite (st_future _ _ _ _ _ H2) by (by intros []). }
  destruct (decide (command l = [])) as [Ew|Ew].
  - rewrite Ew, decide_True by done. exists s2. rewrite app_nil_r. done.
  - rewrite decide_False.
    2: { destruct (command l); [done|]. apply list.Forall_cons in Hch2 as [Hx _]. cbn. lia. }
    destruct (in_execute s2 buf (command l) r out ev Hr2 Hc Hf2) as (s3 & E3 & H3 & Hf3). rewrite E3, bind_ret. cbv beta iota.
    assert (H123 : step T (only 0) (codes "391OS> " ++ out) s s3).
    { eapply step_trans; [exact H12|]. eapply step_weaken; [exact H3|by intros ? []|done]. }
    destruct (shell_verdict nowhere s3 r (st_ready _ _ _ _ _ H3) (texts_step _ _ _ _ H123 Ht)) as (s4 & E4 & H4).
    rewrite E4, bind_ret. exists s4. split; [done|]. split.
    + rewrite app_assoc. eapply step_trans; [exact H123|]. eapply step_weaken; [exact H4|done|by intros ? []].
    + rewrite (st_future _ _ _ _ _ H4) by (by intros []). done.
Qed.

Lemma shell_exit s l ev : ready s -> Forall (placed lit T s) shell_texts -> typeable l -> command l = codes "exit" ->
  future s = Typed l :: ev ->
  exists s', shell_step lit buf s = Some (inr (0, s')) /\ step T (only 0) (codes "391OS> ") s s' /\ future s' = ev.
Proof.
  intros Hr Ht Hl Heq Hf. destruct (shell_prompted s l _ Hr Ht Hl Hf) as (s1 & E1 & H1 & Hf1 & Hb1).
  pose proof (st_ready _ _ _ _ _ H1) as Hr1. unfold shell_step. rewrite E1, bind_ret. cbv beta iota. rewrite decide_False by lia.
  destruct (shell_strip s1 l Hr1 Hl Hb1) as [H2 Hc]. unfold shell_run. cbv zeta in *. set (s2 := poke _ 0 s1) in *.
  assert (H12 : step T (only 0) (codes "391OS> ") s s2).
  { eapply step_then; [exact H1| |by rewrite app_nil_r]. eapply step_weaken; [exact H2|done|by intros ? []]. }
  pose proof (texts_step _ _ _ _ H12 Ht) as Ht2. unfold shell_texts in Ht2. rewrite !list.Forall_cons in Ht2.
  destruct Ht2 as (_ & (Hexit & _) & _). rewrite Heq in Hc.
  rewrite (ece391_strcmp_spec _ _ _ (codes "exit") (codes "exit") Hc Hexit) by done. rewrite bind_ret, decide_True by done.
  exists s2. split; [done|]. split; [exact H12|]. by rewrite (st_future _ _ _ _ _ H2) by (by intros []).
Qed.

(** C15: The shell is its transcript: for any lines typed before "exit", it
    prompts, runs each non-empty line without its newline, and reports a command
    that is not there, an exception or another non-zero status; "exit" ends it
    with status 0 after a last prompt.  It stores to its buffer only. *)
Theorem shell_correct s ts l ev : ready s -> Forall (placed lit T s) (line "Starting 391 Shell" :: shell_texts) ->
  Forall (fun t => typeable t.1.1 /\ command t.1.1 <> codes "exit") ts -> typeable l -> command l = codes "exit" ->
  future s = concat (turn_events <$> ts) ++ Typed l :: ev -> Z.of_nat (length (future s)) < Z.pos FUEL ->
  exists s', shell lit buf s = Some (0, s') /\ future s' = ev /\
    step T (only 0) (codes (line "Starting 391 Shell") ++ concat (turn_output <$> ts) ++ codes "391OS> ") s s'.
Proof.
  intros Hr Ht Hts Hl Heq Hf Hlen. pose proof Ht as [Hstart Ht1]%list.Forall_cons. unfold shell.
  destruct (say_spec lit T nowhere s _ Hr Hstart) as (s0 & E0 & H0). rewrite E0, bind_ret.
  assert (Hf0 : future s0 = future s) by (by rewrite (st_future _ _ _ _ _ H0) by (by intros [])).
  pose proof (texts_step _ _ _ _ H0 Ht1) as Ht0. set (all := concat (turn_output <$> ts)).
  destruct (whileM_total (fun s1 => exists o ts', step T (only 0) o s0 s1 /\ future s1 = concat (turn_events <$> ts') ++ Typed l :: ev /\
      all = o ++ concat (turn_output <$> ts') /\ Forall (fun t => typeable t.1.1 /\ command t.1.1 <> codes "exit") ts')
    (fun s1 => Z.of_nat (length (future s1)))
    (fun '(r, s1) => r = 0 /\ step T (only 0) (all ++ codes "391OS> ") s0 s1 /\ future s1 = ev) (shell_step lit buf) s0)
    as ([r s'] & E & -> & H & Hf').
  - intros s1 (o & ts' & H1 & Hf1 & Ea & Hts'). pose proof (texts_step _ _ _ _ H1 Ht0) as Ht'. pose proof (st_ready _ _ _ _ _ H1) as Hr1.
    destruct ts' as [|[[w r] out] ts'].
    + destruct (shell_exit s1 l ev Hr1 Ht' Hl Heq Hf1) as (s2 & -> & H2 & Hf2). split; [done|]. split; [|done].
      cbn [fmap list_fmap concat] in Ea. rewrite app_nil_r in Ea. rewrite Ea. by eapply step_trans.
    + apply list.Forall_cons in Hts' as [[Hw Hne] Hts']. cbn [fmap list_fmap concat] in Hf1, Ea. rewrite <- app_assoc in Hf1.
      destruct (shell_turn s1 w r out _ Hr1 Ht' Hw Hne Hf1) as (s2 & -> & H2 & Hf2). split.
      * exists (o ++ turn_output (w, r, out)), ts'. split; [by eapply step_trans|]. split; [done|]. split; [|done].
        by rewrite Ea, app_assoc.
      * rewrite Hf1, Hf2, !length_app. cbn [turn_events length]. lia.
  - exists [], ts. rewrite Hf0. split; [apply step_refl, (st_ready _ _ _ _ _ H0)|done].
  - rewrite Hf0. lia.
  - exists s'. split; [done|]. split; [done|]. eapply step_trans; [|exact H]. eapply step_weaken; [exact H0|done|by intros ? []].
Qed.
End Shell.


(** ** A machine that follows a script *)

Record script := mkScript { sc_mem : mem; sc_events : list event; sc_log : list Z }.

#[export] Instance script_machine : Machine script := {
  u_mem := sc_mem;
  u_set m s := mkScript m (sc_events s) (sc_log s);
  u_read fd buf n s :=
    match sc_events s with
    | Typed l :: ev => if decide (fd = 0) then Some (Z.of_nat (length l), mkScript (store_bytes (sc_mem s) buf l) ev (sc_log s)) else None
    | _ => None
    end;
  u_write fd buf n s := Some (n, mkScript (sc_mem s) (sc_events s) (sc_log s ++ load_bytes (sc_mem s) buf n));
  u_open a s := Some (-1, s);
  u_close fd s := Some (-1, s);
  u_getargs buf n s := Some (-1, s);
  u_execute a s :=
    match sc_events s with
    | Ran r out :: ev => Some (r, mkScript (sc_mem s) ev (sc_log s ++ out))
    | _ => None
    end
}.

#[export] Instance script_observe : Observe script := {
  ready s := mem_ok (sc_mem s);
  shows l s s' := sc_log s' = sc_log s ++ l;
  args _ := None;
  named _ _ := None;
  left _ _ := None;
  slots _ := [];
  future := sc_events
}.

#[export] Instance script_promises : Promises script.
Proof.
  split; cbn.
  - done.
  - intros s m Hr Hm Ho. split; [done|]. split; [|done]. split; try done. cbn. by rewrite app_nil_r.
  - intros s. by rewrite app_nil_r.
  - intros l1 l2 s1 s2 s3 -> ->. by rewrite app_assoc.
  - intros s buf n Hr Hn Hb Hreg. eexists. split; [done|]. split; [by split|done].
  - intros s buf n Hr Hn Hreg. exists (-1), s. split; [done|]. split; [|done]. split; try done. cbn. by rewrite app_nil_r.
  - intros s a l Hr Hc _. exists s. split; [done|]. split; [|done]. split; try done. cbn. by rewrite app_nil_r.
  - done.
  - done.
  - done.
Qed.

(** Stored bytes are read back, and nothing else changes. *)
Lemma store_bytes_spec l : forall m a, 0 <= a -> a + Z.of_nat (length l) <= 4294967296 -> Forall (fun c => 0 <= c < 256) l ->
  load_bytes (store_bytes m a l) a (Z.of_nat (length l)) = l /\
  forall x, ~ region a (Z.of_nat (length l)) x -> ld8 (store_bytes m a l) x = ld8 m x.
Proof.
  induction l as [|c l IH] using rev_ind; intros m a Ha Hb Hl; [done|].
  rewrite length_app in Hb |- *. cbn [length] in *. apply Forall_app in Hl as [Hl Hc]. apply list.Forall_cons in Hc as [Hc _].
  destruct (IH m a Ha ltac:(lia) Hl) as [IH1 IH2]. rewrite store_bytes_app by lia. cbn [store_bytes].
  replace (Z.of_nat (length l + 1)) with (Z.of_nat (length l) + 1) by lia. split.
  - rewrite load_bytes_snoc, u32_small, ld8_st8_eq, u8_small by lia. f_equal. etrans; [apply load_bytes_ext|exact IH1].
    intros i Hi. rewrite u32_small by lia. apply ld8_st8_ne. lia.
  - unfold region in *. intros x Hx. rewrite ld8_st8_ne by lia. apply IH2. lia.
Qed.

#[export] Instance script_interactive : Interactive script.
Proof.
  split; cbn.
  - intros s buf n l ev Hr Hf Hn Hl Hreg. rewrite Hf, decide_True by done. eexists. split; [done|].
    destruct (decide (l = [])) as [->|Hne].
    { split; [|done]. split; try done. cbn. by rewrite app_nil_r. }
    assert (0 < Z.of_nat (length l)) by (destruct l; [done|simpl; lia]).
    pose proof (Hreg buf ltac:(unfold region; lia)) as Hu0. pose proof (Hreg (buf + n - 1) ltac:(unfold region; lia)) as Hu1.
    unfold user_address, TASK_VIRT_PAGE_BEG, TASK_VIRT_PAGE_END in Hu0, Hu1.
    destruct (store_bytes_spec l (sc_mem s) buf ltac:(lia) ltac:(lia) Hl) as [H1 H2]. split; [|done].
    split; try done.
    + by apply mem_ok_store_bytes.
    + intros a _ Ha. apply H2. unfold region in *. lia.
    + cbn. by rewrite app_nil_r.
  - intros s buf l r out ev Hr Hc Hf. rewrite Hf. eexists. split; [done|]. split; [|done]. by split.
Qed.

(** ** A concrete session *)

(** Literals laid out 128 bytes apart. *)
Definition layout (base : Z) (ts : list string) (t : string) : Z :=
  base + 128 * Z.of_nat (default 0%nat (fst <$> list_find (fun u => u = t) ts)).
Definition literals (base : Z) (ts : list string) (m : mem) : mem :=
  foldr (fun t m => store_bytes m (layout base ts t) (codes t ++ [0])) m ts.

(** A string in a memory, by evaluation. *)
Definition string_at (m : mem) (a : Z) (l : list Z) : bool :=
  bool_decide (load_bytes m a (Z.of_nat (length l) + 1) = l ++ [0]) && bool_decide (Forall (fun c => 0 < c < 256) l) &&
  bool_decide (0 <= a) && bool_decide (a + Z.of_nat (length l) < 4294967296).

Lemma string_at_cstr m a l : string_at m a l = true -> cstr m a l.
Proof. unfold string_at. rewrite !andb_true_iff, !bool_decide_eq_true. intros (((Hl & Hf) & Ha) & Hb). by apply loaded_cstr. Qed.

(** Literals placed in a memory, by evaluation; [lo] and [n] give the region
    the program stores to. *)
Definition text_at (lit : string -> Z) (lo n : Z) (m : mem) (t : string) : bool :=
  let len := Z.of_nat (length (codes t)) in
  string_at m (lit t) (codes t) && bool_decide (len < 2147483648) && bool_decide (TASK_VIRT_PAGE_BEG <= lit t) &&
  bool_decide (lit t + len < TASK_VIRT_PAGE_END) && bool_decide (lit t + len < lo \/ lo + n <= lit t).

Lemma text_at_placed {M : Type} {MS : Machine M} {OS : Observe M} {PS : Promises M} lit lo n (s : M) t : text_at lit lo n (u_mem s) t = true -> placed lit (region lo n) s t.
Proof.
  unfold text_at. rewrite !andb_true_iff, !bool_decide_eq_true. intros ((((Hs & Hl) & H1) & H2) & H3).
  split; [by apply string_at_cstr|]. split; [done|]. intros a Ha. unfold region, user_address in *. lia.
Qed.

Definition demo_texts : list string := line "Starting 391 Shell" :: shell_texts.
Definition demo_turns : list (list Z * Z * list Z) :=
  [(codes (line "ls"), 0, codes (line "frame0.txt")); (codes (line ""), 0, []); (codes (line "boom"), 256, [])].
Definition demo_script : script :=
  mkScript (literals 0x8050000 demo_texts ∅) (concat (turn_events <$> demo_turns) ++ [Typed (codes (line "exit"))]) [].

Lemma demo_script_texts : Forall (placed (layout 0x8050000 demo_texts) (region 0x8200000 1024) demo_script) demo_texts.
Proof.
  assert (H : forallb (text_at (layout 0x8050000 demo_texts) 0x8200000 1024 (u_mem demo_script)) demo_texts = true) by (by vm_compute).
  rewrite forallb_forall in H. apply list.Forall_forall. intros t Ht. by apply text_at_placed, H, list_elem_of_In.
Qed.

Lemma shell_correct_witness :
  exists s', shell (layout 0x8050000 demo_texts) 0x8200000 demo_script = Some (0, s') /\
    sc_log s' = codes (line "Starting 391 Shell" +:+ "391OS> " +:+ line "frame0.txt" +:+ "391OS> " +:+ "391OS> " +:+
      line "program terminated by exception" +:+ "391OS> ").
Proof.
  destruct (shell_correct (layout 0x8050000 demo_texts) 0x8200000 ltac:(unfold region, user_address, TASK_VIRT_PAGE_BEG, TASK_VIRT_PAGE_END; lia)
    demo_script demo_turns (codes (line "exit")) []) as (s' & E & _ & Hs).
  - apply mem_ok_store_bytes. do 5 apply mem_ok_store_bytes. apply mem_ok_empty.
  - apply demo_script_texts.
  - apply (bool_decide_unpack _). by vm_compute.
  - split; apply (bool_decide_unpack _); by vm_compute.
  - by vm_compute.
  - reflexivity.
  - by vm_compute.
  - exists s'. split; [exact E|]. pose proof (st_shows _ _ _ _ _ Hs) as Hlog. cbn in Hlog. by rewrite Hlog.
Defined.
