(* ===== verification/Grep.v ===== *)
(** * The user program grep: syscalls/ece391grep.c

    grep reads each file of the directory through a buffer of 1024 bytes.  A line
    that is not complete in the buffer is moved to its start and the rest of the
    buffer is read again.  The program is defined and proved over the machines of
    [Programs]; its meaning is the list of a file's lines that contain the
    string. *)
From Stdlib Require Import Ascii.
From stdpp Require Import base tactics list numbers gmap option strings.
From Stdlib Require Import ZArith Lia.
From S2P Require Import Prelude CLib Support Task Page Programs.

#[local] Open Scope string_scope.
#[local] Open Scope list_scope.
Open Scope Z_scope.

(** ** The program *)

Section Program.
Context {S : Type} {MS : Machine S} (lit : string -> Z).

(** The arrays [search] and [buf] of [main] and [data] of [do_one_file]. *)
Context (search buf data : Z).

(** [while (line_end < last && '\n' != data[line_end]) line_end++;] *)
Definition end_of_line (last line_start : Z) (s : S) : option Z :=
  while (fun line_end => if decide (line_end < last /\ 10 <> peek (data + line_end) s) then inl (line_end + 1) else inr line_end) line_start.

(** The search of a line, from [check].  The word is of [char], which is signed, the
    line of [uint8_t]. *)
Definition search_step (fname line_start line_end s_len : Z) (st : Z * S) : option (Z * S + S) :=
  let '(check, s) := st in
  if decide (check < line_end) then
    if decide (s8 (peek search s) = peek (data + check) s) then
      c ← ece391_strncmp (u_mem s) (data + check) search s_len;
      if decide (0 = c) then
        s ← ece391_fdputs 1 fname s;
        s ← say lit ":" s;
        s ← ece391_fdputs 1 (data + line_start) s;
        s ← say lit (line "") s;
        Some (inr s)
      else Some (inl (check + 1, s))
    else Some (inl (check + 1, s))
  else Some (inr s).

(** A turn of the loop over the lines of the buffer: on to the next line, or out
    with the new value of [last]. *)
Definition grep_line (fname cnt last s_len : Z) (st : Z * S) : option (Z * S + Z * S) :=
  let '(line_start, s) := st in
  line_end ← end_of_line last line_start s;
  if decide (10 <> peek (data + line_end) s /\ 0 <> cnt /\ line_start <> 0) then
    let s := poke (data + line_end) 0 s in
    s ← on_memory (fun m => ece391_strcpy m data (data + line_start)) s;
    Some (inr (last - line_start, s))
  else
    let s := poke (data + line_end) 0 s in
    s ← whileM (search_step fname line_start line_end s_len) (line_start, s);
    let line_start := line_end + 1 in
    if decide (line_start >= last) then Some (inr (0, s)) else Some (inl (line_start, s)).

(** A turn of the loop over the reads, with [last]. *)
Definition grep_read (fname fd s_len : Z) (st : Z * S) : option (Z * S + Z * S) :=
  let '(last, s) := st in
  '(cnt, s) ← u_read fd (data + last) (BUFSIZE - last) s;
  if decide (-1 = cnt) then s ← say lit (line "file read failed") s; Some (inr (-1, s))
  else
    let last := last + cnt in
    '(last, s) ← whileM (grep_line fname cnt last s_len) (0, s);
    if decide (0 = cnt) then Some (inr (0, s)) else Some (inl (last, s)).

(** [do_one_file(search, fname)] *)
Definition do_one_file (fname : Z) (s : S) : option (Z * S) :=
  s_len ← ece391_strlen (u_mem s) search;
  '(fd, s) ← u_open fname s;
  if decide (-1 = fd) then s ← say lit (line "file open failed") s; Some (-1, s)
  else
    '(r, s) ← whileM (grep_read fname fd s_len) (0, s);
    if decide (r = -1) then Some (-1, s)
    else
      '(c, s) ← u_close fd s;
      if decide (-1 = c) then s ← say lit (line "file close failed") s; Some (-1, s)
      else Some (0, s).

(** [main] *)
Definition grep_entry (fd : Z) (s : S) : option (S + Z * S) :=
  '(cnt, s) ← u_read fd buf (SBUFSIZE - 1) s;
  if decide (0 <> cnt) then
    if decide (-1 = cnt) then s ← say lit (line "directory entry read failed") s; Some (inr (3, s))
    else if decide (46 = peek buf s) then Some (inl s)
    else
      let s := poke (buf + cnt) 0 s in
      '(r, s) ← do_one_file buf s;
      if decide (0 <> r) then Some (inr (3, s)) else Some (inl s)
  else Some (inr (0, s)).

Definition grep (s : S) : option (Z * S) :=
  '(r, s) ← u_getargs search BUFSIZE s;
  if decide (0 <> r) then s ← say lit (line "could not read argument") s; Some (3, s)
  else
    '(fd, s) ← u_open (lit ".") s;
    if decide (-1 = fd) then s ← say lit (line "directory open failed") s; Some (2, s)
    else whileM (grep_entry fd) s.
End Program.

(** ** What it means *)

(** The lines of a text: the pieces between its newlines. *)
Fixpoint lines (l : list Z) : list (list Z) :=
  match l with
  | [] => [[]]
  | x :: l =>
      if decide (x = 10) then [] :: lines l
      else match lines l with y :: ys => (x :: y) :: ys | [] => [[x]] end
  end.

(** A line contains a string; no line contains the empty one. *)
Fixpoint occurs (w x : list Z) : bool :=
  match x with
  | [] => false
  | _ :: t => (bool_decide (w <> []) && bool_decide (take (length w) x = w)) || occurs w t
  end.

(** A word the search can find: its first character, of the signed [char], is
    compared with an unsigned byte, and one from 128 on is negative. *)
Definition findable (w : list Z) : bool := match w with c :: _ => bool_decide (c < 128) | [] => false end.

(** What grep writes of a line and of a text. *)
Definition report (w name x : list Z) : list Z := if findable w && occurs w x then name ++ [58] ++ x ++ [10] else [].
Definition reports (w name l : list Z) : list Z := concat (report w name <$> lines l).

(** The lines fit the buffer. *)
Definition short (l : list Z) : Prop := Forall (fun x => Z.of_nat (length x) <= 1024) (lines l).

Definition no_newline (x : list Z) : Prop := Forall (fun c => c <> 10) x.

(** A word that starts with a character from 128 on is found in no text, whatever
    its lines hold. *)
Lemma reports_high w name l : 128 <= default 0 (head w) -> reports w name l = [].
Proof.
  intros Hw. assert (Hf : findable w = false) by (destruct w as [|c w]; [done|apply bool_decide_eq_false_2; cbn in Hw; lia]).
  unfold reports. induction (lines l) as [|x ls IH]; [done|]. cbn. unfold report at 1. by rewrite Hf.
Qed.

Lemma occurs_spec w x : occurs w x = true <-> w <> [] /\ exists pre post, x = pre ++ w ++ post.
Proof.
  induction x as [|c x IH]; cbn [occurs].
  - split; [done|]. intros (Hw & pre & post & E). by destruct pre, w.
  - rewrite orb_true_iff, andb_true_iff, !bool_decide_eq_true, IH. split.
    + intros [(Hw & E)|(Hw & pre & post & E)]; (split; [exact Hw|]).
      * exists [], (drop (length w) (c :: x)). cbn [app]. rewrite <- E at 1. by rewrite take_drop.
      * exists (c :: pre), post. by rewrite E.
    + intros (Hw & [|c' pre] & post & E).
      * left. split; [exact Hw|]. cbn [app] in E. rewrite E. by rewrite take_app_length.
      * right. split; [exact Hw|]. exists pre, post. by injection E as _ ->.
Qed.

Lemma lines_one x : no_newline x -> lines x = [x].
Proof.
  induction 1 as [|c x Hc _ IH]; [done|]. cbn [lines]. by rewrite decide_False, IH.
Qed.

Lemma lines_more x r : no_newline x -> lines (x ++ 10 :: r) = x :: lines r.
Proof.
  induction 1 as [|c x Hc _ IH]; cbn [app lines].
  - by rewrite decide_True.
  - by rewrite decide_False, IH.
Qed.

Lemma split_line l : no_newline l \/ exists x r, l = x ++ 10 :: r /\ no_newline x.
Proof.
  induction l as [|c l IH]; [by left; constructor|]. destruct (decide (c = 10)) as [->|D].
  - right. exists [], l. split; [done|constructor].
  - destruct IH as [H|(x & r & -> & H)]; [left; by constructor|]. right. exists (c :: x), r. split; [done|by constructor].
Qed.

Section Reports.
Context (w name : list Z).

Lemma reports_nil : reports w name [] = [].
Proof. unfold reports. cbn. unfold report. cbn [occurs]. by rewrite andb_false_r. Qed.

Lemma reports_one x : no_newline x -> reports w name x = report w name x.
Proof. intros H. unfold reports. rewrite (lines_one x H). cbn. by rewrite app_nil_r. Qed.

Lemma reports_more x r : no_newline x -> reports w name (x ++ 10 :: r) = report w name x ++ reports w name r.
Proof. intros H. unfold reports. by rewrite (lines_more x r H). Qed.

Lemma reports_newline r : reports w name (10 :: r) = reports w name r.
Proof.
  rewrite <- (app_nil_l (10 :: r)), reports_more by constructor. unfold report. cbn [occurs]. by rewrite andb_false_r.
Qed.
End Reports.

Lemma short_more x r : no_newline x -> short (x ++ 10 :: r) <-> Z.of_nat (length x) <= 1024 /\ short r.
Proof. intros H. unfold short. rewrite (lines_more x r H). by rewrite list.Forall_cons. Qed.

Lemma short_one x : no_newline x -> short x <-> Z.of_nat (length x) <= 1024.
Proof. intros H. unfold short. rewrite (lines_one x H), list.Forall_cons. split; [by intros [? _]|done]. Qed.

Lemma short_nil : short [].
Proof. apply short_one; [exact (Forall_nil_2 _)|cbn; lia]. Qed.

(** ** The buffer *)

Section Search.
Context {S : Type} {MS : Machine S} {OS : Observe S} {PS : Promises S} (lit : string -> Z).
Context (search data : Z) (Hdata : forall a, region data 1025 a -> user_address a).

Abbreviation T := (region data 1025).

(** The bytes at an address. *)
Definition holds (s : S) (a : Z) (l : list Z) : Prop := forall i c, l !! i = Some c -> ld8 (u_mem s) (a + Z.of_nat i) = c.

Lemma holds_app s a l1 l2 : holds s a (l1 ++ l2) <-> holds s a l1 /\ holds s (a + Z.of_nat (length l1)) l2.
Proof.
  split.
  - intros H. split.
    + intros i c E. apply H. rewrite lookup_app_l; [exact E|by eapply lookup_lt_Some].
    + intros i c E. rewrite <- Z.add_assoc, <- Nat2Z.inj_add. apply H. rewrite lookup_app_r by lia. rewrite <- E. f_equal. lia.
  - intros [H1 H2] i c E. apply lookup_app_Some in E as [E|[Hi E]]; [by apply H1|].
    replace (a + Z.of_nat i) with (a + Z.of_nat (length l1) + Z.of_nat (i - length l1)) by lia. by apply H2.
Qed.

Lemma holds_cons s a c l : holds s a (c :: l) <-> ld8 (u_mem s) a = c /\ holds s (a + 1) l.
Proof.
  change (c :: l) with ([c] ++ l). rewrite holds_app. cbn [length]. split; intros [H1 H2]; (split; [|exact H2]).
  - specialize (H1 0%nat c eq_refl). by rewrite Z.add_0_r in H1.
  - intros [|i] c' E; [|done]. injection E as <-. by rewrite Z.add_0_r.
Qed.

Lemma holds_step T' F o s s' a l : step T' F o s s' -> (forall i, 0 <= i < Z.of_nat (length l) -> user_address (a + i) /\ ~ T' (a + i)) ->
  holds s a l -> holds s' a l.
Proof.
  intros Hs Ha H i c E. pose proof (lookup_lt_Some _ _ _ E). destruct (Ha (Z.of_nat i) ltac:(lia)) as [Hu Ht].
  rewrite (st_mem _ _ _ _ _ Hs) by done. by apply H.
Qed.

Lemma data_range i : 0 <= i < 1025 -> user_address (data + i) /\ T (data + i) /\ 0 <= data + i < 4294967296.
Proof.
  intros Hi. assert (Ht : T (data + i)) by (unfold region; lia). split; [by apply Hdata|]. split; [exact Ht|].
  pose proof (Hdata _ Ht) as Hu. unfold user_address, TASK_VIRT_PAGE_BEG, TASK_VIRT_PAGE_END in Hu. lia.
Qed.

(** Bytes in the array and their NUL are a string. *)
Lemma holds_cstr s i l : 0 <= i -> i + Z.of_nat (length l) < 1025 -> holds s (data + i) (l ++ [0]) -> Forall (fun c => 0 < c < 256) l ->
  cstr (u_mem s) (data + i) l.
Proof.
  intros Hi Hn H Hl. apply holds_app in H as [H1 H2]. apply holds_cons in H2 as [H2 _].
  pose proof (data_range i ltac:(lia)) as (_ & _ & R1). pose proof (data_range (i + Z.of_nat (length l)) ltac:(lia)) as (_ & _ & R2).
  split; cbn [bget mem_buf].
  - intros k c E. pose proof (lookup_lt_Some _ _ _ E). rewrite decide_True by lia. split; [f_equal; by apply H1|].
    rewrite Forall_lookup in Hl. by apply (Hl k).
  - rewrite decide_True by lia. by f_equal.
Qed.

(** *** The end of a line *)

Lemma end_of_line_spec s last ls x : no_newline x -> holds s (data + ls) x ->
  ls + Z.of_nat (length x) = last \/ ls + Z.of_nat (length x) < last /\ ld8 (u_mem s) (data + (ls + Z.of_nat (length x))) = 10 ->
  Z.of_nat (length x) < Z.pos FUEL ->
  end_of_line data last ls s = Some (ls + Z.of_nat (length x)).
Proof.
  intros Hx Hh He Hn. unfold end_of_line.
  match goal with |- while ?f ?st = _ => destruct (while_total (fun e => ls <= e <= ls + Z.of_nat (length x))
    (fun e => ls + Z.of_nat (length x) - e) (fun e => e = ls + Z.of_nat (length x)) f st) as (r & -> & ->) end; [|lia|lia|done].
  intros e He'. destruct (decide (e = ls + Z.of_nat (length x))) as [->|D].
  - rewrite decide_False; [done|]. unfold peek. intros [H1 H2]. destruct He as [He|[_ He]]; [lia|congruence].
  - destruct (lookup_lt_is_Some_2 x (Z.to_nat (e - ls))) as [c Ec]; [lia|]. pose proof (Hh _ _ Ec) as Hc. rewrite Z2Nat.id in Hc by lia.
    rewrite decide_True; [lia|]. split; [lia|]. unfold peek. replace (data + e) with (data + ls + (e - ls)) by lia. rewrite Hc.
    pose proof (proj1 (list.Forall_lookup _ _) Hx _ _ Ec) as Hne. cbn in Hne. congruence.
Qed.

(** *** The search of a line *)

Context (fname : Z) (w name : list Z).

(** The strings the search uses, apart from the array. *)
Record strings (s : S) : Prop := {
  sr_search : stands T s search w;
  sr_name : stands T s fname name;
  sr_colon : placed lit T s ":";
  sr_newline : placed lit T s (line "")
}.

Lemma strings_step F o s s' : step T F o s s' -> strings s -> strings s'.
Proof. intros Hs [H1 H2 H3 H4]. split; by eapply stands_step. Qed.

Lemma cstr_drop_at (m : mem) a l k : cstr m a l -> (k <= length l)%nat -> cstr m (a + Z.of_nat k) (drop k l).
Proof.
  intros [H1 H2] Hk. split.
  - intros j c E. rewrite lookup_drop in E. rewrite <- Z.add_assoc, <- Nat2Z.inj_add. by apply H1.
  - rewrite length_drop, <- Z.add_assoc, <- Nat2Z.inj_add. rewrite <- H2. do 2 f_equal. lia.
Qed.

Lemma first_byte (m : mem) a l : cstr m a l -> 0 <= a < 4294967296 -> ld8 m a = default 0 (head l).
Proof.
  intros [H1 H2] Ha. destruct l as [|c l].
  - cbn [length bget mem_buf] in H2. rewrite Z.add_0_r, decide_True in H2 by lia. by injection H2.
  - destruct (H1 0%nat c eq_refl) as [E _]. cbn [bget mem_buf] in E. rewrite Z.add_0_r, decide_True in E by lia. by injection E.
Qed.

(** The line is reported. *)
Lemma report_line s ls x : ready s -> strings s -> cstr (u_mem s) (data + ls) x -> 0 <= ls -> ls + Z.of_nat (length x) < 1025 ->
  exists s', (s ← ece391_fdputs 1 fname s; s ← say lit ":" s; s ← ece391_fdputs 1 (data + ls) s; s ← say lit (line "") s;
              Some (@inr (Z * S) S s)) = Some (inr s') /\ step nowhere nowhere (name ++ [58] ++ x ++ [10]) s s'.
Proof.
  intros Hr Hst Hx H0 Hlen.
  assert (Hw : forall o s s', step nowhere nowhere o s s' -> step T nowhere o s s') by (intros o a b H; by eapply step_weaken).
  destruct (fdputs_stands nowhere nowhere s fname name Hr) as (s1 & E1 & H1).
  { destruct (sr_name _ Hst) as (A & B & C). split; [exact A|]. split; [exact B|]. intros a Ha. split; [by apply C|by intros []]. }
  rewrite E1, bind_ret. pose proof (strings_step _ _ _ _ (Hw _ _ _ H1) Hst) as St1.
  assert (Hlit : forall s t, placed lit T s t -> placed lit nowhere s t).
  { intros a t (A & B & C). split; [exact A|]. split; [exact B|]. intros y Hy. split; [by apply C|by intros []]. }
  destruct (say_spec lit nowhere nowhere s1 ":" (st_ready _ _ _ _ _ H1) (Hlit _ _ (sr_colon _ St1))) as (s2 & E2 & H2).
  rewrite E2, bind_ret. pose proof (strings_step _ _ _ _ (Hw _ _ _ H2) St1) as St2.
  assert (H02 : step nowhere nowhere (name ++ [58]) s s2) by (by eapply step_trans).
  assert (Hx2 : cstr (u_mem s2) (data + ls) x).
  { eapply cstr_same; [exact Hx|]. intros a Ha. unfold region in Ha. apply (st_mem _ _ _ _ _ H02); [|by intros []].
    replace a with (data + (a - data)) by lia. apply data_range. lia. }
  destruct (fdputs_spec s2 (data + ls) x (st_ready _ _ _ _ _ H02) Hx2 ltac:(lia)) as (s3 & E3 & H3).
  { intros a Ha. unfold region in Ha. replace a with (data + (a - data)) by lia. apply data_range. lia. }
  rewrite E3, bind_ret. pose proof (strings_step _ _ _ _ (Hw _ _ _ H3) St2) as St3.
  destruct (say_spec lit nowhere nowhere s3 (line "") (st_ready _ _ _ _ _ H3) (Hlit _ _ (sr_newline _ St3))) as (s4 & E4 & H4).
  rewrite E4, bind_ret. exists s4. split; [done|].
  replace (name ++ [58] ++ x ++ [10]) with (((name ++ [58]) ++ x) ++ [10]) by (by rewrite <- !app_assoc).
  eapply step_trans; [eapply step_trans; [exact H02|exact H3]|exact H4].
Qed.

Lemma search_spec s ls x : ready s -> strings s -> cstr (u_mem s) (data + ls) x -> 0 <= ls -> ls + Z.of_nat (length x) < 1025 ->
  exists s', whileM (search_step lit search data fname ls (ls + Z.of_nat (length x)) (Z.of_nat (length w))) (ls, s) = Some s' /\
    step nowhere nowhere (report w name x) s s'.
Proof.
  intros Hr Hst Hx H0 Hlen. pose proof (sr_search _ Hst) as (Hw & Hwn & Hwa).
  assert (Hpos : forall l a, cstr (u_mem s) a l -> Forall (fun c => 0 < c) l).
  { intros l a [H1 _]. apply list.Forall_lookup. intros i c E. by destruct (H1 i c E) as [_ [? _]]. }
  destruct (whileM_total (fun '(check, s1) => s1 = s /\ exists k, (k <= length x)%nat /\ check = ls + Z.of_nat k /\ findable w && occurs w x = findable w && occurs w (drop k x))
    (fun '(check, _) => ls + Z.of_nat (length x) - check) (fun s' => step nowhere nowhere (report w name x) s s')
    (search_step lit search data fname ls (ls + Z.of_nat (length x)) (Z.of_nat (length w))) (ls, s)) as (s' & E & H).
  - intros [check s1] (-> & k & Hk & -> & Eo). unfold search_step. destruct (decide (k = length x)) as [->|Dk].
    + rewrite decide_False by lia. unfold report. rewrite Eo, drop_all. cbn [occurs]. rewrite andb_false_r. by apply step_refl.
    + rewrite decide_True by lia. destruct (lookup_lt_is_Some_2 x k) as [c Ec]; [lia|].
      rewrite (drop_S x c k Ec) in Eo. cbn [occurs] in Eo.
      assert (Hnext : findable w && occurs w x = findable w && occurs w (drop (Datatypes.S k) x) ->
        match Some (@inl _ S (ls + Z.of_nat k + 1, s)) with
        | Some (inl (check', s1)) => (s1 = s /\ exists k, (k <= length x)%nat /\ check' = ls + Z.of_nat k /\ findable w && occurs w x = findable w && occurs w (drop k x)) /\
            0 <= ls + Z.of_nat (length x) - check' < ls + Z.of_nat (length x) - (ls + Z.of_nat k)
        | _ => False end).
      { intros En. split; [|lia]. split; [done|]. exists (Datatypes.S k). split; [lia|]. split; [lia|exact En]. }
      pose proof (cstr_drop_at _ _ _ k Hx ltac:(lia)) as Hd. pose proof (drop_S x c k Ec) as Ed.
      destruct (data_range (ls + Z.of_nat k) ltac:(lia)) as (_ & _ & Rk).
      replace (data + ls + Z.of_nat k) with (data + (ls + Z.of_nat k)) in Hd by lia.
      unfold peek. rewrite (first_byte _ _ _ Hd Rk), Ed. cbn [default head].
      assert (Rs : 0 <= search < 4294967296).
      { destruct (Hwa search ltac:(unfold region; lia)) as [Hu _]. unfold user_address, TASK_VIRT_PAGE_BEG, TASK_VIRT_PAGE_END in Hu. lia. }
      rewrite (first_byte _ _ _ Hw Rs). change (id c) with c.
      assert (Hc0 : 0 < c) by (pose proof (proj1 (list.Forall_lookup _ _) (Hpos _ _ Hx) _ _ Ec); done).
      assert (Hb : Forall (fun b => 0 < b < 256) w).
      { apply list.Forall_lookup. intros i b Eb. destruct Hw as [Hw1 _]. by destruct (Hw1 i b Eb) as [_ ?]. }
      assert (Hfind : default 0 (head w) < 128 -> w <> [] -> findable w = true /\ s8 (default 0 (head w)) = default 0 (head w)).
      { destruct w as [|b w']; [done|]. intros Hlt _. apply list.Forall_cons in Hb as [Hb _]. change (b < 128) in Hlt. change (findable (b :: w') = true /\ s8 b = b).
        split; [by apply bool_decide_eq_true_2|]. rewrite s8_small by lia. done. }
      destruct (decide (s8 (default 0 (head w)) = c)) as [Dc|Dc].
      * rewrite (ece391_strncmp_spec _ _ _ (drop k x) w) by (done || lia). rewrite Nat2Z.id, bind_ret.
        rewrite (take_ge w) by lia.
        destruct (difference_sign (take (length w) (drop k x)) w) as [Hz _];
          [apply Forall_take, Forall_drop, (Hpos _ _ Hx)|apply (Hpos _ _ Hw)|].
        assert (Hne : w <> []) by (intros ->; change (0 = c) in Dc; lia).
        assert (Hlt : default 0 (head w) < 128).
        { destruct w as [|b w']; [done|]. apply list.Forall_cons in Hb as [Hb _]. change (s8 b = c) in Dc. change (b < 128).
          destruct (decide (b < 128)); [done|]. unfold s8 in Dc.
          assert (E8 : (b + 128) mod 256 = b - 128) by (symmetry; apply (Z.mod_unique _ _ 1); lia). lia. }
        destruct (Hfind Hlt Hne) as [Hf Hs]. rewrite Hs in Dc. rewrite Hf in *. rewrite !andb_true_l in *.
        destruct (decide (0 = difference (take (length w) (drop k x)) w)) as [Dz|Dz].
        -- destruct (report_line s ls x Hr Hst Hx H0 Hlen) as (s' & E & H). rewrite E.
           assert (Eocc : occurs w x = true).
           { rewrite Eo, (bool_decide_eq_true_2 _ Hne), <- Ed, bool_decide_eq_true_2 by (apply Hz; lia). done. }
           unfold report. by rewrite Hf, Eocc.
        -- apply Hnext. rewrite Eo, <- Ed, (bool_decide_eq_false_2 (take _ _ = w)) by (intros X; apply Hz in X; lia). by rewrite andb_false_r.
      * apply Hnext. rewrite Eo. destruct (findable w) eqn:Ef; [rewrite !andb_true_l|done].
        destruct w as [|b w']; [by rewrite bool_decide_eq_false_2 by (intros X; by apply X)|].
        apply bool_decide_eq_true_1 in Ef. destruct (Hfind Ef ltac:(done)) as [_ Hs]. rewrite Hs in Dc.
        rewrite (bool_decide_eq_false_2 (take _ _ = b :: w')); [by rewrite andb_false_r|]. cbn. intros [= ->]. by apply Dc.
  - split; [done|]. exists 0%nat. split; [lia|]. split; [lia|done].
  - unfold FUEL. lia.
  - by exists s'.
Qed.

(** *** The lines of the buffer *)

Lemma short_long b y r : no_newline b -> y <> 10 -> short (b ++ y :: r) -> Z.of_nat (length b) < 1024.
Proof.
  intros Hb Hy Hs. destruct (split_line r) as [Hr|(x & r' & -> & Hx)].
  - apply short_one in Hs; [rewrite length_app in Hs; cbn [length] in Hs; lia|]. apply Forall_app. split; [exact Hb|by constructor].
  - replace (b ++ y :: x ++ 10 :: r') with ((b ++ y :: x) ++ 10 :: r') in Hs by (by rewrite <- app_assoc).
    apply short_more in Hs as [Hs _]; [rewrite length_app in Hs; cbn [length] in Hs; lia|].
    apply Forall_app. split; [exact Hb|by constructor].
Qed.

Lemma poke_data i v s : ready s -> 0 <= i < 1025 -> 0 <= v < 256 ->
  step (region (data + i) 1) nowhere [] s (poke (data + i) v s) /\ u_mem (poke (data + i) v s) = st8 (u_mem s) (data + i) v /\
  ld8 (u_mem (poke (data + i) v s)) (data + i) = v.
Proof.
  intros Hr Hi Hv. destruct (data_range i Hi) as (Hu & _ & _).
  destruct (poke_spec (region (data + i) 1) nowhere (data + i) v s Hr Hu ltac:(unfold region; lia)) as (H & E & _).
  split; [exact H|]. split; [exact E|]. by rewrite E, ld8_st8_eq, u8_small.
Qed.

Lemma in_data i n o s s' F : 0 <= i -> i + n <= 1025 -> step (region (data + i) n) F o s s' -> step T F o s s'.
Proof. intros Hi Hn H. eapply step_weaken; [exact H| |done]. intros a. unfold region. lia. Qed.

(** Ending a line and searching it. *)
Lemma finish_line s ls x : ready s -> strings s -> holds s (data + ls) x -> Forall (fun c => 0 < c < 256) x -> 0 <= ls ->
  ls + Z.of_nat (length x) < 1025 ->
  exists s', whileM (search_step lit search data fname ls (ls + Z.of_nat (length x)) (Z.of_nat (length w)))
      (ls, poke (data + (ls + Z.of_nat (length x))) 0 s) = Some s' /\
    step (region (data + (ls + Z.of_nat (length x))) 1) nowhere (report w name x) s s' /\
    ld8 (u_mem s') (data + (ls + Z.of_nat (length x))) = 0.
Proof.
  intros Hr Hst Hh Hx H0 Hlen. destruct (poke_data (ls + Z.of_nat (length x)) 0 s Hr ltac:(lia) ltac:(lia)) as (H1 & Em & E0).
  set (s1 := poke _ 0 s) in *.
  assert (Hc : cstr (u_mem s1) (data + ls) x).
  { apply holds_cstr; [lia|lia| |exact Hx]. apply holds_app. split.
    - eapply holds_step; [exact H1| |exact Hh]. intros i Hi. replace (data + ls + i) with (data + (ls + i)) by lia.
      split; [apply data_range; lia|]. unfold region. lia.
    - apply holds_cons. split; [|intros i c E; by rewrite lookup_nil in E]. rewrite <- E0. f_equal. lia. }
  destruct (search_spec s1 ls x (st_ready _ _ _ _ _ H1)) as (s2 & E2 & H2); [|exact Hc|exact H0|exact Hlen|].
  { eapply strings_step; [|exact Hst]. eapply (in_data (ls + Z.of_nat (length x)) 1); [lia|lia|exact H1]. }
  exists s2. split; [exact E2|]. split; [eapply step_then; [exact H1|apply step_quiet; exact H2|done]|].
  rewrite (st_mem _ _ _ _ _ H2); [exact E0|apply data_range; lia|by intros []].
Qed.

(** Moving an incomplete line to the start of the array. *)
Lemma move_line s ls x : ready s -> holds s (data + ls) x -> Forall (fun c => 0 < c < 256) x -> 0 < ls -> ls + Z.of_nat (length x) < 1025 ->
  exists s', on_memory (fun m => ece391_strcpy m data (data + ls)) (poke (data + (ls + Z.of_nat (length x))) 0 s) = Some s' /\
    step T nowhere [] s s' /\ holds s' data x /\
    ld8 (u_mem s') (data + 1024) = if decide (ls + Z.of_nat (length x) = 1024) then 0 else ld8 (u_mem s) (data + 1024).
Proof.
  intros Hr Hh Hx H0 Hlen. destruct (poke_data (ls + Z.of_nat (length x)) 0 s Hr ltac:(lia) ltac:(lia)) as (H1 & Em & E0).
  set (s1 := poke _ 0 s) in *. pose proof (st_ready _ _ _ _ _ H1) as Hr1.
  assert (Hc : cstr (u_mem s1) (data + ls) x).
  { apply holds_cstr; [lia|lia| |exact Hx]. apply holds_app. split.
    - eapply holds_step; [exact H1| |exact Hh]. intros i Hi. replace (data + ls + i) with (data + (ls + i)) by lia.
      split; [apply data_range; lia|]. unfold region. lia.
    - apply holds_cons. split; [|intros i c E; by rewrite lookup_nil in E]. rewrite <- E0. f_equal. lia. }
  destruct (data_range 0 ltac:(lia)) as (_ & _ & R0). destruct (data_range 1024 ltac:(lia)) as (U1024 & _ & R1024).
  rewrite Z.add_0_r in R0.
  destruct (ece391_strcpy_mem (u_mem s1) data (data + ls) x (pr_mem _ Hr1) Hc ltac:(lia) ltac:(lia) ltac:(lia)) as (m & E & Hm & Hcm & Ho).
  unfold on_memory. rewrite E, bind_ret. destruct (store_spec T nowhere m s1 Hr1 Hm Hdata) as (H2 & Em2 & _).
  { intros a Ha. apply Ho. unfold region in Ha. lia. }
  exists (u_set m s1). split; [done|]. split; [|split].
  - eapply step_then; [eapply (in_data (ls + Z.of_nat (length x)) 1); [lia|lia|exact H1]|exact H2|done].
  - intros i c Ei. pose proof (lookup_lt_Some _ _ _ Ei). rewrite Em2. destruct Hcm as [Hcm _]. destruct (Hcm i c Ei) as [Eg _].
    cbn [bget mem_buf] in Eg. rewrite decide_True in Eg by lia. by injection Eg.
  - rewrite Em2, Ho by lia. case_decide as D.
    + by rewrite <- D.
    + apply (st_mem _ _ _ _ _ H1); [exact U1024|]. unfold region. lia.
Qed.

Definition chars (l : list Z) : Prop := Forall (fun c => 0 < c < 256) l.

(** What the loop over the lines of the buffer leaves of [b]: the text [out]
    written and an incomplete line [p] at the start of the array, so that with
    what follows in the file nothing is lost. *)
Record left_over (b : list Z) (cnt : Z) (s0 : S) (out p : list Z) (s : S) : Prop := {
  lo_step : step T nowhere out s0 s;
  lo_holds : holds s data p;
  lo_line : no_newline p /\ chars p /\ Z.of_nat (length p) <= 1023;
  lo_last : ld8 (u_mem s) (data + 1024) <> 10;
  lo_done : cnt = 0 -> p = [];
  lo_reports : forall r, (cnt = 0 -> r = []) -> (Z.of_nat (length b) < 1024 -> r = []) -> short (b ++ r) ->
    reports w name (b ++ r) = out ++ reports w name (p ++ r) /\ short (p ++ r)
}.

(** The loop within the buffer: [rest] is still to be searched, from [ls]. *)
Record searching (b : list Z) (s0 : S) (out rest : list Z) (ls : Z) (s : S) : Prop := {
  sc_step : step T nowhere out s0 s;
  sc_holds : holds s (data + ls) rest;
  sc_start : 0 <= ls /\ ls + Z.of_nat (length rest) = Z.of_nat (length b) /\ (ls = 0 -> rest = b);
  sc_chars : chars rest;
  sc_last : ld8 (u_mem s) (data + 1024) <> 10;
  sc_reports : forall r, reports w name (b ++ r) = out ++ reports w name (rest ++ r);
  sc_short : forall r, short (b ++ r) -> short (rest ++ r)
}.

(** A complete line is searched. *)
Lemma search_line b cnt s0 out x rest ls s : Z.of_nat (length b) <= 1024 -> strings s0 -> searching b s0 out (x ++ 10 :: rest) ls s -> no_newline x ->
  exists s', searching b s0 (out ++ report w name x) rest (ls + Z.of_nat (length x) + 1) s' /\
    grep_line lit search data fname cnt (Z.of_nat (length b)) (Z.of_nat (length w)) (ls, s) =
      Some (if decide (rest = []) then inr (0, s') else inl (ls + Z.of_nat (length x) + 1, s')).
Proof.
  intros Hb Hst [H1 H2 (H3 & H4 & H5) H6 H7 H8 H9] Hx. rewrite length_app in H4. cbn [length] in H4.
  apply holds_app in H2 as [Hh Hr]. apply holds_cons in Hr as [Hnl Hr]. apply Forall_app in H6 as [Cx Cr]. apply list.Forall_cons in Cr as [_ Cr].
  set (le := ls + Z.of_nat (length x)) in *. replace (data + ls + Z.of_nat (length x)) with (data + le) in Hnl, Hr by lia.
  destruct (finish_line s ls x (st_ready _ _ _ _ _ H1) (strings_step _ _ _ _ H1 Hst) Hh Cx H3 ltac:(lia)) as (s' & E & Hs' & _). fold le in E, Hs'.
  exists s'. split.
  - assert (Hsub : step T nowhere (report w name x) s s') by (eapply (in_data le 1); [lia|lia|exact Hs']).
    split; [by eapply step_trans| |split; [lia|split; [lia|lia]]|exact Cr| | |].
    + eapply holds_step; [exact Hs'| |replace (data + (le + 1)) with (data + le + 1) by lia; exact Hr].
      intros i Hi. replace (data + (le + 1) + i) with (data + (le + 1 + i)) by lia. split; [apply data_range; lia|]. unfold region. lia.
    + rewrite (st_mem _ _ _ _ _ Hs'); [exact H7|apply data_range; lia|unfold region; lia].
    + intros r. rewrite H8, <- (app_assoc x). change ((10 :: rest) ++ r) with (10 :: rest ++ r). rewrite (reports_more _ _ x) by done. by rewrite app_assoc.
    + intros r Hsh. specialize (H9 r Hsh). rewrite <- (app_assoc x) in H9. by apply (short_more x (rest ++ r) Hx) in H9 as [_ ?].
  - unfold grep_line. rewrite (end_of_line_spec s (Z.of_nat (length b)) ls x Hx Hh); [|right; fold le; split; [lia|exact Hnl]|unfold FUEL; lia].
    rewrite bind_ret. fold le. rewrite decide_False by (unfold peek; intros [X _]; by apply X). cbv zeta. rewrite E, bind_ret.
    destruct (decide (rest = [])) as [->|Dr].
    + rewrite decide_True by (cbn [length] in H4; lia). done.
    + rewrite decide_False; [done|]. destruct rest; [done|]. cbn [length] in H4. lia.
Qed.

Lemma last_line b cnt s0 out rest ls s : Z.of_nat (length b) <= 1024 -> strings s0 -> searching b s0 out rest ls s -> no_newline rest ->
  exists out' p s', left_over b cnt s0 out' p s' /\
    grep_line lit search data fname cnt (Z.of_nat (length b)) (Z.of_nat (length w)) (ls, s) = Some (inr (Z.of_nat (length p), s')).
Proof.
  intros Hb Hst [H1 H2 (H3 & H4 & H5) H6 H7 H8 H9] Hx. pose proof (st_ready _ _ _ _ _ H1) as Hr.
  unfold grep_line. rewrite (end_of_line_spec s (Z.of_nat (length b)) ls rest Hx H2); [|left; lia|unfold FUEL; lia].
  rewrite bind_ret, H4. unfold peek. destruct (decide (10 <> ld8 (u_mem s) (data + Z.of_nat (length b)) /\ 0 <> cnt /\ ls <> 0)) as [D|D].
  - destruct (move_line s ls rest Hr H2 H6 ltac:(lia) ltac:(lia)) as (s' & E & Hs' & Hh' & Hl'). rewrite H4 in E, Hl'. cbv zeta. rewrite E, bind_ret.
    exists out, rest, s'. split; [|do 3 f_equal; lia]. split.
    + eapply step_then; [exact H1|exact Hs'|by rewrite app_nil_r].
    + exact Hh'.
    + split; [exact Hx|]. split; [exact H6|lia].
    + rewrite Hl'. case_decide; [done|exact H7].
    + lia.
    + intros r _ _ Hsh. split; [apply H8|by apply H9].
  - destruct (finish_line s ls rest Hr (strings_step _ _ _ _ H1 Hst) H2 H6 H3 ltac:(lia)) as (s' & E & Hs' & Hz). rewrite H4 in E, Hs', Hz. cbv zeta. rewrite E, bind_ret.
    rewrite decide_True by lia. exists (out ++ report w name rest), [], s'. split; [|done].
    assert (Hsub : step T nowhere (report w name rest) s s') by (eapply (in_data (Z.of_nat (length b)) 1); [lia|lia|exact Hs']).
    split; [by eapply step_trans|intros i c Ei; by rewrite lookup_nil in Ei|split; [constructor|split; [constructor|cbn; lia]]| |done|].
    + destruct (decide (Z.of_nat (length b) = 1024)) as [E1|E1]; [by rewrite <- E1, Hz|].
      rewrite (st_mem _ _ _ _ _ Hs'); [exact H7|apply data_range; lia|unfold region; lia].
    + intros r Hc Hl Hsh. cbn [app]. rewrite H8, <- app_assoc. f_equal. specialize (H9 r Hsh).
      destruct r as [|y r].
      { rewrite app_nil_r, (reports_one w name rest Hx), reports_nil, app_nil_r. split; [done|exact short_nil]. }
      assert (Hls : ls = 0 /\ Z.of_nat (length b) = 1024).
      { destruct (decide (Z.of_nat (length b) < 1024)) as [X|X]; [by specialize (Hl X)|]. split; [|lia].
        destruct (decide (ls = 0)) as [|Y]; [done|]. destruct D. split; [|split; [intros <-; by specialize (Hc eq_refl)|done]].
        replace (Z.of_nat (length b)) with 1024 by lia. congruence. }
      destruct Hls as [-> Hlen]. rewrite (H5 eq_refl) in *. destruct (decide (y = 10)) as [->|Dy].
      * rewrite reports_more, reports_newline by done. split; [done|]. apply short_more in H9 as [_ H9]; [|done].
        apply (short_more []); [constructor|]. split; [cbn; lia|exact H9].
      * pose proof (short_long b y r Hx Dy H9). lia.
Qed.

(** All the lines of the buffer. *)
Lemma grep_lines b cnt s : Z.of_nat (length b) <= 1024 -> ready s -> strings s -> holds s data b -> chars b ->
  ld8 (u_mem s) (data + 1024) <> 10 ->
  exists out p s', whileM (grep_line lit search data fname cnt (Z.of_nat (length b)) (Z.of_nat (length w))) (0, s) =
      Some (Z.of_nat (length p), s') /\ left_over b cnt s out p s'.
Proof.
  intros Hb Hr Hst Hh Hc Hl.
  destruct (whileM_total (fun '(ls, s1) => exists out rest, searching b s out rest ls s1) (fun '(ls, _) => Z.of_nat (length b) - ls)
    (fun '(n, s') => exists out p, n = Z.of_nat (length p) /\ left_over b cnt s out p s')
    (grep_line lit search data fname cnt (Z.of_nat (length b)) (Z.of_nat (length w))) (0, s)) as ([n s'] & E & out & p & -> & H).
  - intros [ls s1] (out & rest & Hs). pose proof Hs as [H1 H2 (H3 & H4 & H5) H6 H7 H8 H9].
    destruct (split_line rest) as [Hx|(x & r & -> & Hx)].
    + destruct (last_line b cnt s out rest ls s1 Hb Hst Hs Hx) as (out' & p & s' & H & ->). by exists out', p.
    + destruct (search_line b cnt s out x r ls s1 Hb Hst Hs Hx) as (s' & H & ->). rewrite length_app in H4. cbn [length] in H4.
      destruct (decide (r = [])) as [->|Dr]; [|split; [by exists (out ++ report w name x), r|lia]].
      exists (out ++ report w name x), []. split; [done|]. destruct H as [K1 _ _ _ K7 K8 K9]. split; [exact K1| | |exact K7|done|].
      * intros i c Ei. by rewrite lookup_nil in Ei.
      * split; [exact (Forall_nil_2 _)|]. split; [exact (Forall_nil_2 _)|cbn; lia].
      * intros r _ _ Hsh. split; [apply K8|by apply K9].
  - exists [], b. split; [by apply step_refl|by rewrite Z.add_0_r|split; [lia|split; [lia|done]]|exact Hc|exact Hl|done|done].
  - unfold FUEL. lia.
  - by exists out, p, s'.
Qed.

(** *** The reads *)

(** Between two reads: [o] is written, an incomplete line [p] is held and [r] is
    left in the file. *)
Record reading (fd : Z) (l : list Z) (s0 : S) (o p r : list Z) (s : S) : Prop := {
  rg_step : step T (only fd) o s0 s;
  rg_left : left s fd = Some (Regular r);
  rg_holds : holds s data p;
  rg_line : no_newline p /\ chars p /\ Z.of_nat (length p) <= 1023;
  rg_rest : chars r /\ short (p ++ r);
  rg_last : ld8 (u_mem s) (data + 1024) <> 10;
  rg_reports : reports w name l = o ++ reports w name (p ++ r)
}.

Lemma read_more fd l s0 o p r s : strings s0 -> reading fd l s0 o p r s ->
  exists o' p' r' s', reading fd l s0 o' p' r' s' /\ (length r' <= length r)%nat /\
    ((length r' < length r)%nat \/ r = [] /\ p' = []) /\
    grep_read lit search data fname fd (Z.of_nat (length w)) (Z.of_nat (length p), s) =
      Some (if decide (r = []) then inr (0, s') else inl (Z.of_nat (length p'), s')).
Proof.
  intros Hst [H1 HL Hp (Np & Cp & Lp) (Cr & Hsh) Hl Hrep]. unfold grep_read. change BUFSIZE with 1024.
  set (n := 1024 - Z.of_nat (length p)).
  destruct (pr_read s fd (data + Z.of_nat (length p)) n (Regular r) (st_ready _ _ _ _ _ H1) HL ltac:(cbn; lia)) as (Hk & s1 & E1 & H2 & _ & Hb & L1).
  { intros a Ha. replace a with (data + (a - data)) by lia. apply data_range. unfold region in Ha. lia. }
  cbn [chunk rest] in *. set (b := take (Z.to_nat n) r) in *. set (r' := drop (Z.to_nat n) r) in *.
  rewrite E1, bind_ret. cbv beta iota. rewrite decide_False by lia. cbv zeta.
  assert (Hd : forall i, 0 <= i < 1025 -> user_address (data + i)) by (intros i Hi; by apply data_range).
  assert (Hh : holds s1 data (p ++ b)).
  { apply holds_app. split.
    - eapply holds_step; [exact H2| |exact Hp]. intros i Hi. split; [apply Hd; lia|]. unfold region. lia.
    - intros i c E.
      apply (load_bytes_nth _ _ b); [|exact Hb|exact E]. intros a Ha. replace a with (data + (a - data)) by lia. apply Hd. lia. }
  assert (Er : b ++ r' = r) by apply take_drop. assert (Lr : length r = (length b + length r')%nat) by (by rewrite <- Er at 1; rewrite length_app).
  assert (H2' : step T (only fd) [] s s1).
  { eapply step_weaken; [exact H2| |done]. intros a. unfold region. lia. }
  assert (H12 : step T (only fd) o s0 s1) by (eapply step_then; [exact H1|exact H2'|by rewrite app_nil_r]).
  destruct (grep_lines (p ++ b) (Z.of_nat (length b)) s1) as (out & p' & s2 & E2 & H3); [rewrite length_app; lia|apply (st_ready _ _ _ _ _ H2)| | | | |].
  { eapply strings_step; [exact H12|exact Hst]. }
  { exact Hh. }
  { apply Forall_app. split; [exact Cp|]. by apply Forall_take. }
  { rewrite (st_mem _ _ _ _ _ H2); [exact Hl|apply Hd; lia|unfold region; lia]. }
  rewrite length_app, Nat2Z.inj_add in E2. rewrite E2, bind_ret. cbv beta iota.
  assert (Hdry : length b = 0%nat -> r' = [] /\ r = []).
  { intros E0. subst b r'. rewrite length_take in E0. assert (length r = 0%nat) as E0' by lia. apply nil_length_inv in E0' as ->.
    by rewrite drop_nil. }
  assert (Hend : Z.of_nat (length (p ++ b)) < 1024 -> r' = []).
  { intros Hlt. rewrite length_app in Hlt. subst b r'. rewrite length_take in Hlt. apply drop_ge. lia. }
  destruct H3 as [K1 K2 K3 K4 K5 K6]. destruct (K6 r') as [Q1 Q2]; [intros E0; apply Hdry; lia|exact Hend|by rewrite <- app_assoc, Er|].
  exists (o ++ out), p', r', s2. split; [split|split; [|split]].
  - eapply step_trans; [exact H12|]. eapply step_weaken; [exact K1|done|by intros ? []].
  - rewrite (st_left _ _ _ _ _ K1) by (by intros []). exact L1.
  - exact K2.
  - exact K3.
  - split; [|exact Q2]. by apply Forall_drop.
  - exact K4.
  - by rewrite Hrep, <- Er, (app_assoc p), Q1, app_assoc.
  - lia.
  - destruct (decide (length b = 0%nat)) as [E0|E0]; [right|left; lia]. split; [by apply Hdry|]. apply K5. lia.
  - destruct (decide (r = [])) as [E0|E0].
    + rewrite decide_True; [done|]. subst b. by rewrite E0, take_nil.
    + rewrite decide_False; [done|]. intros X. apply E0, Hdry. lia.
Qed.

Lemma grep_reads fd l s : ready s -> strings s -> left s fd = Some (Regular l) -> chars l -> short l ->
  ld8 (u_mem s) (data + 1024) <> 10 -> Z.of_nat (length l) < Z.pos FUEL ->
  exists s', whileM (grep_read lit search data fname fd (Z.of_nat (length w))) (0, s) = Some (0, s') /\
    step T (only fd) (reports w name l) s s' /\ left s' fd = Some (Regular []) /\ ld8 (u_mem s') (data + 1024) <> 10.
Proof.
  intros Hr Hst HL Hc Hsh Hl Hn.
  destruct (whileM_total (fun '(n, s1) => exists o p r, n = Z.of_nat (length p) /\ reading fd l s o p r s1)
    (fun '(_, s1) => match left s1 fd with Some c => weight c | None => 0 end)
    (fun '(n, s') => n = 0 /\ step T (only fd) (reports w name l) s s' /\ left s' fd = Some (Regular []) /\ ld8 (u_mem s') (data + 1024) <> 10)
    (grep_read lit search data fname fd (Z.of_nat (length w))) (0, s)) as ([n s'] & E & -> & H).
  - intros [n s1] (o & p & r & -> & H). destruct (read_more fd l s o p r s1 Hst H) as (o' & p' & r' & s' & H' & Hle & Hlt & ->).
    rewrite (rg_left _ _ _ _ _ _ _ H). destruct (decide (r = [])) as [->|Dr].
    + destruct Hlt as [Hlt|[_ ->]]; [cbn in Hlt; lia|]. destruct r' as [|]; [|cbn in Hle; lia]. destruct H' as [K1 K2 _ _ _ K6 K7].
      cbn [app] in K7. rewrite reports_nil, app_nil_r in K7. rewrite K7. done.
    + split; [by exists o', p', r'|]. rewrite (rg_left _ _ _ _ _ _ _ H'). cbn [weight]. destruct Hlt as [Hlt|[-> _]]; [lia|done].
  - exists [], [], l. split; [done|]. split; [by apply step_refl|exact HL| | | |exact Hl|done].
    + intros i c Ei. by rewrite lookup_nil in Ei.
    + split; [exact (Forall_nil_2 _)|]. split; [exact (Forall_nil_2 _)|cbn; lia].
    + by split.
  - rewrite HL. cbn [weight]. lia.
  - by exists s'.
Qed.

(** A descriptor opened and closed again is as before. *)
Lemma step_closed T' fd o s s' : step T' (only fd) o s s' -> 2 <= fd -> left s' fd = left s fd -> step T' nowhere o s s'.
Proof.
  intros [R1 M1 A1 N1 L1 F1 S1] Hfd Hl. split; try done.
  - intros x _. destruct (decide (x = fd)) as [->|D]; [exact Hl|by apply L1].
  - intros _. apply F1. unfold only. lia.
Qed.

(** A whole file. *)
Lemma do_one_file_spec l s : ready s -> strings s -> named s name = Some (Regular l) -> slots s <> [] -> chars l -> short l ->
  ld8 (u_mem s) (data + 1024) <> 10 -> Z.of_nat (length l) < Z.pos FUEL ->
  exists s', do_one_file lit search data fname s = Some (0, s') /\ step T nowhere (reports w name l) s s' /\ slots s' <> [] /\
    ld8 (u_mem s') (data + 1024) <> 10.
Proof.
  intros Hr Hst Hnm Hsl Hc Hsh Hl Hn. unfold do_one_file. pose proof (sr_search _ Hst) as (Hw & Hwn & _).
  rewrite (ece391_strlen_spec _ _ w) by (done || lia). rewrite bind_ret.
  destruct (slots s) as [|fd fds] eqn:Es; [done|]. pose proof (sr_name _ Hst) as (Hname & _).
  destruct (pr_opened s fname name (Regular l) fd Hr Hname Hnm ltac:(done)) as (Hfd & s1 & E1 & H1 & L0 & L1 & _); [by unfold slot; rewrite Es|].
  rewrite E1, bind_ret. cbv beta iota. rewrite decide_False by lia.
  assert (H1' : step T (only fd) [] s s1) by (eapply step_weaken; [exact H1|by intros ? []|done]).
  destruct (data_range 1024 ltac:(lia)) as (U1024 & _ & _).
  destruct (grep_reads fd l s1 (st_ready _ _ _ _ _ H1)) as (s2 & E2 & H2 & L2 & Hl2); [by eapply strings_step|exact L1|exact Hc|exact Hsh| |exact Hn|].
  { rewrite (st_mem _ _ _ _ _ H1); [exact Hl|exact U1024|by intros []]. }
  rewrite E2, bind_ret. cbv beta iota. rewrite decide_False by done.
  destruct (pr_close s2 fd _ (st_ready _ _ _ _ _ H2) L2 ltac:(done) Hfd) as (s3 & E3 & H3 & L3 & Hs3).
  rewrite E3, bind_ret. cbv beta iota. rewrite decide_False by done. exists s3. split; [done|]. split; [|split; [exact Hs3|]].
  - apply (step_closed T fd); [|exact Hfd|by rewrite L0, L3]. eapply step_then; [exact H1'| |done].
    eapply step_then; [exact H2|eapply step_weaken; [exact H3|by intros ? []|done]|by rewrite app_nil_r].
  - rewrite (st_mem _ _ _ _ _ H3); [exact Hl2|exact U1024|by intros []].
Qed.
End Search.

(** ** The program *)

(** What grep writes of a directory: the matching lines of each file, in order,
    up to the first empty name; names that start with a point are skipped. *)
Definition hidden (x : list Z) : bool := bool_decide (head x = Some 46).

Section Main.
Context {S : Type} {MS : Machine S} {OS : Observe S} {PS : Promises S} (lit : string -> Z).
Context (search buf data : Z).
Context (Hsearch : forall a, region search 1024 a -> user_address a) (Hbuf : forall a, region buf 33 a -> user_address a)
  (Hdata : forall a, region data 1025 a -> user_address a).
Context (Hsb : search + 1024 <= buf \/ buf + 33 <= search) (Hsd : search + 1024 <= data \/ data + 1025 <= search)
  (Hbd : buf + 33 <= data \/ data + 1025 <= buf).

(** The addresses grep stores to. *)
Definition arrays (a : Z) : Prop := region search 1024 a \/ region buf 33 a \/ region data 1025 a.

Definition contents (s : S) (x : list Z) : list Z := match named s x with Some (Regular l) => l | _ => [] end.

Definition matches (s : S) (w : list Z) (names : list (list Z)) : list Z :=
  concat ((fun x => if hidden x then [] else reports w x (contents s x)) <$> until_empty names).

(** A name grep can search: hidden, or that of a text file. *)
Definition searchable (s : S) (x : list Z) : Prop :=
  hidden x = true \/
  chars x /\ exists l, named s x = Some (Regular l) /\ chars l /\ short l /\ Z.of_nat (length l) < Z.pos FUEL.

Lemma searchable_step T F o s s' x : step T F o s s' -> searchable s x -> searchable s' x /\ contents s' x = contents s x.
Proof. intros Hs H. unfold searchable, contents. rewrite (st_named _ _ _ _ _ Hs). done. Qed.

(** Between two turns of the loop over the directory. *)
Record grepping (w : list Z) (fd : Z) (s0 : S) (o : list Z) (names : list (list Z)) (s : S) : Prop := {
  gp_step : step arrays (only fd) o s0 s;
  gp_left : left s fd = Some (Names names);
  gp_slots : slots s <> [];
  gp_search : cstr (u_mem s) search w;
  gp_last : ld8 (u_mem s) (data + 1024) <> 10
}.

Lemma grepping_more w fd s0 o o' o'' names s s' : grepping w fd s0 o names s ->
  step (fun a => region buf 33 a \/ region data 1025 a) nowhere o' s s' -> o'' = o ++ o' -> Z.of_nat (length w) < 1024 ->
  slots s' <> [] -> ld8 (u_mem s') (data + 1024) <> 10 -> grepping w fd s0 o'' names s'.
Proof.
  intros [H1 H2 H3 H4 H5] Hs -> Hw Hsl Hl. split; [|by rewrite (st_left _ _ _ _ _ Hs) by (by intros [])|done| |done].
  - eapply step_trans; [exact H1|]. eapply step_weaken; [exact Hs|unfold arrays; tauto|by intros ? []].
  - eapply cstr_same; [exact H4|]. intros x Hx. apply (st_mem _ _ _ _ _ Hs).
    + apply Hsearch. unfold region in *. lia.
    + unfold region in *. lia.
Qed.

Lemma stands_fewer (T T' : Z -> Prop) s a l : stands T s a l -> (forall x, T' x -> T x) -> stands T' s a l.
Proof. intros (H1 & H2 & H3) HT. split; [done|]. split; [done|]. intros x Hx. destruct (H3 x Hx) as [Hu Hn]. split; [exact Hu|]. intros X. by apply Hn, HT. Qed.

Lemma first_char (m : mem) x : load_bytes m buf (Z.of_nat (length x)) = x -> x <> [] -> Z.of_nat (length x) <= 33 ->
  46 = ld8 m buf <-> hidden x = true.
Proof.
  intros Hl Hx Hn. destruct x as [|c x]; [done|]. unfold hidden. rewrite bool_decide_eq_true. cbn [head].
  pose proof (load_bytes_nth m buf (c :: x) 0 c ltac:(intros a Ha; apply Hbuf; unfold region; lia) Hl eq_refl) as E.
  rewrite Z.add_0_r in E. rewrite E. split; [by intros <-|congruence].
Qed.

(** A turn of the loop over the directory. *)
Lemma grep_turn w fd s0 o x names s : placed lit arrays s0 ":" -> placed lit arrays s0 (line "") -> Z.of_nat (length w) < 1024 ->
  grepping w fd s0 o (x :: names) s -> x <> [] -> searchable s0 x ->
  exists s', grep_entry lit search buf data fd s = Some (inl s') /\
    grepping w fd s0 (o ++ if hidden x then [] else reports w x (contents s0 x)) names s'.
Proof.
  intros Hc Hn Hw H Hx Hok. pose proof H as [H1 H2 H3 H4 H5]. unfold grep_entry. change (SBUFSIZE - 1) with 32.
  destruct (pr_read s fd buf 32 (Names (x :: names)) (st_ready _ _ _ _ _ H1) H2 ltac:(done)) as (Hk & s1 & E1 & K1 & Sl1 & Hb & L1);
    [intros a Ha; apply Hbuf; unfold region in *; lia|]. cbn [chunk rest] in *. rewrite E1, bind_ret. cbv beta iota. clear E1.
  assert (Hlen : 0 < Z.of_nat (length x)) by (destruct x; [done|simpl; lia]). rewrite decide_True by lia. rewrite decide_False by lia.
  assert (U1024 : user_address (data + 1024)) by (apply Hdata; unfold region; lia).
  assert (G1 : grepping w fd s0 o names s1).
  { split; [eapply step_then; [exact H1|eapply step_weaken; [exact K1|unfold arrays, region; lia|done]|by rewrite app_nil_r]|exact L1|by rewrite Sl1| |].
    - eapply cstr_same; [exact H4|]. intros a Ha. apply (st_mem _ _ _ _ _ K1); [apply Hsearch|]; unfold region in *; lia.
    - rewrite (st_mem _ _ _ _ _ K1); [exact H5|exact U1024|unfold region; lia]. }
  pose proof (st_ready _ _ _ _ _ K1) as Hr1. unfold peek. pose proof (first_char (u_mem s1) x Hb Hx ltac:(lia)) as Hhid.
  destruct (decide (46 = ld8 (u_mem s1) buf)) as [D|D].
  { exists s1. apply Hhid in D. rewrite D, app_nil_r. done. }
  destruct (hidden x) eqn:Ex; [by destruct D; apply Hhid|]. cbv zeta.
  destruct Hok as [Hh|(Cx & l & El & Cl & Sl & Hl)]; [congruence|].
  destruct (poke_spec (region buf 33) nowhere (buf + Z.of_nat (length x)) 0 s1 Hr1) as (K2 & Em & Sl2);
    [apply Hbuf; unfold region; lia|unfold region; lia|]. set (s2 := poke _ 0 s1) in *. pose proof (st_ready _ _ _ _ _ K2) as Hr2.
  assert (G2 : grepping w fd s0 o names s2).
  { eapply (grepping_more _ _ _ _ []); [exact G1|eapply step_weaken; [exact K2|by left|done]|by rewrite app_nil_r|exact Hw| |].
    - by rewrite Sl2, Sl1.
    - rewrite (st_mem _ _ _ _ _ K2); [apply (gp_last _ _ _ _ _ _ G1)|exact U1024|unfold region; lia]. }
  assert (Hname : cstr (u_mem s2) buf x).
  { pose proof (Hbuf buf ltac:(unfold region; lia)) as U0. unfold user_address, TASK_VIRT_PAGE_BEG, TASK_VIRT_PAGE_END in U0.
    apply loaded_cstr; [|exact Cx|lia|lia]. rewrite Em. apply load_bytes_behind; [|exact Hb|lia].
    intros a Ha. apply Hbuf. unfold region. lia. }
  assert (Hst : strings lit search data buf w x s2).
  { assert (Hlit : forall t, placed lit arrays s0 t -> placed lit (region data 1025) s2 t).
    { intros t Ht. eapply stands_fewer; [eapply placed_step; [apply (gp_step _ _ _ _ _ _ G2)|exact Ht]|]. unfold arrays. tauto. }
    split; [| |by apply Hlit|by apply Hlit].
    - split; [apply (gp_search _ _ _ _ _ _ G2)|]. split; [lia|]. intros a Ha. split; [apply Hsearch|]; unfold region in *; lia.
    - split; [exact Hname|]. split; [lia|]. intros a Ha. split; [apply Hbuf|]; unfold region in *; lia. }
  destruct (do_one_file_spec lit search data Hdata buf w x l s2 Hr2 Hst) as (s3 & E3 & K3 & Sl3 & Hl3);
    [by rewrite (st_named _ _ _ _ _ (gp_step _ _ _ _ _ _ G2))|apply (gp_slots _ _ _ _ _ _ G2)|exact Cl|exact Sl|apply (gp_last _ _ _ _ _ _ G2)|exact Hl|].
  rewrite E3, bind_ret. cbv beta iota. rewrite decide_False by (intros X; by apply X). exists s3. split; [done|].
  eapply grepping_more; [exact G2|eapply step_weaken; [exact K3|by right|done]| |exact Hw|exact Sl3|exact Hl3].
  unfold contents. by rewrite El.
Qed.

Lemma grep_end w fd s0 o names s : grepping w fd s0 o names s -> until_empty names = [] ->
  exists s', grep_entry lit search buf data fd s = Some (inr (0, s')) /\ step arrays (only fd) o s0 s'.
Proof.
  intros [H1 H2 _ _ _] He. unfold grep_entry. change (SBUFSIZE - 1) with 32.
  destruct (pr_read s fd buf 32 (Names names) (st_ready _ _ _ _ _ H1) H2 ltac:(done)) as (Hk & s1 & E1 & K1 & _ & _ & _);
    [intros a Ha; apply Hbuf; unfold region in *; lia|].
  assert (Hc : chunk 32 (Names names) = []) by (destruct names as [|[|c x] names]; done).
  rewrite Hc in E1. rewrite E1, bind_ret. cbv beta iota. cbn [length]. rewrite decide_False by (intros X; by apply X).
  exists s1. split; [done|]. eapply step_then; [exact H1| |by rewrite app_nil_r].
  eapply step_weaken; [exact K1|unfold arrays, region; lia|done].
Qed.

(** The directory, and the program. *)
Lemma grep_directory w fd s names : ready s -> placed lit arrays s ":" -> placed lit arrays s (line "") -> Z.of_nat (length w) < 1024 ->
  grepping w fd s [] names s -> Forall (searchable s) (until_empty names) -> Z.of_nat (length names) < Z.pos FUEL ->
  exists s', whileM (grep_entry lit search buf data fd) s = Some (0, s') /\ step arrays (only fd) (matches s w names) s s'.
Proof.
  intros Hr Hc Hn Hw Hg Hok Hlen.
  destruct (whileM_total (fun s1 => exists o names', grepping w fd s o names' s1 /\ matches s w names = o ++ matches s w names' /\
      Forall (searchable s) (until_empty names'))
    (fun s1 => match left s1 fd with Some c => weight c | None => 0 end)
    (fun '(r, s') => r = 0 /\ step arrays (only fd) (matches s w names) s s') (grep_entry lit search buf data fd) s) as ([r s'] & E & -> & H).
  - intros s1 (o & names' & G & Em & Hok'). rewrite (gp_left _ _ _ _ _ _ G). destruct (decide (until_empty names' = [])) as [He|He].
    + destruct (grep_end w fd s o names' s1 G He) as (s' & -> & Hs). split; [done|]. rewrite Em. unfold matches at 1. by rewrite He, app_nil_r.
    + destruct names' as [|x names']; [done|]. assert (Hx : x <> []) by (by destruct x).
      assert (Eu : until_empty (x :: names') = x :: until_empty names') by (by destruct x). rewrite Eu in Hok'. apply list.Forall_cons in Hok' as [Hx' Hok'].
      destruct (grep_turn w fd s o x names' s1 Hc Hn Hw G Hx Hx') as (s' & -> & G'). rewrite (gp_left _ _ _ _ _ _ G'). cbn [weight length]. split; [|lia].
      eexists _, names'. split; [exact G'|]. split; [|exact Hok']. rewrite Em. unfold matches at 1. rewrite Eu. cbn [fmap list_fmap concat].
      by rewrite <- app_assoc.
  - by exists [], names.
  - rewrite (gp_left _ _ _ _ _ _ Hg). cbn [weight]. lia.
  - by exists s'.
Qed.

Lemma grep_runs s w names fd fds : ready s -> placed lit arrays s "." -> placed lit arrays s ":" -> placed lit arrays s (line "") ->
  args s = Some w -> Z.of_nat (length w) < 1024 -> named s (codes ".") = Some (Names names) -> slots s = fd :: fds -> fds <> [] ->
  Forall (searchable s) (until_empty names) -> Z.of_nat (length names) < Z.pos FUEL -> ld8 (u_mem s) (data + 1024) <> 10 ->
  exists s', grep lit search buf data s = Some (0, s') /\ step arrays (opening s) (matches s w names) s s'.
Proof.
  intros Hr Hdot Hc Hn Ha Hw Hnm Hsl Hfds Hok Hlen Hl. unfold grep. change BUFSIZE with 1024.
  destruct (pr_getargs s search 1024 Hr ltac:(lia) Hsearch) as (r & s1 & E1 & H1 & Sl1 & Hargs).
  rewrite Ha, decide_False in Hargs by lia. destruct Hargs as [-> Hcw]. rewrite E1, bind_ret. cbv beta iota. rewrite decide_False by (intros X; by apply X).
  assert (H1' : step arrays nowhere [] s s1) by (eapply step_weaken; [exact H1|by left|done]).
  destruct (placed_step _ _ _ _ _ _ _ H1' Hdot) as (Hdot1 & _).
  destruct (pr_opened s1 (lit ".") (codes ".") (Names names) fd (st_ready _ _ _ _ _ H1) Hdot1) as (Hfd & s2 & E2 & H2 & _ & L2 & Sl2);
    [by rewrite (st_named _ _ _ _ _ H1)|done|by unfold slot; rewrite Sl1, Hsl|].
  rewrite E2, bind_ret. cbv beta iota. rewrite decide_False by lia.
  assert (H12 : step arrays (only fd) [] s s2).
  { apply (step_then _ _ _ [] [] _ s1); [eapply step_weaken; [exact H1'|done|by intros ? []]|eapply step_weaken; [exact H2|by intros ? []|done]|done]. }
  assert (U1024 : user_address (data + 1024)) by (apply Hdata; unfold region; lia).
  destruct (grep_directory w fd s2 names (st_ready _ _ _ _ _ H2)) as (s3 & E3 & H3).
  - by eapply placed_step.
  - by eapply placed_step.
  - exact Hw.
  - split; [by apply step_refl, (st_ready _ _ _ _ _ H2)|exact L2|by rewrite Sl2, Sl1, Hsl| |].
    + eapply cstr_same; [exact Hcw|]. intros a Hx. apply (st_mem _ _ _ _ _ H2); [|by intros []]. apply Hsearch. unfold region in *. lia.
    + rewrite (st_mem _ _ _ _ _ H2), (st_mem _ _ _ _ _ H1) by (done || unfold region; lia || by intros []). exact Hl.
  - eapply list.Forall_impl; [exact Hok|]. intros x Hx. by eapply searchable_step.
  - exact Hlen.
  - assert (Em : matches s2 w names = matches s w names).
    { unfold matches, contents. f_equal. apply list_fmap_ext. intros i x _. by rewrite (st_named _ _ _ _ _ H12). }
    exists s3. split; [exact E3|]. rewrite Em in H3.
    assert (Hopen : forall y, only fd y -> opening s y) by (intros ? ->; unfold opening, slot; by rewrite Hsl).
    eapply step_then; [eapply step_weaken; [exact H12|done|exact Hopen]|eapply step_weaken; [exact H3|done|exact Hopen]|done].
Qed.
End Main.
