(* ===== verification/UserKernel.v ===== *)
(** * The kernel under the user programs

    The promises the user programs rely on, kept by the kernel: a process of the
    kernel is a machine whose memory is what the processor shows it and whose
    calls are the kernel's system calls.  The programs' theorems then hold of
    the whole system: what cat and ls put on the terminal is what the file
    system's image holds. *)
From stdpp Require Import base tactics list numbers gmap option strings.
From Stdlib Require Import ZArith Lia.
From S2P Require Import Prelude CLib Task FileSys Term TermScreen TermSys Rtc Page Syscall Fd Process Support Programs Grep.

Open Scope Z_scope.

(** ** Text on a terminal *)

(** Nothing happens on the terminals: memory may change at user addresses. *)
Record quiet (s s' : tstate) : Prop := {
  qu_terms : terms s' = terms s;
  qu_ind : cur_term_ind s' = cur_term_ind s;
  qu_ok : mem_ok (vmem s) -> mem_ok (vmem s');
  qu_mem : forall a, 0 <= a < 4294967296 -> ~ user_address a -> ld8 (vmem s') a = ld8 (vmem s) a
}.

(** The bytes of a text go through terminal [i] one by one, with nothing on
    any terminal in between. *)
Inductive prints (i : Z) : list Z -> tstate -> tstate -> Prop :=
  | prints_end s : prints i [] s s
  | prints_quiet l s s1 s' : quiet s s1 -> prints i l s1 s' -> prints i l s s'
  | prints_byte b l s s1 s' : on_term i (write_byte b) (set_front (cur_term_ind s) i s) = Some s1 -> prints i l s1 s' ->
      prints i (b :: l) s s'.

Lemma prints_app i l1 l2 s1 s2 s3 : prints i l1 s1 s2 -> prints i l2 s2 s3 -> prints i (l1 ++ l2) s1 s3.
Proof. induction 1; intros H2; cbn [app]; [done|by eapply prints_quiet; [done|auto]|by eapply prints_byte; [done|auto]]. Qed.

Lemma prints_silent i s s' : quiet s s' -> prints i [] s s'.
Proof. intros H. eapply prints_quiet; [exact H|constructor]. Qed.

Lemma on_page_kernel cur i a : 0 <= i < TERM_NUM -> on_page (page_of cur i) a -> ~ user_address a.
Proof.
  intros Hi. pose proof (page_range cur i Hi). unfold on_page, VID_MEM_SIZE, user_address, TASK_VIRT_PAGE_BEG. lia.
Qed.

(** The loop of [term_write] is its bytes one by one. *)
Lemma print_loop s i t buf n : twf s -> 0 <= i < TERM_NUM -> arr_get (terms s) i = Some t -> cur_term s = i ->
  0 <= n -> (forall x, region buf n x -> user_address x) ->
  exists c, for_upM 0 n (fun k c => write_byte (ld8 (vm c) (buf + k)) c) (con_at s i t) = Some c /\
    out_esc (con_at s i t) c /\ prints i (load_bytes (vmem s) buf n) s (put_con s i c).
Proof.
  intros Hs Hi Et Hcur Hn Hbuf. destruct (term_at s i Hs Hi) as (t' & Et' & Hw). rewrite Et in Et'. injection Et' as <-.
  destruct (con_at_line s i t Hs Hw) as [Hcon _].
  destruct (for_upM_ind (fun k c => out_esc (con_at s i t) c /\ prints i (load_bytes (vmem s) buf k) s (put_con s i c))
    0 n (fun k c => write_byte (ld8 (vm c) (buf + k)) c) (con_at s i t)) as (c & E & H & Hsh).
  - done.
  - split; [apply out_esc_output; [by apply output_draws|by eapply tw_esc]|].
    assert (E : put_con s i (con_at s i t) = s).
    { unfold put_con, con_at. cbn [tm vm ports]. rewrite list_insert_id; [by destruct s|]. rewrite <- arr_get_lookup by lia. done. }
    rewrite E. constructor.
  - intros k c Hk [O Hsh]. destruct O as (W & Hc & He). destruct (write_byte_ok (ld8 (vm c) (buf + k)) c Hc He) as (c2 & E2 & O2).
    exists c2. split; [exact E2|]. split; [by eapply out_esc_trans|].
    assert (Hu : user_address (buf + k)) by (apply Hbuf; unfold region; lia).
    assert (Hb : ld8 (vm c) (buf + k) = ld8 (vmem s) (u32 (buf + k))).
    { rewrite u32_small by (unfold user_address, TASK_VIRT_PAGE_BEG, TASK_VIRT_PAGE_END in Hu; lia).
      apply (wr_vm _ _ W). intros Hp. apply (on_page_kernel (cur_term_ind s) i (buf + k) Hi); [|done].
      cbn [con_at tm] in Hp. by rewrite (tw_page _ _ _ Hw) in Hp. }
    rewrite load_bytes_snoc by lia. eapply prints_app; [exact Hsh|]. rewrite <- Hb.
    assert (Eget : arr_get (terms (put_con s i c)) i = Some (tm c)).
    { cbn [terms put_con]. rewrite arr_get_insert by (rewrite (ts_len _ Hs); unfold TERM_NUM in Hi; lia). by rewrite decide_True. }
    eapply prints_byte; [|constructor].
    assert (Ef : set_front (cur_term_ind (put_con s i c)) i (put_con s i c) = put_con s i c).
    { unfold set_front, put_con. cbn. by rewrite Hcur. }
    rewrite Ef, (on_term_eq _ i (tm c) _ Eget).
    assert (Ec : con_at (put_con s i c) i (tm c) = c).
    { pose proof (wr_front _ _ W) as Hfr. cbn [con_at front] in Hfr. destruct c. unfold con_at, put_con. cbn in *. by rewrite Hfr. }
    rewrite Ec, E2, bind_ret. f_equal. unfold put_con. cbn. by rewrite list_insert_insert_eq.
  - exists c. done.
Qed.

Lemma term_write_shown s i buf n : twf s -> 0 <= i < TERM_NUM -> 0 <= n < 2147483648 -> (forall x, region buf n x -> user_address x) ->
  exists s', term_write i buf n s = Some (n, s') /\ twf s' /\ TermSys.apart s s' i /\ prints i (load_bytes (vmem s) buf n) s s' /\
    (forall j, (term_ind <$> pcbs s' !! j) = (term_ind <$> pcbs s !! j)).
Proof.
  intros Hs Hi Hn Hbuf. destruct (term_write_spec s i buf n Hs Hi Hn) as (s' & E & W & A & _).
  exists s'. split; [exact E|]. split; [exact W|]. split; [exact A|]. split; [|intros j; by rewrite (ap_pcbs _ _ _ A)].
  destruct (term_at s i Hs Hi) as (t & Et & _). set (s0 := set_front (cur_term_ind s) i s).
  destruct (print_loop s0 i t buf n (set_front_wf s _ i Hs eq_refl) Hi Et eq_refl ltac:(lia) Hbuf) as (c & Ec & _ & Hsh).
  unfold term_write in E. fold s0 in E. rewrite (on_term_eq s0 i t _ Et), Ec, !bind_ret in E. apply (inj Some) in E.
  assert (Es : put_con s0 i c = s') by congruence. rewrite Es in Hsh. eapply prints_quiet; [|exact Hsh]. by split.
Qed.

(** Plain text that fits the row is on the screen. *)
Lemma prints_screen i l s s' : prints i l s s' -> forall t, twf s -> 0 <= i < TERM_NUM -> arr_get (terms s) i = Some t ->
  esc_state t = IDLE -> Forall printable l -> cur_x t + Z.of_nat (length l) < NUM_COLS ->
  exists t', arr_get (terms s') i = Some t' /\ t' = set_cursor (cur_x t + Z.of_nat (length l)) (cur_y t) t /\
    forall x y, 0 <= x < NUM_COLS -> 0 <= y < NUM_ROWS ->
      cell (con_at s' i t') x y =
      match (if decide (y = cur_y t /\ cur_x t <= x) then l !! Z.to_nat (x - cur_x t) else None) with
      | Some ch => (ch, attr t)
      | None => cell (con_at s i t) x y
      end.
Proof.
  induction 1 as [s|l s s1 s' Q H IH|b l s s1 s' E H IH]; intros t Hs Hi Et Hidle Hl Hx.
  - exists t. split; [done|]. rewrite Z.add_0_r. split; [by destruct t|]. intros x y _ _. by case_decide.
  - destruct Q as [Q1 Q2 Q3 Q4].
    assert (Hs1 : twf s1).
    { destruct Hs as [W1 W2 W3 W4]. split; [by rewrite Q1|by rewrite Q2| |auto]. intros j tj. rewrite Q1, Q2. apply W3. }
    destruct (IH t Hs1 Hi) as (t' & E' & Et' & Hcell); [by rewrite Q1|done..|]. exists t'. split; [done|]. split; [done|].
    intros x y Hxx Hyy. rewrite Hcell by done. destruct (term_at s i Hs Hi) as (t0 & Et0 & Hw). rewrite Et in Et0. injection Et0 as <-.
    assert (Ec : cell (con_at s1 i t) x y = cell (con_at s i t) x y); [|by rewrite Ec].
    unfold cell, con_at. cbn [tm vm]. rewrite (tw_page _ _ _ Hw). pose proof (page_range (cur_term_ind s) i Hi).
    unfold cell_addr, NUM_COLS, NUM_ROWS in *.
    rewrite !Q4; try done; unfold user_address, TASK_VIRT_PAGE_BEG; lia.
  - destruct (term_at s i Hs Hi) as (t0 & Et0 & Hw). rewrite Et in Et0. injection Et0 as <-.
    set (s0 := set_front (cur_term_ind s) i s) in *. pose proof (set_front_wf s _ i Hs eq_refl) as Hs0. fold s0 in Hs0.
    destruct (con_at_line s i t Hs Hw) as [Hcon _]. apply list.Forall_cons in Hl as [Hb Hl]. cbn [length] in Hx.
    destruct (write_text_spec [b] (con_at s i t) Hcon Hidle) as (c1 & Ec1 & Etm & Hcells);
      [apply Forall_cons_2; [done|constructor]|cbn [length con_at tm]; lia|].
    unfold write_bytes in Ec1. cbn [foldM] in Ec1. destruct (write_byte b (con_at s i t)) as [c2|] eqn:Eb; [|done].
    cbn in Ec1. injection Ec1 as ->.
    destruct (write_byte_ok b (con_at s i t) Hcon (tw_esc _ _ _ Hw)) as (c2 & Eb2 & O). rewrite Eb in Eb2. injection Eb2 as <-.
    destruct (on_term_output s0 i t (write_byte b) Hs0 Hi Et) as (s2 & t2 & E2 & W2 & _ & G2 & _); [by exists c1|].
    rewrite E in E2. injection E2 as <-. rewrite (on_term_eq s0 i t _ Et) in E. change (con_at s0 i t) with (con_at s i t) in E.
    rewrite Eb, bind_ret in E. apply (inj Some) in E. subst s1. cbn [length con_at tm] in Etm.
    assert (t2 = tm c1) as ->.
    { cbn [terms put_con] in G2. rewrite arr_get_insert in G2 by (rewrite (ts_len _ Hs0); unfold TERM_NUM in Hi; lia).
      rewrite decide_True in G2 by done. by injection G2. }
    destruct (IH (tm c1) W2 Hi G2) as (t' & E' & Et' & Hcell); rewrite ?Etm; try done; [cbn; lia|].
    exists t'. split; [done|]. rewrite Etm in Et', Hcell. cbn [cur_x cur_y attr set_cursor] in *.
    split.
    { rewrite Et'. replace (cur_x t + Z.of_nat (length (b :: l))) with (cur_x t + Z.of_nat 1 + Z.of_nat (length l)) by (simpl; lia). by destruct t. }
    intros x y Hxx Hyy. rewrite Hcell by done.
    assert (Ecell : cell (con_at (put_con s0 i c1) i (set_cursor (cur_x t + 1) (cur_y t) t)) x y = cell c1 x y).
    { change (Z.of_nat 1) with 1 in Etm. unfold cell, con_at. cbn [tm vm put_con vmem]. by rewrite Etm. }
    change (Z.of_nat 1) with 1. rewrite Ecell, Hcells by done. cbn [con_at tm length].
    destruct (decide (y = cur_y t /\ cur_x t <= x)) as [D|D]; [|by rewrite decide_False by lia].
    destruct (decide (x = cur_x t)) as [->|Dx].
    + rewrite decide_False by lia. by rewrite Z.sub_diag.
    + rewrite decide_True by lia. replace (Z.to_nat (x - cur_x t)) with (S (Z.to_nat (x - (cur_x t + 1)))) by lia.
      cbn [lookup list_lookup]. done.
Qed.

(** ** A process as a machine *)

(** A process [c] that enters the kernel with the stack pointer [esp]; the
    [n]-th system call finds the environment [es n]. *)
Record process (es : nat -> env) (c esp : Z) := mkProcess { calls : nat; pk : kernel }.
Arguments mkProcess {es c esp}.
Arguments calls {es c esp}.
Arguments pk {es c esp}.

Section Machine.
Context {es : nat -> env} {c esp : Z}.
Abbreviation proc := (process es c esp).

Definition call (f : env -> kernel -> option (Z * kernel)) (s : proc) : option (Z * proc) :=
  '(r, k) ← f (es (calls s)) (pk s); Some (r, mkProcess (S (calls s)) k).

(** A started program runs in a process of its own: its run is no call of this
    machine. *)
#[export] Instance kernel_machine : Machine proc := {
  u_mem s := k_mem (pk s);
  u_set m s := mkProcess (calls s) (set_kmem m (pk s));
  u_read fd buf n := call (fun e => syscall_read e esp fd buf n);
  u_write fd buf n := call (fun e => syscall_write e esp fd buf n);
  u_open a := call (fun e => syscall_open e esp a);
  u_close fd := call (fun e => syscall_close e esp fd);
  u_getargs buf n := call (fun _ => syscall_getargs esp buf n);
  u_execute _ _ := None
}.

(** What directory entry [i] opens. *)
Definition entry_content (k : kernel) (i : Z) : content :=
  let d := dentry_of (k_mem k) (k_fs k) i in
  if decide (filetype d = FILE_TYPE_RTC) then Device
  else if decide (filetype d = FILE_TYPE_REG) then
    if decide (0 <= inode_num d < inode_count (k_mem k) (k_fs k)) then Regular (file_contents (k_mem k) (k_fs k) (inode_num d))
    else Device
  else Names (dentry_name (k_mem k) (k_fs k) <$> seqZ 0 (num_dentries (k_mem k) (k_fs k))).

(** What a descriptor has left. *)
Definition file_left (k : kernel) (f : FILE) : content :=
  match file_ops f with
  | fs_file_ops_table =>
      let size := file_size (k_mem k) (k_fs k) (f_inode f) in
      if decide (0 <= f_inode f < inode_count (k_mem k) (k_fs k) /\ 0 <= f_pos f <= size) then
        Regular (file_slice (k_mem k) (k_fs k) (f_inode f) (f_pos f) (size - f_pos f))
      else Device
  | fs_dir_ops_table =>
      let n := num_dentries (k_mem k) (k_fs k) in
      if decide (0 <= f_pos f <= n) then Names (dentry_name (k_mem k) (k_fs k) <$> seqZ (f_pos f) (n - f_pos f)) else Device
  | _ => Device
  end.

Definition pcb_of (k : kernel) : option PCB_t := k_pcbs k !! TASK_KSTACK_TOP c.
Definition terminal (k : kernel) : Z := default 0 (term_ind <$> pcb_of k).

(** Standard output is the terminal, and the arguments are a string. *)
Record pcb_ready (p : PCB_t) : Prop := {
  pr_stdout : exists f, arr_get (open_files p) 1 = Some f /\ f_used f <> 0 /\ file_ops f = stdout_file_ops_table;
  pr_args : exists a, cmd_args p = (fun a => a ++ [0]) <$> a /\
    forall l, a = Some l -> Forall (fun c => 0 < c < 256) l /\ (length l < 256)%nat
}.

Record process_ready (s : proc) : Prop := {
  rd_kernel : kernel_ok (pk s);
  rd_pid : 1 <= c < MAX_PROC_NUM;
  rd_stack : TASK_KSTACK_TOP c <= esp < TASK_KSTACK_BOT c;
  rd_used : pid_in_use (pk s) c;
  rd_env : forall n, length (filename (e_dentry (es n))) = 32%nat;
  rd_pcb : exists p, pcb_of (pk s) = Some p /\ pcb_ready p
}.

#[export] Instance kernel_observe : Observe proc := {
  ready := process_ready;
  shows l s s' := terminal (pk s') = terminal (pk s) /\ prints (terminal (pk s)) l (k_ts (pk s)) (k_ts (pk s'));
  args s := p ← pcb_of (pk s); (fun a => take (length a - 1) a) <$> cmd_args p;
  named s l := entry_content (pk s) <$> lookup_name (pk s) l;
  left s fd := p ← pcb_of (pk s); f ← arr_get (open_files p) fd;
    if decide (f_used f = 0) then None else Some (file_left (pk s) f);
  slots s := match pcb_of (pk s) with Some p => filter (fd_free p) (seqZ 2 6) | None => [] end;
  future _ := []
}.

(** *** The promises *)

(** A kernel that differs in memory outside the image, in the position and use
    of descriptors and in the terminals, has the same files. *)
Lemma same_files k k' : fs_wf (k_mem k) (k_fs k) -> k_fs k' = k_fs k -> image_kept (k_mem k) (k_fs k) (k_mem k') ->
  (forall l, lookup_name k' l = lookup_name k l) /\
  (forall l i, lookup_name k l = Some i -> entry_content k' i = entry_content k i) /\
  (forall f, file_left k' f = file_left k f).
Proof.
  intros Hwf Hfs HK. destruct (counts_kept _ _ Hwf _ HK) as [Ec _]. pose proof (num_dentries_kept _ _ Hwf _ HK) as En.
  assert (Hnames : forall a n, 0 <= a -> a + n <= num_dentries (k_mem k) (k_fs k) ->
    dentry_name (k_mem k') (k_fs k) <$> seqZ a n = dentry_name (k_mem k) (k_fs k) <$> seqZ a n).
  { intros a n Ha Hn. apply list_fmap_ext. intros j i E. apply lookup_seqZ in E. apply (dentry_name_kept _ _ Hwf); [done|lia]. }
  split; [by apply lookup_name_kept|]. split.
  - intros l i E. pose proof (lookup_name_range _ _ _ E) as Hi.
    unfold entry_content. rewrite Hfs, (dentry_of_kept _ _ Hwf (k_mem k') i HK Hi), Ec, En. cbv zeta.
    case_decide; [done|]. case_decide.
    + case_decide; [|done]. f_equal. by apply file_contents_kept.
    + by rewrite Hnames by lia.
  - intros f. unfold file_left. rewrite Hfs, Ec, En. destruct (file_ops f); try done.
    + cbv zeta. destruct (decide (0 <= f_inode f < inode_count (k_mem k) (k_fs k))) as [D|D].
      * rewrite (file_size_kept _ _ Hwf) by done. case_decide; [|done]. f_equal. apply (file_slice_kept _ _ Hwf); [done|done|lia|lia].
      * by rewrite !decide_False by tauto.
    + case_decide; [|done]. by rewrite Hnames by lia.
Qed.

(** A piece of a run, from what happens to the kernel and to the PCB. *)
Lemma process_step T F out (s s' : proc) p p' :
  process_ready s -> pcb_of (pk s) = Some p -> pcb_of (pk s') = Some p' ->
  kernel_ok (pk s') -> k_fs (pk s') = k_fs (pk s) -> image_kept (k_mem (pk s)) (k_fs (pk s)) (k_mem (pk s')) ->
  pid_used (pk s') = pid_used (pk s) -> cmd_args p' = cmd_args p -> term_ind p' = term_ind p -> ~ F 1 ->
  (forall fd, ~ F fd -> arr_get (open_files p') fd = arr_get (open_files p) fd) ->
  (forall a, user_address a -> ~ T a -> ld8 (k_mem (pk s')) a = ld8 (k_mem (pk s)) a) ->
  prints (term_ind p) out (k_ts (pk s)) (k_ts (pk s')) -> step T F out s s'.
Proof.
  intros [R1 R2 R3 R4 R5 (p0 & Ep0 & Hp0)] Ep Ep' Hk Hfs HK Hused Hargs Hterm H1 Hf Hm Hsh.
  rewrite Ep in Ep0. injection Ep0 as <-. destruct Hp0 as [(f & Ef & Hu & Ho) (a & Ea & Ha)].
  destruct (same_files (pk s) (pk s') (ko_fs _ R1) Hfs HK) as (Hl & He & Hleft). split.
  - split; try done; [by unfold pid_in_use; rewrite Hused|]. exists p'. split; [done|]. split.
    + exists f. by rewrite Hf.
    + exists a. by rewrite Hargs.
  - done.
  - cbn. by rewrite Ep, Ep', !bind_ret, Hargs.
  - intros l. cbn. rewrite Hl. destruct (lookup_name (pk s) l) as [i|] eqn:E; [|done]. cbn. f_equal. by eapply He.
  - intros fd Hfd. cbn. rewrite Ep, Ep', !bind_ret, (Hf fd Hfd). destruct (arr_get (open_files p) fd) as [g|]; [|done].
    rewrite !bind_ret. case_decide; [done|]. by rewrite Hleft.
  - done.
  - cbn. unfold terminal. rewrite Ep, Ep'. cbn. by rewrite Hterm.
Qed.

(** Memory changes below the image and at user addresses only. *)
Lemma image_below k (m : mem) (T : Z -> Prop) : kernel_ok k -> (forall a, T a -> a < 0x400000 \/ user_address a) ->
  (forall a, 0 <= a < 4294967296 -> ~ T a -> ld8 m a = ld8 (k_mem k) a) -> image_kept (k_mem k) (k_fs k) m.
Proof.
  intros Hk HT Hm a Ha. destruct (ko_image _ Hk) as [H1 H2]. pose proof (wf_end _ _ (ko_fs _ Hk)).
  unfold in_image, KSTACKS, MAX_PROC_NUM, TASK_KSTACK_TOP in *. apply Hm; [lia|]. intros HTa.
  destruct (HT a HTa) as [|Hu]; [lia|]. unfold user_address, TASK_VIRT_PAGE_BEG in Hu. lia.
Qed.

Lemma slot_eq (s : proc) p : pcb_of (pk s) = Some p -> slots s = filter (fd_free p) (seqZ 2 6) /\ slot s = lowest_free p.
Proof. intros Ep. unfold slot. cbn [slots kernel_observe]. by rewrite Ep. Qed.

Lemma slot_same (s s' : proc) p p' : pcb_of (pk s) = Some p -> pcb_of (pk s') = Some p' ->
  (forall fd, fd_free p' fd <-> fd_free p fd) -> slots s' = slots s.
Proof.
  intros Ep Ep' H. rewrite (proj1 (slot_eq s p Ep)), (proj1 (slot_eq s' p' Ep')). by apply list_filter_iff.
Qed.

Lemma set_spec (s : proc) m : process_ready s -> mem_ok m -> (forall a, ~ user_address a -> ld8 m a = ld8 (u_mem s) a) ->
  u_mem (u_set m s) = m /\ step user_address nowhere [] s (u_set m s) /\ slots (u_set m s) = slots s.
Proof.
  intros Hr Hm Ho. pose proof Hr as [R1 _ _ _ _ (p & Ep & Hp)]. split; [done|].
  assert (HK : image_kept (k_mem (pk s)) (k_fs (pk s)) m).
  { apply (image_below _ _ user_address R1); [by right|]. intros a _ Ha. by apply Ho. }
  split; [|done].
  assert (Ep' : pcb_of (pk (u_set m s)) = Some p) by (etrans; [|exact Ep]; reflexivity).
  apply (process_step _ _ _ s (u_set m s) p p Hr Ep Ep'); try done.
  - by apply set_kmem_ok.
  - by intros [].
  - apply prints_silent. split; [done|done|done|intros a _; apply Ho].
Qed.

Lemma write_spec (s : proc) buf n : process_ready s -> 0 <= n < 2147483648 -> user_address buf ->
  (forall a, region buf n a -> user_address a) ->
  exists s', u_write 1 buf n s = Some (n, s') /\ step nowhere nowhere (load_bytes (u_mem s) buf n) s s' /\ slots s' = slots s.
Proof.
  intros Hr Hn Hb0 Hbuf. pose proof Hr as [R1 R2 R3 R4 R5 (p & Ep & Hp)]. destruct Hp as [(f & Ef & Hu & Ho) _].
  pose proof (caller_file (pk s) c p 1 Ep) as Eg. rewrite Ef in Eg.
  destruct (ko_pcb _ R1 c ltac:(lia)) as (p0 & Ep0 & Hp0). unfold pcb_of in Ep. rewrite Ep in Ep0. injection Ep0 as <-.
  pose proof (ko_terms _ R1) as Ht.
  destruct (term_write_shown (k_ts (pk s)) (term_ind p) buf n Ht (pk_term _ Hp0) Hn Hbuf) as (ts & E & W & A & Hsh & _).
  assert (Epcbs : pcbs ts = k_pcbs (pk s)) by apply A.
  assert (Hmem : forall a, ~ (0xB8000 <= a < 0xBC000) -> ld8 (vmem ts) a = ld8 (k_mem (pk s)) a).
  { intros a Ha. apply A. pose proof (page_range (cur_term_ind (k_ts (pk s))) (term_ind p) (pk_term _ Hp0)). unfold on_page, VID_MEM_SIZE. lia. }
  exists (mkProcess (Datatypes.S (calls s)) (set_ts ts (pk s))).
  assert (Ep' : pcb_of (set_ts ts (pk s)) = Some p).
  { unfold pcb_of. change (k_pcbs (set_ts ts (pk s))) with (pcbs ts). by rewrite Epcbs. }
  split; [|split; [|by apply (slot_same s _ p p)]].
  - cbn [u_write kernel_machine]. unfold call, syscall_write. unfold user_address, TASK_VIRT_PAGE_BEG in Hb0.
    rewrite decide_False by lia. rewrite decide_False by (unfold TASK_MAX_FILES; lia). cbv zeta.
    rewrite (caller_eq c), Eg, bind_ret, decide_False by done. unfold file_write. rewrite Eg, bind_ret, Ho.
    unfold caller. by rewrite Ep, bind_ret, E, !bind_ret.
  - apply (process_step _ _ _ s (mkProcess (Datatypes.S (calls s)) (set_ts ts (pk s))) p p Hr Ep Ep'); try done.
    + by apply set_ts_ok.
    + apply (image_below _ _ (fun a => 0xB8000 <= a < 0xBC000) R1); [intros; lia|]. intros a _. apply Hmem.
    + by intros [].
    + intros a Ha _. apply Hmem. unfold user_address, TASK_VIRT_PAGE_BEG in Ha. lia.
Qed.

(** Nothing changes but the count of calls. *)
Lemma idle_step (s : proc) : process_ready s -> step nowhere nowhere [] s (mkProcess (Datatypes.S (calls s)) (pk s)).
Proof.
  intros Hr. pose proof Hr as [R1 _ _ _ _ (p & Ep & _)].
  apply (process_step _ _ _ s (mkProcess (Datatypes.S (calls s)) (pk s)) p p Hr Ep Ep); try done; [by intros []|constructor].
Qed.

Lemma getargs_step (s : proc) buf n : process_ready s -> 0 < n -> (forall a, region buf n a -> user_address a) ->
  exists r s', u_getargs buf n s = Some (r, s') /\ step (region buf n) nowhere [] s s' /\ slots s' = slots s /\
    match args s with
    | Some a => if decide (n < Z.of_nat (length a) + 1) then r = -1 else r = 0 /\ cstr (u_mem s') buf a
    | None => r = -1
    end.
Proof.
  intros Hr Hn Hbuf. pose proof Hr as [R1 R2 R3 R4 R5 (p & Ep & Hp)]. destruct Hp as [_ (a & Ea & Ha)].
  pose proof (Hbuf buf ltac:(unfold region; lia)) as Hu0. pose proof (Hbuf (buf + n - 1) ltac:(unfold region; lia)) as Hu1.
  unfold user_address, TASK_VIRT_PAGE_BEG, TASK_VIRT_PAGE_END in Hu0, Hu1.
  pose proof (getargs_spec (pk s) c esp p buf n a ltac:(lia) R3 Ep Ea Ha ltac:(lia) ltac:(lia)) as E.
  assert (Eargs : args s = a).
  { cbn. rewrite Ep, bind_ret, Ea. destruct a as [l|]; [|done]. cbn. f_equal. rewrite length_app. cbn [length].
    replace (length l + 1 - 1)%nat with (length l) by lia. by rewrite take_app_length. }
  assert (Hrefuse : syscall_getargs esp buf n (pk s) = Some (-1, pk s) ->
    u_getargs buf n s = Some (-1, mkProcess (Datatypes.S (calls s)) (pk s)) /\
    step (region buf n) nowhere [] s (mkProcess (Datatypes.S (calls s)) (pk s)) /\
    slot (mkProcess (Datatypes.S (calls s)) (pk s)) = slot s).
  { intros E1. cbn [u_getargs kernel_machine]. unfold call. rewrite E1, bind_ret. split; [done|]. split; [|done].
    apply step_quiet. by apply idle_step. }
  rewrite Eargs. destruct a as [l|]; [|eexists (-1), _; split; [by apply Hrefuse|]; split; [by apply Hrefuse|done]].
  destruct (decide (n < Z.of_nat (length l) + 1)) as [D|D];
    [eexists (-1), _; split; [by apply Hrefuse|]; split; [by apply Hrefuse|done]|].
  destruct (Ha l eq_refl) as [Hch _]. set (m := store_bytes (k_mem (pk s)) buf (l ++ [0])) in *.
  destruct (store_bytes_spec (l ++ [0]) (k_mem (pk s)) buf) as [Hb Hm]; [lia|rewrite length_app; cbn [length]; lia| |].
  { apply Forall_app. split; [|by repeat constructor]. eapply list.Forall_impl; [exact Hch|]. simpl. lia. }
  fold m in Hb, Hm. rewrite length_app in Hb, Hm. cbn [length] in Hb, Hm.
  replace (Z.of_nat (length l + 1)) with (Z.of_nat (length l) + 1) in Hb, Hm by lia.
  exists 0, (mkProcess (Datatypes.S (calls s)) (set_kmem m (pk s))). split; [|split; [|split; [done|split; [done|]]]].
  - cbn [u_getargs kernel_machine]. unfold call. by rewrite E, bind_ret.
  - assert (Ep' : pcb_of (set_kmem m (pk s)) = Some p) by (etrans; [|exact Ep]; reflexivity).
    assert (HK : image_kept (k_mem (pk s)) (k_fs (pk s)) m).
    { apply (image_below _ _ (region buf n) R1); [by right; apply Hbuf|]. intros a _ Hna. apply Hm. unfold region in *. lia. }
    apply (process_step _ _ _ s (mkProcess (Datatypes.S (calls s)) (set_kmem m (pk s))) p p Hr Ep Ep'); try done.
    + apply set_kmem_ok; [done|by apply mem_ok_store_bytes, (wf_mem _ _ (ko_fs _ R1))|exact HK].
    + by intros [].
    + intros a _ Hna. apply Hm. unfold region in *. lia.
    + apply prints_silent. split; [done|done|by apply mem_ok_store_bytes|]. intros a _ Hna. apply Hm. intros Hin. apply Hna, Hbuf. unfold region in *. lia.
  - apply loaded_cstr; [exact Hb|exact Hch|lia|lia].
Qed.

Lemma open_refused_step (s : proc) a l : process_ready s -> cstr (u_mem s) a l -> (named s l = None \/ slot s = None) ->
  exists s', u_open a s = Some (-1, s') /\ step nowhere nowhere [] s s' /\ slots s' = slots s.
Proof.
  intros Hr Hc Hno. pose proof Hr as [R1 R2 R3 R4 R5 (p & Ep & Hp)].
  exists (mkProcess (Datatypes.S (calls s)) (pk s)). split; [|split; [by apply idle_step|done]].
  assert (E : syscall_open (es (calls s)) esp a (pk s) = Some (-1, pk s)).
  { rewrite (proj2 (slot_eq s p Ep)) in Hno. cbn in Hno. destruct (lookup_name (pk s) l) as [i|] eqn:El.
    - destruct Hno as [Hno|Hno]; [done|]. by apply (syscall_open_full (es (calls s)) (pk s) c esp R1 R2 R3 (R5 _) a l i p).
    - by apply (syscall_open_none (es (calls s)) (pk s) esp R1 (R5 _) a l). }
  cbn [u_open kernel_machine]. unfold call. by rewrite E.
Qed.

(** The descriptors of a PCB after one was replaced. *)
Lemma put_get p fd f j : 0 <= fd < Z.of_nat (length (open_files p)) ->
  arr_get (open_files (with_open_files (<[Z.to_nat fd := f]> (open_files p)) p)) j = if decide (j = fd) then Some f else arr_get (open_files p) j.
Proof. intros Hfd. cbn [open_files with_open_files]. by apply arr_get_insert. Qed.

Lemma filter_same {A} (P P' : A -> Prop) `{forall x, Decision (P x), forall x, Decision (P' x)} (l : list A) :
  (forall y, y ∈ l -> P' y <-> P y) -> filter P' l = filter P l.
Proof.
  induction l as [|y l IH]; intros HP; [done|]. rewrite !filter_cons, IH by (intros z Hz; apply HP; by right).
  pose proof (HP y ltac:(by left)) as Hy. destruct (decide (P y)); [by rewrite decide_True by tauto|by rewrite decide_False by tauto].
Qed.

Lemma filter_without {A} (P P' : A -> Prop) `{forall x, Decision (P x), forall x, Decision (P' x)} (x : A) (l : list A) :
  head (filter P l) = Some x -> NoDup l -> (forall y, P' y <-> P y /\ y <> x) -> filter P' l = tail (filter P l).
Proof.
  intros Hx Hnd HP. induction l as [|y l IH]; [done|]. apply list.NoDup_cons in Hnd as [Hy Hnd].
  rewrite filter_cons in Hx |- *. rewrite filter_cons. pose proof (HP y) as Py. destruct (decide (P y)) as [D|D].
  - cbn [head tail] in *. injection Hx as ->. rewrite decide_False by (by intros [_ []]%Py).
    apply filter_same. intros z Hz. rewrite HP. split; [by intros [? _]|]. intros Hp. split; [exact Hp|]. by intros ->.
  - rewrite decide_False by tauto. by apply IH.
Qed.

Lemma opened_step (s : proc) a l ct fd : process_ready s -> cstr (u_mem s) a l -> named s l = Some ct -> ct <> Device -> slot s = Some fd ->
  2 <= fd /\ exists s', u_open a s = Some (fd, s') /\ step nowhere (only fd) [] s s' /\ left s fd = None /\ left s' fd = Some ct /\
    slots s' = tail (slots s).
Proof.
  intros Hr Hc Hn Hd Hs. pose proof Hr as [R1 R2 R3 R4 R5 (p & Ep & Hp)]. pose proof (ko_fs _ R1) as Hwf.
  rewrite (proj2 (slot_eq s p Ep)) in Hs. cbn in Hn. destruct (lookup_name (pk s) l) as [i|] eqn:El; [|done]. cbn in Hn. injection Hn as Hn.
  assert (Hrtc : filetype (dentry_of (k_mem (pk s)) (k_fs (pk s)) i) <> FILE_TYPE_RTC).
  { intros E. apply Hd. rewrite <- Hn. unfold entry_content. by rewrite decide_True. }
  destruct (lowest_free_in p fd Hs) as [Hfd Hff]. split; [lia|].
  destruct (syscall_open_file (es (calls s)) (pk s) c esp R1 R2 R3 (R5 _) a l i p fd Hc El Ep Hs Hrtc) as [E Hk].
  set (k' := set_kpcbs (put_file (k_pcbs (pk s)) (caller c) p fd (opened (pk s) i)) (pk s)) in *.
  exists (mkProcess (Datatypes.S (calls s)) k').
  destruct (ko_pcb _ R1 c ltac:(lia)) as (p0 & Ep0 & Hp0). unfold pcb_of in Ep. rewrite Ep in Ep0. injection Ep0 as <-.
  assert (Hlen : 0 <= fd < Z.of_nat (length (open_files p))) by (rewrite (pk_files _ Hp0); unfold TASK_MAX_FILES in *; lia).
  set (p' := with_open_files (<[Z.to_nat fd := opened (pk s) i]> (open_files p)) p).
  assert (Ep' : pcb_of k' = Some p') by apply lookup_insert_eq.
  split; [|split; [|split; [|split]]].
  - cbn [u_open kernel_machine]. unfold call. by rewrite E.
  - apply (process_step _ _ _ s (mkProcess (Datatypes.S (calls s)) k') p p' Hr Ep Ep'); try done.
    + unfold only. lia.
    + intros j Hj. subst p'. rewrite put_get by done. by rewrite decide_False.
    + apply prints_silent. by split.
  - cbn [left kernel_observe]. unfold pcb_of. rewrite Ep, bind_ret. unfold fd_free in Hff. destruct (arr_get (open_files p) fd) as [g|]; [|done].
    cbn in Hff. injection Hff as Hff. rewrite bind_ret. by rewrite decide_True.
  - cbn [left kernel_observe pk]. rewrite Ep', bind_ret. subst p'. rewrite put_get, decide_True, bind_ret by done.
    rewrite decide_False by done. f_equal. rewrite <- Hn. unfold file_left, entry_content, opened. cbn [file_ops f_inode f_pos].
    change (k_mem k') with (k_mem (pk s)). change (k_fs k') with (k_fs (pk s)). cbv zeta.
    rewrite (decide_False (P := filetype _ = FILE_TYPE_RTC)) by done.
    destruct (Z.eqb_spec (filetype (dentry_of (k_mem (pk s)) (k_fs (pk s)) i)) FILE_TYPE_REG) as [Et|Et].
    + rewrite (decide_True (P := filetype _ = FILE_TYPE_REG)) by done.
      set (ino := inode_num _). assert (0 <= file_size (k_mem (pk s)) (k_fs (pk s)) ino) by apply ld32_range, Hwf.
      destruct (decide (0 <= ino < inode_count (k_mem (pk s)) (k_fs (pk s)))) as [D|D].
      * rewrite decide_True by lia. unfold file_contents. by rewrite Z.sub_0_r.
      * by rewrite decide_False by tauto.
    + rewrite (decide_False (P := filetype _ = FILE_TYPE_REG)) by done. pose proof (num_dentries_small _ _ Hwf).
      rewrite decide_True by lia. by rewrite Z.sub_0_r.
  - rewrite (proj1 (slot_eq s p Ep)), (proj1 (slot_eq (mkProcess (Datatypes.S (calls s)) k') p' Ep')).
    apply (filter_without _ _ fd); [exact Hs|apply NoDup_seqZ|]. intros j. unfold fd_free. subst p'. rewrite put_get by done.
    case_decide as D; [subst j; split; [done|by intros [_ []]]|]. split; [by split|by intros [? _]].
Qed.

(** A file or directory is closed, and its descriptor is free again. *)
Lemma closed_step (s : proc) fd ct : process_ready s -> left s fd = Some ct -> ct <> Device -> 2 <= fd ->
  exists s', u_close fd s = Some (0, s') /\ step nowhere (only fd) [] s s' /\ left s' fd = None /\ slots s' <> [].
Proof.
  intros Hr Hl Hd H2. pose proof Hr as [R1 R2 R3 R4 R5 (p & Ep & Hp)].
  cbn in Hl. rewrite Ep, bind_ret in Hl. destruct (arr_get (open_files p) fd) as [f|] eqn:Ef; [|done]. rewrite bind_ret in Hl.
  destruct (decide (f_used f = 0)) as [|Hu]; [done|]. injection Hl as Hl.
  destruct (ko_pcb _ R1 c ltac:(lia)) as (p0 & Ep0 & Hp0). unfold pcb_of in Ep. rewrite Ep in Ep0. injection Ep0 as <-.
  assert (Hfd : 0 <= fd < TASK_MAX_FILES).
  { unfold arr_get in Ef. case_decide; [|done]. apply lookup_lt_Some in Ef. rewrite (pk_files _ Hp0) in Ef. unfold TASK_MAX_FILES in *. lia. }
  assert (Hops : file_ops f = fs_file_ops_table \/ file_ops f = fs_dir_ops_table).
  { unfold file_left in Hl. destruct (file_ops f); auto; by subst ct. }
  pose proof (syscall_close_spec (es (calls s)) (pk s) c esp R1 R2 R3 R4 (R5 _) p fd f Ep Hfd Ef Hu) as Hclose.
  rewrite decide_False in Hclose by (by intros [E|E]; rewrite E in Hops; destruct Hops).
  destruct Hclose as (g & E & _ & Hg & Hk). specialize (Hg ltac:(by intros X; rewrite X in Hops; destruct Hops)). subst g.
  set (k' := with_files _ _ _) in *. set (s' := mkProcess (Datatypes.S (calls s)) k' : proc).
  set (p' := with_open_files (<[Z.to_nat fd := with_used 0 f]> (open_files p)) p).
  assert (Ep' : pcb_of k' = Some p') by apply lookup_insert_eq.
  assert (Hlen : 0 <= fd < Z.of_nat (length (open_files p))) by (rewrite (pk_files _ Hp0); unfold TASK_MAX_FILES in *; lia).
  exists s'. split; [|split; [|split]].
  - cbn [u_close kernel_machine]. unfold call. by rewrite E.
  - apply (process_step _ _ _ s s' p p' Hr Ep Ep'); try done.
    + unfold only. lia.
    + intros j Hj. subst p'. rewrite put_get by done. by rewrite decide_False.
    + apply prints_silent. by split.
  - cbn [left kernel_observe pk s']. rewrite Ep', bind_ret. subst p'. rewrite put_get, decide_True, bind_ret by done. done.
  - rewrite (proj1 (slot_eq s' p' Ep')). intros Enil.
    assert (Hin : fd ∈ filter (fd_free p') (seqZ 2 6)).
    { apply list_elem_of_filter. split; [|apply elem_of_seqZ; unfold TASK_MAX_FILES in Hfd; lia].
      unfold fd_free. subst p'. rewrite put_get, decide_True by done. done. }
    rewrite Enil in Hin. by apply elem_of_nil in Hin.
Qed.

(** A slice of a file taken apart as a read does. *)
Lemma slice_chunk m g i off len n : 0 <= len -> 0 <= n -> let r := Z.min n len in
  take (Z.to_nat n) (file_slice m g i off len) = file_slice m g i off r /\
  drop (Z.to_nat n) (file_slice m g i off len) = file_slice m g i (off + r) (len - r).
Proof.
  intros Hl Hn r. assert (Hlen : forall a b, 0 <= b -> length (file_slice m g i a b) = Z.to_nat b).
  { intros a b Hb. unfold file_slice. by rewrite length_map, length_seqZ. }
  replace len with (r + (len - r)) at 1 2 by lia. rewrite file_slice_app by lia.
  destruct (decide (n <= len)) as [D|D].
  - assert (Er : length (file_slice m g i off r) = Z.to_nat n) by (rewrite Hlen by lia; lia).
    rewrite <- Er. by rewrite take_app_length, drop_app_length.
  - assert (Er : len - r = 0) by lia. rewrite Er. change (file_slice m g i (off + r) 0) with (@nil Z). rewrite app_nil_r.
    rewrite take_ge, drop_ge by (rewrite Hlen by lia; lia). done.
Qed.

(** A descriptor whose position advanced, in the observations. *)
Lemma advanced_step (s : proc) fd buf n f pos m p :
  process_ready s -> pcb_of (pk s) = Some p -> arr_get (open_files p) fd = Some f -> f_used f <> 0 -> fd <> 1 ->
  (forall a, region buf n a -> user_address a) -> image_kept (k_mem (pk s)) (k_fs (pk s)) m ->
  (forall x, 0 <= x < 4294967296 -> ~ region buf n x -> ld8 m x = ld8 (k_mem (pk s)) x) ->
  let k' := set_kpcbs (put_file (k_pcbs (pk s)) (TASK_KSTACK_TOP c) p fd (with_pos pos f)) (set_kmem m (pk s)) in
  kernel_ok k' ->
  let s' := mkProcess (Datatypes.S (calls s)) k' in
  step (region buf n) (only fd) [] s s' /\ slots s' = slots s /\ left s' fd = Some (file_left (pk s) (with_pos pos f)).
Proof.
  intros Hr Ep Ef Hu Hne Hbuf HK Hm k' Hk' s'. pose proof Hr as [R1 R2 R3 R4 R5 _].
  assert (Hfd : 0 <= fd < Z.of_nat (length (open_files p))).
  { unfold arr_get in Ef. case_decide; [|done]. apply lookup_lt_Some in Ef. lia. }
  set (p' := with_open_files (<[Z.to_nat fd := with_pos pos f]> (open_files p)) p).
  assert (Ep' : pcb_of k' = Some p') by apply lookup_insert_eq.
  assert (Hget : forall j, arr_get (open_files p') j = if decide (j = fd) then Some (with_pos pos f) else arr_get (open_files p) j)
    by (intros j; by apply put_get).
  split; [|split].
  - apply (process_step _ _ _ s s' p p' Hr Ep Ep'); try done.
    + unfold only. lia.
    + intros j Hj. rewrite Hget. by rewrite decide_False.
    + intros a Ha Hna. apply Hm; [|done]. unfold user_address, TASK_VIRT_PAGE_BEG, TASK_VIRT_PAGE_END in Ha. lia.
    + apply prints_silent. split; [done|done|intros _; apply (wf_mem _ _ (ko_fs _ Hk'))|]. intros a Ha Hna. apply Hm; [done|]. intros Hin. by apply Hna, Hbuf.
  - apply (slot_same s s' p p' Ep Ep'). intros j. unfold fd_free. rewrite Hget. case_decide as D; [|done]. subst j. by rewrite Ef.
  - cbn [left kernel_observe pk s']. rewrite Ep', bind_ret, Hget, decide_True, bind_ret by done. rewrite decide_False by done.
    f_equal. by apply (same_files (pk s) k' (ko_fs _ R1)).
Qed.

Lemma read_step (s : proc) fd buf n ct : process_ready s -> left s fd = Some ct -> room n ct ->
  (forall a, region buf n a -> user_address a) ->
  let k := Z.of_nat (length (chunk n ct)) in
  k <= n /\ exists s', u_read fd buf n s = Some (k, s') /\ step (region buf n) (only fd) [] s s' /\ slots s' = slots s /\
    load_bytes (u_mem s') buf k = chunk n ct /\ left s' fd = Some (rest n ct).
Proof.
  intros Hr Hl Hroom Hbuf k. pose proof Hr as [R1 R2 R3 R4 R5 (p & Ep & Hp)]. pose proof (ko_fs _ R1) as Hwf.
  cbn in Hl. rewrite Ep, bind_ret in Hl. destruct (arr_get (open_files p) fd) as [f|] eqn:Ef; [|done]. rewrite bind_ret in Hl.
  destruct (decide (f_used f = 0)) as [|Hu]; [done|]. injection Hl as Hl.
  destruct (ko_pcb _ R1 c ltac:(lia)) as (p0 & Ep0 & Hp0). unfold pcb_of in Ep. rewrite Ep in Ep0. injection Ep0 as <-.
  assert (Hfd : 0 <= fd < TASK_MAX_FILES).
  { unfold arr_get in Ef. case_decide; [|done]. apply lookup_lt_Some in Ef. rewrite (pk_files _ Hp0) in Ef. unfold TASK_MAX_FILES in *. lia. }
  assert (Hne : fd <> 1).
  { intros ->. destruct Hp as [(f1 & Ef1 & _ & Ho1) _]. rewrite Ef in Ef1. injection Ef1 as <-. unfold file_left in Hl. rewrite Ho1 in Hl. by subst ct. }
  unfold file_left in Hl. destruct (file_ops f) eqn:Ho; try (by subst ct).
  - cbv zeta in Hl. set (size := file_size (k_mem (pk s)) (k_fs (pk s)) (f_inode f)) in *.
    destruct (decide (0 <= f_inode f < inode_count (k_mem (pk s)) (k_fs (pk s)) /\ 0 <= f_pos f <= size)) as [[D1 D2]|D]; [|by subst ct].
    subst ct. cbn [room chunk rest] in *. pose proof (wf_size _ _ Hwf _ D1) as Hsz. fold size in Hsz. unfold BLOCK_SIZE, MAX_BLOCK_NUM in Hsz.
    destruct (slice_chunk (k_mem (pk s)) (k_fs (pk s)) (f_inode f) (f_pos f) (size - f_pos f) n ltac:(lia) ltac:(lia)) as [Htake Hdrop].
    set (r := Z.min n (size - f_pos f)) in *. subst k. rewrite Htake, Hdrop.
    destruct (syscall_read_file (es (calls s)) (pk s) c esp R1 R2 R3 (R5 _) p fd f buf n Ep Hfd Ef Hu Ho) as (m & E & L & Hm & Hk');
      [lia|lia|lia|lia|lia|exact Hbuf|].
    assert (Er : read_len (k_mem (pk s)) (k_fs (pk s)) (f_inode f) (f_pos f) n = r).
    { unfold read_len. rewrite decide_True by done. fold size. lia. }
    rewrite Er in E, L, Hm, Hk'.
    assert (Hlen : Z.of_nat (length (file_slice (k_mem (pk s)) (k_fs (pk s)) (f_inode f) (f_pos f) r)) = r).
    { unfold file_slice. rewrite length_map, length_seqZ. lia. }
    rewrite Hlen. split; [lia|].
    assert (Hm' : forall x, ~ region buf n x -> ld8 m x = ld8 (k_mem (pk s)) x) by (intros x Hx; apply Hm; unfold region in Hx; lia).
    destruct (advanced_step s fd buf n f (f_pos f + r) m p Hr Ep Ef Hu Hne Hbuf) as (Hs & Hsl & Hleft); try done.
    + apply (image_below _ _ (region buf n) R1); [by right; apply Hbuf|]. intros a _. apply Hm'.
    + intros x _. apply Hm'.
    + eexists. split; [cbn [u_read kernel_machine]; unfold call; by rewrite E|]. split; [exact Hs|]. split; [exact Hsl|]. split; [exact L|].
      etrans; [exact Hleft|]. f_equal. unfold file_left. cbn [file_ops with_pos f_inode f_pos]. rewrite Ho. cbv zeta. fold size.
      rewrite decide_True by lia. do 2 f_equal. lia.
  - cbv zeta in Hl. set (nd := num_dentries (k_mem (pk s)) (k_fs (pk s))) in *.
    destruct (decide (0 <= f_pos f <= nd)) as [D|D]; [|by subst ct]. subst ct. cbn [room] in Hroom.
    destruct (syscall_read_dir (es (calls s)) (pk s) c esp R1 R2 R3 (R5 _) p fd f buf n Ep Hfd Ef Hu Ho D) as (m & E & L & Hm & Hk' & HK).
    { intros a Ha. apply Hbuf. unfold region. lia. }
    fold nd in E, L, Hk'. set (name := if decide (f_pos f = nd) then [] else _) in *. set (pos := Z.min (f_pos f + 1) nd) in *.
    set (names := dentry_name (k_mem (pk s)) (k_fs (pk s)) <$> seqZ (f_pos f) (nd - f_pos f)) in *.
    assert (Hch : chunk n (Names names) = name /\ rest n (Names names) = Names (dentry_name (k_mem (pk s)) (k_fs (pk s)) <$> seqZ pos (nd - pos))).
    { subst names name pos. destruct (decide (f_pos f = nd)) as [D1|D1].
      - rewrite !seqZ_nil by lia. done.
      - rewrite seqZ_cons by lia. cbn [fmap list_fmap chunk rest]. split; [done|]. do 3 f_equal; lia. }
    destruct Hch as [Hc1 Hc2]. subst k. rewrite Hc1, Hc2. split.
    { subst name. case_decide; [simpl; lia|]. pose proof (dentry_name_length (k_mem (pk s)) (k_fs (pk s)) (f_pos f)). lia. }
    assert (H32 : forall x, 0 <= x < 4294967296 -> ~ region buf n x -> ld8 m x = ld8 (k_mem (pk s)) x).
    { intros x Hx Hnx. apply Hm; [done|]. unfold region in Hnx. lia. }
    destruct (advanced_step s fd buf n f pos m p Hr Ep Ef Hu Hne Hbuf HK H32 Hk') as (Hs & Hsl & Hleft).
    eexists. split; [cbn [u_read kernel_machine]; unfold call; by rewrite E|]. split; [exact Hs|]. split; [exact Hsl|]. split; [exact L|].
    etrans; [exact Hleft|]. f_equal. unfold file_left. cbn [file_ops with_pos f_pos]. rewrite Ho. cbv zeta. fold nd.
    rewrite decide_True by lia. done.
Qed.

(** The kernel keeps its promises. *)
#[export] Instance kernel_promises : Promises proc.
Proof.
  split.
  - intros s Hr. apply (wf_mem _ _ (ko_fs _ (rd_kernel _ Hr))).
  - intros s m. apply set_spec.
  - intros s. split; [done|constructor].
  - intros l1 l2 s1 s2 s3 [E1 H1] [E2 H2]. split; [by rewrite E2|]. eapply prints_app; [exact H1|]. by rewrite <- E1.
  - intros s buf n. apply write_spec.
  - intros s buf n. apply getargs_step.
  - intros s a l. apply open_refused_step.
  - intros s a l ct fd. apply opened_step.
  - intros s fd ct. apply closed_step.
  - intros s fd buf n ct. apply read_step.
Qed.
End Machine.

(** ** Properties *)

(** Text that is plain and fits the row: it stands in the cells from the cursor
    on, in the terminal's colours, every other cell is as it was, and the cursor
    is behind it. *)
Definition on_screen (i : Z) (l : list Z) (s s' : tstate) : Prop :=
  forall t, arr_get (terms s) i = Some t -> esc_state t = IDLE -> Forall printable l ->
    cur_x t + Z.of_nat (length l) < NUM_COLS ->
    exists t', arr_get (terms s') i = Some t' /\ t' = set_cursor (cur_x t + Z.of_nat (length l)) (cur_y t) t /\
      forall x y, 0 <= x < NUM_COLS -> 0 <= y < NUM_ROWS ->
        cell (con_at s' i t') x y =
        match (if decide (y = cur_y t /\ cur_x t <= x) then l !! Z.to_nat (x - cur_x t) else None) with
        | Some ch => (ch, attr t)
        | None => cell (con_at s i t) x y
        end.

Section Claims.
Context {es : nat -> env} {c esp : Z}.
Abbreviation proc := (process es c esp).

Lemma process_pcb_ok (s : proc) p : process_ready s -> @pcb_of c (pk s) = Some p -> pcb_ok p.
Proof.
  intros [R1 R2 _ _ _ _] Ep. destruct (ko_pcb _ R1 c ltac:(lia)) as (p0 & Ep0 & Hp0). unfold pcb_of in Ep. rewrite Ep in Ep0. by injection Ep0 as <-.
Qed.

Lemma step_screen T F l (s s' : proc) p : process_ready s -> @pcb_of c (pk s) = Some p -> step T F l s s' ->
  kernel_ok (pk s') /\ prints (term_ind p) l (k_ts (pk s)) (k_ts (pk s')) /\ on_screen (term_ind p) l (k_ts (pk s)) (k_ts (pk s')).
Proof.
  intros Hr Ep Hs. pose proof (st_ready _ _ _ _ _ Hs) as Hr'. destruct (st_shows _ _ _ _ _ Hs) as [_ Hsh].
  unfold terminal in Hsh. rewrite Ep in Hsh. cbn [fmap option_fmap option_map default] in Hsh.
  split; [apply (rd_kernel _ Hr')|]. split; [exact Hsh|]. intros t Et.
  apply (prints_screen _ _ _ _ Hsh); [apply (ko_terms _ (rd_kernel _ Hr))|apply (pk_term _ (process_pcb_ok s p Hr Ep))|exact Et].
Qed.

(** Every file and directory can be read to its end. *)
Lemma named_weight (s : proc) l ct : process_ready s -> named s l = Some ct -> weight ct < Z.pos FUEL.
Proof.
  intros Hr. pose proof (ko_fs _ (rd_kernel _ Hr)) as Hwf. cbn. destruct (lookup_name (pk s) l) as [i|]; [|done].
  cbn. intros [= <-]. unfold entry_content. cbv zeta. case_decide; [done|]. case_decide.
  - case_decide as D; [|done]. cbn [weight]. rewrite (file_contents_length _ _ _ (wf_mem _ _ Hwf)).
    pose proof (wf_size _ _ Hwf _ D). unfold BLOCK_SIZE, MAX_BLOCK_NUM in *. unfold FUEL. lia.
  - cbn [weight]. rewrite length_fmap, length_seqZ. pose proof (num_dentries_small _ _ Hwf). unfold FUEL. lia.
Qed.

Lemma process_args (s : proc) p l : @pcb_of c (pk s) = Some p -> cmd_args p = Some (l ++ [0]) -> args s = Some l.
Proof.
  intros Ep Ea. cbn. rewrite Ep, bind_ret, Ea. cbn. f_equal. rewrite length_app. cbn [length].
  replace (length l + 1 - 1)%nat with (length l) by lia. by rewrite take_app_length.
Qed.
End Claims.

Lemma until_empty_all l : Forall (fun x => x <> []) l -> until_empty l = l.
Proof. induction 1 as [|x names Hx _ IH]; [done|]. destruct x; [done|]. cbn. by rewrite IH. Qed.

(** C9: The program cat, run as a process of the kernel whose argument is the
    name of a regular file, writes exactly the contents of the file to the
    process's terminal and ends with status 0; plain text that fits the row
    stands on the screen from the cursor on.  For a name that is not in the
    directory it says so and ends with status 2.  The kernel's invariant
    holds at the end. *)
Theorem cat_prints_file (es : nat -> env) (c esp : Z) (lit : string -> Z) (buf : Z) (s : process es c esp) (p : PCB_t) (l : list Z) (fd : Z) :
  process_ready s -> (forall a, region buf 1024 a -> user_address a) ->
  placed lit (region buf 1024) s (line "could not read arguments") -> placed lit (region buf 1024) s (line "file not found") ->
  k_pcbs (pk s) !! TASK_KSTACK_TOP c = Some p -> cmd_args p = Some (l ++ [0]) -> Z.of_nat (length l) < 1024 ->
  lowest_free p = Some fd ->
  match lookup_name (pk s) l with
  | Some i =>
      let d := dentry_of (k_mem (pk s)) (k_fs (pk s)) i in
      let data := file_contents (k_mem (pk s)) (k_fs (pk s)) (inode_num d) in
      filetype d = FILE_TYPE_REG -> 0 <= inode_num d < inode_count (k_mem (pk s)) (k_fs (pk s)) ->
      exists s', cat lit buf s = Some (0, s') /\ kernel_ok (pk s') /\
        prints (term_ind p) data (k_ts (pk s)) (k_ts (pk s')) /\ on_screen (term_ind p) data (k_ts (pk s)) (k_ts (pk s'))
  | None =>
      exists s', cat lit buf s = Some (2, s') /\ kernel_ok (pk s') /\
        prints (term_ind p) (codes (line "file not found")) (k_ts (pk s)) (k_ts (pk s'))
  end.
Proof.
  intros Hr Hbuf Ht1 Ht2 Ep Ea Hlen Hfree. pose proof (process_args s p l Ep Ea) as Eargs.
  assert (Eslot : slot s = Some fd) by (etrans; [apply (slot_eq s p Ep)|exact Hfree]).
  pose proof (fun r out => cat_runs lit buf Hbuf s r out Hr Ht1 Ht2 (fun l' ct => named_weight s l' ct Hr)) as Hcat.
  unfold cat_spec in Hcat. rewrite Eargs, decide_False, Eslot in Hcat by lia. cbn [named kernel_observe] in Hcat.
  destruct (lookup_name (pk s) l) as [i|]; cbn [fmap option_fmap option_map] in Hcat.
  - intros d data Ht Hi. unfold entry_content in Hcat. fold d in Hcat. cbv zeta in Hcat.
    rewrite decide_False, !decide_True in Hcat by (done || by rewrite Ht).
    destruct (Hcat 0 data eq_refl) as (s' & E & Hs). exists s'. split; [exact E|]. by apply (step_screen _ _ _ s s' p Hr Ep Hs).
  - destruct (Hcat 2 _ eq_refl) as (s' & E & Hs). exists s'. split; [exact E|].
    destruct (step_screen _ _ _ s s' p Hr Ep Hs) as (H1 & H2 & _). done.
Qed.

(** C23: The program ls, run as a process of the kernel, writes the names of the
    directory's entries to the process's terminal, each on a line of its own and
    in the order of the boot block, and ends with status 0. *)
Theorem ls_lists_directory (es : nat -> env) (c esp : Z) (lit : string -> Z) (buf : Z) (s : process es c esp) (p : PCB_t) (i fd : Z) :
  process_ready s -> (forall a, region buf 33 a -> user_address a) ->
  placed lit (region buf 33) s "." -> placed lit (region buf 33) s (line "directory open failed") ->
  k_pcbs (pk s) !! TASK_KSTACK_TOP c = Some p -> lowest_free p = Some fd ->
  lookup_name (pk s) (codes ".") = Some i -> filetype (dentry_of (k_mem (pk s)) (k_fs (pk s)) i) = FILE_TYPE_DIR ->
  (forall j, 0 <= j < num_dentries (k_mem (pk s)) (k_fs (pk s)) -> dentry_name (k_mem (pk s)) (k_fs (pk s)) j <> []) ->
  exists s', ls lit buf s = Some (0, s') /\ kernel_ok (pk s') /\
    prints (term_ind p) (concat ((fun x => x ++ [10]) <$> (dentry_name (k_mem (pk s)) (k_fs (pk s)) <$>
        seqZ 0 (num_dentries (k_mem (pk s)) (k_fs (pk s)))))) (k_ts (pk s)) (k_ts (pk s')).
Proof.
  intros Hr Hbuf Ht1 Ht2 Ep Hfree Hdot Ht Hne.
  assert (Eslot : slot s = Some fd) by (etrans; [apply (slot_eq s p Ep)|exact Hfree]).
  pose proof (ls_runs lit buf Hbuf s Hr Ht1 Ht2) as Hls. cbn [named kernel_observe] in Hls. rewrite Hdot, Eslot in Hls.
  cbn [fmap option_fmap option_map] in Hls. unfold entry_content in Hls. cbv zeta in Hls.
  rewrite !decide_False in Hls by (rewrite Ht; done).
  destruct Hls as (s' & E & Hs).
  { pose proof (named_weight s (codes ".") _ Hr ltac:(cbn [named kernel_observe]; rewrite Hdot; reflexivity)) as Hw.
    unfold entry_content in Hw. cbv zeta in Hw. by rewrite !decide_False in Hw by (rewrite Ht; done). }
  exists s'. split; [exact E|]. destruct (step_screen _ _ _ s s' p Hr Ep Hs) as (H1 & H2 & _). split; [exact H1|].
  unfold listing in H2. rewrite until_empty_all in H2; [exact H2|]. apply list.Forall_forall. intros x Hx.
  apply list_elem_of_fmap in Hx as (j & -> & Hj). apply elem_of_seqZ in Hj. apply Hne. lia.
Qed.

(** The text of the file a name stands for. *)
Definition text_named (k : kernel) (x : list Z) : list Z :=
  match lookup_name k x with Some i => file_contents (k_mem k) (k_fs k) (inode_num (dentry_of (k_mem k) (k_fs k) i)) | None => [] end.

(** A name of the directory that grep skips, or that of a text file. *)
Definition greppable (k : kernel) (x : list Z) : Prop :=
  hidden x = true \/
  exists i, lookup_name k x = Some i /\ filetype (dentry_of (k_mem k) (k_fs k) i) = FILE_TYPE_REG /\
    0 <= inode_num (dentry_of (k_mem k) (k_fs k) i) < inode_count (k_mem k) (k_fs k) /\
    chars (text_named k x) /\ short (text_named k x).

Definition directory (k : kernel) : list (list Z) := dentry_name (k_mem k) (k_fs k) <$> seqZ 0 (num_dentries (k_mem k) (k_fs k)).

Lemma greppable_searchable {es c esp} (s : process es c esp) x : process_ready s -> chars x -> greppable (pk s) x ->
  searchable s x /\ (hidden x = false -> contents s x = text_named (pk s) x).
Proof.
  intros Hr Hx [Hh|(i & El & Ht & Hi & Hc & Hs)]; [split; [by left|congruence]|].
  assert (En : named s x = Some (Regular (text_named (pk s) x))).
  { cbn [named kernel_observe]. unfold text_named. rewrite El. cbn [fmap option_fmap option_map]. unfold entry_content. cbv zeta.
    by rewrite decide_False, !decide_True by (done || by rewrite Ht). }
  split; [|intros _; unfold contents; by rewrite En]. right. split; [exact Hx|]. exists (text_named (pk s) x). split; [exact En|].
  split; [exact Hc|]. split; [exact Hs|]. exact (named_weight s x _ Hr En).
Qed.

(** C16: The program grep, run as a process of the kernel in a directory of text
    files with lines of at most 1024 characters, writes for each file in the
    order of the directory, and for each of its lines in order that contains
    the string, the file's name, a colon and the line, provided the string starts
    with a character below 128 (a string that starts with another is found
    nowhere, the program compares it as a signed [char]); names that start with a
    point are skipped.  A line cut by the end of the buffer, or not ended at the
    end of the file, is found as any other.  It ends with status 0 with the
    kernel's invariant. *)
Theorem grep_finds_lines (es : nat -> env) (c esp : Z) (lit : string -> Z) (search buf data : Z) (s : process es c esp) (p : PCB_t)
    (w : list Z) (i fd : Z) (fds : list Z) :
  process_ready s -> (forall a, arrays search buf data a -> user_address a) ->
  search + 1024 <= buf \/ buf + 33 <= search -> search + 1024 <= data \/ data + 1025 <= search -> buf + 33 <= data \/ data + 1025 <= buf ->
  Forall (placed lit (arrays search buf data) s) ["."; ":"; line ""]%string ->
  k_pcbs (pk s) !! TASK_KSTACK_TOP c = Some p -> cmd_args p = Some (w ++ [0]) -> Z.of_nat (length w) < 1024 ->
  filter (fd_free p) (seqZ 2 6) = fd :: fds -> fds <> [] ->
  lookup_name (pk s) (codes ".") = Some i -> filetype (dentry_of (k_mem (pk s)) (k_fs (pk s)) i) = FILE_TYPE_DIR ->
  Forall (fun x => x <> [] /\ greppable (pk s) x) (directory (pk s)) -> ld8 (k_mem (pk s)) (data + 1024) <> 10 ->
  exists s', grep lit search buf data s = Some (0, s') /\ kernel_ok (pk s') /\
    prints (term_ind p) (concat ((fun x => if hidden x then [] else reports w x (text_named (pk s) x)) <$> directory (pk s)))
      (k_ts (pk s)) (k_ts (pk s')).
Proof.
  intros Hr Hu H1 H2 H3 Ht Ep Ea Hw Hfree Hfds Hdot Hdir Hok Hl. rewrite !list.Forall_cons in Ht. destruct Ht as (Ht1 & Ht2 & Ht3 & _).
  assert (Hnames : Forall (fun x => searchable s x /\ (hidden x = false -> contents s x = text_named (pk s) x)) (directory (pk s))).
  { apply list.Forall_forall. intros x Hx. apply greppable_searchable; [exact Hr| |by apply (proj1 (list.Forall_forall _ _) Hok)].
    apply list_elem_of_fmap in Hx as (j & -> & Hj). apply elem_of_seqZ in Hj. apply (dentry_name_chars _ _ (ko_fs _ (rd_kernel _ Hr))). lia. }
  assert (Enamed : named s (codes ".") = Some (Names (directory (pk s)))).
  { cbn [named kernel_observe]. rewrite Hdot. cbn [fmap option_fmap option_map]. unfold entry_content. cbv zeta.
    by rewrite !decide_False by (rewrite Hdir; done). }
  assert (Eu : until_empty (directory (pk s)) = directory (pk s)).
  { apply until_empty_all. eapply list.Forall_impl; [exact Hok|]. by intros x [? _]. }
  destruct (grep_runs (PS := kernel_promises) lit search buf data (fun a Ha => Hu a (or_introl Ha)) (fun a Ha => Hu a (or_intror (or_introl Ha)))
    (fun a Ha => Hu a (or_intror (or_intror Ha))) H1 H2 H3 s w (directory (pk s)) fd fds Hr Ht1 Ht2 Ht3 (process_args s p w Ep Ea) Hw Enamed)
    as (s' & E & Hs); [etrans; [apply (slot_eq s p Ep)|exact Hfree]|exact Hfds| |exact (named_weight s _ _ Hr Enamed)|exact Hl|].
  { rewrite Eu. eapply list.Forall_impl; [exact Hnames|]. by intros x [? _]. }
  exists s'. split; [exact E|]. destruct (step_screen _ _ _ s s' p Hr Ep Hs) as (K1 & K2 & _). split; [exact K1|].
  unfold matches in K2. rewrite Eu in K2.
  rewrite (list_fmap_ext _ (fun x => if hidden x then [] else reports w x (text_named (pk s) x))) in K2; [exact K2|].
  intros j x Ex. pose proof (proj1 (list.Forall_lookup _ _) Hnames _ _ Ex) as [_ Hc]. destruct (hidden x); [done|]. by rewrite Hc.
Qed.

(** ** A concrete run *)

(** The literals lie in the user page. *)
Definition in_page (base : Z) (ts : list string) : Prop :=
  Forall (fun t => TASK_VIRT_PAGE_BEG <= layout base ts t /\ layout base ts t + Z.of_nat (length (codes t)) < TASK_VIRT_PAGE_END) ts.

Lemma literals_outside base ts m a : ~ user_address a -> in_page base ts ->
  ld8 (literals base ts m) a = ld8 m a.
Proof.
  intros Ha. unfold literals, in_page. generalize ts at 3 5 as us. induction us as [|t us IH]; intros Hu; [done|].
  apply list.Forall_cons in Hu as [Ht Hu]. cbn [foldr]. rewrite <- IH by done. set (m1 := foldr _ m us).
  unfold TASK_VIRT_PAGE_BEG, TASK_VIRT_PAGE_END in Ht.
  assert (Hc : Forall (fun c => 0 <= c < 256) (codes t ++ [0])).
  { apply Forall_app. split; [|by repeat constructor]. unfold codes. apply Forall_map, list.Forall_forall. intros x _.
    pose proof (Ascii.N_ascii_bounded x). cbn. lia. }
  destruct (store_bytes_spec (codes t ++ [0]) m1 (layout base ts t)) as [_ Hm]; [lia|rewrite length_app; cbn [length]; lia|exact Hc|].
  apply Hm. rewrite length_app. cbn [length]. intros Hin. apply Ha.
  unfold user_address, TASK_VIRT_PAGE_BEG, TASK_VIRT_PAGE_END, region in *. lia.
Qed.

(** They leave the disk as it is. *)
Lemma literals_disk ts disk : fs_wf disk demo_fs -> 0x500000 + image_size disk demo_fs <= KSTACKS -> in_page 0x8300000 ts ->
  fs_wf (literals 0x8300000 ts disk) demo_fs /\ 0x500000 + image_size (literals 0x8300000 ts disk) demo_fs <= KSTACKS.
Proof.
  intros Hwf Hsize Hts.
  assert (HK : image_kept disk demo_fs (literals 0x8300000 ts disk)).
  { intros a Ha. apply literals_outside; [|exact Hts]. intros Hu.
    assert (a < 0x500000 + image_size disk demo_fs) by apply Ha.
    unfold user_address, TASK_VIRT_PAGE_BEG, KSTACKS, TASK_KSTACK_TOP, MAX_PROC_NUM in *. lia. }
  assert (Hm : mem_ok (literals 0x8300000 ts disk)).
  { unfold literals. clear -Hwf. generalize ts at 2 as us. induction us; [apply (wf_mem _ _ Hwf)|by apply mem_ok_store_bytes]. }
  destruct (counts_kept _ _ Hwf _ HK) as [E1 E2]. split; [by apply (fs_wf_kept _ _ Hwf)|].
  unfold image_size in *. by rewrite E1, E2.
Qed.

(** Process 1 of the concrete kernel with its literals in the user page. *)
Definition user_pcb (a : option (list Z)) : PCB_t :=
  mkPCB (open_files (demo_pcb 1)) 0 ((fun a => a ++ [0]) <$> a) 0 0 0 1 0 1 (replicate 5 0).

Definition user_kernel (disk : mem) (ts : list string) (a : option (list Z)) : kernel :=
  set_kmem (literals 0x8300000 ts disk) (set_kpcbs (<[TASK_KSTACK_TOP 1 := user_pcb a]> (k_pcbs demo_kernel)) demo_kernel).

Definition user_process (disk : mem) (ts : list string) (a : option (list Z)) : process (fun _ => demo_env) 1 demo_esp :=
  mkProcess 0 (user_kernel disk ts a).

Lemma user_process_ready disk ts a : fs_wf disk demo_fs -> 0x500000 + image_size disk demo_fs <= KSTACKS ->
  in_page 0x8300000 ts -> (forall l, a = Some l -> Forall (fun c => 0 < c < 256) l /\ (length l < 256)%nat) ->
  process_ready (user_process disk ts a).
Proof.
  intros Hwf Hsize Hts Ha. set (k0 := set_kpcbs (<[TASK_KSTACK_TOP 1 := user_pcb a]> (k_pcbs demo_kernel)) demo_kernel).
  assert (Hk0 : kernel_ok k0).
  { apply (pcb_update_ok _ _ (demo_pcb 1)); [apply demo_ok|by apply (demo_pcb_at 1)|by split|reflexivity|reflexivity|reflexivity]. }
  pose proof (literals_disk ts disk Hwf Hsize Hts) as [Hwf' Hsize'].
  assert (Hk2 : kernel_ok (pk (user_process disk ts a))) by exact (set_disk_ok k0 _ Hk0 Hwf' Hsize').
  split.
  - exact Hk2.
  - unfold MAX_PROC_NUM. lia.
  - by split; vm_compute.
  - reflexivity.
  - intros n. reflexivity.
  - exists (user_pcb a). split; [by apply lookup_insert_eq|]. split.
    + exists (demo_file stdout_file_ops_table 1). by repeat split.
    + exists a. split; [reflexivity|exact Ha].
Qed.

Lemma texts_placed ts lo n (s : process (fun _ => demo_env) 1 demo_esp) :
  forallb (text_at (layout 0x8300000 ts) lo n (u_mem s)) ts = true -> Forall (placed (layout 0x8300000 ts) (region lo n) s) ts.
Proof.
  intros H. rewrite forallb_forall in H. apply list.Forall_forall. intros t Ht. by apply text_at_placed, H, list_elem_of_In.
Qed.

Definition cat_texts : list string := [line "could not read arguments"; line "file not found"].
Definition cat_process : process (fun _ => demo_env) 1 demo_esp := user_process demo_image cat_texts (Some (codes "hi")).

Lemma user_buffer n : 0 <= n < 0x100000 -> forall a, region 0x8200000 n a -> user_address a.
Proof. intros Hn a. unfold region, user_address, TASK_VIRT_PAGE_BEG, TASK_VIRT_PAGE_END. lia. Qed.

(** "cat hi" writes "Hello". *)
Lemma cat_prints_file_witness :
  exists s', cat (layout 0x8300000 cat_texts) 0x8200000 cat_process = Some (0, s') /\
    prints 0 (codes "Hello") (k_ts (pk cat_process)) (k_ts (pk s')) /\
    on_screen 0 (codes "Hello") (k_ts (pk cat_process)) (k_ts (pk s')).
Proof.
  assert (Ht : Forall (placed (layout 0x8300000 cat_texts) (region 0x8200000 1024) cat_process) cat_texts).
  { apply texts_placed. by vm_compute. }
  pose proof (cat_prints_file (fun _ => demo_env) 1 demo_esp (layout 0x8300000 cat_texts) 0x8200000 cat_process
    (user_pcb (Some (codes "hi"))) (codes "hi") 2) as H.
  assert (El : lookup_name (pk cat_process) (codes "hi") = Some 2) by (by vm_compute).
  rewrite El in H. destruct H as (s' & E & _ & Hp & Hs).
  - apply user_process_ready; [apply demo_wf|by vm_compute| |].
    + unfold in_page. apply (bool_decide_unpack _). by vm_compute.
    + intros l [= <-]. split; apply (bool_decide_unpack _); by vm_compute.
  - apply (user_buffer 1024). lia.
  - by apply list.Forall_cons in Ht as [Ht _].
  - by apply list.Forall_cons in Ht as [_ [Ht _]%list.Forall_cons].
  - by apply lookup_insert_eq.
  - reflexivity.
  - reflexivity.
  - by vm_compute.
  - by vm_compute.
  - apply (bool_decide_unpack _). by vm_compute.
  - exists s'. split; [exact E|]. split; [exact Hp|exact Hs].
Defined.

Definition ls_texts : list string := ["."%string; line "directory open failed"].
Definition ls_process : process (fun _ => demo_env) 1 demo_esp := user_process demo_image ls_texts None.

(** "ls" writes the four names of the directory. *)
Lemma ls_lists_directory_witness :
  exists s', ls (layout 0x8300000 ls_texts) 0x8200000 ls_process = Some (0, s') /\
    prints 0 (codes (line "." +:+ line "rtc" +:+ line "hi" +:+ line "sh")) (k_ts (pk ls_process)) (k_ts (pk s')).
Proof.
  assert (Ht : Forall (placed (layout 0x8300000 ls_texts) (region 0x8200000 33) ls_process) ls_texts).
  { apply texts_placed. by vm_compute. }
  destruct (ls_lists_directory (fun _ => demo_env) 1 demo_esp (layout 0x8300000 ls_texts) 0x8200000 ls_process
    (user_pcb None) 0 2) as (s' & E & _ & Hp).
  - apply user_process_ready; [apply demo_wf|by vm_compute| |].
    + unfold in_page. apply (bool_decide_unpack _). by vm_compute.
    + intros l [=].
  - apply (user_buffer 33). lia.
  - by apply list.Forall_cons in Ht as [Ht _].
  - by apply list.Forall_cons in Ht as [_ [Ht _]%list.Forall_cons].
  - by apply lookup_insert_eq.
  - by vm_compute.
  - by vm_compute.
  - by vm_compute.
  - intros j Hj. change (num_dentries _ _) with 4 in Hj.
    assert (j = 0 \/ j = 1 \/ j = 2 \/ j = 3) as [->|[->|[->| ->]]] by lia; by vm_compute.
  - exists s'. split; [exact E|].
    assert (El : concat ((fun x => x ++ [10]) <$> (dentry_name (k_mem (pk ls_process)) (k_fs (pk ls_process)) <$>
      seqZ 0 (num_dentries (k_mem (pk ls_process)) (k_fs (pk ls_process))))) = codes (line "." +:+ line "rtc" +:+ line "hi" +:+ line "sh"))
      by (by vm_compute).
    rewrite El in Hp. exact Hp.
Defined.

(** The disk with its clock and its program hidden and three lines in the file
    "hi". *)
Definition grep_disk : mem :=
  store_bytes (store_bytes (store_bytes (store_bytes demo_image 0x500080 (codes ".rtc")) 0x500100 (codes ".sh")) 0x501000 [14])
    0x504000 (codes (line "Hello" +:+ line "bye" +:+ "yell")).
Definition grep_texts : list string := ["."; ":"; line ""]%string.
Definition grep_process : process (fun _ => demo_env) 1 demo_esp := user_process grep_disk grep_texts (Some (codes "ell")).

Lemma grep_disk_wf : fs_wf grep_disk demo_fs.
Proof.
  assert (Hm : mem_ok grep_disk) by (unfold grep_disk; do 4 apply mem_ok_store_bytes; apply demo_image_mem).
  check_disk Hm.
Qed.

Lemma grep_arrays a : arrays 0x8201000 0x8200800 0x8200000 a -> 0x8200000 <= a < 0x8201400.
Proof. unfold arrays, region. lia. Qed.

Lemma grep_placed : Forall (placed (layout 0x8300000 grep_texts) (arrays 0x8201000 0x8200800 0x8200000) grep_process) grep_texts.
Proof.
  assert (H : Forall (placed (layout 0x8300000 grep_texts) (region 0x8200000 0x1400) grep_process) grep_texts).
  { apply texts_placed. by vm_compute. }
  eapply list.Forall_impl; [exact H|]. intros t Ht. eapply stands_fewer; [exact Ht|]. intros a Ha. pose proof (grep_arrays a Ha). unfold region. lia.
Qed.

(** "grep ell" finds the first and the last line. *)
Lemma grep_finds_lines_witness :
  exists s', grep (layout 0x8300000 grep_texts) 0x8201000 0x8200800 0x8200000 grep_process = Some (0, s') /\ kernel_ok (pk s') /\
    prints 0 (codes (line "hi:Hello" +:+ line "hi:yell")) (k_ts (pk grep_process)) (k_ts (pk s')).
Proof.
  destruct (grep_finds_lines (fun _ => demo_env) 1 demo_esp (layout 0x8300000 grep_texts) 0x8201000 0x8200800 0x8200000 grep_process
    (user_pcb (Some (codes "ell"))) (codes "ell") 0 2 [3; 4; 5; 6; 7]) as (s' & E & Hk & Hp).
  - apply user_process_ready; [apply grep_disk_wf|by vm_compute| |].
    + unfold in_page. apply (bool_decide_unpack _). by vm_compute.
    + intros l [= <-]. split; apply (bool_decide_unpack _); by vm_compute.
  - intros a Ha. apply (user_buffer 0x1400); [lia|]. pose proof (grep_arrays a Ha). unfold region. lia.
  - lia.
  - lia.
  - lia.
  - exact grep_placed.
  - by apply lookup_insert_eq.
  - reflexivity.
  - by vm_compute.
  - by vm_compute.
  - discriminate.
  - by vm_compute.
  - by vm_compute.
  - assert (Ed : directory (pk grep_process) = map codes [".";".rtc";"hi";".sh"]%string) by (by vm_compute). rewrite Ed.
    assert (Eh : text_named (pk grep_process) (codes "hi") = codes (line "Hello" +:+ line "bye" +:+ "yell")) by (by vm_compute).
    assert (Hhid : forall t, hidden (codes t) = true -> codes t <> [] -> codes t <> [] /\ greppable (pk grep_process) (codes t)).
    { intros t Ht Hne. split; [exact Hne|]. left. exact Ht. }
    apply Forall_cons_2; [apply Hhid; [reflexivity|discriminate]|]. apply Forall_cons_2; [apply Hhid; [reflexivity|discriminate]|].
    apply Forall_cons_2; [|apply Forall_cons_2; [apply Hhid; [reflexivity|discriminate]|apply Forall_nil_2]].
    split; [discriminate|]. right. exists 2. rewrite Eh. split; [by vm_compute|]. split; [by vm_compute|].
    split; [apply (bool_decide_unpack _); by vm_compute|]. split; unfold chars, short; apply (bool_decide_unpack _); by vm_compute.
  - intros X. assert (Y : ld8 (k_mem (pk grep_process)) (0x8200000 + 1024) = 0) by (by vm_compute). congruence.
  - exists s'. split; [exact E|]. split; [exact Hk|].
    assert (El : concat ((fun x => if hidden x then [] else reports (codes "ell") x (text_named (pk grep_process) x)) <$> directory (pk grep_process)) =
      codes (line "hi:Hello" +:+ line "hi:yell")) by (by vm_compute).
    rewrite El in Hp. exact Hp.
Defined.
