(* ===== verification/Game2048.v ===== *)
(** * The game: syscalls/2048.c

    The 4x4 board as the array of 16 cells of the source, the moves as its
    passes over neighbouring cells, and the game as a state machine over the keys
    read.  What it shows is a list of calls of [printf] with their arguments. *)
From Stdlib Require Import Ascii.
From stdpp Require Import base tactics list numbers gmap option strings.
From Stdlib Require Import ZArith Lia.
From S2P Require Import Prelude.

#[local] Open Scope string_scope.
#[local] Open Scope list_scope.
Open Scope Z_scope.

(** ** The random numbers

    [random()]: the shift register [lfsr], a static variable, is the result. *)
Definition random (lfsr : Z) : Z :=
  let bit := Z.lxor (Z.lxor (Z.lxor lfsr (Z.shiftr lfsr 2)) (Z.shiftr lfsr 3)) (Z.shiftr lfsr 5) in
  Z.lor (Z.shiftr lfsr 1) (u32 (Z.shiftl bit 15)).

Definition initial_lfsr : Z := 0xC0FFEE.

(** ** Moves *)

(** [if (tile[d] == 0) { tile[d] = tile[s]; tile[s] = 0; }] *)
Definition slide (d s : Z) (tile : list Z) : option (list Z) :=
  t ← arr_get tile d;
  if decide (t = 0) then
    x ← arr_get tile s;
    tile ← arr_set tile d x;
    arr_set tile s 0
  else Some tile.

(** [if (tile[d] == tile[s]) { tile[d] = 2 * tile[d]; tile[s] = 0; delta_score += tile[d]; }] *)
Definition merge (d s : Z) '((tile, delta_score) : list Z * Z) : option (list Z * Z) :=
  t ← arr_get tile d;
  x ← arr_get tile s;
  if decide (t = x) then
    tile ← arr_set tile d (s32 (2 * t));
    tile ← arr_set tile s 0;
    t ← arr_get tile d;
    Some (tile, s32 (delta_score + t))
  else Some (tile, delta_score).

(** The six passes of a direction: the cells [i] in [order], with the cell each
    fills, [dst i], and the one it takes from, [src i]; the fifth pass merges. *)
Definition passes (order : list Z) (dst src : Z -> Z) (tile : list Z) : option (list Z * Z) :=
  for_upM 0 6 (fun j '(tile, delta_score) =>
    if decide (j <> 4) then
      tile ← foldM (fun i tile => slide (dst i) (src i) tile) order tile; Some (tile, delta_score)
    else foldM (fun i => merge (dst i) (src i)) order (tile, delta_score)) (tile, 0).

(** [for (i = 0; i <= 14; i++)] without 3, 7 and 11, and the same downwards. *)
Definition row_order : list Z := filter (fun i => ~ (i = 3 \/ i = 7 \/ i = 11)) (seqZ 0 15).

Definition move_tile (tile : list Z) (direction : Z) : option (list Z * Z) :=
  if decide (direction = 85) then passes (seqZ 0 12) (fun i => i) (fun i => i + 4) tile                (* 'U' *)
  else if decide (direction = 68) then passes (reverse (seqZ 0 12)) (fun i => i + 4) (fun i => i) tile (* 'D' *)
  else if decide (direction = 82) then passes (reverse row_order) (fun i => i + 1) (fun i => i) tile   (* 'R' *)
  else if decide (direction = 76) then passes row_order (fun i => i) (fun i => i + 1) tile             (* 'L' *)
  else Some (tile, 0).

(** [place_tile(tile)]: a 2, or a 4 one time in ten, in an empty cell; the
    array [empty_tile] is the list of the indices found. *)
Definition place_tile (lfsr : Z) (tile : list Z) : option (Z * list Z) :=
  empty_tile ← for_upM 0 16 (fun i empty_tile =>
    t ← arr_get tile i; Some (if decide (0 = t) then empty_tile ++ [i] else empty_tile)) [];
  let empty_num := Z.of_nat (length empty_tile) in
  if decide (empty_num > 0) then
    let lfsr := random lfsr in
    let tile_num := if decide (lfsr mod 10 <> 0) then 2 else 4 in
    let lfsr := random lfsr in
    tile_loc ← arr_get empty_tile (lfsr mod empty_num);
    tile ← arr_set tile tile_loc tile_num;
    Some (lfsr, tile)
  else Some (lfsr, tile).

(** [for (i=0;i<16;i++) dst[i] = src[i];] *)
Definition copy_tiles (dst src : list Z) : option (list Z) :=
  for_upM 0 16 (fun i dst => t ← arr_get src i; arr_set dst i t) dst.

(** [changed] after [for (i=0;i<16;i++) if (a[i] != b[i]) changed = true;] *)
Definition differs (a b : list Z) : option bool :=
  for_upM 0 16 (fun i changed =>
    x ← arr_get a i; y ← arr_get b i; Some (if decide (x <> y) then true else changed)) false.

(** [check_end(tile)]; [tile_bak] is its uninitialised local array. *)
Definition check_end (tile_bak tile : list Z) : option (bool * list Z) :=
  match for_break (R := option bool) 0 16 (fun i (_ : unit) =>
          match arr_get tile i with
          | None => inr None
          | Some t => if decide (t = 0) then inr (Some false) else inl tt
          end) tt with
  | inr None => None
  | inr (Some b) => Some (b, tile)
  | inl _ =>
      tile_bak ← copy_tiles tile_bak tile;
      '(tile, _) ← move_tile tile 85;
      '(tile, _) ← move_tile tile 68;
      '(tile, _) ← move_tile tile 82;
      '(tile, _) ← move_tile tile 76;
      changed ← differs tile_bak tile;
      if (changed : bool) then tile ← copy_tiles tile tile_bak; Some (false, tile) else Some (true, tile)
  end.

(** ** What is shown *)

Inductive printf_arg := AInt (z : Z) | AStr (s : string).

(** A call of [printf]: the format and its arguments. *)
Abbreviation call := (string * list printf_arg)%type.

Definition ESC : string := String "027"%char "".

Definition print_border : list call :=
  map (fun r => (ESC +:+ "[%d;%dp%s", [AInt (r * 6); AInt 1; AStr "-------------------------------------------"]))
    (seqZ 1 3) ++
  flat_map (fun c => map (fun r => (ESC +:+ "[%d;%dp|", [AInt r; AInt (11 * c)])) (seqZ 1 23)) (seqZ 1 4) ++
  flat_map (fun c => map (fun r => (ESC +:+ "[%d;%dp%c", [AInt (r * 6); AInt (c * 11); AInt 43])) (seqZ 1 3)) (seqZ 1 4).

(** The [switch] on the number: the colour and the spaces before and after;
    other numbers leave the three pointers uninitialised. *)
Definition tile_style (num : Z) : option (string * string * string) :=
  (if decide (num = 2) then Some (ESC +:+ "[1b", "    ", "     ")
   else if decide (num = 4) then Some (ESC +:+ "[2b", "    ", "     ")
   else if decide (num = 8) then Some (ESC +:+ "[3b", "    ", "     ")
   else if decide (num = 16) then Some (ESC +:+ "[4b", "    ", "    ")
   else if decide (num = 32) then Some (ESC +:+ "[5b", "    ", "    ")
   else if decide (num = 64) then Some (ESC +:+ "[6b", "    ", "    ")
   else if decide (num = 128) then Some (ESC +:+ "[7b", "   ", "    ")
   else if decide (num = 256) then Some (ESC +:+ "[8b", "   ", "    ")
   else if decide (num = 512) then Some (ESC +:+ "[9b", "   ", "    ")
   else if decide (num = 1024) then Some (ESC +:+ "[10b", "   ", "   ")
   else if decide (num = 2048) then Some (ESC +:+ "[11b", "   ", "   ")
   else if decide (num = 4096) then Some (ESC +:+ "[12b", "   ", "   ")
   else None).

Definition blank_line (y x : Z) : call := (ESC +:+ "[%d;%dp          ", [AInt y; AInt x]).
Definition plain_attr : call := (ESC +:+ "[f" +:+ ESC +:+ "[b", []).

Definition print_tile (num tile_num : Z) : option (list call) :=
  let row := Z.quot tile_num 4 + 1 in
  let col := Z.rem tile_num 4 + 1 in
  let p_y := (row - 1) * 6 + 1 in
  let p_x := (col - 1) * 11 + 1 in
  if decide (num = 0) then
    Some ([plain_attr] ++ map (fun i => blank_line (p_y + i) p_x) [0; 1; 2; 3; 4] ++ [plain_attr])
  else
    '(color, before, after) ← tile_style num;
    Some [("%s", [AStr color]); blank_line p_y p_x; blank_line (p_y + 1) p_x;
          (ESC +:+ "[%d;%dp%s%d%s", [AInt (p_y + 2); AInt p_x; AStr before; AInt num; AStr after]);
          blank_line (p_y + 3) p_x; blank_line (p_y + 4) p_x; plain_attr].

Definition print_status (score : Z) : list call :=
  [(ESC +:+ "[24;1p", []); (ESC +:+ "[0;f" +:+ ESC +:+ "[15b", []);
   ("%79s" +:+ String "013"%char "%70d" +:+ String "013"%char "%60s" +:+ String "013"%char "%s",
     [AStr "          "; AInt score; AStr "YOUR SCORE: "; AStr "-- THE 2048 GAME --"]);
   (ESC +:+ "[24;80p" +:+ ESC +:+ "[f" +:+ ESC +:+ "[b", [])].

(** The lines of the three screens of [print_info]. *)
Definition info_line (p : string) (s : string) : call := (ESC +:+ p +:+ ";45p%s", [AStr s]).
Definition empty_info : string := "                                    ".
Definition colour (p : string) : call := (ESC +:+ p, []).

Definition print_info (status : Z) : list call :=
  ([plain_attr] ++
  (if decide (status = 0) then
     [info_line "[3" "    Use your arrow key to play      "; info_line "[4" empty_info;
      info_line "[5" "               _____                "; info_line "[6" "              |     |               ";
      info_line "[7" "              |  ^  |               "; info_line "[8" "              |  |  |               ";
      info_line "[9" "        -------------------         "; info_line "[10" "        |     |     |     |         ";
      info_line "[11" "        |  <- |  |  | ->  |         "; info_line "[12" "        |     |  v  |     |         ";
      info_line "[13" "        -------------------         "; info_line "[14" "       Or W, S, A, D instead        "]
   else if decide (status = 1) then
     map (fun p => info_line p empty_info) ["[3"; "[4"; "[5"; "[6"; "[7"; "[8"; "[9"; "[10"; "[11"] ++
     [colour "[4f"; info_line "[12" "              HURRAY!!!             ";
      colour "[5f"; info_line "[13" "         You reached 2048!!         ";
      plain_attr; info_line "[14" "          Move to continue          "]
   else if decide (status = 2) then
     map (fun p => info_line p empty_info) ["[3"; "[4"; "[5"; "[6"; "[7"; "[8"; "[9"; "[10"; "[11"; "[12"] ++
     [colour "[1f"; info_line "[13" "               OH NO!!              ";
      plain_attr; info_line "[14" "             You lose!!!            "]
   else []) ++
  [info_line "[20" "        Press 'r' to retry"; info_line "[21" "              'q' to quit"]).

(** ** The game *)

(** [get_key()] on the character read. *)
Definition get_key (signal : Z) : Z :=
  if decide (signal = 119 \/ signal = 87) then 85
  else if decide (signal = 115 \/ signal = 83) then 68
  else if decide (signal = 100 \/ signal = 68) then 82
  else if decide (signal = 97 \/ signal = 65) then 76
  else if decide (signal = 114 \/ signal = 82) then 114
  else if decide (signal = 113 \/ signal = 81) then 113
  else if decide (signal = 105 \/ signal = 73 \/ signal = 104 \/ signal = 72) then 104
  else 120.

(** The locals of [main] that outlive a turn, and [lfsr].  [junk_bak] is what
    the local array of [check_end] holds. *)
Record game := mkGame {
  tile : list Z;
  tile_bak : list Z;
  reached : bool;
  score : Z;
  lfsr : Z;
  junk_bak : list Z
}.

(** Where the program waits for a key: in the main loop, in the loop after the
    end of the game, or it has returned. *)
Inductive phase := Turn | Lost | Exited.

Definition print_tiles (tile : list Z) : option (list call) :=
  for_upM 0 16 (fun i out => t ← arr_get tile i; o ← print_tile t i; Some (out ++ o)) [].

(** The head of the main loop, up to [get_key]. *)
Definition loop_head (g : game) : option (phase * game * list call) :=
  '(ended, t) ← check_end (junk_bak g) (tile g);
  if (ended : bool) then Some (Lost, mkGame t (tile_bak g) (reached g) (score g) (lfsr g) (junk_bak g), print_info 2)
  else
    bak ← copy_tiles (tile_bak g) t;
    '(r, out) ← (if reached g then Some (true, print_info 0)
                 else for_upM 0 16 (fun i '(r, out) =>
                        x ← arr_get t i; Some (if decide (x = 2048) then (true, out ++ print_info 1) else (r, out)))
                        (false, []));
    Some (Turn, mkGame t bak r (score g) (lfsr g) (junk_bak g), out).

(** From the label [start] to the first [get_key]. *)
Definition start (g : game) : option (phase * game * list call) :=
  t ← for_upM 0 16 (fun i t => arr_set t i 0) (tile g);
  '(l, t) ← place_tile (lfsr g) t;
  '(l, t) ← place_tile l t;
  o1 ← print_tiles t;
  let g := mkGame t (tile_bak g) (reached g) 0 l (junk_bak g) in
  '(p, g, o2) ← loop_head g;
  Some (p, g, o1 ++ print_info 0 ++ print_status 0 ++ o2).

(** The rest of the body of the main loop, after the [switch] on the key. *)
Definition after_move (g : game) : option (phase * game * list call) :=
  changed ← differs (tile g) (tile_bak g);
  if (changed : bool) then
    '(l, t) ← place_tile (lfsr g) (tile g);
    o1 ← print_tiles t;
    '(p, g', o2) ← loop_head (mkGame t (tile_bak g) (reached g) (score g) l (junk_bak g));
    Some (p, g', o1 ++ print_status (score g) ++ o2)
  else loop_head g.

Definition reset_terminal : list call :=
  [(ESC +:+ "[2S" +:+ ESC +:+ "[1S", []); (ESC +:+ "[c" +:+ ESC +:+ "[r" +:+ String "010"%char "", [])].

(** One key, to the next. *)
Definition key_step (signal : Z) (p : phase) (g : game) : option (phase * game * list call) :=
  let key := get_key signal in
  match p with
  | Turn =>
      if decide (key = 85 \/ key = 68 \/ key = 82 \/ key = 76) then
        '(t, d) ← move_tile (tile g) key;
        after_move (mkGame t (tile_bak g) (reached g) (s32 (score g + d)) (lfsr g) (junk_bak g))
      else if decide (key = 113) then Some (Exited, g, reset_terminal)
      else if decide (key = 114) then start g
      else after_move g
  | Lost =>
      if decide (key = 113) then Some (Exited, g, reset_terminal)
      else if decide (key = 114) then start g
      else Some (Lost, g, [])
  | Exited => Some (Exited, g, [])
  end.

(** [main()] on the characters read so far, with what its uninitialised arrays hold. *)
Definition main_start (tile tile_bak junk_bak : list Z) : option (phase * game * list call) :=
  '(p, g, o) ← start (mkGame tile tile_bak false 0 initial_lfsr junk_bak);
  Some (p, g, [(ESC +:+ "[e" +:+ ESC +:+ "[c", [])] ++ print_border
              ++ [(ESC +:+ "[1s" +:+ ESC +:+ "[2s", [])] ++ o).

Definition play (keys : list Z) (p : phase) (g : game) : option (phase * game * list call) :=
  foldM (fun signal '(p, g, out) => '(p, g, o) ← key_step signal p g; Some (p, g, out ++ o)) keys (p, g, []).

(** ** Sweeps

    One step of a pass works on two neighbours, so a pass works on each line of
    the board (a row or column, from the side the cells move to) by itself. *)
Definition pull (x y : Z) : Z * Z := if decide (x = 0) then (y, 0) else (x, y).
Definition join (x y : Z) : Z * Z := if decide (x = y) then (s32 (2 * x), 0) else (x, y).
Definition gain (x y : Z) : Z := if decide (x = y) then s32 (2 * x) else 0.

Definition sweep (f : Z -> Z -> Z * Z) (l : list Z) : list Z :=
  match l with
  | [a; b; c; d] =>
      let p := f a b in let q := f p.2 c in let r := f q.2 d in [p.1; q.1; r.1; r.2]
  | _ => l
  end.

(** The numbers a merging sweep adds to the score, for the functions of a step
    [g] and [j], and their sum. *)
Definition line_gains (g : Z -> Z -> Z) (j : Z -> Z -> Z * Z) (l : list Z) : list Z :=
  match l with
  | [a; b; c; d] => let p := j a b in let q := j p.2 c in [g a b; g p.2 c; g q.2 d]
  | _ => []
  end.

Definition total (l : list Z) : Z := foldr Z.add 0 l.

Definition sweep_gain (l : list Z) : Z := total (line_gains gain join l).

Definition set_pair (f : Z -> Z -> Z * Z) (d s : Z) (tile : list Z) : list Z :=
  let p := f (tile !!! Z.to_nat d) (tile !!! Z.to_nat s) in
  <[Z.to_nat s := p.2]> (<[Z.to_nat d := p.1]> tile).

Section Steps.
Context (d s : Z) (t : list Z).
Context (Hl : length t = 16%nat) (Hd : 0 <= d < 16) (Hs : 0 <= s < 16) (Hne : d <> s).

Lemma cell_get i : 0 <= i < 16 -> arr_get t i = Some (t !!! Z.to_nat i).
Proof. intros Hi. rewrite arr_get_lookup by lia. apply list_lookup_lookup_total_lt. lia. Qed.

Lemma slide_total : slide d s t = Some (set_pair pull d s t).
Proof.
  unfold slide, set_pair, pull. rewrite (cell_get d), bind_ret by done. cbv beta zeta. case_decide as D.
  - rewrite (cell_get s), bind_ret by done. rewrite arr_set_Some by lia. rewrite bind_ret.
    rewrite arr_set_Some by (rewrite length_insert; lia). done.
  - cbn [fst snd]. rewrite list_insert_id; [by rewrite list_insert_id by (apply list_lookup_lookup_total_lt; lia)|].
    rewrite list_insert_id by (apply list_lookup_lookup_total_lt; lia). apply list_lookup_lookup_total_lt. lia.
Qed.

Lemma merge_total delta : s32 delta = delta ->
  merge d s (t, delta) = Some (set_pair join d s t, s32 (delta + gain (t !!! Z.to_nat d) (t !!! Z.to_nat s))).
Proof.
  intros Hdelta. unfold merge, set_pair, join, gain. rewrite !cell_get, !bind_ret by done. cbv beta zeta. case_decide as D.
  - rewrite arr_set_Some by lia. rewrite bind_ret. rewrite arr_set_Some by (rewrite length_insert; lia). rewrite bind_ret.
    rewrite arr_get_lookup by lia. rewrite list_lookup_insert_ne by lia. rewrite list_lookup_insert_eq by lia.
    by rewrite bind_ret.
  - cbn [fst snd]. rewrite Z.add_0_r, Hdelta. do 2 f_equal.
    rewrite list_insert_id; [by rewrite list_insert_id by (apply list_lookup_lookup_total_lt; lia)|].
    rewrite list_insert_id by (apply list_lookup_lookup_total_lt; lia). apply list_lookup_lookup_total_lt. lia.
Qed.
End Steps.

Lemma set_pair_length f d s t : length (set_pair f d s t) = length t.
Proof. unfold set_pair. by rewrite !length_insert. Qed.

(** A pass as a function of the board. *)
Section Passes.
Context (order : list Z) (dst src : Z -> Z).
Context (Hok : Forall (fun i => 0 <= dst i < 16 /\ 0 <= src i < 16 /\ dst i <> src i) order).

Definition fold_pair (f : Z -> Z -> Z * Z) (l : list Z) (t : list Z) : list Z :=
  foldl (fun t i => set_pair f (dst i) (src i) t) t l.

Fixpoint fold_gains (g : Z -> Z -> Z) (j : Z -> Z -> Z * Z) (l : list Z) (t : list Z) : list Z :=
  match l with
  | [] => []
  | i :: l => g (t !!! Z.to_nat (dst i)) (t !!! Z.to_nat (src i)) :: fold_gains g j l (set_pair j (dst i) (src i) t)
  end.

Definition fold_gain (l : list Z) (t : list Z) : Z := total (fold_gains gain join l t).

Lemma fold_pair_length f l t : length (fold_pair f l t) = length t.
Proof. revert t. induction l as [|i l IH]; intros t; [done|]. simpl. by rewrite IH, set_pair_length. Qed.

Lemma slide_pass t : length t = 16%nat -> foldM (fun i => slide (dst i) (src i)) order t = Some (fold_pair pull order t).
Proof.
  revert t. induction order as [|i l IH]; intros t Hl; [done|]. apply list.Forall_cons in Hok as [(H1 & H2 & H3) Hok'].
  rewrite foldM_cons, slide_total, bind_ret by done. apply IH; [done|]. by rewrite set_pair_length.
Qed.

Lemma merge_pass t delta : length t = 16%nat -> s32 delta = delta ->
  foldM (fun i => merge (dst i) (src i)) order (t, delta) = Some (fold_pair join order t, s32 (delta + fold_gain order t)).
Proof.
  revert t delta. induction order as [|i l IH]; intros t delta Hl Hdelta; [simpl; by rewrite Z.add_0_r, Hdelta|].
  apply list.Forall_cons in Hok as [(H1 & H2 & H3) Hok'].
  rewrite foldM_cons, merge_total, bind_ret by done. rewrite IH; [|done|by rewrite set_pair_length|apply s32_small, s32_range].
  unfold fold_gain. cbn [fold_pair foldl fold_gains].
  change (total (?x :: ?l)) with (x + total l). do 2 f_equal. wrap_lia.
Qed.

Definition sweep4 (t : list Z) : list Z :=
  fold_pair pull order (fold_pair pull order (fold_pair pull order (fold_pair pull order t))).

Lemma passes_total t : length t = 16%nat ->
  passes order dst src t = Some (fold_pair pull order (fold_pair join order (sweep4 t)), s32 (fold_gain order (sweep4 t))).
Proof.
  intros Hl. assert (H4 : length (sweep4 t) = 16%nat) by (unfold sweep4; by rewrite !fold_pair_length).
  unfold passes, for_upM. change (seqZ 0 (6 - 0)) with [0; 1; 2; 3; 4; 5].
  do 4 (rewrite foldM_cons; cbv beta iota; rewrite (decide_True (P := _ <> 4)) by lia;
        rewrite slide_pass, !bind_ret by (by rewrite ?fold_pair_length)).
  fold (sweep4 t). rewrite foldM_cons. cbv beta iota. rewrite decide_False by lia. rewrite merge_pass, bind_ret by done.
  rewrite foldM_cons. cbv beta iota. rewrite decide_True by lia. by rewrite slide_pass, !bind_ret by (by rewrite fold_pair_length).
Qed.
End Passes.

(** ** The lines of a direction *)

(** The cells of the row or column [k], from the side the tiles move to. *)
Definition line (direction k : Z) : list Z :=
  if decide (direction = 85) then [k; k + 4; k + 8; k + 12]
  else if decide (direction = 68) then [k + 12; k + 8; k + 4; k]
  else if decide (direction = 82) then [4 * k + 3; 4 * k + 2; 4 * k + 1; 4 * k]
  else [4 * k; 4 * k + 1; 4 * k + 2; 4 * k + 3].

Definition along (l : list Z) (t : list Z) : list Z := map (fun i => t !!! Z.to_nat i) l.

Definition is_direction (d : Z) : Prop := d = 85 \/ d = 68 \/ d = 82 \/ d = 76.

(** The passes over [order] are sweeps of the lines. *)
Record sweeps (direction : Z) (order : list Z) (dst src : Z -> Z) : Prop := {
  sp_range : Forall (fun i => 0 <= dst i < 16 /\ 0 <= src i < 16 /\ dst i <> src i) order;
  sp_line : forall f t k, length t = 16%nat -> 0 <= k < 4 ->
    along (line direction k) (fold_pair dst src f order t) = sweep f (along (line direction k) t);
  sp_gains : forall g j t, length t = 16%nat ->
    total (fold_gains dst src g j order t) = total (flat_map (fun k => line_gains g j (along (line direction k) t)) [0; 1; 2; 3])
}.

Ltac board t Hl := do 16 (destruct t as [|? t]; [discriminate Hl|]); destruct t; [|discriminate Hl].

(** By evaluation on a board of 16 unknowns, with unknown steps. *)
Ltac direction_sweeps :=
  split;
  [ vm_compute; repeat constructor; discriminate
  | intros f t k Hl Hk; board t Hl; assert (Hcase : k = 0 \/ k = 1 \/ k = 2 \/ k = 3) by lia;
    destruct Hcase as [->|[->|[->| ->]]]; vm_compute; reflexivity
  | intros g j t Hl; board t Hl;
    match goal with |- total ?a = total ?b =>
      let a' := eval vm_compute in a in let b' := eval vm_compute in b in
      change (total a' = total b'); unfold total; cbn [foldr]; lia end ].

Lemma sweeps_up : sweeps 85 (seqZ 0 12) (fun i => i) (fun i => i + 4).
Proof. direction_sweeps. Qed.

Lemma sweeps_down : sweeps 68 (reverse (seqZ 0 12)) (fun i => i + 4) (fun i => i).
Proof. direction_sweeps. Qed.

Lemma sweeps_right : sweeps 82 (reverse row_order) (fun i => i + 1) (fun i => i).
Proof. direction_sweeps. Qed.

Lemma sweeps_left : sweeps 76 row_order (fun i => i) (fun i => i + 1).
Proof. direction_sweeps. Qed.

(** ** The rule of the game

    A line of tiles: the tiles move to the front and keep their order; from the
    front on, two equal neighbours become one tile of twice the number, and a
    tile made so does not merge again. *)
Fixpoint merge_tiles (l : list Z) : list Z :=
  match l with
  | x :: ((y :: l') as r) => if decide (x = y) then 2 * x :: merge_tiles l' else x :: merge_tiles r
  | _ => l
  end.

(** The score of a line: the sum of the tiles made. *)
Fixpoint merge_score (l : list Z) : Z :=
  match l with
  | x :: ((y :: l') as r) => if decide (x = y) then 2 * x + merge_score l' else merge_score r
  | _ => 0
  end.

Definition tiles_of (l : list Z) : list Z := filter (fun x => x <> 0) l.
Definition pad (l : list Z) : list Z := l ++ replicate (4 - length l) 0.
Definition move_line (l : list Z) : list Z := pad (merge_tiles (tiles_of l)).
Definition line_score (l : list Z) : Z := merge_score (tiles_of l).

Definition small (x : Z) : Prop := 0 <= x <= 67108864.

Lemma pull_zero y : pull 0 y = (y, 0).
Proof. done. Qed.

Lemma pull_tile x y : x <> 0 -> pull x y = (x, y).
Proof. intros H. unfold pull. by rewrite decide_False. Qed.

Lemma join_same x : small x -> join x x = (2 * x, 0).
Proof. intros H. unfold join, small in *. rewrite decide_True by done. by rewrite s32_small by lia. Qed.

Lemma join_diff x y : x <> y -> join x y = (x, y).
Proof. intros H. unfold join. by rewrite decide_False. Qed.

Lemma gain_same x : small x -> gain x x = 2 * x.
Proof. intros H. unfold gain, small in *. rewrite decide_True by done. by rewrite s32_small by lia. Qed.

Lemma gain_diff x y : x <> y -> gain x y = 0.
Proof. intros H. unfold gain. by rewrite decide_False. Qed.

Lemma sweep_step f a b c d p q r : f a b = p -> f p.2 c = q -> f q.2 d = r -> sweep f [a; b; c; d] = [p.1; q.1; r.1; r.2].
Proof. by intros <- <- <-. Qed.

Lemma gains_step a b c d p q g1 g2 g3 :
  join a b = p -> join p.2 c = q -> gain a b = g1 -> gain p.2 c = g2 -> gain q.2 d = g3 ->
  sweep_gain [a; b; c; d] = g1 + (g2 + (g3 + 0)).
Proof. by intros <- <- <- <- <-. Qed.

Ltac step_of :=
  cbn [fst snd];
  first [apply pull_zero | apply pull_tile; lia
        | apply join_same; unfold small in *; lia | apply join_diff; lia
        | apply gain_same; unfold small in *; lia | apply gain_diff; lia].

Ltac step_sweeps :=
  repeat match goal with
  | |- context [sweep ?f [?a; ?b; ?c; ?d]] => erewrite (sweep_step f a b c d) by step_of; cbn [fst snd]
  end;
  try match goal with
  | |- context [sweep_gain [?a; ?b; ?c; ?d]] => erewrite (gains_step a b c d) by step_of
  end.

(** Four sweeps move all tiles to the front. *)
Lemma sweep_compacts a b c d :
  sweep pull (sweep pull (sweep pull (sweep pull [a; b; c; d]))) = pad (tiles_of [a; b; c; d]).
Proof.
  unfold tiles_of. rewrite !filter_cons, filter_nil.
  destruct (decide (a <> 0)) as [Ha|Ha]; destruct (decide (b <> 0)) as [Hb|Hb];
    destruct (decide (c <> 0)) as [Hc|Hc]; destruct (decide (d <> 0)) as [Hd|Hd];
    try (assert (a = 0) as -> by lia); try (assert (b = 0) as -> by lia);
    try (assert (c = 0) as -> by lia); try (assert (d = 0) as -> by lia); step_sweeps; reflexivity.
Qed.

(** The merging sweep and the last one, on tiles at the front. *)
Lemma sweep_merges l : (length l <= 4)%nat -> Forall (fun x => small x /\ x <> 0) l ->
  sweep pull (sweep join (pad l)) = pad (merge_tiles l) /\ sweep_gain (pad l) = merge_score l.
Proof.
  intros Hl Hs.
  destruct l as [|a l]; [by vm_compute|]. apply list.Forall_cons in Hs as [[Sa Na] Hs].
  destruct l as [|b l].
  { unfold pad. cbn [length app replicate Nat.sub]. step_sweeps. cbn [merge_tiles merge_score]. done. }
  apply list.Forall_cons in Hs as [[Sb Nb] Hs].
  destruct l as [|c l].
  { unfold pad. cbn [length app replicate Nat.sub merge_tiles merge_score]. case_decide as D; [subst|]; step_sweeps; cbn; split; try done; lia. }
  apply list.Forall_cons in Hs as [[Sc Nc] Hs].
  destruct l as [|d l].
  { unfold pad. cbn [length app replicate Nat.sub merge_tiles merge_score].
    case_decide as D; [subst; step_sweeps; cbn; split; [done|lia]|].
    case_decide as D2; [subst|]; step_sweeps; cbn; split; try done; lia. }
  apply list.Forall_cons in Hs as [[Sd Nd] Hs]. destruct l as [|? l]; [|simpl in Hl; lia].
  unfold pad. cbn [length app replicate Nat.sub merge_tiles merge_score].
  case_decide as D; [subst; case_decide as D2; [subst|]; step_sweeps; cbn; split; try done; lia|].
  case_decide as D2; [subst; step_sweeps; cbn; split; try done; lia|].
  case_decide as D3; [subst|]; step_sweeps; cbn; split; try done; lia.
Qed.

(** ** Moves *)

Lemma pair_ind {A} (P : list A -> Prop) :
  P [] -> (forall x, P [x]) -> (forall x y l, P l -> P (y :: l) -> P (x :: y :: l)) -> forall l, P l.
Proof.
  intros H0 H1 H2 l. assert (H : P l /\ forall x, P (x :: l)); [|tauto].
  induction l as [|y l [IH1 IH2]]; [by split|]. split; [apply IH2|]. intros x. by apply H2.
Qed.

Lemma merge_tiles_cons x y l :
  merge_tiles (x :: y :: l) = if decide (x = y) then 2 * x :: merge_tiles l else x :: merge_tiles (y :: l).
Proof. done. Qed.

Lemma merge_score_cons x y l :
  merge_score (x :: y :: l) = if decide (x = y) then 2 * x + merge_score l else merge_score (y :: l).
Proof. done. Qed.

Lemma total_cons x l : total (x :: l) = x + total l.
Proof. done. Qed.

Lemma total_two l1 l2 : total (l1 ++ l2) = total l1 + total l2.
Proof. induction l1 as [|x l IH]; [done|]. cbn [app]. rewrite !total_cons. lia. Qed.

Lemma total_zeros n : total (replicate n 0) = 0.
Proof. induction n as [|n IH]; [done|]. cbn [replicate]. rewrite total_cons. lia. Qed.

Lemma total_tiles l : total (tiles_of l) = total l.
Proof.
  induction l as [|x l IH]; [done|]. unfold tiles_of in *. rewrite filter_cons.
  case_decide; rewrite ?total_cons; lia.
Qed.

Lemma merge_total_kept l : total (merge_tiles l) = total l.
Proof.
  induction l as [|x|x y l IH1 IH2] using pair_ind; [done|done|]. rewrite merge_tiles_cons. case_decide as D; rewrite !total_cons in *; lia.
Qed.

Lemma merge_score_bound l : Forall (fun x => 0 <= x) l -> 0 <= merge_score l <= total l.
Proof.
  induction l as [|x|x y l IH1 IH2] using pair_ind; intros Hl; [done|apply list.Forall_cons in Hl; cbn; lia|].
  apply list.Forall_cons in Hl as [Hx Hl]. pose proof (proj2 (proj1 (list.Forall_cons _ _ _) Hl)) as Hl'.
  specialize (IH1 Hl'). specialize (IH2 Hl). rewrite merge_score_cons. case_decide as D; rewrite !total_cons in *; lia.
Qed.

Lemma merge_length l : (length (merge_tiles l) <= length l)%nat.
Proof. induction l as [|x|x y l IH1 IH2] using pair_ind; [done|done|]. rewrite merge_tiles_cons. case_decide; cbn [length] in *; lia. Qed.

Lemma tiles_length l : (length (tiles_of l) <= length l)%nat.
Proof. apply length_filter. Qed.

Lemma pad_length l : (length l <= 4)%nat -> length (pad l) = 4%nat.
Proof. intros H. unfold pad. rewrite length_app, length_replicate. lia. Qed.

Lemma move_line_length l : length l = 4%nat -> length (move_line l) = 4%nat.
Proof. intros H. apply pad_length. pose proof (merge_length (tiles_of l)). pose proof (tiles_length l). lia. Qed.

Lemma move_line_total l : total (move_line l) = total l.
Proof. unfold move_line, pad. by rewrite total_two, total_zeros, Z.add_0_r, merge_total_kept, total_tiles. Qed.

(** The sweeps of a line are the rule. *)
Lemma sweeps_line l : length l = 4%nat -> Forall small l ->
  sweep pull (sweep join (sweep pull (sweep pull (sweep pull (sweep pull l))))) = move_line l /\
  sweep_gain (sweep pull (sweep pull (sweep pull (sweep pull l)))) = line_score l.
Proof.
  intros Hl Hs. destruct l as [|a [|b [|c [|d [|]]]]]; try discriminate Hl. rewrite sweep_compacts.
  apply sweep_merges; [pose proof (tiles_length [a; b; c; d]); simpl in *; lia|].
  apply list.Forall_forall. intros x Hx. apply list_elem_of_filter in Hx as [H1 H2]. rewrite list.Forall_forall in Hs. by split; [apply Hs|].
Qed.

Lemma along_length d k t : length (along (line d k) t) = 4%nat.
Proof. unfold along. rewrite length_map. unfold line. by repeat case_decide. Qed.

Lemma along_small d k t : length t = 16%nat -> 0 <= k < 4 -> Forall small t -> Forall small (along (line d k) t).
Proof.
  intros Hl Hk Hs. apply list.Forall_forall. intros x Hx. unfold along in Hx. apply list_elem_of_fmap in Hx as (i & -> & Hi).
  rewrite Forall_lookup in Hs. apply (Hs (Z.to_nat i)). apply list_lookup_lookup_total_lt. rewrite Hl.
  assert (Hr : 0 <= i < 16); [|lia]. unfold line in Hi. repeat case_decide; set_unfold; lia.
Qed.

(** Two boards that agree along the lines of a direction are equal. *)
Lemma along_total d t : is_direction d -> length t = 16%nat ->
  total (along (line d 0) t) + total (along (line d 1) t) + total (along (line d 2) t) + total (along (line d 3) t) = total t.
Proof.
  intros Hd Hl. board t Hl. destruct Hd as [->|[->|[->| ->]]];
    repeat match goal with |- context [along ?l ?t] => let v := eval vm_compute in (along l t) in change (along l t) with v end;
    rewrite ?total_cons; change (total []) with 0; lia.
Qed.

Lemma sweeps_of d : is_direction d -> exists order dst src, sweeps d order dst src /\
  forall t, move_tile t d = passes order dst src t.
Proof.
  unfold move_tile. intros [->|[->|[->| ->]]].
  - eexists _, _, _. split; [apply sweeps_up|done].
  - eexists _, _, _. split; [apply sweeps_down|done].
  - eexists _, _, _. split; [apply sweeps_right|done].
  - eexists _, _, _. split; [apply sweeps_left|done].
Qed.

Definition all_lines (d : Z) (f : list Z -> Z) (t : list Z) : Z :=
  f (along (line d 0) t) + f (along (line d 1) t) + f (along (line d 2) t) + f (along (line d 3) t).

Lemma move_spec t d : length t = 16%nat -> Forall small t -> is_direction d ->
  exists t', move_tile t d = Some (t', all_lines d line_score t) /\ length t' = 16%nat /\
    forall k, 0 <= k < 4 -> along (line d k) t' = move_line (along (line d k) t).
Proof.
  intros Hl Hs Hd. destruct (sweeps_of d Hd) as (order & dst & src & [Hr Hline Hgain] & Em). rewrite Em.
  assert (H4 : length (sweep4 order dst src t) = 16%nat) by (unfold sweep4; by rewrite !fold_pair_length).
  assert (E4 : forall k, 0 <= k < 4 -> along (line d k) (sweep4 order dst src t)
                = sweep pull (sweep pull (sweep pull (sweep pull (along (line d k) t))))).
  { intros k Hk. unfold sweep4. by rewrite !Hline by (done || by rewrite !fold_pair_length). }
  assert (Hk : forall k, 0 <= k < 4 -> _) by
    (intros k Hk; exact (sweeps_line (along (line d k) t) (along_length d k t) (along_small d k t Hl Hk Hs))).
  eexists. rewrite (passes_total order dst src Hr t Hl). split; [|split].
  - do 2 f_equal. unfold fold_gain. rewrite (Hgain _ _ _ H4). cbn [flat_map]. rewrite !total_two.
    rewrite !E4 by lia. fold (sweep_gain (sweep pull (sweep pull (sweep pull (sweep pull (along (line d 0) t)))))).
    fold (sweep_gain (sweep pull (sweep pull (sweep pull (sweep pull (along (line d 1) t)))))).
    fold (sweep_gain (sweep pull (sweep pull (sweep pull (sweep pull (along (line d 2) t)))))).
    fold (sweep_gain (sweep pull (sweep pull (sweep pull (sweep pull (along (line d 3) t)))))).
    rewrite (proj2 (Hk 0 ltac:(lia))), (proj2 (Hk 1 ltac:(lia))), (proj2 (Hk 2 ltac:(lia))), (proj2 (Hk 3 ltac:(lia))).
    change (total []) with 0. unfold all_lines. rewrite s32_small; [lia|].
    assert (Hb : forall k, 0 <= k < 4 -> 0 <= line_score (along (line d k) t) <= total (along (line d k) t)).
    { intros k Hk4. unfold line_score. rewrite <- total_tiles. apply merge_score_bound. apply list.Forall_forall. intros x Hx.
      apply list_elem_of_filter in Hx as [_ Hx]. pose proof (along_small d k t Hl Hk4 Hs) as Hsm. rewrite list.Forall_forall in Hsm.
      specialize (Hsm x Hx). unfold small in Hsm. lia. }
    pose proof (along_total d t Hd Hl). pose proof (Hb 0 ltac:(lia)). pose proof (Hb 1 ltac:(lia)).
    pose proof (Hb 2 ltac:(lia)). pose proof (Hb 3 ltac:(lia)).
    assert (Ht : total t <= 67108864 * 16); [|lia].
    clear - Hl Hs. change 16 with (Z.of_nat 16). rewrite <- Hl. clear Hl. induction Hs as [|x l Hx Hs IH]; [done|].
    rewrite total_cons. cbn [length]. unfold small in Hx. lia.
  - by rewrite !fold_pair_length.
  - intros k Hk4. rewrite Hline by (done || by rewrite !fold_pair_length). rewrite Hline by done. rewrite E4 by done. apply (Hk k Hk4).
Qed.

(** A move that leaves no gap changed nothing. *)
Lemma merge_length_eq l : length (merge_tiles l) = length l -> merge_tiles l = l.
Proof.
  induction l as [|x|x y l IH1 IH2] using pair_ind; [done|done|]. rewrite merge_tiles_cons.
  case_decide as D; cbn [length]; intros H; [pose proof (merge_length l); lia|]. f_equal. apply IH2. cbn [length]. lia.
Qed.

Lemma tiles_all l : length (tiles_of l) = length l -> tiles_of l = l.
Proof.
  induction l as [|x l IH]; [done|]. unfold tiles_of in *. rewrite filter_cons. case_decide; cbn [length]; intros H0.
  - f_equal. apply IH. lia.
  - pose proof (tiles_length l) as Hl. unfold tiles_of in Hl. lia.
Qed.

Lemma tiles_id l : Forall (fun x => x <> 0) l -> tiles_of l = l.
Proof. intros H. induction H as [|x l Hx H IH]; [done|]. unfold tiles_of in *. rewrite filter_cons, decide_True by done. by f_equal. Qed.

Lemma move_line_full l : length l = 4%nat -> 0 ∉ move_line l -> move_line l = l.
Proof.
  intros Hl Hz. pose proof (merge_length (tiles_of l)) as H1. pose proof (tiles_length l) as H2.
  assert (Hm : length (merge_tiles (tiles_of l)) = 4%nat).
  { destruct (decide (length (merge_tiles (tiles_of l)) = 4%nat)) as [|Hne]; [done|]. exfalso. apply Hz.
    unfold move_line, pad. apply elem_of_app. right. apply elem_of_replicate. split; [done|lia]. }
  unfold move_line, pad. rewrite Hm. change (replicate (4 - 4) 0) with (@nil Z). rewrite app_nil_r.
  rewrite merge_length_eq by lia. apply tiles_all. lia.
Qed.

(** The cells of a board are those along the lines of a direction. *)
Lemma along_cells d t : is_direction d -> length t = 16%nat ->
  forall x, x ∈ t <-> exists k, 0 <= k < 4 /\ x ∈ along (line d k) t.
Proof.
  intros Hd Hl x. split.
  - intros Hx. assert (H : x ∈ flat_map (fun k => along (line d k) t) [0; 1; 2; 3]).
    { board t Hl. destruct Hd as [->|[->|[->| ->]]]; set_unfold in Hx;
        match goal with |- _ ∈ ?l => let v := eval vm_compute in l in change (x ∈ v) end; set_unfold; tauto. }
    apply list_elem_of_In, in_flat_map in H as (k & Hk & H). exists k. split; [|by apply list_elem_of_In].
    simpl in Hk. lia.
  - intros (k & Hk & Hx). unfold along in Hx. apply list_elem_of_fmap in Hx as (i & -> & Hi).
    apply list_elem_of_lookup_2 with (i := Z.to_nat i). apply list_lookup_lookup_total_lt. rewrite Hl.
    assert (Hr : 0 <= i < 16); [|lia]. unfold line in Hi. repeat case_decide; set_unfold; lia.
Qed.

Lemma along_ext d t t' : is_direction d -> length t = 16%nat -> length t' = 16%nat ->
  (forall k, 0 <= k < 4 -> along (line d k) t' = along (line d k) t) -> t' = t.
Proof.
  intros Hd Hl Hl' H. pose proof (H 0 ltac:(lia)) as H0. pose proof (H 1 ltac:(lia)) as H1.
  pose proof (H 2 ltac:(lia)) as H2. pose proof (H 3 ltac:(lia)) as H3. clear H. board t Hl. board t' Hl'.
  destruct Hd as [->|[->|[->| ->]]]; vm_compute in H0, H1, H2, H3; congruence.
Qed.

Lemma move_full t t' d : length t = 16%nat -> length t' = 16%nat -> is_direction d -> 0 ∉ t' ->
  (forall k, 0 <= k < 4 -> along (line d k) t' = move_line (along (line d k) t)) -> t' = t.
Proof.
  intros Hl Hl' Hd Hz H. apply (along_ext d); try done. intros k Hk. rewrite H by done.
  apply move_line_full; [apply along_length|]. rewrite <- H by done. intros Hx. apply Hz. apply (along_cells d); [done..|]. by exists k.
Qed.

(** Numbers at most double. *)
Definition bounded (n : Z) (t : list Z) : Prop := Forall (fun x => 0 <= x <= n) t.

Lemma merge_tiles_bound n l : bounded n l -> bounded (2 * n) (merge_tiles l).
Proof.
  unfold bounded. induction l as [|x|x y l IH1 IH2] using pair_ind; intros H; [by constructor|..].
  - apply list.Forall_cons in H as [Hx _]. repeat constructor; lia.
  - apply list.Forall_cons in H as [Hx Hl]. pose proof (proj2 (proj1 (list.Forall_cons _ _ _) Hl)) as Hl'.
    rewrite merge_tiles_cons. case_decide as D; constructor; [lia|by apply IH1|lia|by apply IH2].
Qed.

Lemma move_line_bound n l : 0 <= n -> bounded n l -> bounded (2 * n) (move_line l).
Proof.
  intros Hn H. unfold move_line, pad. apply Forall_app. split.
  - apply merge_tiles_bound. apply list.Forall_forall. intros x Hx. apply list_elem_of_filter in Hx as [_ Hx].
    unfold bounded in H. rewrite list.Forall_forall in H. by apply H.
  - apply Forall_replicate. lia.
Qed.

Lemma move_bound n t t' d : 0 <= n -> length t = 16%nat -> length t' = 16%nat -> is_direction d -> bounded n t ->
  (forall k, 0 <= k < 4 -> along (line d k) t' = move_line (along (line d k) t)) -> bounded (2 * n) t'.
Proof.
  intros Hn Hl Hl' Hd Hb H. apply list.Forall_forall. intros x Hx. apply (along_cells d) in Hx as (k & Hk & Hx); [|done..].
  rewrite H in Hx by done. assert (Hbl : bounded n (along (line d k) t)).
  { apply list.Forall_forall. intros y Hy. unfold bounded in Hb. rewrite list.Forall_forall in Hb. apply Hb.
    apply (along_cells d); [done..|]. by exists k. }
  pose proof (move_line_bound n _ Hn Hbl) as Hb'. unfold bounded in Hb'. rewrite list.Forall_forall in Hb'. by apply Hb'.
Qed.

Lemma bounded_small n t : n <= 67108864 -> bounded n t -> Forall small t.
Proof. intros Hn H. eapply list.Forall_impl; [exact H|]. intros x. cbv beta. unfold small. lia. Qed.

(** ** The end of the game *)

Lemma copy_tiles_spec a b : length a = 16%nat -> length b = 16%nat -> copy_tiles a b = Some b.
Proof.
  intros Ha Hb. unfold copy_tiles.
  destruct (for_upM_ind (fun i l => length l = 16%nat /\ take (Z.to_nat i) l = take (Z.to_nat i) b) 0 16
    (fun i dst => t ← arr_get b i; arr_set dst i t) a) as (l & E & Hl & Ht); [lia|done| |].
  - intros i l Hi [Hl Ht]. destruct (arr_get_Some b i) as (x & Ex & Ex'); [lia|]. rewrite Ex, bind_ret.
    rewrite arr_set_Some by lia. eexists. split; [done|]. split; [by rewrite length_insert|].
    replace (Z.to_nat (i + 1)) with (Z.to_nat i + 1)%nat by lia. rewrite take_insert_snoc by lia.
    rewrite Ht, Nat.add_1_r. symmetry. apply take_S_r. by rewrite arr_get_lookup in Ex by lia.
  - rewrite E. f_equal. change (Z.to_nat 16) with 16%nat in Ht. by rewrite !firstn_all2 in Ht by lia.
Qed.

Lemma differs_spec a b : length a = 16%nat -> length b = 16%nat -> differs a b = Some (bool_decide (a <> b)).
Proof.
  intros Ha Hb. unfold differs.
  destruct (for_upM_ind (fun i (c : bool) => c = bool_decide (take (Z.to_nat i) a <> take (Z.to_nat i) b)) 0 16
    (fun i changed => x ← arr_get a i; y ← arr_get b i; Some (if decide (x <> y) then true else changed)) false)
    as (c & E & Hc); [lia|done| |].
  - intros i c Hi ->. destruct (arr_get_Some a i) as (x & Ex & Ex'); [lia|]. destruct (arr_get_Some b i) as (y & Ey & Ey'); [lia|].
    rewrite Ex, bind_ret, Ey, bind_ret. eexists. split; [done|]. rewrite arr_get_lookup in Ex, Ey by lia.
    replace (Z.to_nat (i + 1)) with (S (Z.to_nat i)) by lia. rewrite (take_S_r _ _ _ Ex), (take_S_r _ _ _ Ey).
    case_decide as D.
    + symmetry. apply bool_decide_eq_true. intros H. apply app_inj_2 in H as [_ H]; [congruence|done].
    + assert (x = y) as -> by (destruct (decide (x = y)); tauto). apply bool_decide_ext. split.
      * intros H1 H2. apply app_inj_2 in H2 as [H2 _]; [by apply H1|done].
      * intros H1 H2. apply H1. by rewrite H2.
  - rewrite E. change (Z.to_nat 16) with 16%nat in Hc. rewrite !firstn_all2 in Hc by lia. by rewrite Hc.
Qed.

(** No move changes the board. *)
Definition stuck (t : list Z) : Prop := 0 ∉ t /\ forall d, is_direction d -> move_tile t d = Some (t, 0).

Lemma stuck_score t d : length t = 16%nat -> Forall small t -> is_direction d ->
  (forall k, 0 <= k < 4 -> move_line (along (line d k) t) = along (line d k) t) -> 0 ∉ t -> all_lines d line_score t = 0.
Proof.
  intros Hl Hs Hd H Hz.
  assert (Hk : forall k, 0 <= k < 4 -> line_score (along (line d k) t) = 0).
  { intros k Hk. specialize (H k Hk). unfold line_score. unfold move_line, pad in H.
    assert (Hn : Forall (fun x => x <> 0) (along (line d k) t)).
    { apply list.Forall_forall. intros x Hx ->. apply Hz. apply (along_cells d); [done..|]. by exists k. }
    assert (Et : tiles_of (along (line d k) t) = along (line d k) t) by by apply tiles_id.
    rewrite Et in *. pose proof (along_length d k t) as L. pose proof (merge_length (along (line d k) t)) as Hm.
    assert (E : merge_tiles (along (line d k) t) = along (line d k) t).
    { apply merge_length_eq. destruct (decide (length (merge_tiles (along (line d k) t)) = 4%nat)); [lia|].
      exfalso. rewrite <- H in Hn. apply Forall_app in Hn as [_ Hn].
      replace (4 - length (merge_tiles (along (line d k) t)))%nat with (S (3 - length (merge_tiles (along (line d k) t)))) in Hn by lia.
      cbn [replicate] in Hn. by apply list.Forall_cons in Hn as [Hn _]. }
    clear - E. revert E. generalize (along (line d k) t). intros l. induction l as [|x|x y l IH1 IH2] using pair_ind; [done|done|].
    rewrite merge_tiles_cons, merge_score_cons. case_decide as D; intros E.
    - exfalso. apply (f_equal length) in E. cbn [length] in E. pose proof (merge_length l). lia.
    - apply IH2. congruence. }
  unfold all_lines. rewrite !Hk by lia. done.
Qed.

Lemma four_moves t : length t = 16%nat -> bounded 4194304 t -> exists t1 t2 t3 t4 s1 s2 s3 s4,
  move_tile t 85 = Some (t1, s1) /\ move_tile t1 68 = Some (t2, s2) /\ move_tile t2 82 = Some (t3, s3) /\
  move_tile t3 76 = Some (t4, s4) /\ length t4 = 16%nat /\ (0 ∉ t4 -> t1 = t /\ t2 = t /\ t3 = t /\ t4 = t).
Proof.
  intros Hl Hb.
  destruct (move_spec t 85 Hl) as (t1 & E1 & L1 & C1); [by apply (bounded_small 4194304)|by left|].
  pose proof (move_bound 4194304 _ _ 85 ltac:(lia) Hl L1 ltac:(by left) Hb C1) as B1.
  destruct (move_spec t1 68 L1) as (t2 & E2 & L2 & C2); [by apply (bounded_small (2 * 4194304))|by right; left|].
  pose proof (move_bound (2 * 4194304) _ _ 68 ltac:(lia) L1 L2 ltac:(by right; left) B1 C2) as B2.
  destruct (move_spec t2 82 L2) as (t3 & E3 & L3 & C3); [by apply (bounded_small (2 * (2 * 4194304)))|by right; right; left|].
  pose proof (move_bound (2 * (2 * 4194304)) _ _ 82 ltac:(lia) L2 L3 ltac:(by right; right; left) B2 C3) as B3.
  destruct (move_spec t3 76 L3) as (t4 & E4 & L4 & C4); [by apply (bounded_small (2 * (2 * (2 * 4194304))))|by right; right; right|].
  exists t1, t2, t3, t4. eexists _, _, _, _. do 4 (split; [eassumption|]). split; [done|]. intros Hz.
  pose proof (move_full t3 t4 76 L3 L4 ltac:(by right; right; right) Hz C4) as ->.
  pose proof (move_full t2 t3 82 L2 L3 ltac:(by right; right; left) Hz C3) as ->.
  pose proof (move_full t1 t2 68 L1 L2 ltac:(by right; left) Hz C2) as ->.
  pose proof (move_full t t1 85 Hl L1 ltac:(by left) Hz C1) as ->. done.
Qed.

Lemma check_end_spec bak t : length bak = 16%nat -> length t = 16%nat -> bounded 4194304 t ->
  exists b, check_end bak t = Some (b, t) /\ (b = true <-> stuck t).
Proof.
  intros Hbak Hl Hb. unfold check_end.
  match goal with |- context [for_break 0 16 ?body tt] => assert (Hscan : match for_break 0 16 body tt with
    | inl _ => forall j, 0 <= j < 16 -> arr_get t j <> Some 0 | inr r => r = Some false /\ 0 ∈ t end) end.
  { apply (for_break_ind (fun i (_ : unit) => forall j, 0 <= j < i -> arr_get t j <> Some 0)); [lia|intros j Hj; lia|].
    intros i _ Hi H. destruct (arr_get_Some t i) as (x & Ex & Ex'); [lia|]. rewrite Ex. case_decide as D.
    - split; [done|]. subst. apply list_elem_of_lookup_2 with (i := Z.to_nat i). by rewrite arr_get_lookup in Ex by lia.
    - intros j Hj. destruct (decide (j = i)) as [->|]; [congruence|]. apply H. lia. }
  destruct (for_break 0 16 _ tt) as [[]|r]; [rename Hscan into H|destruct Hscan as [-> H]].
  - assert (Hz : 0 ∉ t).
    { intros Hin. apply list_elem_of_lookup_1 in Hin as (i & Hi). pose proof (lookup_lt_Some _ _ _ Hi).
      apply (H (Z.of_nat i)); [lia|]. by rewrite arr_get_lookup, Nat2Z.id by lia. }
    destruct (four_moves t Hl Hb) as (t1 & t2 & t3 & t4 & s1 & s2 & s3 & s4 & E1 & E2 & E3 & E4 & L4 & Hfull).
    rewrite copy_tiles_spec, bind_ret by done. rewrite E1, bind_ret. cbv beta iota. rewrite E2, bind_ret. cbv beta iota.
    rewrite E3, bind_ret. cbv beta iota. rewrite E4, bind_ret. cbv beta iota. rewrite differs_spec, bind_ret by done.
    case_bool_decide as D.
    + rewrite copy_tiles_spec, bind_ret by done. exists false. split; [done|]. split; [done|]. intros [_ Hst]. exfalso. apply D.
      rewrite (Hst 85) in E1 by by left. injection E1 as <- _. rewrite (Hst 68) in E2 by by right; left. injection E2 as <- _.
      rewrite (Hst 82) in E3 by by right; right; left. injection E3 as <- _.
      rewrite (Hst 76) in E4 by by right; right; right. by injection E4.
    + assert (t4 = t) as -> by (destruct (decide (t = t4)); [done|tauto]). exists true. split; [done|]. split; [|done]. intros _.
      destruct (Hfull Hz) as (-> & -> & -> & _). split; [done|].
      assert (Hd : forall d s, is_direction d -> move_tile t d = Some (t, s) -> move_tile t d = Some (t, 0)).
      { intros d s Hd E. destruct (move_spec t d Hl (bounded_small 4194304 t ltac:(lia) Hb) Hd) as (t' & E' & _ & C).
        rewrite E in E'. injection E' as <- ->. rewrite E. do 2 f_equal.
        apply stuck_score; try done; [by apply (bounded_small 4194304)|]. intros k Hk. symmetry. by apply C. }
      intros d [->|[->|[->| ->]]]; eapply Hd; try eassumption; unfold is_direction; tauto.
  - exists false. split; [done|]. split; [done|]. by intros [Hz _].
Qed.

(** ** New tiles *)

Definition empties (t : list Z) : list Z := filter (fun i => arr_get t i = Some 0) (seqZ 0 16).

Lemma place_scan t : length t = 16%nat ->
  for_upM 0 16 (fun i empty_tile => t ← arr_get t i; Some (if decide (0 = t) then empty_tile ++ [i] else empty_tile)) []
  = Some (empties t).
Proof.
  intros Hl.
  match goal with |- for_upM 0 16 ?body [] = _ => destruct (for_upM_ind
    (fun i l => l = filter (fun i => arr_get t i = Some 0) (seqZ 0 i)) 0 16 body []) as (l & E & ->); [lia|done| |exact E] end.
  intros i l Hi ->. destruct (arr_get_Some t i) as (x & Ex & _); [lia|]. rewrite Ex, bind_ret. eexists. split; [done|].
  rewrite (seqZ_app 0 i 1) by lia. rewrite Z.add_0_l, filter_app. change (seqZ i 1) with [i]. rewrite filter_cons, filter_nil.
  rewrite Ex. case_decide as D.
  - by rewrite decide_True by congruence.
  - rewrite decide_False by congruence. by rewrite app_nil_r.
Qed.

Lemma empties_in t i : length t = 16%nat -> i ∈ empties t <-> 0 <= i < 16 /\ arr_get t i = Some 0.
Proof. intros Hl. unfold empties. rewrite list_elem_of_filter, elem_of_seqZ. intuition lia. Qed.

Lemma empties_nil t : length t = 16%nat -> empties t = [] <-> 0 ∉ t.
Proof.
  intros Hl. split.
  - intros E Hin. apply list_elem_of_lookup_1 in Hin as (i & Hi). pose proof (lookup_lt_Some _ _ _ Hi).
    assert (H' : Z.of_nat i ∈ empties t) by (apply empties_in; [done|]; rewrite arr_get_lookup, Nat2Z.id by lia; split; [lia|done]).
    rewrite E in H'. set_solver.
  - intros Hz. destruct (empties t) as [|i l] eqn:E; [done|]. exfalso. apply Hz.
    assert (H : i ∈ empties t) by (rewrite E; set_solver). apply empties_in in H as [H1 H2]; [|done].
    rewrite arr_get_lookup in H2 by lia. by eapply list_elem_of_lookup_2.
Qed.

(** One cell that was empty gets a 2 or a 4, if there is one. *)
Lemma place_tile_spec l t : length t = 16%nat ->
  (0 ∉ t /\ place_tile l t = Some (l, t)) \/
  exists i v, 0 <= i < 16 /\ arr_get t i = Some 0 /\ (v = 2 \/ v = 4) /\
    place_tile l t = Some (random (random l), <[Z.to_nat i := v]> t).
Proof.
  intros Hl. unfold place_tile. rewrite place_scan, bind_ret by done. cbv zeta. case_decide as D.
  - right. set (n := Z.of_nat (length (empties t))) in *. set (l2 := random (random l)).
    pose proof (Z.mod_pos_bound l2 n ltac:(lia)) as Hm.
    destruct (arr_get_Some (empties t) (l2 mod n)) as (i & Ei & Ei'); [lia|].
    assert (Hi : i ∈ empties t) by (rewrite arr_get_lookup in Ei by lia; by eapply list_elem_of_lookup_2).
    apply empties_in in Hi as [Hi Hz]; [|done].
    exists i. eexists. split; [done|]. split; [done|]. split; [|rewrite Ei, bind_ret, arr_set_Some, bind_ret by lia; reflexivity].
    case_decide; tauto.
  - left. split; [|done]. apply empties_nil; [done|]. apply length_zero_iff_nil. lia.
Qed.

(** ** The state machine *)

(** The numbers [print_tile] knows; the next one is 8192. *)
Definition tile_ok (x : Z) : Prop := x = 0 \/ exists k, 1 <= k <= 12 /\ x = 2 ^ k.

Record game_ok (p : phase) (g : game) : Prop := {
  gm_len : length (tile g) = 16%nat /\ length (tile_bak g) = 16%nat /\ length (junk_bak g) = 16%nat;
  gm_tiles : Forall tile_ok (tile g);
  gm_turn : p = Turn -> tile_bak g = tile g /\ ~ stuck (tile g);
  gm_lost : p = Lost -> stuck (tile g)
}.

Lemma power_cases k : 1 <= k <= 12 ->
  k = 1 \/ k = 2 \/ k = 3 \/ k = 4 \/ k = 5 \/ k = 6 \/ k = 7 \/ k = 8 \/ k = 9 \/ k = 10 \/ k = 11 \/ k = 12.
Proof. lia. Qed.

Lemma tile_ok_bound t : Forall tile_ok t -> bounded 4194304 t.
Proof.
  intros H. eapply list.Forall_impl; [exact H|]. intros x [->|(k & Hk & ->)]; [lia|].
  pose proof (Z.pow_le_mono_r 2 k 12 ltac:(lia) ltac:(lia)). pose proof (Z.pow_pos_nonneg 2 k ltac:(lia) ltac:(lia)).
  change (2 ^ 12) with 4096 in *. lia.
Qed.

Lemma print_tile_ok x i : tile_ok x -> is_Some (print_tile x i).
Proof.
  intros [->|(k & Hk & ->)]; [done|].
  destruct (power_cases k Hk) as [->|[->|[->|[->|[->|[->|[->|[->|[->|[->|[->| ->]]]]]]]]]]]; eexists; reflexivity.
Qed.

Lemma print_8192 i : print_tile 8192 i = None.
Proof. done. Qed.

Lemma print_tiles_ok t : length t = 16%nat -> Forall tile_ok t -> is_Some (print_tiles t).
Proof.
  intros Hl Ht. unfold print_tiles.
  match goal with |- is_Some (for_upM 0 16 ?body []) => destruct (for_upM_ind (fun _ _ => True) 0 16 body []) as (o & -> & _);
    [lia|done| |by eexists] end.
  intros i o Hi _. destruct (arr_get_Some t i) as (x & Ex & _); [lia|]. rewrite Ex, bind_ret.
  rewrite arr_get_lookup in Ex by lia. destruct (print_tile_ok x i) as [o' ->]; [by eapply Forall_lookup_1|]. rewrite bind_ret.
  by eexists.
Qed.

Lemma print_tiles_fault t : length t = 16%nat -> 8192 ∈ t -> print_tiles t = None.
Proof.
  intros Hl Hin. apply list_elem_of_lookup_1 in Hin as (i & Hi). pose proof (lookup_lt_Some _ _ _ Hi) as Hlt.
  unfold print_tiles, for_upM. replace (16 - 0) with (Z.of_nat i + (16 - Z.of_nat i)) by lia.
  rewrite seqZ_app by lia. rewrite foldM_app. rewrite (seqZ_cons (0 + Z.of_nat i)) by lia.
  destruct (foldM _ (seqZ 0 (Z.of_nat i)) []) as [o|]; [|done]. rewrite bind_ret, foldM_cons, Z.add_0_l.
  rewrite (arr_get_lookup t (Z.of_nat i)), Nat2Z.id, Hi, bind_ret by lia. done.
Qed.

Lemma loop_head_spec g :
  length (tile g) = 16%nat -> length (tile_bak g) = 16%nat -> length (junk_bak g) = 16%nat -> Forall tile_ok (tile g) ->
  exists p g' out, loop_head g = Some (p, g', out) /\ game_ok p g' /\ (p = Turn \/ p = Lost) /\
    tile g' = tile g /\ score g' = score g /\ lfsr g' = lfsr g.
Proof.
  intros L1 L2 L3 Ht. unfold loop_head.
  destruct (check_end_spec (junk_bak g) (tile g) L3 L1 (tile_ok_bound _ Ht)) as (b & -> & Hb). rewrite bind_ret. cbv beta iota.
  destruct b.
  - eexists _, _, _. split; [reflexivity|]. split; [|by split; [right|]]. split; try done. intros _. by apply Hb.
  - rewrite copy_tiles_spec, bind_ret by done.
    assert (Hscan : exists r out, (if reached g then Some (true, print_info 0)
        else for_upM 0 16 (fun i '(r, out) => x ← arr_get (tile g) i;
               Some (if decide (x = 2048) then (true, out ++ print_info 1) else (r, out))) (false, [])) = Some (r, out)).
    { destruct (reached g); [by eexists _, _|].
      match goal with |- context [for_upM 0 16 ?body ?s] => destruct (for_upM_ind (fun _ _ => True) 0 16 body s) as ([r o] & -> & _);
        [lia|done| |by eexists _, _] end.
      intros i [r o] Hi _. destruct (arr_get_Some (tile g) i) as (x & -> & _); [lia|]. rewrite bind_ret. by eexists. }
    destruct Hscan as (r & out & ->). rewrite bind_ret. cbv beta iota. eexists _, _, _. split; [reflexivity|].
    split; [|by split; [left|]]. split; try done. intros _. split; [done|]. intros Hst. by apply Hb in Hst.
Qed.

Lemma tile_ok_insert t i v : Forall tile_ok t -> v = 2 \/ v = 4 -> Forall tile_ok (<[i := v]> t).
Proof.
  intros Ht Hv. apply Forall_insert; [done|]. right. destruct Hv as [->| ->]; [exists 1|exists 2]; split; (lia || done).
Qed.

Lemma total_insert t i v : (i < length t)%nat -> t !! i = Some 0 -> total (<[i := v]> t) = total t + v.
Proof.
  revert i. induction t as [|x t IH]; intros i Hi Ht; [simpl in Hi; lia|]. destruct i as [|i].
  - injection Ht as ->. cbn [insert list_insert]. rewrite !total_cons. lia.
  - change (<[S i := v]> (x :: t)) with (x :: <[i := v]> t). rewrite !total_cons, IH; [lia|simpl in Hi; lia|exact Ht].
Qed.

(** A board in which one empty cell was filled. *)
Definition filled (t t' : list Z) : Prop :=
  exists i v, 0 <= i < 16 /\ arr_get t i = Some 0 /\ (v = 2 \/ v = 4) /\ t' = <[Z.to_nat i := v]> t.

Lemma filled_facts t t' : length t = 16%nat -> filled t t' ->
  length t' = 16%nat /\ (Forall tile_ok t -> Forall tile_ok t') /\ (total t' = total t + 2 \/ total t' = total t + 4).
Proof.
  intros Hl (i & v & Hi & Hz & Hv & ->). rewrite length_insert. split; [done|]. split; [intros H; by apply tile_ok_insert|].
  rewrite arr_get_lookup in Hz by lia. rewrite total_insert by (done || lia). destruct Hv as [->| ->]; lia.
Qed.

Lemma place_filled l t : length t = 16%nat -> 0 ∈ t -> exists l' t', place_tile l t = Some (l', t') /\ filled t t'.
Proof.
  intros Hl Hz. destruct (place_tile_spec l t Hl) as [[H _]|(i & v & Hi & Hg & Hv & E)]; [done|].
  eexists _, _. split; [exact E|]. by exists i, v.
Qed.

Lemma filled_zero t t' : length t = 16%nat -> filled t t' -> (exists i j, i <> j /\ t !! i = Some 0 /\ t !! j = Some 0) -> 0 ∈ t'.
Proof.
  intros Hl (n & v & Hn & Hz & Hv & ->) (i & j & Hij & Hi & Hj).
  destruct (decide (i = Z.to_nat n)) as [->|Hne].
  - eapply list_elem_of_lookup_2. by rewrite list_lookup_insert_ne by done.
  - eapply list_elem_of_lookup_2. by rewrite (list_lookup_insert_ne _ _ i) by congruence.
Qed.

(** A new game: two tiles, no score. *)
Lemma start_spec g : length (tile g) = 16%nat -> length (tile_bak g) = 16%nat -> length (junk_bak g) = 16%nat ->
  exists t1 g' out, start g = Some (Turn, g', out) /\ game_ok Turn g' /\ score g' = 0 /\
    filled (replicate 16 0) t1 /\ filled t1 (tile g').
Proof.
  intros L1 L2 L3. unfold start.
  assert (Ez : for_upM 0 16 (fun i t => arr_set t i 0) (tile g) = Some (replicate 16 0)).
  { destruct (for_upM_ind (fun i t => length t = 16%nat /\ take (Z.to_nat i) t = replicate (Z.to_nat i) 0) 0 16
      (fun i t => arr_set t i 0) (tile g)) as (t & -> & Hl & Ht); [lia|done| |].
    - intros i t Hi [Hl Ht]. rewrite arr_set_Some by lia. eexists. split; [done|]. split; [by rewrite length_insert|].
      replace (Z.to_nat (i + 1)) with (Z.to_nat i + 1)%nat by lia. rewrite take_insert_snoc by lia.
      rewrite Ht, replicate_add. done.
    - f_equal. change (Z.to_nat 16) with 16%nat in Ht. rewrite firstn_all2 in Ht by lia. exact Ht. }
  rewrite Ez, bind_ret.
  destruct (place_filled (lfsr g) (replicate 16 0)) as (l1 & t1 & E1 & F1); [done|by left|]. rewrite E1, bind_ret. cbv beta iota.
  destruct (filled_facts (replicate 16 0) t1 eq_refl F1) as (Lt1 & Ok1 & _).
  assert (Z1 : 0 ∈ t1) by (apply (filled_zero (replicate 16 0) t1); [done|done|exists 0%nat, 1%nat; by split]).
  destruct (place_filled l1 t1 Lt1 Z1) as (l2 & t2 & E2 & F2). rewrite E2, bind_ret. cbv beta iota.
  destruct (filled_facts t1 t2 Lt1 F2) as (Lt2 & Ok2 & _).
  assert (Hok : Forall tile_ok t2). { apply Ok2, Ok1. apply Forall_replicate. by left. }
  destruct (print_tiles_ok t2 Lt2 Hok) as [o ->]. rewrite bind_ret. cbv zeta.
  destruct (loop_head_spec (mkGame t2 (tile_bak g) (reached g) 0 l2 (junk_bak g)) Lt2 L2 L3 Hok)
    as (p & g' & o2 & -> & Hg & Hp & Et & Es & _). rewrite bind_ret. cbv beta iota.
  assert (Hz2 : 0 ∈ t2).
  { destruct F1 as (n & v & Hn & Hz & Hv & ->). destruct F2 as (m & w & Hm & Hzm & Hw & ->).
    assert (Hex : exists i, (i < 3)%nat /\ i <> Z.to_nat n /\ i <> Z.to_nat m).
    { destruct (decide (0%nat <> Z.to_nat n /\ 0%nat <> Z.to_nat m)); [exists 0%nat; lia|].
      destruct (decide (1%nat <> Z.to_nat n /\ 1%nat <> Z.to_nat m)); [exists 1%nat; lia|]. exists 2%nat. lia. }
    destruct Hex as (i & Hi & Hin & Him). eapply (list_elem_of_lookup_2 _ i). rewrite !list_lookup_insert_ne by done.
    apply lookup_replicate. split; [done|lia]. }
  destruct Hp as [->| ->].
  - eexists t1, g', _. split; [reflexivity|]. split; [done|]. split; [done|]. split; [done|]. by rewrite Et.
  - exfalso. destruct (gm_lost _ _ Hg eq_refl) as [Hst _]. apply Hst. rewrite Et. exact Hz2.
Qed.

(** The numbers after a move. *)
Lemma merge_cells l y : y ∈ merge_tiles l -> y ∈ l \/ exists x, x ∈ l /\ y = 2 * x.
Proof.
  induction l as [|x|x z l IH1 IH2] using pair_ind; intros H; [set_solver|by left|]. rewrite merge_tiles_cons in H. case_decide as D.
  - apply elem_of_cons in H as [->|H]; [right; exists x; split; [by left|done]|].
    destruct (IH1 H) as [Hy|(w & Hw & ->)]; [left; set_solver|right; exists w; set_solver].
  - apply elem_of_cons in H as [->|H]; [left; by left|].
    destruct (IH2 H) as [Hy|(w & Hw & ->)]; [left; set_solver|right; exists w; set_solver].
Qed.

Lemma move_cells t t' d y : length t = 16%nat -> length t' = 16%nat -> is_direction d ->
  (forall k, 0 <= k < 4 -> along (line d k) t' = move_line (along (line d k) t)) -> y ∈ t' ->
  y = 0 \/ y ∈ t \/ exists x, x ∈ t /\ y = 2 * x.
Proof.
  intros Hl Hl' Hd H Hy. apply (along_cells d) in Hy as (k & Hk & Hy); [|done..]. rewrite H in Hy by done.
  unfold move_line, pad in Hy. apply elem_of_app in Hy as [Hy|Hy]; [|apply elem_of_replicate in Hy as [-> _]; by left].
  assert (Hin : forall x, x ∈ tiles_of (along (line d k) t) -> x ∈ t).
  { intros x Hx. apply list_elem_of_filter in Hx as [_ Hx]. apply (along_cells d); [done..|]. by exists k. }
  right. apply merge_cells in Hy as [Hy|(x & Hx & ->)]; [left; by apply Hin|right; exists x; split; [by apply Hin|done]].
Qed.

Lemma tile_ok_double x : tile_ok x -> tile_ok (2 * x) \/ 2 * x = 8192.
Proof.
  intros [->|(k & Hk & ->)]; [by left; left|]. rewrite <- Z.pow_succ_r by lia. destruct (decide (k = 12)) as [->|]; [by right|].
  left. right. exists (Z.succ k). split; [lia|done].
Qed.

(** ** Properties *)

(** C13: A move is the rule of the game on every row or column: along each line
    of the direction the tiles move up in order, equal neighbours merge once,
    and the gaps are filled with 0.  The result is the sum of the tiles made,
    and the sum of all tiles stays; no arithmetic overflows. *)
Theorem move_tile_correct (t : list Z) (d : Z) :
  length t = 16%nat -> Forall small t -> is_direction d ->
  exists t' s, move_tile t d = Some (t', s) /\ length t' = 16%nat /\
    (forall k, 0 <= k < 4 -> along (line d k) t' = move_line (along (line d k) t)) /\
    s = line_score (along (line d 0) t) + line_score (along (line d 1) t)
        + line_score (along (line d 2) t) + line_score (along (line d 3) t) /\
    total t' = total t.
Proof.
  intros Hl Hs Hd. destruct (move_spec t d Hl Hs Hd) as (t' & E & Hl' & Hk).
  exists t', (all_lines d line_score t). split; [done|]. split; [done|]. split; [done|]. split; [done|].
  rewrite <- (along_total d t'), <- (along_total d t) by done. by rewrite !Hk, !move_line_total by lia.
Qed.

(** C38: [check_end] finds the end of the game: it is true exactly when no cell
    is empty and no direction changes anything, and it leaves the board as it
    was, although it moves the tiles in all four directions to find out. *)
Theorem check_end_correct (bak t : list Z) :
  length bak = 16%nat -> length t = 16%nat -> Forall (fun x => 0 <= x <= 4194304) t ->
  exists b, check_end bak t = Some (b, t) /\ (b = true <-> stuck t).
Proof. apply check_end_spec. Qed.

(** C39: The game from one key to the next.  A new game has two tiles and no
    score.  A direction that changes the board adds exactly one 2 or 4 and the
    score of the move; one that does not leaves the board and the score alone; a
    move that makes 8192 faults in the drawing of the tiles, and nothing else
    does: every other key leaves the board, the score and the generator alone.
    The machine is in its lost state exactly when no move is possible, and leaves
    it with q and r only; q sets the terminal back, r starts a new game, and a
    game left takes no key. *)
Theorem game_correct (p : phase) (g : game) (c : Z) :
  game_ok p g ->
  (exists t1 g' out, start g = Some (Turn, g', out) /\ game_ok Turn g' /\ score g' = 0 /\
     filled (replicate 16 0) t1 /\ filled t1 (tile g')) /\
  (p = Turn -> is_direction (get_key c) -> exists t' s, move_tile (tile g) (get_key c) = Some (t', s) /\
     (t' = tile g -> exists g' out, key_step c p g = Some (Turn, g', out) /\ game_ok Turn g' /\
        tile g' = tile g /\ score g' = s32 (score g + s)) /\
     (t' <> tile g -> 8192 ∉ t' -> exists p' g' out, key_step c p g = Some (p', g', out) /\ game_ok p' g' /\
        p' <> Exited /\ filled t' (tile g') /\ score g' = s32 (score g + s)) /\
     (t' <> tile g -> 8192 ∈ t' -> key_step c p g = None)) /\
  (p = Turn -> ~ is_direction (get_key c) -> get_key c <> 113 -> get_key c <> 114 ->
     exists g' out, key_step c p g = Some (Turn, g', out) /\ game_ok Turn g' /\
       tile g' = tile g /\ score g' = score g /\ lfsr g' = lfsr g) /\
  (p <> Exited -> get_key c = 113 -> key_step c p g = Some (Exited, g, reset_terminal)) /\
  (p <> Exited -> get_key c = 114 -> key_step c p g = start g) /\
  (p = Lost -> get_key c <> 113 -> get_key c <> 114 -> key_step c p g = Some (Lost, g, [])) /\
  (p = Exited -> key_step c p g = Some (Exited, g, [])).
Proof.
  intros [(L1 & L2 & L3) Ht Hturn Hlost]. split; [by apply start_spec|]. split_and!.
  - intros -> Hd. destruct (Hturn eq_refl) as [Hbak Hns].
    destruct (move_spec (tile g) (get_key c) L1) as (t' & E & Hl' & Hk); [by apply (bounded_small 4194304), tile_ok_bound|done|].
    exists t', (all_lines (get_key c) line_score (tile g)). split; [exact E|].
    assert (Ek : key_step c Turn g = after_move (mkGame t' (tile_bak g) (reached g)
        (s32 (score g + all_lines (get_key c) line_score (tile g))) (lfsr g) (junk_bak g))).
    { unfold key_step. cbv zeta. rewrite decide_True; [|exact Hd]. by rewrite E, bind_ret. }
    rewrite Ek. unfold after_move. cbn [tile tile_bak]. rewrite differs_spec, bind_ret by done. split_and!.
    + intros ->. rewrite bool_decide_false by (rewrite Hbak; tauto).
      destruct (loop_head_spec (mkGame (tile g) (tile_bak g) (reached g) (s32 (score g + all_lines (get_key c) line_score (tile g)))
        (lfsr g) (junk_bak g)) L1 L2 L3 Ht) as (p & g' & out & -> & Hg & Hp & E1 & E2 & _). destruct Hp as [->| ->].
      * by exists g', out.
      * exfalso. apply Hns. change (tile (mkGame (tile g) (tile_bak g) (reached g) _ (lfsr g) (junk_bak g))) with (tile g) in E1.
        rewrite <- E1. by apply (gm_lost _ _ Hg).
    + intros Hne H8. rewrite bool_decide_true by (rewrite Hbak; done).
      assert (Hok : Forall tile_ok t').
      { apply list.Forall_forall. intros y Hy. rewrite list.Forall_forall in Ht.
        destruct (move_cells (tile g) t' _ y L1 Hl' Hd Hk Hy) as [->|[H|(x & Hx & ->)]]; [by left|by apply Ht|].
        destruct (tile_ok_double x (Ht x Hx)) as [H|H]; [done|]. rewrite H in Hy. by apply H8 in Hy. }
      assert (Hz : 0 ∈ t').
      { destruct (decide (0 ∈ t')) as [|Hz]; [done|]. exfalso. apply Hne. by apply (move_full (tile g) t' (get_key c)). }
      destruct (place_filled (lfsr g) t' Hl' Hz) as (l & t2 & E2 & F). cbn [lfsr]. rewrite E2, bind_ret. cbv beta iota.
      destruct (filled_facts t' t2 Hl' F) as (Lt2 & Ok2 & _). destruct (print_tiles_ok t2 Lt2 (Ok2 Hok)) as [o ->].
      rewrite bind_ret.
      match goal with |- context [loop_head ?g0] => destruct (loop_head_spec g0 Lt2 L2 L3 (Ok2 Hok))
        as (p & g' & out & -> & Hg & Hp & E1 & E3 & _) end. rewrite bind_ret. cbv beta iota.
      eexists p, g', _. split; [reflexivity|]. split; [done|]. split; [destruct Hp as [->| ->]; done|]. split; [by rewrite E1|exact E3].
    + intros Hne H8. rewrite bool_decide_true by (rewrite Hbak; done).
      destruct (place_tile_spec (lfsr g) t' Hl') as [[_ E2]|(i & v & Hi & Hz & Hv & E2)]; cbn [lfsr]; rewrite E2, bind_ret; cbv beta iota.
      * by rewrite print_tiles_fault.
      * rewrite print_tiles_fault; [done|by rewrite length_insert|]. apply list_elem_of_lookup_1 in H8 as (j & Hj).
        eapply (list_elem_of_lookup_2 _ j). rewrite list_lookup_insert_ne; [done|]. intros <-.
        rewrite arr_get_lookup in Hz by lia. congruence.
  - intros -> Hd Hq Hr. destruct (Hturn eq_refl) as [Hbak Hns]. unfold key_step. cbv zeta.
    rewrite decide_False by exact Hd. rewrite !decide_False by done.
    unfold after_move. rewrite differs_spec, bind_ret by done. rewrite bool_decide_false by (rewrite Hbak; tauto).
    destruct (loop_head_spec g L1 L2 L3 Ht) as (p & g' & out & -> & Hg & Hp & E1 & E2 & E3). destruct Hp as [->| ->].
    + by exists g', out.
    + exfalso. apply Hns. rewrite <- E1. by apply (gm_lost _ _ Hg).
  - intros Hp Hq. unfold key_step. cbv zeta. rewrite Hq. by destruct p.
  - intros Hp Hr. unfold key_step. cbv zeta. rewrite Hr. by destruct p.
  - intros -> Hq Hr. unfold key_step. cbv zeta. rewrite decide_False by done. by rewrite decide_False.
  - by intros ->.
Qed.

(** ** Concrete runs *)

Lemma move_tile_correct_witness :
  move_tile [2; 2; 2; 2; 0; 4; 0; 4; 2; 2; 4; 4; 0; 0; 0; 2] 76 = Some ([4; 4; 0; 0; 8; 0; 0; 0; 4; 8; 0; 0; 2; 0; 0; 0], 28) /\
  move_line [2; 2; 4; 4] = [4; 8; 0; 0].
Proof.
  split; [|done].
  destruct (move_tile_correct [2; 2; 2; 2; 0; 4; 0; 4; 2; 2; 4; 4; 0; 0; 0; 2] 76) as (t' & s & E & _).
  - done.
  - repeat constructor; unfold small; lia.
  - by right; right; right.
  - reflexivity.
Defined.

Lemma check_end_correct_witness :
  check_end (replicate 16 7) [2; 4; 2; 4; 4; 2; 4; 2; 2; 4; 2; 4; 4; 2; 4; 2]
  = Some (true, [2; 4; 2; 4; 4; 2; 4; 2; 2; 4; 2; 4; 4; 2; 4; 2]) /\
  stuck [2; 4; 2; 4; 4; 2; 4; 2; 2; 4; 2; 4; 4; 2; 4; 2].
Proof.
  destruct (check_end_correct (replicate 16 7) [2; 4; 2; 4; 4; 2; 4; 2; 2; 4; 2; 4; 4; 2; 4; 2]) as (b & E & Hb).
  - done.
  - done.
  - repeat constructor; lia.
  - split; [reflexivity|]. apply Hb. vm_compute in E. by injection E as <-.
Defined.

(** A 4096 and a 4096 side by side. *)
Definition late_game : game :=
  mkGame ([4096; 4096] ++ replicate 14 0) ([4096; 4096] ++ replicate 14 0) true 100000 1 (replicate 16 0).

Lemma game_correct_witness :
  key_step 97 Turn late_game = None /\ exists g' out, key_step 120 Turn late_game = Some (Turn, g', out) /\ tile g' = tile late_game.
Proof.
  assert (Ok : game_ok Turn late_game).
  { split; try done.
    + assert (H12 : tile_ok 4096) by (right; exists 12; split; [lia|done]).
      apply Forall_app. split; [by apply list.Forall_cons; split; [|apply list.Forall_cons]|apply Forall_replicate; by left].
    + intros _. split; [done|]. intros [Hz _]. apply Hz.
      change (0 ∈ [4096; 4096] ++ replicate 14 0). apply elem_of_app. right. by left. }
  destruct (game_correct Turn late_game 97 Ok) as (_ & H & _). destruct (game_correct Turn late_game 120 Ok) as (_ & _ & H2 & _). split.
  - destruct (H eq_refl) as (t' & s & E & _ & _ & Hf); [by right; right; right|]. apply Hf.
    + vm_compute in E. by injection E as <- <-.
    + vm_compute in E. injection E as <- <-. by left.
  - destruct (H2 eq_refl) as (g' & out & E & _ & Et & _); [by vm_compute; intuition discriminate|done|done|].
    exists g', out. split; [exact E|exact Et].
Defined.
